(* ===== verification/_CoqProject ===== *)
-Q . S2P
Prelude.v
Unicode.v
PyStr.v
Regex.v
PyTime.v
PyFloat.v
FloatFacts.v
PyVal.v
PyDyn.v
Provenance.v
Json.v
DefenseAssert.v
LocalAssert.v
Scenarios.v
Phase.v
DefenseBench.v
EdgeConfig.v
EdgeListen.v
LocalProbe.v
BenchNet.v
BenchLogic.v
BenchHttp.v
BenchWire.v
BenchOrigin.v
BenchSend.v
BenchConns.v
TrafficBase.v
TrafficBody.v
TrafficUpstream.v
TrafficLog.v
TrafficGuard.v
TrafficRate.v
TrafficTcp.v
BenchTidy.v
DefenseRun.v
DefenseRefine.v
DefenseSafe.v
StartupProbes.v
StartupGate.v
Flood.v
NetFrame.v
NetScripts.v
EdgeHost.v
EdgeNft.v
EdgeTemplates.v
EdgeMain.v
EdgeGuards.v
EdgeRules.v
EdgeProbe.v
BenchEcho.v
BenchMain.v
BenchLab.v
BenchSafe.v
BenchReport.v
BenchGate.v
E2e.v
E2eFacts.v
JsonFacts.v
NetSmoke.v
Sanitize.v
Learn.v
Merge.v
RuleJson.v
NetGuards.v
Providers.v
ProviderCli.v
Analyze.v
