(* ===== verification/Prelude.v ===== *)
(** * AlturaProt tooling: a verification development

    AlturaProt is a DDoS-protection proxy (Rust, [src/src]) with a set of Python
    tools ([src/tools]).  This development models the Python tools:

    - the analyzer [codex_analyzer.py] (CodexSDGate), which reads the proxy's event
      logs, asks an AI provider or a local learner for blocking rules, and rewrites
      the filter file the proxy reloads;
    - the defense benchmark [run_defense_bench.py], which floods the proxy over
      loopback and writes a report, and its gate [assert_defense_bench.py];
    - the local benchmark [run_local_bench.py], which starts origins and proxies on
      loopback, drives them with some hundred probes and writes a report, its gate
      [assert_local_bench.py] and its flood client [local_http_flood.py];
    - the end-to-end run [run_codexsdgate_e2e.py], which lets the analyzer learn from
      attack traffic and replays it;
    - the validator of the host templates (nftables, sysctl, systemd),
      [validate_edge_templates.py], and the test that loads the nftables template into a
      network namespace, [run_edge_namespace_smoke.py];
    - the provider setup tool [ai_provider_cli.py];
    - the provenance record the reports carry, [bench_provenance.py].

    The analyzer's output is read by the proxy; the reports of the benchmarks are
    read by the gates, which decide in CI whether a build may ship.

    ** Files

    Python itself:
    - [Prelude]: exceptions, the error monad [res] ([let* x := m in k]), the monad [eff] of
      computations with a state ([perform x <- m in k], [finally]), loops with early exit,
      sorting, list lemmas;
    - [Regex]: regular expressions with Python's search order, their declarative meaning,
      and that the engine is sound and complete for it;
    - [Unicode], [PyStr]: character classes; [str] as lists of code points with the
      methods the tools use; decimal integers;
    - [PyFloat], [FloatFacts]: binary64 floats, conversions, [round], [repr]; signs
      and magnitudes of results;
    - [PyVal]: JSON-like values ([pyval]); a dict is an association list in insertion
      order; truth, equality, [str], [int], iteration;
    - [PyDyn]: expressions over such values as the probes write them (subscripts, [get],
      comparisons, [and]/[or], comprehensions), with their exceptions;
    - [PyTime]: [datetime.fromisoformat];
    - [Json], [JsonFacts]: [json.loads] and [json.dumps]; round trips.

    [codex_analyzer.py]:
    - [Sanitize]: identifiers, bounds, [sanitize_filter], the rule key;
    - [Learn]: evidence, the two deterministic learners, strong coverage;
    - [Merge]: the keyed rule store, eviction and unique ids;
    - [RuleJson]: what a rule becomes in the filter file;
    - [Providers]: configuration, secrets, requests to and answers of providers; the
      environment, files, HTTP, subprocesses and the Codex SDK are fields of [world];
    - [Analyze]: event logs, the filter file, [analyze_once] as a computation with a
      trace of provider calls, printed lines and writes.

    Benchmarks:
    - [Provenance]: [bench_provenance.py]; [git] is a parameter;
    - [DefenseAssert]: [assert_defense_bench.py], report checks and artifact audit;
    - [LocalAssert]: [assert_local_bench.py] with both guardrail tables;
    - [Scenarios]: what the defense benchmark sends; the random generator is the type
      class [RandomSource] with the laws [RandomLaws];
    - [Phase]: the counters of a traffic phase, its threads as a step relation, the
      summary and the target score;
    - [DefenseBench]: proxy configuration, files read back, layers, scenarios and the
      report, as functions of what was read;
    - [DefenseRun]: the same benchmark with its origin, processes, requests, retries and
      cleanup, as a computation that asks its surroundings; [DefenseRefine]: it refines
      [DefenseBench]; [DefenseSafe]: it leaves nothing behind;
    - [E2e], [E2eFacts]: [run_codexsdgate_e2e.py] in the same style, and its theorems.

    Local benchmark:
    - [LocalProbe]: starting a proxy from a probe (files, ports, wait, terminate, kill) and
      the rules to reason about probes; [StartupProbes]: the thirty startup probes;
      [StartupGate]: their composition and the gate;
    - [EdgeProbe]: the probe of the template validator, with the templates it generates;
    - [BenchNet]: the calls a run makes ([call]: clocks, files, processes, sockets, HTTP,
      servers, threads), their answers, and the monad [net] whose state is the trace of
      calls answered so far; a [world] answers each call from the trace, so a theorem for
      every world is one for every proxy, network and operating system;
    - [BenchLogic]: the logics of these computations with their automation: [tidy_but]
      (what is acquired is released), [returns] (values), [raises] (exceptions), [keeps]
      (local variables);
    - [BenchHttp], [BenchWire]: parsers, readers and clients; messages on a stream;
      [BenchOrigin]: the origin servers; [BenchSend], [BenchConns]: raw requests, reused
      and held connections;
    - [TrafficBase], [TrafficBody], [TrafficUpstream], [TrafficLog], [TrafficGuard],
      [TrafficRate], [TrafficTcp]: the traffic probes, each with the configuration it
      writes, its traffic and its verdicts; [BenchTidy]: they stop what they start;
    - [BenchEcho]: the throughput measurements with their threads; [BenchMain]: [main];
      [BenchLab]: surroundings in which a whole run is evaluated; [BenchSafe],
      [BenchReport], [BenchGate]: what a run leaves, what it reports, what the gate reads;
    - [Flood]: [local_http_flood.py].

    Host edge:
    - [EdgeConfig], [EdgeListen]: addresses, listeners and numbers of the configuration;
      [EdgeHost]: sysctl and systemd checks; [EdgeNft]: the nftables checks;
      [EdgeTemplates]: the shipped files; [EdgeMain]: the entry point;
      [EdgeGuards], [EdgeRules]: what an accepted set of templates guarantees;
    - [NetFrame]: the raw frame, checksum and replies of the hop-by-hop probe;
      [NetScripts]: the scripts run in the namespaces; [NetSmoke]: commands, processes,
      report and exit status over a host that is a parameter; [NetGuards]: its theorems.

    [ai_provider_cli.py]:
    - [ProviderCli]: the commands over files, typed lines and printed lines.

    ** What the theorems show

    - Rules: whatever a provider answers or a file holds, a rule that is written is in
      normal form (safe bounded id, bounded time to live, allowed bounded matchers,
      block action); sanitizing is total on well-typed items and idempotent.
    - Learning: the learners produce exactly the rules of signatures and path shapes
      with enough evidence; strong coverage adds every strongly denied signature.
    - Store: keys and ids distinct, bounded size, last rule per key, new rules never
      evicted by old ones, the id loop ends.
    - A pass: providers are asked only above the evidence threshold; a failing
      provider falls back to the learner; attacked signatures end blocked in the
      file; an idle pass rewrites the file unchanged; logs are read in order within
      the window.
    - Providers: settings and merge precedence, embedded JSON is found, files round
      trip.
    - Gates: each gate accepts exactly (or only) the reports its flags promise; every
      failed guardrail is reported; the artifact audit is sound.
    - Benchmark: phases lose no updates under any interleaving, counts add up, scores
      agree with the gate's recomputation, a full run has the structure the release
      check demands, and requests stay on documentation addresses and API paths.

    - Startup: the thirty probes complete, and their results pass the gate exactly when all
      115 proxies refuse their configuration with the expected text; a phase of the defense
      benchmark returns after boundedly many steps of any schedule.
    - Runs: however a run of the local or of the defense benchmark ends, each process it
      started was stopped and each server and connection closed; the same for a completed
      end-to-end run, and for one that fails apart from its analyzers; every guardrail the
      gate asks for is a field of a completed report; a completed defense run prints what
      the report model computes from what was read.
    - Streams: the response reader does not depend on how the network cuts the stream; a
      chunked body counts as complete exactly from its last byte on; the report of an
      end-to-end phase does not depend on the order in which threads take the lock.
    - Host templates: a clean run of the validator covers every public listener port, keeps
      the DDoS sysctls in their bounds and the service hardened; the probe of the validator
      satisfies the gate when it is evaluated on the modelled validator.
    - Namespace test: the namespaces are removed however the probe ends, the exit status is
      the conjunction of the flags, the flags say what the clients saw, and the checksum of
      the raw packet verifies for every message that fits its 32-bit sum.
    - Setup tool and flood client: an aborted login changes no file, a stored key reaches no
      other file or line, a selection survives the round trip; only loopback or owned
      private addresses are flooded.

    ** Bounds and fuel

    [loads] runs on fuel [2 * length + 2]; [JsonFacts] proves it is never exhausted.
    The id loop of [Merge] runs on one round per taken id plus one; [Merge] proves it
    always finds a free id.  The loops of the runs that end by a clock, by the peer or by a
    process (polling, reading, retrying) take a number of rounds as fuel and end in
    [OutOfFuel], which no handler of the code catches, when it is used up: the safety
    theorems hold for every fuel, the reader's says how much is enough, and the sample runs
    show complete executions.  Every other recursion is structural.  Floats are exact
    binary64; integers are unbounded, as in Python.

    ** What is not modelled

    Argument parsing (options are records), signals from outside, the text of positions
    in JSON errors, the interpreter's recursion limit on deeply nested JSON.  In [Analyze]
    and [ProviderCli] failures while writing files are not modelled; in the benchmark runs
    every call may fail, but closing a socket, a connection or a log does not raise.
    Threads that send or serve during a probe are calls that start them and read what they
    have left; the client threads of a phase run in surroundings of their own and are
    merged in an order that is a parameter ([Phase] has their interleavings).
    [lower]/[upper] cover the characters the tools meet; the C accelerator of
    [fromisoformat] accepts one stray separator the reference grammar rejects.  The accept
    loops of [socketserver], the tests [test_ai_tools.py] and the Rust proxy are out of
    scope. *)

From stdpp Require Export base list gmap numbers option sorting.
From Stdlib Require Export ZArith Lia.

(** ** Exceptions and the error monad *)

(** The classes of Python exception the modelled code raises or catches. *)
Inductive exn_kind :=
| ValueError | UnicodeEncodeError | JSONDecodeError
| TypeError | AttributeError | KeyError | IndexError | OverflowError
| RuntimeError | OSError | FileNotFoundError | FileExistsError | IsADirectoryError | TimeoutExpired | EOFError | SystemExit
| TimeoutError | BrokenPipeError | ConnectionAbortedError | ConnectionRefusedError | ConnectionResetError
| RemoteDisconnected | BadStatusLine | IncompleteRead | LineTooLong
| OutOfFuel. (** not an exception of Python: a loop that was cut off *)

#[export] Instance exn_kind_eq_dec : EqDecision exn_kind.
Proof. solve_decision. Defined.

(** An exception: its class and [str(exc)].  Exceptions raised by the
    interpreter itself carry an empty text unless the code prints it. *)
Record exn := Exn { exn_class : exn_kind; exn_msg : list N }.

Inductive res (A : Type) := Ok (a : A) | Raise (e : exn).
Arguments Ok {A} _.
Arguments Raise {A} _.

Lemma Ok_inj {A} (x y : A) : Ok x = Ok y -> x = y.
Proof. by intros [= ->]. Qed.

Definition rbind {A B} (m : res A) (f : A -> res B) : res B :=
  match m with Ok a => f a | Raise e => Raise e end.

Declare Scope py_scope.
Notation "'let*' x := m 'in' k" := (rbind m (fun x => k))
  (at level 10, x binder, m at level 100, k at level 200) : py_scope.
Open Scope py_scope.

Definition is_ok {A} (m : res A) : bool := match m with Ok _ => true | Raise _ => false end.

(** [isinstance(exc, ValueError)]: the two Unicode/JSON errors are subclasses. *)
Definition is_value_error (e : exn) : bool :=
  match exn_class e with
  | ValueError | UnicodeEncodeError | JSONDecodeError => true
  | _ => false
  end.

Definition is_os_error (e : exn) : bool :=
  match exn_class e with
  | OSError | FileNotFoundError | FileExistsError | IsADirectoryError | TimeoutError | BrokenPipeError
  | ConnectionAbortedError | ConnectionRefusedError | ConnectionResetError | RemoteDisconnected => true
  | _ => false
  end.

(** [except Exception]: everything but [SystemExit]. *)
Definition is_exception (e : exn) : bool :=
  match exn_class e with SystemExit | OutOfFuel => false | _ => true end.

(** [try: m except <p> as e: h e]. *)
Definition try_except {A} (m : res A) (p : exn -> bool) (h : exn -> res A) : res A :=
  match m with
  | Raise e => if p e then h e else Raise e
  | ok => ok
  end.

(** [for x in l: s = f(s, x)], stopping at the first exception. *)
Fixpoint foldM {A S} (f : S -> A -> res S) (s : S) (l : list A) : res S :=
  match l with
  | [] => Ok s
  | x :: t => let* s' := f s x in foldM f s' t
  end.

Fixpoint mapR {A B} (f : A -> res B) (l : list A) : res (list B) :=
  match l with
  | [] => Ok []
  | x :: t => let* y := f x in let* ys := mapR f t in Ok (y :: ys)
  end.

(** ** Computations with a state

    Code that prints, writes files or starts processes: a computation ends in a value or
    in an exception, and in a state either way. *)

Definition eff (S A : Type) : Type := S -> res A * S.

Definition cret {S A} (x : A) : eff S A := fun t => (Ok x, t).
Definition clift {S A} (m : res A) : eff S A := fun t => (m, t).
Definition cbind {S A B} (m : eff S A) (f : A -> eff S B) : eff S B :=
  fun t => match m t with (Ok x, t') => f x t' | (Raise e, t') => (Raise e, t') end.

Notation "'perform' x <- m 'in' k" := (cbind m (fun x => k))
  (at level 10, x binder, m at level 100, k at level 200) : py_scope.

Fixpoint each {S A} (f : A -> eff S unit) (l : list A) : eff S unit :=
  match l with [] => cret tt | x :: rest => perform _ <- f x in each f rest end.

(** [try: m finally: f]: [f] runs whatever [m] does, and its own exception replaces the
    outcome of [m]. *)
Definition finally {S A} (m : eff S A) (f : eff S unit) : eff S A :=
  fun t => match m t with
           | (r, t1) => match f t1 with (Ok _, t2) => (r, t2) | (Raise e, t2) => (Raise e, t2) end
           end.

Lemma bind_ok {A B} (f : A -> res B) (m : res A) b :
  rbind m f = Ok b <-> exists a, m = Ok a /\ f a = Ok b.
Proof. destruct m; cbn; naive_solver. Qed.

Lemma bind_raise {A B} (f : A -> res B) (m : res A) e :
  rbind m f = Raise e <-> m = Raise e \/ exists a, m = Ok a /\ f a = Raise e.
Proof. destruct m; cbn; naive_solver. Qed.

Lemma mapR_ok {A B} (f : A -> res B) l ys :
  mapR f l = Ok ys <-> Forall2 (fun x y => f x = Ok y) l ys.
Proof.
  revert ys; induction l as [|x l IH]; intros ys; cbn.
  - split; [intros [= <-]; constructor | by inversion 1].
  - split.
    + intros (y & Hy & H)%bind_ok. apply bind_ok in H as (ys' & Hys & [= <-]).
      constructor; [done|]. by apply IH.
    + inversion 1 as [|? y ? ys' Hy Hys]; subst. rewrite Hy; cbn.
      apply IH in Hys. by rewrite Hys.
Qed.

Lemma mapR_ok_Forall {A B} (f : A -> res B) (P : B -> Prop) l ys :
  (forall x y, f x = Ok y -> P y) -> mapR f l = Ok ys -> Forall P ys.
Proof.
  intros HP H%mapR_ok. induction H; constructor; eauto.
Qed.

Lemma mapR_id {A} (f : A -> res A) l :
  Forall (fun x => f x = Ok x) l -> mapR f l = Ok l.
Proof. induction 1 as [|x l Hx _ IH]; cbn; [done|]. by rewrite Hx; cbn; rewrite IH. Qed.

(** Inverts every [res] computation in the context that is known to end in
    [Ok]. *)
Ltac inv_ok :=
  repeat match goal with
  | H : Ok _ = Ok _ |- _ => injection H as H; subst
  | H : Raise _ = Ok _ |- _ => discriminate H
  | H : Ok _ = Raise _ |- _ => discriminate H
  | H1 : ?m = Ok _, H2 : ?m = Ok _ |- _ => rewrite H1 in H2
  | H : rbind _ _ = Ok _ |- _ =>
      apply bind_ok in H; let a := fresh "r" in let E := fresh "E" in destruct H as (a & E & H)
  end.

(** ** Booleans *)

Lemma andb_prop_iff b1 b2 : b1 && b2 = true <-> b1 = true /\ b2 = true.
Proof. by rewrite andb_true_iff. Qed.

(** Turns a boolean hypothesis/goal built from [&&], [||] and [negb] into
    propositions. *)
Ltac bool_prop :=
  repeat match goal with
  | H : _ && _ = true |- _ => apply andb_prop_iff in H; destruct H
  | H : negb _ = true |- _ => apply negb_true_iff in H
  | H : negb _ = false |- _ => apply negb_false_iff in H
  | H : _ || _ = false |- _ => apply orb_false_iff in H; destruct H
  | H : bool_decide _ = true |- _ => apply bool_decide_eq_true in H
  | H : bool_decide _ = false |- _ => apply bool_decide_eq_false in H
  | |- _ && _ = true => apply andb_prop_iff; split
  end.

(** ** Stable sorting ([sorted], which is stable also with [reverse=True]) *)

Section sort.
Context {A : Type} (leb : A -> A -> bool).

Fixpoint insert_sorted (x : A) (l : list A) : list A :=
  match l with
  | [] => [x]
  | y :: t => if leb x y then x :: y :: t else y :: insert_sorted x t
  end.

Fixpoint py_sorted (l : list A) : list A :=
  match l with [] => [] | x :: t => insert_sorted x (py_sorted t) end.

Lemma insert_sorted_perm x l : insert_sorted x l ≡ₚ x :: l.
Proof.
  induction l as [|y l IH]; cbn; [done|].
  destruct (leb x y); [done|]. rewrite IH. constructor.
Qed.

Lemma py_sorted_perm l : py_sorted l ≡ₚ l.
Proof. induction l as [|x l IH]; cbn; [done|]. by rewrite insert_sorted_perm, IH. Qed.

Lemma py_sorted_nil l : py_sorted l = [] <-> l = [].
Proof.
  split; [|intros ->; done]. intros H. apply Permutation_nil.
  rewrite <-H. apply py_sorted_perm.
Qed.

Hypothesis leb_total : forall x y, leb x y = true \/ leb y x = true.
Hypothesis leb_trans : forall x y z, leb x y = true -> leb y z = true -> leb x z = true.

Lemma insert_sorted_sorted x l :
  StronglySorted (fun a b => leb a b = true) l ->
  StronglySorted (fun a b => leb a b = true) (insert_sorted x l).
Proof.
  induction 1 as [|y l Hl IH Hy]; cbn; [repeat constructor|].
  destruct (leb x y) eqn:E.
  - repeat constructor; auto. eapply Forall_impl; [exact Hy|]. intros z Hz. by eapply leb_trans.
  - constructor; [done|]. rewrite Forall_forall in Hy |- *. intros z Hz.
    rewrite insert_sorted_perm in Hz. apply elem_of_cons in Hz as [->|Hz]; [|by apply Hy].
    destruct (leb_total x y); congruence.
Qed.

Lemma py_sorted_sorted l : StronglySorted (fun a b => leb a b = true) (py_sorted l).
Proof. induction l; cbn; [constructor|]. by apply insert_sorted_sorted. Qed.
End sort.

(** ** Lists *)

(** [l[-n:]] for [n >= 1], and the final contents of a [deque(maxlen=n)]. *)
Definition last_n {A} (n : nat) (l : list A) : list A := drop (length l - n) l.

Lemma last_n_length {A} n (l : list A) : length (last_n n l) = Nat.min n (length l).
Proof. unfold last_n. rewrite length_drop. lia. Qed.

Lemma last_n_app {A} n (l1 l2 : list A) :
  n <= length l2 -> last_n n (l1 ++ l2) = last_n n l2.
Proof.
  intros H. unfold last_n. rewrite length_app, drop_app_ge by lia. f_equal. lia.
Qed.

Lemma last_n_sublist {A} n (l : list A) : sublist (last_n n l) l.
Proof. apply sublist_drop. Qed.

Lemma last_n_all {A} n (l : list A) : length l <= n -> last_n n l = l.
Proof. intros. unfold last_n. replace (length l - n) with 0 by lia. done. Qed.

Fixpoint take_while {A} (p : A -> bool) (l : list A) : list A :=
  match l with [] => [] | x :: t => if p x then x :: take_while p t else [] end.

Fixpoint drop_while {A} (p : A -> bool) (l : list A) : list A :=
  match l with [] => [] | x :: t => if p x then drop_while p t else l end.

Lemma take_drop_while {A} (p : A -> bool) l : take_while p l ++ drop_while p l = l.
Proof. induction l as [|x l IH]; cbn; [done|]. destruct (p x); cbn; congruence. Qed.

Lemma take_while_Forall {A} (p : A -> bool) l : Forall (fun x => p x = true) (take_while p l).
Proof. induction l as [|x l IH]; cbn; [done|]. destruct (p x) eqn:E; auto. Qed.

Lemma drop_while_head {A} (p : A -> bool) l x t : drop_while p l = x :: t -> p x = false.
Proof.
  induction l as [|y l IH]; cbn; [done|].
  destruct (p y) eqn:E; [done|]. by intros [= <- <-].
Qed.

Lemma drop_while_suffix {A} (p : A -> bool) l : drop_while p l `suffix_of` l.
Proof. exists (take_while p l). by rewrite take_drop_while. Qed.

Lemma drop_while_id {A} (p : A -> bool) l :
  match l with [] => True | x :: _ => p x = false end -> drop_while p l = l.
Proof. destruct l; cbn; [done|]. by intros ->. Qed.

Lemma drop_while_Forall {A} (p : A -> bool) (P : A -> Prop) l :
  Forall P l -> Forall P (drop_while p l).
Proof. induction 1; cbn; [done|]. destruct (p x); auto. Qed.

Lemma drop_while_length {A} (p : A -> bool) l : length (drop_while p l) <= length l.
Proof. induction l as [|x l IH]; cbn; [done|]. destruct (p x); cbn; lia. Qed.

Lemma filter_all {A} (P : A -> Prop) `{!forall x, Decision (P x)} (l : list A) :
  Forall P l -> filter P l = l.
Proof. induction 1 as [|x l Hx _ IH]; [done|]. by rewrite filter_cons_True, IH. Qed.

Lemma filter_none {A} (P : A -> Prop) `{!forall x, Decision (P x)} (l : list A) :
  Forall (fun x => ~ P x) l -> filter P l = [].
Proof. induction 1 as [|x l Hx _ IH]; [done|]. by rewrite filter_cons_False. Qed.

Lemma Forall_sublist {A} (P : A -> Prop) (l1 l2 : list A) : sublist l1 l2 -> Forall P l2 -> Forall P l1.
Proof. induction 1 as [|x l1 l2 _ IH|x l1 l2 _ IH]; intros H; [done|..]; apply Forall_cons in H as [? ?]; auto. Qed.

Lemma StronglySorted_weaken {A} (R S : A -> A -> Prop) l :
  (forall x y, R x y -> S x y) -> StronglySorted R l -> StronglySorted S l.
Proof. intros H. induction 1 as [|x l _ IH Hx]; constructor; [done|]. eapply Forall_impl; [exact Hx|]. auto. Qed.
