(* ===== verification/PyStr.v ===== *)
(** * PyStr: Python strings

    A Python [str] is the list of its code points.  This file models the
    string methods the tools call ([strip], [split], [splitlines],
    [startswith], [find], [isdigit], [lower], [upper], [encode]), the decimal
    text of integers and [int(str)], with the lemmas the components share. *)

From stdpp Require Import strings.
From Stdlib Require Import DecimalN DecimalFacts Ascii String.
From S2P Require Import Prelude Unicode.

Export String.StringSyntax.

Abbreviation pystr := (list N).

(** A source literal. *)
Definition u (s : string) : pystr := N_of_ascii <$> list_ascii_of_string s.
Arguments u _%_string.
Arguments u : simpl never.

(** A source literal that contains double quotes, written here with single
    quotes in their place. *)
Definition uq (s : string) : pystr := (fun c => if (c =? 39)%N then 34%N else c) <$> u s.
Arguments uq _%_string.

Definition chr_is (c : N) (x : N) : bool := (x =? c)%N.

(** ** Comparison *)

(** [s < t]: lexicographic on code points. *)
Fixpoint str_ltb (s t : pystr) : bool :=
  match s, t with
  | [], _ :: _ => true
  | a :: s', b :: t' => if (a =? b)%N then str_ltb s' t' else (a <? b)%N
  | _, [] => false
  end.

Definition str_leb (s t : pystr) : bool := negb (str_ltb t s).
Definition str_eqb (s t : pystr) : bool := bool_decide (s = t).

Lemma str_eqb_eq s t : str_eqb s t = true <-> s = t.
Proof. unfold str_eqb. by rewrite bool_decide_eq_true. Qed.

Lemma str_eqb_refl s : str_eqb s s = true.
Proof. by apply str_eqb_eq. Qed.

Lemma str_eqb_neq s t : s <> t -> str_eqb s t = false.
Proof. intros H. unfold str_eqb. by apply bool_decide_eq_false. Qed.

Lemma str_ltb_irrefl s : str_ltb s s = false.
Proof. induction s as [|a s IH]; cbn; [done|]. by rewrite N.eqb_refl. Qed.

Lemma str_ltb_trans s t r : str_ltb s t = true -> str_ltb t r = true -> str_ltb s r = true.
Proof.
  revert t r. induction s as [|a s IH]; intros [|b t] [|c r]; cbn; try done.
  destruct (N.eqb_spec a b), (N.eqb_spec b c), (N.eqb_spec a c); subst; try done; eauto;
    rewrite ?N.ltb_lt; lia.
Qed.

Lemma str_ltb_total s t : str_ltb s t = false -> str_ltb t s = false -> s = t.
Proof.
  revert t. induction s as [|a s IH]; intros [|b t]; cbn; try done.
  destruct (N.eqb_spec a b), (N.eqb_spec b a); subst; try done.
  - intros. f_equal. eauto.
  - rewrite !N.ltb_ge. lia.
Qed.

Lemma str_leb_total s t : str_leb s t = true \/ str_leb t s = true.
Proof.
  unfold str_leb. destruct (str_ltb t s) eqn:E1, (str_ltb s t) eqn:E2; auto.
  pose proof (str_ltb_trans _ _ _ E1 E2). rewrite str_ltb_irrefl in H. done.
Qed.

Lemma str_leb_trans s t r : str_leb s t = true -> str_leb t r = true -> str_leb s r = true.
Proof.
  unfold str_leb. rewrite !negb_true_iff. intros H1 H2.
  destruct (str_ltb r s) eqn:E; [|done].
  destruct (str_ltb s t) eqn:E1.
  - pose proof (str_ltb_trans _ _ _ E E1). congruence.
  - assert (s = t) as -> by (by apply str_ltb_total). congruence.
Qed.

Lemma str_leb_antisym s t : str_leb s t = true -> str_leb t s = true -> s = t.
Proof.
  unfold str_leb. rewrite !negb_true_iff. intros. by apply str_ltb_total.
Qed.

(** ** Membership and search *)

Fixpoint starts_with (p s : pystr) : bool :=
  match p, s with
  | [], _ => true
  | a :: p', b :: s' => (a =? b)%N && starts_with p' s'
  | _ :: _, [] => false
  end.

Definition ends_with (p s : pystr) : bool := starts_with (rev p) (rev s).

(** [p in s] *)
Fixpoint contains (p s : pystr) : bool :=
  starts_with p s || match s with [] => false | _ :: s' => contains p s' end.

Definition has_char (c : N) (s : pystr) : bool := existsb (N.eqb c) s.

(** [s.count(c)] for a one-character needle. *)
Definition count_char (c : N) (s : pystr) : nat := length (filter (fun x => x = c) s).

(** [s.find(c)] / [s.rfind(c)] for a one-character needle; [None] is [-1]. *)
Fixpoint find_char (c : N) (s : pystr) : option nat :=
  match s with
  | [] => None
  | a :: t => if (a =? c)%N then Some 0 else S <$> find_char c t
  end.

Definition rfind_char (c : N) (s : pystr) : option nat :=
  (fun i => length s - 1 - i) <$> find_char c (rev s).

Lemma starts_with_spec p s : starts_with p s = true <-> exists t, s = p ++ t.
Proof.
  revert s. induction p as [|a p IH]; intros s; cbn.
  - split; [by exists s|done].
  - destruct s as [|b s]; [split; [done|by intros [? ?]]|].
    rewrite andb_true_iff, N.eqb_eq, IH. split.
    + intros [-> [t ->]]. by exists t.
    + intros [t [= -> ->]]. eauto.
Qed.

Lemma contains_spec p s : contains p s = true <-> exists s1 s2, s = s1 ++ p ++ s2.
Proof.
  induction s as [|a s IH]; cbn; rewrite orb_true_iff, starts_with_spec.
  - split.
    + intros [[t ->]|?]; [|done]. by exists [], t.
    + intros (s1 & s2 & H). left. destruct s1; [|done]. by exists s2.
  - rewrite IH. split.
    + intros [[t ->]|(s1 & s2 & ->)]; [by exists [], t | by exists (a :: s1), s2].
    + intros ([|b s1] & s2 & H); [left; by exists s2 | right].
      injection H as -> ->. eauto.
Qed.

Lemma has_char_In c s : has_char c s = true <-> c ∈ s.
Proof.
  unfold has_char. rewrite existsb_exists. split.
  - intros (x & Hx & ->%N.eqb_eq). by apply list_elem_of_In.
  - intros H. exists c. split; [by apply list_elem_of_In|apply N.eqb_refl].
Qed.

(** ** Stripping *)

Definition lstrip_by (p : N -> bool) (s : pystr) : pystr := drop_while p s.
Fixpoint rstrip_by (p : N -> bool) (s : pystr) : pystr :=
  match s with
  | [] => []
  | c :: rest => match rstrip_by p rest with [] => if p c then [] else [c] | r => c :: r end
  end.
Definition strip_by (p : N -> bool) (s : pystr) : pystr := rstrip_by p (lstrip_by p s).

Definition strip (s : pystr) : pystr := strip_by is_space s.

Lemma rstrip_by_rev p s : rstrip_by p s = rev (drop_while p (rev s)).
Proof.
  induction s as [|c s IH]; [done|]. cbn [rstrip_by rev]. rewrite IH.
  assert (H : forall l, drop_while p (l ++ [c]) = match drop_while p l with [] => if p c then [] else [c] | d :: r => (d :: r) ++ [c] end).
  { induction l as [|d l IHl]; cbn; [done|]. destruct (p d); [apply IHl|done]. }
  rewrite H. destruct (drop_while p (rev s)) as [|d r] eqn:E; cbn [rev app]; [by destruct (p c)|].
  rewrite rev_app_distr. cbn. destruct (rev r ++ [d]) eqn:E2; [by destruct (rev r)|done].
Qed.

Lemma strip_by_Forall p (P : N -> Prop) s : Forall P s -> Forall P (strip_by p s).
Proof.
  intros H. unfold strip_by. rewrite rstrip_by_rev. unfold lstrip_by.
  apply Forall_rev, drop_while_Forall, Forall_rev. by apply drop_while_Forall.
Qed.

Lemma strip_by_length p s : length (strip_by p s) <= length s.
Proof.
  unfold strip_by. rewrite rstrip_by_rev. unfold lstrip_by. rewrite length_rev.
  etrans; [apply drop_while_length|]. rewrite length_rev. apply drop_while_length.
Qed.

(** A string whose two ends are not stripped characters. *)
Definition stripped (p : N -> bool) (s : pystr) : Prop :=
  match head s with Some c => p c = false | None => True end /\
  match last s with Some c => p c = false | None => True end.

Lemma last_rev_head (s : pystr) : last s = head (rev s).
Proof. rewrite rev_alt. fold (reverse s). by rewrite head_reverse. Qed.

Lemma strip_by_stripped p s : stripped p (strip_by p s).
Proof.
  unfold strip_by. rewrite rstrip_by_rev. unfold lstrip_by. split.
  - destruct (rev (drop_while p (rev (drop_while p s)))) as [|a r] eqn:E; cbn; [done|].
    assert (exists r', drop_while p s = (a :: r) ++ r') as [r' Hr'].
    { destruct (drop_while_suffix p (rev (drop_while p s))) as [k Hk].
      exists (rev k). rewrite <-E, <-rev_app_distr, <-Hk. by rewrite rev_involutive. }
    by eapply drop_while_head.
  - rewrite last_rev_head, rev_involutive.
    destruct (drop_while p (rev (drop_while p s))) eqn:E; cbn; [done|]. by eapply drop_while_head.
Qed.

Lemma strip_by_id p s : stripped p s -> strip_by p s = s.
Proof.
  intros [H1 H2]. unfold strip_by. rewrite rstrip_by_rev. unfold lstrip_by.
  rewrite (drop_while_id p s) by (destruct s; cbn in *; done).
  rewrite last_rev_head in H2.
  rewrite (drop_while_id p (rev s)) by (destruct (rev s); cbn in *; done).
  apply rev_involutive.
Qed.

Lemma strip_by_idemp p s : strip_by p (strip_by p s) = strip_by p s.
Proof. apply strip_by_id, strip_by_stripped. Qed.

(** ** Splitting *)

(** [s.split(c)] *)
Fixpoint split_on (c : N) (s : pystr) : list pystr :=
  match s with
  | [] => [[]]
  | a :: t =>
      if (a =? c)%N then [] :: split_on c t
      else match split_on c t with
           | w :: ws => (a :: w) :: ws
           | [] => [[a]]
           end
  end.

(** [s.split(c, 1)]: the head and, when [c] occurs, the rest. *)
Fixpoint split1 (c : N) (s : pystr) : pystr * option pystr :=
  match s with
  | [] => ([], None)
  | a :: t => if (a =? c)%N then ([], Some t)
              else let '(h, r) := split1 c t in (a :: h, r)
  end.

(** [s.rpartition(c)]: [None] when [c] does not occur. *)
Definition rpartition (c : N) (s : pystr) : option (pystr * pystr) :=
  match rfind_char c s with
  | Some i => Some (take i s, drop (S i) s)
  | None => None
  end.

(** [s.split()]: maximal runs of non-whitespace. *)
Fixpoint split_ws_aux (cur : pystr) (s : pystr) : list pystr :=
  match s with
  | [] => match cur with [] => [] | _ => [rev cur] end
  | a :: t =>
      if is_space a
      then match cur with [] => split_ws_aux [] t | _ => rev cur :: split_ws_aux [] t end
      else split_ws_aux (a :: cur) t
  end.
Definition split_ws (s : pystr) : list pystr := split_ws_aux [] s.

(** [s.splitlines()]. *)
Definition is_line_break (c : N) : bool :=
  in_ranges [(10, 13); (28, 30); (133, 133); (8232, 8233)]%N c.

Fixpoint splitlines_aux (cur : pystr) (s : pystr) : list pystr :=
  match s with
  | [] => match cur with [] => [] | _ => [rev cur] end
  | a :: t =>
      if is_line_break a
      then rev cur :: match t with
                      | b :: t' => if (a =? 13)%N && (b =? 10)%N
                                   then splitlines_aux [] t' else splitlines_aux [] t
                      | [] => []
                      end
      else splitlines_aux (a :: cur) t
  end.
Definition splitlines (s : pystr) : list pystr := splitlines_aux [] s.

(** [sep.join(l)] *)
Fixpoint join (sep : pystr) (l : list pystr) : pystr :=
  match l with
  | [] => []
  | [s] => s
  | s :: t => s ++ sep ++ join sep t
  end.

Lemma split_on_nonempty c s : split_on c s <> [].
Proof. destruct s as [|a s]; cbn; [done|]. destruct (a =? c)%N; [done|]. by destruct (split_on c s). Qed.

(** [c.join(s.split(c)) == s] *)
Lemma join_split_on c s : join [c] (split_on c s) = s.
Proof.
  induction s as [|a s IH]; cbn; [done|].
  destruct (N.eqb_spec a c) as [->|Hne]; cbn.
  - pose proof (split_on_nonempty c s). destruct (split_on c s) eqn:E; [done|].
    rewrite <-IH. done.
  - pose proof (split_on_nonempty c s). destruct (split_on c s) as [|w ws] eqn:E; [done|].
    destruct ws; cbn in *; by rewrite IH.
Qed.

Lemma split1_spec c s h r :
  split1 c s = (h, r) ->
  (c ∉ h) /\ s = h ++ match r with Some t => c :: t | None => [] end.
Proof.
  revert h r. induction s as [|a s IH]; cbn; intros h r.
  - intros [= <- <-]. split; [by apply not_elem_of_nil|done].
  - destruct (N.eqb_spec a c) as [->|Hne].
    + intros [= <- <-]. split; [by apply not_elem_of_nil|done].
    + destruct (split1 c s) as [h' r'] eqn:E. intros [= <- <-].
      destruct (IH _ _ eq_refl) as [Hn ->]. split; [|done].
      apply not_elem_of_cons. split; congruence.
Qed.

(** ** Character classes *)

(** [s.isdigit()], [s.isalnum()]: false on the empty string. *)
Definition str_isdigit (s : pystr) : bool :=
  match s with [] => false | _ => forallb is_digit s end.
Definition str_isalnum (s : pystr) : bool :=
  match s with [] => false | _ => forallb is_alnum s end.

(** [s.lower()] and [s.upper()], as far as the tools can observe them: they
    compare the result with ASCII strings only.  A code point whose image is
    all ASCII is mapped; the others keep a non-ASCII image, for which the code
    point itself stands. *)
Definition lower_char (c : N) : N :=
  if (65 <=? c)%N && (c <=? 90)%N then (c + 32)%N
  else if (c =? 8490)%N then 107%N   (* KELVIN SIGN *)
  else c.
Definition lower (s : pystr) : pystr := lower_char <$> s.

Definition upper_char (c : N) : pystr :=
  if (97 <=? c)%N && (c <=? 122)%N then [c - 32]%N
  else if (c =? 223)%N then u "SS"
  else if (c =? 305)%N then u "I"
  else if (c =? 383)%N then u "S"
  else if (c =? 64256)%N then u "FF"
  else if (c =? 64257)%N then u "FI"
  else if (c =? 64258)%N then u "FL"
  else if (c =? 64259)%N then u "FFI"
  else if (c =? 64260)%N then u "FFL"
  else if (c =? 64261)%N || (c =? 64262)%N then u "ST"
  else [c].
Definition upper (s : pystr) : pystr := mjoin (upper_char <$> s).

(** [len(s.encode("utf-8"))]: a lone surrogate cannot be encoded (and there is no
    code point from 1114112 on). *)
Definition utf8_size (c : N) : res nat :=
  if (c <? 128)%N then Ok 1
  else if (c <? 2048)%N then Ok 2
  else if (55296 <=? c)%N && (c <=? 57343)%N then Raise (Exn UnicodeEncodeError [])
  else if (c <? 65536)%N then Ok 3
  else if (c <? 1114112)%N then Ok 4
  else Raise (Exn UnicodeEncodeError []).

Fixpoint utf8_len (s : pystr) : res nat :=
  match s with
  | [] => Ok 0
  | c :: t => let* n := utf8_size c in let* m := utf8_len t in Ok (n + m)
  end.

Lemma utf8_len_ge s n : utf8_len s = Ok n -> length s <= n.
Proof.
  revert n. induction s as [|c s IH]; cbn; intros n H; inv_ok; [done|].
  specialize (IH _ E0). unfold utf8_size in E. repeat case_match; inv_ok; simplify_eq; lia.
Qed.

(** ASCII text has as many bytes as characters. *)
Lemma utf8_len_ascii s : Forall (fun c => (c < 128)%N) s -> utf8_len s = Ok (length s).
Proof.
  induction 1 as [|c s Hc _ IH]; cbn; [done|]. unfold utf8_size.
  rewrite (proj2 (N.ltb_lt c 128)) by done. cbn. by rewrite IH.
Qed.

(** ** Integers as text *)

Fixpoint uint_chars (d : Decimal.uint) : pystr :=
  match d with
  | Decimal.Nil => []
  | Decimal.D0 t => 48 :: uint_chars t
  | Decimal.D1 t => 49 :: uint_chars t
  | Decimal.D2 t => 50 :: uint_chars t
  | Decimal.D3 t => 51 :: uint_chars t
  | Decimal.D4 t => 52 :: uint_chars t
  | Decimal.D5 t => 53 :: uint_chars t
  | Decimal.D6 t => 54 :: uint_chars t
  | Decimal.D7 t => 55 :: uint_chars t
  | Decimal.D8 t => 56 :: uint_chars t
  | Decimal.D9 t => 57 :: uint_chars t
  end%N.

Definition dec_N (n : N) : pystr := uint_chars (N.to_uint n).

(** [str(z)] *)
Definition dec_Z (z : Z) : pystr :=
  match z with
  | Zneg p => 45%N :: dec_N (Npos p)
  | _ => dec_N (Z.to_N z)
  end.
Definition dec_nat (n : nat) : pystr := dec_N (N.of_nat n).

(** The digits of an [int()] literal: decimal digits of any script, with single
    underscores between them.  Returns the value and the number of digits. *)
Fixpoint scan_digits (acc : N) (n : nat) (need : bool) (s : pystr) : option (N * nat) :=
  match s with
  | [] => if need then None else Some (acc, n)
  | c :: t =>
      match decimal_value c with
      | Some d => scan_digits (10 * acc + d)%N (S n) false t
      | None => if (c =? 95)%N && negb need then scan_digits acc n true t else None
      end
  end.

(** CPython's [sys.get_int_max_str_digits()]. *)
Definition int_max_str_digits : nat := 4300.

(** [int(s)] for a string, base 10; [quoted] is [repr(s)], used by the
    exception text only. *)
Definition int_of_str (quoted : pystr) (s : pystr) : res Z :=
  let bad := Raise (Exn ValueError (u "invalid literal for int() with base 10: " ++ quoted)) in
  let t := strip s in
  let '(neg, digits) :=
    match t with
    | c :: r => if (c =? 45)%N then (true, r) else if (c =? 43)%N then (false, r) else (false, t)
    | [] => (false, [])
    end in
  match scan_digits 0 0 true digits with
  | None => bad
  | Some (v, n) =>
      if n <=? int_max_str_digits then Ok (if neg then (- Z.of_N v)%Z else Z.of_N v)
      else Raise (Exn ValueError (u "Exceeds the limit (4300 digits) for integer string conversion"))
  end.

Definition is_ascii_digit (c : N) : bool := (48 <=? c)%N && (c <=? 57)%N.

Lemma uint_chars_digits d : Forall (fun c => is_ascii_digit c = true) (uint_chars d).
Proof. induction d; cbn; constructor; done. Qed.

Lemma dec_N_digits n : Forall (fun c => is_ascii_digit c = true) (dec_N n).
Proof. apply uint_chars_digits. Qed.

Lemma uint_chars_inj d1 d2 : uint_chars d1 = uint_chars d2 -> d1 = d2.
Proof. revert d2. induction d1; intros []; cbn; intros [=]; f_equal; auto. Qed.

Lemma dec_N_inj n m : dec_N n = dec_N m -> n = m.
Proof. intros H%uint_chars_inj. by apply Unsigned.to_uint_inj. Qed.

Lemma dec_N_nonempty n : dec_N n <> [].
Proof.
  unfold dec_N. intros H. change [] with (uint_chars Decimal.Nil) in H.
  apply uint_chars_inj in H. pose proof (Unsigned.of_to n) as Hn.
  rewrite H in Hn. cbn in Hn. subst n. done.
Qed.

Lemma dec_Z_inj z1 z2 : dec_Z z1 = dec_Z z2 -> z1 = z2.
Proof.
  assert (Hneg : forall n p, dec_N n = 45%N :: dec_N p -> False).
  { intros n p H. pose proof (dec_N_digits n) as Hd. rewrite H in Hd.
    apply Forall_cons in Hd as [Hd _]. done. }
  unfold dec_Z. destruct z1, z2; intros H; try (exfalso; by eapply Hneg);
    try (exfalso; symmetry in H; by eapply Hneg); try done.
  - apply dec_N_inj in H. done.
  - apply dec_N_inj in H. done.
  - apply dec_N_inj in H. by injection H as ->.
  - injection H as H. apply dec_N_inj in H. by injection H as ->.
Qed.

Lemma ascii_digit_lt c : is_ascii_digit c = true -> (48 <= c <= 57)%N.
Proof. unfold is_ascii_digit. rewrite andb_true_iff, !N.leb_le. done. Qed.

Lemma scan_digits_pos d p n :
  scan_digits (Npos p) n false (uint_chars d) =
  Some (Npos (Pos.of_uint_acc d p), n + length (uint_chars d)).
Proof.
  revert p n. induction d; intros q n; cbn [uint_chars scan_digits];
    rewrite ?decimal_value_ascii by lia; [cbn; by rewrite Nat.add_0_r|..].
  all: cbn [Pos.of_uint_acc length];
    match goal with |- scan_digits ?a _ _ _ = Some (N.pos (Pos.of_uint_acc _ ?b), _) =>
      replace a with (Npos b) by lia end;
    rewrite IHd; do 2 f_equal; lia.
Qed.

Lemma scan_digits_zero d n need :
  (need = true -> d <> Decimal.Nil) ->
  scan_digits 0 n need (uint_chars d) = Some (Pos.of_uint d, n + length (uint_chars d)).
Proof.
  revert n need. induction d; intros n need Hneed; cbn [uint_chars scan_digits];
    rewrite ?decimal_value_ascii by lia.
  { destruct need; [by destruct Hneed|]. cbn. by rewrite Nat.add_0_r. }
  1: rewrite IHd by done; cbn [length Pos.of_uint]; do 2 f_equal; lia.
  all: match goal with |- scan_digits ?a _ _ _ = _ => let v := eval compute in a in change a with v end;
    rewrite scan_digits_pos; cbn [length Pos.of_uint]; do 2 f_equal; lia.
Qed.

Lemma digit_not_space c : is_ascii_digit c = true -> is_space c = false.
Proof.
  intros H%ascii_digit_lt.
  assert (c ∈ [48; 49; 50; 51; 52; 53; 54; 55; 56; 57])%N as Hc.
  { rewrite !elem_of_cons. lia. }
  clear H. revert c Hc. rewrite <-Forall_forall. repeat constructor; done.
Qed.

Lemma strip_digits s : Forall (fun c => is_ascii_digit c = true) s -> strip s = s.
Proof.
  intros H. apply strip_by_id. split.
  - destruct s; cbn; [done|]. apply digit_not_space. by apply Forall_cons in H as [? _].
  - destruct (last s) eqn:E; [|done]. apply digit_not_space.
    rewrite Forall_forall in H. apply H. by apply last_Some_elem_of.
Qed.

Lemma scan_dec_N n : scan_digits 0 0 true (dec_N n) = Some (n, length (dec_N n)).
Proof.
  unfold dec_N. rewrite scan_digits_zero.
  - change (Pos.of_uint (N.to_uint n)) with (N.of_uint (N.to_uint n)). by rewrite Unsigned.of_to.
  - intros _ H. apply (dec_N_nonempty n). unfold dec_N. by rewrite H.
Qed.

(** [int(str(z)) == z], up to the interpreter's digit limit. *)
Lemma int_of_dec_Z q z :
  length (dec_Z z) <= int_max_str_digits -> int_of_str q (dec_Z z) = Ok z.
Proof.
  intros Hlen. unfold int_of_str.
  assert (Hpos : forall n, length (dec_N n) <= int_max_str_digits ->
    int_of_str q (dec_N n) = Ok (Z.of_N n)).
  { intros n Hn. unfold int_of_str. rewrite strip_digits by apply dec_N_digits.
    pose proof (dec_N_digits n) as Hd. pose proof (scan_dec_N n) as Hs.
    destruct (dec_N n) as [|c r] eqn:E; [by destruct (dec_N_nonempty n)|].
    apply Forall_cons in Hd as [Hc%ascii_digit_lt _].
    rewrite (proj2 (N.eqb_neq c 45)), (proj2 (N.eqb_neq c 43)) by lia.
    rewrite Hs. rewrite (proj2 (Nat.leb_le _ _)) by done. done. }
  destruct z as [|p|p]; [by apply (Hpos 0%N)|by apply (Hpos (Npos p))|].
  cbn [dec_Z] in *. unfold strip. rewrite strip_by_id.
  - cbn [N.eqb Pos.eqb]. rewrite scan_dec_N. cbn [length] in Hlen.
    rewrite (proj2 (Nat.leb_le _ _)) by lia. done.
  - split; [done|]. rewrite last_cons. pose proof (dec_N_digits (Npos p)) as Hd.
    destruct (last (dec_N (Npos p))) eqn:E; [|done].
    apply digit_not_space. rewrite Forall_forall in Hd. apply Hd. by apply last_Some_elem_of.
Qed.

(** The number of decimal digits is bounded by the magnitude. *)
Lemma of_uint_acc_ge d p :
  (Npos p * 10 ^ N.of_nat (length (uint_chars d)) <= Npos (Pos.of_uint_acc d p))%N.
Proof.
  revert p. induction d; intros p; cbn [uint_chars length Pos.of_uint_acc]; [cbn; lia|..].
  all: etrans; [|apply IHd]; rewrite Nat2N.inj_succ, N.pow_succ_r', N.mul_assoc;
    apply N.mul_le_mono_r; lia.
Qed.

Lemma to_uint_no_leading_zero n d : n <> 0%N -> N.to_uint n <> Decimal.D0 d.
Proof.
  intros Hn Heq. pose proof (Unsigned.to_of (N.to_uint n)) as H. rewrite Unsigned.of_to in H.
  rewrite Heq in H at 2. unfold Decimal.unorm in H.
  destruct (Decimal.nzhead (Decimal.D0 d)) eqn:E; try congruence.
  - apply Hn. rewrite <-(Unsigned.of_to n), H. done.
  - by apply nzhead_nonzero in E.
Qed.

Lemma dec_N_length n k : (n < 10 ^ N.of_nat k)%N -> 0 < k -> length (dec_N n) <= k.
Proof.
  intros Hn Hk. destruct (decide (n = 0%N)) as [->|Hnz]; [cbn; lia|].
  unfold dec_N. pose proof (Unsigned.of_to n) as Hof.
  pose proof (fun d => to_uint_no_leading_zero n d Hnz) as Hhead.
  assert (Hge : forall d p, N.of_uint (N.to_uint n) = Npos (Pos.of_uint_acc d p) -> length (uint_chars d) < k).
  { intros d p H. pose proof (of_uint_acc_ge d p) as Hle. rewrite <-H, Hof in Hle.
    assert (10 ^ N.of_nat (length (uint_chars d)) < 10 ^ N.of_nat k)%N as Hlt by nia.
    apply N.pow_lt_mono_r_iff in Hlt; lia. }
  destruct (N.to_uint n) as [|d|d|d|d|d|d|d|d|d|d]; cbn [uint_chars length]; [lia|by destruct (Hhead d)|..];
    (eapply Hge; reflexivity).
Qed.

(** ** [float(str)] syntax *)

(** Decimal digits with single underscores between them: value, count, rest. *)
Fixpoint scan_decimal (acc : N) (n : nat) (s : pystr) : N * nat * pystr :=
  match s with
  | c :: t =>
      match decimal_value c with
      | Some d => scan_decimal (10 * acc + d)%N (S n) t
      | None =>
          match t with
          | c' :: t' =>
              if (c =? 95)%N && negb (n =? 0) then
                match decimal_value c' with
                | Some d => scan_decimal (10 * acc + d)%N (S n) t'
                | None => (acc, n, s)
                end
              else (acc, n, s)
          | [] => (acc, n, s)
          end
      end
  | [] => (acc, n, [])
  end.

(** ** Hints *)

Create HintDb pystr.
#[export] Hint Resolve str_eqb_refl dec_N_digits dec_N_nonempty : pystr.
