(* ===== verification/Regex.v ===== *)
(** * Regex: the regular expressions of the template validator

    The part of Python's [re] that [tools/validate_edge_templates.py] uses: an
    executable backtracking matcher whose results come in the order in which
    Python's engine tries them, a declarative semantics, and the proof that the
    matcher finds exactly the matches the semantics allows. *)

From S2P Require Import Prelude Unicode PyStr.

Inductive regex :=
| Eps
| Chr (p : N -> bool)
| Seq (r1 r2 : regex)
| Alt (r1 r2 : regex)
| Star (r : regex)          (** greedy [r*] *)
| Bound                     (** [\b] *)
| Group (r : regex).        (** a capturing group; a later group replaces an earlier one *)

(** A position in the text: what was read (backwards), what is left, and the text
    of the group that matched last. *)
Record pos := Pos { before : pystr; after : pystr; group : option pystr }.

Definition word_char (c : N) : bool := is_alnum c || (c =? 95)%N.

Definition at_boundary (s : pos) : bool :=
  let left := match before s with c :: _ => word_char c | [] => false end in
  let right := match after s with c :: _ => word_char c | [] => false end in
  xorb left right.

Definition step (p : N -> bool) (s : pos) : list pos :=
  match after s with
  | c :: rest => if p c then [Pos (c :: before s) rest (group s)] else []
  | [] => []
  end.

(** The text read between two positions. *)
Definition read_between (s t : pos) : pystr := rev (take (length (before t) - length (before s)) (before t)).

Definition set_group (s t : pos) : pos := Pos (before t) (after t) (Some (read_between s t)).

(** The expression may match the empty text. *)
Fixpoint nullable (r : regex) : bool :=
  match r with
  | Eps | Star _ | Bound => true
  | Chr _ => false
  | Seq r1 r2 => nullable r1 && nullable r2
  | Alt r1 r2 => nullable r1 || nullable r2
  | Group r => nullable r
  end.

(** A round of a star counts when it reads something. *)
Definition progress (r : regex) (s t : pos) : bool :=
  if nullable r then length (after t) <? length (after s) else true.

(** All end positions, in the order of the engine; what is left of the text bounds
    the rounds of a star. *)
Fixpoint run (r : regex) (s : pos) : list pos :=
  match r with
  | Eps => [s]
  | Chr p => step p s
  | Seq r1 r2 => s' ← run r1 s; run r2 s'
  | Alt r1 r2 => run r1 s ++ run r2 s
  | Star r =>
      (fix loop (fuel : pystr) (s : pos) : list pos :=
         match fuel with
         | [] => [s]
         | _ :: fuel => (s' ← run r s; if progress r s s' then loop fuel s' else []) ++ [s]
         end) (after s) s
  | Bound => if at_boundary s then [s] else []
  | Group r => set_group s <$> run r s
  end.

Definition start_pos (text : pystr) : pos := Pos [] text None.

(** [re.search]: the first position from which the pattern matches, and the match. *)
Fixpoint search_from (r : regex) (fuel : nat) (s : pos) : option (pos * pos) :=
  match run r s with
  | t :: _ => Some (s, t)
  | [] => match fuel, after s with
          | S fuel, c :: rest => search_from r fuel (Pos (c :: before s) rest None)
          | _, _ => None
          end
  end.

Definition search (r : regex) (text : pystr) : option (pos * pos) := search_from r (length text) (start_pos text).

Definition found (r : regex) (text : pystr) : bool := match search r text with Some _ => true | None => false end.

(** [match.start()] and [match.group("...")] *)
Definition match_start (m : pos * pos) : nat := length (before m.1).
Definition match_group (m : pos * pos) : pystr := default [] (group m.2).

(** [re.fullmatch]: the first match that ends at the end of the text. *)
Definition fullmatch (r : regex) (text : pystr) : option pos :=
  head (filter (fun t => after t = []) (run r (start_pos text))).

(** ** Building patterns *)

Fixpoint lit (s : pystr) : regex :=
  match s with [] => Eps | c :: rest => Seq (Chr (N.eqb c)) (lit rest) end.

Fixpoint cat (l : list regex) : regex := match l with [] => Eps | r :: rest => Seq r (cat rest) end.

Definition Plus (r : regex) : regex := Seq r (Star r).
Definition Opt (r : regex) : regex := Alt r Eps.
Definition ws1 : regex := Plus (Chr is_space).                 (** [\s+] *)
Definition ws0 : regex := Star (Chr is_space).                 (** [\s*] *)
Definition digits1 : regex := Plus (Chr is_decimal).           (** [\d+] *)
Definition any_star : regex := Star (Chr (fun c => negb (c =? 10)%N)).   (** [.*] *)
Definition nonspace1 : regex := Plus (Chr (fun c => negb (is_space c))). (** [\S+] *)
Definition not_brace : regex := Star (Chr (fun c => negb (c =? 125)%N)). (** [[^}]*] *)

(** The words [l] separated by [\s+]. *)
Fixpoint words (l : list pystr) : regex :=
  match l with
  | [] => Eps
  | [w] => lit w
  | w :: rest => Seq (lit w) (Seq ws1 (words rest))
  end.

(** ** Semantics *)

(** Every round of a star reads something, as in Python's engine. *)
Inductive matches : regex -> pos -> pos -> Prop :=
| m_eps s : matches Eps s s
| m_chr p c rest b g : p c = true -> matches (Chr p) (Pos b (c :: rest) g) (Pos (c :: b) rest g)
| m_seq r1 r2 s t v : matches r1 s t -> matches r2 t v -> matches (Seq r1 r2) s v
| m_altl r1 r2 s t : matches r1 s t -> matches (Alt r1 r2) s t
| m_altr r1 r2 s t : matches r2 s t -> matches (Alt r1 r2) s t
| m_star_stop r s : matches (Star r) s s
| m_star r s t v : matches r s t -> length (after t) < length (after s) -> matches (Star r) t v -> matches (Star r) s v
| m_bound s : at_boundary s = true -> matches Bound s s
| m_group r s t : matches r s t -> matches (Group r) s (set_group s t).

(** The loop of [run] at a star. *)
Definition star_loop (r : regex) : pystr -> pos -> list pos :=
  fix loop (fuel : pystr) (s : pos) : list pos :=
    match fuel with
    | [] => [s]
    | _ :: fuel => (s' ← run r s; if progress r s s' then loop fuel s' else []) ++ [s]
    end.

Lemma run_star r s : run (Star r) s = star_loop r (after s) s.
Proof. reflexivity. Qed.

Lemma star_loop_shrinks r fuel s t : (forall s t, t ∈ run r s -> length (after t) <= length (after s)) ->
  t ∈ star_loop r fuel s -> length (after t) <= length (after s).
Proof.
  intros Hr. revert s. induction fuel as [|c fuel IH]; intros s; cbn [star_loop].
  - by intros ->%list_elem_of_singleton.
  - intros [H|H]%elem_of_app; [|by apply list_elem_of_singleton in H as ->].
    apply list_elem_of_bind in H as (s' & H & Hs'%Hr). destruct (progress r s s'); [apply IH in H; lia|by apply not_elem_of_nil in H].
Qed.

(** A match never gives text back, and an expression that cannot match the empty text
    reads something. *)
Lemma run_shrinks r s t : t ∈ run r s ->
  length (after t) <= length (after s) /\ (nullable r = false -> length (after t) < length (after s)).
Proof.
  revert s t. induction r as [|p|r1 IH1 r2 IH2|r1 IH1 r2 IH2|r IH| |r IH]; intros s t H.
  - apply list_elem_of_singleton in H as ->. done.
  - cbn in H. unfold step in H. destruct (after s) as [|c rest]; [by apply not_elem_of_nil in H|].
    destruct (p c); [apply list_elem_of_singleton in H as ->; cbn; lia|by apply not_elem_of_nil in H].
  - cbn [run] in H. apply list_elem_of_bind in H as (s' & [H2 H2']%IH2 & [H1 H1']%IH1). split; [lia|]. cbn [nullable].
    intros [?%H1'|?%H2']%andb_false_iff; lia.
  - cbn [run] in H. cbn [nullable]. rewrite orb_false_iff. apply elem_of_app in H as [[? H]%IH1|[? H]%IH2]; split; try done; intros []; auto.
  - rewrite run_star in H. split; [|done]. eapply star_loop_shrinks; [|done]. intros s' t' H'. by apply IH.
  - cbn in H. destruct (at_boundary s); [apply list_elem_of_singleton in H as ->; done|by apply not_elem_of_nil in H].
  - cbn [run] in H. apply list_elem_of_fmap in H as (t' & -> & H). apply IH in H. done.
Qed.

Lemma progress_spec r s t : t ∈ run r s -> progress r s t = true <-> length (after t) < length (after s).
Proof.
  intros [_ H]%run_shrinks. unfold progress. destruct (nullable r); [by rewrite Nat.ltb_lt|]. split; auto.
Qed.

Lemma star_loop_sound r fuel s t : (forall s t, t ∈ run r s -> matches r s t) -> t ∈ star_loop r fuel s -> matches (Star r) s t.
Proof.
  intros Hr. revert s. induction fuel as [|c fuel IH]; intros s; cbn [star_loop].
  - intros ->%list_elem_of_singleton. constructor.
  - intros [H|H]%elem_of_app; [|apply list_elem_of_singleton in H as ->; constructor].
    apply list_elem_of_bind in H as (s' & H & Hs'). destruct (progress r s s') eqn:Ep.
    + eapply m_star; [by apply Hr|by apply (progress_spec r)|by apply IH].
    + by apply not_elem_of_nil in H.
Qed.

Lemma run_sound r s t : t ∈ run r s -> matches r s t.
Proof.
  revert s t. induction r as [|p|r1 IH1 r2 IH2|r1 IH1 r2 IH2|r IH| |r IH]; intros s t H.
  - apply list_elem_of_singleton in H as ->. constructor.
  - cbn in H. unfold step in H. destruct s as [b [|c rest] g]; cbn in H; [by apply not_elem_of_nil in H|].
    destruct (p c) eqn:E; [|by apply not_elem_of_nil in H]. apply list_elem_of_singleton in H as ->. by constructor.
  - cbn [run] in H. apply list_elem_of_bind in H as (s' & H & Hs'). econstructor; [by apply IH1|by apply IH2].
  - cbn [run] in H. apply elem_of_app in H as [H|H]; [by apply m_altl, IH1|by apply m_altr, IH2].
  - rewrite run_star in H. by eapply star_loop_sound.
  - cbn in H. destruct (at_boundary s) eqn:E; [|by apply not_elem_of_nil in H].
    apply list_elem_of_singleton in H as ->. by constructor.
  - cbn [run] in H. apply list_elem_of_fmap in H as (t' & -> & H). constructor. by apply IH.
Qed.

Lemma star_loop_complete r s t : matches (Star r) s t ->
  (forall s t, matches r s t -> t ∈ run r s) -> forall fuel, length (after s) <= length fuel -> t ∈ star_loop r fuel s.
Proof.
  intros H Hr. remember (Star r) as r' eqn:E.
  induction H as [| | | | |r0 s|r0 s t v Hm _ Hlt Hst IH| |]; try discriminate E; injection E as ->; intros fuel Hf.
  - destruct fuel; cbn [star_loop]; [by apply list_elem_of_singleton|]. apply elem_of_app. right. by apply list_elem_of_singleton.
  - destruct fuel as [|c fuel]; [cbn in Hf; lia|]. cbn [star_loop]. apply elem_of_app. left. apply list_elem_of_bind.
    exists t. split; [|by apply Hr]. rewrite (proj2 (progress_spec r s t (Hr _ _ Hm)) Hlt). apply IH; [done|cbn in Hf; lia].
Qed.

Lemma run_complete r s t : matches r s t -> t ∈ run r s.
Proof.
  revert s t. induction r as [|p|r1 IH1 r2 IH2|r1 IH1 r2 IH2|r IH| |r IH]; intros s t H.
  - inversion H; subst. by apply list_elem_of_singleton.
  - inversion H as [|p' c rest b g Hp| | | | | | |]; subst. cbn. rewrite Hp. by apply list_elem_of_singleton.
  - inversion H; subst. cbn [run]. apply list_elem_of_bind. eauto.
  - inversion H; subst; cbn [run]; apply elem_of_app; [left|right]; auto.
  - rewrite run_star. eapply star_loop_complete; eauto.
  - inversion H as [| | | | | | |s' Hb|]; subst. cbn. rewrite Hb. by apply list_elem_of_singleton.
  - inversion H; subst. cbn [run]. apply list_elem_of_fmap. eauto.
Qed.

(** ** Searching *)

(** The position after reading [read] of a text. *)
Definition pos_at (read rest : pystr) : pos := Pos (rev read) rest None.

Lemma search_from_spec r fuel b rest : length rest <= fuel ->
  match search_from r fuel (Pos b rest None) with
  | Some (s, t) => matches r s t /\ exists x y, rest = x ++ y /\ s = Pos (rev x ++ b) y None
  | None => forall x y t, rest = x ++ y -> ~ matches r (Pos (rev x ++ b) y None) t
  end.
Proof.
  revert b rest. induction fuel as [|fuel IH]; intros b rest Hf.
  - destruct rest; [|cbn in Hf; lia]. cbn [search_from]. destruct (run r (Pos b [] None)) as [|t l] eqn:E; cbn [after].
    + intros x y t Hx Hm. destruct x; [|done]. cbn in Hx. subst y. apply run_complete in Hm. cbn in Hm. rewrite E in Hm.
      by apply not_elem_of_nil in Hm.
    + split; [apply run_sound; rewrite E; apply elem_of_cons; by left|]. by exists [], [].
  - cbn [search_from]. destruct (run r (Pos b rest None)) as [|t l] eqn:E.
    + cbn [after before]. assert (Hhere : forall t, ~ matches r (Pos b rest None) t).
      { intros t Hm%run_complete. rewrite E in Hm. by apply not_elem_of_nil in Hm. }
      destruct rest as [|c rest].
      { intros x y t Hx Hm. destruct x; [|done]. cbn in Hx. subst y. by apply (Hhere t). }
      specialize (IH (c :: b) rest ltac:(cbn in Hf; lia)).
      destruct (search_from r fuel (Pos (c :: b) rest None)) as [[s t]|].
      * destruct IH as [Hm (x & y & -> & ->)]. split; [done|]. exists (c :: x), y. split; [done|]. cbn. by rewrite <-app_assoc.
      * intros [|c' x] y t Hx Hm; cbn in Hx; [subst y; by apply (Hhere t)|]. injection Hx as <- Hx.
        apply (IH x y t Hx). cbn in Hm. by rewrite <-app_assoc in Hm.
    + split; [apply run_sound; rewrite E; apply elem_of_cons; by left|]. by exists [], rest.
Qed.

(** [found] decides whether the pattern matches somewhere. *)
Lemma found_spec r text : found r text = true <-> exists x y t, text = x ++ y /\ matches r (pos_at x y) t.
Proof.
  unfold found, search. pose proof (search_from_spec r (length text) [] text ltac:(lia)) as H.
  change (Pos [] text None) with (start_pos text) in H.
  destruct (search_from r (length text) (start_pos text)) as [[s t]|]; split; try done.
  - intros _. destruct H as [Hm (x & y & -> & ->)]. exists x, y, t. split; [done|]. unfold pos_at. by rewrite app_nil_r in Hm.
  - intros (x & y & t & Hx & Hm). exfalso. apply (H x y t Hx). unfold pos_at in Hm. by rewrite app_nil_r.
Qed.

(** The match [search_from] returns is the leftmost one. *)
Lemma search_from_leftmost r fuel b rest s t x y t' :
  search_from r fuel (Pos b rest None) = Some (s, t) -> rest = x ++ y -> matches r (Pos (rev x ++ b) y None) t' ->
  length (before s) <= length b + length x.
Proof.
  revert b rest x. induction fuel as [|fuel IH]; intros b rest x Hs Hx Hm; cbn [search_from] in Hs;
    destruct (run r (Pos b rest None)) as [|t0 l] eqn:E; cbn [after before] in Hs; try (injection Hs as <- <-; cbn; lia).
  - done.
  - destruct rest as [|c rest]; [done|]. destruct x as [|c' x]; cbn in Hx.
    + subst y. apply run_complete in Hm. cbn in Hm. rewrite E in Hm. by apply not_elem_of_nil in Hm.
    + injection Hx as <- Hx. cbn in Hm. rewrite <-app_assoc in Hm. specialize (IH (c :: b) rest x Hs Hx Hm). cbn in *. lia.
Qed.

(** [re.search]: a match, and no match starts before it; or no match at all. *)
Lemma search_some r text s t : search r text = Some (s, t) ->
  exists x y, text = x ++ y /\ s = pos_at x y /\ matches r (pos_at x y) t /\
    forall x' y' t', text = x' ++ y' -> matches r (pos_at x' y') t' -> length x <= length x'.
Proof.
  unfold search. intros H. pose proof (search_from_spec r (length text) [] text ltac:(lia)) as Hs.
  change (Pos [] text None) with (start_pos text) in Hs. rewrite H in Hs. destruct Hs as [Hm (x & y & Hx & ->)].
  rewrite app_nil_r in Hm. exists x, y. repeat split; try done; [by rewrite app_nil_r|]. intros x' y' t' Hx' Hm'.
  pose proof (search_from_leftmost r (length text) [] text _ _ x' y' t' H Hx') as Hl. rewrite !app_nil_r in Hl.
  cbn in Hl. rewrite length_rev in Hl. by apply Hl.
Qed.

Lemma search_none r text x y t : search r text = None -> text = x ++ y -> ~ matches r (pos_at x y) t.
Proof.
  unfold search. intros H Hx. pose proof (search_from_spec r (length text) [] text ltac:(lia)) as Hs.
  change (Pos [] text None) with (start_pos text) in Hs. rewrite H in Hs. specialize (Hs x y t Hx).
  unfold pos_at. by rewrite app_nil_r in Hs.
Qed.

Lemma matches_seq r1 r2 s v : matches (Seq r1 r2) s v -> exists t, matches r1 s t /\ matches r2 t v.
Proof. inversion 1; eauto. Qed.
