(* ===== verification/PyTime.v ===== *)
(** * PyTime: [datetime.fromisoformat]

    The ISO-8601 reader that provenance checks rely on (the grammar of the
    standard library's [datetime.fromisoformat]: calendar and week dates, basic
    and extended times, fractions, and a UTC offset), as its reference
    implementation in Lib/datetime.py defines it; CPython 3.11's accelerator
    module also lets one stray character stand between the time and the offset. *)

From S2P Require Import Prelude Unicode PyStr.

(** [n] ASCII digits at position [pos]. *)
Definition digits_at (s : pystr) (pos n : nat) : option Z :=
  let w := take n (drop pos s) in
  if (length w =? n) && forallb is_ascii_digit w && (0 <? n)
  then Some (foldl (fun acc c => 10 * acc + (Z.of_N c - 48))%Z 0%Z w)
  else None.

Definition char_at (s : pystr) (pos : nat) (c : N) : bool :=
  match s !! pos with Some x => (x =? c)%N | None => false end.

(** ** Calendar *)

Definition is_leap (y : Z) : bool :=
  (y mod 4 =? 0)%Z && (negb (y mod 100 =? 0)%Z || (y mod 400 =? 0)%Z).

Definition days_before_year (year : Z) : Z :=
  let y := (year - 1)%Z in (y * 365 + y / 4 - y / 100 + y / 400)%Z.

Definition days_in_month (y m : Z) : Z :=
  if (m =? 2)%Z then (if is_leap y then 29 else 28)%Z
  else if (m =? 4)%Z || (m =? 6)%Z || (m =? 9)%Z || (m =? 11)%Z then 30%Z else 31%Z.

Definition valid_date (y m d : Z) : bool :=
  (1 <=? y)%Z && (y <=? 9999)%Z && (1 <=? m)%Z && (m <=? 12)%Z && (1 <=? d)%Z && (d <=? days_in_month y m)%Z.

(** The ordinal of the Monday of ISO week 1. *)
Definition isoweek1monday (year : Z) : Z :=
  let firstday := (days_before_year year + 1)%Z in
  let firstweekday := ((firstday + 6) mod 7)%Z in
  let week1monday := (firstday - firstweekday)%Z in
  if (3 <? firstweekday)%Z then (week1monday + 7)%Z else week1monday.

Definition valid_week_date (year week day : Z) : bool :=
  let first_weekday := ((days_before_year year + 1) mod 7)%Z in
  let long_year := (first_weekday =? 4)%Z || (first_weekday =? 3)%Z && is_leap year in
  let ord := (isoweek1monday year + (week - 1) * 7 + (day - 1))%Z in
  (1 <=? year)%Z && (year <=? 9999)%Z &&
  ((0 <? week)%Z && (week <? 53)%Z || (week =? 53)%Z && long_year) &&
  (0 <? day)%Z && (day <? 8)%Z && (1 <=? ord)%Z && (ord <=? 3652059)%Z.

(** ** Syntax *)

Definition dash : N := 45.
Definition week_mark : N := 87.

(** Where the date ends; [None] is a syntax error. *)
Definition date_end (s : pystr) : option nat :=
  if length s =? 7 then Some 7
  else if char_at s 4 dash then
    if char_at s 5 week_mark then
      if (8 <? length s) && char_at s 8 dash then
        if length s =? 9 then None
        else match s !! 10 with
             | Some c => if is_ascii_digit c then Some 8 else Some 10
             | None => Some 10
             end
      else Some 8
    else Some 10
  else if char_at s 4 week_mark then
    let idx := 7 + length (take_while is_ascii_digit (drop 7 s)) in
    if idx <? 9 then Some idx else if Nat.even idx then Some 7 else Some 8
  else Some 8.

(** A date of 7, 8 or 10 characters. *)
Definition date_ok (s : pystr) : bool :=
  match digits_at s 0 4 with
  | None => false
  | Some year =>
      let has_sep := char_at s 4 dash in
      let pos := if has_sep then 5 else 4 in
      if char_at s pos week_mark then
        match digits_at s (pos + 1) 2 with
        | None => false
        | Some week =>
            if length s <=? pos + 3 then valid_week_date year week 1
            else if negb (Bool.eqb (char_at s (pos + 3) dash) has_sep) then false
            else
              let dpos := if has_sep then pos + 4 else pos + 3 in
              match digits_at s dpos 1 with
              | Some day => (length s =? dpos + 1) && valid_week_date year week day
              | None => false
              end
        end
      else
        match digits_at s pos 2 with
        | None => false
        | Some month =>
            if negb (Bool.eqb (char_at s (pos + 2) dash) has_sep) then false
            else
              let dpos := if has_sep then pos + 3 else pos + 2 in
              match digits_at s dpos 2 with
              | Some day => (length s =? dpos + 2) && valid_date year month day
              | None => false
              end
        end
  end.

(** The fraction after [.] or [,]: six digits count, more are skipped. *)
Definition fraction (s : pystr) : option Z :=
  let n := Nat.min 6 (length s) in
  match digits_at s 0 n with
  | Some v => if forallb is_ascii_digit (drop n s) then Some (v * 10 ^ (6 - Z.of_nat n))%Z else None
  | None => None
  end.

Definition is_mark (c : N) : bool := (c =? 46)%N || (c =? 44)%N.

(** [HH[:?MM[:?SS[{.,}fff[fff]]]]] *)
Definition clock (s : pystr) : option (Z * Z * Z * Z) :=
  match digits_at s 0 2 with
  | None => None
  | Some h =>
      let sep := char_at s 2 58 in
      let k := if sep then 1 else 0 in
      match drop 2 s with
      | [] => Some (h, 0, 0, 0)%Z
      | _ =>
          match digits_at s (2 + k) 2 with
          | None => None
          | Some mi =>
              match drop (4 + k) s with
              | [] => Some (h, mi, 0, 0)%Z
              | c :: _ =>
                  if sep && negb (c =? 58)%N then None
                  else
                    match digits_at s (4 + 2 * k) 2 with
                    | None => None
                    | Some sec =>
                        match drop (6 + 2 * k) s with
                        | [] => Some (h, mi, sec, 0)%Z
                        | c :: rest =>
                            if is_mark c
                            then match fraction rest with Some us => Some (h, mi, sec, us) | None => None end
                            else None
                        end
                    end
              end
          end
      end
  end.

Definition clock_ok (t : Z * Z * Z * Z) : bool :=
  let '(h, mi, s, us) := t in
  (h <=? 23)%Z && (mi <=? 59)%Z && (s <=? 59)%Z && (us <=? 999999)%Z.

Definition is_zone_mark (c : N) : bool := (c =? 45)%N || (c =? 43)%N || (c =? 90)%N.

(** A time with its optional offset, in microseconds. *)
Definition time_offset (s : pystr) : option (option Z) :=
  let hms := take_while (fun c => negb (is_zone_mark c)) s in
  match clock hms with
  | None => None
  | Some t =>
      if negb (clock_ok t) then None
      else match drop (length hms) s with
           | [] => Some None
           | [90%N] => Some (Some 0%Z)
           | 90%N :: _ => None
           | mark :: zone =>
               match clock zone with
               | None => None
               | Some (h, mi, sec, us) =>
                   let off := (((h * 60 + mi) * 60 + sec) * 1000000 + us)%Z in
                   if (off <? 24 * 3600 * 1000000)%Z
                   then Some (Some (if (mark =? 45)%N then - off else off)%Z)
                   else None
               end
           end
  end.

(** [datetime.fromisoformat(s).utcoffset()] in microseconds: the outer [None] is
    [ValueError], the inner one a naive datetime. *)
Definition fromisoformat_offset (s : pystr) : option (option Z) :=
  if length s <? 7 then None
  else match date_end s with
       | None => None
       | Some n =>
           if date_ok (take n s)
           then match drop (S n) s with [] => Some None | t => time_offset t end
           else None
       end.
