(* ===== verification/PyFloat.v ===== *)
(** * PyFloat: Python floats

    A Python [float] is an IEEE binary64 number, represented by the Standard
    Library's executable specification [spec_float] at precision 53 and maximal
    exponent 1024.  Conversions from integers, ratios and decimal text round to
    nearest even; [repr] is the shortest decimal that reads back as the same
    float; [round(x, n)] rounds the exact value. *)

From Stdlib Require Import SpecFloat.
From S2P Require Import Prelude PyStr.
Local Open Scope Z_scope.

Abbreviation float := spec_float.

(** ** Arithmetic *)

Definition fadd : float -> float -> float := SFadd 53 1024.
Definition fsub : float -> float -> float := SFsub 53 1024.
Definition fmul : float -> float -> float := SFmul 53 1024.
Definition fdiv : float -> float -> float := SFdiv 53 1024.

Definition fltb (x y : float) : bool := SFltb x y.
Definition fleb (x y : float) : bool := SFleb x y.
Definition feqb (x y : float) : bool := SFeqb x y.

Definition is_finite (x : float) : bool :=
  match x with S754_zero _ | S754_finite _ _ _ => true | _ => false end.
Definition is_inf (x : float) : bool :=
  match x with S754_infinity _ => true | _ => false end.

Definition f0 : float := S754_zero false.
Definition finf : float := S754_infinity false.

(** The nearest float to [± num / den]. *)
Definition float_of_ratio (s : bool) (num den : positive) : float :=
  let '(m, e, l) := SFdiv_core_binary 53 1024 (Zpos num) 0 (Zpos den) 0 in
  binary_round_aux 53 1024 s m e l.

Definition float_of_Q (num : Z) (den : positive) : float :=
  match num with
  | 0 => S754_zero false
  | Zpos n => float_of_ratio false n den
  | Zneg n => float_of_ratio true n den
  end.

(** [float(z)]: out-of-range integers raise. *)
Definition float_of_Z (z : Z) : res float :=
  let f := binary_normalize 53 1024 z 0 false in
  if is_inf f then Raise (Exn OverflowError (u "int too large to convert to float")) else Ok f.

(** [a / b] on integers, [b] positive: the correctly rounded quotient. *)
Definition int_truediv (a : Z) (b : positive) : res float :=
  let f := float_of_Q a b in
  if is_inf f then Raise (Exn OverflowError (u "integer division result too large for a float"))
  else Ok f.

(** The exact value of a finite float as a fraction. *)
Definition float_fraction (x : float) : Z * positive :=
  match x with
  | S754_finite s m e =>
      let n := if s then Zneg m else Zpos m in
      match e with
      | Zneg p => (n, 2 ^ p)%positive
      | _ => (n * 2 ^ e, 1%positive)
      end
  | _ => (0, 1%positive)
  end.

(** [int(x)]: truncation toward zero. *)
Definition Z_of_float (x : float) : res Z :=
  match x with
  | S754_nan => Raise (Exn ValueError (u "cannot convert float NaN to integer"))
  | S754_infinity _ => Raise (Exn OverflowError (u "cannot convert float infinity to integer"))
  | _ => let '(n, d) := float_fraction x in Ok (Z.quot n (Zpos d))
  end.

(** Python compares an [int] with a [float] exactly. *)
Definition cmp_Z_float (z : Z) (x : float) : option comparison :=
  match x with
  | S754_nan => None
  | S754_infinity s => Some (if s then Gt else Lt)
  | _ => let '(n, d) := float_fraction x in Some (Z.compare (z * Zpos d) n)
  end.

(** Nearest integer to [n / d], ties to even. *)
Definition round_half_even (n : Z) (d : positive) : Z :=
  let q := n / Zpos d in
  let r := n mod Zpos d in
  match Z.compare (2 * r) (Zpos d) with
  | Lt => q
  | Gt => q + 1
  | Eq => if Z.even q then q else q + 1
  end.

Definition float_neg (x : float) : bool :=
  match x with S754_zero s | S754_infinity s | S754_finite s _ _ => s | S754_nan => false end.

(** [round(x, k)] for a non-negative constant [k]. *)
Definition round_digits (k : nat) (x : float) : float :=
  if is_finite x then
    let '(n, d) := float_fraction x in
    let scale := 10 ^ Z.of_nat k in
    match round_half_even (n * scale) d with
    | 0 => S754_zero (float_neg x)
    | q => float_of_Q q (Z.to_pos scale)
    end
  else x.

(** [round(x)]: an integer. *)
Definition round_int (x : float) : res Z :=
  if is_finite x then let '(n, d) := float_fraction x in Ok (round_half_even n d)
  else Z_of_float x.

(** ** [repr] *)

(** Decimal position: [10^(k-1) <= n/d < 10^k] for [n/d] positive. *)
Fixpoint decpt_below_one (fuel : nat) (n d : Z) (k : Z) : Z :=
  match fuel with
  | O => k
  | S f => if d <=? n then k else decpt_below_one f (10 * n) d (k - 1)
  end.

Definition decpt (n d : Z) : Z :=
  if d <=? n then Z.of_nat (length (dec_Z (n / d))) else decpt_below_one 400 (10 * n) d 0.

(** The fraction [digits * 10^ex]. *)
Definition scaled (digits ex : Z) : Z * positive :=
  if 0 <=? ex then (digits * 10 ^ ex, 1%positive) else (digits, Z.to_pos (10 ^ (- ex))).

Definition reads_back (x : float) (digits ex : Z) : bool :=
  let '(n, d) := scaled digits ex in feqb (float_of_Q n d) x.

(** The [k]-digit decimals next to [n/d], and the one to print, if any reads
    back as [x]. *)
Definition shortest_at (x : float) (n d : Z) (dp : Z) (k : Z) : option Z :=
  let ex := dp - k in
  let '(nn, dd) := if 0 <=? ex then (n, d * 10 ^ ex) else (n * 10 ^ (- ex), d) in
  let lo := nn / dd in
  let hi := lo + 1 in
  let ok_lo := reads_back x lo ex in
  let ok_hi := reads_back x hi ex in
  if ok_lo && ok_hi then
    match Z.compare (2 * (nn - lo * dd)) dd with
    | Lt => Some lo
    | Gt => Some hi
    | Eq => Some (if Z.even lo then lo else hi)
    end
  else if ok_lo then Some lo else if ok_hi then Some hi else None.

Fixpoint shortest_from (fuel : nat) (x : float) (n d dp k : Z) : Z * Z :=
  match fuel with
  | O => (0, k)
  | S f => match shortest_at x n d dp k with
           | Some digits => (digits, k)
           | None => shortest_from f x n d dp (k + 1)
           end
  end.

Definition rstrip_zeros (s : pystr) : pystr := rstrip_by (chr_is 48%N) s.

Definition exp_text (e : Z) : pystr :=
  let a := dec_Z (Z.abs e) in
  (if e <? 0 then u "-" else u "+") ++ (if (length a <? 2)%nat then u "0" else []) ++ a.

Definition layout (ds : pystr) (dp : Z) : pystr :=
  let nd := Z.of_nat (length ds) in
  if (dp <=? -4) || (16 <? dp) then
    match ds with
    | c :: [] => c :: u "e" ++ exp_text (dp - 1)
    | c :: r => c :: u "." ++ r ++ u "e" ++ exp_text (dp - 1)
    | [] => []
    end
  else if dp <=? 0 then u "0." ++ replicate (Z.to_nat (- dp)) 48%N ++ ds
  else if nd <=? dp then ds ++ replicate (Z.to_nat (dp - nd)) 48%N ++ u ".0"
  else take (Z.to_nat dp) ds ++ u "." ++ drop (Z.to_nat dp) ds.

(** [repr(x)]; seventeen significant digits always suffice for binary64. *)
Definition float_repr (x : float) : pystr :=
  match x with
  | S754_nan => u "nan"
  | S754_infinity s => (if s then u "-" else []) ++ u "inf"
  | S754_zero s => (if s then u "-" else []) ++ u "0.0"
  | S754_finite s m e =>
      let '(n, d) := float_fraction (S754_finite false m e) in
      let dp := decpt n (Zpos d) in
      let '(digits, k) := shortest_from 17 (S754_finite false m e) n (Zpos d) dp 1 in
      let all := dec_Z digits in
      let dp' := dp + (Z.of_nat (length all) - k) in
      (if s then u "-" else []) ++ layout (rstrip_zeros all) dp'
  end.

(** ** Reading decimal text *)

(** The float nearest to [digits * 10^ex] ([nd] digits were written). *)
Definition float_of_decimal (neg : bool) (digits : N) (nd : nat) (ex : Z) : float :=
  match digits with
  | N0 => S754_zero neg
  | Npos p =>
      if 400 <? Z.of_nat nd + ex then
        if 400 <? Z.of_nat (length (dec_N (Npos p))) + ex then S754_infinity neg
        else let '(n, d) := scaled (Zpos p) ex in float_of_ratio neg (Z.to_pos n) d
      else if Z.of_nat nd + ex <? -400 then S754_zero neg
      else let '(n, d) := scaled (Zpos p) ex in float_of_ratio neg (Z.to_pos n) d
  end.

(** [float(s)] for a string. *)
Definition float_of_str (quoted s : pystr) : res float :=
  let bad := Raise (Exn ValueError (u "could not convert string to float: " ++ quoted)) in
  let t := strip s in
  let '(neg, body) :=
    match t with
    | c :: r => if (c =? 45)%N then (true, r) else if (c =? 43)%N then (false, r) else (false, t)
    | [] => (false, [])
    end in
  if str_eqb (lower body) (u "inf") || str_eqb (lower body) (u "infinity") then Ok (S754_infinity neg)
  else if str_eqb (lower body) (u "nan") then Ok S754_nan
  else
    let '(ip, ni, r1) := scan_decimal 0 0 body in
    let '(m, nf, r2) :=
      match r1 with
      | c :: r => if (c =? 46)%N
                  then let '(m, n, r2) := scan_decimal ip 0 r in (m, n, r2)
                  else (ip, O, r1)
      | [] => (ip, O, [])
      end in
    if (ni + nf =? 0)%nat then bad
    else
      let '(ex, ok) :=
        match r2 with
        | [] => (0, true)
        | c :: r =>
            if (c =? 101)%N || (c =? 69)%N then
              let '(eneg, r') :=
                match r with
                | d :: r' => if (d =? 45)%N then (true, r') else if (d =? 43)%N then (false, r') else (false, r)
                | [] => (false, r)
                end in
              match scan_decimal 0 0 r' with
              | (e, S _, []) => (if eneg then - Z.of_N e else Z.of_N e, true)
              | _ => (0, false)
              end
            else (0, false)
        end in
      if ok then Ok (float_of_decimal neg m (ni + nf) (ex - Z.of_nat nf)) else bad.

(** [f"{x:.0f}"] *)
Definition format_0f (x : float) : pystr :=
  match x with
  | S754_nan => u "nan"
  | S754_infinity s => (if s then u "-" else []) ++ u "inf"
  | _ => let '(n, d) := float_fraction x in
         let q := round_half_even n d in
         if float_neg x && (q =? 0) then u "-0" else dec_Z q
  end.

(** ** Facts *)

Lemma feqb_refl x : x <> S754_nan -> feqb x x = true.
Proof.
  unfold feqb, SFeqb. destruct x as [s|s| |s m e]; cbn; try done.
  - by destruct s.
  - intros _. destruct s; rewrite Z.compare_refl, Pcompare_refl; done.
Qed.

Lemma round_half_even_exact q d : round_half_even (q * Zpos d) d = q.
Proof.
  unfold round_half_even. rewrite Z.div_mul, Z.mod_mul by lia. done.
Qed.

(** The printed digits read back as the printed float. *)
Lemma shortest_at_reads_back x n d dp k digits :
  shortest_at x n d dp k = Some digits -> reads_back x digits (dp - k) = true.
Proof.
  unfold shortest_at. destruct (if 0 <=? dp - k then _ else _) as [nn dd].
  destruct (reads_back x (nn / dd) (dp - k)) eqn:E1, (reads_back x (nn / dd + 1) (dp - k)) eqn:E2;
    cbn [andb]; intros H; try (repeat case_match; by simplify_eq).
Qed.
