(* ===== verification/FloatFacts.v ===== *)
(** * FloatFacts: signs and magnitudes of float arithmetic

    What the score proofs need of binary64 arithmetic: the operations keep
    non-negative numbers non-negative ([nonneg]), and numbers far below the
    largest float stay finite ([small]). *)

From Stdlib Require Import SpecFloat.
From S2P Require Import Prelude PyStr PyFloat.
Local Open Scope Z_scope.

(** ** Signs *)

(** Not negative; NaN is allowed. *)
Definition nonneg (x : float) : Prop :=
  match x with S754_nan => True | S754_zero s | S754_infinity s | S754_finite s _ _ => s = false end.

Lemma round_aux_nonneg m e l : nonneg (binary_round_aux 53 1024 false m e l).
Proof.
  unfold binary_round_aux. destruct (shr_fexp _ _ _ _ _) as [r1 e1]. destruct (shr_fexp _ _ _ _ _) as [r2 e2].
  destruct (shr_m r2); [done| |done]. by destruct (_ <=? _).
Qed.

Lemma normalize_nonneg m e : 0 <= m -> nonneg (binary_normalize 53 1024 m e false).
Proof.
  intros H. destruct m as [|m|m]; [done| |lia]. cbn [binary_normalize]. unfold binary_round.
  destruct (shl_align _ _ _). apply round_aux_nonneg.
Qed.

Lemma float_of_Z_nonneg z f : 0 <= z -> float_of_Z z = Ok f -> nonneg f.
Proof.
  intros Hz. unfold float_of_Z. case_match; [done|]. intros [= <-]. by apply normalize_nonneg.
Qed.

Lemma float_of_Q_nonneg n d : 0 <= n -> nonneg (float_of_Q n d).
Proof.
  intros H. destruct n as [|n|n]; [done| |lia]. cbn [float_of_Q]. unfold float_of_ratio.
  destruct (SFdiv_core_binary _ _ _ _ _ _) as [[m e] l]. apply round_aux_nonneg.
Qed.

Lemma fmul_nonneg x y : nonneg x -> nonneg y -> nonneg (fmul x y).
Proof.
  destruct x, y; cbn [nonneg]; intros; subst; try done. apply round_aux_nonneg.
Qed.

Lemma fdiv_nonneg x y : nonneg x -> nonneg y -> nonneg (fdiv x y).
Proof.
  destruct x, y; cbn [nonneg]; intros; subst; try done. unfold fdiv, SFdiv.
  destruct (SFdiv_core_binary _ _ _ _ _ _) as [[mz ez] l]. apply round_aux_nonneg.
Qed.

Lemma fadd_nonneg x y : nonneg x -> nonneg y -> nonneg (fadd x y).
Proof.
  destruct x, y; cbn [nonneg]; intros; subst; try done. apply normalize_nonneg. cbn [cond_Zopp]. lia.
Qed.

Lemma float_fraction_nonneg x : nonneg x -> 0 <= (float_fraction x).1.
Proof.
  destruct x as [s|s| |s m e]; cbn [nonneg]; intros; subst; try done. cbn. destruct e; cbn; try lia.
Qed.

Lemma round_half_even_nonneg n d : 0 <= n -> 0 <= round_half_even n d.
Proof.
  intros H. assert (0 <= n / Zpos d) by (by apply Z.div_pos). unfold round_half_even. repeat case_match; lia.
Qed.

Lemma round_digits_nonneg k x : nonneg x -> nonneg (round_digits k x).
Proof.
  intros H. unfold round_digits. destruct (is_finite x) eqn:E; [|done].
  pose proof (float_fraction_nonneg x H) as Hn. destruct (float_fraction x) as [n d]. cbn [fst] in Hn.
  assert (H0 : 0 <= round_half_even (n * 10 ^ Z.of_nat k) d)
    by (apply round_half_even_nonneg, Z.mul_nonneg_nonneg; [done|apply Z.pow_nonneg; lia]).
  destruct (round_half_even _ _) eqn:Er; [|by apply float_of_Q_nonneg|lia]. by destruct x.
Qed.

(** ** Magnitudes *)

Lemma digits2_log2 p : Zpos (digits2_pos p) = Z.log2 (Zpos p) + 1.
Proof.
  induction p as [p IH|p IH|]; [| |done]; cbn [digits2_pos]; rewrite Pos2Z.inj_succ, IH.
  - rewrite (Pos2Z.inj_xI p), Z.log2_succ_double by lia. lia.
  - rewrite (Pos2Z.inj_xO p), Z.log2_double by lia. lia.
Qed.

Lemma digits_upper m k : 0 <= k -> m < 2 ^ k -> 0 <= m -> Zdigits2 m <= k.
Proof.
  intros Hk Hm H0. destruct m as [|p|p]; [done| |lia]. cbn [Zdigits2]. rewrite digits2_log2.
  assert (Z.log2 (Zpos p) < k) by (by apply Z.log2_lt_pow2). lia.
Qed.

Lemma digits_lt m : 0 <= m -> m < 2 ^ Zdigits2 m.
Proof.
  destruct m as [|p|p]; [done| |lia]. intros _. cbn [Zdigits2]. rewrite digits2_log2.
  by apply Z.log2_spec.
Qed.

Lemma digits_nonneg m : 0 <= Zdigits2 m.
Proof. by destruct m. Qed.

Lemma shr_1_half r : 0 <= shr_m r -> 0 <= shr_m (shr_1 r) /\ 2 * shr_m (shr_1 r) <= shr_m r.
Proof. destruct r as [[|[p|p|]|p] rr ss]; cbn; lia. Qed.

Lemma shr_iter p r : 0 <= shr_m r ->
  0 <= shr_m (SpecFloat.iter_pos shr_1 p r) /\ 2 ^ Zpos p * shr_m (SpecFloat.iter_pos shr_1 p r) <= shr_m r.
Proof.
  revert r. induction p as [p IH|p IH|]; intros r Hr; cbn [SpecFloat.iter_pos].
  - destruct (shr_1_half r Hr) as [H1 H2]. destruct (IH _ H1) as [H3 H4]. destruct (IH _ H3) as [H5 H6].
    split; [done|].
    assert (E : 2 ^ Zpos p~1 = 2 * (2 ^ Zpos p * 2 ^ Zpos p))
      by (rewrite <-Z.pow_add_r, <-Z.pow_succ_r by lia; f_equal; lia). rewrite E.
    assert (2 ^ Zpos p * (2 ^ Zpos p * shr_m (SpecFloat.iter_pos shr_1 p (SpecFloat.iter_pos shr_1 p (shr_1 r)))) <=
            shr_m (shr_1 r)) by nia. lia.
  - destruct (IH _ Hr) as [H3 H4]. destruct (IH _ H3) as [H5 H6].
    split; [done|]. assert (E : 2 ^ Zpos p~0 = 2 ^ Zpos p * 2 ^ Zpos p) by (rewrite <-Z.pow_add_r by lia; f_equal; lia).
    rewrite E. nia.
  - destruct (shr_1_half r Hr). split; [done|]. lia.
Qed.

(** The integer [m] scaled by [2^e] is below [2^k]. *)
Definition below (k m e : Z) : Prop := 0 <= m /\ Zdigits2 m + e <= k /\ e <= k.

Lemma shr_fexp_below k m e l r e' :
  0 <= k -> below k m e -> shr_fexp 53 1024 m e l = (r, e') -> below k (shr_m r) e'.
Proof.
  intros Hk (Hm & Hd & He) H. unfold shr_fexp, shr in H.
  assert (Hr : shr_m (shr_record_of_loc m l) = m) by (by destruct l as [|[]]).
  assert (Hf : fexp 53 1024 (Zdigits2 m + e) <= k) by (unfold fexp, emin; lia).
  destruct (fexp 53 1024 (Zdigits2 m + e) - e) as [|p|p] eqn:En; injection H as <- <-;
    try (rewrite Hr; by split_and!).
  destruct (shr_iter p (shr_record_of_loc m l)) as [H1 H2]; [by rewrite Hr|]. rewrite Hr in H2.
  set (m' := shr_m (SpecFloat.iter_pos _ _ _)) in *. pose proof (digits_lt m Hm) as Hlt. split; [done|]. split; [|lia].
  assert (Zdigits2 m' <= Z.max 0 (Zdigits2 m - Zpos p)); [|lia].
  apply digits_upper; [lia| |done]. destruct (Z.le_gt_cases (Zpos p) (Zdigits2 m)).
  - rewrite Z.max_r by lia. assert (E : 2 ^ Zdigits2 m = 2 ^ Zpos p * 2 ^ (Zdigits2 m - Zpos p))
      by (rewrite <-Z.pow_add_r by lia; f_equal; lia). rewrite E in Hlt. nia.
  - rewrite Z.max_l by lia. assert (2 ^ Zdigits2 m <= 2 ^ Zpos p) by (apply Z.pow_le_mono_r; lia). nia.
Qed.

Lemma round_step_below k m e l : 0 <= k -> below k m e -> below (k + 1) (round_nearest_even m l) e.
Proof.
  intros Hk (Hm & Hd & He). assert (Hr : m <= round_nearest_even m l <= m + 1)
    by (unfold round_nearest_even; destruct l as [|[]]; try lia; destruct (Z.even m); lia).
  split; [lia|]. split; [|lia]. assert (Zdigits2 (round_nearest_even m l) <= Zdigits2 m + 1); [|lia].
  pose proof (digits_lt m Hm). pose proof (digits_nonneg m). apply digits_upper; [lia| |lia].
  rewrite Z.add_1_r, Z.pow_succ_r by done. lia.
Qed.

(** Non-negative, finite and below [2^k]. *)
Definition small (k : Z) (x : float) : Prop :=
  match x with
  | S754_zero s => s = false
  | S754_finite s m e => s = false /\ below k (Zpos m) e
  | _ => False
  end.

Lemma small_finite k x : small k x -> is_finite x = true.
Proof. by destruct x. Qed.

Lemma round_aux_small k m e l : 0 <= k <= 900 -> below k m e -> small (k + 1) (binary_round_aux 53 1024 false m e l).
Proof.
  intros Hk H. unfold binary_round_aux.
  destruct (shr_fexp 53 1024 m e l) as [r1 e1] eqn:E1. pose proof (shr_fexp_below k m e l r1 e1 ltac:(lia) H E1) as H1.
  apply (round_step_below k _ _ (loc_of_shr_record r1)) in H1; [|lia].
  clear E1. destruct (shr_fexp _ _ _ _ _) as [r2 e2] eqn:E2. pose proof (shr_fexp_below (k + 1) _ _ _ _ _ ltac:(lia) H1 E2) as H2.
  destruct (shr_m r2) as [|q|q] eqn:Em; [done| |by destruct H2]. destruct H2 as (Ha & Hb & Hc).
  destruct (Z.leb_spec e2 (1024 - 53)); [|lia]. by split.
Qed.

Lemma float_of_ratio_small k n d : 0 <= k <= 900 -> Zpos n < 2 ^ k -> small (k + 1) (float_of_ratio false n d).
Proof.
  intros Hk Hn. unfold float_of_ratio, SFdiv_core_binary. set (e' := Z.min _ _).
  assert (He : e' <= 0) by (unfold e'; lia). set (s := 0 - 0 - e'). assert (Hs : s = - e') by lia.
  set (m' := match s with Z0 => Zpos n | Zpos _ => Z.shiftl (Zpos n) s | Zneg _ => 0 end).
  assert (Hm : 0 <= m' < 2 ^ (k + s)).
  { unfold m'. destruct s as [|p|p] eqn:Es; [rewrite Z.add_0_r; lia| |lia].
    rewrite Z.shiftl_mul_pow2, Z.pow_add_r by lia. assert (0 < 2 ^ Zpos p) by (apply Z.pow_pos_nonneg; lia). nia. }
  pose proof (Z.div_eucl_eq m' (Zpos d) ltac:(done)) as Hq. pose proof (Z.mod_pos_bound m' (Zpos d) ltac:(done)) as Hr.
  unfold Z.modulo in Hr. destruct (Z.div_eucl m' (Zpos d)) as [q r] eqn:Eq.
  apply round_aux_small; [done|]. assert (Hq0 : 0 <= q <= m') by nia. split; [lia|]. split; [|lia].
  assert (Zdigits2 q <= k + s); [|lia]. apply digits_upper; lia.
Qed.

Lemma float_of_Q_small k n d : 0 <= k <= 900 -> 0 <= n < 2 ^ k -> small (k + 1) (float_of_Q n d).
Proof. intros Hk [H0 Hn]. destruct n as [|n|n]; [done| |lia]. by apply float_of_ratio_small. Qed.

Lemma below_mul j k m1 e1 m2 e2 : 0 <= j -> 0 <= k ->
  below j (Zpos m1) e1 -> below k (Zpos m2) e2 -> below (j + k) (Zpos (m1 * m2)) (e1 + e2).
Proof.
  intros Hj Hk (_ & Hd1 & He1) (_ & Hd2 & He2). split; [lia|]. split; [|lia].
  assert (Zdigits2 (Zpos (m1 * m2)) <= Zdigits2 (Zpos m1) + Zdigits2 (Zpos m2)); [|lia].
  pose proof (digits_lt (Zpos m1) ltac:(lia)). pose proof (digits_lt (Zpos m2) ltac:(lia)).
  apply digits_upper; [cbn; lia| |lia]. rewrite Z.pow_add_r by (cbn; lia). rewrite Pos2Z.inj_mul. nia.
Qed.

Lemma fmul_small j k x y : 0 <= j -> 0 <= k -> j + k <= 900 -> small j x -> small k y -> small (j + k + 1) (fmul x y).
Proof.
  intros Hj Hk Hjk Hx Hy. destruct x as [sx|sx| |sx m1 e1]; try done; destruct y as [sy|sy| |sy m2 e2]; try done;
    cbn [small] in *; destruct_and?; subst; try done.
  apply round_aux_small; [lia|]. by apply below_mul.
Qed.

Lemma fraction_small k x : 0 <= k -> small k x ->
  0 <= (float_fraction x).1 < 2 ^ k * Zpos (float_fraction x).2.
Proof.
  intros Hk Hx. destruct x as [s|s| |s m e]; cbn [small] in Hx; try done.
  { cbn. assert (0 < 2 ^ k) by (by apply Z.pow_pos_nonneg). lia. }
  destruct Hx as [-> (_ & Hd & He)]. pose proof (digits_lt (Zpos m) ltac:(lia)) as Hm. cbn [float_fraction].
  destruct e as [|e|e]; cbn [fst snd].
  - rewrite Z.mul_1_r, Z.mul_1_r. split; [lia|]. eapply Z.lt_le_trans; [exact Hm|]. apply Z.pow_le_mono_r; lia.
  - rewrite Z.mul_1_r. split; [lia|].
    assert (2 ^ (Zdigits2 (Zpos m) + Zpos e) <= 2 ^ k) by (apply Z.pow_le_mono_r; lia).
    rewrite Z.pow_add_r in H by (cbn; lia). assert (0 < 2 ^ Zpos e) by (apply Z.pow_pos_nonneg; lia). nia.
  - split; [lia|]. rewrite Pos2Z.inj_pow, <-Z.pow_add_r by lia.
    eapply Z.lt_le_trans; [exact Hm|]. apply Z.pow_le_mono_r; lia.
Qed.

Lemma round_half_even_upper n d q : n < q * Zpos d -> round_half_even n d <= q.
Proof.
  intros H. assert (n / Zpos d < q) by (apply Z.div_lt_upper_bound; lia). unfold round_half_even. repeat case_match; lia.
Qed.

Lemma round_2_small k x : 0 <= k <= 890 -> small k x -> small (k + 8) (round_digits 2 x).
Proof.
  intros Hk Hx. pose proof (fraction_small k x ltac:(lia) Hx) as Hf. unfold round_digits.
  rewrite (small_finite k x Hx). destruct (float_fraction x) as [n d]. cbn [fst snd] in Hf.
  change (10 ^ Z.of_nat 2) with 100.
  assert (H0 : 0 <= round_half_even (n * 100) d) by (apply round_half_even_nonneg; lia).
  assert (H1 : round_half_even (n * 100) d <= 2 ^ k * 100) by (apply round_half_even_upper; lia).
  destruct (round_half_even (n * 100) d) as [|q|q] eqn:E; [by destruct x; cbn in Hx; destruct_and?; subst| |lia].
  replace (k + 8) with ((k + 7) + 1) by lia. apply float_of_Q_small; [lia|]. rewrite Z.pow_add_r by lia.
  assert (0 < 2 ^ k) by (apply Z.pow_pos_nonneg; lia). lia.
Qed.

Lemma shl_align_below k m e e' : 0 <= k -> below k (Zpos m) e -> below k (Zpos (shl_align m e e').1) (shl_align m e e').2.
Proof.
  intros Hk (_ & Hd & He). unfold shl_align. destruct (e' - e) as [|d|d] eqn:E; try (by split_and!). cbn [fst snd].
  assert (Hi : Zpos (Pos.iter xO m d) = Zpos m * 2 ^ Zpos d).
  { clear E. induction d as [|d IH] using Pos.peano_ind; [cbn; lia|].
    rewrite Pos.iter_succ, Pos2Z.inj_succ, Z.pow_succ_r, (Pos2Z.inj_xO (Pos.iter xO m d)), IH by lia. lia. }
  split; [lia|]. split; [|lia]. cbn [Zdigits2]. rewrite digits2_log2, Hi, Z.log2_mul_pow2 by lia.
  cbn [Zdigits2] in Hd. rewrite digits2_log2 in Hd. lia.
Qed.

Lemma float_of_Z_small k z : 0 <= k <= 900 -> 0 <= z < 2 ^ k -> exists f, float_of_Z z = Ok f /\ small (k + 1) f.
Proof.
  intros Hk Hz. unfold float_of_Z.
  assert (Hs : small (k + 1) (binary_normalize 53 1024 z 0 false)).
  { destruct z as [|p|p]; [done| |lia]. cbn [binary_normalize]. unfold binary_round.
    set (e' := fexp _ _ _). pose proof (shl_align_below k p 0 e' ltac:(lia)) as H.
    destruct (shl_align p 0 e') as [mz ez]. cbn [fst snd] in H. apply round_aux_small; [done|]. apply H.
    split; [lia|]. split; [|lia]. rewrite Z.add_0_r. apply digits_upper; lia. }
  destruct (binary_normalize 53 1024 z 0 false); try done; eauto.
Qed.
