(* ===== verification/PyVal.v ===== *)
(** * PyVal: the Python values the tools exchange

    Every report, configuration and filter rule is a value decoded from JSON:
    [None], booleans, integers, floats, strings, lists and string-keyed dicts.
    A dict is its list of items in insertion order.  This file models truth
    testing, [==], [str]/[repr], [int()]/[float()] and the dict operations. *)

From Stdlib Require Import SpecFloat.
From S2P Require Import Prelude Unicode PyStr PyFloat.

Unset Elimination Schemes.
Inductive pyval :=
| VNone
| VBool (b : bool)
| VInt (z : Z)
| VFloat (f : float)
| VStr (s : pystr)
| VList (l : list pyval)
| VDict (d : list (pystr * pyval)).
Set Elimination Schemes.

Abbreviation pydict := (list (pystr * pyval)).

Section pyval_ind.
Context (P : pyval -> Prop).
Context (HNone : P VNone) (HBool : forall b, P (VBool b)) (HInt : forall z, P (VInt z))
  (HFloat : forall f, P (VFloat f)) (HStr : forall s, P (VStr s))
  (HList : forall l, Forall P l -> P (VList l))
  (HDict : forall d, Forall (fun kv => P kv.2) d -> P (VDict d)).

Fixpoint pyval_ind (v : pyval) : P v :=
  match v with
  | VNone => HNone
  | VBool b => HBool b
  | VInt z => HInt z
  | VFloat f => HFloat f
  | VStr s => HStr s
  | VList l => HList l ((fix go l : Forall P l :=
      match l with
      | [] => Forall_nil_2 _
      | x :: t => Forall_cons_2 _ _ _ (pyval_ind x) (go t)
      end) l)
  | VDict d => HDict d ((fix go d : Forall (fun kv => P kv.2) d :=
      match d with
      | [] => Forall_nil_2 _
      | kv :: t => Forall_cons_2 _ _ _ (pyval_ind kv.2) (go t)
      end) d)
  end.
End pyval_ind.

(** ** Dict operations *)

Section dict.
Context {A : Type}.
Implicit Types d : list (pystr * A).

(** [d.get(k)] *)
Fixpoint dget (k : pystr) d : option A :=
  match d with
  | [] => None
  | (k', v) :: t => if str_eqb k k' then Some v else dget k t
  end.

(** [d[k] = v]: in place when [k] is present, appended otherwise. *)
Fixpoint dset (k : pystr) (v : A) d : list (pystr * A) :=
  match d with
  | [] => [(k, v)]
  | (k', v') :: t => if str_eqb k k' then (k', v) :: t else (k', v') :: dset k v t
  end.

(** [d.pop(k, None)] *)
Fixpoint dpop (k : pystr) d : list (pystr * A) :=
  match d with
  | [] => []
  | (k', v) :: t => if str_eqb k k' then t else (k', v) :: dpop k t
  end.

Definition dkeys d : list pystr := d.*1.
Definition dvalues d : list A := d.*2.
Definition dmem (k : pystr) d : bool := match dget k d with Some _ => true | None => false end.

(** [d.setdefault(k, v)] as an update. *)
Definition dsetdefault (k : pystr) (v : A) d : list (pystr * A) :=
  if dmem k d then d else dset k v d.

(** [d.update(items)], [{**d, ...}] *)
Definition dupdate d (items : list (pystr * A)) : list (pystr * A) := foldl (fun d kv => dset kv.1 kv.2 d) d items.

(** A Python dict has each key once. *)
Definition dict_ok d : Prop := NoDup (dkeys d).

Lemma dget_Some_In k v d : dget k d = Some v -> (k, v) ∈ d.
Proof.
  induction d as [|[k' v'] d IH]; cbn; [done|].
  destruct (str_eqb k k') eqn:E.
  - apply str_eqb_eq in E as ->. intros [= ->]. apply elem_of_cons; auto.
  - intros H. apply elem_of_cons; auto.
Qed.

Lemma dget_None k d : dget k d = None <-> k ∉ dkeys d.
Proof.
  induction d as [|[k' v'] d IH]; cbn.
  - split; [intros _; apply not_elem_of_nil|done].
  - rewrite not_elem_of_cons. destruct (str_eqb k k') eqn:E.
    + apply str_eqb_eq in E as ->. naive_solver.
    + rewrite IH. split; [|naive_solver]. intros H. split; [|done].
      intros ->. by rewrite str_eqb_refl in E.
Qed.

Lemma dget_In k v d : dict_ok d -> (k, v) ∈ d -> dget k d = Some v.
Proof.
  induction d as [|[k' v'] d IH]; cbn; [by intros _ ?%not_elem_of_nil|].
  intros [Hk Hd]%NoDup_cons [[= <- <-]|Hin]%elem_of_cons; [by rewrite str_eqb_refl|].
  rewrite str_eqb_neq; [by apply IH|]. intros ->. apply Hk.
  apply list_elem_of_fmap. by exists (k', v).
Qed.

Lemma dget_dset_eq k v d : dget k (dset k v d) = Some v.
Proof.
  induction d as [|[k' v'] d IH]; cbn; [by rewrite str_eqb_refl|].
  destruct (str_eqb k k') eqn:E; cbn; by rewrite E.
Qed.

Lemma dget_dset_ne k k' v d : k <> k' -> dget k (dset k' v d) = dget k d.
Proof.
  intros Hne. induction d as [|[k'' v'] d IH]; cbn.
  - by rewrite str_eqb_neq.
  - destruct (str_eqb k' k'') eqn:E; cbn; [|by rewrite IH].
    apply str_eqb_eq in E as ->. by rewrite str_eqb_neq.
Qed.

Lemma dget_dupdate_other k d items : k ∉ dkeys items -> dget k (dupdate d items) = dget k d.
Proof.
  unfold dupdate. revert d. induction items as [|[k' v] items IH]; intros d; cbn; [done|].
  rewrite not_elem_of_cons. intros [Hne Hin]. rewrite IH by done. by apply dget_dset_ne.
Qed.

(** A key that [items] gives once. *)
Lemma dget_dupdate_first k v d items : k ∉ dkeys items -> dget k (dupdate d ((k, v) :: items)) = Some v.
Proof. intros H. unfold dupdate. cbn [foldl]. fold (dupdate (dset k v d) items). rewrite dget_dupdate_other by done. apply dget_dset_eq. Qed.

Lemma dset_keys_mem k v d : k ∈ dkeys d -> dkeys (dset k v d) = dkeys d.
Proof.
  induction d as [|[k' v'] d IH]; cbn; [by intros ?%not_elem_of_nil|].
  intros Hin. destruct (str_eqb k k') eqn:E; cbn; [done|].
  apply elem_of_cons in Hin as [->|Hin]; [by rewrite str_eqb_refl in E|].
  f_equal. by apply IH.
Qed.

Lemma dset_not_mem k v d : k ∉ dkeys d -> dset k v d = d ++ [(k, v)].
Proof.
  induction d as [|[k' v'] d IH]; cbn; [done|].
  rewrite not_elem_of_cons. intros [Hne Hin]. rewrite str_eqb_neq by done. by rewrite IH.
Qed.

Lemma dset_ok k v d : dict_ok d -> dict_ok (dset k v d).
Proof.
  unfold dict_ok. intros Hd. destruct (decide (k ∈ dkeys d)) as [Hin|Hin].
  - by rewrite dset_keys_mem.
  - rewrite dset_not_mem by done. unfold dkeys. rewrite fmap_app. cbn.
    apply NoDup_app. split; [done|]. split; [|apply NoDup_singleton].
    intros x Hx ->%list_elem_of_singleton. done.
Qed.

Lemma dpop_not_mem k d : k ∉ dkeys d -> dpop k d = d.
Proof.
  induction d as [|[k' v'] d IH]; cbn; [done|].
  rewrite not_elem_of_cons. intros [Hne Hin]. rewrite str_eqb_neq by done. by rewrite IH.
Qed.

Lemma dpop_sublist k d : sublist (dpop k d) d.
Proof.
  induction d as [|[k' v'] d IH]; cbn; [done|].
  destruct (str_eqb k k'); by constructor.
Qed.

Lemma dpop_ok k d : dict_ok d -> dict_ok (dpop k d).
Proof.
  unfold dict_ok, dkeys. intros H. eapply sublist_NoDup; [exact H|].
  apply fmap_sublist, dpop_sublist.
Qed.

Lemma dget_dpop_eq k d : dict_ok d -> dget k (dpop k d) = None.
Proof.
  unfold dict_ok. induction d as [|[k' v'] d IH]; cbn; [done|].
  intros [Hk Hd]%NoDup_cons. destruct (str_eqb k k') eqn:E; cbn.
  - apply str_eqb_eq in E as ->. by apply dget_None.
  - rewrite E. auto.
Qed.

Lemma dget_dpop_ne k k' d : k <> k' -> dget k (dpop k' d) = dget k d.
Proof.
  intros Hne. induction d as [|[k'' v] d IH]; cbn; [done|].
  destruct (str_eqb k' k'') eqn:E; cbn; [|by rewrite IH].
  apply str_eqb_eq in E as ->. by rewrite str_eqb_neq.
Qed.
End dict.

(** [v.get(k)] where [v] may not be a dict. *)
Definition attr_get (v : pyval) (k : pystr) : res (option pyval) :=
  match v with
  | VDict d => Ok (dget k d)
  | _ => Raise (Exn AttributeError (u "object has no attribute 'get'"))
  end.

Definition or_none (o : option pyval) : pyval := default VNone o.

(** [v.get(k)] on a value already known to be a dict; [None] otherwise. *)
Definition vget (v : pyval) (k : pystr) : pyval :=
  match v with VDict d => or_none (dget k d) | _ => VNone end.

(** ** Type tests and conversions *)

Definition is_str (v : pyval) : bool := match v with VStr _ => true | _ => false end.
Definition is_dict (v : pyval) : bool := match v with VDict _ => true | _ => false end.
Definition is_list (v : pyval) : bool := match v with VList _ => true | _ => false end.

(** [bool(v)] *)
Definition truthy (v : pyval) : bool :=
  match v with
  | VNone => false
  | VBool b => b
  | VInt z => negb (z =? 0)%Z
  | VFloat f => negb (feqb f f0)
  | VStr s => match s with [] => false | _ => true end
  | VList l => match l with [] => false | _ => true end
  | VDict d => match d with [] => false | _ => true end
  end.

(** The numeric value of a [bool], [int] or [float], for comparison. *)
Definition num_eqb (a b : pyval) : option bool :=
  let zf z f := Some (match cmp_Z_float z f with Some Eq => true | _ => false end) in
  match a, b with
  | VFloat f, VFloat g => Some (feqb f g)
  | VInt z, VFloat f | VFloat f, VInt z => zf z f
  | VBool x, VFloat f | VFloat f, VBool x => zf (Z.b2z x) f
  | VInt x, VInt y => Some (x =? y)%Z
  | VInt x, VBool y | VBool y, VInt x => Some (x =? Z.b2z y)%Z
  | VBool x, VBool y => Some (Bool.eqb x y)
  | _, _ => None
  end.

(** [a == b] *)
Fixpoint py_eqb (a b : pyval) {struct a} : bool :=
  match num_eqb a b with
  | Some r => r
  | None =>
      match a, b with
      | VNone, VNone => true
      | VStr s, VStr t => str_eqb s t
      | VList l, VList m =>
          (fix go l m := match l, m with
           | [], [] => true
           | x :: l', y :: m' => py_eqb x y && go l' m'
           | _, _ => false
           end) l m
      | VDict d, VDict e =>
          Nat.eqb (length d) (length e) &&
          (fix go d := match d with
           | [] => true
           | (k, x) :: d' => match dget k e with Some y => py_eqb x y | None => false end && go d'
           end) d
      | _, _ => false
      end
  end.

(** ** [repr] and [str] *)

Definition hex_digit (n : N) : N := if (n <? 10)%N then (48 + n)%N else (87 + n)%N.
Fixpoint hex_fixed (width : nat) (n : N) : pystr :=
  match width with
  | O => []
  | S w => hex_fixed w (n / 16)%N ++ [hex_digit (n mod 16)%N]
  end.

Definition repr_char (quote : N) (c : N) : pystr :=
  if (c =? quote)%N || (c =? 92)%N then [92%N; c]
  else if (c =? 9)%N then u "\t"
  else if (c =? 10)%N then u "\n"
  else if (c =? 13)%N then u "\r"
  else if (c <? 32)%N || (c =? 127)%N then u "\x" ++ hex_fixed 2 c
  else if (c <? 127)%N || is_printable c then [c]
  else if (c <? 256)%N then u "\x" ++ hex_fixed 2 c
  else if (c <? 65536)%N then u "\u" ++ hex_fixed 4 c
  else u "\U" ++ hex_fixed 8 c.

Definition repr_str (s : pystr) : pystr :=
  let quote := if has_char 39 s && negb (has_char 34 s) then 34%N else 39%N in
  quote :: mjoin (repr_char quote <$> s) ++ [quote].

Fixpoint py_repr (v : pyval) : pystr :=
  match v with
  | VNone => u "None"
  | VBool b => if b then u "True" else u "False"
  | VInt z => dec_Z z
  | VFloat f => float_repr f
  | VStr s => repr_str s
  | VList l => u "[" ++ join (u ", ") (py_repr <$> l) ++ u "]"
  | VDict d =>
      u "{" ++ join (u ", ") ((fun kv => repr_str kv.1 ++ u ": " ++ py_repr kv.2) <$> d) ++ u "}"
  end.

Definition py_str (v : pyval) : pystr :=
  match v with VStr s => s | _ => py_repr v end.

(** [isinstance(v, int)], with the number. *)
Definition int_value (v : pyval) : option Z := match v with VInt z => Some z | VBool b => Some (Z.b2z b) | _ => None end.

(** [int(v)] *)
Definition py_int (v : pyval) : res Z :=
  match v with
  | VInt z => Ok z
  | VBool b => Ok (Z.b2z b)
  | VFloat f => Z_of_float f
  | VStr s => int_of_str (repr_str s) s
  | _ => Raise (Exn TypeError (u "int() argument must be a string, a bytes-like object or a real number"))
  end.

(** [isinstance(v, (int, float)) and not isinstance(v, bool)], with [float(v)]. *)
Definition is_number (v : pyval) : bool :=
  match v with VInt _ | VFloat _ => true | _ => false end.

Definition float_of_num (v : pyval) : res float :=
  match v with
  | VInt z => float_of_Z z
  | VFloat f => Ok f
  | VBool b => float_of_Z (Z.b2z b)
  | _ => Raise (Exn TypeError (u "float() argument must be a string or a real number"))
  end.

(** [float(v)] *)
Definition py_float (v : pyval) : res float :=
  match v with
  | VStr s => float_of_str (repr_str s) s
  | _ => float_of_num v
  end.

(** [iter(v)]: list elements, characters of a string, keys of a dict. *)
Definition py_iter (v : pyval) : res (list pyval) :=
  match v with
  | VList l => Ok l
  | VStr s => Ok ((fun c => VStr [c]) <$> s)
  | VDict d => Ok (VStr <$> dkeys d)
  | _ => Raise (Exn TypeError (u "object is not iterable"))
  end.

(** Membership in a set of strings; hashing a list or a dict raises. *)
Definition in_str_set (v : pyval) (set : list pystr) : res bool :=
  match v with
  | VStr s => Ok (existsb (str_eqb s) set)
  | VList _ | VDict _ => Raise (Exn TypeError (u "unhashable type"))
  | _ => Ok false
  end.

Lemma existsb_str_eqb s set : existsb (str_eqb s) set = true <-> s ∈ set.
Proof.
  rewrite existsb_exists. split.
  - intros (x & Hx & ->%str_eqb_eq). by apply list_elem_of_In.
  - intros H. exists s. split; [by apply list_elem_of_In | apply str_eqb_refl].
Qed.

(** ** Well-formed values *)

(** Every dict inside the value has distinct keys. *)
Fixpoint val_ok (v : pyval) : Prop :=
  match v with
  | VList l => (fix go l := match l with [] => True | x :: t => val_ok x /\ go t end) l
  | VDict d =>
      NoDup d.*1 /\ (fix go d := match d with [] => True | (_, x) :: t => val_ok x /\ go t end) d
  | _ => True
  end.
