(* ===== verification/PyDyn.v ===== *)
(** * PyDyn: expressions over dynamically typed values

    The probes of [tools/run_local_bench.py] compute their verdicts from dictionaries of
    mixed values: [response["status"] == 431 and response.get("connection") == "close"].
    An expression is a value or the exception its evaluation raises; [and] and [or] stop
    early and keep the operand that decided, as in Python.  A [pyval] is an expression. *)

From Stdlib Require Import SpecFloat.
From S2P Require Import Prelude Unicode PyStr PyFloat PyVal.

Definition expr : Type := res pyval.
Definition value (v : pyval) : expr := Ok v.
Coercion value : pyval >-> expr.

(** [type(exc).__name__] *)
Definition exn_name (e : exn) : pystr :=
  match exn_class e with
  | ValueError => u "ValueError" | UnicodeEncodeError => u "UnicodeEncodeError" | JSONDecodeError => u "JSONDecodeError"
  | TypeError => u "TypeError" | AttributeError => u "AttributeError" | KeyError => u "KeyError"
  | IndexError => u "IndexError" | OverflowError => u "OverflowError" | RuntimeError => u "RuntimeError"
  | OSError => u "OSError" | FileNotFoundError => u "FileNotFoundError" | FileExistsError => u "FileExistsError"
  | IsADirectoryError => u "IsADirectoryError" | TimeoutExpired => u "TimeoutExpired" | EOFError => u "EOFError"
  | SystemExit => u "SystemExit" | TimeoutError => u "TimeoutError" | BrokenPipeError => u "BrokenPipeError"
  | ConnectionAbortedError => u "ConnectionAbortedError" | ConnectionRefusedError => u "ConnectionRefusedError"
  | ConnectionResetError => u "ConnectionResetError" | RemoteDisconnected => u "RemoteDisconnected"
  | BadStatusLine => u "BadStatusLine" | IncompleteRead => u "IncompleteRead" | LineTooLong => u "LineTooLong"
  | OutOfFuel => []
  end.

(** ** Operators *)

Definition subscript_error {A} : res A := Raise (Exn TypeError (u "object is not subscriptable")).

(** [a[k]], [a.get(k)] and [a.get(k, d)] for a string [k] *)
Definition item (a : expr) (k : pystr) : expr :=
  let* v := a in
  match v with
  | VDict d => match dget k d with Some x => Ok x | None => Raise (Exn KeyError (repr_str k)) end
  | _ => subscript_error
  end.

Definition get (a : expr) (k : pystr) : expr := let* v := a in let* r := attr_get v k in Ok (or_none r).

Definition get_or (a : expr) (k : pystr) (d : pyval) : expr := let* v := a in let* r := attr_get v k in Ok (default d r).

(** [a[n]] for a list and a non-negative constant *)
Definition nth_item (a : expr) (n : nat) : expr :=
  let* v := a in
  match v with
  | VList l => match l !! n with Some x => Ok x | None => Raise (Exn IndexError (u "list index out of range")) end
  | _ => subscript_error
  end.

Definition py_and (a b : expr) : expr := let* v := a in if truthy v then b else Ok v.
Definition py_or (a b : expr) : expr := let* v := a in if truthy v then Ok v else b.
Definition py_not (a : expr) : expr := let* v := a in Ok (VBool (negb (truthy v))).

Definition py_eq (a b : expr) : expr := let* x := a in let* y := b in Ok (VBool (py_eqb x y)).
Definition py_ne (a b : expr) : expr := let* x := a in let* y := b in Ok (VBool (negb (py_eqb x y))).

(** [a is None], [a is True] *)
Definition is_none (a : expr) : expr := let* v := a in Ok (VBool match v with VNone => true | _ => false end).
Definition is_true (a : expr) : expr := let* v := a in Ok (VBool match v with VBool true => true | _ => false end).

(** The order of two numbers; [None] for an unordered pair. *)
Definition num_compare (a b : pyval) : res (option comparison) :=
  match int_value a, int_value b, a, b with
  | Some x, Some y, _, _ => Ok (Some (x ?= y)%Z)
  | Some x, None, _, VFloat g => Ok (cmp_Z_float x g)
  | None, Some y, VFloat f, _ => Ok (CompOpp <$> cmp_Z_float y f)
  | None, None, VFloat f, VFloat g => Ok (SFcompare f g)
  | _, _, _, _ => Raise (Exn TypeError (u "comparison not supported between these types"))
  end.

Definition compared (p : comparison -> bool) (a b : expr) : expr :=
  let* x := a in let* y := b in let* c := num_compare x y in
  Ok (VBool match c with Some o => p o | None => false end).

Definition py_lt := compared (fun o => match o with Lt => true | _ => false end).
Definition py_le := compared (fun o => match o with Gt => false | _ => true end).
Definition py_gt := compared (fun o => match o with Gt => true | _ => false end).
Definition py_ge := compared (fun o => match o with Lt => false | _ => true end).

(** [a + b] and [a - b] on numbers *)
Definition arith (zop : Z -> Z -> Z) (fop : float -> float -> float) (a b : expr) : expr :=
  let* x := a in let* y := b in
  match int_value x, int_value y with
  | Some m, Some n => Ok (VInt (zop m n))
  | _, _ => let* f := float_of_num x in let* g := float_of_num y in Ok (VFloat (fop f g))
  end.

Definition py_sub : expr -> expr -> expr := arith Z.sub fsub.

(** [len(a)] *)
Definition py_len (a : expr) : expr :=
  let* v := a in
  match v with
  | VStr s => Ok (VInt (Z.of_nat (length s)))
  | VList l => Ok (VInt (Z.of_nat (length l)))
  | VDict d => Ok (VInt (Z.of_nat (length d)))
  | _ => Raise (Exn TypeError (u "object has no len()"))
  end.

(** [a[:n]] and [a[n:]] of a list *)
Definition slice_to (a : expr) (n : nat) : expr :=
  let* v := a in match v with VList l => Ok (VList (take n l)) | _ => subscript_error end.
Definition slice_from (a : expr) (n : nat) : expr :=
  let* v := a in match v with VList l => Ok (VList (drop n l)) | _ => subscript_error end.

(** [a in xs] for the elements of a list, and for a set of strings *)
Definition in_values (a : expr) (xs : expr) : expr :=
  let* v := a in let* w := xs in let* l := py_iter w in Ok (VBool (existsb (py_eqb v) l)).
Definition in_set (a : expr) (set : list pystr) : expr := let* v := a in let* b := in_str_set v set in Ok (VBool b).

(** [bool(a)] and [str.endswith], [str.lower] *)
Definition to_bool (a : expr) : expr := let* v := a in Ok (VBool (truthy v)).
Definition is_string (a : expr) : expr := let* v := a in Ok (VBool (is_str v)).
Definition py_endswith (a : expr) (suffix : pystr) : expr :=
  let* v := a in
  match v with VStr s => Ok (VBool (ends_with suffix s)) | _ => Raise (Exn AttributeError (u "object has no attribute 'endswith'")) end.
Definition py_lower (a : expr) : expr :=
  let* v := a in
  match v with VStr s => Ok (VStr (lower s)) | _ => Raise (Exn AttributeError (u "object has no attribute 'lower'")) end.

(** ** Displays and comprehensions *)

Definition record (fields : list (pystr * expr)) : expr :=
  let* d := mapR (fun f : pystr * expr => let* v := f.2 in Ok (f.1, v)) fields in Ok (VDict d).

Definition py_list (l : list expr) : expr := let* vs := mapR (fun e : expr => e) l in Ok (VList vs).

(** [[f(x) for x in xs]] and [[f(x) for x in xs if p(x)]] *)
Definition comp (f : pyval -> expr) (xs : expr) : expr :=
  let* w := xs in let* l := py_iter w in let* vs := mapR f l in Ok (VList vs).

Fixpoint filterR (p : pyval -> expr) (l : list pyval) : res (list pyval) :=
  match l with
  | [] => Ok []
  | x :: rest => let* v := p x in let* kept := filterR p rest in Ok (if truthy v then x :: kept else kept)
  end.

Fixpoint filter_mapR (f p : pyval -> expr) (l : list pyval) : res (list pyval) :=
  match l with
  | [] => Ok []
  | x :: rest =>
      let* v := p x in
      if truthy v then let* y := f x in let* ys := filter_mapR f p rest in Ok (y :: ys) else filter_mapR f p rest
  end.

Definition comp_if (f p : pyval -> expr) (xs : expr) : expr :=
  let* w := xs in let* l := py_iter w in let* vs := filter_mapR f p l in Ok (VList vs).

(** [all(f(x) for x in xs)] and [any(f(x) for x in xs)] *)
Fixpoint allR (f : pyval -> expr) (l : list pyval) : res bool :=
  match l with
  | [] => Ok true
  | x :: rest => let* v := f x in if truthy v then allR f rest else Ok false
  end.

Fixpoint anyR (f : pyval -> expr) (l : list pyval) : res bool :=
  match l with
  | [] => Ok false
  | x :: rest => let* v := f x in if truthy v then Ok true else anyR f rest
  end.

Definition all_of (f : pyval -> expr) (xs : expr) : expr :=
  let* w := xs in let* l := py_iter w in let* b := allR f l in Ok (VBool b).
Definition any_of (f : pyval -> expr) (xs : expr) : expr :=
  let* w := xs in let* l := py_iter w in let* b := anyR f l in Ok (VBool b).

(** [sum(1 for x in xs if p(x))] *)
Definition count_if (p : pyval -> expr) (xs : expr) : expr :=
  let* w := xs in let* l := py_iter w in let* kept := filterR p l in Ok (VInt (Z.of_nat (length kept))).

(** [list(a.values())] *)
Definition dict_values (a : expr) : expr :=
  let* v := a in
  match v with VDict d => Ok (VList (dvalues d)) | _ => Raise (Exn AttributeError (u "object has no attribute 'values'")) end.

(** [a + b] on lists *)
Definition concat_lists (a b : expr) : expr :=
  let* x := a in let* y := b in
  match x, y with
  | VList l, VList m => Ok (VList (l ++ m))
  | _, _ => Raise (Exn TypeError (u "can only concatenate list"))
  end.

(** [max((f(x) for x in xs), default=d)]: the first of the largest *)
Fixpoint maxR (best : pyval) (l : list pyval) : res pyval :=
  match l with
  | [] => Ok best
  | x :: rest =>
      let* c := num_compare x best in
      maxR (match c with Some Gt => x | _ => best end) rest
  end.

Definition max_of (f : pyval -> expr) (xs : expr) (d : pyval) : expr :=
  let* w := xs in let* l := py_iter w in let* vs := mapR f l in
  match vs with [] => Ok d | x :: rest => maxR x rest end.

(** [dict(collections.Counter(str(x) for x in xs))] *)
Definition counts_of (l : list pystr) : pydict :=
  foldl (fun d k => dset k (VInt (match dget k d with Some (VInt n) => n + 1 | _ => 1 end)%Z) d) [] l.
Definition str_counts (xs : expr) : expr :=
  let* w := xs in let* l := py_iter w in Ok (VDict (counts_of (py_str <$> l))).

(** ** Notation *)

Declare Scope dyn_scope.
Delimit Scope dyn_scope with dyn.
Notation "a @ k" := (item a (u k)) (at level 25, k at level 0, left associativity) : dyn_scope.
Notation "a ? k" := (get a (u k)) (at level 25, k at level 0, left associativity) : dyn_scope.
Notation "a == b" := (py_eq a b) (at level 70, no associativity) : dyn_scope.
Notation "a != b" := (py_ne a b) (at level 70, no associativity) : dyn_scope.
Notation "a < b" := (py_lt a b) : dyn_scope.
Notation "a <= b" := (py_le a b) : dyn_scope.
Notation "a > b" := (py_gt a b) : dyn_scope.
Notation "a >= b" := (py_ge a b) : dyn_scope.
Notation "a - b" := (py_sub a b) : dyn_scope.
Notation "a 'AND' b" := (py_and a b) (at level 76, right associativity) : dyn_scope.
Notation "a 'OR' b" := (py_or a b) (at level 77, right associativity) : dyn_scope.
Notation "k ':-' e" := (u k, (e%dyn : expr)) (at level 80, no associativity) : dyn_scope.
Notation "# n" := (VInt n) (at level 1, n at level 0, format "# n") : dyn_scope.
Notation "$ s" := (VStr (u s)) (at level 1, s at level 0, format "$ s") : dyn_scope.
