(* ===== verification/Provenance.v ===== *)
(** * Provenance: where a benchmark report comes from

    [tools/bench_provenance.py]: the timestamp and Git metadata a benchmark run
    records, and [provenance_errors], which the report checkers use to reject
    reports that do not say when and from which commit they were produced. *)

From Stdlib Require Import SpecFloat.
From S2P Require Import Prelude Unicode PyStr PyTime PyFloat PyVal.

(** ** Recording *)

(** [datetime.now(timezone.utc)], to the second. *)
Record utc_time := Utc { t_year : Z; t_month : Z; t_day : Z; t_hour : Z; t_minute : Z; t_second : Z }.

Definition digit (d : Z) : N := Z.to_N (48 + d mod 10).
Definition pad2 (z : Z) : pystr := [digit (z / 10); digit z].
Definition pad4 (z : Z) : pystr := [digit (z / 1000); digit (z / 100); digit (z / 10); digit z].

(** [now.isoformat(timespec="seconds").replace("+00:00", "Z")] *)
Definition generated_at_utc (now : utc_time) : pystr :=
  pad4 (t_year now) ++ u "-" ++ pad2 (t_month now) ++ u "-" ++ pad2 (t_day now) ++ u "T" ++
  pad2 (t_hour now) ++ u ":" ++ pad2 (t_minute now) ++ u ":" ++ pad2 (t_second now) ++ u "Z".

Section git.
(** [subprocess.run(["git", ...], cwd=..., timeout=2)]: the return code and
    output; [None] when it raises [OSError] or [SubprocessError]. *)
Context (run_git : pystr -> list pystr -> option (Z * pystr)).

Definition git_output (cwd : pystr) (args : list pystr) : option pystr :=
  match run_git cwd args with
  | None => None
  | Some (code, stdout) => if negb (code =? 0)%Z then None else Some (strip stdout)
  end.

Definition text_or_none (o : option pystr) : pyval := match o with Some s => VStr s | None => VNone end.

(** [x if cond else None], where [cond] is an optional string. *)
Definition when_set (cond : option pystr) (x : option pystr) : option pystr :=
  match cond with Some (_ :: _) => x | _ => None end.

Definition source_tree_metadata (cwd : pystr) : pydict :=
  let git_root := git_output cwd [u "rev-parse"; u "--show-toplevel"] in
  let git_commit := when_set git_root (git_output cwd [u "rev-parse"; u "HEAD"]) in
  let git_status := when_set git_root (git_output cwd [u "status"; u "--porcelain"]) in
  let git_dirty := match git_status with None => VNone | Some s => VBool (truthy (VStr s)) end in
  [(u "cwd", VStr cwd);
   (u "git_root", text_or_none git_root);
   (u "git_commit", text_or_none git_commit);
   (u "git_commit_short",
      text_or_none (when_set git_commit (git_output cwd [u "rev-parse"; u "--short=12"; u "HEAD"])));
   (u "git_branch",
      text_or_none (when_set git_commit (git_output cwd [u "rev-parse"; u "--abbrev-ref"; u "HEAD"])));
   (u "git_dirty", git_dirty)].
End git.

(** ** Checking *)

Definition is_hex (c : N) : bool := existsb (N.eqb c) (u "0123456789abcdefABCDEF").

Definition timestamp_errors (report : pydict) : list pystr :=
  match or_none (dget (u "generated_at_utc") report) with
  | VStr (c :: s) =>
      let generated_at := c :: s in
      if negb (ends_with (u "Z") generated_at) then
        [u "report generated_at_utc must be a UTC timestamp ending in Z"]
      else
        match fromisoformat_offset (take (length generated_at - 1) generated_at ++ u "+00:00") with
        | None => [u "report generated_at_utc is not ISO-8601 parseable"]
        | Some (Some 0%Z) => []
        | Some _ => [u "report generated_at_utc must parse as UTC"]
        end
  | _ => [u "report missing generated_at_utc provenance timestamp"]
  end.

(** A required non-empty string of [source_tree]. *)
Definition text_field_errors (source_tree : pydict) (key : pystr) : list pystr :=
  match or_none (dget key source_tree) with
  | VStr (_ :: _) => []
  | _ => [u "report source_tree." ++ key ++ u " must be a non-empty string"]
  end.

Definition commit_errors (source_tree : pydict) : list pystr :=
  let bad := [u "report source_tree.git_commit must be a full Git object id"] in
  match or_none (dget (u "git_commit") source_tree) with
  | VStr commit =>
      if negb ((length commit =? 40) || (length commit =? 64)) || negb (str_isalnum commit) then bad
      else if negb (forallb is_hex commit) then [u "report source_tree.git_commit must be hexadecimal"]
      else []
  | _ => bad
  end.

Definition short_errors (source_tree : pydict) : list pystr :=
  let bad := [u "report source_tree.git_commit_short must be a Git object id prefix"] in
  match or_none (dget (u "git_commit_short") source_tree) with
  | VStr short =>
      if negb ((7 <=? length short) && (length short <=? 64)) || negb (str_isalnum short) then bad
      else if negb (forallb is_hex short) then [u "report source_tree.git_commit_short must be hexadecimal"]
      else []
  | _ => bad
  end.

Definition dirty_errors (source_tree : pydict) : list pystr :=
  match dget (u "git_dirty") source_tree with
  | Some (VBool _) => []
  | _ => [u "report source_tree.git_dirty must be a boolean"]
  end.

Definition provenance_errors (report : pydict) : list pystr :=
  let errors := timestamp_errors report in
  match or_none (dget (u "source_tree") report) with
  | VDict source_tree =>
      errors ++ mjoin (text_field_errors source_tree <$> [u "cwd"; u "git_root"; u "git_branch"]) ++
      commit_errors source_tree ++ short_errors source_tree ++ dirty_errors source_tree
  | _ => errors ++ [u "report missing source_tree provenance object"]
  end.

(** ** A recorded timestamp is accepted *)

Definition utc_time_ok (t : utc_time) : Prop :=
  valid_date (t_year t) (t_month t) (t_day t) = true /\
  (0 <= t_hour t <= 23)%Z /\ (0 <= t_minute t <= 59)%Z /\ (0 <= t_second t <= 59)%Z.

Lemma digit_ascii d : is_ascii_digit (digit d) = true.
Proof.
  unfold is_ascii_digit, digit. pose proof (Z.mod_pos_bound d 10 ltac:(lia)).
  apply andb_true_iff. rewrite !N.leb_le. lia.
Qed.

Lemma digit_value d : (Z.of_N (digit d) - 48)%Z = (d mod 10)%Z.
Proof. unfold digit. pose proof (Z.mod_pos_bound d 10 ltac:(lia)). lia. Qed.

Lemma pad2_value z : (0 <= z <= 99)%Z -> (10 * (10 * 0 + (z / 10) mod 10) + z mod 10 = z)%Z.
Proof.
  intros H. pose proof (Z.div_mod z 10 ltac:(lia)) as Hz.
  rewrite (Z.mod_small (z / 10)); [lia|].
  split; [apply Z.div_pos; lia|apply Z.div_lt_upper_bound; lia].
Qed.

Lemma digits_pad2 z a b c : (0 <= z <= 99)%Z -> length a = c -> digits_at (a ++ pad2 z ++ b) c 2 = Some z.
Proof.
  intros Hz <-. unfold digits_at. rewrite drop_app_length. cbn [pad2 app take length forallb].
  rewrite !digit_ascii. cbn [Nat.eqb andb Nat.ltb Nat.leb foldl]. rewrite !digit_value. f_equal. by apply pad2_value.
Qed.

Lemma digits_pad4 z b : (0 <= z <= 9999)%Z -> digits_at (pad4 z ++ b) 0 4 = Some z.
Proof.
  intros Hz. unfold digits_at. cbn [pad4 app take drop length forallb]. rewrite !digit_ascii.
  cbn [Nat.eqb andb Nat.ltb Nat.leb foldl]. rewrite !digit_value. f_equal.
  rewrite take_0. cbn [foldl]. clear -Hz. Z.to_euclidean_division_equations. lia.
Qed.

Lemma digit_neq d c : is_ascii_digit c = false -> (digit d =? c)%N = false.
Proof. intros Hc. apply N.eqb_neq. intros <-. by rewrite digit_ascii in Hc. Qed.

Lemma digit_not_mark d : is_zone_mark (digit d) = false.
Proof. unfold is_zone_mark. by rewrite !digit_neq. Qed.

Lemma date_ok_recorded y m d :
  valid_date y m d = true -> date_ok (pad4 y ++ u "-" ++ pad2 m ++ u "-" ++ pad2 d) = true.
Proof.
  intros Hv. pose proof Hv as Hv'. unfold valid_date in Hv'. bool_prop. rewrite !Z.leb_le in *.
  assert (days_in_month y m <= 31)%Z by (unfold days_in_month; repeat case_match; lia).
  unfold date_ok. rewrite digits_pad4 by lia.
  set (text := pad4 y ++ u "-" ++ pad2 m ++ u "-" ++ pad2 d).
  change (char_at text 4 dash) with true. cbv iota.
  change (char_at text 5 week_mark) with (digit (m / 10) =? week_mark)%N. rewrite digit_neq by done.
  assert (digits_at text 5 2 = Some m) as ->.
  { change text with ((pad4 y ++ [45%N]) ++ pad2 m ++ (45%N :: pad2 d)). by rewrite digits_pad2 by (done || lia). }
  change (negb (Bool.eqb (char_at text (5 + 2) dash) true)) with false. cbv iota. change (5 + 3) with 8.
  assert (digits_at text 8 2 = Some d) as ->.
  { change text with ((pad4 y ++ [45%N] ++ pad2 m ++ [45%N]) ++ pad2 d ++ []). by rewrite digits_pad2 by (done || lia). }
  exact Hv.
Qed.

Definition clock_text (h mi s : Z) : pystr := pad2 h ++ u ":" ++ pad2 mi ++ u ":" ++ pad2 s.

Lemma clock_recorded h mi s :
  (0 <= h <= 23)%Z -> (0 <= mi <= 59)%Z -> (0 <= s <= 59)%Z -> clock (clock_text h mi s) = Some (h, mi, s, 0%Z).
Proof.
  intros Hh Hm Hs. unfold clock. set (text := clock_text h mi s).
  assert (digits_at text 0 2 = Some h) as -> by (apply (digits_pad2 h [] (u ":" ++ pad2 mi ++ u ":" ++ pad2 s) 0); [lia|done]).
  change (char_at text 2 58) with true. cbv iota.
  change (drop 2 text) with (58%N :: pad2 mi ++ u ":" ++ pad2 s). cbv iota. change (2 + 1) with 3.
  assert (digits_at text 3 2 = Some mi) as ->.
  { change text with ((pad2 h ++ [58%N]) ++ pad2 mi ++ (u ":" ++ pad2 s)). by rewrite digits_pad2 by (done || lia). }
  change (drop (4 + 1) text) with (58%N :: pad2 s). cbv iota.
  change (true && negb (58 =? 58)%N) with false. cbv iota. change (4 + 2 * 1) with 6.
  assert (digits_at text 6 2 = Some s) as ->.
  { change text with ((pad2 h ++ [58%N] ++ pad2 mi ++ [58%N]) ++ pad2 s ++ []). by rewrite digits_pad2 by (done || lia). }
  reflexivity.
Qed.

Lemma time_offset_recorded h mi s :
  (0 <= h <= 23)%Z -> (0 <= mi <= 59)%Z -> (0 <= s <= 59)%Z ->
  time_offset (clock_text h mi s ++ u "+00:00") = Some (Some 0%Z).
Proof.
  intros Hh Hm Hs. unfold time_offset.
  assert (Htw : take_while (fun c => negb (is_zone_mark c)) (clock_text h mi s ++ u "+00:00") = clock_text h mi s).
  { unfold clock_text. change (u ":") with [58%N]. change (u "+00:00") with (43%N :: u "00:00").
    cbn [pad2 app take_while]. rewrite !digit_not_mark. reflexivity. }
  rewrite Htw, clock_recorded by done. unfold clock_ok.
  rewrite !(proj2 (Z.leb_le _ _)) by lia. reflexivity.
Qed.

Lemma timestamp_recorded now report :
  utc_time_ok now -> dget (u "generated_at_utc") report = Some (VStr (generated_at_utc now)) ->
  timestamp_errors report = [].
Proof.
  intros (Hd & Hh & Hm & Hs) Hr. unfold timestamp_errors. rewrite Hr.
  set (stamp := pad4 (t_year now) ++ u "-" ++ pad2 (t_month now) ++ u "-" ++ pad2 (t_day now) ++ u "T" ++
                clock_text (t_hour now) (t_minute now) (t_second now)).
  assert (Hg : generated_at_utc now = stamp ++ [90%N]).
  { unfold generated_at_utc, stamp, clock_text. by rewrite <-!app_assoc. }
  assert (Hiso : fromisoformat_offset (stamp ++ u "+00:00") = Some (Some 0%Z)).
  { unfold fromisoformat_offset. change (length (stamp ++ u "+00:00") <? 7) with false. cbv iota.
    assert (date_end (stamp ++ u "+00:00") = Some 10) as ->.
    { unfold date_end. change (length (stamp ++ u "+00:00") =? 7) with false.
      change (char_at (stamp ++ u "+00:00") 4 dash) with true. cbv iota.
      change (char_at (stamp ++ u "+00:00") 5 week_mark) with (digit (t_month now / 10) =? week_mark)%N.
      by rewrite digit_neq. }
    change (take 10 (stamp ++ u "+00:00")) with (pad4 (t_year now) ++ u "-" ++ pad2 (t_month now) ++ u "-" ++ pad2 (t_day now)).
    rewrite date_ok_recorded by done.
    change (drop 11 (stamp ++ u "+00:00")) with (clock_text (t_hour now) (t_minute now) (t_second now) ++ u "+00:00").
    pose proof (time_offset_recorded _ _ _ Hh Hm Hs) as Ht. exact Ht. }
  rewrite Hg. change (or_none (Some (VStr (stamp ++ [90%N])))) with (VStr (stamp ++ [90%N])).
  change (stamp ++ [90%N]) with (digit (t_year now / 1000) :: drop 1 (stamp ++ [90%N])). cbv iota.
  change (digit (t_year now / 1000) :: drop 1 (stamp ++ [90%N])) with (stamp ++ [90%N]).
  assert (ends_with (u "Z") (stamp ++ [90%N]) = true) as ->.
  { unfold ends_with. rewrite rev_app_distr. reflexivity. }
  cbn [negb]. rewrite length_app. cbn [length]. rewrite Nat.add_sub, take_app_length, Hiso. reflexivity.
Qed.

(** ** What acceptance means *)

Definition object_id (lo hi : nat) (s : pystr) : Prop :=
  lo <= length s <= hi /\ str_isalnum s = true /\ Forall (fun c => is_hex c = true) s.

Definition provenance_ok (report : pydict) : Prop :=
  exists stamp tree commit short dirty,
    dget (u "generated_at_utc") report = Some (VStr (stamp ++ u "Z")) /\
    fromisoformat_offset (stamp ++ u "+00:00") = Some (Some 0%Z) /\
    dget (u "source_tree") report = Some (VDict tree) /\
    Forall (fun k => exists c s, dget k tree = Some (VStr (c :: s))) [u "cwd"; u "git_root"; u "git_branch"] /\
    dget (u "git_commit") tree = Some (VStr commit) /\ object_id 40 64 commit /\
    (length commit = 40 \/ length commit = 64) /\
    dget (u "git_commit_short") tree = Some (VStr short) /\ object_id 7 64 short /\
    dget (u "git_dirty") tree = Some (VBool dirty).

Lemma or_none_str o s : or_none o = VStr s -> o = Some (VStr s).
Proof. destruct o; cbn; congruence. Qed.

Lemma forallb_is_hex s : forallb is_hex s = true <-> Forall (fun c => is_hex c = true) s.
Proof. rewrite forallb_forall, Forall_forall. setoid_rewrite list_elem_of_In. done. Qed.

Lemma ends_with_Z s : ends_with (u "Z") s = true <-> exists t, s = t ++ u "Z".
Proof.
  unfold ends_with. rewrite starts_with_spec. change (rev (u "Z")) with [90%N]. split.
  - intros [t Ht]. exists (rev t). apply (f_equal (@rev N)) in Ht. rewrite rev_involutive in Ht. rewrite Ht. reflexivity.
  - intros [t ->]. exists (rev t). by rewrite rev_app_distr.
Qed.

Lemma timestamp_errors_nil report :
  timestamp_errors report = [] <->
  exists stamp, dget (u "generated_at_utc") report = Some (VStr (stamp ++ u "Z")) /\
    fromisoformat_offset (stamp ++ u "+00:00") = Some (Some 0%Z).
Proof.
  unfold timestamp_errors. split.
  - destruct (or_none (dget (u "generated_at_utc") report)) as [| | | |g| |] eqn:E; try done.
    apply or_none_str in E. destruct g as [|c g]; [done|].
    destruct (ends_with (u "Z") (c :: g)) eqn:Ez; [|done]. apply ends_with_Z in Ez as [t Ht]. cbn [negb].
    rewrite Ht in E |- *. rewrite length_app. change (length (u "Z")) with 1.
    rewrite Nat.add_sub, take_app_length. intros H. exists t. split; [done|].
    destruct (fromisoformat_offset _) as [[[]|]|]; done.
  - intros (stamp & -> & Hiso). cbn [or_none default from_option]. unfold id.
    assert (ends_with (u "Z") (stamp ++ u "Z") = true) as Hz by (apply ends_with_Z; eauto).
    destruct (stamp ++ u "Z") as [|c g] eqn:Eg; [by destruct stamp|]. rewrite <-Eg in *. rewrite Hz. cbn [negb].
    rewrite length_app. change (length (u "Z")) with 1. by rewrite Nat.add_sub, take_app_length, Hiso.
Qed.

Lemma text_field_errors_nil tree k :
  text_field_errors tree k = [] <-> exists c s, dget k tree = Some (VStr (c :: s)).
Proof.
  unfold text_field_errors. destruct (dget k tree) as [[| | | |[|c s]| |]|]; cbn; naive_solver.
Qed.

Lemma commit_errors_nil tree :
  commit_errors tree = [] <->
  exists s, dget (u "git_commit") tree = Some (VStr s) /\ object_id 40 64 s /\ (length s = 40 \/ length s = 64).
Proof.
  unfold commit_errors, object_id. split.
  - destruct (or_none (dget (u "git_commit") tree)) as [| | | |s| |] eqn:E; try done. apply or_none_str in E.
    destruct (_ || negb _) eqn:E1; [done|]. destruct (negb (forallb is_hex s)) eqn:E2; [done|]. intros _.
    bool_prop. apply orb_true_iff in H. rewrite !Nat.eqb_eq in H. exists s.
    split; [done|]. rewrite <-forallb_is_hex. split_and!; try done; lia.
  - intros (s & -> & (Hl & Ha & Hh) & Hlen). cbn [or_none default from_option]. unfold id.
    apply forallb_is_hex in Hh. rewrite Ha, Hh.
    assert ((length s =? 40) || (length s =? 64) = true) as -> by (apply orb_true_iff; rewrite !Nat.eqb_eq; done).
    done.
Qed.

Lemma short_errors_nil tree :
  short_errors tree = [] <-> exists s, dget (u "git_commit_short") tree = Some (VStr s) /\ object_id 7 64 s.
Proof.
  unfold short_errors, object_id. split.
  - destruct (or_none (dget (u "git_commit_short") tree)) as [| | | |s| |] eqn:E; try done. apply or_none_str in E.
    destruct (_ || negb _) eqn:E1; [done|]. destruct (negb (forallb is_hex s)) eqn:E2; [done|]. intros _.
    bool_prop. rewrite Nat.leb_le in *. exists s. split; [done|]. rewrite <-forallb_is_hex. done.
  - intros (s & -> & (Hl & Ha & Hh)). cbn [or_none default from_option]. unfold id.
    apply forallb_is_hex in Hh. rewrite Ha, Hh.
    assert ((7 <=? length s) && (length s <=? 64) = true) as -> by (apply andb_true_iff; rewrite !Nat.leb_le; lia).
    done.
Qed.

Lemma dirty_errors_nil tree : dirty_errors tree = [] <-> exists b, dget (u "git_dirty") tree = Some (VBool b).
Proof. unfold dirty_errors. destruct (dget (u "git_dirty") tree) as [[]|]; naive_solver. Qed.

Lemma app_nil_iff {A} (l1 l2 : list A) : l1 ++ l2 = [] <-> l1 = [] /\ l2 = [].
Proof. destruct l1; naive_solver. Qed.

Lemma fields_nil tree ks :
  mjoin (text_field_errors tree <$> ks) = [] <-> Forall (fun k => exists c s, dget k tree = Some (VStr (c :: s))) ks.
Proof.
  induction ks as [|k ks IH]; [split; [constructor|done]|]. rewrite fmap_cons, Forall_cons, <-IH, <-text_field_errors_nil.
  change (mjoin (text_field_errors tree k :: (text_field_errors tree <$> ks)))
    with (text_field_errors tree k ++ mjoin (text_field_errors tree <$> ks)). apply app_nil_iff.
Qed.

Lemma provenance_errors_nil report : provenance_errors report = [] <-> provenance_ok report.
Proof.
  unfold provenance_errors, provenance_ok. split.
  - destruct (or_none (dget (u "source_tree") report)) as [| | | | | |tree] eqn:E;
      try (intros [_ H]%app_nil_iff; done).
    rewrite !app_nil_iff, fields_nil, timestamp_errors_nil, commit_errors_nil, short_errors_nil, dirty_errors_nil.
    intros ((stamp & H1 & H2) & Hf & (c & Hc & Hoc & Hlc) & (s & Hs & Hos) & (b & Hb)).
    exists stamp, tree, c, s, b. split_and!; try done. destruct (dget (u "source_tree") report); cbn in E; congruence.
  - intros (stamp & tree & c & s & b & H1 & H2 & -> & Hf & Hc & Hoc & Hlc & Hs & Hos & Hb).
    cbn [or_none default from_option]. unfold id.
    rewrite !app_nil_iff, fields_nil, timestamp_errors_nil, commit_errors_nil, short_errors_nil, dirty_errors_nil.
    split_and!; eauto 10.
Qed.

(** ** Properties *)

(** C11. A report passes the provenance check exactly when it has a parseable UTC
    timestamp ending in Z and a source tree with non-empty paths and branch, a full
    hexadecimal commit id of 40 or 64 digits, a hexadecimal abbreviation of 7 to 64
    digits and a boolean dirty flag. *)
Theorem provenance_check_exact report : provenance_errors report = [] <-> provenance_ok report.
Proof. apply provenance_errors_nil. Qed.

(** C12. What the recorder writes the checker accepts: a report stamped with
    [generated_at_utc] at any valid time and with [source_tree_metadata] of a Git
    checkout whose commands answer as Git documents has no provenance errors. *)
Theorem recorded_provenance_accepted run_git now cwd root commit short branch status report :
  utc_time_ok now -> cwd <> [] ->
  git_output run_git cwd [u "rev-parse"; u "--show-toplevel"] = Some root -> root <> [] ->
  git_output run_git cwd [u "rev-parse"; u "HEAD"] = Some commit ->
  git_output run_git cwd [u "status"; u "--porcelain"] = Some status ->
  git_output run_git cwd [u "rev-parse"; u "--short=12"; u "HEAD"] = Some short ->
  git_output run_git cwd [u "rev-parse"; u "--abbrev-ref"; u "HEAD"] = Some branch -> branch <> [] ->
  object_id 40 64 commit -> length commit = 40 \/ length commit = 64 -> object_id 7 64 short ->
  dget (u "generated_at_utc") report = Some (VStr (generated_at_utc now)) ->
  dget (u "source_tree") report = Some (VDict (source_tree_metadata run_git cwd)) ->
  provenance_errors report = [].
Proof.
  intros Hnow Hcwd Hroot Hr Hcommit Hstatus Hshort Hbranch Hb Hoc Hlc Hos Hg Ht.
  unfold provenance_errors. rewrite Ht, (timestamp_recorded now) by done.
  change (or_none (Some (VDict (source_tree_metadata run_git cwd)))) with (VDict (source_tree_metadata run_git cwd)).
  unfold source_tree_metadata. rewrite Hroot, Hcommit, Hstatus, Hshort, Hbranch.
  destruct root as [|r0 root]; [done|]. destruct branch as [|b0 branch]; [done|]. destruct cwd as [|c0 cwd]; [done|].
  destruct commit as [|h0 commit]; [destruct Hlc; done|]. cbn [when_set text_or_none].
  rewrite !app_nil_iff, fields_nil, commit_errors_nil, short_errors_nil, dirty_errors_nil.
  split_and!; try done.
  - repeat constructor; repeat eexists.
  - exists (h0 :: commit). done.
  - exists short. done.
  - by eexists.
Qed.

Definition sample_git (cwd : pystr) (args : list pystr) : option (Z * pystr) :=
  if bool_decide (args = [u "rev-parse"; u "HEAD"]) then Some (0%Z, u "0123456789abcdef0123456789abcdef01234567" ++ [10%N])
  else if bool_decide (args = [u "rev-parse"; u "--short=12"; u "HEAD"]) then Some (0%Z, u "0123456789ab" ++ [10%N])
  else if bool_decide (args = [u "status"; u "--porcelain"]) then Some (0%Z, [])
  else Some (0%Z, u "main" ++ [10%N]).

Lemma recorded_provenance_accepted_witness :
  provenance_errors
    [(u "generated_at_utc", VStr (generated_at_utc (Utc 2024 2 29 23 59 8)));
     (u "source_tree", VDict (source_tree_metadata sample_git (u "/repo")))] = [].
Proof.
  apply (recorded_provenance_accepted sample_git (Utc 2024 2 29 23 59 8) (u "/repo") (u "main")
    (u "0123456789abcdef0123456789abcdef01234567") (u "0123456789ab") (u "main") []).
  - unfold utc_time_ok. cbn. split; [reflexivity|lia].
  - discriminate.
  - vm_compute. reflexivity.
  - discriminate.
  - vm_compute. reflexivity.
  - vm_compute. reflexivity.
  - vm_compute. reflexivity.
  - vm_compute. reflexivity.
  - discriminate.
  - split; [vm_compute; lia|]. split; [reflexivity|]. apply forallb_is_hex. reflexivity.
  - left. reflexivity.
  - split; [vm_compute; lia|]. split; [reflexivity|]. apply forallb_is_hex. reflexivity.
  - reflexivity.
  - reflexivity.
Defined.
