(* ===== verification/Json.v ===== *)
(** * Json: Python's [json.loads] and [json.dumps]

    The decoder and encoder the tools read and write their files with:
    [json.loads] on text (with [NaN]/[Infinity], surrogate-pair escapes, last
    duplicate key wins, the integer digit limit), and [json.dumps] with
    [ensure_ascii] in the three layouts used (default, compact, and
    [indent=2, sort_keys=True]). *)

From Stdlib Require Import SpecFloat.
From S2P Require Import Prelude Unicode PyStr PyFloat PyVal.

(** ** Decoder *)

Definition decode_error {A} (msg : pystr) : res A := Raise (Exn JSONDecodeError msg).

(** Raised by the model when the fuel runs out; [loads] never raises it
    ([loads_fed]). *)
Definition out_of_fuel {A} : res A := Raise (Exn SystemExit (u "json fuel")).

Definition is_ws (c : N) : bool := existsb (N.eqb c) [32; 9; 10; 13]%N.
Definition skip_ws (s : pystr) : pystr := drop_while is_ws s.

Definition hex_value (c : N) : option N :=
  if (48 <=? c)%N && (c <=? 57)%N then Some (c - 48)%N
  else if (97 <=? c)%N && (c <=? 102)%N then Some (c - 87)%N
  else if (65 <=? c)%N && (c <=? 70)%N then Some (c - 55)%N
  else None.

Definition hex4 (a b c d : N) : option N :=
  match hex_value a, hex_value b, hex_value c, hex_value d with
  | Some a, Some b, Some c, Some d => Some (((a * 16 + b) * 16 + c) * 16 + d)%N
  | _, _, _, _ => None
  end.

Definition is_high (c : N) : bool := (55296 <=? c)%N && (c <=? 56319)%N.
Definition is_low (c : N) : bool := (56320 <=? c)%N && (c <=? 57343)%N.
Definition join_surrogates (h l : N) : N := (65536 + (h - 55296) * 1024 + (l - 56320))%N.

(** The one-letter escapes. *)
Definition simple_escape (c : N) : option N :=
  if (c =? 34)%N then Some 34%N        (* quote *)
  else if (c =? 92)%N then Some 92%N   (* backslash *)
  else if (c =? 47)%N then Some 47%N   (* slash *)
  else if (c =? 98)%N then Some 8%N    (* b *)
  else if (c =? 102)%N then Some 12%N  (* f *)
  else if (c =? 110)%N then Some 10%N  (* n *)
  else if (c =? 114)%N then Some 13%N  (* r *)
  else if (c =? 116)%N then Some 9%N   (* t *)
  else None.

(** The body of a string literal, after its opening quote. *)
Fixpoint scan_string (s : pystr) : option (pystr * pystr) :=
  let push c r := match r with Some (t, rest) => Some (c :: t, rest) | None => None end in
  match s with
  | [] => None
  | c :: t =>
      if (c =? 34)%N then Some ([], t)
      else if (c =? 92)%N then
        match t with
        | [] => None
        | e :: t1 =>
            if (e =? 117)%N then
              match t1 with
              | a :: b :: c' :: d :: t2 =>
                  match hex4 a b c' d with
                  | None => None
                  | Some h =>
                      if is_high h then
                        match t2 with
                        | b0 :: u0 :: a' :: b' :: c'' :: d' :: t3 =>
                            if (b0 =? 92)%N && (u0 =? 117)%N then
                              match hex4 a' b' c'' d' with
                              | Some l => if is_low l then push (join_surrogates h l) (scan_string t3)
                                          else push h (scan_string t2)
                              | None => push h (scan_string t2)
                              end
                            else push h (scan_string t2)
                        | _ => push h (scan_string t2)
                        end
                      else push h (scan_string t2)
                  end
              | _ => None
              end
            else match simple_escape e with
                 | Some x => push x (scan_string t1)
                 | None => None
                 end
        end
      else if (c <? 32)%N then None
      else push c (scan_string t)
  end.

(** *** Numbers *)

Fixpoint scan_ascii_digits (s : pystr) : pystr * pystr :=
  match s with
  | c :: t => if is_ascii_digit c then let '(ds, r) := scan_ascii_digits t in (c :: ds, r) else ([], s)
  | [] => ([], [])
  end.

Definition digits_value (ds : pystr) : N := foldl (fun acc c => 10 * acc + (c - 48))%N 0%N ds.

(** [(\.\d+)?] *)
Definition scan_frac (s : pystr) : option (pystr * pystr) :=
  match s with
  | c :: t => if (c =? 46)%N then match scan_ascii_digits t with
                                 | ([], _) => None
                                 | (ds, r) => Some (ds, r)
                                 end
              else None
  | [] => None
  end.

(** [([eE][-+]?\d+)?] *)
Definition scan_exp (s : pystr) : option (Z * pystr) :=
  match s with
  | c :: t =>
      if (c =? 101)%N || (c =? 69)%N then
        let '(neg, t') := match t with
                          | d :: r => if (d =? 45)%N then (true, r) else if (d =? 43)%N then (false, r) else (false, t)
                          | [] => (false, t)
                          end in
        match scan_ascii_digits t' with
        | ([], _) => None
        | (ds, r) => Some (if neg then (- Z.of_N (digits_value ds))%Z else Z.of_N (digits_value ds), r)
        end
      else None
  | [] => None
  end.

Definition int_limit_error {A} : res A :=
  Raise (Exn ValueError (u "Exceeds the limit (4300 digits) for integer string conversion")).

(** The integer part: a single zero or a run of digits. *)
Definition int_part (t : pystr) : pystr * pystr :=
  match t with
  | c :: r => if (c =? 48)%N then ([c], r) else scan_ascii_digits t
  | [] => ([], [])
  end.

(** The value of an integer part followed by an optional fraction and exponent. *)
Definition number_tail (neg : bool) (ip r : pystr) : res (pyval * pystr) :=
  match ip with
  | [] => decode_error (u "Expecting value")
  | _ =>
      match scan_frac r, scan_exp (match scan_frac r with Some (_, r') => r' | None => r end) with
      | None, None =>
          if length ip <=? int_max_str_digits
          then Ok (VInt (if neg then - Z.of_N (digits_value ip) else Z.of_N (digits_value ip))%Z, r)
          else int_limit_error
      | frac, ex =>
          let fd := match frac with Some (ds, _) => ds | None => [] end in
          let e := match ex with Some (z, _) => z | None => 0%Z end in
          let rest := match ex, frac with
                      | Some (_, r'), _ => r'
                      | None, Some (_, r') => r'
                      | None, None => r
                      end in
          Ok (VFloat (float_of_decimal neg (digits_value (ip ++ fd)) (length (ip ++ fd))
                        (e - Z.of_nat (length fd))), rest)
      end
  end.

Definition scan_number (s : pystr) : res (pyval * pystr) :=
  let '(neg, t) := match s with
                   | c :: r => if (c =? 45)%N then (true, r) else (false, s)
                   | [] => (false, s)
                   end in
  let '(ip, r) := int_part t in number_tail neg ip r.

(** *** Values *)

(** A keyword literal. *)
Definition strip_prefix (p s : pystr) : option pystr :=
  if starts_with p s then Some (drop (length p) s) else None.

Definition scan_atom (s : pystr) : res (pyval * pystr) :=
  match strip_prefix (u "null") s with Some r => Ok (VNone, r) | None =>
  match strip_prefix (u "true") s with Some r => Ok (VBool true, r) | None =>
  match strip_prefix (u "false") s with Some r => Ok (VBool false, r) | None =>
  match strip_prefix (u "NaN") s with Some r => Ok (VFloat S754_nan, r) | None =>
  match strip_prefix (u "Infinity") s with Some r => Ok (VFloat finf, r) | None =>
  match strip_prefix (u "-Infinity") s with Some r => Ok (VFloat (S754_infinity true), r) | None =>
  scan_number s end end end end end end.

(** The rest of [s] after the character [c]. *)
Definition eat (c : N) (s : pystr) : option pystr :=
  match s with
  | x :: t => if (x =? c)%N then Some t else None
  | [] => None
  end.

Fixpoint parse_value (fuel : nat) (s : pystr) {struct fuel} : res (pyval * pystr) :=
  match fuel with
  | O => out_of_fuel
  | S f =>
      match s with
      | [] => decode_error (u "Expecting value")
      | c :: t =>
          if (c =? 34)%N then
            match scan_string t with
            | Some (str, r) => Ok (VStr str, r)
            | None => decode_error (u "Invalid string")
            end
          else if (c =? 123)%N then
            match eat 125 (skip_ws t) with
            | Some r => Ok (VDict [], r)
            | None => parse_members f [] (skip_ws t)
            end
          else if (c =? 91)%N then
            match eat 93 (skip_ws t) with
            | Some r => Ok (VList [], r)
            | None => parse_items f [] (skip_ws t)
            end
          else scan_atom s
      end
  end
with parse_members (fuel : nat) (acc : pydict) (s : pystr) {struct fuel} : res (pyval * pystr) :=
  match fuel with
  | O => out_of_fuel
  | S f =>
      match eat 34 s with
      | None => decode_error (u "Expecting property name enclosed in double quotes")
      | Some t =>
          match scan_string t with
          | None => decode_error (u "Invalid string")
          | Some (key, r) =>
              match eat 58 (skip_ws r) with
              | None => decode_error (u "Expecting ':' delimiter")
              | Some r1 =>
                  let* '(v, r2) := parse_value f (skip_ws r1) in
                  let acc' := dset key v acc in
                  match eat 44 (skip_ws r2), eat 125 (skip_ws r2) with
                  | Some r3, _ => parse_members f acc' (skip_ws r3)
                  | None, Some r3 => Ok (VDict acc', r3)
                  | None, None => decode_error (u "Expecting ',' delimiter")
                  end
              end
          end
      end
  end
with parse_items (fuel : nat) (acc : list pyval) (s : pystr) {struct fuel} : res (pyval * pystr) :=
  match fuel with
  | O => out_of_fuel
  | S f =>
      let* '(v, r) := parse_value f s in
      let acc' := acc ++ [v] in
      match eat 44 (skip_ws r), eat 93 (skip_ws r) with
      | Some r1, _ => parse_items f acc' (skip_ws r1)
      | None, Some r1 => Ok (VList acc', r1)
      | None, None => decode_error (u "Expecting ',' delimiter")
      end
  end.

(** [json.loads(text)] *)
Definition loads (text : pystr) : res pyval :=
  match eat 65279 text with
  | Some _ => decode_error (u "Unexpected UTF-8 BOM (decode using utf-8-sig)")
  | None =>
      let* '(v, r) := parse_value (2 * length text + 2) (skip_ws text) in
      match skip_ws r with
      | [] => Ok v
      | _ => decode_error (u "Extra data")
      end
  end.

(** ** Encoder *)

Definition escape_char (c : N) : pystr :=
  if (c =? 34)%N then [92; 34]%N
  else if (c =? 92)%N then [92; 92]%N
  else if (c =? 10)%N then u "\n"
  else if (c =? 13)%N then u "\r"
  else if (c =? 9)%N then u "\t"
  else if (c =? 12)%N then u "\f"
  else if (c =? 8)%N then u "\b"
  else if (32 <=? c)%N && (c <=? 126)%N then [c]
  else if (c <? 65536)%N then u "\u" ++ hex_fixed 4 c
  else let v := (c - 65536)%N in
       u "\u" ++ hex_fixed 4 (55296 + v / 1024)%N ++ u "\u" ++ hex_fixed 4 (56320 + v mod 1024)%N.

Definition quote_json (s : pystr) : pystr := [34%N] ++ mjoin (escape_char <$> s) ++ [34%N].

(** [indent], the two separators and [sort_keys]. *)
Record layout_style := Style {
  st_indent : option nat;
  st_item : pystr;
  st_key : pystr;
  st_sort : bool }.

Definition default_style := Style None (u ", ") (u ": ") false.
Definition compact_style := Style None (u ",") (u ":") false.
Definition pretty_style := Style (Some 2) (u ",") (u ": ") true.

(** The line break and indentation of nesting level [n]. *)
Definition newline (st : layout_style) (n : nat) : pystr :=
  match st_indent st with
  | Some k => 10%N :: replicate (k * n) 32%N
  | None => []
  end.

Definition by_key {A} (a b : pystr * A) : bool := str_leb a.1 b.1.

Definition float_json (f : float) : pystr :=
  match f with
  | S754_nan => u "NaN"
  | S754_infinity s => (if s then u "-" else []) ++ u "Infinity"
  | _ => float_repr f
  end.

(** Items laid out between two brackets. *)
Definition bracketed (st : layout_style) (n : nat) (op cl : pystr) (items : list pystr) : pystr :=
  match items with
  | [] => op ++ cl
  | _ => op ++ newline st (S n) ++ join (st_item st ++ newline st (S n)) items ++ newline st n ++ cl
  end.

Fixpoint dumps_at (st : layout_style) (n : nat) (v : pyval) : pystr :=
  match v with
  | VNone => u "null"
  | VBool b => if b then u "true" else u "false"
  | VInt z => dec_Z z
  | VFloat f => float_json f
  | VStr s => quote_json s
  | VList l => bracketed st n (u "[") (u "]") (dumps_at st (S n) <$> l)
  | VDict d =>
      let texts := (fun kv => (kv.1, quote_json kv.1 ++ st_key st ++ dumps_at st (S n) kv.2)) <$> d in
      bracketed st n (u "{") (u "}") (if st_sort st then py_sorted by_key texts else texts).*2
  end.

Definition dumps (st : layout_style) (v : pyval) : pystr := dumps_at st 0 v.
