(* ===== verification/DefenseAssert.v ===== *)
(** * DefenseAssert: the defense-benchmark report checker

    [tools/assert_defense_bench.py]: the checks that turn a benchmark report into a
    list of error messages, the audit of tracked artifacts, and [main]'s verdict.
    A huge integer in a report makes [float()] raise, so the numeric checks live in
    the error monad. *)

From Stdlib Require Import SpecFloat.
From S2P Require Import Prelude Unicode PyStr PyTime PyFloat PyVal Provenance Json.

(** ** Values *)

Definition UNSCORED_LAYERS : list pystr := [u "direct_upstream"].
Definition STATIC_ONLY_LAYERS : list pystr := [u "static_filter"].

(** A looked-up value, [None] standing for [MISSING]. *)
Definition format_value (value : option pyval) : pystr :=
  match value with None => u "<missing>" | Some v => py_repr v end.

(** [x in names] for a set of strings. *)
Definition mem (x : pystr) (names : list pystr) : bool := existsb (str_eqb x) names.

(** [float(value)] of a non-boolean number, when it is finite. *)
Definition finite_number (value : option pyval) : res (option float) :=
  match value with
  | Some (VInt z) => let* f := float_of_Z z in Ok (if is_finite f then Some f else None)
  | Some (VFloat f) => Ok (if is_finite f then Some f else None)
  | _ => Ok None
  end.

Definition phase_number (phase : pydict) (key : pystr) : res (option float) := finite_number (dget key phase).
Definition score_number (score : pydict) (key : pystr) : res (option float) := finite_number (dget key score).

Definition score_non_negative_int (score : pydict) (key : pystr) : option Z :=
  match dget key score with
  | Some (VInt z) => if (z <? 0)%Z then None else Some z
  | _ => None
  end.

Definition layer_score (layer : pydict) : option pydict :=
  match dget (u "effective_target_score") layer with Some (VDict s) => Some s | _ => None end.

(** [score.get(key) is True] *)
Definition flag_is (b : bool) (score : pydict) (key : pystr) : bool :=
  match dget key score with Some (VBool x) => Bool.eqb x b | _ => false end.

Definition score_passes (score : pydict) : bool :=
  flag_is true score (u "meets_attacker_block_target") &&
  flag_is true score (u "meets_benign_allow_target") &&
  match score_non_negative_int score (u "bypass_errors") with Some z => (z =? 0)%Z | None => false end.

(** ** Messages *)

Definition of_int (z : Z) : float := float_of_Q z 1.

(** The number under [key] must exist and satisfy [good]. *)
Definition expect_number (where_ expected : pystr) (phase : pydict) (key : pystr) (good : float -> bool)
    (suffix : pystr) : res (list pystr) :=
  let* n := phase_number phase key in
  let ok := match n with Some f => good f | None => false end in
  Ok (if ok then []
      else [where_ ++ u ": expected " ++ key ++ expected ++ u ", found " ++ format_value (dget key phase) ++ suffix]).

Definition positive_number (f : float) : bool := negb (fleb f f0).
Definition zero_number (f : float) : bool := feqb f f0.
Definition mostly_allowed (f : float) : bool := negb (fltb f (of_int 95)).

Definition phase_has_hung_workers (phase : pydict) : res bool :=
  let* n := phase_number phase (u "hung_workers") in
  Ok match n with Some f => negb (feqb f f0) | None => true end.

Definition phase_hung_message (scenario layer : pystr) (payload : pydict) (phase_name : pystr) : res (list pystr) :=
  match dget phase_name payload with
  | Some (VDict phase) =>
      let* hung := phase_has_hung_workers phase in
      Ok (if hung
          then [scenario ++ u "/" ++ layer ++ u "/" ++ phase_name ++ u " had hung_workers=" ++
                format_value (dget (u "hung_workers") phase)]
          else [])
  | _ => Ok []
  end.

Definition concatR {A B} (f : A -> res (list B)) (l : list A) : res (list B) :=
  let* ls := mapR f l in Ok (mjoin ls).

Definition phase_hung_messages (scenario layer : pystr) (payload : pydict) : res (list pystr) :=
  concatR (phase_hung_message scenario layer payload)
    [u "direct_upstream"; u "collect"; u "replay"; u "bypass_probe"].

Definition layer_error_messages (scenario layer : pystr) (payload : pydict) : list pystr :=
  let metrics_errors := or_none (dget (u "metrics_errors") payload) in
  if truthy metrics_errors
  then [scenario ++ u "/" ++ layer ++ u " had metrics_errors=" ++ py_repr metrics_errors]
  else [].

Definition number_at_least_errors (report : pydict) (key : pystr) (minimum : option pyval) : res (list pystr) :=
  match minimum with
  | None => Ok []
  | Some m =>
      let value := or_none (dget key report) in
      match value with
      | VInt _ | VFloat _ =>
          let* numeric := float_of_num value in
          let* low := float_of_num m in
          Ok (if negb (is_finite numeric) || fltb numeric low
              then [u "report " ++ key ++ u " must be >= " ++ py_str m ++ u ", found " ++ py_repr value]
              else [])
      | _ => Ok [u "report " ++ key ++ u " must be numeric and >= " ++ py_str m ++ u ", found " ++ py_repr value]
      end
  end.

Definition expected_value_errors (report : pydict) (key : pystr) (expected : option pyval) : list pystr :=
  match expected with
  | None => []
  | Some e =>
      let value := dget key report in
      if match value with Some v => py_eqb v e | None => false end then []
      else [u "report " ++ key ++ u " expected " ++ py_repr e ++ u ", found " ++ format_value value]
  end.

(** ** Name sets *)

(** A set of names is a list without duplicates. *)
Definition parse_name_set (raw : option pystr) : option (list pystr) :=
  match raw with
  | None => None
  | Some s => Some (remove_dups (filter (fun x => x <> []) (strip <$> split_on 44 s)))
  end.

Definition set_minus (a b : list pystr) : list pystr := filter (fun x => x ∉ b) a.
Definition sorted_names (l : list pystr) : list pystr := py_sorted str_leb l.

(** The shared "missing" and "unexpected" messages of two sets. *)
Definition set_difference_errors (missing_text unexpected_text : pystr) (expected actual : list pystr) : list pystr :=
  match sorted_names (set_minus expected actual) with
  | [] => []
  | l => [missing_text ++ join (u ", ") l]
  end ++
  match sorted_names (set_minus actual expected) with
  | [] => []
  | l => [unexpected_text ++ join (u ", ") l]
  end.

Definition scenario_name_errors (scenarios : pydict) (expected_names : option (list pystr)) : list pystr :=
  match expected_names with
  | None => []
  | Some [] => [u "expected scenario set must not be empty"]
  | Some names =>
      set_difference_errors (u "missing expected scenarios: ") (u "unexpected scenarios: ") names (dkeys scenarios)
  end.

Definition observed_layer : pystr := u "learned_filter_observed".

Definition layer_name_errors (scenario : pystr) (scenario_data : pydict)
    (expected_common_layers observed_learning_scenarios : option (list pystr)) : list pystr :=
  match expected_common_layers with
  | Some [] => [u "expected common layer set must not be empty"]
  | _ =>
      let expected_layers :=
        match observed_learning_scenarios with
        | None => expected_common_layers
        | Some observed =>
            let base := default (dkeys scenario_data) expected_common_layers in
            Some (if mem scenario observed
                  then (if mem observed_layer base then base else base ++ [observed_layer])
                  else filter (fun x => x <> observed_layer) base)
        end in
      match expected_layers with
      | None => []
      | Some expected =>
          set_difference_errors (scenario ++ u ": missing expected layers: ")
            (scenario ++ u ": unexpected layers: ") expected (dkeys scenario_data)
      end
  end.

Definition has_observed_layer (kv : pystr * pyval) : bool :=
  match kv.2 with VDict d => dmem observed_layer d | _ => false end.

Definition observed_learning_scenario_errors (scenarios : pydict) (expected_names : option (list pystr)) :
    list pystr :=
  match expected_names with
  | None => []
  | Some [] => [u "expected observed-learning scenario set must not be empty"]
  | Some names =>
      set_difference_errors (u "missing expected observed-learning scenarios: ")
        (u "unexpected observed-learning scenarios: ") names
        (filter (fun kv => has_observed_layer kv = true) scenarios).*1
  end.

Definition static_only_scenario_errors (actual_names : list pystr) (expected_names : option (list pystr)) :
    list pystr :=
  match expected_names with
  | None => []
  | Some names =>
      set_difference_errors (u "missing expected static-only scenarios: ")
        (u "unexpected static-only scenarios: ") names actual_names
  end.

(** ** Scenario checks *)

Definition direct_baseline_errors (scenario : pystr) (scenario_data : pydict) : res (list pystr) :=
  match dget (u "direct_upstream") scenario_data with
  | Some (VDict baseline) =>
      let where_ := scenario ++ u "/direct_upstream" in
      let* e1 := expect_number where_ (u ">0") baseline (u "requests") positive_number [] in
      let* e2 := expect_number where_ (u "=0") baseline (u "errors") zero_number [] in
      let* e3 := expect_number where_ (u "=0") baseline (u "hung_workers") zero_number [] in
      let* e4 := expect_number where_ (u ">=95.0") baseline (u "allowed_percent") mostly_allowed [] in
      Ok (e1 ++ e2 ++ e3 ++ e4)
  | _ => Ok [scenario ++ u ": missing direct_upstream baseline"]
  end.

(** The sample suffix of a failed error count. *)
Definition sample_suffix (phase : pydict) : pystr :=
  match dget (u "error_samples") phase with
  | Some (VList (x :: l)) => u "; samples=" ++ py_repr (VList (take 3 (x :: l)))
  | _ => []
  end.

Definition phase_traffic_errors (scenario layer phase_name : pystr) (phase : pyval) (required : bool) :
    res (list pystr) :=
  match phase with
  | VNone => Ok (if required then [scenario ++ u "/" ++ layer ++ u ": missing " ++ phase_name ++ u " phase"] else [])
  | VDict d =>
      let where_ := scenario ++ u "/" ++ layer ++ u "/" ++ phase_name in
      let* e1 := expect_number where_ (u ">0") d (u "requests") positive_number [] in
      let* e2 := expect_number where_ (u "=0") d (u "errors") zero_number (sample_suffix d) in
      let* e3 := expect_number where_ (u "=0") d (u "hung_workers") zero_number [] in
      Ok (e1 ++ e2 ++ e3)
  | _ => Ok [scenario ++ u "/" ++ layer ++ u "/" ++ phase_name ++ u ": phase payload is not an object"]
  end.

Definition layer_traffic_errors (scenario layer : pystr) (payload : pydict) : res (list pystr) :=
  if mem layer UNSCORED_LAYERS then Ok []
  else
    let* e1 := phase_traffic_errors scenario layer (u "collect") (or_none (dget (u "collect") payload)) true in
    let* e2 := phase_traffic_errors scenario layer (u "replay") (or_none (dget (u "replay") payload))
                 (starts_with (u "learned_filter_") layer) in
    let* e3 := phase_traffic_errors scenario layer (u "bypass_probe") (or_none (dget (u "bypass_probe") payload))
                 (match layer_score payload with Some _ => true | None => false end) in
    Ok (e1 ++ e2 ++ e3).

Definition open_proxy_negative_control_errors (scenario : pystr) (scenario_data : pydict) : res (list pystr) :=
  match dget (u "proxy_open") scenario_data with
  | Some (VDict layer) =>
      let collect := or_none (dget (u "collect") layer) in
      let* e1 := phase_traffic_errors scenario (u "proxy_open") (u "collect") collect true in
      let* e2 := match collect with
                 | VDict c => expect_number (scenario ++ u "/proxy_open/collect") (u ">=95.0") c
                                (u "allowed_percent") mostly_allowed []
                 | _ => Ok []
                 end in
      let e3 :=
        match layer_score layer with
        | None => [scenario ++ u "/proxy_open: missing effective_target_score"]
        | Some score =>
            if flag_is false score (u "meets_attacker_block_target") then []
            else [scenario ++ u "/proxy_open: expected meets_attacker_block_target=false, found " ++
                  format_value (dget (u "meets_attacker_block_target") score)]
        end in
      Ok (e1 ++ e2 ++ e3)
  | _ => Ok [scenario ++ u ": missing proxy_open negative-control layer"]
  end.

(** ** Score checks *)

Definition must_be (prefix key requirement : pystr) (score : pydict) : pystr :=
  prefix ++ u ": " ++ key ++ u " must be " ++ requirement ++ u ", found " ++ format_value (dget key score).

Definition bool_flag (score : pydict) (key : pystr) : option bool :=
  match dget key score with Some (VBool b) => Some b | _ => None end.

Definition py_bool_str (b : bool) : pystr := if b then u "True" else u "False".

Definition attacker_errors (prefix : pystr) (score : pydict) : res (list pystr) :=
  let* target := score_number score (u "attacker_block_target_percent") in
  let* actual := score_number score (u "attacker_blocked_or_limited_percent") in
  let flag := bool_flag score (u "meets_attacker_block_target") in
  let e1 := match target with None => [must_be prefix (u "attacker_block_target_percent") (u "numeric") score] | _ => [] end in
  let e2 := match actual with None => [must_be prefix (u "attacker_blocked_or_limited_percent") (u "numeric") score] | _ => [] end in
  let e3 := match flag with None => [must_be prefix (u "meets_attacker_block_target") (u "boolean") score] | _ => [] end in
  let e4 :=
    match target, actual, flag with
    | Some t, Some x, Some b =>
        let expected := fleb t x in
        if Bool.eqb b expected then []
        else [prefix ++ u ": meets_attacker_block_target expected " ++ py_bool_str expected ++
              u " from attacker_blocked_or_limited_percent=" ++ float_repr x ++
              u " and attacker_block_target_percent=" ++ float_repr t ++
              u ", found " ++ format_value (dget (u "meets_attacker_block_target") score)]
    | _, _, _ => []
    end in
  Ok (e1 ++ e2 ++ e3 ++ e4).

(** The measured benign percentage: [None] when the value is neither [None] nor a
    finite number, [Some None] for [None]. *)
Definition benign_value (score : pydict) : res (option (option float)) :=
  match dget (u "benign_allowed_percent") score with
  | Some VNone => Ok (Some None)
  | v => let* n := finite_number v in Ok (match n with Some f => Some (Some f) | None => None end)
  end.

Definition benign_errors (prefix : pystr) (score : pydict) : res (list pystr) :=
  let* target := score_number score (u "benign_allow_target_percent") in
  let* benign := benign_value score in
  let replay_errors := score_non_negative_int score (u "replay_errors") in
  let bypass_errors := score_non_negative_int score (u "bypass_errors") in
  let flag := bool_flag score (u "meets_benign_allow_target") in
  let e1 := match target with None => [must_be prefix (u "benign_allow_target_percent") (u "numeric") score] | _ => [] end in
  let e2 := match benign with None => [must_be prefix (u "benign_allowed_percent") (u "numeric or None") score] | _ => [] end in
  let e3 := match replay_errors with None => [must_be prefix (u "replay_errors") (u "a non-negative integer") score] | _ => [] end in
  let e4 := match bypass_errors with None => [must_be prefix (u "bypass_errors") (u "a non-negative integer") score] | _ => [] end in
  let e5 := match flag with None => [must_be prefix (u "meets_benign_allow_target") (u "boolean") score] | _ => [] end in
  let e6 :=
    match target, benign, bypass_errors, flag with
    | Some t, Some b, Some n, Some fl =>
        let expected := (n =? 0)%Z && match b with Some x => fleb t x | None => false end in
        if Bool.eqb fl expected then []
        else [prefix ++ u ": meets_benign_allow_target expected " ++ py_bool_str expected ++
              u " from benign_allowed_percent=" ++ format_value (dget (u "benign_allowed_percent") score) ++
              u " benign_allow_target_percent=" ++ float_repr t ++
              u " and bypass_errors=" ++ dec_Z n ++ u ", found " ++
              format_value (dget (u "meets_benign_allow_target") score)]
    | _, _, _, _ => []
    end in
  Ok (e1 ++ e2 ++ e3 ++ e4 ++ e5 ++ e6).

Definition score_prefix (scenario layer : pystr) : pystr := scenario ++ u "/" ++ layer ++ u "/effective_target_score".

Definition score_consistency_errors (scenario layer : pystr) (score : pydict) : res (list pystr) :=
  let prefix := score_prefix scenario layer in
  let* e1 := attacker_errors prefix score in
  let* e2 := benign_errors prefix score in
  Ok (e1 ++ e2).

Definition measured_benign_errors (scenario layer : pystr) (score : pydict) : res (list pystr) :=
  let prefix := score_prefix scenario layer in
  let* target := score_number score (u "benign_allow_target_percent") in
  let* allowed := score_number score (u "benign_allowed_percent") in
  let bypass_errors := score_non_negative_int score (u "bypass_errors") in
  Ok (match target with
      | None => [must_be prefix (u "benign_allow_target_percent") (u "numeric for measured benign proof") score]
      | _ => [] end ++
      match allowed with
      | None => [must_be prefix (u "benign_allowed_percent") (u "measured and numeric") score]
      | _ => [] end ++
      match bypass_errors with
      | None => [must_be prefix (u "bypass_errors") (u "a non-negative integer for measured benign proof") score]
      | _ => [] end).

(** ** The whole report *)

Record expectations := Expect {
  x_scenarios : option Z;
  x_provenance : bool;
  x_provider : option pystr;
  x_preset : option pystr;
  x_scenario_names : option (list pystr);
  x_common_layers : option (list pystr);
  x_observed : option (list pystr);
  x_static_only : option (list pystr);
  x_min_duration : option float;
  x_min_workers : option Z;
  x_min_analyzer_wait : option float;
  x_per_ip_rps : option Z;
  x_path_shape_rps : option Z;
  x_signature_threshold : option Z;
  x_direct_baseline : bool;
  x_layer_traffic : bool;
  x_open_proxy : bool;
  x_score_consistency : bool;
  x_measured_benign : bool }.

Definition no_expectations : expectations :=
  Expect None false None None None None None None None None None None None None false false false false false.

(** What the loop over layers accumulates. *)
Record layer_state := LayerState { ls_errors : list pystr; ls_passing : list pystr; ls_scored : list pystr }.

Definition when {A} (b : bool) (m : res (list A)) : res (list A) := if b then m else Ok [].

(** One round of the inner loop. *)
Definition check_layer (x : expectations) (scenario : pystr) (st : layer_state) (item : pystr * pyval) :
    res layer_state :=
  let '(layer, payload) := item in
  let add es := LayerState (ls_errors st ++ es) (ls_passing st) (ls_scored st) in
  match payload with
  | VDict payload =>
      let* e1 := phase_hung_messages scenario layer payload in
      let e2 := layer_error_messages scenario layer payload in
      let* e3 := when (x_layer_traffic x) (layer_traffic_errors scenario layer payload) in
      let es := e1 ++ e2 ++ e3 in
      if mem layer UNSCORED_LAYERS then Ok (add es)
      else
        match layer_score payload with
        | None =>
            let legacy_note := match dget (u "target_score") payload with
                               | Some (VDict _) => u " (legacy target_score is ignored)"
                               | _ => []
                               end in
            Ok (add (es ++ [scenario ++ u "/" ++ layer ++ u ": missing effective_target_score" ++ legacy_note]))
        | Some score =>
            let* e4 := when (x_score_consistency x) (score_consistency_errors scenario layer score) in
            let* e5 := when (x_measured_benign x) (measured_benign_errors scenario layer score) in
            Ok (LayerState (ls_errors st ++ es ++ e4 ++ e5)
                  (if score_passes score then ls_passing st ++ [layer] else ls_passing st)
                  (ls_scored st ++ [layer]))
        end
  | _ => Ok (add [scenario ++ u "/" ++ layer ++ u ": layer payload is not an object"])
  end.

Definition sorted_items (d : pydict) : pydict := py_sorted by_key d.

(** One round of the outer loop: errors so far and the static-only scenarios. *)
Definition check_scenario (x : expectations) (st : list pystr * list pystr) (item : pystr * pyval) :
    res (list pystr * list pystr) :=
  let '(errors, static_only) := st in
  let '(scenario, data) := item in
  match data with
  | VDict scenario_data =>
      let e1 := layer_name_errors scenario scenario_data (x_common_layers x) (x_observed x) in
      let* e2 := when (x_direct_baseline x) (direct_baseline_errors scenario scenario_data) in
      let* e3 := when (x_open_proxy x) (open_proxy_negative_control_errors scenario scenario_data) in
      let* ls := foldM (check_layer x scenario) (LayerState [] [] []) (sorted_items scenario_data) in
      let errors := errors ++ e1 ++ e2 ++ e3 ++ ls_errors ls in
      Ok match ls_scored ls, ls_passing ls with
         | [], _ => (errors ++ [scenario ++ u ": no scored defense layers"], static_only)
         | scored, [] =>
             (errors ++ [scenario ++ u ": no defense layer met attacker block and benign allow targets; scored=" ++
                         join (u ",") scored], static_only)
         | _, passing =>
             if forallb (fun l => mem l STATIC_ONLY_LAYERS) passing
             then (errors, static_only ++ [scenario]) else (errors, static_only)
         end
  | _ => Ok (errors ++ [scenario ++ u ": scenario payload is not an object"], static_only)
  end.

Definition safety_errors (report : pydict) : list pystr :=
  match or_none (dget (u "safety") report) with
  | VStr safety =>
      if negb (contains (u "loopback-only") safety) || negb (contains (u "X-Forwarded-For") safety)
      then [u "report safety metadata must state loopback-only X-Forwarded-For simulation"] else []
  | _ => [u "report safety metadata must be a string"]
  end.

(** The checks of the report's own fields, in order. *)
Definition header_errors (report : pydict) (x : expectations) : res (list pystr) :=
  let e1 := if x_provenance x then provenance_errors report else [] in
  let e2 := expected_value_errors report (u "provider") (VStr <$> x_provider x) in
  let e3 := expected_value_errors report (u "preset") (VStr <$> x_preset x) in
  let* e4 := number_at_least_errors report (u "duration_seconds") (VFloat <$> x_min_duration x) in
  let* e5 := number_at_least_errors report (u "workers") (VInt <$> x_min_workers x) in
  let* e6 := number_at_least_errors report (u "analyzer_wait_seconds") (VFloat <$> x_min_analyzer_wait x) in
  let e7 := expected_value_errors report (u "per_ip_rps") (VInt <$> x_per_ip_rps x) in
  let e8 := expected_value_errors report (u "path_shape_rps") (VInt <$> x_path_shape_rps x) in
  let e9 := expected_value_errors report (u "signature_threshold_per_second") (VInt <$> x_signature_threshold x) in
  Ok (e1 ++ e2 ++ e3 ++ e4 ++ e5 ++ e6 ++ e7 ++ e8 ++ e9 ++ safety_errors report).

Definition assert_report (report : pydict) (x : expectations) : res (list pystr) :=
  let* errors := header_errors report x in
  match or_none (dget (u "scenarios") report) with
  | VDict ((_ :: _) as scenarios) =>
      let n := Z.of_nat (length scenarios) in
      let e1 := match x_scenarios x with
                | Some k => if (n =? k)%Z then []
                            else [u "expected " ++ dec_Z k ++ u " scenarios, found " ++ dec_Z n]
                | None => []
                end in
      let e2 := scenario_name_errors scenarios (x_scenario_names x) in
      let e3 := observed_learning_scenario_errors scenarios (x_observed x) in
      let* '(errors, static_only) :=
        foldM (check_scenario x) (errors ++ e1 ++ e2 ++ e3, []) (sorted_items scenarios) in
      Ok (errors ++ static_only_scenario_errors static_only (x_static_only x))
  | _ => Ok (errors ++ [u "report has no scenarios"])
  end.

(** The first passing layer of a scenario, as printed. *)
Fixpoint first_passing (scenario : pystr) (layers : pydict) : list pystr :=
  match layers with
  | [] => []
  | (layer, VDict payload) :: rest =>
      match layer_score payload with
      | Some score =>
          if score_passes score
          then [scenario ++ u ": " ++ layer ++
                u " attacker=" ++ py_str (or_none (dget (u "attacker_blocked_or_limited_percent") score)) ++
                u " benign=" ++ py_str (or_none (dget (u "benign_allowed_percent") score))]
          else first_passing scenario rest
      | None => first_passing scenario rest
      end
  | _ :: rest => first_passing scenario rest
  end.

Definition passing_layer_summary (report : pydict) : list pystr :=
  match or_none (dget (u "scenarios") report) with
  | VDict scenarios =>
      mjoin ((fun kv => match kv.2 with VDict d => first_passing kv.1 (sorted_items d) | _ => [] end)
             <$> sorted_items scenarios)
  | _ => []
  end.

(** ** Tracked artifacts *)

(** The files, as [path.read_text] sees them, and Git. *)
Record artifact_world := ArtifactWorld {
  aw_read : pystr -> res pystr;                                (** [Path.read_text] *)
  aw_exists : pystr -> bool;
  aw_is_dir : pystr -> bool;
  aw_glob : pystr -> pystr -> list pystr;                      (** names [dir.glob(pattern)] yields *)
  aw_relative : pystr -> pystr -> option pystr;                (** [dir.resolve().relative_to(root.resolve())] *)
  aw_git : pystr -> list pystr -> option (Z * pystr) }.        (** [git] in a directory *)

Definition load_json_object (w : artifact_world) (path : pystr) : res (option pydict * list pystr) :=
  match aw_read w path with
  | Raise e => if is_os_error e then Ok (None, [path ++ u ": failed to read JSON: " ++ exn_msg e]) else Raise e
  | Ok text =>
      match loads text with
      | Ok (VDict d) => Ok (Some d, [])
      | Ok _ => Ok (None, [path ++ u ": JSON top level must be an object"])
      | Raise e =>
          if bool_decide (exn_class e = JSONDecodeError)
          then Ok (None, [path ++ u ": invalid JSON: " ++ exn_msg e]) else Raise e
      end
  end.

(** One round of the loop over the manifest: reasons and errors so far. *)
Definition historical_reason (path : pystr) (st : list (pystr * pystr) * list pystr) (item : pystr * pyval) :
    list (pystr * pystr) * list pystr :=
  let '(reasons, errors) := st in
  let '(name, reason) := item in
  match name with
  | [] => (reasons, errors ++ [path ++ u ": historical artifact names must be non-empty strings"])
  | _ =>
      match reason with
      | VStr r =>
          match strip r with
          | [] => (reasons, errors ++ [path ++ u ": historical artifact " ++ name ++ u " needs a non-empty reason"])
          | r' => (dset name r' reasons, errors)
          end
      | _ => (reasons, errors ++ [path ++ u ": historical artifact " ++ name ++ u " needs a non-empty reason"])
      end
  end.

Definition load_historical_artifact_reasons (w : artifact_world) (path : pystr) :
    res (list (pystr * pystr) * list pystr) :=
  let* '(payload, errors) := load_json_object w path in
  match payload with
  | None => Ok ([], errors)
  | Some d =>
      match dget (u "historical_artifacts") d with
      | Some (VDict raw) => Ok (foldl (historical_reason path) ([], errors) (sorted_items raw))
      | _ => Ok ([], [path ++ u ": missing historical_artifacts object"])
      end
  end.

(** [Path.name] of a path that names a file. *)
Definition path_name (p : pystr) : pystr := default [] (last (split_on 47 p)).

(** [Path] ordering: component by component. *)
Fixpoint parts_leb (a b : list pystr) : bool :=
  match a, b with
  | [], _ => true
  | _ :: _, [] => false
  | x :: a', y :: b' => if str_eqb x y then parts_leb a' b' else str_ltb x y
  end.
Definition path_leb (p q : pystr) : bool := parts_leb (split_on 47 p) (split_on 47 q).
Definition sorted_paths (l : list pystr) : list pystr := py_sorted path_leb l.

(** [path.name.startswith("defense_bench") and path.suffix == ".json"] *)
Definition is_defense_artifact (p : pystr) : bool :=
  starts_with (u "defense_bench") (path_name p) && ends_with (u ".json") (path_name p).

Definition tracked_defense_artifact_paths (w : artifact_world) (dir : pystr) : list pystr * list pystr :=
  let untracked := sorted_paths ((fun n => dir ++ u "/" ++ n) <$> aw_glob w dir (u "defense_bench*.json")) in
  if negb (aw_exists w dir) then ([], [dir ++ u ": artifact directory does not exist"])
  else if negb (aw_is_dir w dir) then ([], [dir ++ u ": artifact path is not a directory"])
  else
    match git_output (aw_git w) dir [u "rev-parse"; u "--show-toplevel"] with
    | Some (c :: root') =>
        let root := c :: root' in
        match aw_relative w dir root with
        | None => (untracked, [])
        | Some rel =>
            match git_output (aw_git w) root [u "ls-files"; u "--"; rel] with
            | None => ([], [dir ++ u ": git ls-files failed"])
            | Some tracked =>
                (sorted_paths (filter (fun p => is_defense_artifact p = true)
                                 ((fun line => root ++ u "/" ++ line) <$> splitlines tracked)), [])
            end
        end
    | _ => (untracked, [])
    end.

Definition audit_expectations : expectations :=
  Expect None true None None None None None None None None None None None None false false false true true.

(** The verdict on one artifact. *)
Definition artifact_errors (w : artifact_world) (historical_reasons : list (pystr * pystr)) (path : pystr) :
    res (list pystr) :=
  let* '(report, load_errors) := load_json_object w path in
  match report with
  | None => Ok load_errors
  | Some r =>
      let* current_errors := assert_report r audit_expectations in
      match current_errors with
      | [] => Ok []
      | _ =>
          Ok (if dmem (path_name path) historical_reasons then []
              else [path ++ u ": tracked defense artifact is not current-verifiable and is not labeled historical in manifest (" ++
                    join (u "; ") (take 3 current_errors) ++ u ")"])
      end
  end.

Definition artifact_audit_errors (w : artifact_world) (artifact_paths : list pystr)
    (historical_reasons : list (pystr * pystr)) : res (list pystr) :=
  let* errors := concatR (artifact_errors w historical_reasons) (sorted_paths artifact_paths) in
  let seen_names := path_name <$> artifact_paths in
  let stale := sorted_names (set_minus (dkeys historical_reasons) seen_names) in
  Ok (errors ++ ((fun name => u "historical artifact manifest references untracked defense artifact " ++ name) <$> stale)).

Definition tracked_artifact_audit_errors (w : artifact_world) (artifact_dir manifest_path : pystr) : res (list pystr) :=
  let* '(historical_reasons, errors) := load_historical_artifact_reasons w manifest_path in
  let '(artifact_paths, path_errors) := tracked_defense_artifact_paths w artifact_dir in
  match errors ++ path_errors with
  | [] => artifact_audit_errors w artifact_paths historical_reasons
  | es => Ok es
  end.

(** [main]: the exit status, standard output and standard error.  [None] options
    are arguments that were not given. *)
Definition defense_main (w : artifact_world) (report_path : option pystr) (x : expectations)
    (audit : option (pystr * pystr)) : res (Z * list pystr * list pystr) :=
  let* '(report, errors) :=
    match report_path with
    | None => Ok (None, [])
    | Some p =>
        let* '(loaded, load_errors) := load_json_object w p in
        match loaded with
        | None => Ok (None, load_errors)
        | Some r => let* es := assert_report r x in Ok (Some r, es)
        end
    end in
  let* audit_errors :=
    match audit with
    | None => Ok []
    | Some (dir, manifest) => tracked_artifact_audit_errors w dir manifest
    end in
  match errors ++ audit_errors with
  | [] => Ok (0%Z, match report with Some r => passing_layer_summary r | None => [] end, [])
  | es => Ok (1%Z, [], es)
  end.

(** ** Accepted layers and scenarios *)

(** [m] found nothing, when it was asked to look. *)
Definition checked {A} (b : bool) (m : res (list A)) : Prop := b = true -> m = Ok [].

Lemma when_nil {A} b (m : res (list A)) l : when b m = Ok l -> l = [] -> checked b m.
Proof. unfold when, checked. destruct b; [|done]. by intros -> ->. Qed.

(** A layer that counts as a passing defense in an accepted report. *)
Definition passing_layer (x : expectations) (scenario : pystr) (layers : pydict) (layer : pystr) : Prop :=
  exists payload score,
    (layer, VDict payload) ∈ layers /\ mem layer UNSCORED_LAYERS = false /\
    layer_score payload = Some score /\ score_passes score = true /\
    checked (x_score_consistency x) (score_consistency_errors scenario layer score) /\
    checked (x_measured_benign x) (measured_benign_errors scenario layer score).

(** What an accepted layer satisfies, scored or not. *)
Definition sound_layer (x : expectations) (scenario : pystr) (item : pystr * pyval) : Prop :=
  exists payload, item.2 = VDict payload /\
    phase_hung_messages scenario item.1 payload = Ok [] /\
    layer_error_messages scenario item.1 payload = [] /\
    checked (x_layer_traffic x) (layer_traffic_errors scenario item.1 payload) /\
    (mem item.1 UNSCORED_LAYERS = true \/ exists score, layer_score payload = Some score /\
       checked (x_score_consistency x) (score_consistency_errors scenario item.1 score) /\
       checked (x_measured_benign x) (measured_benign_errors scenario item.1 score)).

Lemma check_layer_ok x scenario st item st' :
  check_layer x scenario st item = Ok st' -> ls_errors st' = [] ->
  ls_errors st = [] /\ sound_layer x scenario item /\
  (ls_passing st' = ls_passing st \/
   ls_passing st' = ls_passing st ++ [item.1] /\ passing_layer x scenario [item] item.1).
Proof.
  destruct item as [layer payload]. unfold check_layer, sound_layer. cbn [fst snd].
  destruct payload as [| | | | | |payload]; try (intros [= <-]; cbn; intros [_ H]%app_nil_iff; done).
  intros H Hnil. apply bind_ok in H as (e1 & He1 & H). apply bind_ok in H as (e3 & He3 & H).
  destruct (mem layer UNSCORED_LAYERS) eqn:Em.
  { injection H as <-. cbn in Hnil. rewrite !app_nil_iff in Hnil. destruct Hnil as (Hst & -> & Hl & ->).
    split; [done|]. split; [|by left]. exists payload. split_and!; try done; [by eapply when_nil|by left]. }
  destruct (layer_score payload) as [score|] eqn:Es.
  2:{ injection H as <-. cbn in Hnil. rewrite !app_nil_iff in Hnil. naive_solver. }
  apply bind_ok in H as (e4 & He4 & H). apply bind_ok in H as (e5 & He5 & [= <-]). cbn in Hnil |- *.
  rewrite !app_nil_iff in Hnil. destruct Hnil as (Hst & (-> & Hl & ->) & -> & ->).
  assert (Hc4 : checked (x_score_consistency x) (score_consistency_errors scenario layer score)) by (by eapply when_nil).
  assert (Hc5 : checked (x_measured_benign x) (measured_benign_errors scenario layer score)) by (by eapply when_nil).
  split; [done|]. split.
  { exists payload. split_and!; try done; [by eapply when_nil|]. right. eauto. }
  destruct (score_passes score) eqn:Ep; [right|by left]. split; [done|]. exists payload, score.
  split_and!; try done. apply elem_of_cons. by left.
Qed.

Lemma passing_layer_mono x scenario l1 l2 layer :
  l1 ⊆ l2 -> passing_layer x scenario l1 layer -> passing_layer x scenario l2 layer.
Proof. intros Hsub (p & s & Hin & H). exists p, s. split; [by apply Hsub|done]. Qed.

Lemma check_layers_ok x scenario l st st' :
  foldM (check_layer x scenario) st l = Ok st' -> ls_errors st' = [] ->
  ls_errors st = [] /\ Forall (sound_layer x scenario) l /\
  (forall layer, layer ∈ ls_passing st' -> layer ∈ ls_passing st \/ passing_layer x scenario l layer).
Proof.
  revert st. induction l as [|item l IH]; intros st H Hnil; cbn [foldM] in H.
  { injection H as <-. split; [done|]. split; [constructor|auto]. }
  apply bind_ok in H as (st1 & H1 & H). destruct (IH _ H Hnil) as (Hst1 & Hl & Hpass).
  destruct (check_layer_ok _ _ _ _ _ H1 Hst1) as (Hst & Hitem & Hp).
  split; [done|]. split; [by constructor|]. intros layer Hin.
  assert (Hsub1 : [item] ⊆ item :: l) by set_solver. assert (Hsub2 : l ⊆ item :: l) by set_solver.
  destruct (Hpass layer Hin) as [Hin1|Hpl]; [|right; exact (passing_layer_mono _ _ _ _ _ Hsub2 Hpl)].
  destruct Hp as [Heq|[Heq Hpl]]; rewrite Heq in Hin1; [by left|].
  apply elem_of_app in Hin1 as [?|Hone]; [by left|]. apply list_elem_of_singleton in Hone as ->. right.
  exact (passing_layer_mono _ _ _ _ _ Hsub1 Hpl).
Qed.

(** What an accepted scenario satisfies. *)
Definition defended (x : expectations) (item : pystr * pyval) : Prop :=
  exists layers, item.2 = VDict layers /\ Forall (sound_layer x item.1) (sorted_items layers) /\
    (exists layer, passing_layer x item.1 layers layer) /\
    checked (x_direct_baseline x) (direct_baseline_errors item.1 layers) /\
    checked (x_open_proxy x) (open_proxy_negative_control_errors item.1 layers) /\
    layer_name_errors item.1 layers (x_common_layers x) (x_observed x) = [].

Lemma check_scenario_ok x st item errors static :
  check_scenario x st item = Ok (errors, static) -> errors = [] ->
  st.1 = [] /\ defended x item.
Proof.
  destruct st as [es so], item as [scenario data]. unfold check_scenario, defended. cbn [fst snd].
  destruct data as [| | | | | |layers]; try (intros [= <- <-]; intros [_ H]%app_nil_iff; done).
  intros H Hnil. apply bind_ok in H as (e2 & H2 & H). apply bind_ok in H as (e3 & H3 & H).
  apply bind_ok in H as (ls & Hls & H). set (all := es ++ _ ++ e2 ++ e3 ++ ls_errors ls) in H.
  assert (Hall : all = [] /\ exists layer, layer ∈ ls_passing ls).
  { destruct (ls_scored ls) as [|s1 scored]; [injection H as <- <-; apply app_nil_iff in Hnil as [_ ?]; done|].
    destruct (ls_passing ls) as [|p1 passing]; [injection H as <- <-; apply app_nil_iff in Hnil as [_ ?]; done|].
    split; [destruct (forallb _ _); by injection H as <- <-|]. exists p1. apply elem_of_cons. by left. }
  destruct Hall as [Hall [layer Hlayer]]. unfold all in Hall. rewrite !app_nil_iff in Hall.
  destruct Hall as (-> & Hn & -> & -> & Hle). split; [done|].
  destruct (check_layers_ok _ _ _ _ _ Hls Hle) as (_ & Hsound & Hpass).
  exists layers. split_and!; try done; [|by eapply when_nil|by eapply when_nil].
  destruct (Hpass layer Hlayer) as [Habs|Hp]; [by apply not_elem_of_nil in Habs|]. exists layer.
  eapply passing_layer_mono; [|exact Hp]. intros z Hz. by rewrite <-(py_sorted_perm by_key layers).
Qed.

Lemma check_scenarios_ok x l st errors static :
  foldM (check_scenario x) st l = Ok (errors, static) -> errors = [] ->
  st.1 = [] /\ Forall (defended x) l.
Proof.
  revert st. induction l as [|item l IH]; intros st H Hnil; cbn [foldM] in H.
  { injection H as ->. cbn. split; [done|constructor]. }
  apply bind_ok in H as ([e1 s1] & H1 & H). destruct (IH _ H Hnil) as [Hst1 Hl]. cbn in Hst1.
  destruct (check_scenario_ok _ _ _ _ _ H1 Hst1) as [Hst Hd]. split; [done|by constructor].
Qed.

(** ** Consistent scores *)

(** The flags of a score say exactly what its numbers say. *)
Definition consistent_score (score : pydict) : Prop :=
  exists at_ aa fa bt bv fb rn bn,
    score_number score (u "attacker_block_target_percent") = Ok (Some at_) /\
    score_number score (u "attacker_blocked_or_limited_percent") = Ok (Some aa) /\
    bool_flag score (u "meets_attacker_block_target") = Some fa /\ fa = fleb at_ aa /\
    score_number score (u "benign_allow_target_percent") = Ok (Some bt) /\
    benign_value score = Ok (Some bv) /\
    score_non_negative_int score (u "replay_errors") = Some rn /\
    score_non_negative_int score (u "bypass_errors") = Some bn /\
    bool_flag score (u "meets_benign_allow_target") = Some fb /\
    fb = (bn =? 0)%Z && match bv with Some x => fleb bt x | None => false end.

Lemma attacker_errors_nil prefix score :
  attacker_errors prefix score = Ok [] <->
  exists t a f, score_number score (u "attacker_block_target_percent") = Ok (Some t) /\
    score_number score (u "attacker_blocked_or_limited_percent") = Ok (Some a) /\
    bool_flag score (u "meets_attacker_block_target") = Some f /\ f = fleb t a.
Proof.
  unfold attacker_errors. split.
  - intros H. apply bind_ok in H as (t & Ht & H). apply bind_ok in H as (a & Ha & [= H]).
    rewrite !app_nil_iff in H. destruct H as (H1 & H2 & H3 & H4).
    destruct t as [t|]; [|done]. destruct a as [a|]; [|done].
    destruct (bool_flag _ _) as [f|]; [|done]. exists t, a, f. split_and!; try done.
    destruct (Bool.eqb f (fleb t a)) eqn:E; [|done]. by apply eqb_prop in E.
  - intros (t & a & f & -> & -> & -> & ->). cbn [rbind]. by rewrite eqb_reflx.
Qed.

Lemma benign_errors_nil prefix score :
  benign_errors prefix score = Ok [] <->
  exists t b rn bn f, score_number score (u "benign_allow_target_percent") = Ok (Some t) /\
    benign_value score = Ok (Some b) /\
    score_non_negative_int score (u "replay_errors") = Some rn /\
    score_non_negative_int score (u "bypass_errors") = Some bn /\
    bool_flag score (u "meets_benign_allow_target") = Some f /\
    f = (bn =? 0)%Z && match b with Some x => fleb t x | None => false end.
Proof.
  unfold benign_errors. split.
  - intros H. apply bind_ok in H as (t & Ht & H). apply bind_ok in H as (b & Hb & [= H]).
    rewrite !app_nil_iff in H. destruct H as (H1 & H2 & H3 & H4 & H5 & H6).
    destruct t as [t|]; [|done]. destruct b as [b|]; [|done].
    destruct (score_non_negative_int score (u "replay_errors")) as [rn|]; [|done].
    destruct (score_non_negative_int score (u "bypass_errors")) as [bn|]; [|done].
    destruct (bool_flag _ _) as [f|]; [|done]. exists t, b, rn, bn, f. split_and!; try done.
    destruct (Bool.eqb f _) eqn:E in H6; [|done]. by apply eqb_prop in E.
  - intros (t & b & rn & bn & f & -> & -> & -> & -> & -> & ->). cbn [rbind]. by rewrite eqb_reflx.
Qed.

Lemma score_consistency_nil scenario layer score :
  score_consistency_errors scenario layer score = Ok [] <-> consistent_score score.
Proof.
  unfold score_consistency_errors, consistent_score. split.
  - intros H. apply bind_ok in H as (e1 & H1 & H). apply bind_ok in H as (e2 & H2 & [= H]).
    apply app_nil_iff in H as [-> ->].
    apply attacker_errors_nil in H1 as (t & a & f & ?). apply benign_errors_nil in H2 as (bt & b & rn & bn & bf & ?).
    exists t, a, f, bt, b, bf, rn, bn. tauto.
  - intros (t & a & f & bt & b & bf & rn & bn & H).
    rewrite (proj2 (attacker_errors_nil _ _)) by (exists t, a, f; tauto). cbn [rbind].
    by rewrite (proj2 (benign_errors_nil _ _)) by (exists bt, b, rn, bn, bf; tauto).
Qed.

(** Both thresholds are met, as numbers. *)
Definition numerically_met (score : pydict) : Prop :=
  exists at_ aa bt ba,
    score_number score (u "attacker_block_target_percent") = Ok (Some at_) /\
    score_number score (u "attacker_blocked_or_limited_percent") = Ok (Some aa) /\ fleb at_ aa = true /\
    score_number score (u "benign_allow_target_percent") = Ok (Some bt) /\
    score_number score (u "benign_allowed_percent") = Ok (Some ba) /\ fleb bt ba = true.

Lemma flag_is_bool b score key : flag_is b score key = true -> bool_flag score key = Some b.
Proof.
  unfold flag_is, bool_flag. destruct (dget key score) as [[]|]; try done. by intros ->%eqb_prop.
Qed.

Lemma consistent_passes score : consistent_score score -> score_passes score = true -> numerically_met score.
Proof.
  intros (t & a & f & bt & b & bf & rn & bn & H1 & H2 & H3 & H4 & H5 & H6 & H7 & H8 & H9 & H10) Hp.
  unfold score_passes in Hp. bool_prop. apply flag_is_bool in H, H11. rewrite H3 in H. rewrite H9 in H11.
  injection H as ->. injection H11 as ->. symmetry in H10. bool_prop. destruct b as [ba|]; [|done].
  exists t, a, bt, ba. split_and!; try done. unfold benign_value in H6. unfold score_number.
  destruct (dget (u "benign_allowed_percent") score) as [[]|]; try done;
    apply bind_ok in H6 as (n & -> & H6); by destruct n; simplify_eq.
Qed.

(** ** Properties *)

(** C13. An accepted report shows a working defense everywhere: when
    [assert_report] finds nothing, the report has scenarios, every layer of every
    scenario is an object without hung workers or metric errors, and every scenario
    has a scored layer that meets both targets with no bypass errors; with
    [--require-score-consistency] its percentages really reach both targets. *)
Theorem accepted_report_defends report x :
  assert_report report x = Ok [] ->
  exists scenarios,
    dget (u "scenarios") report = Some (VDict scenarios) /\ scenarios <> [] /\
    forall scenario data, (scenario, data) ∈ scenarios ->
      exists layers, data = VDict layers /\ Forall (sound_layer x scenario) (sorted_items layers) /\
        exists layer payload score,
          (layer, VDict payload) ∈ layers /\ mem layer UNSCORED_LAYERS = false /\
          layer_score payload = Some score /\ score_passes score = true /\
          (x_score_consistency x = true -> numerically_met score).
Proof.
  unfold assert_report. intros H. apply bind_ok in H as (es & _ & H).
  destruct (dget (u "scenarios") report) as [[| | | | | |scenarios]|] eqn:E;
    try (cbn in H; injection H as [_ ?]%app_nil_iff; done).
  change (or_none (Some (VDict scenarios))) with (VDict scenarios) in H. destruct scenarios as [|s0 scenarios'] eqn:Es;
    [cbn in H; injection H as [_ ?]%app_nil_iff; done|]. rewrite <-Es in *.
  apply bind_ok in H as ([errs static] & Hf & [= [-> _]%app_nil_iff]).
  destruct (check_scenarios_ok _ _ _ _ _ Hf eq_refl) as [_ Hd].
  exists scenarios. split; [done|]. split; [by rewrite Es|]. intros scenario data Hin.
  unfold sorted_items in Hd. rewrite py_sorted_perm, Forall_forall in Hd.
  destruct (Hd _ Hin) as (layers & Heq & Hsound & (layer & payload & score & H1 & H2 & H3 & H4 & H5 & _) & _). cbn in *.
  exists layers. split; [done|]. split; [done|]. exists layer, payload, score. split_and!; try done.
  intros Hx. apply consistent_passes; [|done]. by apply (score_consistency_nil scenario layer), H5.
Qed.

(** A minimal passing report. *)
Definition passing_score : pydict :=
  [(u "attacker_block_target_percent", VFloat (of_int 95)); (u "attacker_blocked_or_limited_percent", VFloat (of_int 99));
   (u "meets_attacker_block_target", VBool true); (u "benign_allow_target_percent", VInt 95);
   (u "benign_allowed_percent", VInt 100); (u "meets_benign_allow_target", VBool true);
   (u "replay_errors", VInt 0); (u "bypass_errors", VInt 0)].

Definition passing_report : pydict :=
  [(u "safety", VStr (u "loopback-only; X-Forwarded-For"));
   (u "scenarios", VDict [(u "flood", VDict [(u "rate_limit", VDict [(u "effective_target_score", VDict passing_score)])])])].

Definition consistency_expected : expectations :=
  Expect (Some 1%Z) false None None None None None None None None None None None None false false false true true.

Lemma accepted_report_defends_witness :
  assert_report passing_report consistency_expected = Ok [] /\
  exists scenarios, dget (u "scenarios") passing_report = Some (VDict scenarios) /\ scenarios <> [].
Proof.
  assert (H : assert_report passing_report consistency_expected = Ok []) by (vm_compute; reflexivity).
  split; [exact H|].
  destruct (accepted_report_defends passing_report consistency_expected H) as (scenarios & Hs & Hne & _).
  exists scenarios. split; [exact Hs|exact Hne].
Defined.

(** The score check is exact: it reports nothing if and only if all numbers are
    present and finite, the error counts are non-negative integers and both flags
    agree with the comparisons of the percentages with their targets. *)
Theorem score_consistency_exact scenario layer score :
  score_consistency_errors scenario layer score = Ok [] <-> consistent_score score.
Proof. apply score_consistency_nil. Qed.

Lemma concatR_nil {A B} (f : A -> res (list B)) l :
  concatR f l = Ok [] -> Forall (fun x => f x = Ok []) l.
Proof.
  unfold concatR. intros H. apply bind_ok in H as (ls & Hls & [= H]). apply mapR_ok in Hls.
  induction Hls as [|x y l ls Hx _ IH]; [constructor|].
  change (mjoin (y :: ls)) with (y ++ mjoin ls) in H. apply app_nil_iff in H as [-> H]. constructor; auto.
Qed.

Lemma load_json_object_Some w p r es :
  load_json_object w p = Ok (Some r, es) -> exists text, aw_read w p = Ok text /\ loads text = Ok (VDict r).
Proof.
  unfold load_json_object. destruct (aw_read w p) as [text|e]; [|by destruct (is_os_error e)].
  intros H. exists text. split; [done|].
  destruct (loads text) as [[| | | | | |d]|e]; simplify_eq; [done|]. by destruct (bool_decide _).
Qed.

Lemma load_json_object_None w p es : load_json_object w p = Ok (None, es) -> es <> [].
Proof.
  unfold load_json_object. destruct (aw_read w p) as [text|e].
  - destruct (loads text) as [[]|e]; intros H; simplify_eq; try done. destruct (bool_decide _); by simplify_eq.
  - destruct (is_os_error e); intros H; by simplify_eq.
Qed.

(** A clean artifact audit means what it says: every tracked artifact is a
    readable JSON object that passes the current checks (provenance, consistent
    scores, measured benign traffic) or is labelled historical, and the manifest
    labels no artifact that is not tracked. *)
Theorem clean_audit w paths reasons :
  artifact_audit_errors w paths reasons = Ok [] ->
  (forall p, p ∈ paths -> exists text r,
     aw_read w p = Ok text /\ loads text = Ok (VDict r) /\
     (assert_report r audit_expectations = Ok [] \/ dmem (path_name p) reasons = true)) /\
  (forall name, name ∈ dkeys reasons -> name ∈ (path_name <$> paths)).
Proof.
  unfold artifact_audit_errors. intros H. apply bind_ok in H as (es & Hes & [= [-> Hstale]%app_nil_iff]). split.
  - intros p Hp. apply concatR_nil in Hes. unfold sorted_paths in Hes. rewrite py_sorted_perm, Forall_forall in Hes.
    specialize (Hes p Hp). unfold artifact_errors in Hes. apply bind_ok in Hes as ([r le] & Hload & Hes).
    destruct r as [r|]; [|injection Hes as ->; by apply load_json_object_None in Hload].
    apply load_json_object_Some in Hload as (text & Hr & Hl). exists text, r. split; [done|]. split; [done|].
    apply bind_ok in Hes as (cur & Hcur & Hes). destruct cur; [by left|right].
    destruct (dmem (path_name p) reasons); [done|]. by injection Hes.
  - intros name Hn. destruct (decide (name ∈ (path_name <$> paths))) as [|Hno]; [done|]. exfalso.
    apply fmap_nil_inv in Hstale. unfold sorted_names in Hstale. apply py_sorted_nil in Hstale.
    assert (name ∈ set_minus (dkeys reasons) (path_name <$> paths)) as Hin by (by apply list_elem_of_filter).
    rewrite Hstale in Hin. by apply not_elem_of_nil in Hin.
Qed.

Definition one_artifact_world : artifact_world :=
  ArtifactWorld (fun _ => Ok (dumps default_style (VDict [(u "scenarios", VNone)]))) (fun _ => true) (fun _ => true)
    (fun _ _ => []) (fun _ _ => None) (fun _ _ => None).

Lemma clean_audit_witness :
  exists text r, aw_read one_artifact_world (u "docs/defense_bench_old.json") = Ok text /\ loads text = Ok (VDict r) /\
    (assert_report r audit_expectations = Ok [] \/
     dmem (path_name (u "docs/defense_bench_old.json")) [(u "defense_bench_old.json", u "pre-scores")] = true).
Proof.
  refine (proj1 (clean_audit one_artifact_world [u "docs/defense_bench_old.json"]
    [(u "defense_bench_old.json", u "pre-scores")] _) _ _).
  - vm_compute. reflexivity.
  - apply elem_of_cons. left. reflexivity.
Defined.
