(* ===== verification/LocalAssert.v ===== *)
(** * LocalAssert: the local-benchmark guardrail checker

    [tools/assert_local_bench.py]: the table of guardrails a local benchmark run
    must report as [true], the table of exact values, and [assert_report], which a
    CI run must pass. *)

From Stdlib Require Import SpecFloat.
From S2P Require Import Prelude Unicode PyStr PyTime PyFloat PyVal Provenance Json DefenseAssert.

(** ** The guardrail tables *)

Definition REQUIRED_TRUE_CHECKS_1 : list (pystr * pystr) :=
  [(u "guardrails.path_shape_rate.hot_path_shape_limited",
    u "long-token path-shape rate bucket must shed repeated route-family bursts");
   (u "guardrails.path_shape_rate.short_token_sibling_churn_limited",
    u "short-token sibling churn must be limited under the parent route family");
   (u "guardrails.path_shape_rate.short_token_path_shape_limited",
    u "short-token path-shape limiter must shed the rotating short-token burst");
   (u "guardrails.path_shape_rate.short_token_sibling_event_shape_recorded",
    u "short-token sibling churn must emit the parent path-shape event evidence");
   (u "guardrails.path_shape_rate.other_shape_allowed",
    u "path-shape limiting must not block unrelated request shapes");
   (u "guardrails.path_shape_rate.version_shape_allowed",
    u "normal versioned API routes must remain allowed");
   (u "guardrails.path_shape_rate.retry_after_header_matches",
    u "path-shape rate-limit responses must carry Retry-After");
   (u "guardrails.path_shape_rate.cache_control_header_matches",
    u "path-shape rate-limit responses must be marked no-store");
   (u "guardrails.path_shape_rate.path_shape_metric_matches",
    u "path-shape rate-limit probe must increment the dedicated path-shape metric");
   (u "guardrails.path_shape_rate.rate_limited_metric_includes_path_shape_limit",
    u "aggregate rate-limit metrics must include path-shape limiting");
   (u "guardrails.signature_rate.hot_signature_limited",
    u "normalized request-signature rate bucket must shed repeated request shapes");
   (u "guardrails.signature_rate.other_signature_allowed",
    u "signature limiting must not block unrelated request signatures");
   (u "guardrails.signature_rate.retry_after_header_matches",
    u "signature-rate responses must carry Retry-After");
   (u "guardrails.signature_rate.cache_control_header_matches",
    u "signature-rate responses must be marked no-store");
   (u "guardrails.signature_rate.signature_metric_matches",
    u "signature-rate probe must increment the dedicated signature metric");
   (u "guardrails.tcp_min_rate.tcp_min_rate_rejected",
    u "explicit TCP minimum-rate guard must reject a slow drip");
   (u "guardrails.tcp_min_rate.default_tcp_min_rate_rejected",
    u "default TCP minimum-rate guard must reject a slow drip");
   (u "guardrails.body_min_rate.request_min_rate_rejected",
    u "HTTP request-body minimum-rate guard must reject a slow drip");
   (u "guardrails.body_min_rate.request_banked_min_rate_rejected",
    u "HTTP request-body minimum-rate guard must reject banked pre-grace bytes followed by a slow drip");
   (u "guardrails.body_min_rate.upstream_min_rate_rejected",
    u "HTTP upstream-body minimum-rate guard must reject a slow drip");
   (u "guardrails.connection_duration_runtime.http_max_connection_duration_enforced",
    u "HTTP maximum connection duration must be enforced");
   (u "guardrails.connection_duration_runtime.tcp_max_connection_duration_enforced",
    u "TCP maximum connection duration must be enforced");
   (u "guardrails.filter_activation_nonblocking.activation_nonblocking",
    u "adaptive filter activation must not block concurrent control requests");
   (u "guardrails.filter_activation_nonblocking.activation_reload_nonblocking",
    u "adaptive activation plus runtime reload must not block control requests");
   (u "guardrails.filter_activation_nonblocking.runtime_reload_loaded",
    u "runtime filter reload must successfully load the generated rule set");
   (u "guardrails.runtime_sigterm.sigterm_graceful",
    u "runtime shutdown must handle SIGTERM gracefully within the probe timeout");
   (u "guardrails.rate_limit_before_filter.rate_limit_precedes_filter",
    u "rate limiting must run before blocking filter activation on the hot path");
   (u "guardrails.tracked_ip_cap.new_client_denied_when_active_shard_full",
    u "tracked-IP capacity exhaustion must fail closed for new clients");
   (u "guardrails.tracked_ip_cap.first_client_initial_allowed",
    u "tracked-IP capacity probe must allow the first client before shard pressure");
   (u "guardrails.tracked_ip_cap.first_client_rate_limited",
    u "tracked-IP capacity probe must keep the existing client bounded after pressure");
   (u "guardrails.adaptive_catalog_shape.catalog_shape_requires_strong_evidence",
    u "adaptive catalog path-shape activation must require strong evidence");
   (u "guardrails.adaptive_catalog_shape.observed_only_not_activated",
    u "observed-only catalog traffic must not activate an adaptive filter");
   (u "guardrails.adaptive_window_cap.all_requests_ok",
    u "adaptive detector window-cap pressure must not shed ordinary requests");
   (u "guardrails.adaptive_window_cap.signature_windows_bounded",
    u "adaptive detector signature windows must stay within the configured cap");
   (u "guardrails.adaptive_window_cap.path_shape_windows_bounded",
    u "adaptive detector path-shape windows must stay within the configured cap");
   (u "guardrails.http_connection_rate.connection_rate_limited",
    u "per-IP HTTP connection-rate guard must reject excess new connections");
   (u "guardrails.slow_body.connection_close",
    u "request-body idle timeout responses must close the downstream connection")].

Definition REQUIRED_TRUE_CHECKS_2 : list (pystr * pystr) :=
  [(u "guardrails.request_content_encoding.compressed_request_rejected",
    u "compressed request bodies must be rejected by default");
   (u "guardrails.request_content_encoding.compressed_request_closes_connection",
    u "compressed request rejection must close the downstream connection");
   (u "guardrails.request_content_encoding.compressed_request_not_stored",
    u "compressed request rejection must be marked no-store");
   (u "guardrails.request_content_encoding.identity_request_allowed",
    u "identity-encoded request bodies must remain allowed");
   (u "guardrails.expect_guard.normal_request_allowed",
    u "normal requests without Expect headers must remain allowed");
   (u "guardrails.expect_guard.expect_continue_rejected",
    u "Expect: 100-continue must be rejected by default");
   (u "guardrails.expect_guard.unsupported_expectation_rejected",
    u "unsupported Expect headers must be rejected");
   (u "guardrails.expect_guard.expect_rejections_not_stored",
    u "Expect header rejections must be marked no-store");
   (u "guardrails.range_guard.multi_range_rejected",
    u "multi-range requests must be rejected by default");
   (u "guardrails.range_guard.unsupported_range_rejected",
    u "unsupported Range units must be rejected");
   (u "guardrails.range_guard.malformed_range_rejected",
    u "malformed Range headers must be rejected");
   (u "guardrails.range_guard.range_rejections_not_stored",
    u "Range rejections must be marked no-store");
   (u "guardrails.range_guard.single_range_allowed",
    u "single-range requests must remain allowed");
   (u "guardrails.chunked_request_body_opt_in.chunked_request_allowed",
    u "chunked request bodies must be allowed only when explicitly configured");
   (u "guardrails.accept_encoding.origin_accept_encoding_stripped",
    u "origin requests must strip Accept-Encoding by default");
   (u "guardrails.framing_guard.generated_framing_rejection_closes_connection",
    u "generated framing rejections must close the downstream connection");
   (u "guardrails.framing_guard.generated_framing_rejection_not_stored",
    u "generated framing rejections must be marked no-store");
   (u "guardrails.framing_guard.transfer_encoding_comma_spray_rejected",
    u "comma-sprayed Transfer-Encoding must be rejected");
   (u "guardrails.framing_guard.transfer_encoding_empty_comma_spray_rejected",
    u "empty comma-sprayed Transfer-Encoding must be rejected");
   (u "guardrails.header_timeout.slow_initial_header_timeout_observed",
    u "slow initial headers must hit the header-read timeout");
   (u "guardrails.header_timeout.raw_initial_408_closes_connection",
    u "raw initial header timeout must close the downstream connection");
   (u "guardrails.header_timeout.raw_initial_408_not_stored",
    u "raw initial header timeout must be marked no-store");
   (u "guardrails.header_timeout.idle_keepalive.closed_before_reuse",
    u "idle keep-alive connections must be closed before reuse");
   (u "guardrails.header_count.header_count_guard_observed",
    u "downstream header-count limits must be observed");
   (u "guardrails.header_count.raw_initial_431_closes_connection",
    u "raw initial too-many-headers rejection must close the connection");
   (u "guardrails.header_count.raw_initial_431_not_stored",
    u "raw initial too-many-headers rejection must be marked no-store");
   (u "guardrails.header_line_cap.header_line_cap_observed",
    u "downstream header-line byte cap must be observed");
   (u "guardrails.header_line_cap.keepalive_second_431",
    u "keep-alive follow-up header-line overflow must return 431");
   (u "guardrails.initial_framing_precheck_response.initial_framing_precheck_response_observed",
    u "initial HTTP framing precheck must generate a bounded rejection");
   (u "guardrails.initial_framing_precheck_response.initial_header_too_large_response_observed",
    u "initial header byte overflow must generate a bounded rejection");
   (u "guardrails.initial_framing_precheck_response.initial_header_late_terminator_over_cap_observed",
    u "initial header byte overflow with a late terminator must generate a bounded rejection");
   (u "guardrails.initial_framing_precheck_response.raw_initial_400_closes_connection",
    u "raw initial framing rejection must close the downstream connection");
   (u "guardrails.initial_framing_precheck_response.raw_initial_431_closes_connection",
    u "raw initial header overflow must close the downstream connection");
   (u "guardrails.host_guard.absolute_form_unsupported_scheme_rejected",
    u "absolute-form request targets must reject non-http schemes before origin work");
   (u "guardrails.host_guard.bare_host_does_not_allow_unlisted_port",
    u "allowed-host entries without ports must not allow unlisted host:port authorities");
   (u "guardrails.host_guard.absolute_form_bare_host_does_not_allow_unlisted_port",
    u "absolute-form allowed-host checks must require exact host:port authorities");
   (u "guardrails.uri_guard.raw_initial_request_target_guard_observed",
    u "raw initial request-target guard must reject oversized request targets before origin work")].

Definition REQUIRED_TRUE_CHECKS_3 : list (pystr * pystr) :=
  [(u "guardrails.allowed_hosts_startup.blank_rejected",
    u "allowed-host config must reject blank authorities at startup");
   (u "guardrails.allowed_hosts_startup.duplicate_rejected",
    u "allowed-host config must reject duplicate authorities at startup");
   (u "guardrails.allowed_hosts_startup.invalid_authority_rejected",
    u "allowed-host config must reject invalid authorities at startup");
   (u "guardrails.allowed_hosts_startup.oversized_rejected",
    u "allowed-host config must reject oversized authorities at startup");
   (u "guardrails.allowed_hosts_startup.too_many_rejected",
    u "allowed-host config must reject excessive authorities at startup");
   (u "guardrails.allowed_hosts_startup.userinfo_rejected",
    u "allowed-host config must reject authorities with userinfo at startup");
   (u "guardrails.allowed_hosts_startup.whitespace_rejected",
    u "allowed-host config must reject authorities with whitespace at startup");
   (u "guardrails.allowed_hosts_startup.wildcard_rejected",
    u "allowed-host config must reject wildcard authorities at startup");
   (u "guardrails.allowed_methods_startup.duplicate_rejected",
    u "allowed HTTP methods must reject duplicates at startup");
   (u "guardrails.allowed_methods_startup.empty_rejected",
    u "allowed HTTP methods must reject empty method lists at startup");
   (u "guardrails.allowed_methods_startup.invalid_token_rejected",
    u "allowed HTTP methods must reject invalid method tokens at startup");
   (u "guardrails.allowed_methods_startup.oversized_token_rejected",
    u "allowed HTTP methods must reject oversized method tokens at startup");
   (u "guardrails.allowed_methods_startup.too_many_rejected",
    u "allowed HTTP methods must reject excessive method lists at startup");
   (u "guardrails.allowed_methods_startup.unsupported_connect_rejected",
    u "allowed HTTP methods must reject CONNECT at startup");
   (u "guardrails.allowed_methods_startup.unsupported_trace_rejected",
    u "allowed HTTP methods must reject TRACE at startup");
   (u "guardrails.allowed_methods_startup.unsupported_track_rejected",
    u "allowed HTTP methods must reject TRACK at startup");
   (u "guardrails.header_buffer_floor_startup.downstream_max_header_bytes_rejected",
    u "downstream header byte cap below the safe floor must fail startup");
   (u "guardrails.header_buffer_floor_startup.upstream_max_header_bytes_rejected",
    u "upstream header byte cap below the safe floor must fail startup");
   (u "guardrails.header_buffer_ceiling_startup.downstream_max_header_bytes_rejected",
    u "downstream header byte cap above the supported ceiling must fail startup");
   (u "guardrails.header_buffer_ceiling_startup.upstream_max_header_bytes_rejected",
    u "upstream header byte cap above the supported ceiling must fail startup");
   (u "guardrails.header_count_ceiling_startup.downstream_max_headers_rejected",
    u "downstream header count above the supported ceiling must fail startup");
   (u "guardrails.header_count_ceiling_startup.upstream_max_headers_rejected",
    u "upstream header count above the supported ceiling must fail startup");
   (u "guardrails.header_read_timeout_ceiling_startup.header_read_timeout_rejected",
    u "header read timeout above the supported ceiling must fail startup");
   (u "guardrails.header_read_timeout_ceiling_startup.startup_rejected",
    u "header read-timeout ceiling probe must fail startup for unsupported values");
   (u "guardrails.http_endpoint_startup.invalid_listen_rejected",
    u "invalid HTTP listen addresses must fail startup before binding");
   (u "guardrails.http_endpoint_startup.missing_upstream_scheme_rejected",
    u "HTTP upstream config must include an http:// scheme");
   (u "guardrails.http_endpoint_startup.https_upstream_scheme_rejected",
    u "plain HTTP connector deployments must reject https:// upstreams at startup");
   (u "guardrails.http_endpoint_startup.upstream_userinfo_rejected",
    u "HTTP upstream config must reject URI userinfo");
   (u "guardrails.http_endpoint_startup.upstream_query_rejected",
    u "HTTP upstream config must reject query strings");
   (u "guardrails.tcp_endpoint_startup.invalid_listen_rejected",
    u "invalid TCP listen addresses must fail startup before binding");
   (u "guardrails.tcp_endpoint_startup.missing_upstream_port_rejected",
    u "TCP upstream config must include a numeric port");
   (u "guardrails.tcp_endpoint_startup.upstream_scheme_rejected",
    u "TCP upstream config must be host:port without a URL scheme");
   (u "guardrails.tcp_endpoint_startup.upstream_userinfo_rejected",
    u "TCP upstream config must reject URI userinfo");
   (u "guardrails.tcp_endpoint_startup.upstream_path_rejected",
    u "TCP upstream config must reject path-like upstream values");
   (u "guardrails.tcp_endpoint_startup.upstream_zero_port_rejected",
    u "TCP upstream config must reject port zero");
   (u "guardrails.client_ip_config_startup.blank_trusted_proxy_rejected",
    u "client-IP config must reject blank trusted-proxy entries");
   (u "guardrails.client_ip_config_startup.duplicate_trusted_proxy_rejected",
    u "client-IP config must reject duplicate trusted-proxy entries")].

Definition REQUIRED_TRUE_CHECKS_4 : list (pystr * pystr) :=
  [(u "guardrails.client_ip_config_startup.invalid_header_rejected",
    u "client-IP config must reject invalid trusted identity header names");
   (u "guardrails.client_ip_config_startup.invalid_trusted_proxy_rejected",
    u "client-IP config must reject invalid trusted-proxy networks");
   (u "guardrails.client_ip_config_startup.oversized_header_rejected",
    u "client-IP config must reject oversized trusted identity header names");
   (u "guardrails.client_ip_config_startup.oversized_trusted_proxy_rejected",
    u "client-IP config must reject oversized trusted-proxy entries");
   (u "guardrails.client_ip_config_startup.too_many_trusted_proxies_rejected",
    u "client-IP config must reject excessive trusted-proxy entries");
   (u "guardrails.trusted_proxy_global_trust_startup.global_trusted_proxy_rejected",
    u "trusted-proxy config must reject globally trusting all remote clients");
   (u "guardrails.method_override_headers.override_headers_rejected",
    u "method override headers must be rejected by default before origin work");
   (u "guardrails.method_override_headers.method_rejected_metric_matches",
    u "method override header rejections must increment the method rejection metric");
   (u "guardrails.trusted_proxy_aggregate_rate.rotating_xff_aggregate_limited",
    u "trusted-proxy aggregate rate limit must catch rotating X-Forwarded-For floods");
   (u "guardrails.trusted_proxy_aggregate_rate.first_burst_allowed",
    u "trusted-proxy aggregate rate limit must allow the initial configured burst");
   (u "guardrails.trusted_proxy_aggregate_rate.retry_after_header_matches",
    u "trusted-proxy aggregate rate-limit responses must carry Retry-After");
   (u "guardrails.trusted_proxy_aggregate_rate.cache_control_header_matches",
    u "trusted-proxy aggregate rate-limit responses must be marked no-store");
   (u "guardrails.trusted_proxy_aggregate_rate.trusted_proxy_metric_matches",
    u "trusted-proxy aggregate probe must increment the trusted-proxy limit metric");
   (u "guardrails.forwarded_headers.trusted_proxy.duplicate_xff_chain_preserved",
    u "trusted-proxy forwarding must canonicalize every duplicate X-Forwarded-For value used for client identity");
   (u "guardrails.forwarded_headers.custom_identity_header.custom_identity_xff_synthesized",
    u "trusted custom identity headers must synthesize a clean X-Forwarded-For chain instead of preserving spoofed XFF");
   (u "guardrails.forwarded_headers.custom_identity_header.duplicate_custom_identity_rejected",
    u "trusted custom identity headers must reject duplicate singleton identity fields");
   (u "guardrails.forwarded_headers.custom_identity_header.comma_custom_identity_rejected",
    u "trusted custom identity headers must reject comma-list singleton identity fields");
   (u "guardrails.forwarded_headers.custom_identity_header.custom_identity_rejected_metric_matches",
    u "trusted custom identity header rejections must increment the forwarded-rejected metric");
   (u "guardrails.forwarded_header_bounds.valid_chain_allowed",
    u "bounded forwarded-header parsing must allow a valid trusted chain");
   (u "guardrails.forwarded_header_bounds.malformed_chain_rejected",
    u "bounded forwarded-header parsing must reject malformed chains");
   (u "guardrails.forwarded_header_bounds.oversized_chain_rejected",
    u "bounded forwarded-header parsing must reject oversized chains");
   (u "guardrails.forwarded_header_bounds.too_many_hops_rejected",
    u "bounded forwarded-header parsing must reject excessive hop counts");
   (u "guardrails.forwarded_header_bounds.rejection_metric_matches",
    u "bounded forwarded-header rejections must increment the forwarded-rejected metric");
   (u "guardrails.trusted_proxy_in_flight.rotating_xff_peer_concurrency_limited",
    u "trusted-proxy in-flight limits must catch rotating X-Forwarded-For peer floods");
   (u "guardrails.trusted_proxy_in_flight.retry_after_header_matches",
    u "trusted-proxy in-flight overload responses must carry Retry-After");
   (u "guardrails.trusted_proxy_in_flight.cache_control_header_matches",
    u "trusted-proxy in-flight overload responses must be marked no-store");
   (u "guardrails.trusted_proxy_in_flight.trusted_proxy_metric_matches",
    u "trusted-proxy in-flight probe must increment the trusted-proxy limit metric");
   (u "guardrails.ip_prefix_aggregation.same_ipv6_prefix_limited",
    u "IPv6 prefix aggregation must limit rotating clients inside the same prefix");
   (u "guardrails.ip_prefix_aggregation.different_ipv6_prefix_allowed",
    u "IPv6 prefix aggregation must allow clients from unrelated prefixes");
   (u "guardrails.ip_prefix_aggregation.retry_after_header_matches",
    u "IPv6 prefix aggregation limit responses must carry Retry-After");
   (u "guardrails.ip_prefix_aggregation.cache_control_header_matches",
    u "IPv6 prefix aggregation limit responses must be marked no-store");
   (u "guardrails.ip_prefix_aggregation.rate_limited_metric_matches",
    u "IPv6 prefix aggregation probe must increment the rate-limited metric");
   (u "guardrails.upstream_failure_circuit.circuit_scoped_to_path_shape",
    u "upstream failure circuit breaker must be scoped by path shape");
   (u "guardrails.upstream_connect_timeout.upstream_connect_timeout_observed",
    u "upstream connect attempts must honor the connect timeout");
   (u "guardrails.upstream_connect_timeout.generated_502_closes_connection",
    u "upstream connect-timeout rejection must close the downstream connection");
   (u "guardrails.upstream_connect_timeout.generated_502_not_stored",
    u "upstream connect-timeout rejection must be marked no-store");
   (u "guardrails.upstream_timeout_response.upstream_timeout_response_observed",
    u "upstream response timeout must produce a bounded generated response")].

Definition REQUIRED_TRUE_CHECKS_5 : list (pystr * pystr) :=
  [(u "guardrails.upstream_timeout_response.generated_504_closes_connection",
    u "upstream timeout response must close the downstream connection");
   (u "guardrails.upstream_timeout_response.generated_504_not_stored",
    u "upstream timeout response must be marked no-store");
   (u "guardrails.upstream_header_guard.upstream_header_guard_observed",
    u "upstream response-header guard must reject oversized upstream headers");
   (u "guardrails.upstream_header_guard.generated_502_closes_connection",
    u "upstream header rejection must close the downstream connection");
   (u "guardrails.upstream_header_guard.generated_502_not_stored",
    u "upstream header rejection must be marked no-store");
   (u "guardrails.upstream_in_flight.cache_control_header_matches",
    u "upstream in-flight overload responses must be marked no-store");
   (u "guardrails.upstream_in_flight.retry_after_header_matches",
    u "upstream in-flight overload responses must carry Retry-After");
   (u "guardrails.upstream_response_guard.hop_by_hop_headers_stripped",
    u "upstream hop-by-hop response headers must be stripped");
   (u "guardrails.upstream_response_guard.oversized_response.closed",
    u "oversized upstream response bodies must be closed");
   (u "guardrails.upstream_response_guard.stalled_response.closed",
    u "stalled upstream response bodies must be closed");
   (u "guardrails.request_trailer_policy.request_trailer_policy_observed",
    u "request trailer policy must be exercised by the benchmark");
   (u "guardrails.request_trailer_policy.oversized_request_trailer_rejected",
    u "oversized request trailers must be rejected");
   (u "guardrails.request_trailer_policy.generated_431_closes_connection",
    u "oversized request-trailer rejections must close the downstream connection");
   (u "guardrails.request_trailer_policy.generated_431_not_stored",
    u "oversized request-trailer rejections must be marked no-store");
   (u "guardrails.request_trailer_policy.connection_closed_before_followup",
    u "oversized request-trailer rejections must close before keep-alive reuse");
   (u "guardrails.upstream_trailer_policy.upstream_trailer_policy_observed",
    u "upstream trailer policy must be exercised by the benchmark");
   (u "guardrails.downstream_keep_alive.closed_before_second_response",
    u "downstream keep-alive must be disabled by default");
   (u "guardrails.connection_request_limit.connection_request_limit_observed",
    u "per-connection request-count guard must be observed");
   (u "guardrails.connection_request_limit.third_request_limited",
    u "per-connection request-count guard must limit excess keep-alive reuse");
   (u "guardrails.connection_request_limit.retry_after_header_matches",
    u "per-connection request-count limit responses must carry Retry-After");
   (u "guardrails.connection_request_limit.cache_control_header_matches",
    u "per-connection request-count limit responses must be marked no-store");
   (u "guardrails.connection_request_limit.connection_close_header_matches",
    u "per-connection request-count limit responses must close the connection");
   (u "guardrails.connection_request_limit.connection_closed_before_fourth",
    u "per-connection request-count guard must close before further reuse");
   (u "guardrails.downstream_write_timeout.downstream_write_timeout_observed",
    u "downstream write timeout must close write-backpressured responses");
   (u "guardrails.tcp_global_connection_cap.rejected_closed",
    u "TCP global connection cap must reject excess active connections");
   (u "guardrails.tcp_global_connection_rate.global_connection_rate_limited",
    u "TCP global connection-rate bucket must reject excess connection churn");
   (u "guardrails.tcp_idle_timeout.closed",
    u "TCP idle timeout must close idle raw TCP sessions");
   (u "guardrails.tcp_relay_head_of_line.upstream_response_delivered_while_downstream_write_blocked",
    u "TCP relay must keep the opposite direction flowing while one direction is write-backpressured");
   (u "guardrails.log_suppression.timeout_log_lines_bounded",
    u "timeout log suppression must keep repeated timeout logs bounded");
   (u "guardrails.event_log_async_queue.all_requests_completed",
    u "event-log queue pressure must not stall request completion");
   (u "guardrails.event_log_async_queue.event_log_queue_dropped",
    u "event-log async queue must drop when full instead of blocking the request thread");
   (u "guardrails.event_log_flush.all_requests_ok",
    u "event-log flush probe traffic must complete successfully");
   (u "guardrails.event_log_flush.first_event_flushed_immediately",
    u "event logging must flush the first event immediately for early attack evidence");
   (u "guardrails.event_log_flush.burst_flush_batched",
    u "event logging must batch burst flushes instead of forcing per-event sync I/O");
   (u "guardrails.event_log_flush.interval_flush_observed",
    u "event logging must flush batched events on the configured interval");
   (u "guardrails.event_log_field_bounds.all_event_fields_bounded",
    u "event-log fields must remain bounded before serialization");
   (u "guardrails.event_log_rotation.all_requests_ok",
    u "event-log rotation probe traffic must complete successfully")].

Definition REQUIRED_TRUE_CHECKS_6 : list (pystr * pystr) :=
  [(u "guardrails.event_log_rotation.backup_present",
    u "event-log rotation must create a bounded backup file after the byte cap is reached");
   (u "guardrails.event_log_rotation.active_log_present",
    u "event-log rotation must leave an active log file available for new events");
   (u "guardrails.event_log_rotation.jsonl_valid",
    u "event-log rotation must preserve valid JSONL records");
   (u "guardrails.event_log_rotation.total_bytes_bounded",
    u "event-log rotation must keep retained log bytes bounded");
   (u "guardrails.runtime_filter_bounds.oversized_file_rejected_and_last_good_preserved",
    u "oversized runtime filter files must be rejected while preserving last-good rules");
   (u "guardrails.runtime_filter_bounds.too_many_rules_rejected_and_last_good_preserved",
    u "runtime filter over-capacity files must be rejected while preserving last-good rules");
   (u "guardrails.runtime_filter_hot_path.normal_request_allowed",
    u "runtime filter hot-path probe must allow normal requests");
   (u "guardrails.runtime_filter_hot_path.control_request_allowed",
    u "runtime filter hot-path probe must allow control requests");
   (u "guardrails.filter_rule_startup.empty_condition_rejected",
    u "static filter rules with empty conditions must fail startup");
   (u "guardrails.filter_rule_startup.invalid_status_rejected",
    u "static filter rules with invalid generated status codes must fail startup");
   (u "guardrails.filter_rule_startup.oversized_body_rejected",
    u "static filter rules with oversized generated bodies must fail startup");
   (u "guardrails.filter_rule_startup.too_many_static_filters_rejected",
    u "static filter rule counts above supported bounds must fail startup");
   (u "guardrails.config_file_startup.oversized_config_rejected",
    u "oversized config files must fail startup before loading");
   (u "guardrails.config_file_startup.non_regular_config_rejected",
    u "non-regular config paths must fail startup before loading");
   (u "guardrails.negative_rate_startup.negative_http_rate_rejected",
    u "negative HTTP rate limits must fail startup");
   (u "guardrails.negative_rate_startup.negative_tcp_rate_rejected",
    u "negative TCP rate limits must fail startup");
   (u "guardrails.zero_capacity_startup.http_connection_cap_rejected",
    u "zero HTTP connection capacity must fail startup");
   (u "guardrails.zero_capacity_startup.tcp_connection_cap_rejected",
    u "zero TCP connection capacity must fail startup");
   (u "guardrails.zero_capacity_startup.http_metadata_cap_rejected",
    u "zero HTTP metadata capacity must fail startup");
   (u "guardrails.zero_capacity_startup.http_forwarded_cap_rejected",
    u "zero forwarded-header capacity must fail startup");
   (u "guardrails.zero_capacity_startup.http_upstream_connect_timeout_rejected",
    u "zero HTTP upstream connect timeout must fail startup");
   (u "guardrails.dynamic_state_ceiling_startup.all_dynamic_state_ceilings_rejected",
    u "dynamic state ceilings above supported bounds must fail startup");
   (u "guardrails.control_capacity_startup.filter_file_cap_rejected",
    u "filter file capacity above supported bounds must fail startup");
   (u "guardrails.control_capacity_startup.filter_rule_cap_rejected",
    u "filter rule capacity above supported bounds must fail startup");
   (u "guardrails.control_capacity_startup.adaptive_queue_cap_rejected",
    u "adaptive queue capacity above supported bounds must fail startup");
   (u "guardrails.control_capacity_startup.adaptive_window_cap_rejected",
    u "adaptive window capacity above supported bounds must fail startup");
   (u "guardrails.control_capacity_startup.adaptive_log_cap_rejected",
    u "adaptive log capacity above supported bounds must fail startup");
   (u "guardrails.control_capacity_startup.adaptive_flush_interval_rejected",
    u "adaptive flush interval above supported bounds must fail startup");
   (u "guardrails.http_metadata_ceiling_startup.all_http_metadata_ceilings_rejected",
    u "HTTP metadata ceilings above supported bounds must fail startup");
   (u "guardrails.http_stream_timeout_ceiling_startup.request_body_idle_timeout_rejected",
    u "request-body idle timeout above supported bounds must fail startup");
   (u "guardrails.http_stream_timeout_ceiling_startup.upstream_body_idle_timeout_rejected",
    u "upstream-body idle timeout above supported bounds must fail startup");
   (u "guardrails.http_stream_timeout_ceiling_startup.downstream_write_timeout_rejected",
    u "downstream write timeout above supported bounds must fail startup");
   (u "guardrails.http_stream_timeout_ceiling_startup.request_body_min_rate_grace_rejected",
    u "request-body minimum-rate grace above supported bounds must fail startup");
   (u "guardrails.http_stream_timeout_ceiling_startup.upstream_body_min_rate_grace_rejected",
    u "upstream-body minimum-rate grace above supported bounds must fail startup");
   (u "guardrails.body_size_ceiling_startup.max_body_bytes_rejected",
    u "request body size above supported bounds must fail startup");
   (u "guardrails.body_size_ceiling_startup.max_upstream_body_bytes_rejected",
    u "upstream body size above supported bounds must fail startup");
   (u "guardrails.min_rate_ceiling_startup.all_min_rate_ceilings_rejected",
    u "minimum-rate ceilings above supported bounds must fail startup")].

Definition REQUIRED_TRUE_CHECKS_7 : list (pystr * pystr) :=
  [(u "guardrails.min_rate_ceiling_startup.http_request_body_min_rate_rejected",
    u "HTTP request-body minimum-rate ceiling above supported bounds must fail startup");
   (u "guardrails.min_rate_ceiling_startup.http_upstream_body_min_rate_rejected",
    u "HTTP upstream-body minimum-rate ceiling above supported bounds must fail startup");
   (u "guardrails.min_rate_ceiling_startup.tcp_downstream_min_rate_rejected",
    u "TCP downstream minimum-rate ceiling above supported bounds must fail startup");
   (u "guardrails.min_rate_ceiling_startup.tcp_upstream_min_rate_rejected",
    u "TCP upstream minimum-rate ceiling above supported bounds must fail startup");
   (u "guardrails.connect_timeout_ceiling_startup.http_upstream_connect_timeout_rejected",
    u "HTTP upstream connect timeout above supported bounds must fail startup");
   (u "guardrails.connect_timeout_ceiling_startup.tcp_connect_timeout_rejected",
    u "TCP connect timeout above supported bounds must fail startup");
   (u "guardrails.upstream_timeout_ceiling_startup.upstream_timeout_rejected",
    u "upstream response timeout above supported bounds must fail startup");
   (u "guardrails.upstream_timeout_ceiling_startup.startup_rejected",
    u "upstream response timeout ceiling probe must fail startup for unsupported values");
   (u "guardrails.upstream_failure_circuit_ceiling_startup.upstream_failure_threshold_rejected",
    u "upstream failure threshold above supported bounds must fail startup");
   (u "guardrails.upstream_failure_circuit_ceiling_startup.upstream_failure_open_ms_rejected",
    u "upstream failure open interval above supported bounds must fail startup");
   (u "guardrails.upstream_idle_pool_ceiling_startup.upstream_pool_max_idle_per_host_rejected",
    u "upstream idle pool size above supported bounds must fail startup");
   (u "guardrails.upstream_idle_pool_ceiling_startup.upstream_pool_idle_timeout_rejected",
    u "upstream idle pool timeout above supported bounds must fail startup");
   (u "guardrails.connection_duration_ceiling_startup.http_max_connection_duration_rejected",
    u "HTTP maximum connection duration above supported bounds must fail startup");
   (u "guardrails.connection_duration_ceiling_startup.tcp_max_connection_duration_rejected",
    u "TCP maximum connection duration above supported bounds must fail startup");
   (u "guardrails.connection_request_count_ceiling_startup.max_requests_per_connection_rejected",
    u "maximum requests per connection above supported bounds must fail startup");
   (u "guardrails.connection_request_count_ceiling_startup.startup_rejected",
    u "connection request-count ceiling probe must fail startup for unsupported values");
   (u "guardrails.event_log_queue_capacity_ceiling_startup.event_log_queue_capacity_rejected",
    u "event-log queue capacity above supported bounds must fail startup");
   (u "guardrails.event_log_queue_capacity_ceiling_startup.startup_rejected",
    u "event-log queue capacity ceiling probe must fail startup for unsupported values");
   (u "guardrails.event_log_backup_count_ceiling_startup.event_log_backup_count_rejected",
    u "event-log backup count above supported bounds must fail startup");
   (u "guardrails.event_log_backup_count_ceiling_startup.startup_rejected",
    u "event-log backup count ceiling probe must fail startup for unsupported values");
   (u "guardrails.runtime_nofile.runtime_nofile_observed",
    u "runtime NOFILE limit must be observed in the benchmarked process");
   (u "guardrails.runtime_nofile_capacity.capacity_rejected",
    u "startup must reject configured socket capacity above runtime NOFILE capacity");
   (u "guardrails.edge_template_port_coverage.systemd_unit_allowed",
    u "shipped systemd unit must satisfy runtime guardrails");
   (u "guardrails.edge_template_port_coverage.connlimit_set_sizes_allowed",
    u "edge connlimit sets must have explicit bounded sizes");
   (u "guardrails.edge_template_port_coverage.covered_public_ports_allowed",
    u "edge template must cover configured public listener ports");
   (u "guardrails.edge_template_port_coverage.aligned_systemd_capacity_allowed",
    u "systemd LimitNOFILE must allow a value that covers the configured socket budget");
   (u "guardrails.edge_template_port_coverage.insufficient_systemd_capacity_rejected",
    u "systemd validation must reject LimitNOFILE values below configured socket budget");
   (u "guardrails.edge_template_port_coverage.aligned_low_cap_connlimit_threshold_allowed",
    u "edge connlimit threshold must allow values aligned to a tighter public userspace cap");
   (u "guardrails.edge_template_port_coverage.excessive_connlimit_threshold_rejected",
    u "edge connlimit threshold must not exceed the tightest public userspace cap");
   (u "guardrails.edge_template_port_coverage.missing_public_port_rejected",
    u "edge template validation must reject missing public listener ports");
   (u "guardrails.edge_template_port_coverage.loopback_missing_port_allowed",
    u "edge template validation must allow loopback-only listeners to be absent from public edge rules");
   (u "guardrails.edge_template_port_coverage.weak_systemd_sandbox_rejected",
    u "systemd validation must reject weak sandboxing");
   (u "guardrails.edge_template_port_coverage.missing_connlimit_set_size_rejected",
    u "edge template validation must reject connlimit sets without explicit size bounds");
   (u "guardrails.edge_template_port_coverage.missing_udp_drop_rejected",
    u "edge template validation must reject missing UDP drop backstops");
   (u "guardrails.edge_template_port_coverage.generic_tcp_backstops_allowed",
    u "edge template validation must allow generic TCP backstops with explicit transport matching");
   (u "guardrails.edge_template_port_coverage.missing_generic_tcp_l4proto_rejected",
    u "edge template validation must reject generic TCP backstops missing meta l4proto");
   (u "guardrails.edge_template_port_coverage.ipv6_prefix_backstops_allowed",
    u "edge template validation must allow IPv6 prefix SYN and connlimit backstops")].

Definition REQUIRED_TRUE_CHECKS_8 : list (pystr * pystr) :=
  [(u "guardrails.edge_template_port_coverage.missing_ipv6_prefix_syn_backstop_rejected",
    u "edge template validation must reject missing IPv6 prefix SYN backstops");
   (u "guardrails.edge_template_port_coverage.missing_ipv6_prefix_connlimit_rejected",
    u "edge template validation must reject missing IPv6 prefix connlimit backstops");
   (u "guardrails.edge_template_port_coverage.ipv6_extension_safe_protocols_allowed",
    u "edge template validation must allow IPv6 extension-header-safe protocol matches");
   (u "guardrails.edge_template_port_coverage.missing_ipv6_syn_l4proto_rejected",
    u "edge template validation must reject IPv6 SYN rules missing meta l4proto");
   (u "guardrails.edge_template_port_coverage.missing_ipv6_connlimit_l4proto_rejected",
    u "edge template validation must reject IPv6 connlimit rules missing meta l4proto");
   (u "guardrails.edge_template_port_coverage.missing_ipv6_icmp_l4proto_rejected",
    u "edge template validation must reject IPv6 ICMP rules missing transport-safe matching");
   (u "guardrails.edge_template_port_coverage.icmpv4_control_exemption_allowed",
    u "edge template validation must allow required ICMPv4 control traffic before drops");
   (u "guardrails.edge_template_port_coverage.missing_icmpv4_control_exemption_rejected",
    u "edge template validation must reject missing ICMPv4 control exemptions");
   (u "guardrails.edge_template_port_coverage.late_icmpv4_control_exemption_rejected",
    u "edge template validation must reject ICMPv4 control exemptions placed after drops");
   (u "guardrails.edge_template_port_coverage.icmpv6_control_exemption_allowed",
    u "edge template validation must allow required ICMPv6 control traffic before drops");
   (u "guardrails.edge_template_port_coverage.missing_icmpv6_control_exemption_rejected",
    u "edge template validation must reject missing ICMPv6 control exemptions");
   (u "guardrails.edge_template_port_coverage.late_icmpv6_control_exemption_rejected",
    u "edge template validation must reject ICMPv6 control exemptions placed after drops");
   (u "guardrails.edge_template_port_coverage.syn_rate_set_bounds_allowed",
    u "edge template validation must allow bounded SYN-rate sets");
   (u "guardrails.edge_template_port_coverage.missing_syn_rate_set_size_rejected",
    u "edge template validation must reject SYN-rate sets without explicit size bounds");
   (u "guardrails.edge_template_port_coverage.missing_syn_rate_set_timeout_rejected",
    u "edge template validation must reject SYN-rate sets without explicit timeout bounds");
   (u "guardrails.edge_template_port_coverage.fragment_sysctls_allowed",
    u "host sysctl validation must allow bounded fragment reassembly settings");
   (u "guardrails.edge_template_port_coverage.missing_fragment_sysctls_rejected",
    u "host sysctl validation must reject missing fragment reassembly guardrails");
   (u "guardrails.edge_template_port_coverage.excessive_fragment_time_rejected",
    u "host sysctl validation must reject excessive fragment retention time");
   (u "guardrails.edge_template_port_coverage.invalid_fragment_thresholds_rejected",
    u "host sysctl validation must reject invalid fragment memory thresholds");
   (u "guardrails.edge_template_port_coverage.insufficient_systemd_nofile_rejected",
    u "systemd validation must reject LimitNOFILE values below shipped guardrail minimums");
   (u "guardrails.edge_template_port_coverage.excessive_systemd_capabilities_rejected",
    u "systemd validation must reject excessive service capabilities");
   (u "guardrails.admin_prefix_startup.query_prefix_rejected",
    u "admin prefix config must reject prefixes containing query strings");
   (u "guardrails.admin_prefix_startup.relative_prefix_rejected",
    u "admin prefix config must reject relative prefixes");
   (u "guardrails.admin_prefix_startup.root_prefix_rejected",
    u "admin prefix config must reject root prefixes");
   (u "guardrails.admin_token_startup.blank_token_rejected",
    u "admin metrics token config must reject blank tokens");
   (u "guardrails.admin_token_startup.control_token_rejected",
    u "admin metrics token config must reject control characters");
   (u "guardrails.admin_token_startup.empty_token_rejected",
    u "admin metrics token config must reject empty tokens");
   (u "guardrails.admin_token_startup.long_token_rejected",
    u "admin metrics tokens above the bounded comparison budget must fail startup");
   (u "guardrails.admin_token_startup.padded_token_rejected",
    u "admin metrics token config must reject tokens with padding whitespace");
   (u "guardrails.admin_control_plane.duplicate_metrics_token_rejected",
    u "metrics auth must fail closed when duplicate admin token headers are present");
   (u "guardrails.admin_control_plane.admin_responses_not_stored",
    u "admin control-plane responses must be marked no-store");
   (u "guardrails.admin_control_plane.admin_responses_close_connection",
    u "admin control-plane responses must close connections by default");
   (u "guardrails.admin_control_plane.body_bearing_admin_responses_not_stored",
    u "body-bearing admin control-plane responses must be marked no-store");
   (u "guardrails.admin_control_plane.body_bearing_health_closes_connection",
    u "body-bearing health checks must close before keep-alive reuse");
   (u "guardrails.admin_control_plane.body_bearing_metrics_without_token_closes_connection",
    u "body-bearing unauthenticated metrics checks must close before keep-alive reuse");
   (u "guardrails.admin_control_plane.body_bearing_metrics_with_token_closes_connection",
    u "body-bearing authenticated metrics checks must close before keep-alive reuse");
   (u "guardrails.admin_rate_limit.retry_after_header_matches",
    u "admin endpoint per-IP rate-limit responses must carry Retry-After")].

Definition REQUIRED_TRUE_CHECKS_9 : list (pystr * pystr) :=
  [(u "guardrails.admin_rate_limit.cache_control_header_matches",
    u "admin endpoint per-IP rate-limit responses must be marked no-store");
   (u "guardrails.admin_signature_rate.admin_health_signature_limited",
    u "admin health requests must be covered by request-signature limiting");
   (u "guardrails.admin_signature_rate.retry_after_header_matches",
    u "admin signature-rate responses must carry Retry-After");
   (u "guardrails.admin_signature_rate.cache_control_header_matches",
    u "admin signature-rate responses must be marked no-store");
   (u "guardrails.admin_signature_rate.signature_metric_matches",
    u "admin signature-rate probe must increment the dedicated signature metric");
   (u "guardrails.admin_signature_rate.rate_limited_metric_includes_signature_limit",
    u "aggregate rate-limit metrics must include admin signature limiting")].

Definition REQUIRED_TRUE_CHECKS : list (pystr * pystr) :=
  REQUIRED_TRUE_CHECKS_1 ++
  REQUIRED_TRUE_CHECKS_2 ++
  REQUIRED_TRUE_CHECKS_3 ++
  REQUIRED_TRUE_CHECKS_4 ++
  REQUIRED_TRUE_CHECKS_5 ++
  REQUIRED_TRUE_CHECKS_6 ++
  REQUIRED_TRUE_CHECKS_7 ++
  REQUIRED_TRUE_CHECKS_8 ++
  REQUIRED_TRUE_CHECKS_9.
Definition ints (l : list Z) : pyval := VList (VInt <$> l).

Definition REQUIRED_VALUE_CHECKS : list (pystr * pyval * pystr) :=
  [(u "guardrails.tcp_min_rate.slow_drip.second_echo_bytes", VInt 0,
    u "explicit TCP minimum-rate guard must close before the second slow-drip byte is echoed");
   (u "guardrails.tcp_min_rate.slow_drip.third_echo_bytes", VInt 0,
    u "explicit TCP minimum-rate guard must keep the third slow-drip byte from echoing");
   (u "guardrails.tcp_min_rate.default_slow_drip.second_echo_bytes", VInt 0,
    u "default TCP minimum-rate guard must close before the second slow-drip byte is echoed");
   (u "guardrails.tcp_min_rate.default_slow_drip.third_echo_bytes", VInt 0,
    u "default TCP minimum-rate guard must keep the third slow-drip byte from echoing");
   (u "guardrails.admin_rate_limit.statuses", ints [200; 429]%Z,
    u "admin health per-IP rate-limit probe must allow the first request and limit the second");
   (u "guardrails.admin_signature_rate.statuses", ints [200; 200; 429; 429]%Z,
    u "admin health signature-rate probe must allow the burst then limit repeated signatures")].

(** ** Looking values up *)

(** [path_value(report, dotted_path)]; [None] is [MISSING]. *)
Fixpoint walk (value : pyval) (parts : list pystr) : option pyval :=
  match parts with
  | [] => Some value
  | part :: rest =>
      match value with
      | VDict d => match dget part d with Some v => walk v rest | None => None end
      | _ => None
      end
  end.

Definition path_value (report : pydict) (dotted_path : pystr) : option pyval :=
  walk (VDict report) (split_on 46 dotted_path).

Definition format_value (value : option pyval) : pystr :=
  match value with None => u "<missing>" | Some v => py_repr v end.

(** The two helpers have the same text in both checkers. *)
Definition number_at_least_errors := DefenseAssert.number_at_least_errors.
Definition expected_value_errors := DefenseAssert.expected_value_errors.

(** ** Benchmark surfaces *)

(** A numeric field of a surface: not a number, not acceptable, or fine. *)
Definition surface_number_errors (surface label : pystr) (value : pyval) (good : float -> bool) (wanted : pystr) :
    res (list pystr) :=
  match value with
  | VInt _ | VFloat _ =>
      let* f := float_of_num value in
      Ok (if negb (is_finite f) || negb (good f)
          then [surface ++ u ": expected " ++ label ++ wanted ++ u ", found " ++ py_repr value]
          else [])
  | _ => Ok [surface ++ u ": " ++ label ++ u " must be numeric, found " ++ py_repr value]
  end.

Definition surface_errors (report : pydict) (item : pystr * pystr) : res (list pystr) :=
  let '(surface, count_key) := item in
  match or_none (dget surface report) with
  | VDict payload =>
      let* e1 := surface_number_errors surface (u "errors") (default (VInt 0) (dget (u "errors") payload))
                   (fun f => feqb f f0) (u "=0") in
      let* e2 := surface_number_errors surface count_key (default (VInt 0) (dget count_key payload))
                   (fun f => negb (fleb f f0)) (u ">0") in
      Ok (e1 ++ e2)
  | _ => Ok [surface ++ u ": missing benchmark surface"]
  end.

Definition SURFACES : list (pystr * pystr) :=
  [(u "proxy", u "requests"); (u "health", u "requests"); (u "tcp", u "messages")].

Definition append_surface_errors (report : pydict) : res (list pystr) :=
  let* es := mapR (surface_errors report) SURFACES in Ok (mjoin es).

(** ** The report *)

Definition is_true (value : option pyval) : bool := match value with Some (VBool true) => true | _ => false end.

Definition true_check_errors (report : pydict) (check : pystr * pystr) : list pystr :=
  let value := path_value report check.1 in
  if is_true value then []
  else [check.1 ++ u ": expected true (" ++ check.2 ++ u "), found " ++ format_value value].

(** [value == expected], where [MISSING] equals nothing. *)
Definition equals (value : option pyval) (expected : pyval) : bool :=
  match value with Some v => py_eqb v expected | None => false end.

Definition value_check_errors (report : pydict) (check : pystr * pyval * pystr) : list pystr :=
  let '(dotted_path, expected, description) := check in
  let value := path_value report dotted_path in
  if equals value expected then []
  else [dotted_path ++ u ": expected " ++ py_repr expected ++ u " (" ++ description ++ u "), found " ++ format_value value].

Definition assert_report (report : pydict) (require_provenance : bool) (min_duration : option float)
    (min_workers min_tcp_workers : option Z) (expect_binary : option pystr) : res (list pystr) :=
  let e1 := if require_provenance then provenance_errors report else [] in
  let* e2 := number_at_least_errors report (u "duration_seconds") (VFloat <$> min_duration) in
  let* e3 := number_at_least_errors report (u "workers") (VInt <$> min_workers) in
  let* e4 := number_at_least_errors report (u "tcp_workers") (VInt <$> min_tcp_workers) in
  let e5 := expected_value_errors report (u "binary") (VStr <$> expect_binary) in
  let* e6 := append_surface_errors report in
  let errors := e1 ++ e2 ++ e3 ++ e4 ++ e5 ++ e6 in
  Ok match or_none (dget (u "guardrails") report) with
     | VDict _ =>
         errors ++ mjoin (true_check_errors report <$> REQUIRED_TRUE_CHECKS) ++
         mjoin (value_check_errors report <$> REQUIRED_VALUE_CHECKS)
     | _ => errors ++ [u "report has no guardrails object"]
     end.

Definition passing_guardrail_summary (report : pydict) : list pystr :=
  mjoin ((fun check => if is_true (path_value report check.1) then [check.1 ++ u ": " ++ check.2] else [])
         <$> REQUIRED_TRUE_CHECKS) ++
  mjoin ((fun check => if equals (path_value report check.1.1) check.1.2 then [check.1.1 ++ u ": " ++ check.2] else [])
         <$> REQUIRED_VALUE_CHECKS).

(** [main]: the exit status, standard output and standard error. *)
Definition main (text : res pystr) (require_provenance : bool) (min_duration : option float)
    (min_workers min_tcp_workers : option Z) (expect_binary : option pystr) : res (Z * list pystr * list pystr) :=
  let* text := text in
  let* report := loads text in
  match report with
  | VDict report =>
      let* errors := assert_report report require_provenance min_duration min_workers min_tcp_workers expect_binary in
      match errors with
      | [] => Ok (0%Z, passing_guardrail_summary report, [])
      | es => Ok (1%Z, [], es)
      end
  | _ => Raise (Exn AttributeError (u "object has no attribute 'get'"))
  end.

(** ** Acceptance *)

Lemma mjoin_nil {A B} (f : A -> list B) l : mjoin (f <$> l) = [] <-> Forall (fun x => f x = []) l.
Proof.
  induction l as [|x l IH]; [split; [constructor|done]|]. rewrite fmap_cons, Forall_cons, <-IH.
  change (mjoin (f x :: (f <$> l))) with (f x ++ mjoin (f <$> l)). apply app_nil_iff.
Qed.

(** A surface that ran without errors. *)
Definition surface_ok (report : pydict) (item : pystr * pystr) : Prop :=
  exists payload errors count fe fc,
    dget item.1 report = Some (VDict payload) /\
    default (VInt 0) (dget (u "errors") payload) = errors /\ is_number errors = true /\
    float_of_num errors = Ok fe /\ is_finite fe = true /\ feqb fe f0 = true /\
    default (VInt 0) (dget item.2 payload) = count /\ is_number count = true /\
    float_of_num count = Ok fc /\ is_finite fc = true /\ fleb fc f0 = false.

Lemma surface_number_nil surface label value good wanted :
  surface_number_errors surface label value good wanted = Ok [] <->
  is_number value = true /\ exists f, float_of_num value = Ok f /\ is_finite f = true /\ good f = true.
Proof.
  unfold surface_number_errors. split.
  - destruct value as [| |z|g| | |]; try done; intros (f & Hf & [= H])%bind_ok; (split; [done|]); exists f;
      destruct (is_finite f), (good f); done.
  - intros (Hn & f & Hf & Hfin & Hg). destruct value as [| |z|g| | |]; try done; rewrite Hf; cbn [rbind]; by rewrite Hfin, Hg.
Qed.

Lemma surface_errors_nil report item : surface_errors report item = Ok [] <-> surface_ok report item.
Proof.
  destruct item as [surface key]. unfold surface_errors, surface_ok. cbn [fst snd]. split.
  - destruct (dget surface report) as [[| | | | | |payload]|] eqn:E; try done.
    change (or_none (Some (VDict payload))) with (VDict payload).
    intros H. apply bind_ok in H as (e1 & H1 & H). apply bind_ok in H as (e2 & H2 & [= [-> ->]%app_nil_iff]).
    apply surface_number_nil in H1 as (Hn1 & fe & Hfe & Hfin & Hg). apply surface_number_nil in H2 as (Hn2 & fc & Hfc & Hfin2 & Hg2).
    exists payload, (default (VInt 0) (dget (u "errors") payload)), (default (VInt 0) (dget key payload)), fe, fc.
    apply negb_true_iff in Hg2. split_and!; done.
  - intros (payload & e & c & fe & fc & -> & <- & He & Hfe & Hf1 & Hz & <- & Hc & Hfc & Hf2 & Hp).
    change (or_none (Some (VDict payload))) with (VDict payload). cbv beta iota.
    rewrite (proj2 (surface_number_nil surface (u "errors") _ _ _)) by (split; [done|]; exists fe; done). cbn [rbind].
    rewrite (proj2 (surface_number_nil surface key _ _ _)); [done|]. split; [done|]. exists fc. by rewrite Hp.
Qed.

Lemma append_surface_nil report : append_surface_errors report = Ok [] <-> Forall (surface_ok report) SURFACES.
Proof.
  unfold append_surface_errors. split.
  - intros H. apply (concatR_nil (surface_errors report)) in H. eapply Forall_impl; [exact H|].
    intros x Hx. by apply surface_errors_nil.
  - intros H. rewrite (proj2 (mapR_ok _ SURFACES [[]; []; []])); [done|].
    rewrite Forall_forall in H. unfold SURFACES.
    repeat constructor; apply surface_errors_nil, H; unfold SURFACES; set_solver.
Qed.

Lemma true_check_nil report check :
  true_check_errors report check = [] <-> path_value report check.1 = Some (VBool true).
Proof.
  unfold true_check_errors, is_true. destruct (path_value report check.1) as [[|[]| | | | |]|]; naive_solver.
Qed.

Lemma value_check_nil report check :
  value_check_errors report check = [] <-> equals (path_value report check.1.1) check.1.2 = true.
Proof. destruct check as [[p e] d]. unfold value_check_errors. cbn [fst snd]. destruct (equals _ _); naive_solver. Qed.

(** Every guardrail of the tables holds in the report. *)
Definition guardrails_hold (report : pydict) : Prop :=
  Forall (fun check => path_value report check.1 = Some (VBool true)) REQUIRED_TRUE_CHECKS /\
  Forall (fun check => equals (path_value report check.1.1) check.1.2 = true) REQUIRED_VALUE_CHECKS.

Lemma guardrail_object report : guardrails_hold report -> exists g, dget (u "guardrails") report = Some (VDict g).
Proof.
  intros [H _]. unfold REQUIRED_TRUE_CHECKS, REQUIRED_TRUE_CHECKS_1 in H. apply Forall_cons in H as [H _].
  unfold path_value in H. cbn [fst] in H.
  match type of H with walk _ ?parts = _ => let p := eval vm_compute in parts in change parts with p in H end.
  cbn [walk] in H. change [103; 117; 97; 114; 100; 114; 97; 105; 108; 115]%N with (u "guardrails") in H.
  destruct (dget (u "guardrails") report) as [[]|]; try done. eauto.
Qed.

Lemma assert_report_nil report prov d w tw b :
  assert_report report prov d w tw b = Ok [] <->
  (prov = true -> provenance_ok report) /\
  number_at_least_errors report (u "duration_seconds") (VFloat <$> d) = Ok [] /\
  number_at_least_errors report (u "workers") (VInt <$> w) = Ok [] /\
  number_at_least_errors report (u "tcp_workers") (VInt <$> tw) = Ok [] /\
  expected_value_errors report (u "binary") (VStr <$> b) = [] /\
  Forall (surface_ok report) SURFACES /\ guardrails_hold report.
Proof.
  unfold assert_report, guardrails_hold. rewrite <-append_surface_nil. split.
  - intros H. apply bind_ok in H as (e2 & H2 & H). apply bind_ok in H as (e3 & H3 & H).
    apply bind_ok in H as (e4 & H4 & H). apply bind_ok in H as (e6 & H6 & H). apply Ok_inj in H.
    destruct (or_none (dget (u "guardrails") report)) eqn:Eg; try (apply app_nil_iff in H as [_ ?]; done).
    rewrite !app_nil_iff, !mjoin_nil in H. destruct H as ((H1 & -> & -> & -> & H5 & ->) & Ht & Hv).
    split_and!; try done.
    + intros ->. by apply provenance_errors_nil.
    + eapply Forall_impl; [exact Ht|]. intros c Hc. by apply true_check_nil.
    + eapply Forall_impl; [exact Hv|]. intros c Hc. by apply value_check_nil.
  - intros (Hp & H2 & H3 & H4 & H5 & H6 & Ht & Hv). rewrite H2, H3, H4, H6. cbn [rbind]. rewrite H5.
    destruct (guardrail_object report (conj Ht Hv)) as [g ->]. change (or_none (Some (VDict g))) with (VDict g).
    f_equal. rewrite !app_nil_iff, !mjoin_nil. split_and!; try done.
    + destruct prov; [|done]. by apply provenance_errors_nil, Hp.
    + eapply Forall_impl; [exact Ht|]. intros c Hc. by apply true_check_nil.
    + eapply Forall_impl; [exact Hv|]. intros c Hc. by apply value_check_nil.
Qed.

(** ** The verdict *)

(** A minimum that the report's number [key] reaches. *)
Definition reaches (report : pydict) (key : pystr) (minimum : option pyval) : Prop :=
  match minimum with
  | None => True
  | Some m => exists v numeric low, dget key report = Some v /\ is_number v = true /\ float_of_num v = Ok numeric /\
                float_of_num m = Ok low /\ is_finite numeric = true /\ fltb numeric low = false
  end.

Lemma number_at_least_nil report key m : number_at_least_errors report key m = Ok [] <-> reaches report key m.
Proof.
  unfold number_at_least_errors, DefenseAssert.number_at_least_errors, reaches. destruct m as [m|]; [|done]. split.
  - destruct (dget key report) as [v|]; [|done]. change (or_none (Some v)) with v.
    destruct v as [| |z|g| | |]; try done; intros H; apply bind_ok in H as (f & Hf & H);
      apply bind_ok in H as (low & Hlow & H); apply Ok_inj in H;
      destruct (is_finite f) eqn:E1, (fltb f low) eqn:E2; try done; eexists _, f, low; split_and!; done.
  - intros (v & f & low & -> & Hn & Hf & Hlow & Hfin & Hlt). change (or_none (Some v)) with v.
    destruct v as [| |z|g| | |]; try done; rewrite Hf; cbn [rbind]; rewrite Hlow; cbn [rbind]; by rewrite Hfin, Hlt.
Qed.

(** The lines printed for an accepted report: every guardrail of both tables. *)
Definition guardrail_lines : list pystr :=
  ((fun check => check.1 ++ u ": " ++ check.2) <$> REQUIRED_TRUE_CHECKS) ++
  ((fun check => check.1.1 ++ u ": " ++ check.2) <$> REQUIRED_VALUE_CHECKS).

Lemma mjoin_singletons {A B} (p : A -> bool) (f : A -> B) l :
  Forall (fun x => p x = true) l -> mjoin ((fun x => if p x then [f x] else []) <$> l) = f <$> l.
Proof.
  induction 1 as [|x l Hx _ IH]; [done|]. rewrite !fmap_cons, <-IH.
  change (mjoin ((if p x then [f x] else []) :: ?t)) with ((if p x then [f x] else []) ++ mjoin t). by rewrite Hx.
Qed.

Lemma summary_complete report : guardrails_hold report -> passing_guardrail_summary report = guardrail_lines.
Proof.
  intros [Ht Hv]. unfold passing_guardrail_summary, guardrail_lines. f_equal.
  - apply (mjoin_singletons (fun check => is_true (path_value report check.1))).
    eapply Forall_impl; [exact Ht|]. intros c Hc. cbv beta in Hc |- *. by rewrite Hc.
  - apply (mjoin_singletons (fun check => equals (path_value report check.1.1) check.1.2)). exact Hv.
Qed.

(** What an accepted run has shown. *)
Definition accepted_run (report : pydict) (require_provenance : bool) (min_duration : option float)
    (min_workers min_tcp_workers : option Z) (expect_binary : option pystr) : Prop :=
  (require_provenance = true -> provenance_ok report) /\
  reaches report (u "duration_seconds") (VFloat <$> min_duration) /\
  reaches report (u "workers") (VInt <$> min_workers) /\
  reaches report (u "tcp_workers") (VInt <$> min_tcp_workers) /\
  (forall b, expect_binary = Some b -> exists v, dget (u "binary") report = Some v /\ py_eqb v (VStr b) = true) /\
  Forall (surface_ok report) SURFACES /\ guardrails_hold report.

Lemma expected_binary_nil report b :
  expected_value_errors report (u "binary") (VStr <$> b) = [] <->
  (forall s, b = Some s -> exists v, dget (u "binary") report = Some v /\ py_eqb v (VStr s) = true).
Proof.
  unfold expected_value_errors, DefenseAssert.expected_value_errors. destruct b as [b|]; [|naive_solver].
  change (VStr <$> Some b) with (Some (VStr b)). cbv beta iota zeta. split.
  - destruct (dget (u "binary") report) as [v|]; [|done]. destruct (py_eqb v (VStr b)) eqn:E; [|done].
    intros _ s [= <-]. eauto.
  - intros H. destruct (H b eq_refl) as (v & -> & ->). done.
Qed.

Lemma assert_report_accepts report prov d w tw b :
  assert_report report prov d w tw b = Ok [] <-> accepted_run report prov d w tw b.
Proof. rewrite assert_report_nil, !number_at_least_nil, expected_binary_nil. reflexivity. Qed.

(** C14. The local-benchmark gate exits with status 0 exactly when the file holds a
    JSON object with valid provenance (if required), the required duration and worker
    counts and binary, all three surfaces (HTTP proxy, health, TCP) ran with traffic
    and without errors, and every guardrail of both tables holds; it then prints
    every guardrail, in table order, and nothing on standard error. *)
Theorem local_gate_exact text prov d w tw b out err :
  main text prov d w tw b = Ok (0%Z, out, err) <->
  exists t report, text = Ok t /\ loads t = Ok (VDict report) /\
    accepted_run report prov d w tw b /\ out = guardrail_lines /\ err = [].
Proof.
  unfold main. split.
  - intros H. apply bind_ok in H as (t & -> & H). apply bind_ok in H as (v & Hl & H).
    destruct v as [| | | | | |report]; try discriminate H.
    apply bind_ok in H as (es & Hes & H). destruct es as [|]; apply Ok_inj in H; [|discriminate H].
    apply assert_report_accepts in Hes. assert (Hg : guardrails_hold report) by apply Hes.
    rewrite (summary_complete _ Hg) in H. injection H as <- <-. by exists t, report.
  - intros (t & report & -> & Hl & Ha & -> & ->). cbn [rbind]. rewrite Hl. cbn [rbind].
    assert (Hg : guardrails_hold report) by apply Ha. apply assert_report_accepts in Ha. rewrite Ha. cbn [rbind].
    by rewrite (summary_complete _ Hg).
Qed.

(** A guardrail that is missing, false or a truthy value other than [True] is
    never lost: the gate does not accept the report, and when it finishes, its
    messages contain the line for that guardrail with the value it found. *)
Theorem failed_guardrail_reported report prov d w tw b es guardrails path why :
  dget (u "guardrails") report = Some (VDict guardrails) ->
  assert_report report prov d w tw b = Ok es ->
  (path, why) ∈ REQUIRED_TRUE_CHECKS -> path_value report path <> Some (VBool true) ->
  (path ++ u ": expected true (" ++ why ++ u "), found " ++ format_value (path_value report path)) ∈ es.
Proof.
  intros Hg H Hin Hv. unfold assert_report in H.
  apply bind_ok in H as (e2 & H2 & H). apply bind_ok in H as (e3 & H3 & H).
  apply bind_ok in H as (e4 & H4 & H). apply bind_ok in H as (e6 & H6 & H). apply Ok_inj in H.
  rewrite Hg in H. change (or_none (Some (VDict guardrails))) with (VDict guardrails) in H. cbv beta iota zeta in H.
  subst es. apply elem_of_app. right. apply elem_of_app. left.
  apply list_elem_of_join. exists (true_check_errors report (path, why)). split; [|by apply list_elem_of_fmap_2].
  unfold true_check_errors, is_true. cbn [fst snd].
  destruct (path_value report path) as [[|[]| | | | |]|]; try (by apply list_elem_of_singleton). by destruct Hv.
Qed.

(** ** A sample run *)

(** [put parts v d] stores [v] under a path of keys. *)
Fixpoint put (parts : list pystr) (v : pyval) (d : pydict) : pydict :=
  match parts with
  | [] => d
  | [k] => dset k v d
  | k :: rest => dset k (VDict (put rest v (match dget k d with Some (VDict e) => e | _ => [] end))) d
  end.

Definition surface_sample (count : pystr) : pyval := VDict [(count, VInt 10); (u "errors", VInt 0)].

Definition sample_report : pydict :=
  foldl (fun d check => put (split_on 46 check.1.1) check.1.2 d)
    (foldl (fun d check => put (split_on 46 check.1) (VBool true) d)
       [(u "workers", VInt 8); (u "proxy", surface_sample (u "requests"));
        (u "health", surface_sample (u "requests")); (u "tcp", surface_sample (u "messages"))]
       REQUIRED_TRUE_CHECKS) REQUIRED_VALUE_CHECKS.

Example sample_report_accepted : assert_report sample_report false None (Some 8%Z) None None = Ok [].
Proof. vm_compute. reflexivity. Qed.

(** The guardrails of the tables are pairwise different. *)
Example guardrail_paths_distinct :
  bool_decide (NoDup (REQUIRED_TRUE_CHECKS.*1 ++ ((fun c => c.1.1) <$> REQUIRED_VALUE_CHECKS))) = true.
Proof. vm_compute. reflexivity. Qed.

Definition degraded_report : pydict :=
  put [u "guardrails"; u "path_shape_rate"; u "hot_path_shape_limited"] (VInt 1) sample_report.

Lemma failed_guardrail_reported_witness :
  exists es, assert_report degraded_report false None None None None = Ok es /\
    (u "guardrails.path_shape_rate.hot_path_shape_limited" ++ u ": expected true (" ++
     u "long-token path-shape rate bucket must shed repeated route-family bursts" ++ u "), found " ++ u "1") ∈ es.
Proof.
  destruct (assert_report degraded_report false None None None None) as [es|e] eqn:H; [|vm_compute in H; discriminate H].
  exists es. split; [reflexivity|].
  pose (g := match dget (u "guardrails") degraded_report with Some (VDict g) => g | _ => [] end).
  refine (failed_guardrail_reported degraded_report false None None None None es g
            (u "guardrails.path_shape_rate.hot_path_shape_limited") _ _ H _ _).
  - vm_compute. reflexivity.
  - unfold REQUIRED_TRUE_CHECKS. apply elem_of_app. left. unfold REQUIRED_TRUE_CHECKS_1. apply elem_of_cons. left. reflexivity.
  - vm_compute. discriminate.
Defined.
