(* ===== verification/Scenarios.v ===== *)
(** * Scenarios: the attack scenarios of the defense benchmark

    [tools/run_defense_bench.py], the part that decides what a scenario sends: its
    presets, request paths, user agents, forwarded addresses, methods and pacing.
    Random choices come from a source that offers what [random.Random] documents:
    the class [RandomSource] with the laws [RandomLaws]. *)

From Stdlib Require Import SpecFloat.
From S2P Require Import Prelude Unicode PyStr PyFloat PyVal.

(** ** Random numbers *)

Class RandomSource (R : Type) := {
  seeded : Z -> R;                                    (** [random.Random(seed)] *)
  randrange : Z -> R -> Z * R;                        (** [rng.randrange(n)] *)
  sample : list pystr -> Z -> R -> list pystr * R }.  (** [rng.sample(population, k)] *)

Class RandomLaws (R : Type) `{RandomSource R} := {
  randrange_bounds n r : (0 < n)%Z -> (0 <= (randrange n r).1 < n)%Z;
  sample_length l k r : (0 <= k <= Z.of_nat (length l))%Z -> Z.of_nat (length (sample l k r).1) = k;
  sample_sub l k r : (0 <= k <= Z.of_nat (length l))%Z -> (sample l k r).1 ⊆+ l }.

(** A computation that draws from a source. *)
Definition rand (R A : Type) : Type := R -> A * R.
Definition rret {R A} (a : A) : rand R A := fun r => (a, r).
Definition rdraw {R A B} (m : rand R A) (k : A -> rand R B) : rand R B := fun r => let '(a, r) := m r in k a r.

Notation "'draw' x <- m 'in' k" := (rdraw m (fun x => k))
  (at level 10, x binder, m at level 100, k at level 200) : py_scope.

(** ** Tables *)

Definition TEST_NETS : list pystr := [u "192.0.2"; u "198.51.100"; u "203.0.113"].

Definition SMART_ENDPOINTS : list pystr :=
  [u "login"; u "search"; u "item"; u "object"; u "cart"; u "profile"].

Definition POLYMORPHIC_QUERY_KEYS : list pystr :=
  [u "a"; u "b"; u "cache"; u "client"; u "cursor"; u "debug"; u "feature"; u "filter"; u "id"; u "page";
   u "q"; u "ref"; u "region"; u "session"; u "sort"; u "ts"; u "view"; u "x"; u "y"; u "z"].

Definition BYPASS_DICTIONARY_SLUGS : list pystr :=
  [u "subscription"; u "dashboard"; u "catalog"; u "inventory"; u "marketplace"; u "onboarding";
   u "configuration"; u "authentication"; u "notifications"; u "transactions"; u "organization";
   u "fulfillment"; u "warehouses"].

Definition ACCEPT_VARIANTS : list pystr :=
  [u "*/*"; u "text/html,application/xhtml+xml"; u "application/json"; u "text/plain;q=0.9,*/*;q=0.8";
   u "application/vnd.api+json"].

Definition METHOD_VARIANTS : list pystr := [u "GET"; u "HEAD"; u "OPTIONS"].

Definition ADVANCED_SCENARIOS : list pystr :=
  [u "catalog-mimic-xff"; u "dictionary-slug-xff"; u "hex-slug-xff"; u "v2-polymorphic-xff"; u "method-spray-xff";
   u "accept-spray-xff"; u "legit-interleave-xff"; u "slow-xff-polymorphic"; u "mozilla-polymorphic-xff"].

Definition BASE_SCENARIOS : list pystr :=
  [u "basic"; u "cachebuster"; u "rotating-path"; u "uuid-path"; u "mixed-user-agent"; u "smart-api-mix";
   u "xff-single"; u "xff-rotating"; u "xff-polymorphic"].

(** [set(BASE_SCENARIOS) | set(ADVANCED_SCENARIOS)] *)
Definition KNOWN_SCENARIOS : list pystr := BASE_SCENARIOS ++ ADVANCED_SCENARIOS.

Definition DEFENSE_METRIC_KEYS : list pystr :=
  [u "altura_http_blocked"; u "altura_http_rate_limited"; u "altura_http_trusted_proxy_rate_limited";
   u "altura_http_trusted_proxy_in_flight_rejected"; u "altura_http_signature_rate_limited";
   u "altura_http_path_shape_rate_limited"].

Definition one_of (s : pystr) (l : list pystr) : bool := existsb (str_eqb s) l.
Definition is_advanced (s : pystr) : bool := one_of s ADVANCED_SCENARIOS.

(** ** Which scenarios run *)

(** The options [resolve_scenarios] reads: [--preset] and [--scenarios]. *)
Definition resolve_scenarios (preset : option pystr) (scenarios : pystr) : list pystr :=
  match preset with
  | Some p =>
      if str_eqb p (u "base") then BASE_SCENARIOS
      else if str_eqb p (u "advanced") then ADVANCED_SCENARIOS
      else if str_eqb p (u "all") then BASE_SCENARIOS ++ ADVANCED_SCENARIOS
      else filter (fun s => s <> []) (strip <$> split_on 44 scenarios)
  | None => filter (fun s => s <> []) (strip <$> split_on 44 scenarios)
  end.

Definition scenario_needs_xff_trust (scenario : pystr) : bool :=
  starts_with (u "xff-") scenario || is_advanced scenario.

Definition scenario_runs_observed_learning (scenario : pystr) : bool :=
  str_eqb scenario (u "smart-api-mix") || scenario_needs_xff_trust scenario.

(** ** What a scenario sends *)

Section requests.
Context {R : Type} `{RandomSource R}.

Definition choice (l : list pystr) : rand R pystr :=
  draw i <- randrange (Z.of_nat (length l)) in rret (nth (Z.to_nat i) l []).

(** [rng.randrange(n)] in a text. *)
Definition number (n : Z) : rand R pystr := draw i <- randrange n in rret (dec_Z i).

(** [f"{rng.randrange(16**w):0wx}"] *)
Definition hex_number (w : nat) : rand R pystr :=
  draw i <- randrange (16 ^ Z.of_nat w) in rret (hex_fixed w (Z.to_N i)).

(** [''.join(rng.choice(alphabet) for _ in range(n))] *)
Fixpoint letters (alphabet : pystr) (n : nat) : rand R pystr :=
  match n with
  | O => rret []
  | S m => draw c <- choice ((fun c => [c]) <$> alphabet) in
           draw rest <- letters alphabet m in rret (c ++ rest)
  end.

(** [[f"{key}={rng.randrange(10**9)}" for key in keys]] *)
Fixpoint query_items (keys : list pystr) : rand R (list pystr) :=
  match keys with
  | [] => rret []
  | k :: ks => draw v <- number (10 ^ 9) in draw rest <- query_items ks in rret ((k ++ u "=" ++ v) :: rest)
  end.

Definition lowercase : pystr := u "abcdefghijklmnopqrstuvwxyz".

Definition catalog_mimic_path : rand R pystr :=
  draw a <- number 10000 in draw b <- number 8 in draw c <- choice [u "asc"; u "desc"] in
  rret (u "/api/catalog/" ++ a ++ u "?page=" ++ b ++ u "&sort=" ++ c).

Definition dictionary_slug_path : rand R pystr :=
  draw slug <- choice BYPASS_DICTIONARY_SLUGS in draw a <- number 10000 in draw b <- number (10 ^ 6) in
  rret (u "/api/" ++ slug ++ u "/" ++ a ++ u "?ref=" ++ b).

Definition hex_slug_path : rand R pystr :=
  draw slug <- letters (u "0123456789abcdef") 20 in draw a <- number (10 ^ 5) in
  rret (u "/api/" ++ slug ++ u "/" ++ a ++ u "?view=compact").

Definition v2_polymorphic_path : rand R pystr :=
  draw slug <- letters lowercase 10 in
  draw n <- randrange 3 in
  draw keys <- sample POLYMORPHIC_QUERY_KEYS (1 + n) in
  draw items <- query_items keys in
  draw a <- number (10 ^ 5) in
  rret (u "/api/v2/" ++ slug ++ u "/" ++ a ++ u "?" ++ join (u "&") items).

Definition polymorphic_path : rand R pystr :=
  draw slug <- letters lowercase 10 in
  draw n <- randrange 4 in
  draw keys <- sample POLYMORPHIC_QUERY_KEYS (1 + n) in
  draw items <- query_items keys in
  draw a <- number (10 ^ 5) in
  rret (u "/api/" ++ slug ++ u "/" ++ a ++ u "?" ++ join (u "&") items).

Definition legit_interleave_path : rand R pystr :=
  draw i <- randrange 100 in if (i <? 70)%Z then catalog_mimic_path else polymorphic_path.

Definition search_path : rand R pystr :=
  draw a <- number (10 ^ 12) in draw b <- number 1000 in
  rret (u "/api/search?cachebust=" ++ a ++ u "&id=" ++ b).

Definition item_path : rand R pystr :=
  draw a <- number (10 ^ 9) in rret (u "/api/item/" ++ a ++ u "?view=full").

Definition object_path : rand R pystr :=
  draw a <- hex_number 8 in draw b <- hex_number 4 in draw c <- hex_number 4 in draw d <- hex_number 4 in
  draw e <- hex_number 12 in
  rret (u "/api/object/" ++ a ++ u "-" ++ b ++ u "-" ++ c ++ u "-" ++ d ++ u "-" ++ e ++ u "?view=full").

Definition smart_api_mix_path : rand R pystr :=
  draw endpoint <- choice SMART_ENDPOINTS in
  if str_eqb endpoint (u "login") then rret (u "/api/login")
  else if str_eqb endpoint (u "search") then search_path
  else if str_eqb endpoint (u "item") then item_path
  else if str_eqb endpoint (u "object") then object_path
  else if str_eqb endpoint (u "cart") then
    draw a <- number (10 ^ 7) in draw b <- choice [u "ship"; u "pay"; u "review"] in
    rret (u "/api/cart/" ++ a ++ u "/checkout?step=" ++ b)
  else
    draw a <- number (10 ^ 8) in draw b <- choice [u "orders"; u "settings"; u "teams"] in
    rret (u "/api/profile/" ++ a ++ u "?include=" ++ b).

Definition scenario_path_builder (scenario : pystr) (bypass : bool) : rand R pystr :=
  if bypass then
    if str_eqb scenario (u "cachebuster") then
      draw a <- number (10 ^ 6) in draw b <- number 10 in rret (u "/api/search?q=" ++ a ++ u "&page=" ++ b)
    else if one_of scenario [u "rotating-path"; u "uuid-path"] then
      draw a <- number (10 ^ 9) in rret (u "/api/product/" ++ a ++ u "?view=compact")
    else if one_of scenario (u "smart-api-mix" :: u "xff-polymorphic" :: ADVANCED_SCENARIOS) then
      draw a <- number 1000 in draw b <- number 5 in rret (u "/api/catalog/" ++ a ++ u "?page=" ++ b)
    else rret (u "/api/login?legit=1")
  else if str_eqb scenario (u "catalog-mimic-xff") then catalog_mimic_path
  else if str_eqb scenario (u "dictionary-slug-xff") then dictionary_slug_path
  else if str_eqb scenario (u "hex-slug-xff") then hex_slug_path
  else if str_eqb scenario (u "v2-polymorphic-xff") then v2_polymorphic_path
  else if str_eqb scenario (u "legit-interleave-xff") then legit_interleave_path
  else if one_of scenario [u "method-spray-xff"; u "accept-spray-xff"; u "slow-xff-polymorphic"; u "mozilla-polymorphic-xff"]
  then polymorphic_path
  else if str_eqb scenario (u "smart-api-mix") then smart_api_mix_path
  else if str_eqb scenario (u "xff-polymorphic") then polymorphic_path
  else if str_eqb scenario (u "cachebuster") then search_path
  else if str_eqb scenario (u "rotating-path") then item_path
  else if str_eqb scenario (u "uuid-path") then object_path
  else rret (u "/api/login").

Definition scenario_xff (scenario : pystr) (bypass : bool) : rand R (option pystr) :=
  let rotating := one_of scenario (u "xff-rotating" :: u "xff-polymorphic" :: ADVANCED_SCENARIOS) in
  if bypass && (str_eqb scenario (u "xff-single") || rotating) then rret (Some (u "198.51.100.250"))
  else if str_eqb scenario (u "xff-single") then rret (Some (u "198.51.100.10"))
  else if rotating then
    draw i <- randrange (Z.of_nat (length TEST_NETS)) in
    draw host <- randrange 240 in
    rret (Some (nth (Z.to_nat i) TEST_NETS [] ++ u "." ++ dec_Z (1 + host)))
  else rret None.

Definition scenario_method (scenario : pystr) : rand R pystr :=
  if str_eqb scenario (u "method-spray-xff") then choice METHOD_VARIANTS else rret (u "GET").

Definition scenario_accept (scenario : pystr) : rand R pystr :=
  if str_eqb scenario (u "accept-spray-xff") then choice ACCEPT_VARIANTS else rret (u "*/*").

Definition scenario_user_agents (scenario : pystr) (bypass : bool) : list pystr :=
  if bypass then [u "Mozilla/5.0 altura-legit-probe"]
  else if str_eqb scenario (u "mozilla-polymorphic-xff") then
    [u "Mozilla/5.0 (Windows NT 10.0; Win64; x64) AppleWebKit/537.36";
     u "Mozilla/5.0 (Macintosh; Intel Mac OS X 14_5) AppleWebKit/605.1.15";
     u "Mozilla/5.0 (X11; Linux x86_64; rv:128.0) Gecko/20100101 Firefox/128.0"]
  else if one_of scenario (u "mixed-user-agent" :: u "smart-api-mix" :: u "xff-polymorphic" :: ADVANCED_SCENARIOS) then
    [u "curl/8.0"; u "python-requests/2.32"; u "Mozilla/5.0 altura-e2e"; u "node-fetch/3"]
  else [u "curl/8.0"].

(** A request of a worker: the draws of one round of its loop, in program order. *)
Record request := Request { rq_method : pystr; rq_path : pystr; rq_headers : list (pystr * pystr) }.

Definition next_request (scenario : pystr) (bypass : bool) : rand R request :=
  draw agent <- choice (scenario_user_agents scenario bypass) in
  draw accept <- scenario_accept scenario in
  draw xff <- scenario_xff scenario bypass in
  draw method <- scenario_method scenario in
  draw path <- scenario_path_builder scenario bypass in
  let headers := [(u "User-Agent", agent); (u "Accept", accept)] in
  rret (Request method path
          match xff with
          | Some ((_ :: _) as x) => dset (u "X-Forwarded-For") x headers
          | _ => headers
          end).

(** The first [n] requests of worker [worker_id]. *)
Fixpoint requests_from (scenario : pystr) (bypass : bool) (n : nat) : rand R (list request) :=
  match n with
  | O => rret []
  | S m => draw q <- next_request scenario bypass in draw rest <- requests_from scenario bypass m in rret (q :: rest)
  end.

Definition worker_requests (scenario : pystr) (bypass : bool) (worker_id : Z) (n : nat) : list request :=
  (requests_from scenario bypass n (seeded ((worker_id + 1) * 7919))).1.
End requests.

Definition scenario_per_request_sleep (scenario : pystr) : float :=
  if str_eqb scenario (u "slow-xff-polymorphic") then float_of_Q 4 100 else f0.

Definition scenario_worker_count (scenario : pystr) (workers : Z) (bypass direct_baseline : bool) : Z :=
  if negb bypass && negb direct_baseline && str_eqb scenario (u "slow-xff-polymorphic") then Z.max workers 128
  else workers.

Definition scenario_description (scenario : pystr) : pystr :=
  default [] (dget scenario
   [(u "catalog-mimic-xff", u "Rotating XFF with benign catalog-shaped paths to evade :token filters");
    (u "dictionary-slug-xff", u "Rotating XFF with dictionary API slugs that avoid :token normalization");
    (u "hex-slug-xff", u "Rotating XFF with long hex path segments mapped to :hex instead of :token");
    (u "v2-polymorphic-xff", u "Rotating XFF on /api/v2/:token/:num paths outside learned /api/:token/:num shape");
    (u "method-spray-xff", u "Rotating XFF plus GET/HEAD/OPTIONS method spray to diversify signatures");
    (u "accept-spray-xff", u "Rotating XFF plus Accept-header spray to diversify signatures");
    (u "legit-interleave-xff", u "Rotating XFF mixing 70% catalog traffic with 30% polymorphic attack paths");
    (u "slow-xff-polymorphic", u "Low-and-slow rotating-XFF polymorphic flood under per-IP and shape thresholds");
    (u "mozilla-polymorphic-xff", u "Rotating XFF polymorphic paths with browser-like Mozilla user agents only")]).

(** ** What can be sent *)

(** The characters of the generated paths. *)
Definition path_char (c : N) : bool :=
  is_ascii_digit c || (97 <=? c)%N && (c <=? 122)%N || existsb (N.eqb c) (u "/?&=-").

(** An API path that is a valid request target. *)
Definition api_path (s : pystr) : Prop := starts_with (u "/api/") s = true /\ forallb path_char s = true.

(** An address of one of the documentation networks (RFC 5737). *)
Definition documentation_address (s : pystr) : Prop :=
  exists net host, net ∈ TEST_NETS /\ (1 <= host <= 250)%Z /\ s = net ++ u "." ++ dec_Z host.

Definition request_ok (q : request) : Prop :=
  rq_method q ∈ METHOD_VARIANTS /\ api_path (rq_path q) /\
  match dget (u "X-Forwarded-For") (rq_headers q) with Some a => documentation_address a | None => True end.

(** [m] only yields values with [P]. *)
Definition yields {R A} (P : A -> Prop) (m : rand R A) : Prop := forall r, P (m r).1.

Lemma yields_ret {R A} (P : A -> Prop) a : P a -> yields P (rret (R := R) a).
Proof. by intros ? r. Qed.

Lemma yields_draw {R A B} (P : A -> Prop) (Q : B -> Prop) (m : rand R A) k :
  yields P m -> (forall a, P a -> yields Q (k a)) -> yields Q (rdraw m k).
Proof. intros Hm Hk r. unfold rdraw. specialize (Hm r). destruct (m r) as [a r']. by apply Hk. Qed.

Lemma starts_with_app p s t : starts_with p s = true -> starts_with p (s ++ t) = true.
Proof.
  revert s. induction p as [|c p IH]; intros s; [done|]. destruct s as [|d s]; [done|]. cbn.
  intros [-> H]%andb_true_iff. by rewrite IH.
Qed.

Lemma api_path_app s t : api_path s -> forallb path_char t = true -> api_path (s ++ t).
Proof.
  intros [H1 H2] H3. split; [by apply starts_with_app|]. rewrite forallb_app. by rewrite H2, H3.
Qed.

Lemma path_char_dec z : (0 <= z)%Z -> forallb path_char (dec_Z z) = true.
Proof.
  intros Hz. apply forallb_forall. intros c Hc. unfold path_char.
  assert (E : dec_Z z = dec_N (Z.to_N z)) by (by destruct z). rewrite E in Hc.
  pose proof (dec_N_digits (Z.to_N z)) as Hd. rewrite List.Forall_forall in Hd. by rewrite Hd.
Qed.

Lemma path_char_hex w n : forallb path_char (hex_fixed w n) = true.
Proof.
  revert n. induction w as [|w IH]; intros n; [done|]. cbn [hex_fixed]. rewrite forallb_app, IH. cbn [forallb andb].
  rewrite andb_true_r. assert (H : (n mod 16 < 16)%N) by (by apply N.mod_lt).
  generalize dependent (n mod 16)%N. intros m H. unfold hex_digit, path_char, is_ascii_digit.
  rewrite !orb_true_iff, !andb_true_iff, !N.leb_le. destruct (N.ltb_spec m 10); lia.
Qed.

Section yields.
Context {R : Type} `{RandomLaws R}.
Implicit Types (P : pystr -> Prop).

Definition path_text (s : pystr) : Prop := forallb path_char s = true.

Lemma yields_randrange n : (0 < n)%Z -> yields (fun i => 0 <= i < n)%Z (randrange (R := R) n).
Proof. intros Hn r. by apply randrange_bounds. Qed.

Lemma yields_choice P l : l <> [] -> Forall P l -> yields P (choice (R := R) l).
Proof.
  intros Hne Hl. eapply yields_draw; [apply yields_randrange; destruct l; [done|cbn; lia]|].
  intros i Hi. apply yields_ret. rewrite Forall_forall in Hl. apply Hl.
  apply list_elem_of_In, nth_In. cbv beta in Hi. lia.
Qed.

Lemma yields_number n : (0 < n)%Z -> yields path_text (number (R := R) n).
Proof. intros Hn. eapply yields_draw; [by apply yields_randrange|]. intros i Hi. apply yields_ret, path_char_dec, Hi. Qed.

Lemma yields_hex w : yields path_text (hex_number (R := R) w).
Proof. eapply yields_draw; [apply (yields_randrange (16 ^ Z.of_nat w)), Z.pow_pos_nonneg; lia|]. intros i Hi. apply yields_ret, path_char_hex. Qed.

Lemma yields_letters alphabet n : alphabet <> [] -> path_text alphabet -> yields path_text (letters (R := R) alphabet n).
Proof.
  intros Hne Ha. induction n as [|n IH]; [by apply yields_ret|]. cbn [letters].
  eapply yields_draw; [apply (yields_choice path_text)|].
  - by destruct alphabet.
  - apply Forall_fmap, Forall_forall. intros c Hc. unfold path_text in *. cbn. rewrite andb_true_r.
    rewrite forallb_forall in Ha. apply Ha. by apply list_elem_of_In.
  - intros c Hc. eapply yields_draw; [exact IH|]. intros rest Hr. apply yields_ret. unfold path_text in *.
    by rewrite forallb_app, Hc, Hr.
Qed.

Lemma yields_query keys : Forall path_text keys -> yields (Forall path_text) (query_items (R := R) keys).
Proof.
  induction 1 as [|k ks Hk _ IH]; [by apply yields_ret|]. cbn [query_items].
  eapply yields_draw; [by apply yields_number|]. intros v Hv. eapply yields_draw; [exact IH|]. intros rest Hr.
  apply yields_ret. constructor; [|done]. unfold path_text in *. by rewrite !forallb_app, Hk, Hv.
Qed.

Lemma yields_sample l k P : (0 <= k <= Z.of_nat (length l))%Z -> Forall P l -> yields (Forall P) (sample (R := R) l k).
Proof.
  intros Hk Hl r. rewrite Forall_forall in Hl |- *. intros x Hx. apply Hl.
  eapply elem_of_submseteq; [exact Hx|]. by apply sample_sub.
Qed.

Lemma path_text_join items : Forall path_text items -> path_text (join (u "&") items).
Proof.
  induction 1 as [|x l Hx _ IH]; [done|]. destruct l as [|y l]; [exact Hx|].
  change (join (u "&") (x :: y :: l)) with (x ++ u "&" ++ join (u "&") (y :: l)).
  unfold path_text in *. by rewrite !forallb_app, Hx, IH.
Qed.

(** One draw, with the strongest fact known about it. *)
Ltac yields_step :=
  match goal with
  | |- yields _ (rdraw (number _) _) => eapply yields_draw; [apply yields_number; done|intros ? ?]
  | |- yields _ (rdraw (hex_number _) _) => eapply yields_draw; [apply yields_hex|intros ? ?]
  | |- yields _ (rdraw (choice _) _) =>
      eapply yields_draw; [apply (yields_choice path_text); [done|repeat constructor]|intros ? ?]
  | |- yields _ (rdraw (letters _ _) _) => eapply yields_draw; [apply yields_letters; [done|reflexivity]|intros ? ?]
  | |- yields _ (rdraw (randrange _) _) => eapply yields_draw; [apply yields_randrange; done|intros ? ?; cbv beta in *]
  | |- yields _ (rdraw (sample _ _) _) =>
      eapply yields_draw; [apply (yields_sample _ _ path_text); [cbn [length POLYMORPHIC_QUERY_KEYS]; lia|repeat constructor]|intros ? ?]
  | |- yields _ (rdraw (query_items _) _) => eapply yields_draw; [apply yields_query; done|intros ? ?]
  | |- yields _ (if _ then _ else _) => case_match
  | H : Forall path_text _ |- yields _ (rret _) => apply path_text_join in H
  | |- yields api_path (rret (_ ++ _)) =>
      apply yields_ret, api_path_app; [split; reflexivity|]; unfold path_text in *;
      rewrite ?forallb_app; repeat (apply andb_true_iff; split); first [assumption|reflexivity]
  | |- yields api_path (rret _) => apply yields_ret; split; reflexivity
  end.
Ltac yields_path := repeat yields_step.

Lemma polymorphic_ok : yields api_path (polymorphic_path (R := R)).
Proof. unfold polymorphic_path. yields_path. Qed.

Lemma search_ok : yields api_path (search_path (R := R)).
Proof. unfold search_path. yields_path. Qed.

Lemma item_ok : yields api_path (item_path (R := R)).
Proof. unfold item_path. yields_path. Qed.

Lemma object_ok : yields api_path (object_path (R := R)).
Proof. unfold object_path. yields_path. Qed.

Lemma catalog_ok : yields api_path (catalog_mimic_path (R := R)).
Proof. unfold catalog_mimic_path. yields_path. Qed.

Lemma dictionary_ok : yields api_path (dictionary_slug_path (R := R)).
Proof. unfold dictionary_slug_path. yields_path. Qed.

Lemma hex_slug_ok : yields api_path (hex_slug_path (R := R)).
Proof. unfold hex_slug_path. yields_path. Qed.

Lemma v2_ok : yields api_path (v2_polymorphic_path (R := R)).
Proof. unfold v2_polymorphic_path. yields_path. Qed.

Lemma smart_ok : yields api_path (smart_api_mix_path (R := R)).
Proof. unfold smart_api_mix_path. yields_path; auto using search_ok, item_ok, object_ok. Qed.

Lemma legit_ok : yields api_path (legit_interleave_path (R := R)).
Proof. unfold legit_interleave_path. yields_path; auto using catalog_ok, polymorphic_ok. Qed.

Lemma path_builder_ok scenario bypass : yields api_path (scenario_path_builder (R := R) scenario bypass).
Proof.
  unfold scenario_path_builder.
  yields_path; auto using polymorphic_ok, search_ok, item_ok, object_ok, catalog_ok, dictionary_ok, hex_slug_ok,
    v2_ok, smart_ok, legit_ok.
Qed.

Lemma xff_ok scenario bypass :
  yields (fun o => match o with Some a => documentation_address a | None => True end)
    (scenario_xff (R := R) scenario bypass).
Proof.
  unfold scenario_xff. case_match; [|case_match; [|case_match]]; try (by apply yields_ret).
  - apply yields_ret. exists (u "198.51.100"), 250%Z. split; [|split; [lia|done]]. unfold TEST_NETS. set_solver.
  - apply yields_ret. exists (u "198.51.100"), 10%Z. split; [|split; [lia|done]]. unfold TEST_NETS. set_solver.
  - eapply yields_draw; [by apply yields_randrange|]. intros i Hi. cbv beta in Hi.
    eapply yields_draw; [by apply (yields_randrange 240)|]. intros host Hh. cbv beta in Hh. apply yields_ret.
    exists (nth (Z.to_nat i) TEST_NETS []), (1 + host)%Z. split; [|split; [lia|done]].
    apply list_elem_of_In, nth_In. lia.
Qed.

Lemma method_ok scenario : yields (fun m => m ∈ METHOD_VARIANTS) (scenario_method (R := R) scenario).
Proof.
  unfold scenario_method. case_match; [|by apply yields_ret; left].
  apply yields_choice; [done|]. apply Forall_forall. done.
Qed.

Lemma any_value {A} (m : rand R A) : yields (fun _ => True) m.
Proof. by intros r. Qed.

Lemma next_request_ok scenario bypass : yields request_ok (next_request (R := R) scenario bypass).
Proof.
  unfold next_request. eapply yields_draw; [apply any_value|]. intros agent _.
  eapply yields_draw; [apply any_value|]. intros accept _.
  eapply yields_draw; [apply xff_ok|]. intros xff Hx. eapply yields_draw; [apply method_ok|]. intros m Hm.
  eapply yields_draw; [apply path_builder_ok|]. intros path Hp. apply yields_ret.
  split; [done|]. split; [done|]. cbv beta in Hx. by destruct xff as [[|]|].
Qed.

Lemma requests_from_ok scenario bypass n : yields (Forall request_ok) (requests_from (R := R) scenario bypass n).
Proof.
  induction n as [|n IH]; [by apply yields_ret|]. cbn [requests_from].
  eapply yields_draw; [apply next_request_ok|]. intros q Hq. eapply yields_draw; [exact IH|]. intros rest Hr.
  apply yields_ret. by constructor.
Qed.

(** C24. The benchmark stays in its lane: whatever the random source draws, every
    request of every worker, in every scenario and phase, uses one of the three
    methods, targets a path under [/api/] made only of URL-safe characters, and
    forges an [X-Forwarded-For] address only from the documentation networks. *)
Theorem requests_stay_in_lane scenario bypass worker_id n :
  Forall request_ok (worker_requests (R := R) scenario bypass worker_id n).
Proof. apply requests_from_ok. Qed.
End yields.

(** ** A concrete source *)

(** A multiplicative congruential generator with the same interface. *)
#[export] Instance lehmer : RandomSource Z := {|
  seeded seed := seed;
  randrange n r := (r mod n, (r * 48271 + 1) mod 2147483647)%Z;
  sample l k r := (take (Z.to_nat k) l, r) |}.

#[export] Instance lehmer_laws : RandomLaws Z.
Proof.
  split; cbn.
  - intros n r Hn. by apply Z.mod_pos_bound.
  - intros l k r Hk. rewrite length_take. lia.
  - intros l k r _. apply sublist_submseteq, sublist_take.
Qed.

Lemma requests_stay_in_lane_witness :
  Forall request_ok (worker_requests (R := Z) (u "xff-polymorphic") false 3 5).
Proof. exact (requests_stay_in_lane (R := Z) (u "xff-polymorphic") false 3 5). Defined.

(** Every preset runs known scenarios, each once. *)
Lemma presets_known preset scenarios :
  preset ∈ [u "base"; u "advanced"; u "all"] ->
  NoDup (resolve_scenarios (Some preset) scenarios) /\ resolve_scenarios (Some preset) scenarios ⊆ KNOWN_SCENARIOS.
Proof.
  intros H. assert (Hn : NoDup KNOWN_SCENARIOS) by (apply (bool_decide_unpack _); vm_compute; exact I).
  unfold resolve_scenarios, KNOWN_SCENARIOS in *. apply NoDup_app in Hn as Hs.
  rewrite !elem_of_cons, elem_of_nil in H.
  destruct H as [->|[->|[->|[]]]]; cbn [str_eqb]; (split; [|set_solver]); tauto.
Qed.
