(* ===== verification/Phase.v ===== *)
(** * Phase: one traffic phase of the defense benchmark

    [tools/run_defense_bench.py]: [PhaseResult], the request loop of a worker, the
    threads that merge their counts into the shared result while the main thread may
    give up on hung workers (a step relation), the summary of a phase and the target
    score computed from two phases. *)

From Stdlib Require Import SpecFloat.
From S2P Require Import Prelude Unicode PyStr PyFloat FloatFacts PyVal Json DefenseAssert Scenarios.
From S2P Require Import PyTime Provenance.

Definition ERROR_SAMPLE_LIMIT : nat := 8.

(** ** The counters *)

(** The order of [statuses] and [first_status_at] is never observed, so they are
    finite maps. *)
Record PhaseResult := MkPhase {
  requests : Z;
  errors : Z;
  hung_workers : Z;
  workers : Z;
  statuses : gmap Z Z;
  first_status_at : gmap Z float;
  latencies_ms : list float;
  error_samples : list pystr;
  elapsed_seconds : float }.

Definition empty_phase : PhaseResult := MkPhase 0 0 0 0 ∅ ∅ [] [] f0.

(** What [record_error] is given. *)
Inductive failure := FailureText (s : pystr) | FailureExn (type_name text : pystr).

Definition failure_sample (err : failure) : pystr :=
  match err with FailureText s => s | FailureExn name text => name ++ u ": " ++ text end.

Definition record_error (r : PhaseResult) (err : failure) : PhaseResult :=
  MkPhase (requests r) (errors r + 1) (hung_workers r) (workers r) (statuses r) (first_status_at r) (latencies_ms r)
    (if length (error_samples r) <? ERROR_SAMPLE_LIMIT
     then error_samples r ++ [take 240 (failure_sample err)] else error_samples r)
    (elapsed_seconds r).

(** One attempt to send a request: the answer's status, its latency and its time
    since the start of the phase; a dropped connection, which is retried once; or
    any other exception. *)
Inductive attempt :=
| Answered (status : Z) (elapsed_ms at_ : float)
| Dropped (err : failure)
| Failed (err : failure).

Definition record_answer (r : PhaseResult) (status : Z) (elapsed_ms at_ : float) : PhaseResult :=
  MkPhase (requests r + 1) (errors r) (hung_workers r) (workers r)
    (<[status := (default 0 (statuses r !! status) + 1)%Z]> (statuses r))
    (match first_status_at r !! status with
     | Some _ => first_status_at r | None => <[status := at_]> (first_status_at r) end)
    (if length (latencies_ms r) <? 5000 then latencies_ms r ++ [elapsed_ms] else latencies_ms r)
    (error_samples r) (elapsed_seconds r).

(** [for attempt in range(2)]: the second attempt happens only when the first one
    was dropped. *)
Definition run_request (r : PhaseResult) (attempts : attempt * attempt) : PhaseResult :=
  match attempts.1 with
  | Answered status ms at_ => record_answer r status ms at_
  | Failed err => record_error r err
  | Dropped _ =>
      match attempts.2 with
      | Answered status ms at_ => record_answer r status ms at_
      | Dropped err | Failed err => record_error r err
      end
  end.

(** The local result of a worker whose requests went as given. *)
Definition worker_local (history : list (attempt * attempt)) : PhaseResult := foldl run_request empty_phase history.

(** ** Merging *)

Definition earlier (old new : float) : float := if fltb new old then new else old.

(** The block under [with lock] of a worker that was not abandoned. *)
Definition merge_local (result local : PhaseResult) : PhaseResult :=
  MkPhase (requests result + requests local) (errors result + errors local) (hung_workers result) (workers result)
    (union_with (fun a b => Some (a + b)%Z) (statuses result) (statuses local))
    (union_with (fun old new => Some (earlier old new)) (first_status_at result) (first_status_at local))
    (latencies_ms result ++ latencies_ms local)
    (error_samples result ++ take (ERROR_SAMPLE_LIMIT - length (error_samples result)) (error_samples local))
    (elapsed_seconds result).

(** The block under [with lock] of the main thread when workers hang. *)
Definition blame_hung (result : PhaseResult) (hung : Z) : PhaseResult :=
  MkPhase (requests result) (errors result + hung) (hung_workers result + hung) (workers result) (statuses result)
    (first_status_at result) (latencies_ms result)
    (error_samples result ++
     replicate (Nat.min (Z.to_nat hung) (ERROR_SAMPLE_LIMIT - length (error_samples result)))
       (u "hung worker exceeded phase join deadline"))
    (elapsed_seconds result).

Definition set_workers (n : Z) (r : PhaseResult) : PhaseResult :=
  MkPhase (requests r) (errors r) (hung_workers r) n (statuses r) (first_status_at r) (latencies_ms r)
    (error_samples r) (elapsed_seconds r).

Definition set_elapsed (t : float) (r : PhaseResult) : PhaseResult :=
  MkPhase (requests r) (errors r) (hung_workers r) (workers r) (statuses r) (first_status_at r) (latencies_ms r)
    (error_samples r) t.

(** ** The threads of a phase *)

(** Where the main thread of [run_phase] is: joining, after counting the living
    threads, after [abandoned.set()], or past the block that blames them. *)
Inductive main_at := Joining | Counted (hung : Z) | Abandoned (hung : Z) | Returned (hung : Z).

Record phase_state := PhaseState {
  ps_result : PhaseResult;
  ps_abandoned : bool;
  ps_merged : list nat;    (** workers that merged, latest first *)
  ps_exited : list nat;    (** workers whose thread has ended *)
  ps_main : main_at }.

Section threads.
Context (n : nat) (phase_workers : Z) (local_of : nat -> PhaseResult) (elapsed : float).

Definition phase_start : phase_state := PhaseState (set_workers phase_workers empty_phase) false [] [] Joining.

(** The threads in the order of [range(n)] that have not ended. *)
Definition alive (s : phase_state) : list nat := filter (fun i => i ∉ ps_exited s) (seq 0 n).

(** Any interleaving of the workers and the main thread.  The main thread asks the
    threads one after the other whether they live while they may still end, so it
    counts at least those alive when it has finished counting. *)
Inductive phase_step : phase_state -> phase_state -> Prop :=
| step_merge s i :
    i < n -> i ∉ ps_merged s -> i ∉ ps_exited s -> ps_abandoned s = false ->
    phase_step s (PhaseState (merge_local (ps_result s) (local_of i)) false (i :: ps_merged s) (ps_exited s) (ps_main s))
| step_exit s i :
    i < n -> i ∉ ps_exited s -> (i ∈ ps_merged s \/ ps_abandoned s = true) ->
    phase_step s (PhaseState (ps_result s) (ps_abandoned s) (ps_merged s) (i :: ps_exited s) (ps_main s))
| step_count s hung :
    ps_main s = Joining -> (Z.of_nat (length (alive s)) <= hung <= Z.of_nat n)%Z ->
    phase_step s (PhaseState (ps_result s) (ps_abandoned s) (ps_merged s) (ps_exited s) (Counted hung))
| step_abandon s hung :
    ps_main s = Counted hung -> hung <> 0%Z ->
    phase_step s (PhaseState (ps_result s) true (ps_merged s) (ps_exited s) (Abandoned hung))
| step_blame s hung :
    ps_main s = Abandoned hung ->
    phase_step s (PhaseState (set_elapsed elapsed (blame_hung (ps_result s) hung)) (ps_abandoned s) (ps_merged s)
                    (ps_exited s) (Returned hung))
| step_return s :
    ps_main s = Counted 0 ->
    phase_step s (PhaseState (set_elapsed elapsed (ps_result s)) (ps_abandoned s) (ps_merged s) (ps_exited s) (Returned 0)).

Definition phase_reachable : phase_state -> Prop := rtc phase_step phase_start.
End threads.

(** ** Summary *)

Definition fmin (a b : float) : float := if fltb b a then b else a.   (** [min(a, b)] *)
Definition fmax (a b : float) : float := if fltb a b then b else a.   (** [max(a, b)] *)
Definition thousandth : float := float_of_Q 1 1000.

Definition percentile (values : list float) (pct : Z) : res (option float) :=
  match values with
  | [] => Ok None
  | _ =>
      let values := py_sorted fleb values in
      let last := (Z.of_nat (length values) - 1)%Z in
      let* p := float_of_Z pct in
      let* l := float_of_Z last in
      let* rounded := round_int (fmul (fdiv p (of_int 100)) l) in
      match values !! Z.to_nat (Z.min last rounded) with
      | Some v => Ok (Some v)
      | None => Raise (Exn IndexError (u "list index out of range"))
      end
  end.

Definition by_status (a b : Z * Z) : bool := (a.1 <=? b.1)%Z.

Definition status_counts (m : gmap Z Z) : list (Z * Z) := py_sorted by_status (map_to_list m).

Definition is_success (status : Z) : bool := (200 <=? status)%Z && (status <? 300)%Z.

Definition sum_counts (l : list (Z * Z)) : Z := foldr (fun kv acc => kv.2 + acc)%Z 0%Z l.

Definition allowed_count (m : gmap Z Z) : Z :=
  sum_counts (filter (fun kv => is_success kv.1 = true) (map_to_list m)).

Definition status_count (m : gmap Z Z) (status : Z) : Z := default 0%Z (m !! status).

(** [round((count / total) * 100, 2)] *)
Definition percent (count total : Z) : res float :=
  let* ratio := int_truediv count (Z.to_pos total) in
  Ok (round_digits 2 (fmul ratio (of_int 100))).

Definition rounded_or_none (digits : nat) (o : option float) : pyval :=
  match o with Some f => VFloat (round_digits digits f) | None => VNone end.

Definition percentile_value (r : PhaseResult) (pct : Z) : res pyval :=
  let* p := percentile (latencies_ms r) pct in Ok (rounded_or_none 3 p).

Definition summarize_phase (r : PhaseResult) : res pydict :=
  let total := Z.max 1 (requests r) in
  let* count := float_of_Z (requests r) in
  let* allowed := percent (allowed_count (statuses r)) total in
  let* blocked := percent (status_count (statuses r) 403) total in
  let* limited := percent (status_count (statuses r) 429) total in
  let* p50 := percentile_value r 50 in
  let* p95 := percentile_value r 95 in
  let* p99 := percentile_value r 99 in
  Ok [(u "requests", VInt (requests r)); (u "errors", VInt (errors r));
      (u "error_samples", VList (VStr <$> error_samples r)); (u "hung_workers", VInt (hung_workers r));
      (u "workers", VInt (workers r));
      (u "requests_per_second", VFloat (round_digits 2 (fdiv count (fmax thousandth (elapsed_seconds r)))));
      (u "statuses", VDict ((fun kv => (dec_Z kv.1, VInt kv.2)) <$> status_counts (statuses r)));
      (u "allowed_percent", VFloat allowed); (u "blocked_percent", VFloat blocked); (u "limited_percent", VFloat limited);
      (u "first_block_seconds", rounded_or_none 3 (first_status_at r !! 403%Z));
      (u "first_limit_seconds", rounded_or_none 3 (first_status_at r !! 429%Z));
      (u "latency_ms", VDict [(u "p50", p50); (u "p95", p95); (u "p99", p99)])].

(** ** The target score *)

Definition f90 : float := of_int 90.
Definition f95 : float := of_int 95.
Definition f100 : float := of_int 100.

Definition summary_of (r : option PhaseResult) : res (option pydict) :=
  match r with Some r => let* s := summarize_phase r in Ok (Some s) | None => Ok None end.

Definition percent_of (summary : option pydict) (key : pystr) : pyval :=
  match summary with Some s => default (VFloat f0) (dget key s) | None => VFloat f0 end.

(** [min(100.0, ((blocked_or_limited + errors) / attempts) * 100.0) if attempts else 0.0] *)
Definition attacker_stopped (blocked limited : float) (replay_requests replay_errors : Z) : res float :=
  let* fr := float_of_Z replay_requests in
  let* fe := float_of_Z replay_errors in
  let* fa := float_of_Z (replay_requests + replay_errors) in
  let stopped := if (replay_requests =? 0)%Z then f0 else fmul (fdiv (fadd blocked limited) f100) fr in
  Ok (if (replay_requests + replay_errors =? 0)%Z then f0
      else fmin f100 (fmul (fdiv (fadd stopped fe) fa) f100)).

Definition target_score (replay bypass : option PhaseResult) : res pydict :=
  let* replay_summary := summary_of replay in
  let* bypass_summary := summary_of bypass in
  let blocked := percent_of replay_summary (u "blocked_percent") in
  let limited := percent_of replay_summary (u "limited_percent") in
  let replay_requests := match replay with Some r => requests r | None => 0%Z end in
  let replay_errors := match replay with Some r => errors r | None => 0%Z end in
  let* fb := float_of_num blocked in
  let* fl := float_of_num limited in
  let* stopped := attacker_stopped fb fl replay_requests replay_errors in
  let benign := match bypass_summary with Some s => or_none (dget (u "allowed_percent") s) | None => VNone end in
  let bypass_errors := match bypass with Some r => errors r | None => 0%Z end in
  let meets_benign := match benign with VFloat f => fleb f95 f && (bypass_errors =? 0)%Z | _ => false end in
  Ok [(u "attacker_block_target_percent", VFloat f90); (u "benign_allow_target_percent", VFloat f95);
      (u "attacker_blocked_percent", blocked); (u "attacker_limited_percent", limited);
      (u "attacker_blocked_or_limited_percent", VFloat stopped); (u "benign_allowed_percent", benign);
      (u "replay_errors", VInt replay_errors); (u "bypass_errors", VInt bypass_errors);
      (u "meets_attacker_block_target", VBool (fleb f90 stopped)); (u "meets_benign_allow_target", VBool meets_benign)].

(** ** The threads refine a sequential merge *)

Section refinement.
Context (n : nat) (phase_workers : Z) (local_of : nat -> PhaseResult) (elapsed : float).

(** Workers merged one after the other, in the given order. *)
Definition merged_in_order (order : list nat) : PhaseResult :=
  foldl merge_local (set_workers phase_workers empty_phase) (local_of <$> order).

(** The specification of [run_phase]: some workers merge in some order; if any hang
    they are blamed afterwards. *)
Definition phase_spec (order : list nat) (hung : Z) : PhaseResult :=
  set_elapsed elapsed
    (if (hung =? 0)%Z then merged_in_order order else blame_hung (merged_in_order order) hung).

Definition phase_inv (s : phase_state) : Prop :=
  NoDup (ps_merged s) /\ (forall i, i ∈ ps_merged s -> i < n) /\
  (ps_abandoned s = false -> forall i, i ∈ ps_exited s -> i ∈ ps_merged s) /\
  match ps_main s with
  | Joining => ps_abandoned s = false /\ ps_result s = merged_in_order (reverse (ps_merged s))
  | Counted h => ps_abandoned s = false /\ ps_result s = merged_in_order (reverse (ps_merged s)) /\
                 (0 <= h <= Z.of_nat n)%Z /\ (h = 0%Z -> forall i, i < n -> i ∈ ps_exited s)
  | Abandoned h => ps_abandoned s = true /\ ps_result s = merged_in_order (reverse (ps_merged s)) /\
                   (0 < h <= Z.of_nat n)%Z
  | Returned h => ps_result s = phase_spec (reverse (ps_merged s)) h /\ (0 <= h <= Z.of_nat n)%Z /\
                  (h = 0%Z -> ps_abandoned s = false /\ forall i, i < n -> i ∈ ps_exited s) /\
                  (h <> 0%Z -> ps_abandoned s = true)
  end.

Lemma merged_in_order_snoc order i :
  merged_in_order (order ++ [i]) = merge_local (merged_in_order order) (local_of i).
Proof. unfold merged_in_order. by rewrite fmap_app, foldl_app. Qed.

Lemma nobody_alive s : length (alive n s) = 0 -> forall i, i < n -> i ∈ ps_exited s.
Proof.
  unfold alive. intros H%length_zero_iff_nil i Hi. destruct (decide (i ∈ ps_exited s)) as [|Hn]; [done|].
  assert (Hin : i ∈ filter (fun i => i ∉ ps_exited s) (seq 0 n)) by (apply list_elem_of_filter; split; [done|apply elem_of_seq; lia]).
  rewrite H in Hin. by apply not_elem_of_nil in Hin.
Qed.

Lemma phase_inv_step s t : phase_inv s -> phase_step n local_of elapsed s t -> phase_inv t.
Proof.
  intros (Hnd & Hlt & Hex & Hm) Hs. destruct Hs as [s i Hi Hm1 Hx Ha|s i Hi Hx Hor|s h Hj Hh|s h Hc Hh|s h Hb|s Hr];
    unfold phase_inv; cbn [ps_result ps_abandoned ps_merged ps_exited ps_main].
  - split; [by constructor|]. split; [set_solver|]. split; [set_solver|].
    rewrite reverse_cons, merged_in_order_snoc. destruct (ps_main s) as [|h|h|h].
    + destruct Hm as [_ ->]. done.
    + destruct Hm as (_ & -> & Hb & H0). done.
    + by destruct Hm as [? _]; congruence.
    + destruct Hm as (_ & _ & H0 & H1). destruct (decide (h = 0%Z)) as [->|Hn]; [|by rewrite H1 in Ha].
      destruct H0 as [_ H0]; [done|]. by destruct Hx; apply H0.
  - split; [done|]. split; [done|]. split.
    + intros Ha j. rewrite elem_of_cons. intros [->|Hj]; [|by apply Hex]. destruct Hor; [done|congruence].
    + destruct (ps_main s) as [|h|h|h]; [done| |done|].
      * destruct Hm as (? & ? & ? & H0). repeat (split; [done|]). intros. apply elem_of_cons. right. by apply H0.
      * destruct Hm as (? & ? & H0 & ?). split; [done|]. split; [done|]. split; [|done]. intros Hz.
        destruct (H0 Hz) as [? Hall]. split; [done|]. intros. apply elem_of_cons. right. by apply Hall.
  - rewrite Hj in Hm. destruct Hm as [Ha Hr]. repeat (split; [done || lia|]). intros ->. apply nobody_alive. lia.
  - rewrite Hc in Hm. destruct Hm as (Ha & Hr & Hb & _). repeat (split; [done|]). lia.
  - rewrite Hb in Hm. destruct Hm as (Ha & Hr & Hh). split_and!; try done; try lia.
    rewrite Hr. unfold phase_spec. by rewrite (proj2 (Z.eqb_neq h 0)) by lia.
  - rewrite Hr in Hm. destruct Hm as (Ha & Hres & Hb & H0). split_and!; try done; try lia.
    + rewrite Hres. unfold phase_spec. done.
    + intros _. by split; [|apply H0].
Qed.

Lemma phase_inv_reachable s : phase_reachable n phase_workers local_of elapsed s -> phase_inv s.
Proof.
  unfold phase_reachable. revert s. refine (rtc_ind_r phase_inv (phase_start phase_workers) _ _).
  - unfold phase_inv, phase_start. cbn. split_and!; try done; [constructor|set_solver..].
  - intros y z _ Hstep Hy. by eapply phase_inv_step.
Qed.

(** A worker that is still running when the phase returns can no longer change the
    result. *)
Lemma returned_result_final s t hung :
  phase_reachable n phase_workers local_of elapsed s -> ps_main s = Returned hung ->
  rtc (phase_step n local_of elapsed) s t -> ps_main t = Returned hung /\ ps_result t = ps_result s.
Proof.
  intros Hr Hret Hst. induction Hst as [|s t v Hstep Hst IH]; [done|].
  assert (Hone : ps_main t = Returned hung /\ ps_result t = ps_result s).
  { destruct (phase_inv_reachable s Hr) as (_ & _ & _ & Hm). rewrite Hret in Hm. destruct Hm as (_ & _ & H0 & H1).
    destruct Hstep as [s i Hi Hm1 Hx Ha|s i Hi Hx Hor|s h Hj|s h Hc Hh|s h Hb|s Hc]; cbn in *; try congruence; try done.
    exfalso. destruct (decide (hung = 0%Z)) as [Hz|Hz]; [destruct (H0 Hz) as [_ Hall]; by apply Hx, Hall|].
    by rewrite H1 in Ha. }
  destruct Hone as [Hret' Hres]. destruct (IH (rtc_r _ _ _ Hr Hstep) Hret') as [? ->]. done.
Qed.
(** C21. However the threads interleave, the result a phase returns is the sequential
    merge of distinct workers in some order, blaming exactly the workers counted as
    hung; when none hung, every worker's counts are in it.  The result is final: a
    worker that is still running can no longer change it. *)
Theorem phase_linearizes s hung :
  phase_reachable n phase_workers local_of elapsed s -> ps_main s = Returned hung ->
  exists order, NoDup order /\ (forall i, i ∈ order -> i < n) /\ (0 <= hung <= Z.of_nat n)%Z /\
    ps_result s = phase_spec order hung /\ (hung = 0%Z -> order ≡ₚ seq 0 n) /\
    forall t, rtc (phase_step n local_of elapsed) s t -> ps_result t = ps_result s.
Proof.
  intros Hr Hret. destruct (phase_inv_reachable s Hr) as (Hnd & Hlt & Hex & Hm). rewrite Hret in Hm.
  destruct Hm as (Hres & Hb & H0 & _). exists (reverse (ps_merged s)). 
  split; [by rewrite reverse_Permutation|]. split; [intros i Hi; rewrite elem_of_reverse in Hi; by apply Hlt|].
  split; [done|]. split; [done|].
  split; [|intros t Ht; by destruct (returned_result_final s t hung Hr Hret Ht)].
  intros Hz. destruct (H0 Hz) as [Ha Hall].
  apply NoDup_Permutation; [by rewrite reverse_Permutation|apply NoDup_seq|].
  intros i. rewrite elem_of_reverse, elem_of_seq. split; [intros Hi; specialize (Hlt i Hi); lia|].
  intros Hi. apply Hex; [done|]. apply Hall. lia.
Qed.

(** ** Progress *)

(** Distinct workers fit into [range(n)]. *)
Lemma workers_fit l : NoDup l -> (forall i, i ∈ l -> i < n) -> length l <= n.
Proof.
  intros Hnd Hlt. rewrite <-(length_seq n 0). apply submseteq_length, NoDup_submseteq; [done|].
  intros i Hi. apply elem_of_seq. specialize (Hlt i Hi). lia.
Qed.

Definition distinct_workers (s : phase_state) : Prop :=
  NoDup (ps_merged s) /\ (forall i, i ∈ ps_merged s -> i < n) /\ NoDup (ps_exited s) /\ (forall i, i ∈ ps_exited s -> i < n).

(** The steps a phase can still take: a merge and an exit per worker, three of the main
    thread. *)
Definition main_left (m : main_at) : nat := match m with Joining => 3 | Counted _ => 2 | Abandoned _ => 1 | Returned _ => 0 end.

Definition steps_left (s : phase_state) : nat :=
  (n - length (ps_merged s)) + (n - length (ps_exited s)) + main_left (ps_main s).

Lemma phase_step_decreases s t : distinct_workers s -> phase_step n local_of elapsed s t -> distinct_workers t /\ steps_left t < steps_left s.
Proof.
  intros (Hm & Hml & Hx & Hxl) Hst.
  assert (Hcons : forall i l, i < n -> i ∉ l -> NoDup l -> (forall j, j ∈ l -> j < n) ->
    NoDup (i :: l) /\ (forall j, j ∈ i :: l -> j < n) /\ S (length l) <= n).
  { intros i l Hi Hnin Hnd Hlt. assert (Hnd' : NoDup (i :: l)) by by apply NoDup_cons.
    assert (Hlt' : forall j, j ∈ i :: l -> j < n) by (intros j [->|Hj]%elem_of_cons; auto).
    split_and!; [done|done|]. by apply (workers_fit (i :: l)). }
  unfold distinct_workers, steps_left. destruct Hst as [s i Hi Hnm Hnx Ha|s i Hi Hnx Hor|s h Hs Hh|s h Hs Hh|s h Hs|s Hs];
    cbn [ps_merged ps_exited ps_main length]; rewrite ?Hs; cbn [main_left]; try (split; [done|lia]).
  - destruct (Hcons i (ps_merged s) Hi Hnm Hm Hml) as (H1 & H2 & H3). split; [done|]. lia.
  - destruct (Hcons i (ps_exited s) Hi Hnx Hx Hxl) as (H1 & H2 & H3). split; [done|]. lia.
Qed.

Lemma reachable_distinct s : phase_reachable n phase_workers local_of elapsed s -> distinct_workers s.
Proof.
  intros Hr. assert (Hgen : forall a b, rtc (phase_step n local_of elapsed) a b -> distinct_workers a -> distinct_workers b).
  { induction 1 as [|a b c Hst _ IH]; [done|]. intros Ha. apply IH. by apply (phase_step_decreases a b). }
  apply (Hgen _ _ Hr). unfold distinct_workers. cbn. split_and!; try constructor; by intros ? ?%not_elem_of_nil.
Qed.

Lemma steps_bounded k s t : distinct_workers s -> nsteps (phase_step n local_of elapsed) k s t -> k <= steps_left s.
Proof.
  intros Hs H. induction H as [s|k s s' t Hst _ IH]; [lia|]. destruct (phase_step_decreases s s' Hs Hst) as [Hs' Hlt].
  specialize (IH Hs'). lia.
Qed.

Lemma alive_count s : length (alive n s) <= n.
Proof. unfold alive. etransitivity; [apply length_filter|]. by rewrite length_seq. Qed.


End refinement.

(** ** Counting *)

(** The counts of the statuses with [p]. *)
Definition tally (p : Z -> bool) (m : gmap Z Z) : Z :=
  map_fold (fun k c acc => (if p k then c else 0) + acc)%Z 0%Z m.

Lemma tally_empty p : tally p ∅ = 0%Z.
Proof. apply map_fold_empty. Qed.

Lemma tally_insert p k c m : m !! k = None -> tally p (<[k := c]> m) = ((if p k then c else 0) + tally p m)%Z.
Proof. intros H. unfold tally. rewrite map_fold_insert_L; [done|intros; lia|done]. Qed.

Lemma tally_delete p k c m : m !! k = Some c -> tally p m = ((if p k then c else 0) + tally p (delete k m))%Z.
Proof. intros H. unfold tally. rewrite (map_fold_delete_L _ _ k c m); [done|intros; lia|done]. Qed.

Lemma tally_bump p k d m :
  tally p (<[k := (default 0 (m !! k) + d)%Z]> m) = (tally p m + if p k then d else 0)%Z.
Proof.
  destruct (m !! k) as [c|] eqn:E.
  - change (default 0%Z (Some c)) with c. rewrite <-insert_delete_eq, tally_insert by apply lookup_delete_eq. rewrite (tally_delete p k c m) by done.
    destruct (p k); lia.
  - change (default 0%Z None) with 0%Z. rewrite tally_insert by done. destruct (p k); lia.
Qed.

Lemma tally_union p m1 m2 : tally p (union_with (fun a b => Some (a + b)%Z) m1 m2) = (tally p m1 + tally p m2)%Z.
Proof.
  revert m1. induction m2 as [|k c m2 Hk IH] using map_ind; intros m1.
  - rewrite (right_id_L ∅ (union_with _)), tally_empty. lia.
  - assert (E : union_with (fun a b : Z => Some (a + b)%Z) m1 (<[k:=c]> m2) =
                union_with (fun a b => Some (a + b)%Z) (<[k := (default 0 (m1 !! k) + c)%Z]> m1) m2).
    { apply map_eq. intros j. rewrite !lookup_union_with. destruct (decide (j = k)) as [->|Hj].
      - rewrite !lookup_insert_eq, Hk. destruct (m1 !! k); done.
      - by rewrite !lookup_insert_ne. }
    rewrite E, IH, tally_bump, tally_insert by done. lia.
Qed.

Lemma tally_sum p m : tally p m = sum_counts (filter (fun kv => p kv.1 = true) (map_to_list m)).
Proof.
  unfold tally. rewrite map_fold_foldr. induction (map_to_list m) as [|[k c] l IH]; [done|]. cbn [foldr].
  rewrite IH, filter_cons. cbn [fst uncurry]. destruct (p k) eqn:E; case_decide; try done; cbn; rewrite E; lia.
Qed.

Lemma allowed_tally m : allowed_count m = tally is_success m.
Proof. symmetry. apply tally_sum. Qed.

Lemma status_tally m k : status_count m k = tally (Z.eqb k) m.
Proof.
  unfold status_count. induction m as [|j c m Hj IH] using map_ind; [by rewrite lookup_empty, tally_empty|].
  rewrite tally_insert by done. destruct (Z.eqb_spec k j) as [->|Hne].
  - rewrite lookup_insert_eq, <-IH, Hj. cbn. lia.
  - by rewrite lookup_insert_ne.
Qed.

(** All counts are non-negative. *)
Definition counts_ok (m : gmap Z Z) : Prop := map_Forall (fun _ c => 0 <= c)%Z m.

Lemma tally_nonneg p m : counts_ok m -> (0 <= tally p m)%Z.
Proof.
  induction m as [|k c m Hk IH] using map_ind; intros H; [by rewrite tally_empty|].
  rewrite tally_insert by done. apply map_Forall_insert in H as [Hc Hm]; [|done]. specialize (IH Hm).
  destruct (p k); lia.
Qed.

Lemma tally_mono p q m : counts_ok m -> (forall k, p k = true -> q k = true) -> (tally p m <= tally q m)%Z.
Proof.
  intros H Hpq. induction m as [|k c m Hk IH] using map_ind; [by rewrite !tally_empty|].
  rewrite !tally_insert by done. apply map_Forall_insert in H as [Hc Hm]; [|done]. specialize (IH Hm).
  destruct (p k) eqn:E; [rewrite (Hpq k E)|destruct (q k)]; lia.
Qed.

(** ** Balanced results *)

(** Every request has one status, errors include the hung workers and at most eight
    error texts are kept. *)
Record balanced (r : PhaseResult) : Prop := {
  bal_counts : counts_ok (statuses r);
  bal_requests : tally (fun _ => true) (statuses r) = requests r;
  bal_errors : (0 <= hung_workers r <= errors r)%Z;
  bal_samples : length (error_samples r) <= ERROR_SAMPLE_LIMIT }.

Lemma balanced_requests r : balanced r -> (0 <= requests r)%Z.
Proof. intros [Hc <- _ _]. by apply tally_nonneg. Qed.

Lemma balanced_error r e : balanced r -> balanced (record_error r e).
Proof.
  intros [H1 H2 H3 H4]. split; cbn [record_error requests errors hung_workers statuses error_samples];
    try done; [lia|]. destruct (Nat.ltb_spec (length (error_samples r)) ERROR_SAMPLE_LIMIT); [|done].
  rewrite length_app. cbn. lia.
Qed.

Lemma balanced_answer r status ms t : balanced r -> balanced (record_answer r status ms t).
Proof.
  intros [H1 H2 H3 H4]. split; cbn; try done.
  - apply map_Forall_insert_2; [|done]. destruct (statuses r !! status) as [c|] eqn:E; cbn; [|lia].
    specialize (H1 status c E). cbn in H1. lia.
  - rewrite tally_bump, H2. done.
Qed.

Lemma worker_local_balanced history : balanced (worker_local history).
Proof.
  unfold worker_local. assert (H : balanced empty_phase) by (split; cbn; [by apply map_Forall_empty|done|lia|lia]).
  revert H. generalize empty_phase. induction history as [|[a b] history IH]; intros r Hr; [done|]. cbn [foldl].
  apply IH. unfold run_request. cbn [fst snd].
  destruct a; [by apply balanced_answer| |by apply balanced_error]. destruct b; auto using balanced_answer, balanced_error.
Qed.

Lemma counts_union m1 m2 : counts_ok m1 -> counts_ok m2 -> counts_ok (union_with (fun a b => Some (a + b)%Z) m1 m2).
Proof.
  intros H1 H2 k c. rewrite lookup_union_with. destruct (m1 !! k) as [a|] eqn:E1, (m2 !! k) as [b|] eqn:E2; cbn; intros [= <-].
  - specialize (H1 k a E1). specialize (H2 k b E2). cbn in *. lia.
  - by apply (H1 k).
  - by apply (H2 k).
Qed.

Lemma balanced_merge r l : balanced r -> balanced l -> balanced (merge_local r l).
Proof.
  intros [H1 H2 H3 H4] [G1 G2 G3 G4].
  split; cbn [merge_local requests errors hung_workers statuses error_samples].
  - by apply counts_union.
  - by rewrite tally_union, H2, G2.
  - lia.
  - rewrite length_app, length_take. lia.
Qed.

Lemma balanced_blame r h : (0 <= h)%Z -> balanced r -> balanced (blame_hung r h).
Proof.
  intros Hh [H1 H2 H3 H4].
  split; cbn [blame_hung requests errors hung_workers statuses error_samples]; [done|done|lia|]. rewrite length_app, length_replicate. lia.
Qed.

(** ** Totals of a phase *)

Definition total (f : nat -> Z) (order : list nat) : Z := foldr (fun i acc => f i + acc)%Z 0%Z order.

Section totals.
Context (phase_workers : Z) (local_of : nat -> PhaseResult).
Local Abbreviation merged order := (merged_in_order phase_workers local_of order).

Lemma merged_totals order :
  requests (merged order) = total (fun i => requests (local_of i)) order /\
  errors (merged order) = total (fun i => errors (local_of i)) order /\
  hung_workers (merged order) = 0%Z /\
  (forall p, tally p (statuses (merged order)) = total (fun i => tally p (statuses (local_of i))) order).
Proof.
  induction order as [|i order (IH1 & IH2 & IH3 & IH4)] using rev_ind; [done|].
  assert (Hsnoc : forall f, total f (order ++ [i]) = (total f order + f i)%Z).
  { intros f. unfold total. rewrite foldr_app. cbn. clear. induction order as [|j order IH]; cbn; lia. }
  rewrite merged_in_order_snoc. cbn [merge_local requests errors hung_workers statuses].
  rewrite !Hsnoc, IH1, IH2, IH3. split_and!; try done. intros p. by rewrite tally_union, IH4, Hsnoc.
Qed.

Lemma merged_balanced order : (forall i, balanced (local_of i)) -> balanced (merged order).
Proof.
  intros Hl. induction order as [|i order IH] using rev_ind.
  - split; cbn; [by apply map_Forall_empty|done|lia|lia].
  - rewrite merged_in_order_snoc. by apply balanced_merge.
Qed.
End totals.

Lemma balanced_elapsed t r : balanced r -> balanced (set_elapsed t r).
Proof. by intros [? ? ? ?]. Qed.

(** C23. No update is lost or counted twice: in the result a phase returns, the
    requests, the errors and the count of every class of statuses are the sums over
    the workers that merged (plus one error per hung worker), every request has
    exactly one status, and at most eight error samples are kept. *)
Theorem phase_counts_add_up n phase_workers histories elapsed s hung :
  phase_reachable n phase_workers (fun i => worker_local (histories i)) elapsed s -> ps_main s = Returned hung ->
  balanced (ps_result s) /\ hung_workers (ps_result s) = hung /\
  exists order, NoDup order /\ (hung = 0%Z -> order ≡ₚ seq 0 n) /\
    requests (ps_result s) = total (fun i => requests (worker_local (histories i))) order /\
    errors (ps_result s) = (total (fun i => errors (worker_local (histories i))) order + hung)%Z /\
    forall p, tally p (statuses (ps_result s)) = total (fun i => tally p (statuses (worker_local (histories i)))) order.
Proof.
  intros Hr Hret. destruct (phase_inv_reachable _ _ _ _ s Hr) as (Hnd & Hlt & Hex & Hm). rewrite Hret in Hm.
  destruct Hm as (Hres & Hb & H0 & _). rewrite Hres. unfold phase_spec.
  set (local_of := fun i => worker_local (histories i)) in *. set (order := reverse (ps_merged s)).
  pose proof (merged_balanced phase_workers local_of order (fun i => worker_local_balanced _)) as Hbal.
  destruct (merged_totals phase_workers local_of order) as (T1 & T2 & T3 & T4).
  assert (Hord : NoDup order /\ (hung = 0%Z -> order ≡ₚ seq 0 n)).
  { split; [by unfold order; rewrite reverse_Permutation|]. intros Hz. destruct (H0 Hz) as [Ha Hall].
    unfold order. rewrite reverse_Permutation. apply NoDup_Permutation; [done|apply NoDup_seq|].
    intros i. rewrite elem_of_seq. split; [intros Hi; specialize (Hlt i Hi); lia|].
    intros Hi. apply Hex; [done|]. apply Hall. lia. }
  subst local_of. cbv beta in T1, T2, T4. destruct (Z.eqb_spec hung 0) as [->|Hne].
  - split; [by apply balanced_elapsed|]. split; [exact T3|]. exists order. destruct Hord. split_and!; try done.
    cbn [set_elapsed errors]. rewrite T2. lia.
  - split; [apply balanced_elapsed, balanced_blame; [lia|done]|].
    split; [cbn [set_elapsed blame_hung hung_workers]; lia|]. exists order. destruct Hord. split_and!; try done.
    cbn [set_elapsed blame_hung errors]. by rewrite T2.
Qed.

(** ** The score agrees with its checker *)

(** A balanced result with counts a run can reach. *)
Definition plausible (r : PhaseResult) : Prop :=
  balanced r /\ (requests r < 2 ^ 60)%Z /\ (errors r < 2 ^ 60)%Z /\ (Z.of_nat (length (latencies_ms r)) < 2 ^ 60)%Z.

Lemma small_nonneg k x : small k x -> nonneg x.
Proof. destruct x; cbn; try done. by intros []. Qed.

Lemma f100_small : small 8 f100.
Proof. apply (float_of_Q_small 7 100 1); lia. Qed.

Lemma percent_small count n : (0 <= count < 2 ^ 60)%Z -> exists f, percent count n = Ok f /\ small 78 f.
Proof.
  intros H. unfold percent, int_truediv. pose proof (float_of_Q_small 60 count (Z.to_pos n) ltac:(lia) H) as Hs.
  assert (Hinf : is_inf (float_of_Q count (Z.to_pos n)) = false) by (by destruct (float_of_Q _ _)). rewrite Hinf. cbn [rbind].
  eexists. split; [done|]. apply (round_2_small 70); [lia|]. apply (fmul_small 61 8); [lia..|done|]. exact f100_small.
Qed.

(** The fraction of the list a percentile looks at. *)
Lemma percentile_rank_small pct : pct ∈ [50; 95; 99]%Z ->
  exists p, float_of_Z pct = Ok p /\ small 8 (fdiv p (of_int 100)).
Proof.
  rewrite !elem_of_cons, elem_of_nil. intros [->|[->|[->|[]]]].
  all: destruct (float_of_Z _) as [p|] eqn:E; vm_compute in E; [|done]; injection E as <-; eexists; (split; [done|]);
    match goal with |- small _ ?x => let v := eval vm_compute in x in change x with v end; split; [done|];
    split_and!; apply Z.leb_le; reflexivity.
Qed.

Lemma percentile_ok values pct : values <> [] -> pct ∈ [50; 95; 99]%Z -> (Z.of_nat (length values) < 2 ^ 60)%Z ->
  exists v, percentile values pct = Ok (Some v) /\ v ∈ values.
Proof.
  intros Hne Hp Hl. unfold percentile. pose proof (py_sorted_perm fleb values) as Hperm.
  pose proof (Permutation_length Hperm) as Hlen. destruct values as [|x xs]; [done|]. set (l := x :: xs) in *.
  rewrite Hlen. assert (0 < length l) by (cbn; lia).
  destruct (percentile_rank_small pct Hp) as (p & -> & Hs). cbn [rbind].
  destruct (float_of_Z_small 60 (Z.of_nat (length l) - 1)) as (f & -> & Hf); [lia|lia|]. cbn [rbind].
  pose proof (fmul_small 8 61 _ _ ltac:(lia) ltac:(lia) ltac:(lia) Hs Hf) as Hm.
  unfold round_int. rewrite (small_finite _ _ Hm). pose proof (float_fraction_nonneg _ (small_nonneg _ _ Hm)) as Hn.
  destruct (float_fraction _) as [num den]. cbn [rbind fst] in *.
  pose proof (round_half_even_nonneg num den Hn).
  destruct (lookup_lt_is_Some_2 (py_sorted fleb l) (Z.to_nat (Z.min (Z.of_nat (length l) - 1) (round_half_even num den)))) as [v Hv];
    [lia|]. rewrite Hv. exists v. split; [done|]. rewrite <-Hperm. by eapply list_elem_of_lookup_2.
Qed.

Lemma percentile_value_ok r pct : pct ∈ [50; 95; 99]%Z -> plausible r -> exists v, percentile_value r pct = Ok v.
Proof.
  intros Hp (_ & _ & _ & Hl). unfold percentile_value. destruct (latencies_ms r) as [|x xs] eqn:E; [by eexists|].
  rewrite <-E in *. destruct (percentile_ok (latencies_ms r) pct) as (v & -> & _); [by rewrite E|done|done|]. by eexists.
Qed.

Lemma tally_bounds r p : plausible r -> (0 <= tally p (statuses r) < 2 ^ 60)%Z.
Proof.
  intros ([Hc Hr _ _] & Hb & _). split; [by apply tally_nonneg|].
  pose proof (tally_mono p (fun _ => true) (statuses r) Hc (fun _ _ => eq_refl)). lia.
Qed.

Lemma summarize_ok r : plausible r ->
  exists s a b l, summarize_phase r = Ok s /\ dget (u "allowed_percent") s = Some (VFloat a) /\ small 78 a /\
    dget (u "blocked_percent") s = Some (VFloat b) /\ small 78 b /\ dget (u "limited_percent") s = Some (VFloat l) /\ small 78 l.
Proof.
  intros Hr. unfold summarize_phase. pose proof (balanced_requests r (proj1 Hr)) as H0.
  destruct (float_of_Z_small 60 (requests r)) as (f & -> & _); [lia|destruct Hr as (_ & ? & _); lia|]. cbn [rbind].
  rewrite allowed_tally, !status_tally.
  destruct (percent_small _ (Z.max 1 (requests r)) (tally_bounds r is_success Hr)) as (a & -> & Ha). cbn [rbind].
  destruct (percent_small _ (Z.max 1 (requests r)) (tally_bounds r (Z.eqb 403) Hr)) as (b & -> & Hb). cbn [rbind].
  destruct (percent_small _ (Z.max 1 (requests r)) (tally_bounds r (Z.eqb 429) Hr)) as (l & -> & Hl). cbn [rbind].
  destruct (percentile_value_ok r 50) as [v1 ->]; [set_solver|done|].
  destruct (percentile_value_ok r 95) as [v2 ->]; [set_solver|done|].
  destruct (percentile_value_ok r 99) as [v3 ->]; [set_solver|done|]. cbn [rbind].
  eexists _, a, b, l. split_and!; [reflexivity|done|done|done|done|done|done].
Qed.

Lemma fmin_100 x : nonneg x -> nonneg (fmin f100 x) /\ is_finite (fmin f100 x) = true.
Proof.
  intros Hx. unfold fmin. destruct (fltb x f100) eqn:E; [|done]. split; [done|].
  destruct x as [s|s| |s m e]; try done. cbn in Hx. subst s. done.
Qed.

Lemma attacker_stopped_ok blocked limited rr re :
  nonneg blocked -> nonneg limited -> (0 <= rr < 2 ^ 60)%Z -> (0 <= re < 2 ^ 60)%Z ->
  exists f, attacker_stopped blocked limited rr re = Ok f /\ is_finite f = true.
Proof.
  intros Hb Hl Hr He. unfold attacker_stopped.
  destruct (float_of_Z_small 60 rr) as (fr & -> & Hfr); [lia|done|]. cbn [rbind].
  destruct (float_of_Z_small 60 re) as (fe & -> & Hfe); [lia|done|]. cbn [rbind].
  destruct (float_of_Z_small 61 (rr + re)) as (fa & -> & Hfa); [lia|lia|]. cbn [rbind].
  eexists. split; [done|]. destruct (rr + re =? 0)%Z; [done|]. apply fmin_100.
  apply fmul_nonneg; [|done]. apply fdiv_nonneg; [|by eapply small_nonneg]. apply fadd_nonneg; [|by eapply small_nonneg].
  destruct (rr =? 0)%Z; [done|]. apply fmul_nonneg; [|by eapply small_nonneg]. apply fdiv_nonneg; [|done]. by apply fadd_nonneg.
Qed.

Definition option_plausible (r : option PhaseResult) : Prop := match r with Some r => plausible r | None => True end.

Lemma summary_of_ok r : option_plausible r ->
  exists s b l, summary_of r = Ok s /\ percent_of s (u "blocked_percent") = VFloat b /\ nonneg b /\
    percent_of s (u "limited_percent") = VFloat l /\ nonneg l /\
    match r with
    | Some _ => exists s' a, s = Some s' /\ dget (u "allowed_percent") s' = Some (VFloat a) /\ small 78 a
    | None => s = None
    end.
Proof.
  destruct r as [r|]; cbn [option_plausible]; intros H; [|by exists None, f0, f0].
  destruct (summarize_ok r H) as (s & a & b & l & Hs & Ha & Sa & Hb & Sb & Hl & Sl). exists (Some s), b, l.
  cbn [summary_of]. rewrite Hs. cbn [rbind percent_of]. rewrite Hb, Hl. split_and!; try done; [by eapply small_nonneg..|]. eauto.
Qed.

Lemma phase_counts r : option_plausible r ->
  (0 <= match r with Some r => requests r | None => 0 end < 2 ^ 60)%Z /\
  (0 <= match r with Some r => errors r | None => 0 end < 2 ^ 60)%Z.
Proof.
  destruct r as [r|]; cbn [option_plausible]; [|lia]. intros H. pose proof (balanced_requests r (proj1 H)).
  destruct H as ([_ _ ? _] & ? & ? & _). lia.
Qed.

Lemma finite_float_number d key f : dget key d = Some (VFloat f) -> is_finite f = true -> score_number d key = Ok (Some f).
Proof. intros Hd Hf. unfold score_number, finite_number. rewrite Hd. cbn. by rewrite Hf. Qed.

Lemma finite_benign_value d f :
  dget (u "benign_allowed_percent") d = Some (VFloat f) -> is_finite f = true -> benign_value d = Ok (Some (Some f)).
Proof. intros Hd Hf. unfold benign_value. rewrite Hd. cbn. by rewrite Hf. Qed.

Lemma non_negative_count d key z : dget key d = Some (VInt z) -> (z <? 0)%Z = false -> score_non_negative_int d key = Some z.
Proof. intros Hd Hz. unfold score_non_negative_int. by rewrite Hd, Hz. Qed.

Lemma target_score_checked replay bypass scenario layer :
  option_plausible replay -> option_plausible bypass ->
  exists score, target_score replay bypass = Ok score /\
    score_consistency_errors scenario layer score = Ok [] /\
    (bypass <> None -> measured_benign_errors scenario layer score = Ok []).
Proof.
  intros Hr Hb. unfold target_score.
  destruct (summary_of_ok replay Hr) as (s & b & l & -> & Eb & Nb & El & Nl & _). cbn [rbind]. rewrite Eb, El. cbn [rbind float_of_num].
  destruct (summary_of_ok bypass Hb) as (s2 & _ & _ & -> & _ & _ & _ & _ & Hs2). cbn [rbind].
  destruct (phase_counts replay Hr) as [Hrr Hre]. destruct (phase_counts bypass Hb) as [_ Hbe].
  destruct (attacker_stopped_ok b l _ _ Nb Nl Hrr Hre) as (f & -> & Hf). cbn [rbind].
  set (re := match replay with Some r => errors r | None => 0%Z end) in *.
  set (be := match bypass with Some r => errors r | None => 0%Z end) in *.
  eexists. split; [reflexivity|].
  assert (Nre : (re <? 0)%Z = false) by (apply Z.ltb_ge; lia). assert (Nbe : (be <? 0)%Z = false) by (apply Z.ltb_ge; lia).
  split.
  - apply score_consistency_nil. destruct bypass as [r|].
    + destruct Hs2 as (s' & a & -> & Ha & Sa). rewrite Ha. change (or_none (Some (VFloat a))) with (VFloat a).
      exists f90, f, (fleb f90 f), f95, (Some a), (fleb f95 a && (be =? 0)%Z), re, be.
      split_and!; try (by apply finite_float_number); try done.
      * apply finite_benign_value; [done|by eapply small_finite].
      * by apply non_negative_count.
      * by apply non_negative_count.
      * by rewrite andb_comm.
    + rewrite Hs2. exists f90, f, (fleb f90 f), f95, None, false, re, be.
      split_and!; try (by apply finite_float_number); try done.
      * by apply non_negative_count.
  - intros Hne. destruct bypass as [r|]; [|done]. destruct Hs2 as (s' & a & -> & Ha & Sa). rewrite Ha.
    change (or_none (Some (VFloat a))) with (VFloat a). unfold measured_benign_errors.
    rewrite (finite_float_number _ _ f95) by done. cbn [rbind].
    rewrite (finite_float_number _ _ a) by (done || by eapply small_finite). cbn [rbind].
    by rewrite (non_negative_count _ _ be).
Qed.

(** The runner and the gate agree: for any two phases with plausible counts, the
    target score is computed without an exception and passes the gate's consistency
    check; when the bypass probe ran it also counts as measured benign traffic. *)
Theorem scores_pass_consistency replay bypass scenario layer :
  option_plausible replay -> option_plausible bypass ->
  exists score, target_score replay bypass = Ok score /\
    score_consistency_errors scenario layer score = Ok [] /\
    (bypass <> None -> measured_benign_errors scenario layer score = Ok []).
Proof. apply target_score_checked. Qed.

(** ** Sample runs *)

Definition sample_histories (i : nat) : list (attempt * attempt) :=
  match i with
  | O => [(Answered 200 f90 f90, Failed (FailureText (u "unused")));
          (Dropped (FailureExn (u "TimeoutError") (u "timed out")), Answered 429 f95 f95)]
  | _ => [(Failed (FailureText (u "refused")), Failed (FailureText (u "unused")))]
  end.

Definition sample_local (i : nat) : PhaseResult := worker_local (sample_histories i).

(** Two workers; the first finishes, the second hangs and is abandoned. *)
Definition sample_end : phase_state :=
  PhaseState (set_elapsed f90 (blame_hung (merge_local (set_workers 2 empty_phase) (sample_local 0)) 1))
    true [0] [0] (Returned 1).

Lemma sample_end_reachable : phase_reachable 2 2 sample_local f90 sample_end.
Proof.
  unfold phase_reachable. eapply rtc_l; [apply (step_merge _ _ _ _ 0); cbn; [lia|set_solver|set_solver|done]|].
  eapply rtc_l; [apply (step_exit _ _ _ _ 0); cbn; [lia|set_solver|set_solver]|].
  eapply rtc_l; [apply (step_count _ _ _ _ 1); [done|vm_compute; split; discriminate]|].
  eapply rtc_l; [apply (step_abandon _ _ _ _ 1); [done|lia]|].
  apply rtc_once.
  match goal with |- phase_step _ _ _ ?s _ => exact (step_blame 2 sample_local f90 s 1 eq_refl) end.
Qed.


Lemma phase_linearizes_witness :
  exists order, NoDup order /\ ps_result sample_end = phase_spec 2 sample_local f90 order 1.
Proof.
  destruct (phase_linearizes 2 2 sample_local f90 sample_end 1 sample_end_reachable eq_refl)
    as (order & Hnd & _ & _ & Hres & _).
  exists order. split; [exact Hnd|exact Hres].
Defined.

Lemma phase_counts_add_up_witness :
  balanced (ps_result sample_end) /\ hung_workers (ps_result sample_end) = 1%Z /\ requests (ps_result sample_end) = 2%Z.
Proof.
  destruct (phase_counts_add_up 2 2 sample_histories f90 sample_end 1 sample_end_reachable eq_refl) as (Hb & Hh & _).
  split; [exact Hb|]. split; [exact Hh|]. vm_compute. reflexivity.
Defined.

Lemma sample_plausible : plausible (sample_local 0).
Proof. split; [apply worker_local_balanced|]. vm_compute. done. Qed.

Lemma scores_pass_consistency_witness :
  exists score, target_score (Some (sample_local 0)) (Some (sample_local 0)) = Ok score /\
    score_consistency_errors (u "basic") (u "rate_limit") score = Ok [] /\
    dget (u "benign_allowed_percent") score = Some (VFloat (of_int 50)).
Proof.
  destruct (scores_pass_consistency (Some (sample_local 0)) (Some (sample_local 0)) (u "basic") (u "rate_limit")
    sample_plausible sample_plausible) as (score & Hs & Hc & _).
  exists score. split; [exact Hs|]. split; [exact Hc|].
  vm_compute in Hs. injection Hs as <-. vm_compute. reflexivity.
Defined.
