(* ===== verification/DefenseBench.v ===== *)
(** * DefenseBench: the defense benchmark's report

    [tools/run_defense_bench.py]: the proxy configuration of a layer, the metrics and
    events read back, the interpretation of learned filters, and the composition of
    phases into layers, scenarios and the JSON report.  What processes and sockets
    did in a layer (start-up, phases, files) is a record [layer_io]. *)

From Stdlib Require Import SpecFloat.
From S2P Require Import Prelude Unicode PyStr PyTime PyFloat FloatFacts PyVal Provenance Json DefenseAssert.
From S2P Require Import Scenarios Phase.

(** ** Options *)

Record bench_args := BenchArgs {
  ba_binary : pystr;
  ba_provider : pystr;
  ba_no_codex : bool;
  ba_duration : float;
  ba_workers : Z;
  ba_analyzer_wait : float;
  ba_per_ip_rps : Z;
  ba_path_shape_rps : Z;
  ba_signature_threshold : Z;
  ba_scenarios : pystr;
  ba_preset : option pystr;
  ba_json_only : bool }.

Definition default_bench_args : bench_args :=
  BenchArgs (u "target/release/altura-prot") (u "codex") false (float_of_Q 25 10) 48 (of_int 30) 80 80 60
    (join (u ",") BASE_SCENARIOS) None false.

(** ** Configuration of a layer *)

Definition high_request_limit_overrides (value : Z) : pydict :=
  [(u "global_rps", VInt value); (u "global_burst", VInt value); (u "trusted_proxy_rps", VInt value);
   (u "trusted_proxy_burst", VInt value); (u "signature_rps", VInt value); (u "signature_burst", VInt value);
   (u "max_tracked_signatures", VInt 65536); (u "path_shape_rps", VInt value); (u "path_shape_burst", VInt value);
   (u "max_tracked_path_shapes", VInt 65536)].

Definition base_limits (per_ip_rps : Z) : pydict :=
  [(u "per_ip_rps", VInt per_ip_rps); (u "per_ip_burst", VInt per_ip_rps); (u "global_rps", VInt 100000);
   (u "global_burst", VInt 100000); (u "per_ip_connects_per_second", VInt 1000000);
   (u "per_ip_connect_burst", VInt 1000000); (u "global_connects_per_second", VInt 1000000);
   (u "global_connect_burst", VInt 1000000); (u "max_connections", VInt 20000);
   (u "max_connections_per_ip", VInt 20000); (u "max_in_flight_requests", VInt 20000);
   (u "max_in_flight_requests_per_ip", VInt 20000); (u "max_tracked_ips", VInt 65536)].

Definition static_rule : pyval :=
  VDict [(u "id", VStr (u "bench-static-api-filter")); (u "enabled", VBool true); (u "adaptive", VBool false);
         (u "priority", VInt 200); (u "condition", VDict [(u "path_prefix", VStr (u "/api/"))]);
         (u "action", VDict [(u "kind", VStr (u "block")); (u "status", VInt 403);
                             (u "body", VStr (u "blocked by static filter" ++ [10%N]))])].

Record layer_options := LayerOptions {
  lo_per_ip_rps : Z;
  lo_adaptive_enabled : bool;
  lo_trusted_xff : bool;
  lo_static_filter : bool;
  lo_analyzer : bool;
  lo_learn_observed : bool;
  lo_limit_overrides : pydict }.

(** The limits after both updates of [config["http"]["limits"]]. *)
Definition layer_limits (o : layer_options) : pydict :=
  let limits := base_limits (lo_per_ip_rps o) in
  let limits := if lo_trusted_xff o
                then dset (u "trusted_proxy_burst") (VInt (lo_per_ip_rps o))
                       (dset (u "trusted_proxy_rps") (VInt (lo_per_ip_rps o)) limits)
                else limits in
  dupdate limits (lo_limit_overrides o).

(** The dict [write_config] dumps; [base] is the temporary directory. *)
Definition proxy_config (base : pystr) (proxy_port upstream_port : Z) (signature_threshold : Z) (o : layer_options) : pydict :=
  let filters := base ++ u "/filters-" ++ dec_Z proxy_port ++ u ".json" in
  let events := base ++ u "/events-" ++ dec_Z proxy_port ++ u ".jsonl" in
  let client_ip := VDict [(u "header", VStr (u "x-forwarded-for")); (u "trusted_proxies", VList [VStr (u "127.0.0.1/32")])] in
  [(u "http", VDict
      ([(u "listen", VStr (u "127.0.0.1:" ++ dec_Z proxy_port));
        (u "upstream", VStr (u "http://127.0.0.1:" ++ dec_Z upstream_port));
        (u "preserve_host", VBool true); (u "admin_token", VStr (u "bench-token"));
        (u "downstream_keep_alive", VBool true); (u "limits", VDict (layer_limits o))] ++
       (if lo_trusted_xff o then [(u "client_ip", client_ip)] else [])));
   (u "tcp", VList []);
   (u "filters", VDict [(u "runtime_file", VStr filters); (u "reload_seconds", VInt 1);
                        (u "static_rules", VList (if lo_static_filter o then [static_rule] else []))]);
   (u "adaptive", VDict [(u "enabled", VBool (lo_adaptive_enabled o));
                         (u "signature_threshold_per_second", VInt signature_threshold);
                         (u "activation_ttl_seconds", VInt 20); (u "event_log", VStr events);
                         (u "event_cooldown_seconds", VInt 1)])].

(** The files [write_config] writes, and the three paths it returns. *)
Definition write_config (base : pystr) (proxy_port upstream_port signature_threshold : Z) (o : layer_options) :
    list (pystr * pystr) * (pystr * pystr * pystr) :=
  let filters := base ++ u "/filters-" ++ dec_Z proxy_port ++ u ".json" in
  let events := base ++ u "/events-" ++ dec_Z proxy_port ++ u ".jsonl" in
  let path := base ++ u "/config-" ++ dec_Z proxy_port ++ u ".json" in
  ([(filters, uq "{'filters': []}" ++ [10%N]);
    (path, dumps default_style (VDict (proxy_config base proxy_port upstream_port signature_threshold o)))],
   (path, filters, events)).

(** The analyzer's command line. *)
Definition start_analyzer (a : bench_args) (python tools_dir events filters : pystr) (learn_observed : bool) : list pystr :=
  [python; tools_dir ++ u "/codexsdgate.py"; u "--events"; events; u "--filters"; filters; u "--provider"; ba_provider a;
   u "--interval"; u "1"; u "--min-count"; u "1"; u "--ttl-seconds"; u "20"] ++
  (if ba_no_codex a then [u "--no-codex"] else []) ++ (if learn_observed then [u "--learn-observed"] else []).

(** ** Metrics *)

(** The loop of [fetch_metrics] over the body of a 200 answer. *)
Definition metric_line (metrics : list (pystr * float)) (line : pystr) : list (pystr * float) :=
  if str_eqb line [] || starts_with (u "#") line then metrics
  else match split_ws line with
       | [name; value] => match float_of_str (repr_str value) value with Ok f => dset name f metrics | Raise _ => metrics end
       | _ => metrics
       end.

Definition parse_metrics (body : pystr) : list (pystr * float) := foldl metric_line [] (splitlines body).

Definition selected_metrics_delta (before after : list (pystr * float)) : res pydict :=
  mapR (fun key => let* d := Z_of_float (fsub (default f0 (dget key after)) (default f0 (dget key before))) in
                   Ok (key, VInt d)) DEFENSE_METRIC_KEYS.

(** ** Files written while a layer runs *)

Definition dict_items (l : list pyval) : list pydict := omap (fun v => match v with VDict d => Some d | _ => None end) l.

Definition read_filters (text : res pystr) : res (list pydict) :=
  match (let* t := text in loads t) with
  | Raise e => if is_exception e then Ok [] else Raise e
  | Ok data =>
      let filters := match data with VDict d => default (VList []) (dget (u "filters") d) | _ => VList [] end in
      let* items := py_iter filters in Ok (dict_items items)
  end.

(** One poll of [wait_for_filters]: the clock at the loop test, the file, and the
    clock after reading. *)
Record poll := Poll { po_now : float; po_file : res pystr; po_after : float }.

Fixpoint wait_for_filters (started deadline : float) (polls : list poll) : res (list pydict * option float) :=
  match polls with
  | [] => Ok ([], None)
  | p :: rest =>
      if negb (fltb (po_now p) deadline) then Ok ([], None)
      else let* filters := read_filters (po_file p) in
           match filters with
           | [] => wait_for_filters started deadline rest
           | _ => Ok (filters, Some (fsub (po_after p) started))
           end
  end.

Definition bench_event (line : pystr) : res (option pydict) :=
  if str_eqb (strip line) [] then Ok None
  else match loads line with
       | Ok (VDict d) => Ok (Some d)
       | Ok _ => Ok None
       | Raise e => if is_exception e then Ok None else Raise e
       end.

(** [None] when the log does not exist. *)
Definition read_bench_events (text : option pystr) : res (list pydict) :=
  match text with
  | None => Ok []
  | Some t => let* l := mapR bench_event (splitlines t) in Ok (omap id l)
  end.

(** [isinstance(ts, int)] holds for booleans too. *)
Definition event_basis (bases : list (pystr * pystr)) (event : pydict) : list (pystr * pystr) :=
  match or_none (dget (u "signature") event), or_none (dget (u "signature_basis") event) with
  | VStr s, VStr b => dsetdefault s b bases
  | _, _ => bases
  end.

Definition signature_bases (events : list pydict) : list (pystr * pystr) := foldl event_basis [] events.

Definition first_detection (start_unix_ms : Z) (first : option float) (event : pydict) : res (option float) :=
  match int_value (or_none (dget (u "ts_unix_ms") event)) with
  | Some ts =>
      if (start_unix_ms <=? ts)%Z then
        let* delta := int_truediv (ts - start_unix_ms) 1000 in
        Ok (Some (match first with None => delta | Some f => fmin f delta end))
      else Ok first
  | None => Ok first
  end.

Definition count_reason (reasons : list (pystr * Z)) (event : pydict) : list (pystr * Z) :=
  let reason := py_str (or_none (dget (u "reason") event)) in
  dset reason (default 0%Z (dget reason reasons) + 1)%Z reasons.

Definition event_signatures (events : list pydict) : list pystr :=
  remove_dups (omap (fun e => let s := or_none (dget (u "signature") e) in if truthy s then Some (py_str s) else None) events).

Definition summarize_events (events : list pydict) (start_unix_ms : Z) : res pydict :=
  let* first := foldM (first_detection start_unix_ms) None events in
  Ok [(u "count", VInt (Z.of_nat (length events)));
      (u "reasons", VDict ((fun kv => (kv.1, VInt kv.2)) <$> py_sorted by_key (foldl count_reason [] events)));
      (u "unique_signatures", VInt (Z.of_nat (length (event_signatures events))));
      (u "first_detection_seconds", rounded_or_none 3 first);
      (u "signature_bases", VDict ((fun kv => (kv.1, VStr kv.2)) <$> py_sorted by_key (signature_bases events)))].

(** ** Interpreting learned filters *)

Definition has_truthy (condition : pydict) (key : pystr) : bool := truthy (or_none (dget key condition)).

Definition kind_and_precision (condition : pydict) (signature : pyval) (basis : option pystr) : pystr * pystr :=
  match signature with
  | VStr _ =>
      let normalized := match basis with
                        | Some ((_ :: _) as b) => existsb (fun token => contains token b) [u ":num"; u ":uuid"; u ":hex"; u "cachebust,id"]
                        | _ => false
                        end in
      if normalized then (u "normalized_signature", u "pattern") else (u "exact_signature", u "exact_request_shape")
  | _ =>
      if has_truthy condition (u "path_exact") then (u "exact_path", u "narrow")
      else if has_truthy condition (u "path_shape") then (u "path_shape", u "pattern")
      else if has_truthy condition (u "path_prefix") || has_truthy condition (u "path_contains") then (u "path_pattern", u "medium")
      else match condition with
           | [] => (u "empty_condition", u "unsafe_broad")
           | _ => (u "compound_condition", u "condition_based")
           end
  end.

Definition interpret_filter (bases : list (pystr * pystr)) (item : pydict) : pydict :=
  let condition := match or_none (dget (u "condition") item) with VDict d => d | _ => [] end in
  let signature := or_none (dget (u "signature") condition) in
  let basis := match signature with VStr s => dget s bases | _ => None end in
  let '(kind, precision) := kind_and_precision condition signature basis in
  [(u "id", or_none (dget (u "id") item)); (u "kind", VStr kind); (u "precision", VStr precision);
   (u "condition_keys", VList (VStr <$> py_sorted str_leb (dkeys condition)));
   (u "signature", signature); (u "signature_basis", text_or_none basis);
   (u "not_ip_based", VBool (negb (dmem (u "client_ip") condition) && negb (dmem (u "ip") condition)));
   (u "adaptive", VBool (truthy (or_none (dget (u "adaptive") item))))].

Definition interpret_filters (filters events : list pydict) : list pydict :=
  interpret_filter (signature_bases events) <$> filters.

(** ** A layer *)

(** What the outside did while a layer ran. *)
Record layer_io := LayerIO {
  li_start : nat -> Z * option pystr;   (** per attempt: the port, and the text of a start-up error *)
  li_before : res pystr;                (** [fetch_metrics]: the answer's body *)
  li_after : res pystr;
  li_collect : PhaseResult;
  li_replay : PhaseResult;
  li_bypass : PhaseResult;
  li_started : float;                   (** [collect_started_mono] *)
  li_started_ms : Z;
  li_deadline : float;
  li_polls : list poll;
  li_events : option pystr;
  li_log : option pystr }.

(** [for attempt in range(1, 4)] with [more] attempts left after this one. *)
Fixpoint start_attempts (start : nat -> Z * option pystr) (attempt more : nat) (startup_errors : list pystr) : res Z :=
  let '(port, failed) := start attempt in
  match failed with
  | None => Ok port
  | Some err =>
      let startup_errors := startup_errors ++ [u "attempt " ++ dec_nat attempt ++ u ": " ++ err] in
      match more with
      | O => Raise (Exn RuntimeError (u "proxy did not become ready after 3 attempts" ++ [10%N] ++ join [10%N] startup_errors))
      | S more => start_attempts start (S attempt) more startup_errors
      end
  end.

Definition try_fetch_metrics (m : res pystr) : res (list (pystr * float) * option pystr) :=
  match m with
  | Ok body => Ok (parse_metrics body, None)
  | Raise e => if bool_decide (exn_class e = RuntimeError) then Ok ([], Some (exn_msg e)) else Raise e
  end.

Definition metrics_error (when_ : pystr) (err : option pystr) : list pyval :=
  match err with Some text => [VStr (when_ ++ u ": " ++ text)] | None => [] end.

Definition optional_summary (r : option PhaseResult) : res pyval :=
  match r with Some r => let* s := summarize_phase r in Ok (VDict s) | None => Ok VNone end.

(** The result of a layer, from what was measured. *)
Definition layer_payload (scenario layer : pystr) (o : layer_options) (before after : list (pystr * float) * option pystr)
    (collect : PhaseResult) (replay : option PhaseResult) (bypass : PhaseResult) (started_ms : Z) (filters : list pydict)
    (filter_write_seconds : option float) (events : list pydict) (analyzer_tail : list pystr) : res pydict :=
  let* collect_summary := summarize_phase collect in
  let* replay_summary := optional_summary replay in
  let* bypass_summary := summarize_phase bypass in
  let* event_summary := summarize_events events started_ms in
  let* delta := selected_metrics_delta before.1 after.1 in
  let* score := target_score replay (Some bypass) in
  let* effective := target_score (Some (default collect replay)) (Some bypass) in
  Ok [(u "layer", VStr layer); (u "trusted_xff", VBool (lo_trusted_xff o)); (u "learn_observed", VBool (lo_learn_observed o));
      (u "collect", VDict collect_summary); (u "replay", replay_summary); (u "bypass_probe", VDict bypass_summary);
      (u "events", VDict event_summary); (u "metrics_delta", VDict delta);
      (u "metrics_errors", VList (metrics_error (u "before") before.2 ++ metrics_error (u "after") after.2));
      (u "filters_learned", VInt (Z.of_nat (length filters)));
      (u "filter_write_seconds", rounded_or_none 3 filter_write_seconds);
      (u "learned_filters", VList (VDict <$> filters));
      (u "filter_interpretation", VList (VDict <$> interpret_filters filters events));
      (u "analyzer_log_tail", VList (VStr <$> analyzer_tail));
      (u "target_score", VDict score); (u "effective_target_score", VDict effective);
      (u "scenario_description", VStr (scenario_description scenario))].

Definition run_proxy_layer (scenario layer : pystr) (o : layer_options) (io : layer_io) : res pydict :=
  let* _ := start_attempts (li_start io) 1 2 [] in
  let* before := try_fetch_metrics (li_before io) in
  let* found := if lo_analyzer o then wait_for_filters (li_started io) (li_deadline io) (li_polls io) else Ok ([], None) in
  let '(filters, filter_write_seconds) := found in
  let* events := read_bench_events (li_events io) in
  let analyzer_tail := match li_log io with Some text => last_n 8 (splitlines text) | None => [] end in
  let* after := try_fetch_metrics (li_after io) in
  layer_payload scenario layer o before after (li_collect io) (if lo_analyzer o then Some (li_replay io) else None) (li_bypass io)
    (li_started_ms io) filters filter_write_seconds events analyzer_tail.

(** ** A scenario *)

Record scenario_io := ScenarioIO { si_direct : PhaseResult; si_layer : pystr -> layer_io }.

Definition high_rps : Z := 1000000.
Definition open_limit_overrides : pydict := high_request_limit_overrides high_rps.
Definition path_shape_limit_overrides (a : bench_args) : pydict :=
  dset (u "path_shape_burst") (VInt (ba_path_shape_rps a))
    (dset (u "path_shape_rps") (VInt (ba_path_shape_rps a)) open_limit_overrides).

(** The proxy layers of a scenario: key, layer name and options, in order. *)
Definition scenario_layers (a : bench_args) (scenario : pystr) : list (pystr * pystr * layer_options) :=
  let trust := scenario_needs_xff_trust scenario in
  [(u "proxy_open", u "proxy-open", LayerOptions high_rps false trust false false false open_limit_overrides);
   (u "rate_limit", u "rate-limit", LayerOptions (ba_per_ip_rps a) true trust false false false []);
   (u "path_shape_rate_limit", u "path-shape-rate-limit",
    LayerOptions high_rps true trust false false false (path_shape_limit_overrides a));
   (u "static_filter", u "static-filter", LayerOptions high_rps true trust true false false open_limit_overrides);
   (u "learned_filter_strict", u "learned-strict", LayerOptions (ba_per_ip_rps a) true trust false true false [])] ++
  (if scenario_runs_observed_learning scenario
   then [(u "learned_filter_observed", u "learned-observed", LayerOptions (ba_per_ip_rps a) true trust false true true [])]
   else []).

Definition run_scenario (a : bench_args) (io : scenario_io) (scenario : pystr) : res pydict :=
  let* direct := summarize_phase (si_direct io) in
  let* layers := mapR (fun item => let '(key, layer, o) := item in
                         let* payload := run_proxy_layer scenario layer o (si_layer io layer) in
                         Ok (key, VDict payload)) (scenario_layers a scenario) in
  Ok ((u "direct_upstream", VDict direct) :: layers).

(** ** The report *)

Definition safety_text : pystr :=
  u "loopback-only; spoof cases use X-Forwarded-For headers from trusted localhost, not packet spoofing".

(** What [main] reads besides its options. *)
Record bench_world := BenchWorld {
  bw_binary_exists : bool;
  bw_now : utc_time;
  bw_git : pystr -> list pystr -> option (Z * pystr);
  bw_cwd : pystr;
  bw_tmp : pystr;
  bw_scenario : pystr -> scenario_io }.

(** [report["scenarios"][scenario] = ...] for each scenario in turn. *)
Definition run_scenarios (a : bench_args) (w : bench_world) (scenarios : list pystr) : res pydict :=
  foldM (fun done scenario => let* r := run_scenario a (bw_scenario w scenario) scenario in
                              Ok (dset scenario (VDict r) done)) [] scenarios.

Definition report_of (a : bench_args) (w : bench_world) (scenarios : pydict) : pydict :=
  [(u "generated_at_utc", VStr (generated_at_utc (bw_now w)));
   (u "provider", VStr (if ba_no_codex a then u "deterministic" else ba_provider a));
   (u "preset", VStr (match ba_preset a with Some ((_ :: _) as p) => p | _ => u "custom" end));
   (u "source_tree", VDict (source_tree_metadata (bw_git w) (bw_cwd w)));
   (u "workdir", VStr (bw_tmp w)); (u "duration_seconds", VFloat (ba_duration a)); (u "workers", VInt (ba_workers a));
   (u "analyzer_wait_seconds", VFloat (ba_analyzer_wait a)); (u "per_ip_rps", VInt (ba_per_ip_rps a));
   (u "path_shape_rps", VInt (ba_path_shape_rps a));
   (u "signature_threshold_per_second", VInt (ba_signature_threshold a));
   (u "safety", VStr safety_text); (u "scenarios", VDict scenarios)].

(** [main] up to the report: the two [SystemExit]s, then the scenarios. *)
Definition bench_report (a : bench_args) (w : bench_world) : res pydict :=
  if negb (bw_binary_exists w) then
    Raise (Exn SystemExit (u "binary not found: " ++ ba_binary a ++ u "; run cargo build --release first"))
  else
    let scenarios := resolve_scenarios (ba_preset a) (ba_scenarios a) in
    match filter (fun item => one_of item KNOWN_SCENARIOS = false) scenarios with
    | [] => let* results := run_scenarios a w scenarios in Ok (report_of a w results)
    | unknown => Raise (Exn SystemExit (u "unknown scenarios: " ++ join (u ", ") unknown))
    end.

(** ** The printed table *)

Definition rjust (width : nat) (s : pystr) : pystr := replicate (width - length s) 32%N ++ s.
Definition ljust (width : nat) (s : pystr) : pystr := s ++ replicate (width - length s) 32%N.

(** [f"{x:.2f}"] *)
Definition fixed_2 (x : float) : pystr :=
  match x with
  | S754_nan => u "nan"
  | S754_infinity s => (if s then u "-" else []) ++ u "inf"
  | _ => let '(n, d) := float_fraction x in
         let q := Z.abs (round_half_even (n * 100) d) in
         (if float_neg x then u "-" else []) ++ dec_Z (q / 100) ++ u "." ++ pad2 (q mod 100)
  end.

(** [f"{v:>6.2f}"] *)
Definition percent_text (v : pyval) : res pystr :=
  match v with
  | VInt _ | VFloat _ | VBool _ => let* f := py_float v in Ok (rjust 6 (fixed_2 f))
  | _ => Raise (Exn TypeError (u "unsupported format string"))
  end.

Definition or_zero (d : pydict) (key : pystr) : pyval := default (VInt 0) (dget key d).

(** The phase a layer is judged by: [layer.get("replay") or layer.get("collect") or {}]. *)
Definition judged_phase (layer : pydict) : pydict :=
  let pick v := match v with VDict ((_ :: _) as d) => Some d | _ => None end in
  match pick (or_none (dget (u "replay") layer)) with
  | Some d => d
  | None => default [] (pick (or_none (dget (u "collect") layer)))
  end.

Definition layer_line (layer : pydict) : res pystr :=
  let phase := judged_phase layer in
  let* allowed := percent_text (or_zero phase (u "allowed_percent")) in
  let* blocked := percent_text (or_zero phase (u "blocked_percent")) in
  let* limited := percent_text (or_zero phase (u "limited_percent")) in
  Ok (u "allowed=" ++ allowed ++ u "% blocked=" ++ blocked ++ u "% limited=" ++ limited ++ u "% rps=" ++
      py_str (or_zero phase (u "requests_per_second"))).

(** [d[key]] *)
Definition index (d : pydict) (key : pystr) : res pyval :=
  match dget key d with Some v => Ok v | None => Raise (Exn KeyError (repr_str key)) end.

Definition index_dict (d : pydict) (key : pystr) : res pydict :=
  let* v := index d key in
  match v with VDict e => Ok e | _ => Raise (Exn TypeError (u "object is not subscriptable")) end.

Definition TABLE_LAYERS : list pystr :=
  [u "proxy_open"; u "rate_limit"; u "path_shape_rate_limit"; u "static_filter"; u "learned_filter_strict";
   u "learned_filter_observed"].

Definition text_of (d : pydict) (key : pystr) : pystr := py_str (or_none (dget key d)).

Definition filter_line (item : pydict) : pystr :=
  ljust 19 (u "filter") ++ u " kind=" ++ text_of item (u "kind") ++ u " precision=" ++ text_of item (u "precision") ++
  u " basis=" ++ text_of item (u "signature_basis").

Definition layer_rows (data : pydict) (key : pystr) : res (list pystr) :=
  match dget key data with
  | None => Ok []
  | Some (VDict layer) =>
      let events := match dget (u "events") layer with Some (VDict e) => e | _ => [] end in
      let* score := layer_line layer in
      let head := ljust 19 key ++ u " " ++ score ++ u " detect=" ++ text_of events (u "first_detection_seconds") ++
                  u "s filters=" ++ text_of layer (u "filters_learned") ++ u " write=" ++
                  text_of layer (u "filter_write_seconds") ++ u "s" in
      let filters := match dget (u "filter_interpretation") layer with Some (VList l) => dict_items l | _ => [] end in
      match or_none (dget (u "bypass_probe") layer) with
      | VDict ((_ :: _) as bypass) =>
          let* va := index bypass (u "allowed_percent") in
          let* allowed := percent_text va in
          let* vb := index bypass (u "blocked_percent") in
          let* blocked := percent_text vb in
          let* rps := index bypass (u "requests_per_second") in
          Ok (head :: (filter_line <$> filters) ++
              [ljust 19 (u "bypass_probe") ++ u " allowed=" ++ allowed ++ u "% blocked=" ++ blocked ++ u "% rps=" ++ py_str rps])
      | _ => Ok (head :: (filter_line <$> filters))
      end
  | Some _ => Raise (Exn AttributeError (u "object has no attribute 'get'"))
  end.

Definition scenario_rows (scenario : pystr) (data : pydict) : res (list pystr) :=
  let* direct := index_dict data (u "direct_upstream") in
  let* va := index direct (u "allowed_percent") in
  let* allowed := percent_text va in
  let* rps := index direct (u "requests_per_second") in
  let* rows := mapR (layer_rows data) TABLE_LAYERS in
  Ok ([[10%N] ++ u "[" ++ scenario ++ u "]"; u "direct_upstream     allowed=" ++ allowed ++ u "% rps=" ++ py_str rps] ++
      mjoin rows).

(** The lines [print_table] prints for the report of [bench_report]. *)
Definition print_table (report : pydict) : res (list pystr) :=
  let* provider := index report (u "provider") in
  let* workdir := index report (u "workdir") in
  let* scenarios := index_dict report (u "scenarios") in
  let* rows := mapR (fun kv => match kv.2 with VDict d => scenario_rows kv.1 d
                               | _ => Raise (Exn TypeError (u "object is not subscriptable")) end) scenarios in
  Ok ([[10%N] ++ u "AlturaProt local defense benchmark"; u "provider=" ++ py_str provider ++ u " workdir=" ++ py_str workdir] ++
      mjoin rows).

(** [main]: everything it prints. *)
Definition bench_main (a : bench_args) (w : bench_world) : res (list pystr) :=
  let* report := bench_report a w in
  let* table := if ba_json_only a then Ok [] else print_table report in
  Ok (table ++ [dumps pretty_style (VDict report)]).

(** ** The report has the structure the gate expects *)

(** The names the release check passes to the gate. *)
Definition ci_common_layers : option (list pystr) :=
  parse_name_set (Some (u "direct_upstream,proxy_open,rate_limit,path_shape_rate_limit,static_filter,learned_filter_strict")).
Definition ci_observed : option (list pystr) :=
  parse_name_set (Some (u "smart-api-mix,xff-single,xff-rotating,xff-polymorphic,catalog-mimic-xff,dictionary-slug-xff,hex-slug-xff,v2-polymorphic-xff,method-spray-xff,accept-spray-xff,legit-interleave-xff,slow-xff-polymorphic,mozilla-polymorphic-xff")).
Definition ci_scenarios : option (list pystr) :=
  parse_name_set (Some (u "basic,cachebuster,rotating-path,uuid-path,mixed-user-agent,smart-api-mix,xff-single,xff-rotating,xff-polymorphic,catalog-mimic-xff,dictionary-slug-xff,hex-slug-xff,v2-polymorphic-xff,method-spray-xff,accept-spray-xff,legit-interleave-xff,slow-xff-polymorphic,mozilla-polymorphic-xff")).

Lemma set_difference_nil t1 t2 l1 l2 : (forall x, x ∈ l1 <-> x ∈ l2) -> set_difference_errors t1 t2 l1 l2 = [].
Proof.
  intros H. unfold set_difference_errors.
  assert (Hm : forall a b, (forall x, x ∈ a -> x ∈ b) -> sorted_names (set_minus a b) = []).
  { intros a b Hab. unfold sorted_names. apply py_sorted_nil. unfold set_minus.
    destruct (filter (fun x => x ∉ b) a) as [|x l] eqn:E; [done|].
    assert (Hx : x ∈ filter (fun x => x ∉ b) a) by (rewrite E; apply elem_of_cons; by left).
    apply list_elem_of_filter in Hx as [Hn Hin]. by destruct (Hn (Hab x Hin)). }
  rewrite !Hm; [done|..]; intros x; apply H.
Qed.

Lemma run_scenario_layers a io scenario d : run_scenario a io scenario = Ok d ->
  dkeys d = u "direct_upstream" :: (scenario_layers a scenario).*1.*1 /\
  forall key v, (key, v) ∈ d -> key = u "direct_upstream" \/
    exists layer o payload, (key, layer, o) ∈ scenario_layers a scenario /\ v = VDict payload /\
      run_proxy_layer scenario layer o (si_layer io layer) = Ok payload.
Proof.
  intros H. unfold run_scenario in H. apply bind_ok in H as (direct & _ & H). apply bind_ok in H as (layers & Hl & [= <-]).
  apply mapR_ok in Hl. split.
  - cbn [dkeys fmap list_fmap fst]. f_equal. induction Hl as [|[[key layer] o] [k v] l ls Hx _ IH]; [done|].
    apply bind_ok in Hx as (payload & _ & [= <- <-]). cbn. by rewrite <-IH.
  - intros key v Hin. apply elem_of_cons in Hin as [[= -> ->]|Hin]; [by left|]. right.
    induction Hl as [|[[k layer] o] [k' v'] l ls Hx _ IH]; [by apply not_elem_of_nil in Hin|].
    apply bind_ok in Hx as (payload & Hp & [= <- <-]). apply elem_of_cons in Hin as [[= -> ->]|Hin].
    + exists layer, o, payload. split; [apply elem_of_cons; by left|done].
    + destruct (IH Hin) as (layer' & o' & p' & Hi & Hrest). exists layer', o', p'. split; [apply elem_of_cons; by right|done].
Qed.

Lemma run_scenarios_ok a w l d : run_scenarios a w l = Ok d -> NoDup l ->
  dkeys d = l /\ forall s v, (s, v) ∈ d -> exists r, v = VDict r /\ run_scenario a (bw_scenario w s) s = Ok r.
Proof.
  unfold run_scenarios. intros H Hnd.
  assert (Hgen : forall l done d, foldM (fun done scenario => let* r := run_scenario a (bw_scenario w scenario) scenario in
                     Ok (dset scenario (VDict r) done)) done l = Ok d ->
            NoDup (dkeys done ++ l) ->
            (forall s v, (s, v) ∈ done -> exists r, v = VDict r /\ run_scenario a (bw_scenario w s) s = Ok r) ->
            dkeys d = dkeys done ++ l /\
            forall s v, (s, v) ∈ d -> exists r, v = VDict r /\ run_scenario a (bw_scenario w s) s = Ok r).
  { clear. intros l. induction l as [|s l IH]; intros done d H Hnd Hdone; cbn [foldM] in H.
    - injection H as <-. by rewrite app_nil_r.
    - apply bind_ok in H as (done' & Hs & H). apply bind_ok in Hs as (r & Hr & [= <-]).
      assert (Hni : s ∉ dkeys done) by (apply NoDup_app in Hnd as (_ & Hd & _); intros Hin; apply (Hd s Hin); apply elem_of_cons; by left).
      rewrite (dset_not_mem s (VDict r) done Hni) in H. assert (Hk : dkeys (done ++ [(s, VDict r)]) = dkeys done ++ [s])
        by (unfold dkeys; by rewrite fmap_app).
      destruct (IH _ _ H) as [Hkeys Hall].
      + rewrite Hk, <-app_assoc. exact Hnd.
      + intros s' v [Hin|Hin]%elem_of_app; [by apply Hdone|]. apply list_elem_of_singleton in Hin as [= -> ->]. by exists r.
      + split; [|done]. by rewrite Hkeys, Hk, <-app_assoc. }
  destruct (Hgen l [] d H) as [H1 H2]; [done| |done]. intros s v Hin. by apply not_elem_of_nil in Hin.
Qed.

Definition layer_plausible (io : layer_io) : Prop :=
  plausible (li_collect io) /\ plausible (li_replay io) /\ plausible (li_bypass io).

Lemma layer_scored scenario layer o io payload name : layer_plausible io -> run_proxy_layer scenario layer o io = Ok payload ->
  exists score, layer_score payload = Some score /\ score_consistency_errors scenario name score = Ok [] /\
    measured_benign_errors scenario name score = Ok [].
Proof.
  intros (Hc & Hr & Hb) H. unfold run_proxy_layer in H.
  apply bind_ok in H as (port & _ & H). apply bind_ok in H as (before & _ & H). apply bind_ok in H as ([filters secs] & _ & H).
  apply bind_ok in H as (events & _ & H). apply bind_ok in H as (after & _ & H). unfold layer_payload in H.
  apply bind_ok in H as (cs & _ & H).
  apply bind_ok in H as (rs & _ & H). apply bind_ok in H as (bs & _ & H). apply bind_ok in H as (es & _ & H).
  apply bind_ok in H as (delta & _ & H). apply bind_ok in H as (score & _ & H). apply bind_ok in H as (effective & He & H).
  injection H as <-. exists effective. split; [reflexivity|].
  destruct (target_score_checked (Some (default (li_collect io) (if lo_analyzer o then Some (li_replay io) else None)))
    (Some (li_bypass io)) scenario name) as (score' & Hs & Hok & Hm); [by destruct (lo_analyzer o)|done|].
  rewrite He in Hs. injection Hs as <-. split; [done|]. by apply Hm.
Qed.

Lemma layer_names a scenario :
  (scenario_layers a scenario).*1.*1 =
  [u "proxy_open"; u "rate_limit"; u "path_shape_rate_limit"; u "static_filter"; u "learned_filter_strict"] ++
  (if scenario_runs_observed_learning scenario then [observed_layer] else []).
Proof. unfold scenario_layers. by destruct (scenario_runs_observed_learning scenario). Qed.

(** The observed-learning scenarios of the check are those the runner adds the layer for. *)
Lemma observed_known scenario : scenario ∈ KNOWN_SCENARIOS ->
  exists names, ci_observed = Some names /\ mem scenario names = scenario_runs_observed_learning scenario.
Proof.
  intros H. destruct ci_observed as [names|] eqn:E; [|done]. exists names. split; [done|].
  assert (Hall : forallb (fun s => Bool.eqb (mem s (default [] ci_observed)) (scenario_runs_observed_learning s)) KNOWN_SCENARIOS = true)
    by (vm_compute; reflexivity).
  rewrite forallb_forall in Hall. rewrite E in Hall. apply eqb_prop, Hall. by apply list_elem_of_In.
Qed.

Lemma layer_names_accepted a io scenario d : scenario ∈ KNOWN_SCENARIOS -> run_scenario a io scenario = Ok d ->
  layer_name_errors scenario d ci_common_layers ci_observed = [].
Proof.
  intros Hk Hd. destruct (run_scenario_layers _ _ _ _ Hd) as [Hkeys _]. rewrite layer_names in Hkeys.
  destruct (observed_known scenario Hk) as (names & Hn & Hm). unfold layer_name_errors. rewrite Hn, Hkeys, Hm.
  destruct (scenario_runs_observed_learning scenario).
  all: match goal with |- context [match ci_common_layers with _ => _ end] =>
    let c := eval vm_compute in ci_common_layers in change ci_common_layers with c end.
  all: cbv beta iota zeta; apply set_difference_nil; intros x.
  all: match goal with |- ?y ∈ ?l <-> _ ∈ ?r => let a := eval vm_compute in l in let b := eval vm_compute in r in
         change (y ∈ a <-> y ∈ b) end; done.
Qed.

Lemma has_observed a io scenario d : scenario ∈ KNOWN_SCENARIOS -> run_scenario a io scenario = Ok d ->
  dmem observed_layer d = scenario_runs_observed_learning scenario.
Proof.
  intros Hk Hd. destruct (run_scenario_layers _ _ _ _ Hd) as [Hkeys _]. rewrite layer_names in Hkeys.
  assert (Hm : dmem observed_layer d = existsb (str_eqb observed_layer) (dkeys d)).
  { clear. unfold dmem. induction d as [|[k v] d IH]; [done|]. cbn. by destruct (str_eqb observed_layer k). }
  rewrite Hm, Hkeys. by destruct (scenario_runs_observed_learning scenario).
Qed.

Lemma observed_names a w d : run_scenarios a w KNOWN_SCENARIOS = Ok d ->
  observed_learning_scenario_errors d ci_observed = [].
Proof.
  intros H. assert (Hnd : NoDup KNOWN_SCENARIOS) by (apply (bool_decide_unpack _); vm_compute; exact I).
  destruct (run_scenarios_ok _ _ _ _ H Hnd) as [Hkeys Hall]. unfold observed_learning_scenario_errors.
  assert (Hf : (filter (fun kv => has_observed_layer kv = true) d).*1 = filter (fun s => scenario_runs_observed_learning s = true) (dkeys d)).
  { assert (Hin : forall s v, (s, v) ∈ d -> has_observed_layer (s, v) = scenario_runs_observed_learning s).
    { intros s v Hin. destruct (Hall s v Hin) as (r & -> & Hr). cbn [has_observed_layer snd].
      apply (has_observed a (bw_scenario w s) s r); [|done]. rewrite <-Hkeys. by apply (list_elem_of_fmap_2 fst d (s, VDict r)). }
    revert Hin. clear. induction d as [|[s v] d IH]; intros Hin; [done|]. cbn [dkeys fmap list_fmap fst].
    rewrite !filter_cons, (Hin s v) by (apply elem_of_cons; by left).
    assert (IH' := IH (fun s' v' H => Hin s' v' (proj2 (elem_of_cons _ _ _) (or_intror H)))).
    case_decide; cbn [fmap list_fmap fst]; rewrite IH'; done. }
  rewrite Hf, Hkeys. destruct ci_observed as [[|n ns]|] eqn:E; [done| |done]. apply set_difference_nil.
  assert (Heq : filter (fun s => scenario_runs_observed_learning s = true) KNOWN_SCENARIOS = default [] ci_observed) by (vm_compute; reflexivity).
  rewrite Heq, E. done.
Qed.

Lemma scenario_names a w d : run_scenarios a w KNOWN_SCENARIOS = Ok d -> scenario_name_errors d ci_scenarios = [].
Proof.
  intros H. assert (Hnd : NoDup KNOWN_SCENARIOS) by (apply (bool_decide_unpack _); vm_compute; exact I).
  destruct (run_scenarios_ok _ _ _ _ H Hnd) as [Hkeys _]. unfold scenario_name_errors. rewrite Hkeys.
  assert (Heq : ci_scenarios = Some KNOWN_SCENARIOS) by (vm_compute; reflexivity). rewrite Heq. by apply set_difference_nil.
Qed.

(** C20. The runner and the release check fit together: the report of a run of all
    scenarios states its loopback safety and has exactly the scenario names, the
    observed-learning scenarios and the layer names the check demands, and every
    layer the gate scores has a consistent score with measured benign traffic, so
    only what the traffic showed can make the gate fail. *)
Theorem ci_report_structure a w report :
  ba_preset a = Some (u "all") ->
  (forall scenario layer, layer_plausible (si_layer (bw_scenario w scenario) layer)) ->
  bench_report a w = Ok report ->
  exists scenarios, dget (u "scenarios") report = Some (VDict scenarios) /\ safety_errors report = [] /\
    scenario_name_errors scenarios ci_scenarios = [] /\ observed_learning_scenario_errors scenarios ci_observed = [] /\
    forall scenario data, (scenario, data) ∈ scenarios -> exists layers, data = VDict layers /\
      layer_name_errors scenario layers ci_common_layers ci_observed = [] /\
      forall layer payload, (layer, payload) ∈ layers -> layer ∉ UNSCORED_LAYERS ->
        exists p score, payload = VDict p /\ layer_score p = Some score /\
          score_consistency_errors scenario layer score = Ok [] /\ measured_benign_errors scenario layer score = Ok [].
Proof.
  intros Hp Hio H. unfold bench_report in H. destruct (bw_binary_exists w); [|done]. cbn [negb] in H.
  rewrite Hp in H. change (resolve_scenarios (Some (u "all")) (ba_scenarios a)) with KNOWN_SCENARIOS in H.
  assert (Hk : filter (fun item => one_of item KNOWN_SCENARIOS = false) KNOWN_SCENARIOS = []) by (vm_compute; reflexivity).
  rewrite Hk in H. apply bind_ok in H as (scenarios & Hs & H). apply Ok_inj in H as <-. exists scenarios.
  assert (Hnd : NoDup KNOWN_SCENARIOS) by (apply (bool_decide_unpack _); vm_compute; exact I).
  destruct (run_scenarios_ok _ _ _ _ Hs Hnd) as [Hkeys Hall].
  split; [reflexivity|]. split; [vm_compute; reflexivity|]. split; [by eapply scenario_names|]. split; [by eapply observed_names|].
  intros s data Hin. destruct (Hall s data Hin) as (layers & -> & Hr). exists layers. split; [done|].
  assert (Hks : s ∈ KNOWN_SCENARIOS) by (rewrite <-Hkeys; by apply (list_elem_of_fmap_2 fst scenarios (s, VDict layers))).
  split; [by eapply layer_names_accepted|]. intros layer payload Hl Hun.
  destruct (run_scenario_layers _ _ _ _ Hr) as [_ Hlay].
  destruct (Hlay layer payload Hl) as [->|(name & o & p & _ & -> & Hrun)].
  - destruct Hun. unfold UNSCORED_LAYERS. apply list_elem_of_singleton. done.
  - destruct (layer_scored _ _ _ _ _ layer (Hio s name) Hrun) as (score & Hsc & H1 & H2). by exists p, score.
Qed.

(** ** A sample run *)

Definition sample_layer_io : layer_io :=
  LayerIO (fun _ => (40000%Z, None)) (Ok (u "altura_http_blocked 1")) (Ok (u "altura_http_blocked 4"))
    (sample_local 0) (sample_local 0) (sample_local 0) f0 0 f90 [] None None.

Definition sample_bench_world : bench_world :=
  BenchWorld true (Utc 2026 6 22 10 0 0) (fun _ _ => None) (u "/repo") (u "/tmp/b")
    (fun _ => ScenarioIO (sample_local 0) (fun _ => sample_layer_io)).

Definition all_args : bench_args :=
  BenchArgs (u "altura-prot") (u "codex") true f90 8 f90 80 80 60 [] (Some (u "all")) true.

Lemma ci_report_structure_witness :
  exists report scenarios, bench_report all_args sample_bench_world = Ok report /\
    dget (u "scenarios") report = Some (VDict scenarios) /\ scenario_name_errors scenarios ci_scenarios = [].
Proof.
  assert (E : is_ok (bench_report all_args sample_bench_world) = true) by (vm_compute; reflexivity).
  destruct (bench_report all_args sample_bench_world) as [report|e] eqn:H; [|discriminate E].
  destruct (ci_report_structure all_args sample_bench_world report eq_refl) as (scenarios & Hd & _ & Hn & _).
  - intros s l. split; [exact sample_plausible|]. split; exact sample_plausible.
  - exact H.
  - exists report, scenarios. split; [reflexivity|]. split; [exact Hd|exact Hn].
Defined.
