(* ===== verification/EdgeConfig.v ===== *)
(** * EdgeConfig: addresses, listeners and limits of the proxy configuration

    [tools/validate_edge_templates.py]: [parse_listen] with the standard library's
    [ipaddress.ip_address], the public listeners and their connection caps, the
    largest backlog, and the descriptor budget a configuration needs. *)

From Stdlib Require Import SpecFloat.
From S2P Require Import Prelude Unicode PyStr PyFloat PyVal Json.

(** ** What the validator asks its host *)

Record edge_world := EdgeWorld {
  ew_file : pystr -> option (res pystr);           (** [Path.read_text]; [None]: no such file *)
  ew_service : pystr -> option Z;                  (** [socket.getservbyname(name, "tcp")] *)
  ew_which : pystr -> option pystr;                (** [shutil.which] *)
  ew_run : list pystr -> Z * pystr * pystr;        (** exit status, standard output and error *)
  ew_system : pystr;                               (** [platform.system()] *)
  ew_set_order : list pystr -> list pystr }.       (** the iteration order of a set *)

Definition exists_file (w : edge_world) (p : pystr) : bool := match ew_file w p with Some _ => true | None => false end.

Definition read_text (w : edge_world) (p : pystr) : res pystr :=
  match ew_file w p with
  | Some contents => contents
  | None => Raise (Exn FileNotFoundError (u "[Errno 2] No such file or directory: " ++ repr_str p))
  end.

Definition read_json (w : edge_world) (p : pystr) : res pyval := let* text := read_text w p in loads text.

(** ** [ipaddress.ip_address] *)

Inductive ip := IPv4 (n : N) | IPv6 (n : N).

Definition parse_octet (s : pystr) : option N :=
  match s with
  | [] => None
  | c :: rest =>
      if forallb is_ascii_digit s && (length s <=? 3) && (negb (c =? 48)%N || match rest with [] => true | _ => false end)
      then let n := foldl (fun acc d => 10 * acc + (d - 48))%N 0%N s in if (n <=? 255)%N then Some n else None
      else None
  end.

Definition parse_ipv4 (s : pystr) : option N :=
  match split_on 46 s with
  | [a; b; c; d] =>
      match parse_octet a, parse_octet b, parse_octet c, parse_octet d with
      | Some a, Some b, Some c, Some d => Some (((a * 256 + b) * 256 + c) * 256 + d)%N
      | _, _, _, _ => None
      end
  | _ => None
  end.

Definition hextet_digit (c : N) : option N :=
  if is_ascii_digit c then Some (c - 48)%N
  else if (97 <=? c)%N && (c <=? 102)%N then Some (c - 87)%N
  else if (65 <=? c)%N && (c <=? 70)%N then Some (c - 55)%N
  else None.

Fixpoint hextet_value (acc : N) (s : pystr) : option N :=
  match s with
  | [] => Some acc
  | c :: rest => match hextet_digit c with Some d => hextet_value (16 * acc + d)%N rest | None => None end
  end.

Definition parse_hextet (s : pystr) : option N :=
  if (1 <=? length s) && (length s <=? 4) then hextet_value 0 s else None.

Fixpoint parse_hextets (acc : N) (l : list pystr) : option N :=
  match l with
  | [] => Some acc
  | s :: rest => match parse_hextet s with Some d => parse_hextets (65536 * acc + d)%N rest | None => None end
  end.

(** The indices of the empty parts strictly inside the list. *)
Fixpoint inner_empty (i : nat) (parts : list pystr) : list nat :=
  match parts with
  | [] | [_] => []
  | p :: rest => (match p with [] => [i] | _ => [] end) ++ inner_empty (S i) rest
  end.

Definition ipv6_parts (parts : list pystr) : option N :=
  if 9 <? length parts then None
  else
    match inner_empty 1 (tl parts) with
    | [] => if (length parts =? 8) then parse_hextets 0 parts else None
    | [skip] =>
        let first_empty := match head parts with Some [] => true | _ => false end in
        let last_empty := match last parts with Some [] => true | _ => false end in
        let hi := if first_empty then skip - 1 else skip in
        let lo := if last_empty then length parts - skip - 2 else length parts - skip - 1 in
        if first_empty && (0 <? hi) then None
        else if last_empty && (0 <? lo) then None
        else if 8 <? hi + lo + 1 then None
        else match parse_hextets 0 (take hi parts) with
             | Some h => parse_hextets (h * 65536 ^ N.of_nat (8 - (hi + lo)))%N (drop (length parts - lo) parts)
             | None => None
             end
    | _ => None
    end.

(** The parts of an IPv6 text, an embedded IPv4 tail as two parts. *)
Definition ipv6_split (s : pystr) : option (list pystr) :=
  let parts := split_on 58 s in
  if length parts <? 3 then None
  else match last parts with
       | Some tail =>
           if has_char 46 tail then
             match parse_ipv4 tail with
             | Some n => Some (removelast parts ++ [hex_fixed 4 (n / 65536)%N; hex_fixed 4 (n mod 65536)%N])
             | None => None
             end
           else Some parts
       | None => None
       end.

Definition parse_ipv6 (s : pystr) : option N :=
  let '(addr, scope) := split1 37 s in
  match scope with
  | Some [] => None
  | Some sc => if has_char 37 sc then None else match ipv6_split addr with Some parts => ipv6_parts parts | None => None end
  | None => match ipv6_split addr with Some parts => ipv6_parts parts | None => None end
  end.

Definition ip_address (s : pystr) : res ip :=
  let bad := Raise (Exn ValueError (repr_str s ++ u " does not appear to be an IPv4 or IPv6 address")) in
  if has_char 47 s then bad
  else match parse_ipv4 s with
       | Some n => Ok (IPv4 n)
       | None => match parse_ipv6 s with Some n => Ok (IPv6 n) | None => bad end
       end.

Definition is_loopback (a : ip) : bool :=
  match a with IPv4 n => (n / 16777216 =? 127)%N | IPv6 n => (n =? 1)%N end.

(** ** Listeners *)

Definition value_error {A} (text : pystr) : res A := Raise (Exn ValueError text).

Definition split_listen (value : pystr) : res (pystr * pystr) :=
  if starts_with (u "[") value then
    match find_char 93 value with
    | Some end_ =>
        match value !! S end_ with
        | Some c => if (c =? 58)%N then Ok (take (end_ - 1) (drop 1 value), drop (end_ + 2) value)
                    else value_error (u "invalid bracketed listen address: " ++ value)
        | None => value_error (u "invalid bracketed listen address: " ++ value)
        end
    | None => value_error (u "invalid bracketed listen address: " ++ value)
    end
  else
    match rpartition 58 value with
    | Some ((_ :: _) as host, port_text) =>
        if has_char 58 host then value_error (u "invalid listen address: " ++ value) else Ok (host, port_text)
    | _ => value_error (u "invalid listen address: " ++ value)
    end.

Definition parse_listen (value : pystr) : res (ip * Z) :=
  let* '(host, port_text) := split_listen value in
  if negb (str_isdigit port_text) then value_error (u "invalid listen port: " ++ value)
  else
    let* port := int_of_str (repr_str port_text) port_text in
    if (port <? 1)%Z || (65535 <? port)%Z then value_error (u "listen port out of range: " ++ value)
    else let* a := ip_address host in Ok (a, port).

(** [http.listen] and every [tcp[i].listen] that is a string, with its label and its
    section. *)
Definition tcp_items (data : pydict) : list (nat * pydict) :=
  match dget (u "tcp") data with
  | Some (VList l) => omap (fun iv => match iv.2 with VDict d => Some (iv.1, d) | _ => None end) (imap (fun i v => (i, v)) l)
  | _ => []
  end.

Definition tcp_label (i : nat) : pystr := u "tcp[" ++ dec_nat i ++ u "]".

Definition listen_of (section : pydict) : option pystr :=
  match dget (u "listen") section with Some (VStr s) => Some s | _ => None end.

Definition http_section (data : pydict) : option pydict :=
  match dget (u "http") data with Some (VDict d) => Some d | _ => None end.

Definition listeners (data : pydict) : list (pystr * pystr) :=
  match http_section data with
  | Some http => match listen_of http with Some s => [(u "http.listen", s)] | None => [] end
  | None => []
  end ++
  omap (fun it => match listen_of it.2 with Some s => Some (tcp_label it.1 ++ u ".listen", s) | None => None end) (tcp_items data).

(** [data.get] on the decoded configuration. *)
Definition as_object (v : pyval) : res pydict :=
  match v with VDict d => Ok d | _ => Raise (Exn AttributeError (u "object has no attribute 'get'")) end.

Definition failed_config (config : pystr) (e : exn) : pystr := u "failed to read config " ++ config ++ u ": " ++ exn_msg e.

(** One round of the loop over the listeners: ports and errors so far. *)
Definition listener_port (st : list Z * list pystr) (item : pystr * pystr) : res (list Z * list pystr) :=
  let '(ports, errors) := st in
  match parse_listen item.2 with
  | Ok (a, port) =>
      Ok (if is_loopback a || existsb (Z.eqb port) ports then (ports, errors) else (ports ++ [port], errors))
  | Raise e => if is_value_error e then Ok (ports, errors ++ [item.1 ++ u ": " ++ exn_msg e]) else Raise e
  end.

Definition config_public_listener_ports (w : edge_world) (config : pystr) : res (list Z * list pystr) :=
  if negb (exists_file w config) then Ok ([], [])
  else match read_json w config with
       | Raise e => if is_exception e then Ok ([], [failed_config config e]) else Raise e
       | Ok v => let* data := as_object v in foldM listener_port ([], []) (listeners data)
       end.

(** ** Connection caps *)

Definition DEFAULT_HTTP_MAX_CONNECTIONS_PER_IP : Z := 1024.
Definition DEFAULT_TCP_MAX_CONNECTIONS_PER_IP : Z := 128.
Definition MAX_PROTECTED_PORT_CONNLIMIT : Z := 128.

(** The value, or the text of an error. *)
Definition positive_int_config_value (value : pyval) (default_ : Z) (label : pystr) : Z + pystr :=
  match value with
  | VNone => inl default_
  | VInt z => if (z <=? 0)%Z then inr (label ++ u " must be greater than zero") else inl z
  | _ => inr (label ++ u " must be an integer")
  end.

Definition limits_of (section : pydict) : pydict :=
  match dget (u "limits") section with Some (VDict d) => d | _ => [] end.

(** A listener's section: its cap is added unless it is a loopback listener. *)
Definition listener_cap (default_ : Z) (listen_label limit_label : pystr) (section : pydict)
    (st : list (pystr * Z) * list pystr) : res (list (pystr * Z) * list pystr) :=
  let '(caps, errors) := st in
  match listen_of section with
  | None => Ok st
  | Some listen =>
      match parse_listen listen with
      | Raise e => if is_value_error e then Ok (caps, errors ++ [listen_label ++ u ": " ++ exn_msg e]) else Raise e
      | Ok (a, _) =>
          if is_loopback a then Ok st
          else match positive_int_config_value (or_none (dget (u "max_connections_per_ip") (limits_of section))) default_ limit_label with
               | inl value => Ok (caps ++ [(listen_label, value)], errors)
               | inr error => Ok (caps, errors ++ [error])
               end
      end
  end.

Definition public_listener_connection_caps (w : edge_world) (config : pystr) : res (list (pystr * Z) * list pystr) :=
  if negb (exists_file w config) then Ok ([], [])
  else match read_json w config with
       | Raise e => if is_exception e then Ok ([], [failed_config config e]) else Raise e
       | Ok v =>
           let* data := as_object v in
           let* st := match http_section data with
                      | Some http => listener_cap DEFAULT_HTTP_MAX_CONNECTIONS_PER_IP (u "http.listen")
                                       (u "http.limits.max_connections_per_ip") http ([], [])
                      | None => Ok ([], [])
                      end in
           foldM (fun st it => listener_cap DEFAULT_TCP_MAX_CONNECTIONS_PER_IP (tcp_label it.1 ++ u ".listen")
                                 (tcp_label it.1 ++ u ".limits.max_connections_per_ip") it.2 st) st (tcp_items data)
       end.

Definition min_cap (caps : list (pystr * Z)) : option Z :=
  match caps with [] => None | c :: rest => Some (foldl (fun m c => Z.min m c.2) c.2 rest) end.

Definition protected_port_connlimit_ceiling (w : edge_world) (config : option pystr) : res (Z * list pystr) :=
  match config with
  | None => Ok (MAX_PROTECTED_PORT_CONNLIMIT, [])
  | Some config =>
      let* '(caps, errors) := public_listener_connection_caps w config in
      match errors with
      | _ :: _ => Ok (MAX_PROTECTED_PORT_CONNLIMIT, errors)
      | [] => Ok (default MAX_PROTECTED_PORT_CONNLIMIT (min_cap caps), [])
      end
  end.

(** ** Backlog and descriptor budget *)

(** [isinstance(v, int)], which holds for booleans. *)
Definition as_int (v : pyval) : option Z := match v with VInt z => Some z | VBool b => Some (Z.b2z b) | _ => None end.

Definition backlog_of (section : pydict) : option Z := as_int (or_none (dget (u "listen_backlog") section)).

Definition max_config_backlog (w : edge_world) (config : pystr) : res (option Z) :=
  if negb (exists_file w config) then Ok None
  else
    let* v := read_json w config in
    let* data := as_object v in
    let backlogs := option_list (http_section data ≫= backlog_of) ++ omap (fun it => backlog_of it.2) (tcp_items data) in
    Ok (match backlogs with [] => None | b :: rest => Some (foldl Z.max b rest) end).

Definition NOFILE_BASE_RESERVE : Z := 256.
Definition DEFAULT_ACCEPT_SHARDS : Z := 1.
Definition DEFAULT_HTTP_MAX_CONNECTIONS : Z := 10000.
Definition DEFAULT_HTTP_MAX_IN_FLIGHT_REQUESTS : Z := 8192.
Definition DEFAULT_HTTP_UPSTREAM_POOL_MAX_IDLE_PER_HOST : Z := 256.
Definition DEFAULT_TCP_MAX_CONNECTIONS : Z := 10000.
Definition MIN_SYSTEMD_LIMIT_NOFILE : Z := 65536.

(** [config_capacity_value], added [weight] times to the budget. *)
Definition add_capacity (item : pydict) (key : pystr) (default_ : Z) (label : pystr) (weight : Z)
    (st : Z * list pystr) : Z * list pystr :=
  match positive_int_config_value (or_none (dget key item)) default_ label with
  | inl value => (st.1 + weight * value, st.2)%Z
  | inr error => (st.1, st.2 ++ [error])
  end.

Definition http_capacity (http : pydict) (st : Z * list pystr) : Z * list pystr :=
  let st := add_capacity http (u "accept_shards") DEFAULT_ACCEPT_SHARDS (u "http.accept_shards") 1 st in
  let st := add_capacity (limits_of http) (u "max_connections") DEFAULT_HTTP_MAX_CONNECTIONS
              (u "http.limits.max_connections") 1 st in
  let st := add_capacity (limits_of http) (u "max_in_flight_requests") DEFAULT_HTTP_MAX_IN_FLIGHT_REQUESTS
              (u "http.limits.max_in_flight_requests") 1 st in
  add_capacity http (u "upstream_pool_max_idle_per_host") DEFAULT_HTTP_UPSTREAM_POOL_MAX_IDLE_PER_HOST
    (u "http.upstream_pool_max_idle_per_host") 1 st.

Definition tcp_capacity (st : Z * list pystr) (it : nat * pydict) : Z * list pystr :=
  let st := add_capacity it.2 (u "accept_shards") DEFAULT_ACCEPT_SHARDS (tcp_label it.1 ++ u ".accept_shards") 1 st in
  add_capacity (limits_of it.2) (u "max_connections") DEFAULT_TCP_MAX_CONNECTIONS
    (tcp_label it.1 ++ u ".limits.max_connections") 2 st.

Definition config_nofile_capacity_requirement (w : edge_world) (config : pystr) : res (option Z * list pystr) :=
  if negb (exists_file w config) then Ok (None, [])
  else match read_json w config with
       | Raise e => if is_exception e then Ok (None, [failed_config config e]) else Raise e
       | Ok v =>
           let* data := as_object v in
           let st := match http_section data with
                     | Some http => http_capacity http (NOFILE_BASE_RESERVE, [])
                     | None => (NOFILE_BASE_RESERVE, []) end in
           let '(required, errors) := foldl tcp_capacity st (tcp_items data) in
           Ok (match errors with [] => (Some required, []) | _ => (None, errors) end)
       end.

Definition runtime_section (data : pydict) : option pydict :=
  match dget (u "runtime") data with Some (VDict d) => Some d | _ => None end.

Definition config_min_nofile (w : edge_world) (config : pystr) : res Z :=
  if negb (exists_file w config) then Ok MIN_SYSTEMD_LIMIT_NOFILE
  else
    let* v := read_json w config in
    let* data := as_object v in
    match runtime_section data with
    | None => Ok MIN_SYSTEMD_LIMIT_NOFILE
    | Some runtime => match as_int (default (VInt 0) (dget (u "min_nofile") runtime)) with
                      | Some value => Ok (Z.max MIN_SYSTEMD_LIMIT_NOFILE value)
                      | None => Ok MIN_SYSTEMD_LIMIT_NOFILE
                      end
    end.

(** An [int] 0 prints and compares like the float. *)
Definition config_shutdown_grace_seconds (w : edge_world) (config : pystr) : res float :=
  if negb (exists_file w config) then Ok f0
  else
    let* v := read_json w config in
    let* data := as_object v in
    match runtime_section data with
    | None => Ok f0
    | Some runtime =>
        match default (VInt 0) (dget (u "shutdown_grace_ms") runtime) with
        | (VInt _ | VFloat _ | VBool _) as value =>
            let* f := float_of_num value in Ok (fdiv f (float_of_Q 1000 1))
        | _ => Ok f0
        end
    end.
