(* ===== verification/EdgeListen.v ===== *)
(** * EdgeListen: listener addresses

    Printing a dotted address and a port and reading them back with [parse_listen]
    of [EdgeConfig], and what an accepted listener address can be. *)

From S2P Require Import Prelude Unicode PyStr PyVal EdgeConfig.

Lemma split_on_app c a b : c ∉ a -> split_on c (a ++ c :: b) = a :: split_on c b.
Proof.
  induction a as [|x a IH]; cbn [app split_on]; [by rewrite N.eqb_refl|].
  intros [Hx Ha]%not_elem_of_cons. rewrite (proj2 (N.eqb_neq x c)) by congruence. by rewrite IH.
Qed.

Lemma split_on_none c a : c ∉ a -> split_on c a = [a].
Proof.
  induction a as [|x a IH]; cbn [split_on]; [done|].
  intros [Hx Ha]%not_elem_of_cons. rewrite (proj2 (N.eqb_neq x c)) by congruence. by rewrite IH.
Qed.

Lemma find_char_app c a b : c ∉ a -> find_char c (a ++ c :: b) = Some (length a).
Proof.
  induction a as [|x a IH]; cbn [app find_char length]; [by rewrite N.eqb_refl|].
  intros [Hx Ha]%not_elem_of_cons. rewrite (proj2 (N.eqb_neq x c)) by congruence. by rewrite IH.
Qed.

Lemma rpartition_app c a b : c ∉ b -> rpartition c (a ++ c :: b) = Some (a, b).
Proof.
  intros Hb. unfold rpartition, rfind_char. rewrite rev_app_distr. cbn [rev]. rewrite <-app_assoc. cbn [app].
  rewrite find_char_app by (by rewrite list_elem_of_In, <-in_rev, <-list_elem_of_In). cbn [fmap option_fmap option_map]. rewrite length_app, length_rev. cbn [length].
  replace (length a + S (length b) - 1 - length b) with (length a) by lia. rewrite take_app_length.
  replace (S (length a)) with (length (a ++ [c])) by (rewrite length_app; cbn; lia).
  change (a ++ c :: b) with (a ++ [c] ++ b). rewrite app_assoc. by rewrite drop_app_length.
Qed.

Lemma digits_avoid c n : is_ascii_digit c = false -> c ∉ dec_N n.
Proof. intros Hc Hin. pose proof (dec_N_digits n) as H. rewrite Forall_forall in H. apply H in Hin. congruence. Qed.

(** The octets, checked one by one. *)
Lemma parse_octet_dec n : (n < 256)%N -> parse_octet (dec_N n) = Some n.
Proof.
  intros Hn. assert (H : forallb (fun i => bool_decide (parse_octet (dec_N (N.of_nat i)) = Some (N.of_nat i))) (seq 0 256) = true)
    by (vm_compute; reflexivity).
  rewrite forallb_forall in H. specialize (H (N.to_nat n)). rewrite N2Nat.id in H. eapply bool_decide_eq_true_1, H.
  apply in_seq. lia.
Qed.

Definition dotted (a b c d : N) : pystr := dec_N a ++ u "." ++ dec_N b ++ u "." ++ dec_N c ++ u "." ++ dec_N d.

Lemma parse_dotted a b c d : (a < 256)%N -> (b < 256)%N -> (c < 256)%N -> (d < 256)%N ->
  parse_ipv4 (dotted a b c d) = Some (((a * 256 + b) * 256 + c) * 256 + d)%N.
Proof.
  intros Ha Hb Hc Hd. unfold parse_ipv4, dotted. change (u ".") with [46%N]. cbn [app].
  do 3 (rewrite split_on_app by (by apply digits_avoid)). rewrite split_on_none by (by apply digits_avoid).
  by rewrite !parse_octet_dec.
Qed.

Lemma dotted_avoids x a b c d : is_ascii_digit x = false -> x <> 46%N -> x ∉ dotted a b c d.
Proof.
  intros Hx Hn. unfold dotted. rewrite !not_elem_of_app. change (u ".") with [46%N].
  repeat split; (by apply digits_avoid) || by rewrite list_elem_of_singleton.
Qed.

Lemma str_isdigit_dec n : str_isdigit (dec_N n) = true.
Proof.
  unfold str_isdigit. destruct (dec_N n) as [|c s] eqn:E; [by apply dec_N_nonempty in E|]. rewrite <-E.
  apply forallb_forall. intros x Hx. pose proof (dec_N_digits n) as H. rewrite Forall_forall in H.
  apply list_elem_of_In, H, ascii_digit_lt in Hx.
  assert (Hall : forallb is_digit [48; 49; 50; 51; 52; 53; 54; 55; 56; 57]%N = true) by (vm_compute; reflexivity).
  rewrite forallb_forall in Hall. apply Hall. cbn. lia.
Qed.

(** Reading back a dotted address and a port in range gives that address and that
    port: [parse_listen(f"{a}.{b}.{c}.{d}:{port}")]. *)
Theorem listen_round_trip a b c d port :
  (a < 256)%N -> (b < 256)%N -> (c < 256)%N -> (d < 256)%N -> (1 <= port <= 65535)%Z ->
  parse_listen (dotted a b c d ++ u ":" ++ dec_Z port) = Ok (IPv4 (((a * 256 + b) * 256 + c) * 256 + d)%N, port).
Proof.
  intros Ha Hb Hc Hd Hp. assert (Hz : dec_Z port = dec_N (Z.to_N port)) by (destruct port; [done|done|lia]).
  assert (Hhost : exists x l, dotted a b c d = x :: l /\ is_ascii_digit x = true).
  { unfold dotted. pose proof (dec_N_digits a) as Hdig. destruct (dec_N a) as [|x l] eqn:E; [by apply dec_N_nonempty in E|].
    apply Forall_cons in Hdig as [? _]. cbn. eauto. }
  unfold parse_listen, split_listen. change (u ":") with [58%N]. rewrite Hz. cbn [app].
  destruct Hhost as (x & l & Hl & Hx). rewrite Hl. cbn [app starts_with]. change (u "[") with [91%N].
  assert (Hx91 : (91 =? x)%N = false) by (apply N.eqb_neq; intros <-; done). cbn [starts_with]. rewrite Hx91. cbn [andb].
  change (x :: l ++ 58%N :: dec_N (Z.to_N port)) with ((x :: l) ++ 58%N :: dec_N (Z.to_N port)).
  rewrite rpartition_app by (by apply digits_avoid). rewrite <-Hl.
  assert (H58 : has_char 58 (dotted a b c d) = false)
    by (apply not_true_iff_false; intros H%has_char_In; by apply dotted_avoids in H).
  assert (H47 : has_char 47 (dotted a b c d) = false)
    by (apply not_true_iff_false; intros H%has_char_In; by apply dotted_avoids in H).
  rewrite Hl at 1. rewrite <-Hl, H58. cbn [rbind]. rewrite str_isdigit_dec. cbn [negb]. rewrite <-Hz, int_of_dec_Z.
  2: { rewrite Hz. transitivity 5; [|by apply Nat.leb_le; vm_compute]. apply dec_N_length; [cbn; lia|lia]. }
  cbn [rbind]. rewrite (proj2 (Z.ltb_ge port 1)), (proj2 (Z.ltb_ge 65535 port)) by lia. cbn [orb].
  unfold ip_address. rewrite H47, parse_dotted by done. done.
Qed.

Lemma listen_round_trip_witness :
  dotted 127 0 0 1 ++ u ":" ++ dec_Z 8080 = u "127.0.0.1:8080" /\
  parse_listen (dotted 127 0 0 1 ++ u ":" ++ dec_Z 8080) = Ok (IPv4 2130706433, 8080%Z).
Proof. split; [vm_compute; reflexivity|]. apply (listen_round_trip 127 0 0 1 8080); lia. Defined.
