(* ===== verification/LocalProbe.v ===== *)
(** * LocalProbe: starting the proxy from a probe of the local benchmark

    [tools/run_local_bench.py]: what its startup probes share.  The proxy is a program of
    its own, so how a process behaves is a parameter; ports come from the operating
    system.  A probe is a computation over the files of its temporary directory, the ports
    handed out and the proxies it has started. *)

From S2P Require Import Prelude Unicode PyStr PyFloat PyVal Json.

(** ** Processes, files and ports *)

(** A started proxy: the exit status and standard error it ends with by itself within five
    seconds, within five seconds of SIGTERM, and within five seconds of SIGKILL. *)
Record proxy_process := ProxyProcess {
  pp_own : option (Z * pystr);
  pp_terminated : option (Z * pystr);
  pp_killed : option (Z * pystr) }.

Inductive entry := TextFile (text : pystr) | Directory.

Record bench_world := BenchWorld {
  bw_port : nat -> Z;                                       (** the ports the system hands out *)
  bw_proxy : (pystr -> option entry) -> list pystr -> proxy_process  (** files, argument list *) }.

Inductive signal := SIGTERM | SIGKILL.

(** A proxy that has been started and has ended. *)
Record start := Start {
  st_argv : list pystr;
  st_config : option entry;           (** what the last argument named when it started *)
  st_signals : list signal;
  returncode : Z;
  stderr_text : pystr }.

Record bench_state := BenchState {
  bs_files : pystr -> option entry;
  bs_ports : nat;                     (** how many ports were handed out *)
  bs_starts : list start }.

Definition bench (A : Type) : Type := eff bench_state A.

(** [tmp_path / name] *)
Definition joined (tmp_path name : pystr) : pystr := tmp_path ++ u "/" ++ name.

Definition write_text (path text : pystr) : bench unit := fun t =>
  match bs_files t path with
  | Some Directory => (Raise (Exn IsADirectoryError (u "Is a directory")), t)
  | _ => (Ok tt, BenchState (fun p => if str_eqb p path then Some (TextFile text) else bs_files t p) (bs_ports t) (bs_starts t))
  end.

Definition mkdir (path : pystr) : bench unit := fun t =>
  match bs_files t path with
  | Some _ => (Raise (Exn FileExistsError (u "File exists")), t)
  | None => (Ok tt, BenchState (fun p => if str_eqb p path then Some Directory else bs_files t p) (bs_ports t) (bs_starts t))
  end.

Section world.
Context (w : bench_world).

Definition free_port : bench Z := fun t => (Ok (bw_port w (bs_ports t)), BenchState (bs_files t) (S (bs_ports t)) (bs_starts t)).

(** [Popen] and the nested [communicate(timeout=5)]: wait, terminate and wait, kill and
    wait; a process that outlives SIGKILL is [TimeoutExpired]. *)
Definition communicated (p : proxy_process) : res (list signal * (Z * pystr)) :=
  match pp_own p with
  | Some end_ => Ok ([], end_)
  | None =>
      match pp_terminated p with
      | Some end_ => Ok ([SIGTERM], end_)
      | None =>
          match pp_killed p with
          | Some end_ => Ok ([SIGTERM; SIGKILL], end_)
          | None => Raise (Exn TimeoutExpired (u "timed out after 5 seconds"))
          end
      end
  end.

Definition start_proxy (binary config_path : pystr) : bench start := fun t =>
  let argv := [binary; u "--config"; config_path] in
  match communicated (bw_proxy w (bs_files t) argv) with
  | Raise e => (Raise e, t)
  | Ok (signals, (code, text)) =>
      let s := Start argv (bs_files t config_path) signals code text in
      (Ok s, BenchState (bs_files t) (bs_ports t) (bs_starts t ++ [s]))
  end.
End world.

(** ** Verdicts *)

(** [proxy.returncode != 0 and text in stderr_text and ...] *)
Definition rejected (s : start) (texts : list pystr) : bool :=
  negb (returncode s =? 0)%Z && forallb (fun text => contains text (stderr_text s)) texts.

(** [stderr_lines[-8:]] *)
Definition stderr_tail (s : start) : pyval := VList (VStr <$> last_n 8 (splitlines (stderr_text s))).

(** [case["startup_rejected"]] *)
Definition startup_rejected (case : pydict) : pyval := or_none (dget (u "startup_rejected") case).

(** [all(case["startup_rejected"] for case in cases.values())] *)
Definition all_rejected (cases : list (pystr * pydict)) : bool := forallb (fun c => truthy (startup_rejected c.2)) cases.

Definition as_values (cases : list (pystr * pydict)) : pydict := (fun c => (c.1, VDict c.2)) <$> cases.

(** [c * n] *)
Definition repeated (c : N) (n : Z) : pystr := replicate (Z.to_nat n) c.

(** ** Reasoning about probes *)

(** No proxy outlives SIGKILL for five seconds. *)
Definition proxies_end (w : bench_world) : Prop := forall files argv, is_ok (communicated (bw_proxy w files argv)) = true.

(** Nothing but [dir] is a directory, and [dir] does not exist while [fresh]. *)
Definition only_directory (dir : pystr) (fresh : bool) (t : bench_state) : Prop :=
  (forall p, bs_files t p = Some Directory -> p = dir) /\ (fresh = true -> bs_files t dir = None).

(** [m] ends in a value; the value and [acc] followed by the proxies [m] started, in their
    order, satisfy [Q]. *)
Definition probes (dir : pystr) (fresh fresh' : bool) (acc : list start) {A} (m : bench A) (Q : A -> list start -> Prop) : Prop :=
  forall t, only_directory dir fresh t ->
    exists x t' new, m t = (Ok x, t') /\ only_directory dir fresh' t' /\ bs_starts t' = bs_starts t ++ new /\ Q x (acc ++ new).

Section rules.
Context (dir : pystr) (b b' : bool) (acc : list start) {A : Type}.
Implicit Types Q : A -> list start -> Prop.

Lemma probes_ret x Q : Q x acc -> probes dir b b acc (cret x) Q.
Proof. intros H t Ht. exists x, t, []. by rewrite !app_nil_r. Qed.

(** A call whose behaviour is known. *)
Lemma probes_call b1 {B} (m : bench B) (f : B -> bench A) (R : B -> list start -> Prop) Q :
  probes dir b b1 [] m R -> (forall x new, R x new -> probes dir b1 b' (acc ++ new) (f x) Q) -> probes dir b b' acc (cbind m f) Q.
Proof.
  intros H Hf t Ht. destruct (H t Ht) as (x & t1 & new & E1 & Ht1 & S1 & H1).
  destruct (Hf x new H1 t1 Ht1) as (y & t2 & more & E2 & Ht2 & S2 & H2).
  exists y, t2, (new ++ more). unfold cbind. rewrite E1, E2, S2, S1, !(assoc_L (++)). done.
Qed.

Lemma probes_write path text (f : unit -> bench A) Q :
  path <> dir -> probes dir b b' acc (f tt) Q -> probes dir b b' acc (cbind (write_text path text) f) Q.
Proof.
  intros Hne H. eapply (probes_call b _ _ (fun _ new => new = [])); [|intros [] ? ->; by rewrite app_nil_r].
  intros t [Hd Hf]. unfold write_text.
  assert (Ht : bs_files t path <> Some Directory) by (intros E; by apply Hne, Hd).
  set (files := fun p => if str_eqb p path then Some (TextFile text) else bs_files t p).
  assert (Hfiles : forall n s, only_directory dir b (BenchState files n s)).
  { intros n s. unfold only_directory, files. cbn. split.
    - intros p. destruct (str_eqb p path); [done|]. apply Hd.
    - intros Hb. rewrite str_eqb_neq by congruence. auto. }
  destruct (bs_files t path) as [[]|]; try done; eexists _, _, []; (split; [done|]); rewrite app_nil_r; auto.
Qed.

Lemma probes_port w (f : Z -> bench A) Q :
  (forall port, probes dir b b' acc (f port) Q) -> probes dir b b' acc (cbind (free_port w) f) Q.
Proof.
  intros H. eapply (probes_call b _ _ (fun _ new => new = [])); [|intros port ? ->; by rewrite app_nil_r].
  intros t Ht. eexists _, _, []. split; [done|]. rewrite app_nil_r. auto.
Qed.

Lemma probes_start w binary path (f : start -> bench A) Q :
  proxies_end w -> (forall s, probes dir b b' (acc ++ [s]) (f s) Q) -> probes dir b b' acc (cbind (start_proxy w binary path) f) Q.
Proof.
  intros Hw H. eapply (probes_call b _ _ (fun s new => new = [s])); [|intros s ? ->; auto].
  intros t Ht. unfold start_proxy. specialize (Hw (bs_files t) [binary; u "--config"; path]).
  destruct (communicated _) as [[signals [code text]]|e]; [|done]. by eexists _, _, [_].
Qed.

(** A call that starts one proxy and reports [F] of it. *)
Lemma probes_case (F : start -> pydict) (m : bench pydict) (f : pydict -> bench A) Q :
  probes dir b b [] m (fun d new => exists s, new = [s] /\ d = F s) ->
  (forall s, probes dir b b' (acc ++ [s]) (f (F s)) Q) -> probes dir b b' acc (cbind m f) Q.
Proof. intros Hm Hf. eapply probes_call; [exact Hm|]. intros d new (s & -> & ->). apply Hf. Qed.
End rules.

Lemma probes_mkdir dir b' acc {A} (f : unit -> bench A) Q :
  probes dir false b' acc (f tt) Q -> probes dir true b' acc (cbind (mkdir dir) f) Q.
Proof.
  intros H. eapply (probes_call _ _ _ _ false _ _ (fun _ new => new = [])); [|intros [] ? ->; by rewrite app_nil_r].
  intros t [Hd Hf]. unfold mkdir. rewrite Hf by done. eexists _, _, []. split; [done|]. rewrite app_nil_r.
  split; [|done]. split; [|done]. cbn. intros p. destruct (str_eqb p dir) eqn:E; [by apply str_eqb_eq in E|]. apply Hd.
Qed.

Ltac head_of t := lazymatch t with ?f _ => head_of f | _ => t end.

(** One effect of a probe. *)
Ltac probe_effect :=
  lazymatch goal with
  | |- probes _ _ _ _ (cret _) _ => apply probes_ret
  | |- probes _ _ _ _ (cbind (free_port _) _) _ => apply probes_port; intros ?port
  | |- probes _ _ _ _ (cbind (mkdir _) _) _ => apply probes_mkdir
  | |- probes _ _ _ _ (cbind (write_text _ _) _) _ => apply probes_write; [unfold joined; intros ?%(inj (app _)); discriminate|]
  | |- probes _ _ _ _ (cbind (start_proxy _ _ _) _) _ => apply probes_start; [assumption|intros ?s]
  end; cbv beta zeta.

(** One step: an effect, or a call of a nested [run_case]. *)
Ltac probe_step :=
  first [probe_effect
        | lazymatch goal with
          | |- probes _ _ _ _ (cbind ?m _) _ =>
              let h := head_of m in
              eapply probes_case;
                [unfold h; cbv beta zeta; repeat probe_effect; eexists; split; reflexivity
                |intros ?s; cbv beta zeta]
          end].
