(* ===== verification/BenchNet.v ===== *)
(** * BenchNet: what a benchmark probe asks of its surroundings

    The probes of [tools/run_local_bench.py] talk to the operating system, to the proxy
    they start and to the clock.  Each such request is a [call]; a world answers every
    call from the calls made so far, so it can be any proxy, any network and any clock.  A
    probe is a computation over the trace of calls and answers. *)

From S2P Require Import Prelude Unicode PyStr PyFloat PyVal PyDyn.

Abbreviation bytes := (list N) (only parsing).

(** Handles the operating system hands out. *)
Definition sock : Set := nat.
Definition proc : Set := nat.
Definition http_conn : Set := nat.
Definition thread : Set := nat.
Definition server : Set := nat.

(** What [getresponse] returns: the status and the header fields in order. *)
Record http_head := HttpHead { hh_status : Z; hh_headers : list (pystr * pystr) }.

(** The handlers the probes start servers with. *)
Inductive origin := FastHttp | FastTcp | NoContentHttp | CountingHttp | HeadOfLineTcp.

Inductive call :=
(** clocks *)
| PerfCounter | WallClock | Sleep (seconds : float)
(** files and ports *)
| FreePort
| WriteText (path text : pystr) | ReadText (path : pystr) | FileSize (path : pystr) | Exists (path : pystr)
| MakeTempDir | RemoveTempDir (path : pystr) | PrintText (text : pystr)
| ReadReplaced (path : pystr) | ReadBinary (path : pystr) | OpenWrite (path : pystr) | CloseFile (path : pystr)
| HasMkfifo | Mkfifo (path : pystr) | OpenNonblocking (path : pystr) | CloseFd (fd : Z)
(** processes *)
| Popen (argv : list pystr) (env : list (pystr * pystr)) | Poll (p : proc) | Terminate (p : proc) | Kill (p : proc)
| Wait (p : proc) (timeout : float) | Communicate (p : proc) (timeout : float) | CheckOutput (argv : list pystr)
(** sockets *)
| Connect (port : Z) (timeout : float) | Listen (backlog : Z) | CreateConnect (port : Z) (timeout : float)
| SetTimeout (s : sock) (timeout : float) | SetReceiveBuffer (s : sock) (size : Z)
| SendAll (s : sock) (data : bytes) | Recv (s : sock) (size : Z) | CloseSocket (s : sock)
(** [http.client] *)
| HttpConnection (port : Z) (timeout : float)
| HttpRequest (c : http_conn) (method path : pystr) (body : option bytes) (headers : list (pystr * pystr))
| GetResponse (c : http_conn) | ReadBody (c : http_conn) | CloseHttp (c : http_conn)
(** servers and threads of the probe itself *)
| Serve (handler : origin) (port : Z) | ConnectionCount (s : server) | Shutdown (s : server)
| CloseServer (s : server)
| StartStatus (port : Z) (method path : pystr) (timeout : float) (headers : list (pystr * pystr))
| StatusSoFar (th : thread)
| StartSend (s : sock) (data : bytes) | SendSoFar (th : thread)
| StartDrain (fd : Z) | DrainedSoFar (th : thread) | StopDrain (th : thread)
| StartControl (port : Z) | StopControl (th : thread) | ControlSoFar (th : thread)
| StartWrite (path text : pystr) | WriteSoFar (th : thread)
| Join (th : thread) (timeout : float).

Definition answer (c : call) : Type :=
  match c with
  | PerfCounter | WallClock => float
  | FreePort => res Z
  | WriteText _ _ | OpenWrite _ | Mkfifo _ | SendAll _ _ | HttpRequest _ _ _ _ _ | SetReceiveBuffer _ _ | CloseFd _ => res unit
  | ReadText _ | ReadReplaced _ | CheckOutput _ | MakeTempDir => res pystr   (** [ReadReplaced]: with errors=replace *)
  | FileSize _ | OpenNonblocking _ => res Z
  | Exists _ | HasMkfifo => bool
  | Popen _ _ => res proc
  | Poll _ => option Z
  | Wait _ _ => res Z
  | Communicate _ _ => res (Z * pystr)                    (** exit status and standard error *)
  | Connect _ _ | CreateConnect _ _ => res sock
  | Listen _ => res (sock * Z)                            (** a listener and its port *)
  | Recv _ _ | ReadBody _ | ReadBinary _ => res bytes
  | HttpConnection _ _ => http_conn
  | GetResponse _ => res http_head
  | Serve _ _ => res server
  | ConnectionCount _ | DrainedSoFar _ => Z
  | StartStatus _ _ _ _ _ | StartSend _ _ | StartDrain _ | StartControl _ | StartWrite _ _ => thread
  | StatusSoFar _ => option Z                             (** [None]: no status yet, or none at all *)
  | SendSoFar _ => option (res unit)                      (** [None]: still sending *)
  | ControlSoFar _ => list (option Z * float)             (** statuses and latencies *)
  | WriteSoFar _ => option (res Z)                        (** [None]: not written yet *)
  | Sleep _ | Terminate _ | Kill _ | SetTimeout _ _ | CloseSocket _ | CloseHttp _ | Shutdown _
  | CloseServer _ | CloseFile _ | RemoveTempDir _ | PrintText _ | StopDrain _ | StopControl _ | Join _ _ => unit
  end.

Record event := Event { ev_call : call; ev_answer : answer ev_call }.

Definition trace : Type := list event.

Definition world : Type := forall (t : trace) (c : call), answer c.

Definition net (A : Type) : Type := eff trace A.

(** Surroundings in which every call answers at once: files are empty, requests are answered
    with status 200, processes run until they are stopped, the clock of the loops has run out. *)
Definition quiet : world := fun t c =>
  match c return answer c with
  | PerfCounter => finf
  | WallClock => f0
  | FreePort => Ok (Z.of_nat (length t))
  | WriteText _ _ | OpenWrite _ | Mkfifo _ | SendAll _ _ | HttpRequest _ _ _ _ _ | SetReceiveBuffer _ _ | CloseFd _ => Ok tt
  | ReadText _ | ReadReplaced _ | CheckOutput _ => Ok []
  | MakeTempDir => Ok (u "/tmp")
  | FileSize _ | OpenNonblocking _ => Ok 0%Z
  | Exists _ => true
  | HasMkfifo => false
  | Popen _ _ => Ok (length t)
  | Poll _ | StatusSoFar _ | SendSoFar _ | WriteSoFar _ => None
  | Wait _ _ => Ok 0%Z
  | Communicate _ _ => Ok (0%Z, [])
  | Connect _ _ | CreateConnect _ _ => Ok (length t)
  | Listen _ => Ok (length t, 0%Z)
  | Recv _ _ | ReadBody _ | ReadBinary _ => Ok []
  | HttpConnection _ _ => length t
  | GetResponse _ => Ok (HttpHead 200 [])
  | Serve _ _ => Ok (length t)
  | ConnectionCount _ | DrainedSoFar _ => 0%Z
  | StartStatus _ _ _ _ _ | StartSend _ _ | StartDrain _ | StartControl _ | StartWrite _ _ => length t
  | ControlSoFar _ => []
  | Sleep _ | Terminate _ | Kill _ | SetTimeout _ _ | CloseSocket _ | CloseHttp _ | Shutdown _
  | CloseServer _ | CloseFile _ | RemoveTempDir _ | PrintText _ | StopDrain _ | StopControl _ | Join _ _ => tt
  end.

(** [try: m except <p> as exc: h exc] *)
Definition catch {S A} (m : eff S A) (p : exn -> bool) (h : exn -> eff S A) : eff S A :=
  fun t => match m t with
           | (Raise e, t') => if p e then h e t' else (Raise e, t')
           | ok => ok
           end.

(** ** Local variables

    A [try] block that assigns local variables keeps them when it is left by an
    exception: the variables [L] are part of the state of the block. *)

Definition scope (L A : Type) : Type := eff (L * trace) A.

Definition inner {L S A} (m : eff S A) : eff (L * S) A := fun '(l, t) => let '(r, t') := m t in (r, (l, t')).
Definition update {L S} (f : L -> L) : eff (L * S) unit := fun '(l, t) => (Ok tt, (f l, t)).
Definition local_vars {L S} : eff (L * S) L := fun '(l, t) => (Ok l, (l, t)).

(** [try: m except Exception as exc: ...]: the variables, and the exception *)
Definition try_block {L} (l : L) (m : scope L unit) : net (L * option exn) :=
  fun t => match m (l, t) with
           | (Ok _, (l', t')) => (Ok (l', None), t')
           | (Raise e, (l', t')) => if is_exception e then (Ok (l', Some e), t') else (Raise e, t')
           end.

(** A block whose exceptions are not handled here: the variables at its end. *)
Definition run_scope {L} (l : L) (m : scope L unit) : net L :=
  fun t => match m (l, t) with
           | (Ok _, (l', t')) => (Ok l', t')
           | (Raise e, (_, t')) => (Raise e, t')
           end.

(** [try: m finally: f] where [f] uses the variables [m] assigned. *)
Definition finally_with {L S A} (l : L) (m : eff (L * S) A) (f : L -> eff S unit) : eff S A :=
  fun t => let '(r, (l', t')) := m (l, t) in finally (clift r) (f l') t'.

Section operations.
Context (w : world).

Definition ask (c : call) : net (answer c) := fun t => (Ok (w t c), t ++ [Event c (w t c)]).

(** A call that may raise. *)
Definition free_port : net Z := perform r <- ask FreePort in clift r.
Definition write_text (path text : pystr) : net unit := perform r <- ask (WriteText path text) in clift r.
Definition read_text (path : pystr) : net pystr := perform r <- ask (ReadText path) in clift r.
Definition file_size (path : pystr) : net Z := perform r <- ask (FileSize path) in clift r.
Definition popen (argv : list pystr) (env : list (pystr * pystr)) : net proc := perform r <- ask (Popen argv env) in clift r.
Definition wait_process (p : proc) (timeout : float) : net Z := perform r <- ask (Wait p timeout) in clift r.
Definition communicate (p : proc) (timeout : float) : net (Z * pystr) := perform r <- ask (Communicate p timeout) in clift r.
Definition create_connection (port : Z) (timeout : float) : net sock := perform r <- ask (CreateConnect port timeout) in clift r.
Definition sendall (s : sock) (data : bytes) : net unit := perform r <- ask (SendAll s data) in clift r.
Definition recv (s : sock) (size : Z) : net bytes := perform r <- ask (Recv s size) in clift r.

(** ** Control *)

(** [try: m except Exception as exc: ...]: the outcome as a value *)
Definition attempt {A} (m : net A) : net (res A) :=
  catch (perform x <- m in cret (Ok x)) is_exception (fun e => cret (Raise e)).

(** [try: m finally: f], keeping what [f] computed. *)
Definition ensuring {A B} (m : net A) (f : net B) : net (A * B) :=
  fun t => match m t with
           | (r, t1) => match f t1 with
                        | (Ok y, t2) => (match r with Ok x => Ok (x, y) | Raise e => Raise e end, t2)
                        | (Raise e, t2) => (Raise e, t2)
                        end
           end.

(** [with socket.create_connection(("127.0.0.1", port), timeout=timeout) as sock: body sock] *)
Definition with_connection {A} (port : Z) (timeout : float) (body : sock -> net A) : net A :=
  perform s <- create_connection port timeout in finally (body s) (ask (CloseSocket s)).

Definition on_connection {L A} (port : Z) (timeout : float) (body : sock -> scope L A) : scope L A :=
  perform s <- inner (create_connection port timeout) in finally (body s) (inner (ask (CloseSocket s))).

(** [[f(x) for x in l]] with calls in [f]. *)
Fixpoint for_each {A B} (f : A -> net B) (l : list A) : net (list B) :=
  match l with
  | [] => cret []
  | x :: rest => perform y <- f x in perform ys <- for_each f rest in cret (y :: ys)
  end.

(** An expression without calls. *)
Definition eval (e : expr) : net pyval := clift e.

(** ** Time *)

(** [num / den] as the nearest float: the literals of the source. *)
Definition sec (num : Z) (den : positive) : float := float_of_Q num den.

Definition perf_counter : net float := ask PerfCounter.
Definition sleep (seconds : float) : net unit := ask (Sleep seconds).

(** [round(time.perf_counter() - started, 3)] *)
Definition elapsed_since (started : float) : net pyval :=
  perform now <- perf_counter in cret (VFloat (round_digits 3 (fsub now started))).
End operations.

(** [tmp_path / name] *)
Definition under (tmp_path name : pystr) : pystr := tmp_path ++ u "/" ++ name.

Definition out_of_fuel {A} : net A := clift (Raise (Exn OutOfFuel [])).
