(* ===== verification/BenchLogic.v ===== *)
(** * BenchLogic: reasoning about probes

    Two logics for the computations of [BenchNet].  [tidy m]: whatever the surroundings
    answer and however [m] ends, what it acquired it has released.  [returns m Q]: a value
    [m] returns satisfies [Q].  Each has one rule per construct, and the automation that
    applies them. *)

From S2P Require Import Prelude Unicode PyStr PyFloat PyVal PyDyn BenchNet.

(** ** Where the trace is *)

Class Traced (S : Type) := trace_of : S -> trace.
#[export] Instance traced_trace : Traced trace := fun t => t.
#[export] Instance traced_vars {L S} `{Traced S} : Traced (L * S) := fun s => trace_of s.2.

(** ** What has to be released *)

Inductive handle := Process (p : proc) | Client (c : http_conn) | Serving (s : server).

#[export] Instance handle_eq_dec : EqDecision handle.
Proof. solve_decision. Defined.

(** The handle a call hands out. *)
Definition acquired (c : call) : answer c -> option handle :=
  match c with
  | Popen _ _ => fun r => match r with Ok p => Some (Process p) | Raise _ => None end
  | Serve _ _ => fun r => match r with Ok s => Some (Serving s) | Raise _ => None end
  | HttpConnection _ _ => fun c => Some (Client c)
  | _ => fun _ => None
  end.

(** A process is given up by SIGTERM or SIGKILL, or when a call shows that it has ended. *)
Definition releases (h : handle) (c : call) : answer c -> bool :=
  match c with
  | Terminate p | Kill p => fun _ => bool_decide (h = Process p)
  | Poll p => fun status => match status with Some _ => bool_decide (h = Process p) | None => false end
  | Wait p _ => fun r => match r with Ok _ => bool_decide (h = Process p) | Raise _ => false end
  | Communicate p _ => fun r => match r with Ok _ => bool_decide (h = Process p) | Raise _ => false end
  | CloseHttp c => fun _ => bool_decide (h = Client c)
  | CloseServer s => fun _ => bool_decide (h = Serving s)
  | _ => fun _ => false
  end.

Definition released (h : handle) (d : trace) : bool := existsb (fun ev => releases h (ev_call ev) (ev_answer ev)) d.

(** Everything acquired in [d] is released later in [d]. *)
Fixpoint balanced (d : trace) : Prop :=
  match d with
  | [] => True
  | ev :: rest =>
      match acquired (ev_call ev) (ev_answer ev) with Some h => released h rest = true | None => True end /\ balanced rest
  end.

Lemma released_app h d1 d2 : released h (d1 ++ d2) = released h d1 || released h d2.
Proof. apply existsb_app. Qed.

Lemma balanced_app d1 d2 : balanced d1 -> balanced d2 -> balanced (d1 ++ d2).
Proof.
  induction d1 as [|ev d1 IH]; [done|]. cbn. intros [Ha Hb] H2. split; [|by apply IH].
  destruct (acquired _ _); [|done]. by rewrite released_app, Ha.
Qed.

Definition given_up (hs : list handle) (d : trace) : Prop := Forall (fun h => released h d = true) hs.

Lemma given_up_app_l hs d1 d2 : given_up hs d1 -> given_up hs (d1 ++ d2).
Proof. intros H. eapply Forall_impl; [apply H|]. intros h Hh. cbn. by rewrite released_app, Hh. Qed.

Lemma given_up_app_r hs d1 d2 : given_up hs d2 -> given_up hs (d1 ++ d2).
Proof. intros H. eapply Forall_impl; [apply H|]. intros h Hh. cbn. by rewrite released_app, Hh, orb_true_r. Qed.

(** ** Tidiness *)

(** [m] leaves nothing behind; [tidy_but hs m]: and it gives up the handles [hs], too. *)
Definition tidy_but {S A} `{Traced S} (hs : list handle) (m : eff S A) : Prop :=
  forall s r s', m s = (r, s') ->
    exists d, trace_of s' = trace_of s ++ d /\ balanced d /\ Forall (fun h => released h d = true) hs.

Abbreviation tidy := (tidy_but []).

Section tidy_rules.
Context {S : Type} `{!Traced S} {A B : Type}.
Implicit Types (m : eff S A) (hs : list handle).

Lemma tidy_ret (x : A) : tidy (cret (S := S) x).
Proof. intros s r s' [= <- <-]. exists []. by rewrite app_nil_r. Qed.

Lemma tidy_lift (x : res A) : tidy (clift (S := S) x).
Proof. intros s r s' [= <- <-]. exists []. by rewrite app_nil_r. Qed.

Lemma tidy_weaken hs m : tidy_but hs m -> tidy m.
Proof. intros H s r s' E. destruct (H _ _ _ E) as (d & ? & ? & _). by exists d. Qed.

Lemma tidy_split hs1 hs2 m : tidy_but hs1 m -> tidy_but hs2 m -> tidy_but (hs1 ++ hs2) m.
Proof.
  intros H1 H2 s r s' E. destruct (H1 _ _ _ E) as (d & E1 & ? & F1), (H2 _ _ _ E) as (d' & E2 & ? & F2).
  rewrite E1 in E2. apply app_inv_head in E2 as ->. exists d'. split_and!; [done..|]. by apply Forall_app.
Qed.

(** A sequence, where the first part gives the handles up. *)
Lemma tidy_bind_first hs m (f : A -> eff S B) : tidy_but hs m -> (forall x, tidy (f x)) -> tidy_but hs (cbind m f).
Proof.
  intros Hm Hf s r s' E. unfold cbind in E. destruct (m s) as [[x|e] s1] eqn:E1.
  - destruct (Hm _ _ _ E1) as (d1 & T1 & B1 & F1), (Hf _ _ _ _ E) as (d2 & T2 & B2 & _). exists (d1 ++ d2).
    rewrite T2, T1, app_assoc. split_and!; [done|by apply balanced_app|].
    eapply Forall_impl; [apply F1|]. intros h Hh. cbn. by rewrite released_app, Hh.
  - injection E as <- <-. destruct (Hm _ _ _ E1) as (d1 & T1 & B1 & F1). by exists d1.
Qed.

Lemma tidy_bind m (f : A -> eff S B) : tidy m -> (forall x, tidy (f x)) -> tidy (cbind m f).
Proof. apply tidy_bind_first. Qed.

Lemma tidy_ret_bind hs (x : A) (f : A -> eff S B) : tidy_but hs (f x) -> tidy_but hs (cbind (cret x) f).
Proof. done. Qed.

Lemma tidy_assoc {C} hs m (f : A -> eff S B) (g : B -> eff S C) :
  tidy_but hs (cbind m (fun x => cbind (f x) g)) -> tidy_but hs (cbind (cbind m f) g).
Proof. intros H s r s' E. apply (H s r s'). rewrite <-E. unfold cbind. by destruct (m s) as [[x|e] s1]. Qed.

(** [try: ... finally: ...]: the last part gives the handles up. *)
Lemma tidy_finally hs m (f : eff S unit) : tidy m -> tidy_but hs f -> tidy_but hs (finally m f).
Proof.
  intros Hm Hf s r s' E. unfold finally in E. destruct (m s) as [r1 s1] eqn:E1, (f s1) as [r2 s2] eqn:E2.
  assert (s' = s2) as -> by (by destruct r2; injection E).
  destruct (Hm _ _ _ E1) as (d1 & T1 & B1 & _), (Hf _ _ _ E2) as (d2 & T2 & B2 & F2). exists (d1 ++ d2).
  rewrite T2, T1, app_assoc. split_and!; [done|by apply balanced_app|].
  eapply Forall_impl; [apply F2|]. intros h Hh. cbn. by rewrite released_app, Hh, orb_true_r.
Qed.

Lemma tidy_catch m p (h : exn -> eff S A) : tidy m -> (forall e, tidy (h e)) -> tidy (catch m p h).
Proof.
  intros Hm Hh s r s' E. unfold catch in E. destruct (m s) as [[x|e] s1] eqn:E1.
  - injection E as <- <-. by eapply Hm.
  - destruct (p e); [|injection E as <- <-; by eapply Hm].
    destruct (Hm _ _ _ E1) as (d1 & T1 & B1 & _), (Hh _ _ _ _ E) as (d2 & T2 & B2 & _). exists (d1 ++ d2).
    rewrite T2, T1, app_assoc. split_and!; [done|by apply balanced_app|done].
Qed.

Lemma tidy_inner {L} hs m : tidy_but hs m -> tidy_but hs (inner (L := L) m).
Proof.
  intros Hm [l s] r s' E. unfold inner in E. destruct (m s) as [r1 s1] eqn:E1. injection E as <- <-. apply (Hm _ _ _ E1).
Qed.

Lemma tidy_update {L} (f : L -> L) : tidy (update (S := S) f).
Proof. intros [l s] r s' [= <- <-]. exists []. by rewrite app_nil_r. Qed.

Lemma tidy_local_vars {L} : tidy (local_vars (L := L) (S := S)).
Proof. intros [l s] r s' [= <- <-]. exists []. by rewrite app_nil_r. Qed.

Lemma tidy_finally_with {L} hs (l : L) (m : eff (L * S) A) (f : L -> eff S unit) :
  tidy m -> (forall l', tidy_but hs (f l')) -> tidy_but hs (finally_with l m f).
Proof.
  intros Hm Hf s r s' E. unfold finally_with in E. destruct (m (l, s)) as [r1 [l1 s1]] eqn:E1.
  destruct (Hm _ _ _ E1) as (d1 & T1 & B1 & _).
  destruct (tidy_finally hs (clift r1) (f l1) (tidy_lift r1) (Hf l1) _ _ _ E) as (d2 & T2 & B2 & F2). exists (d1 ++ d2). cbn in T1. unfold trace_of, traced_vars in T1. cbn in T1.
  rewrite T2. unfold trace_of in T1 |- *. rewrite T1, app_assoc. split_and!; [done|by apply balanced_app|].
  eapply Forall_impl; [apply F2|]. intros h Hh. cbn. by rewrite released_app, Hh, orb_true_r.
Qed.
End tidy_rules.

(** ** A flag that says the work is done *)

(** When [m] raises the flag, it has given [h] up. *)
Definition flagged {S A} `{Traced S} (h : handle) (m : eff (bool * S) A) : Prop :=
  forall l s r l' s', m (l, s) = (r, (l', s')) ->
    exists d, trace_of s' = trace_of s ++ d /\ balanced d /\ (l' = true -> l = true \/ released h d = true).

Section flags.
Context {S : Type} `{!Traced S} {A B : Type} (h : handle).
Implicit Types (m : eff (bool * S) A).

Lemma flagged_released m : tidy_but [h] m -> flagged h m.
Proof.
  intros Hm l s r l' s' E. destruct (Hm _ _ _ E) as (d & T & Hb & F). exists d. split_and!; [done..|]. intros _. right. by inversion F.
Qed.

Lemma flagged_inner (m : eff S A) : tidy m -> flagged h (inner m).
Proof.
  intros Hm l s r l' s' E. unfold inner in E. destruct (m s) as [r1 s1] eqn:E1. injection E as <- <- <-.
  destruct (Hm _ _ _ E1) as (d & T & Hb & _). exists d. split_and!; [done..|]. auto.
Qed.

Lemma flagged_join l l1 l2 d1 d2 : (l1 = true -> l = true \/ released h d1 = true) -> (l2 = true -> l1 = true \/ released h d2 = true) ->
  l2 = true -> l = true \/ released h (d1 ++ d2) = true.
Proof. intros H1 H2 E. rewrite released_app, orb_true_iff. destruct (H2 E) as [[]%H1|]; auto. Qed.

Lemma flagged_bind m (f : A -> eff (bool * S) B) : flagged h m -> (forall x, flagged h (f x)) -> flagged h (cbind m f).
Proof.
  intros Hm Hf l s r l' s' E. unfold cbind in E. destruct (m (l, s)) as [[x|e] [l1 s1]] eqn:E1.
  - destruct (Hm _ _ _ _ _ E1) as (d1 & T1 & B1 & F1), (Hf _ _ _ _ _ _ E) as (d2 & T2 & B2 & F2). exists (d1 ++ d2).
    rewrite T2, T1, app_assoc. split_and!; [done|by apply balanced_app|by eapply flagged_join].
  - injection E as <- <- <-. by eapply Hm.
Qed.

Lemma flagged_catch m p (k : exn -> eff (bool * S) A) : flagged h m -> (forall e, flagged h (k e)) -> flagged h (catch m p k).
Proof.
  intros Hm Hk l s r l' s' E. unfold catch in E. destruct (m (l, s)) as [[x|e] [l1 s1]] eqn:E1.
  - injection E as <- <- <-. by eapply Hm.
  - destruct (p e); [|injection E as <- <- <-; by eapply Hm].
    destruct (Hm _ _ _ _ _ E1) as (d1 & T1 & B1 & F1), (Hk _ _ _ _ _ _ E) as (d2 & T2 & B2 & F2). exists (d1 ++ d2).
    rewrite T2, T1, app_assoc. split_and!; [done|by apply balanced_app|by eapply flagged_join].
Qed.

(** The cleanup may skip what the flag says was done. *)
Lemma tidy_finally_flag m (f : bool -> eff S unit) :
  flagged h m -> tidy_but [h] (f false) -> tidy (f true) -> tidy_but [h] (finally_with false m f).
Proof.
  intros Hm Hf Ht s r s' E. unfold finally_with in E. destruct (m (false, s)) as [r1 [l1 s1]] eqn:E1.
  destruct (Hm _ _ _ _ _ E1) as (d1 & T1 & B1 & F1).
  assert (Hc : tidy_but (if l1 then [] else [h]) (finally (clift r1) (f l1))).
  { apply tidy_finally; [apply tidy_lift|]. by destruct l1. }
  destruct (Hc _ _ _ E) as (d2 & T2 & B2 & F2). exists (d1 ++ d2).
  rewrite T2, T1, app_assoc. split_and!; [done|by apply balanced_app|]. constructor; [|constructor].
  rewrite released_app, orb_true_iff. destruct l1; [|right; by inversion F2]. left. by destruct (F1 eq_refl).
Qed.
End flags.

(** ** Tidiness of the operations *)

Section tidy_operations.
Context (w : world) {A B : Type}.

Lemma tidy_event {S} `{Traced S} hs c (s s' : S) (a : answer c) :
  trace_of s' = trace_of s ++ [Event c a] -> acquired c a = None -> Forall (fun h => releases h c a = true) hs ->
  exists d, trace_of s' = trace_of s ++ d /\ balanced d /\ Forall (fun h => released h d = true) hs.
Proof.
  intros E Hn Hr. exists [Event c a]. cbn. rewrite Hn. split_and!; [done..|].
  eapply Forall_impl; [apply Hr|]. intros h Hh. cbn. by rewrite Hh.
Qed.

Lemma tidy_ask hs c : (forall a, acquired c a = None) -> (forall a, Forall (fun h => releases h c a = true) hs) ->
  tidy_but hs (ask w c).
Proof. intros Hn Hr t r t' [= <- <-]. by eapply tidy_event. Qed.

(** A call that neither hands out nor gives up. *)
Lemma tidy_ask_bind hs c (k : answer c -> net B) :
  (forall a, acquired c a = None) -> (forall a, tidy_but hs (k a)) -> tidy_but hs (cbind (ask w c) k).
Proof.
  intros Hn Hk t r t' E. destruct (Hk _ _ _ _ E) as (d & T & Hb & F). exists (Event c (w t c) :: d).
  unfold trace_of, traced_trace in *. rewrite T, <-app_assoc. split_and!; [done|cbn; by rewrite Hn|].
  eapply Forall_impl; [apply F|]. intros h Hh. cbn. unfold released in Hh. by rewrite Hh, orb_true_r.
Qed.

Lemma tidy_acquire c (k : answer c -> net B) :
  (forall a, tidy_but (option_list (acquired c a)) (k a)) -> tidy (cbind (ask w c) k).
Proof.
  intros Hk t r t' E. destruct (Hk _ _ _ _ E) as (d & T & Hb & F). exists (Event c (w t c) :: d).
  unfold trace_of, traced_trace in *. rewrite T, <-app_assoc. split_and!; [done| |done]. cbn. split; [|done].
  destruct (acquired _ _) as [h|]; [|done]. cbn in F. by inversion F.
Qed.

(** The same below local variables. *)
Lemma tidy_acquire_inner {L} c (k : answer c -> scope L B) :
  (forall a, tidy_but (option_list (acquired c a)) (k a)) -> tidy (cbind (inner (ask w c)) k).
Proof.
  intros Hk [l t] r s' E. destruct (Hk _ _ _ _ E) as (d & T & Hb & F). exists (Event c (w t c) :: d).
  unfold trace_of, traced_vars, trace_of, traced_trace in *. cbn [snd] in *. rewrite T, <-app_assoc. split_and!; [done| |done].
  cbn. split; [|done]. destruct (acquired _ _) as [h|]; [|done]. cbn in F. by inversion F.
Qed.

Lemma tidy_popen argv env (k : proc -> net B) : (forall p, tidy_but [Process p] (k p)) -> tidy (cbind (popen w argv env) k).
Proof.
  intros Hk. cut (tidy (cbind (ask w (Popen argv env)) (fun r => cbind (clift r) k))).
  { intros H t r t' E. apply (H t r t'). rewrite <-E. done. }
  apply tidy_acquire. intros [p|e]; cbn; [apply Hk|exact (tidy_lift (Raise e))].
Qed.

Lemma tidy_serve handler port (k : server -> net B) :
  (forall s, tidy_but [Serving s] (k s)) -> tidy (cbind (ask w (Serve handler port)) (fun r => cbind (clift r) k)).
Proof. intros Hk. apply tidy_acquire. intros [s|e]; cbn; [apply Hk|exact (tidy_lift (Raise e))]. Qed.

Lemma tidy_http_connection port timeout (k : http_conn -> net B) :
  (forall c, tidy_but [Client c] (k c)) -> tidy (cbind (ask w (HttpConnection port timeout)) k).
Proof. intros Hk. by apply tidy_acquire. Qed.

Lemma tidy_close_http c : tidy_but [Client c] (ask w (CloseHttp c)).
Proof. apply tidy_ask; [done|]. intros a. constructor; [|constructor]. by apply bool_decide_eq_true_2. Qed.

Lemma tidy_close_server s : tidy_but [Serving s] (ask w (CloseServer s)).
Proof. apply tidy_ask; [done|]. intros a. constructor; [|constructor]. by apply bool_decide_eq_true_2. Qed.

Lemma tidy_terminate p : tidy_but [Process p] (ask w (Terminate p)).
Proof. apply tidy_ask; [done|]. intros a. constructor; [|constructor]. by apply bool_decide_eq_true_2. Qed.

Lemma tidy_kill p : tidy_but [Process p] (ask w (Kill p)).
Proof. apply tidy_ask; [done|]. intros a. constructor; [|constructor]. by apply bool_decide_eq_true_2. Qed.

(** After [poll]: a process that has ended is given up. *)
Lemma tidy_poll p (k : option Z -> net B) :
  tidy_but [Process p] (k None) -> (forall n, tidy (k (Some n))) -> tidy_but [Process p] (cbind (ask w (Poll p)) k).
Proof.
  intros Hn Hs t r t' E. assert (Hk : forall a, (match a with Some _ => tidy (k a) | None => tidy_but [Process p] (k a) end)).
  { by intros [n|]. }
  specialize (Hk (w t (Poll p))). unfold cbind, ask in E. cbn in E. destruct (w t (Poll p)) as [n|] eqn:Ew; rewrite ?Ew in E;
    destruct (Hk _ _ _ E) as (d & T & Hb & F); exists (Event (Poll p) (w t (Poll p)) :: d); rewrite Ew;
    unfold trace_of, traced_trace in *; rewrite T, <-app_assoc; (split_and!; [done|done|]); cbn.
  - constructor; [|constructor]. cbn. by rewrite bool_decide_eq_true_2.
  - apply F.
Qed.

Lemma tidy_poll_inner {L} p (k : option Z -> scope L B) :
  tidy_but [Process p] (k None) -> (forall n, tidy (k (Some n))) -> tidy_but [Process p] (cbind (inner (ask w (Poll p))) k).
Proof.
  intros Hn Hs [l t] r s' E. unfold cbind, inner, ask in E. cbn in E.
  assert (Hk : forall a, (match a with Some _ => tidy (k a) | None => tidy_but [Process p] (k a) end)) by (by intros [n|]).
  specialize (Hk (w t (Poll p))). destruct (w t (Poll p)) as [n|] eqn:Ew; rewrite ?Ew in E;
    destruct (Hk _ _ _ E) as (d & T & Hb & F); exists (Event (Poll p) (w t (Poll p)) :: d); rewrite Ew;
    unfold trace_of, traced_vars, trace_of, traced_trace in *; cbn [snd] in *; rewrite T, <-app_assoc;
    (split_and!; [done|done|]); cbn.
  - constructor; [|constructor]. cbn. by rewrite bool_decide_eq_true_2.
  - apply F.
Qed.

Lemma tidy_let {S T} `{Traced S} hs (v : T) (f : T -> eff S A) : (forall x, tidy_but hs (f x)) -> tidy_but hs (let x := v in f x).
Proof. intros Hf. apply Hf. Qed.

Lemma tidy_run_scope {L} hs (l : L) (m : scope L unit) : tidy_but hs m -> tidy_but hs (run_scope l m).
Proof.
  intros Hm t r t' E. unfold run_scope in E. destruct (m (l, t)) as [[x|e] [l1 t1]] eqn:E1; injection E as <- <-; apply (Hm _ _ _ E1).
Qed.

Lemma tidy_try_block {L} (l : L) (m : scope L unit) : tidy m -> tidy (try_block l m).
Proof.
  intros Hm t r t' E. unfold try_block in E. destruct (m (l, t)) as [[x|e] [l1 t1]] eqn:E1.
  - injection E as <- <-. apply (Hm _ _ _ E1).
  - destruct (is_exception e); injection E as <- <-; apply (Hm _ _ _ E1).
Qed.

Lemma tidy_attempt (m : net A) : tidy m -> tidy (attempt m).
Proof. intros Hm. apply tidy_catch; [|intros; apply tidy_ret]. apply tidy_bind; [done|]. intros. apply tidy_ret. Qed.

Lemma tidy_ensuring hs (m : net A) (f : net B) : tidy m -> tidy_but hs f -> tidy_but hs (ensuring m f).
Proof.
  intros Hm Hf t r t' E. unfold ensuring in E. destruct (m t) as [r1 s1] eqn:E1, (f s1) as [r2 s2] eqn:E2.
  assert (t' = s2) as -> by (by destruct r2; injection E).
  destruct (Hm _ _ _ E1) as (d1 & T1 & B1 & _), (Hf _ _ _ E2) as (d2 & T2 & B2 & F2). exists (d1 ++ d2).
  rewrite T2, T1, app_assoc. split_and!; [done|by apply balanced_app|].
  eapply Forall_impl; [apply F2|]. intros h Hh. cbn. by rewrite released_app, Hh, orb_true_r.
Qed.

Lemma tidy_for_each (f : A -> net B) l : (forall x, tidy (f x)) -> tidy (for_each f l).
Proof.
  intros Hf. induction l as [|x l IH]; [apply tidy_ret|]. cbn. apply tidy_bind; [done|]. intros y.
  apply tidy_bind; [done|]. intros ys. apply tidy_ret.
Qed.

Lemma tidy_sequence (l : list (net A)) : Forall (fun m => tidy m) l -> tidy (for_each (fun m => m) l).
Proof.
  induction 1 as [|m l Hm Hl IH]; [apply tidy_ret|]. cbn. apply tidy_bind; [done|]. intros y.
  apply tidy_bind; [done|]. intros ys. apply tidy_ret.
Qed.

Lemma tidy_each {S} `{Traced S} (f : A -> eff S unit) l : (forall x, tidy (f x)) -> tidy (each f l).
Proof. intros Hf. induction l as [|x l IH]; [apply tidy_ret|]. cbn. by apply tidy_bind. Qed.
End tidy_operations.

(** A block that leaves its variables as they were. *)
Lemma tidy_finally_keeps {L S A} `{Traced S} hs (l : L) (m : eff (L * S) A) (f : L -> eff S unit) :
  tidy m -> (forall s r l' s', m (l, s) = (r, (l', s')) -> l' = l) -> tidy_but hs (f l) -> tidy_but hs (finally_with l m f).
Proof.
  intros Hm Hl Hf s r s' E. unfold finally_with in E. destruct (m (l, s)) as [r1 [l1 s1]] eqn:E1. rewrite (Hl _ _ _ _ E1) in E.
  destruct (Hm _ _ _ E1) as (d1 & T1 & B1 & _).
  destruct (tidy_finally hs (clift r1) (f l) (tidy_lift r1) Hf _ _ _ E) as (d2 & T2 & B2 & F2). exists (d1 ++ d2).
  unfold trace_of, traced_vars in T1. cbn in T1. rewrite T2. unfold trace_of in T1 |- *. rewrite T1, app_assoc.
  split_and!; [done|by apply balanced_app|by apply given_up_app_r].
Qed.

(** ** Automation *)

(** The elements of a list one by one. *)
Ltac for_all := repeat lazymatch goal with |- Forall _ [] => apply Forall_nil_2 | |- Forall _ (_ :: _) => apply Forall_cons_2 end.

Create HintDb tidy.
#[export] Hint Resolve tidy_ret tidy_lift tidy_update tidy_local_vars : tidy.

Ltac head_of m := lazymatch m with ?f _ => head_of f | _ => m end.

(** One step: the construct at the head of the computation, a lemma about it, or its
    definition. *)
Ltac tidy_step :=
  lazymatch goal with
  | |- forall _, _ => intros ?
  | |- tidy_but _ (let x := _ in _) => apply tidy_let
  | |- tidy_but _ (match ?x with _ => _ end) => destruct x
  | |- tidy_but _ (cbind (popen _ _ _) _) => apply tidy_popen
  | |- tidy_but _ (cbind (ask _ (Serve _ _)) _) => apply tidy_serve
  | |- tidy_but _ (cbind (ask _ (HttpConnection _ _)) _) => apply tidy_http_connection
  | |- tidy_but [] (cbind _ _) => apply tidy_bind
  | |- tidy_but _ (cbind (ask _ (Poll _)) _) => apply tidy_poll
  | |- tidy_but _ (cbind (inner (ask _ (Poll _))) _) => apply tidy_poll_inner
  | |- tidy_but _ (cbind (ask _ (Terminate _)) _) => apply tidy_bind_first
  | |- tidy_but _ (cbind (ask _ (Kill _)) _) => apply tidy_bind_first
  | |- tidy_but _ (cbind (perf_counter _) _) => unfold perf_counter
  | |- tidy_but _ (cbind (sleep _ _) _) => unfold sleep
  | |- tidy_but _ (cbind (match ?x with _ => _ end) _) => destruct x
  | |- tidy_but _ (cbind (cret _) _) => apply tidy_ret_bind
  | |- tidy_but _ (cbind (cbind _ _) _) => apply tidy_assoc
  | |- tidy_but ?hs (cbind (ask ?w ?c) ?k) => apply (tidy_ask_bind w hs c k); [done|]
  | |- tidy_but _ (cbind _ _) => apply tidy_bind_first
  | |- tidy_but _ (finally _ _) => apply tidy_finally
  | |- tidy_but _ (catch _ _ _) => apply tidy_catch
  | |- tidy_but _ (inner _) => apply tidy_inner
  | |- tidy_but _ (finally_with _ _ _) => apply tidy_finally_with
  | |- tidy_but _ (run_scope _ _) => apply tidy_run_scope
  | |- tidy_but _ (try_block _ _) => apply tidy_try_block
  | |- tidy_but _ (attempt _) => apply tidy_attempt
  | |- tidy_but _ (ensuring _ _) => apply tidy_ensuring
  | |- tidy_but _ (for_each (fun m => m) _) => apply tidy_sequence; for_all
  | |- tidy_but _ (for_each _ _) => apply tidy_for_each
  | |- tidy_but _ (each _ _) => apply tidy_each
  | |- tidy_but [_] (ask _ (CloseHttp _)) => apply tidy_close_http
  | |- tidy_but [_] (ask _ (CloseServer _)) => apply tidy_close_server
  | |- tidy_but [_] (ask _ (Terminate _)) => apply tidy_terminate
  | |- tidy_but [_] (ask _ (Kill _)) => apply tidy_kill
  | |- tidy_but [] (ask ?w ?c) => apply (tidy_ask w [] c); [done|intros ?; constructor]
  | |- tidy_but _ (eval _) => apply tidy_lift
  | |- tidy_but _ ?m => first [solve [auto with tidy nocore] | let f := head_of m in unfold f]
  end.

Ltac tidy := repeat tidy_step.

(** ** Values *)

Definition returns {S A} (m : eff S A) (Q : A -> Prop) : Prop := forall s v s', m s = (Ok v, s') -> Q v.

Section returns_rules.
Context {S A B : Type}.
Implicit Types (m : eff S A) (Q : A -> Prop).

Lemma returns_any m : returns m (fun _ => True).
Proof. done. Qed.

Lemma returns_ret (x : A) Q : Q x -> returns (cret (S := S) x) Q.
Proof. by intros HQ s v s' [= <- <-]. Qed.

Lemma returns_lift (x : res A) Q : (forall v, x = Ok v -> Q v) -> returns (clift (S := S) x) Q.
Proof. intros HQ s v s' [= -> <-]. by apply HQ. Qed.

Lemma returns_bind Q m (f : A -> eff S B) (R : B -> Prop) :
  returns m Q -> (forall x, Q x -> returns (f x) R) -> returns (cbind m f) R.
Proof.
  intros Hm Hf s v s' E. unfold cbind in E. destruct (m s) as [[x|e] s1] eqn:E1; [|done]. by eapply Hf; [eapply Hm|].
Qed.

Lemma returns_finally m (f : eff S unit) Q : returns m Q -> returns (finally m f) Q.
Proof.
  intros Hm s v s' E. unfold finally in E. destruct (m s) as [r s1] eqn:E1, (f s1) as [[|] s2]; [|done]. injection E as -> <-.
  by eapply Hm.
Qed.

Lemma returns_catch m p (h : exn -> eff S A) Q : returns m Q -> (forall e, returns (h e) Q) -> returns (catch m p h) Q.
Proof.
  intros Hm Hh s v s' E. unfold catch in E. destruct (m s) as [[x|e] s1] eqn:E1; [injection E as <- <-; by eapply Hm|].
  destruct (p e); [by eapply Hh|done].
Qed.

Lemma returns_inner {L} m Q : returns m Q -> returns (inner (L := L) m) Q.
Proof. intros Hm [l s] v s' E. unfold inner in E. destruct (m s) as [r s1] eqn:E1. injection E as -> <-. by eapply Hm. Qed.

Lemma returns_finally_with {L} (l : L) (m : eff (L * S) A) (f : L -> eff S unit) Q : returns m Q -> returns (finally_with l m f) Q.
Proof.
  intros Hm s v s' E. unfold finally_with, finally, clift in E. destruct (m (l, s)) as [r [l1 s1]] eqn:E1.
  destruct (f l1 s1) as [[|] s2]; [|done]. injection E as -> <-. by eapply Hm.
Qed.
End returns_rules.

(** ** Exceptions *)

Definition raises {S A} (m : eff S A) (Q : exn -> Prop) : Prop := forall s e s', m s = (Raise e, s') -> Q e.

Section raises_rules.
Context {S A B : Type}.
Implicit Types (m : eff S A) (Q : exn -> Prop).

Lemma raises_ret (x : A) Q : raises (cret (S := S) x) Q.
Proof. done. Qed.

Lemma raises_lift (x : res A) Q : (forall e, x = Raise e -> Q e) -> raises (clift (S := S) x) Q.
Proof. intros HQ s e s' [= -> <-]. by apply HQ. Qed.

Lemma raises_bind m (f : A -> eff S B) Q : raises m Q -> (forall x, raises (f x) Q) -> raises (cbind m f) Q.
Proof.
  intros Hm Hf s e s' E. unfold cbind in E. destruct (m s) as [[x|e1] s1] eqn:E1; [by eapply Hf|]. injection E as -> ->. by eapply Hm.
Qed.

Lemma raises_catch R m p (h : exn -> eff S A) Q :
  raises m R -> (forall e, R e -> p e = false -> Q e) -> (forall e, raises (h e) Q) -> raises (catch m p h) Q.
Proof.
  intros Hm Hp Hh s e s' E. unfold catch in E. destruct (m s) as [[x|e1] s1] eqn:E1; [done|]. pose proof (Hm _ _ _ E1) as HR.
  destruct (p e1) eqn:Ep; [by eapply Hh|]. injection E as -> ->. by apply Hp.
Qed.

Lemma raises_finally m (f : eff S unit) Q : raises m Q -> raises f Q -> raises (finally m f) Q.
Proof.
  intros Hm Hf s e s' E. unfold finally in E. destruct (m s) as [r s1] eqn:E1, (f s1) as [[|e2] s2] eqn:E2; injection E as -> ->;
    [by eapply Hm|by eapply Hf].
Qed.
End raises_rules.

(** A call and what becomes of its answer. *)
Lemma raises_ask_bind {A} w c (k : answer c -> net A) Q : (forall t, raises (k (w t c)) Q) -> raises (cbind (ask w c) k) Q.
Proof. intros Hk t e t' E. unfold cbind, ask in E. by eapply Hk. Qed.

(** ** Invariants of local variables *)

(** [m] keeps the invariant [I] of the variables, whether it returns or raises. *)
Definition keeps {L S A} (I : L -> Prop) (m : eff (L * S) A) : Prop :=
  forall l s r l' s', I l -> m (l, s) = (r, (l', s')) -> I l'.

Section keeps_rules.
Context {L S A B : Type} (I : L -> Prop).
Implicit Types (m : eff (L * S) A).

Lemma keeps_lift (x : res A) : keeps I (clift (S := L * S) x).
Proof. by intros l s r l' s' HI [= <- <- <-]. Qed.

Lemma keeps_inner (m : eff S A) : keeps I (inner m).
Proof. intros l s r l' s' HI E. unfold inner in E. destruct (m s). by injection E as <- <- <-. Qed.

Lemma keeps_update f : (forall l, I l -> I (f l)) -> keeps (S := S) I (update f).
Proof. intros Hf l s r l' s' HI [= <- <- <-]. by apply Hf. Qed.

Lemma keeps_bind Q m (f : A -> eff (L * S) B) : keeps I m -> returns m Q -> (forall x, Q x -> keeps I (f x)) -> keeps I (cbind m f).
Proof.
  intros Hm HQ Hf l s r l' s' HI E. unfold cbind in E. destruct (m (l, s)) as [[x|e] [l1 s1]] eqn:E1.
  - eapply Hf; [by eapply HQ|by eapply Hm|done].
  - injection E as <- <- <-. by eapply Hm.
Qed.

Lemma keeps_catch m p (h : exn -> eff (L * S) A) : keeps I m -> (forall e, keeps I (h e)) -> keeps I (catch m p h).
Proof.
  intros Hm Hh l s r l' s' HI E. unfold catch in E. destruct (m (l, s)) as [[x|e] [l1 s1]] eqn:E1.
  - injection E as <- <- <-. by eapply Hm.
  - destruct (p e); [|injection E as <- <- <-; by eapply Hm]. eapply Hh; [by eapply Hm|done].
Qed.

Lemma keeps_finally m f : keeps I m -> keeps I f -> keeps I (finally m f).
Proof.
  intros Hm Hf l s r l' s' HI E. unfold finally in E. destruct (m (l, s)) as [r1 [l1 s1]] eqn:E1, (f (l1, s1)) as [r2 [l2 s2]] eqn:E2.
  assert (l' = l2) as -> by (by destruct r2; injection E). by eapply Hf; [eapply Hm|].
Qed.
End keeps_rules.

Lemma returns_try_block {L} (I : L -> Prop) l (m : scope L unit) : I l -> keeps I m -> returns (try_block l m) (fun r => I r.1).
Proof.
  intros HI Hm t v t' E. unfold try_block in E. destruct (m (l, t)) as [[x|e] [l1 t1]] eqn:E1.
  - injection E as <- <-. by eapply Hm.
  - destruct (is_exception e); [|done]. injection E as <- <-. by eapply Hm.
Qed.

Ltac keeps_step :=
  lazymatch goal with
  | |- keeps _ (cbind _ _) => eapply keeps_bind; [|apply returns_any|intros ? _]
  | |- keeps _ (catch _ _ _) => apply keeps_catch; [|intros ?]
  | |- keeps _ (finally _ _) => apply keeps_finally
  | |- keeps _ (inner _) => apply keeps_inner
  | |- keeps _ (clift _) => apply keeps_lift
  | |- keeps _ (update _) => apply keeps_update
  end.
