(* ===== verification/BenchHttp.v ===== *)
(** * BenchHttp: HTTP as the local benchmark reads and serves it

    [tools/run_local_bench.py]: the parsers of raw responses, the reader of one response
    on a socket, the requests through [http.client], the metrics page, and the origin
    server the proxy forwards to ([FastHttpHandler]). *)

From S2P Require Import Prelude Unicode PyStr PyFloat PyVal PyDyn Json BenchNet.

(** ** Bytes *)

Definition CRLF : bytes := [13; 10]%N.

(** A header line or a request line with its line end. *)
Definition line (s : pystr) : bytes := s ++ CRLF.

(** [s.partition(sep)]: [None] when [sep] does not occur. *)
Fixpoint partition (sep s : pystr) : option (pystr * pystr) :=
  if starts_with sep s then Some ([], drop (length sep) s)
  else match s with
       | [] => None
       | a :: rest => prod_map (cons a) id <$> partition sep rest
       end.

(** [header, _, body = s.partition(sep)] *)
Definition partitioned (sep s : pystr) : pystr * pystr := default (s, []) (partition sep s).

(** [s.split(sep)] for a separator of two characters *)
Fixpoint split_pair (a b : N) (s : pystr) : list pystr :=
  match s with
  | [] => [[]]
  | c :: rest =>
      match rest with
      | d :: rest' =>
          if (c =? a)%N && (d =? b)%N then [] :: split_pair a b rest'
          else match split_pair a b rest with x :: xs => (c :: x) :: xs | [] => [[c]] end
      | [] => [[c]]
      end
  end.

(** [bytes.strip()] *)
Definition is_ascii_space (c : N) : bool := (c =? 32)%N || ((9 <=? c)%N && (c <=? 13)%N).
Definition strip_bytes (s : bytes) : bytes := strip_by is_ascii_space s.

Definition is_ascii (c : N) : bool := (c <? 128)%N.

(** [s.decode("ascii", errors="ignore")]; [s.encode("ascii")] *)
Definition decode_ascii (s : bytes) : pystr := filter (fun c => is_ascii c = true) s.
Definition encode_ascii (s : pystr) : res bytes :=
  if forallb is_ascii s then Ok s else Raise (Exn UnicodeEncodeError (u "ordinal not in range(128)")).

(** [s.lower()] on the code points of ISO 8859-1 *)
Definition lower_latin1 (s : pystr) : pystr :=
  (fun c => if ((192 <=? c) && (c <=? 222) && negb (c =? 215))%N then (c + 32)%N else lower_char c) <$> s.

(** [int(s)] for bytes: no digits or spaces beyond ASCII *)
Definition int_of_bytes (s : bytes) : res Z :=
  if forallb is_ascii s then int_of_str (u "b" ++ repr_str s) s
  else Raise (Exn ValueError (u "invalid literal for int() with base 10: b" ++ repr_str s)).

(** [s.decode("utf-8", errors="replace")]: a maximal prefix of a sequence that is not
    complete gives one replacement character. *)
Definition continuation (c : N) : bool := (128 <=? c)%N && (c <=? 191)%N.
Definition second_of (lead c : N) : bool :=
  (if (lead =? 224)%N then (160 <=? c)%N && (c <=? 191)%N
   else if (lead =? 237)%N then (128 <=? c)%N && (c <=? 159)%N
   else if (lead =? 240)%N then (144 <=? c)%N && (c <=? 191)%N
   else if (lead =? 244)%N then (128 <=? c)%N && (c <=? 143)%N
   else continuation c).

Fixpoint decode_utf8 (s : bytes) : pystr :=
  match s with
  | [] => []
  | a :: rest =>
      if (a <? 128)%N then a :: decode_utf8 rest
      else if (194 <=? a)%N && (a <=? 223)%N then
        match rest with
        | b :: rest' => if continuation b then ((a - 192) * 64 + (b - 128))%N :: decode_utf8 rest' else 65533%N :: decode_utf8 rest
        | [] => [65533%N]
        end
      else if (224 <=? a)%N && (a <=? 239)%N then
        match rest with
        | b :: rest' =>
            if second_of a b then
              match rest' with
              | c :: rest'' =>
                  if continuation c then ((a - 224) * 4096 + (b - 128) * 64 + (c - 128))%N :: decode_utf8 rest''
                  else 65533%N :: decode_utf8 rest'
              | [] => [65533%N]
              end
            else 65533%N :: decode_utf8 rest
        | [] => [65533%N]
        end
      else if (240 <=? a)%N && (a <=? 244)%N then
        match rest with
        | b :: rest' =>
            if second_of a b then
              match rest' with
              | c :: rest'' =>
                  if continuation c then
                    match rest'' with
                    | d :: rest3 =>
                        if continuation d
                        then ((a - 240) * 262144 + (b - 128) * 4096 + (c - 128) * 64 + (d - 128))%N :: decode_utf8 rest3
                        else 65533%N :: decode_utf8 rest''
                    | [] => [65533%N]
                    end
                  else 65533%N :: decode_utf8 rest'
              | [] => [65533%N]
              end
            else 65533%N :: decode_utf8 rest
        | [] => [65533%N]
        end
      else 65533%N :: decode_utf8 rest
  end.

(** ** Headers *)

Definition str_or_none (s : option pystr) : pyval := match s with Some x => VStr x | None => VNone end.
Definition int_or_none (n : option Z) : pyval := match n with Some z => VInt z | None => VNone end.

(** [header_value]: the first line after the request line whose name is [name] *)
Definition header_value (headers name : pystr) : option pystr :=
  let prefix := lower name ++ u ":" in
  match List.find (fun l => starts_with prefix (lower l)) (tail (splitlines headers)) with
  | Some l => Some (strip (default [] (split1 58 l).2))
  | None => None
  end.

(** [headers_from_raw_response] *)
Definition header_pair (l : bytes) : option (pystr * pystr) :=
  match split1 58 l with
  | (name, Some v) => Some (lower (decode_ascii name), strip (decode_ascii v))
  | (_, None) => None
  end.

Definition headers_from_raw_response (raw : bytes) : pydict :=
  let header := (partitioned (CRLF ++ CRLF) raw).1 in
  dupdate [] ((fun h => (h.1, VStr h.2)) <$> omap header_pair (tail (split_pair 13 10 header))).

(** [int(raw.split(b" ", 2)[1])] of a raw response, [None] if there is no such number *)
Definition status_of_raw (raw : bytes) : option Z :=
  if starts_with (u "HTTP/") raw then
    match (split1 32 raw).2 with
    | Some rest => match int_of_bytes (split1 32 rest).1 with Ok z => Some z | Raise _ => None end
    | None => None
    end
  else None.

(** ** Chunked bodies *)

(** [int(token, 16)] for bytes: an optional sign, an optional [0x], and hexadecimal digits
    with single underscores between them. *)
Fixpoint scan_hex (acc : N) (need : bool) (s : bytes) : option N :=
  match s with
  | [] => if need then None else Some acc
  | c :: rest =>
      match hex_value c with
      | Some d => scan_hex (16 * acc + d)%N false rest
      | None => if (c =? 95)%N && negb need then scan_hex acc true rest else None
      end
  end.

Definition hex_digits (s : bytes) : option N :=
  match s with
  | z :: x :: rest =>
      if (z =? 48)%N && ((x =? 120)%N || (x =? 88)%N)
      then match rest with c :: rest' => if (c =? 95)%N then scan_hex 0 true rest' else scan_hex 0 true rest | [] => None end
      else scan_hex 0 true s
  | _ => scan_hex 0 true s
  end.

Definition int_base16 (token : bytes) : option Z :=
  match strip_bytes token with
  | c :: rest =>
      if (c =? 45)%N then (fun n => - Z.of_N n)%Z <$> hex_digits rest
      else if (c =? 43)%N then Z.of_N <$> hex_digits rest
      else Z.of_N <$> hex_digits (c :: rest)
  | [] => None
  end.

(** A slice bound or search start of Python: a negative one counts from the end. *)
Definition py_bound (n : nat) (k : Z) : nat :=
  Z.to_nat (Z.min (Z.of_nat n) (if (k <? 0)%Z then Z.max 0 (Z.of_nat n + k) else k)).

(** [body[i:j]] *)
Definition py_slice (body : bytes) (i j : Z) : bytes :=
  let n := length body in take (py_bound n j - py_bound n i) (drop (py_bound n i) body).

(** [body.find(b"\r\n", idx)] *)
Definition find_crlf (body : bytes) (idx : Z) : option nat :=
  let start := py_bound (length body) idx in
  (fun p => start + length p.1) <$> partition CRLF (drop start body).

(** [chunked_message_complete], with [fuel] bounding the loop *)
Fixpoint chunked_from (fuel : nat) (body : bytes) (idx : Z) : res bool :=
  match fuel with
  | O => Raise (Exn OutOfFuel [])
  | S fuel' =>
      match find_crlf body idx with
      | None => Ok false
      | Some line_end =>
          match int_base16 (split1 59 (py_slice body idx (Z.of_nat line_end))).1 with
          | None => Ok false
          | Some size =>
              let idx := (Z.of_nat line_end + 2)%Z in
              if (size =? 0)%Z then
                let trailer := drop (Z.to_nat idx) body in
                Ok (starts_with CRLF trailer || contains (CRLF ++ CRLF) trailer)
              else if (Z.of_nat (length body) <? idx + size + 2)%Z then Ok false
              else
                let idx := (idx + size)%Z in
                if negb (str_eqb (py_slice body idx (idx + 2)) CRLF) then Ok false
                else chunked_from fuel' body (idx + 2)
          end
      end
  end.

Definition chunked_message_complete (fuel : nat) (body : bytes) : res bool := chunked_from fuel body 0.

(** ** Reading responses *)

(** The lines of a message head and the blank line that ends it. *)
Definition message (lines : list pystr) : bytes := mjoin (line <$> lines) ++ CRLF.

Section reading.
Context (w : world) (fuel : nat).

(** [while not done(raw): chunk = sock.recv(size(raw)); if not chunk: break; raw += chunk] *)
Fixpoint recv_while (fuel : nat) (s : sock) (more : bytes -> bool) (size : bytes -> Z) (raw : bytes) : net bytes :=
  if more raw then
    match fuel with
    | O => out_of_fuel
    | S fuel' =>
        perform chunk <- recv w s (size raw) in
        match chunk with [] => cret raw | _ => recv_while fuel' s more size (raw ++ chunk) end
    end
  else cret raw.

(** The header fields, and the content length they announce. *)
Definition response_header (acc : pydict * Z) (l : pystr) : res (pydict * Z) :=
  match split1 58 l with
  | (_, None) => Ok acc
  | (name, Some v) =>
      let name := lower_latin1 (strip name) in
      let v := strip v in
      let headers := dset name (VStr v) acc.1 in
      if str_eqb name (u "content-length") && str_isdigit v
      then let* n := int_of_str (repr_str v) v in Ok (headers, n)
      else Ok (headers, acc.2)
  end.

(** [read_http_response_on_socket] *)
Definition read_http_response_on_socket (s : sock) : net pyval :=
  perform raw <- recv_while fuel s (fun raw => negb (contains (CRLF ++ CRLF) raw)) (fun _ => 4096%Z) [] in
  let '(header, body) := partitioned (CRLF ++ CRLF) raw in
  let complete := contains (CRLF ++ CRLF) raw in
  perform parsed <- clift (foldM response_header ([], 0%Z) (tail (splitlines header))) in
  let content_length := parsed.2 in
  perform body <- recv_while fuel s (fun body => (Z.of_nat (length body) <? content_length)%Z)
                    (fun body => (content_length - Z.of_nat (length body))%Z) body in
  cret (VDict [(u "status", int_or_none (status_of_raw header));
               (u "header_complete", VBool complete);
               (u "headers", VDict parsed.1);
               (u "body", VStr (decode_utf8 body));
               (u "body_bytes", VInt (Z.of_nat (length body)))]).

(** [recv_exact] *)
Definition recv_exact (s : sock) (size : Z) : net bytes :=
  recv_while fuel s (fun got => (0 <? size - Z.of_nat (length got))%Z) (fun got => (size - Z.of_nat (length got))%Z) [].

(** ** [http.client] *)

(** [conn.request(...)], [conn.getresponse()] and [resp.read()] *)
Definition http_exchange (c : http_conn) (method path : pystr) (body : option bytes) (headers : list (pystr * pystr)) :
    net (http_head * bytes) :=
  perform r <- ask w (HttpRequest c method path body headers) in
  perform _ <- clift r in
  perform r <- ask w (GetResponse c) in
  perform head <- clift r in
  perform r <- ask w (ReadBody c) in
  perform body <- clift r in
  cret (head, body).

(** [resp.getheader(name)]: the values of every field of that name, joined *)
Definition getheader (head : http_head) (name : pystr) : pyval :=
  match (filter (fun h : pystr * pystr => lower h.1 = lower name) (hh_headers head)).*2 with
  | [] => VNone
  | vs => VStr (join (u ", ") vs)
  end.

Definition probe_agent : list (pystr * pystr) := [(u "User-Agent", u "altura-guardrail-probe/1.0")].

(** [get_status] *)
Definition get_status (port : Z) (method path : pystr) (body : bytes) (timeout : float) (headers : list (pystr * pystr)) : net pyval :=
  perform c <- ask w (HttpConnection port timeout) in
  finally
    (catch (perform r <- http_exchange c method path (Some body) (dupdate probe_agent headers) in
            cret (VInt (hh_status r.1)))
       is_exception (fun _ => cret VNone))
    (ask w (CloseHttp c)).

(** [get_status_and_headers] *)
Definition get_status_and_headers (port : Z) (method path : pystr) (body : bytes) (timeout : float)
    (headers : list (pystr * pystr)) : net pyval :=
  perform c <- ask w (HttpConnection port timeout) in
  finally
    (catch (perform r <- http_exchange c method path (Some body) (dupdate probe_agent headers) in
            cret (VDict [(u "status", VInt (hh_status r.1));
                         (u "headers", VDict (dupdate [] ((fun h => (lower_latin1 h.1, VStr h.2)) <$> hh_headers r.1)))]))
       is_exception
       (fun e => cret (VDict [(u "status", VNone); (u "headers", VDict []); (u "error", VStr (exn_name e))])))
    (ask w (CloseHttp c)).

(** One line of the metrics page. *)
Definition metric_line (metrics : pydict) (l : pystr) : res pydict :=
  match split_ws l with
  | [name; v] => if str_isdigit v then let* n := int_of_str (repr_str v) v in Ok (dset name (VInt n) metrics) else Ok metrics
  | _ => Ok metrics
  end.

(** [fetch_metrics] *)
Definition fetch_metrics (port : Z) (token : pystr) (headers : list (pystr * pystr)) : net pyval :=
  perform c <- ask w (HttpConnection port (sec 2 1)) in
  finally
    (perform r <- http_exchange c (u "GET") (u "/__altura/metrics") None (dupdate [(u "x-altura-admin-token", token)] headers) in
     if (hh_status r.1 =? 200)%Z
     then perform metrics <- clift (foldM metric_line [] (splitlines (decode_utf8 r.2))) in cret (VDict metrics)
     else cret (VDict []))
    (ask w (CloseHttp c)).

(** ** Waiting for the proxy *)

(** [wait_http] *)
Fixpoint wait_http_until (fuel : nat) (port : Z) (path : pystr) (deadline : float) : net unit :=
  perform now <- ask w WallClock in
  if fltb now deadline then
    match fuel with
    | O => out_of_fuel
    | S fuel' =>
        perform c <- ask w (HttpConnection port (sec 2 10)) in
        perform ready <-
          finally
            (catch (perform r <- http_exchange c (u "GET") path None [] in cret (hh_status r.1 <? 500)%Z)
               is_exception (fun _ => perform _ <- sleep w (sec 1 10) in cret false))
            (ask w (CloseHttp c)) in
        if ready then cret tt else wait_http_until fuel' port path deadline
    end
  else clift (Raise (Exn RuntimeError (u "AlturaProt did not become ready"))).

Definition wait_http (port : Z) : net unit :=
  perform now <- ask w WallClock in wait_http_until fuel port (u "/__altura/health") (fadd now (sec 5 1)).

(** [wait_tcp_port] *)
Fixpoint wait_tcp_until (fuel : nat) (port : Z) (deadline : float) : net unit :=
  perform now <- ask w WallClock in
  if fltb now deadline then
    match fuel with
    | O => out_of_fuel
    | S fuel' =>
        perform ready <-
          catch (with_connection w port (sec 2 10) (fun _ => cret true))
            is_exception (fun _ => perform _ <- sleep w (sec 1 10) in cret false) in
        if ready then cret tt else wait_tcp_until fuel' port deadline
    end
  else clift (Raise (Exn RuntimeError (u "AlturaProt TCP listener did not become ready"))).

Definition wait_tcp_port (port : Z) : net unit :=
  perform now <- ask w WallClock in wait_tcp_until fuel port (fadd now (sec 5 1)).
End reading.
