(* ===== verification/BenchWire.v ===== *)
(** * BenchWire: messages on a stream of bytes

    [tools/run_local_bench.py]: its readers see a message in whatever pieces the network
    delivers it.  The response reader returns the same response for every segmentation, and
    the origin takes a chunked body for complete exactly when its last byte is there. *)

From S2P Require Import Prelude Unicode PyStr PyFloat PyVal PyDyn BenchNet BenchHttp.

(** ** The first occurrence of a separator *)

Lemma starts_with_longer p s t : length p <= length s -> starts_with p (s ++ t) = starts_with p s.
Proof. revert s. induction p as [|a p IH]; intros [|b s]; cbn; try done; try lia. intros Hl. rewrite IH by lia. done. Qed.

Lemma partition_some sep s a b : partition sep s = Some (a, b) -> s = a ++ sep ++ b.
Proof.
  revert a. induction s as [|c s IH]; intros a; cbn [partition].
  - destruct sep; [|done]. by intros [= <- <-].
  - destruct (starts_with sep (c :: s)) eqn:E.
    + intros [= <- <-]. apply starts_with_spec in E as [r E]. rewrite E, drop_app_length. done.
    + destruct (partition sep s) as [[a' b']|]; [|done]. intros [= <- <-]. cbn. by rewrite (IH a' eq_refl) at 1.
Qed.

(** More bytes do not move the first occurrence. *)
Lemma partition_app sep s t a b : partition sep s = Some (a, b) -> partition sep (s ++ t) = Some (a, b ++ t).
Proof.
  revert a. induction s as [|c s IH]; intros a Hp; pose proof (partition_some _ _ _ _ Hp) as Hs; cbn [partition] in Hp.
  - destruct sep; [|by destruct a]. destruct a; [|done]. destruct b; [|done]. by destruct t.
  - assert (Hl : length sep <= length (c :: s)) by (rewrite Hs, !length_app; lia).
    pose proof (starts_with_longer sep (c :: s) t Hl) as Hst. cbn [app partition] in *. rewrite Hst.
    destruct (starts_with sep (c :: s)) eqn:E.
    + injection Hp as <- <-. rewrite app_comm_cons, drop_app_le by done. done.
    + destruct (partition sep s) as [[a' b']|]; [|done]. injection Hp as <- <-. by rewrite (IH a' eq_refl).
Qed.

Lemma contains_partition sep s : contains sep s = true <-> is_Some (partition sep s).
Proof.
  induction s as [|c s IH]; cbn [partition contains].
  - rewrite orb_false_r. destruct (starts_with sep []); split; (done || by intros []).
  - destruct (starts_with sep (c :: s)); cbn [orb]; [by split|]. rewrite IH. destruct (partition sep s); cbn; [by split|].
    split; by intros [].
Qed.

(** ** A stream delivered in pieces *)

(** The bytes the socket has delivered so far. *)
Definition delivered (s : sock) (t : trace) : bytes :=
  mjoin ((fun ev => match ev_call ev as c return answer c -> bytes with
                    | Recv s' _ => fun r => if (s' =? s) then match r with Ok chunk => chunk | Raise _ => [] end else []
                    | _ => fun _ => []
                    end (ev_answer ev)) <$> t).

Lemma delivered_snoc s t n r : delivered s (t ++ [Event (Recv s n) r]) = delivered s t ++ match r with Ok chunk => chunk | Raise _ => [] end.
Proof. unfold delivered. rewrite fmap_app, join_app. cbn. by rewrite Nat.eqb_refl, app_nil_r. Qed.

(** The peer has sent [data] on [s]: as long as some of it is left, [recv] delivers the next
    bytes, at least one and at most as many as asked for.  What happens after the last byte
    is open: the peer may close, stay silent or reset. *)
Definition sends (w : world) (s : sock) (data : bytes) : Prop :=
  forall t n rest, data = delivered s t ++ rest -> rest <> [] -> (0 < n)%Z ->
    exists chunk tail, w t (Recv s n) = Ok chunk /\ rest = chunk ++ tail /\ chunk <> [] /\ (Z.of_nat (length chunk) <= n)%Z.

Section stream.
Context (w : world) (s : sock) (data : bytes) (Hw : sends w s data).

(** The loop of the readers: while [more], which needs bytes that are still to come. *)
Lemma recv_while_stream fuel more size raw rest t :
  data = delivered s t ++ rest -> length rest <= fuel ->
  (forall raw' rest', raw' ++ rest' = raw ++ rest -> more raw' = true -> rest' <> [] /\ (0 < size raw')%Z) ->
  exists raw' rest' t', recv_while w fuel s more size raw t = (Ok raw', t') /\ raw' ++ rest' = raw ++ rest /\ more raw' = false /\
    data = delivered s t' ++ rest'.
Proof.
  revert raw rest t. induction fuel as [|fuel IH]; intros raw rest t Ht Hf Hm; cbn [recv_while].
  - destruct (more raw) eqn:E; [|by exists raw, rest, t]. destruct (Hm raw rest eq_refl E) as [Hr _]. by destruct rest; [|cbn in Hf; lia].
  - destruct (more raw) eqn:E; [|by exists raw, rest, t]. destruct (Hm raw rest eq_refl E) as [Hr Hs].
    destruct (Hw t (size raw) rest Ht Hr Hs) as (chunk & tl & Ec & -> & Hne & Hl).
    unfold recv, cbind, ask, clift. rewrite Ec. destruct chunk as [|c chunk]; [done|].
    destruct (IH (raw ++ c :: chunk) tl (t ++ [Event (Recv s (size raw)) (Ok (c :: chunk))])) as (raw' & rest' & t' & E1 & E2 & E3 & E4).
    + rewrite delivered_snoc, Ht, <-app_assoc. done.
    + rewrite length_app in Hf. cbn in Hf. lia.
    + intros raw1 rest1 E1. apply Hm. by rewrite E1, <-app_assoc.
    + exists raw', rest', t'. split_and!; [done| |done..]. by rewrite E2, <-app_assoc.
Qed.

(** The header loop stops inside the data, with the blank line in what it has. *)
Lemma header_read fuel head body t :
  partition (CRLF ++ CRLF) data = Some (head, body) -> delivered s t = [] -> length data <= fuel ->
  exists raw got rest t', recv_while w fuel s (fun raw => negb (contains (CRLF ++ CRLF) raw)) (fun _ => 4096%Z) [] t = (Ok raw, t') /\
    contains (CRLF ++ CRLF) raw = true /\ partition (CRLF ++ CRLF) raw = Some (head, got) /\ body = got ++ rest /\
    data = delivered s t' ++ rest.
Proof.
  intros Hp Ht Hf.
  destruct (recv_while_stream fuel (fun raw => negb (contains (CRLF ++ CRLF) raw)) (fun _ => 4096%Z) [] data t)
    as (raw & rest & t' & E & Hr & Hm & Hd); [by rewrite Ht|done| |].
  - intros raw rest Hr Hm. split; [|done]. intros ->. rewrite app_nil_r in Hr. cbn in Hr. subst raw.
    assert (Hc : contains (CRLF ++ CRLF) data = true) by (apply contains_partition; by rewrite Hp). by rewrite Hc in Hm.
  - apply negb_false_iff in Hm. pose proof (proj1 (contains_partition _ _) Hm) as [[h got] Hp'].
    pose proof (partition_app _ _ rest _ _ Hp') as Hq. cbn in Hr. rewrite Hr, Hp in Hq. injection Hq as <- ->.
    exists raw, got, rest, t'. done.
Qed.

(** The body loop stops at the last byte the content length announces. *)
Lemma body_read fuel body got rest t :
  body = got ++ rest -> data = delivered s t ++ rest -> length data <= fuel ->
  exists t', recv_while w fuel s (fun b => (Z.of_nat (length b) <? Z.of_nat (length body))%Z)
    (fun b => (Z.of_nat (length body) - Z.of_nat (length b))%Z) got t = (Ok body, t').
Proof.
  intros -> Hd Hf.
  destruct (recv_while_stream fuel (fun b => (Z.of_nat (length b) <? Z.of_nat (length (got ++ rest)))%Z)
    (fun b => (Z.of_nat (length (got ++ rest)) - Z.of_nat (length b))%Z) got rest t)
    as (raw & rest' & t' & E & Hr & Hm & Hd'); [done|rewrite Hd, length_app in Hf; lia| |].
  - intros raw rest' <-. rewrite length_app. intros Hm%Z.ltb_lt. split; [|lia]. intros ->. cbn in Hm. lia.
  - exists t'. rewrite E. rewrite <-Hr, length_app in Hm. apply Z.ltb_ge in Hm.
    destruct rest'; [|cbn in Hm; lia]. rewrite app_nil_r in Hr. by rewrite Hr.
Qed.
End stream.

(** ** The response reader *)

(** The announced content length, as the header loop of the reader leaves it. *)
Definition response_headers (head : bytes) : res (pydict * Z) := foldM response_header ([], 0%Z) (tail (splitlines head)).

(** C18. The benchmark's own reader of a response does not depend on how the network cuts the
    stream.  Whatever a socket delivers per [recv] (any non-empty piece of what is left, never
    more than was asked for), a response whose header ends with a blank line and whose body has
    the announced length is read to its last byte and no further, the loops end, and the
    result is the status, the header fields, and the body of the message that was sent. *)
Theorem read_response_any_segments w s data head body headers fuel t :
  sends w s data ->
  partition (CRLF ++ CRLF) data = Some (head, body) ->
  response_headers head = Ok (headers, Z.of_nat (length body)) ->
  delivered s t = [] -> length data <= fuel ->
  exists t', read_http_response_on_socket w fuel s t =
    (Ok (VDict [(u "status", int_or_none (status_of_raw head));
                (u "header_complete", VBool true);
                (u "headers", VDict headers);
                (u "body", VStr (decode_utf8 body));
                (u "body_bytes", VInt (Z.of_nat (length body)))]), t').
Proof.
  intros Hw Hp Hh Ht Hf.
  destruct (header_read w s data Hw fuel head body t Hp Ht Hf) as (raw & got & rest & t1 & E1 & Hc & Hr & Hb & Hd).
  destruct (body_read w s data Hw fuel body got rest t1 Hb Hd Hf) as (t2 & E2).
  assert (Hr' : partitioned (CRLF ++ CRLF) raw = (head, got)) by (unfold partitioned; by rewrite Hr).
  exists t2. unfold read_http_response_on_socket, cbind. rewrite E1, Hc, Hr'. unfold clift. unfold response_headers in Hh.
  rewrite Hh. cbn [snd fst]. rewrite E2. done.
Qed.

(** A peer that answers nothing but [recv], and delivers [data] in pieces of at most [k] bytes. *)
Definition drip (s : sock) (k : nat) (data : bytes) : world := fun t c =>
  match c return answer c with
  | Recv s' n => if (s' =? s) then Ok (take (k `min` Z.to_nat n) (drop (length (delivered s t)) data)) else Ok []
  | c => quiet t c
  end.

Lemma drip_sends s k data : 0 < k -> sends (drip s k data) s data.
Proof.
  intros Hk t n rest -> Hr Hn. cbn [drip]. rewrite Nat.eqb_refl, drop_app_length.
  exists (take (k `min` Z.to_nat n) rest), (drop (k `min` Z.to_nat n) rest). rewrite take_drop. split_and!; [done..| |].
  - destruct rest as [|c rest]; [done|]. destruct (k `min` Z.to_nat n) eqn:E; [lia|done].
  - rewrite length_take. lia.
Qed.

Definition short_response : bytes := message [u "HTTP/1.1 200 OK"; u "Content-Length: 5"] ++ u "hello".

Lemma read_response_any_segments_witness :
  exists t', read_http_response_on_socket (drip 7 3 short_response) (length short_response) 7 [] =
    (Ok (VDict [(u "status", VInt 200); (u "header_complete", VBool true);
                (u "headers", VDict [(u "content-length", VStr (u "5"))]);
                (u "body", VStr (u "hello")); (u "body_bytes", VInt 5)]), t').
Proof.
  eapply (read_response_any_segments _ 7 short_response (u "HTTP/1.1 200 OK" ++ CRLF ++ u "Content-Length: 5") (u "hello")
    [(u "content-length", VStr (u "5"))]); [apply drip_sends; lia|vm_compute; reflexivity..|lia].
Defined.

(** ** Chunked bodies *)

(** Where a prefix of a concatenation ends. *)
Lemma prefix_app_cases {A} (p a b : list A) : p `prefix_of` a ++ b -> p `prefix_of` a \/ exists q, p = a ++ q /\ q `prefix_of` b.
Proof.
  revert p. induction a as [|x a IH]; intros p Hp; [right; by exists p|].
  destruct p as [|y p]; [left; apply prefix_nil|]. cbn in Hp.
  pose proof (prefix_cons_inv_1 _ _ _ _ Hp) as ->. apply prefix_cons_inv_2 in Hp.
  destruct (IH p Hp) as [H|(q & -> & H)]; [left; by apply prefix_cons|right; by exists q].
Qed.

(** A line without a carriage return ends at the first line end. *)
Lemma partition_line l x : 13%N ∉ l -> partition CRLF (l ++ CRLF ++ x) = Some (l, x).
Proof.
  induction l as [|c l IH]; intros Hl; [done|]. apply not_elem_of_cons in Hl as [Hc Hl].
  cbn [app partition starts_with CRLF]. rewrite (proj2 (N.eqb_neq 13 c)) by done. cbn [andb]. change (13%N :: 10%N :: x) with (CRLF ++ x).
  fold CRLF. by rewrite IH.
Qed.

Lemma partition_open l p : 13%N ∉ l -> p `prefix_of` l ++ [13%N] -> partition CRLF p = None.
Proof.
  revert p. induction l as [|c l IH]; intros p Hl Hp.
  - destruct p as [|x p]; [done|]. pose proof (prefix_cons_inv_1 _ _ _ _ Hp) as ->. apply prefix_cons_inv_2, prefix_nil_inv in Hp as ->. done.
  - destruct p as [|x p]; [done|]. pose proof (prefix_cons_inv_1 _ _ _ _ Hp) as ->. apply prefix_cons_inv_2 in Hp.
    apply not_elem_of_cons in Hl as [Hc Hl]. cbn [partition starts_with CRLF].
    rewrite (proj2 (N.eqb_neq 13 c)) by done. cbn [andb]. fold CRLF. by rewrite (IH p Hl Hp).
Qed.

(** The loop looks only at what follows its index. *)
Lemma find_crlf_app pre rest : find_crlf (pre ++ rest) (Z.of_nat (length pre)) = (fun p => length pre + length p.1) <$> partition CRLF rest.
Proof.
  unfold find_crlf. assert (E : py_bound (length (pre ++ rest)) (Z.of_nat (length pre)) = length pre).
  { unfold py_bound. rewrite length_app. rewrite (proj2 (Z.ltb_ge _ _)) by lia. lia. }
  by rewrite E, drop_app_length.
Qed.

Lemma py_slice_app pre x y :
  py_slice (pre ++ x ++ y) (Z.of_nat (length pre)) (Z.of_nat (length pre) + Z.of_nat (length x)) = x.
Proof.
  unfold py_slice. assert (E : forall k, k <= length (pre ++ x ++ y) -> py_bound (length (pre ++ x ++ y)) (Z.of_nat k) = k).
  { intros k Hk. unfold py_bound. rewrite (proj2 (Z.ltb_ge _ _)) by lia. lia. }
  rewrite <-Nat2Z.inj_add, !E by (rewrite !length_app; lia). rewrite drop_app_length.
  replace (length pre + length x - length pre) with (length x) by lia. apply take_app_length.
Qed.

(** The size a chunk line announces. *)
Definition chunk_size (l : bytes) : option Z := int_base16 (split1 59 l).1.

(** A whole size line is at the index: what the loop does with the rest. *)
Lemma chunked_line fuel pre l r :
  13%N ∉ l ->
  let body := pre ++ l ++ CRLF ++ r in
  let idx := Z.of_nat (length (pre ++ l ++ CRLF)) in
  chunked_from (S fuel) body (Z.of_nat (length pre)) =
    match chunk_size l with
    | None => Ok false
    | Some size =>
        if (size =? 0)%Z then Ok (starts_with CRLF r || contains (CRLF ++ CRLF) r)
        else if (Z.of_nat (length body) <? idx + size + 2)%Z then Ok false
        else if negb (str_eqb (py_slice body (idx + size) (idx + size + 2)) CRLF) then Ok false
        else chunked_from fuel body (idx + size + 2)
    end.
Proof.
  intros Hl body idx. unfold body, idx, chunk_size. cbn [chunked_from]. rewrite find_crlf_app, partition_line by done. cbn [fmap option_fmap option_map fst].
  rewrite Nat2Z.inj_add, py_slice_app. destruct (int_base16 _) as [size|]; [|done].
  replace (Z.of_nat (length pre) + Z.of_nat (length l) + 2)%Z with (Z.of_nat (length (pre ++ l ++ CRLF))) by (rewrite !length_app; cbn [CRLF length]; lia).
  rewrite Nat2Z.id. replace (pre ++ l ++ CRLF ++ r) with ((pre ++ l ++ CRLF) ++ r) by by rewrite <-!app_assoc.
  by rewrite drop_app_length.
Qed.

(** The size line is not whole yet. *)
Lemma chunked_open fuel pre l p : 13%N ∉ l -> p `prefix_of` l ++ [13%N] -> chunked_from (S fuel) (pre ++ p) (Z.of_nat (length pre)) = Ok false.
Proof. intros Hl Hp. cbn [chunked_from]. by rewrite find_crlf_app, (partition_open l) by done. Qed.

(** A chunk: its size line, extensions included, and its data. *)
Definition chunk_ok (c : bytes * bytes) : Prop :=
  (13%N ∉ c.1) /\ chunk_size c.1 = Some (Z.of_nat (length c.2)) /\ c.2 <> [].
Definition encode_chunk (c : bytes * bytes) : bytes := c.1 ++ CRLF ++ c.2 ++ CRLF.

(** The chunks, the last chunk's line, and the trailer fields with their blank line. *)
Definition chunked_body (chunks : list (bytes * bytes)) (last : bytes) (fields : list bytes) : bytes :=
  mjoin (encode_chunk <$> chunks) ++ last ++ CRLF ++ message fields.

Definition field_ok (f : bytes) : Prop := (13%N ∉ f) /\ f <> [].

Definition chunked_ok (chunks : list (bytes * bytes)) (last : bytes) (fields : list bytes) : Prop :=
  Forall chunk_ok chunks /\ (13%N ∉ last) /\ chunk_size last = Some 0%Z /\ Forall field_ok fields.

(** A size line that [a] opens is either open or whole in a prefix. *)
Lemma line_cases p l x : p `prefix_of` l ++ CRLF ++ x -> p `prefix_of` l ++ [13%N] \/ exists q, p = l ++ CRLF ++ q /\ q `prefix_of` x.
Proof.
  intros Hp. change (CRLF ++ x) with ([13%N] ++ (10%N :: x)) in Hp. rewrite app_assoc in Hp.
  apply prefix_app_cases in Hp as [Hp|(q & -> & Hq)]; [by left|].
  destruct q as [|c q]; [left; by rewrite app_nil_r|]. right.
  pose proof (prefix_cons_inv_1 _ _ _ _ Hq) as ->. apply prefix_cons_inv_2 in Hq. exists q. split; [|done]. by rewrite <-app_assoc.
Qed.

(** One whole chunk moves the index past it; a part of one is not enough. *)
Lemma chunked_chunk fuel pre c r :
  chunk_ok c ->
  chunked_from (S fuel) (pre ++ encode_chunk c ++ r) (Z.of_nat (length pre)) =
  chunked_from fuel ((pre ++ encode_chunk c) ++ r) (Z.of_nat (length (pre ++ encode_chunk c))).
Proof.
  destruct c as [l d]. intros (Hl & Hs & Hd). cbn [fst snd] in *. unfold encode_chunk. cbn [fst snd].
  replace (pre ++ (l ++ CRLF ++ d ++ CRLF) ++ r) with (pre ++ l ++ CRLF ++ (d ++ CRLF ++ r)) by by rewrite <-!app_assoc.
  rewrite chunked_line, Hs by done.
  rewrite (proj2 (Z.eqb_neq _ _)) by (destruct d; [done|cbn; lia]).
  rewrite (proj2 (Z.ltb_ge _ _)) by (rewrite !length_app; cbn [CRLF length]; lia).
  replace (pre ++ l ++ CRLF ++ d ++ CRLF ++ r) with ((pre ++ l ++ CRLF ++ d) ++ CRLF ++ r) by by rewrite <-!app_assoc.
  replace (Z.of_nat (length (pre ++ l ++ CRLF)) + Z.of_nat (length d))%Z with (Z.of_nat (length (pre ++ l ++ CRLF ++ d)))
    by (rewrite !length_app; lia).
  change 2%Z with (Z.of_nat (length CRLF)) at 1. rewrite py_slice_app, (proj2 (str_eqb_eq _ _) eq_refl). cbn [negb].
  f_equal; [by rewrite <-!app_assoc|rewrite !length_app; cbn [CRLF length]; lia].
Qed.

Lemma chunked_chunk_part fuel pre c p :
  chunk_ok c -> p `prefix_of` encode_chunk c -> p <> encode_chunk c -> chunked_from (S fuel) (pre ++ p) (Z.of_nat (length pre)) = Ok false.
Proof.
  destruct c as [l d]. intros (Hl & Hs & Hd) Hp Hn. cbn [fst snd] in *. unfold encode_chunk in *. cbn [fst snd] in *.
  apply line_cases in Hp as [Hp|(q & -> & Hq)]; [by apply (chunked_open _ _ l)|].
  rewrite chunked_line, Hs by done. rewrite (proj2 (Z.eqb_neq _ _)) by (destruct d; [done|cbn; lia]).
  assert (Hlt : length q < length d + 2).
  { destruct Hq as [x Hq]. assert (Hlen : length (d ++ CRLF) = length q + length x) by by rewrite Hq, length_app.
    rewrite length_app in Hlen. cbn [CRLF length] in Hlen.
    destruct x as [|y x]; [|cbn in Hlen; lia]. rewrite app_nil_r in Hq. by rewrite Hq in Hn. }
  rewrite (proj2 (Z.ltb_lt _ _)); [done|]. rewrite !length_app. cbn [CRLF length]. lia.
Qed.

(** The end of the trailer: a blank line right after the last line read. *)
Definition trailer_ends (tr : bytes) : bool := starts_with CRLF tr || contains (CRLF ++ CRLF) tr.

Lemma contains_skip l x : 13%N ∉ l -> contains (CRLF ++ CRLF) (l ++ x) = contains (CRLF ++ CRLF) x.
Proof.
  induction l as [|c l IH]; intros Hl; [done|]. apply not_elem_of_cons in Hl as [Hc Hl].
  cbn [app contains starts_with CRLF]. rewrite (proj2 (N.eqb_neq 13 c)) by done. by apply IH.
Qed.

Lemma contains_crlf tr : contains (CRLF ++ CRLF) (CRLF ++ tr) = trailer_ends tr.
Proof. destruct tr as [|a [|b tr]]; done. Qed.

Lemma trailer_field f tr : field_ok f -> trailer_ends (f ++ CRLF ++ tr) = trailer_ends tr.
Proof.
  intros [Hf Hn]. unfold trailer_ends at 1. rewrite contains_skip, contains_crlf by done.
  destruct f as [|c f]; [done|]. apply not_elem_of_cons in Hf as [Hc Hf]. cbn [app starts_with CRLF].
  by rewrite (proj2 (N.eqb_neq 13 c)) by done.
Qed.

Lemma trailer_open f p : field_ok f -> p `prefix_of` f ++ [13%N] -> trailer_ends p = false.
Proof.
  intros [Hf Hn] Hp. apply prefix_app_cases in Hp as [Hp|(q & -> & Hq)].
  - assert (Hp13 : 13%N ∉ p) by (intros H; apply Hf; destruct Hp as [x ->]; apply elem_of_app; by left).
    unfold trailer_ends. rewrite <-(app_nil_r p) at 2. rewrite contains_skip by done.
    destruct p as [|c p]; [done|]. apply not_elem_of_cons in Hp13 as [Hc _]. cbn [starts_with CRLF].
    by rewrite (proj2 (N.eqb_neq 13 c)) by done.
  - unfold trailer_ends. rewrite contains_skip by done. destruct f as [|c f]; [done|]. apply not_elem_of_cons in Hf as [Hc _].
    cbn [app starts_with CRLF]. rewrite (proj2 (N.eqb_neq 13 c)) by done. destruct q as [|a q]; [done|].
    pose proof (prefix_cons_inv_1 _ _ _ _ Hq) as ->. by apply prefix_cons_inv_2, prefix_nil_inv in Hq as ->.
Qed.

Lemma leb_sub a b k : b <= k -> (a <=? k - b) = (b + a <=? k).
Proof. intros Hk. destruct (Nat.leb_spec a (k - b)), (Nat.leb_spec (b + a) k); (done || lia). Qed.

Lemma message_cons f fields : message (f :: fields) = f ++ CRLF ++ message fields.
Proof. unfold message, line. cbn. by rewrite <-!app_assoc. Qed.

(** What the trailer test says of any part of a trailer, and of a trailer that is followed
    by more. *)
Lemma trailer_take fields more k : Forall field_ok fields -> trailer_ends (take k (message fields ++ more)) = (length (message fields) <=? k).
Proof.
  intros Hf. revert k. induction Hf as [|f fields Hok Hf IH]; intros k.
  - destruct k as [|[|k]]; done.
  - rewrite message_cons, !length_app, <-!app_assoc, Nat.add_assoc. cbn [CRLF length].
    destruct (decide (k < length f + 2)) as [Hk|Hk].
    + rewrite (proj2 (Nat.leb_gt _ _)) by lia. apply (trailer_open f); [done|].
      change (CRLF ++ message fields ++ more) with ([13%N] ++ [10%N] ++ message fields ++ more).
      rewrite app_assoc, take_app_le by (rewrite length_app; cbn; lia). apply prefix_take.
    + rewrite app_assoc, take_app_ge by (rewrite length_app; cbn [CRLF length]; lia).
      rewrite <-app_assoc, trailer_field, IH, length_app by done. cbn [CRLF length]. apply leb_sub. lia.
Qed.

Lemma chunked_body_cons c chunks last fields : chunked_body (c :: chunks) last fields = encode_chunk c ++ chunked_body chunks last fields.
Proof. unfold chunked_body. cbn. by rewrite <-!app_assoc. Qed.

Lemma chunked_take fuel chunks last fields more pre k :
  chunked_ok chunks last fields -> length chunks < fuel ->
  chunked_from fuel (pre ++ take k (chunked_body chunks last fields ++ more)) (Z.of_nat (length pre)) =
  Ok (length (chunked_body chunks last fields) <=? k).
Proof.
  intros (Hc & Hl & Hs & Hf). revert fuel pre k. induction Hc as [|c chunks Hok Hc IH]; intros [|fuel] pre k Hfuel; try (cbn in Hfuel; lia).
  - unfold chunked_body. cbn [fmap list_fmap mjoin list_join app]. rewrite <-!app_assoc.
    destruct (line_cases (take k (last ++ CRLF ++ message fields ++ more)) last (message fields ++ more) (prefix_take _ _)) as [Hp|(q & E & Hq)].
    + rewrite (chunked_open _ _ last) by done. assert (Hk : k < length last + 2).
      { destruct Hp as [x Hx]. apply (f_equal length) in Hx. rewrite !length_app, length_take, !length_app in Hx.
        unfold message in Hx. rewrite length_app in Hx. cbn [CRLF length] in Hx. lia. }
      rewrite (proj2 (Nat.leb_gt _ _)); [done|]. rewrite !length_app. cbn [CRLF length]. lia.
    + assert (Hk : length last + 2 <= k /\ q = take (k - (length last + 2)) (message fields ++ more)).
      { assert (Hk : length last + 2 <= k).
        { pose proof (f_equal length E) as E'. rewrite length_take, !length_app in E'. cbn [CRLF length] in E'. lia. }
        split; [done|]. rewrite app_assoc, take_app_ge in E by (rewrite length_app; cbn [CRLF length]; lia).
        rewrite length_app, (app_assoc last) in E. cbn [CRLF length] in E. by apply app_inv_head in E. }
      destruct Hk as [Hk ->]. rewrite E, chunked_line, Hs, Z.eqb_refl by done. fold (trailer_ends (take (k - (length last + 2)) (message fields ++ more))).
      rewrite trailer_take, leb_sub by done. rewrite !length_app. cbn [CRLF length]. by rewrite Nat.add_assoc.
  - rewrite chunked_body_cons, length_app, <-app_assoc.
    destruct (decide (k < length (encode_chunk c))) as [Hk|Hk].
    + rewrite take_app_le by lia. rewrite (chunked_chunk_part _ _ c); [|done|apply prefix_take|].
      * rewrite (proj2 (Nat.leb_gt _ _)); [done|lia].
      * intros E. apply (f_equal length) in E. rewrite length_take in E. lia.
    + rewrite take_app_ge, chunked_chunk, IH, leb_sub by (done || (cbn in Hfuel; lia)). done.
Qed.

(** C19. The benchmark's origin takes a chunked body for complete exactly when the last byte of
    it has arrived.  For chunks whose size lines (extensions included) announce the length of
    their data, a last line that announces none, and trailer fields: cut the stream, and
    whatever follows the body on it, after [k] bytes, and [chunked_message_complete] says true
    if and only if the whole body is among them; the loop needs one round per chunk. *)
Theorem chunked_complete_iff chunks last fields more fuel k :
  chunked_ok chunks last fields -> length chunks < fuel ->
  chunked_message_complete fuel (take k (chunked_body chunks last fields ++ more)) =
  Ok (length (chunked_body chunks last fields) <=? k).
Proof. apply (chunked_take fuel chunks last fields more []). Qed.

Lemma chunked_complete_iff_witness :
  chunked_body [(u "5;ext=1", u "hello"); (u "1", u "!")] (u "0") [u "X-Sum: 6"] =
    u "5;ext=1" ++ CRLF ++ u "hello" ++ CRLF ++ u "1" ++ CRLF ++ u "!" ++ CRLF ++ u "0" ++ CRLF ++ u "X-Sum: 6" ++ CRLF ++ CRLF /\
  forall k, chunked_message_complete 3 (take k (chunked_body [(u "5;ext=1", u "hello"); (u "1", u "!")] (u "0") [u "X-Sum: 6"] ++ u "GET /")) =
    Ok (37 <=? k).
Proof.
  split; [reflexivity|]. intros k. apply chunked_complete_iff; [|cbn; lia].
  split_and!; [repeat constructor; try done; apply (bool_decide_unpack _); vm_compute; done| |reflexivity|
    repeat constructor; try done; apply (bool_decide_unpack _); vm_compute; done].
  apply (bool_decide_unpack _). vm_compute. done.
Defined.

(** A negative size leads the loop back to where it was. *)
Definition looping_body : bytes := u "1" ++ CRLF ++ u "a" ++ CRLF ++ u "-6" ++ CRLF.

Lemma looping_from fuel : chunked_from fuel looping_body 6 = Raise (Exn OutOfFuel []).
Proof. induction fuel as [|fuel IH]; [done|]. cbn [chunked_from]. exact IH. Qed.

(** The same loop never ends on a chunk line with a negative size, which [int(token, 16)]
    accepts: on the ten bytes [1\r\na\r\n-6\r\n] no number of rounds is enough. *)
Theorem chunked_diverges fuel : chunked_message_complete fuel looping_body = Raise (Exn OutOfFuel []).
Proof. destruct fuel as [|fuel]; [done|]. unfold chunked_message_complete. cbn [chunked_from]. exact (looping_from fuel). Qed.
