(* ===== verification/BenchOrigin.v ===== *)
(** * BenchOrigin: the origin servers of the local benchmark

    [tools/run_local_bench.py]: [FastHttpHandler], the HTTP server the proxy forwards to,
    with the misbehaving responses the probes ask it for, and [FastTcpHandler], the echo
    server behind the TCP listener.  A handler is a computation on its connection. *)

From S2P Require Import Prelude Unicode PyStr PyFloat PyVal PyDyn Json BenchNet BenchHttp.

(** [except (BrokenPipeError, ConnectionAbortedError, ConnectionResetError)] *)
Definition is_disconnect (e : exn) : bool :=
  match exn_class e with
  | BrokenPipeError | ConnectionAbortedError | ConnectionResetError | RemoteDisconnected => true
  | _ => false
  end.

(** The fields [GET /headers] reports, with the header each shows. *)
Definition REPORTED_HEADERS : list (pystr * pystr) :=
  [(u "forwarded", u "forwarded"); (u "x_forwarded_for", u "x-forwarded-for"); (u "x_forwarded_host", u "x-forwarded-host");
   (u "x_forwarded_proto", u "x-forwarded-proto"); (u "x_forwarded_server", u "x-forwarded-server");
   (u "x_forwarded_port", u "x-forwarded-port"); (u "x_forwarded_scheme", u "x-forwarded-scheme");
   (u "x_real_ip", u "x-real-ip"); (u "x_forwarded", u "x-forwarded"); (u "x_forwarded_prefix", u "x-forwarded-prefix");
   (u "x_forwarded_uri", u "x-forwarded-uri"); (u "x_forwarded_path", u "x-forwarded-path");
   (u "x_original_forwarded_for", u "x-original-forwarded-for"); (u "x_original_host", u "x-original-host");
   (u "x_original_url", u "x-original-url"); (u "x_rewrite_url", u "x-rewrite-url");
   (u "cf_connecting_ip", u "cf-connecting-ip"); (u "true_client_ip", u "true-client-ip");
   (u "fastly_client_ip", u "fastly-client-ip"); (u "client_ip", u "client-ip"); (u "x_client_ip", u "x-client-ip");
   (u "x_cluster_client_ip", u "x-cluster-client-ip"); (u "x_originating_ip", u "x-originating-ip");
   (u "x_remote_ip", u "x-remote-ip"); (u "x_remote_addr", u "x-remote-addr");
   (u "accept_encoding", u "accept-encoding"); (u "connection", u "connection");
   (u "proxy_connection", u "proxy-connection"); (u "keep_alive", u "keep-alive"); (u "te", u "te");
   (u "trailer", u "trailer"); (u "upgrade", u "upgrade"); (u "x_hop_by_hop_attack", u "x-hop-by-hop-attack")].

Definition sorted_style : layout_style := Style None (u ", ") (u ": ") true.

(** The body of [GET /headers]. *)
Definition headers_report (headers : pystr) : bytes :=
  dumps sorted_style (VDict ((fun f => (f.1, str_or_none (header_value headers f.2))) <$> REPORTED_HEADERS)).

Section origin.
Context (w : world) (fuel : nat).

Definition sendall_quietly (s : sock) (data : bytes) : net unit :=
  catch (sendall w s data) is_os_error (fun _ => cret tt).

(** [while remaining > 0: part = chunk[: min(len(chunk), remaining)]; sendall(part); remaining -= len(part)] *)
Fixpoint send_chunks (n : nat) (s : sock) (chunk : bytes) (remaining : Z) : net unit :=
  if (0 <? remaining)%Z then
    match n with
    | O => out_of_fuel
    | S n' =>
        let part := take (Z.to_nat (Z.min (Z.of_nat (length chunk)) remaining)) chunk in
        perform _ <- sendall w s part in
        send_chunks n' s chunk (remaining - Z.of_nat (length part))
    end
  else cret tt.

Definition requested (request_line : pystr) (prefix : pystr) : bool := starts_with prefix request_line.

(** The answer to one request: whether the connection goes on. *)
Definition respond (s : sock) (headers request_line : pystr) : net bool :=
  let keep_alive status := message [u "HTTP/1.1 " ++ status; u "Content-Length: 0"; u "Connection: keep-alive"] in
  if requested request_line (u "GET /headers ") then
    let body := headers_report headers in
    perform _ <- sendall w s (message [u "HTTP/1.1 200 OK"; u "Content-Length: " ++ dec_nat (length body);
                                       u "Content-Type: application/json"; u "Connection: close"] ++ body) in
    cret false
  else if requested request_line (u "POST /drain ") then
    perform _ <- sendall w s (keep_alive (u "200 OK")) in cret true
  else if requested request_line (u "GET /slow ") then
    perform _ <- sleep w (sec 35 100) in
    perform _ <- sendall w s (keep_alive (u "204 No Content")) in cret true
  else if requested request_line (u "GET /stalled-response ") then
    perform _ <- sendall w s (message [u "HTTP/1.1 200 OK"; u "Content-Length: 4"; u "Connection: keep-alive"]) in
    perform _ <- sleep w (sec 2 1) in cret false
  else if requested request_line (u "GET /slow-drip-response ") then
    perform _ <- sendall w s (message [u "HTTP/1.1 200 OK"; u "Content-Length: 3"; u "Connection: close"] ++ u "a") in
    perform _ <- sleep w (sec 8 100) in
    perform _ <- sendall_quietly s (u "b") in
    perform _ <- sleep w (sec 8 100) in
    perform _ <- sendall_quietly s (u "c") in cret false
  else if requested request_line (u "GET /huge-response-headers ") then
    perform _ <- sendall w s (message [u "HTTP/1.1 200 OK"; u "X-Huge-Origin-Header: " ++ replicate (Z.to_nat 12000) 120%N;
                                       u "Content-Length: 0"; u "Connection: close"]) in
    cret false
  else if requested request_line (u "GET /hop-by-hop-response ") then
    perform _ <- sendall w s (message [u "HTTP/1.1 200 OK"; u "Content-Length: 2"; u "Connection: close"; u "Connection: X-Origin-Hop";
                                       u "X-Origin-Hop: should-strip"; u "Proxy-Connection: keep-alive"; u "Keep-Alive: timeout=999";
                                       u "TE: trailers"; u "Trailer: X-Origin-Trailer"; u "Upgrade: websocket"] ++ u "ok") in
    cret false
  else if requested request_line (u "GET /many-response-headers ") then
    let headers_out := (fun idx => u "X-Origin-" ++ dec_nat idx ++ u ": " ++ dec_nat idx) <$> seq 0 16 in
    perform _ <- sendall w s (message ([u "HTTP/1.1 200 OK"] ++ headers_out ++ [u "Content-Length: 0"; u "Connection: close"])) in
    cret false
  else if requested request_line (u "GET /large-response ") then
    perform _ <- sendall w s (message [u "HTTP/1.1 200 OK"; u "Content-Length: 16"; u "Connection: close"] ++ u "0123456789abcdef") in
    cret false
  else if requested request_line (u "GET /huge-response ") then
    let total := (32 * 1024 * 1024)%Z in
    perform _ <- ask w (SetTimeout s (sec 1 1)) in
    perform _ <-
      catch (perform _ <- sendall w s (message [u "HTTP/1.1 200 OK"; u "Content-Length: " ++ dec_Z total; u "Connection: close"]) in
             send_chunks 512 s (replicate (Z.to_nat 65536) 120%N) total)
        is_os_error (fun _ => cret tt) in
    cret false
  else if requested request_line (u "GET /response-trailers ") then
    perform _ <- sendall w s (message [u "HTTP/1.1 200 OK"; u "Transfer-Encoding: chunked"; u "Trailer: X-Origin-Trailer";
                                       u "Connection: close"] ++
                              line (u "5") ++ line (u "hello") ++ message [u "0"; u "X-Origin-Trailer: drop-me"]) in
    cret false
  else perform _ <- sendall w s (keep_alive (u "204 No Content")) in cret true.

(** [while <more>(body): data = recv(4096); if not data: return; body += data]: [None] when
    the peer closed first *)
Fixpoint read_body (fuel : nat) (s : sock) (more : bytes -> res bool) (body : bytes) : net (option bytes) :=
  perform again <- clift (more body) in
  if (again : bool) then
    match fuel with
    | O => out_of_fuel
    | S fuel' =>
        perform data <- recv w s 4096 in
        match data with [] => cret None | _ => read_body fuel' s more (body ++ data) end
    end
  else cret (Some body).

(** The rest of a request whose head is complete: what remains in the buffer afterwards. *)
Definition request_body (s : sock) (headers : pystr) (body : bytes) : net (option bytes) :=
  let content_length := default [] (header_value headers (u "content-length")) in
  let transfer_encoding := default [] (header_value headers (u "transfer-encoding")) in
  if str_eqb (lower transfer_encoding) (u "chunked") then
    perform r <- read_body fuel s (fun body => let* done := chunked_message_complete fuel body in Ok (negb done)) body in
    cret ((fun _ => []) <$> r)
  else
    perform expected <- clift (if str_isdigit content_length then int_of_str (repr_str content_length) content_length else Ok 0%Z) in
    perform r <- read_body fuel s (fun body => Ok (Z.of_nat (length body) <? expected)%Z) body in
    cret ((fun body => drop (Z.to_nat expected) body) <$> r).

(** [FastHttpHandler._handle] *)
Fixpoint handle_requests (n : nat) (s : sock) (buf : bytes) : net unit :=
  match n with
  | O => out_of_fuel
  | S n' =>
      perform data <- recv w s 4096 in
      match data with
      | [] => cret tt
      | _ =>
          let buf := buf ++ data in
          match partition (CRLF ++ CRLF) buf with
          | None => handle_requests n' s buf
          | Some (headers, body) =>
              let request_line := default [] (head (splitlines headers)) in
              perform rest <- request_body s headers body in
              match rest with
              | None => cret tt
              | Some buf =>
                  perform again <- respond s headers request_line in
                  if (again : bool) then handle_requests n' s buf else cret tt
              end
          end
      end
  end.

(** [FastHttpHandler.handle] *)
Definition fast_http_handle (s : sock) : net unit :=
  catch (handle_requests fuel s []) is_disconnect (fun _ => cret tt).

(** [FastTcpHandler.handle] *)
Fixpoint fast_tcp_handle (n : nat) (s : sock) : net unit :=
  match n with
  | O => out_of_fuel
  | S n' =>
      perform again <-
        catch (perform data <- recv w s 4096 in
               match data with [] => cret false | _ => perform _ <- sendall w s data in cret true end)
          is_disconnect (fun _ => cret false) in
      if (again : bool) then fast_tcp_handle n' s else cret tt
  end.

(** [TcpHeadOfLineHandler.handle] *)
Definition head_of_line_handle (s : sock) : net unit :=
  catch (perform _ <- catch (perform r <- ask w (SetReceiveBuffer s 4096) in clift r) is_os_error (fun _ => cret tt) in
         perform _ <- sleep w (sec 1 10) in
         perform _ <- sendall w s (u "pong") in
         sleep w (sec 1 1))
    is_disconnect (fun _ => cret tt).
End origin.
