(* ===== verification/BenchSend.v ===== *)
(** * BenchSend: the requests the probes send

    [tools/run_local_bench.py]: the functions that open a connection to the proxy, send a
    request that is malformed, slow, oversized or ordinary, and report what came back. *)

From S2P Require Import Prelude Unicode PyStr PyFloat PyVal PyDyn Json BenchNet BenchHttp BenchOrigin.

Open Scope dyn_scope.

(** [error = type(exc).__name__], [None] without an exception *)
Definition error_of (e : option exn) : pyval := match e with Some e => VStr (exn_name e) | None => VNone end.
Definition error_of_res {A} (r : res A) : pyval := match r with Ok _ => VNone | Raise e => VStr (exn_name e) end.

(** [raw = b""] unless the block that assigns it last completed *)
Definition raw_of (r : res bytes) : bytes := match r with Ok raw => raw | Raise _ => [] end.

Definition bytes_len (s : bytes) : pyval := VInt (Z.of_nat (length s)).
Definition is_empty {A} (l : list A) : bool := match l with [] => true | _ => false end.

(** [headers.get(name)] of a dict of strings, and [headers.get(name) == text] *)
Definition field (headers : pydict) (name : pystr) : pyval := or_none (dget name headers).
Definition field_is (headers : pydict) (name text : pystr) : pyval := VBool (py_eqb (field headers name) (VStr text)).

(** [len(raw.partition(b"\r\n\r\n")[2])] *)
Definition body_len (raw : bytes) : pyval := bytes_len (partitioned (CRLF ++ CRLF) raw).2.

Section sending.
Context (w : world) (fuel : nat).

Let read_response := read_http_response_on_socket w fuel.

(** [while True: chunk = sock.recv(4096); if not chunk: break; raw += chunk]: what was
    received is kept when [recv] raises. *)
Fixpoint recv_rest (fuel : nat) (s : sock) : scope bytes unit :=
  match fuel with
  | O => inner out_of_fuel
  | S fuel' =>
      perform chunk <- inner (recv w s 4096) in
      match chunk with [] => cret tt | _ => perform _ <- update (fun raw => raw ++ chunk) in recv_rest fuel' s end
  end.

(** [try: with create_connection(...) as sock: settimeout(2.0); sendall(data); rest; raw = recv(4096)
    except Exception] *)
Definition raw_exchange (port : Z) (data : bytes) (rest : sock -> net unit) : net (res bytes) :=
  attempt (with_connection w port (sec 2 1) (fun s =>
    perform _ <- ask w (SetTimeout s (sec 2 1)) in
    perform _ <- sendall w s data in
    perform _ <- rest s in
    recv w s 4096)).

Definition send_duplicate_admin_token_metrics_request (port : Z) : net pyval :=
  catch (with_connection w port (sec 2 1) (fun s =>
           perform _ <- ask w (SetTimeout s (sec 2 1)) in
           perform _ <- sendall w s (message [u "GET /__altura/metrics HTTP/1.1"; u "Host: 127.0.0.1";
                                              u "User-Agent: altura-duplicate-admin-token-probe/1.0";
                                              u "x-altura-admin-token: bench-token"; u "x-altura-admin-token: bench-token"]) in
           read_response s))
    is_exception
    (fun e => cret (VDict [(u "status", VNone); (u "headers", VDict []); (u "error", VStr (exn_name e))])).

(** ** Slow and banked request bodies *)

Definition run_slow_body_probe (port : Z) : net pyval :=
  perform started <- perf_counter w in
  perform r <- raw_exchange port
    (message [u "POST /drain HTTP/1.1"; u "Host: 127.0.0.1"; u "User-Agent: altura-slow-body-probe/1.0"; u "Content-Length: 8"] ++ u "aa")
    (fun s => perform _ <- sleep w (sec 2 10) in sendall_quietly w s (u "bbbbbb")) in
  match r with
  | Raise e =>
      perform elapsed <- elapsed_since w started in
      cret (VDict [(u "elapsed_seconds", elapsed); (u "error", VStr (exn_name e)); (u "status", VNone)])
  | Ok raw =>
      let headers := headers_from_raw_response raw in
      perform elapsed <- elapsed_since w started in
      cret (VDict [(u "elapsed_seconds", elapsed); (u "error", VNone); (u "status", int_or_none (status_of_raw raw));
                   (u "cache_control", field headers (u "cache-control")); (u "connection", field headers (u "connection"));
                   (u "cache_control_no_store", field_is headers (u "cache-control") (u "no-store"));
                   (u "connection_close", field_is headers (u "connection") (u "close"))])
  end.

Definition send_min_rate_body_request (port : Z) : net pyval :=
  perform started <- perf_counter w in
  perform r <- raw_exchange port
    (message [u "POST /drain HTTP/1.1"; u "Host: 127.0.0.1"; u "User-Agent: altura-body-min-rate-probe/1.0"; u "Content-Length: 3"] ++ u "a")
    (fun s =>
       perform _ <- sleep w (sec 8 100) in
       catch (perform _ <- sendall w s (u "b") in perform _ <- sleep w (sec 8 100) in sendall w s (u "c"))
         is_os_error (fun _ => cret tt)) in
  let raw := raw_of r in
  let headers := headers_from_raw_response raw in
  perform elapsed <- elapsed_since w started in
  cret (VDict [(u "elapsed_seconds", elapsed); (u "error", error_of_res r); (u "status", int_or_none (status_of_raw raw));
               (u "cache_control", field headers (u "cache-control")); (u "connection", field headers (u "connection"));
               (u "cache_control_no_store", field_is headers (u "cache-control") (u "no-store"));
               (u "connection_close", field_is headers (u "connection") (u "close"))]).

Definition send_banked_min_rate_body_request (port : Z) : net pyval :=
  perform started <- perf_counter w in
  let banked_bytes := 512%Z in
  perform r <- raw_exchange port
    (message [u "POST /drain HTTP/1.1"; u "Host: 127.0.0.1"; u "User-Agent: altura-body-min-rate-bank-probe/1.0"; u "Content-Length: 513"] ++
     replicate (Z.to_nat banked_bytes) 97%N)
    (fun s => perform _ <- sleep w (sec 8 100) in sendall_quietly w s (u "b")) in
  let raw := raw_of r in
  let headers := headers_from_raw_response raw in
  perform elapsed <- elapsed_since w started in
  cret (VDict [(u "elapsed_seconds", elapsed); (u "error", error_of_res r); (u "status", int_or_none (status_of_raw raw));
               (u "banked_initial_bytes", VInt banked_bytes);
               (u "cache_control", field headers (u "cache-control")); (u "connection", field headers (u "connection"));
               (u "cache_control_no_store", field_is headers (u "cache-control") (u "no-store"));
               (u "connection_close", field_is headers (u "connection") (u "close"))]).

(** ** Requests through [http.client] *)

(** [(resp.getheader("Connection") or "").lower() == "close"] *)
Definition closes (head : http_head) : bool :=
  match getheader head (u "Connection") with VStr c => str_eqb (lower c) (u "close") | _ => false end.

Definition request_with_content_encoding (port : Z) (content_encoding : pystr) : net pyval :=
  perform started <- perf_counter w in
  perform c <- ask w (HttpConnection port (sec 2 1)) in
  finally
    (catch (perform r <- http_exchange w c (u "POST") (u "/drain") (Some (u "abc"))
              [(u "User-Agent", u "altura-content-encoding-probe/1.0"); (u "Content-Encoding", content_encoding)] in
            perform elapsed <- elapsed_since w started in
            cret (VDict [(u "status", VInt (hh_status r.1)); (u "accept_encoding", getheader r.1 (u "Accept-Encoding"));
                         (u "cache_control", getheader r.1 (u "Cache-Control")); (u "connection", getheader r.1 (u "Connection"));
                         (u "connection_close", VBool (closes r.1)); (u "elapsed_seconds", elapsed)]))
       is_exception
       (fun e =>
          perform elapsed <- elapsed_since w started in
          cret (VDict [(u "status", VNone); (u "accept_encoding", VNone); (u "cache_control", VNone); (u "connection", VNone);
                       (u "connection_close", VBool false); (u "elapsed_seconds", elapsed); (u "error", VStr (exn_name e))])))
    (ask w (CloseHttp c)).

Definition request_with_range (port : Z) (range_value : pystr) : net pyval :=
  perform started <- perf_counter w in
  perform c <- ask w (HttpConnection port (sec 2 1)) in
  finally
    (catch (perform r <- http_exchange w c (u "GET") (u "/") None
              [(u "User-Agent", u "altura-range-guard-probe/1.0"); (u "Range", range_value)] in
            perform elapsed <- elapsed_since w started in
            cret (VDict [(u "status", VInt (hh_status r.1)); (u "cache_control", getheader r.1 (u "Cache-Control"));
                         (u "cache_control_no_store", VBool (py_eqb (getheader r.1 (u "Cache-Control")) (VStr (u "no-store"))));
                         (u "elapsed_seconds", elapsed)]))
       is_exception
       (fun e =>
          perform elapsed <- elapsed_since w started in
          cret (VDict [(u "status", VNone); (u "cache_control", VNone); (u "cache_control_no_store", VBool false);
                       (u "elapsed_seconds", elapsed); (u "error", VStr (exn_name e))])))
    (ask w (CloseHttp c)).

(** ** One request, one parsed response *)

(** [try: with create_connection(...) as sock: settimeout(2.0); sendall(data); response = read(sock); then
    except Exception]: the assignments in [then_] read [response] and [raise] on a missing key. *)
Definition response_exchange {L} (port : Z) (l : L) (data : res bytes) (then_ : pyval -> res L) : net (L * option exn) :=
  try_block l (on_connection w port (sec 2 1) (fun s =>
    perform _ <- inner (ask w (SetTimeout s (sec 2 1))) in
    perform d <- clift data in
    perform _ <- inner (sendall w s d) in
    perform response <- inner (read_response s) in
    perform l' <- clift (then_ response) in
    update (fun _ => l'))).

(** The dict [response["headers"]]. *)
Definition headers_of (response : pyval) : res pydict :=
  let* h := response @ "headers" in match h with VDict d => Ok d | _ => subscript_error end.

Definition send_raw_expect_request (port : Z) (expect_value : pystr) : net pyval :=
  perform started <- perf_counter w in
  perform r <- response_exchange port (VNone, [], $"")
    (encode_ascii (message [u "POST /drain HTTP/1.1"; u "Host: 127.0.0.1"; u "User-Agent: altura-expect-guard-probe/1.0";
                            u "Content-Length: 4"; u "Expect: " ++ expect_value; u "Connection: close"]))
    (fun response =>
       let* status := response @ "status" in let* headers := headers_of response in let* body := response @ "body" in
       Ok (status, headers, body)) in
  let '((status, headers, body), error) := r in
  perform elapsed <- elapsed_since w started in
  cret (VDict [(u "status", status); (u "cache_control", field headers (u "cache-control"));
               (u "cache_control_no_store", field_is headers (u "cache-control") (u "no-store"));
               (u "connection", field headers (u "connection")); (u "connection_close", field_is headers (u "connection") (u "close"));
               (u "body", body); (u "elapsed_seconds", elapsed); (u "error", error_of error)]).

(** [status = response["status"]; if response.get("body"): observed = json.loads(response["body"])]:
    the status is kept when the body does not decode. *)
Definition observe_headers (port : Z) (data : bytes) : net (pyval * pyval * option exn) :=
  perform r <- try_block (VNone, VNone) (on_connection w port (sec 2 1) (fun s =>
    perform _ <- inner (ask w (SetTimeout s (sec 2 1))) in
    perform _ <- inner (sendall w s data) in
    perform response <- inner (read_response s) in
    perform status <- clift (response @ "status") in
    perform _ <- update (fun l => (status, l.2)) in
    perform body <- clift (response ? "body") in
    match body with
    | VStr text =>
        if truthy body then perform observed <- clift (loads text) in update (fun l => (l.1, observed)) else cret tt
    | _ => cret tt
    end)) in
  cret (r.1.1, r.1.2, r.2).

Definition send_raw_accept_encoding_request (port : Z) : net pyval :=
  perform started <- perf_counter w in
  perform r <- observe_headers port
    (message [u "GET /headers HTTP/1.1"; u "Host: 127.0.0.1"; u "User-Agent: altura-accept-encoding-guard-probe/1.0";
              u "Accept-Encoding: gzip, br"; u "Connection: close"]) in
  let '(status, observed, error) := r in
  perform elapsed <- elapsed_since w started in
  cret (VDict [(u "status", status); (u "observed", observed); (u "elapsed_seconds", elapsed); (u "error", error_of error)]).

Definition send_raw_forwarded_headers_request (port : Z) : net pyval :=
  perform started <- perf_counter w in
  perform r <- observe_headers port
    (message [u "GET /headers HTTP/1.1"; u "Host: good.local"; u "User-Agent: altura-forwarded-guard-probe/1.0";
              u "X-Forwarded-For: 203.0.113.200"; u "X-Forwarded-For: 198.51.100.77"; u "X-Forwarded-Host: attacker.local";
              u "X-Forwarded-Proto: https"; u "X-Forwarded-Server: edge-attacker"; u "X-Forwarded-Port: 443";
              u "X-Forwarded-Scheme: https"; u "X-Forwarded-Prefix: /admin"; u "X-Forwarded-URI: /admin"; u "X-Forwarded-Path: /admin";
              u "X-Forwarded: for=203.0.113.209"; u "X-Real-IP: 203.0.113.201"; u "X-Original-Forwarded-For: 203.0.113.213";
              u "X-Original-Host: attacker.local"; u "X-Original-URL: /admin"; u "X-Rewrite-URL: /admin";
              u "CF-Connecting-IP: 203.0.113.203"; u "True-Client-IP: 203.0.113.204"; u "Fastly-Client-IP: 203.0.113.205";
              u "Client-IP: 203.0.113.206"; u "X-Client-IP: 203.0.113.207"; u "X-Cluster-Client-IP: 203.0.113.208";
              u "X-Originating-IP: 203.0.113.210"; u "X-Remote-IP: 203.0.113.211"; u "X-Remote-Addr: 203.0.113.212";
              u "Forwarded: for=203.0.113.202;host=attacker.local;proto=https"; u "Connection: close";
              u "Connection: X-Hop-By-Hop-Attack"; u "X-Hop-By-Hop-Attack: should-strip"; u "Proxy-Connection: keep-alive";
              u "Keep-Alive: timeout=999"; u "TE: trailers"; u "Trailer: X-Trailer-Attack"; u "Upgrade: websocket"]) in
  let '(status, observed, error) := r in
  perform elapsed <- elapsed_since w started in
  cret (VDict [(u "status", status); (u "observed", observed); (u "elapsed_seconds", elapsed); (u "error", error_of error)]).

Definition send_raw_get_target (port : Z) (target : pystr) : net pyval :=
  perform started <- perf_counter w in
  perform r <- response_exchange port (VNone, 0%Z, [])
    (encode_ascii (message [u "GET " ++ target ++ u " HTTP/1.1"; u "Host: 127.0.0.1"; u "User-Agent: altura-uri-guard-probe/1.0";
                            u "Connection: close"]))
    (fun response =>
       let* status := response @ "status" in let* n := response @ "body_bytes" in let* n := py_int n in
       let* headers := headers_of response in Ok (status, n, headers)) in
  let '((status, body_bytes, headers), error) := r in
  perform elapsed <- elapsed_since w started in
  cret (VDict [(u "target_bytes", bytes_len target); (u "status", status); (u "cache_control", field headers (u "cache-control"));
               (u "connection", field headers (u "connection")); (u "connection_close", field_is headers (u "connection") (u "close"));
               (u "body_bytes", VInt body_bytes); (u "elapsed_seconds", elapsed); (u "error", error_of error)]).

Definition send_raw_framing_request (port : Z) (framing_headers : list pystr) (body : bytes) : net pyval :=
  perform started <- perf_counter w in
  let lines := [u "POST /drain HTTP/1.1"; u "Host: 127.0.0.1"; u "User-Agent: altura-framing-guard-probe/1.0";
                u "Connection: close"] ++ framing_headers in
  perform r <- response_exchange port (VNone, 0%Z, VNone, VNone)
    (let* head := encode_ascii (message lines) in Ok (head ++ body))
    (fun response =>
       let* status := response @ "status" in let* n := response @ "body_bytes" in let* n := py_int n in
       let* cache_control := response @ "headers" ? "cache-control" in let* connection := response @ "headers" ? "connection" in
       Ok (status, n, cache_control, connection)) in
  let '((status, body_bytes, cache_control, connection), error) := r in
  perform elapsed <- elapsed_since w started in
  cret (VDict [(u "headers", VList (VStr <$> framing_headers)); (u "status", status); (u "cache_control", cache_control);
               (u "cache_control_no_store", VBool (py_eqb cache_control ($"no-store"))); (u "connection", connection);
               (u "connection_close", VBool (py_eqb connection ($"close"))); (u "body_bytes", VInt body_bytes);
               (u "elapsed_seconds", elapsed); (u "error", error_of error)]).

Definition send_raw_host_request (port : Z) (hosts : list pystr) (target : pystr) : net pyval :=
  perform started <- perf_counter w in
  let lines := [u "GET " ++ target ++ u " HTTP/1.1"] ++ ((fun host => u "Host: " ++ host) <$> hosts) ++
               [u "User-Agent: altura-host-guard-probe/1.0"; u "Connection: close"] in
  perform r <- response_exchange port (VNone, 0%Z, []) (encode_ascii (message lines))
    (fun response =>
       let* status := response @ "status" in let* n := response @ "body_bytes" in let* n := py_int n in
       let* headers := headers_of response in Ok (status, n, headers)) in
  let '((status, body_bytes, headers), error) := r in
  perform elapsed <- elapsed_since w started in
  cret (VDict [(u "hosts", VList (VStr <$> hosts)); (u "target", VStr target); (u "status", status);
               (u "cache_control", field headers (u "cache-control"));
               (u "cache_control_no_store", field_is headers (u "cache-control") (u "no-store"));
               (u "body_bytes", VInt body_bytes); (u "elapsed_seconds", elapsed); (u "error", error_of error)]).

Definition send_raw_method (port : Z) (method target : pystr) : net pyval :=
  perform started <- perf_counter w in
  perform r <- response_exchange port (VNone, [], 0%Z)
    (encode_ascii (message [method ++ u " " ++ target ++ u " HTTP/1.1"; u "Host: 127.0.0.1";
                            u "User-Agent: altura-method-guard-probe/1.0"; u "Connection: close"]))
    (fun response =>
       let* status := response @ "status" in let* headers := headers_of response in
       let* n := response @ "body_bytes" in let* n := py_int n in Ok (status, headers, n)) in
  let '((status, headers, body_bytes), error) := r in
  perform elapsed <- elapsed_since w started in
  cret (VDict [(u "method", VStr method); (u "target", VStr target); (u "status", status); (u "allow", field headers (u "allow"));
               (u "cache_control", field headers (u "cache-control")); (u "body_bytes", VInt body_bytes);
               (u "elapsed_seconds", elapsed); (u "error", error_of error)]).

Definition send_raw_custom_identity_header_request (port : Z) (cf_connecting_ip_values : list pystr) : net pyval :=
  perform started <- perf_counter w in
  let lines := [u "GET /headers HTTP/1.1"; u "Host: good.local"; u "User-Agent: altura-custom-identity-guard-probe/1.0";
                u "X-Forwarded-For: 198.51.100.77"] ++
               ((fun v => u "CF-Connecting-IP: " ++ v) <$> cf_connecting_ip_values) ++ [u "Connection: close"] in
  catch (with_connection w port (sec 2 1) (fun s =>
           perform _ <- ask w (SetTimeout s (sec 2 1)) in
           perform data <- clift (encode_ascii (message lines)) in
           perform _ <- sendall w s data in
           perform response <- read_response s in
           perform elapsed <- elapsed_since w started in
           cret match response with VDict d => VDict (dset (u "elapsed_seconds") elapsed d) | _ => response end))
    is_exception
    (fun e =>
       perform elapsed <- elapsed_since w started in
       cret (VDict [(u "status", VNone); (u "headers", VDict []); (u "elapsed_seconds", elapsed); (u "error", VStr (exn_name e))])).

(** ** Raw responses *)

(** [try: with create_connection(...) as sock: settimeout(2.0); sendall(data); <receive until closed>
    except Exception]: what was received is kept. *)
Definition exchange_until_closed (port : Z) (data : res bytes) : net (bytes * option exn) :=
  try_block [] (on_connection w port (sec 2 1) (fun s =>
    perform _ <- inner (ask w (SetTimeout s (sec 2 1))) in
    perform d <- clift data in
    perform _ <- inner (sendall w s d) in
    recv_rest fuel s)).

Definition send_slow_drip_response_request (port : Z) : net pyval :=
  perform started <- perf_counter w in
  perform r <- exchange_until_closed port
    (Ok (message [u "GET /slow-drip-response HTTP/1.1"; u "Host: 127.0.0.1"; u "User-Agent: altura-upstream-min-rate-probe/1.0";
                  u "Connection: close"])) in
  let '(raw, error) := r in
  let '(header, body) := partitioned (CRLF ++ CRLF) raw in
  perform elapsed <- elapsed_since w started in
  cret (VDict [(u "elapsed_seconds", elapsed); (u "error", error_of error); (u "status", int_or_none (status_of_raw header));
               (u "body_bytes", bytes_len body)]).

Definition read_raw_response_bytes (port : Z) (path : pystr) : net bytes :=
  with_connection w port (sec 2 1) (fun s =>
    perform _ <- ask w (SetTimeout s (sec 2 1)) in
    perform data <- clift (encode_ascii (message [u "GET " ++ path ++ u " HTTP/1.1"; u "Host: 127.0.0.1";
                             u "User-Agent: altura-raw-response-probe/1.0"; u "TE: trailers"; u "Connection: close"])) in
    perform _ <- sendall w s data in
    recv_while w fuel s (fun _ => true) (fun _ => 4096%Z) []).

(** One header line of [read_raw_response]. *)
Definition raw_header (l : bytes) : option (pystr * pyval) :=
  match split1 58 l with
  | (name, Some v) => Some (lower_latin1 name, VStr (strip_bytes v))
  | (_, None) => None
  end.

Definition raw_headers (header : bytes) : pydict :=
  if starts_with (u "HTTP/") header then dupdate [] (omap raw_header (tail (split_pair 13 10 header))) else [].

Definition read_raw_response (port : Z) (path : pystr) : net pyval :=
  perform started <- perf_counter w in
  perform r <- exchange_until_closed port
    (encode_ascii (message [u "GET " ++ path ++ u " HTTP/1.1"; u "Host: 127.0.0.1"; u "User-Agent: altura-response-guard-probe/1.0";
                            u "Connection: close"])) in
  let '(raw, error) := r in
  let '(header, body) := partitioned (CRLF ++ CRLF) raw in
  perform elapsed <- elapsed_since w started in
  cret (VDict [(u "status", int_or_none (status_of_raw header)); (u "headers", VDict (raw_headers header));
               (u "body_bytes", bytes_len body); (u "closed", VBool true); (u "elapsed_seconds", elapsed);
               (u "error", error_of error)]).

Definition send_many_headers (port header_count : Z) : net pyval :=
  perform started <- perf_counter w in
  let lines := [u "GET / HTTP/1.1"; u "Host: 127.0.0.1"; u "User-Agent: altura-header-count-probe/1.0"; u "Connection: close"] ++
               ((fun idx => u "X-Altura-Probe-" ++ dec_nat idx ++ u ": " ++ dec_nat idx) <$> seq 0 (Z.to_nat header_count)) in
  perform r <- exchange_until_closed port (encode_ascii (message lines)) in
  let '(raw, error) := r in
  let headers := headers_from_raw_response raw in
  perform elapsed <- elapsed_since w started in
  cret (VDict [(u "sent_headers", VInt (header_count + 3)); (u "status", int_or_none (status_of_raw raw));
               (u "cache_control", field headers (u "cache-control")); (u "connection", field headers (u "connection"));
               (u "closed", VBool true); (u "body_bytes", body_len raw); (u "elapsed_seconds", elapsed); (u "error", error_of error)]).

Definition send_slow_downstream_reader_request (port : Z) : net pyval :=
  perform started <- perf_counter w in
  perform r <- try_block ([], VNone) (on_connection w port (sec 2 1) (fun s =>
    perform r <- inner (ask w (SetReceiveBuffer s 4096)) in
    perform _ <- clift r in
    perform _ <- inner (ask w (SetTimeout s (sec 1 1))) in
    perform _ <- inner (sendall w s (message [u "GET /huge-response HTTP/1.1"; u "Host: 127.0.0.1";
                                              u "User-Agent: altura-slow-reader-probe/1.0"; u "Connection: close"])) in
    perform _ <- inner (sleep w (sec 25 100)) in
    catch (perform raw <- inner (recv w s 4096) in update (fun l => (raw, l.2)))
      (fun e => match exn_class e with TimeoutError => true | _ => false end)
      (fun _ => update (fun l => (l.1, $"TimeoutError"))))) in
  let '((raw, error), failed) := r in
  let error := match failed with Some e => VStr (exn_name e) | None => error end in
  let '(header, body) := partitioned (CRLF ++ CRLF) raw in
  perform elapsed <- elapsed_since w started in
  cret (VDict [(u "elapsed_seconds", elapsed); (u "error", error); (u "status", int_or_none (status_of_raw header));
               (u "first_read_bytes", bytes_len raw); (u "first_body_bytes", bytes_len body)]).

(** ** The raw parser in front of the HTTP stack *)

Definition parse_raw_initial_precheck_response (raw : bytes) (started : float) (error : pyval) : net pyval :=
  let headers := headers_from_raw_response raw in
  perform elapsed <- elapsed_since w started in
  cret (VDict [(u "status", int_or_none (status_of_raw raw)); (u "cache_control", field headers (u "cache-control"));
               (u "cache_control_no_store", field_is headers (u "cache-control") (u "no-store"));
               (u "connection", field headers (u "connection")); (u "connection_close", field_is headers (u "connection") (u "close"));
               (u "body_bytes", body_len raw); (u "elapsed_seconds", elapsed); (u "error", error)]).

Definition raw_initial (port : Z) (data : bytes) : net pyval :=
  perform started <- perf_counter w in
  perform r <- raw_exchange port data (fun _ => cret tt) in
  parse_raw_initial_precheck_response (raw_of r) started (error_of_res r).

Definition send_raw_initial_framing_precheck_rejection (port : Z) : net pyval :=
  raw_initial port (message [u "GET / HTTP/1.1"; u "Host: 127.0.0.1"; u "User-Agent: altura-initial-framing-precheck-probe/1.0";
                             u " X-Obsolete-Fold: rejected"]).

Definition send_raw_initial_header_too_large (port : Z) : net pyval :=
  raw_initial port (mjoin (line <$> [u "GET / HTTP/1.1"; u "Host: 127.0.0.1"; u "User-Agent: altura-initial-header-too-large-probe/1.0";
                                     u "X-Oversized-Header: " ++ replicate (Z.to_nat 9000) 97%N])).

Definition send_raw_initial_header_late_terminator_over_cap (port : Z) : net pyval :=
  raw_initial port (message [u "GET / HTTP/1.1"; u "Host: 127.0.0.1"; u "User-Agent: altura-initial-header-late-terminator-probe/1.0";
                             u "X-Oversized-Header: " ++ replicate (Z.to_nat 8300) 97%N]).

Definition send_raw_initial_header_line_too_large (port : Z) : net pyval :=
  raw_initial port (message [u "GET / HTTP/1.1"; u "Host: 127.0.0.1"; u "X-Oversized-Header: " ++ replicate 192 97%N]).

Definition run_slow_header_probe (port : Z) : net pyval :=
  perform started <- perf_counter w in
  perform r <- try_block ([], VNone) (on_connection w port (sec 2 1) (fun s =>
    perform _ <- inner (ask w (SetTimeout s (sec 2 1))) in
    perform _ <- inner (sendall w s (mjoin (line <$> [u "GET / HTTP/1.1"; u "Host: 127.0.0.1"; u "User-Agent: altura-slow-header-probe/1.0"]))) in
    perform _ <- inner (sleep w (sec 25 100)) in
    catch (perform raw <- inner (recv w s 4096) in update (fun l => (raw, l.2)))
      is_exception (fun e => update (fun l => (l.1, VStr (exn_name e)))))) in
  let '((raw, error), failed) := r in
  let error := match failed with Some e => VStr (exn_name e) | None => error end in
  let headers := headers_from_raw_response raw in
  perform elapsed <- elapsed_since w started in
  cret (VDict [(u "closed", VBool (is_empty raw)); (u "status", int_or_none (status_of_raw raw));
               (u "cache_control", field headers (u "cache-control")); (u "connection", field headers (u "connection"));
               (u "elapsed_seconds", elapsed); (u "error", error); (u "response_bytes", bytes_len raw); (u "body_bytes", body_len raw)]).
End sending.
