(* ===== verification/BenchConns.v ===== *)
(** * BenchConns: probes that reuse, hold or starve connections

    [tools/run_local_bench.py]: keep-alive sequences, connections held open, TCP echoes and
    the loopback listener whose backlog is kept full. *)

From S2P Require Import Prelude Unicode PyStr PyFloat PyVal PyDyn Json BenchNet BenchHttp BenchOrigin BenchSend.

Open Scope dyn_scope.

Section connections.
Context (w : world) (fuel : nat).

Let read_response := read_http_response_on_socket w fuel.

(** [error in {"BrokenPipeError", "ConnectionResetError"}] *)
Definition reset_error (error : pyval) : bool :=
  match error with VStr e => existsb (str_eqb e) [u "BrokenPipeError"; u "ConnectionResetError"] | _ => false end.

(** ** Keep-alive sequences *)

(** A first response, then a second request whose first bytes are kept: locals
    [first_response], [second_raw] and [second_error]. *)
Definition reuse_connection (port : Z) (timeout : float) (first_request : bytes) (pause : float) (second_request : bytes) :
    net (pyval * bytes * pyval * option exn) :=
  perform r <- try_block (VNone, [], VNone) (on_connection w port (sec 2 1) (fun s =>
    perform _ <- inner (ask w (SetTimeout s timeout)) in
    perform _ <- inner (sendall w s first_request) in
    perform first <- inner (read_response s) in
    perform _ <- update (fun l => (first, l.1.2, l.2)) in
    perform _ <- inner (sleep w pause) in
    catch (perform _ <- inner (sendall w s second_request) in
           perform raw <- inner (recv w s 4096) in
           update (fun l => (l.1.1, raw, l.2)))
      is_exception (fun e => update (fun l => (l.1.1, l.1.2, VStr (exn_name e)))))) in
  cret (r.1.1.1, r.1.1.2, r.1.2, r.2).

Definition run_idle_keepalive_probe (port : Z) : net pyval :=
  perform started <- perf_counter w in
  perform r <- reuse_connection port (sec 2 1)
    (message [u "GET / HTTP/1.1"; u "Host: 127.0.0.1"; u "User-Agent: altura-idle-keepalive-probe/1.0"; u "Connection: keep-alive"])
    (sec 25 100)
    (message [u "GET / HTTP/1.1"; u "Host: 127.0.0.1"; u "User-Agent: altura-idle-keepalive-probe/1.0"; u "Connection: close"]) in
  let '(first_response, second_response, error, failed) := r in
  let error := match failed with Some e => VStr (exn_name e) | None => error end in
  perform elapsed <- elapsed_since w started in
  cret (VDict [(u "closed_before_reuse", VBool (is_empty second_response)); (u "elapsed_seconds", elapsed); (u "error", error);
               (u "first_response", first_response); (u "second_response_bytes", bytes_len second_response)]).

Definition run_downstream_keepalive_probe (port : Z) : net pyval :=
  perform started <- perf_counter w in
  perform metrics_before <- fetch_metrics w port (u "bench-token") [] in
  perform r <- reuse_connection port (sec 1 1)
    (message [u "GET / HTTP/1.1"; u "Host: 127.0.0.1"; u "User-Agent: altura-downstream-keepalive-probe/1.0"; u "Connection: keep-alive"])
    (sec 5 100)
    (message [u "POST / HTTP/1.1"; u "Host: 127.0.0.1"; u "User-Agent: altura-downstream-keepalive-probe/1.0";
              u "Content-Length: 0"; u "Content-Length: 0"; u "Connection: close"]) in
  let '(first_response, second_raw, second_error, failed) := r in
  let second_error := match failed with Some e => VStr (exn_name e) | None => second_error end in
  perform metrics_after <- fetch_metrics w port (u "bench-token") [] in
  perform elapsed <- elapsed_since w started in
  clift (record [
    "closed_before_second_response" :- VBool (is_empty second_raw || reset_error second_error);
    "elapsed_seconds" :- elapsed;
    "first_response" :- first_response;
    "framing_rejected_delta" :- get_or metrics_after (u "altura_http_framing_rejected") (#0)
                                - get_or metrics_before (u "altura_http_framing_rejected") (#0);
    "second_error" :- second_error;
    "second_response_bytes" :- bytes_len second_raw;
    "second_status" :- int_or_none (status_of_raw second_raw)]).

Definition send_oversized_request_trailer (port : Z) : net pyval :=
  perform started <- perf_counter w in
  perform r <- reuse_connection port (sec 2 1)
    (message [u "POST /drain HTTP/1.1"; u "Host: 127.0.0.1"; u "User-Agent: altura-request-trailer-policy-probe/1.0";
              u "Transfer-Encoding: chunked"; u "Trailer: X-Too-Large"; u "Connection: keep-alive"] ++
     line (u "3") ++ line (u "abc") ++ message [u "0"; u "X-Too-Large: 0123456789abcdef"])
    (sec 5 100)
    (message [u "GET / HTTP/1.1"; u "Host: 127.0.0.1"; u "User-Agent: altura-request-trailer-policy-probe/1.0"; u "Connection: close"]) in
  let '(first_response, followup_raw, followup_error, failed) := r in
  match failed with
  | Some e =>
      perform elapsed <- elapsed_since w started in
      cret (VDict [(u "elapsed_seconds", elapsed); (u "error", VStr (exn_name e)); (u "status", VNone)])
  | None =>
      let first : expr := first_response OR VDict [] in
      perform headers <- clift (get_or first (u "headers") (VDict [])) in
      perform elapsed <- elapsed_since w started in
      clift (record [
        "elapsed_seconds" :- elapsed;
        "error" :- VNone;
        "status" :- first ? "status";
        "cache_control" :- headers ? "cache-control";
        "connection" :- headers ? "connection";
        "connection_close" :- headers ? "connection" == $"close";
        "body" :- first ? "body";
        "followup_error" :- followup_error;
        "followup_response_bytes" :- bytes_len followup_raw])
  end.

(** The local variables of [send_connection_request_limit_sequence]. *)
Record limit_locals := LimitLocals {
  ll_first : pyval; ll_second : pyval; ll_third : pyval; ll_fourth_raw : bytes; ll_fourth_error : pyval }.

Definition set_response (idx : nat) (response : pyval) (l : limit_locals) : limit_locals :=
  match idx with
  | 1 => LimitLocals response (ll_second l) (ll_third l) (ll_fourth_raw l) (ll_fourth_error l)
  | 2 => LimitLocals (ll_first l) response (ll_third l) (ll_fourth_raw l) (ll_fourth_error l)
  | _ => LimitLocals (ll_first l) (ll_second l) response (ll_fourth_raw l) (ll_fourth_error l)
  end.

Definition send_connection_request_limit_sequence (port : Z) : net pyval :=
  perform started <- perf_counter w in
  perform r <- try_block (LimitLocals VNone VNone VNone [] VNone) (on_connection w port (sec 2 1) (fun s =>
    perform _ <- inner (ask w (SetTimeout s (sec 2 1))) in
    perform _ <- each (fun idx =>
      perform _ <- inner (sendall w s (message [u "GET /request-limit/" ++ dec_nat idx ++ u " HTTP/1.1"; u "Host: 127.0.0.1";
                            u "User-Agent: altura-connection-request-limit-probe/1.0"; u "Connection: keep-alive"])) in
      perform response <- inner (read_response s) in
      update (set_response idx response)) [1; 2; 3] in
    perform _ <- inner (sleep w (sec 5 100)) in
    catch (perform _ <- inner (sendall w s (message [u "GET /request-limit/four HTTP/1.1"; u "Host: 127.0.0.1";
                                 u "User-Agent: altura-connection-request-limit-probe/1.0"; u "Connection: close"])) in
           perform raw <- inner (recv w s 4096) in
           update (fun l => LimitLocals (ll_first l) (ll_second l) (ll_third l) raw (ll_fourth_error l)))
      is_exception
      (fun e => update (fun l => LimitLocals (ll_first l) (ll_second l) (ll_third l) (ll_fourth_raw l) (VStr (exn_name e)))))) in
  let '(l, error) := r in
  perform elapsed <- elapsed_since w started in
  cret (VDict [(u "elapsed_seconds", elapsed); (u "error", error_of error); (u "first_response", ll_first l);
               (u "second_response", ll_second l); (u "third_response", ll_third l); (u "fourth_error", ll_fourth_error l);
               (u "fourth_response_bytes", bytes_len (ll_fourth_raw l))]).

(** ** A request after an ordinary one *)

(** [{"status": ..., "connection": ..., "connection_close": ...}] of a response *)
Definition first_summary (first : pyval) : expr :=
  let* first_connection := first @ "headers" ? "connection" in
  record ["status" :- first @ "status"; "connection" :- first_connection; "connection_close" :- first_connection == $"close"].

Definition second_summary (second : pyval) : expr :=
  let* second_connection := second @ "headers" ? "connection" in
  let* second_cache_control := second @ "headers" ? "cache-control" in
  record [
    "status" :- second @ "status";
    "cache_control" :- second_cache_control;
    "cache_control_no_store" :- second_cache_control == $"no-store";
    "connection" :- second_connection;
    "connection_close" :- second_connection == $"close";
    "body_bytes" :- second @ "body_bytes"].

Definition no_response : pyval := VDict [(u "status", VNone); (u "connection", VNone); (u "connection_close", VBool false)].

Definition followup_result : pydict :=
  [(u "first", no_response); (u "second", no_response); (u "elapsed_seconds", VNone); (u "error", VNone)].

(** The block both follow-up probes share: the dict [result] as a local variable. *)
Definition followup_block (port : Z) (first_request : bytes) (second_request : res bytes) : net pydict :=
  perform r <- try_block followup_result (on_connection w port (sec 2 1) (fun s =>
    perform _ <- inner (ask w (SetTimeout s (sec 2 1))) in
    perform _ <- inner (sendall w s first_request) in
    perform first <- inner (read_response s) in
    perform summary <- clift (first_summary first) in
    perform _ <- update (dset (u "first") summary) in
    perform data <- clift second_request in
    perform _ <- inner (sendall w s data) in
    perform second <- inner (read_response s) in
    perform summary <- clift (second_summary second) in
    update (dset (u "second") summary))) in
  let '(result, failed) := r in
  cret match failed with Some e => dset (u "error") (VStr (exn_name e)) result | None => result end.

Definition send_keepalive_followup_framing_request (port : Z) (framing_headers : list pystr) (body : bytes) : net pyval :=
  perform started <- perf_counter w in
  let lines := [u "POST /drain HTTP/1.1"; u "Host: 127.0.0.1"; u "User-Agent: altura-framing-keepalive-probe/1.0"] ++ framing_headers in
  perform result <- followup_block port
    (message [u "POST /drain HTTP/1.1"; u "Host: 127.0.0.1"; u "User-Agent: altura-framing-keepalive-probe/1.0"; u "Content-Length: 0"])
    (let* head := encode_ascii (message lines) in Ok (head ++ body)) in
  perform elapsed <- elapsed_since w started in
  cret (VDict (dset (u "elapsed_seconds") elapsed (dset (u "headers") (VList (VStr <$> framing_headers)) result))).

Definition send_keepalive_followup_request_with_body (port : Z) (method target : pystr) (body : bytes) : net pyval :=
  perform started <- perf_counter w in
  let lines := [method ++ u " " ++ target ++ u " HTTP/1.1"; u "Host: 127.0.0.1"; u "User-Agent: altura-early-close-probe/1.0";
                u "Content-Length: " ++ dec_nat (length body)] in
  perform result <- followup_block port
    (message [u "GET / HTTP/1.1"; u "Host: 127.0.0.1"; u "User-Agent: altura-early-close-probe/1.0"])
    (let* head := encode_ascii (message lines) in Ok (head ++ body)) in
  let result := dset (u "body_bytes_sent") (bytes_len body) (dset (u "target_bytes") (bytes_len target) (dset (u "method") (VStr method) result)) in
  perform elapsed <- elapsed_since w started in
  cret (VDict (dset (u "elapsed_seconds") elapsed result)).

(** ** Admin requests with a body *)

Definition followup_summary (status : pyval) (complete received closed : bool) (error : pyval) : pyval :=
  VDict [(u "status", status); (u "header_complete", VBool complete); (u "response_received", VBool received);
         (u "closed_without_response", VBool closed); (u "error", error)].

Definition admin_result (path : pystr) (body : bytes) : pydict :=
  [(u "path", VStr path);
   (u "first", VDict [(u "status", VNone); (u "cache_control", VNone); (u "cache_control_no_store", VBool false);
                      (u "connection", VNone); (u "connection_close", VBool false)]);
   (u "followup", followup_summary VNone false false false VNone);
   (u "body_bytes_sent", bytes_len body); (u "elapsed_seconds", VNone); (u "error", VNone)].

(** The follow-up of a complete response, as a dict. *)
Definition followup_of (followup : pyval) : expr :=
  let* status := followup @ "status" in
  let* complete := followup @ "header_complete" in
  let* size := followup @ "body_bytes" in
  let response_received := negb (match status with VNone => true | _ => false end) || truthy complete || truthy size in
  Ok (VDict [(u "status", status); (u "header_complete", complete); (u "response_received", VBool response_received);
             (u "closed_without_response", VBool (negb response_received)); (u "error", VNone)]).

Definition is_timeout (e : exn) : bool := match exn_class e with TimeoutError => true | _ => false end.

Definition send_body_bearing_admin_keepalive_request (port : Z) (path : pystr) (headers : list (pystr * pystr)) : net pyval :=
  perform started <- perf_counter w in
  let body := u "admin-body" in
  let lines := [u "GET " ++ path ++ u " HTTP/1.1"; u "Host: 127.0.0.1"; u "User-Agent: altura-admin-close-probe/1.0";
                u "Connection: keep-alive"; u "Content-Length: " ++ dec_nat (length body)] ++
               ((fun h => h.1 ++ u ": " ++ h.2) <$> headers) in
  perform r <- try_block (admin_result path body) (on_connection w port (sec 2 1) (fun s =>
    perform _ <- inner (ask w (SetTimeout s (sec 2 1))) in
    perform head <- clift (encode_ascii (message lines)) in
    perform _ <- inner (sendall w s (head ++ body)) in
    perform first <- inner (read_response s) in
    perform summary <- clift (second_summary first) in
    perform _ <- update (dset (u "first") summary) in
    perform _ <- inner (sleep w (sec 5 100)) in
    catch
      (catch (perform _ <- inner (sendall w s (message [u "GET /__altura/health HTTP/1.1"; u "Host: 127.0.0.1";
                                                        u "User-Agent: altura-admin-close-probe/1.0"])) in
              perform followup <- inner (read_response s) in
              perform summary <- clift (followup_of followup) in
              update (dset (u "followup") summary))
         is_disconnect
         (fun e => update (dset (u "followup") (followup_summary VNone false false true (VStr (exn_name e))))))
      is_timeout
      (fun e => update (dset (u "followup") (followup_summary VNone false false false (VStr (exn_name e))))))) in
  let '(result, failed) := r in
  let result := match failed with Some e => dset (u "error") (VStr (exn_name e)) result | None => result end in
  perform elapsed <- elapsed_since w started in
  cret (VDict (dset (u "elapsed_seconds") elapsed result)).

(** ** Connection lifetimes *)

Record duration_locals := DurationLocals { dl_first : pyval; dl_second : pyval; dl_closed : pyval; dl_error : pyval }.

Definition send_http_max_connection_duration_probe (port : Z) (wait_seconds : float) : net pyval :=
  perform started <- perf_counter w in
  perform r <- try_block (DurationLocals VNone VNone (VBool false) VNone) (on_connection w port (sec 2 1) (fun s =>
    perform _ <- inner (ask w (SetTimeout s (sec 2 1))) in
    perform _ <- inner (sendall w s (message [u "GET / HTTP/1.1"; u "Host: 127.0.0.1";
                                              u "User-Agent: altura-http-max-duration-probe/1.0"; u "Connection: keep-alive"])) in
    perform first <- inner (read_response s) in
    perform status <- clift (first @ "status") in
    perform _ <- update (fun l => DurationLocals status (dl_second l) (dl_closed l) (dl_error l)) in
    perform _ <- inner (sleep w wait_seconds) in
    catch (perform _ <- inner (sendall w s (message [u "GET / HTTP/1.1"; u "Host: 127.0.0.1";
                                                     u "User-Agent: altura-http-max-duration-probe/1.0"; u "Connection: close"])) in
           perform second <- inner (read_response s) in
           perform status <- clift (second @ "status") in
           perform _ <- update (fun l => DurationLocals (dl_first l) status (dl_closed l) (dl_error l)) in
           perform closed <- clift (py_not (second @ "header_complete") AND is_none (second @ "status") AND second @ "body_bytes" == #0) in
           update (fun l => DurationLocals (dl_first l) (dl_second l) closed (dl_error l)))
      is_exception
      (fun e => update (fun l => DurationLocals (dl_first l) (dl_second l) (VBool true) (VStr (exn_name e)))))) in
  let '(l, failed) := r in
  perform elapsed <- elapsed_since w started in
  cret (VDict [(u "elapsed_seconds", elapsed); (u "configured_max_connection_duration_seconds", VInt 1);
               (u "first_status", dl_first l); (u "second_status", dl_second l); (u "second_closed_or_reset", dl_closed l);
               (u "error", match failed with Some e => VStr (exn_name e) | None => dl_error l end)]).

Record echo_locals := EchoLocals { el_first : bytes; el_second : bytes; el_closed : bool; el_error : pyval }.

Definition send_tcp_max_connection_duration_probe (port : Z) (wait_seconds : float) : net pyval :=
  perform started <- perf_counter w in
  perform r <- try_block (EchoLocals [] [] false VNone) (on_connection w port (sec 1 1) (fun s =>
    perform _ <- inner (ask w (SetTimeout s (sec 2 1))) in
    perform _ <- inner (sendall w s (u "duration-one")) in
    perform first <- inner (recv_exact w fuel s 12) in
    perform _ <- update (fun l => EchoLocals first (el_second l) (el_closed l) (el_error l)) in
    perform _ <- inner (sleep w wait_seconds) in
    catch (perform _ <- inner (sendall w s (u "duration-two")) in
           perform second <- inner (recv w s 32) in
           update (fun l => EchoLocals (el_first l) second (is_empty second) (el_error l)))
      is_exception
      (fun e => update (fun l => EchoLocals (el_first l) (el_second l) true (VStr (exn_name e)))))) in
  let '(l, failed) := r in
  perform elapsed <- elapsed_since w started in
  cret (VDict [(u "elapsed_seconds", elapsed); (u "configured_max_connection_duration_seconds", VInt 1);
               (u "first_echo_bytes", bytes_len (el_first l)); (u "second_echo_bytes", bytes_len (el_second l));
               (u "closed_or_reset", VBool (match failed with Some _ => true | None => el_closed l end));
               (u "error", match failed with Some e => VStr (exn_name e) | None => el_error l end)]).

Record drip_locals := DripLocals { dr_first : bytes; dr_second : bytes; dr_third : bytes; dr_error : pyval }.

Definition send_tcp_slow_drip (port : Z) : net pyval :=
  perform started <- perf_counter w in
  perform r <- try_block (DripLocals [] [] [] VNone) (on_connection w port (sec 1 1) (fun s =>
    perform _ <- inner (ask w (SetTimeout s (sec 1 1))) in
    perform _ <- inner (sendall w s (u "a")) in
    perform first <- inner (recv_exact w fuel s 1) in
    perform _ <- update (fun l => DripLocals first (dr_second l) (dr_third l) (dr_error l)) in
    perform _ <- inner (sleep w (sec 8 100)) in
    catch (perform _ <- inner (sendall w s (u "b")) in
           perform second <- inner (recv w s 1) in
           perform _ <- update (fun l => DripLocals (dr_first l) second (dr_third l) (dr_error l)) in
           perform _ <- inner (sleep w (sec 8 100)) in
           perform _ <- inner (sendall w s (u "c")) in
           perform third <- inner (recv w s 1) in
           update (fun l => DripLocals (dr_first l) (dr_second l) third (dr_error l)))
      is_exception
      (fun e => update (fun l => DripLocals (dr_first l) (dr_second l) (dr_third l) (VStr (exn_name e)))))) in
  let '(l, failed) := r in
  let error := match failed with Some e => VStr (exn_name e) | None => dr_error l end in
  perform elapsed <- elapsed_since w started in
  cret (VDict [(u "elapsed_seconds", elapsed); (u "first_echo_bytes", bytes_len (dr_first l));
               (u "second_echo_bytes", bytes_len (dr_second l)); (u "third_echo_bytes", bytes_len (dr_third l));
               (u "closed_or_reset", VBool (is_empty (dr_third l) || reset_error error)); (u "error", error)]).

(** ** Held connections *)

(** [for conn in held: conn.close()] *)
Definition close_all (held : list sock) : net unit := each (fun s => ask w (CloseSocket s)) held.

(** [sock = create_connection(...); sock.settimeout(1.0); held.append(sock)], [n] times: the
    list is a local variable. *)
Fixpoint hold (n : nat) (port : Z) : scope (list sock) unit :=
  match n with
  | O => cret tt
  | S n' =>
      perform s <- inner (create_connection w port (sec 1 1)) in
      perform _ <- inner (ask w (SetTimeout s (sec 1 1))) in
      perform _ <- update (fun held => held ++ [s]) in
      hold n' port
  end.

Definition run_tcp_global_cap_probe (port : Z) : net pyval :=
  finally_with [] (
    perform _ <- hold 2 port in
    perform _ <- inner (sleep w (sec 1 10)) in
    perform rejected <- inner (create_connection w port (sec 1 1)) in
    perform r <- inner (finally
      (attempt (perform _ <- ask w (SetTimeout rejected (sec 1 1)) in
                perform _ <- sendall w rejected (u "probe") in
                recv w rejected 16))
      (ask w (CloseSocket rejected))) in
    perform held <- local_vars in
    cret (VDict [(u "held_connections", VInt (Z.of_nat (length held)));
                 (u "rejected_closed", VBool match r with Ok data => is_empty data | Raise _ => true end);
                 (u "rejected_error", error_of_res r)])) close_all.

(** One attempt of [run_tcp_global_connection_rate_probe]. *)
Definition rate_attempt (port : Z) (idx : nat) : net pyval :=
  let payload := u "tcp-rate-" ++ dec_nat idx in
  let failed e := VDict [(u "echoed", VBool false); (u "closed", VBool true); (u "error", VStr (exn_name e))] in
  perform r <-
    catch (with_connection w port (sec 1 1) (fun s =>
             perform _ <- ask w (SetTimeout s (sec 1 1)) in
             catch (perform _ <- sendall w s payload in
                    perform data <- recv w s (Z.of_nat (length payload)) in
                    cret (VDict [(u "echoed", VBool (str_eqb data payload)); (u "closed", VBool (is_empty data)); (u "error", VNone)]))
               is_exception (fun e => cret (failed e))))
      is_exception (fun e => cret (failed e)) in
  perform _ <- sleep w (sec 1 100) in
  cret r.

Definition run_tcp_global_connection_rate_probe (port metrics_port : Z) : net pyval :=
  perform metrics_before <- fetch_metrics w metrics_port (u "bench-token") [] in
  perform attempts <- for_each (rate_attempt port) (seq 0 8) in
  let attempts := VList attempts in
  perform metrics_after <- fetch_metrics w metrics_port (u "bench-token") [] in
  perform accepted_echoes <- clift (count_if (fun attempt => attempt @ "echoed") attempts) in
  perform rejected_attempts <- clift (py_len attempts - accepted_echoes) in
  perform rejected_delta <- clift (get_or metrics_after (u "altura_tcp_rejected") (#0)
                                   - get_or metrics_before (u "altura_tcp_rejected") (#0)) in
  perform global_rate_delta <- clift (get_or metrics_after (u "altura_tcp_global_connect_rate_limited") (#0)
                                      - get_or metrics_before (u "altura_tcp_global_connect_rate_limited") (#0)) in
  clift (record [
    "configured_global_connects_per_second" :- VFloat (sec 1 1);
    "configured_global_connect_burst" :- #2;
    "attempts" :- py_len attempts;
    "accepted_echoes" :- accepted_echoes;
    "rejected_attempts" :- rejected_attempts;
    "tcp_rejected_delta" :- rejected_delta;
    "tcp_global_connect_rate_limited_delta" :- global_rate_delta;
    "global_connection_rate_limited" :- accepted_echoes <= #2 AND rejected_attempts >= #1 AND global_rate_delta >= #1;
    "attempt_results" :- attempts]).

Definition run_tcp_idle_timeout_probe (port : Z) : net pyval :=
  perform started <- perf_counter w in
  perform r <- attempt (with_connection w port (sec 1 1) (fun s =>
    perform _ <- ask w (SetTimeout s (sec 2 1)) in
    perform _ <- sleep w (sec 12 10) in
    attempt (perform _ <- sendall w s (u "idle-probe") in recv w s 32))) in
  perform elapsed <- elapsed_since w started in
  match r with
  | Raise e => cret (VDict [(u "elapsed_seconds", elapsed); (u "closed", VBool true); (u "error", VStr (exn_name e))])
  | Ok inner =>
      cret (VDict [(u "elapsed_seconds", elapsed);
                   (u "closed", VBool match inner with Ok data => is_empty data | Raise _ => true end);
                   (u "error", error_of_res inner)])
  end.

(** [errors[type(exc).__name__] += 1] *)
Definition count_error (e : exn) (errors : pydict) : pydict :=
  dset (exn_name e) (VInt match dget (exn_name e) errors with Some (VInt n) => (n + 1)%Z | _ => 1%Z end) errors.

(** The sockets that were opened, and the exceptions by class. *)
Fixpoint open_partials (n : nat) (port : Z) (opened : list sock) (errors : pydict) : net (list sock * pydict) :=
  match n with
  | O => cret (opened, errors)
  | S n' =>
      perform r <- attempt (
        perform s <- create_connection w port (sec 1 1) in
        perform _ <- ask w (SetTimeout s (sec 1 1)) in
        perform _ <- sendall w s (mjoin (line <$> [u "GET / HTTP/1.1"; u "Host: 127.0.0.1"; u "User-Agent: altura-log-suppression-probe/1.0"])) in
        cret s) in
      match r with
      | Ok s => open_partials n' port (opened ++ [s]) errors
      | Raise e => open_partials n' port opened (count_error e errors)
      end
  end.

Definition open_partial_header_connections (port : Z) (count : nat) (hold_seconds : float) : net pyval :=
  perform r <- open_partials count port [] [] in
  let '(sockets, errors) := r in
  perform _ <- sleep w hold_seconds in
  perform _ <- close_all sockets in
  cret (VDict [(u "attempted", VInt (Z.of_nat count)); (u "opened", VInt (Z.of_nat (length sockets)));
               (u "errors", VDict (py_sorted by_key errors)); (u "hold_seconds", VFloat hold_seconds)]).

(** ** A full backlog *)

Record LoopbackBacklogSaturation := Saturation {
  sat_port : Z; listener : sock; held_connections : list sock; backlog_blocked : bool }.

(** One [connect] after the other until one is refused or times out. *)
Fixpoint fill_backlog (attempts : nat) (port : Z) (connect_timeout : float) (held : list sock) : net (list sock * bool) :=
  match attempts with
  | O => cret (held, false)
  | S n =>
      perform r <- ask w (Connect port connect_timeout) in
      match r with
      | Ok s => fill_backlog n port connect_timeout (held ++ [s])
      | Raise e => if is_os_error e then cret (held, true) else clift (Raise e)
      end
  end.

Definition saturate_loopback_backlog : net LoopbackBacklogSaturation :=
  perform r <- ask w (Listen 1) in
  perform l <- clift r in
  perform filled <- fill_backlog 64 l.2 (sec 5 100) [] in
  cret (Saturation l.2 l.1 filled.1 filled.2).

Definition close_saturation (saturation : LoopbackBacklogSaturation) : net unit :=
  perform _ <- close_all (held_connections saturation) in ask w (CloseSocket (listener saturation)).
End connections.
