(* ===== verification/TrafficBase.v ===== *)
(** * TrafficBase: what the traffic probes share

    [tools/run_local_bench.py]: starting and stopping the proxy, the comparisons of
    responses and metrics the verdicts are made of, the event log as the probes read it,
    and the filter files they write. *)

From S2P Require Import Prelude Unicode PyStr PyFloat PyVal PyDyn Json BenchNet BenchHttp BenchOrigin BenchSend BenchConns.

Open Scope dyn_scope.

(** ** Verdicts *)

(** [metrics_after.get(key, 0) - metrics_before.get(key, 0)] *)
Definition delta (metrics_after metrics_before : pyval) (key : pystr) : expr :=
  get_or metrics_after key (#0) - get_or metrics_before key (#0).

Definition response_headers_for_status (responses : expr) (header : pystr) (status : Z) : expr :=
  comp_if (fun response => get (response @ "headers") header) (fun response => response @ "status" == VInt status) responses.

Definition generated_response_header_matches (header expected : pystr) (responses : list pyval) : expr :=
  all_of (fun response => get (get_or response (u "headers") (VDict [])) header == VStr expected) (VList responses).

(** [all(f(name) for name in names)] *)
Fixpoint all_named (f : pystr -> expr) (names : list pystr) : expr :=
  match names with
  | [] => VBool true
  | name :: rest => let* v := f name in if truthy v then all_named f rest else Ok (VBool false)
  end.

(** [all(observed.get(name) is None for name in names)] *)
Definition absent (observed : expr) (names : list pystr) : expr := all_named (fun name => is_none (get observed name)) names.

Definition spoofed_forwarded_headers_absent (observed : expr) : expr :=
  absent observed [u "x_forwarded"; u "x_forwarded_server"; u "x_forwarded_port"; u "x_forwarded_scheme"; u "x_forwarded_prefix";
                   u "x_forwarded_uri"; u "x_forwarded_path"; u "x_original_forwarded_for"; u "x_original_host"; u "x_original_url";
                   u "x_rewrite_url"; u "cf_connecting_ip"; u "true_client_ip"; u "fastly_client_ip"; u "client_ip"; u "x_client_ip";
                   u "x_cluster_client_ip"; u "x_originating_ip"; u "x_remote_ip"; u "x_remote_addr"].

Definition hop_by_hop_headers_absent (observed : expr) : expr :=
  absent observed [u "connection"; u "proxy_connection"; u "keep_alive"; u "te"; u "trailer"; u "upgrade"; u "x_hop_by_hop_attack"].

Definition response_hop_by_hop_headers_absent (headers : expr) : expr :=
  let* connection := headers ? "connection" in
  absent headers [u "proxy-connection"; u "keep-alive"; u "te"; u "trailer"; u "upgrade"; u "x-origin-hop"] AND
  (is_none connection OR py_lower connection == $"close").

(** [{**a, ...}] *)
Definition merged (a fields : expr) : expr :=
  let* x := a in let* y := fields in
  match x, y with
  | VDict d, VDict e => Ok (VDict (dupdate d e))
  | _, _ => Raise (Exn TypeError (u "object is not a mapping"))
  end.

(** [all(f(name, n) for name, n in table.items())] *)
Fixpoint all_fields (f : pystr -> Z -> expr) (table : list (pystr * Z)) : expr :=
  match table with
  | [] => VBool true
  | (name, n) :: rest => let* v := f name n in if truthy v then all_fields f rest else Ok (VBool false)
  end.

(** [{name: f(x) for name, x in a.items()}] *)
Definition map_values (f : pyval -> expr) (a : expr) : expr :=
  let* v := a in
  match v with
  | VDict d => record ((fun kv => (kv.1, f kv.2)) <$> d)
  | _ => Raise (Exn AttributeError (u "object has no attribute 'items'"))
  end.

(** [{"name": call(), ...}] *)
Fixpoint record_calls {S} (fields : list (pystr * eff S pyval)) : eff S pydict :=
  match fields with
  | [] => cret []
  | (name, m) :: rest => perform v <- m in perform d <- record_calls rest in cret ((name, v) :: d)
  end.

(** ** Configurations *)

Definition BENCH_HTTP_CONNECTION_LIMITS : pydict :=
  [(u "per_ip_connects_per_second", VInt 1000000); (u "per_ip_connect_burst", VInt 1000000);
   (u "global_connects_per_second", VInt 1000000); (u "global_connect_burst", VInt 1000000)].

(** ['{"filters": []}\n'] *)
Definition no_filters : pystr := uq "{'filters': []}" ++ [10%N].

(** [f"{idx:04d}"] *)
Definition dec_padded (width : nat) (n : nat) : pystr := let s := dec_nat n in replicate (width - length s) 48%N ++ s.

(** [f"{idx:04x}"] *)
Definition hex_padded (width : nat) (n : nat) : pystr :=
  let s := drop_while (chr_is 48%N) (hex_fixed 16 (N.of_nat n)) in replicate (width - length s) 48%N ++ s.

Definition block_action (body : pystr) : pyval := VDict [(u "kind", VStr (u "block")); (u "status", VInt 403); (u "body", VStr body)].
Definition blocked_text : pystr := u "blocked" ++ [10%N].

Definition runtime_filter_payload (paths : list pystr) (body : pystr) : pyval :=
  VDict [(u "filters", VList (imap (fun idx path =>
    VDict [(u "id", VStr (u "runtime-filter-" ++ dec_nat idx)); (u "enabled", VBool true); (u "priority", VInt 100);
           (u "condition", VDict [(u "path_exact", VStr path)]); (u "action", block_action body)]) paths))].

Definition runtime_filter_hot_path_payload (rule_count : Z) : pyval :=
  let condition contains :=
    VDict [(u "path_shape", VStr (u "/filter-hot-path/:token/:num")); (u "user_agent_contains", VStr (u "MIXEDBOT"));
           (u "headers", VList [VDict [(u "name", VStr (u "X-Altura-Signal")); (u "contains", VStr contains)]])] in
  let rule id priority contains :=
    VDict [(u "id", VStr id); (u "enabled", VBool true); (u "priority", VInt priority); (u "condition", condition contains);
           (u "action", block_action blocked_text)] in
  VDict [(u "filters", VList (((fun idx => rule (u "filter-hot-path-nonmatch-" ++ dec_padded 4 idx) 100%Z (u "never-" ++ dec_padded 4 idx))
                                <$> seq 0 (Z.to_nat (rule_count - 1))) ++ [rule (u "filter-hot-path-match") 1%Z (u "FLOOD")]))].

Definition adaptive_activation_nonblocking_rules (rule_count : Z) : pyval :=
  let rule id priority shape :=
    VDict [(u "id", VStr id); (u "enabled", VBool true); (u "adaptive", VBool true); (u "priority", VInt priority);
           (u "condition", VDict [(u "path_shape", VStr shape)]); (u "action", block_action blocked_text)] in
  VList (((fun idx => rule (u "activation-nonblocking-nonmatch-" ++ dec_padded 4 idx) 100%Z
                           (u "/activation-nonblocking/nonmatch-" ++ dec_padded 4 idx ++ u "/:num")) <$> seq 0 (Z.to_nat (rule_count - 1)))
         ++ [rule (u "activation-nonblocking-match") 1%Z (u "/activation-nonblocking/:num")]).

Definition runtime_reload_nonblocking_payload (rule_count : Z) : pyval :=
  let rule id priority condition :=
    VDict [(u "id", VStr id); (u "enabled", VBool true); (u "priority", VInt priority); (u "condition", VDict condition);
           (u "action", block_action blocked_text)] in
  VDict [(u "filters", VList (((fun idx => rule (u "runtime-reload-nonblocking-nonmatch-" ++ dec_padded 4 idx) 100%Z
      [(u "path_shape", VStr (u "/runtime-reload-nonblocking/nonmatch-" ++ dec_padded 4 idx ++ u "/:num"))])
      <$> seq 0 (Z.to_nat (rule_count - 1)))
    ++ [rule (u "runtime-reload-nonblocking-match") 1%Z [(u "path_exact", VStr (u "/runtime-reload-nonblocking/match"))]]))].

(** ** The event log *)

(** The lines of a file read in text mode. *)
Definition text_lines (text : pystr) : list pystr :=
  let l := split_on 10 text in match last l with Some [] => removelast l | _ => l end.

(** [json.loads(line)] where only [JSONDecodeError] is handled *)
Definition decoded_line (l : pystr) : res (option pyval) :=
  match loads l with
  | Ok v => Ok (Some v)
  | Raise e => match exn_class e with JSONDecodeError => Ok None | _ => Raise e end
  end.

Definition is_blank (l : pystr) : bool := is_empty (strip l).

Fixpoint dict_lines (lines : list pystr) : res (list pyval) :=
  match lines with
  | [] => Ok []
  | l :: rest =>
      if is_blank l then dict_lines rest
      else
        let* v := decoded_line l in
        let* events := dict_lines rest in
        Ok match v with Some (VDict d) => VDict d :: events | _ => events end
  end.

Fixpoint first_dict (lines : list pystr) : res pyval :=
  match lines with
  | [] => Ok (VDict [])
  | l :: rest =>
      if is_blank l then first_dict rest
      else let* v := decoded_line l in match v with Some (VDict d) => Ok (VDict d) | _ => first_dict rest end
  end.

(** The counters of one file: all lines, the valid ones and the others. *)
Record line_stats := LineStats { ls_lines : Z; ls_valid : Z; ls_invalid : Z }.

Definition line_stat (st : line_stats) (l : pystr) : res line_stats :=
  if is_blank l then Ok st
  else
    let* v := decoded_line l in
    let valid := match v with Some (VDict d) => match dget (u "signature") d with Some (VStr _) => true | _ => false end | _ => false end in
    Ok (LineStats (ls_lines st + 1) (ls_valid st + Z.b2z valid) (ls_invalid st + Z.b2z (negb valid))).

Section traffic.
Context (w : world) (fuel : nat).

Definition count_file_lines (path : pystr) : net pyval :=
  perform there <- ask w (Exists path) in
  if (there : bool) then perform text <- read_text w path in cret (VInt (Z.of_nat (length (text_lines text)))) else cret (VInt 0).

(** [while count < minimum and time.perf_counter() < deadline: time.sleep(0.02); count = count_file_lines(path)] *)
Fixpoint wait_lines (fuel : nat) (path : pystr) (minimum : Z) (deadline : float) (count : pyval) : net pyval :=
  perform short <- clift (count < VInt minimum) in
  if truthy short then
    perform now <- perf_counter w in
    if fltb now deadline then
      match fuel with
      | O => out_of_fuel
      | S fuel' =>
          perform _ <- sleep w (sec 2 100) in
          perform count <- count_file_lines path in
          wait_lines fuel' path minimum deadline count
      end
    else cret count
  else cret count.

Definition wait_file_line_count (path : pystr) (minimum : Z) (timeout_seconds : float) : net pyval :=
  perform now <- perf_counter w in
  perform count <- count_file_lines path in
  wait_lines fuel path minimum (fadd now timeout_seconds) count.

Definition first_decodable_json_line (path : pystr) : net pyval :=
  perform there <- ask w (Exists path) in
  if (there : bool) then perform text <- read_text w path in clift (first_dict (splitlines text)) else cret (VDict []).

Definition decodable_json_lines (path : pystr) : net pyval :=
  perform there <- ask w (Exists path) in
  if (there : bool) then
    perform text <- read_text w path in
    perform events <- clift (dict_lines (splitlines text)) in cret (VList events)
  else cret (VList []).

Fixpoint wait_event (fuel : nat) (path : pystr) (predicate : pyval -> expr) (deadline : float) (events : pyval) : net pyval :=
  perform found <- clift (any_of predicate events) in
  if truthy found then cret events
  else
    perform now <- perf_counter w in
    if fltb now deadline then
      match fuel with
      | O => out_of_fuel
      | S fuel' =>
          perform _ <- sleep w (sec 2 100) in
          perform events <- decodable_json_lines path in
          wait_event fuel' path predicate deadline events
      end
    else cret events.

Definition wait_for_jsonl_event (path : pystr) (predicate : pyval -> expr) (timeout_seconds : float) : net pyval :=
  perform now <- perf_counter w in
  perform events <- decodable_json_lines path in
  wait_event fuel path predicate (fadd now timeout_seconds) events.

Definition event_log_files (path : pystr) (backup_count : Z) : list pystr :=
  path :: ((fun idx => path ++ u "." ++ dec_nat idx) <$> seq 1 (Z.to_nat backup_count)).

(** [path.name] *)
Definition base_name (path : pystr) : pystr := match rpartition 47 path with Some (_, name) => name | None => path end.

(** One file of [jsonl_file_stats]: its size and its line counters. *)
Definition file_stats (path : pystr) : net (Z * line_stats) :=
  perform there <- ask w (Exists path) in
  if (there : bool) then
    perform size <- file_size w path in
    perform text <- read_text w path in
    perform st <- clift (foldM line_stat (LineStats 0 0 0) (text_lines text)) in
    cret (size, st)
  else cret (0%Z, LineStats 0 0 0).

(** [sum(d.values())] of a dict of integers *)
Definition sum_values (d : pydict) : Z := foldr (fun v acc => (default 0 (int_value v) + acc)%Z) 0%Z (dvalues d).

Definition jsonl_file_stats (paths : list pystr) : net pyval :=
  perform stats <- for_each file_stats paths in
  let named (f : Z * line_stats -> Z) : pydict := dupdate [] (zip_with (fun path st => (base_name path, VInt (f st))) paths stats) in
  let sizes := named fst in
  let line_counts := named (fun st => ls_lines st.2) in
  let total f := foldr (fun st acc => (f st.2 + acc)%Z) 0%Z stats in
  cret (VDict [(u "sizes", VDict sizes); (u "line_counts", VDict line_counts); (u "total_bytes", VInt (sum_values sizes));
               (u "total_lines", VInt (sum_values line_counts)); (u "valid_json_lines", VInt (total ls_valid));
               (u "invalid_json_lines", VInt (total ls_invalid))]).

(** [while not path.exists() and time.perf_counter() < deadline: time.sleep(0.02)] *)
Fixpoint wait_exists (fuel : nat) (path : pystr) (deadline : float) : net unit :=
  perform there <- ask w (Exists path) in
  if (there : bool) then cret tt
  else
    perform now <- perf_counter w in
    if fltb now deadline then
      match fuel with
      | O => out_of_fuel
      | S fuel' => perform _ <- sleep w (sec 2 100) in wait_exists fuel' path deadline
      end
    else cret tt.

(** The loop of [run_tracked_ip_cap_probe]: how many clients were admitted before the first
    denial, who was denied and with which status. *)
Fixpoint admit_clients (port : Z) (first_ip : pystr) (octets : list nat) (admitted : Z) : net (pyval * pyval * pyval) :=
  match octets with
  | [] => cret (VInt admitted, VNone, VNone)
  | host_octet :: rest =>
      let candidate := u "198.51.100." ++ dec_nat host_octet in
      if str_eqb candidate first_ip then admit_clients port first_ip rest admitted
      else
        perform status <- get_status w port (u "GET") (u "/") [] (sec 2 1) [(u "X-Forwarded-For", candidate)] in
        if py_eqb status (#429) then cret (VInt admitted, VStr candidate, status)
        else admit_clients port first_ip rest (admitted + 1)
  end.

(** ** The proxy process *)

Definition backtrace_off : list (pystr * pystr) := [(u "RUST_BACKTRACE", u "0")].

Definition start_proxy (binary config_path : pystr) : net proc := popen w [binary; u "--config"; config_path] backtrace_off.

Definition is_timeout_expired (e : exn) : bool := match exn_class e with TimeoutExpired => true | _ => false end.

(** [proxy.terminate(); try: _, stderr = proxy.communicate(timeout=5) except TimeoutExpired: proxy.kill();
    _, stderr = proxy.communicate(timeout=5)] *)
Definition stop_collecting (proxy : proc) : net pystr :=
  perform _ <- ask w (Terminate proxy) in
  perform r <- catch (communicate w proxy (sec 5 1)) is_timeout_expired
    (fun _ => perform _ <- ask w (Kill proxy) in communicate w proxy (sec 5 1)) in
  cret r.2.

Definition stop_communicate (proxy : proc) : net unit := perform _ <- stop_collecting proxy in cret tt.

(** [proxy.terminate(); try: proxy.wait(timeout=5) except TimeoutExpired: proxy.kill()] *)
Definition stop_wait (proxy : proc) : net unit :=
  perform _ <- ask w (Terminate proxy) in
  catch (perform _ <- wait_process w proxy (sec 5 1) in cret tt) is_timeout_expired (fun _ => ask w (Kill proxy)).

(** [stop_process_and_collect_stderr], with the exit status the process has afterwards *)
Definition stop_process_and_collect (process : proc) : net (option Z * pystr) :=
  perform running <- ask w (Poll process) in
  perform _ <- match running with None => ask w (Terminate process) | Some _ => cret tt end in
  let ended (r : Z * pystr) := (Some r.1, r.2) in
  catch (perform r <- communicate w process (sec 5 1) in cret (ended r)) is_timeout_expired
    (fun _ =>
       perform _ <- ask w (Kill process) in
       catch (perform r <- communicate w process (sec 5 1) in cret (ended r)) is_timeout_expired
         (fun _ => cret (running, u "<stderr unavailable: process did not exit after SIGKILL>"))).

Definition stop_process_and_collect_stderr (process : proc) : net pystr :=
  perform r <- stop_process_and_collect process in cret r.2.

Definition PROCESS_STDERR_TAIL_CHARS : nat := 4000.

Definition format_process_stderr_tail (stderr : pystr) : pystr :=
  let stderr := strip stderr in
  if is_empty stderr then u "<empty>"
  else if length stderr <=? PROCESS_STDERR_TAIL_CHARS then stderr
  else u "<truncated>" ++ [10%N] ++ last_n PROCESS_STDERR_TAIL_CHARS stderr.
End traffic.
