(* ===== verification/TrafficBody.v ===== *)
(** * TrafficBody: probes of request bodies, content coding and process limits

    [tools/run_local_bench.py]: each probe writes a configuration, starts the proxy on it,
    sends traffic, and reports what it saw together with its verdicts; whatever happens, the
    proxy is stopped. *)

From S2P Require Import Prelude Unicode PyStr PyFloat PyVal PyDyn Json.
From S2P Require Import BenchNet BenchHttp BenchOrigin BenchSend BenchConns TrafficBase.

Open Scope dyn_scope.

Section probes.
Context (w : world) (fuel : nat) (binary : pystr) (upstream_port tcp_upstream_port : Z) (tmp_path : pystr).

Definition run_request_content_encoding_probe (port : Z) : net pyval :=
  perform metrics_before <- fetch_metrics w port (u "bench-token") [] in
  perform gzip_response <- request_with_content_encoding w port (u "gzip") in
  perform identity_response <- request_with_content_encoding w port (u "identity") in
  perform metrics_after <- fetch_metrics w port (u "bench-token") [] in
  perform rejected_delta <- eval (delta metrics_after metrics_before (u "altura_http_content_encoding_rejected")) in
  eval (record [
    "gzip_request" :- gzip_response;
    "identity_request" :- identity_response;
    "content_encoding_rejected_delta" :- rejected_delta;
    "compressed_request_rejected" :- gzip_response @ "status" == #415;
    "accept_encoding_identity_advertised" :- gzip_response @ "accept_encoding" == $"identity";
    "compressed_request_not_stored" :- gzip_response @ "cache_control" == $"no-store";
    "compressed_request_closes_connection" :- gzip_response @ "connection_close";
    "identity_request_allowed" :- identity_response @ "status" == #200]).

Definition run_expect_guard_probe (port : Z) : net pyval :=
  perform metrics_before <- fetch_metrics w port (u "bench-token") [] in
  perform expect_continue <- send_raw_expect_request w fuel port (u "100-continue") in
  perform unsupported <- send_raw_expect_request w fuel port (u "wait-for-magic") in
  perform no_expect <- get_status w port (u "POST") (u "/drain") (u "abcd") (sec 2 1) [] in
  perform metrics_after <- fetch_metrics w port (u "bench-token") [] in
  perform rejected_delta <- eval (delta metrics_after metrics_before (u "altura_http_expect_rejected")) in
  eval (record [
    "expect_continue" :- expect_continue;
    "unsupported_expectation" :- unsupported;
    "no_expect_status" :- no_expect;
    "expect_rejected_delta" :- rejected_delta;
    "expect_continue_rejected" :- expect_continue @ "status" == #417;
    "unsupported_expectation_rejected" :- unsupported @ "status" == #417;
    "expect_rejections_not_stored" :- expect_continue @ "cache_control_no_store" AND unsupported @ "cache_control_no_store";
    "normal_request_allowed" :- no_expect == #200]).

Definition run_range_guard_probe (port : Z) : net pyval :=
  perform metrics_before <- fetch_metrics w port (u "bench-token") [] in
  perform single_response <- request_with_range w port (u "bytes=0-0") in
  perform multi_response <- request_with_range w port (u "bytes=0-0, 0-0") in
  perform unsupported_response <- request_with_range w port (u "items=0-1") in
  perform malformed_response <- request_with_range w port (u "bytes=10-1") in
  perform metrics_after <- fetch_metrics w port (u "bench-token") [] in
  perform rejected_delta <- eval (delta metrics_after metrics_before (u "altura_http_range_rejected")) in
  eval (record [
    "single_range" :- single_response;
    "multi_range" :- multi_response;
    "unsupported_range" :- unsupported_response;
    "malformed_range" :- malformed_response;
    "range_rejected_delta" :- rejected_delta;
    "single_range_allowed" :- single_response @ "status" == #204;
    "multi_range_rejected" :- multi_response @ "status" == #416;
    "unsupported_range_rejected" :- unsupported_response @ "status" == #416;
    "malformed_range_rejected" :- malformed_response @ "status" == #416;
    "range_rejections_not_stored" :- all_of (fun response => response @ "cache_control_no_store") (VList [multi_response; unsupported_response; malformed_response])]).

Definition run_accept_encoding_probe (port : Z) : net pyval :=
  perform metrics_before <- fetch_metrics w port (u "bench-token") [] in
  perform response <- send_raw_accept_encoding_request w fuel port in
  perform metrics_after <- fetch_metrics w port (u "bench-token") [] in
  perform stripped_delta <- eval (delta metrics_after metrics_before (u "altura_http_accept_encoding_stripped")) in
  perform observed <- eval (response ? "observed" OR VDict []) in
  eval (record [
    "request" :- response;
    "accept_encoding_stripped_delta" :- stripped_delta;
    "origin_accept_encoding" :- observed ? "accept_encoding";
    "origin_accept_encoding_stripped" :- response ? "status" == #200 AND is_none (observed ? "accept_encoding")]).

Definition run_body_min_rate_probe : net pyval :=
  perform proxy_port <- free_port w in
  let filters_path := under tmp_path (u "body-min-rate-filters.json") in
  let events_path := under tmp_path (u "body-min-rate-events.jsonl") in
  perform _ <- write_text w filters_path no_filters in
  let cfg := VDict [
      (u "http", VDict [
        (u "listen", VStr (u "127.0.0.1:" ++ dec_Z proxy_port));
        (u "upstream", VStr (u "http://127.0.0.1:" ++ dec_Z upstream_port));
        (u "preserve_host", VBool true);
        (u "admin_token", VStr (u "body-min-rate-token"));
        (u "max_body_bytes", VInt 1024);
        (u "request_body_idle_timeout_ms", VInt 500);
        (u "request_body_min_rate_bytes_per_second", VInt 1000);
        (u "request_body_min_rate_grace_ms", VInt 10);
        (u "upstream_body_idle_timeout_ms", VInt 500);
        (u "upstream_body_min_rate_bytes_per_second", VInt 1000);
        (u "upstream_body_min_rate_grace_ms", VInt 10);
        (u "limits", VDict [
          (u "per_ip_rps", VInt 1000000);
          (u "per_ip_burst", VInt 1000000);
          (u "global_rps", VInt 1000000);
          (u "global_burst", VInt 1000000);
          (u "max_connections", VInt 128);
          (u "max_connections_per_ip", VInt 128);
          (u "max_in_flight_requests", VInt 128);
          (u "max_in_flight_requests_per_ip", VInt 128);
          (u "max_tracked_ips", VInt 1024)])]);
      (u "tcp", VList []);
      (u "filters", VDict [
        (u "runtime_file", VStr filters_path);
        (u "reload_seconds", VInt 1);
        (u "static_rules", VList [])]);
      (u "adaptive", VDict [
        (u "enabled", VBool true);
        (u "signature_threshold_per_second", VInt 2);
        (u "activation_ttl_seconds", VInt 10);
        (u "event_log", VStr events_path);
        (u "event_log_flush_interval_ms", VInt 1);
        (u "event_cooldown_seconds", VInt 1)])] in
  let config_path := under tmp_path (u "body-min-rate-config.json") in
  perform _ <- write_text w config_path (dumps default_style cfg) in
  perform proxy <- start_proxy w binary config_path in
  finally (
    perform _ <- wait_http w fuel proxy_port in
    perform metrics_before <- fetch_metrics w proxy_port (u "body-min-rate-token") [] in
    perform request_body_response <- send_min_rate_body_request w proxy_port in
    perform metrics_after_request <- fetch_metrics w proxy_port (u "body-min-rate-token") [] in
    perform banked_request_body_response <- send_banked_min_rate_body_request w proxy_port in
    perform metrics_after_banked_request <- fetch_metrics w proxy_port (u "body-min-rate-token") [] in
    perform upstream_response <- send_slow_drip_response_request w fuel proxy_port in
    perform metrics_after <- fetch_metrics w proxy_port (u "body-min-rate-token") [] in
    perform too_slow_delta <- eval (delta metrics_after_request metrics_before (u "altura_http_body_too_slow")) in
    perform banked_too_slow_delta <- eval (delta metrics_after_banked_request metrics_after_request (u "altura_http_body_too_slow")) in
    perform upstream_too_slow_delta <- eval (delta metrics_after metrics_after_banked_request (u "altura_http_upstream_body_too_slow")) in
    eval (record [
      "configured_request_body_idle_timeout_ms" :- #500;
      "configured_request_body_min_rate_bytes_per_second" :- #1000;
      "configured_request_body_min_rate_grace_ms" :- #10;
      "configured_upstream_body_idle_timeout_ms" :- #500;
      "configured_upstream_body_min_rate_bytes_per_second" :- #1000;
      "configured_upstream_body_min_rate_grace_ms" :- #10;
      "request_body_response" :- request_body_response;
      "banked_request_body_response" :- banked_request_body_response;
      "upstream_response" :- upstream_response;
      "http_body_too_slow_delta" :- too_slow_delta;
      "http_body_banked_too_slow_delta" :- banked_too_slow_delta;
      "http_upstream_body_too_slow_delta" :- upstream_too_slow_delta;
      "request_min_rate_rejected" :- request_body_response @ "status" == #408 AND request_body_response @ "cache_control_no_store" AND
        request_body_response @ "connection_close" AND too_slow_delta >= #1;
      "request_banked_min_rate_rejected" :- banked_request_body_response @ "status" == #408 AND banked_request_body_response @ "cache_control_no_store" AND
        banked_request_body_response @ "connection_close" AND banked_too_slow_delta >= #1;
      "upstream_min_rate_rejected" :- upstream_too_slow_delta >= #1]))
    (stop_communicate w proxy).

Definition run_runtime_nofile_probe : net pyval :=
  perform proxy_port <- free_port w in
  let filters_path := under tmp_path (u "runtime-nofile-filters.json") in
  let events_path := under tmp_path (u "runtime-nofile-events.jsonl") in
  perform _ <- write_text w filters_path no_filters in
  let cfg := VDict [
      (u "runtime", VDict [(u "min_nofile", VInt 2048)]);
      (u "http", VDict [
        (u "listen", VStr (u "127.0.0.1:" ++ dec_Z proxy_port));
        (u "upstream", VStr (u "http://127.0.0.1:" ++ dec_Z upstream_port));
        (u "preserve_host", VBool true);
        (u "admin_token", VStr (u "runtime-nofile-token"));
        (u "limits", VDict [
          (u "per_ip_rps", VInt 1000000);
          (u "per_ip_burst", VInt 1000000);
          (u "global_rps", VInt 1000000);
          (u "global_burst", VInt 1000000);
          (u "max_connections", VInt 128);
          (u "max_connections_per_ip", VInt 128);
          (u "max_in_flight_requests", VInt 128);
          (u "max_in_flight_requests_per_ip", VInt 128);
          (u "max_tracked_ips", VInt 1024)])]);
      (u "tcp", VList []);
      (u "filters", VDict [
        (u "runtime_file", VStr filters_path);
        (u "reload_seconds", VInt 1);
        (u "static_rules", VList [])]);
      (u "adaptive", VDict [
        (u "enabled", VBool true);
        (u "signature_threshold_per_second", VInt 1000000);
        (u "activation_ttl_seconds", VInt 10);
        (u "event_log", VStr events_path);
        (u "event_cooldown_seconds", VInt 1)])] in
  let config_path := under tmp_path (u "runtime-nofile-config.json") in
  perform _ <- write_text w config_path (dumps default_style cfg) in
  perform proxy <- start_proxy w binary config_path in
  perform r <- ensuring (
      perform _ <- wait_http w fuel proxy_port in
      perform health_status <- get_status w proxy_port (u "GET") (u "/__altura/health") [] (sec 2 1) [] in
      cret health_status)
    (stop_collecting w proxy) in
  let '(health_status, stderr_text) := r in
  let runtime_lines := List.filter (starts_with (u "runtime nofile limit ")) (splitlines stderr_text) in
  eval (record [
    "configured_min_nofile" :- #2048;
    "health_status" :- health_status;
    "runtime_status_line" :- str_or_none (last runtime_lines);
    "runtime_nofile_observed" :- health_status == #200 AND VBool (negb (is_empty runtime_lines))]).

Definition run_runtime_nofile_capacity_probe : net pyval :=
  perform proxy_port <- free_port w in
  let filters_path := under tmp_path (u "runtime-nofile-capacity-filters.json") in
  let events_path := under tmp_path (u "runtime-nofile-capacity-events.jsonl") in
  perform _ <- write_text w filters_path no_filters in
  let configured_min_nofile := 1024%Z in
  let expected_required_nofile := 3269%Z in
  let cfg := VDict [
      (u "runtime", VDict [(u "min_nofile", VInt configured_min_nofile)]);
      (u "http", VDict [
        (u "listen", VStr (u "127.0.0.1:" ++ dec_Z proxy_port));
        (u "upstream", VStr (u "http://127.0.0.1:" ++ dec_Z upstream_port));
        (u "preserve_host", VBool true);
        (u "admin_token", VStr (u "runtime-nofile-capacity-token"));
        (u "upstream_pool_max_idle_per_host", VInt 512);
        (u "limits", VDict [
          (u "per_ip_rps", VInt 1000000);
          (u "per_ip_burst", VInt 1000000);
          (u "global_rps", VInt 1000000);
          (u "global_burst", VInt 1000000);
          (u "max_connections", VInt 1500);
          (u "max_connections_per_ip", VInt 1500);
          (u "max_in_flight_requests", VInt 1000);
          (u "max_in_flight_requests_per_ip", VInt 1000);
          (u "max_tracked_ips", VInt 1024)])]);
      (u "tcp", VList []);
      (u "filters", VDict [
        (u "runtime_file", VStr filters_path);
        (u "reload_seconds", VInt 1);
        (u "static_rules", VList [])]);
      (u "adaptive", VDict [
        (u "enabled", VBool true);
        (u "signature_threshold_per_second", VInt 1000000);
        (u "activation_ttl_seconds", VInt 10);
        (u "event_log", VStr events_path);
        (u "event_cooldown_seconds", VInt 1)])] in
  let config_path := under tmp_path (u "runtime-nofile-capacity-config.json") in
  perform _ <- write_text w config_path (dumps default_style cfg) in
  perform proxy <- popen w [u "/bin/sh"; u "-c";
      u "ulimit -n " ++ dec_Z configured_min_nofile ++ uq "; exec '$0' --config '$1'"; binary; config_path] backtrace_off in
  perform ended <- catch (communicate w proxy (sec 5 1)) is_timeout_expired (fun _ =>
    perform _ <- ask w (Terminate proxy) in
    catch (communicate w proxy (sec 5 1)) is_timeout_expired (fun _ =>
      perform _ <- ask w (Kill proxy) in communicate w proxy (sec 5 1))) in
  let '(returncode, stderr_text) := ended in
  eval (record [
    "configured_min_nofile" :- VInt configured_min_nofile;
    "expected_required_nofile" :- VInt expected_required_nofile;
    "exit_code" :- VInt returncode;
    "stderr_tail" :- VList (VStr <$> last_n 8 (splitlines stderr_text));
    "capacity_rejected" :- VBool (negb (returncode =? 0)%Z && contains (u "runtime.min_nofile capacity check failed") stderr_text &&
      contains (u "require at least " ++ dec_Z expected_required_nofile ++ u " file descriptors") stderr_text)]).

Definition run_runtime_sigterm_probe : net pyval :=
  perform proxy_port <- free_port w in
  let filters_path := under tmp_path (u "runtime-sigterm-filters.json") in
  let events_path := under tmp_path (u "runtime-sigterm-events.jsonl") in
  perform _ <- write_text w filters_path no_filters in
  let cfg := VDict [
      (u "runtime", VDict [(u "shutdown_grace_ms", VInt 0)]);
      (u "http", VDict [
        (u "listen", VStr (u "127.0.0.1:" ++ dec_Z proxy_port));
        (u "upstream", VStr (u "http://127.0.0.1:" ++ dec_Z upstream_port));
        (u "preserve_host", VBool true);
        (u "admin_token", VStr (u "runtime-sigterm-token"));
        (u "limits", VDict [
          (u "per_ip_rps", VInt 1000000);
          (u "per_ip_burst", VInt 1000000);
          (u "global_rps", VInt 1000000);
          (u "global_burst", VInt 1000000);
          (u "max_connections", VInt 128);
          (u "max_connections_per_ip", VInt 128);
          (u "max_in_flight_requests", VInt 128);
          (u "max_in_flight_requests_per_ip", VInt 128);
          (u "max_tracked_ips", VInt 1024)])]);
      (u "tcp", VList []);
      (u "filters", VDict [
        (u "runtime_file", VStr filters_path);
        (u "reload_seconds", VInt 1);
        (u "static_rules", VList [])]);
      (u "adaptive", VDict [
        (u "enabled", VBool true);
        (u "signature_threshold_per_second", VInt 1000000);
        (u "activation_ttl_seconds", VInt 10);
        (u "event_log", VStr events_path);
        (u "event_cooldown_seconds", VInt 1)])] in
  let config_path := under tmp_path (u "runtime-sigterm-config.json") in
  perform _ <- write_text w config_path (dumps default_style cfg) in
  perform proxy <- start_proxy w binary config_path in
  perform ended <- run_scope (VNone, None) (finally
    (catch
       (perform _ <- inner (wait_http w fuel proxy_port) in
        perform health_status <- inner (get_status w proxy_port (u "GET") (u "/__altura/health") [] (sec 2 1) []) in
        perform _ <- update (fun l => (health_status, l.2)) in
        perform _ <- inner (ask w (Terminate proxy)) in
        perform r <- inner (communicate w proxy (sec 5 1)) in
        update (fun l => (l.1, Some r)))
       is_timeout_expired
       (fun _ =>
          perform _ <- inner (ask w (Kill proxy)) in
          perform r <- inner (communicate w proxy (sec 5 1)) in
          update (fun l => (l.1, Some r))))
    (perform status <- inner (ask w (Poll proxy)) in
     match status with
     | Some _ => cret tt
     | None =>
         perform _ <- inner (ask w (Kill proxy)) in
         perform r <- inner (communicate w proxy (sec 5 1)) in
         update (fun l => (l.1, Some r))
     end)) in
  let health_status := ended.1 in
  let returncode := int_or_none (fst <$> ended.2) in
  let stderr_lines := splitlines (default [] (snd <$> ended.2)) in
  eval (record [
    "health_status" :- health_status;
    "exit_code" :- returncode;
    "stderr_tail" :- VList (VStr <$> last_n 8 stderr_lines);
    "sigterm_graceful" :- health_status == #200 AND returncode == #0 AND
      VBool (existsb (str_eqb (u "shutdown signal received: SIGTERM")) stderr_lines)]).

Definition run_downstream_write_timeout_probe : net pyval :=
  perform proxy_port <- free_port w in
  let filters_path := under tmp_path (u "downstream-write-timeout-filters.json") in
  let events_path := under tmp_path (u "downstream-write-timeout-events.jsonl") in
  perform _ <- write_text w filters_path no_filters in
  let cfg := VDict [
      (u "http", VDict [
        (u "listen", VStr (u "127.0.0.1:" ++ dec_Z proxy_port));
        (u "upstream", VStr (u "http://127.0.0.1:" ++ dec_Z upstream_port));
        (u "preserve_host", VBool true);
        (u "admin_token", VStr (u "downstream-write-timeout-token"));
        (u "downstream_write_timeout_ms", VInt 20);
        (u "upstream_timeout_ms", VInt 2000);
        (u "upstream_body_idle_timeout_ms", VInt 2000);
        (u "max_upstream_body_bytes", VInt (((64 * 1024) * 1024)%Z));
        (u "limits", VDict [
          (u "per_ip_rps", VInt 1000000);
          (u "per_ip_burst", VInt 1000000);
          (u "global_rps", VInt 1000000);
          (u "global_burst", VInt 1000000);
          (u "max_connections", VInt 128);
          (u "max_connections_per_ip", VInt 128);
          (u "max_in_flight_requests", VInt 128);
          (u "max_in_flight_requests_per_ip", VInt 128);
          (u "max_tracked_ips", VInt 1024)])]);
      (u "tcp", VList []);
      (u "filters", VDict [
        (u "runtime_file", VStr filters_path);
        (u "reload_seconds", VInt 1);
        (u "static_rules", VList [])]);
      (u "adaptive", VDict [
        (u "enabled", VBool true);
        (u "signature_threshold_per_second", VInt 1000000);
        (u "activation_ttl_seconds", VInt 10);
        (u "event_log", VStr events_path);
        (u "event_cooldown_seconds", VInt 1)])] in
  let config_path := under tmp_path (u "downstream-write-timeout-config.json") in
  perform _ <- write_text w config_path (dumps default_style cfg) in
  perform proxy <- start_proxy w binary config_path in
  finally (
    perform _ <- wait_http w fuel proxy_port in
    perform metrics_before <- fetch_metrics w proxy_port (u "downstream-write-timeout-token") [] in
    perform slow_reader_response <- send_slow_downstream_reader_request w proxy_port in
    perform _ <- sleep w (sec 5 100) in
    perform metrics_after <- fetch_metrics w proxy_port (u "downstream-write-timeout-token") [] in
    perform write_timeout_delta <- eval (delta metrics_after metrics_before (u "altura_http_downstream_write_timeouts")) in
    eval (record [
      "configured_downstream_write_timeout_ms" :- #20;
      "slow_reader_response" :- slow_reader_response;
      "http_downstream_write_timeouts_delta" :- write_timeout_delta;
      "downstream_write_timeout_observed" :- write_timeout_delta >= #1]))
    (stop_communicate w proxy).
End probes.
