(* ===== verification/TrafficUpstream.v ===== *)
(** * TrafficUpstream: probes of failing, slow and misbehaving origins

    [tools/run_local_bench.py]: each probe writes a configuration, starts the proxy on it,
    sends traffic, and reports what it saw together with its verdicts; whatever happens, the
    proxy is stopped. *)

From S2P Require Import Prelude Unicode PyStr PyFloat PyVal PyDyn Json.
From S2P Require Import BenchNet BenchHttp BenchOrigin BenchSend BenchConns TrafficBase.

Open Scope dyn_scope.

Section probes.
Context (w : world) (fuel : nat) (binary : pystr) (upstream_port tcp_upstream_port : Z) (tmp_path : pystr).

Definition run_upstream_connect_timeout_probe : net pyval :=
  perform saturation <- saturate_loopback_backlog w in
  perform proxy_port <- free_port w in
  let filters_path := under tmp_path (u "upstream-connect-timeout-filters.json") in
  let events_path := under tmp_path (u "upstream-connect-timeout-events.jsonl") in
  perform _ <- write_text w filters_path no_filters in
  let cfg := VDict [
      (u "http", VDict [
        (u "listen", VStr (u "127.0.0.1:" ++ dec_Z proxy_port));
        (u "upstream", VStr (u "http://127.0.0.1:" ++ dec_Z (sat_port saturation)));
        (u "preserve_host", VBool true);
        (u "admin_token", VStr (u "upstream-connect-timeout-token"));
        (u "upstream_connect_timeout_ms", VInt 75);
        (u "upstream_timeout_ms", VInt 1000);
        (u "limits", VDict [
          (u "per_ip_rps", VInt 1000000);
          (u "per_ip_burst", VInt 1000000);
          (u "global_rps", VInt 1000000);
          (u "global_burst", VInt 1000000);
          (u "max_connections", VInt 128);
          (u "max_connections_per_ip", VInt 128);
          (u "max_in_flight_requests", VInt 1);
          (u "max_in_flight_requests_per_ip", VInt 1);
          (u "max_tracked_ips", VInt 1024)])]);
      (u "tcp", VList []);
      (u "filters", VDict [
        (u "runtime_file", VStr filters_path);
        (u "reload_seconds", VInt 1);
        (u "static_rules", VList [])]);
      (u "adaptive", VDict [
        (u "enabled", VBool true);
        (u "signature_threshold_per_second", VInt 1000000);
        (u "activation_ttl_seconds", VInt 10);
        (u "event_log", VStr events_path);
        (u "event_cooldown_seconds", VInt 1)])] in
  let config_path := under tmp_path (u "upstream-connect-timeout-config.json") in
  perform _ <- write_text w config_path (dumps default_style cfg) in
  perform proxy <- start_proxy w binary config_path in
  finally (
    perform _ <- wait_http w fuel proxy_port in
    perform metrics_before <- fetch_metrics w proxy_port (u "upstream-connect-timeout-token") [] in
    perform first <- read_raw_response w fuel proxy_port (u "/connect-timeout") in
    perform second <- read_raw_response w fuel proxy_port (u "/connect-timeout") in
    perform metrics_after <- fetch_metrics w proxy_port (u "upstream-connect-timeout-token") [] in
    perform upstream_errors_delta <- eval (delta metrics_after metrics_before (u "altura_http_upstream_errors")) in
    perform upstream_timeouts_delta <- eval (delta metrics_after metrics_before (u "altura_http_upstream_timeouts")) in
    perform in_flight_rejected_delta <- eval (delta metrics_after metrics_before (u "altura_http_upstream_in_flight_rejected")) in
    perform generated_502_not_stored <- eval (generated_response_header_matches (u "cache-control") (u "no-store") [first; second]) in
    perform generated_502_closes_connection <- eval (generated_response_header_matches (u "connection") (u "close") [first; second]) in
    eval (record [
      "configured_upstream_connect_timeout_ms" :- #75;
      "configured_upstream_timeout_ms" :- #1000;
      "loopback_backlog_blocked" :- VBool (backlog_blocked saturation);
      "held_backlog_connections" :- VInt (Z.of_nat (length (held_connections saturation)));
      "first_response" :- first;
      "second_response" :- second;
      "generated_502_not_stored" :- generated_502_not_stored;
      "generated_502_closes_connection" :- generated_502_closes_connection;
      "http_upstream_errors_delta" :- upstream_errors_delta;
      "http_upstream_timeouts_delta" :- upstream_timeouts_delta;
      "http_upstream_in_flight_rejected_delta" :- in_flight_rejected_delta;
      "upstream_connect_timeout_observed" :- VBool (backlog_blocked saturation) AND first @ "status" == #502 AND second @ "status" == #502 AND
        generated_502_not_stored AND generated_502_closes_connection AND first @ "elapsed_seconds" < VFloat (sec 5 10) AND
        second @ "elapsed_seconds" < VFloat (sec 5 10) AND upstream_errors_delta >= #2 AND upstream_timeouts_delta == #0 AND
        in_flight_rejected_delta == #0]))
    (perform _ <- stop_communicate w proxy in close_saturation w saturation).

Definition run_upstream_failure_circuit_probe : net pyval :=
  perform saturation <- saturate_loopback_backlog w in
  perform proxy_port <- free_port w in
  let filters_path := under tmp_path (u "upstream-failure-circuit-filters.json") in
  let events_path := under tmp_path (u "upstream-failure-circuit-events.jsonl") in
  perform _ <- write_text w filters_path no_filters in
  let circuit_open_ms := 200%Z in
  let cfg := VDict [
      (u "http", VDict [
        (u "listen", VStr (u "127.0.0.1:" ++ dec_Z proxy_port));
        (u "upstream", VStr (u "http://127.0.0.1:" ++ dec_Z (sat_port saturation)));
        (u "preserve_host", VBool true);
        (u "admin_token", VStr (u "upstream-failure-circuit-token"));
        (u "upstream_connect_timeout_ms", VInt 75);
        (u "upstream_timeout_ms", VInt 1000);
        (u "upstream_failure_threshold", VInt 2);
        (u "upstream_failure_open_ms", VInt circuit_open_ms);
        (u "limits", VDict [
          (u "per_ip_rps", VInt 1000000);
          (u "per_ip_burst", VInt 1000000);
          (u "global_rps", VInt 1000000);
          (u "global_burst", VInt 1000000);
          (u "max_connections", VInt 128);
          (u "max_connections_per_ip", VInt 128);
          (u "max_in_flight_requests", VInt 2);
          (u "max_in_flight_requests_per_ip", VInt 2);
          (u "max_tracked_ips", VInt 1024)])]);
      (u "tcp", VList []);
      (u "filters", VDict [
        (u "runtime_file", VStr filters_path);
        (u "reload_seconds", VInt 1);
        (u "static_rules", VList [])]);
      (u "adaptive", VDict [
        (u "enabled", VBool true);
        (u "signature_threshold_per_second", VInt 1000000);
        (u "activation_ttl_seconds", VInt 10);
        (u "event_log", VStr events_path);
        (u "event_cooldown_seconds", VInt 1)])] in
  let config_path := under tmp_path (u "upstream-failure-circuit-config.json") in
  perform _ <- write_text w config_path (dumps default_style cfg) in
  perform proxy <- start_proxy w binary config_path in
  finally (
    perform _ <- wait_http w fuel proxy_port in
    perform metrics_before <- fetch_metrics w proxy_port (u "upstream-failure-circuit-token") [] in
    perform first <- read_raw_response w fuel proxy_port (u "/failure-circuit") in
    perform second <- read_raw_response w fuel proxy_port (u "/failure-circuit") in
    perform third <- read_raw_response w fuel proxy_port (u "/failure-circuit") in
    perform unrelated <- read_raw_response w fuel proxy_port (u "/unrelated-circuit") in
    perform _ <- sleep w (fdiv (float_of_Q ((circuit_open_ms + 75)%Z) 1) (sec 1000 1)) in
    perform fourth <- read_raw_response w fuel proxy_port (u "/failure-circuit") in
    perform metrics_after <- fetch_metrics w proxy_port (u "upstream-failure-circuit-token") [] in
    perform upstream_errors_delta <- eval (delta metrics_after metrics_before (u "altura_http_upstream_errors")) in
    perform upstream_timeouts_delta <- eval (delta metrics_after metrics_before (u "altura_http_upstream_timeouts")) in
    perform circuit_open_delta <- eval (delta metrics_after metrics_before (u "altura_http_upstream_circuit_open")) in
    perform generated_503_retry_after <- eval (response_headers_for_status (VList [third]) (u "retry-after") 503) in
    perform generated_503_cache_control <- eval (response_headers_for_status (VList [third]) (u "cache-control") 503) in
    eval (record [
      "configured_upstream_connect_timeout_ms" :- #75;
      "configured_upstream_failure_threshold" :- #2;
      "configured_upstream_failure_open_ms" :- VInt circuit_open_ms;
      "loopback_backlog_blocked" :- VBool (backlog_blocked saturation);
      "first_response" :- first;
      "second_response" :- second;
      "third_response" :- third;
      "unrelated_shape_response_while_circuit_open" :- unrelated;
      "fourth_response_after_open_window" :- fourth;
      "generated_503_retry_after" :- generated_503_retry_after;
      "generated_503_cache_control" :- generated_503_cache_control;
      "http_upstream_errors_delta" :- upstream_errors_delta;
      "http_upstream_timeouts_delta" :- upstream_timeouts_delta;
      "http_upstream_circuit_open_delta" :- circuit_open_delta;
      "circuit_opened_after_consecutive_failures" :- VBool (backlog_blocked saturation) AND first @ "status" == #502 AND second @ "status" == #502 AND
        third @ "status" == #503 AND third @ "elapsed_seconds" < VFloat (sec 5 100) AND
        generated_503_retry_after == VList [$"1"] AND generated_503_cache_control == VList [$"no-store"] AND
        upstream_errors_delta == #4 AND upstream_timeouts_delta == #0 AND circuit_open_delta == #1;
      "circuit_scoped_to_path_shape" :- unrelated @ "status" == #502 AND unrelated @ "elapsed_seconds" >= VFloat (sec 5 100);
      "circuit_reallowed_after_open_window" :- fourth @ "status" == #502 AND fourth @ "elapsed_seconds" >= VFloat (sec 5 100)]))
    (perform _ <- stop_communicate w proxy in close_saturation w saturation).

Definition run_upstream_timeout_response_probe : net pyval :=
  perform proxy_port <- free_port w in
  let filters_path := under tmp_path (u "upstream-timeout-response-filters.json") in
  let events_path := under tmp_path (u "upstream-timeout-response-events.jsonl") in
  perform _ <- write_text w filters_path no_filters in
  let cfg := VDict [
      (u "http", VDict [
        (u "listen", VStr (u "127.0.0.1:" ++ dec_Z proxy_port));
        (u "upstream", VStr (u "http://127.0.0.1:" ++ dec_Z upstream_port));
        (u "preserve_host", VBool true);
        (u "admin_token", VStr (u "upstream-timeout-response-token"));
        (u "upstream_connect_timeout_ms", VInt 1000);
        (u "upstream_timeout_ms", VInt 100);
        (u "limits", VDict [
          (u "per_ip_rps", VInt 1000000);
          (u "per_ip_burst", VInt 1000000);
          (u "global_rps", VInt 1000000);
          (u "global_burst", VInt 1000000);
          (u "max_connections", VInt 128);
          (u "max_connections_per_ip", VInt 128);
          (u "max_in_flight_requests", VInt 128);
          (u "max_in_flight_requests_per_ip", VInt 128);
          (u "max_tracked_ips", VInt 1024)])]);
      (u "tcp", VList []);
      (u "filters", VDict [
        (u "runtime_file", VStr filters_path);
        (u "reload_seconds", VInt 1);
        (u "static_rules", VList [])]);
      (u "adaptive", VDict [
        (u "enabled", VBool true);
        (u "signature_threshold_per_second", VInt 1000000);
        (u "activation_ttl_seconds", VInt 10);
        (u "event_log", VStr events_path);
        (u "event_cooldown_seconds", VInt 1)])] in
  let config_path := under tmp_path (u "upstream-timeout-response-config.json") in
  perform _ <- write_text w config_path (dumps default_style cfg) in
  perform proxy <- start_proxy w binary config_path in
  finally (
    perform _ <- wait_http w fuel proxy_port in
    perform metrics_before <- fetch_metrics w proxy_port (u "upstream-timeout-response-token") [] in
    perform timeout_response <- read_raw_response w fuel proxy_port (u "/slow") in
    perform metrics_after <- fetch_metrics w proxy_port (u "upstream-timeout-response-token") [] in
    perform upstream_timeouts_delta <- eval (delta metrics_after metrics_before (u "altura_http_upstream_timeouts")) in
    perform upstream_errors_delta <- eval (delta metrics_after metrics_before (u "altura_http_upstream_errors")) in
    perform generated_504_not_stored <- eval (generated_response_header_matches (u "cache-control") (u "no-store") [timeout_response]) in
    perform generated_504_closes_connection <- eval (generated_response_header_matches (u "connection") (u "close") [timeout_response]) in
    eval (record [
      "configured_upstream_connect_timeout_ms" :- #1000;
      "configured_upstream_timeout_ms" :- #100;
      "timeout_response" :- timeout_response;
      "generated_504_not_stored" :- generated_504_not_stored;
      "generated_504_closes_connection" :- generated_504_closes_connection;
      "http_upstream_timeouts_delta" :- upstream_timeouts_delta;
      "http_upstream_errors_delta" :- upstream_errors_delta;
      "upstream_timeout_response_observed" :- timeout_response @ "status" == #504 AND generated_504_not_stored AND generated_504_closes_connection AND
        upstream_timeouts_delta >= #1 AND upstream_errors_delta == #0]))
    (stop_communicate w proxy).

Definition run_upstream_header_guard_probe : net pyval :=
  perform proxy_port <- free_port w in
  let filters_path := under tmp_path (u "upstream-header-guard-filters.json") in
  let events_path := under tmp_path (u "upstream-header-guard-events.jsonl") in
  perform _ <- write_text w filters_path no_filters in
  let cfg := VDict [
      (u "http", VDict [
        (u "listen", VStr (u "127.0.0.1:" ++ dec_Z proxy_port));
        (u "upstream", VStr (u "http://127.0.0.1:" ++ dec_Z upstream_port));
        (u "preserve_host", VBool true);
        (u "admin_token", VStr (u "upstream-header-guard-token"));
        (u "upstream_max_header_bytes", VInt 8192);
        (u "upstream_max_headers", VInt 8);
        (u "limits", VDict [
          (u "per_ip_rps", VInt 1000000);
          (u "per_ip_burst", VInt 1000000);
          (u "global_rps", VInt 1000000);
          (u "global_burst", VInt 1000000);
          (u "max_connections", VInt 128);
          (u "max_connections_per_ip", VInt 128);
          (u "max_in_flight_requests", VInt 128);
          (u "max_in_flight_requests_per_ip", VInt 128);
          (u "max_tracked_ips", VInt 1024)])]);
      (u "tcp", VList []);
      (u "filters", VDict [
        (u "runtime_file", VStr filters_path);
        (u "reload_seconds", VInt 1);
        (u "static_rules", VList [])]);
      (u "adaptive", VDict [
        (u "enabled", VBool true);
        (u "signature_threshold_per_second", VInt 1000000);
        (u "activation_ttl_seconds", VInt 10);
        (u "event_log", VStr events_path);
        (u "event_cooldown_seconds", VInt 1)])] in
  let config_path := under tmp_path (u "upstream-header-guard-config.json") in
  perform _ <- write_text w config_path (dumps default_style cfg) in
  perform proxy <- start_proxy w binary config_path in
  finally (
    perform _ <- wait_http w fuel proxy_port in
    perform metrics_before <- fetch_metrics w proxy_port (u "upstream-header-guard-token") [] in
    perform huge_header <- read_raw_response w fuel proxy_port (u "/huge-response-headers") in
    perform many_headers <- read_raw_response w fuel proxy_port (u "/many-response-headers") in
    perform metrics_after <- fetch_metrics w proxy_port (u "upstream-header-guard-token") [] in
    perform header_rejected_delta <- eval (delta metrics_after metrics_before (u "altura_http_upstream_header_rejected")) in
    perform upstream_errors_delta <- eval (delta metrics_after metrics_before (u "altura_http_upstream_errors")) in
    perform generated_502_not_stored <- eval (generated_response_header_matches (u "cache-control") (u "no-store") [huge_header; many_headers]) in
    perform generated_502_closes_connection <- eval (generated_response_header_matches (u "connection") (u "close") [huge_header; many_headers]) in
    eval (record [
      "configured_upstream_max_header_bytes" :- #8192;
      "configured_upstream_max_headers" :- #8;
      "huge_header_response" :- huge_header;
      "many_headers_response" :- many_headers;
      "generated_502_not_stored" :- generated_502_not_stored;
      "generated_502_closes_connection" :- generated_502_closes_connection;
      "http_upstream_header_rejected_delta" :- header_rejected_delta;
      "http_upstream_errors_delta" :- upstream_errors_delta;
      "upstream_header_guard_observed" :- huge_header @ "status" == #502 AND many_headers @ "status" == #502 AND generated_502_not_stored AND
        generated_502_closes_connection AND header_rejected_delta >= #2]))
    (stop_communicate w proxy).

Definition run_header_line_cap_probe : net pyval :=
  perform proxy_port <- free_port w in
  let filters_path := under tmp_path (u "header-line-cap-filters.json") in
  let events_path := under tmp_path (u "header-line-cap-events.jsonl") in
  perform _ <- write_text w filters_path no_filters in
  let cfg := VDict [
      (u "http", VDict [
        (u "listen", VStr (u "127.0.0.1:" ++ dec_Z proxy_port));
        (u "upstream", VStr (u "http://127.0.0.1:" ++ dec_Z upstream_port));
        (u "preserve_host", VBool true);
        (u "admin_token", VStr (u "header-line-cap-token"));
        (u "downstream_keep_alive", VBool true);
        (u "max_header_bytes", VInt 8192);
        (u "max_header_line_bytes", VInt 128);
        (u "max_headers", VInt 32);
        (u "upstream_max_header_bytes", VInt 32768);
        (u "upstream_max_header_line_bytes", VInt 128);
        (u "upstream_max_headers", VInt 32);
        (u "limits", VDict [
          (u "per_ip_rps", VInt 1000000);
          (u "per_ip_burst", VInt 1000000);
          (u "global_rps", VInt 1000000);
          (u "global_burst", VInt 1000000);
          (u "max_connections", VInt 128);
          (u "max_connections_per_ip", VInt 128);
          (u "max_in_flight_requests", VInt 128);
          (u "max_in_flight_requests_per_ip", VInt 128);
          (u "max_tracked_ips", VInt 1024)])]);
      (u "tcp", VList []);
      (u "filters", VDict [
        (u "runtime_file", VStr filters_path);
        (u "reload_seconds", VInt 1);
        (u "static_rules", VList [])]);
      (u "adaptive", VDict [
        (u "enabled", VBool true);
        (u "signature_threshold_per_second", VInt 1000000);
        (u "activation_ttl_seconds", VInt 10);
        (u "event_log", VStr events_path);
        (u "event_cooldown_seconds", VInt 1)])] in
  let config_path := under tmp_path (u "header-line-cap-config.json") in
  perform _ <- write_text w config_path (dumps default_style cfg) in
  perform proxy <- start_proxy w binary config_path in
  finally (
    perform _ <- wait_http w fuel proxy_port in
    perform metrics_before <- fetch_metrics w proxy_port (u "header-line-cap-token") [] in
    perform raw_initial <- send_raw_initial_header_line_too_large w proxy_port in
    perform keepalive_followup <- send_keepalive_followup_framing_request w fuel proxy_port
        [u "X-Oversized-Header: " ++ replicate 192 97%N; u "Content-Length: 0"] [] in
    perform upstream_response <- read_raw_response w fuel proxy_port (u "/huge-response-headers") in
    perform metrics_after <- fetch_metrics w proxy_port (u "header-line-cap-token") [] in
    perform initial_header_too_large_delta <- eval (delta metrics_after metrics_before (u "altura_http_initial_header_too_large")) in
    perform header_line_rejected_delta <- eval (delta metrics_after metrics_before (u "altura_http_header_line_rejected")) in
    perform upstream_header_rejected_delta <- eval (delta metrics_after metrics_before (u "altura_http_upstream_header_rejected")) in
    perform upstream_errors_delta <- eval (delta metrics_after metrics_before (u "altura_http_upstream_errors")) in
    perform raw_initial_ok <- eval (raw_initial ? "status" == #431 AND is_true (raw_initial ? "cache_control_no_store") AND
          is_true (raw_initial ? "connection_close")) in
    perform keepalive_second <- eval (get_or keepalive_followup (u "second") (VDict [])) in
    perform keepalive_ok <- eval (keepalive_second ? "status" == #431 AND is_true (keepalive_second ? "cache_control_no_store") AND
          is_true (keepalive_second ? "connection_close")) in
    perform upstream_ok <- eval (upstream_response ? "status" == #502 AND
          (get_or upstream_response (u "headers") (VDict [])) ? "cache-control" == $"no-store" AND
          (get_or upstream_response (u "headers") (VDict [])) ? "connection" == $"close") in
    eval (record [
      "configured_max_header_bytes" :- #8192;
      "configured_max_header_line_bytes" :- #128;
      "configured_upstream_max_header_bytes" :- #32768;
      "configured_upstream_max_header_line_bytes" :- #128;
      "raw_initial_response" :- raw_initial;
      "keepalive_followup_response" :- keepalive_followup;
      "upstream_response" :- upstream_response;
      "http_initial_header_too_large_delta" :- initial_header_too_large_delta;
      "http_header_line_rejected_delta" :- header_line_rejected_delta;
      "http_upstream_header_rejected_delta" :- upstream_header_rejected_delta;
      "http_upstream_errors_delta" :- upstream_errors_delta;
      "raw_initial_431" :- raw_initial_ok;
      "keepalive_second_431" :- keepalive_ok;
      "upstream_502" :- upstream_ok;
      "header_line_cap_observed" :- raw_initial_ok AND keepalive_ok AND upstream_ok AND initial_header_too_large_delta >= #1 AND
        header_line_rejected_delta >= #1 AND upstream_header_rejected_delta >= #1 AND upstream_errors_delta >= #1]))
    (stop_communicate w proxy).

Definition run_upstream_trailer_policy_probe : net pyval :=
  perform proxy_port <- free_port w in
  let filters_path := under tmp_path (u "upstream-trailer-policy-filters.json") in
  let events_path := under tmp_path (u "upstream-trailer-policy-events.jsonl") in
  perform _ <- write_text w filters_path no_filters in
  let cfg := VDict [
      (u "http", VDict [
        (u "listen", VStr (u "127.0.0.1:" ++ dec_Z proxy_port));
        (u "upstream", VStr (u "http://127.0.0.1:" ++ dec_Z upstream_port));
        (u "preserve_host", VBool true);
        (u "admin_token", VStr (u "upstream-trailer-policy-token"));
        (u "forward_response_trailers", VBool false);
        (u "upstream_max_trailer_bytes", VInt 64);
        (u "upstream_max_trailers", VInt 4);
        (u "limits", VDict [
          (u "per_ip_rps", VInt 1000000);
          (u "per_ip_burst", VInt 1000000);
          (u "global_rps", VInt 1000000);
          (u "global_burst", VInt 1000000);
          (u "max_connections", VInt 128);
          (u "max_connections_per_ip", VInt 128);
          (u "max_in_flight_requests", VInt 128);
          (u "max_in_flight_requests_per_ip", VInt 128);
          (u "max_tracked_ips", VInt 1024)])]);
      (u "tcp", VList []);
      (u "filters", VDict [
        (u "runtime_file", VStr filters_path);
        (u "reload_seconds", VInt 1);
        (u "static_rules", VList [])]);
      (u "adaptive", VDict [
        (u "enabled", VBool true);
        (u "signature_threshold_per_second", VInt 1000000);
        (u "activation_ttl_seconds", VInt 10);
        (u "event_log", VStr events_path);
        (u "event_cooldown_seconds", VInt 1)])] in
  let config_path := under tmp_path (u "upstream-trailer-policy-config.json") in
  perform _ <- write_text w config_path (dumps default_style cfg) in
  perform proxy <- start_proxy w binary config_path in
  finally (
    perform _ <- wait_http w fuel proxy_port in
    perform metrics_before <- fetch_metrics w proxy_port (u "upstream-trailer-policy-token") [] in
    perform raw <- read_raw_response_bytes w fuel proxy_port (u "/response-trailers") in
    perform metrics_after <- fetch_metrics w proxy_port (u "upstream-trailer-policy-token") [] in
    perform dropped_delta <- eval (delta metrics_after metrics_before (u "altura_http_upstream_trailers_dropped")) in
    perform rejected_delta <- eval (delta metrics_after metrics_before (u "altura_http_upstream_trailers_rejected")) in
    perform body_seen <- eval (VBool (contains (u "hello") raw)) in
    let raw_lower := lower raw in
    perform trailer_seen <- eval (VBool (contains (CRLF ++ u "0" ++ CRLF ++ u "x-origin-trailer:") raw_lower)) in
    let status := int_or_none (status_of_raw raw) in
    eval (record [
      "configured_forward_response_trailers" :- VBool false;
      "configured_upstream_max_trailer_bytes" :- #64;
      "configured_upstream_max_trailers" :- #4;
      "status" :- status;
      "raw_response_bytes" :- bytes_len raw;
      "body_seen" :- body_seen;
      "trailer_seen" :- trailer_seen;
      "http_upstream_trailers_dropped_delta" :- dropped_delta;
      "http_upstream_trailers_rejected_delta" :- rejected_delta;
      "upstream_trailer_policy_observed" :- status == #200 AND body_seen AND py_not trailer_seen AND dropped_delta >= #1 AND rejected_delta == #0]))
    (stop_communicate w proxy).

Definition run_request_trailer_policy_probe : net pyval :=
  perform proxy_port <- free_port w in
  let filters_path := under tmp_path (u "request-trailer-policy-filters.json") in
  let events_path := under tmp_path (u "request-trailer-policy-events.jsonl") in
  perform _ <- write_text w filters_path no_filters in
  let cfg := VDict [
      (u "http", VDict [
        (u "listen", VStr (u "127.0.0.1:" ++ dec_Z proxy_port));
        (u "upstream", VStr (u "http://127.0.0.1:" ++ dec_Z upstream_port));
        (u "preserve_host", VBool true);
        (u "admin_token", VStr (u "request-trailer-policy-token"));
        (u "downstream_keep_alive", VBool true);
        (u "allow_chunked_request_bodies", VBool true);
        (u "forward_request_trailers", VBool true);
        (u "max_trailer_bytes", VInt 8);
        (u "max_trailers", VInt 1);
        (u "limits", VDict [
          (u "per_ip_rps", VInt 1000000);
          (u "per_ip_burst", VInt 1000000);
          (u "global_rps", VInt 1000000);
          (u "global_burst", VInt 1000000);
          (u "max_connections", VInt 128);
          (u "max_connections_per_ip", VInt 128);
          (u "max_in_flight_requests", VInt 128);
          (u "max_in_flight_requests_per_ip", VInt 128);
          (u "max_tracked_ips", VInt 1024)])]);
      (u "tcp", VList []);
      (u "filters", VDict [
        (u "runtime_file", VStr filters_path);
        (u "reload_seconds", VInt 1);
        (u "static_rules", VList [])]);
      (u "adaptive", VDict [
        (u "enabled", VBool true);
        (u "signature_threshold_per_second", VInt 1000000);
        (u "activation_ttl_seconds", VInt 10);
        (u "event_log", VStr events_path);
        (u "event_cooldown_seconds", VInt 1)])] in
  let config_path := under tmp_path (u "request-trailer-policy-config.json") in
  perform _ <- write_text w config_path (dumps default_style cfg) in
  perform proxy <- start_proxy w binary config_path in
  finally (
    perform _ <- wait_http w fuel proxy_port in
    perform metrics_before <- fetch_metrics w proxy_port (u "request-trailer-policy-token") [] in
    perform oversized <- send_oversized_request_trailer w fuel proxy_port in
    perform metrics_after <- fetch_metrics w proxy_port (u "request-trailer-policy-token") [] in
    perform rejected_delta <- eval (delta metrics_after metrics_before (u "altura_http_request_trailers_rejected")) in
    eval (record [
      "configured_forward_request_trailers" :- VBool true;
      "configured_max_trailer_bytes" :- #8;
      "configured_max_trailers" :- #1;
      "oversized_trailer" :- oversized;
      "http_request_trailers_rejected_delta" :- rejected_delta;
      "oversized_request_trailer_rejected" :- oversized ? "status" == #431;
      "generated_431_not_stored" :- oversized ? "cache_control" == $"no-store";
      "generated_431_closes_connection" :- is_true (oversized ? "connection_close");
      "connection_closed_before_followup" :- oversized ? "followup_response_bytes" == #0 OR
        in_set (oversized ? "followup_error") [u "BrokenPipeError"; u "ConnectionResetError"];
      "request_trailer_policy_observed" :- oversized ? "status" == #431 AND oversized ? "cache_control" == $"no-store" AND is_true (oversized ? "connection_close") AND
        rejected_delta >= #1]))
    (stop_communicate w proxy).

Definition run_upstream_in_flight_probe : net pyval :=
  perform proxy_port <- free_port w in
  let filters_path := under tmp_path (u "in-flight-filters.json") in
  let events_path := under tmp_path (u "in-flight-events.jsonl") in
  perform _ <- write_text w filters_path no_filters in
  let cfg := VDict [
      (u "http", VDict [
        (u "listen", VStr (u "127.0.0.1:" ++ dec_Z proxy_port));
        (u "upstream", VStr (u "http://127.0.0.1:" ++ dec_Z upstream_port));
        (u "preserve_host", VBool true);
        (u "admin_token", VStr (u "in-flight-token"));
        (u "limits", VDict [
          (u "per_ip_rps", VInt 1000000);
          (u "per_ip_burst", VInt 1000000);
          (u "global_rps", VInt 1000000);
          (u "global_burst", VInt 1000000);
          (u "max_in_flight_requests", VInt 1);
          (u "max_in_flight_requests_per_ip", VInt 10);
          (u "max_tracked_ips", VInt 1024)])]);
      (u "tcp", VList []);
      (u "filters", VDict [
        (u "runtime_file", VStr filters_path);
        (u "reload_seconds", VInt 1);
        (u "static_rules", VList [])]);
      (u "adaptive", VDict [
        (u "enabled", VBool true);
        (u "signature_threshold_per_second", VInt 1000000);
        (u "activation_ttl_seconds", VInt 10);
        (u "event_log", VStr events_path);
        (u "event_cooldown_seconds", VInt 1)])] in
  let config_path := under tmp_path (u "in-flight-config.json") in
  perform _ <- write_text w config_path (dumps default_style cfg) in
  perform proxy <- start_proxy w binary config_path in
  finally (
    perform _ <- wait_http w fuel proxy_port in
    perform metrics_before <- fetch_metrics w proxy_port (u "in-flight-token") [] in
    perform first_thread <- ask w (StartStatus proxy_port (u "GET") (u "/slow") (sec 2 1) []) in
    perform _ <- sleep w (sec 5 100) in
    perform second_response <- get_status_and_headers w proxy_port (u "GET") (u "/slow") [] (sec 2 1) [] in
    perform second_status <- eval (second_response @ "status") in
    perform _ <- ask w (Join first_thread (sec 3 1)) in
    perform metrics_after <- fetch_metrics w proxy_port (u "in-flight-token") [] in
    perform overload_responses <- eval (VList [second_response]) in
    perform retry_after_headers <- eval (response_headers_for_status overload_responses (u "retry-after") 503) in
    perform cache_control_headers <- eval (response_headers_for_status overload_responses (u "cache-control") 503) in
    perform first_status <- ask w (StatusSoFar first_thread) in
    let first_status := int_or_none first_status in
    eval (record [
      "first_status" :- first_status;
      "second_status" :- second_status;
      "retry_after_headers" :- retry_after_headers;
      "cache_control_headers" :- cache_control_headers;
      "retry_after_header_matches" :- retry_after_headers == VList [$"1"];
      "cache_control_header_matches" :- cache_control_headers == VList [$"no-store"];
      "metrics_delta" :- record [
        "altura_http_upstream_in_flight_rejected" :- delta metrics_after metrics_before (u "altura_http_upstream_in_flight_rejected")]]))
    (stop_wait w proxy).

Definition run_upstream_response_guard_probe : net pyval :=
  perform proxy_port <- free_port w in
  let filters_path := under tmp_path (u "response-guard-filters.json") in
  let events_path := under tmp_path (u "response-guard-events.jsonl") in
  perform _ <- write_text w filters_path no_filters in
  let cfg := VDict [
      (u "http", VDict [
        (u "listen", VStr (u "127.0.0.1:" ++ dec_Z proxy_port));
        (u "upstream", VStr (u "http://127.0.0.1:" ++ dec_Z upstream_port));
        (u "preserve_host", VBool true);
        (u "admin_token", VStr (u "response-guard-token"));
        (u "upstream_body_idle_timeout_ms", VInt 100);
        (u "max_upstream_body_bytes", VInt 8);
        (u "limits", VDict [
          (u "per_ip_rps", VInt 1000000);
          (u "per_ip_burst", VInt 1000000);
          (u "global_rps", VInt 1000000);
          (u "global_burst", VInt 1000000);
          (u "max_in_flight_requests", VInt 128);
          (u "max_in_flight_requests_per_ip", VInt 128);
          (u "max_tracked_ips", VInt 1024)])]);
      (u "tcp", VList []);
      (u "filters", VDict [
        (u "runtime_file", VStr filters_path);
        (u "reload_seconds", VInt 1);
        (u "static_rules", VList [])]);
      (u "adaptive", VDict [
        (u "enabled", VBool true);
        (u "signature_threshold_per_second", VInt 1000000);
        (u "activation_ttl_seconds", VInt 10);
        (u "event_log", VStr events_path);
        (u "event_cooldown_seconds", VInt 1)])] in
  let config_path := under tmp_path (u "response-guard-config.json") in
  perform _ <- write_text w config_path (dumps default_style cfg) in
  perform proxy <- start_proxy w binary config_path in
  finally (
    perform _ <- wait_http w fuel proxy_port in
    perform metrics_before <- fetch_metrics w proxy_port (u "response-guard-token") [] in
    perform stalled <- read_raw_response w fuel proxy_port (u "/stalled-response") in
    perform oversized <- read_raw_response w fuel proxy_port (u "/large-response") in
    perform hop_by_hop <- read_raw_response w fuel proxy_port (u "/hop-by-hop-response") in
    perform _ <- sleep w (sec 1 10) in
    perform metrics_after <- fetch_metrics w proxy_port (u "response-guard-token") [] in
    eval (record [
      "stalled_response" :- stalled;
      "oversized_response" :- oversized;
      "hop_by_hop_response" :- hop_by_hop;
      "hop_by_hop_headers_stripped" :- response_hop_by_hop_headers_absent (get_or hop_by_hop (u "headers") (VDict []));
      "metrics_delta" :- record [
        "altura_http_upstream_body_timeouts" :- delta metrics_after metrics_before (u "altura_http_upstream_body_timeouts");
        "altura_http_upstream_body_rejected" :- delta metrics_after metrics_before (u "altura_http_upstream_body_rejected")]]))
    (stop_wait w proxy).

Definition run_upstream_pool_probe : net pyval :=
  perform proxy_port <- free_port w in
  perform upstream_port <- free_port w in
  let filters_path := under tmp_path (u "upstream-pool-filters.json") in
  let events_path := under tmp_path (u "upstream-pool-events.jsonl") in
  perform _ <- write_text w filters_path no_filters in
  let cfg := VDict [
      (u "http", VDict [
        (u "listen", VStr (u "127.0.0.1:" ++ dec_Z proxy_port));
        (u "upstream", VStr (u "http://127.0.0.1:" ++ dec_Z upstream_port));
        (u "preserve_host", VBool true);
        (u "admin_token", VStr (u "upstream-pool-token"));
        (u "upstream_pool_idle_timeout_ms", VInt 30000);
        (u "upstream_pool_max_idle_per_host", VInt 0);
        (u "limits", VDict [
          (u "per_ip_rps", VInt 1000000);
          (u "per_ip_burst", VInt 1000000);
          (u "global_rps", VInt 1000000);
          (u "global_burst", VInt 1000000);
          (u "max_in_flight_requests", VInt 128);
          (u "max_in_flight_requests_per_ip", VInt 128);
          (u "max_tracked_ips", VInt 1024)])]);
      (u "tcp", VList []);
      (u "filters", VDict [
        (u "runtime_file", VStr filters_path);
        (u "reload_seconds", VInt 1);
        (u "static_rules", VList [])]);
      (u "adaptive", VDict [
        (u "enabled", VBool true);
        (u "signature_threshold_per_second", VInt 1000000);
        (u "activation_ttl_seconds", VInt 10);
        (u "event_log", VStr events_path);
        (u "event_cooldown_seconds", VInt 1)])] in
  let config_path := under tmp_path (u "upstream-pool-config.json") in
  perform _ <- write_text w config_path (dumps default_style cfg) in
  perform r <- ask w (Serve CountingHttp upstream_port) in
  perform upstream <- clift r in
  finally (
    perform proxy <- start_proxy w binary config_path in
    finally (
      perform _ <- wait_http w fuel proxy_port in
      perform statuses <- for_each (fun m => m) [
          get_status w proxy_port (u "GET") (u "/") [] (sec 2 1) [];
          get_status w proxy_port (u "GET") (u "/") [] (sec 2 1) []] in
      perform _ <- sleep w (sec 5 100) in
      perform connection_count <- ask w (ConnectionCount upstream) in
      cret (VDict [(u "statuses", VList statuses); (u "accepted_upstream_connections", VInt connection_count)]))
      (perform _ <- stop_wait w proxy in ask w (Shutdown upstream)))
    (ask w (CloseServer upstream)).
End probes.
