(* ===== verification/TrafficLog.v ===== *)
(** * TrafficLog: probes of the event log and the filters learned from it

    [tools/run_local_bench.py]: each probe writes a configuration, starts the proxy on it,
    sends traffic, and reports what it saw together with its verdicts; whatever happens, the
    proxy is stopped. *)

From S2P Require Import Prelude Unicode PyStr PyFloat PyVal PyDyn Json.
From S2P Require Import BenchNet BenchHttp BenchOrigin BenchSend BenchConns TrafficBase.

Open Scope dyn_scope.

Section probes.
Context (w : world) (fuel : nat) (binary : pystr) (upstream_port tcp_upstream_port : Z) (tmp_path : pystr).

Definition run_header_timeout_probe : net pyval :=
  perform proxy_port <- free_port w in
  let filters_path := under tmp_path (u "header-timeout-filters.json") in
  let events_path := under tmp_path (u "header-timeout-events.jsonl") in
  perform _ <- write_text w filters_path no_filters in
  let cfg := VDict [
      (u "http", VDict [
        (u "listen", VStr (u "127.0.0.1:" ++ dec_Z proxy_port));
        (u "upstream", VStr (u "http://127.0.0.1:" ++ dec_Z upstream_port));
        (u "preserve_host", VBool true);
        (u "admin_token", VStr (u "header-timeout-token"));
        (u "header_read_timeout_ms", VInt 100);
        (u "downstream_keep_alive", VBool true);
        (u "max_connection_duration_seconds", VInt 5);
        (u "limits", VDict [
          (u "per_ip_rps", VInt 1000000);
          (u "per_ip_burst", VInt 1000000);
          (u "global_rps", VInt 1000000);
          (u "global_burst", VInt 1000000);
          (u "max_connections", VInt 128);
          (u "max_connections_per_ip", VInt 128);
          (u "max_in_flight_requests", VInt 128);
          (u "max_in_flight_requests_per_ip", VInt 128);
          (u "max_tracked_ips", VInt 1024)])]);
      (u "tcp", VList []);
      (u "filters", VDict [
        (u "runtime_file", VStr filters_path);
        (u "reload_seconds", VInt 1);
        (u "static_rules", VList [])]);
      (u "adaptive", VDict [
        (u "enabled", VBool true);
        (u "signature_threshold_per_second", VInt 1000000);
        (u "activation_ttl_seconds", VInt 10);
        (u "event_log", VStr events_path);
        (u "event_cooldown_seconds", VInt 1)])] in
  let config_path := under tmp_path (u "header-timeout-config.json") in
  perform _ <- write_text w config_path (dumps default_style cfg) in
  perform proxy <- start_proxy w binary config_path in
  finally (
    perform _ <- wait_http w fuel proxy_port in
    perform metrics_before <- fetch_metrics w proxy_port (u "header-timeout-token") [] in
    perform slow_header <- run_slow_header_probe w proxy_port in
    perform idle_keepalive <- run_idle_keepalive_probe w fuel proxy_port in
    perform metrics_after <- fetch_metrics w proxy_port (u "header-timeout-token") [] in
    perform initial_header_timeouts_delta <- eval (delta metrics_after metrics_before (u "altura_http_initial_header_timeouts")) in
    eval (record [
      "configured_header_read_timeout_ms" :- #100;
      "slow_header" :- slow_header;
      "idle_keepalive" :- idle_keepalive;
      "http_initial_header_timeouts_delta" :- initial_header_timeouts_delta;
      "raw_initial_408_not_stored" :- slow_header ? "cache_control" == $"no-store";
      "raw_initial_408_closes_connection" :- slow_header ? "connection" == $"close";
      "slow_initial_header_timeout_observed" :- slow_header ? "status" == #408 AND slow_header ? "cache_control" == $"no-store" AND
        slow_header ? "connection" == $"close" AND initial_header_timeouts_delta >= #1]))
    (stop_wait w proxy).

Definition run_log_suppression_probe : net pyval :=
  perform proxy_port <- free_port w in
  let filters_path := under tmp_path (u "log-suppression-filters.json") in
  let events_path := under tmp_path (u "log-suppression-events.jsonl") in
  perform _ <- write_text w filters_path no_filters in
  let cfg := VDict [
      (u "http", VDict [
        (u "listen", VStr (u "127.0.0.1:" ++ dec_Z proxy_port));
        (u "upstream", VStr (u "http://127.0.0.1:" ++ dec_Z upstream_port));
        (u "preserve_host", VBool true);
        (u "admin_token", VStr (u "log-suppression-token"));
        (u "header_read_timeout_ms", VInt 35);
        (u "max_connection_duration_seconds", VInt 2);
        (u "limits", VDict ([(u "per_ip_rps", VInt 1000000);
          (u "per_ip_burst", VInt 1000000);
          (u "global_rps", VInt 1000000);
          (u "global_burst", VInt 1000000)] ++
          BENCH_HTTP_CONNECTION_LIMITS ++
          [(u "max_connections", VInt 1024);
          (u "max_connections_per_ip", VInt 1024);
          (u "max_in_flight_requests", VInt 256);
          (u "max_in_flight_requests_per_ip", VInt 256);
          (u "max_tracked_ips", VInt 1024)]))]);
      (u "tcp", VList []);
      (u "filters", VDict [
        (u "runtime_file", VStr filters_path);
        (u "reload_seconds", VInt 1);
        (u "static_rules", VList [])]);
      (u "adaptive", VDict [
        (u "enabled", VBool true);
        (u "signature_threshold_per_second", VInt 1000000);
        (u "activation_ttl_seconds", VInt 10);
        (u "event_log", VStr events_path);
        (u "event_cooldown_seconds", VInt 1)])] in
  let config_path := under tmp_path (u "log-suppression-config.json") in
  perform _ <- write_text w config_path (dumps default_style cfg) in
  perform proxy <- start_proxy w binary config_path in
  perform r <- ensuring (
      perform _ <- wait_http w fuel proxy_port in
      perform first_burst <- open_partial_header_connections w proxy_port 48 (sec 12 100) in
      perform _ <- sleep w (sec 11 10) in
      perform second_burst <- open_partial_header_connections w proxy_port 1 (sec 8 100) in
      perform _ <- sleep w (sec 1 10) in
      let bursts := VList [first_burst; second_burst] in
      cret bursts)
    (stop_collecting w proxy) in
  let '(bursts, stderr_text) := r in
  let stderr_lines := List.filter (fun l => negb (is_empty l)) (splitlines stderr_text) in
  let timeout_lines := List.filter (contains (u "initial http header timeout")) stderr_lines in
  eval (record [
    "configured_header_read_timeout_ms" :- #35;
    "bursts" :- bursts;
    "stderr_line_count" :- VInt (Z.of_nat (length stderr_lines));
    "timeout_log_line_count" :- VInt (Z.of_nat (length timeout_lines));
    "timeout_log_lines_bounded" :- VInt (Z.of_nat (length timeout_lines)) <= #4;
    "suppressed_marker_seen" :- VBool (existsb (contains (u "suppressed")) timeout_lines);
    "timeout_log_sample" :- VList (VStr <$> take 4 timeout_lines)]).

Definition run_event_log_flush_probe : net pyval :=
  perform proxy_port <- free_port w in
  let filters_path := under tmp_path (u "event-log-flush-filters.json") in
  let events_path := under tmp_path (u "event-log-flush-events.jsonl") in
  perform _ <- write_text w filters_path no_filters in
  let cfg := VDict [
      (u "http", VDict [
        (u "listen", VStr (u "127.0.0.1:" ++ dec_Z proxy_port));
        (u "upstream", VStr (u "http://127.0.0.1:" ++ dec_Z upstream_port));
        (u "preserve_host", VBool true);
        (u "admin_token", VStr (u "event-log-flush-token"));
        (u "limits", VDict [
          (u "per_ip_rps", VInt 1000000);
          (u "per_ip_burst", VInt 1000000);
          (u "global_rps", VInt 1000000);
          (u "global_burst", VInt 1000000);
          (u "max_connections", VInt 1024);
          (u "max_connections_per_ip", VInt 1024);
          (u "max_in_flight_requests", VInt 1024);
          (u "max_in_flight_requests_per_ip", VInt 1024);
          (u "max_tracked_ips", VInt 1024)])]);
      (u "tcp", VList []);
      (u "filters", VDict [
        (u "runtime_file", VStr filters_path);
        (u "reload_seconds", VInt 1);
        (u "static_rules", VList [])]);
      (u "adaptive", VDict [
        (u "enabled", VBool true);
        (u "signature_threshold_per_second", VInt 1);
        (u "activation_ttl_seconds", VInt 10);
        (u "event_log", VStr events_path);
        (u "event_log_flush_interval_ms", VInt 1000);
        (u "event_cooldown_seconds", VInt 1)])] in
  let config_path := under tmp_path (u "event-log-flush-config.json") in
  perform _ <- write_text w config_path (dumps default_style cfg) in
  perform proxy <- start_proxy w binary config_path in
  let statuses := [] in
  finally (
    perform _ <- wait_http w fuel proxy_port in
    perform status <- get_status w proxy_port (u "GET") (u "/api/event-log/alpha") [] (sec 2 1)
        [(u "User-Agent", u "altura-event-log-probe/1.0")] in
    let statuses := statuses ++ [status] in
    perform first_visible_lines <- wait_file_line_count w fuel events_path 1 (sec 1 1) in
    perform more <- for_each
        (fun slug => get_status w proxy_port (u "GET") (u "/api/event-log/" ++ slug) [] (sec 2 1) [(u "User-Agent", u "altura-event-log-probe/1.0")])
        [u "bravo"; u "charlie"; u "delta"; u "echo"; u "foxtrot"; u "golf"; u "hotel"; u "india"] in
    let statuses := statuses ++ more in
    perform burst_visible_lines <- count_file_lines w events_path in
    perform _ <- sleep w (sec 105 100) in
    perform status <- get_status w proxy_port (u "GET") (u "/api/event-log/juliet") [] (sec 2 1)
        [(u "User-Agent", u "altura-event-log-probe/1.0")] in
    let statuses := statuses ++ [status] in
    perform final_visible_lines <- wait_file_line_count w fuel events_path 10 (sec 1 1) in
    eval (record [
      "configured_event_log_flush_interval_ms" :- #1000;
      "statuses" :- VList statuses;
      "all_requests_ok" :- all_of (fun status => status == #204) (VList statuses);
      "first_visible_lines" :- first_visible_lines;
      "burst_visible_lines" :- burst_visible_lines;
      "final_visible_lines" :- final_visible_lines;
      "first_event_flushed_immediately" :- first_visible_lines >= #1;
      "burst_flush_batched" :- burst_visible_lines <= #2;
      "interval_flush_observed" :- final_visible_lines >= #10]))
    (stop_communicate w proxy).

Definition run_event_log_field_bounds_probe : net pyval :=
  perform proxy_port <- free_port w in
  let filters_path := under tmp_path (u "event-log-field-bounds-filters.json") in
  let events_path := under tmp_path (u "event-log-field-bounds-events.jsonl") in
  perform _ <- write_text w filters_path no_filters in
  let cfg := VDict [
      (u "http", VDict [
        (u "listen", VStr (u "127.0.0.1:" ++ dec_Z proxy_port));
        (u "upstream", VStr (u "http://127.0.0.1:" ++ dec_Z upstream_port));
        (u "preserve_host", VBool true);
        (u "admin_token", VStr (u "event-log-field-bounds-token"));
        (u "limits", VDict ([(u "per_ip_rps", VInt 1000000);
          (u "per_ip_burst", VInt 1000000);
          (u "global_rps", VInt 1000000);
          (u "global_burst", VInt 1000000)] ++
          BENCH_HTTP_CONNECTION_LIMITS ++
          [(u "max_connections", VInt 4096);
          (u "max_connections_per_ip", VInt 4096);
          (u "max_in_flight_requests", VInt 4096);
          (u "max_in_flight_requests_per_ip", VInt 4096);
          (u "max_tracked_ips", VInt 1024)]))]);
      (u "tcp", VList []);
      (u "filters", VDict [
        (u "runtime_file", VStr filters_path);
        (u "reload_seconds", VInt 1);
        (u "static_rules", VList [])]);
      (u "adaptive", VDict [
        (u "enabled", VBool true);
        (u "signature_threshold_per_second", VInt 1);
        (u "activation_ttl_seconds", VInt 10);
        (u "event_log", VStr events_path);
        (u "event_log_flush_interval_ms", VInt 1);
        (u "event_cooldown_seconds", VInt 1)])] in
  let config_path := under tmp_path (u "event-log-field-bounds-config.json") in
  perform _ <- write_text w config_path (dumps default_style cfg) in
  perform proxy <- start_proxy w binary config_path in
  let marker := u "...[truncated]" in
  let field_limits := [(u "path", 1024%Z); (u "query", 1024%Z); (u "user_agent", 512%Z); (u "x_forwarded_for", 512%Z);
                       (u "signature_basis", 1024%Z)] in
  finally (
    perform _ <- wait_http w fuel proxy_port in
    let long_path := u "/api/event-log-field-bounds/" ++ replicate 1400 112%N in
    let query := join (u "&") ((fun idx => replicate 220 107%N ++ dec_nat idx ++ u "=v") <$> seq 0 16) in
    let long_header_name := u "X-" ++ replicate 220 65%N in
    perform status <- get_status w proxy_port (u "GET") (long_path ++ u "?" ++ query) [] (sec 2 1)
        [(u "User-Agent", replicate 900 117%N); (u "X-Forwarded-For", mjoin (replicate 80 (u "203.0.113.1, "))); (long_header_name, u "1")] in
    perform visible_lines <- wait_file_line_count w fuel events_path 1 (sec 1 1) in
    perform event <- first_decodable_json_line w events_path in
    perform field_lengths <- eval (record ((fun f => (f.1, py_len (get event f.1 OR VStr []))) <$> field_limits)) in
    perform query_keys <- eval (event ? "query_keys" OR VList []) in
    perform header_names <- eval (event ? "header_names" OR VList []) in
    perform bounded_fields <- eval (all_fields (fun name limit =>
        is_string (get event name) AND py_len (get event name) <= VInt limit AND py_endswith (get event name) marker) field_limits) in
    perform bounded_query_keys <- eval (to_bool query_keys AND all_of (fun key => is_string key AND py_len key <= #128 AND py_endswith key marker) query_keys) in
    perform bounded_header_name <- eval (any_of (fun name => is_string name AND py_len name <= #128 AND py_endswith name marker) header_names) in
    perform there <- ask w (Exists events_path) in
    perform event_line_bytes <- (if (there : bool) then file_size w events_path else cret 0%Z) in
    eval (record [
      "status" :- status;
      "visible_lines" :- visible_lines;
      "event_line_bytes" :- VInt event_line_bytes;
      "field_lengths" :- field_lengths;
      "query_key_count" :- py_len query_keys;
      "max_query_key_length" :- max_of (fun key => py_len key) query_keys #0;
      "bounded_fields" :- bounded_fields;
      "bounded_query_keys" :- bounded_query_keys;
      "bounded_header_name" :- bounded_header_name;
      "all_event_fields_bounded" :- bounded_fields AND bounded_query_keys AND bounded_header_name]))
    (stop_communicate w proxy).

Definition run_adaptive_window_cap_probe : net pyval :=
  perform proxy_port <- free_port w in
  let filters_path := under tmp_path (u "adaptive-window-cap-filters.json") in
  let events_path := under tmp_path (u "adaptive-window-cap-events.jsonl") in
  perform _ <- write_text w filters_path no_filters in
  let request_count := 512%Z in
  let configured_cap := 64%Z in
  let cfg := VDict [
      (u "http", VDict [
        (u "listen", VStr (u "127.0.0.1:" ++ dec_Z proxy_port));
        (u "upstream", VStr (u "http://127.0.0.1:" ++ dec_Z upstream_port));
        (u "preserve_host", VBool true);
        (u "admin_token", VStr (u "adaptive-window-cap-token"));
        (u "limits", VDict ([(u "per_ip_rps", VInt 1000000);
          (u "per_ip_burst", VInt 1000000);
          (u "global_rps", VInt 1000000);
          (u "global_burst", VInt 1000000)] ++
          BENCH_HTTP_CONNECTION_LIMITS ++
          [(u "max_connections", VInt 1024);
          (u "max_connections_per_ip", VInt 1024);
          (u "max_in_flight_requests", VInt 1024);
          (u "max_in_flight_requests_per_ip", VInt 1024);
          (u "max_tracked_ips", VInt 1024)]))]);
      (u "tcp", VList []);
      (u "filters", VDict [
        (u "runtime_file", VStr filters_path);
        (u "reload_seconds", VInt 1);
        (u "static_rules", VList [])]);
      (u "adaptive", VDict [
        (u "enabled", VBool true);
        (u "signature_threshold_per_second", VInt 1000000);
        (u "activation_ttl_seconds", VInt 10);
        (u "event_log", VStr events_path);
        (u "event_cooldown_seconds", VInt 1);
        (u "max_signature_windows", VInt configured_cap);
        (u "max_path_shape_windows", VInt configured_cap)])] in
  let config_path := under tmp_path (u "adaptive-window-cap-config.json") in
  perform _ <- write_text w config_path (dumps default_style cfg) in
  perform proxy <- start_proxy w binary config_path in
  let statuses := [] in
  finally (
    perform _ <- wait_http w fuel proxy_port in
    perform metrics_before <- fetch_metrics w proxy_port (u "adaptive-window-cap-token") [] in
    perform more <- for_each
        (fun idx => get_status w proxy_port (u "GET") (u "/w" ++ dec_nat idx ++ u "?q=" ++ dec_nat idx) [] (sec 1 1) [(u "User-Agent", u "altura-adaptive-window-cap/" ++ dec_nat idx); (u "Accept", u "application/x-altura-" ++ dec_nat idx)])
        (seq 0 (Z.to_nat request_count)) in
    let statuses := statuses ++ more in
    perform metrics_after <- fetch_metrics w proxy_port (u "adaptive-window-cap-token") [] in
    perform signature_windows <- eval (get_or metrics_after (u "altura_adaptive_signature_windows") #0) in
    perform path_shape_windows <- eval (get_or metrics_after (u "altura_adaptive_path_shape_windows") #0) in
    perform signature_capacity <- eval (get_or metrics_after (u "altura_adaptive_signature_window_capacity") #0) in
    perform path_shape_capacity <- eval (get_or metrics_after (u "altura_adaptive_path_shape_window_capacity") #0) in
    eval (record [
      "configured_max_signature_windows" :- VInt configured_cap;
      "configured_max_path_shape_windows" :- VInt configured_cap;
      "request_count" :- VInt request_count;
      "completed_statuses" :- str_counts (VList statuses);
      "signature_windows_before" :- get_or metrics_before (u "altura_adaptive_signature_windows") #0;
      "path_shape_windows_before" :- get_or metrics_before (u "altura_adaptive_path_shape_windows") #0;
      "signature_windows_after" :- signature_windows;
      "path_shape_windows_after" :- path_shape_windows;
      "signature_window_capacity" :- signature_capacity;
      "path_shape_window_capacity" :- path_shape_capacity;
      "all_requests_ok" :- all_of (fun status => status == #204) (VList statuses);
      "signature_windows_bounded" :- signature_windows <= signature_capacity AND signature_capacity == VInt configured_cap;
      "path_shape_windows_bounded" :- path_shape_windows <= path_shape_capacity AND path_shape_capacity == VInt configured_cap]))
    (stop_communicate w proxy).

Definition run_adaptive_catalog_shape_probe : net pyval :=
  perform proxy_port <- free_port w in
  let filters_path := under tmp_path (u "adaptive-catalog-shape-filters.json") in
  let events_path := under tmp_path (u "adaptive-catalog-shape-events.jsonl") in
  perform _ <- write_text w filters_path no_filters in
  let cfg := VDict [
      (u "http", VDict [
        (u "listen", VStr (u "127.0.0.1:" ++ dec_Z proxy_port));
        (u "upstream", VStr (u "http://127.0.0.1:" ++ dec_Z upstream_port));
        (u "preserve_host", VBool true);
        (u "admin_token", VStr (u "adaptive-catalog-shape-token"));
        (u "client_ip", VDict [
          (u "header", VStr (u "x-forwarded-for"));
          (u "trusted_proxies", VList [VStr (u "127.0.0.1/32")])]);
        (u "limits", VDict ([(u "per_ip_rps", VInt 1000000);
          (u "per_ip_burst", VInt 1000000);
          (u "global_rps", VInt 1000000);
          (u "global_burst", VInt 1000000);
          (u "signature_rps", VInt 1000000);
          (u "signature_burst", VInt 1000000);
          (u "path_shape_rps", VInt 1000000);
          (u "path_shape_burst", VInt 1000000);
          (u "trusted_proxy_rps", VFloat (sec 1 1000000));
          (u "trusted_proxy_burst", VInt 1)] ++
          BENCH_HTTP_CONNECTION_LIMITS ++
          [(u "max_connections", VInt 128);
          (u "max_connections_per_ip", VInt 128);
          (u "max_in_flight_requests", VInt 128);
          (u "max_in_flight_requests_per_ip", VInt 128);
          (u "max_tracked_ips", VInt 1024);
          (u "max_tracked_signatures", VInt 1024);
          (u "max_tracked_path_shapes", VInt 1024)]))]);
      (u "tcp", VList []);
      (u "filters", VDict [
        (u "runtime_file", VStr filters_path);
        (u "reload_seconds", VInt 1);
        (u "static_rules", VList [VDict [
            (u "id", VStr (u "catalog-shape"));
            (u "enabled", VBool true);
            (u "adaptive", VBool true);
            (u "priority", VInt 10);
            (u "ttl_seconds", VInt 10);
            (u "condition", VDict [(u "path_shape", VStr (u "/api/catalog/:num"))]);
            (u "action", VDict [
              (u "kind", VStr (u "block"));
              (u "status", VInt 403);
              (u "body", VStr (u "blocked by catalog shape" ++ [10%N]))])]])]);
      (u "adaptive", VDict [
        (u "enabled", VBool true);
        (u "signature_threshold_per_second", VInt 2);
        (u "activation_ttl_seconds", VInt 10);
        (u "event_log", VStr events_path);
        (u "event_cooldown_seconds", VInt 1)])] in
  let config_path := under tmp_path (u "adaptive-catalog-shape-config.json") in
  perform _ <- write_text w config_path (dumps default_style cfg) in
  perform proxy <- start_proxy w binary config_path in
  finally (
    perform _ <- wait_http w fuel proxy_port in
    perform metrics_before <- fetch_metrics w proxy_port (u "adaptive-catalog-shape-token") [] in
    let observed_paths := (fun idx => u "/api/catalog/" ++ dec_nat idx) <$> seq 1 4 in
    perform observed_responses <- for_each
        (fun '(idx, path) => get_status_and_headers w proxy_port (u "GET") path [] (sec 2 1) [(u "User-Agent", u "observed-catalog-" ++ dec_nat idx ++ u "/1.0"); (u "Accept", u "application/x-observed-" ++ dec_nat idx)])
        (zip (seq 1 (length observed_paths)) observed_paths) in
    let observed_responses := VList observed_responses in
    perform metrics_after_observed <- fetch_metrics w proxy_port (u "adaptive-catalog-shape-token") [] in
    let strong_paths := [u "/api/catalog/101"; u "/api/catalog/102"; u "/api/catalog/103"] in
    perform strong_responses <- for_each
        (fun '(idx, path) => get_status_and_headers w proxy_port (u "GET") path [] (sec 2 1) [(u "User-Agent", u "strong-catalog/1.0"); (u "Accept", u "application/json"); (u "X-Forwarded-For", u "198.51.100." ++ dec_nat idx)])
        (zip (seq 1 (length strong_paths)) strong_paths) in
    let strong_responses := VList strong_responses in
    perform final_response <- get_status_and_headers w proxy_port (u "GET") (u "/api/catalog/999") [] (sec 2 1)
        [(u "User-Agent", u "fresh-catalog/1.0"); (u "Accept", u "application/x-final")] in
    perform metrics_after <- fetch_metrics w proxy_port (u "adaptive-catalog-shape-token") [] in
    perform observed_blocked_delta <- eval (delta metrics_after_observed metrics_before (u "altura_http_blocked")) in
    perform blocked_delta <- eval (delta metrics_after metrics_before (u "altura_http_blocked")) in
    perform rate_limited_delta <- eval (delta metrics_after metrics_before (u "altura_http_trusted_proxy_rate_limited")) in
    perform observed_statuses <- eval (comp (fun response => response @ "status") observed_responses) in
    perform strong_statuses <- eval (comp (fun response => response @ "status") strong_responses) in
    perform filter_headers <- eval (py_list [(final_response @ "headers" ? "x-altura-filter" : expr)]) in
    perform observed_only_not_activated <- eval (all_of (fun status => status == #204) observed_statuses AND observed_blocked_delta == #0 AND
          all_of (fun response => is_none (response @ "headers" ? "x-altura-filter")) observed_responses) in
    perform strong_evidence_activated <- eval (strong_statuses == VList [ #204; #429; #429] AND final_response @ "status" == #403 AND
          final_response @ "headers" ? "x-altura-filter" == $"catalog-shape" AND blocked_delta >= #1 AND
          rate_limited_delta >= #2) in
    eval (record [
      "configured_signature_threshold_per_second" :- #2;
      "observed_paths" :- VList (VStr <$> observed_paths);
      "observed_statuses" :- observed_statuses;
      "strong_paths" :- VList (VStr <$> strong_paths);
      "strong_statuses" :- strong_statuses;
      "final_status" :- final_response @ "status";
      "filter_headers" :- filter_headers;
      "observed_blocked_delta" :- observed_blocked_delta;
      "http_blocked_delta" :- blocked_delta;
      "trusted_proxy_rate_limited_delta" :- rate_limited_delta;
      "observed_only_not_activated" :- observed_only_not_activated;
      "strong_evidence_activated" :- strong_evidence_activated;
      "catalog_shape_activated" :- strong_evidence_activated;
      "catalog_shape_requires_strong_evidence" :- observed_only_not_activated AND strong_evidence_activated]))
    (stop_wait w proxy).

Definition run_runtime_filter_bounds_probe : net pyval :=
  perform proxy_port <- free_port w in
  let filters_path := under tmp_path (u "runtime-filter-bounds-filters.json") in
  let events_path := under tmp_path (u "runtime-filter-bounds-events.jsonl") in
  let max_runtime_file_bytes := 4096%Z in
  let max_runtime_filters := 4%Z in
  let blocked_path := u "/runtime-filter-bounds-blocked" in
  perform _ <- write_text w filters_path (dumps sorted_style (runtime_filter_payload [blocked_path] blocked_text)) in
  let cfg := VDict [
      (u "http", VDict [
        (u "listen", VStr (u "127.0.0.1:" ++ dec_Z proxy_port));
        (u "upstream", VStr (u "http://127.0.0.1:" ++ dec_Z upstream_port));
        (u "preserve_host", VBool true);
        (u "admin_token", VStr (u "runtime-filter-bounds-token"));
        (u "limits", VDict [
          (u "per_ip_rps", VInt 1000000);
          (u "per_ip_burst", VInt 1000000);
          (u "global_rps", VInt 1000000);
          (u "global_burst", VInt 1000000);
          (u "max_connections", VInt 128);
          (u "max_connections_per_ip", VInt 128);
          (u "max_in_flight_requests", VInt 128);
          (u "max_in_flight_requests_per_ip", VInt 128);
          (u "max_tracked_ips", VInt 1024)])]);
      (u "tcp", VList []);
      (u "filters", VDict [
        (u "runtime_file", VStr filters_path);
        (u "reload_seconds", VInt 1);
        (u "max_runtime_file_bytes", VInt max_runtime_file_bytes);
        (u "max_runtime_filters", VInt max_runtime_filters);
        (u "static_rules", VList [])]);
      (u "adaptive", VDict [
        (u "enabled", VBool true);
        (u "signature_threshold_per_second", VInt 1000000);
        (u "activation_ttl_seconds", VInt 10);
        (u "event_log", VStr events_path);
        (u "event_cooldown_seconds", VInt 1)])] in
  let config_path := under tmp_path (u "runtime-filter-bounds-config.json") in
  perform _ <- write_text w config_path (dumps default_style cfg) in
  perform proxy <- start_proxy w binary config_path in
  perform r <- ensuring (
      perform _ <- wait_http w fuel proxy_port in
      perform initial_block_status <- get_status w proxy_port (u "GET") blocked_path [] (sec 2 1) [] in
      let oversized_payload := runtime_filter_payload [u "/runtime-filter-bounds-oversized"] (replicate (Z.to_nat (max_runtime_file_bytes * 2)) 120%N) in
      perform _ <- write_text w filters_path (dumps sorted_style oversized_payload) in
      perform oversized_file_bytes <- file_size w filters_path in
      let oversized_file_bytes := VInt oversized_file_bytes in
      perform _ <- sleep w (sec 14 10) in
      perform post_oversized_block_status <- get_status w proxy_port (u "GET") blocked_path [] (sec 2 1) [] in
      perform post_oversized_new_rule_status <- get_status w proxy_port (u "GET") (u "/runtime-filter-bounds-oversized") []
          (sec 2 1) [] in
      let too_many_paths := (fun idx => u "/runtime-filter-bounds-many-" ++ dec_nat idx) <$> seq 0 (Z.to_nat (max_runtime_filters + 1)) in
      perform _ <- write_text w filters_path (dumps sorted_style (runtime_filter_payload too_many_paths blocked_text)) in
      perform too_many_file_bytes <- file_size w filters_path in
      let too_many_file_bytes := VInt too_many_file_bytes in
      perform _ <- sleep w (sec 14 10) in
      perform post_too_many_block_status <- get_status w proxy_port (u "GET") blocked_path [] (sec 2 1) [] in
      perform post_too_many_new_rule_status <- get_status w proxy_port (u "GET") (default [] (too_many_paths !! 0)) []
          (sec 2 1) [] in
      perform normal_status_after_errors <- get_status w proxy_port (u "GET") (u "/") [] (sec 2 1) [] in
      perform metrics_after <- fetch_metrics w proxy_port (u "runtime-filter-bounds-token") [] in
      perform result <- eval (record [
        "configured_max_runtime_file_bytes" :- VInt max_runtime_file_bytes;
        "configured_max_runtime_filters" :- VInt max_runtime_filters;
        "initial_block_status" :- initial_block_status;
        "oversized_file_bytes" :- oversized_file_bytes;
        "post_oversized_block_status" :- post_oversized_block_status;
        "post_oversized_new_rule_status" :- post_oversized_new_rule_status;
        "too_many_file_bytes" :- too_many_file_bytes;
        "post_too_many_block_status" :- post_too_many_block_status;
        "post_too_many_new_rule_status" :- post_too_many_new_rule_status;
        "normal_status_after_errors" :- normal_status_after_errors;
        "active_filters_after" :- get_or metrics_after (u "altura_active_filters") #0;
        "oversized_file_rejected_and_last_good_preserved" :- initial_block_status == #403 AND post_oversized_block_status == #403 AND post_oversized_new_rule_status == #204;
        "too_many_rules_rejected_and_last_good_preserved" :- post_too_many_block_status == #403 AND post_too_many_new_rule_status == #204;
        "availability_ok" :- normal_status_after_errors == #204]) in
      cret result)
    (stop_collecting w proxy) in
  let '(result, stderr_text) := r in
  let reload_error_logged := VBool (contains (u "above configured cap") stderr_text && contains (u "contains 5 filters") stderr_text) in
  eval (merged result (record ["reload_error_logged" :- reload_error_logged])).

Definition run_runtime_filter_hot_path_probe : net pyval :=
  perform proxy_port <- free_port w in
  let filters_path := under tmp_path (u "runtime-filter-hot-path-filters.json") in
  let events_path := under tmp_path (u "runtime-filter-hot-path-events.jsonl") in
  let rule_count := 512%Z in
  let path := u "/filter-hot-path/abcdefghij/123" in
  perform _ <- write_text w filters_path (dumps sorted_style (runtime_filter_hot_path_payload rule_count)) in
  let cfg := VDict [
      (u "http", VDict [
        (u "listen", VStr (u "127.0.0.1:" ++ dec_Z proxy_port));
        (u "upstream", VStr (u "http://127.0.0.1:" ++ dec_Z upstream_port));
        (u "preserve_host", VBool true);
        (u "admin_token", VStr (u "runtime-filter-hot-path-token"));
        (u "limits", VDict [
          (u "per_ip_rps", VInt 1000000);
          (u "per_ip_burst", VInt 1000000);
          (u "global_rps", VInt 1000000);
          (u "global_burst", VInt 1000000);
          (u "max_connections", VInt 128);
          (u "max_connections_per_ip", VInt 128);
          (u "max_in_flight_requests", VInt 128);
          (u "max_in_flight_requests_per_ip", VInt 128);
          (u "max_tracked_ips", VInt 1024)])]);
      (u "tcp", VList []);
      (u "filters", VDict [
        (u "runtime_file", VStr filters_path);
        (u "reload_seconds", VInt 1);
        (u "max_runtime_file_bytes", VInt ((1024 * 1024)%Z));
        (u "max_runtime_filters", VInt rule_count);
        (u "static_rules", VList [])]);
      (u "adaptive", VDict [
        (u "enabled", VBool true);
        (u "signature_threshold_per_second", VInt 1000000);
        (u "activation_ttl_seconds", VInt 10);
        (u "event_log", VStr events_path);
        (u "event_cooldown_seconds", VInt 1)])] in
  let config_path := under tmp_path (u "runtime-filter-hot-path-config.json") in
  perform _ <- write_text w config_path (dumps default_style cfg) in
  perform proxy <- start_proxy w binary config_path in
  finally (
    perform _ <- wait_http w fuel proxy_port in
    perform metrics_after_start <- fetch_metrics w proxy_port (u "runtime-filter-hot-path-token") [] in
    perform normal_status <- get_status w proxy_port (u "GET") path [] (sec 2 1)
        [(u "User-Agent", u "legit mixedbot/1.0"); (u "X-Altura-Signal", u "benign baseline")] in
    perform matching_status <- get_status w proxy_port (u "GET") path [] (sec 2 1)
        [(u "User-Agent", u "legit mixedbot/1.0"); (u "X-Altura-Signal", u "prefix flood suffix")] in
    perform control_status <- get_status w proxy_port (u "GET") (u "/") [] (sec 2 1) [] in
    perform active_filters <- eval (get_or metrics_after_start (u "altura_active_filters") #0) in
    perform filter_file_bytes <- file_size w filters_path in
    eval (record [
      "configured_rule_count" :- VInt rule_count;
      "filter_file_bytes" :- VInt filter_file_bytes;
      "active_filters_after_start" :- active_filters;
      "normal_status" :- normal_status;
      "matching_status" :- matching_status;
      "control_status" :- control_status;
      "many_rules_loaded" :- active_filters == VInt rule_count;
      "normal_request_allowed" :- normal_status == #204;
      "matching_request_blocked" :- matching_status == #403;
      "control_request_allowed" :- control_status == #204]))
    (stop_wait w proxy).

(** An entry of [control_results]. *)
Definition control_result (r : option Z * float) : pyval :=
  VDict [(u "status", int_or_none r.1); (u "latency_ms", VFloat (round_digits 3 r.2))].

(** [reload_write_result], as the writing thread leaves it. *)
Definition write_result (payload : pyval) (written : option (res Z)) : pyval :=
  VDict match written with
        | None => []
        | Some (Ok size) => [(u "bytes", VInt size); (u "rules", or_none (match py_len (payload @ "filters") with Ok n => Some n | _ => None end))]
        | Some (Raise e) => [(u "error", VStr (exn_name e ++ u ": " ++ exn_msg e))]
        end.

(** The loop that waits for the reload: the last status and the last number of active filters. *)
Fixpoint await_reload (fuel : nat) (port rule_count : Z) (deadline : float) (status active : pyval) : net (pyval * pyval) :=
  perform now <- perf_counter w in
  if fltb now deadline then
    match fuel with
    | O => out_of_fuel
    | S fuel' =>
        perform status <- get_status w port (u "GET") (u "/runtime-reload-nonblocking/match") [] (sec 2 1)
          [(u "User-Agent", u "runtime-reload-probe/1.0")] in
        perform metrics_during_reload <- fetch_metrics w port (u "filter-activation-nonblocking-token") [] in
        perform active <- eval (get_or metrics_during_reload (u "altura_active_filters") (#0)) in
        perform loaded <- eval (status == #403 AND active >= VInt rule_count) in
        if truthy loaded then cret (status, active)
        else perform _ <- sleep w (sec 5 100) in await_reload fuel' port rule_count deadline status active
    end
  else cret (status, active).

Definition run_filter_activation_nonblocking_probe : net pyval :=
  perform proxy_port <- free_port w in
  let filters_path := under tmp_path (u "filter-activation-nonblocking-filters.json") in
  let events_path := under tmp_path (u "filter-activation-nonblocking-events.jsonl") in
  perform _ <- write_text w filters_path no_filters in
  let rule_count := 512%Z in
  let cfg := VDict [
      (u "http", VDict [
        (u "listen", VStr (u "127.0.0.1:" ++ dec_Z proxy_port));
        (u "upstream", VStr (u "http://127.0.0.1:" ++ dec_Z upstream_port));
        (u "preserve_host", VBool true);
        (u "admin_token", VStr (u "filter-activation-nonblocking-token"));
        (u "client_ip", VDict [
          (u "header", VStr (u "x-forwarded-for"));
          (u "trusted_proxies", VList [VStr (u "127.0.0.1/32")])]);
        (u "limits", VDict ([(u "per_ip_rps", VInt 1000000);
          (u "per_ip_burst", VInt 1000000);
          (u "global_rps", VInt 1000000);
          (u "global_burst", VInt 1000000);
          (u "signature_rps", VInt 1000000);
          (u "signature_burst", VInt 1000000);
          (u "path_shape_rps", VInt 1000000);
          (u "path_shape_burst", VInt 1000000);
          (u "trusted_proxy_rps", VFloat (sec 1 1000000));
          (u "trusted_proxy_burst", VInt 1)] ++
          BENCH_HTTP_CONNECTION_LIMITS ++
          [(u "max_connections", VInt 2048);
          (u "max_connections_per_ip", VInt 2048);
          (u "max_in_flight_requests", VInt 2048);
          (u "max_in_flight_requests_per_ip", VInt 2048);
          (u "max_tracked_ips", VInt 1024)]))]);
      (u "tcp", VList []);
      (u "filters", VDict [
        (u "runtime_file", VStr filters_path);
        (u "reload_seconds", VInt 1);
        (u "max_runtime_file_bytes", VInt ((1024 * 1024)%Z));
        (u "max_runtime_filters", VInt rule_count);
        (u "max_static_filters", VInt rule_count);
        (u "static_rules", adaptive_activation_nonblocking_rules rule_count)]);
      (u "adaptive", VDict [
        (u "enabled", VBool true);
        (u "signature_threshold_per_second", VInt 2);
        (u "activation_ttl_seconds", VInt 10);
        (u "event_log", VStr events_path);
        (u "event_cooldown_seconds", VInt 1)])] in
  let config_path := under tmp_path (u "filter-activation-nonblocking-config.json") in
  perform _ <- write_text w config_path (dumps default_style cfg) in
  perform proxy <- start_proxy w binary config_path in
  finally (
    perform _ <- wait_http w fuel proxy_port in
    perform control_thread <- ask w (StartControl proxy_port) in
    let payload := runtime_reload_nonblocking_payload rule_count in
    perform reload_thread <- ask w (StartWrite filters_path (dumps sorted_style payload)) in
    perform trigger_statuses <- for_each
        (fun idx => get_status w proxy_port (u "GET") (u "/activation-nonblocking/" ++ dec_nat idx) [] (sec 2 1) [(u "User-Agent", u "activation-trigger/1.0"); (u "X-Forwarded-For", u "198.51.100." ++ dec_nat idx)])
        (seq 1 7) in
    let trigger_statuses := VList trigger_statuses in
    perform _ <- ask w (Join reload_thread (sec 2 1)) in
    perform now <- perf_counter w in
    perform reloaded <- await_reload fuel proxy_port rule_count (fadd now (sec 25 10)) VNone (#0) in
    let '(runtime_reload_status, active_filters_after_reload) := reloaded in
    perform _ <- ask w (StopControl control_thread) in
    perform _ <- ask w (Join control_thread (sec 2 1)) in
    perform final_matching_status <- get_status w proxy_port (u "GET") (u "/activation-nonblocking/999") [] (sec 2 1)
        [(u "User-Agent", u "activation-final/1.0")] in
    perform metrics_after <- fetch_metrics w proxy_port (u "filter-activation-nonblocking-token") [] in
    perform control <- ask w (ControlSoFar control_thread) in
    perform written <- ask w (WriteSoFar reload_thread) in
    let control_results := VList (control_result <$> control) in
    let reload_write_result := write_result payload written in
    perform max_control_latency_ms <- eval (max_of (fun result => result @ "latency_ms") control_results (VFloat (sec 0 1))) in
    perform control_statuses <- eval (comp (fun result => result @ "status") control_results) in
    eval (record [
      "configured_rule_count" :- VInt rule_count;
      "configured_runtime_rule_count" :- VInt rule_count;
      "runtime_reload_file_bytes" :- get_or reload_write_result (u "bytes") #0;
      "runtime_reload_write_error" :- reload_write_result ? "error";
      "runtime_reload_status" :- runtime_reload_status;
      "trigger_statuses" :- trigger_statuses;
      "final_matching_status" :- final_matching_status;
      "control_request_count" :- py_len control_results;
      "control_statuses" :- slice_to control_statuses 16;
      "control_errors" :- count_if (fun status => status != #204) control_statuses;
      "max_control_latency_ms" :- max_control_latency_ms;
      "active_filters_after" :- get_or metrics_after (u "altura_active_filters") #0;
      "active_filters_after_reload" :- active_filters_after_reload;
      "runtime_reload_loaded" :- runtime_reload_status == #403 AND active_filters_after_reload >= VInt rule_count;
      "activation_nonblocking" :- slice_to trigger_statuses 3 == VList [ #204; #429; #429] AND final_matching_status == #403 AND
        py_len control_results > #0 AND all_of (fun status => status == #204) control_statuses AND max_control_latency_ms < #500;
      "activation_reload_nonblocking" :- slice_to trigger_statuses 3 == VList [ #204; #429; #429] AND final_matching_status == #403 AND
        runtime_reload_status == #403 AND active_filters_after_reload >= VInt rule_count AND
        is_none (reload_write_result ? "error") AND py_len control_results > #0 AND
        all_of (fun status => status == #204) control_statuses AND max_control_latency_ms < #500]))
    (stop_wait w proxy).

Definition run_rate_limit_before_filter_probe : net pyval :=
  perform proxy_port <- free_port w in
  let filters_path := under tmp_path (u "rate-limit-before-filter-filters.json") in
  let events_path := under tmp_path (u "rate-limit-before-filter-events.jsonl") in
  let blocked_path := u "/filter-before-rate-limit" in
  perform _ <- write_text w filters_path no_filters in
  let cfg := VDict [
      (u "http", VDict [
        (u "listen", VStr (u "127.0.0.1:" ++ dec_Z proxy_port));
        (u "upstream", VStr (u "http://127.0.0.1:" ++ dec_Z upstream_port));
        (u "preserve_host", VBool true);
        (u "admin_token", VStr (u "rate-limit-before-filter-token"));
        (u "client_ip", VDict [
          (u "header", VStr (u "x-forwarded-for"));
          (u "trusted_proxies", VList [VStr (u "127.0.0.1/32")])]);
        (u "limits", VDict [
          (u "per_ip_rps", VFloat (sec 1 1000000));
          (u "per_ip_burst", VInt 1);
          (u "global_rps", VInt 1000000);
          (u "global_burst", VInt 1000000);
          (u "signature_rps", VInt 1000000);
          (u "signature_burst", VInt 1000000);
          (u "path_shape_rps", VInt 1000000);
          (u "path_shape_burst", VInt 1000000);
          (u "max_connections", VInt 128);
          (u "max_connections_per_ip", VInt 128);
          (u "max_in_flight_requests", VInt 128);
          (u "max_in_flight_requests_per_ip", VInt 128);
          (u "max_tracked_ips", VInt 1024)])]);
      (u "tcp", VList []);
      (u "filters", VDict [
        (u "runtime_file", VStr filters_path);
        (u "reload_seconds", VInt 1);
        (u "static_rules", VList [VDict [
            (u "id", VStr (u "rate-limit-before-filter"));
            (u "enabled", VBool true);
            (u "priority", VInt 100);
            (u "condition", VDict [(u "path_exact", VStr blocked_path)]);
            (u "action", VDict [
              (u "kind", VStr (u "block"));
              (u "status", VInt 403);
              (u "body", VStr (u "blocked" ++ [10%N]))])]])]);
      (u "adaptive", VDict [
        (u "enabled", VBool true);
        (u "signature_threshold_per_second", VInt 1000000);
        (u "activation_ttl_seconds", VInt 10);
        (u "event_log", VStr events_path);
        (u "event_cooldown_seconds", VInt 1)])] in
  let config_path := under tmp_path (u "rate-limit-before-filter-config.json") in
  perform _ <- write_text w config_path (dumps default_style cfg) in
  perform proxy <- start_proxy w binary config_path in
  finally (
    perform _ <- wait_tcp_port w fuel proxy_port in
    perform metrics_before <- fetch_metrics w proxy_port (u "rate-limit-before-filter-token")
        [(u "X-Forwarded-For", u "198.51.100.200")] in
    let first_ip := u "198.51.100.10" in
    let second_ip := u "198.51.100.11" in
    perform prime_status <- get_status w proxy_port (u "GET") (u "/rate-prime") [] (sec 2 1)
        [(u "X-Forwarded-For", first_ip)] in
    perform over_limit_matching_status <- get_status w proxy_port (u "GET") blocked_path [] (sec 2 1)
        [(u "X-Forwarded-For", first_ip)] in
    perform fresh_matching_response <- get_status_and_headers w proxy_port (u "GET") blocked_path [] (sec 2 1)
        [(u "X-Forwarded-For", second_ip)] in
    perform metrics_after <- fetch_metrics w proxy_port (u "rate-limit-before-filter-token")
        [(u "X-Forwarded-For", u "198.51.100.201")] in
    perform blocked_delta <- eval (delta metrics_after metrics_before (u "altura_http_blocked")) in
    perform rate_limited_delta <- eval (delta metrics_after metrics_before (u "altura_http_rate_limited")) in
    perform active_filters <- eval (get_or metrics_after (u "altura_active_filters") #0) in
    perform fresh_matching_status <- eval (fresh_matching_response @ "status") in
    perform fresh_filter_header <- eval (fresh_matching_response @ "headers" ? "x-altura-filter") in
    eval (record [
      "blocked_path" :- VStr blocked_path;
      "prime_status" :- prime_status;
      "over_limit_matching_status" :- over_limit_matching_status;
      "fresh_matching_status" :- fresh_matching_status;
      "fresh_filter_header" :- fresh_filter_header;
      "http_blocked_delta" :- blocked_delta;
      "http_rate_limited_delta" :- rate_limited_delta;
      "active_filters_after" :- active_filters;
      "rate_limit_precedes_filter" :- prime_status == #204 AND over_limit_matching_status == #429 AND fresh_matching_status == #403 AND
        fresh_filter_header == $"rate-limit-before-filter" AND blocked_delta == #1 AND rate_limited_delta >= #1 AND
        active_filters >= #1]))
    (stop_wait w proxy).

Definition run_event_log_async_queue_probe : net pyval :=
  perform available <- ask w HasMkfifo in
  if negb available then cret (VDict [(u "skipped", VBool true); (u "reason", VStr (u "os.mkfifo unavailable"))]) else
  perform proxy_port <- free_port w in
  let filters_path := under tmp_path (u "event-log-async-filters.json") in
  let events_path := under tmp_path (u "event-log-async-events.fifo") in
  perform _ <- write_text w filters_path no_filters in
  perform r <- ask w (Mkfifo events_path) in
  perform _ <- clift r in
  perform r <- ask w (OpenNonblocking events_path) in
  perform reader_fd <- clift r in
  let request_count := 2000%Z in
  let cfg := VDict [
      (u "http", VDict [
        (u "listen", VStr (u "127.0.0.1:" ++ dec_Z proxy_port));
        (u "upstream", VStr (u "http://127.0.0.1:" ++ dec_Z upstream_port));
        (u "preserve_host", VBool true);
        (u "admin_token", VStr (u "event-log-async-token"));
        (u "limits", VDict ([(u "per_ip_rps", VInt 1000000);
          (u "per_ip_burst", VInt 1000000);
          (u "global_rps", VInt 1000000);
          (u "global_burst", VInt 1000000)] ++
          BENCH_HTTP_CONNECTION_LIMITS ++
          [(u "max_connections", VInt 4096);
          (u "max_connections_per_ip", VInt 4096);
          (u "max_in_flight_requests", VInt 4096);
          (u "max_in_flight_requests_per_ip", VInt 4096);
          (u "max_tracked_ips", VInt 1024)]))]);
      (u "tcp", VList []);
      (u "filters", VDict [
        (u "runtime_file", VStr filters_path);
        (u "reload_seconds", VInt 1);
        (u "static_rules", VList [])]);
      (u "adaptive", VDict [
        (u "enabled", VBool true);
        (u "signature_threshold_per_second", VInt 1);
        (u "activation_ttl_seconds", VInt 10);
        (u "event_log", VStr events_path);
        (u "event_log_flush_interval_ms", VInt 1);
        (u "event_log_queue_capacity", VInt 1);
        (u "event_cooldown_seconds", VInt 1)])] in
  let config_path := under tmp_path (u "event-log-async-config.json") in
  perform _ <- write_text w config_path (dumps default_style cfg) in
  perform proxy <- start_proxy w binary config_path in
  finally_with None (
      perform _ <- inner (wait_http w fuel proxy_port) in
      perform metrics_before <- inner (fetch_metrics w proxy_port (u "event-log-async-token") []) in
      perform started <- inner (perf_counter w) in
      perform statuses <- inner (for_each (fun idx =>
        get_status w proxy_port (u "GET") (u "/api/event-log-async/slug" ++ hex_padded 4 idx) [] (sec 5 10)
          [(u "User-Agent", u "altura-event-log-async-probe/" ++ dec_nat idx)]) (seq 0 (Z.to_nat request_count))) in
      perform now <- inner (perf_counter w) in
      let elapsed := fsub now started in
      perform metrics_after <- inner (fetch_metrics w proxy_port (u "event-log-async-token") []) in
      perform drain_thread <- inner (ask w (StartDrain reader_fd)) in
      perform _ <- update (fun _ => Some (drain_thread : thread)) in
      perform _ <- inner (sleep w (sec 3 10)) in
      perform dropped_delta <- inner (eval (delta metrics_after metrics_before (u "altura_event_log_dropped"))) in
      perform drained <- inner (ask w (DrainedSoFar drain_thread)) in
      let statuses := VList statuses in
      inner (eval (record [
        "configured_event_log_queue_capacity" :- #1;
        "request_count" :- VInt request_count;
        "completed_statuses" :- str_counts statuses;
        "requests_elapsed_seconds" :- VFloat (round_digits 3 elapsed);
        "requests_per_second" :- VFloat (round_digits 2 (if feqb elapsed f0 then f0 else fdiv (float_of_Q request_count 1) elapsed));
        "dropped_delta" :- dropped_delta;
        "drained_bytes" :- VInt drained;
        "all_requests_completed" :- all_of (fun status => py_not (is_none status) AND status < #500) statuses;
        "event_log_queue_dropped" :- dropped_delta > #0])))
    (fun drain_thread =>
       perform drain_thread <- match drain_thread with
         | Some th => cret th
         | None =>
             perform th <- ask w (StartDrain reader_fd) in
             perform _ <- sleep w (sec 1 10) in cret th
         end in
       perform _ <- stop_communicate w proxy in
       perform _ <- ask w (StopDrain drain_thread) in
       perform _ <- catch (perform r <- ask w (CloseFd reader_fd) in clift r) is_os_error (fun _ => cret tt) in
       ask w (Join drain_thread (sec 1 1))).

Definition run_event_log_rotation_probe : net pyval :=
  perform proxy_port <- free_port w in
  let filters_path := under tmp_path (u "event-log-rotation-filters.json") in
  let events_path := under tmp_path (u "event-log-rotation-events.jsonl") in
  perform _ <- write_text w filters_path no_filters in
  let max_bytes := 1800%Z in
  let backup_count := 1%Z in
  let request_count := 24%Z in
  let cfg := VDict [
      (u "http", VDict [
        (u "listen", VStr (u "127.0.0.1:" ++ dec_Z proxy_port));
        (u "upstream", VStr (u "http://127.0.0.1:" ++ dec_Z upstream_port));
        (u "preserve_host", VBool true);
        (u "admin_token", VStr (u "event-log-rotation-token"));
        (u "limits", VDict [
          (u "per_ip_rps", VInt 1000000);
          (u "per_ip_burst", VInt 1000000);
          (u "global_rps", VInt 1000000);
          (u "global_burst", VInt 1000000);
          (u "max_connections", VInt 256);
          (u "max_connections_per_ip", VInt 256);
          (u "max_in_flight_requests", VInt 256);
          (u "max_in_flight_requests_per_ip", VInt 256);
          (u "max_tracked_ips", VInt 1024)])]);
      (u "tcp", VList []);
      (u "filters", VDict [
        (u "runtime_file", VStr filters_path);
        (u "reload_seconds", VInt 1);
        (u "static_rules", VList [])]);
      (u "adaptive", VDict [
        (u "enabled", VBool true);
        (u "signature_threshold_per_second", VInt 1);
        (u "activation_ttl_seconds", VInt 10);
        (u "event_log", VStr events_path);
        (u "event_log_flush_interval_ms", VInt 1);
        (u "event_log_max_bytes", VInt max_bytes);
        (u "event_log_backup_count", VInt backup_count);
        (u "event_cooldown_seconds", VInt 1)])] in
  let config_path := under tmp_path (u "event-log-rotation-config.json") in
  perform _ <- write_text w config_path (dumps default_style cfg) in
  perform proxy <- start_proxy w binary config_path in
  let statuses := [] in
  finally (
    perform _ <- wait_http w fuel proxy_port in
    perform more <- for_each
        (fun idx => get_status w proxy_port (u "GET") (u "/api/event-log-rotation/" ++ dec_padded 2 idx) [] (sec 2 1) [(u "User-Agent", u "altura-event-log-rotation-probe/1.0")])
        (seq 0 (Z.to_nat request_count)) in
    let statuses := statuses ++ more in
    perform now <- perf_counter w in
    let deadline := fadd now (sec 1 1) in
    let paths := event_log_files events_path backup_count in
    let backup := default [] (paths !! 1) in
    perform _ <- wait_exists w fuel backup deadline in
    perform stats <- jsonl_file_stats w paths in
    perform backup_present <- ask w (Exists backup) in
    perform active_log_present <- ask w (Exists events_path) in
    eval (record [
      "configured_event_log_max_bytes" :- VInt max_bytes;
      "configured_event_log_backup_count" :- VInt backup_count;
      "request_count" :- VInt request_count;
      "statuses" :- VList statuses;
      "all_requests_ok" :- all_of (fun status => status == #204) (VList statuses);
      "backup_present" :- VBool backup_present;
      "active_log_present" :- VBool active_log_present;
      "jsonl_stats" :- stats;
      "jsonl_valid" :- stats @ "invalid_json_lines" == #0 AND stats @ "valid_json_lines" > #0;
      "total_bytes_bounded" :- stats @ "total_bytes" <= VInt (((max_bytes * (backup_count + 1)) + 2048)%Z)]))
    (stop_communicate w proxy).
End probes.
