(* ===== verification/TrafficGuard.v ===== *)
(** * TrafficGuard: probes of requests the proxy must refuse

    [tools/run_local_bench.py]: each probe writes a configuration, starts the proxy on it,
    sends traffic, and reports what it saw together with its verdicts; whatever happens, the
    proxy is stopped. *)

From S2P Require Import Prelude Unicode PyStr PyFloat PyVal PyDyn Json.
From S2P Require Import BenchNet BenchHttp BenchOrigin BenchSend BenchConns TrafficBase.

Open Scope dyn_scope.

Section probes.
Context (w : world) (fuel : nat) (binary : pystr) (upstream_port tcp_upstream_port : Z) (tmp_path : pystr).

Definition run_http_connection_rate_probe : net pyval :=
  perform proxy_port <- free_port w in
  let filters_path := under tmp_path (u "http-connection-rate-filters.json") in
  let events_path := under tmp_path (u "http-connection-rate-events.jsonl") in
  perform _ <- write_text w filters_path no_filters in
  let cfg := VDict [
      (u "http", VDict [
        (u "listen", VStr (u "127.0.0.1:" ++ dec_Z proxy_port));
        (u "upstream", VStr (u "http://127.0.0.1:" ++ dec_Z upstream_port));
        (u "preserve_host", VBool true);
        (u "admin_token", VStr (u "http-connection-rate-token"));
        (u "limits", VDict [
          (u "per_ip_rps", VInt 1000000);
          (u "per_ip_burst", VInt 1000000);
          (u "global_rps", VInt 1000000);
          (u "global_burst", VInt 1000000);
          (u "per_ip_connects_per_second", VFloat (sec 1 1));
          (u "per_ip_connect_burst", VInt 4);
          (u "global_connects_per_second", VInt 1000000);
          (u "global_connect_burst", VInt 1000000);
          (u "max_connections", VInt 256);
          (u "max_connections_per_ip", VInt 256);
          (u "max_in_flight_requests", VInt 256);
          (u "max_in_flight_requests_per_ip", VInt 256);
          (u "max_tracked_ips", VInt 1024)])]);
      (u "tcp", VList []);
      (u "filters", VDict [
        (u "runtime_file", VStr filters_path);
        (u "reload_seconds", VInt 1);
        (u "static_rules", VList [])]);
      (u "adaptive", VDict [
        (u "enabled", VBool true);
        (u "signature_threshold_per_second", VInt 1000000);
        (u "activation_ttl_seconds", VInt 10);
        (u "event_log", VStr events_path);
        (u "event_cooldown_seconds", VInt 1)])] in
  let config_path := under tmp_path (u "http-connection-rate-config.json") in
  perform _ <- write_text w config_path (dumps default_style cfg) in
  perform proxy <- start_proxy w binary config_path in
  let statuses := [] in
  finally (
    perform _ <- wait_http w fuel proxy_port in
    perform metrics_before <- fetch_metrics w proxy_port (u "http-connection-rate-token") [] in
    perform more <- for_each
        (fun idx => get_status w proxy_port (u "GET") (u "/api/http-connection-rate/" ++ dec_nat idx) [] (sec 4 10) [(u "User-Agent", u "altura-http-connection-rate-probe/1.0")])
        (seq 0 8) in
    let statuses := statuses ++ more in
    perform _ <- sleep w (sec 11 10) in
    perform metrics_after <- fetch_metrics w proxy_port (u "http-connection-rate-token") [] in
    perform rejected_delta <- eval (delta metrics_after metrics_before (u "altura_http_connections_rejected")) in
    perform accepted <- eval (count_if (fun status => status == #204) (VList statuses)) in
    perform rejected <- eval (count_if (fun status => is_none status) (VList statuses)) in
    eval (record [
      "configured_per_ip_connects_per_second" :- VFloat (sec 1 1);
      "configured_per_ip_connect_burst" :- #4;
      "statuses" :- VList statuses;
      "accepted_requests" :- accepted;
      "rejected_connection_attempts" :- rejected;
      "connections_rejected_metric_delta" :- rejected_delta;
      "connection_rate_limited" :- accepted >= #1 AND rejected >= #1 AND rejected_delta >= #1 AND accepted <= #4]))
    (stop_communicate w proxy).

Definition run_connection_request_limit_probe : net pyval :=
  perform proxy_port <- free_port w in
  let filters_path := under tmp_path (u "connection-request-limit-filters.json") in
  let events_path := under tmp_path (u "connection-request-limit-events.jsonl") in
  perform _ <- write_text w filters_path no_filters in
  let cfg := VDict [
      (u "http", VDict [
        (u "listen", VStr (u "127.0.0.1:" ++ dec_Z proxy_port));
        (u "upstream", VStr (u "http://127.0.0.1:" ++ dec_Z upstream_port));
        (u "preserve_host", VBool true);
        (u "admin_token", VStr (u "connection-request-limit-token"));
        (u "downstream_keep_alive", VBool true);
        (u "max_requests_per_connection", VInt 2);
        (u "limits", VDict [
          (u "per_ip_rps", VInt 1000000);
          (u "per_ip_burst", VInt 1000000);
          (u "global_rps", VInt 1000000);
          (u "global_burst", VInt 1000000);
          (u "max_connections", VInt 128);
          (u "max_connections_per_ip", VInt 128);
          (u "max_in_flight_requests", VInt 128);
          (u "max_in_flight_requests_per_ip", VInt 128);
          (u "max_tracked_ips", VInt 1024)])]);
      (u "tcp", VList []);
      (u "filters", VDict [
        (u "runtime_file", VStr filters_path);
        (u "reload_seconds", VInt 1);
        (u "static_rules", VList [])]);
      (u "adaptive", VDict [
        (u "enabled", VBool true);
        (u "signature_threshold_per_second", VInt 1000000);
        (u "activation_ttl_seconds", VInt 10);
        (u "event_log", VStr events_path);
        (u "event_cooldown_seconds", VInt 1)])] in
  let config_path := under tmp_path (u "connection-request-limit-config.json") in
  perform _ <- write_text w config_path (dumps default_style cfg) in
  perform proxy <- start_proxy w binary config_path in
  finally (
    perform _ <- wait_http w fuel proxy_port in
    perform metrics_before <- fetch_metrics w proxy_port (u "connection-request-limit-token") [] in
    perform probe <- send_connection_request_limit_sequence w fuel proxy_port in
    perform metrics_after <- fetch_metrics w proxy_port (u "connection-request-limit-token") [] in
    perform limited_delta <- eval (delta metrics_after metrics_before (u "altura_http_request_limited")) in
    perform third_headers <- eval (get_or (get_or probe (u "third_response") (VDict [])) (u "headers") (VDict [])) in
    eval (record [
      "configured_max_requests_per_connection" :- #2;
      "probe" :- probe;
      "http_request_limited_delta" :- limited_delta;
      "third_request_limited" :- (get_or probe (u "third_response") (VDict [])) ? "status" == #429;
      "retry_after_header_matches" :- third_headers ? "retry-after" == $"1";
      "cache_control_header_matches" :- third_headers ? "cache-control" == $"no-store";
      "connection_close_header_matches" :- third_headers ? "connection" == $"close";
      "connection_closed_before_fourth" :- probe ? "fourth_response_bytes" == #0 OR in_set (probe ? "fourth_error") [u "BrokenPipeError"; u "ConnectionResetError"];
      "connection_request_limit_observed" :- (get_or probe (u "first_response") (VDict [])) ? "status" == #204 AND
        (get_or probe (u "second_response") (VDict [])) ? "status" == #204 AND
        (get_or probe (u "third_response") (VDict [])) ? "status" == #429 AND third_headers ? "retry-after" == $"1" AND
        third_headers ? "cache-control" == $"no-store" AND third_headers ? "connection" == $"close" AND limited_delta == #1]))
    (stop_communicate w proxy).

Definition run_uri_guard_probe : net pyval :=
  perform proxy_port <- free_port w in
  let filters_path := under tmp_path (u "uri-guard-filters.json") in
  let events_path := under tmp_path (u "uri-guard-events.jsonl") in
  perform _ <- write_text w filters_path no_filters in
  let cfg := VDict [
      (u "http", VDict [
        (u "listen", VStr (u "127.0.0.1:" ++ dec_Z proxy_port));
        (u "upstream", VStr (u "http://127.0.0.1:" ++ dec_Z upstream_port));
        (u "preserve_host", VBool true);
        (u "admin_token", VStr (u "uri-guard-token"));
        (u "max_uri_bytes", VInt 64);
        (u "max_query_bytes", VInt 16);
        (u "max_query_pairs", VInt 2);
        (u "max_path_segments", VInt 3);
        (u "limits", VDict [
          (u "per_ip_rps", VInt 1000000);
          (u "per_ip_burst", VInt 1000000);
          (u "global_rps", VInt 1000000);
          (u "global_burst", VInt 1000000);
          (u "max_in_flight_requests", VInt 128);
          (u "max_in_flight_requests_per_ip", VInt 128);
          (u "max_tracked_ips", VInt 1024)])]);
      (u "tcp", VList []);
      (u "filters", VDict [
        (u "runtime_file", VStr filters_path);
        (u "reload_seconds", VInt 1);
        (u "static_rules", VList [])]);
      (u "adaptive", VDict [
        (u "enabled", VBool true);
        (u "signature_threshold_per_second", VInt 1000000);
        (u "activation_ttl_seconds", VInt 10);
        (u "event_log", VStr events_path);
        (u "event_cooldown_seconds", VInt 1)])] in
  let config_path := under tmp_path (u "uri-guard-config.json") in
  perform _ <- write_text w config_path (dumps default_style cfg) in
  perform proxy <- start_proxy w binary config_path in
  finally (
    perform _ <- wait_http w fuel proxy_port in
    perform metrics_before <- fetch_metrics w proxy_port (u "uri-guard-token") [] in
    perform probes <- record_calls [
        (u "long_uri", send_raw_get_target w fuel proxy_port (u "/long/" ++ replicate 80 120%N));
        (u "long_query", send_raw_get_target w fuel proxy_port (u "/ok?x=" ++ replicate 32 121%N));
        (u "many_query_pairs", send_raw_get_target w fuel proxy_port (u "/ok?a=1&b=2&c=3"));
        (u "many_path_segments", send_raw_get_target w fuel proxy_port (u "/a/b/c/d"))] in
    let probes := VDict probes in
    perform rejected_probes <- eval (comp_if (fun probe => value probe) (fun probe => probe @ "status" == #414) (dict_values probes)) in
    perform cache_control_headers <- eval (comp (fun probe => probe ? "cache_control") rejected_probes) in
    perform connection_headers <- eval (comp (fun probe => probe ? "connection") rejected_probes) in
    perform metrics_after <- fetch_metrics w proxy_port (u "uri-guard-token") [] in
    eval (record [
      "configured" :- record [
        "max_uri_bytes" :- #64;
        "max_query_bytes" :- #16;
        "max_query_pairs" :- #2;
        "max_path_segments" :- #3];
      "probes" :- probes;
      "cache_control_headers" :- cache_control_headers;
      "connection_headers" :- connection_headers;
      "generated_414_not_stored" :- cache_control_headers == VList (replicate 4 $"no-store");
      "generated_414_closes_connection" :- connection_headers == VList (replicate 4 $"close");
      "raw_initial_request_target_guard_observed" :- py_len rejected_probes == #4 AND cache_control_headers == VList (replicate 4 $"no-store") AND
        connection_headers == VList (replicate 4 $"close");
      "metrics_delta" :- record [
        "altura_http_uri_rejected" :- delta metrics_after metrics_before (u "altura_http_uri_rejected");
        "altura_http_initial_request_target_rejected" :- delta metrics_after metrics_before (u "altura_http_initial_request_target_rejected")]]))
    (stop_wait w proxy).

Definition run_method_guard_probe : net pyval :=
  perform proxy_port <- free_port w in
  let filters_path := under tmp_path (u "method-guard-filters.json") in
  let events_path := under tmp_path (u "method-guard-events.jsonl") in
  perform _ <- write_text w filters_path no_filters in
  let cfg := VDict [
      (u "http", VDict [
        (u "listen", VStr (u "127.0.0.1:" ++ dec_Z proxy_port));
        (u "upstream", VStr (u "http://127.0.0.1:" ++ dec_Z upstream_port));
        (u "preserve_host", VBool true);
        (u "admin_token", VStr (u "method-guard-token"));
        (u "allowed_methods", VList [VStr (u "GET"); VStr (u "POST")]);
        (u "limits", VDict [
          (u "per_ip_rps", VInt 1000000);
          (u "per_ip_burst", VInt 1000000);
          (u "global_rps", VInt 1000000);
          (u "global_burst", VInt 1000000);
          (u "max_in_flight_requests", VInt 128);
          (u "max_in_flight_requests_per_ip", VInt 128);
          (u "max_tracked_ips", VInt 1024)])]);
      (u "tcp", VList []);
      (u "filters", VDict [
        (u "runtime_file", VStr filters_path);
        (u "reload_seconds", VInt 1);
        (u "static_rules", VList [])]);
      (u "adaptive", VDict [
        (u "enabled", VBool true);
        (u "signature_threshold_per_second", VInt 1000000);
        (u "activation_ttl_seconds", VInt 10);
        (u "event_log", VStr events_path);
        (u "event_cooldown_seconds", VInt 1)])] in
  let config_path := under tmp_path (u "method-guard-config.json") in
  perform _ <- write_text w config_path (dumps default_style cfg) in
  perform proxy <- start_proxy w binary config_path in
  finally (
    perform _ <- wait_http w fuel proxy_port in
    perform metrics_before <- fetch_metrics w proxy_port (u "method-guard-token") [] in
    perform probes <- record_calls [
        (u "allowed_get", send_raw_method w fuel proxy_port (u "GET") (u "/"));
        (u "allowed_post", send_raw_method w fuel proxy_port (u "POST") (u "/drain"));
        (u "trace", send_raw_method w fuel proxy_port (u "TRACE") (u "/"));
        (u "connect", send_raw_method w fuel proxy_port (u "CONNECT") (u "127.0.0.1:443"));
        (u "track", send_raw_method w fuel proxy_port (u "TRACK") (u "/"));
        (u "arbitrary", send_raw_method w fuel proxy_port (u "JEFF") (u "/"))] in
    let probes := VDict probes in
    perform rejected_probes <- eval (comp_if (fun probe => value probe) (fun probe => probe @ "status" == #405) (dict_values probes)) in
    perform cache_control_headers <- eval (comp (fun probe => probe ? "cache_control") rejected_probes) in
    perform allow_headers <- eval (comp (fun probe => probe ? "allow") rejected_probes) in
    perform metrics_after <- fetch_metrics w proxy_port (u "method-guard-token") [] in
    eval (record [
      "configured" :- record ["allowed_methods" :- VList [$"GET"; $"POST"]];
      "probes" :- probes;
      "allow_headers" :- allow_headers;
      "cache_control_headers" :- cache_control_headers;
      "generated_405_not_stored" :- cache_control_headers == VList (replicate 4 $"no-store");
      "metrics_delta" :- record [
        "altura_http_method_rejected" :- delta metrics_after metrics_before (u "altura_http_method_rejected")]]))
    (stop_wait w proxy).

Definition run_method_override_header_probe : net pyval :=
  perform proxy_port <- free_port w in
  let filters_path := under tmp_path (u "method-override-filters.json") in
  let events_path := under tmp_path (u "method-override-events.jsonl") in
  perform _ <- write_text w filters_path no_filters in
  let cfg := VDict [
      (u "http", VDict [
        (u "listen", VStr (u "127.0.0.1:" ++ dec_Z proxy_port));
        (u "upstream", VStr (u "http://127.0.0.1:" ++ dec_Z upstream_port));
        (u "preserve_host", VBool true);
        (u "admin_token", VStr (u "method-override-token"));
        (u "allowed_methods", VList [VStr (u "GET"); VStr (u "POST")]);
        (u "limits", VDict [
          (u "per_ip_rps", VInt 1000000);
          (u "per_ip_burst", VInt 1000000);
          (u "global_rps", VInt 1000000);
          (u "global_burst", VInt 1000000);
          (u "max_in_flight_requests", VInt 128);
          (u "max_in_flight_requests_per_ip", VInt 128);
          (u "max_tracked_ips", VInt 1024)])]);
      (u "tcp", VList []);
      (u "filters", VDict [
        (u "runtime_file", VStr filters_path);
        (u "reload_seconds", VInt 1);
        (u "static_rules", VList [])]);
      (u "adaptive", VDict [
        (u "enabled", VBool true);
        (u "signature_threshold_per_second", VInt 1000000);
        (u "activation_ttl_seconds", VInt 10);
        (u "event_log", VStr events_path);
        (u "event_cooldown_seconds", VInt 1)])] in
  let config_path := under tmp_path (u "method-override-config.json") in
  perform _ <- write_text w config_path (dumps default_style cfg) in
  perform proxy <- start_proxy w binary config_path in
  finally (
    perform _ <- wait_http w fuel proxy_port in
    perform metrics_before <- fetch_metrics w proxy_port (u "method-override-token") [] in
    perform probes <- record_calls [
        (u "x_http_method", get_status_and_headers w proxy_port (u "GET") (u "/") [] (sec 2 1) [(u "X-HTTP-Method", u "DELETE")]);
        (u "x_http_method_override", get_status_and_headers w proxy_port (u "GET") (u "/") [] (sec 2 1) [(u "X-HTTP-Method-Override", u "DELETE")]);
        (u "x_method_override", get_status_and_headers w proxy_port (u "GET") (u "/") [] (sec 2 1) [(u "X-Method-Override", u "DELETE")])] in
    let probes := VDict probes in
    perform rejected <- eval (comp_if (fun probe => value probe) (fun probe => probe @ "status" == #400) (dict_values probes)) in
    perform metrics_after <- fetch_metrics w proxy_port (u "method-override-token") [] in
    perform method_rejected_delta <- eval (delta metrics_after metrics_before (u "altura_http_method_rejected")) in
    eval (record [
      "configured" :- record ["allowed_methods" :- VList [$"GET"; $"POST"]; "allow_method_override_headers" :- VBool false];
      "probes" :- probes;
      "override_headers_rejected" :- py_len rejected == py_len probes;
      "generated_400_not_stored" :- all_of (fun probe => (get_or probe (u "headers") (VDict [])) ? "cache-control" == $"no-store") rejected;
      "generated_400_closes_connection" :- all_of (fun probe => (get_or probe (u "headers") (VDict [])) ? "connection" == $"close") rejected;
      "method_rejected_delta" :- method_rejected_delta;
      "method_rejected_metric_matches" :- method_rejected_delta == py_len probes]))
    (stop_wait w proxy).

Definition run_early_rejection_close_probe : net pyval :=
  perform proxy_port <- free_port w in
  let filters_path := under tmp_path (u "early-rejection-close-filters.json") in
  let events_path := under tmp_path (u "early-rejection-close-events.jsonl") in
  perform _ <- write_text w filters_path no_filters in
  let cfg := VDict [
      (u "http", VDict [
        (u "listen", VStr (u "127.0.0.1:" ++ dec_Z proxy_port));
        (u "upstream", VStr (u "http://127.0.0.1:" ++ dec_Z upstream_port));
        (u "preserve_host", VBool true);
        (u "admin_token", VStr (u "early-rejection-close-token"));
        (u "allowed_methods", VList [VStr (u "GET"); VStr (u "POST")]);
        (u "downstream_keep_alive", VBool true);
        (u "max_uri_bytes", VInt 64);
        (u "limits", VDict [
          (u "per_ip_rps", VInt 1000000);
          (u "per_ip_burst", VInt 1000000);
          (u "global_rps", VInt 1000000);
          (u "global_burst", VInt 1000000);
          (u "signature_rps", VInt 1000000);
          (u "signature_burst", VInt 1000000);
          (u "path_shape_rps", VInt 1000000);
          (u "path_shape_burst", VInt 1000000);
          (u "max_in_flight_requests", VInt 128);
          (u "max_in_flight_requests_per_ip", VInt 128);
          (u "max_tracked_ips", VInt 1024)])]);
      (u "tcp", VList []);
      (u "filters", VDict [
        (u "runtime_file", VStr filters_path);
        (u "reload_seconds", VInt 1);
        (u "static_rules", VList [VDict [
            (u "id", VStr (u "early-close-block"));
            (u "enabled", VBool true);
            (u "priority", VInt 10);
            (u "condition", VDict [(u "path_exact", VStr (u "/blocked-upload"))]);
            (u "action", VDict [
              (u "kind", VStr (u "block"));
              (u "status", VInt 403);
              (u "body", VStr (u "blocked" ++ [10%N]))])]])]);
      (u "adaptive", VDict [
        (u "enabled", VBool true);
        (u "signature_threshold_per_second", VInt 1000000);
        (u "activation_ttl_seconds", VInt 10);
        (u "event_log", VStr events_path);
        (u "event_cooldown_seconds", VInt 1)])] in
  let config_path := under tmp_path (u "early-rejection-close-config.json") in
  perform _ <- write_text w config_path (dumps default_style cfg) in
  perform proxy <- start_proxy w binary config_path in
  finally (
    perform _ <- wait_http w fuel proxy_port in
    perform probes <- record_calls [
        (u "method_with_body", send_keepalive_followup_request_with_body w fuel proxy_port (u "TRACE") (u "/") (u "blocked-method-body"));
        (u "filter_with_body", send_keepalive_followup_request_with_body w fuel proxy_port (u "POST") (u "/blocked-upload") (u "blocked-filter-body"));
        (u "uri_with_body", send_keepalive_followup_request_with_body w fuel proxy_port (u "POST") (u "/long/" ++ replicate 80 120%N) (u "blocked-uri-body"))] in
    let probes := VDict probes in
    let expected_statuses := [(u "method_with_body", 405%Z); (u "filter_with_body", 403%Z); (u "uri_with_body", 414%Z)] in
    eval (record [
      "probes" :- probes;
      "body_bearing_early_rejections_close_connection" :- all_fields (fun name expected_status =>
        in_values (item probes name @ "first" @ "status") (VList [ #200; #204]) AND
        item probes name @ "second" @ "status" == VInt expected_status AND item probes name @ "second" @ "connection_close") expected_statuses;
      "body_bearing_early_rejections_not_stored" :- all_fields (fun name _ =>
        is_true (item probes name @ "second" ? "cache_control_no_store")) expected_statuses]))
    (stop_wait w proxy).

Definition run_host_guard_probe : net pyval :=
  perform proxy_port <- free_port w in
  let metrics_host := u "127.0.0.1:" ++ dec_Z proxy_port in
  let filters_path := under tmp_path (u "host-guard-filters.json") in
  let events_path := under tmp_path (u "host-guard-events.jsonl") in
  perform _ <- write_text w filters_path no_filters in
  let cfg := VDict [
      (u "http", VDict [
        (u "listen", VStr (u "127.0.0.1:" ++ dec_Z proxy_port));
        (u "upstream", VStr (u "http://127.0.0.1:" ++ dec_Z upstream_port));
        (u "preserve_host", VBool true);
        (u "admin_token", VStr (u "host-guard-token"));
        (u "max_host_bytes", VInt 32);
        (u "allowed_hosts", VList [VStr (u "good.local"); VStr (u "api.good.local:8080"); VStr metrics_host]);
        (u "limits", VDict [
          (u "per_ip_rps", VInt 1000000);
          (u "per_ip_burst", VInt 1000000);
          (u "global_rps", VInt 1000000);
          (u "global_burst", VInt 1000000);
          (u "max_in_flight_requests", VInt 128);
          (u "max_in_flight_requests_per_ip", VInt 128);
          (u "max_tracked_ips", VInt 1024)])]);
      (u "tcp", VList []);
      (u "filters", VDict [
        (u "runtime_file", VStr filters_path);
        (u "reload_seconds", VInt 1);
        (u "static_rules", VList [])]);
      (u "adaptive", VDict [
        (u "enabled", VBool true);
        (u "signature_threshold_per_second", VInt 1000000);
        (u "activation_ttl_seconds", VInt 10);
        (u "event_log", VStr events_path);
        (u "event_cooldown_seconds", VInt 1)])] in
  let config_path := under tmp_path (u "host-guard-config.json") in
  perform _ <- write_text w config_path (dumps default_style cfg) in
  perform proxy <- start_proxy w binary config_path in
  finally (
    perform _ <- wait_http w fuel proxy_port in
    perform metrics_before <- fetch_metrics w proxy_port (u "host-guard-token") [] in
    perform probes <- record_calls [
        (u "allowed_host", send_raw_host_request w fuel proxy_port [u "good.local"] (u "/"));
        (u "allowed_host_port", send_raw_host_request w fuel proxy_port [u "api.good.local:8080"] (u "/"));
        (u "unlisted_port_host", send_raw_host_request w fuel proxy_port [u "good.local:8080"] (u "/"));
        (u "missing_host", send_raw_host_request w fuel proxy_port [] (u "/"));
        (u "duplicate_host", send_raw_host_request w fuel proxy_port [u "good.local"; u "evil.local"] (u "/"));
        (u "invalid_host", send_raw_host_request w fuel proxy_port [u "http://evil.local"] (u "/"));
        (u "long_host", send_raw_host_request w fuel proxy_port [replicate 40 97%N ++ u ".local"] (u "/"));
        (u "disallowed_host", send_raw_host_request w fuel proxy_port [u "evil.local"] (u "/"));
        (u "absolute_form_allowed_authority", send_raw_host_request w fuel proxy_port [u "evil.local"] (u "http://good.local/"));
        (u "absolute_form_disallowed_authority", send_raw_host_request w fuel proxy_port [u "good.local"] (u "http://evil.local/"));
        (u "absolute_form_unlisted_port_authority", send_raw_host_request w fuel proxy_port [u "good.local"] (u "http://good.local:8080/"));
        (u "absolute_form_unsupported_scheme", send_raw_host_request w fuel proxy_port [u "good.local"] (u "ftp://good.local/"))] in
    let probes := VDict probes in
    perform metrics_after <- fetch_metrics w proxy_port (u "host-guard-token") [] in
    eval (record [
      "configured" :- record ["max_host_bytes" :- #32; "allowed_hosts" :- VList [$"good.local"; $"api.good.local:8080"]];
      "probes" :- probes;
      "metrics_delta" :- record [
        "altura_http_host_rejected" :- delta metrics_after metrics_before (u "altura_http_host_rejected")];
      "host_rejections_not_stored" :- all_named (fun name => is_true (item probes name ? "cache_control_no_store"))
        [u "missing_host"; u "duplicate_host"; u "invalid_host"; u "long_host"; u "disallowed_host"; u "unlisted_port_host"; u "absolute_form_disallowed_authority"; u "absolute_form_unlisted_port_authority"; u "absolute_form_unsupported_scheme"];
      "bare_host_does_not_allow_unlisted_port" :- probes @ "unlisted_port_host" ? "status" == #400;
      "absolute_form_bare_host_does_not_allow_unlisted_port" :- probes @ "absolute_form_unlisted_port_authority" ? "status" == #400;
      "absolute_form_unsupported_scheme_rejected" :- probes @ "absolute_form_unsupported_scheme" ? "status" == #400]))
    (stop_wait w proxy).

Definition run_framing_guard_probe : net pyval :=
  perform proxy_port <- free_port w in
  let filters_path := under tmp_path (u "framing-guard-filters.json") in
  let events_path := under tmp_path (u "framing-guard-events.jsonl") in
  perform _ <- write_text w filters_path no_filters in
  let cfg := VDict [
      (u "http", VDict [
        (u "listen", VStr (u "127.0.0.1:" ++ dec_Z proxy_port));
        (u "upstream", VStr (u "http://127.0.0.1:" ++ dec_Z upstream_port));
        (u "preserve_host", VBool true);
        (u "admin_token", VStr (u "framing-guard-token"));
        (u "downstream_keep_alive", VBool true);
        (u "limits", VDict [
          (u "per_ip_rps", VInt 1000000);
          (u "per_ip_burst", VInt 1000000);
          (u "global_rps", VInt 1000000);
          (u "global_burst", VInt 1000000);
          (u "max_in_flight_requests", VInt 128);
          (u "max_in_flight_requests_per_ip", VInt 128);
          (u "max_tracked_ips", VInt 1024)])]);
      (u "tcp", VList []);
      (u "filters", VDict [
        (u "runtime_file", VStr filters_path);
        (u "reload_seconds", VInt 1);
        (u "static_rules", VList [])]);
      (u "adaptive", VDict [
        (u "enabled", VBool true);
        (u "signature_threshold_per_second", VInt 1000000);
        (u "activation_ttl_seconds", VInt 10);
        (u "event_log", VStr events_path);
        (u "event_cooldown_seconds", VInt 1)])] in
  let config_path := under tmp_path (u "framing-guard-config.json") in
  perform _ <- write_text w config_path (dumps default_style cfg) in
  perform proxy <- start_proxy w binary config_path in
  finally (
    perform _ <- wait_http w fuel proxy_port in
    perform metrics_before <- fetch_metrics w proxy_port (u "framing-guard-token") [] in
    perform probes <- record_calls [
        (u "valid_content_length", send_raw_framing_request w fuel proxy_port [u "Content-Length: 0"] []);
        (u "default_chunked_rejected", send_raw_framing_request w fuel proxy_port [u "Transfer-Encoding: chunked"] (message [u "0"]));
        (u "duplicate_identical_content_length", send_raw_framing_request w fuel proxy_port [u "Content-Length: 0"; u "Content-Length: 0"] []);
        (u "conflicting_content_length", send_raw_framing_request w fuel proxy_port [u "Content-Length: 0"; u "Content-Length: 1"] []);
        (u "comma_content_length", send_raw_framing_request w fuel proxy_port [u "Content-Length: 0, 0"] []);
        (u "invalid_content_length", send_raw_framing_request w fuel proxy_port [u "Content-Length: nope"] []);
        (u "te_and_content_length", send_raw_framing_request w fuel proxy_port [u "Transfer-Encoding: chunked"; u "Content-Length: 0"] (message [u "0"]));
        (u "duplicate_transfer_encoding", send_raw_framing_request w fuel proxy_port [u "Transfer-Encoding: chunked"; u "Transfer-Encoding: chunked"] (message [u "0"]));
        (u "unsupported_transfer_encoding", send_raw_framing_request w fuel proxy_port [u "Transfer-Encoding: gzip"] []);
        (u "transfer_encoding_comma_spray", send_raw_framing_request w fuel proxy_port [u "Transfer-Encoding: " ++ join (u ", ") (replicate 64 (u "gzip"))] []);
        (u "transfer_encoding_empty_comma_spray", send_raw_framing_request w fuel proxy_port [u "Transfer-Encoding: " ++ join (u ", ") (replicate 64 ([]))] []);
        (u "keepalive_followup_chunked_rejected", send_keepalive_followup_framing_request w fuel proxy_port [u "Transfer-Encoding: chunked"] (message [u "0"]))] in
    let probes := VDict probes in
    perform metrics_after <- fetch_metrics w proxy_port (u "framing-guard-token") [] in
    perform keepalive_followup <- eval (probes @ "keepalive_followup_chunked_rejected") in
    eval (record [
      "probes" :- probes;
      "metrics_delta" :- record [
        "altura_http_framing_rejected" :- delta metrics_after metrics_before (u "altura_http_framing_rejected")];
      "generated_framing_rejection_not_stored" :- is_true ((get_or keepalive_followup (u "second") (VDict [])) ? "cache_control_no_store");
      "generated_framing_rejection_closes_connection" :- is_true ((get_or keepalive_followup (u "second") (VDict [])) ? "connection_close");
      "transfer_encoding_comma_spray_rejected" :- probes @ "transfer_encoding_comma_spray" ? "status" == #400;
      "transfer_encoding_empty_comma_spray_rejected" :- probes @ "transfer_encoding_empty_comma_spray" ? "status" == #400]))
    (stop_wait w proxy).

Definition run_initial_framing_precheck_response_probe : net pyval :=
  perform proxy_port <- free_port w in
  let filters_path := under tmp_path (u "initial-framing-precheck-response-filters.json") in
  let events_path := under tmp_path (u "initial-framing-precheck-response-events.jsonl") in
  perform _ <- write_text w filters_path no_filters in
  let cfg := VDict [
      (u "http", VDict [
        (u "listen", VStr (u "127.0.0.1:" ++ dec_Z proxy_port));
        (u "upstream", VStr (u "http://127.0.0.1:" ++ dec_Z upstream_port));
        (u "preserve_host", VBool true);
        (u "admin_token", VStr (u "initial-framing-precheck-response-token"));
        (u "max_header_bytes", VInt 8192);
        (u "limits", VDict [
          (u "per_ip_rps", VInt 1000000);
          (u "per_ip_burst", VInt 1000000);
          (u "global_rps", VInt 1000000);
          (u "global_burst", VInt 1000000);
          (u "max_connections", VInt 128);
          (u "max_connections_per_ip", VInt 128);
          (u "max_in_flight_requests", VInt 128);
          (u "max_in_flight_requests_per_ip", VInt 128);
          (u "max_tracked_ips", VInt 1024)])]);
      (u "tcp", VList []);
      (u "filters", VDict [
        (u "runtime_file", VStr filters_path);
        (u "reload_seconds", VInt 1);
        (u "static_rules", VList [])]);
      (u "adaptive", VDict [
        (u "enabled", VBool true);
        (u "signature_threshold_per_second", VInt 1000000);
        (u "activation_ttl_seconds", VInt 10);
        (u "event_log", VStr events_path);
        (u "event_cooldown_seconds", VInt 1)])] in
  let config_path := under tmp_path (u "initial-framing-precheck-response-config.json") in
  perform _ <- write_text w config_path (dumps default_style cfg) in
  perform proxy <- start_proxy w binary config_path in
  finally (
    perform _ <- wait_tcp_port w fuel proxy_port in
    perform metrics_before <- fetch_metrics w proxy_port (u "initial-framing-precheck-response-token") [] in
    perform response <- send_raw_initial_framing_precheck_rejection w proxy_port in
    perform header_too_large_response <- send_raw_initial_header_too_large w proxy_port in
    perform late_terminator_response <- send_raw_initial_header_late_terminator_over_cap w proxy_port in
    perform metrics_after <- fetch_metrics w proxy_port (u "initial-framing-precheck-response-token") [] in
    perform framing_rejected_delta <- eval (delta metrics_after metrics_before (u "altura_http_framing_rejected")) in
    perform initial_header_too_large_delta <- eval (delta metrics_after metrics_before (u "altura_http_initial_header_too_large")) in
    eval (record [
      "response" :- response;
      "header_too_large_response" :- header_too_large_response;
      "late_terminator_response" :- late_terminator_response;
      "http_framing_rejected_delta" :- framing_rejected_delta;
      "http_initial_header_too_large_delta" :- initial_header_too_large_delta;
      "raw_initial_400_not_stored" :- is_true (response ? "cache_control_no_store");
      "raw_initial_400_closes_connection" :- is_true (response ? "connection_close");
      "raw_initial_431_not_stored" :- is_true (header_too_large_response ? "cache_control_no_store");
      "raw_initial_431_closes_connection" :- is_true (header_too_large_response ? "connection_close");
      "raw_initial_late_terminator_431_not_stored" :- is_true (late_terminator_response ? "cache_control_no_store");
      "raw_initial_late_terminator_431_closes_connection" :- is_true (late_terminator_response ? "connection_close");
      "initial_framing_precheck_response_observed" :- response ? "status" == #400 AND is_true (response ? "cache_control_no_store") AND
        is_true (response ? "connection_close") AND framing_rejected_delta >= #1;
      "initial_header_too_large_response_observed" :- header_too_large_response ? "status" == #431 AND is_true (header_too_large_response ? "cache_control_no_store") AND
        is_true (header_too_large_response ? "connection_close") AND initial_header_too_large_delta >= #1;
      "initial_header_late_terminator_over_cap_observed" :- late_terminator_response ? "status" == #431 AND is_true (late_terminator_response ? "cache_control_no_store") AND
        is_true (late_terminator_response ? "connection_close") AND initial_header_too_large_delta >= #2]))
    (stop_communicate w proxy).

Definition run_chunked_request_body_opt_in_probe : net pyval :=
  perform proxy_port <- free_port w in
  let filters_path := under tmp_path (u "chunked-request-opt-in-filters.json") in
  let events_path := under tmp_path (u "chunked-request-opt-in-events.jsonl") in
  perform _ <- write_text w filters_path no_filters in
  let cfg := VDict [
      (u "http", VDict [
        (u "listen", VStr (u "127.0.0.1:" ++ dec_Z proxy_port));
        (u "upstream", VStr (u "http://127.0.0.1:" ++ dec_Z upstream_port));
        (u "preserve_host", VBool true);
        (u "admin_token", VStr (u "chunked-request-opt-in-token"));
        (u "allow_chunked_request_bodies", VBool true);
        (u "limits", VDict [
          (u "per_ip_rps", VInt 1000000);
          (u "per_ip_burst", VInt 1000000);
          (u "global_rps", VInt 1000000);
          (u "global_burst", VInt 1000000);
          (u "max_in_flight_requests", VInt 128);
          (u "max_in_flight_requests_per_ip", VInt 128);
          (u "max_tracked_ips", VInt 1024)])]);
      (u "tcp", VList []);
      (u "filters", VDict [
        (u "runtime_file", VStr filters_path);
        (u "reload_seconds", VInt 1);
        (u "static_rules", VList [])]);
      (u "adaptive", VDict [
        (u "enabled", VBool true);
        (u "signature_threshold_per_second", VInt 1000000);
        (u "activation_ttl_seconds", VInt 10);
        (u "event_log", VStr events_path);
        (u "event_cooldown_seconds", VInt 1)])] in
  let config_path := under tmp_path (u "chunked-request-opt-in-config.json") in
  perform _ <- write_text w config_path (dumps default_style cfg) in
  perform proxy <- start_proxy w binary config_path in
  finally (
    perform _ <- wait_http w fuel proxy_port in
    perform metrics_before <- fetch_metrics w proxy_port (u "chunked-request-opt-in-token") [] in
    perform chunked <- send_raw_framing_request w fuel proxy_port [u "Transfer-Encoding: chunked"] (message [u "0"]) in
    perform metrics_after <- fetch_metrics w proxy_port (u "chunked-request-opt-in-token") [] in
    eval (record [
      "configured_allow_chunked_request_bodies" :- VBool true;
      "chunked_request" :- chunked;
      "http_framing_rejected_delta" :- delta metrics_after metrics_before (u "altura_http_framing_rejected");
      "chunked_request_allowed" :- chunked @ "status" == #200]))
    (stop_wait w proxy).

Definition run_header_count_probe : net pyval :=
  perform proxy_port <- free_port w in
  let filters_path := under tmp_path (u "header-count-filters.json") in
  let events_path := under tmp_path (u "header-count-events.jsonl") in
  perform _ <- write_text w filters_path no_filters in
  let cfg := VDict [
      (u "http", VDict [
        (u "listen", VStr (u "127.0.0.1:" ++ dec_Z proxy_port));
        (u "upstream", VStr (u "http://127.0.0.1:" ++ dec_Z upstream_port));
        (u "preserve_host", VBool true);
        (u "admin_token", VStr (u "header-count-token"));
        (u "max_headers", VInt 8);
        (u "limits", VDict [
          (u "per_ip_rps", VInt 1000000);
          (u "per_ip_burst", VInt 1000000);
          (u "global_rps", VInt 1000000);
          (u "global_burst", VInt 1000000);
          (u "max_in_flight_requests", VInt 128);
          (u "max_in_flight_requests_per_ip", VInt 128);
          (u "max_tracked_ips", VInt 1024)])]);
      (u "tcp", VList []);
      (u "filters", VDict [
        (u "runtime_file", VStr filters_path);
        (u "reload_seconds", VInt 1);
        (u "static_rules", VList [])]);
      (u "adaptive", VDict [
        (u "enabled", VBool true);
        (u "signature_threshold_per_second", VInt 1000000);
        (u "activation_ttl_seconds", VInt 10);
        (u "event_log", VStr events_path);
        (u "event_cooldown_seconds", VInt 1)])] in
  let config_path := under tmp_path (u "header-count-config.json") in
  perform _ <- write_text w config_path (dumps default_style cfg) in
  perform proxy <- start_proxy w binary config_path in
  finally (
    perform _ <- wait_tcp_port w fuel proxy_port in
    perform metrics_before <- fetch_metrics w proxy_port (u "header-count-token") [] in
    perform response <- send_many_headers w fuel proxy_port 24 in
    perform metrics_after <- fetch_metrics w proxy_port (u "header-count-token") [] in
    perform initial_headers_too_many_delta <- eval (delta metrics_after metrics_before (u "altura_http_initial_headers_too_many")) in
    eval (merged response (record [
      "http_initial_headers_too_many_delta" :- initial_headers_too_many_delta;
      "raw_initial_431_not_stored" :- response ? "cache_control" == $"no-store";
      "raw_initial_431_closes_connection" :- response ? "connection" == $"close";
      "header_count_guard_observed" :- response ? "status" == #431 AND response ? "cache_control" == $"no-store" AND response ? "connection" == $"close" AND
        initial_headers_too_many_delta >= #1])))
    (stop_wait w proxy).
End probes.
