(* ===== verification/TrafficRate.v ===== *)
(** * TrafficRate: probes of forwarded identities and rate limits

    [tools/run_local_bench.py]: each probe writes a configuration, starts the proxy on it,
    sends traffic, and reports what it saw together with its verdicts; whatever happens, the
    proxy is stopped. *)

From S2P Require Import Prelude Unicode PyStr PyFloat PyVal PyDyn Json.
From S2P Require Import BenchNet BenchHttp BenchOrigin BenchSend BenchConns TrafficBase.

Open Scope dyn_scope.

Section probes.
Context (w : world) (fuel : nat) (binary : pystr) (upstream_port tcp_upstream_port : Z) (tmp_path : pystr).

Definition forwarded_headers_case (name : pystr) (trusted_proxy : bool) (client_ip_header : pystr) : net pyval :=
  perform proxy_port <- free_port w in
  let filters_path := under tmp_path (name ++ u "-forwarded-filters.json") in
  let events_path := under tmp_path (name ++ u "-forwarded-events.jsonl") in
  perform _ <- write_text w filters_path no_filters in
  let http_cfg := [
      (u "listen", VStr (u "127.0.0.1:" ++ dec_Z proxy_port));
      (u "upstream", VStr (u "http://127.0.0.1:" ++ dec_Z upstream_port));
      (u "preserve_host", VBool true);
      (u "admin_token", VStr (name ++ u "-forwarded-token"));
      (u "limits", VDict [
        (u "per_ip_rps", VInt 1000000);
        (u "per_ip_burst", VInt 1000000);
        (u "global_rps", VInt 1000000);
        (u "global_burst", VInt 1000000);
        (u "max_in_flight_requests", VInt 128);
        (u "max_in_flight_requests_per_ip", VInt 128);
        (u "max_tracked_ips", VInt 1024)])] in
  let http_cfg := if trusted_proxy
    then http_cfg ++ [(u "client_ip", VDict [(u "header", VStr client_ip_header); (u "trusted_proxies", VList [VStr (u "127.0.0.1/32")])])]
    else http_cfg in
  let cfg := VDict [
      (u "http", VDict http_cfg);
      (u "tcp", VList []);
      (u "filters", VDict [
        (u "runtime_file", VStr filters_path);
        (u "reload_seconds", VInt 1);
        (u "max_runtime_file_bytes", VInt ((1024 * 1024)%Z));
        (u "max_runtime_filters", VInt 1024);
        (u "static_rules", VList [])]);
      (u "adaptive", VDict [
        (u "enabled", VBool true);
        (u "signature_threshold_per_second", VInt 1000000);
        (u "activation_ttl_seconds", VInt 10);
        (u "event_log", VStr events_path);
        (u "event_cooldown_seconds", VInt 1)])] in
  let config_path := under tmp_path (name ++ u "-forwarded-config.json") in
  perform _ <- write_text w config_path (dumps default_style cfg) in
  perform proxy <- start_proxy w binary config_path in
  finally (
    perform _ <- wait_http w fuel proxy_port in
    perform metrics_before <- fetch_metrics w proxy_port (name ++ u "-forwarded-token") [] in
    perform probe <- send_raw_forwarded_headers_request w fuel proxy_port in
    let custom := trusted_proxy && negb (str_eqb client_ip_header (u "x-forwarded-for")) in
    perform duplicate_custom_identity <-
      (if custom then send_raw_custom_identity_header_request w fuel proxy_port [u "203.0.113.203"; u "203.0.113.204"] else cret VNone) in
    perform comma_custom_identity <-
      (if custom then send_raw_custom_identity_header_request w fuel proxy_port [u "203.0.113.203, 203.0.113.204"] else cret VNone) in
    perform metrics_after <- fetch_metrics w proxy_port (name ++ u "-forwarded-token") [] in
    perform observed <- eval (probe ? "observed" OR VDict []) in
    let '(expected_xff, expected_real_ip) :=
      if trusted_proxy && str_eqb client_ip_header (u "x-forwarded-for")
      then (u "203.0.113.200, 198.51.100.77, 127.0.0.1", u "198.51.100.77")
      else if trusted_proxy then (u "203.0.113.203, 127.0.0.1", u "203.0.113.203")
      else (u "127.0.0.1", u "127.0.0.1") in
    eval (record [
      "trusted_proxy" :- VBool trusted_proxy;
      "client_ip_header" :- VStr client_ip_header;
      "probe" :- probe;
      "canonical_headers_valid" :- is_none (observed ? "forwarded") AND observed ? "x_forwarded_for" == VStr expected_xff AND
        observed ? "x_forwarded_host" == $"good.local" AND observed ? "x_forwarded_proto" == $"http" AND
        observed ? "x_real_ip" == VStr expected_real_ip;
      "duplicate_xff_chain_preserved" :- VStr client_ip_header == $"x-forwarded-for" AND VBool trusted_proxy AND
        observed ? "x_forwarded_for" == VStr expected_xff AND observed ? "x_real_ip" == VStr expected_real_ip;
      "custom_identity_xff_synthesized" :- VStr client_ip_header != $"x-forwarded-for" AND observed ? "x_forwarded_for" == VStr expected_xff AND
        observed ? "x_real_ip" == VStr expected_real_ip;
      "duplicate_custom_identity_status" :- (duplicate_custom_identity OR VDict []) ? "status";
      "comma_custom_identity_status" :- (comma_custom_identity OR VDict []) ? "status";
      "duplicate_custom_identity_rejected" :- py_not (is_none duplicate_custom_identity) AND duplicate_custom_identity ? "status" == #400;
      "comma_custom_identity_rejected" :- py_not (is_none comma_custom_identity) AND comma_custom_identity ? "status" == #400;
      "custom_identity_rejected_delta" :- delta metrics_after metrics_before (u "altura_http_forwarded_rejected");
      "custom_identity_rejected_metric_matches" :- VStr client_ip_header != $"x-forwarded-for" AND
        delta metrics_after metrics_before (u "altura_http_forwarded_rejected") == #2;
      "spoof_headers_stripped" :- spoofed_forwarded_headers_absent observed;
      "hop_by_hop_headers_stripped" :- hop_by_hop_headers_absent observed;
      "metrics_delta" :- record [
        "altura_http_forwarded_sanitized" :- delta metrics_after metrics_before (u "altura_http_forwarded_sanitized")]]))
    (stop_wait w proxy).

Definition run_forwarded_headers_probe : net pyval :=
  perform cases <- record_calls [
    (u "untrusted_direct", forwarded_headers_case (u "untrusted") false (u "x-forwarded-for"));
    (u "trusted_proxy", forwarded_headers_case (u "trusted") true (u "x-forwarded-for"));
    (u "custom_identity_header", forwarded_headers_case (u "custom-identity") true (u "cf-connecting-ip"))] in
  cret (VDict cases).

Definition run_forwarded_header_bounds_probe : net pyval :=
  perform proxy_port <- free_port w in
  let filters_path := under tmp_path (u "forwarded-header-bounds-filters.json") in
  let events_path := under tmp_path (u "forwarded-header-bounds-events.jsonl") in
  perform _ <- write_text w filters_path no_filters in
  let max_forwarded_for_bytes := 64%Z in
  let max_forwarded_for_hops := 2%Z in
  let cfg := VDict [
      (u "http", VDict [
        (u "listen", VStr (u "127.0.0.1:" ++ dec_Z proxy_port));
        (u "upstream", VStr (u "http://127.0.0.1:" ++ dec_Z upstream_port));
        (u "preserve_host", VBool true);
        (u "admin_token", VStr (u "forwarded-header-bounds-token"));
        (u "client_ip", VDict [
          (u "header", VStr (u "x-forwarded-for"));
          (u "trusted_proxies", VList [VStr (u "127.0.0.1/32")]);
          (u "max_forwarded_for_bytes", VInt max_forwarded_for_bytes);
          (u "max_forwarded_for_hops", VInt max_forwarded_for_hops)]);
        (u "limits", VDict [
          (u "per_ip_rps", VInt 1000000);
          (u "per_ip_burst", VInt 1000000);
          (u "global_rps", VInt 1000000);
          (u "global_burst", VInt 1000000);
          (u "max_connections", VInt 128);
          (u "max_connections_per_ip", VInt 128);
          (u "max_in_flight_requests", VInt 128);
          (u "max_in_flight_requests_per_ip", VInt 128);
          (u "max_tracked_ips", VInt 1024)])]);
      (u "tcp", VList []);
      (u "filters", VDict [
        (u "runtime_file", VStr filters_path);
        (u "reload_seconds", VInt 1);
        (u "max_runtime_file_bytes", VInt ((1024 * 1024)%Z));
        (u "max_runtime_filters", VInt 1024);
        (u "static_rules", VList [])]);
      (u "adaptive", VDict [
        (u "enabled", VBool true);
        (u "signature_threshold_per_second", VInt 1000000);
        (u "activation_ttl_seconds", VInt 10);
        (u "event_log", VStr events_path);
        (u "event_cooldown_seconds", VInt 1)])] in
  let config_path := under tmp_path (u "forwarded-header-bounds-config.json") in
  perform _ <- write_text w config_path (dumps default_style cfg) in
  perform proxy <- start_proxy w binary config_path in
  finally (
    perform _ <- wait_http w fuel proxy_port in
    perform metrics_before <- fetch_metrics w proxy_port (u "forwarded-header-bounds-token") [] in
    perform valid_response <- get_status_and_headers w proxy_port (u "GET") (u "/") [] (sec 2 1)
        [(u "X-Forwarded-For", u "203.0.113.10")] in
    perform too_long_response <- get_status_and_headers w proxy_port (u "GET") (u "/") [] (sec 2 1)
        [(u "X-Forwarded-For", u "203.0.113.10, " ++ join (u ", ") ((fun idx => u "198.51.100." ++ dec_nat idx) <$> seq 1 7))] in
    perform too_many_hops_response <- get_status_and_headers w proxy_port (u "GET") (u "/") [] (sec 2 1)
        [(u "X-Forwarded-For", u "203.0.113.10, 198.51.100.20, 192.0.2.30")] in
    perform malformed_response <- get_status_and_headers w proxy_port (u "GET") (u "/") [] (sec 2 1)
        [(u "X-Forwarded-For", u "not-an-ip")] in
    perform metrics_after <- fetch_metrics w proxy_port (u "forwarded-header-bounds-token") [] in
    perform rejected_delta <- eval (delta metrics_after metrics_before (u "altura_http_forwarded_rejected")) in
    eval (record [
      "configured_max_forwarded_for_bytes" :- VInt max_forwarded_for_bytes;
      "configured_max_forwarded_for_hops" :- VInt max_forwarded_for_hops;
      "valid_response" :- valid_response;
      "too_long_response" :- too_long_response;
      "too_many_hops_response" :- too_many_hops_response;
      "malformed_response" :- malformed_response;
      "rejected_delta" :- rejected_delta;
      "valid_chain_allowed" :- valid_response @ "status" == #204;
      "oversized_chain_rejected" :- too_long_response @ "status" == #400;
      "too_many_hops_rejected" :- too_many_hops_response @ "status" == #400;
      "malformed_chain_rejected" :- malformed_response @ "status" == #400;
      "forwarded_rejections_not_stored" :- all_of (fun response => response @ "headers" ? "cache-control" == $"no-store") (VList [too_long_response; too_many_hops_response; malformed_response]);
      "rejection_metric_matches" :- rejected_delta == #3]))
    (stop_wait w proxy).

Definition run_trusted_proxy_aggregate_rate_probe : net pyval :=
  perform proxy_port <- free_port w in
  let filters_path := under tmp_path (u "trusted-proxy-aggregate-rate-filters.json") in
  let events_path := under tmp_path (u "trusted-proxy-aggregate-rate-events.jsonl") in
  perform _ <- write_text w filters_path no_filters in
  let trusted_proxy_rps := sec 1 1000000 in
  let trusted_proxy_burst := 2%Z in
  let cfg := VDict [
      (u "http", VDict [
        (u "listen", VStr (u "127.0.0.1:" ++ dec_Z proxy_port));
        (u "upstream", VStr (u "http://127.0.0.1:" ++ dec_Z upstream_port));
        (u "preserve_host", VBool true);
        (u "admin_token", VStr (u "trusted-proxy-aggregate-rate-token"));
        (u "client_ip", VDict [
          (u "header", VStr (u "x-forwarded-for"));
          (u "trusted_proxies", VList [VStr (u "127.0.0.1/32")])]);
        (u "limits", VDict [
          (u "per_ip_rps", VInt 1000000);
          (u "per_ip_burst", VInt 1000000);
          (u "global_rps", VInt 1000000);
          (u "global_burst", VInt 1000000);
          (u "trusted_proxy_rps", VFloat trusted_proxy_rps);
          (u "trusted_proxy_burst", VInt trusted_proxy_burst);
          (u "max_connections", VInt 128);
          (u "max_connections_per_ip", VInt 128);
          (u "max_in_flight_requests", VInt 128);
          (u "max_in_flight_requests_per_ip", VInt 128);
          (u "max_tracked_ips", VInt 1024)])]);
      (u "tcp", VList []);
      (u "filters", VDict [
        (u "runtime_file", VStr filters_path);
        (u "reload_seconds", VInt 1);
        (u "max_runtime_file_bytes", VInt ((1024 * 1024)%Z));
        (u "max_runtime_filters", VInt 1024);
        (u "static_rules", VList [])]);
      (u "adaptive", VDict [
        (u "enabled", VBool true);
        (u "signature_threshold_per_second", VInt 1000000);
        (u "activation_ttl_seconds", VInt 10);
        (u "event_log", VStr events_path);
        (u "event_cooldown_seconds", VInt 1)])] in
  let config_path := under tmp_path (u "trusted-proxy-aggregate-rate-config.json") in
  perform _ <- write_text w config_path (dumps default_style cfg) in
  perform proxy <- start_proxy w binary config_path in
  finally (
    perform _ <- wait_http w fuel proxy_port in
    perform metrics_before <- fetch_metrics w proxy_port (u "trusted-proxy-aggregate-rate-token") [] in
    perform responses <- for_each
        (fun idx => get_status_and_headers w proxy_port (u "GET") (u "/") [] (sec 2 1) [(u "X-Forwarded-For", u "198.51.100." ++ dec_nat idx)])
        (seq 10 4) in
    let responses := VList responses in
    perform statuses <- eval (comp (fun response => response @ "status") responses) in
    perform retry_after_headers <- eval (response_headers_for_status responses (u "retry-after") 429) in
    perform cache_control_headers <- eval (response_headers_for_status responses (u "cache-control") 429) in
    perform metrics_after <- fetch_metrics w proxy_port (u "trusted-proxy-aggregate-rate-token") [] in
    perform trusted_proxy_delta <- eval (delta metrics_after metrics_before (u "altura_http_trusted_proxy_rate_limited")) in
    perform rate_limited_delta <- eval (delta metrics_after metrics_before (u "altura_http_rate_limited")) in
    eval (record [
      "configured_trusted_proxy_rps" :- VFloat trusted_proxy_rps;
      "configured_trusted_proxy_burst" :- VInt trusted_proxy_burst;
      "statuses" :- statuses;
      "retry_after_headers" :- retry_after_headers;
      "cache_control_headers" :- cache_control_headers;
      "trusted_proxy_rate_limited_delta" :- trusted_proxy_delta;
      "http_rate_limited_delta" :- rate_limited_delta;
      "first_burst_allowed" :- slice_to statuses 2 == VList [ #204; #204];
      "rotating_xff_aggregate_limited" :- slice_from statuses 2 == VList [ #429; #429];
      "retry_after_header_matches" :- retry_after_headers == VList [$"1"; $"1"];
      "cache_control_header_matches" :- cache_control_headers == VList [$"no-store"; $"no-store"];
      "trusted_proxy_metric_matches" :- trusted_proxy_delta == #2;
      "rate_limited_metric_includes_proxy_limit" :- rate_limited_delta == #2]))
    (stop_wait w proxy).

Definition run_trusted_proxy_in_flight_probe : net pyval :=
  perform proxy_port <- free_port w in
  let filters_path := under tmp_path (u "trusted-proxy-in-flight-filters.json") in
  let events_path := under tmp_path (u "trusted-proxy-in-flight-events.jsonl") in
  perform _ <- write_text w filters_path no_filters in
  let trusted_proxy_max_in_flight := 1%Z in
  let cfg := VDict [
      (u "http", VDict [
        (u "listen", VStr (u "127.0.0.1:" ++ dec_Z proxy_port));
        (u "upstream", VStr (u "http://127.0.0.1:" ++ dec_Z upstream_port));
        (u "preserve_host", VBool true);
        (u "admin_token", VStr (u "trusted-proxy-in-flight-token"));
        (u "client_ip", VDict [
          (u "header", VStr (u "x-forwarded-for"));
          (u "trusted_proxies", VList [VStr (u "127.0.0.1/32")])]);
        (u "limits", VDict [
          (u "per_ip_rps", VInt 1000000);
          (u "per_ip_burst", VInt 1000000);
          (u "global_rps", VInt 1000000);
          (u "global_burst", VInt 1000000);
          (u "trusted_proxy_rps", VInt 1000000);
          (u "trusted_proxy_burst", VInt 1000000);
          (u "trusted_proxy_max_in_flight_requests", VInt trusted_proxy_max_in_flight);
          (u "max_connections", VInt 128);
          (u "max_connections_per_ip", VInt 128);
          (u "max_in_flight_requests", VInt 128);
          (u "max_in_flight_requests_per_ip", VInt 128);
          (u "max_tracked_ips", VInt 1024)])]);
      (u "tcp", VList []);
      (u "filters", VDict [
        (u "runtime_file", VStr filters_path);
        (u "reload_seconds", VInt 1);
        (u "max_runtime_file_bytes", VInt ((1024 * 1024)%Z));
        (u "max_runtime_filters", VInt 1024);
        (u "static_rules", VList [])]);
      (u "adaptive", VDict [
        (u "enabled", VBool true);
        (u "signature_threshold_per_second", VInt 1000000);
        (u "activation_ttl_seconds", VInt 10);
        (u "event_log", VStr events_path);
        (u "event_cooldown_seconds", VInt 1)])] in
  let config_path := under tmp_path (u "trusted-proxy-in-flight-config.json") in
  perform _ <- write_text w config_path (dumps default_style cfg) in
  perform proxy <- start_proxy w binary config_path in
  finally (
    perform _ <- wait_http w fuel proxy_port in
    perform metrics_before <- fetch_metrics w proxy_port (u "trusted-proxy-in-flight-token") [] in
    perform first_thread <- ask w (StartStatus proxy_port (u "GET") (u "/slow") (sec 2 1) [(u "X-Forwarded-For", u "198.51.100.10")]) in
    perform _ <- sleep w (sec 5 100) in
    perform second_response <- get_status_and_headers w proxy_port (u "GET") (u "/slow") [] (sec 2 1)
        [(u "X-Forwarded-For", u "198.51.100.11")] in
    perform _ <- ask w (Join first_thread (sec 3 1)) in
    perform metrics_after <- fetch_metrics w proxy_port (u "trusted-proxy-in-flight-token") [] in
    perform overload_responses <- eval (VList [second_response]) in
    perform retry_after_headers <- eval (response_headers_for_status overload_responses (u "retry-after") 503) in
    perform cache_control_headers <- eval (response_headers_for_status overload_responses (u "cache-control") 503) in
    perform trusted_proxy_delta <- eval (delta metrics_after metrics_before (u "altura_http_trusted_proxy_in_flight_rejected")) in
    perform upstream_delta <- eval (delta metrics_after metrics_before (u "altura_http_upstream_in_flight_rejected")) in
    perform first_status <- ask w (StatusSoFar first_thread) in
    let first_status := int_or_none first_status in
    eval (record [
      "configured_trusted_proxy_max_in_flight_requests" :- VInt trusted_proxy_max_in_flight;
      "first_status" :- first_status;
      "second_status" :- second_response @ "status";
      "retry_after_headers" :- retry_after_headers;
      "cache_control_headers" :- cache_control_headers;
      "trusted_proxy_in_flight_rejected_delta" :- trusted_proxy_delta;
      "http_upstream_in_flight_rejected_delta" :- upstream_delta;
      "rotating_xff_peer_concurrency_limited" :- second_response @ "status" == #503;
      "first_slow_request_completed" :- first_status == #204;
      "retry_after_header_matches" :- retry_after_headers == VList [$"1"];
      "cache_control_header_matches" :- cache_control_headers == VList [$"no-store"];
      "trusted_proxy_metric_matches" :- trusted_proxy_delta == #1;
      "upstream_metric_includes_proxy_limit" :- upstream_delta == #1]))
    (stop_wait w proxy).

Definition run_ip_prefix_aggregation_probe : net pyval :=
  perform proxy_port <- free_port w in
  let filters_path := under tmp_path (u "ip-prefix-aggregation-filters.json") in
  let events_path := under tmp_path (u "ip-prefix-aggregation-events.jsonl") in
  perform _ <- write_text w filters_path no_filters in
  let cfg := VDict [
      (u "http", VDict [
        (u "listen", VStr (u "127.0.0.1:" ++ dec_Z proxy_port));
        (u "upstream", VStr (u "http://127.0.0.1:" ++ dec_Z upstream_port));
        (u "preserve_host", VBool true);
        (u "admin_token", VStr (u "ip-prefix-aggregation-token"));
        (u "client_ip", VDict [
          (u "header", VStr (u "x-forwarded-for"));
          (u "trusted_proxies", VList [VStr (u "127.0.0.1/32")])]);
        (u "limits", VDict [
          (u "per_ip_rps", VFloat (sec 1 1000000));
          (u "per_ip_burst", VInt 1);
          (u "ipv4_prefix_len", VInt 32);
          (u "ipv6_prefix_len", VInt 64);
          (u "global_rps", VInt 1000000);
          (u "global_burst", VInt 1000000);
          (u "trusted_proxy_rps", VInt 1000000);
          (u "trusted_proxy_burst", VInt 1000000);
          (u "signature_rps", VInt 1000000);
          (u "signature_burst", VInt 1000000);
          (u "path_shape_rps", VInt 1000000);
          (u "path_shape_burst", VInt 1000000);
          (u "max_connections", VInt 128);
          (u "max_connections_per_ip", VInt 128);
          (u "max_in_flight_requests", VInt 128);
          (u "max_in_flight_requests_per_ip", VInt 128);
          (u "max_tracked_ips", VInt 1024)])]);
      (u "tcp", VList []);
      (u "filters", VDict [
        (u "runtime_file", VStr filters_path);
        (u "reload_seconds", VInt 1);
        (u "max_runtime_file_bytes", VInt ((1024 * 1024)%Z));
        (u "max_runtime_filters", VInt 1024);
        (u "static_rules", VList [])]);
      (u "adaptive", VDict [
        (u "enabled", VBool true);
        (u "signature_threshold_per_second", VInt 1000000);
        (u "activation_ttl_seconds", VInt 10);
        (u "event_log", VStr events_path);
        (u "event_cooldown_seconds", VInt 1)])] in
  let config_path := under tmp_path (u "ip-prefix-aggregation-config.json") in
  perform _ <- write_text w config_path (dumps default_style cfg) in
  perform proxy <- start_proxy w binary config_path in
  finally (
    perform _ <- wait_http w fuel proxy_port in
    perform metrics_before <- fetch_metrics w proxy_port (u "ip-prefix-aggregation-token")
        [(u "X-Forwarded-For", u "2001:db8:ffff::1")] in
    let cases := [(u "ipv6_first", u "2001:db8:100::1"); (u "ipv6_same_prefix", u "2001:db8:100::2");
                  (u "ipv6_different_prefix", u "2001:db8:101::1"); (u "ipv4_first", u "198.51.100.10"); (u "ipv4_neighbor", u "198.51.100.11")] in
    perform responses <- record_calls ((fun '(name, ip) =>
        (name, get_status_and_headers w proxy_port (u "GET") (u "/") [] (sec 2 1) [(u "X-Forwarded-For", ip)])) <$> cases) in
    let responses := VDict responses in
    perform metrics_after <- fetch_metrics w proxy_port (u "ip-prefix-aggregation-token")
        [(u "X-Forwarded-For", u "2001:db8:fffe::1")] in
    perform rate_limited_delta <- eval (delta metrics_after metrics_before (u "altura_http_rate_limited")) in
    perform statuses <- eval (map_values (fun response => response @ "status") responses) in
    perform retry_after_headers <- eval (response_headers_for_status (dict_values responses) (u "retry-after") 429) in
    perform cache_control_headers <- eval (response_headers_for_status (dict_values responses) (u "cache-control") 429) in
    eval (record [
      "configured_ipv4_prefix_len" :- #32;
      "configured_ipv6_prefix_len" :- #64;
      "statuses" :- statuses;
      "http_rate_limited_delta" :- rate_limited_delta;
      "retry_after_headers" :- retry_after_headers;
      "cache_control_headers" :- cache_control_headers;
      "same_ipv6_prefix_limited" :- statuses @ "ipv6_same_prefix" == #429;
      "different_ipv6_prefix_allowed" :- statuses @ "ipv6_different_prefix" == #204;
      "ipv4_exact_default_allows_neighbor" :- statuses @ "ipv4_first" == #204 AND statuses @ "ipv4_neighbor" == #204;
      "rate_limited_metric_matches" :- rate_limited_delta == #1;
      "retry_after_header_matches" :- retry_after_headers == VList [$"1"];
      "cache_control_header_matches" :- cache_control_headers == VList [$"no-store"]]))
    (stop_wait w proxy).

Definition run_signature_rate_probe : net pyval :=
  perform proxy_port <- free_port w in
  let filters_path := under tmp_path (u "signature-rate-filters.json") in
  let events_path := under tmp_path (u "signature-rate-events.jsonl") in
  perform _ <- write_text w filters_path no_filters in
  let signature_rps := sec 1 1000000 in
  let signature_burst := 2%Z in
  let cfg := VDict [
      (u "http", VDict [
        (u "listen", VStr (u "127.0.0.1:" ++ dec_Z proxy_port));
        (u "upstream", VStr (u "http://127.0.0.1:" ++ dec_Z upstream_port));
        (u "preserve_host", VBool true);
        (u "admin_token", VStr (u "signature-rate-token"));
        (u "limits", VDict [
          (u "per_ip_rps", VInt 1000000);
          (u "per_ip_burst", VInt 1000000);
          (u "global_rps", VInt 1000000);
          (u "global_burst", VInt 1000000);
          (u "signature_rps", VFloat signature_rps);
          (u "signature_burst", VInt signature_burst);
          (u "max_tracked_signatures", VInt 64);
          (u "max_connections", VInt 128);
          (u "max_connections_per_ip", VInt 128);
          (u "max_in_flight_requests", VInt 128);
          (u "max_in_flight_requests_per_ip", VInt 128);
          (u "max_tracked_ips", VInt 1024)])]);
      (u "tcp", VList []);
      (u "filters", VDict [
        (u "runtime_file", VStr filters_path);
        (u "reload_seconds", VInt 1);
        (u "max_runtime_file_bytes", VInt ((1024 * 1024)%Z));
        (u "max_runtime_filters", VInt 1024);
        (u "static_rules", VList [])]);
      (u "adaptive", VDict [
        (u "enabled", VBool true);
        (u "signature_threshold_per_second", VInt 1000000);
        (u "activation_ttl_seconds", VInt 10);
        (u "event_log", VStr events_path);
        (u "event_cooldown_seconds", VInt 1)])] in
  let config_path := under tmp_path (u "signature-rate-config.json") in
  perform _ <- write_text w config_path (dumps default_style cfg) in
  perform proxy <- start_proxy w binary config_path in
  finally (
    perform _ <- wait_http w fuel proxy_port in
    perform metrics_before <- fetch_metrics w proxy_port (u "signature-rate-token") [] in
    perform hot_responses <- for_each (fun _ => get_status_and_headers w proxy_port (u "GET") (u "/hot") [] (sec 2 1) [])
        (seq 0 4) in
    let hot_responses := VList hot_responses in
    perform hot_statuses <- eval (comp (fun response => response @ "status") hot_responses) in
    perform retry_after_headers <- eval (response_headers_for_status hot_responses (u "retry-after") 429) in
    perform cache_control_headers <- eval (response_headers_for_status hot_responses (u "cache-control") 429) in
    perform cold_status <- get_status w proxy_port (u "GET") (u "/cold") [] (sec 2 1) [] in
    perform metrics_after <- fetch_metrics w proxy_port (u "signature-rate-token") [] in
    perform signature_delta <- eval (delta metrics_after metrics_before (u "altura_http_signature_rate_limited")) in
    perform rate_limited_delta <- eval (delta metrics_after metrics_before (u "altura_http_rate_limited")) in
    eval (record [
      "configured_signature_rps" :- VFloat signature_rps;
      "configured_signature_burst" :- VInt signature_burst;
      "hot_statuses" :- hot_statuses;
      "cold_status" :- cold_status;
      "retry_after_headers" :- retry_after_headers;
      "cache_control_headers" :- cache_control_headers;
      "signature_rate_limited_delta" :- signature_delta;
      "http_rate_limited_delta" :- rate_limited_delta;
      "hot_signature_limited" :- slice_to hot_statuses 2 == VList [ #204; #204] AND slice_from hot_statuses 2 == VList [ #429; #429];
      "other_signature_allowed" :- cold_status == #204;
      "retry_after_header_matches" :- retry_after_headers == VList [$"1"; $"1"];
      "cache_control_header_matches" :- cache_control_headers == VList [$"no-store"; $"no-store"];
      "signature_metric_matches" :- signature_delta == #2;
      "rate_limited_metric_includes_signature_limit" :- rate_limited_delta == #2]))
    (stop_wait w proxy).

Definition run_path_shape_rate_probe : net pyval :=
  perform proxy_port <- free_port w in
  let filters_path := under tmp_path (u "path-shape-rate-filters.json") in
  let events_path := under tmp_path (u "path-shape-rate-events.jsonl") in
  perform _ <- write_text w filters_path no_filters in
  let path_shape_rps := sec 1 1000000 in
  let path_shape_burst := 2%Z in
  let cfg := VDict [
      (u "http", VDict [
        (u "listen", VStr (u "127.0.0.1:" ++ dec_Z proxy_port));
        (u "upstream", VStr (u "http://127.0.0.1:" ++ dec_Z upstream_port));
        (u "preserve_host", VBool true);
        (u "admin_token", VStr (u "path-shape-rate-token"));
        (u "limits", VDict [
          (u "per_ip_rps", VInt 1000000);
          (u "per_ip_burst", VInt 1000000);
          (u "global_rps", VInt 1000000);
          (u "global_burst", VInt 1000000);
          (u "signature_rps", VInt 1000000);
          (u "signature_burst", VInt 1000000);
          (u "max_tracked_signatures", VInt 4096);
          (u "path_shape_rps", VFloat path_shape_rps);
          (u "path_shape_burst", VInt path_shape_burst);
          (u "max_tracked_path_shapes", VInt 64);
          (u "max_connections", VInt 128);
          (u "max_connections_per_ip", VInt 128);
          (u "max_in_flight_requests", VInt 128);
          (u "max_in_flight_requests_per_ip", VInt 128);
          (u "max_tracked_ips", VInt 1024)])]);
      (u "tcp", VList []);
      (u "filters", VDict [
        (u "runtime_file", VStr filters_path);
        (u "reload_seconds", VInt 1);
        (u "max_runtime_file_bytes", VInt ((1024 * 1024)%Z));
        (u "max_runtime_filters", VInt 1024);
        (u "static_rules", VList [])]);
      (u "adaptive", VDict [
        (u "enabled", VBool true);
        (u "signature_threshold_per_second", VInt 2);
        (u "activation_ttl_seconds", VInt 10);
        (u "event_log", VStr events_path);
        (u "event_log_flush_interval_ms", VInt 1);
        (u "event_cooldown_seconds", VInt 1)])] in
  let config_path := under tmp_path (u "path-shape-rate-config.json") in
  perform _ <- write_text w config_path (dumps default_style cfg) in
  perform proxy <- start_proxy w binary config_path in
  finally (
    perform _ <- wait_http w fuel proxy_port in
    perform metrics_before <- fetch_metrics w proxy_port (u "path-shape-rate-token") [] in
    let hot_paths := [u "/api/abcdefghij/123"; u "/api/klmnopqrst/456"; u "/api/ZYXWVUTSRQ/789"; u "/api/qwertyuiop/321"] in
    perform hot_responses <- for_each (fun path => get_status_and_headers w proxy_port (u "GET") path [] (sec 2 1) [])
        hot_paths in
    let hot_responses := VList hot_responses in
    perform hot_statuses <- eval (comp (fun response => response @ "status") hot_responses) in
    let short_token_paths := [u "/api/ab"; u "/api/cd"; u "/api/ef"; u "/api/gh"] in
    perform short_token_responses <- for_each
        (fun path => get_status_and_headers w proxy_port (u "GET") path [] (sec 2 1) []) short_token_paths in
    let short_token_responses := VList short_token_responses in
    perform short_token_statuses <- eval (comp (fun response => response @ "status") short_token_responses) in
    perform limited_responses <- eval (concat_lists hot_responses short_token_responses) in
    perform retry_after_headers <- eval (response_headers_for_status limited_responses (u "retry-after") 429) in
    perform cache_control_headers <- eval (response_headers_for_status limited_responses (u "cache-control") 429) in
    perform other_shape_status <- get_status w proxy_port (u "GET") (u "/api/catalog/123") [] (sec 2 1) [] in
    perform version_shape_status <- get_status w proxy_port (u "GET") (u "/api/v1/users") [] (sec 2 1) [] in
    perform metrics_after <- fetch_metrics w proxy_port (u "path-shape-rate-token") [] in
    perform events <- wait_for_jsonl_event w fuel events_path (fun event =>
        event ? "reason" == $"path_shape_rate_limited" AND event ? "path_shape" == $"/api/:short-token") (sec 1 1) in
    perform path_shape_event_shapes <- eval (comp_if (fun event => event ? "path_shape") (fun event => event ? "reason" == $"path_shape_rate_limited") events) in
    perform path_shape_delta <- eval (delta metrics_after metrics_before (u "altura_http_path_shape_rate_limited")) in
    perform rate_limited_delta <- eval (delta metrics_after metrics_before (u "altura_http_rate_limited")) in
    eval (record [
      "configured_path_shape_rps" :- VFloat path_shape_rps;
      "configured_path_shape_burst" :- VInt path_shape_burst;
      "hot_paths" :- VList (VStr <$> hot_paths);
      "hot_statuses" :- hot_statuses;
      "short_token_paths" :- VList (VStr <$> short_token_paths);
      "short_token_statuses" :- short_token_statuses;
      "path_shape_rate_limited_event_shapes" :- path_shape_event_shapes;
      "other_shape_status" :- other_shape_status;
      "version_shape_status" :- version_shape_status;
      "retry_after_headers" :- retry_after_headers;
      "cache_control_headers" :- cache_control_headers;
      "path_shape_rate_limited_delta" :- path_shape_delta;
      "http_rate_limited_delta" :- rate_limited_delta;
      "hot_path_shape_limited" :- slice_to hot_statuses 2 == VList [ #204; #204] AND slice_from hot_statuses 2 == VList [ #429; #429];
      "short_token_path_shape_limited" :- slice_to short_token_statuses 2 == VList [ #204; #204] AND slice_from short_token_statuses 2 == VList [ #429; #429];
      "short_token_sibling_churn_limited" :- slice_to short_token_statuses 2 == VList [ #204; #204] AND slice_from short_token_statuses 2 == VList [ #429; #429];
      "short_token_sibling_event_shape_recorded" :- in_values $"/api/:short-token" path_shape_event_shapes;
      "other_shape_allowed" :- other_shape_status == #204;
      "version_shape_allowed" :- version_shape_status == #204;
      "retry_after_header_matches" :- retry_after_headers == VList [$"1"; $"1"; $"1"; $"1"];
      "cache_control_header_matches" :- cache_control_headers == VList [$"no-store"; $"no-store"; $"no-store"; $"no-store"];
      "path_shape_metric_matches" :- path_shape_delta == #4;
      "rate_limited_metric_includes_path_shape_limit" :- rate_limited_delta == #4]))
    (stop_wait w proxy).

Definition run_admin_rate_limit_probe : net pyval :=
  perform proxy_port <- free_port w in
  let filters_path := under tmp_path (u "admin-guard-filters.json") in
  let events_path := under tmp_path (u "admin-guard-events.jsonl") in
  perform _ <- write_text w filters_path no_filters in
  let cfg := VDict [
      (u "http", VDict [
        (u "listen", VStr (u "127.0.0.1:" ++ dec_Z proxy_port));
        (u "upstream", VStr (u "http://127.0.0.1:" ++ dec_Z upstream_port));
        (u "preserve_host", VBool true);
        (u "admin_token", VStr (u "admin-guard-token"));
        (u "limits", VDict [
          (u "per_ip_rps", VFloat (sec 1 100));
          (u "per_ip_burst", VInt 1);
          (u "global_rps", VInt 1000000);
          (u "global_burst", VInt 1000000);
          (u "max_in_flight_requests", VInt 128);
          (u "max_in_flight_requests_per_ip", VInt 128);
          (u "max_tracked_ips", VInt 1024)])]);
      (u "tcp", VList []);
      (u "filters", VDict [
        (u "runtime_file", VStr filters_path);
        (u "reload_seconds", VInt 1);
        (u "static_rules", VList [])]);
      (u "adaptive", VDict [
        (u "enabled", VBool true);
        (u "signature_threshold_per_second", VInt 1000000);
        (u "activation_ttl_seconds", VInt 10);
        (u "event_log", VStr events_path);
        (u "event_cooldown_seconds", VInt 1)])] in
  let config_path := under tmp_path (u "admin-guard-config.json") in
  perform _ <- write_text w config_path (dumps default_style cfg) in
  perform proxy <- start_proxy w binary config_path in
  finally (
    perform _ <- wait_tcp_port w fuel proxy_port in
    perform responses <- for_each (fun m => m) [
        get_status_and_headers w proxy_port (u "GET") (u "/__altura/health") [] (sec 2 1) [];
        get_status_and_headers w proxy_port (u "GET") (u "/__altura/health") [] (sec 2 1) []] in
    let responses := VList responses in
    perform statuses <- eval (comp (fun response => response @ "status") responses) in
    perform retry_after_headers <- eval (response_headers_for_status responses (u "retry-after") 429) in
    perform cache_control_headers <- eval (response_headers_for_status responses (u "cache-control") 429) in
    eval (record [
      "statuses" :- statuses;
      "retry_after_headers" :- retry_after_headers;
      "cache_control_headers" :- cache_control_headers;
      "retry_after_header_matches" :- retry_after_headers == VList [$"1"];
      "cache_control_header_matches" :- cache_control_headers == VList [$"no-store"]]))
    (stop_wait w proxy).

Definition run_admin_signature_rate_probe : net pyval :=
  perform proxy_port <- free_port w in
  let filters_path := under tmp_path (u "admin-signature-rate-filters.json") in
  let events_path := under tmp_path (u "admin-signature-rate-events.jsonl") in
  perform _ <- write_text w filters_path no_filters in
  let signature_rps := sec 1 1000000 in
  let signature_burst := 2%Z in
  let cfg := VDict [
      (u "http", VDict [
        (u "listen", VStr (u "127.0.0.1:" ++ dec_Z proxy_port));
        (u "upstream", VStr (u "http://127.0.0.1:" ++ dec_Z upstream_port));
        (u "preserve_host", VBool true);
        (u "admin_token", VStr (u "admin-signature-rate-token"));
        (u "limits", VDict [
          (u "per_ip_rps", VInt 1000000);
          (u "per_ip_burst", VInt 1000000);
          (u "global_rps", VInt 1000000);
          (u "global_burst", VInt 1000000);
          (u "signature_rps", VFloat signature_rps);
          (u "signature_burst", VInt signature_burst);
          (u "max_tracked_signatures", VInt 64);
          (u "max_in_flight_requests", VInt 128);
          (u "max_in_flight_requests_per_ip", VInt 128);
          (u "max_tracked_ips", VInt 1024)])]);
      (u "tcp", VList []);
      (u "filters", VDict [
        (u "runtime_file", VStr filters_path);
        (u "reload_seconds", VInt 1);
        (u "static_rules", VList [])]);
      (u "adaptive", VDict [
        (u "enabled", VBool true);
        (u "signature_threshold_per_second", VInt 1000000);
        (u "activation_ttl_seconds", VInt 10);
        (u "event_log", VStr events_path);
        (u "event_cooldown_seconds", VInt 1)])] in
  let config_path := under tmp_path (u "admin-signature-rate-config.json") in
  perform _ <- write_text w config_path (dumps default_style cfg) in
  perform proxy <- start_proxy w binary config_path in
  finally (
    perform _ <- wait_tcp_port w fuel proxy_port in
    perform metrics_before <- fetch_metrics w proxy_port (u "admin-signature-rate-token") [] in
    perform responses <- for_each
        (fun _ => get_status_and_headers w proxy_port (u "GET") (u "/__altura/health") [] (sec 2 1) []) (seq 0 4) in
    let responses := VList responses in
    perform statuses <- eval (comp (fun response => response @ "status") responses) in
    perform retry_after_headers <- eval (response_headers_for_status responses (u "retry-after") 429) in
    perform cache_control_headers <- eval (response_headers_for_status responses (u "cache-control") 429) in
    perform metrics_after <- fetch_metrics w proxy_port (u "admin-signature-rate-token") [] in
    perform signature_delta <- eval (delta metrics_after metrics_before (u "altura_http_signature_rate_limited")) in
    perform rate_limited_delta <- eval (delta metrics_after metrics_before (u "altura_http_rate_limited")) in
    eval (record [
      "configured_signature_rps" :- VFloat signature_rps;
      "configured_signature_burst" :- VInt signature_burst;
      "statuses" :- statuses;
      "retry_after_headers" :- retry_after_headers;
      "cache_control_headers" :- cache_control_headers;
      "signature_rate_limited_delta" :- signature_delta;
      "http_rate_limited_delta" :- rate_limited_delta;
      "admin_health_signature_limited" :- slice_to statuses 2 == VList [ #200; #200] AND slice_from statuses 2 == VList [ #429; #429];
      "retry_after_header_matches" :- retry_after_headers == VList [$"1"; $"1"];
      "cache_control_header_matches" :- cache_control_headers == VList [$"no-store"; $"no-store"];
      "signature_metric_matches" :- signature_delta == #2;
      "rate_limited_metric_includes_signature_limit" :- rate_limited_delta == #2]))
    (stop_wait w proxy).

Definition run_rate_limiter_fairness_probe : net pyval :=
  perform proxy_port <- free_port w in
  let filters_path := under tmp_path (u "rate-fairness-filters.json") in
  let events_path := under tmp_path (u "rate-fairness-events.jsonl") in
  perform _ <- write_text w filters_path no_filters in
  let cfg := VDict [
      (u "http", VDict [
        (u "listen", VStr (u "127.0.0.1:" ++ dec_Z proxy_port));
        (u "upstream", VStr (u "http://127.0.0.1:" ++ dec_Z upstream_port));
        (u "preserve_host", VBool true);
        (u "admin_token", VStr (u "rate-fairness-token"));
        (u "client_ip", VDict [
          (u "header", VStr (u "x-forwarded-for"));
          (u "trusted_proxies", VList [VStr (u "127.0.0.1/32")])]);
        (u "limits", VDict [
          (u "per_ip_rps", VFloat (sec 1 1000000));
          (u "per_ip_burst", VInt 1);
          (u "global_rps", VFloat (sec 1 1000000));
          (u "global_burst", VInt 2);
          (u "max_in_flight_requests", VInt 128);
          (u "max_in_flight_requests_per_ip", VInt 128);
          (u "max_tracked_ips", VInt 1024)])]);
      (u "tcp", VList []);
      (u "filters", VDict [
        (u "runtime_file", VStr filters_path);
        (u "reload_seconds", VInt 1);
        (u "static_rules", VList [])]);
      (u "adaptive", VDict [
        (u "enabled", VBool true);
        (u "signature_threshold_per_second", VInt 1000000);
        (u "activation_ttl_seconds", VInt 10);
        (u "event_log", VStr events_path);
        (u "event_cooldown_seconds", VInt 1)])] in
  let config_path := under tmp_path (u "rate-fairness-config.json") in
  perform _ <- write_text w config_path (dumps default_style cfg) in
  perform proxy <- start_proxy w binary config_path in
  finally (
    perform _ <- wait_tcp_port w fuel proxy_port in
    perform statuses <- for_each (fun m => m) [
        get_status w proxy_port (u "GET") (u "/") [] (sec 2 1) [(u "X-Forwarded-For", u "198.51.100.10")];
        get_status w proxy_port (u "GET") (u "/") [] (sec 2 1) [(u "X-Forwarded-For", u "198.51.100.10")];
        get_status w proxy_port (u "GET") (u "/") [] (sec 2 1) [(u "X-Forwarded-For", u "198.51.100.11")]] in
    let statuses := VList statuses in
    eval (record ["statuses" :- statuses]))
    (stop_wait w proxy).

Definition run_tracked_ip_cap_probe : net pyval :=
  perform proxy_port <- free_port w in
  let filters_path := under tmp_path (u "tracked-ip-cap-filters.json") in
  let events_path := under tmp_path (u "tracked-ip-cap-events.jsonl") in
  perform _ <- write_text w filters_path no_filters in
  let cfg := VDict [
      (u "http", VDict [
        (u "listen", VStr (u "127.0.0.1:" ++ dec_Z proxy_port));
        (u "upstream", VStr (u "http://127.0.0.1:" ++ dec_Z upstream_port));
        (u "preserve_host", VBool true);
        (u "admin_token", VStr (u "tracked-ip-cap-token"));
        (u "client_ip", VDict [
          (u "header", VStr (u "x-forwarded-for"));
          (u "trusted_proxies", VList [VStr (u "127.0.0.1/32")])]);
        (u "limits", VDict [
          (u "per_ip_rps", VFloat (sec 1 1000000));
          (u "per_ip_burst", VInt 1);
          (u "global_rps", VInt 1000000);
          (u "global_burst", VInt 1000000);
          (u "max_in_flight_requests", VInt 128);
          (u "max_in_flight_requests_per_ip", VInt 128);
          (u "max_tracked_ips", VInt 64)])]);
      (u "tcp", VList []);
      (u "filters", VDict [
        (u "runtime_file", VStr filters_path);
        (u "reload_seconds", VInt 1);
        (u "static_rules", VList [])]);
      (u "adaptive", VDict [
        (u "enabled", VBool true);
        (u "signature_threshold_per_second", VInt 1000000);
        (u "activation_ttl_seconds", VInt 10);
        (u "event_log", VStr events_path);
        (u "event_cooldown_seconds", VInt 1)])] in
  let config_path := under tmp_path (u "tracked-ip-cap-config.json") in
  perform _ <- write_text w config_path (dumps default_style cfg) in
  perform proxy <- start_proxy w binary config_path in
  finally (
    perform _ <- wait_tcp_port w fuel proxy_port in
    let first_ip := u "198.51.100.10" in
    perform first_status <- get_status w proxy_port (u "GET") (u "/") [] (sec 2 1) [(u "X-Forwarded-For", first_ip)] in
    perform first_limited <- get_status w proxy_port (u "GET") (u "/") [] (sec 2 1) [(u "X-Forwarded-For", first_ip)] in
    perform found <- admit_clients w proxy_port first_ip (seq 1 129) 0 in
    let '(admitted_new_clients, denied_new_client, denied_new_status) := found in
    perform first_after_cap <- get_status w proxy_port (u "GET") (u "/") [] (sec 2 1) [(u "X-Forwarded-For", first_ip)] in
    perform statuses <- eval (VList [first_status; first_limited; denied_new_status; first_after_cap]) in
    eval (record [
      "statuses" :- statuses;
      "first_client_initial_allowed" :- first_status == #204;
      "first_client_rate_limited" :- first_limited == #429;
      "new_client_denied_when_active_shard_full" :- denied_new_status == #429;
      "first_client_bucket_not_evicted" :- first_after_cap == #429;
      "admitted_new_clients_before_cap" :- admitted_new_clients;
      "denied_new_client" :- denied_new_client]))
    (stop_wait w proxy).
End probes.
