(* ===== verification/TrafficTcp.v ===== *)
(** * TrafficTcp: probes of TCP listeners and connection lifetimes

    [tools/run_local_bench.py]: each probe writes a configuration, starts the proxy on it,
    sends traffic, and reports what it saw together with its verdicts; whatever happens, the
    proxy is stopped. *)

From S2P Require Import Prelude Unicode PyStr PyFloat PyVal PyDyn Json.
From S2P Require Import BenchNet BenchHttp BenchOrigin BenchSend BenchConns TrafficBase.

Open Scope dyn_scope.

Section probes.
Context (w : world) (fuel : nat) (binary : pystr) (upstream_port tcp_upstream_port : Z) (tmp_path : pystr).

(** [send_done] and [send_error], as the sending thread leaves them *)
Definition sender_done (sent : option (res unit)) : bool := match sent with Some (Ok _) => true | _ => false end.
Definition sender_error (sent : option (res unit)) : pyval := match sent with Some (Raise e) => VStr (exn_name e) | _ => VNone end.

(** [s.decode("ascii", errors="replace")] *)
Definition decode_ascii_replace (s : bytes) : pystr := (fun c => if is_ascii c then c else 65533%N) <$> s.

Definition run_tcp_relay_head_of_line_probe : net pyval :=
  perform tcp_proxy_port <- free_port w in
  perform tcp_upstream_port <- free_port w in
  let filters_path := under tmp_path (u "tcp-relay-head-of-line-filters.json") in
  let events_path := under tmp_path (u "tcp-relay-head-of-line-events.jsonl") in
  perform _ <- write_text w filters_path no_filters in
  let cfg := VDict [
      (u "http", VNone);
      (u "tcp", VList [VDict [
          (u "name", VStr (u "tcp-relay-head-of-line"));
          (u "listen", VStr (u "127.0.0.1:" ++ dec_Z tcp_proxy_port));
          (u "upstream", VStr (u "127.0.0.1:" ++ dec_Z tcp_upstream_port));
          (u "connect_timeout_ms", VInt 500);
          (u "idle_timeout_seconds", VInt 2);
          (u "downstream_min_rate_bytes_per_second", VInt 0);
          (u "upstream_min_rate_bytes_per_second", VInt 0);
          (u "max_connection_duration_seconds", VInt 5);
          (u "limits", VDict [
            (u "per_ip_connects_per_second", VInt 1000000);
            (u "per_ip_connect_burst", VInt 1000000);
            (u "global_connects_per_second", VInt 1000000);
            (u "global_connect_burst", VInt 1000000);
            (u "max_connections", VInt 128);
            (u "max_connections_per_ip", VInt 128);
            (u "max_tracked_ips", VInt 1024)])]]);
      (u "filters", VDict [
        (u "runtime_file", VStr filters_path);
        (u "reload_seconds", VInt 1);
        (u "static_rules", VList [])]);
      (u "adaptive", VDict [
        (u "enabled", VBool false);
        (u "signature_threshold_per_second", VInt 1000000);
        (u "activation_ttl_seconds", VInt 10);
        (u "event_log", VStr events_path);
        (u "event_cooldown_seconds", VInt 1)])] in
  let config_path := under tmp_path (u "tcp-relay-head-of-line-config.json") in
  perform _ <- write_text w config_path (dumps default_style cfg) in
  perform r <- ask w (Serve HeadOfLineTcp tcp_upstream_port) in
  perform upstream <- clift r in
  finally (
    perform proxy <- start_proxy w binary config_path in
    perform started <- perf_counter w in
    finally_with (None : option (sock * option thread)) (catch (
        perform _ <- inner (wait_tcp_port w fuel tcp_proxy_port) in
        perform s <- inner (create_connection w tcp_proxy_port (sec 1 1)) in
        perform _ <- update (fun _ => Some (s, None)) in
        perform _ <- inner (ask w (SetTimeout s (sec 1 1))) in
        perform send_thread <- inner (ask w (StartSend s (replicate (Z.to_nat (16 * 1024 * 1024)) 120%N))) in
        perform _ <- update (fun _ => Some (s, Some (send_thread : thread))) in
        perform received <- inner (recv_exact w fuel s 4) in
        perform now <- inner (perf_counter w) in
        let elapsed := fsub now started in
        perform sent <- inner (ask w (SendSoFar send_thread)) in
        cret (VDict [(u "received_bytes", bytes_len received);
                     (u "received", VStr (decode_ascii_replace received));
                     (u "elapsed_seconds", VFloat (round_digits 3 elapsed));
                     (u "sender_completed_during_probe", VBool (sender_done sent));
                     (u "sender_error", sender_error sent);
                     (u "upstream_response_delivered_while_downstream_write_blocked",
                      VBool (str_eqb received (u "pong") && fltb elapsed (sec 1 1)))]))
      is_exception (fun e =>
        perform now <- inner (perf_counter w) in
        perform opened <- local_vars in
        perform sent <- match opened with Some (_, Some th) => inner (ask w (SendSoFar th)) | _ => cret None end in
        cret (VDict [(u "received_bytes", #0); (u "received", VStr []);
                     (u "elapsed_seconds", VFloat (round_digits 3 (fsub now started)));
                     (u "sender_completed_during_probe", VBool (sender_done sent));
                     (u "sender_error", sender_error sent);
                     (u "error", VStr (exn_name e));
                     (u "upstream_response_delivered_while_downstream_write_blocked", VBool false)])))
      (fun opened =>
        perform _ <- match opened with Some (s, _) => ask w (CloseSocket s) | None => cret tt end in
        perform _ <- stop_communicate w proxy in
        ask w (Shutdown upstream)))
    (ask w (CloseServer upstream)).

Definition run_connection_duration_runtime_probe (http_upstream_port : Z) : net pyval :=
  perform proxy_port <- free_port w in
  perform tcp_proxy_port <- free_port w in
  let filters_path := under tmp_path (u "connection-duration-runtime-filters.json") in
  let events_path := under tmp_path (u "connection-duration-runtime-events.jsonl") in
  perform _ <- write_text w filters_path no_filters in
  let cfg := VDict [
      (u "http", VDict [
        (u "listen", VStr (u "127.0.0.1:" ++ dec_Z proxy_port));
        (u "upstream", VStr (u "http://127.0.0.1:" ++ dec_Z http_upstream_port));
        (u "preserve_host", VBool true);
        (u "admin_token", VStr (u "connection-duration-token"));
        (u "downstream_keep_alive", VBool true);
        (u "max_connection_duration_seconds", VInt 1);
        (u "max_requests_per_connection", VInt 100);
        (u "limits", VDict [
          (u "per_ip_rps", VInt 1000000);
          (u "per_ip_burst", VInt 1000000);
          (u "global_rps", VInt 1000000);
          (u "global_burst", VInt 1000000);
          (u "signature_rps", VInt 1000000);
          (u "signature_burst", VInt 1000000);
          (u "path_shape_rps", VInt 1000000);
          (u "path_shape_burst", VInt 1000000);
          (u "max_connections", VInt 128);
          (u "max_connections_per_ip", VInt 128);
          (u "max_in_flight_requests", VInt 128);
          (u "max_in_flight_requests_per_ip", VInt 128);
          (u "max_tracked_ips", VInt 1024)])]);
      (u "tcp", VList [VDict [
          (u "name", VStr (u "tcp-max-duration"));
          (u "listen", VStr (u "127.0.0.1:" ++ dec_Z tcp_proxy_port));
          (u "upstream", VStr (u "127.0.0.1:" ++ dec_Z tcp_upstream_port));
          (u "connect_timeout_ms", VInt 500);
          (u "idle_timeout_seconds", VInt 10);
          (u "downstream_min_rate_bytes_per_second", VInt 0);
          (u "upstream_min_rate_bytes_per_second", VInt 0);
          (u "max_connection_duration_seconds", VInt 1);
          (u "limits", VDict [
            (u "per_ip_connects_per_second", VInt 1000000);
            (u "per_ip_connect_burst", VInt 1000000);
            (u "global_connects_per_second", VInt 1000000);
            (u "global_connect_burst", VInt 1000000);
            (u "max_connections", VInt 128);
            (u "max_connections_per_ip", VInt 128);
            (u "max_tracked_ips", VInt 1024)])]]);
      (u "filters", VDict [
        (u "runtime_file", VStr filters_path);
        (u "reload_seconds", VInt 1);
        (u "static_rules", VList [])]);
      (u "adaptive", VDict [
        (u "enabled", VBool true);
        (u "signature_threshold_per_second", VInt 1000000);
        (u "activation_ttl_seconds", VInt 10);
        (u "event_log", VStr events_path);
        (u "event_cooldown_seconds", VInt 1)])] in
  let config_path := under tmp_path (u "connection-duration-runtime-config.json") in
  perform _ <- write_text w config_path (dumps default_style cfg) in
  perform proxy <- start_proxy w binary config_path in
  finally (
    perform _ <- wait_http w fuel proxy_port in
    perform _ <- wait_tcp_port w fuel tcp_proxy_port in
    perform http_probe <- send_http_max_connection_duration_probe w fuel proxy_port (sec 13 10) in
    perform tcp_probe <- send_tcp_max_connection_duration_probe w fuel tcp_proxy_port (sec 13 10) in
    eval (record [
      "http" :- http_probe;
      "tcp" :- tcp_probe;
      "http_max_connection_duration_enforced" :- http_probe @ "first_status" == #204 AND http_probe @ "second_closed_or_reset";
      "tcp_max_connection_duration_enforced" :- tcp_probe @ "first_echo_bytes" == #12 AND tcp_probe @ "closed_or_reset"]))
    (stop_communicate w proxy).

Definition run_tcp_min_rate_probe (http_upstream_port : Z) : net pyval :=
  perform proxy_port <- free_port w in
  perform tcp_proxy_port <- free_port w in
  perform tcp_default_proxy_port <- free_port w in
  let filters_path := under tmp_path (u "tcp-min-rate-filters.json") in
  let events_path := under tmp_path (u "tcp-min-rate-events.jsonl") in
  perform _ <- write_text w filters_path no_filters in
  let cfg := VDict [
      (u "http", VDict [
        (u "listen", VStr (u "127.0.0.1:" ++ dec_Z proxy_port));
        (u "upstream", VStr (u "http://127.0.0.1:" ++ dec_Z http_upstream_port));
        (u "preserve_host", VBool true);
        (u "admin_token", VStr (u "tcp-min-rate-token"));
        (u "limits", VDict [
          (u "per_ip_rps", VInt 1000000);
          (u "per_ip_burst", VInt 1000000);
          (u "global_rps", VInt 1000000);
          (u "global_burst", VInt 1000000);
          (u "max_connections", VInt 128);
          (u "max_connections_per_ip", VInt 128);
          (u "max_in_flight_requests", VInt 128);
          (u "max_in_flight_requests_per_ip", VInt 128);
          (u "max_tracked_ips", VInt 1024)])]);
      (u "tcp", VList [VDict [
          (u "name", VStr (u "tcp-min-rate"));
          (u "listen", VStr (u "127.0.0.1:" ++ dec_Z tcp_proxy_port));
          (u "upstream", VStr (u "127.0.0.1:" ++ dec_Z tcp_upstream_port));
          (u "connect_timeout_ms", VInt 500);
          (u "idle_timeout_seconds", VInt 2);
          (u "downstream_min_rate_bytes_per_second", VInt 1000);
          (u "upstream_min_rate_bytes_per_second", VInt 0);
          (u "min_rate_grace_ms", VInt 10);
          (u "max_connection_duration_seconds", VInt 5);
          (u "limits", VDict [
            (u "per_ip_connects_per_second", VInt 1000000);
            (u "per_ip_connect_burst", VInt 1000000);
            (u "max_connections", VInt 128);
            (u "max_connections_per_ip", VInt 128);
            (u "max_tracked_ips", VInt 1024)])]; VDict [
          (u "name", VStr (u "tcp-default-min-rate"));
          (u "listen", VStr (u "127.0.0.1:" ++ dec_Z tcp_default_proxy_port));
          (u "upstream", VStr (u "127.0.0.1:" ++ dec_Z tcp_upstream_port));
          (u "connect_timeout_ms", VInt 500);
          (u "idle_timeout_seconds", VInt 2);
          (u "min_rate_grace_ms", VInt 10);
          (u "max_connection_duration_seconds", VInt 5);
          (u "limits", VDict [
            (u "per_ip_connects_per_second", VInt 1000000);
            (u "per_ip_connect_burst", VInt 1000000);
            (u "max_connections", VInt 128);
            (u "max_connections_per_ip", VInt 128);
            (u "max_tracked_ips", VInt 1024)])]]);
      (u "filters", VDict [
        (u "runtime_file", VStr filters_path);
        (u "reload_seconds", VInt 1);
        (u "static_rules", VList [])]);
      (u "adaptive", VDict [
        (u "enabled", VBool true);
        (u "signature_threshold_per_second", VInt 1000000);
        (u "activation_ttl_seconds", VInt 10);
        (u "event_log", VStr events_path);
        (u "event_cooldown_seconds", VInt 1)])] in
  let config_path := under tmp_path (u "tcp-min-rate-config.json") in
  perform _ <- write_text w config_path (dumps default_style cfg) in
  perform proxy <- start_proxy w binary config_path in
  finally (
    perform _ <- wait_http w fuel proxy_port in
    perform _ <- wait_tcp_port w fuel tcp_proxy_port in
    perform _ <- wait_tcp_port w fuel tcp_default_proxy_port in
    perform metrics_before <- fetch_metrics w proxy_port (u "tcp-min-rate-token") [] in
    perform slow_drip <- send_tcp_slow_drip w fuel tcp_proxy_port in
    perform _ <- sleep w (sec 5 100) in
    perform metrics_after_explicit <- fetch_metrics w proxy_port (u "tcp-min-rate-token") [] in
    perform default_slow_drip <- send_tcp_slow_drip w fuel tcp_default_proxy_port in
    perform _ <- sleep w (sec 5 100) in
    perform metrics_after_default <- fetch_metrics w proxy_port (u "tcp-min-rate-token") [] in
    perform downstream_delta <- eval (delta metrics_after_explicit metrics_before (u "altura_tcp_downstream_too_slow")) in
    perform upstream_delta <- eval (delta metrics_after_explicit metrics_before (u "altura_tcp_upstream_too_slow")) in
    perform default_downstream_delta <- eval (delta metrics_after_default metrics_after_explicit (u "altura_tcp_downstream_too_slow")) in
    perform default_upstream_delta <- eval (delta metrics_after_default metrics_after_explicit (u "altura_tcp_upstream_too_slow")) in
    eval (record [
      "configured_downstream_min_rate_bytes_per_second" :- #1000;
      "configured_upstream_min_rate_bytes_per_second" :- #0;
      "configured_min_rate_grace_ms" :- #10;
      "slow_drip" :- slow_drip;
      "tcp_downstream_too_slow_delta" :- downstream_delta;
      "tcp_upstream_too_slow_delta" :- upstream_delta;
      "tcp_min_rate_rejected" :- slow_drip @ "closed_or_reset" AND downstream_delta >= #1;
      "default_configured_downstream_min_rate_bytes_per_second" :- #512;
      "default_configured_upstream_min_rate_bytes_per_second" :- #512;
      "default_configured_min_rate_grace_ms" :- #10;
      "default_slow_drip" :- default_slow_drip;
      "default_tcp_downstream_too_slow_delta" :- default_downstream_delta;
      "default_tcp_upstream_too_slow_delta" :- default_upstream_delta;
      "default_tcp_min_rate_rejected" :- default_slow_drip @ "closed_or_reset" AND default_downstream_delta >= #1]))
    (stop_communicate w proxy).

Definition run_listen_backlog_probe : net pyval :=
  perform proxy_port <- free_port w in
  perform tcp_proxy_port <- free_port w in
  let filters_path := under tmp_path (u "listen-backlog-filters.json") in
  let events_path := under tmp_path (u "listen-backlog-events.jsonl") in
  perform _ <- write_text w filters_path no_filters in
  let cfg := VDict [
      (u "http", VDict [
        (u "listen", VStr (u "127.0.0.1:" ++ dec_Z proxy_port));
        (u "upstream", VStr (u "http://127.0.0.1:" ++ dec_Z upstream_port));
        (u "preserve_host", VBool true);
        (u "admin_token", VStr (u "listen-backlog-token"));
        (u "listen_backlog", VInt 128);
        (u "accept_shards", VInt 2);
        (u "limits", VDict [
          (u "per_ip_rps", VInt 1000000);
          (u "per_ip_burst", VInt 1000000);
          (u "global_rps", VInt 1000000);
          (u "global_burst", VInt 1000000);
          (u "max_in_flight_requests", VInt 128);
          (u "max_in_flight_requests_per_ip", VInt 128);
          (u "max_tracked_ips", VInt 1024)])]);
      (u "tcp", VList [VDict [
          (u "name", VStr (u "listen-backlog-tcp"));
          (u "listen", VStr (u "127.0.0.1:" ++ dec_Z tcp_proxy_port));
          (u "upstream", VStr (u "127.0.0.1:" ++ dec_Z tcp_upstream_port));
          (u "listen_backlog", VInt 128);
          (u "accept_shards", VInt 2);
          (u "connect_timeout_ms", VInt 500);
          (u "idle_timeout_seconds", VInt 5);
          (u "max_connection_duration_seconds", VInt 5);
          (u "limits", VDict [
            (u "per_ip_connects_per_second", VInt 1000000);
            (u "per_ip_connect_burst", VInt 1000000);
            (u "max_connections", VInt 128);
            (u "max_connections_per_ip", VInt 128);
            (u "max_tracked_ips", VInt 1024)])]]);
      (u "filters", VDict [
        (u "runtime_file", VStr filters_path);
        (u "reload_seconds", VInt 1);
        (u "static_rules", VList [])]);
      (u "adaptive", VDict [
        (u "enabled", VBool true);
        (u "signature_threshold_per_second", VInt 1000000);
        (u "activation_ttl_seconds", VInt 10);
        (u "event_log", VStr events_path);
        (u "event_cooldown_seconds", VInt 1)])] in
  let config_path := under tmp_path (u "listen-backlog-config.json") in
  perform _ <- write_text w config_path (dumps default_style cfg) in
  perform proxy <- start_proxy w binary config_path in
  finally (
    perform _ <- wait_http w fuel proxy_port in
    perform _ <- wait_tcp_port w fuel tcp_proxy_port in
    perform http_status <- get_status w proxy_port (u "GET") (u "/") [] (sec 2 1) [] in
    perform echoed <- with_connection w tcp_proxy_port (sec 2 1) (fun s =>
      perform _ <- ask w (SetTimeout s (sec 2 1)) in
      perform _ <- sendall w s (u "listen-backlog") in
      recv_exact w fuel s 14) in
    let tcp_echo_ok := str_eqb echoed (u "listen-backlog") in
    eval (record [
      "configured_backlog" :- #128;
      "configured_accept_shards" :- #2;
      "http_status" :- http_status;
      "tcp_echo_ok" :- VBool tcp_echo_ok;
      "accept_shards_started" :- http_status == #204 AND VBool tcp_echo_ok]))
    (stop_wait w proxy).
End probes.
