(* ===== verification/BenchTidy.v ===== *)
(** * BenchTidy: what the probes start, they stop

    Every process, HTTP connection and server a probe of [tools/run_local_bench.py] obtains
    is given up again, whatever the proxy, the network and the operating system answer and
    however the probe ends: the operations first, then every probe. *)

From S2P Require Import Prelude Unicode PyStr PyFloat PyVal PyDyn Json BenchNet BenchLogic BenchHttp BenchOrigin BenchSend BenchConns.
From S2P Require Import TrafficBase TrafficBody TrafficUpstream TrafficLog TrafficGuard TrafficRate TrafficTcp.

Section operations.
Context (w : world) (fuel : nat).

Lemma tidy_with_connection {A} port timeout (body : sock -> net A) :
  (forall s, tidy (body s)) -> tidy (with_connection w port timeout body).
Proof. intros H. unfold with_connection. tidy. Qed.

Lemma tidy_on_connection {L A} port timeout (body : sock -> scope L A) :
  (forall s, tidy (body s)) -> tidy (on_connection w port timeout body).
Proof. intros H. unfold on_connection. tidy. Qed.

(** ** Loops *)

Lemma tidy_recv_while n s more size raw : tidy (recv_while w n s more size raw).
Proof. revert raw. induction n as [|n IH]; intros raw; cbn [recv_while]; tidy. Qed.

Lemma tidy_recv_rest n s : tidy (recv_rest w n s).
Proof. induction n as [|n IH]; cbn [recv_rest]; tidy. Qed.

Lemma tidy_wait_http_until n port path deadline : tidy (wait_http_until w n port path deadline).
Proof. induction n as [|n IH]; cbn [wait_http_until]; tidy. Qed.

Lemma tidy_wait_tcp_until n port deadline : tidy (wait_tcp_until w n port deadline).
Proof. induction n as [|n IH]; cbn [wait_tcp_until]; tidy. Qed.

Lemma tidy_hold n port : tidy (hold w n port).
Proof. induction n as [|n IH]; cbn [hold]; tidy. Qed.

Lemma tidy_open_partials n port opened errors : tidy (open_partials w n port opened errors).
Proof. revert opened errors. induction n as [|n IH]; intros opened errors; cbn [open_partials]; tidy. Qed.

Lemma tidy_fill_backlog n port timeout held : tidy (fill_backlog w n port timeout held).
Proof. revert held. induction n as [|n IH]; intros held; cbn [fill_backlog]; tidy. Qed.

Lemma tidy_wait_lines n path minimum deadline count : tidy (wait_lines w n path minimum deadline count).
Proof. revert count. induction n as [|n IH]; intros count; cbn [wait_lines]; tidy. Qed.

Lemma tidy_wait_event n path predicate deadline events : tidy (wait_event w n path predicate deadline events).
Proof. revert events. induction n as [|n IH]; intros events; cbn [wait_event]; tidy. Qed.

Lemma tidy_wait_exists n path deadline : tidy (wait_exists w n path deadline).
Proof. induction n as [|n IH]; cbn [wait_exists]; tidy. Qed.

Lemma tidy_await_reload n port rule_count deadline status active : tidy (await_reload w n port rule_count deadline status active).
Proof. revert status active. induction n as [|n IH]; intros status active; cbn [await_reload]; tidy. Qed.

Lemma tidy_get_status port method path body timeout headers : tidy (get_status w port method path body timeout headers).
Proof. unfold get_status. tidy. Qed.

Lemma tidy_get_status_and_headers port method path body timeout headers :
  tidy (get_status_and_headers w port method path body timeout headers).
Proof. unfold get_status_and_headers. tidy. Qed.

Lemma tidy_fetch_metrics port token headers : tidy (fetch_metrics w port token headers).
Proof. unfold fetch_metrics. tidy. Qed.

Lemma tidy_admit_clients port first_ip octets admitted : tidy (admit_clients w port first_ip octets admitted).
Proof. revert admitted. induction octets as [|o rest IH]; intros admitted; cbn [admit_clients]; tidy. Qed.

Lemma tidy_record_calls {S} `{Traced S} (fields : list (pystr * eff S pyval)) :
  Forall (fun f => tidy f.2) fields -> tidy (record_calls fields).
Proof. induction 1 as [|[name m] rest Hm Hr IH]; cbn [record_calls]; tidy. Qed.

(** ** Starting and stopping *)

Lemma tidy_stop_collecting p : tidy_but [Process p] (stop_collecting w p).
Proof. unfold stop_collecting. apply tidy_bind_first; tidy. Qed.

Lemma tidy_stop_communicate p : tidy_but [Process p] (stop_communicate w p).
Proof. unfold stop_communicate. apply tidy_bind_first; [apply tidy_stop_collecting|]. tidy. Qed.

Lemma tidy_stop_wait p : tidy_but [Process p] (stop_wait w p).
Proof. unfold stop_wait. apply tidy_bind_first; tidy. Qed.

Lemma tidy_stop_process_and_collect p : tidy_but [Process p] (stop_process_and_collect w p).
Proof. unfold stop_process_and_collect. apply tidy_poll; intros; tidy. Qed.

(** [communicate] raises only when its time is over. *)
Definition communicates : Prop := forall t p timeout e, w t (Communicate p timeout) = Raise e -> is_timeout_expired e = true.

(** A process is awaited, and given up by [h] when that takes too long. *)
Lemma tidy_await p timeout (h : exn -> net (Z * pystr)) : communicates -> (forall e, tidy_but [Process p] (h e)) ->
  tidy_but [Process p] (catch (communicate w p timeout) is_timeout_expired h).
Proof.
  intros Hw Hh t r t' E. unfold catch, communicate, cbind, ask, clift in E. cbn in E.
  destruct (w t (Communicate p timeout)) as [x|e] eqn:Ew.
  - injection E as <- <-. eexists. split_and!; [done|done|]. constructor; [|constructor]. cbn. by rewrite bool_decide_eq_true_2.
  - rewrite (Hw _ _ _ _ Ew) in E. destruct (Hh _ _ _ _ E) as (d & T & Hb & F). unfold trace_of, traced_trace in *.
    eexists (_ :: d). rewrite T, <-app_assoc. split_and!; [done|done|]. eapply Forall_impl; [apply F|]. intros h' Hh'. cbn.
    unfold released in Hh'. by rewrite Hh'.
Qed.

Lemma tidy_start_proxy {B} binary config_path (k : proc -> net B) :
  (forall p, tidy_but [Process p] (k p)) -> tidy (cbind (start_proxy w binary config_path) k).
Proof. apply tidy_popen. Qed.
End operations.

#[export] Hint Resolve tidy_recv_while tidy_recv_rest tidy_wait_http_until tidy_wait_tcp_until tidy_hold tidy_open_partials
  tidy_fill_backlog tidy_wait_lines tidy_wait_event tidy_wait_exists tidy_await_reload tidy_get_status tidy_get_status_and_headers
  tidy_fetch_metrics tidy_admit_clients tidy_stop_collecting tidy_stop_communicate tidy_stop_wait tidy_stop_process_and_collect : tidy.

Ltac probe_step :=
  lazymatch goal with
  | |- tidy_but _ (cbind (start_proxy _ _ _) _) => apply tidy_start_proxy
  | _ : communicates ?w |- tidy_but [_] (catch (communicate ?w _ _) is_timeout_expired _) => apply tidy_await; [done|]
  | |- tidy_but _ (with_connection _ _ _ _) => apply tidy_with_connection
  | |- tidy_but _ (on_connection _ _ _ _) => apply tidy_on_connection
  | |- tidy_but _ (record_calls _) => apply tidy_record_calls; cbn [fmap list_fmap]; for_all; cbn [snd]
  | |- _ => tidy_step
  end.
Ltac tidy_probe := repeat probe_step.
