(* ===== verification/DefenseRun.v ===== *)
(** * DefenseRun: the defense benchmark with its processes

    [tools/run_defense_bench.py]: the origin, starting and stopping the proxy and the
    analyzer, waiting for the proxy, reading the metrics with retries, a layer, a scenario
    and [main], as computations that ask their surroundings.  [DefenseBench] computes the
    same report from what was read; here is how it is read.  A phase of traffic is a
    function of the surroundings: [Phase] models its threads. *)

From S2P Require Import Prelude Unicode PyStr PyTime PyFloat PyVal PyDyn Json Provenance Scenarios Phase DefenseBench.
From S2P Require Import BenchNet BenchLogic BenchHttp TrafficBase.

(** ** The origin *)

(** The handler on the bytes received so far: what is kept, and the response to send. *)
Definition no_content_reply : bytes :=
  message [u "HTTP/1.1 204 No Content"; u "Content-Length: 0"; u "Connection: keep-alive"].

(** [handle]: a reset or a closed pipe ends it, as an empty read does; another exception is the
    server's. *)
Definition connection_gone (e : exn) : bool :=
  match exn_class e with ConnectionResetError | RemoteDisconnected | BrokenPipeError => true | _ => false end.

Section origin.
Context (w : world) (s : sock).

Fixpoint upstream_handle (fuel : nat) (buf : bytes) : net unit :=
  match fuel with
  | O => out_of_fuel
  | S fuel' =>
      perform data <- catch (perform data <- recv w s 4096 in cret (Some data)) connection_gone (fun _ => cret None) in
      match data with
      | None | Some [] => cret tt
      | Some data =>
          let buf := buf ++ data in
          if negb (contains (CRLF ++ CRLF) buf) then upstream_handle fuel' buf
          else
            perform sent <- catch (perform _ <- sendall w s no_content_reply in cret true) connection_gone (fun _ => cret false) in
            if (sent : bool) then upstream_handle fuel' [] else cret tt
      end
  end.
End origin.

(** ** Processes *)

(** A process and the log file attached to it. *)
Definition running : Type := proc * pystr.

Section processes.
Context (w : world) (fuel : nat).

(** [log_path.open("w")], then the process; the log is closed when it cannot be started *)
Definition start_logged (argv : list pystr) (env : list (pystr * pystr)) (log_path : pystr) : net running :=
  perform r <- ask w (OpenWrite log_path) in
  perform _ <- clift r in
  perform p <- catch (popen w argv env) is_exception (fun e => perform _ <- ask w (CloseFile log_path) in clift (Raise e)) in
  cret (p, log_path).

Definition start_proxy (binary config_path log_path : pystr) : net running :=
  start_logged [binary; u "--config"; config_path] [(u "RUST_BACKTRACE", u "0")] log_path.

Definition stop_process (process : option running) : net unit :=
  match process with
  | None => cret tt
  | Some (p, log_file) =>
      perform status <- ask w (Poll p) in
      perform _ <- match status with None => stop_wait w p | Some _ => cret tt end in
      ask w (CloseFile log_file)
  end.

Definition tail_text (path : pystr) : net pystr :=
  perform r <- ask w (ReadBinary path) in
  match r with
  | Ok content => cret (decode_utf8 (last_n 2000 content))
  | Raise e => if is_exception e then cret [] else clift (Raise e)
  end.

Definition runtime_error {A} (text : pystr) : net A := clift (Raise (Exn RuntimeError text)).

(** One request of [wait_health]: the status, or the name of the exception's class *)
Definition health_request (port : Z) : net (Z + pystr) :=
  perform c <- ask w (HttpConnection port (sec 1 1)) in
  finally
    (catch (perform r <- http_exchange w c (u "GET") (u "/__altura/health") None [] in cret (inl (hh_status r.1)))
       is_exception (fun e => perform _ <- sleep w (sec 1 10) in cret (inr (exn_name e))))
    (ask w (CloseHttp c)).

Definition none_or (s : option pystr) : pystr := default (u "None") s.

Fixpoint wait_health_until (fuel : nat) (port : Z) (process : running) (deadline : float) (last_error last_status : option pystr) : net unit :=
  perform now <- ask w WallClock in
  if fltb now deadline then
    match fuel with
    | O => out_of_fuel
    | S fuel' =>
        perform exited <- ask w (Poll process.1) in
        match exited with
        | Some returncode =>
            perform log_tail <- tail_text process.2 in
            runtime_error (u "proxy exited before ready with status " ++ dec_Z returncode ++ u ": " ++ log_tail)
        | None =>
            perform r <- health_request port in
            match r with
            | inl status =>
                if (status =? 200)%Z then cret tt else wait_health_until fuel' port process deadline last_error (Some (dec_Z status))
            | inr name => wait_health_until fuel' port process deadline (Some name) last_status
            end
        end
    end
  else
    perform log_tail <- tail_text process.2 in
    runtime_error (u "proxy did not become ready; last_status=" ++ none_or last_status ++ u "; last_error=" ++ none_or last_error ++
                   match log_tail with [] => [] | _ => u ": " ++ log_tail end).

Definition wait_health (port : Z) (process : running) : net unit :=
  perform now <- ask w WallClock in wait_health_until fuel port process (fadd now (sec 15 1)) None None.

(** ** Metrics *)

(** [except (TimeoutError, OSError, http.client.HTTPException)] *)
Definition is_request_error (e : exn) : bool :=
  is_os_error e || match exn_class e with BadStatusLine | IncompleteRead | LineTooLong => true | _ => false end.

(** One round: the page, or the text of the error to go on with *)
Definition metrics_request (port : Z) (deadline : float) : net (pystr + pystr) :=
  perform c <- ask w (HttpConnection port (sec 2 1)) in
  finally
    (catch
       (perform r <- http_exchange w c (u "GET") (u "/__altura/metrics") None [(u "x-altura-admin-token", u "bench-token")] in
        let status := hh_status r.1 in
        let body := decode_utf8 r.2 in
        if (status =? 200)%Z then cret (inl body)
        else if negb (status =? 429)%Z then runtime_error (u "metrics returned HTTP " ++ dec_Z status)
        else
          perform now <- ask w WallClock in
          if negb (fltb now deadline) then runtime_error (u "metrics returned HTTP " ++ dec_Z status)
          else cret (inr (u "HTTP " ++ dec_Z status)))
       is_request_error
       (fun e =>
          let last_error := exn_name e ++ u ": " ++ exn_msg e in
          perform now <- ask w WallClock in
          if negb (fltb now deadline) then runtime_error (u "metrics request failed: " ++ last_error) else cret (inr last_error)))
    (ask w (CloseHttp c)).

Fixpoint metrics_until (fuel : nat) (port : Z) (deadline : float) : net pystr :=
  match fuel with
  | O => out_of_fuel
  | S fuel' =>
      perform r <- metrics_request port deadline in
      match r with
      | inl body => cret body
      | inr last_error =>
          perform now <- ask w WallClock in
          if negb (fltb now deadline) then runtime_error (u "metrics request failed: " ++ last_error)
          else perform _ <- sleep w (sec 5 100) in metrics_until fuel' port deadline
      end
  end.

(** The page; [fetch_metrics] reads it line by line ([parse_metrics]). *)
Definition metrics_page (port : Z) : net pystr :=
  perform now <- ask w WallClock in metrics_until fuel port (fadd now (sec 20 1)).

Definition is_runtime_error (e : exn) : bool := match exn_class e with RuntimeError => true | _ => false end.

Definition fetch_metrics (port : Z) : net (list (pystr * float)) := perform body <- metrics_page port in cret (parse_metrics body).

Definition try_fetch_metrics (port : Z) : net (list (pystr * float) * option pystr) :=
  catch (perform metrics <- fetch_metrics port in cret (metrics, None)) is_runtime_error (fun e => cret ([], Some (exn_msg e))).
End processes.

(** ** Phases *)

(** The arguments of [run_phase]. *)
Record phase_call := PhaseCall {
  pc_port : Z;
  pc_scenario : pystr;
  pc_duration : float;
  pc_workers : Z;
  pc_bypass : bool;
  pc_sleep : option float;
  pc_direct : bool }.

Definition BYPASS_PROBE_REFILL_SECONDS : float := sec 12 10.
Definition BYPASS_PROBE_DURATION_SECONDS : float := sec 75 100.
Definition BYPASS_PROBE_WORKERS : Z := 1.
Definition BYPASS_PROBE_SLEEP_SECONDS : float := sec 3 100.

(** ** A layer *)

Section layer.
Context (w : world) (fuel : nat) (phases : trace -> phase_call -> PhaseResult).
Context (a : bench_args) (python tools_dir base : pystr) (upstream_port : Z).

(** The threads of a phase do not add to the trace of the run. *)
Definition run_phase (call : phase_call) : net PhaseResult := fun t => (Ok (phases t call), t).

Definition write_files (files : list (pystr * pystr)) : net unit := each (fun file => write_text w file.1 file.2) files.

(** [for attempt in range(1, 4)] with [more] attempts left after this one: the port, the paths
    and the running proxy *)
Fixpoint start_layer (scenario layer : pystr) (o : layer_options) (attempt more : nat) (startup_errors : list pystr) :
    net (Z * (pystr * pystr * pystr) * running) :=
  perform proxy_port <- free_port w in
  let '(files, paths) := write_config base proxy_port upstream_port (ba_signature_threshold a) o in
  perform _ <- write_files files in
  let proxy_log := under base (u "proxy-" ++ layer ++ u "-" ++ scenario ++ u "-attempt" ++ dec_nat attempt ++ u ".log") in
  perform proxy <- start_proxy w (ba_binary a) paths.1.1 proxy_log in
  perform failed <- catch (perform _ <- wait_health w fuel proxy_port proxy in cret None) is_runtime_error
                      (fun err => cret (Some (exn_msg err))) in
  match failed with
  | None => cret (proxy_port, paths, proxy)
  | Some err =>
      let startup_errors := startup_errors ++ [u "attempt " ++ dec_nat attempt ++ u ": " ++ err] in
      perform _ <- stop_process w (Some proxy) in
      match more with
      | O => runtime_error (u "proxy did not become ready after 3 attempts" ++ [10%N] ++ join [10%N] startup_errors)
      | S more => perform _ <- sleep w (sec 2 10) in start_layer scenario layer o (S attempt) more startup_errors
      end
  end.

Definition start_analyzer (events filters log_path : pystr) (learn_observed : bool) : net running :=
  start_logged w (DefenseBench.start_analyzer a python tools_dir events filters learn_observed) [(u "PYTHONUNBUFFERED", u "1")] log_path.

Fixpoint filters_until (fuel : nat) (path : pystr) (started deadline : float) : net (list pydict * option float) :=
  perform now <- perf_counter w in
  if fltb now deadline then
    match fuel with
    | O => out_of_fuel
    | S fuel' =>
        perform text <- ask w (ReadText path) in
        perform filters <- clift (read_filters text) in
        match filters with
        | [] => perform _ <- sleep w (sec 25 100) in filters_until fuel' path started deadline
        | _ => perform now <- perf_counter w in cret (filters, Some (fsub now started))
        end
    end
  else cret ([], None).

Definition wait_for_filters (path : pystr) (started : float) : net (list pydict * option float) :=
  perform now <- perf_counter w in filters_until fuel path started (fadd now (ba_analyzer_wait a)).

(** A file that may be missing, read with [errors="replace"] *)
Definition read_if_there (path : pystr) : net (option pystr) :=
  perform there <- ask w (Exists path) in
  if (there : bool) then perform r <- ask w (ReadReplaced path) in perform text <- clift r in cret (Some text) else cret None.

(** [int(time.time() * 1000)] *)
Definition unix_ms : net Z := perform now <- ask w WallClock in clift (Z_of_float (fmul now (sec 1000 1))).

(** The [try] block of a layer from the first phase on *)
Definition measure_phases (scenario layer : pystr) (o : layer_options) (proxy_port : Z) (filters_path events_path analyzer_log : pystr)
    (before : list (pystr * float) * option pystr) : scope (option running) pydict :=
  perform collect_started_mono <- inner (perf_counter w) in
  perform collect_started_unix_ms <- inner unix_ms in
  let call := PhaseCall proxy_port scenario (ba_duration a) (ba_workers a) false (Some (scenario_per_request_sleep scenario)) false in
  perform collect <- inner (run_phase call) in
  perform found <- (if lo_analyzer o
                    then perform found <- inner (wait_for_filters filters_path collect_started_mono) in
                         perform _ <- match found.1 with [] => cret tt | _ => inner (sleep w (sec 12 10)) end in
                         cret found
                    else cret ([], None)) in
  perform replay <- (if lo_analyzer o then perform r <- inner (run_phase call) in cret (Some r) else cret None) in
  perform _ <- inner (sleep w BYPASS_PROBE_REFILL_SECONDS) in
  perform bypass <- inner (run_phase (PhaseCall proxy_port scenario BYPASS_PROBE_DURATION_SECONDS BYPASS_PROBE_WORKERS true
                                        (Some BYPASS_PROBE_SLEEP_SECONDS) false)) in
  perform log <- inner (read_if_there events_path) in
  perform events <- clift (read_bench_events log) in
  perform text <- inner (read_if_there analyzer_log) in
  let analyzer_tail := match text with Some text => last_n 8 (splitlines text) | None => [] end in
  perform after <- inner (try_fetch_metrics w fuel proxy_port) in
  clift (layer_payload scenario layer o before after collect replay bypass collect_started_unix_ms found.1 found.2 events analyzer_tail).

(** The whole [try] block; its local variable is the analyzer. *)
Definition measure_layer (scenario layer : pystr) (o : layer_options) (proxy_port : Z) (paths : pystr * pystr * pystr)
    (before : list (pystr * float) * option pystr) : scope (option running) pydict :=
  let '(_, filters_path, events_path) := paths in
  let analyzer_log := under base (u "analyzer-" ++ layer ++ u "-" ++ scenario ++ u ".log") in
  perform _ <- (if lo_analyzer o
                then perform p <- inner (start_analyzer events_path filters_path analyzer_log (lo_learn_observed o)) in
                     update (fun _ => Some p)
                else cret tt) in
  measure_phases scenario layer o proxy_port filters_path events_path analyzer_log before.

Definition run_proxy_layer (scenario layer : pystr) (o : layer_options) : net pydict :=
  perform started <- start_layer scenario layer o 1 2 [] in
  let '(proxy_port, paths, proxy) := started in
  perform metrics_before <- try_fetch_metrics w fuel proxy_port in
  finally_with None (measure_layer scenario layer o proxy_port paths metrics_before)
    (fun analyzer_proc => perform _ <- stop_process w analyzer_proc in stop_process w (Some proxy)).

(** ** A scenario *)

Definition run_scenario (scenario : pystr) : net pydict :=
  perform direct <- run_phase (PhaseCall upstream_port scenario (ba_duration a) (ba_workers a) false None true) in
  perform summary <- clift (summarize_phase direct) in
  perform layers <- for_each (fun item => let '(key, layer, o) := item in
                                perform payload <- run_proxy_layer scenario layer o in cret (key, VDict payload))
                      (scenario_layers a scenario) in
  cret ((u "direct_upstream", VDict summary) :: layers).

Fixpoint run_scenarios (scenarios : list pystr) (results : pydict) : net pydict :=
  match scenarios with
  | [] => cret results
  | scenario :: rest => perform r <- run_scenario scenario in run_scenarios rest (dset scenario (VDict r) results)
  end.
End layer.

(** ** [main] *)

Section main.
Context (w : world) (fuel : nat) (phases : trace -> phase_call -> PhaseResult).
Context (now : utc_time) (run_git : pystr -> list pystr -> option (Z * pystr)) (cwd python tools_dir : pystr).

(** What the report says of the surroundings of a run in [tmp]. *)
Definition surroundings (tmp : pystr) (scenarios : pystr -> scenario_io) : DefenseBench.bench_world :=
  DefenseBench.BenchWorld true now run_git cwd tmp scenarios.

Definition no_layer : layer_io := LayerIO (fun _ => (0%Z, None)) (Ok []) (Ok []) empty_phase empty_phase empty_phase f0 0 f0 [] None None.
Definition no_scenario : scenario_io := ScenarioIO empty_phase (fun _ => no_layer).

Definition run_and_print (a : bench_args) (tmp : pystr) (upstream_port : Z) (scenarios : list pystr) : net unit :=
  perform results <- run_scenarios w fuel phases a python tools_dir tmp upstream_port scenarios [] in
  let report := report_of a (surroundings tmp (fun _ => no_scenario)) results in
  perform table <- clift (if ba_json_only a then Ok [] else print_table report) in
  each (fun text => ask w (PrintText text)) (table ++ [dumps pretty_style (VDict report)]).

Definition defense_main (a : bench_args) : net unit :=
  perform there <- ask w (Exists (ba_binary a)) in
  if negb there then clift (Raise (Exn SystemExit (u "binary not found: " ++ ba_binary a ++ u "; run cargo build --release first")))
  else
    let scenarios := resolve_scenarios (ba_preset a) (ba_scenarios a) in
    match filter (fun item => one_of item KNOWN_SCENARIOS = false) scenarios with
    | (_ :: _) as unknown => clift (Raise (Exn SystemExit (u "unknown scenarios: " ++ join (u ", ") unknown)))
    | [] =>
        perform r <- ask w MakeTempDir in
        perform tmp <- clift r in
        finally
          (perform upstream_port <- free_port w in
           perform r <- ask w (Serve NoContentHttp upstream_port) in
           perform upstream <- clift r in
           finally
             (finally (run_and_print a tmp upstream_port scenarios) (ask w (Shutdown upstream)))
             (ask w (CloseServer upstream)))
          (ask w (RemoveTempDir tmp))
    end.
End main.

(** ** A sample run *)

Definition basic_args : bench_args := BenchArgs (u "altura-prot") (u "codex") true f0 8 f0 80 80 60 (u "basic") None true.

Abbreviation sample_run :=
  (defense_main quiet 3 (fun _ _ => sample_local 0) (Utc 2026 6 22 10 0 0) (fun _ _ => None) (u "/repo") (u "python3") (u "tools")
     basic_args []).
