(* ===== verification/DefenseRefine.v ===== *)
(** * DefenseRefine: the defense benchmark does what its report model says

    A completed run of [tools/run_defense_bench.py], with its processes, files, clocks and
    retries ([DefenseRun]), prints a report that [DefenseBench] computes from some values
    read on the way; and it leaves no process, server or connection behind. *)

From S2P Require Import Prelude Unicode PyStr PyTime PyFloat PyVal PyDyn Json Provenance Scenarios Phase DefenseAssert DefenseBench.
From S2P Require Import BenchNet BenchLogic BenchHttp BenchOrigin BenchSend BenchConns TrafficBase BenchTidy DefenseRun.

(** ** Refinement *)

(** The results of phases satisfy [P]. *)
Definition layer_phases (P : PhaseResult -> Prop) (io : layer_io) : Prop := P (li_collect io) /\ P (li_replay io) /\ P (li_bypass io).
Definition scenario_phases (P : PhaseResult -> Prop) (io : scenario_io) : Prop :=
  P (si_direct io) /\ forall layer, layer_phases P (si_layer io layer).

Section refinement.
Context (w : world) (fuel : nat) (phases : trace -> phase_call -> PhaseResult).
Context (a : bench_args) (python tools_dir base : pystr) (upstream_port : Z).
Context (P : PhaseResult -> Prop) (HP : forall t call, P (phases t call)).

(** For what a run does not reach. *)
Definition some_phase : PhaseResult := phases [] (PhaseCall 0 [] f0 0 false None false).
Definition some_layer : layer_io := LayerIO (fun _ => (0%Z, None)) (Ok []) (Ok []) some_phase some_phase some_phase f0 0 f0 [] None None.

Lemma some_layer_phases : layer_phases P some_layer.
Proof. split_and!; apply HP. Qed.

Ltac any := eapply returns_bind; [apply returns_any|].

Lemma try_fetch_metrics_refines port :
  returns (DefenseRun.try_fetch_metrics w fuel port) (fun m => exists page, DefenseBench.try_fetch_metrics page = Ok m).
Proof.
  apply returns_catch.
  - apply (returns_bind (fun m => exists body, m = parse_metrics body)).
    + unfold fetch_metrics. any. intros body _. apply returns_ret. by exists body.
    + intros m [body ->]. apply returns_ret. by exists (Ok body).
  - intros e. apply returns_ret. exists (Raise (Exn RuntimeError (exn_msg e))). cbn. by rewrite bool_decide_eq_true_2.
Qed.

Lemma filters_until_refines n path started deadline :
  returns (filters_until w n path started deadline)
    (fun found => exists polls, DefenseBench.wait_for_filters started deadline polls = Ok found).
Proof.
  induction n as [|n IH]; cbn [filters_until]; any; intros now _;
    (destruct (fltb now deadline) eqn:En; [|apply returns_ret; by exists []]); [done|].
  any. intros text _. apply (returns_bind (fun filters => read_filters text = Ok filters)); [by apply returns_lift|].
  intros [|f filters] Hf.
  - any. intros _ _.
    intros s v s' E. destruct (IH s v s' E) as [polls Hp]. exists (DefenseBench.Poll now text f0 :: polls). cbn. by rewrite En, Hf.
  - any. intros now' _. apply returns_ret. exists [DefenseBench.Poll now text now']. cbn. by rewrite En, Hf.
Qed.

Lemma run_phase_returns call : returns (DefenseRun.run_phase phases call) P.
Proof. intros t v t' [= <- <-]. apply HP. Qed.

(** A completed layer: its result is the one [DefenseBench] computes from what was read. *)
Lemma layer_refines scenario layer o :
  returns (DefenseRun.run_proxy_layer w fuel phases a python tools_dir base upstream_port scenario layer o)
    (fun d => exists io, layer_phases P io /\ DefenseBench.run_proxy_layer scenario layer o io = Ok d).
Proof.
  unfold DefenseRun.run_proxy_layer. any. intros [[port paths] proxy] _.
  eapply returns_bind; [apply try_fetch_metrics_refines|]. intros before [page Hbefore]. apply returns_finally_with.
  unfold measure_layer. destruct paths as [[config filters_path] events_path]. cbn zeta. any. intros _ _. unfold measure_phases. any. intros mono _.
  any. intros ms _. eapply returns_bind; [apply returns_inner, run_phase_returns|]. intros collect Hc.
  apply (returns_bind (fun found : list pydict * option float => exists deadline polls,
    (if lo_analyzer o then DefenseBench.wait_for_filters mono deadline polls else Ok ([], None)) = Ok found)).
  { destruct (lo_analyzer o); [|apply returns_ret; by exists f0, []].
    apply (returns_bind (fun found => exists deadline polls, DefenseBench.wait_for_filters mono deadline polls = Ok found)).
    - apply returns_inner. unfold DefenseRun.wait_for_filters. any. intros now _. intros s v s' E.
      exists (fadd now (ba_analyzer_wait a)). by apply (filters_until_refines _ _ _ _ _ _ _ E).
    - intros found Hf. any. intros _ _. by apply returns_ret. }
  intros found (deadline & polls & Hfound).
  apply (returns_bind (fun replay => exists r, P r /\ replay = if lo_analyzer o then Some r else None)).
  { destruct (lo_analyzer o); [|apply returns_ret; by (exists some_phase; split; [apply HP|])].
    eapply returns_bind; [apply returns_inner, run_phase_returns|]. intros r Hr. apply returns_ret. by exists r. }
  intros replay (r & Hr & ->). any. intros _ _. eapply returns_bind; [apply returns_inner, run_phase_returns|]. intros bypass Hb.
  any. intros log _. apply (returns_bind (fun events => read_bench_events log = Ok events)); [by apply returns_lift|].
  intros events He. any. intros text _. eapply returns_bind; [apply returns_inner, try_fetch_metrics_refines|].
  intros after [page' Hafter]. apply returns_lift. intros d Hd.
  exists (LayerIO (fun _ => (port, None)) page page' collect r bypass mono ms deadline polls log text). split; [done|].
  unfold DefenseBench.run_proxy_layer. cbn [start_attempts li_start rbind li_before li_after li_started li_deadline li_polls li_events li_log
    li_collect li_replay li_bypass li_started_ms]. rewrite Hbefore. cbn [rbind]. rewrite Hfound. cbn [rbind]. destruct found as [filters secs].
  rewrite He. cbn [rbind]. rewrite Hafter. cbn [rbind]. exact Hd.
Qed.

(** The layers of a scenario, in order. *)
Definition pure_layer (scenario : pystr) (io : pystr -> layer_io) (item : pystr * pystr * layer_options) : res (pystr * pyval) :=
  let '(key, layer, o) := item in
  let* payload := DefenseBench.run_proxy_layer scenario layer o (io layer) in Ok (key, VDict payload).

Lemma mapR_ext {A B} (f g : A -> res B) l : (forall x, x ∈ l -> f x = g x) -> mapR f l = mapR g l.
Proof.
  induction l as [|x l IH]; intros H; [done|]. cbn. rewrite (H x), IH; [done| |apply elem_of_cons; by left].
  intros y Hy. apply H, elem_of_cons. by right.
Qed.

Lemma pure_layer_other scenario io io' layer items :
  layer ∉ (fun item : pystr * pystr * layer_options => item.1.2) <$> items ->
  mapR (pure_layer scenario (fun x => if str_eqb x layer then io' else io x)) items = mapR (pure_layer scenario io) items.
Proof.
  intros Hn. apply mapR_ext. intros [[key name] o] Hin. unfold pure_layer. destruct (str_eqb name layer) eqn:E; [|done].
  apply str_eqb_eq in E as ->. destruct Hn. by apply (list_elem_of_fmap_2 (fun item => item.1.2) items (key, layer, o)).
Qed.

Lemma layers_refine scenario items :
  NoDup ((fun item : pystr * pystr * layer_options => item.1.2) <$> items) ->
  returns (for_each (fun item => let '(key, layer, o) := item in
             perform payload <- DefenseRun.run_proxy_layer w fuel phases a python tools_dir base upstream_port scenario layer o in
             cret (key, VDict payload)) items)
    (fun layers => exists io, (forall layer, layer_phases P (io layer)) /\ mapR (pure_layer scenario io) items = Ok layers).
Proof.
  induction items as [|[[key layer] o] items IH]; intros Hnd; cbn [for_each].
  - apply returns_ret. exists (fun _ => some_layer). split; [intros; apply some_layer_phases|done].
  - cbn [fmap list_fmap fst snd] in Hnd. apply NoDup_cons in Hnd as [Hn Hnd].
    apply (returns_bind (fun kv => exists io d, layer_phases P io /\ kv = (key, VDict d) /\
      DefenseBench.run_proxy_layer scenario layer o io = Ok d)).
    { eapply returns_bind; [apply layer_refines|]. intros d (io & Hp & Hd). apply returns_ret. by exists io, d. }
    intros kv (io' & d & Hp & -> & Hd). eapply returns_bind; [by apply IH|]. intros layers (io & Hps & Hm). apply returns_ret.
    exists (fun x => if str_eqb x layer then io' else io x). split; [intros x; by destruct (str_eqb x layer)|].
    cbn [mapR]. rewrite pure_layer_other, Hm by done. cbn [pure_layer].
    by rewrite (proj2 (str_eqb_eq layer layer) eq_refl), Hd.
Qed.

Lemma scenario_refines scenario :
  returns (DefenseRun.run_scenario w fuel phases a python tools_dir base upstream_port scenario)
    (fun d => exists io, scenario_phases P io /\ DefenseBench.run_scenario a io scenario = Ok d).
Proof.
  unfold DefenseRun.run_scenario. eapply returns_bind; [apply run_phase_returns|]. intros direct Hd.
  apply (returns_bind (fun s => summarize_phase direct = Ok s)); [by apply returns_lift|]. intros summary Hs.
  eapply returns_bind; [apply layers_refine|].
  - unfold scenario_layers. destruct (scenario_runs_observed_learning scenario); apply (bool_decide_unpack _); vm_compute; done.
  - intros layers (io & Hp & Hm). apply returns_ret. exists (ScenarioIO direct io). split; [done|].
    unfold DefenseBench.run_scenario. cbn [si_direct si_layer]. rewrite Hs. cbn [rbind]. fold (pure_layer scenario io). by rewrite Hm.
Qed.

(** The scenarios, in order; distinct ones, so that each has surroundings of its own. *)
Definition pure_scenario (io : pystr -> scenario_io) (results : pydict) (scenario : pystr) : res pydict :=
  let* r := DefenseBench.run_scenario a (io scenario) scenario in Ok (dset scenario (VDict r) results).

Lemma foldM_ext {A S} (f g : S -> A -> res S) l s : (forall s x, x ∈ l -> f s x = g s x) -> foldM f s l = foldM g s l.
Proof.
  revert s. induction l as [|x l IH]; intros s H; [done|]. cbn. rewrite (H s x) by (apply elem_of_cons; by left).
  destruct (g s x); [|done]. cbn. apply IH. intros s' y Hy. apply H, elem_of_cons. by right.
Qed.

Lemma scenarios_refine scenarios results :
  NoDup scenarios ->
  returns (DefenseRun.run_scenarios w fuel phases a python tools_dir base upstream_port scenarios results)
    (fun d => exists io, (forall scenario, scenario_phases P (io scenario)) /\ foldM (pure_scenario io) results scenarios = Ok d).
Proof.
  intros Hnd. revert results. induction Hnd as [|scenario scenarios Hn Hnd IH]; intros results; cbn [DefenseRun.run_scenarios].
  - apply returns_ret. exists (fun _ => ScenarioIO some_phase (fun _ => some_layer)). split; [|done]. split; [apply HP|intros; apply some_layer_phases].
  - eapply returns_bind; [apply scenario_refines|]. intros r (io' & Hp & Hr). intros s d s' E.
    destruct (IH _ _ _ _ E) as (io & Hps & Hf). exists (fun x => if str_eqb x scenario then io' else io x).
    split; [intros x; by destruct (str_eqb x scenario)|]. cbn [foldM]. unfold pure_scenario at 1.
    rewrite (proj2 (str_eqb_eq scenario scenario) eq_refl), Hr. cbn [rbind]. rewrite <-Hf. apply foldM_ext.
    intros s0 x Hx. unfold pure_scenario. destruct (str_eqb x scenario) eqn:Ex; [|done]. by apply str_eqb_eq in Ex as ->.
Qed.
End refinement.

(** ** The whole run *)

Definition printed (lines : list pystr) : trace := (fun text => Event (PrintText text) tt) <$> lines.

Lemma print_each w lines t : each (fun text => ask w (PrintText text)) lines t = (Ok tt, t ++ printed lines).
Proof.
  revert t. induction lines as [|l lines IH]; intros t; cbn [each]; [by rewrite app_nil_r|].
  unfold cbind, ask at 1. rewrite IH. destruct (w t (PrintText l)). by rewrite <-app_assoc.
Qed.

Lemma cbind_ok {S A B} (m : eff S A) (f : A -> eff S B) s y s' :
  cbind m f s = (Ok y, s') -> exists x s1, m s = (Ok x, s1) /\ f x s1 = (Ok y, s').
Proof. unfold cbind. destruct (m s) as [[x|e] s1]; [|done]. by exists x, s1. Qed.

Lemma finally_ok {S A} (m : eff S A) f s y s' : finally m f s = (Ok y, s') -> exists s1, m s = (Ok y, s1) /\ f s1 = (Ok tt, s').
Proof. unfold finally. destruct (m s) as [r s1]. destruct (f s1) as [[[]|] s2] eqn:E; [|done]. intros [= -> <-]. by exists s1. Qed.

Section main.
Context (w : world) (fuel : nat) (phases : trace -> phase_call -> PhaseResult).
Context (now : utc_time) (run_git : pystr -> list pystr -> option (Z * pystr)) (cwd python tools_dir : pystr).
Context (P : PhaseResult -> Prop) (HP : forall t call, P (phases t call)).

Lemma run_and_print_refines a tmp upstream_port scenarios t t' :
  NoDup scenarios ->
  run_and_print w fuel phases now run_git cwd python tools_dir a tmp upstream_port scenarios t = (Ok tt, t') ->
  exists io results lines t1, (forall scenario, scenario_phases P (io scenario)) /\
    DefenseBench.run_scenarios a (surroundings now run_git cwd tmp io) scenarios = Ok results /\
    (let report := report_of a (surroundings now run_git cwd tmp io) results in
     let* table := if ba_json_only a then Ok [] else print_table report in Ok (table ++ [dumps pretty_style (VDict report)])) = Ok lines /\
    t' = t1 ++ printed lines.
Proof.
  intros Hnd E. unfold run_and_print in E. apply cbind_ok in E as (results & t1 & E1 & E). apply cbind_ok in E as (table & t2 & E2 & E).
  injection E2 as E2 <-. rewrite print_each in E. injection E as <-.
  destruct (scenarios_refine w fuel phases a python tools_dir tmp upstream_port P HP scenarios [] Hnd _ _ _ E1) as (io & Hp & Hf).
  exists io, results, (table ++ [dumps pretty_style (VDict (report_of a (surroundings now run_git cwd tmp io) results))]), t1.
  split_and!; [done|exact Hf| |done]. cbn zeta.
  change (report_of a (surroundings now run_git cwd tmp io) results) with (report_of a (surroundings now run_git cwd tmp (fun _ => no_scenario)) results).
  by rewrite E2.
Qed.

End main.

Definition ran_ok (r : res unit * trace) : bool := is_ok r.1.

Lemma ran_ok_spec r : ran_ok r = true -> r = (Ok tt, r.2).
Proof. by destruct r as [[[]|] t]. Qed.

