(* ===== verification/DefenseSafe.v ===== *)
(** * DefenseSafe: a run of the defense benchmark leaves nothing behind

    [tools/run_defense_bench.py]: each proxy, analyzer, server and HTTP connection of a run
    is given up again, however the run ends, as long as the calls raise what their
    documentation says. *)

From S2P Require Import Prelude Unicode PyStr PyTime PyFloat PyVal PyDyn Json Provenance Scenarios Phase DefenseBench.
From S2P Require Import BenchNet BenchLogic BenchHttp BenchOrigin BenchSend BenchConns TrafficBase BenchTidy DefenseRun.

(** A loop was cut off: the run has not ended. *)
Definition is_cut (e : exn) : Prop := exn_class e = OutOfFuel.

(** [m], when it ends, leaves nothing behind and gives up [hs]. *)
Definition closes {A} (hs : list handle) (m : net A) : Prop :=
  forall t r t', m t = (r, t') -> (forall e, r = Raise e -> ~ is_cut e) ->
    exists d, t' = t ++ d /\ balanced d /\ given_up hs d.

Section rules.
Context (w : world).

Lemma closes_tidy {A} hs (m : net A) : tidy_but hs m -> closes hs m.
Proof. intros Hm t r t' E _. by apply (Hm _ _ _ E). Qed.

(** A sequence whose first part does not raise, so that the second gives the handles up. *)
Lemma closes_bind_keep {A B} hs (m : net A) (f : A -> net B) :
  tidy m -> raises m is_cut -> (forall x, closes hs (f x)) -> closes hs (cbind m f).
Proof.
  intros Hm Hr Hf t r t' E Hc. unfold cbind in E. destruct (m t) as [[x|e] t1] eqn:E1.
  - destruct (Hm _ _ _ E1) as (d1 & T1 & B1 & _). unfold trace_of, traced_trace in T1. subst t1.
    destruct (Hf _ _ _ _ E Hc) as (d2 & -> & B2 & G2). exists (d1 ++ d2). rewrite app_assoc.
    split_and!; [done|by apply balanced_app|by apply given_up_app_r].
  - injection E as <- <-. destruct (Hc e eq_refl). by eapply Hr.
Qed.

(** The first part gives the handles up. *)
Lemma closes_bind_first {A B} hs (m : net A) (f : A -> net B) :
  tidy_but hs m -> (forall x, closes [] (f x)) -> closes hs (cbind m f).
Proof.
  intros Hm Hf t r t' E Hc. unfold cbind in E. destruct (m t) as [[x|e] t1] eqn:E1;
    destruct (Hm _ _ _ E1) as (d1 & T1 & B1 & G1); unfold trace_of, traced_trace in T1; subst t1.
  - destruct (Hf _ _ _ _ E Hc) as (d2 & -> & B2 & G2). exists (d1 ++ d2). rewrite app_assoc.
    split_and!; [done|by apply balanced_app|by apply given_up_app_l].
  - injection E as <- <-. by exists d1.
Qed.

Lemma closes_bind {A B} (m : net A) (f : A -> net B) : closes [] m -> (forall x, closes [] (f x)) -> closes [] (cbind m f).
Proof.
  intros Hm Hf t r t' E Hc. unfold cbind in E. destruct (m t) as [[x|e] t1] eqn:E1.
  - destruct (Hm _ _ _ E1) as (d1 & -> & B1 & _); [done|]. destruct (Hf _ _ _ _ E Hc) as (d2 & -> & B2 & G2). exists (d1 ++ d2).
    rewrite app_assoc. split_and!; [done|by apply balanced_app|constructor].
  - injection E as <- <-. destruct (Hm _ _ _ E1) as (d1 & -> & B1 & _); [|exists d1; split_and!; [done..|constructor]].
    intros e' [= <-]. by apply Hc.
Qed.

Lemma closes_assoc {A B C} hs (m : net A) (f : A -> net B) (g : B -> net C) :
  closes hs (cbind m (fun x => cbind (f x) g)) -> closes hs (cbind (cbind m f) g).
Proof. intros H t r t' E. apply (H t r t'). rewrite <-E. unfold cbind. by destruct (m t) as [[x|e] t1]. Qed.

Lemma closes_ok {A B} hs (x : A) (f : A -> net B) : closes hs (f x) -> closes hs (cbind (clift (Ok x)) f).
Proof. done. Qed.

Lemma closes_finally {A} hs (m : net A) (f : net unit) : closes [] m -> tidy_but hs f -> raises f (fun _ => False) -> closes hs (finally m f).
Proof.
  intros Hm Hf Hr t r t' E Hc. unfold finally in E. destruct (m t) as [r1 t1] eqn:E1, (f t1) as [[x|e] t2] eqn:E2.
  - injection E as -> ->. destruct (Hm _ _ _ E1 Hc) as (d1 & -> & B1 & _), (Hf _ _ _ E2) as (d2 & T2 & B2 & G2).
    unfold trace_of, traced_trace in T2. subst t'. exists (d1 ++ d2). rewrite app_assoc.
    split_and!; [done|by apply balanced_app|by apply given_up_app_r].
  - destruct (Hr _ _ _ E2).
Qed.

Lemma closes_for_each {A B} (f : A -> net B) l : (forall x, closes [] (f x)) -> closes [] (for_each f l).
Proof.
  intros Hf. induction l as [|x l IH]; cbn [for_each]; [apply closes_tidy, tidy_ret|].
  apply closes_bind; [done|]. intros y. apply closes_bind; [done|]. intros ys. apply closes_tidy, tidy_ret.
Qed.

Lemma closes_acquire {B} c (k : answer c -> net B) :
  (forall a, closes (option_list (acquired c a)) (k a)) -> closes [] (cbind (ask w c) k).
Proof.
  intros Hk t r t' E Hc. destruct (Hk _ _ _ _ E Hc) as (d & -> & Hb & G). exists (Event c (w t c) :: d).
  rewrite <-app_assoc. split_and!; [done| |constructor]. cbn. split; [|done]. destruct (acquired _ _); [|done]. cbn in G. by inversion G.
Qed.
End rules.

(** ** What the calls may raise *)

Definition documented (w : world) : Prop :=
  (forall t c method path body headers e, w t (HttpRequest c method path body headers) = Raise e -> is_request_error e = true) /\
  (forall t c e, w t (GetResponse c) = Raise e -> is_request_error e = true) /\
  (forall t c e, w t (ReadBody c) = Raise e -> is_request_error e = true) /\
  (forall t path e, w t (ReadBinary path) = Raise e -> is_exception e = true) /\
  (forall t p timeout e, w t (Wait p timeout) = Raise e -> is_timeout_expired e = true).

(** A call whose answer is a value. *)
Ltac asked := solve [intros ? ? ? [=]].

Section operations.
Context (w : world) (fuel : nat) (Hw : documented w).

Lemma request_errors e : is_request_error e = true -> is_exception e = true.
Proof. unfold is_request_error, is_os_error, is_exception. by destruct (exn_class e). Qed.

Lemma raises_exchange c method path body headers : raises (http_exchange w c method path body headers) (fun e => is_request_error e = true).
Proof.
  destruct Hw as (H1 & H2 & H3 & _). unfold http_exchange.
  apply raises_ask_bind. intros t. apply raises_bind; [apply raises_lift; intros e; apply H1|intros _].
  apply raises_ask_bind. intros t'. apply raises_bind; [apply raises_lift; intros e; apply H2|intros head].
  apply raises_ask_bind. intros t''. apply raises_bind; [apply raises_lift; intros e; apply H3|intros b]. apply raises_ret.
Qed.

(** [RuntimeError], or a loop that was cut off. *)
Definition runtime_or_cut (e : exn) : Prop := is_runtime_error e = true \/ is_cut e.

Lemma raises_runtime_error {A} text : raises (runtime_error (A := A) text) runtime_or_cut.
Proof. intros t e t' [= <- <-]. by left. Qed.

Lemma raises_out_of_fuel {A} : raises (out_of_fuel (A := A)) runtime_or_cut.
Proof. intros t e t' [= <- <-]. by right. Qed.

Lemma raises_health_request port : raises (health_request w port) runtime_or_cut.
Proof.
  unfold health_request. apply raises_bind; [asked|intros c]. apply raises_finally; [|asked].
  eapply raises_catch.
  - apply raises_bind; [apply raises_exchange|]. intros r. apply raises_ret.
  - intros e He Hp. apply request_errors in He. by rewrite He in Hp.
  - intros e. apply raises_bind; [asked|]. intros _. apply raises_ret.
Qed.

Lemma raises_tail_text path : raises (tail_text w path) runtime_or_cut.
Proof.
  destruct Hw as (_ & _ & _ & H4 & _). unfold tail_text. apply raises_ask_bind. intros t.
  destruct (w t (ReadBinary path)) as [content|e] eqn:E; [apply raises_ret|]. by rewrite (H4 _ _ _ E).
Qed.

Lemma raises_wait_health_until n port process deadline last_error last_status :
  raises (wait_health_until w n port process deadline last_error last_status) runtime_or_cut.
Proof.
  revert last_error last_status. induction n as [|n IH]; intros last_error last_status; cbn [wait_health_until];
    (apply raises_bind; [asked|intros now]; destruct (fltb now deadline);
       [|apply raises_bind; [apply raises_tail_text|intros tl; apply raises_runtime_error]]); [apply raises_out_of_fuel|].
  apply raises_bind; [asked|]. intros [code|].
  - apply raises_bind; [apply raises_tail_text|]. intros tl. apply raises_runtime_error.
  - apply raises_bind; [apply raises_health_request|]. intros [status|name]; [|apply IH].
    destruct (status =? 200)%Z; [apply raises_ret|apply IH].
Qed.

Lemma raises_metrics_request port deadline : raises (metrics_request w port deadline) runtime_or_cut.
Proof.
  unfold metrics_request. apply raises_bind; [asked|intros c]. apply raises_finally; [|asked].
  eapply (raises_catch (fun e => is_request_error e = true \/ runtime_or_cut e)).
  - apply raises_bind; [intros t e t' E; left; by eapply raises_exchange|]. intros r. cbn zeta.
    destruct (_ =? 200)%Z; [apply raises_ret|]. destruct (negb _); [intros t e t' E; right; by eapply raises_runtime_error|].
    apply raises_bind; [asked|]. intros now. destruct (negb _); [intros t e t' E; right; by eapply raises_runtime_error|apply raises_ret].
  - intros e [He|He] Hp; [congruence|done].
  - intros e. cbn zeta. apply raises_bind; [asked|]. intros now. destruct (negb _); [apply raises_runtime_error|apply raises_ret].
Qed.

Lemma raises_metrics_until n port deadline : raises (metrics_until w n port deadline) runtime_or_cut.
Proof.
  induction n as [|n IH]; cbn [metrics_until]; [apply raises_out_of_fuel|]. apply raises_bind; [apply raises_metrics_request|].
  intros [body|last_error]; [apply raises_ret|]. apply raises_bind; [asked|]. intros now.
  destruct (negb _); [apply raises_runtime_error|]. apply raises_bind; [asked|]. by intros _.
Qed.

(** What may be raised outside the [try] blocks of a layer: nothing. *)
Lemma raises_try_fetch_metrics port : raises (DefenseRun.try_fetch_metrics w fuel port) is_cut.
Proof.
  eapply raises_catch.
  - apply raises_bind; [|intros m; apply raises_ret]. unfold DefenseRun.fetch_metrics. apply raises_bind; [|intros body; apply raises_ret].
    unfold metrics_page. apply raises_bind; [asked|]. intros now. apply raises_metrics_until.
  - intros e [He|He] Hp; [congruence|done].
  - intros e. apply raises_ret.
Qed.

Lemma raises_wait_health port process :
  raises (catch (perform _ <- DefenseRun.wait_health w fuel port process in cret None) is_runtime_error (fun e => cret (Some (exn_msg e)))) is_cut.
Proof.
  eapply raises_catch.
  - apply raises_bind; [|intros m; apply raises_ret]. unfold DefenseRun.wait_health. apply raises_bind; [asked|]. intros now.
    apply raises_wait_health_until.
  - intros e [He|He] Hp; [congruence|done].
  - intros e. apply raises_ret.
Qed.

Lemma raises_stop_process process : raises (DefenseRun.stop_process w process) (fun _ => False).
Proof.
  destruct Hw as (_ & _ & _ & _ & H5). destruct process as [[p log]|]; [|apply raises_ret]. cbn [DefenseRun.stop_process].
  apply raises_bind; [asked|intros status]. apply raises_bind; [|intros _; asked].
  destruct status; [apply raises_ret|]. unfold stop_wait. apply raises_bind; [asked|intros _].
  eapply (raises_catch (fun e => is_timeout_expired e = true)); [|congruence|intros e; asked].
  apply raises_bind; [|intros; apply raises_ret]. unfold wait_process. apply raises_ask_bind. intros t. apply raises_lift. intros e. apply H5.
Qed.
End operations.

(** ** Tidiness of the parts *)

Section parts.
Context (w : world) (fuel : nat) (phases : trace -> phase_call -> PhaseResult).
Context (a : bench_args) (python tools_dir base : pystr) (upstream_port : Z).

Lemma tidy_health_until n port process deadline last_error last_status :
  tidy (wait_health_until w n port process deadline last_error last_status).
Proof. revert last_error last_status. induction n as [|n IH]; intros; cbn [wait_health_until]; tidy. Qed.

Lemma tidy_metrics_until n port deadline : tidy (metrics_until w n port deadline).
Proof. induction n as [|n IH]; cbn [metrics_until]; tidy. Qed.

Lemma tidy_filters_until n path started deadline : tidy (filters_until w n path started deadline).
Proof. induction n as [|n IH]; cbn [filters_until]; tidy. Qed.

Lemma tidy_run_phase call : tidy (DefenseRun.run_phase phases call).
Proof. intros t r t' [= <- <-]. exists []. by rewrite app_nil_r. Qed.

Lemma tidy_stop_running p log : tidy_but [Process p] (DefenseRun.stop_process w (Some (p, log))).
Proof. cbn [DefenseRun.stop_process]. apply tidy_poll; [|intros; tidy]. apply tidy_bind_first; [apply tidy_stop_wait|intros; tidy]. Qed.

#[local] Hint Resolve tidy_health_until tidy_metrics_until tidy_filters_until tidy_run_phase : tidy.

Lemma tidy_try_fetch_metrics port : tidy (DefenseRun.try_fetch_metrics w fuel port).
Proof. unfold DefenseRun.try_fetch_metrics. tidy. Qed.

(** Starting a process with its log: the process is the last thing obtained, or nothing is. *)
Lemma start_logged_cases argv env log t r t' :
  start_logged w argv env log t = (r, t') ->
  (exists e d, r = Raise e /\ t' = t ++ d /\ balanced d) \/
  (exists p d, r = Ok (p, log) /\ t' = (t ++ d) ++ [Event (Popen argv env) (Ok p)] /\ balanced d).
Proof.
  unfold start_logged, popen, cbind, catch, ask, clift. destruct (w t (OpenWrite log)) as [[]|e] eqn:E1; cbn.
  - set (t1 := t ++ _). destruct (w t1 (Popen argv env)) as [p|e] eqn:E2; cbn.
    + intros [= <- <-]. right. exists p, [Event (OpenWrite log) (Ok tt)]. done.
    + destruct (is_exception e); intros [= <- <-]; left; unfold t1; eexists _, _; rewrite <-?app_assoc; (split; [done|]); (split; [done|]); done.
  - intros [= <- <-]. left. eexists _, _. split; [done|]. split; [done|]. done.
Qed.

Lemma closes_started {B} argv env log (k : running -> net B) :
  (forall p, closes [Process p] (k (p, log))) -> closes [] (cbind (start_logged w argv env log) k).
Proof.
  intros Hk t r t' E Hc. unfold cbind in E. destruct (start_logged w argv env log t) as [r1 t1] eqn:E1.
  destruct (start_logged_cases _ _ _ _ _ _ E1) as [(e & d & -> & -> & Hb)|(p & d & -> & -> & Hb)].
  - injection E as <- <-. exists d. split_and!; [done..|constructor].
  - destruct (Hk _ _ _ _ E Hc) as (d' & -> & Hb' & G). exists (d ++ [Event (Popen argv env) (Ok p)] ++ d').
    rewrite <-!app_assoc. split_and!; [done| |constructor]. apply balanced_app; [done|]. split; [|done]. cbn. by inversion G.
Qed.

(** ** A layer *)

Context (Hw : documented w).

Lemma closes_start_layer {B} scenario layer o attempt more errors (k : Z * (pystr * pystr * pystr) * running -> net B) :
  (forall x p log, closes [Process p] (k (x, (p, log)))) ->
  closes [] (cbind (start_layer w fuel a base upstream_port scenario layer o attempt more errors) k).
Proof.
  intros Hk. revert attempt errors. induction more as [|more IH]; intros attempt errors; cbn [start_layer].
  all: apply closes_assoc, closes_bind; [apply closes_tidy; tidy|intros port].
  all: destruct (DefenseBench.write_config _ _ _ _ _) as [files paths]; cbn zeta.
  all: apply closes_assoc, closes_bind; [apply closes_tidy; tidy|intros _].
  all: unfold DefenseRun.start_proxy; apply closes_assoc, closes_started; intros p.
  all: apply closes_assoc, closes_bind_keep; [tidy|by apply raises_wait_health|].
  all: intros [err|]; [|apply Hk].
  all: apply closes_assoc, closes_bind_first; [apply tidy_stop_running|intros _].
  - apply closes_tidy. exact (tidy_lift (Raise _)).
  - apply closes_assoc, closes_bind; [apply closes_tidy; tidy|intros _]. apply IH.
Qed.

(** The cleanup of a layer stops both processes. *)
Definition cleanup (proxy : running) (analyzer : option running) : net unit :=
  perform _ <- DefenseRun.stop_process w analyzer in DefenseRun.stop_process w (Some proxy).

Lemma tidy_cleanup_none p log : tidy_but [Process p] (cleanup (p, log) None).
Proof. apply tidy_ret_bind, tidy_stop_running. Qed.

Lemma tidy_cleanup_both p log q log' : tidy_but [Process q; Process p] (cleanup (p, log) (Some (q, log'))).
Proof.
  intros t r t' E. unfold cleanup, cbind in E. destruct (DefenseRun.stop_process w (Some (q, log')) t) as [[[]|e] t1] eqn:E1.
  - destruct (tidy_stop_running q log' _ _ _ E1) as (d1 & T1 & B1 & G1), (tidy_stop_running p log _ _ _ E) as (d2 & T2 & B2 & G2).
    exists (d1 ++ d2). unfold trace_of, traced_trace in *. subst t1 t'. rewrite app_assoc. split_and!; [done|by apply balanced_app|].
    apply (Forall_app _ [_] [_]). split; [by apply given_up_app_l|by apply given_up_app_r].
  - by destruct (raises_stop_process w Hw _ _ _ _ E1).
Qed.

(** From the first phase on the [try] block leaves its variable alone. *)
Lemma tidy_measure_phases scenario layer o port filters_path events_path log before :
  tidy (measure_phases w fuel phases a scenario layer o port filters_path events_path log before).
Proof. unfold measure_phases. tidy. Qed.

Lemma keeps_measure_phases l scenario layer o port filters_path events_path log before :
  keeps (fun l' => l' = l) (measure_phases w fuel phases a scenario layer o port filters_path events_path log before).
Proof.
  unfold measure_phases.
  repeat lazymatch goal with
         | |- keeps _ (let _ := _ in _) => cbv zeta
         | |- keeps _ (match ?x with _ => _ end) => destruct x
         | |- keeps _ (cret ?x) => apply (keeps_lift _ (Ok x))
         | |- _ => keeps_step
         end.
Qed.

Lemma closes_measured p plog scenario layer o port paths before :
  closes [Process p] (finally_with None (measure_layer w fuel phases a python tools_dir base scenario layer o port paths before) (cleanup (p, plog))).
Proof.
  destruct paths as [[config filters_path] events_path]. unfold measure_layer. cbn zeta. set (log := under base _).
  destruct (lo_analyzer o).
  - intros t r t' E Hc. unfold finally_with, cbind, inner, update in E.
    destruct (DefenseRun.start_analyzer w a python tools_dir events_path filters_path log (lo_learn_observed o) t) as [r1 t1] eqn:E1.
    destruct (start_logged_cases _ _ _ _ _ _ E1) as [(e & d & -> & -> & Hb)|(q & d & -> & -> & Hb)].
    + destruct (tidy_finally [Process p] (clift (Raise e)) _ (tidy_lift (Raise e)) (tidy_cleanup_none p plog) _ _ _ E) as (d' & T & Hb' & G).
      unfold trace_of, traced_trace in T. subst t'. exists (d ++ d'). rewrite app_assoc.
      split_and!; [done|by apply balanced_app|by apply given_up_app_r].
    + destruct (tidy_finally_keeps [Process q; Process p] (Some (q, log))
        (measure_phases w fuel phases a scenario layer o port filters_path events_path log before) (cleanup (p, plog))
        (tidy_measure_phases _ _ _ _ _ _ _ _)) with (2 := tidy_cleanup_both p plog q log) (3 := E) as (d' & T & Hb' & G).
      { intros s r' l' s' Em. by eapply (keeps_measure_phases _ _ _ _ _ _ _ _ _ _ _ _ _ _ eq_refl Em). }
      unfold trace_of, traced_trace in T. subst t'. inversion G as [|? ? Gq Gp]; subst.
      eexists (d ++ _ :: d'). rewrite app_assoc. cbn [app]. rewrite <-!app_assoc. split_and!; [done|apply balanced_app; [done|]; split; [exact Gq|done]|].
      apply given_up_app_r. constructor; [|constructor]. by inversion Gp.
  - apply closes_tidy. apply (tidy_finally_keeps [Process p] None); [apply tidy_measure_phases| |apply tidy_cleanup_none].
    intros s r' l' s' Em. by eapply (keeps_measure_phases _ _ _ _ _ _ _ _ _ _ _ _ _ _ eq_refl Em).
Qed.

Lemma closes_layer scenario layer o : closes [] (DefenseRun.run_proxy_layer w fuel phases a python tools_dir base upstream_port scenario layer o).
Proof.
  unfold DefenseRun.run_proxy_layer. apply closes_start_layer. intros [port paths] p log.
  apply closes_bind_keep; [apply tidy_try_fetch_metrics|by apply raises_try_fetch_metrics|]. intros before. apply closes_measured.
Qed.

Lemma closes_scenario scenario : closes [] (DefenseRun.run_scenario w fuel phases a python tools_dir base upstream_port scenario).
Proof.
  unfold DefenseRun.run_scenario. apply closes_bind; [apply closes_tidy, tidy_run_phase|intros direct].
  apply closes_bind; [apply closes_tidy, tidy_lift|intros summary]. apply closes_bind; [|intros layers; apply closes_tidy, tidy_ret].
  apply closes_for_each. intros [[key layer] o]. apply closes_bind; [apply closes_layer|]. intros payload. apply closes_tidy, tidy_ret.
Qed.

Lemma closes_scenarios scenarios results :
  closes [] (DefenseRun.run_scenarios w fuel phases a python tools_dir base upstream_port scenarios results).
Proof.
  revert results. induction scenarios as [|scenario scenarios IH]; intros results; cbn [DefenseRun.run_scenarios]; [apply closes_tidy, tidy_ret|].
  apply closes_bind; [apply closes_scenario|]. intros r. apply IH.
Qed.
End parts.

(** ** The run *)

Section run.
Context (w : world) (fuel : nat) (phases : trace -> phase_call -> PhaseResult) (Hw : documented w).
Context (now : utc_time) (run_git : pystr -> list pystr -> option (Z * pystr)) (cwd python tools_dir : pystr).

Lemma closes_defense_main args : closes [] (defense_main w fuel phases now run_git cwd python tools_dir args).
Proof.
  unfold defense_main. apply closes_bind; [apply closes_tidy; tidy|intros there]. destruct (negb there); [apply closes_tidy, tidy_lift|].
  cbn zeta. destruct (filter _ _); [|apply closes_tidy, tidy_lift].
  do 2 (apply closes_bind; [apply closes_tidy; tidy|intros ?]). apply closes_finally; [|tidy|asked].
  apply closes_bind; [apply closes_tidy; tidy|intros port]. apply closes_acquire. intros [s|e]; cbn [acquired option_list fmap option_map];
    [|apply closes_tidy; exact (tidy_lift (Raise e))].
  apply closes_ok, closes_finally; [|exact (tidy_close_server w s)|asked]. apply closes_finally; [|tidy|asked].
  unfold run_and_print. apply closes_bind; [by apply closes_scenarios|intros results]. cbn zeta.
  apply closes_bind; [apply closes_tidy, tidy_lift|intros table]. apply closes_tidy. tidy.
Qed.

End run.

(** Every process of the sample run, and that it ends. *)
Definition started (ev : event) : bool := match acquired (ev_call ev) (ev_answer ev) with Some (Process _) => true | _ => false end.

