(* ===== verification/StartupProbes.v ===== *)
(** * StartupProbes: the configurations the proxy must refuse

    [tools/run_local_bench.py], the [run_*_startup_probe] functions: each writes
    configurations with one forbidden setting, starts the proxy on each and reports
    whether it exited with an error that names the setting.  A nested [run_case] is the
    definition [*_case] before its probe. *)

From Stdlib Require Import SpecFloat.
From S2P Require Import Prelude Unicode PyStr PyFloat PyVal Json LocalProbe.

(** ** Limits the proxy supports *)

Definition HTTP_HEADER_BUFFER_MAX_BYTES : Z := (256 * 1024)%Z.
Definition HTTP_HEADER_COUNT_MAX : Z := 1024.
Definition HTTP_HOST_MAX_BYTES_MAX : Z := 1024.
Definition HTTP_REQUEST_TARGET_MAX_BYTES : Z := (64 * 1024)%Z.
Definition HTTP_QUERY_PAIR_COUNT_MAX : Z := 8192.
Definition HTTP_PATH_SEGMENT_COUNT_MAX : Z := 4096.
Definition HTTP_HEADER_READ_TIMEOUT_MAX_MS : Z := 60000.
Definition HTTP_DOWNSTREAM_WRITE_TIMEOUT_MAX_MS : Z := 60000.
Definition HTTP_BODY_IDLE_TIMEOUT_MAX_MS : Z := 60000.
Definition HTTP_BODY_MIN_RATE_BYTES_PER_SECOND_MAX : Z := 1048576.
Definition HTTP_BODY_MIN_RATE_GRACE_MAX_MS : Z := 60000.
Definition HTTP_MAX_BODY_BYTES_MAX : Z := 1073741824.
Definition HTTP_MAX_UPSTREAM_BODY_BYTES_MAX : Z := 1073741824.
Definition HTTP_TRAILER_BYTES_MAX : Z := HTTP_HEADER_BUFFER_MAX_BYTES.
Definition HTTP_TRAILER_COUNT_MAX : Z := HTTP_HEADER_COUNT_MAX.
Definition HTTP_FORWARDED_FOR_BYTES_MAX : Z := (16 * 1024)%Z.
Definition HTTP_FORWARDED_FOR_HOPS_MAX : Z := 256.
Definition HTTP_UPSTREAM_CONNECT_TIMEOUT_MAX_MS : Z := 60000.
Definition HTTP_UPSTREAM_TIMEOUT_MAX_MS : Z := 60000.
Definition HTTP_UPSTREAM_FAILURE_THRESHOLD_MAX : Z := 1024.
Definition HTTP_UPSTREAM_FAILURE_OPEN_MAX_MS : Z := 300000.
Definition HTTP_UPSTREAM_POOL_IDLE_TIMEOUT_MAX_MS : Z := 60000.
Definition HTTP_UPSTREAM_POOL_MAX_IDLE_PER_HOST_MAX : Z := 4096.
Definition HTTP_MAX_CONNECTION_DURATION_MAX_SECONDS : Z := 3600.
Definition HTTP_MAX_REQUESTS_PER_CONNECTION_MAX : Z := 10000.
Definition TCP_CONNECT_TIMEOUT_MAX_MS : Z := 60000.
Definition TCP_MIN_RATE_BYTES_PER_SECOND_MAX : Z := 1048576.
Definition TCP_MAX_CONNECTION_DURATION_MAX_SECONDS : Z := 3600.
Definition FILTER_RUNTIME_FILE_MAX_BYTES_MAX : Z := ((16 * 1024) * 1024)%Z.
Definition FILTER_RULE_COUNT_MAX : Z := 8192.
Definition FILTER_TTL_MAX_SECONDS : Z := ((24 * 60) * 60)%Z.
Definition ADAPTIVE_EVENT_LOG_MAX_BYTES_MAX : Z := 1073741824.
Definition ADAPTIVE_WINDOW_COUNT_MAX : Z := 262144.
Definition LIMITER_MAX_TRACKED_IPS_MAX : Z := 1048576.
Definition LIMITER_MAX_TRACKED_SIGNATURES_MAX : Z := 262144.
Definition LIMITER_MAX_TRACKED_PATH_SHAPES_MAX : Z := 262144.
Definition EVENT_LOG_BACKUP_COUNT_MAX : Z := 128.
Definition EVENT_LOG_QUEUE_CAPACITY_MAX : Z := 8192.

(** [-1.0] *)
Definition minus_one : float := S754_finite true 4503599627370496 (-52).

(** An [int | None] argument in a report. *)
Definition optional_int (n : option Z) : pyval := match n with Some z => VInt z | None => VNone end.

(** [cases[name]] *)
Definition case_of (cases : list (pystr * pydict)) (name : pystr) : pydict := default [] (dget name cases).

(** ** Probes *)

Section probes.
Context (w : bench_world) (binary : pystr) (upstream_port tcp_upstream_port : Z) (tmp_path : pystr).

Definition run_trusted_proxy_global_trust_startup_probe : bench pydict :=
  perform proxy_port <- free_port w in
  let filters_path := joined tmp_path (u "trusted-proxy-global-trust-filters.json") in
  let events_path := joined tmp_path (u "trusted-proxy-global-trust-events.jsonl") in
  perform _ <- write_text filters_path (uq "{'filters': []}" ++ [10%N]) in
  let cfg := [
      (u "http", VDict [
        (u "listen", VStr (u "0.0.0.0:" ++ dec_Z proxy_port));
        (u "upstream", VStr (u "http://127.0.0.1:" ++ dec_Z upstream_port));
        (u "preserve_host", VBool true);
        (u "admin_token", VStr (u "trusted-proxy-global-trust-token"));
        (u "client_ip", VDict [
          (u "header", VStr (u "x-forwarded-for"));
          (u "trusted_proxies", VList [VStr (u "0.0.0.0/0")])])]);
      (u "tcp", VList []);
      (u "filters", VDict [
        (u "runtime_file", VStr filters_path);
        (u "reload_seconds", VInt 1);
        (u "static_rules", VList [])]);
      (u "adaptive", VDict [
        (u "enabled", VBool true);
        (u "signature_threshold_per_second", VInt 1000000);
        (u "activation_ttl_seconds", VInt 10);
        (u "event_log", VStr events_path);
        (u "event_cooldown_seconds", VInt 1)])] in
  let config_path := joined tmp_path (u "trusted-proxy-global-trust-config.json") in
  perform _ <- write_text config_path (dumps default_style (VDict cfg)) in
  perform proxy <- start_proxy w binary config_path in
  cret [
      (u "exit_code", VInt (returncode proxy));
      (u "stderr_tail", stderr_tail proxy);
      (u "global_trusted_proxy_rejected", VBool (rejected proxy [
        u "must not trust all IPv4 peers";
        u "non-loopback listener"]))].

Definition negative_rate_case (name : pystr) (cfg : pydict) (expected_path : pystr) : bench pydict :=
  let config_path := joined tmp_path (u "negative-rate-" ++ name ++ u "-config.json") in
  perform _ <- write_text config_path (dumps default_style (VDict cfg)) in
  perform proxy <- start_proxy w binary config_path in
  cret [
      (u "configured_field", VStr expected_path);
      (u "exit_code", VInt (returncode proxy));
      (u "stderr_tail", stderr_tail proxy);
      (u "startup_rejected", VBool (rejected proxy [expected_path; u "must be finite and non-negative"]))].

Definition run_negative_rate_startup_probe : bench pydict :=
  perform http_port <- free_port w in
  perform tcp_port <- free_port w in
  let http_cfg := [
      (u "http", VDict [
        (u "listen", VStr (u "127.0.0.1:" ++ dec_Z http_port));
        (u "upstream", VStr (u "http://127.0.0.1:" ++ dec_Z upstream_port));
        (u "limits", VDict [(u "per_ip_rps", VFloat minus_one)])]);
      (u "tcp", VList [])] in
  let tcp_cfg := [(u "tcp", VList [VDict [
          (u "name", VStr (u "negative-rate-tcp"));
          (u "listen", VStr (u "127.0.0.1:" ++ dec_Z tcp_port));
          (u "upstream", VStr (u "127.0.0.1:" ++ dec_Z tcp_upstream_port));
          (u "limits", VDict [(u "global_connects_per_second", VFloat minus_one)])]])] in
  perform http_case <- negative_rate_case (u "http") http_cfg (u "http.limits.per_ip_rps") in
  perform tcp_case <- negative_rate_case (u "tcp") tcp_cfg (u "tcp[0].limits.global_connects_per_second") in
  cret [
      (u "http_negative_rate", VDict http_case);
      (u "tcp_negative_rate", VDict tcp_case);
      (u "negative_http_rate_rejected", startup_rejected http_case);
      (u "negative_tcp_rate_rejected", startup_rejected tcp_case)].

Definition admin_prefix_case (name : pystr) (admin_path_prefix : pystr) (expected_message : pystr) : bench pydict :=
  perform proxy_port <- free_port w in
  let cfg := [
      (u "http", VDict [
        (u "listen", VStr (u "127.0.0.1:" ++ dec_Z proxy_port));
        (u "upstream", VStr (u "http://127.0.0.1:" ++ dec_Z upstream_port));
        (u "admin_path_prefix", VStr admin_path_prefix)]);
      (u "tcp", VList [])] in
  let config_path := joined tmp_path (u "admin-prefix-" ++ name ++ u "-config.json") in
  perform _ <- write_text config_path (dumps default_style (VDict cfg)) in
  perform proxy <- start_proxy w binary config_path in
  cret [
      (u "configured_admin_path_prefix", VStr admin_path_prefix);
      (u "exit_code", VInt (returncode proxy));
      (u "stderr_tail", stderr_tail proxy);
      (u "startup_rejected", VBool (rejected proxy [u "http.admin_path_prefix"; expected_message]))].

Definition run_admin_prefix_startup_probe : bench pydict :=
  perform root_case <- admin_prefix_case (u "root") (u "/") (u "non-root absolute path prefix") in
  perform relative_case <- admin_prefix_case (u "relative") (u "admin")
      (u "must start with '/' and use a non-root absolute path prefix") in
  perform query_case <- admin_prefix_case (u "query") (u "/__altura?debug=true")
      (u "must not contain query or fragment") in
  cret [
      (u "root_prefix", VDict root_case);
      (u "relative_prefix", VDict relative_case);
      (u "query_prefix", VDict query_case);
      (u "root_prefix_rejected", startup_rejected root_case);
      (u "relative_prefix_rejected", startup_rejected relative_case);
      (u "query_prefix_rejected", startup_rejected query_case)].

Definition admin_token_case (name : pystr) (admin_token : pystr) (expected_message : pystr) : bench pydict :=
  perform proxy_port <- free_port w in
  let cfg := [
      (u "http", VDict [
        (u "listen", VStr (u "127.0.0.1:" ++ dec_Z proxy_port));
        (u "upstream", VStr (u "http://127.0.0.1:" ++ dec_Z upstream_port));
        (u "admin_token", VStr admin_token)]);
      (u "tcp", VList [])] in
  let config_path := joined tmp_path (u "admin-token-" ++ name ++ u "-config.json") in
  perform _ <- write_text config_path (dumps default_style (VDict cfg)) in
  perform proxy <- start_proxy w binary config_path in
  cret [
      (u "configured_admin_token_repr", VStr (repr_str admin_token));
      (u "exit_code", VInt (returncode proxy));
      (u "stderr_tail", stderr_tail proxy);
      (u "startup_rejected", VBool (rejected proxy [u "http.admin_token"; expected_message]))].

Definition run_admin_token_startup_probe : bench pydict :=
  perform empty_case <- admin_token_case (u "empty") [] (u "must not be empty") in
  perform blank_case <- admin_token_case (u "blank") (u "   ") (u "must not be blank") in
  perform padded_case <- admin_token_case (u "padded") (u " secret") (u "must not start or end with whitespace") in
  perform control_case <- admin_token_case (u "control") (u "line" ++ [10%N] ++ u "feed")
      (u "must not contain control characters") in
  perform long_case <- admin_token_case (u "long") (repeated 97 257) (u "above configured cap") in
  cret [
      (u "empty_token", VDict empty_case);
      (u "blank_token", VDict blank_case);
      (u "padded_token", VDict padded_case);
      (u "control_token", VDict control_case);
      (u "long_token", VDict long_case);
      (u "empty_token_rejected", startup_rejected empty_case);
      (u "blank_token_rejected", startup_rejected blank_case);
      (u "padded_token_rejected", startup_rejected padded_case);
      (u "control_token_rejected", startup_rejected control_case);
      (u "long_token_rejected", startup_rejected long_case)].

Definition zero_capacity_case (name : pystr) (cfg : pydict) (expected_path : pystr) : bench pydict :=
  let config_path := joined tmp_path (u "zero-capacity-" ++ name ++ u "-config.json") in
  perform _ <- write_text config_path (dumps default_style (VDict cfg)) in
  perform proxy <- start_proxy w binary config_path in
  cret [
      (u "configured_field", VStr expected_path);
      (u "exit_code", VInt (returncode proxy));
      (u "stderr_tail", stderr_tail proxy);
      (u "startup_rejected", VBool (rejected proxy [expected_path; u "must be greater than zero"]))].

Definition run_zero_capacity_startup_probe : bench pydict :=
  perform http_connection_port <- free_port w in
  perform http_metadata_port <- free_port w in
  perform http_forwarded_port <- free_port w in
  perform tcp_port <- free_port w in
  perform http_connection_case <- zero_capacity_case (u "http-connection-cap")
      [
        (u "http", VDict [
          (u "listen", VStr (u "127.0.0.1:" ++ dec_Z http_connection_port));
          (u "upstream", VStr (u "http://127.0.0.1:" ++ dec_Z upstream_port));
          (u "limits", VDict [(u "max_connections", VInt 0)])]);
        (u "tcp", VList [])] (u "http.limits.max_connections") in
  perform http_metadata_case <- zero_capacity_case (u "http-metadata-cap")
      [
        (u "http", VDict [
          (u "listen", VStr (u "127.0.0.1:" ++ dec_Z http_metadata_port));
          (u "upstream", VStr (u "http://127.0.0.1:" ++ dec_Z upstream_port));
          (u "max_header_bytes", VInt 0)]);
        (u "tcp", VList [])] (u "http.max_header_bytes") in
  perform http_forwarded_case <- zero_capacity_case (u "http-forwarded-cap")
      [
        (u "http", VDict [
          (u "listen", VStr (u "127.0.0.1:" ++ dec_Z http_forwarded_port));
          (u "upstream", VStr (u "http://127.0.0.1:" ++ dec_Z upstream_port));
          (u "client_ip", VDict [(u "max_forwarded_for_hops", VInt 0)])]);
        (u "tcp", VList [])] (u "http.client_ip.max_forwarded_for_hops") in
  perform port <- free_port w in
  perform http_upstream_connect_timeout_case <- zero_capacity_case (u "http-upstream-connect-timeout")
      [
        (u "http", VDict [
          (u "listen", VStr (u "127.0.0.1:" ++ dec_Z port));
          (u "upstream", VStr (u "http://127.0.0.1:" ++ dec_Z upstream_port));
          (u "upstream_connect_timeout_ms", VInt 0)]);
        (u "tcp", VList [])] (u "http.upstream_connect_timeout_ms") in
  perform tcp_connection_case <- zero_capacity_case (u "tcp-connection-cap")
      [(u "tcp", VList [VDict [
            (u "name", VStr (u "zero-capacity-tcp"));
            (u "listen", VStr (u "127.0.0.1:" ++ dec_Z tcp_port));
            (u "upstream", VStr (u "127.0.0.1:" ++ dec_Z tcp_upstream_port));
            (u "limits", VDict [(u "max_connections", VInt 0)])]])] (u "tcp[0].limits.max_connections") in
  cret [
      (u "http_connection_cap", VDict http_connection_case);
      (u "http_metadata_cap", VDict http_metadata_case);
      (u "http_forwarded_cap", VDict http_forwarded_case);
      (u "http_upstream_connect_timeout", VDict http_upstream_connect_timeout_case);
      (u "tcp_connection_cap", VDict tcp_connection_case);
      (u "http_connection_cap_rejected", startup_rejected http_connection_case);
      (u "http_metadata_cap_rejected", startup_rejected http_metadata_case);
      (u "http_forwarded_cap_rejected", startup_rejected http_forwarded_case);
      (u "http_upstream_connect_timeout_rejected", startup_rejected http_upstream_connect_timeout_case);
      (u "tcp_connection_cap_rejected", startup_rejected tcp_connection_case)].

Definition header_buffer_floor_case (name : pystr) (field : pystr) : bench pydict :=
  let config_path := joined tmp_path (u "header-buffer-floor-" ++ name ++ u "-config.json") in
  perform port <- free_port w in
  perform _ <- write_text config_path (dumps default_style (VDict [
      (u "http", VDict (dupdate [] [
        (u "listen", VStr (u "127.0.0.1:" ++ dec_Z port));
        (u "upstream", VStr (u "http://127.0.0.1:" ++ dec_Z upstream_port));
        (field, VInt 8191)]));
      (u "tcp", VList [])])) in
  perform proxy <- start_proxy w binary config_path in
  let expected_path := u "http." ++ field in
  cret [
      (u "configured_field", VStr expected_path);
      (u "configured_value", VInt 8191);
      (u "minimum_bytes", VInt 8192);
      (u "exit_code", VInt (returncode proxy));
      (u "stderr_tail", stderr_tail proxy);
      (u "startup_rejected", VBool (rejected proxy [expected_path; u "must be at least 8192"]))].

Definition run_header_buffer_floor_startup_probe : bench pydict :=
  perform downstream_case <- header_buffer_floor_case (u "downstream") (u "max_header_bytes") in
  perform upstream_case <- header_buffer_floor_case (u "upstream") (u "upstream_max_header_bytes") in
  cret [
      (u "downstream_max_header_bytes", VDict downstream_case);
      (u "upstream_max_header_bytes", VDict upstream_case);
      (u "downstream_max_header_bytes_rejected", startup_rejected downstream_case);
      (u "upstream_max_header_bytes_rejected", startup_rejected upstream_case)].

Definition header_buffer_ceiling_case (name : pystr) (field : pystr) : bench pydict :=
  let oversized := (HTTP_HEADER_BUFFER_MAX_BYTES + 1)%Z in
  let config_path := joined tmp_path (u "header-buffer-ceiling-" ++ name ++ u "-config.json") in
  perform port <- free_port w in
  perform _ <- write_text config_path (dumps default_style (VDict [
      (u "http", VDict (dupdate [] [
        (u "listen", VStr (u "127.0.0.1:" ++ dec_Z port));
        (u "upstream", VStr (u "http://127.0.0.1:" ++ dec_Z upstream_port));
        (field, VInt oversized)]));
      (u "tcp", VList [])])) in
  perform proxy <- start_proxy w binary config_path in
  let expected_path := u "http." ++ field in
  cret [
      (u "configured_field", VStr expected_path);
      (u "configured_value", VInt oversized);
      (u "maximum_bytes", VInt HTTP_HEADER_BUFFER_MAX_BYTES);
      (u "exit_code", VInt (returncode proxy));
      (u "stderr_tail", stderr_tail proxy);
      (u "startup_rejected", VBool (rejected proxy [
        expected_path;
        u "must be no higher than " ++ dec_Z HTTP_HEADER_BUFFER_MAX_BYTES]))].

Definition run_header_buffer_ceiling_startup_probe : bench pydict :=
  perform downstream_case <- header_buffer_ceiling_case (u "downstream") (u "max_header_bytes") in
  perform upstream_case <- header_buffer_ceiling_case (u "upstream") (u "upstream_max_header_bytes") in
  cret [
      (u "downstream_max_header_bytes", VDict downstream_case);
      (u "upstream_max_header_bytes", VDict upstream_case);
      (u "downstream_max_header_bytes_rejected", startup_rejected downstream_case);
      (u "upstream_max_header_bytes_rejected", startup_rejected upstream_case)].

Definition header_count_ceiling_case (name : pystr) (field : pystr) : bench pydict :=
  let oversized := (HTTP_HEADER_COUNT_MAX + 1)%Z in
  let config_path := joined tmp_path (u "header-count-ceiling-" ++ name ++ u "-config.json") in
  perform port <- free_port w in
  perform _ <- write_text config_path (dumps default_style (VDict [
      (u "http", VDict (dupdate [] [
        (u "listen", VStr (u "127.0.0.1:" ++ dec_Z port));
        (u "upstream", VStr (u "http://127.0.0.1:" ++ dec_Z upstream_port));
        (field, VInt oversized)]));
      (u "tcp", VList [])])) in
  perform proxy <- start_proxy w binary config_path in
  let expected_path := u "http." ++ field in
  cret [
      (u "configured_field", VStr expected_path);
      (u "configured_value", VInt oversized);
      (u "maximum_headers", VInt HTTP_HEADER_COUNT_MAX);
      (u "exit_code", VInt (returncode proxy));
      (u "stderr_tail", stderr_tail proxy);
      (u "startup_rejected", VBool (rejected proxy [
        expected_path;
        u "must be no higher than " ++ dec_Z HTTP_HEADER_COUNT_MAX]))].

Definition run_header_count_ceiling_startup_probe : bench pydict :=
  perform downstream_case <- header_count_ceiling_case (u "downstream") (u "max_headers") in
  perform upstream_case <- header_count_ceiling_case (u "upstream") (u "upstream_max_headers") in
  cret [
      (u "downstream_max_headers", VDict downstream_case);
      (u "upstream_max_headers", VDict upstream_case);
      (u "downstream_max_headers_rejected", startup_rejected downstream_case);
      (u "upstream_max_headers_rejected", startup_rejected upstream_case)].

Definition http_metadata_ceiling_case (name : pystr) (field_path : pystr) (ceiling : Z) (http_overrides : pydict) : bench pydict :=
  let config_path := joined tmp_path (u "http-metadata-ceiling-" ++ name ++ u ".json") in
  perform port <- free_port w in
  perform _ <- write_text config_path (dumps default_style (VDict [
      (u "http", VDict (dupdate [
        (u "listen", VStr (u "127.0.0.1:" ++ dec_Z port));
        (u "upstream", VStr (u "http://127.0.0.1:" ++ dec_Z upstream_port))] http_overrides));
      (u "tcp", VList [])])) in
  perform proxy <- start_proxy w binary config_path in
  cret [
      (u "configured_field", VStr field_path);
      (u "configured_value", VInt ((ceiling + 1)%Z));
      (u "maximum", VInt ceiling);
      (u "exit_code", VInt (returncode proxy));
      (u "stderr_tail", stderr_tail proxy);
      (u "startup_rejected", VBool (rejected proxy [field_path; u "must be no higher than " ++ dec_Z ceiling]))].

Definition run_http_metadata_ceiling_startup_probe : bench pydict :=
  perform max_host_bytes_case <- http_metadata_ceiling_case (u "max-host-bytes") (u "http.max_host_bytes")
      HTTP_HOST_MAX_BYTES_MAX [(u "max_host_bytes", VInt ((HTTP_HOST_MAX_BYTES_MAX + 1)%Z))] in
  perform max_uri_bytes_case <- http_metadata_ceiling_case (u "max-uri-bytes") (u "http.max_uri_bytes")
      HTTP_REQUEST_TARGET_MAX_BYTES [(u "max_uri_bytes", VInt ((HTTP_REQUEST_TARGET_MAX_BYTES + 1)%Z))] in
  perform max_query_bytes_case <- http_metadata_ceiling_case (u "max-query-bytes") (u "http.max_query_bytes")
      HTTP_REQUEST_TARGET_MAX_BYTES [(u "max_query_bytes", VInt ((HTTP_REQUEST_TARGET_MAX_BYTES + 1)%Z))] in
  perform max_query_pairs_case <- http_metadata_ceiling_case (u "max-query-pairs") (u "http.max_query_pairs")
      HTTP_QUERY_PAIR_COUNT_MAX [(u "max_query_pairs", VInt ((HTTP_QUERY_PAIR_COUNT_MAX + 1)%Z))] in
  perform max_path_segments_case <- http_metadata_ceiling_case (u "max-path-segments") (u "http.max_path_segments")
      HTTP_PATH_SEGMENT_COUNT_MAX [(u "max_path_segments", VInt ((HTTP_PATH_SEGMENT_COUNT_MAX + 1)%Z))] in
  perform max_trailer_bytes_case <- http_metadata_ceiling_case (u "max-trailer-bytes") (u "http.max_trailer_bytes")
      HTTP_TRAILER_BYTES_MAX [(u "max_trailer_bytes", VInt ((HTTP_TRAILER_BYTES_MAX + 1)%Z))] in
  perform max_trailers_case <- http_metadata_ceiling_case (u "max-trailers") (u "http.max_trailers")
      HTTP_TRAILER_COUNT_MAX [(u "max_trailers", VInt ((HTTP_TRAILER_COUNT_MAX + 1)%Z))] in
  perform upstream_max_trailer_bytes_case <- http_metadata_ceiling_case (u "upstream-max-trailer-bytes")
      (u "http.upstream_max_trailer_bytes") HTTP_TRAILER_BYTES_MAX
      [(u "upstream_max_trailer_bytes", VInt ((HTTP_TRAILER_BYTES_MAX + 1)%Z))] in
  perform upstream_max_trailers_case <- http_metadata_ceiling_case (u "upstream-max-trailers")
      (u "http.upstream_max_trailers") HTTP_TRAILER_COUNT_MAX
      [(u "upstream_max_trailers", VInt ((HTTP_TRAILER_COUNT_MAX + 1)%Z))] in
  perform max_forwarded_for_bytes_case <- http_metadata_ceiling_case (u "max-forwarded-for-bytes")
      (u "http.client_ip.max_forwarded_for_bytes") HTTP_FORWARDED_FOR_BYTES_MAX
      [(u "client_ip", VDict [(u "max_forwarded_for_bytes", VInt ((HTTP_FORWARDED_FOR_BYTES_MAX + 1)%Z))])] in
  perform max_forwarded_for_hops_case <- http_metadata_ceiling_case (u "max-forwarded-for-hops")
      (u "http.client_ip.max_forwarded_for_hops") HTTP_FORWARDED_FOR_HOPS_MAX
      [(u "client_ip", VDict [(u "max_forwarded_for_hops", VInt ((HTTP_FORWARDED_FOR_HOPS_MAX + 1)%Z))])] in
  let cases := [
      (u "max_host_bytes", max_host_bytes_case);
      (u "max_uri_bytes", max_uri_bytes_case);
      (u "max_query_bytes", max_query_bytes_case);
      (u "max_query_pairs", max_query_pairs_case);
      (u "max_path_segments", max_path_segments_case);
      (u "max_trailer_bytes", max_trailer_bytes_case);
      (u "max_trailers", max_trailers_case);
      (u "upstream_max_trailer_bytes", upstream_max_trailer_bytes_case);
      (u "upstream_max_trailers", upstream_max_trailers_case);
      (u "max_forwarded_for_bytes", max_forwarded_for_bytes_case);
      (u "max_forwarded_for_hops", max_forwarded_for_hops_case)] in
  cret (dupdate (as_values cases) [(u "all_http_metadata_ceilings_rejected", VBool (all_rejected cases))]).

Definition run_header_read_timeout_ceiling_startup_probe : bench pydict :=
  let oversized := (HTTP_HEADER_READ_TIMEOUT_MAX_MS + 1)%Z in
  let config_path := joined tmp_path (u "header-read-timeout-ceiling-config.json") in
  perform port <- free_port w in
  perform _ <- write_text config_path (dumps default_style (VDict [
      (u "http", VDict [
        (u "listen", VStr (u "127.0.0.1:" ++ dec_Z port));
        (u "upstream", VStr (u "http://127.0.0.1:" ++ dec_Z upstream_port));
        (u "header_read_timeout_ms", VInt oversized)]);
      (u "tcp", VList [])])) in
  perform proxy <- start_proxy w binary config_path in
  let expected_path := u "http.header_read_timeout_ms" in
  let was_rejected := rejected proxy [expected_path; u "must be no higher than " ++ dec_Z HTTP_HEADER_READ_TIMEOUT_MAX_MS] in
  cret [
      (u "configured_field", VStr expected_path);
      (u "configured_value", VInt oversized);
      (u "maximum_ms", VInt HTTP_HEADER_READ_TIMEOUT_MAX_MS);
      (u "exit_code", VInt (returncode proxy));
      (u "stderr_tail", stderr_tail proxy);
      (u "startup_rejected", VBool was_rejected);
      (u "header_read_timeout_rejected", VBool was_rejected)].

Definition run_upstream_timeout_ceiling_startup_probe : bench pydict :=
  let oversized := (HTTP_UPSTREAM_TIMEOUT_MAX_MS + 1)%Z in
  let config_path := joined tmp_path (u "upstream-timeout-ceiling-config.json") in
  perform port <- free_port w in
  perform _ <- write_text config_path (dumps default_style (VDict [
      (u "http", VDict [
        (u "listen", VStr (u "127.0.0.1:" ++ dec_Z port));
        (u "upstream", VStr (u "http://127.0.0.1:" ++ dec_Z upstream_port));
        (u "upstream_timeout_ms", VInt oversized)]);
      (u "tcp", VList [])])) in
  perform proxy <- start_proxy w binary config_path in
  let expected_path := u "http.upstream_timeout_ms" in
  let was_rejected := rejected proxy [expected_path; u "must be no higher than " ++ dec_Z HTTP_UPSTREAM_TIMEOUT_MAX_MS] in
  cret [
      (u "configured_field", VStr expected_path);
      (u "configured_value", VInt oversized);
      (u "maximum_ms", VInt HTTP_UPSTREAM_TIMEOUT_MAX_MS);
      (u "exit_code", VInt (returncode proxy));
      (u "stderr_tail", stderr_tail proxy);
      (u "startup_rejected", VBool was_rejected);
      (u "upstream_timeout_rejected", VBool was_rejected)].

Definition upstream_failure_circuit_ceiling_case (field : pystr) (path : pystr) (ceiling : Z) (maximum_key : pystr) : bench pydict :=
  let config_path := joined tmp_path (u "upstream-failure-circuit-ceiling-" ++ field ++ u ".json") in
  perform port <- free_port w in
  perform _ <- write_text config_path (dumps default_style (VDict [
      (u "http", VDict (dupdate [] [
        (u "listen", VStr (u "127.0.0.1:" ++ dec_Z port));
        (u "upstream", VStr (u "http://127.0.0.1:" ++ dec_Z upstream_port));
        (field, VInt ((ceiling + 1)%Z))]));
      (u "tcp", VList [])])) in
  perform proxy <- start_proxy w binary config_path in
  cret (dupdate [] [
      (u "configured_field", VStr path);
      (u "configured_value", VInt ((ceiling + 1)%Z));
      (maximum_key, VInt ceiling);
      (u "exit_code", VInt (returncode proxy));
      (u "stderr_tail", stderr_tail proxy);
      (u "startup_rejected", VBool (rejected proxy [path; u "must be no higher than " ++ dec_Z ceiling]))]).

Definition run_upstream_failure_circuit_ceiling_startup_probe : bench pydict :=
  perform threshold_case <- upstream_failure_circuit_ceiling_case (u "upstream_failure_threshold")
      (u "http.upstream_failure_threshold") HTTP_UPSTREAM_FAILURE_THRESHOLD_MAX (u "maximum_failures") in
  perform open_window_case <- upstream_failure_circuit_ceiling_case (u "upstream_failure_open_ms")
      (u "http.upstream_failure_open_ms") HTTP_UPSTREAM_FAILURE_OPEN_MAX_MS (u "maximum_ms") in
  cret [
      (u "upstream_failure_threshold", VDict threshold_case);
      (u "upstream_failure_open_ms", VDict open_window_case);
      (u "upstream_failure_threshold_rejected", startup_rejected threshold_case);
      (u "upstream_failure_open_ms_rejected", startup_rejected open_window_case)].

Definition http_stream_timeout_ceiling_case (field : pystr) (path : pystr) (ceiling : Z) : bench pydict :=
  let config_path := joined tmp_path (u "http-stream-timeout-ceiling-" ++ field ++ u ".json") in
  perform port <- free_port w in
  perform _ <- write_text config_path (dumps default_style (VDict [
      (u "http", VDict (dupdate [] [
        (u "listen", VStr (u "127.0.0.1:" ++ dec_Z port));
        (u "upstream", VStr (u "http://127.0.0.1:" ++ dec_Z upstream_port));
        (field, VInt ((ceiling + 1)%Z))]));
      (u "tcp", VList [])])) in
  perform proxy <- start_proxy w binary config_path in
  cret [
      (u "configured_field", VStr path);
      (u "configured_value", VInt ((ceiling + 1)%Z));
      (u "maximum_ms", VInt ceiling);
      (u "exit_code", VInt (returncode proxy));
      (u "stderr_tail", stderr_tail proxy);
      (u "startup_rejected", VBool (rejected proxy [path; u "must be no higher than " ++ dec_Z ceiling]))].

Definition run_http_stream_timeout_ceiling_startup_probe : bench pydict :=
  perform downstream_write_timeout_case <- http_stream_timeout_ceiling_case (u "downstream_write_timeout_ms")
      (u "http.downstream_write_timeout_ms") HTTP_DOWNSTREAM_WRITE_TIMEOUT_MAX_MS in
  perform request_body_idle_timeout_case <- http_stream_timeout_ceiling_case (u "request_body_idle_timeout_ms")
      (u "http.request_body_idle_timeout_ms") HTTP_BODY_IDLE_TIMEOUT_MAX_MS in
  perform upstream_body_idle_timeout_case <- http_stream_timeout_ceiling_case (u "upstream_body_idle_timeout_ms")
      (u "http.upstream_body_idle_timeout_ms") HTTP_BODY_IDLE_TIMEOUT_MAX_MS in
  perform request_body_min_rate_grace_case <- http_stream_timeout_ceiling_case (u "request_body_min_rate_grace_ms")
      (u "http.request_body_min_rate_grace_ms") HTTP_BODY_MIN_RATE_GRACE_MAX_MS in
  perform upstream_body_min_rate_grace_case <- http_stream_timeout_ceiling_case (u "upstream_body_min_rate_grace_ms")
      (u "http.upstream_body_min_rate_grace_ms") HTTP_BODY_MIN_RATE_GRACE_MAX_MS in
  let cases := [
      (u "downstream_write_timeout", downstream_write_timeout_case);
      (u "request_body_idle_timeout", request_body_idle_timeout_case);
      (u "upstream_body_idle_timeout", upstream_body_idle_timeout_case);
      (u "request_body_min_rate_grace", request_body_min_rate_grace_case);
      (u "upstream_body_min_rate_grace", upstream_body_min_rate_grace_case)] in
  cret (dupdate (as_values cases) [
      (u "downstream_write_timeout_rejected", startup_rejected (case_of cases (u "downstream_write_timeout")));
      (u "request_body_idle_timeout_rejected", startup_rejected (case_of cases (u "request_body_idle_timeout")));
      (u "upstream_body_idle_timeout_rejected", startup_rejected (case_of cases (u "upstream_body_idle_timeout")));
      (u "request_body_min_rate_grace_rejected", startup_rejected (case_of cases (u "request_body_min_rate_grace")));
      (u "upstream_body_min_rate_grace_rejected", startup_rejected (case_of cases (u "upstream_body_min_rate_grace")))]).

Definition body_size_ceiling_case (field : pystr) (path : pystr) (ceiling : Z) : bench pydict :=
  let config_path := joined tmp_path (u "body-size-ceiling-" ++ field ++ u ".json") in
  perform port <- free_port w in
  perform _ <- write_text config_path (dumps default_style (VDict [
      (u "http", VDict (dupdate [] [
        (u "listen", VStr (u "127.0.0.1:" ++ dec_Z port));
        (u "upstream", VStr (u "http://127.0.0.1:" ++ dec_Z upstream_port));
        (field, VInt ((ceiling + 1)%Z))]));
      (u "tcp", VList [])])) in
  perform proxy <- start_proxy w binary config_path in
  cret [
      (u "configured_field", VStr path);
      (u "configured_value", VInt ((ceiling + 1)%Z));
      (u "maximum_bytes", VInt ceiling);
      (u "exit_code", VInt (returncode proxy));
      (u "stderr_tail", stderr_tail proxy);
      (u "startup_rejected", VBool (rejected proxy [path; u "must be no higher than " ++ dec_Z ceiling]))].

Definition run_body_size_ceiling_startup_probe : bench pydict :=
  perform max_body_bytes_case <- body_size_ceiling_case (u "max_body_bytes") (u "http.max_body_bytes")
      HTTP_MAX_BODY_BYTES_MAX in
  perform max_upstream_body_bytes_case <- body_size_ceiling_case (u "max_upstream_body_bytes")
      (u "http.max_upstream_body_bytes") HTTP_MAX_UPSTREAM_BODY_BYTES_MAX in
  let cases := [(u "max_body_bytes", max_body_bytes_case); (u "max_upstream_body_bytes", max_upstream_body_bytes_case)] in
  cret (dupdate (as_values cases) [
      (u "max_body_bytes_rejected", startup_rejected (case_of cases (u "max_body_bytes")));
      (u "max_upstream_body_bytes_rejected", startup_rejected (case_of cases (u "max_upstream_body_bytes")))]).

Definition min_rate_ceiling_case (name : pystr) (field_path : pystr) (ceiling : Z) (config_payload : pydict) : bench pydict :=
  let config_path := joined tmp_path (u "min-rate-ceiling-" ++ name ++ u ".json") in
  perform _ <- write_text config_path (dumps default_style (VDict config_payload)) in
  perform proxy <- start_proxy w binary config_path in
  cret [
      (u "configured_field", VStr field_path);
      (u "configured_value", VInt ((ceiling + 1)%Z));
      (u "maximum_bytes_per_second", VInt ceiling);
      (u "exit_code", VInt (returncode proxy));
      (u "stderr_tail", stderr_tail proxy);
      (u "startup_rejected", VBool (rejected proxy [field_path; u "must be no higher than " ++ dec_Z ceiling]))].

Definition run_min_rate_ceiling_startup_probe : bench pydict :=
  perform port <- free_port w in
  perform http_request_case <- min_rate_ceiling_case (u "http-request")
      (u "http.request_body_min_rate_bytes_per_second") HTTP_BODY_MIN_RATE_BYTES_PER_SECOND_MAX
      [
        (u "http", VDict [
          (u "listen", VStr (u "127.0.0.1:" ++ dec_Z port));
          (u "upstream", VStr (u "http://127.0.0.1:" ++ dec_Z upstream_port));
          (u "request_body_min_rate_bytes_per_second", VInt ((HTTP_BODY_MIN_RATE_BYTES_PER_SECOND_MAX + 1)%Z))]);
        (u "tcp", VList [])] in
  perform port2 <- free_port w in
  perform http_upstream_case <- min_rate_ceiling_case (u "http-upstream")
      (u "http.upstream_body_min_rate_bytes_per_second") HTTP_BODY_MIN_RATE_BYTES_PER_SECOND_MAX
      [
        (u "http", VDict [
          (u "listen", VStr (u "127.0.0.1:" ++ dec_Z port2));
          (u "upstream", VStr (u "http://127.0.0.1:" ++ dec_Z upstream_port));
          (u "upstream_body_min_rate_bytes_per_second", VInt ((HTTP_BODY_MIN_RATE_BYTES_PER_SECOND_MAX + 1)%Z))]);
        (u "tcp", VList [])] in
  perform port3 <- free_port w in
  perform tcp_downstream_case <- min_rate_ceiling_case (u "tcp-downstream")
      (u "tcp[0].downstream_min_rate_bytes_per_second") TCP_MIN_RATE_BYTES_PER_SECOND_MAX
      [(u "tcp", VList [VDict [
            (u "name", VStr (u "tcp-downstream-min-rate-ceiling"));
            (u "listen", VStr (u "127.0.0.1:" ++ dec_Z port3));
            (u "upstream", VStr (u "127.0.0.1:" ++ dec_Z tcp_upstream_port));
            (u "downstream_min_rate_bytes_per_second", VInt ((TCP_MIN_RATE_BYTES_PER_SECOND_MAX + 1)%Z))]])] in
  perform port4 <- free_port w in
  perform tcp_upstream_case <- min_rate_ceiling_case (u "tcp-upstream") (u "tcp[0].upstream_min_rate_bytes_per_second")
      TCP_MIN_RATE_BYTES_PER_SECOND_MAX
      [(u "tcp", VList [VDict [
            (u "name", VStr (u "tcp-upstream-min-rate-ceiling"));
            (u "listen", VStr (u "127.0.0.1:" ++ dec_Z port4));
            (u "upstream", VStr (u "127.0.0.1:" ++ dec_Z tcp_upstream_port));
            (u "upstream_min_rate_bytes_per_second", VInt ((TCP_MIN_RATE_BYTES_PER_SECOND_MAX + 1)%Z))]])] in
  let cases := [
      (u "http_request_body_min_rate", http_request_case);
      (u "http_upstream_body_min_rate", http_upstream_case);
      (u "tcp_downstream_min_rate", tcp_downstream_case);
      (u "tcp_upstream_min_rate", tcp_upstream_case)] in
  cret (dupdate (as_values cases) [
      (u "http_request_body_min_rate_rejected", startup_rejected http_request_case);
      (u "http_upstream_body_min_rate_rejected", startup_rejected http_upstream_case);
      (u "tcp_downstream_min_rate_rejected", startup_rejected tcp_downstream_case);
      (u "tcp_upstream_min_rate_rejected", startup_rejected tcp_upstream_case);
      (u "all_min_rate_ceilings_rejected", VBool (all_rejected cases))]).

Definition upstream_idle_pool_ceiling_case (field : pystr) (path : pystr) (ceiling : Z) (maximum_key : pystr) : bench pydict :=
  let config_path := joined tmp_path (u "upstream-idle-pool-ceiling-" ++ field ++ u ".json") in
  perform port <- free_port w in
  perform _ <- write_text config_path (dumps default_style (VDict [
      (u "http", VDict (dupdate [] [
        (u "listen", VStr (u "127.0.0.1:" ++ dec_Z port));
        (u "upstream", VStr (u "http://127.0.0.1:" ++ dec_Z upstream_port));
        (field, VInt ((ceiling + 1)%Z))]));
      (u "tcp", VList [])])) in
  perform proxy <- start_proxy w binary config_path in
  cret (dupdate [] [
      (u "configured_field", VStr path);
      (u "configured_value", VInt ((ceiling + 1)%Z));
      (maximum_key, VInt ceiling);
      (u "exit_code", VInt (returncode proxy));
      (u "stderr_tail", stderr_tail proxy);
      (u "startup_rejected", VBool (rejected proxy [path; u "must be no higher than " ++ dec_Z ceiling]))]).

Definition run_upstream_idle_pool_ceiling_startup_probe : bench pydict :=
  perform timeout_case <- upstream_idle_pool_ceiling_case (u "upstream_pool_idle_timeout_ms")
      (u "http.upstream_pool_idle_timeout_ms") HTTP_UPSTREAM_POOL_IDLE_TIMEOUT_MAX_MS (u "maximum_ms") in
  perform max_idle_case <- upstream_idle_pool_ceiling_case (u "upstream_pool_max_idle_per_host")
      (u "http.upstream_pool_max_idle_per_host") HTTP_UPSTREAM_POOL_MAX_IDLE_PER_HOST_MAX (u "maximum_connections") in
  cret [
      (u "upstream_pool_idle_timeout", VDict timeout_case);
      (u "upstream_pool_max_idle_per_host", VDict max_idle_case);
      (u "upstream_pool_idle_timeout_rejected", startup_rejected timeout_case);
      (u "upstream_pool_max_idle_per_host_rejected", startup_rejected max_idle_case)].

Definition connect_timeout_ceiling_case (name : pystr) (field_path : pystr) (ceiling : Z) (config_payload : pydict) : bench pydict :=
  let config_path := joined tmp_path (u "connect-timeout-ceiling-" ++ name ++ u ".json") in
  perform _ <- write_text config_path (dumps default_style (VDict config_payload)) in
  perform proxy <- start_proxy w binary config_path in
  cret [
      (u "configured_field", VStr field_path);
      (u "configured_value", VInt ((ceiling + 1)%Z));
      (u "maximum_ms", VInt ceiling);
      (u "exit_code", VInt (returncode proxy));
      (u "stderr_tail", stderr_tail proxy);
      (u "startup_rejected", VBool (rejected proxy [field_path; u "must be no higher than " ++ dec_Z ceiling]))].

Definition run_connect_timeout_ceiling_startup_probe : bench pydict :=
  perform port <- free_port w in
  perform http_case <- connect_timeout_ceiling_case (u "http") (u "http.upstream_connect_timeout_ms")
      HTTP_UPSTREAM_CONNECT_TIMEOUT_MAX_MS
      [
        (u "http", VDict [
          (u "listen", VStr (u "127.0.0.1:" ++ dec_Z port));
          (u "upstream", VStr (u "http://127.0.0.1:" ++ dec_Z upstream_port));
          (u "upstream_connect_timeout_ms", VInt ((HTTP_UPSTREAM_CONNECT_TIMEOUT_MAX_MS + 1)%Z))]);
        (u "tcp", VList [])] in
  perform port2 <- free_port w in
  perform tcp_case <- connect_timeout_ceiling_case (u "tcp") (u "tcp[0].connect_timeout_ms") TCP_CONNECT_TIMEOUT_MAX_MS
      [(u "tcp", VList [VDict [
            (u "name", VStr (u "connect-timeout-ceiling"));
            (u "listen", VStr (u "127.0.0.1:" ++ dec_Z port2));
            (u "upstream", VStr (u "127.0.0.1:" ++ dec_Z tcp_upstream_port));
            (u "connect_timeout_ms", VInt ((TCP_CONNECT_TIMEOUT_MAX_MS + 1)%Z))]])] in
  cret [
      (u "http_upstream_connect_timeout", VDict http_case);
      (u "tcp_connect_timeout", VDict tcp_case);
      (u "http_upstream_connect_timeout_rejected", startup_rejected http_case);
      (u "tcp_connect_timeout_rejected", startup_rejected tcp_case)].

Definition connection_duration_ceiling_case (name : pystr) (field_path : pystr) (ceiling : Z) (config_payload : pydict) : bench pydict :=
  let config_path := joined tmp_path (u "connection-duration-ceiling-" ++ name ++ u ".json") in
  perform _ <- write_text config_path (dumps default_style (VDict config_payload)) in
  perform proxy <- start_proxy w binary config_path in
  cret [
      (u "configured_field", VStr field_path);
      (u "configured_value", VInt ((ceiling + 1)%Z));
      (u "maximum_seconds", VInt ceiling);
      (u "exit_code", VInt (returncode proxy));
      (u "stderr_tail", stderr_tail proxy);
      (u "startup_rejected", VBool (rejected proxy [field_path; u "must be no higher than " ++ dec_Z ceiling]))].

Definition run_connection_duration_ceiling_startup_probe : bench pydict :=
  perform port <- free_port w in
  perform http_case <- connection_duration_ceiling_case (u "http") (u "http.max_connection_duration_seconds")
      HTTP_MAX_CONNECTION_DURATION_MAX_SECONDS
      [
        (u "http", VDict [
          (u "listen", VStr (u "127.0.0.1:" ++ dec_Z port));
          (u "upstream", VStr (u "http://127.0.0.1:" ++ dec_Z upstream_port));
          (u "max_connection_duration_seconds", VInt ((HTTP_MAX_CONNECTION_DURATION_MAX_SECONDS + 1)%Z))]);
        (u "tcp", VList [])] in
  perform port2 <- free_port w in
  perform tcp_case <- connection_duration_ceiling_case (u "tcp") (u "tcp[0].max_connection_duration_seconds")
      TCP_MAX_CONNECTION_DURATION_MAX_SECONDS
      [(u "tcp", VList [VDict [
            (u "name", VStr (u "duration-ceiling"));
            (u "listen", VStr (u "127.0.0.1:" ++ dec_Z port2));
            (u "upstream", VStr (u "127.0.0.1:" ++ dec_Z tcp_upstream_port));
            (u "max_connection_duration_seconds", VInt ((TCP_MAX_CONNECTION_DURATION_MAX_SECONDS + 1)%Z))]])] in
  cret [
      (u "http_max_connection_duration", VDict http_case);
      (u "tcp_max_connection_duration", VDict tcp_case);
      (u "http_max_connection_duration_rejected", startup_rejected http_case);
      (u "tcp_max_connection_duration_rejected", startup_rejected tcp_case)].

Definition run_connection_request_count_ceiling_startup_probe : bench pydict :=
  let oversized := (HTTP_MAX_REQUESTS_PER_CONNECTION_MAX + 1)%Z in
  let config_path := joined tmp_path (u "connection-request-count-ceiling-config.json") in
  perform port <- free_port w in
  perform _ <- write_text config_path (dumps default_style (VDict [
      (u "http", VDict [
        (u "listen", VStr (u "127.0.0.1:" ++ dec_Z port));
        (u "upstream", VStr (u "http://127.0.0.1:" ++ dec_Z upstream_port));
        (u "max_requests_per_connection", VInt oversized)]);
      (u "tcp", VList [])])) in
  perform proxy <- start_proxy w binary config_path in
  let expected_path := u "http.max_requests_per_connection" in
  let was_rejected := rejected proxy [expected_path; u "must be no higher than " ++ dec_Z HTTP_MAX_REQUESTS_PER_CONNECTION_MAX] in
  cret [
      (u "configured_field", VStr expected_path);
      (u "configured_value", VInt oversized);
      (u "maximum_requests", VInt HTTP_MAX_REQUESTS_PER_CONNECTION_MAX);
      (u "exit_code", VInt (returncode proxy));
      (u "stderr_tail", stderr_tail proxy);
      (u "startup_rejected", VBool was_rejected);
      (u "max_requests_per_connection_rejected", VBool was_rejected)].

Definition run_event_log_backup_count_ceiling_startup_probe : bench pydict :=
  let oversized := (EVENT_LOG_BACKUP_COUNT_MAX + 1)%Z in
  let config_path := joined tmp_path (u "event-log-backup-count-ceiling-config.json") in
  perform _ <- write_text config_path (dumps default_style (VDict [(u "adaptive", VDict [(u "event_log_backup_count", VInt oversized)])])) in
  perform proxy <- start_proxy w binary config_path in
  let expected_path := u "adaptive.event_log_backup_count" in
  let was_rejected := rejected proxy [expected_path; u "must be no higher than " ++ dec_Z EVENT_LOG_BACKUP_COUNT_MAX] in
  cret [
      (u "configured_field", VStr expected_path);
      (u "configured_value", VInt oversized);
      (u "maximum_backups", VInt EVENT_LOG_BACKUP_COUNT_MAX);
      (u "exit_code", VInt (returncode proxy));
      (u "stderr_tail", stderr_tail proxy);
      (u "startup_rejected", VBool was_rejected);
      (u "event_log_backup_count_rejected", VBool was_rejected)].

Definition run_event_log_queue_capacity_ceiling_startup_probe : bench pydict :=
  let oversized := (EVENT_LOG_QUEUE_CAPACITY_MAX + 1)%Z in
  let config_path := joined tmp_path (u "event-log-queue-capacity-ceiling-config.json") in
  perform _ <- write_text config_path (dumps default_style (VDict [(u "adaptive", VDict [(u "event_log_queue_capacity", VInt oversized)])])) in
  perform proxy <- start_proxy w binary config_path in
  let expected_path := u "adaptive.event_log_queue_capacity" in
  let was_rejected := rejected proxy [expected_path; u "must be no higher than " ++ dec_Z EVENT_LOG_QUEUE_CAPACITY_MAX] in
  cret [
      (u "configured_field", VStr expected_path);
      (u "configured_value", VInt oversized);
      (u "maximum_events", VInt EVENT_LOG_QUEUE_CAPACITY_MAX);
      (u "exit_code", VInt (returncode proxy));
      (u "stderr_tail", stderr_tail proxy);
      (u "startup_rejected", VBool was_rejected);
      (u "event_log_queue_capacity_rejected", VBool was_rejected)].

Definition dynamic_state_ceiling_case (name : pystr) (cfg : pydict) (expected_path : pystr) (ceiling : Z) : bench pydict :=
  let config_path := joined tmp_path (u "dynamic-state-ceiling-" ++ name ++ u "-config.json") in
  perform _ <- write_text config_path (dumps default_style (VDict cfg)) in
  perform proxy <- start_proxy w binary config_path in
  let was_rejected := rejected proxy [expected_path; u "must be no higher than " ++ dec_Z ceiling] in
  cret [
      (u "configured_field", VStr expected_path);
      (u "configured_ceiling", VInt ceiling);
      (u "exit_code", VInt (returncode proxy));
      (u "stderr_tail", stderr_tail proxy);
      (u "startup_rejected", VBool was_rejected)].

Definition dynamic_state_ceiling_http_config (limits : pydict) : pydict :=
  [(u "http", VDict [
        (u "listen", VStr (u "127.0.0.1:0"));
        (u "upstream", VStr (u "http://127.0.0.1:" ++ dec_Z upstream_port));
        (u "limits", VDict limits)])].

Definition dynamic_state_ceiling_tcp_config (limits : pydict) : pydict :=
  [(u "tcp", VList [VDict [
          (u "name", VStr (u "dynamic-state-ceiling-tcp"));
          (u "listen", VStr (u "127.0.0.1:0"));
          (u "upstream", VStr (u "127.0.0.1:" ++ dec_Z tcp_upstream_port));
          (u "limits", VDict limits)]])].

Definition run_dynamic_state_ceiling_startup_probe : bench pydict :=
  perform filter_runtime_file_bytes_case <- dynamic_state_ceiling_case (u "filter-runtime-file-bytes")
      [(u "filters", VDict [(u "max_runtime_file_bytes", VInt ((FILTER_RUNTIME_FILE_MAX_BYTES_MAX + 1)%Z))])]
      (u "filters.max_runtime_file_bytes") FILTER_RUNTIME_FILE_MAX_BYTES_MAX in
  perform filter_runtime_filters_case <- dynamic_state_ceiling_case (u "filter-runtime-filters")
      [(u "filters", VDict [(u "max_runtime_filters", VInt ((FILTER_RULE_COUNT_MAX + 1)%Z))])]
      (u "filters.max_runtime_filters") FILTER_RULE_COUNT_MAX in
  perform filter_static_filters_case <- dynamic_state_ceiling_case (u "filter-static-filters")
      [(u "filters", VDict [(u "max_static_filters", VInt ((FILTER_RULE_COUNT_MAX + 1)%Z))])]
      (u "filters.max_static_filters") FILTER_RULE_COUNT_MAX in
  perform static_filter_ttl_seconds_case <- dynamic_state_ceiling_case (u "static-filter-ttl-seconds")
      [(u "filters", VDict [(u "static_rules", VList [VDict [
              (u "id", VStr (u "ttl"));
              (u "ttl_seconds", VInt ((FILTER_TTL_MAX_SECONDS + 1)%Z));
              (u "condition", VDict [(u "path_exact", VStr (u "/blocked"))])]])])]
      (u "filters.static_rules[0].ttl_seconds") FILTER_TTL_MAX_SECONDS in
  perform adaptive_activation_ttl_seconds_case <- dynamic_state_ceiling_case (u "adaptive-activation-ttl-seconds")
      [(u "adaptive", VDict [(u "activation_ttl_seconds", VInt ((FILTER_TTL_MAX_SECONDS + 1)%Z))])]
      (u "adaptive.activation_ttl_seconds") FILTER_TTL_MAX_SECONDS in
  perform adaptive_event_log_max_bytes_case <- dynamic_state_ceiling_case (u "adaptive-event-log-max-bytes")
      [(u "adaptive", VDict [(u "event_log_max_bytes", VInt ((ADAPTIVE_EVENT_LOG_MAX_BYTES_MAX + 1)%Z))])]
      (u "adaptive.event_log_max_bytes") ADAPTIVE_EVENT_LOG_MAX_BYTES_MAX in
  perform adaptive_signature_windows_case <- dynamic_state_ceiling_case (u "adaptive-signature-windows")
      [(u "adaptive", VDict [(u "max_signature_windows", VInt ((ADAPTIVE_WINDOW_COUNT_MAX + 1)%Z))])]
      (u "adaptive.max_signature_windows") ADAPTIVE_WINDOW_COUNT_MAX in
  perform adaptive_path_shape_windows_case <- dynamic_state_ceiling_case (u "adaptive-path-shape-windows")
      [(u "adaptive", VDict [(u "max_path_shape_windows", VInt ((ADAPTIVE_WINDOW_COUNT_MAX + 1)%Z))])]
      (u "adaptive.max_path_shape_windows") ADAPTIVE_WINDOW_COUNT_MAX in
  perform http_max_tracked_ips_case <- dynamic_state_ceiling_case (u "http-max-tracked-ips")
      (dynamic_state_ceiling_http_config [(u "max_tracked_ips", VInt ((LIMITER_MAX_TRACKED_IPS_MAX + 1)%Z))])
      (u "http.limits.max_tracked_ips") LIMITER_MAX_TRACKED_IPS_MAX in
  perform http_max_tracked_signatures_case <- dynamic_state_ceiling_case (u "http-max-tracked-signatures")
      (dynamic_state_ceiling_http_config [(u "max_tracked_signatures", VInt ((LIMITER_MAX_TRACKED_SIGNATURES_MAX + 1)%Z))])
      (u "http.limits.max_tracked_signatures") LIMITER_MAX_TRACKED_SIGNATURES_MAX in
  perform http_max_tracked_path_shapes_case <- dynamic_state_ceiling_case (u "http-max-tracked-path-shapes")
      (dynamic_state_ceiling_http_config [(u "max_tracked_path_shapes", VInt ((LIMITER_MAX_TRACKED_PATH_SHAPES_MAX + 1)%Z))])
      (u "http.limits.max_tracked_path_shapes") LIMITER_MAX_TRACKED_PATH_SHAPES_MAX in
  perform tcp_max_tracked_ips_case <- dynamic_state_ceiling_case (u "tcp-max-tracked-ips")
      (dynamic_state_ceiling_tcp_config [(u "max_tracked_ips", VInt ((LIMITER_MAX_TRACKED_IPS_MAX + 1)%Z))])
      (u "tcp[0].limits.max_tracked_ips") LIMITER_MAX_TRACKED_IPS_MAX in
  let cases := [
      (u "filter_runtime_file_bytes", filter_runtime_file_bytes_case);
      (u "filter_runtime_filters", filter_runtime_filters_case);
      (u "filter_static_filters", filter_static_filters_case);
      (u "static_filter_ttl_seconds", static_filter_ttl_seconds_case);
      (u "adaptive_activation_ttl_seconds", adaptive_activation_ttl_seconds_case);
      (u "adaptive_event_log_max_bytes", adaptive_event_log_max_bytes_case);
      (u "adaptive_signature_windows", adaptive_signature_windows_case);
      (u "adaptive_path_shape_windows", adaptive_path_shape_windows_case);
      (u "http_max_tracked_ips", http_max_tracked_ips_case);
      (u "http_max_tracked_signatures", http_max_tracked_signatures_case);
      (u "http_max_tracked_path_shapes", http_max_tracked_path_shapes_case);
      (u "tcp_max_tracked_ips", tcp_max_tracked_ips_case)] in
  cret (dupdate (as_values cases) [(u "all_dynamic_state_ceilings_rejected", VBool (all_rejected cases))]).

Definition control_capacity_case (name : pystr) (cfg : pydict) (expected_path : pystr) : bench pydict :=
  let config_path := joined tmp_path (u "control-capacity-" ++ name ++ u "-config.json") in
  perform _ <- write_text config_path (dumps default_style (VDict cfg)) in
  perform proxy <- start_proxy w binary config_path in
  cret [
      (u "configured_field", VStr expected_path);
      (u "exit_code", VInt (returncode proxy));
      (u "stderr_tail", stderr_tail proxy);
      (u "startup_rejected", VBool (rejected proxy [expected_path; u "must be greater than zero"]))].

Definition run_control_capacity_startup_probe : bench pydict :=
  perform filter_file_cap_case <- control_capacity_case (u "filter-file-cap")
      [(u "filters", VDict [(u "max_runtime_file_bytes", VInt 0)])] (u "filters.max_runtime_file_bytes") in
  perform filter_rule_cap_case <- control_capacity_case (u "filter-rule-cap")
      [(u "filters", VDict [(u "max_runtime_filters", VInt 0)])] (u "filters.max_runtime_filters") in
  perform adaptive_log_cap_case <- control_capacity_case (u "adaptive-log-cap")
      [(u "adaptive", VDict [(u "event_log_max_bytes", VInt 0)])] (u "adaptive.event_log_max_bytes") in
  perform adaptive_queue_cap_case <- control_capacity_case (u "adaptive-queue-cap")
      [(u "adaptive", VDict [(u "event_log_queue_capacity", VInt 0)])] (u "adaptive.event_log_queue_capacity") in
  perform adaptive_flush_case <- control_capacity_case (u "adaptive-flush-interval")
      [(u "adaptive", VDict [(u "event_log_flush_interval_ms", VInt 0)])] (u "adaptive.event_log_flush_interval_ms") in
  perform adaptive_window_case <- control_capacity_case (u "adaptive-window-cap")
      [(u "adaptive", VDict [(u "max_signature_windows", VInt 0)])] (u "adaptive.max_signature_windows") in
  cret [
      (u "filter_file_cap", VDict filter_file_cap_case);
      (u "filter_rule_cap", VDict filter_rule_cap_case);
      (u "adaptive_log_cap", VDict adaptive_log_cap_case);
      (u "adaptive_queue_cap", VDict adaptive_queue_cap_case);
      (u "adaptive_flush_interval", VDict adaptive_flush_case);
      (u "adaptive_window_cap", VDict adaptive_window_case);
      (u "filter_file_cap_rejected", startup_rejected filter_file_cap_case);
      (u "filter_rule_cap_rejected", startup_rejected filter_rule_cap_case);
      (u "adaptive_log_cap_rejected", startup_rejected adaptive_log_cap_case);
      (u "adaptive_queue_cap_rejected", startup_rejected adaptive_queue_cap_case);
      (u "adaptive_flush_interval_rejected", startup_rejected adaptive_flush_case);
      (u "adaptive_window_cap_rejected", startup_rejected adaptive_window_case)].

Definition config_file_case (config_path : pystr) (expected_text : pystr) : bench pydict :=
  perform proxy <- start_proxy w binary config_path in
  cret [
      (u "config_path", VStr config_path);
      (u "exit_code", VInt (returncode proxy));
      (u "stderr_tail", stderr_tail proxy);
      (u "startup_rejected", VBool (rejected proxy [expected_text]))].

Definition run_config_file_startup_probe : bench pydict :=
  let oversized_path := joined tmp_path (u "oversized-startup-config.json") in
  perform _ <- write_text oversized_path (dumps default_style (VDict [(u "padding", VStr (repeated 120 (((1024 * 1024) + 1024)%Z)))])) in
  let non_regular_path := joined tmp_path (u "non-regular-startup-config.json") in
  perform _ <- mkdir non_regular_path in
  perform oversized_case <- config_file_case oversized_path (u "above configured cap") in
  perform non_regular_case <- config_file_case non_regular_path (u "must be a regular file") in
  cret [
      (u "oversized_config", VDict oversized_case);
      (u "non_regular_config", VDict non_regular_case);
      (u "oversized_config_rejected", startup_rejected oversized_case);
      (u "non_regular_config_rejected", startup_rejected non_regular_case)].

Definition http_endpoint_case (name : pystr) (http_cfg : pydict) (expected_text : pystr) : bench pydict :=
  let config_path := joined tmp_path (u "http-endpoint-" ++ name ++ u "-config.json") in
  perform _ <- write_text config_path (dumps default_style (VDict [(u "http", VDict http_cfg); (u "tcp", VList [])])) in
  perform proxy <- start_proxy w binary config_path in
  cret [
      (u "configured", VDict http_cfg);
      (u "exit_code", VInt (returncode proxy));
      (u "stderr_tail", stderr_tail proxy);
      (u "startup_rejected", VBool (rejected proxy [expected_text]))].

Definition run_http_endpoint_startup_probe : bench pydict :=
  perform invalid_listen_case <- http_endpoint_case (u "invalid-listen")
      [(u "listen", VStr (u "not-a-socket")); (u "upstream", VStr (u "http://127.0.0.1:" ++ dec_Z upstream_port))]
      (u "invalid http.listen address") in
  perform port <- free_port w in
  perform missing_scheme_case <- http_endpoint_case (u "missing-scheme")
      [(u "listen", VStr (u "127.0.0.1:" ++ dec_Z port)); (u "upstream", VStr (u "127.0.0.1:1"))]
      (u "http.upstream must include http:// scheme") in
  perform port2 <- free_port w in
  perform https_scheme_case <- http_endpoint_case (u "https-scheme")
      [(u "listen", VStr (u "127.0.0.1:" ++ dec_Z port2)); (u "upstream", VStr (u "https://127.0.0.1:1"))]
      (u "http.upstream must use http:// scheme") in
  perform port3 <- free_port w in
  perform userinfo_case <- http_endpoint_case (u "userinfo")
      [(u "listen", VStr (u "127.0.0.1:" ++ dec_Z port3)); (u "upstream", VStr (u "http://user@127.0.0.1:1"))]
      (u "http.upstream must not contain URI userinfo") in
  perform port4 <- free_port w in
  perform query_case <- http_endpoint_case (u "query")
      [(u "listen", VStr (u "127.0.0.1:" ++ dec_Z port4)); (u "upstream", VStr (u "http://127.0.0.1:1/base?x=1"))]
      (u "http.upstream must not include a query string") in
  cret [
      (u "invalid_listen", VDict invalid_listen_case);
      (u "missing_upstream_scheme", VDict missing_scheme_case);
      (u "https_upstream_scheme", VDict https_scheme_case);
      (u "upstream_userinfo", VDict userinfo_case);
      (u "upstream_query", VDict query_case);
      (u "invalid_listen_rejected", startup_rejected invalid_listen_case);
      (u "missing_upstream_scheme_rejected", startup_rejected missing_scheme_case);
      (u "https_upstream_scheme_rejected", startup_rejected https_scheme_case);
      (u "upstream_userinfo_rejected", startup_rejected userinfo_case);
      (u "upstream_query_rejected", startup_rejected query_case)].

Definition tcp_endpoint_case (name : pystr) (tcp_cfg : pydict) (expected_text : pystr) : bench pydict :=
  let config_path := joined tmp_path (u "tcp-endpoint-" ++ name ++ u "-config.json") in
  perform _ <- write_text config_path (dumps default_style (VDict [(u "tcp", VList [VDict tcp_cfg])])) in
  perform proxy <- start_proxy w binary config_path in
  cret [
      (u "configured", VDict tcp_cfg);
      (u "exit_code", VInt (returncode proxy));
      (u "stderr_tail", stderr_tail proxy);
      (u "startup_rejected", VBool (rejected proxy [expected_text]))].

Definition run_tcp_endpoint_startup_probe : bench pydict :=
  perform invalid_listen_case <- tcp_endpoint_case (u "invalid-listen")
      [(u "name", VStr (u "tcp")); (u "listen", VStr (u "not-a-socket")); (u "upstream", VStr (u "127.0.0.1:1"))]
      (u "invalid tcp[0].listen address") in
  perform port <- free_port w in
  perform missing_port_case <- tcp_endpoint_case (u "missing-port")
      [
        (u "name", VStr (u "tcp"));
        (u "listen", VStr (u "127.0.0.1:" ++ dec_Z port));
        (u "upstream", VStr (u "127.0.0.1"))] (u "tcp[0].upstream must include a numeric port") in
  perform port2 <- free_port w in
  perform scheme_case <- tcp_endpoint_case (u "scheme")
      [
        (u "name", VStr (u "tcp"));
        (u "listen", VStr (u "127.0.0.1:" ++ dec_Z port2));
        (u "upstream", VStr (u "http://127.0.0.1:1"))]
      (u "tcp[0].upstream must be host:port without a URL scheme") in
  perform port3 <- free_port w in
  perform userinfo_case <- tcp_endpoint_case (u "userinfo")
      [
        (u "name", VStr (u "tcp"));
        (u "listen", VStr (u "127.0.0.1:" ++ dec_Z port3));
        (u "upstream", VStr (u "user@127.0.0.1:1"))] (u "tcp[0].upstream must not contain URI userinfo") in
  perform port4 <- free_port w in
  perform path_case <- tcp_endpoint_case (u "path")
      [
        (u "name", VStr (u "tcp"));
        (u "listen", VStr (u "127.0.0.1:" ++ dec_Z port4));
        (u "upstream", VStr (u "127.0.0.1:1/base"))]
      (u "tcp[0].upstream must not include a path, query, or fragment") in
  perform port5 <- free_port w in
  perform zero_port_case <- tcp_endpoint_case (u "zero-port")
      [
        (u "name", VStr (u "tcp"));
        (u "listen", VStr (u "127.0.0.1:" ++ dec_Z port5));
        (u "upstream", VStr (u "127.0.0.1:0"))] (u "tcp[0].upstream port must be greater than zero") in
  cret [
      (u "invalid_listen", VDict invalid_listen_case);
      (u "missing_upstream_port", VDict missing_port_case);
      (u "upstream_scheme", VDict scheme_case);
      (u "upstream_userinfo", VDict userinfo_case);
      (u "upstream_path", VDict path_case);
      (u "upstream_zero_port", VDict zero_port_case);
      (u "invalid_listen_rejected", startup_rejected invalid_listen_case);
      (u "missing_upstream_port_rejected", startup_rejected missing_port_case);
      (u "upstream_scheme_rejected", startup_rejected scheme_case);
      (u "upstream_userinfo_rejected", startup_rejected userinfo_case);
      (u "upstream_path_rejected", startup_rejected path_case);
      (u "upstream_zero_port_rejected", startup_rejected zero_port_case)].

Definition filter_rule_case (name : pystr) (cfg : pydict) (expected_text : pystr) : bench pydict :=
  let config_path := joined tmp_path (u "filter-rule-" ++ name ++ u "-config.json") in
  perform _ <- write_text config_path (dumps default_style (VDict cfg)) in
  perform proxy <- start_proxy w binary config_path in
  cret [
      (u "config_path", VStr config_path);
      (u "exit_code", VInt (returncode proxy));
      (u "stderr_tail", stderr_tail proxy);
      (u "startup_rejected", VBool (rejected proxy [expected_text]))].

Definition run_filter_rule_startup_probe : bench pydict :=
  let valid_rule := [(u "id", VStr (u "one")); (u "condition", VDict [(u "path_exact", VStr (u "/one"))])] in
  perform too_many_static_case <- filter_rule_case (u "static-count")
      [(u "filters", VDict [
          (u "max_static_filters", VInt 1);
          (u "static_rules", VList [
            VDict valid_rule;
            VDict [(u "id", VStr (u "two")); (u "condition", VDict [(u "path_exact", VStr (u "/two"))])]])])]
      (u "filters.static_rules contains 2 filters") in
  perform empty_condition_case <- filter_rule_case (u "empty-condition")
      [(u "filters", VDict [(u "static_rules", VList [VDict [(u "id", VStr (u "catchall"))]])])]
      (u "filters.static_rules[0].condition must include at least one matcher") in
  perform invalid_status_case <- filter_rule_case (u "invalid-status")
      [(u "filters", VDict [(u "static_rules", VList [VDict [
              (u "id", VStr (u "invalid-status"));
              (u "condition", VDict [(u "path_exact", VStr (u "/bad"))]);
              (u "action", VDict [
                (u "kind", VStr (u "block"));
                (u "status", VInt 200);
                (u "body", VStr (u "blocked" ++ [10%N]))])]])])] (u "filters.static_rules[0].action.status") in
  perform oversized_body_case <- filter_rule_case (u "oversized-body")
      [(u "filters", VDict [(u "static_rules", VList [VDict [
              (u "id", VStr (u "oversized-body"));
              (u "condition", VDict [(u "path_exact", VStr (u "/bad"))]);
              (u "action", VDict [
                (u "kind", VStr (u "block"));
                (u "status", VInt 403);
                (u "body", VStr (repeated 120 2048))])]])])] (u "filters.static_rules[0].action.body") in
  cret [
      (u "too_many_static_filters", VDict too_many_static_case);
      (u "empty_condition", VDict empty_condition_case);
      (u "invalid_status", VDict invalid_status_case);
      (u "oversized_body", VDict oversized_body_case);
      (u "too_many_static_filters_rejected", startup_rejected too_many_static_case);
      (u "empty_condition_rejected", startup_rejected empty_condition_case);
      (u "invalid_status_rejected", startup_rejected invalid_status_case);
      (u "oversized_body_rejected", startup_rejected oversized_body_case)].

Definition allowed_methods_case (name : pystr) (methods : list pystr) (expected_text : pystr) : bench pydict :=
  perform proxy_port <- free_port w in
  let cfg := [
      (u "http", VDict [
        (u "listen", VStr (u "127.0.0.1:" ++ dec_Z proxy_port));
        (u "upstream", VStr (u "http://127.0.0.1:" ++ dec_Z upstream_port));
        (u "allowed_methods", VList (VStr <$> methods))]);
      (u "tcp", VList [])] in
  let config_path := joined tmp_path (u "allowed-methods-" ++ name ++ u "-config.json") in
  perform _ <- write_text config_path (dumps default_style (VDict cfg)) in
  perform proxy <- start_proxy w binary config_path in
  cret [
      (u "configured_allowed_methods", VList (VStr <$> methods));
      (u "exit_code", VInt (returncode proxy));
      (u "stderr_tail", stderr_tail proxy);
      (u "startup_rejected", VBool (rejected proxy [expected_text]))].

Definition run_allowed_methods_startup_probe : bench pydict :=
  perform empty_case <- allowed_methods_case (u "empty") [] (u "http.allowed_methods must contain at least one method") in
  perform invalid_token_case <- allowed_methods_case (u "invalid-token") [u "BAD METHOD"]
      (u "http.allowed_methods[0] is not a valid HTTP method token") in
  perform oversized_token_case <- allowed_methods_case (u "oversized-token") [repeated 65 33]
      (u "http.allowed_methods[0] is 33 bytes") in
  perform duplicate_case <- allowed_methods_case (u "duplicate") [u "GET"; u "GET"]
      (u "http.allowed_methods[1] duplicates 'GET'") in
  perform unsupported_connect_case <- allowed_methods_case (u "unsupported-connect") [u "GET"; u "CONNECT"]
      (u "http.allowed_methods[1] must not include unsupported tunnel or diagnostic method 'CONNECT'") in
  perform unsupported_trace_case <- allowed_methods_case (u "unsupported-trace") [u "GET"; u "TRACE"]
      (u "http.allowed_methods[1] must not include unsupported tunnel or diagnostic method 'TRACE'") in
  perform unsupported_track_case <- allowed_methods_case (u "unsupported-track") [u "GET"; u "TRACK"]
      (u "http.allowed_methods[1] must not include unsupported tunnel or diagnostic method 'TRACK'") in
  perform too_many_case <- allowed_methods_case (u "too-many") ((fun idx => u "M" ++ dec_nat idx) <$> seq 0 17)
      (u "http.allowed_methods contains 17 methods") in
  cret [
      (u "empty", VDict empty_case);
      (u "invalid_token", VDict invalid_token_case);
      (u "oversized_token", VDict oversized_token_case);
      (u "duplicate", VDict duplicate_case);
      (u "unsupported_connect", VDict unsupported_connect_case);
      (u "unsupported_trace", VDict unsupported_trace_case);
      (u "unsupported_track", VDict unsupported_track_case);
      (u "too_many", VDict too_many_case);
      (u "empty_rejected", startup_rejected empty_case);
      (u "invalid_token_rejected", startup_rejected invalid_token_case);
      (u "oversized_token_rejected", startup_rejected oversized_token_case);
      (u "duplicate_rejected", startup_rejected duplicate_case);
      (u "unsupported_connect_rejected", startup_rejected unsupported_connect_case);
      (u "unsupported_trace_rejected", startup_rejected unsupported_trace_case);
      (u "unsupported_track_rejected", startup_rejected unsupported_track_case);
      (u "too_many_rejected", startup_rejected too_many_case)].

Definition allowed_hosts_case (name : pystr) (allowed_hosts : list pystr) (expected_text : pystr) (max_host_bytes : option Z) : bench pydict :=
  perform proxy_port <- free_port w in
  let http_cfg := [
      (u "listen", VStr (u "127.0.0.1:" ++ dec_Z proxy_port));
      (u "upstream", VStr (u "http://127.0.0.1:" ++ dec_Z upstream_port));
      (u "allowed_hosts", VList (VStr <$> allowed_hosts))] in
  let http_cfg := match max_host_bytes with Some n => dset (u "max_host_bytes") (VInt n) http_cfg | None => http_cfg end in
  let cfg := [(u "http", VDict http_cfg); (u "tcp", VList [])] in
  let config_path := joined tmp_path (u "allowed-hosts-" ++ name ++ u "-config.json") in
  perform _ <- write_text config_path (dumps default_style (VDict cfg)) in
  perform proxy <- start_proxy w binary config_path in
  cret [
      (u "configured_allowed_hosts", VList (VStr <$> allowed_hosts));
      (u "configured_max_host_bytes", optional_int max_host_bytes);
      (u "exit_code", VInt (returncode proxy));
      (u "stderr_tail", stderr_tail proxy);
      (u "startup_rejected", VBool (rejected proxy [expected_text]))].

Definition run_allowed_hosts_startup_probe : bench pydict :=
  perform blank_case <- allowed_hosts_case (u "blank") [[]] (u "http.allowed_hosts[0] must not be empty") None in
  perform whitespace_case <- allowed_hosts_case (u "whitespace") [u " good.local"]
      (u "http.allowed_hosts[0] must not start or end with whitespace") None in
  perform invalid_authority_case <- allowed_hosts_case (u "invalid-authority") [u "http://good.local"]
      (u "http.allowed_hosts[0] is not a valid HTTP authority") None in
  perform userinfo_case <- allowed_hosts_case (u "userinfo") [u "user@good.local"]
      (u "http.allowed_hosts[0] must not contain URI userinfo") None in
  perform wildcard_case <- allowed_hosts_case (u "wildcard") [u "*.good.local"]
      (u "http.allowed_hosts[0] must be an exact host or host:port") None in
  perform oversized_case <- allowed_hosts_case (u "oversized") [u "too-long.local"]
      (u "http.allowed_hosts[0] is 14 bytes, above configured cap of 8 bytes") (Some 8%Z) in
  perform duplicate_case <- allowed_hosts_case (u "duplicate") [u "good.local"; u "GOOD.local"]
      (u "http.allowed_hosts[1] duplicates 'GOOD.local'") None in
  perform too_many_case <- allowed_hosts_case (u "too-many")
      ((fun idx => u "h" ++ dec_nat idx ++ u ".good.local") <$> seq 0 129) (u "http.allowed_hosts contains 129 hosts")
      None in
  cret [
      (u "blank", VDict blank_case);
      (u "whitespace", VDict whitespace_case);
      (u "invalid_authority", VDict invalid_authority_case);
      (u "userinfo", VDict userinfo_case);
      (u "wildcard", VDict wildcard_case);
      (u "oversized", VDict oversized_case);
      (u "duplicate", VDict duplicate_case);
      (u "too_many", VDict too_many_case);
      (u "blank_rejected", startup_rejected blank_case);
      (u "whitespace_rejected", startup_rejected whitespace_case);
      (u "invalid_authority_rejected", startup_rejected invalid_authority_case);
      (u "userinfo_rejected", startup_rejected userinfo_case);
      (u "wildcard_rejected", startup_rejected wildcard_case);
      (u "oversized_rejected", startup_rejected oversized_case);
      (u "duplicate_rejected", startup_rejected duplicate_case);
      (u "too_many_rejected", startup_rejected too_many_case)].

Definition client_ip_config_case (name : pystr) (client_ip : pydict) (expected_text : pystr) : bench pydict :=
  perform proxy_port <- free_port w in
  let cfg := [
      (u "http", VDict [
        (u "listen", VStr (u "127.0.0.1:" ++ dec_Z proxy_port));
        (u "upstream", VStr (u "http://127.0.0.1:" ++ dec_Z upstream_port));
        (u "client_ip", VDict client_ip)]);
      (u "tcp", VList [])] in
  let config_path := joined tmp_path (u "client-ip-config-" ++ name ++ u ".json") in
  perform _ <- write_text config_path (dumps default_style (VDict cfg)) in
  perform proxy <- start_proxy w binary config_path in
  cret [
      (u "configured_client_ip", VDict client_ip);
      (u "exit_code", VInt (returncode proxy));
      (u "stderr_tail", stderr_tail proxy);
      (u "startup_rejected", VBool (rejected proxy [expected_text]))].

Definition run_client_ip_config_startup_probe : bench pydict :=
  perform invalid_header_case <- client_ip_config_case (u "invalid-header") [(u "header", VStr (u "bad header"))]
      (u "http.client_ip.header is not a valid HTTP field name") in
  perform oversized_header_case <- client_ip_config_case (u "oversized-header")
      [(u "header", VStr (u "x-" ++ repeated 97 63))] (u "http.client_ip.header is 65 bytes") in
  perform blank_trusted_proxy_case <- client_ip_config_case (u "blank-trusted-proxy")
      [(u "trusted_proxies", VList [VStr []])] (u "http.client_ip.trusted_proxies[0] must not be empty") in
  perform invalid_trusted_proxy_case <- client_ip_config_case (u "invalid-trusted-proxy")
      [(u "trusted_proxies", VList [VStr (u "not-a-cidr")])]
      (u "invalid http.client_ip.trusted_proxies entry 'not-a-cidr'") in
  perform oversized_trusted_proxy_case <- client_ip_config_case (u "oversized-trusted-proxy")
      [(u "trusted_proxies", VList [VStr (repeated 49 65)])] (u "http.client_ip.trusted_proxies[0] is 65 bytes") in
  perform duplicate_trusted_proxy_case <- client_ip_config_case (u "duplicate-trusted-proxy")
      [(u "trusted_proxies", VList [VStr (u "127.0.0.1/32"); VStr (u "127.0.0.1/32")])]
      (u "http.client_ip.trusted_proxies[1] duplicates '127.0.0.1/32'") in
  perform too_many_trusted_proxies_case <- client_ip_config_case (u "too-many-trusted-proxies")
      [(u "trusted_proxies", VList (VStr <$> ((fun idx => u "2001:db8::" ++ dec_nat idx) <$> seq 0 129)))]
      (u "http.client_ip.trusted_proxies contains 129 entries") in
  cret [
      (u "invalid_header", VDict invalid_header_case);
      (u "oversized_header", VDict oversized_header_case);
      (u "blank_trusted_proxy", VDict blank_trusted_proxy_case);
      (u "invalid_trusted_proxy", VDict invalid_trusted_proxy_case);
      (u "oversized_trusted_proxy", VDict oversized_trusted_proxy_case);
      (u "duplicate_trusted_proxy", VDict duplicate_trusted_proxy_case);
      (u "too_many_trusted_proxies", VDict too_many_trusted_proxies_case);
      (u "invalid_header_rejected", startup_rejected invalid_header_case);
      (u "oversized_header_rejected", startup_rejected oversized_header_case);
      (u "blank_trusted_proxy_rejected", startup_rejected blank_trusted_proxy_case);
      (u "invalid_trusted_proxy_rejected", startup_rejected invalid_trusted_proxy_case);
      (u "oversized_trusted_proxy_rejected", startup_rejected oversized_trusted_proxy_case);
      (u "duplicate_trusted_proxy_rejected", startup_rejected duplicate_trusted_proxy_case);
      (u "too_many_trusted_proxies_rejected", startup_rejected too_many_trusted_proxies_case)].
End probes.
