(* ===== verification/StartupGate.v ===== *)
(** * StartupGate: the startup probes and the release gate

    The calls of the startup probes in [main] of [tools/run_local_bench.py], the texts each
    refused configuration must produce, and what the gate of [LocalAssert] then shows. *)

From S2P Require Import Prelude Unicode PyStr PyFloat PyVal Json LocalAssert EdgeListen LocalProbe StartupProbes.

(** ** The calls in [main] *)

Section main.
Context (w : bench_world) (binary : pystr) (upstream_port tcp_upstream_port : Z) (tmp_path : pystr).

Definition startup_probes_1 : bench pydict :=
  perform trusted_proxy_global_trust_startup <- run_trusted_proxy_global_trust_startup_probe w binary upstream_port tmp_path in
  perform negative_rate_startup <- run_negative_rate_startup_probe w binary upstream_port tcp_upstream_port tmp_path in
  perform admin_prefix_startup <- run_admin_prefix_startup_probe w binary upstream_port tmp_path in
  perform admin_token_startup <- run_admin_token_startup_probe w binary upstream_port tmp_path in
  perform zero_capacity_startup <- run_zero_capacity_startup_probe w binary upstream_port tcp_upstream_port tmp_path in
  perform header_buffer_floor_startup <- run_header_buffer_floor_startup_probe w binary upstream_port tmp_path in
  perform header_buffer_ceiling_startup <- run_header_buffer_ceiling_startup_probe w binary upstream_port tmp_path in
  perform header_count_ceiling_startup <- run_header_count_ceiling_startup_probe w binary upstream_port tmp_path in
  perform http_metadata_ceiling_startup <- run_http_metadata_ceiling_startup_probe w binary upstream_port tmp_path in
  perform header_read_timeout_ceiling_startup <- run_header_read_timeout_ceiling_startup_probe w binary upstream_port tmp_path in
  perform upstream_timeout_ceiling_startup <- run_upstream_timeout_ceiling_startup_probe w binary upstream_port tmp_path in
  perform upstream_failure_circuit_ceiling_startup <- run_upstream_failure_circuit_ceiling_startup_probe w binary upstream_port tmp_path in
  perform http_stream_timeout_ceiling_startup <- run_http_stream_timeout_ceiling_startup_probe w binary upstream_port tmp_path in
  perform body_size_ceiling_startup <- run_body_size_ceiling_startup_probe w binary upstream_port tmp_path in
  perform min_rate_ceiling_startup <- run_min_rate_ceiling_startup_probe w binary upstream_port tcp_upstream_port tmp_path in
  perform upstream_idle_pool_ceiling_startup <- run_upstream_idle_pool_ceiling_startup_probe w binary upstream_port tmp_path in
  perform connect_timeout_ceiling_startup <- run_connect_timeout_ceiling_startup_probe w binary upstream_port tcp_upstream_port tmp_path in
  perform connection_duration_ceiling_startup <- run_connection_duration_ceiling_startup_probe w binary upstream_port tcp_upstream_port tmp_path in
  cret [
      (u "trusted_proxy_global_trust_startup", VDict trusted_proxy_global_trust_startup);
      (u "negative_rate_startup", VDict negative_rate_startup);
      (u "admin_prefix_startup", VDict admin_prefix_startup);
      (u "admin_token_startup", VDict admin_token_startup);
      (u "zero_capacity_startup", VDict zero_capacity_startup);
      (u "header_buffer_floor_startup", VDict header_buffer_floor_startup);
      (u "header_buffer_ceiling_startup", VDict header_buffer_ceiling_startup);
      (u "header_count_ceiling_startup", VDict header_count_ceiling_startup);
      (u "http_metadata_ceiling_startup", VDict http_metadata_ceiling_startup);
      (u "header_read_timeout_ceiling_startup", VDict header_read_timeout_ceiling_startup);
      (u "upstream_timeout_ceiling_startup", VDict upstream_timeout_ceiling_startup);
      (u "upstream_failure_circuit_ceiling_startup", VDict upstream_failure_circuit_ceiling_startup);
      (u "http_stream_timeout_ceiling_startup", VDict http_stream_timeout_ceiling_startup);
      (u "body_size_ceiling_startup", VDict body_size_ceiling_startup);
      (u "min_rate_ceiling_startup", VDict min_rate_ceiling_startup);
      (u "upstream_idle_pool_ceiling_startup", VDict upstream_idle_pool_ceiling_startup);
      (u "connect_timeout_ceiling_startup", VDict connect_timeout_ceiling_startup);
      (u "connection_duration_ceiling_startup", VDict connection_duration_ceiling_startup)].

Definition startup_probes_2 : bench pydict :=
  perform connection_request_count_ceiling_startup <- run_connection_request_count_ceiling_startup_probe w binary upstream_port tmp_path in
  perform event_log_backup_count_ceiling_startup <- run_event_log_backup_count_ceiling_startup_probe w binary tmp_path in
  perform event_log_queue_capacity_ceiling_startup <- run_event_log_queue_capacity_ceiling_startup_probe w binary tmp_path in
  perform dynamic_state_ceiling_startup <- run_dynamic_state_ceiling_startup_probe w binary upstream_port tcp_upstream_port tmp_path in
  perform control_capacity_startup <- run_control_capacity_startup_probe w binary tmp_path in
  perform config_file_startup <- run_config_file_startup_probe w binary tmp_path in
  perform http_endpoint_startup <- run_http_endpoint_startup_probe w binary upstream_port tmp_path in
  perform tcp_endpoint_startup <- run_tcp_endpoint_startup_probe w binary tmp_path in
  perform filter_rule_startup <- run_filter_rule_startup_probe w binary tmp_path in
  perform allowed_methods_startup <- run_allowed_methods_startup_probe w binary upstream_port tmp_path in
  perform allowed_hosts_startup <- run_allowed_hosts_startup_probe w binary upstream_port tmp_path in
  perform client_ip_config_startup <- run_client_ip_config_startup_probe w binary upstream_port tmp_path in
  cret [
      (u "connection_request_count_ceiling_startup", VDict connection_request_count_ceiling_startup);
      (u "event_log_backup_count_ceiling_startup", VDict event_log_backup_count_ceiling_startup);
      (u "event_log_queue_capacity_ceiling_startup", VDict event_log_queue_capacity_ceiling_startup);
      (u "dynamic_state_ceiling_startup", VDict dynamic_state_ceiling_startup);
      (u "control_capacity_startup", VDict control_capacity_startup);
      (u "config_file_startup", VDict config_file_startup);
      (u "http_endpoint_startup", VDict http_endpoint_startup);
      (u "tcp_endpoint_startup", VDict tcp_endpoint_startup);
      (u "filter_rule_startup", VDict filter_rule_startup);
      (u "allowed_methods_startup", VDict allowed_methods_startup);
      (u "allowed_hosts_startup", VDict allowed_hosts_startup);
      (u "client_ip_config_startup", VDict client_ip_config_startup)].

(** The startup entries of [result["guardrails"]]. *)
Definition startup_guardrails : bench pydict :=
  perform first <- startup_probes_1 in
  perform second <- startup_probes_2 in
  cret (first ++ second).
End main.

(** ** Refusals *)

Definition above (field : pystr) (ceiling : Z) : list pystr := [field; u "must be no higher than " ++ dec_Z ceiling].
Definition zero (field : pystr) : list pystr := [field; u "must be greater than zero"].
Definition negative (field : pystr) : list pystr := [field; u "must be finite and non-negative"].

(** By probe, in the order of its proxies: what the standard error of a refused start must
    contain. *)
Definition startup_refusals : list (pystr * list (list pystr)) :=
  [(u "trusted_proxy_global_trust_startup", [
      [u "must not trust all IPv4 peers"; u "non-loopback listener"]]);
   (u "negative_rate_startup", [
      negative (u "http.limits.per_ip_rps");
      negative (u "tcp[0].limits.global_connects_per_second")]);
   (u "admin_prefix_startup", [
      [u "http.admin_path_prefix"; u "non-root absolute path prefix"];
      [u "http.admin_path_prefix"; u "must start with '/' and use a non-root absolute path prefix"];
      [u "http.admin_path_prefix"; u "must not contain query or fragment"]]);
   (u "admin_token_startup", [
      [u "http.admin_token"; u "must not be empty"];
      [u "http.admin_token"; u "must not be blank"];
      [u "http.admin_token"; u "must not start or end with whitespace"];
      [u "http.admin_token"; u "must not contain control characters"];
      [u "http.admin_token"; u "above configured cap"]]);
   (u "zero_capacity_startup", [
      zero (u "http.limits.max_connections");
      zero (u "http.max_header_bytes");
      zero (u "http.client_ip.max_forwarded_for_hops");
      zero (u "http.upstream_connect_timeout_ms");
      zero (u "tcp[0].limits.max_connections")]);
   (u "header_buffer_floor_startup", [
      [u "http.max_header_bytes"; u "must be at least 8192"];
      [u "http.upstream_max_header_bytes"; u "must be at least 8192"]]);
   (u "header_buffer_ceiling_startup", [
      above (u "http.max_header_bytes") HTTP_HEADER_BUFFER_MAX_BYTES;
      above (u "http.upstream_max_header_bytes") HTTP_HEADER_BUFFER_MAX_BYTES]);
   (u "header_count_ceiling_startup", [
      above (u "http.max_headers") HTTP_HEADER_COUNT_MAX;
      above (u "http.upstream_max_headers") HTTP_HEADER_COUNT_MAX]);
   (u "http_metadata_ceiling_startup", [
      above (u "http.max_host_bytes") HTTP_HOST_MAX_BYTES_MAX;
      above (u "http.max_uri_bytes") HTTP_REQUEST_TARGET_MAX_BYTES;
      above (u "http.max_query_bytes") HTTP_REQUEST_TARGET_MAX_BYTES;
      above (u "http.max_query_pairs") HTTP_QUERY_PAIR_COUNT_MAX;
      above (u "http.max_path_segments") HTTP_PATH_SEGMENT_COUNT_MAX;
      above (u "http.max_trailer_bytes") HTTP_TRAILER_BYTES_MAX;
      above (u "http.max_trailers") HTTP_TRAILER_COUNT_MAX;
      above (u "http.upstream_max_trailer_bytes") HTTP_TRAILER_BYTES_MAX;
      above (u "http.upstream_max_trailers") HTTP_TRAILER_COUNT_MAX;
      above (u "http.client_ip.max_forwarded_for_bytes") HTTP_FORWARDED_FOR_BYTES_MAX;
      above (u "http.client_ip.max_forwarded_for_hops") HTTP_FORWARDED_FOR_HOPS_MAX]);
   (u "header_read_timeout_ceiling_startup", [
      above (u "http.header_read_timeout_ms") HTTP_HEADER_READ_TIMEOUT_MAX_MS]);
   (u "upstream_timeout_ceiling_startup", [
      above (u "http.upstream_timeout_ms") HTTP_UPSTREAM_TIMEOUT_MAX_MS]);
   (u "upstream_failure_circuit_ceiling_startup", [
      above (u "http.upstream_failure_threshold") HTTP_UPSTREAM_FAILURE_THRESHOLD_MAX;
      above (u "http.upstream_failure_open_ms") HTTP_UPSTREAM_FAILURE_OPEN_MAX_MS]);
   (u "http_stream_timeout_ceiling_startup", [
      above (u "http.downstream_write_timeout_ms") HTTP_DOWNSTREAM_WRITE_TIMEOUT_MAX_MS;
      above (u "http.request_body_idle_timeout_ms") HTTP_BODY_IDLE_TIMEOUT_MAX_MS;
      above (u "http.upstream_body_idle_timeout_ms") HTTP_BODY_IDLE_TIMEOUT_MAX_MS;
      above (u "http.request_body_min_rate_grace_ms") HTTP_BODY_MIN_RATE_GRACE_MAX_MS;
      above (u "http.upstream_body_min_rate_grace_ms") HTTP_BODY_MIN_RATE_GRACE_MAX_MS]);
   (u "body_size_ceiling_startup", [
      above (u "http.max_body_bytes") HTTP_MAX_BODY_BYTES_MAX;
      above (u "http.max_upstream_body_bytes") HTTP_MAX_UPSTREAM_BODY_BYTES_MAX]);
   (u "min_rate_ceiling_startup", [
      above (u "http.request_body_min_rate_bytes_per_second") HTTP_BODY_MIN_RATE_BYTES_PER_SECOND_MAX;
      above (u "http.upstream_body_min_rate_bytes_per_second") HTTP_BODY_MIN_RATE_BYTES_PER_SECOND_MAX;
      above (u "tcp[0].downstream_min_rate_bytes_per_second") TCP_MIN_RATE_BYTES_PER_SECOND_MAX;
      above (u "tcp[0].upstream_min_rate_bytes_per_second") TCP_MIN_RATE_BYTES_PER_SECOND_MAX]);
   (u "upstream_idle_pool_ceiling_startup", [
      above (u "http.upstream_pool_idle_timeout_ms") HTTP_UPSTREAM_POOL_IDLE_TIMEOUT_MAX_MS;
      above (u "http.upstream_pool_max_idle_per_host") HTTP_UPSTREAM_POOL_MAX_IDLE_PER_HOST_MAX]);
   (u "connect_timeout_ceiling_startup", [
      above (u "http.upstream_connect_timeout_ms") HTTP_UPSTREAM_CONNECT_TIMEOUT_MAX_MS;
      above (u "tcp[0].connect_timeout_ms") TCP_CONNECT_TIMEOUT_MAX_MS]);
   (u "connection_duration_ceiling_startup", [
      above (u "http.max_connection_duration_seconds") HTTP_MAX_CONNECTION_DURATION_MAX_SECONDS;
      above (u "tcp[0].max_connection_duration_seconds") TCP_MAX_CONNECTION_DURATION_MAX_SECONDS]);
   (u "connection_request_count_ceiling_startup", [
      above (u "http.max_requests_per_connection") HTTP_MAX_REQUESTS_PER_CONNECTION_MAX]);
   (u "event_log_backup_count_ceiling_startup", [
      above (u "adaptive.event_log_backup_count") EVENT_LOG_BACKUP_COUNT_MAX]);
   (u "event_log_queue_capacity_ceiling_startup", [
      above (u "adaptive.event_log_queue_capacity") EVENT_LOG_QUEUE_CAPACITY_MAX]);
   (u "dynamic_state_ceiling_startup", [
      above (u "filters.max_runtime_file_bytes") FILTER_RUNTIME_FILE_MAX_BYTES_MAX;
      above (u "filters.max_runtime_filters") FILTER_RULE_COUNT_MAX;
      above (u "filters.max_static_filters") FILTER_RULE_COUNT_MAX;
      above (u "filters.static_rules[0].ttl_seconds") FILTER_TTL_MAX_SECONDS;
      above (u "adaptive.activation_ttl_seconds") FILTER_TTL_MAX_SECONDS;
      above (u "adaptive.event_log_max_bytes") ADAPTIVE_EVENT_LOG_MAX_BYTES_MAX;
      above (u "adaptive.max_signature_windows") ADAPTIVE_WINDOW_COUNT_MAX;
      above (u "adaptive.max_path_shape_windows") ADAPTIVE_WINDOW_COUNT_MAX;
      above (u "http.limits.max_tracked_ips") LIMITER_MAX_TRACKED_IPS_MAX;
      above (u "http.limits.max_tracked_signatures") LIMITER_MAX_TRACKED_SIGNATURES_MAX;
      above (u "http.limits.max_tracked_path_shapes") LIMITER_MAX_TRACKED_PATH_SHAPES_MAX;
      above (u "tcp[0].limits.max_tracked_ips") LIMITER_MAX_TRACKED_IPS_MAX]);
   (u "control_capacity_startup", [
      zero (u "filters.max_runtime_file_bytes");
      zero (u "filters.max_runtime_filters");
      zero (u "adaptive.event_log_max_bytes");
      zero (u "adaptive.event_log_queue_capacity");
      zero (u "adaptive.event_log_flush_interval_ms");
      zero (u "adaptive.max_signature_windows")]);
   (u "config_file_startup", [
      [u "above configured cap"];
      [u "must be a regular file"]]);
   (u "http_endpoint_startup", [
      [u "invalid http.listen address"];
      [u "http.upstream must include http:// scheme"];
      [u "http.upstream must use http:// scheme"];
      [u "http.upstream must not contain URI userinfo"];
      [u "http.upstream must not include a query string"]]);
   (u "tcp_endpoint_startup", [
      [u "invalid tcp[0].listen address"];
      [u "tcp[0].upstream must include a numeric port"];
      [u "tcp[0].upstream must be host:port without a URL scheme"];
      [u "tcp[0].upstream must not contain URI userinfo"];
      [u "tcp[0].upstream must not include a path, query, or fragment"];
      [u "tcp[0].upstream port must be greater than zero"]]);
   (u "filter_rule_startup", [
      [u "filters.static_rules contains 2 filters"];
      [u "filters.static_rules[0].condition must include at least one matcher"];
      [u "filters.static_rules[0].action.status"];
      [u "filters.static_rules[0].action.body"]]);
   (u "allowed_methods_startup", [
      [u "http.allowed_methods must contain at least one method"];
      [u "http.allowed_methods[0] is not a valid HTTP method token"];
      [u "http.allowed_methods[0] is 33 bytes"];
      [u "http.allowed_methods[1] duplicates 'GET'"];
      [u "http.allowed_methods[1] must not include unsupported tunnel or diagnostic method 'CONNECT'"];
      [u "http.allowed_methods[1] must not include unsupported tunnel or diagnostic method 'TRACE'"];
      [u "http.allowed_methods[1] must not include unsupported tunnel or diagnostic method 'TRACK'"];
      [u "http.allowed_methods contains 17 methods"]]);
   (u "allowed_hosts_startup", [
      [u "http.allowed_hosts[0] must not be empty"];
      [u "http.allowed_hosts[0] must not start or end with whitespace"];
      [u "http.allowed_hosts[0] is not a valid HTTP authority"];
      [u "http.allowed_hosts[0] must not contain URI userinfo"];
      [u "http.allowed_hosts[0] must be an exact host or host:port"];
      [u "http.allowed_hosts[0] is 14 bytes, above configured cap of 8 bytes"];
      [u "http.allowed_hosts[1] duplicates 'GOOD.local'"];
      [u "http.allowed_hosts contains 129 hosts"]]);
   (u "client_ip_config_startup", [
      [u "http.client_ip.header is not a valid HTTP field name"];
      [u "http.client_ip.header is 65 bytes"];
      [u "http.client_ip.trusted_proxies[0] must not be empty"];
      [u "invalid http.client_ip.trusted_proxies entry 'not-a-cidr'"];
      [u "http.client_ip.trusted_proxies[0] is 65 bytes"];
      [u "http.client_ip.trusted_proxies[1] duplicates '127.0.0.1/32'"];
      [u "http.client_ip.trusted_proxies contains 129 entries"]])].

Definition startup_names : list pystr := dkeys startup_refusals.

(** ** The gate's checks of one probe *)

Definition gate_keys (name : pystr) : list pystr :=
  omap (fun check => strip_prefix (u "guardrails." ++ name ++ u ".") check.1) REQUIRED_TRUE_CHECKS.

(** Every check of the probe [name] holds in its report [d]. *)
Definition gate_of (name : pystr) (d : pydict) : bool := forallb (fun key => is_true (dget key d)) (gate_keys name).

Fixpoint forall2b {A B} (r : A -> B -> bool) (l : list A) (m : list B) : bool :=
  match l, m with
  | [], [] => true
  | x :: l', y :: m' => r x y && forall2b r l' m'
  | _, _ => false
  end.

Definition refusals_of (name : pystr) : list (list pystr) := default [] (dget name startup_refusals).

Definition gated (name : pystr) (d : pydict) (new : list start) : Prop :=
  length new = length (refusals_of name) /\ gate_of name d = forall2b rejected new (refusals_of name).

(** The one directory a probe creates. *)
Definition non_regular (tmp_path : pystr) : pystr := joined tmp_path (u "non-regular-startup-config.json").

Ltac split_cond b := lazymatch b with (if ?c then _ else _) => split_cond c | _ => destruct b; cbv iota end.

Ltac split_ifs :=
  repeat match goal with
         | |- (if ?b then _ else _) = _ => split_cond b
         | |- _ = (if ?b then _ else _) => split_cond b
         end.

(** Runs a probe on symbolic processes and compares its flags with the refusals. *)
Ltac run_probe :=
  lazymatch goal with |- probes _ _ _ _ ?m _ => let h := head_of m in unfold h; cbv beta zeta end;
  repeat probe_step;
  unfold gated; generalize rejected; intros R; vm_compute; (split; [reflexivity|]);
  repeat match goal with |- context [R ?s ?t] => generalize (R s t); intros ?b end;
  split_ifs; reflexivity.

Section probe_gates.
Context (w : bench_world) (Hw : proxies_end w) (binary : pystr) (upstream_port tcp_upstream_port : Z) (tmp_path : pystr).

Lemma trusted_proxy_global_trust_startup_gate b : probes (non_regular tmp_path) b b [] (run_trusted_proxy_global_trust_startup_probe w binary upstream_port tmp_path) (gated (u "trusted_proxy_global_trust_startup")).
Proof. run_probe. Qed.

Lemma negative_rate_startup_gate b : probes (non_regular tmp_path) b b [] (run_negative_rate_startup_probe w binary upstream_port tcp_upstream_port tmp_path) (gated (u "negative_rate_startup")).
Proof. run_probe. Qed.

Lemma admin_prefix_startup_gate b : probes (non_regular tmp_path) b b [] (run_admin_prefix_startup_probe w binary upstream_port tmp_path) (gated (u "admin_prefix_startup")).
Proof. run_probe. Qed.

Lemma admin_token_startup_gate b : probes (non_regular tmp_path) b b [] (run_admin_token_startup_probe w binary upstream_port tmp_path) (gated (u "admin_token_startup")).
Proof. run_probe. Qed.

Lemma zero_capacity_startup_gate b : probes (non_regular tmp_path) b b [] (run_zero_capacity_startup_probe w binary upstream_port tcp_upstream_port tmp_path) (gated (u "zero_capacity_startup")).
Proof. run_probe. Qed.

Lemma header_buffer_floor_startup_gate b : probes (non_regular tmp_path) b b [] (run_header_buffer_floor_startup_probe w binary upstream_port tmp_path) (gated (u "header_buffer_floor_startup")).
Proof. run_probe. Qed.

Lemma header_buffer_ceiling_startup_gate b : probes (non_regular tmp_path) b b [] (run_header_buffer_ceiling_startup_probe w binary upstream_port tmp_path) (gated (u "header_buffer_ceiling_startup")).
Proof. run_probe. Qed.

Lemma header_count_ceiling_startup_gate b : probes (non_regular tmp_path) b b [] (run_header_count_ceiling_startup_probe w binary upstream_port tmp_path) (gated (u "header_count_ceiling_startup")).
Proof. run_probe. Qed.

Lemma http_metadata_ceiling_startup_gate b : probes (non_regular tmp_path) b b [] (run_http_metadata_ceiling_startup_probe w binary upstream_port tmp_path) (gated (u "http_metadata_ceiling_startup")).
Proof. run_probe. Qed.

Lemma header_read_timeout_ceiling_startup_gate b : probes (non_regular tmp_path) b b [] (run_header_read_timeout_ceiling_startup_probe w binary upstream_port tmp_path) (gated (u "header_read_timeout_ceiling_startup")).
Proof. run_probe. Qed.

Lemma upstream_timeout_ceiling_startup_gate b : probes (non_regular tmp_path) b b [] (run_upstream_timeout_ceiling_startup_probe w binary upstream_port tmp_path) (gated (u "upstream_timeout_ceiling_startup")).
Proof. run_probe. Qed.

Lemma upstream_failure_circuit_ceiling_startup_gate b : probes (non_regular tmp_path) b b [] (run_upstream_failure_circuit_ceiling_startup_probe w binary upstream_port tmp_path) (gated (u "upstream_failure_circuit_ceiling_startup")).
Proof. run_probe. Qed.

Lemma http_stream_timeout_ceiling_startup_gate b : probes (non_regular tmp_path) b b [] (run_http_stream_timeout_ceiling_startup_probe w binary upstream_port tmp_path) (gated (u "http_stream_timeout_ceiling_startup")).
Proof. run_probe. Qed.

Lemma body_size_ceiling_startup_gate b : probes (non_regular tmp_path) b b [] (run_body_size_ceiling_startup_probe w binary upstream_port tmp_path) (gated (u "body_size_ceiling_startup")).
Proof. run_probe. Qed.

Lemma min_rate_ceiling_startup_gate b : probes (non_regular tmp_path) b b [] (run_min_rate_ceiling_startup_probe w binary upstream_port tcp_upstream_port tmp_path) (gated (u "min_rate_ceiling_startup")).
Proof. run_probe. Qed.

Lemma upstream_idle_pool_ceiling_startup_gate b : probes (non_regular tmp_path) b b [] (run_upstream_idle_pool_ceiling_startup_probe w binary upstream_port tmp_path) (gated (u "upstream_idle_pool_ceiling_startup")).
Proof. run_probe. Qed.

Lemma connect_timeout_ceiling_startup_gate b : probes (non_regular tmp_path) b b [] (run_connect_timeout_ceiling_startup_probe w binary upstream_port tcp_upstream_port tmp_path) (gated (u "connect_timeout_ceiling_startup")).
Proof. run_probe. Qed.

Lemma connection_duration_ceiling_startup_gate b : probes (non_regular tmp_path) b b [] (run_connection_duration_ceiling_startup_probe w binary upstream_port tcp_upstream_port tmp_path) (gated (u "connection_duration_ceiling_startup")).
Proof. run_probe. Qed.

Lemma connection_request_count_ceiling_startup_gate b : probes (non_regular tmp_path) b b [] (run_connection_request_count_ceiling_startup_probe w binary upstream_port tmp_path) (gated (u "connection_request_count_ceiling_startup")).
Proof. run_probe. Qed.

Lemma event_log_backup_count_ceiling_startup_gate b : probes (non_regular tmp_path) b b [] (run_event_log_backup_count_ceiling_startup_probe w binary tmp_path) (gated (u "event_log_backup_count_ceiling_startup")).
Proof. run_probe. Qed.

Lemma event_log_queue_capacity_ceiling_startup_gate b : probes (non_regular tmp_path) b b [] (run_event_log_queue_capacity_ceiling_startup_probe w binary tmp_path) (gated (u "event_log_queue_capacity_ceiling_startup")).
Proof. run_probe. Qed.

Lemma dynamic_state_ceiling_startup_gate b : probes (non_regular tmp_path) b b [] (run_dynamic_state_ceiling_startup_probe w binary upstream_port tcp_upstream_port tmp_path) (gated (u "dynamic_state_ceiling_startup")).
Proof. run_probe. Qed.

Lemma control_capacity_startup_gate b : probes (non_regular tmp_path) b b [] (run_control_capacity_startup_probe w binary tmp_path) (gated (u "control_capacity_startup")).
Proof. run_probe. Qed.

Lemma config_file_startup_gate : probes (non_regular tmp_path) true false [] (run_config_file_startup_probe w binary tmp_path) (gated (u "config_file_startup")).
Proof. run_probe. Qed.

Lemma http_endpoint_startup_gate b : probes (non_regular tmp_path) b b [] (run_http_endpoint_startup_probe w binary upstream_port tmp_path) (gated (u "http_endpoint_startup")).
Proof. run_probe. Qed.

Lemma tcp_endpoint_startup_gate b : probes (non_regular tmp_path) b b [] (run_tcp_endpoint_startup_probe w binary tmp_path) (gated (u "tcp_endpoint_startup")).
Proof. run_probe. Qed.

Lemma filter_rule_startup_gate b : probes (non_regular tmp_path) b b [] (run_filter_rule_startup_probe w binary tmp_path) (gated (u "filter_rule_startup")).
Proof. run_probe. Qed.

Lemma allowed_methods_startup_gate b : probes (non_regular tmp_path) b b [] (run_allowed_methods_startup_probe w binary upstream_port tmp_path) (gated (u "allowed_methods_startup")).
Proof. run_probe. Qed.

Lemma allowed_hosts_startup_gate b : probes (non_regular tmp_path) b b [] (run_allowed_hosts_startup_probe w binary upstream_port tmp_path) (gated (u "allowed_hosts_startup")).
Proof. run_probe. Qed.

Lemma client_ip_config_startup_gate b : probes (non_regular tmp_path) b b [] (run_client_ip_config_startup_probe w binary upstream_port tmp_path) (gated (u "client_ip_config_startup")).
Proof. run_probe. Qed.

(** ** All probes *)

(** A report of the probe [kv.1] that started [ss]. *)
Definition reported (kv : pystr * pyval) (ss : list start) : Prop := exists d, kv.2 = VDict d /\ gated kv.1 d ss.

(** The reports of the probes [names] with the proxies each of them started. *)
Definition gathered (names : list pystr) (g : pydict) (new : list start) : Prop :=
  dkeys g = names /\
  exists parts, Forall2 reported g parts /\ new = mjoin parts.

Ltac gather H := eapply probes_call; [apply H|intros ? ? ?].
Ltac gather_parts :=
  repeat (apply Forall2_cons; split;
          [eexists; split; [reflexivity|]; cbn [fst]; match goal with H : gated _ ?d _ |- gated _ ?d _ => exact H end|]);
  apply Forall2_nil_2.

Lemma startup_probes_1_gathered b :
  probes (non_regular tmp_path) b b [] (startup_probes_1 w binary upstream_port tcp_upstream_port tmp_path) (gathered (take 18 startup_names)).
Proof.
  unfold startup_probes_1.
  gather trusted_proxy_global_trust_startup_gate.
  gather negative_rate_startup_gate.
  gather admin_prefix_startup_gate.
  gather admin_token_startup_gate.
  gather zero_capacity_startup_gate.
  gather header_buffer_floor_startup_gate.
  gather header_buffer_ceiling_startup_gate.
  gather header_count_ceiling_startup_gate.
  gather http_metadata_ceiling_startup_gate.
  gather header_read_timeout_ceiling_startup_gate.
  gather upstream_timeout_ceiling_startup_gate.
  gather upstream_failure_circuit_ceiling_startup_gate.
  gather http_stream_timeout_ceiling_startup_gate.
  gather body_size_ceiling_startup_gate.
  gather min_rate_ceiling_startup_gate.
  gather upstream_idle_pool_ceiling_startup_gate.
  gather connect_timeout_ceiling_startup_gate.
  gather connection_duration_ceiling_startup_gate.
  apply probes_ret. split; [reflexivity|]. eexists. split.
  - gather_parts.
  - cbn [mjoin list_join]. by rewrite app_nil_r, <-!app_assoc.
Qed.

Lemma startup_probes_2_gathered :
  probes (non_regular tmp_path) true false [] (startup_probes_2 w binary upstream_port tcp_upstream_port tmp_path) (gathered (drop 18 startup_names)).
Proof.
  unfold startup_probes_2.
  gather connection_request_count_ceiling_startup_gate.
  gather event_log_backup_count_ceiling_startup_gate.
  gather event_log_queue_capacity_ceiling_startup_gate.
  gather dynamic_state_ceiling_startup_gate.
  gather control_capacity_startup_gate.
  gather config_file_startup_gate.
  gather http_endpoint_startup_gate.
  gather tcp_endpoint_startup_gate.
  gather filter_rule_startup_gate.
  gather allowed_methods_startup_gate.
  gather allowed_hosts_startup_gate.
  gather client_ip_config_startup_gate.
  apply probes_ret. split; [reflexivity|]. eexists. split.
  - gather_parts.
  - cbn [mjoin list_join]. by rewrite app_nil_r, <-!app_assoc.
Qed.

Lemma startup_guardrails_gathered :
  probes (non_regular tmp_path) true false [] (startup_guardrails w binary upstream_port tcp_upstream_port tmp_path)
    (gathered startup_names).
Proof.
  unfold startup_guardrails. eapply probes_call; [apply startup_probes_1_gathered|]. intros g1 n1 (K1 & p1 & F1 & ->).
  eapply probes_call; [apply startup_probes_2_gathered|]. intros g2 n2 (K2 & p2 & F2 & ->).
  apply probes_ret. split.
  - unfold dkeys in *. by rewrite fmap_app, K1, K2, take_drop.
  - exists (p1 ++ p2). split; [by apply Forall2_app|]. by rewrite join_app.
Qed.
End probe_gates.

(** ** What the gate shows *)

(** A guardrail path of a startup probe. *)
Definition startup_check (path : pystr) : bool :=
  existsb (fun name => starts_with (u "guardrails." ++ name ++ u ".") path) startup_names.

(** The proxy ended in an error, and its standard error has every text. *)
Definition refused (s : start) (texts : list pystr) : Prop :=
  returncode s <> 0%Z /\ forall text, text ∈ texts -> contains text (stderr_text s) = true.

Lemma rejected_spec s texts : rejected s texts = true <-> refused s texts.
Proof.
  unfold rejected, refused. rewrite andb_true_iff, negb_true_iff, Z.eqb_neq, forallb_forall.
  by setoid_rewrite list_elem_of_In.
Qed.

Lemma forall2b_spec ss ts : forall2b rejected ss ts = true <-> Forall2 refused ss ts.
Proof.
  revert ts. induction ss as [|s ss IH]; intros [|t ts]; cbn; try by (split; [done|inversion 1]).
  by rewrite andb_true_iff, IH, Forall2_cons, rejected_spec.
Qed.

(** Lists of equal lengths are related part by part. *)
Lemma Forall2_mjoin (parts : list (list start)) (rows : list (list (list pystr))) :
  Forall2 (fun ss ts => length ss = length ts) parts rows ->
  Forall2 refused (mjoin parts) (mjoin rows) <-> Forall2 (Forall2 refused) parts rows.
Proof.
  induction 1 as [|ss ts parts rows Hl _ IH]; [done|].
  change (mjoin (ss :: parts)) with (ss ++ mjoin parts). change (mjoin (ts :: rows)) with (ts ++ mjoin rows).
  rewrite Forall2_cons, <-IH. split.
  - intros H. by apply Forall2_app_inv in H.
  - intros [? ?]. by apply Forall2_app.
Qed.

Lemma keys_dotless : forallb (fun name => forallb (fun c => negb (c =? 46)%N) name && forallb (forallb (fun c => negb (c =? 46)%N)) (gate_keys name)) startup_names = true.
Proof. vm_compute. reflexivity. Qed.

Definition dotless (s : pystr) : Prop := 46%N ∉ s.

Lemma dotless_spec s : forallb (fun c => negb (c =? 46)%N) s = true -> dotless s.
Proof. rewrite forallb_forall. intros H Hin%list_elem_of_In. specialize (H _ Hin). done. Qed.

Lemma startup_keys_dotless name key : name ∈ startup_names -> key ∈ gate_keys name -> dotless name /\ dotless key.
Proof.
  intros Hn%list_elem_of_In Hk%list_elem_of_In. pose proof keys_dotless as H. rewrite forallb_forall in H.
  apply H in Hn as [Hn Hks]%andb_true_iff. rewrite forallb_forall in Hks. split; apply dotless_spec; auto.
Qed.

Lemma strip_prefix_app p s r : strip_prefix p s = Some r <-> s = p ++ r.
Proof.
  unfold strip_prefix. destruct (starts_with p s) eqn:E; split; try done.
  - intros [= <-]. apply starts_with_spec in E as [t ->]. by rewrite drop_app_length.
  - intros ->. by rewrite drop_app_length.
  - intros ->. rewrite (proj2 (starts_with_spec p (p ++ r))) in E by eauto. done.
Qed.

Definition probe_prefix (name : pystr) : pystr := u "guardrails." ++ name ++ u ".".

Lemma gate_keys_spec name key : key ∈ gate_keys name <-> exists check, check ∈ REQUIRED_TRUE_CHECKS /\ check.1 = probe_prefix name ++ key.
Proof.
  unfold gate_keys. rewrite list_elem_of_omap. by setoid_rewrite strip_prefix_app.
Qed.

Section report.
Context (report guardrails : pydict) (Hreport : dget (u "guardrails") report = Some (VDict guardrails)).

Lemma startup_path_value name d key : dotless name -> dotless key -> dget name guardrails = Some (VDict d) ->
  path_value report (probe_prefix name ++ key) = dget key d.
Proof.
  intros Hn Hk Hd. unfold path_value, probe_prefix.
  replace ((u "guardrails." ++ name ++ u ".") ++ key) with (u "guardrails" ++ 46%N :: name ++ 46%N :: key)
    by by rewrite <-!app_assoc.
  rewrite split_on_app by (by apply dotless_spec). rewrite split_on_app, split_on_none by done.
  cbn [walk]. rewrite Hreport, Hd. by destruct (dget key d).
Qed.

Lemma gate_of_spec name d : name ∈ startup_names -> dget name guardrails = Some (VDict d) ->
  gate_of name d = true <->
  (forall check, check ∈ REQUIRED_TRUE_CHECKS -> starts_with (probe_prefix name) check.1 = true -> true_check_errors report check = []).
Proof.
  intros Hn Hd. unfold gate_of. rewrite forallb_forall. split.
  - intros H check Hin [key Hk]%starts_with_spec. apply true_check_nil.
    assert (Hkey : key ∈ gate_keys name) by (apply gate_keys_spec; eauto).
    destruct (startup_keys_dotless name key Hn Hkey). rewrite Hk, (startup_path_value name d) by done.
    apply list_elem_of_In, H in Hkey. unfold is_true in Hkey. by destruct (dget key d) as [[|[]| | | | |]|].
  - intros H key Hkey%list_elem_of_In. destruct (startup_keys_dotless name key Hn Hkey) as [Hdn Hdk].
    apply gate_keys_spec in Hkey as (check & Hin & Hk). specialize (H check Hin).
    rewrite true_check_nil, Hk, (startup_path_value name d) in H by done. rewrite H; [done|]. apply starts_with_spec. eauto.
Qed.
End report.

Lemma refusal_rows : refusals_of <$> startup_names = startup_refusals.*2.
Proof. vm_compute. reflexivity. Qed.

Lemma startup_names_distinct : NoDup startup_names.
Proof. apply (bool_decide_unpack _). vm_compute. exact I. Qed.

(** Every check of the probe [name] holds in [report]. *)
Definition probe_checks (report : pydict) (name : pystr) : Prop :=
  forall check, check ∈ REQUIRED_TRUE_CHECKS -> starts_with (probe_prefix name) check.1 = true -> true_check_errors report check = [].

Lemma startup_checks_by_probe report :
  (forall check, check ∈ REQUIRED_TRUE_CHECKS -> startup_check check.1 = true -> true_check_errors report check = []) <->
  Forall (probe_checks report) startup_names.
Proof.
  rewrite Forall_forall. split.
  - intros H name Hn check Hin Hs. apply H; [done|]. apply existsb_exists. exists name. split; [|done]. by apply list_elem_of_In.
  - intros H check Hin (name & Hn%list_elem_of_In & Hs)%existsb_exists. by apply (H name).
Qed.

Lemma gated_checks report guardrails name d ss :
  dget (u "guardrails") report = Some (VDict guardrails) -> name ∈ startup_names -> dget name guardrails = Some (VDict d) ->
  gated name d ss -> probe_checks report name <-> Forall2 refused ss (refusals_of name).
Proof.
  intros Hr Hn Hd [_ Hgate]. unfold probe_checks. by rewrite <-(gate_of_spec report guardrails Hr name d Hn Hd), Hgate, forall2b_spec.
Qed.

Lemma reported_lengths g parts : Forall2 reported g parts -> Forall2 (fun ss ts => length ss = length ts) parts (refusals_of <$> dkeys g).
Proof. induction 1 as [|[k v] ss g parts (d & _ & Hl & _) _ IH]; constructor; [exact Hl|exact IH]. Qed.

Lemma reported_checks report g parts : Forall2 reported g parts ->
  (forall kv ss, kv ∈ g -> reported kv ss -> probe_checks report kv.1 <-> Forall2 refused ss (refusals_of kv.1)) ->
  Forall (probe_checks report) (dkeys g) <-> Forall2 (Forall2 refused) parts (refusals_of <$> dkeys g).
Proof.
  induction 1 as [|kv ss g parts Hkv _ IH]; intros Hone; [split; intros; constructor|].
  unfold dkeys in *. rewrite !fmap_cons, Forall_cons, Forall2_cons, (Hone kv ss), IH; [done| |apply elem_of_cons; by left|done].
  intros kv' ss' Hin. apply Hone, elem_of_cons. by right.
Qed.

Lemma gathered_gate g new report guardrails :
  gathered startup_names g new -> dget (u "guardrails") report = Some (VDict guardrails) ->
  (forall name, name ∈ startup_names -> dget name guardrails = dget name g) ->
  (forall check, check ∈ REQUIRED_TRUE_CHECKS -> startup_check check.1 = true -> true_check_errors report check = []) <->
  Forall2 refused new (mjoin startup_refusals.*2).
Proof.
  intros (Hk & parts & HF & ->) Hr Hg. rewrite startup_checks_by_probe, <-refusal_rows, <-Hk.
  rewrite (Forall2_mjoin _ _ (reported_lengths _ _ HF)). apply reported_checks; [exact HF|].
  intros [name v] ss Hin (d & Hv & Hgate). cbn [fst snd] in *. subst v.
  assert (Hname : name ∈ startup_names) by (rewrite <-Hk; by apply (list_elem_of_fmap_2 fst _ (name, VDict d))).
  apply (gated_checks report guardrails name d); [done|done| |done].
  rewrite Hg by done. apply dget_In; [|done]. unfold dict_ok. rewrite Hk. apply startup_names_distinct.
Qed.

(** C15. The startup probes of the local benchmark against the release gate.  If no proxy
    outlives SIGKILL and the temporary directory is fresh, the thirty probes complete; and
    a report that carries their results passes the gate's startup guardrails exactly when
    each of the 115 proxies they started exited with an error whose text names the
    forbidden setting and the reason. *)
Theorem startup_gate_exact w binary upstream_port tcp_upstream_port tmp_path t :
  proxies_end w -> only_directory (non_regular tmp_path) true t ->
  exists g t' new,
    startup_guardrails w binary upstream_port tcp_upstream_port tmp_path t = (Ok g, t') /\
    bs_starts t' = bs_starts t ++ new /\
    forall report guardrails,
      dget (u "guardrails") report = Some (VDict guardrails) ->
      (forall name, name ∈ startup_names -> dget name guardrails = dget name g) ->
      (forall check, check ∈ REQUIRED_TRUE_CHECKS -> startup_check check.1 = true -> true_check_errors report check = []) <->
      Forall2 refused new (mjoin startup_refusals.*2).
Proof.
  intros Hw Ht.
  destruct (startup_guardrails_gathered w Hw binary upstream_port tcp_upstream_port tmp_path t Ht) as (g & t' & new & E & _ & Hs & HQ).
  exists g, t', new. split_and!; [done|done|]. intros report guardrails. by apply gathered_gate.
Qed.

(** A proxy that accepts every configuration and serves until it is terminated. *)
Definition serving_world : bench_world :=
  BenchWorld (fun n => 40000 + Z.of_nat n)%Z (fun _ _ => ProxyProcess None (Some ((-15)%Z, [])) None).

Definition empty_dir : bench_state := BenchState (fun _ => None) 0 [].

Lemma startup_gate_exact_witness :
  exists g t' new,
    startup_guardrails serving_world (u "altura-prot") 8080 7000 (u "/tmp/bench") empty_dir = (Ok g, t') /\
    bs_starts t' = [] ++ new /\
    forall report guardrails,
      dget (u "guardrails") report = Some (VDict guardrails) ->
      (forall name, name ∈ startup_names -> dget name guardrails = dget name g) ->
      (forall check, check ∈ REQUIRED_TRUE_CHECKS -> startup_check check.1 = true -> true_check_errors report check = []) <->
      Forall2 refused new (mjoin startup_refusals.*2).
Proof. apply (startup_gate_exact serving_world); [done|]. split; [done|done]. Defined.

Lemma startup_refusal_count : length (mjoin startup_refusals.*2) = 115.
Proof. vm_compute. reflexivity. Qed.
