(* ===== verification/Flood.v ===== *)
(** * Flood: the loopback flood generator

    [tools/local_http_flood.py]: the guard on targets, the worker loop and the report.
    The fields of [urllib.parse.urlparse(url)] are a record, name resolution is a
    function, and a worker's requests are given by their outcomes; threads write to
    results of their own, so their order does not matter. *)

From S2P Require Import Prelude Unicode PyStr PyFloat PyVal Json Phase EdgeConfig.

(** ** Addresses *)

(** [str(ip)] of an address read from [source], which may carry a scope. *)
Definition dotted_of (n : N) : pystr :=
  join (u ".") (dec_N <$> [n / 16777216; n / 65536 mod 256; n / 256 mod 256; n mod 256]%N).

Fixpoint hextets_of (k : nat) (n : N) : list N :=
  match k with O => [] | S k' => (n / 65536 ^ N.of_nat k' mod 65536)%N :: hextets_of k' n end.

(** Hexadecimal without leading zeros. *)
Definition hex_text (n : N) : pystr := match drop_while (chr_is 48%N) (hex_fixed 4 n) with [] => u "0" | s => s end.

(** The first longest run of zeros, as start and length. *)
Fixpoint zero_run (i : nat) (cur best : nat * nat) (l : list N) : nat * nat :=
  match l with
  | [] => best
  | n :: rest =>
      if (n =? 0)%N then
        let cur := match cur.2 with O => (i, 1) | S k => (cur.1, S (S k)) end in
        zero_run (S i) cur (if best.2 <? cur.2 then cur else best) rest
      else zero_run (S i) (0, 0) best rest
  end.

Definition ipv6_text (n : N) : pystr :=
  let hs := hextets_of 8 n in
  let '(start, len) := zero_run 0 (0, 0) (0, 0) hs in
  let part l := join (u ":") (hex_text <$> l) in
  if 1 <? len then part (take start hs) ++ u "::" ++ part (drop (start + len) hs) else part hs.

Definition ip_text (source : pystr) (a : ip) : pystr :=
  match a with
  | IPv4 n => dotted_of n
  | IPv6 n => ipv6_text n ++ match (split1 37 source).2 with Some scope => u "%" ++ scope | None => [] end
  end.

(** ** The target guard *)

(** A network as its address and prefix length, [width] bits wide. *)
Definition in_network (width : N) (net : N * N) (n : N) : bool := (N.shiftr n (width - net.2) =? N.shiftr net.1 (width - net.2))%N.

Definition ipv4_of (a b c d : N) : N := (((a * 256 + b) * 256 + c) * 256 + d)%N.

Definition OWNED_LAN_IPV4_NETWORKS : list (N * N) :=
  [(ipv4_of 10 0 0 0, 8); (ipv4_of 172 16 0 0, 12); (ipv4_of 192 168 0 0, 16); (ipv4_of 169 254 0 0, 16)]%N.
Definition OWNED_LAN_IPV6_NETWORKS : list (N * N) := [(64512 * 2 ^ 112, 7); (65152 * 2 ^ 112, 10)]%N.

(** [ip.ipv4_mapped] *)
Definition ipv4_mapped (a : ip) : option N :=
  match a with
  | IPv6 n => if (N.shiftr n 32 =? 65535)%N then Some (n mod 2 ^ 32)%N else None
  | IPv4 _ => None
  end.

Definition is_owned_lan_address (a : ip) : bool :=
  let a := match ipv4_mapped a with Some n => IPv4 n | None => a end in
  match a with
  | IPv4 n => existsb (fun net => in_network 32 net n) OWNED_LAN_IPV4_NETWORKS
  | IPv6 n => existsb (fun net => in_network 128 net n) OWNED_LAN_IPV6_NETWORKS
  end.

(** What the code reads of [urllib.parse.urlparse(url)]; reading the port may raise. *)
Record parsed_url := ParsedUrl {
  pu_scheme : pystr;
  pu_hostname : option pystr;
  pu_port : res (option Z);
  pu_path : pystr;
  pu_query : pystr }.

Definition default_port (scheme : pystr) : Z := if str_eqb scheme (u "https") then 443 else 80.

(** [parsed.port or default_port(parsed.scheme)] *)
Definition target_port (parsed : parsed_url) : res Z :=
  let* port := pu_port parsed in
  Ok match port with Some p => if (p =? 0)%Z then default_port (pu_scheme parsed) else p | None => default_port (pu_scheme parsed) end.

Definition system_exit {A} (text : pystr) : res A := Raise (Exn SystemExit text).

(** One resolved address: refuse it or go on. *)
Definition check_address (host : pystr) (allow_non_loopback : bool) (source : pystr) : res unit :=
  let* a := ip_address source in
  if is_loopback a then Ok tt
  else if allow_non_loopback && is_owned_lan_address a then Ok tt
  else if allow_non_loopback then
    system_exit (u "refusing public or non-local target " ++ host ++ u " resolved to " ++ ip_text source a ++
                 u "; --allow-non-loopback only permits loopback, RFC1918/ULA, and link-local targets")
  else
    system_exit (u "refusing non-loopback target " ++ host ++ u " resolved to " ++ ip_text source a ++
                 u "; pass --allow-non-loopback only for owned LAN tests").

(** [getaddrinfo host port] yields the addresses in their text form. *)
Definition assert_loopback (getaddrinfo : pystr -> Z -> res (list pystr)) (parsed : parsed_url) (allow_non_loopback : bool) :
    res unit :=
  if negb (str_eqb (pu_scheme parsed) (u "http") || str_eqb (pu_scheme parsed) (u "https"))
  then system_exit (u "only http:// and https:// URLs are supported")
  else match pu_hostname parsed with
       | Some ((_ :: _) as host) =>
           match target_port parsed with
           | Raise e => if is_value_error e then system_exit (u "invalid URL port: " ++ exn_msg e) else Raise e
           | Ok port =>
               let* infos := getaddrinfo host port in
               let* _ := mapR (check_address host allow_non_loopback) infos in
               match infos with
               | _ :: _ => Ok tt
               | [] => system_exit (u "refusing target " ++ host ++ u "; no loopback addresses resolved")
               end
           end
       | _ => system_exit (u "URL must include a host")
       end.

(** ** Workers *)

Record WorkerResult := WorkerRes {
  wr_requests : Z;
  wr_errors : Z;
  wr_error_types : list (pystr * Z);
  wr_statuses : list (Z * Z);
  wr_latencies : list float }.

Definition no_result : WorkerResult := WorkerRes 0 0 [] [] [].

(** One round: an answer with its latency, or an exception by the name of its class. *)
Inductive flood_outcome := Answered (status : Z) (elapsed_ms : float) | Failed (class : pystr).

(** [counts[key] = counts.get(key, 0) + n] *)
Fixpoint count_key {K} (eqb : K -> K -> bool) (key : K) (n : Z) (counts : list (K * Z)) : list (K * Z) :=
  match counts with
  | [] => [(key, n)]
  | (k, c) :: rest => if eqb key k then (k, c + n)%Z :: rest else (k, c) :: count_key eqb key n rest
  end.

Definition LATENCY_CAP : nat := N.to_nat 20000.

(** The requested path. *)
Definition request_path (parsed : parsed_url) : pystr :=
  match pu_path parsed with [] => u "/" | p => p end ++ match pu_query parsed with [] => [] | q => u "?" ++ q end.

Definition record_outcome (r : WorkerResult) (o : flood_outcome) : WorkerResult :=
  match o with
  | Answered status elapsed_ms =>
      WorkerRes (wr_requests r + 1) (wr_errors r) (wr_error_types r) (count_key Z.eqb status 1 (wr_statuses r))
        (if length (wr_latencies r) <? LATENCY_CAP then wr_latencies r ++ [elapsed_ms] else wr_latencies r)
  | Failed class =>
      WorkerRes (wr_requests r) (wr_errors r + 1) (count_key str_eqb class 1 (wr_error_types r)) (wr_statuses r) (wr_latencies r)
  end.

Definition worker (outcomes : list flood_outcome) : WorkerResult := foldl record_outcome no_result outcomes.

(** ** The report *)

Definition merge_counts {K} (eqb : K -> K -> bool) (total : list (K * Z)) (counts : list (K * Z)) : list (K * Z) :=
  foldl (fun acc kc => count_key eqb kc.1 kc.2 acc) total counts.

Definition all_statuses (results : list WorkerResult) : list (Z * Z) :=
  foldl (fun acc r => merge_counts Z.eqb acc (wr_statuses r)) [] results.
Definition all_error_types (results : list WorkerResult) : list (pystr * Z) :=
  foldl (fun acc r => merge_counts str_eqb acc (wr_error_types r)) [] results.

Definition total_requests (results : list WorkerResult) : Z := foldr Z.add 0%Z (wr_requests <$> results).
Definition total_errors (results : list WorkerResult) : Z := foldr Z.add 0%Z (wr_errors <$> results).
Definition all_latencies (results : list WorkerResult) : list float := mjoin (wr_latencies <$> results).

(** [statistics.fmean]: the exact sum, rounded once, over the count. *)
Definition fsum (values : list float) : float :=
  let '(n, d) := foldl (fun (acc : Z * positive) x =>
                          let '(n, d) := float_fraction x in ((acc.1 * Zpos d + n * Zpos acc.2)%Z, (acc.2 * d)%positive))
                       (0%Z, 1%positive) values in
  float_of_Q n d.

Definition fmean (values : list float) : res float := let* n := float_of_Z (Z.of_nat (length values)) in Ok (fdiv (fsum values) n).

Definition latency_value (latencies : list float) (m : res (option float)) : res pyval :=
  match latencies with
  | [] => Ok VNone
  | _ => let* v := m in Ok (rounded_or_none 3 v)
  end.

Definition flood_report (url : pystr) (workers : Z) (elapsed : float) (results : list WorkerResult) : res pydict :=
  let latencies := all_latencies results in
  let* total := float_of_Z (total_requests results) in
  let* avg := latency_value latencies (let* m := fmean latencies in Ok (Some m)) in
  let* p50 := latency_value latencies (percentile latencies 50) in
  let* p95 := latency_value latencies (percentile latencies 95) in
  let* p99 := latency_value latencies (percentile latencies 99) in
  Ok [(u "url", VStr url);
      (u "duration_seconds", VFloat (round_digits 3 elapsed));
      (u "workers", VInt workers);
      (u "requests", VInt (total_requests results));
      (u "errors", VInt (total_errors results));
      (u "error_types", VDict ((fun kc => (kc.1, VInt kc.2)) <$> py_sorted (fun a b => str_leb a.1 b.1) (all_error_types results)));
      (u "requests_per_second", VFloat (round_digits 2 (fdiv total elapsed)));
      (u "statuses", VDict ((fun kc => (dec_Z kc.1, VInt kc.2)) <$> py_sorted (fun a b => Z.leb a.1 b.1) (all_statuses results)));
      (u "latency_ms", VDict [(u "avg", avg); (u "p50", p50); (u "p95", p95); (u "p99", p99)])].

(** [max(1, args.workers)] workers, each with its outcomes; [elapsed] is measured. *)
Definition flood_main (getaddrinfo : pystr -> Z -> res (list pystr)) (url : pystr) (parsed : parsed_url)
    (allow_non_loopback : bool) (workers : Z) (outcomes : nat -> list flood_outcome) (elapsed : float) : res pydict :=
  let* _ := assert_loopback getaddrinfo parsed allow_non_loopback in
  let results := worker ∘ outcomes <$> seq 0 (Z.to_nat (Z.max 1 workers)) in
  flood_report url workers (fmax thousandth elapsed) results.

(** ** Only local targets *)

(** Addresses of private and link-local networks, as intervals; a mapped IPv4 address
    counts as that address. *)
Definition private_ip (a : ip) : Prop :=
  let within (lo hi : N) (n : N) := (lo <= n /\ n <= hi)%N in
  match match ipv4_mapped a with Some n => IPv4 n | None => a end with
  | IPv4 n => within (ipv4_of 10 0 0 0) (ipv4_of 10 255 255 255) n \/ within (ipv4_of 172 16 0 0) (ipv4_of 172 31 255 255) n \/
              within (ipv4_of 192 168 0 0) (ipv4_of 192 168 255 255) n \/ within (ipv4_of 169 254 0 0) (ipv4_of 169 254 255 255) n
  | IPv6 n => within (64512 * 2 ^ 112)%N (65024 * 2 ^ 112 - 1)%N n \/ within (65152 * 2 ^ 112)%N (65216 * 2 ^ 112 - 1)%N n
  end.

Lemma in_network_range width m k n : (k <= width)%N ->
  in_network width (m * 2 ^ k, width - k)%N n = true <-> (m * 2 ^ k <= n < (m + 1) * 2 ^ k)%N.
Proof.
  intros Hk. unfold in_network. cbn [fst snd]. replace (width - (width - k))%N with k by lia.
  rewrite N.eqb_eq, !N.shiftr_div_pow2. assert (Hp : (2 ^ k <> 0)%N) by (apply N.pow_nonzero; lia).
  rewrite N.div_mul by done. split.
  - intros <-. pose proof (N.Div0.mul_div_le n (2 ^ k)). pose proof (N.mul_succ_div_gt n (2 ^ k) Hp). lia.
  - intros [H1 H2]. symmetry. apply (N.div_unique n (2 ^ k) m (n - m * 2 ^ k)); lia.
Qed.

Lemma owned_lan_exact a : is_owned_lan_address a = true <-> private_ip a.
Proof.
  unfold is_owned_lan_address, private_ip. destruct (match ipv4_mapped a with Some n => IPv4 n | None => a end) as [n|n].
  - cbn [existsb OWNED_LAN_IPV4_NETWORKS]. rewrite !orb_true_iff.
    pose proof (in_network_range 32 10 24 n ltac:(lia)) as H1. pose proof (in_network_range 32 (172 * 16 + 1) 20 n ltac:(lia)) as H2.
    pose proof (in_network_range 32 (192 * 256 + 168) 16 n ltac:(lia)) as H3. pose proof (in_network_range 32 (169 * 256 + 254) 16 n ltac:(lia)) as H4.
    change (10 * 2 ^ 24, 32 - 24)%N with (ipv4_of 10 0 0 0, 8)%N in H1.
    change ((172 * 16 + 1) * 2 ^ 20, 32 - 20)%N with (ipv4_of 172 16 0 0, 12)%N in H2.
    change ((192 * 256 + 168) * 2 ^ 16, 32 - 16)%N with (ipv4_of 192 168 0 0, 16)%N in H3.
    change ((169 * 256 + 254) * 2 ^ 16, 32 - 16)%N with (ipv4_of 169 254 0 0, 16)%N in H4.
    rewrite H1, H2, H3, H4. unfold ipv4_of. lia.
  - cbn [existsb OWNED_LAN_IPV6_NETWORKS]. rewrite !orb_true_iff.
    pose proof (in_network_range 128 126 121 n ltac:(lia)) as H1. pose proof (in_network_range 128 1018 118 n ltac:(lia)) as H2.
    change (126 * 2 ^ 121, 128 - 121)%N with (64512 * 2 ^ 112, 7)%N in H1. change (1018 * 2 ^ 118, 128 - 118)%N with (65152 * 2 ^ 112, 10)%N in H2.
    rewrite H1, H2. change ((126 + 1) * 2 ^ 121)%N with (65024 * 2 ^ 112)%N. change ((1018 + 1) * 2 ^ 118)%N with (65216 * 2 ^ 112)%N.
    change (126 * 2 ^ 121)%N with (64512 * 2 ^ 112)%N. change (1018 * 2 ^ 118)%N with (65152 * 2 ^ 112)%N. lia.
Qed.

(** An address that may be flooded. *)
Definition local_address (allow_non_loopback : bool) (source : pystr) : Prop :=
  exists a, ip_address source = Ok a /\ (is_loopback a = true \/ allow_non_loopback = true /\ private_ip a).

Lemma check_address_ok host allow source : check_address host allow source = Ok tt <-> local_address allow source.
Proof.
  unfold check_address, local_address. destruct (ip_address source) as [a|e]; cbn [rbind]; [|naive_solver].
  destruct (is_loopback a) eqn:El; [naive_solver|]. destruct (allow && is_owned_lan_address a) eqn:Eo.
  - apply andb_prop in Eo as [-> H%owned_lan_exact]. naive_solver.
  - split; [destruct allow; done|]. intros (a' & [= <-] & [H|[-> H%owned_lan_exact]]); [congruence|]. by rewrite H in Eo.
Qed.

(** C35. The flood generator accepts a target exactly when its URL is http or https with a
    host and a readable port, the host resolves to at least one address, and every
    address it resolves to is loopback or, with [--allow-non-loopback], in a private or
    link-local network: a public address is always refused. *)
Theorem flood_target_exact getaddrinfo parsed allow :
  assert_loopback getaddrinfo parsed allow = Ok tt <->
  (pu_scheme parsed = u "http" \/ pu_scheme parsed = u "https") /\
  exists host port infos, pu_hostname parsed = Some host /\ host <> [] /\ target_port parsed = Ok port /\
    getaddrinfo host port = Ok infos /\ infos <> [] /\ forall source, source ∈ infos -> local_address allow source.
Proof.
  unfold assert_loopback.
  assert (Hs : negb (str_eqb (pu_scheme parsed) (u "http") || str_eqb (pu_scheme parsed) (u "https")) = false <->
    pu_scheme parsed = u "http" \/ pu_scheme parsed = u "https") by (rewrite negb_false_iff, orb_true_iff, !str_eqb_eq; done).
  rewrite <-Hs. destruct (negb _); [split; [done|by intros [? _]]|].
  destruct (pu_hostname parsed) as [[|c host]|]; [naive_solver| |naive_solver].
  destruct (target_port parsed) as [port|e]; [|destruct (is_value_error e); naive_solver].
  destruct (getaddrinfo (c :: host) port) as [infos|e] eqn:Eg; cbn [rbind].
  2: { split; [done|]. intros [_ (h & p & i & [= <-] & _ & [= <-] & Hi & _)]. congruence. }
  assert (Hm : (exists r, mapR (check_address (c :: host) allow) infos = Ok r) <-> forall source, source ∈ infos -> local_address allow source).
  { split.
    - intros [r Hr%mapR_ok] source Hin. apply list_elem_of_lookup in Hin as [i Hi].
      destruct (Forall2_lookup_l _ _ _ _ _ Hr Hi) as ([] & _ & H). by apply check_address_ok in H.
    - intros H. exists ((fun _ => tt) <$> infos). apply mapR_ok. apply Forall2_fmap_r, Forall_Forall2_diag, Forall_forall. intros s Hin.
      by apply check_address_ok, H. }
  split.
  - intros (r & Hr & H)%bind_ok. destruct infos as [|i infos]; [done|]. split; [done|].
    exists (c :: host), port, (i :: infos). repeat split; try done. apply Hm. by exists r.
  - intros [_ (h & p & i & [= <-] & _ & [= <-] & Hi & Hne & H)]. rewrite Eg in Hi. injection Hi as <-. apply Hm in H as [r Hr].
    rewrite Hr. cbn [rbind]. by destruct infos.
Qed.

(** ** Counts *)

Definition total_of {K} (counts : list (K * Z)) : Z := foldr Z.add 0%Z counts.*2.

Section counts.
Context {K : Type} (eqb : K -> K -> bool) (eqb_eq : forall a b, eqb a b = true <-> a = b).

(** The count of a key. *)
Definition count_of (key : K) (counts : list (K * Z)) : Z := foldr (fun kc n => if eqb key kc.1 then (kc.2 + n)%Z else n) 0%Z counts.

Lemma count_key_of key n counts k : count_of k (count_key eqb key n counts) = (count_of k counts + if eqb k key then n else 0)%Z.
Proof.
  induction counts as [|[k' c] counts IH]; cbn [count_key count_of foldr fst snd]; [destruct (eqb k key); lia|].
  destruct (eqb key k') eqn:E; cbn [foldr fst snd].
  - apply eqb_eq in E as ->. destruct (eqb k k'); lia.
  - fold (count_of k counts) (count_of k (count_key eqb key n counts)). rewrite IH. destruct (eqb k k'); lia.
Qed.

Lemma count_key_total key n counts : total_of (count_key eqb key n counts) = (total_of counts + n)%Z.
Proof.
  unfold total_of. induction counts as [|[k' c] counts IH]; cbn; [lia|]. destruct (eqb key k'); cbn; [lia|]. cbn in IH. lia.
Qed.

Lemma merge_counts_of counts total k : count_of k (merge_counts eqb total counts) = (count_of k total + count_of k counts)%Z.
Proof.
  unfold merge_counts. revert total. induction counts as [|[k' c] counts IH]; intros total; cbn [foldl]; [cbn; lia|].
  rewrite IH, count_key_of. cbn [count_of foldr fst snd]. fold (count_of k counts). destruct (eqb k k'); lia.
Qed.

Lemma merge_counts_total counts total : total_of (merge_counts eqb total counts) = (total_of total + total_of counts)%Z.
Proof.
  unfold merge_counts. revert total. induction counts as [|[k' c] counts IH]; intros total; cbn [foldl]; [cbn; lia|].
  rewrite IH, count_key_total. unfold total_of. cbn. lia.
Qed.
End counts.

(** Outcomes of a kind. *)
Definition answered (s : Z) (o : flood_outcome) : bool := match o with Answered status _ => (status =? s)%Z | _ => false end.
Definition failed (class : pystr) (o : flood_outcome) : bool := match o with Failed c => str_eqb class c | _ => false end.
Definition is_answer (o : flood_outcome) : bool := match o with Answered _ _ => true | _ => false end.
Definition tally (p : flood_outcome -> bool) (l : list flood_outcome) : Z := Z.of_nat (length (List.filter p l)).

Lemma tally_app p l1 l2 : tally p (l1 ++ l2) = (tally p l1 + tally p l2)%Z.
Proof. unfold tally. rewrite List.filter_app, length_app. lia. Qed.

Lemma tally_one p o : tally p [o] = if p o then 1%Z else 0%Z.
Proof. unfold tally. cbn. by destruct (p o). Qed.

(** What a worker has counted. *)
Definition counted (os : list flood_outcome) (r : WorkerResult) : Prop :=
  wr_requests r = tally is_answer os /\ wr_errors r = tally (negb ∘ is_answer) os /\
  total_of (wr_statuses r) = wr_requests r /\ total_of (wr_error_types r) = wr_errors r /\
  (forall s, count_of Z.eqb s (wr_statuses r) = tally (answered s) os) /\
  (forall c, count_of str_eqb c (wr_error_types r) = tally (failed c) os).

Lemma worker_counted os : counted os (worker os).
Proof.
  unfold worker. induction os as [|o os IH] using rev_ind; [done|].
  rewrite foldl_app. cbn [foldl]. destruct IH as (H1 & H2 & H3 & H4 & H5 & H6). unfold counted. setoid_rewrite tally_app. setoid_rewrite tally_one.
  destruct o as [status ms|class]; cbn [record_outcome wr_requests wr_errors wr_statuses wr_error_types is_answer answered failed compose negb].
  - rewrite (count_key_total Z.eqb). repeat split; try lia; intros k; [|rewrite H6; lia].
    rewrite (count_key_of Z.eqb Z.eqb_eq), H5. rewrite (Z.eqb_sym k status). done.
  - rewrite (count_key_total str_eqb). repeat split; try lia; intros k; [rewrite H5; lia|].
    by rewrite (count_key_of str_eqb str_eqb_eq), H6.
Qed.

Lemma all_counts {K} (eqb : K -> K -> bool) (eqb_eq : forall a b, eqb a b = true <-> a = b) (get : WorkerResult -> list (K * Z)) results acc k :
  count_of eqb k (foldl (fun acc r => merge_counts eqb acc (get r)) acc results) =
    (count_of eqb k acc + foldr Z.add 0 (count_of eqb k ∘ get <$> results))%Z /\
  total_of (foldl (fun acc r => merge_counts eqb acc (get r)) acc results) = (total_of acc + foldr Z.add 0 (total_of ∘ get <$> results))%Z.
Proof.
  revert acc. induction results as [|r results IH]; intros acc; cbn [foldl]; [cbn; lia|].
  destruct (IH (merge_counts eqb acc (get r))) as [-> ->]. rewrite (merge_counts_of eqb eqb_eq), merge_counts_total.
  cbn [fmap list_fmap foldr]. unfold compose. split; lia.
Qed.

(** Sums over workers of a quantity that is a tally. *)
Lemma sum_tally (f : WorkerResult -> Z) p runs : (forall os, f (worker os) = tally p os) ->
  foldr Z.add 0%Z (f <$> (worker <$> runs)) = tally p (mjoin runs).
Proof.
  intros Hf. induction runs as [|os runs IH]; [done|]. change (mjoin (os :: runs)) with (os ++ mjoin runs). rewrite tally_app, !fmap_cons. cbn [foldr].
  by rewrite Hf, IH.
Qed.

(** Every round of every flood worker is counted once: the totals of a run are the
    numbers of answered and of failed rounds, the status table adds up to the requests and
    the error table to the errors, and each entry counts the rounds with that status or
    exception class. *)
Theorem flood_counts runs :
  let results := worker <$> runs in
  let rounds := mjoin runs in
  total_requests results = tally is_answer rounds /\ total_errors results = tally (negb ∘ is_answer) rounds /\
  total_of (all_statuses results) = total_requests results /\ total_of (all_error_types results) = total_errors results /\
  (forall s, count_of Z.eqb s (all_statuses results) = tally (answered s) rounds) /\
  (forall c, count_of str_eqb c (all_error_types results) = tally (failed c) rounds).
Proof.
  cbv zeta. unfold total_requests, total_errors, all_statuses, all_error_types.
  rewrite (sum_tally wr_requests is_answer) by apply worker_counted. rewrite (sum_tally wr_errors (negb ∘ is_answer)) by apply worker_counted.
  split; [done|]. split; [done|]. split; [|split; [|split]].
  - destruct (all_counts Z.eqb Z.eqb_eq wr_statuses (worker <$> runs) [] 0%Z) as [_ ->]. cbn [total_of foldr fmap list_fmap].
    rewrite Z.add_0_l. apply (sum_tally (total_of ∘ wr_statuses)). intros os. destruct (worker_counted os) as (H1 & _ & H3 & _). unfold compose. congruence.
  - destruct (all_counts str_eqb str_eqb_eq wr_error_types (worker <$> runs) [] []) as [_ ->]. cbn [total_of foldr fmap list_fmap].
    rewrite Z.add_0_l. apply (sum_tally (total_of ∘ wr_error_types)). intros os. destruct (worker_counted os) as (_ & H2 & _ & H4 & _). rewrite <-H2. exact H4.
  - intros s. destruct (all_counts Z.eqb Z.eqb_eq wr_statuses (worker <$> runs) [] s) as [-> _]. cbn [count_of foldr].
    rewrite Z.add_0_l. apply (sum_tally (count_of Z.eqb s ∘ wr_statuses)). intros os. apply worker_counted.
  - intros c. destruct (all_counts str_eqb str_eqb_eq wr_error_types (worker <$> runs) [] c) as [-> _]. cbn [count_of foldr].
    rewrite Z.add_0_l. apply (sum_tally (count_of str_eqb c ∘ wr_error_types)). intros os. apply worker_counted.
Qed.
