(* ===== verification/NetFrame.v ===== *)
(** * NetFrame: the hop-by-hop UDP probe of the namespace smoke test

    [tools/run_edge_namespace_smoke.py], the script [HOP_BY_HOP_UDP_CLIENT_TEMPLATE] that
    runs in the attacker's namespace: the Ethernet frame with an IPv6 hop-by-hop header it
    sends, the Internet checksum in it, and the replies it counts.  Bytes are integers
    below 256. *)

From S2P Require Import Prelude Unicode PyStr PyFloat PyVal Json Flood.

(** ** Bytes *)

(** [struct.pack("!H", z)], [struct.pack("!I", z)] *)
Definition be16 (z : Z) : list Z := [(z / 256) mod 256; z mod 256]%Z.
Definition be32 (z : Z) : list Z := be16 (z / 65536) ++ be16 z.

(** [struct.unpack("!%dH" % (len(data) // 2), data)] of an even number of bytes *)
Fixpoint unpack_words (data : list Z) : list Z :=
  match data with hi :: lo :: rest => (hi * 256 + lo)%Z :: unpack_words rest | _ => [] end.

Definition sum_Z (l : list Z) : Z := foldr Z.add 0%Z l.

Definition checksum (data : list Z) : Z :=
  let data := if Nat.odd (length data) then data ++ [0%Z] else data in
  let total := sum_Z (unpack_words data) in
  let total := (Z.shiftr total 16 + Z.land total 65535)%Z in
  let total := (total + Z.shiftr total 16)%Z in
  Z.land (Z.lnot total) 65535.

(** [bytes.fromhex(text)]: pairs of hexadecimal digits, blanks between pairs skipped. *)
Definition hex_digit_value (c : N) : option Z :=
  if (48 <=? c)%N && (c <=? 57)%N then Some (Z.of_N c - 48)%Z
  else if (97 <=? c)%N && (c <=? 102)%N then Some (Z.of_N c - 87)%Z
  else if (65 <=? c)%N && (c <=? 70)%N then Some (Z.of_N c - 55)%Z
  else None.

Definition ascii_blank (c : N) : bool := (c =? 32)%N || ((9 <=? c)%N && (c <=? 13)%N).

Definition fromhex_error {A} : res A := Raise (Exn ValueError (u "non-hexadecimal number found in fromhex() arg")).

Fixpoint bytes_fromhex (text : pystr) : res (list Z) :=
  match text with
  | [] => Ok []
  | c :: rest =>
      if ascii_blank c then bytes_fromhex rest
      else match rest with
           | [] => fromhex_error
           | c2 :: rest2 =>
               match hex_digit_value c, hex_digit_value c2 with
               | Some hi, Some lo => let* bytes := bytes_fromhex rest2 in Ok ((hi * 16 + lo)%Z :: bytes)
               | _, _ => fromhex_error
               end
           end
  end.

(** [bytes.fromhex(mac.replace(":", ""))] *)
Definition mac_bytes (mac : pystr) : res (list Z) := bytes_fromhex (filter (fun c => c <> 58%N) mac).

(** ** The frame *)

Definition ipv6_of_groups (groups : list Z) : list Z := mjoin (be16 <$> groups).

(** [fd00:230::2] and [fd00:230::1] *)
Definition SOURCE_ADDRESS : list Z := ipv6_of_groups [64768; 560; 0; 0; 0; 0; 0; 2]%Z.
Definition DESTINATION_ADDRESS : list Z := ipv6_of_groups [64768; 560; 0; 0; 0; 0; 0; 1]%Z.

Definition ETHERTYPE_IPV6 : Z := 34525.
Definition IPPROTO_HOPOPTS : Z := 0.
Definition IPPROTO_UDP : Z := 17.
Definition IPPROTO_ICMPV6 : Z := 58.
Definition ICMPV6_DESTINATION_UNREACHABLE : Z := 1.
Definition ICMPV6_PORT_UNREACHABLE : Z := 4.
Definition PAYLOAD : list Z := [120%Z].

Definition udp_length : Z := (8 + Z.of_nat (length PAYLOAD))%Z.
Definition udp_datagram (check : Z) : list Z := be16 54321 ++ be16 8080 ++ be16 udp_length ++ be16 check ++ PAYLOAD.
Definition udp_pseudo_header : list Z := SOURCE_ADDRESS ++ DESTINATION_ADDRESS ++ be32 udp_length ++ [0; 0; 0; IPPROTO_UDP]%Z.
Definition udp_checksum : Z := checksum (udp_pseudo_header ++ udp_datagram 0).

Definition hop_by_hop_header : list Z := [IPPROTO_UDP; 0]%Z ++ [1; 4; 0; 0; 0; 0]%Z.
Definition ipv6_payload : list Z := hop_by_hop_header ++ udp_datagram udp_checksum.
Definition ipv6_header : list Z :=
  be32 1610612736 ++ be16 (Z.of_nat (length ipv6_payload)) ++ [IPPROTO_HOPOPTS; 64]%Z ++ SOURCE_ADDRESS ++ DESTINATION_ADDRESS.

Definition frame (source_mac destination_mac : list Z) : list Z :=
  destination_mac ++ source_mac ++ be16 ETHERTYPE_IPV6 ++ ipv6_header ++ ipv6_payload.

(** ** Replies *)

(** [packet[i:j]] *)
Definition slice (i j : nat) (packet : list Z) : list Z := take (j - i) (drop i packet).

(** [str(ipaddress.IPv6Address(packed))] *)
Definition packed_text (packed : list Z) : pystr := ipv6_text (foldl (fun n b => n * 256 + Z.to_N b)%N 0%N packed).

Record reply := Reply { r_type : Z; r_code : Z; r_source : pystr; r_destination : pystr }.

(** The ICMPv6 reply in a received packet, if it is one from [fd00:230::1]. *)
Definition icmpv6_reply (packet : list Z) : option reply :=
  if (length packet <? 54)%nat then None
  else if negb (match unpack_words (slice 12 14 packet) with [t] => (t =? ETHERTYPE_IPV6)%Z | _ => false end) then None
  else
    let ipv6 := slice 14 54 packet in
    let source := packed_text (slice 8 24 ipv6) in
    let destination := packed_text (slice 24 40 ipv6) in
    if negb (nth 6 ipv6 0 =? IPPROTO_ICMPV6)%Z || negb (str_eqb source (u "fd00:230::1")) then None
    else match drop 54 packet with
         | type :: code :: _ => Some (Reply type code source destination)
         | _ => None
         end.

Definition port_unreachable (r : reply) : bool :=
  (r_type r =? ICMPV6_DESTINATION_UNREACHABLE)%Z && (r_code r =? ICMPV6_PORT_UNREACHABLE)%Z &&
  str_eqb (r_destination r) (u "fd00:230::2").

Definition reply_value (r : reply) : pyval :=
  VDict [(u "type", VInt (r_type r)); (u "code", VInt (r_code r)); (u "source", VStr (r_source r)); (u "destination", VStr (r_destination r))].

(** What the script prints after it has received [packets] within its 0.8 seconds. *)
Definition hop_by_hop_report (source_mac destination_mac : list Z) (packets : list (list Z)) : pydict :=
  let replies := omap icmpv6_reply packets in
  [(u "sent_bytes", VInt (Z.of_nat (length (frame source_mac destination_mac))));
   (u "icmpv6_replies", VList (reply_value <$> replies));
   (u "icmpv6_port_unreachable_replies", VList (reply_value <$> filter (fun r => port_unreachable r = true) replies))].

(** ** The checksum verifies *)

Definition is_byte (z : Z) : Prop := (0 <= z < 256)%Z.

(** A sum modulo [2^16 - 1], with [2^16 - 1] rather than zero for a positive multiple. *)
Definition ones_sum (s : Z) : Z := if (s =? 0)%Z then 0%Z else ((s - 1) mod 65535 + 1)%Z.

Lemma land_low x : Z.land x 65535 = (x mod 65536)%Z.
Proof. change 65535%Z with (Z.ones 16). by rewrite Z.land_ones. Qed.

Lemma low_complement x : Z.land (Z.lnot x) 65535 = (65535 - x mod 65536)%Z.
Proof. rewrite land_low. unfold Z.lnot. Z.to_euclidean_division_equations. lia. Qed.

(** Two foldings of a 32-bit sum are enough. *)
Lemma folded_twice s : (0 <= s < 2 ^ 32)%Z ->
  let total := (Z.shiftr s 16 + Z.land s 65535)%Z in
  Z.land (Z.lnot (total + Z.shiftr total 16)) 65535 = (65535 - ones_sum s)%Z.
Proof.
  intros Hs. cbv zeta. rewrite low_complement, land_low, !Z.shiftr_div_pow2 by lia. change (2 ^ 16)%Z with 65536%Z.
  unfold ones_sum. destruct (Z.eqb_spec s 0) as [->|Hs0]; [done|]. Z.to_euclidean_division_equations. lia.
Qed.

Definition padded (data : list Z) : list Z := if Nat.odd (length data) then data ++ [0%Z] else data.

Definition word_sum (data : list Z) : Z := sum_Z (unpack_words (padded data)).

Lemma checksum_ones data : (0 <= word_sum data < 2 ^ 32)%Z -> checksum data = (65535 - ones_sum (word_sum data))%Z.
Proof. intros H. unfold checksum. by apply folded_twice. Qed.

Lemma sum_app l m : sum_Z (l ++ m) = (sum_Z l + sum_Z m)%Z.
Proof. unfold sum_Z. induction l as [|x l IH]; cbn; [done|]. rewrite IH. lia. Qed.

(** Induction over pairs of bytes. *)
Lemma pairs_ind (P : list Z -> Prop) :
  P [] -> (forall hi lo rest, Nat.even (length rest) = true -> P rest -> P (hi :: lo :: rest)) ->
  forall data, Nat.even (length data) = true -> P data.
Proof.
  intros H0 H2. assert (forall n data, length data <= n -> Nat.even (length data) = true -> P data) as H; [|by eauto].
  induction n as [|n IH]; intros [|hi [|lo rest]] Hn He; cbn in *; try done; try lia. apply H2; [done|]. apply IH; [lia|done].
Qed.

Lemma unpack_words_app a b : Nat.even (length a) = true -> unpack_words (a ++ b) = unpack_words a ++ unpack_words b.
Proof. intros Ha. revert a Ha. apply pairs_ind; [done|]. intros hi lo rest _ IH. cbn. by rewrite IH. Qed.

Lemma word_sum_app a b : Nat.even (length a) = true -> word_sum (a ++ b) = (word_sum a + word_sum b)%Z.
Proof.
  intros Ha. assert (Hodd : Nat.odd (length (a ++ b)) = Nat.odd (length b)).
  { rewrite length_app, Nat.odd_add, <-Nat.negb_even, Ha. by destruct (Nat.odd (length b)). }
  unfold word_sum, padded. rewrite Hodd, <-(Nat.negb_even (length a)), Ha. cbn [negb].
  destruct (Nat.odd (length b)); rewrite <-?(assoc_L (++)), unpack_words_app, sum_app by done; done.
Qed.

Lemma words_bound data : Nat.even (length data) = true -> Forall is_byte data ->
  (0 <= sum_Z (unpack_words data) /\ 2 * sum_Z (unpack_words data) <= 65535 * Z.of_nat (length data))%Z.
Proof.
  revert data. apply (pairs_ind (fun data => Forall is_byte data -> _)); [by cbn|]. intros hi lo rest _ IH [Hhi [Hlo Hrest]%Forall_cons]%Forall_cons.
  specialize (IH Hrest). unfold sum_Z in *. cbn [unpack_words foldr length]. unfold is_byte in *. lia.
Qed.

Lemma word_sum_bound data : Forall is_byte data ->
  (0 <= word_sum data /\ 2 * word_sum data <= 65535 * (Z.of_nat (length data) + 1))%Z.
Proof.
  intros Hb. unfold word_sum, padded. destruct (Nat.odd (length data)) eqn:Ho.
  - pose proof (words_bound (data ++ [0%Z])) as H. rewrite length_app, Nat.add_1_r, Nat.even_succ, Nat2Z.inj_succ in H.
    destruct H; [done| |lia]. apply Forall_app. split; [done|]. by apply Forall_singleton.
  - assert (He : Nat.even (length data) = true) by by rewrite <-Nat.negb_odd, Ho. pose proof (words_bound data He Hb). lia.
Qed.

Lemma be16_word c : (0 <= c < 65536)%Z -> word_sum (be16 c) = c /\ Forall is_byte (be16 c).
Proof.
  intros Hc. unfold word_sum, padded, be16, sum_Z, is_byte. cbn. split; [|repeat constructor]; Z.to_euclidean_division_equations; lia.
Qed.

Lemma ones_sum_range s : (0 <= s)%Z -> (0 <= ones_sum s <= 65535)%Z.
Proof. intros Hs. unfold ones_sum. destruct (Z.eqb_spec s 0); Z.to_euclidean_division_equations; lia. Qed.

(** Adding the complement makes the sum a positive multiple of [2^16 - 1]. *)
Lemma ones_sum_complement s : (0 <= s)%Z -> ones_sum (s + (65535 - ones_sum s)) = 65535%Z.
Proof.
  intros Hs. unfold ones_sum. destruct (Z.eqb_spec s 0) as [->|H]; [done|].
  destruct (Z.eqb_spec (s + (65535 - ((s - 1) mod 65535 + 1))) 0); Z.to_euclidean_division_equations; lia.
Qed.

(** C40. The Internet checksum of the probe's script, on every message of at most 131068
    bytes besides the field: when the field at an even offset is filled with the checksum
    computed while the field was zero, the checksum of the result is zero, which is what a
    receiver tests.  Two foldings of the sum suffice. *)
Theorem checksum_verifies before_field after_field :
  Nat.even (length before_field) = true -> Forall is_byte before_field -> Forall is_byte after_field ->
  (Z.of_nat (length before_field + length after_field) <= 131068)%Z ->
  checksum (before_field ++ be16 (checksum (before_field ++ be16 0 ++ after_field)) ++ after_field) = 0%Z.
Proof.
  intros He Hb Ha Hl.
  assert (Hsum : forall c, (0 <= c < 65536)%Z ->
    word_sum (before_field ++ be16 c ++ after_field) = (word_sum before_field + word_sum after_field + c)%Z).
  { intros c Hc. rewrite !word_sum_app by done. rewrite (proj1 (be16_word c Hc)). lia. }
  pose proof (word_sum_bound _ Hb). pose proof (word_sum_bound _ Ha).
  set (s := (word_sum before_field + word_sum after_field)%Z) in *.
  assert (Hs : (0 <= s)%Z) by lia. pose proof (ones_sum_range s Hs).
  assert (Hc : checksum (before_field ++ be16 0 ++ after_field) = (65535 - ones_sum s)%Z).
  { rewrite checksum_ones; rewrite Hsum by lia; rewrite Z.add_0_r; [done|]. lia. }
  rewrite Hc, checksum_ones; rewrite Hsum by lia; [|lia]. by rewrite ones_sum_complement.
Qed.

Lemma checksum_verifies_witness :
  checksum (udp_pseudo_header ++ be16 54321 ++ be16 8080 ++ be16 udp_length ++
            be16 (checksum ((udp_pseudo_header ++ be16 54321 ++ be16 8080 ++ be16 udp_length) ++ be16 0 ++ PAYLOAD)) ++ PAYLOAD) = 0%Z.
Proof.
  apply (checksum_verifies (udp_pseudo_header ++ be16 54321 ++ be16 8080 ++ be16 udp_length) PAYLOAD);
    [reflexivity| | |]; [repeat constructor; discriminate|repeat constructor; discriminate|vm_compute; discriminate].
Defined.

(** ** The frame is a UDP datagram behind a hop-by-hop header *)

Record datagram := Datagram { dg_source : list Z; dg_destination : list Z; dg_sport : Z; dg_dport : Z; dg_payload : list Z }.

Definition word_at (i : nat) (l : list Z) : Z := (nth i l 0 * 256 + nth (S i) l 0)%Z.

(** How a receiver reads a frame: Ethernet, IPv6 with its length field, one hop-by-hop
    header, UDP with its length field and its checksum over the pseudo header. *)
Definition receive (packet : list Z) : option datagram :=
  let ip := drop 14 packet in
  let payload := drop 40 ip in
  let source := slice 8 24 ip in
  let destination := slice 24 40 ip in
  let udp := drop (8 * (1 + Z.to_nat (nth 1 payload 0%Z))) payload in
  let pseudo := source ++ destination ++ be32 (word_at 4 udp) ++ [0; 0; 0; 17]%Z in
  if (word_at 12 packet =? 34525)%Z && (nth 0 ip 0 / 16 =? 6)%Z && (word_at 4 ip =? Z.of_nat (length payload))%Z &&
     (nth 6 ip 0 =? 0)%Z && (nth 0 payload 0 =? 17)%Z && (word_at 4 udp =? Z.of_nat (length udp))%Z &&
     (checksum (pseudo ++ udp) =? 0)%Z && negb (word_at 6 udp =? 0)%Z
  then Some (Datagram source destination (word_at 0 udp) (word_at 2 udp) (drop 8 udp))
  else None.

Lemma six_bytes (mac : list Z) : length mac = 6 -> exists a b c d e f, mac = [a; b; c; d; e; f].
Proof. destruct mac as [|a [|b [|c [|d [|e [|f []]]]]]]; try discriminate. intros _. by repeat eexists. Qed.

(** The frame the script sends, for any pair of hardware addresses, is 71 bytes long and
    is received as a UDP datagram to the protected port 8080 behind a hop-by-hop header: every
    length field is right and the checksum verifies and is present. *)
Theorem frame_received source_mac destination_mac :
  length source_mac = 6 -> length destination_mac = 6 ->
  length (frame source_mac destination_mac) = 71 /\
  receive (frame source_mac destination_mac) = Some (Datagram SOURCE_ADDRESS DESTINATION_ADDRESS 54321 8080 PAYLOAD).
Proof.
  intros (a & b & c & d & e & f & ->)%six_bytes (a' & b' & c' & d' & e' & f' & ->)%six_bytes. vm_compute. done.
Qed.

Lemma frame_received_witness :
  receive (frame [2; 0; 0; 0; 0; 1]%Z [2; 0; 0; 0; 0; 2]%Z) = Some (Datagram SOURCE_ADDRESS DESTINATION_ADDRESS 54321 8080 PAYLOAD).
Proof. apply frame_received; reflexivity. Defined.

(** Addresses as they are printed. *)
Example source_address_text : packed_text SOURCE_ADDRESS = u "fd00:230::2".
Proof. vm_compute. reflexivity. Qed.
Example unspecified_text : packed_text (ipv6_of_groups [0; 0; 0; 0; 0; 0; 0; 0]%Z) = u "::".
Proof. vm_compute. reflexivity. Qed.
Example first_longest_run : packed_text (ipv6_of_groups [8193; 3512; 0; 0; 1; 0; 0; 1]%Z) = u "2001:db8::1:0:0:1".
Proof. vm_compute. reflexivity. Qed.
Example single_zero_kept : packed_text (ipv6_of_groups [8193; 3512; 0; 1; 1; 1; 1; 1]%Z) = u "2001:db8:0:1:1:1:1:1".
Proof. vm_compute. reflexivity. Qed.
