(* ===== verification/NetScripts.v ===== *)
(** * NetScripts: the scripts the namespace smoke test runs

    [tools/run_edge_namespace_smoke.py]: the three Python scripts it starts inside the
    victim's and the attacker's namespaces, as the texts they are, and the substitutions
    that complete them. *)

From S2P Require Import Prelude Unicode PyStr PyFloat PyVal.

(** A text given by its lines. *)
Definition text_lines (l : list pystr) : pystr := join [10%N] l.

Definition TCP_PACKET_SERVER_TEMPLATE : pystr :=
  text_lines [
    [];
    u "import socket";
    u "import time";
    [];
    u "SOCKET_FAMILY = __SOCKET_FAMILY__";
    u "TARGET = __TARGET__";
    [];
    u "held = []";
    u "s = socket.socket(SOCKET_FAMILY, socket.SOCK_STREAM)";
    u "s.setsockopt(socket.SOL_SOCKET, socket.SO_REUSEADDR, 1)";
    u "if SOCKET_FAMILY == socket.AF_INET6:";
    u "    s.setsockopt(socket.IPPROTO_IPV6, socket.IPV6_V6ONLY, 1)";
    u "s.bind(TARGET)";
    u "s.listen(256)";
    uq "print('ready', flush=True)";
    u "conn, _ = s.accept()";
    uq "conn.sendall(b'ok')";
    u "conn.close()";
    u "end = time.time() + 10.0";
    u "while time.time() < end:";
    u "    try:";
    u "        s.settimeout(0.5)";
    u "        conn, _ = s.accept()";
    u "        held.append(conn)";
    u "    except socket.timeout:";
    u "        pass";
    u "for conn in held:";
    u "    try:";
    u "        conn.close()";
    u "    except OSError:";
    u "        pass";
    u "s.close()";
    []].

Definition PACKET_CLIENT_TEMPLATE : pystr :=
  text_lines [
    [];
    u "import json";
    u "import socket";
    u "import time";
    [];
    u "SOCKET_FAMILY = __SOCKET_FAMILY__";
    u "TARGET = __TARGET__";
    [];
    u "result = {}";
    u "try:";
    u "    s = socket.socket(SOCKET_FAMILY, socket.SOCK_STREAM)";
    u "    s.settimeout(2.0)";
    u "    s.connect(TARGET)";
    uq "    result['tcp_clean_connect_payload'] = s.recv(2).decode('ascii', errors='replace')";
    u "    s.close()";
    u "except Exception as exc:";
    uq "    result['tcp_clean_connect_error'] = f'{exc.__class__.__name__}:{exc}'";
    [];
    u "u = socket.socket(SOCKET_FAMILY, socket.SOCK_DGRAM)";
    u "u.settimeout(0.4)";
    u "try:";
    u "    u.connect(TARGET)";
    uq "    u.send(b'x')";
    u "    u.recv(1)";
    u "except socket.timeout:";
    uq "    result['udp_protected_port_result'] = 'timeout'";
    u "except OSError as exc:";
    uq "    result['udp_protected_port_result'] = f'oserror:{exc.errno}:{exc.__class__.__name__}'";
    u "else:";
    uq "    result['udp_protected_port_result'] = 'unexpected_data'";
    u "finally:";
    u "    u.close()";
    [];
    u "connlimit_results = []";
    u "connlimit_sockets = []";
    u "for _ in range(__CONNLIMIT_ATTEMPTS__):";
    u "    c = socket.socket(SOCKET_FAMILY, socket.SOCK_STREAM)";
    u "    c.settimeout(0.25)";
    u "    try:";
    u "        c.connect(TARGET)";
    u "        connlimit_sockets.append(c)";
    uq "        connlimit_results.append('ok')";
    u "    except Exception as exc:";
    uq "        connlimit_results.append(f'{exc.__class__.__name__}:{exc}')";
    u "        try:";
    u "            c.close()";
    u "        except OSError:";
    u "            pass";
    [];
    uq "result['tcp_connlimit_attempts'] = len(connlimit_results)";
    uq "result['tcp_connlimit_successes'] = connlimit_results.count('ok')";
    uq "result['tcp_connlimit_failures'] = len(connlimit_results) - connlimit_results.count('ok')";
    uq "result['tcp_connlimit_failure_tail'] = connlimit_results[-12:]";
    u "time.sleep(0.1)";
    u "for c in connlimit_sockets:";
    u "    try:";
    u "        c.close()";
    u "    except OSError:";
    u "        pass";
    [];
    u "print(json.dumps(result, sort_keys=True))";
    []].

Definition HOP_BY_HOP_UDP_CLIENT_TEMPLATE : pystr :=
  text_lines [
    [];
    u "import ipaddress";
    u "import json";
    u "import socket";
    u "import struct";
    u "import time";
    [];
    u "INTERFACE = __INTERFACE__";
    uq "SOURCE_MAC = bytes.fromhex(__SOURCE_MAC__.replace(':', ''))";
    uq "DESTINATION_MAC = bytes.fromhex(__DESTINATION_MAC__.replace(':', ''))";
    uq "SOURCE_ADDRESS = ipaddress.IPv6Address('fd00:230::2').packed";
    uq "DESTINATION_ADDRESS = ipaddress.IPv6Address('fd00:230::1').packed";
    u "ETHERTYPE_IPV6 = 0x86DD";
    u "IPPROTO_HOPOPTS = 0";
    u "IPPROTO_UDP = 17";
    u "IPPROTO_ICMPV6 = 58";
    u "ICMPV6_DESTINATION_UNREACHABLE = 1";
    u "ICMPV6_PORT_UNREACHABLE = 4";
    uq "PAYLOAD = b'x'";
    [];
    [];
    u "def checksum(data):";
    u "    if len(data) % 2:";
    uq "        data += b'\x00'";
    uq "    total = sum(struct.unpack('!%dH' % (len(data) // 2), data))";
    u "    total = (total >> 16) + (total & 0xFFFF)";
    u "    total += total >> 16";
    u "    return (~total) & 0xFFFF";
    [];
    [];
    u "udp_length = 8 + len(PAYLOAD)";
    uq "udp_header = struct.pack('!HHHH', 54321, 8080, udp_length, 0) + PAYLOAD";
    u "udp_pseudo_header = SOURCE_ADDRESS + DESTINATION_ADDRESS + struct.pack(";
    uq "    '!I3xB',";
    u "    udp_length,";
    u "    IPPROTO_UDP,";
    u ")";
    u "udp_checksum = checksum(udp_pseudo_header + udp_header)";
    uq "udp_header = struct.pack('!HHHH', 54321, 8080, udp_length, udp_checksum) + PAYLOAD";
    uq "hop_by_hop_header = struct.pack('!BB', IPPROTO_UDP, 0) + bytes([1, 4, 0, 0, 0, 0])";
    u "ipv6_payload = hop_by_hop_header + udp_header";
    u "ipv6_header = struct.pack(";
    uq "    '!IHBB16s16s',";
    u "    0x60000000,";
    u "    len(ipv6_payload),";
    u "    IPPROTO_HOPOPTS,";
    u "    64,";
    u "    SOURCE_ADDRESS,";
    u "    DESTINATION_ADDRESS,";
    u ")";
    u "frame = (";
    u "    DESTINATION_MAC";
    u "    + SOURCE_MAC";
    uq "    + struct.pack('!H', ETHERTYPE_IPV6)";
    u "    + ipv6_header";
    u "    + ipv6_payload";
    u ")";
    [];
    u "sock = socket.socket(socket.AF_PACKET, socket.SOCK_RAW, socket.htons(ETHERTYPE_IPV6))";
    u "sock.bind((INTERFACE, 0))";
    u "sock.settimeout(0.8)";
    u "sock.send(frame)";
    [];
    u "icmpv6_replies = []";
    u "port_unreachable_replies = []";
    u "end = time.time() + 0.8";
    u "while time.time() < end:";
    u "    try:";
    u "        packet = sock.recv(65535)";
    u "    except socket.timeout:";
    u "        break";
    u "    if len(packet) < 54:";
    u "        continue";
    uq "    ethertype = struct.unpack('!H', packet[12:14])[0]";
    u "    if ethertype != ETHERTYPE_IPV6:";
    u "        continue";
    u "    ipv6 = packet[14:54]";
    u "    next_header = ipv6[6]";
    u "    source = str(ipaddress.IPv6Address(ipv6[8:24]))";
    u "    destination = str(ipaddress.IPv6Address(ipv6[24:40]))";
    uq "    if next_header != IPPROTO_ICMPV6 or source != 'fd00:230::1':";
    u "        continue";
    u "    icmpv6 = packet[54:]";
    u "    if len(icmpv6) < 2:";
    u "        continue";
    u "    reply = {";
    uq "        'type': icmpv6[0],";
    uq "        'code': icmpv6[1],";
    uq "        'source': source,";
    uq "        'destination': destination,";
    u "    }";
    u "    icmpv6_replies.append(reply)";
    u "    if (";
    u "        icmpv6[0] == ICMPV6_DESTINATION_UNREACHABLE";
    u "        and icmpv6[1] == ICMPV6_PORT_UNREACHABLE";
    uq "        and destination == 'fd00:230::2'";
    u "    ):";
    u "        port_unreachable_replies.append(reply)";
    [];
    u "print(";
    u "    json.dumps(";
    u "        {";
    uq "            'sent_bytes': len(frame),";
    uq "            'icmpv6_replies': icmpv6_replies,";
    uq "            'icmpv6_port_unreachable_replies': port_unreachable_replies,";
    u "        },";
    u "        sort_keys=True,";
    u "    )";
    u ")";
    []].

(** ** Substitution *)

(** [s.replace(old, new)] for a non-empty [old]: leftmost occurrences, not overlapping.
    [skip] counts the characters of an occurrence still to be passed over. *)
Fixpoint replace_from (old new : pystr) (skip : nat) (s : pystr) : pystr :=
  match s with
  | [] => []
  | c :: rest =>
      match skip with
      | S k => replace_from old new k rest
      | O => if starts_with old s then new ++ replace_from old new (length old - 1) rest else c :: replace_from old new 0 rest
      end
  end.

Definition py_replace (old new s : pystr) : pystr := replace_from old new 0 s.

Definition PACKET_PROBE_CONNLIMIT_ATTEMPTS : Z := 140.
Definition PACKET_PROBE_CONNLIMIT_MAX_ACCEPTED : Z := 128.

Definition packet_socket_family_expr (family : pystr) : pystr :=
  if str_eqb family (u "ipv6") then u "socket.AF_INET6" else u "socket.AF_INET".

(** [repr(packet_target(family))] *)
Definition packet_target (family : pystr) : pystr :=
  if str_eqb family (u "ipv6") then u "('fd00:230::1', 8080, 0, 0)" else u "('10.230.0.1', 8080)".

Definition packet_script (template family : pystr) : pystr :=
  py_replace (u "__CONNLIMIT_ATTEMPTS__") (dec_Z PACKET_PROBE_CONNLIMIT_ATTEMPTS)
    (py_replace (u "__TARGET__") (packet_target family)
      (py_replace (u "__SOCKET_FAMILY__") (packet_socket_family_expr family) template)).

Definition ipv6_hop_by_hop_udp_script (interface source_mac destination_mac : pystr) : pystr :=
  py_replace (u "__DESTINATION_MAC__") (repr_str destination_mac)
    (py_replace (u "__SOURCE_MAC__") (repr_str source_mac)
      (py_replace (u "__INTERFACE__") (repr_str interface) HOP_BY_HOP_UDP_CLIENT_TEMPLATE)).

(** No placeholder is left in a completed script. *)
Lemma packet_scripts_complete :
  forallb (fun family => negb (contains (u "__") (packet_script TCP_PACKET_SERVER_TEMPLATE family)) &&
                         contains (u "__class__.__name__") (packet_script PACKET_CLIENT_TEMPLATE family) &&
                         negb (contains (u "__CONNLIMIT") (packet_script PACKET_CLIENT_TEMPLATE family)) &&
                         negb (contains (u "__TARGET") (packet_script PACKET_CLIENT_TEMPLATE family)) &&
                         negb (contains (u "__SOCKET") (packet_script PACKET_CLIENT_TEMPLATE family)))
    [u "ipv4"; u "ipv6"] = true.
Proof. vm_compute. reflexivity. Qed.
