(* ===== verification/EdgeHost.v ===== *)
(** * EdgeHost: sysctl and systemd templates

    [tools/validate_edge_templates.py]: the assignments of a sysctl file, the DDoS,
    backlog and fragment guardrails, and the checks of the systemd unit. *)

From Stdlib Require Import SpecFloat.
From S2P Require Import Prelude Unicode PyStr PyFloat PyVal Json EdgeConfig.

(** ** sysctl files *)

Definition strip_comment (line : pystr) : pystr := strip (split1 35 line).1.

Definition sysctl_line (assignments : list (pystr * pystr)) (raw : pystr) : res (list (pystr * pystr)) :=
  match strip_comment raw with
  | [] => Ok assignments
  | line =>
      match split1 61 line with
      | (_, None) => value_error (u "invalid sysctl line: " ++ line)
      | (key, Some value) => Ok (dset (strip key) (strip value) assignments)
      end
  end.

Definition sysctl_assignments (w : edge_world) (p : pystr) : res (list (pystr * pystr)) :=
  let* text := read_text w p in foldM sysctl_line [] (splitlines text).

Definition OPTIONAL_MODULE_SYSCTL_KEYS : list pystr :=
  [u "net.netfilter.nf_conntrack_max"; u "net.netfilter.nf_conntrack_tcp_timeout_syn_recv"].

Definition in_list (x : pystr) (l : list pystr) : bool := existsb (str_eqb x) l.

Definition sysctl_key_error (w : edge_world) (sysctl key : pystr) : list pystr :=
  if (((ew_run w [sysctl; u "-n"; key]).1.1 =? 0)%Z) then []
  else if in_list key OPTIONAL_MODULE_SYSCTL_KEYS
       then [u "optional module sysctl key is unavailable on this host; skipped key existence check: " ++ key]
       else [u "sysctl key is unavailable on this host: " ++ key].

Definition validate_sysctl (w : edge_world) (p : pystr) : res (list pystr) :=
  if negb (exists_file w p) then Ok [u "missing sysctl template: " ++ p]
  else
    match sysctl_assignments w p with
    | Raise e => if is_value_error e then Ok [exn_msg e] else Raise e
    | Ok assignments =>
        if negb (str_eqb (ew_system w) (u "Linux")) then Ok [u "non-Linux host; skipped sysctl key existence check"]
        else match ew_which w (u "sysctl") with
             | None => Ok [u "sysctl not found; skipped sysctl key existence check"]
             | Some sysctl => Ok (mjoin (sysctl_key_error w sysctl <$> dkeys assignments))
             end
    end.

(** ** DDoS guardrails *)

Record sysctl_rule := SysctlRule { r_exact : option Z; r_min : option Z; r_max : option Z }.

Definition at_least (z : Z) : sysctl_rule := SysctlRule None (Some z) None.
Definition between (lo hi : Z) : sysctl_rule := SysctlRule None (Some lo) (Some hi).

Definition DDOS_SYSCTL_RULES : list (pystr * sysctl_rule) :=
  [(u "net.ipv4.tcp_syncookies", SysctlRule (Some 1%Z) None None);
   (u "net.ipv4.tcp_max_syn_backlog", at_least 8192);
   (u "net.ipv4.tcp_synack_retries", between 1 5);
   (u "net.core.somaxconn", at_least 4096);
   (u "net.core.netdev_max_backlog", at_least 10000);
   (u "net.ipv4.tcp_fin_timeout", between 1 60);
   (u "net.netfilter.nf_conntrack_max", at_least 262144);
   (u "net.netfilter.nf_conntrack_tcp_timeout_syn_recv", between 1 60)].

Definition rule_errors (key : pystr) (rule : sysctl_rule) (value : Z) : list pystr :=
  let shown := key ++ u "=" ++ dec_Z value in
  let bounds :=
    match r_min rule with
    | Some m => if (value <? m)%Z then [shown ++ u " is lower than DDoS guardrail minimum " ++ dec_Z m] else []
    | None => [] end ++
    match r_max rule with
    | Some m => if (m <? value)%Z then [shown ++ u " exceeds DDoS guardrail maximum " ++ dec_Z m] else []
    | None => [] end in
  match r_exact rule with
  | Some e => if (value =? e)%Z then bounds else [shown ++ u " must be exactly " ++ dec_Z e]
  | None => bounds
  end.

Definition ddos_key_errors (assignments : list (pystr * pystr)) (item : pystr * sysctl_rule) : res (list pystr) :=
  match dget item.1 assignments with
  | None => Ok []
  | Some raw =>
      match int_of_str (repr_str raw) raw with
      | Ok value => Ok (rule_errors item.1 item.2 value)
      | Raise e => if is_value_error e then Ok [item.1 ++ u " must be an integer"] else Raise e
      end
  end.

Definition missing_keys (keys : list pystr) (assignments : list (pystr * pystr)) : list pystr :=
  py_sorted str_leb (filter (fun k => dmem k assignments = false) keys).

Definition missing_message (text : pystr) (missing : list pystr) : list pystr :=
  match missing with [] => [] | _ => [text ++ join (u ", ") missing] end.

Definition validate_ddos_sysctls (w : edge_world) (p : pystr) : res (list pystr) :=
  match sysctl_assignments w p with
  | Raise e => if is_exception e then Ok [u "failed to read DDoS sysctls from " ++ p ++ u ": " ++ exn_msg e] else Raise e
  | Ok assignments =>
      let missing := missing_keys (dkeys DDOS_SYSCTL_RULES) assignments in
      let* es := mapR (ddos_key_errors assignments) DDOS_SYSCTL_RULES in
      Ok (missing_message (u "missing DDoS host sysctl guardrails: ") missing ++ mjoin es)
  end.

Definition validate_backlog (w : edge_world) (config p : pystr) : res (list pystr) :=
  match max_config_backlog w config with
  | Raise e => if is_exception e then Ok [failed_config config e] else Raise e
  | Ok None => Ok []
  | Ok (Some required) =>
      match (let* assignments := sysctl_assignments w p in
             let raw := default (u "0") (dget (u "net.core.somaxconn") assignments) in
             int_of_str (repr_str raw) raw) with
      | Raise e => if is_exception e then Ok [u "failed to read net.core.somaxconn from " ++ p ++ u ": " ++ exn_msg e] else Raise e
      | Ok configured =>
          Ok (if (configured <? required)%Z
              then [u "net.core.somaxconn=" ++ dec_Z configured ++ u " is lower than configured listener backlog " ++ dec_Z required]
              else [])
      end
  end.

(** ** Fragment reassembly *)

Definition REQUIRED_FRAGMENT_SYSCTLS : list pystr :=
  [u "net.ipv4.ipfrag_high_thresh"; u "net.ipv4.ipfrag_time"; u "net.ipv4.ipfrag_max_dist";
   u "net.ipv6.ip6frag_high_thresh"; u "net.ipv6.ip6frag_low_thresh"; u "net.ipv6.ip6frag_time"].

Definition MAX_FRAGMENT_REASSEMBLY_BYTES : Z := 64 * 1024 * 1024.
Definition MAX_FRAGMENT_QUEUE_SECONDS : Z := 30.
Definition MAX_FRAGMENT_DISTANCE : Z := 4096.

(** The parsed positive values and the errors so far. *)
Definition fragment_value (assignments : list (pystr * pystr)) (st : list (pystr * Z) * list pystr) (key : pystr) :
    res (list (pystr * Z) * list pystr) :=
  let raw := default [] (dget key assignments) in
  match int_of_str (repr_str raw) raw with
  | Raise e => if is_value_error e then Ok (st.1, st.2 ++ [key ++ u " must be an integer"]) else Raise e
  | Ok value => if (value <=? 0)%Z then Ok (st.1, st.2 ++ [key ++ u " must be greater than zero"])
                else Ok (dset key value st.1, st.2)
  end.

Definition exceeds (parsed : list (pystr * Z)) (limit : Z) (text : pystr) (key : pystr) : list pystr :=
  match dget key parsed with
  | Some value => if (limit <? value)%Z then [key ++ u "=" ++ dec_Z value ++ text ++ dec_Z limit] else []
  | None => []
  end.

Definition validate_fragment_sysctls (w : edge_world) (p : pystr) : res (list pystr) :=
  match sysctl_assignments w p with
  | Raise e => if is_exception e then Ok [u "failed to read fragment sysctls from " ++ p ++ u ": " ++ exn_msg e] else Raise e
  | Ok assignments =>
      match missing_keys REQUIRED_FRAGMENT_SYSCTLS assignments with
      | (_ :: _) as missing => Ok [u "missing fragment reassembly sysctl bounds: " ++ join (u ", ") missing]
      | [] =>
          let* '(parsed, errors) := foldM (fragment_value assignments) ([], []) (ew_set_order w REQUIRED_FRAGMENT_SYSCTLS) in
          Ok (errors ++
              mjoin (exceeds parsed MAX_FRAGMENT_REASSEMBLY_BYTES (u " exceeds fragment reassembly memory cap ")
                       <$> [u "net.ipv4.ipfrag_high_thresh"; u "net.ipv6.ip6frag_high_thresh"]) ++
              mjoin ((fun key => (fun m => m ++ u "s") <$> exceeds parsed MAX_FRAGMENT_QUEUE_SECONDS (u " exceeds fragment queue retention cap ") key)
                       <$> [u "net.ipv4.ipfrag_time"; u "net.ipv6.ip6frag_time"]) ++
              exceeds parsed MAX_FRAGMENT_DISTANCE (u " exceeds fragment distance cap ") (u "net.ipv4.ipfrag_max_dist") ++
              match dget (u "net.ipv6.ip6frag_low_thresh") parsed, dget (u "net.ipv6.ip6frag_high_thresh") parsed with
              | Some low, Some high =>
                  if (high <? low)%Z
                  then [u "net.ipv6.ip6frag_low_thresh must be less than or equal to net.ipv6.ip6frag_high_thresh"] else []
              | _, _ => []
              end)
      end
  end.

(** ** systemd units *)

Abbreviation unit_section := (list (pystr * list pystr)).

(** The sections so far and the current one. *)
Definition unit_line (st : list (pystr * unit_section) * option pystr) (raw_line : pystr) :
    res (list (pystr * unit_section) * option pystr) :=
  let '(sections, current) := st in
  match strip_comment raw_line with
  | [] => Ok st
  | line =>
      if starts_with (u "[") line && ends_with (u "]") line then
        let name := strip (take (length line - 2) (drop 1 line)) in
        Ok (dsetdefault name [] sections, Some name)
      else
        match current, split1 61 line with
        | Some section, (key, Some value) =>
            let entries := default [] (dget section sections) in
            let key := strip key in
            Ok (dset section (dset key (default [] (dget key entries) ++ [strip value]) entries) sections, current)
        | _, _ => value_error (u "invalid systemd unit line: " ++ raw_line)
        end
  end.

Definition parse_systemd_unit (w : edge_world) (p : pystr) : res (list (pystr * unit_section)) :=
  let* text := read_text w p in
  let* st := foldM unit_line ([], None) (splitlines text) in Ok st.1.

(** The last value of a directive. *)
Definition first_systemd_value (section : unit_section) (key default_ : pystr) : pystr :=
  match dget key section with
  | Some values => default default_ (last values)
  | None => default_
  end.

(** A run of decimal digits and what follows. *)
Definition split_number (s : pystr) : pystr * pystr := (take_while is_decimal s, drop_while is_decimal s).

Definition is_infinity (token : pystr) : bool := str_eqb (lower token) (u "infinity").

Definition size_scale (unit : pystr) : option Z :=
  match unit with
  | [] => Some 1%Z
  | [c] => if has_char c (u "Kk") then Some 1024%Z
           else if has_char c (u "Mm") then Some (1024 ^ 2)%Z
           else if has_char c (u "Gg") then Some (1024 ^ 3)%Z
           else if has_char c (u "Tt") then Some (1024 ^ 4)%Z
           else None
  | _ => None
  end.

Definition parse_systemd_size (value : pystr) : res (option Z) :=
  let token := strip value in
  if is_infinity token then Ok None
  else match split_number token with
       | ((_ :: _) as num, unit) =>
           match size_scale unit with
           | Some scale => let* n := int_of_str (repr_str num) num in Ok (Some (n * scale)%Z)
           | None => value_error (u "invalid systemd size: " ++ value)
           end
       | _ => value_error (u "invalid systemd size: " ++ value)
       end.

Definition parse_systemd_nofile_hard_limit (value : pystr) : res (option Z) :=
  let bad {A} : res A := value_error (u "invalid systemd LimitNOFILE: " ++ value) in
  let token := strip value in
  let* token :=
    if has_char 58 token then
      match strip <$> split_on 58 token with
      | [_ :: _; (_ :: _) as hard] => Ok hard
      | _ => bad
      end
    else Ok token in
  if is_infinity token then Ok None
  else match split_number token with
       | (_ :: _, []) => let* n := int_of_str (repr_str token) token in Ok (Some n)
       | _ => bad
       end.

(** [number * scale]; the scales are exact floats. *)
Definition time_scale (unit : pystr) : option float :=
  dget unit [(u "ms", float_of_Q 1 1000); (u "s", float_of_Q 1 1); (u "sec", float_of_Q 1 1); (u "min", float_of_Q 60 1);
             (u "m", float_of_Q 60 1); (u "h", float_of_Q 3600 1); (u "d", float_of_Q 86400 1);
             (u "w", float_of_Q 604800 1); (u "y", float_of_Q 31557600 1); ([], float_of_Q 1 1)].

Definition split_decimal (token : pystr) : option (pystr * pystr) :=
  match split_number token with
  | ((_ :: _) as num, 46%N :: rest) =>
      match split_number rest with
      | ((_ :: _) as frac, unit) => Some (num ++ [46%N] ++ frac, unit)
      | _ => None
      end
  | ((_ :: _) as num, unit) => Some (num, unit)
  | _ => None
  end.

Definition parse_systemd_seconds (value : pystr) : res float :=
  let token := strip value in
  if is_infinity token then Ok finf
  else match split_decimal token with
       | Some (num, unit) =>
           match time_scale unit with
           | Some scale => let* number := float_of_str (repr_str num) num in Ok (fmul number scale)
           | None => value_error (u "invalid systemd duration: " ++ value)
           end
       | None => value_error (u "invalid systemd duration: " ++ value)
       end.

(** ** [f"{x:g}"] *)

(** Six significant digits and the decimal exponent of a positive fraction. *)
Definition six_digits (n d : Z) : Z * Z :=
  let dp := decpt n d in
  let q := if (dp <=? 6)%Z then round_half_even (n * 10 ^ (6 - dp)) (Z.to_pos d)
           else round_half_even n (Z.to_pos (d * 10 ^ (dp - 6))) in
  if (q =? 1000000)%Z then (100000, dp)%Z else (q, dp - 1)%Z.

Definition general_text (q e : Z) : pystr :=
  let ds := dec_Z q in
  let trim s := match rstrip_zeros s with t => rstrip_by (chr_is 46%N) t end in
  if (e <? -4)%Z || (6 <=? e)%Z then trim (take 1 ds ++ u "." ++ drop 1 ds) ++ u "e" ++ exp_text e
  else if (e <? 0)%Z then trim (u "0." ++ replicate (Z.to_nat (- e - 1)) 48%N ++ ds)
  else trim (take (Z.to_nat (e + 1)) ds ++ u "." ++ drop (Z.to_nat (e + 1)) ds).

Definition format_g (x : float) : pystr :=
  match x with
  | S754_nan => u "nan"
  | S754_infinity s => (if s then u "-" else []) ++ u "inf"
  | S754_zero s => (if s then u "-" else []) ++ u "0"
  | S754_finite s m e =>
      let '(n, d) := float_fraction (S754_finite false m e) in
      let '(q, ex) := six_digits n (Zpos d) in
      (if s then u "-" else []) ++ general_text q ex
  end.

(** ** The unit's guardrails *)

Definition MAX_SYSTEMD_TASKS : Z := 32768.

Definition yes : list pystr := [u "true"; u "yes"].

Definition REQUIRED_SYSTEMD_SERVICE_VALUES : list (pystr * list pystr) :=
  [(u "Type", [u "simple"]); (u "Restart", [u "on-failure"; u "always"]); (u "NoNewPrivileges", yes);
   (u "PrivateTmp", yes); (u "PrivateDevices", yes); (u "ProtectSystem", [u "strict"]);
   (u "ProtectHome", [u "true"; u "yes"; u "read-only"; u "tmpfs"]); (u "ProtectKernelTunables", yes);
   (u "ProtectKernelModules", yes); (u "ProtectControlGroups", [u "true"; u "yes"; u "strict"]);
   (u "RestrictNamespaces", yes); (u "RestrictRealtime", yes); (u "RestrictSUIDSGID", yes);
   (u "LockPersonality", yes); (u "MemoryDenyWriteExecute", yes); (u "SystemCallArchitectures", [u "native"])].

Definition REQUIRED_SYSTEMD_DIRECTIVES : list pystr :=
  [u "User"; u "Group"; u "ExecStart"; u "LimitNOFILE"; u "TimeoutStopSec"; u "TasksMax"; u "MemoryHigh"; u "MemoryMax";
   u "AmbientCapabilities"; u "CapabilityBoundingSet"; u "RestrictAddressFamilies"; u "StateDirectory";
   u "LogsDirectory"; u "ConfigurationDirectory"].

Definition service_value_errors (service : unit_section) (item : pystr * list pystr) : list pystr :=
  match first_systemd_value service item.1 [] with
  | [] => [u "missing systemd service directive: " ++ item.1]
  | value =>
      if in_list (lower value) item.2 then []
      else [item.1 ++ u "=" ++ value ++ u " is weaker than required values: " ++
            py_repr (VList (VStr <$> py_sorted str_leb item.2))]
  end.

Definition is_root (name : pystr) : bool := in_list name [[]; u "root"; u "0"].

(** [try: errors.extend(m) except Exception as err: errors.append(text + str(err))] *)
Definition guarded (text : pystr) (m : res (list pystr)) : res (list pystr) :=
  match m with
  | Raise e => if is_exception e then Ok [text ++ exn_msg e] else Raise e
  | ok => ok
  end.

(** The errors of the configuration stay even if a later step of the block raises. *)
Definition nofile_errors (w : edge_world) (service : unit_section) (config : pystr) : res (list pystr) :=
  let raw_nofile := first_systemd_value service (u "LimitNOFILE") (u "0") in
  let failed := u "failed to read systemd LimitNOFILE: " in
  match (let* nofile := parse_systemd_nofile_hard_limit raw_nofile in
         let* capacity := config_nofile_capacity_requirement w config in Ok (nofile, capacity)) with
  | Raise e => if is_exception e then Ok [failed ++ exn_msg e] else Raise e
  | Ok (nofile, (capacity_required, capacity_errors)) =>
      let* rest := guarded failed
        (let* min_nofile := config_min_nofile w config in
         let required := match capacity_required with Some c => Z.max min_nofile c | None => min_nofile end in
         Ok match nofile with
            | Some n => if (n <? required)%Z
                        then [u "LimitNOFILE=" ++ raw_nofile ++ u " hard limit " ++ dec_Z n ++
                              u " is lower than required descriptor budget " ++ dec_Z required]
                        else []
            | None => []
            end) in
      Ok (capacity_errors ++ rest)
  end.

Definition stop_errors (w : edge_world) (service : unit_section) (config : pystr) : res (list pystr) :=
  guarded (u "failed to read systemd TimeoutStopSec: ")
    (let* stop_seconds := parse_systemd_seconds (first_systemd_value service (u "TimeoutStopSec") (u "0")) in
     let* shutdown_grace := config_shutdown_grace_seconds w config in
     Ok (if fleb stop_seconds shutdown_grace
         then [u "TimeoutStopSec=" ++ format_g stop_seconds ++ u "s must exceed runtime.shutdown_grace_ms " ++
               format_g shutdown_grace ++ u "s"]
         else [])).

Definition tasks_errors (service : unit_section) : res (list pystr) :=
  guarded (u "failed to read systemd TasksMax: ")
    (let raw := first_systemd_value service (u "TasksMax") (u "0") in
     let* tasks := int_of_str (repr_str raw) raw in
     Ok (if (tasks <=? 0)%Z || (MAX_SYSTEMD_TASKS <? tasks)%Z
         then [u "TasksMax=" ++ dec_Z tasks ++ u " must be positive and no higher than " ++ dec_Z MAX_SYSTEMD_TASKS]
         else [])).

Definition memory_errors (service : unit_section) : res (list pystr) :=
  guarded (u "failed to read systemd memory limits: ")
    (let* memory_high := parse_systemd_size (first_systemd_value service (u "MemoryHigh") []) in
     let* memory_max := parse_systemd_size (first_systemd_value service (u "MemoryMax") []) in
     Ok match memory_high, memory_max with
        | Some high, Some max_ => if (max_ <? high)%Z then [u "MemoryHigh must be less than or equal to MemoryMax"] else []
        | _, _ => [u "MemoryHigh and MemoryMax must be finite systemd memory limits"]
        end).

Definition family_errors (service : unit_section) : list pystr :=
  let families := split_ws (first_systemd_value service (u "RestrictAddressFamilies") []) in
  (if forallb (fun f => in_list f families) [u "AF_UNIX"; u "AF_INET"; u "AF_INET6"] then []
   else [u "RestrictAddressFamilies must allow AF_UNIX AF_INET AF_INET6 for logging, local sockets, and TCP proxying"]) ++
  (if in_list (u "AF_PACKET") families || in_list (u "AF_NETLINK") families
   then [u "RestrictAddressFamilies should not allow raw packet/netlink families"] else []).

(** [set(value.split()) == {"CAP_NET_BIND_SERVICE"}] *)
Definition capability_errors (service : unit_section) (key : pystr) : list pystr :=
  let caps := split_ws (first_systemd_value service key []) in
  if in_list (u "CAP_NET_BIND_SERVICE") caps && forallb (str_eqb (u "CAP_NET_BIND_SERVICE")) caps then []
  else [key ++ u " must be exactly CAP_NET_BIND_SERVICE so the proxy can bind privileged ports without broader root capabilities"].

Definition directory_errors (service : unit_section) (key : pystr) : list pystr :=
  if str_eqb (first_systemd_value service key []) (u "altura-prot") then [] else [key ++ u " must be set to altura-prot"].

Definition service_errors (w : edge_world) (service : unit_section) (config : pystr) : res (list pystr) :=
  let missing := py_sorted str_leb (filter (fun k => dmem k service = false) REQUIRED_SYSTEMD_DIRECTIVES) in
  let* nofile := nofile_errors w service config in
  let* stop := stop_errors w service config in
  let* tasks := tasks_errors service in
  let* memory := memory_errors service in
  Ok (missing_message (u "missing systemd service directives: ") missing ++
      mjoin (service_value_errors service <$> REQUIRED_SYSTEMD_SERVICE_VALUES) ++
      (if is_root (first_systemd_value service (u "User") []) then [u "systemd unit must run AlturaProt as a non-root User"] else []) ++
      (if is_root (first_systemd_value service (u "Group") []) then [u "systemd unit must run AlturaProt as a non-root Group"] else []) ++
      nofile ++ stop ++ tasks ++ memory ++ family_errors service ++
      mjoin (capability_errors service <$> [u "AmbientCapabilities"; u "CapabilityBoundingSet"]) ++
      mjoin (directory_errors service <$> [u "StateDirectory"; u "LogsDirectory"; u "ConfigurationDirectory"])).

Definition validate_systemd_unit (w : edge_world) (p config : pystr) : res (list pystr) :=
  if negb (exists_file w p) then Ok [u "missing systemd unit template: " ++ p]
  else
    match parse_systemd_unit w p with
    | Raise e => if is_value_error e then Ok [exn_msg e] else Raise e
    | Ok sections =>
        match dget (u "Service") sections with
        | None => Ok [u "missing [Service] section in " ++ p]
        | Some service =>
            let* errors := service_errors w service config in
            let unit := default [] (dget (u "Unit") sections) in
            let install := default [] (dget (u "Install") sections) in
            Ok (errors ++
                mjoin ((fun key => if dmem key unit then [] else [u "missing [Unit] restart storm guard: " ++ key])
                         <$> [u "StartLimitIntervalSec"; u "StartLimitBurst"]) ++
                (if in_list (u "multi-user.target") (split_ws (first_systemd_value install (u "WantedBy") [])) then []
                 else [u "systemd unit should install into multi-user.target"]))
        end
    end.
