(* ===== verification/EdgeNft.v ===== *)
(** * EdgeNft: the nftables template

    [tools/validate_edge_templates.py]: blocks and directives of an nftables file,
    the protected ports, the rules each chain must contain, and the bounds of the
    dynamic sets.  The patterns are the validator's, as terms of [Regex]. *)

From Stdlib Require Import SpecFloat.
From S2P Require Import Prelude Unicode PyStr Regex PyFloat PyVal Json EdgeConfig EdgeHost.

(** ** Text *)

Definition strip_nft_comments (raw : pystr) : pystr := join [10%N] ((fun line => (split1 35 line).1) <$> splitlines raw).

(** [re.sub(r"\s+", " ", text)]; [gap] tells that a space was just written. *)
Fixpoint collapse (gap : bool) (s : pystr) : pystr :=
  match s with
  | [] => []
  | c :: rest => if is_space c then (if gap then collapse true rest else 32%N :: collapse true rest)
                 else c :: collapse false rest
  end.

Definition compact_rule_text (raw : pystr) : pystr := strip (collapse false (strip_nft_comments raw)).

(** The text up to the brace that closes the block; [depth] blocks are open inside it. *)
Fixpoint block_body (depth : nat) (s : pystr) : option pystr :=
  match s with
  | [] => None
  | c :: rest =>
      if (c =? 123)%N then cons c <$> block_body (S depth) rest
      else if (c =? 125)%N then match depth with O => Some [] | S d => cons c <$> block_body d rest end
      else cons c <$> block_body depth rest
  end.

Definition block_after (r : regex) (raw : pystr) : option pystr :=
  match search r (strip_nft_comments raw) with
  | Some (_, t) => block_body 0 (after t)
  | None => None
  end.

Definition named_block (raw name : pystr) : option pystr :=
  block_after (cat [Bound; lit name; Bound; ws0; lit (u "{")]) raw.

Definition nft_set_block (raw name : pystr) : option pystr :=
  block_after (cat [Bound; lit (u "set"); ws1; lit name; ws0; lit (u "{")]) raw.

Fixpoint directive_in (key : pystr) (lines : list pystr) : option pystr :=
  match lines with
  | [] => None
  | raw_line :: rest =>
      let line := rstrip_by (chr_is 59%N) (strip raw_line) in
      if starts_with (key ++ u " ") line then Some (strip (drop (length key) line)) else directive_in key rest
  end.

Definition nft_directive (block key : pystr) : option pystr := directive_in key (splitlines (strip_nft_comments block)).

(** ** Protected ports *)

Definition parse_service_port (w : edge_world) (value : pystr) : res Z :=
  let token := strip_by (chr_is 39%N) (strip_by (chr_is 34%N) (strip value)) in
  match token with
  | [] => value_error (u "empty port element")
  | _ =>
      let* port :=
        if str_isdigit token then int_of_str (repr_str token) token
        else match ew_service w token with
             | Some port => Ok port
             | None => value_error (u "unsupported protected_tcp_ports element: " ++ value)
             end in
      if (port <? 1)%Z || (65535 <? port)%Z then value_error (u "port out of range in protected_tcp_ports: " ++ value)
      else Ok port
  end.

Definition parse_port_element (w : edge_world) (value : pystr) : res (Z * Z) :=
  let token := strip value in
  match split1 45 token with
  | (start, Some end_) =>
      let* start_port := parse_service_port w start in
      let* end_port := parse_service_port w end_ in
      if (end_port <? start_port)%Z
      then value_error (u "invalid descending port range in protected_tcp_ports: " ++ value)
      else Ok (start_port, end_port)
  | (_, None) => let* port := parse_service_port w token in Ok (port, port)
  end.

Definition port_item (w : edge_world) (st : list (Z * Z) * list pystr) (raw : pystr) : res (list (Z * Z) * list pystr) :=
  match strip raw with
  | [] => Ok st
  | item => match parse_port_element w item with
            | Ok range => Ok (st.1 ++ [range], st.2)
            | Raise e => if is_value_error e then Ok (st.1, st.2 ++ [exn_msg e]) else Raise e
            end
  end.

Definition elements_pattern : regex :=
  cat [Bound; lit (u "elements"); ws0; lit (u "="); ws0; lit (u "{"); Group not_brace; lit (u "}")].

Definition protected_tcp_port_ranges (w : edge_world) (p : pystr) : res (list (Z * Z) * list pystr) :=
  if negb (exists_file w p) then Ok ([], [])
  else
    let* raw := read_text w p in
    match named_block raw (u "set protected_tcp_ports") with
    | None => Ok ([], [u "missing protected_tcp_ports set in " ++ p])
    | Some block =>
        match search elements_pattern block with
        | None => Ok ([], [u "missing protected_tcp_ports elements in " ++ p])
        | Some m =>
            let* '(ranges, errors) := foldM (port_item w) ([], []) (split_on 44 (match_group m)) in
            Ok (ranges, match ranges, errors with
                        | [], [] => [u "protected_tcp_ports set in " ++ p ++ u " has no elements"]
                        | _, _ => errors
                        end)
        end
    end.

Definition validate_protected_tcp_ports (w : edge_world) (p : pystr) : res (list pystr) :=
  let* '(_, errors) := protected_tcp_port_ranges w p in Ok errors.

Definition port_in_ranges (ranges : list (Z * Z)) (port : Z) : bool :=
  existsb (fun r => (r.1 <=? port)%Z && (port <=? r.2)%Z) ranges.

Definition validate_edge_port_coverage (w : edge_world) (config nft_path : pystr) : res (list pystr) :=
  let* '(required, config_errors) := config_public_listener_ports w config in
  match config_errors with
  | _ :: _ => Ok config_errors
  | [] =>
      let* '(ranges, nft_errors) := protected_tcp_port_ranges w nft_path in
      match nft_errors with
      | _ :: _ => Ok nft_errors
      | [] =>
          Ok match py_sorted Z.leb (filter (fun port => port_in_ranges ranges port = false) required) with
             | [] => []
             | missing => [u "protected_tcp_ports is missing public AlturaProt listener ports: " ++
                           join (u ", ") (dec_Z <$> missing)]
             end
      end
  end.

(** ** Patterns *)

Definition protected_match : regex := words [u "tcp"; u "dport"; u "@protected_tcp_ports"].

(** [a\s*\|\s*b\s*\|\s*...] *)
Fixpoint flag_alternatives (l : list pystr) : regex :=
  match l with
  | [] => Eps
  | [f] => lit f
  | f :: rest => cat [lit f; ws0; lit (u "|"); ws0; flag_alternatives rest]
  end.

(** [tcp\s+flags\s+&\s*\(\s*...\s*\)] *)
Definition flag_mask (l : list pystr) : regex :=
  cat [words [u "tcp"; u "flags"; u "&"]; ws0; lit (u "("); ws0; flag_alternatives l; ws0; lit (u ")")].

Definition base_flags : list pystr := [u "fin"; u "syn"; u "rst"; u "ack"].

Definition limit_rate_over : regex := Seq (words [u "limit"; u "rate"; u "over"]) Bound.
Definition then_drop : regex := cat [any_star; Bound; lit (u "drop"); Bound].

Definition GENERIC_TCP_L4PROTO_PATTERN : regex := cat [Bound; words [u "meta"; u "l4proto"; u "tcp"]; Bound].

Definition nfproto_ipv6 : regex :=
  cat [Bound; words [u "meta"; u "nfproto"]; ws1; Alt (lit (u "ipv6")) (lit (u "ip6")); ws1].

Definition IPV6_TCP_L4PROTO_PATTERN : regex := cat [nfproto_ipv6; words [u "meta"; u "l4proto"; u "tcp"]; Bound].
Definition IPV4_ICMP_PROTOCOL_PATTERN : regex := cat [Bound; words [u "ip"; u "protocol"; u "icmp"]; Bound].
Definition IPV6_ICMP_L4PROTO_PATTERN : regex := cat [nfproto_ipv6; words [u "meta"; u "l4proto"; u "ipv6-icmp"]; Bound].

Definition IPV6_PREFIX64_SELECTOR_PATTERN : regex :=
  cat [Opt (lit (u "(")); ws0; words [u "ip6"; u "saddr"]; ws0; Alt (lit (u "and")) (lit (u "&")); ws0;
       lit (u "ffff:ffff:ffff:ffff::"); ws0; Opt (lit (u ")")); ws0; lit (u "."); ws0; words [u "tcp"; u "dport"]].

Definition udp_drop_pattern : regex :=
  cat [Bound; words [u "meta"; u "l4proto"; u "udp"; u "udp"; u "dport"; u "@protected_tcp_ports"; u "drop"]; Bound].

(** The labelled rule tails of the two chains. *)
Definition required_preraw : list (pystr * regex) :=
  [(u "null TCP flag drop",
    cat [protected_match; ws1; flag_mask base_flags; ws0; lit (u "=="); ws0; lit (u "0"); ws1; lit (u "drop"); Bound]);
   (u "Xmas TCP flag drop",
    cat [protected_match; ws1; flag_mask [u "fin"; u "syn"; u "rst"; u "psh"; u "ack"; u "urg"]; ws0; lit (u "=="); ws0;
         flag_alternatives [u "fin"; u "psh"; u "urg"]; ws1; lit (u "drop"); Bound]);
   (u "global SYN flood drop",
    cat [protected_match; ws1; flag_mask base_flags; ws0; lit (u "=="); ws0; lit (u "syn"); ws1; limit_rate_over; then_drop])].

Definition ct_state_new : regex := words [u "ct"; u "state"; u "new"].

Definition required_input : list (pystr * regex) :=
  [(u "new non-SYN drop",
    cat [protected_match; ws1; ct_state_new; ws1; flag_mask base_flags; ws0; lit (u "!="); ws0; lit (u "syn"); ws1;
         lit (u "drop"); Bound]);
   (u "global new-connection flood drop",
    cat [protected_match; ws1; ct_state_new; ws1; limit_rate_over; then_drop])].

Definition syn_meter_patterns : list regex :=
  [cat [IPV6_PREFIX64_SELECTOR_PATTERN; ws1; lit (u "timeout"); ws1; nonspace1; ws1; limit_rate_over];
   cat [IPV6_PREFIX64_SELECTOR_PATTERN; ws1; limit_rate_over]].

Definition ct_count_over : regex := words [u "ct"; u "count"; u "over"].

Definition prefix_connlimit_pattern : regex :=
  cat [Bound; words [u "add"; u "@tcp6_connlimit"]; ws0; lit (u "{"); ws0; IPV6_PREFIX64_SELECTOR_PATTERN; ws1; ct_count_over; Bound].

Definition syn_meter_match_pattern : regex :=
  cat [IPV6_TCP_L4PROTO_PATTERN; any_star; Bound; Alt (Seq (lit (u "meter")) ws1) (cat [lit (u "update"); ws1; lit (u "@")]);
       lit (u "tcp6_syn_rate"); Bound].

Definition connlimit_match_pattern : regex :=
  cat [IPV6_TCP_L4PROTO_PATTERN; any_star; Bound; words [u "add"; u "@tcp6_connlimit"]; Bound].

(** An accept rule for a set of ICMP types; the group is the text between the braces. *)
Definition icmp_accept_pattern (proto : regex) (name : pystr) : regex :=
  cat [proto; ws1; words [name; u "type"]; ws1; lit (u "{"); Group not_brace; lit (u "}"); ws1; lit (u "accept"); Bound].

Definition icmp_drop_pattern (proto : regex) : regex := cat [proto; ws1; limit_rate_over; then_drop].

Definition connlimit_threshold_pattern (set_name : pystr) : regex :=
  cat [Bound; lit (u "add"); ws1; lit (u "@"); lit set_name; ws0; lit (u "{"); not_brace; Bound; ct_count_over; ws1;
       Group digits1; Bound].

(** ** The chains *)

Definition is_some {A} (o : option A) : bool := match o with Some _ => true | None => false end.

(** [if not path.exists(): return []], then the checks of the file's text. *)
Definition on_template (w : edge_world) (p : pystr) (check : pystr -> list pystr) : res (list pystr) :=
  if negb (exists_file w p) then Ok [] else let* raw := read_text w p in Ok (check raw).

Definition require (r : regex) (text : pystr) (message : pystr) : list pystr := if found r text then [] else [message].

Definition udp_drop_errors (p raw : pystr) : list pystr :=
  match named_block raw (u "chain preraw") with
  | None => [u "missing preraw chain with protected-port UDP drop in " ++ p]
  | Some preraw =>
      require udp_drop_pattern (compact_rule_text preraw)
        (u "missing raw UDP drop for protected TCP service ports: expected `meta l4proto udp udp dport @protected_tcp_ports drop` in chain preraw")
  end.

Definition validate_udp_protected_port_drop (w : edge_world) (p : pystr) : res (list pystr) :=
  on_template w p (udp_drop_errors p).

Definition generic_rule_errors (compact : pystr) (item : pystr * regex) : list pystr :=
  require (cat [GENERIC_TCP_L4PROTO_PATTERN; ws1; item.2]) compact
    (u "missing generic TCP extension-safe " ++ item.1 ++ u ": expected `meta l4proto tcp` before protected-port TCP match").

Definition generic_tcp_errors (p raw : pystr) : list pystr :=
  match named_block raw (u "chain preraw") with
  | None => [u "missing preraw chain with generic TCP backstops in " ++ p]
  | Some preraw => mjoin (generic_rule_errors (compact_rule_text preraw) <$> required_preraw)
  end ++
  match named_block raw (u "chain input") with
  | None => [u "missing input chain with generic TCP backstops in " ++ p]
  | Some input => mjoin (generic_rule_errors (compact_rule_text input) <$> required_input)
  end.

Definition validate_generic_tcp_backstop_protocol_matches (w : edge_world) (p : pystr) : res (list pystr) :=
  on_template w p (generic_tcp_errors p).

Definition ipv6_prefix_errors (p raw : pystr) : list pystr :=
  match named_block raw (u "chain preraw") with
  | None => [u "missing preraw chain with IPv6 /64 SYN backstop in " ++ p]
  | Some preraw =>
      let good := match named_block preraw (u "tcp6_syn_rate") with
                  | Some meter => existsb (fun r => found r (compact_rule_text meter)) syn_meter_patterns
                  | None => false
                  end in
      if good then []
      else [u "missing IPv6 /64 SYN backstop: expected `ip6 saddr and ffff:ffff:ffff:ffff:: . tcp dport` inside tcp6_syn_rate"]
  end ++
  match named_block raw (u "chain input") with
  | None => [u "missing input chain with IPv6 /64 connection-count backstop in " ++ p]
  | Some input =>
      require prefix_connlimit_pattern (compact_rule_text input)
        (u "missing IPv6 /64 connection-count backstop: expected `ip6 saddr and ffff:ffff:ffff:ffff:: . tcp dport ct count over ...` in chain input")
  end.

Definition validate_ipv6_prefix_backstops (w : edge_world) (p : pystr) : res (list pystr) :=
  on_template w p (ipv6_prefix_errors p).

Definition ipv6_extension_errors (p raw : pystr) : list pystr :=
  match named_block raw (u "chain preraw") with
  | None => [u "missing preraw chain with IPv6 extension-safe SYN backstop in " ++ p]
  | Some preraw =>
      require syn_meter_match_pattern (compact_rule_text preraw)
        (u "missing IPv6 extension-safe SYN protocol match: expected `meta nfproto ipv6 meta l4proto tcp` before meter tcp6_syn_rate")
  end ++
  match named_block raw (u "chain input") with
  | None => [u "missing input chain with IPv6 extension-safe connection backstops in " ++ p]
  | Some input =>
      let compact := compact_rule_text input in
      require connlimit_match_pattern compact
        (u "missing IPv6 extension-safe connection-count protocol match: expected `meta nfproto ipv6 meta l4proto tcp` before add @tcp6_connlimit") ++
      require (cat [IPV6_ICMP_L4PROTO_PATTERN; ws1; limit_rate_over]) compact
        (u "missing IPv6 extension-safe ICMPv6 flood protocol match: expected `meta nfproto ipv6 meta l4proto ipv6-icmp`")
  end.

Definition validate_ipv6_extension_safe_protocol_matches (w : edge_world) (p : pystr) : res (list pystr) :=
  on_template w p (ipv6_extension_errors p).

(** ** ICMP control exemptions *)

Definition REQUIRED_ICMPV4_CONTROL_TYPES : list pystr :=
  [u "destination-unreachable"; u "time-exceeded"; u "parameter-problem"].

Definition REQUIRED_ICMPV6_CONTROL_TYPES : list pystr :=
  [u "destination-unreachable"; u "packet-too-big"; u "time-exceeded"; u "parameter-problem"; u "nd-router-solicit";
   u "nd-router-advert"; u "nd-neighbor-solicit"; u "nd-neighbor-advert"].

(** [{item.strip() for item in text.split(sep) if item.strip()}] as a list. *)
Definition items_of (sep : N -> bool) (text : pystr) : list pystr :=
  filter (fun x => x <> []) (strip <$> split_on 44 ((fun c => if sep c then 44%N else c) <$> text)).

(** What differs between the two exemptions. *)
Record icmp_family := IcmpFamily {
  if_name : pystr;
  if_proto : regex;
  if_type : pystr;
  if_expected : pystr;
  if_required : list pystr }.

Definition icmpv4 : icmp_family :=
  IcmpFamily (u "ICMPv4") IPV4_ICMP_PROTOCOL_PATTERN (u "icmp") (u "`ip protocol icmp icmp type { ... } accept`")
    REQUIRED_ICMPV4_CONTROL_TYPES.
Definition icmpv6 : icmp_family :=
  IcmpFamily (u "ICMPv6") IPV6_ICMP_L4PROTO_PATTERN (u "icmpv6")
    (u "`meta nfproto ipv6 meta l4proto ipv6-icmp icmpv6 type { ... } accept`") REQUIRED_ICMPV6_CONTROL_TYPES.

Definition icmp_rule_errors (f : icmp_family) (compact : pystr) : list pystr :=
  match search (icmp_accept_pattern (if_proto f) (if_type f)) compact with
  | None => [u "missing " ++ if_name f ++ u " control exemption before flood backstop: expected " ++ if_expected f]
  | Some accept_match =>
      let configured := items_of (chr_is 44%N) (match_group accept_match) in
      missing_message (if_name f ++ u " control exemption is missing required types: ")
        (py_sorted str_leb (filter (fun t => in_list t configured = false) (if_required f))) ++
      match search (icmp_drop_pattern (if_proto f)) compact with
      | None => [u "missing generic " ++ if_name f ++ u " flood drop after control exemption"]
      | Some drop_match =>
          if match_start drop_match <? match_start accept_match
          then [if_name f ++ u " control exemption must appear before generic " ++ if_name f ++ u " flood drop"] else []
      end
  end.

Definition icmp_errors (f : icmp_family) (p raw : pystr) : list pystr :=
  match named_block raw (u "chain input") with
  | None => [u "missing input chain with " ++ if_name f ++ u " control exemption in " ++ p]
  | Some input => icmp_rule_errors f (compact_rule_text input)
  end.

Definition validate_icmpv4_control_exemption (w : edge_world) (p : pystr) : res (list pystr) :=
  on_template w p (icmp_errors icmpv4 p).
Definition validate_icmpv6_control_exemption (w : edge_world) (p : pystr) : res (list pystr) :=
  on_template w p (icmp_errors icmpv6 p).

(** ** Bounds of dynamic sets *)

Definition MAX_CONNLIMIT_SET_SIZE : Z := 1048576.
Definition MAX_SYN_RATE_SET_SIZE : Z := 1048576.
Definition MAX_SYN_RATE_SET_TIMEOUT_SECONDS : Z := 60.

Definition set_flags (block : pystr) : list pystr :=
  items_of (fun c => (c =? 44)%N || (c =? 32)%N) (default [] (nft_directive block (u "flags"))).

(** The size of a set; [what] names it in messages. *)
Definition set_size_errors (what block : pystr) (limit : Z) : res (list pystr) :=
  match nft_directive block (u "size") with
  | Some size_text =>
      if negb (str_isdigit size_text) then Ok [what ++ u " must define an explicit positive size"]
      else
        let* size := int_of_str (repr_str size_text) size_text in
        Ok (if (size <=? 0)%Z then [what ++ u " size must be greater than zero"]
            else if (limit <? size)%Z then [what ++ u " size " ++ dec_Z size ++ u " exceeds " ++ dec_Z limit] else [])
  | None => Ok [what ++ u " must define an explicit positive size"]
  end.

Definition connlimit_set_errors (raw set_name : pystr) : res (list pystr) :=
  match nft_set_block raw set_name with
  | None => Ok [u "missing nftables connlimit set: " ++ set_name]
  | Some block =>
      let what := u "connlimit set " ++ set_name in
      let* size := set_size_errors what block MAX_CONNLIMIT_SET_SIZE in
      Ok ((if in_list (u "dynamic") (set_flags block) then [] else [what ++ u " must use flags dynamic"]) ++ size)
  end.

Definition CONNLIMIT_SETS : list pystr := [u "tcp4_connlimit"; u "tcp6_connlimit"].
Definition SYN_RATE_SETS : list pystr := [u "tcp4_syn_rate"; u "tcp6_syn_rate"].

Definition validate_connlimit_set_sizes (w : edge_world) (p : pystr) : res (list pystr) :=
  if negb (exists_file w p) then Ok []
  else let* raw := read_text w p in
       let* es := mapR (connlimit_set_errors raw) CONNLIMIT_SETS in Ok (mjoin es).

Definition threshold_errors (compact : pystr) (max_allowed : Z) (set_name : pystr) : res (list pystr) :=
  match search (connlimit_threshold_pattern set_name) compact with
  | None => Ok [u "missing protected-port connection-count rule for " ++ set_name]
  | Some m =>
      let* threshold := int_of_str (repr_str (match_group m)) (match_group m) in
      Ok (if (max_allowed <? threshold)%Z
          then [set_name ++ u " ct count over " ++ dec_Z threshold ++
                u " exceeds tightest public userspace per-IP connection cap " ++ dec_Z max_allowed]
          else [])
  end.

Definition validate_connlimit_thresholds (w : edge_world) (p : pystr) (config : option pystr) : res (list pystr) :=
  if negb (exists_file w p) then Ok []
  else
    let* '(max_allowed, cap_errors) := protected_port_connlimit_ceiling w config in
    match cap_errors with
    | _ :: _ => Ok cap_errors
    | [] =>
        let* raw := read_text w p in
        match named_block raw (u "chain input") with
        | None => Ok [u "missing input chain with protected-port connlimit rules in " ++ p]
        | Some input => let* es := mapR (threshold_errors (compact_rule_text input) max_allowed) CONNLIMIT_SETS in Ok (mjoin es)
        end
    end.

Definition nft_duration_seconds (value unit : pystr) : res Z :=
  match dget unit [([], 1%Z); (u "s", 1%Z); (u "m", 60%Z); (u "h", 3600%Z); (u "d", 86400%Z)] with
  | None => value_error (u "unsupported nft duration unit: " ++ unit)
  | Some scale => let* n := int_of_str (repr_str value) value in Ok (n * scale)%Z
  end.

(** [re.fullmatch] of digits and at most one of the letters s, m, h, d. *)
Definition nft_timeout (text : pystr) : option (pystr * pystr) :=
  match split_number text with
  | ((_ :: _) as value, []) => Some (value, [])
  | ((_ :: _) as value, [c]) => if has_char c (u "smhd") then Some (value, [c]) else None
  | _ => None
  end.

Definition syn_timeout_errors (what block : pystr) : res (list pystr) :=
  match nft_timeout (default [] (nft_directive block (u "timeout"))) with
  | None => Ok [what ++ u " must define a positive timeout"]
  | Some (value, unit) =>
      let* seconds := nft_duration_seconds value unit in
      Ok (if (seconds <=? 0)%Z then [what ++ u " timeout must be greater than zero"]
          else if (MAX_SYN_RATE_SET_TIMEOUT_SECONDS <? seconds)%Z
               then [what ++ u " timeout " ++ dec_Z seconds ++ u "s exceeds " ++ dec_Z MAX_SYN_RATE_SET_TIMEOUT_SECONDS ++ u "s"]
               else [])
  end.

Definition syn_rate_set_errors (raw set_name : pystr) : res (list pystr) :=
  match nft_set_block raw set_name with
  | None => Ok [u "missing nftables SYN rate set: " ++ set_name]
  | Some block =>
      let what := u "SYN rate set " ++ set_name in
      let flags := set_flags block in
      let* size := set_size_errors what block MAX_SYN_RATE_SET_SIZE in
      let* timeout := syn_timeout_errors what block in
      Ok ((if in_list (u "dynamic") flags then [] else [what ++ u " must use flags dynamic"]) ++
          (if in_list (u "timeout") flags then [] else [what ++ u " must use flags timeout"]) ++ size ++ timeout)
  end.

Definition validate_syn_rate_set_bounds (w : edge_world) (p : pystr) : res (list pystr) :=
  if negb (exists_file w p) then Ok []
  else let* raw := read_text w p in
       let* es := mapR (syn_rate_set_errors raw) SYN_RATE_SETS in Ok (mjoin es).

(** ** Kernel-backed syntax check *)

Definition validate_nft (w : edge_world) (p : pystr) (skip_syntax_check : bool) : list pystr :=
  if negb (exists_file w p) then [u "missing nftables template: " ++ p]
  else if skip_syntax_check then [u "nftables syntax check skipped by request"]
  else match ew_which w (u "nft") with
       | None => [u "nft not found; skipped nftables syntax check"]
       | Some nft =>
           let '(status, out, err) := ew_run w [nft; u "-c"; u "-f"; p] in
           if (status =? 0)%Z then []
           else [u "nftables syntax check failed for " ++ p ++ u ": " ++ strip (match err with [] => out | _ => err end)]
       end.
