(* ===== verification/EdgeTemplates.v ===== *)
(** * EdgeTemplates: the templates the repository ships

    The nftables, sysctl and systemd templates and the example configuration, line by
    line, as the inputs on which the validator of [EdgeMain] is evaluated. *)

From S2P Require Import Prelude PyStr.

(** Lines, each ended by a newline. *)
Definition text_of_lines (lines : list pystr) : pystr := mjoin ((fun l => l ++ [10%N]) <$> lines).

(** [ops/nftables/altura-prot-edge.nft] *)
Definition shipped_nft : pystr :=
  text_of_lines [
    u "#!/usr/sbin/nft -f";
    u "# AlturaProt host-edge nftables template.";
    u "# Validate with: nft -c -f ops/nftables/altura-prot-edge.nft";
    u "# Install only after adjusting protected_tcp_ports and management allow rules.";
    u "";
    u "destroy table inet altura_prot_edge";
    u "";
    u "table inet altura_prot_edge {";
    u "  set protected_tcp_ports {";
    u "    type inet_service";
    u "    elements = { 80, 443, 8080 }";
    u "  }";
    u "";
    u "  set tcp4_connlimit {";
    u "    type ipv4_addr . inet_service";
    u "    size 65535";
    u "    flags dynamic";
    u "  }";
    u "";
    u "  set tcp6_connlimit {";
    u "    type ipv6_addr . inet_service";
    u "    size 65535";
    u "    flags dynamic";
    u "  }";
    u "";
    u "  set tcp4_syn_rate {";
    u "    type ipv4_addr . inet_service";
    u "    size 65535";
    u "    flags dynamic,timeout";
    u "    timeout 10s";
    u "  }";
    u "";
    u "  set tcp6_syn_rate {";
    u "    type ipv6_addr . inet_service";
    u "    size 65535";
    u "    flags dynamic,timeout";
    u "    timeout 10s";
    u "  }";
    u "";
    u "  chain preraw {";
    u "    type filter hook prerouting priority raw; policy accept;";
    u "";
    uq "    # Drop impossible 'new connection' flag combinations before conntrack.";
    u "    meta l4proto tcp tcp dport @protected_tcp_ports tcp flags & (fin|syn|rst|ack) == 0 drop";
    u "    meta l4proto tcp tcp dport @protected_tcp_ports tcp flags & (fin|syn|rst|psh|ack|urg) == fin|psh|urg drop";
    u "";
    u "    # AlturaProt protects TCP listeners. Drop UDP directed at those service";
    u "    # ports before conntrack; remove or narrow this if the same host also serves";
    u "    # UDP/QUIC on one of these ports. Use meta l4proto so IPv6 extension";
    u "    # headers cannot bypass the protected-port UDP drop.";
    u "    meta l4proto udp udp dport @protected_tcp_ports drop";
    u "";
    u "    # Pre-conntrack SYN backstop. This protects conntrack and accept queues";
    u "    # from small-to-medium host-visible floods; provider scrubbing is still";
    u "    # required when the link itself is saturated. IPv6 is keyed by /64 to match";
    u "    # AlturaProt's default client-prefix buckets and avoid privacy-address";
    u "    # rotation bypassing the host-edge per-source backstop. Use meta l4proto on";
    u "    # IPv6 so extension headers do not bypass protected-port TCP backstops.";
    u "    ip protocol tcp tcp dport @protected_tcp_ports tcp flags & (fin|syn|rst|ack) == syn update @tcp4_syn_rate { ip saddr . tcp dport limit rate over 200/second burst 400 packets } drop";
    u "    meta nfproto ipv6 meta l4proto tcp tcp dport @protected_tcp_ports tcp flags & (fin|syn|rst|ack) == syn update @tcp6_syn_rate { ip6 saddr and ffff:ffff:ffff:ffff:: . tcp dport limit rate over 200/second burst 400 packets } drop";
    u "    meta l4proto tcp tcp dport @protected_tcp_ports tcp flags & (fin|syn|rst|ack) == syn limit rate over 5000/second burst 10000 packets drop";
    u "  }";
    u "";
    u "  chain input {";
    u "    type filter hook input priority filter; policy accept;";
    u "";
    u "    ct state invalid drop";
    u "";
    u "    # After conntrack, reject packets that claim to open a protected TCP";
    u "    # service without being a clean SYN.";
    u "    meta l4proto tcp tcp dport @protected_tcp_ports ct state new tcp flags & (fin|syn|rst|ack) != syn drop";
    u "";
    u "    # Per-source established/new connection cap for protected ports. This is a";
    u "    # coarse host backstop; AlturaProt still performs request-aware limits.";
    u "    ip protocol tcp tcp dport @protected_tcp_ports ct state new add @tcp4_connlimit { ip saddr . tcp dport ct count over 128 } drop";
    u "    meta nfproto ipv6 meta l4proto tcp tcp dport @protected_tcp_ports ct state new add @tcp6_connlimit { ip6 saddr and ffff:ffff:ffff:ffff:: . tcp dport ct count over 128 } drop";
    u "";
    u "    # Coarse host-level backstop for connection storms. AlturaProt still performs";
    u "    # request-aware L7 filtering after packets pass this layer.";
    u "    meta l4proto tcp tcp dport @protected_tcp_ports ct state new limit rate over 5000/second burst 10000 packets drop";
    u "";
    u "    # Keep basic ICMP usable while dropping obvious local floods. IPv4 and IPv6";
    u "    # need core ICMP control messages for Path MTU Discovery; IPv6 also needs";
    u "    # Neighbor Discovery, so exempt those before the generic flood backstops.";
    u "    ip protocol icmp icmp type { destination-unreachable, time-exceeded, parameter-problem } accept";
    u "    ip protocol icmp limit rate over 100/second burst 200 packets drop";
    u "    meta nfproto ipv6 meta l4proto ipv6-icmp icmpv6 type { destination-unreachable, packet-too-big, time-exceeded, parameter-problem, nd-router-solicit, nd-router-advert, nd-neighbor-solicit, nd-neighbor-advert } accept";
    u "    meta nfproto ipv6 meta l4proto ipv6-icmp limit rate over 100/second burst 200 packets drop";
    u "  }";
    u "}"].

(** [ops/sysctl.d/99-altura-prot-ddos.conf] *)
Definition shipped_sysctl : pystr :=
  text_of_lines [
    u "# AlturaProt host-edge TCP hardening template.";
    u "# Review before installing under /etc/sysctl.d/ and apply with: sysctl --system";
    u "";
    u "# Keep SYN floods from consuming connection state as easily.";
    u "net.ipv4.tcp_syncookies = 1";
    u "net.ipv4.tcp_max_syn_backlog = 16384";
    u "net.ipv4.tcp_synack_retries = 3";
    u "";
    u "# Allow larger accept queues for short bursts. Keep this above configured";
    u "# http.listen_backlog and tcp[].listen_backlog values.";
    u "net.core.somaxconn = 65535";
    u "";
    u "# Allow the kernel to queue more packets during short host-visible bursts before";
    u "# userspace accepts them. Size this with NIC rate, CPU, and RAM in mind.";
    u "net.core.netdev_max_backlog = 250000";
    u "";
    u "# Reclaim dead TCP state faster during floods.";
    u "net.ipv4.tcp_fin_timeout = 15";
    u "";
    u "# Increase conntrack capacity for hosts that route traffic through nftables";
    u "# conntrack. Size this for RAM and real traffic; do not blindly apply on small VMs.";
    u "net.netfilter.nf_conntrack_max = 1048576";
    u "";
    u "# Reclaim half-open tracked TCP handshakes faster when protected ports are under";
    u "# SYN pressure. Do not set below expected high-latency client handshake times.";
    u "net.netfilter.nf_conntrack_tcp_timeout_syn_recv = 30";
    u "";
    u "# Bound incomplete IP fragment queues so fragment floods cannot pin kernel";
    u "# reassembly memory for long periods before AlturaProt can classify traffic.";
    u "# Modern TCP services should rely on MSS/PMTUD instead of IP fragmentation.";
    u "net.ipv4.ipfrag_high_thresh = 4194304";
    u "net.ipv4.ipfrag_time = 15";
    u "net.ipv4.ipfrag_max_dist = 64";
    u "net.ipv6.ip6frag_high_thresh = 4194304";
    u "net.ipv6.ip6frag_low_thresh = 3145728";
    u "net.ipv6.ip6frag_time = 15";
    u "";
    u "# Reverse path filtering can reduce spoofed-source traffic on simple single-homed";
    u "# hosts. Do not enable strict rp_filter on asymmetric routing, tunnels, or BGP";
    u "# edge hosts without validating return paths.";
    u "# net.ipv4.conf.all.rp_filter = 1";
    u "# net.ipv4.conf.default.rp_filter = 1"].

(** [ops/systemd/altura-prot.service] *)
Definition shipped_unit : pystr :=
  text_of_lines [
    u "[Unit]";
    u "Description=AlturaProt L7 DDoS protection proxy";
    u "Documentation=https://github.com/CuriosityOS/AlturaProt";
    u "Wants=network-online.target";
    u "After=network-online.target";
    u "StartLimitIntervalSec=60";
    u "StartLimitBurst=5";
    u "";
    u "[Service]";
    u "Type=simple";
    u "User=altura-prot";
    u "Group=altura-prot";
    u "WorkingDirectory=/var/lib/altura-prot";
    u "ExecStart=/usr/local/bin/altura-prot run --config /etc/altura-prot/config.json";
    u "Restart=on-failure";
    u "RestartSec=2s";
    u "TimeoutStopSec=15s";
    u "LimitNOFILE=1048576";
    u "TasksMax=32768";
    u "MemoryAccounting=true";
    u "MemoryHigh=2G";
    u "MemoryMax=3G";
    u "ConfigurationDirectory=altura-prot";
    u "StateDirectory=altura-prot";
    u "LogsDirectory=altura-prot";
    u "ReadWritePaths=/var/lib/altura-prot /var/log/altura-prot";
    u "AmbientCapabilities=CAP_NET_BIND_SERVICE";
    u "CapabilityBoundingSet=CAP_NET_BIND_SERVICE";
    u "NoNewPrivileges=true";
    u "PrivateTmp=true";
    u "PrivateDevices=true";
    u "ProtectSystem=strict";
    u "ProtectHome=true";
    u "ProtectKernelTunables=true";
    u "ProtectKernelModules=true";
    u "ProtectControlGroups=true";
    u "RestrictAddressFamilies=AF_UNIX AF_INET AF_INET6";
    u "RestrictNamespaces=true";
    u "RestrictRealtime=true";
    u "RestrictSUIDSGID=true";
    u "LockPersonality=true";
    u "MemoryDenyWriteExecute=true";
    u "SystemCallArchitectures=native";
    u "";
    u "[Install]";
    u "WantedBy=multi-user.target"].

(** [configs/example.json] *)
Definition shipped_config : pystr :=
  text_of_lines [
    u "{";
    uq "  'runtime': {";
    uq "    'min_nofile': 65536,";
    uq "    'shutdown_grace_ms': 2000";
    u "  },";
    uq "  'http': {";
    uq "    'listen': '127.0.0.1:8080',";
    uq "    'upstream': 'http://127.0.0.1:9000',";
    uq "    'preserve_host': true,";
    uq "    'admin_token': 'change-me',";
    uq "    'allowed_methods': ['GET', 'HEAD', 'POST', 'PUT', 'PATCH', 'DELETE', 'OPTIONS'],";
    uq "    'require_host_header': true,";
    uq "    'max_host_bytes': 255,";
    uq "    'allowed_hosts': [],";
    uq "    'listen_backlog': 4096,";
    uq "    'accept_shards': 4,";
    uq "    'max_header_bytes': 32768,";
    uq "    'max_header_line_bytes': 8192,";
    uq "    'max_headers': 100,";
    uq "    'max_uri_bytes': 8192,";
    uq "    'max_query_bytes': 4096,";
    uq "    'max_query_pairs': 128,";
    uq "    'max_path_segments': 64,";
    uq "    'header_read_timeout_ms': 5000,";
    uq "    'downstream_keep_alive': false,";
    uq "    'downstream_write_timeout_ms': 15000,";
    uq "    'upstream_timeout_ms': 15000,";
    uq "    'upstream_connect_timeout_ms': 1000,";
    uq "    'upstream_failure_threshold': 8,";
    uq "    'upstream_failure_open_ms': 1000,";
    uq "    'upstream_pool_idle_timeout_ms': 30000,";
    uq "    'upstream_pool_max_idle_per_host': 256,";
    uq "    'upstream_max_header_bytes': 32768,";
    uq "    'upstream_max_header_line_bytes': 8192,";
    uq "    'upstream_max_headers': 100,";
    uq "    'upstream_body_idle_timeout_ms': 15000,";
    uq "    'max_upstream_body_bytes': 104857600,";
    uq "    'upstream_body_min_rate_bytes_per_second': 512,";
    uq "    'upstream_body_min_rate_grace_ms': 10000,";
    uq "    'max_connection_duration_seconds': 120,";
    uq "    'max_requests_per_connection': 1000,";
    uq "    'max_body_bytes': 10485760,";
    uq "    'request_body_idle_timeout_ms': 10000,";
    uq "    'request_body_min_rate_bytes_per_second': 512,";
    uq "    'request_body_min_rate_grace_ms': 10000,";
    uq "    'allow_compressed_request_bodies': false,";
    uq "    'allow_chunked_request_bodies': false,";
    uq "    'allow_expect_continue': false,";
    uq "    'max_ranges': 1,";
    uq "    'forward_accept_encoding': false,";
    uq "    'forward_request_trailers': false,";
    uq "    'max_trailer_bytes': 8192,";
    uq "    'max_trailers': 32,";
    uq "    'forward_response_trailers': false,";
    uq "    'upstream_max_trailer_bytes': 8192,";
    uq "    'upstream_max_trailers': 32,";
    uq "    'client_ip': {";
    uq "      'header': 'x-forwarded-for',";
    uq "      'trusted_proxies': [],";
    uq "      'max_forwarded_for_bytes': 1024,";
    uq "      'max_forwarded_for_hops': 32";
    u "    },";
    uq "    'limits': {";
    uq "      'per_ip_rps': 250,";
    uq "      'per_ip_burst': 500,";
    uq "      'ipv4_prefix_len': 32,";
    uq "      'ipv6_prefix_len': 64,";
    uq "      'global_rps': 20000,";
    uq "      'global_burst': 40000,";
    uq "      'trusted_proxy_rps': 5000,";
    uq "      'trusted_proxy_burst': 10000,";
    uq "      'trusted_proxy_max_in_flight_requests': 4096,";
    uq "      'signature_rps': 5000,";
    uq "      'signature_burst': 10000,";
    uq "      'max_tracked_signatures': 8192,";
    uq "      'path_shape_rps': 10000,";
    uq "      'path_shape_burst': 20000,";
    uq "      'max_tracked_path_shapes': 4096,";
    uq "      'per_ip_connects_per_second': 100,";
    uq "      'per_ip_connect_burst': 200,";
    uq "      'global_connects_per_second': 20000,";
    uq "      'global_connect_burst': 40000,";
    uq "      'max_connections': 10000,";
    uq "      'max_connections_per_ip': 1024,";
    uq "      'max_in_flight_requests': 8192,";
    uq "      'max_in_flight_requests_per_ip': 512,";
    uq "      'max_tracked_ips': 65536";
    u "    }";
    u "  },";
    uq "  'tcp': [";
    u "    {";
    uq "      'name': 'local-echo',";
    uq "      'listen': '127.0.0.1:7000',";
    uq "      'upstream': '127.0.0.1:7001',";
    uq "      'listen_backlog': 4096,";
    uq "      'accept_shards': 4,";
    uq "      'connect_timeout_ms': 1000,";
    uq "      'idle_timeout_seconds': 60,";
    uq "      'downstream_min_rate_bytes_per_second': 512,";
    uq "      'upstream_min_rate_bytes_per_second': 512,";
    uq "      'min_rate_grace_ms': 10000,";
    uq "      'max_connection_duration_seconds': 300,";
    uq "      'limits': {";
    uq "        'per_ip_connects_per_second': 50,";
    uq "        'per_ip_connect_burst': 100,";
    uq "        'ipv4_prefix_len': 32,";
    uq "        'ipv6_prefix_len': 64,";
    uq "        'global_connects_per_second': 20000,";
    uq "        'global_connect_burst': 40000,";
    uq "        'max_connections': 10000,";
    uq "        'max_connections_per_ip': 128,";
    uq "        'max_tracked_ips': 65536";
    u "      }";
    u "    }";
    u "  ],";
    uq "  'filters': {";
    uq "    'runtime_file': 'runtime/filters.json',";
    uq "    'reload_seconds': 2,";
    uq "    'max_runtime_file_bytes': 1048576,";
    uq "    'max_runtime_filters': 1024,";
    uq "    'max_static_filters': 1024,";
    uq "    'static_rules': [";
    u "      {";
    uq "        'id': 'block-common-wordpress-login-probes',";
    uq "        'enabled': true,";
    uq "        'priority': 10,";
    uq "        'condition': {";
    uq "          'path_exact': '/wp-login.php'";
    u "        },";
    uq "        'action': {";
    uq "          'kind': 'block',";
    uq "          'status': 403,";
    uq "          'body': 'blocked\n'";
    u "        }";
    u "      }";
    u "    ]";
    u "  },";
    uq "  'adaptive': {";
    uq "    'enabled': true,";
    uq "    'signature_threshold_per_second': 300,";
    uq "    'activation_ttl_seconds': 60,";
    uq "    'event_log': 'runtime/attack_events.jsonl',";
    uq "    'event_log_flush_interval_ms': 100,";
    uq "    'event_log_max_bytes': 67108864,";
    uq "    'event_log_backup_count': 2,";
    uq "    'event_log_queue_capacity': 4096,";
    uq "    'event_cooldown_seconds': 5,";
    uq "    'max_signature_windows': 8192,";
    uq "    'max_path_shape_windows': 8192";
    u "  }";
    u "}"].
