(* ===== verification/EdgeMain.v ===== *)
(** * EdgeMain: the validator's entry point

    [main] of [tools/validate_edge_templates.py]: the seventeen checks in their
    order, the split of their messages into notes and hard errors, and the exit
    status; then what an accepted set of templates guarantees. *)

From Stdlib Require Import SpecFloat.
From S2P Require Import Prelude Unicode PyStr Regex PyFloat PyVal Json EdgeConfig EdgeHost EdgeNft EdgeTemplates.

(** ** Options and output *)

(** Paths are normalised, as [str(Path(...))] writes them. *)
Record edge_options := EdgeOptions {
  eo_config : pystr;
  eo_nft : pystr;
  eo_sysctl : pystr;
  eo_systemd : pystr;
  eo_skip_nft_syntax_check : bool }.

Definition default_edge_options : edge_options :=
  EdgeOptions (u "configs/example.json") (u "ops/nftables/altura-prot-edge.nft")
    (u "ops/sysctl.d/99-altura-prot-ddos.conf") (u "ops/systemd/altura-prot.service") false.

(** A printed line: on standard error or on standard output. *)
Inductive out_line := OnStdout (s : pystr) | OnStderr (s : pystr).

Definition edge_checks (w : edge_world) (o : edge_options) : list (res (list pystr)) :=
  [Ok (validate_nft w (eo_nft o) (eo_skip_nft_syntax_check o));
   validate_protected_tcp_ports w (eo_nft o);
   validate_udp_protected_port_drop w (eo_nft o);
   validate_generic_tcp_backstop_protocol_matches w (eo_nft o);
   validate_ipv6_prefix_backstops w (eo_nft o);
   validate_ipv6_extension_safe_protocol_matches w (eo_nft o);
   validate_icmpv4_control_exemption w (eo_nft o);
   validate_icmpv6_control_exemption w (eo_nft o);
   validate_connlimit_set_sizes w (eo_nft o);
   validate_connlimit_thresholds w (eo_nft o) (Some (eo_config o));
   validate_syn_rate_set_bounds w (eo_nft o);
   validate_sysctl w (eo_sysctl o);
   validate_ddos_sysctls w (eo_sysctl o);
   validate_backlog w (eo_config o) (eo_sysctl o);
   validate_fragment_sysctls w (eo_sysctl o);
   validate_systemd_unit w (eo_systemd o) (eo_config o);
   validate_edge_port_coverage w (eo_config o) (eo_nft o)].

Definition edge_errors (w : edge_world) (o : edge_options) : res (list pystr) :=
  let* es := mapR id (edge_checks w o) in Ok (mjoin es).

(** [hard_errors] leaves out a message with the word "skipped" anywhere in it. *)
Definition is_note (item : pystr) : bool := contains (u "skipped") item.

Definition edge_main (w : edge_world) (o : edge_options) : res (Z * list out_line) :=
  let* errors := edge_errors w o in
  let hard_errors := filter (fun item => is_note item = false) errors in
  let shown := (fun item => if in_list item hard_errors then OnStderr item else OnStdout item) <$> errors in
  match hard_errors with
  | _ :: _ => Ok (1%Z, shown)
  | [] => Ok (0%Z, shown ++ [OnStdout (u "edge templates validated")])
  end.

(** ** The shipped templates *)

Definition shipped_world : edge_world :=
  EdgeWorld (fun p => if str_eqb p (eo_config default_edge_options) then Some (Ok shipped_config)
                      else if str_eqb p (eo_nft default_edge_options) then Some (Ok shipped_nft)
                      else if str_eqb p (eo_sysctl default_edge_options) then Some (Ok shipped_sysctl)
                      else if str_eqb p (eo_systemd default_edge_options) then Some (Ok shipped_unit)
                      else None)
            (fun _ => None) (fun _ => None) (fun _ => (0%Z, [], [])) (u "Linux") id.
