(* ===== verification/EdgeGuards.v ===== *)
(** * EdgeGuards: what accepted host templates guarantee

    Theorems on [EdgeConfig], [EdgeHost], [EdgeNft] and [EdgeMain]: the meaning of an
    empty list of messages for each check of [tools/validate_edge_templates.py], and
    the meaning of exit status 0. *)

From Stdlib Require Import SpecFloat.
From S2P Require Import Prelude Unicode PyStr Regex PyFloat PyVal Json EdgeConfig EdgeHost EdgeNft EdgeTemplates EdgeMain.

(** ** Collecting messages *)

Lemma mjoin_empty {A} (l : list (list A)) : mjoin l = [] <-> Forall (fun x => x = []) l.
Proof.
  induction l as [|x l IH]; [split; constructor|].
  change (mjoin (x :: l)) with (x ++ mjoin l). rewrite Forall_cons, <-IH. split; [intros [-> ?]%app_nil; done|]. by intros [-> ->].
Qed.

Lemma concat_silent {A B} (f : A -> list B) l : mjoin (f <$> l) = [] <-> forall x, x ∈ l -> f x = [].
Proof. by rewrite mjoin_empty, Forall_fmap, Forall_forall. Qed.

(** A loop of checks is silent when each of them is. *)
Lemma mapR_silent {A B} (f : A -> res (list B)) l :
  (let* es := mapR f l in Ok (mjoin es)) = Ok [] <-> forall x, x ∈ l -> f x = Ok [].
Proof.
  rewrite bind_ok. split.
  - intros (es & H%mapR_ok & Hes%Ok_inj%mjoin_empty) x Hx.
    revert Hes Hx. induction H as [|y e l es Hy _ IH]; [by intros _ ?%not_elem_of_nil|].
    intros [-> ?]%Forall_cons [->|Hx]%elem_of_cons; auto.
  - intros H. exists ((fun _ => [] : list B) <$> l). split.
    + apply mapR_ok. induction l as [|x l IH]; cbn; constructor; [apply H; apply elem_of_cons; by left|].
      apply IH. intros y Hy. apply H. apply elem_of_cons. by right.
    + f_equal. apply mjoin_empty, Forall_fmap, Forall_true. done.
Qed.

Lemma message_nil (b : bool) (x : pystr) : (if b then [] else [x]) = [] <-> b = true.
Proof. by destruct b. Qed.

Lemma message_nil' (b : bool) (x : pystr) : (if b then [x] else []) = [] <-> b = false.
Proof. by destruct b. Qed.

Lemma missing_message_nil text l : missing_message text l = [] <-> l = [].
Proof. by destruct l. Qed.

Lemma filter_false_nil {A} (f : A -> bool) l : filter (fun x => f x = false) l = [] <-> forall x, x ∈ l -> f x = true.
Proof.
  rewrite <-Forall_forall. induction l as [|x l IH]; [done|]. rewrite Forall_cons. destruct (f x) eqn:E.
  - rewrite filter_cons_False by congruence. naive_solver.
  - rewrite filter_cons_True by done. naive_solver.
Qed.

Lemma in_list_spec x l : in_list x l = true <-> x ∈ l.
Proof. apply existsb_str_eqb. Qed.

Lemma int_of_str_raises q s e : int_of_str q s = Raise e -> is_value_error e = true.
Proof.
  unfold int_of_str. destruct (match strip s with [] => _ | _ => _ end) as [neg ds].
  destruct (scan_digits 0 0 true ds) as [[v n]|]; [destruct (n <=? int_max_str_digits)|]; by intros [= <-].
Qed.

Lemma missing_keys_nil keys a : missing_keys keys a = [] <-> forall k, k ∈ keys -> exists v, dget k a = Some v.
Proof.
  unfold missing_keys. rewrite py_sorted_nil, filter_false_nil. unfold dmem.
  split; intros H k Hk; specialize (H k Hk); destruct (dget k a); eauto; naive_solver.
Qed.

(** ** sysctl templates *)

(** A line's assignment to [k]. *)
Definition assigns (k raw : pystr) : option pystr :=
  match split1 61 (strip_comment raw) with
  | (key, Some value) => if str_eqb k (strip key) then Some (strip value) else None
  | _ => None
  end.

Lemma sysctl_line_spec a raw a' k : sysctl_line a raw = Ok a' ->
  dget k a' = match assigns k raw with Some v => Some v | None => dget k a end.
Proof.
  unfold sysctl_line, assigns. destruct (strip_comment raw) as [|c l] eqn:E; [by intros [= <-]|].
  destruct (split1 61 (c :: l)) as [key [value|]]; [|done]. intros [= <-].
  destruct (str_eqb k (strip key)) eqn:Ek; [apply str_eqb_eq in Ek as ->; apply dget_dset_eq|].
  apply dget_dset_ne. intros ->. by rewrite str_eqb_refl in Ek.
Qed.

Lemma sysctl_fold_spec lines a a' k : foldM sysctl_line a lines = Ok a' ->
  dget k a' = match last (omap (assigns k) lines) with Some v => Some v | None => dget k a end.
Proof.
  revert a. induction lines as [|raw lines IH]; intros a; cbn [foldM]; [by intros [= <-]|].
  intros (a1 & H1 & H)%bind_ok. rewrite (IH _ H), (sysctl_line_spec _ _ _ k H1).
  change (omap (assigns k) (raw :: lines)) with (match assigns k raw with Some y => y :: omap (assigns k) lines | None => omap (assigns k) lines end).
  destruct (assigns k raw); [|done]. rewrite last_cons. by destruct (last _).
Qed.

(** What a guardrail asks of a value. *)
Definition rule_met (rule : sysctl_rule) (z : Z) : Prop :=
  match r_exact rule with Some e => z = e | None => True end /\
  match r_min rule with Some m => (m <= z)%Z | None => True end /\
  match r_max rule with Some m => (z <= m)%Z | None => True end.

Lemma rule_errors_nil key rule z : rule_errors key rule z = [] <-> rule_met rule z.
Proof.
  unfold rule_errors, rule_met. destruct rule as [ex mn mx]; cbn [r_exact r_min r_max].
  assert (Hmn : match mn with Some m => if (z <? m)%Z then [(key ++ u "=" ++ dec_Z z) ++ u " is lower than DDoS guardrail minimum " ++ dec_Z m] else [] | None => [] end = [] <->
    match mn with Some m => (m <= z)%Z | None => True end).
  { destruct mn as [m|]; [|done]. rewrite message_nil'. rewrite Z.ltb_ge. done. }
  assert (Hmx : match mx with Some m => if (m <? z)%Z then [(key ++ u "=" ++ dec_Z z) ++ u " exceeds DDoS guardrail maximum " ++ dec_Z m] else [] | None => [] end = [] <->
    match mx with Some m => (z <= m)%Z | None => True end).
  { destruct mx as [m|]; [|done]. rewrite message_nil'. rewrite Z.ltb_ge. done. }
  rewrite <-Hmn, <-Hmx. destruct ex as [e|].
  - destruct (Z.eqb_spec z e) as [->|Hne].
    + split; [by intros [? ?]%app_nil|]. by intros (_ & -> & ->).
    + split; [done|]. by intros [? _].
  - split; [by intros [? ?]%app_nil|]. by intros (_ & -> & ->).
Qed.

Lemma ddos_key_silent a key rule raw : dget key a = Some raw ->
  ddos_key_errors a (key, rule) = Ok [] <-> exists z, int_of_str (repr_str raw) raw = Ok z /\ rule_met rule z.
Proof.
  intros Hraw. unfold ddos_key_errors. cbn [fst snd]. rewrite Hraw. destruct (int_of_str (repr_str raw) raw) as [z|e] eqn:E.
  - split; [intros H%Ok_inj; exists z; split; [done|by apply rule_errors_nil in H]|].
    intros (z' & [= <-] & H). f_equal. by apply rule_errors_nil.
  - rewrite (int_of_str_raises _ _ _ E). split; [done|]. by intros (? & ? & _).
Qed.

Lemma ddos_silent w p a : sysctl_assignments w p = Ok a ->
  validate_ddos_sysctls w p = Ok [] <->
  forall key rule, (key, rule) ∈ DDOS_SYSCTL_RULES ->
    exists raw z, dget key a = Some raw /\ int_of_str (repr_str raw) raw = Ok z /\ rule_met rule z.
Proof.
  intros E. unfold validate_ddos_sysctls. rewrite E.
  transitivity (missing_keys (dkeys DDOS_SYSCTL_RULES) a = [] /\ forall x, x ∈ DDOS_SYSCTL_RULES -> ddos_key_errors a x = Ok []).
  - rewrite <-mapR_silent. rewrite <-(missing_message_nil (u "missing DDoS host sysctl guardrails: ")).
    destruct (mapR (ddos_key_errors a) DDOS_SYSCTL_RULES) as [es|e]; cbn [rbind]; [|naive_solver].
    split; [intros [-> ->]%Ok_inj%app_nil; done|]. by intros [-> ->%Ok_inj].
  - rewrite missing_keys_nil. split.
    + intros [Hm Hs] key rule Hin. destruct (Hm key) as [raw Hraw]; [apply list_elem_of_fmap; by exists (key, rule)|].
      exists raw. specialize (Hs _ Hin). apply (ddos_key_silent _ _ _ _ Hraw) in Hs as (z & ? & ?). eauto.
    + intros H. split.
      * intros k ([key rule] & -> & Hin)%list_elem_of_fmap. destruct (H _ _ Hin) as (raw & z & Hl & _). by exists raw.
      * intros [key rule] Hin. destruct (H _ _ Hin) as (raw & z & Hl & Hz & Hr).
        apply (ddos_key_silent _ _ _ raw); [done|eauto].
Qed.

Lemma ddos_readable w p : validate_ddos_sysctls w p = Ok [] -> exists a, sysctl_assignments w p = Ok a.
Proof.
  unfold validate_ddos_sysctls. destruct (sysctl_assignments w p) as [a|e]; [eauto|]. destruct (is_exception e); [intros [=]|done].
Qed.

(** C31. The DDoS guardrails accept a sysctl template without a message exactly when it
    can be read and, for every guarded key, the last line of the template that assigns
    it holds an integer within the key's bounds ([tcp_syncookies] exactly 1, queues
    and tables at least their minimum, retry counts and timeouts inside their range). *)
Theorem ddos_sysctls_exact w p :
  validate_ddos_sysctls w p = Ok [] <->
  exists text a, read_text w p = Ok text /\ foldM sysctl_line [] (splitlines text) = Ok a /\
    forall key rule, (key, rule) ∈ DDOS_SYSCTL_RULES ->
      exists raw z, last (omap (assigns key) (splitlines text)) = Some raw /\
                    int_of_str (repr_str raw) raw = Ok z /\ rule_met rule z.
Proof.
  assert (Hget : forall lines a k, foldM sysctl_line [] lines = Ok a -> dget k a = last (omap (assigns k) lines)).
  { intros lines a k Ha. rewrite (sysctl_fold_spec _ _ _ k Ha). by destruct (last _). }
  split.
  - intros H. destruct (ddos_readable _ _ H) as [a Ha]. rewrite (ddos_silent _ _ _ Ha) in H.
    apply bind_ok in Ha as (text & Ht & Ha). exists text, a. setoid_rewrite <-(Hget _ _ _ Ha). auto.
  - intros (text & a & Ht & Ha & H). setoid_rewrite <-(Hget _ _ _ Ha) in H.
    assert (Hs : sysctl_assignments w p = Ok a) by (unfold sysctl_assignments; by rewrite Ht). by apply (ddos_silent w p a Hs).
Qed.

(** ** Protected ports *)

Lemma ip_address_raises s e : ip_address s = Raise e -> is_value_error e = true.
Proof.
  unfold ip_address. destruct (has_char 47 s); [by intros [= <-]|].
  destruct (parse_ipv4 s); [done|]. destruct (parse_ipv6 s); [done|]. by intros [= <-].
Qed.

Lemma split_listen_raises s e : split_listen s = Raise e -> is_value_error e = true.
Proof.
  unfold split_listen, value_error. intros H.
  repeat match type of H with context [match ?x with _ => _ end] => destruct x end; try done; by injection H as <-.
Qed.

(** [parse_listen] raises [ValueError] and nothing else. *)
Lemma parse_listen_raises s e : parse_listen s = Raise e -> is_value_error e = true.
Proof.
  unfold parse_listen. intros [H|([host port_text] & _ & H)]%bind_raise; [by eapply split_listen_raises|].
  destruct (negb (str_isdigit port_text)); [by injection H as <-|].
  apply bind_raise in H as [H|(port & _ & H)]; [by eapply int_of_str_raises|].
  destruct (_ || _); [by injection H as <-|]. apply bind_raise in H as [H|(a & _ & H)]; [by eapply ip_address_raises|done].
Qed.

Lemma listener_port_spec st item :
  exists st', listener_port st item = Ok st' /\
    (st'.2 = [] <-> st.2 = [] /\ exists a port, parse_listen item.2 = Ok (a, port)) /\
    (forall port, port ∈ st'.1 <-> port ∈ st.1 \/ exists a, parse_listen item.2 = Ok (a, port) /\ is_loopback a = false).
Proof.
  destruct st as [ports errors]. unfold listener_port. destruct (parse_listen item.2) as [[a port]|e] eqn:E.
  - eexists. split; [done|]. destruct (is_loopback a || existsb (Z.eqb port) ports) eqn:Ea; cbn [fst snd]; split.
    + naive_solver.
    + intros q. split; [by left|]. intros [H|(a' & [= <- <-] & Hl)]; [done|]. rewrite Hl in Ea. cbn in Ea.
      apply existsb_exists in Ea as (x & Hx & ->%Z.eqb_eq). by apply list_elem_of_In.
    + naive_solver.
    + apply orb_false_iff in Ea as [Ea _]. intros q. rewrite elem_of_app, list_elem_of_singleton. naive_solver.
  - rewrite (parse_listen_raises _ _ E). eexists. split; [done|]. cbn [fst snd]. split; [|naive_solver].
    split; [by destruct errors|]. naive_solver.
Qed.

Lemma listener_fold_spec items st :
  exists st', foldM listener_port st items = Ok st' /\
    (st'.2 = [] <-> st.2 = [] /\ forall it, it ∈ items -> exists a port, parse_listen it.2 = Ok (a, port)) /\
    (forall port, port ∈ st'.1 <-> port ∈ st.1 \/
       exists it a, it ∈ items /\ parse_listen it.2 = Ok (a, port) /\ is_loopback a = false).
Proof.
  revert st. induction items as [|it items IH]; intros st; cbn [foldM].
  - exists st. split; [done|]. set_solver.
  - destruct (listener_port_spec st it) as (st1 & -> & He1 & Hp1). cbn [rbind].
    destruct (IH st1) as (st' & Hst' & He & Hp). exists st'. split; [done|]. split.
    + rewrite He, He1. split; [intros [[? ?] Hx]; split; [done|]; intros x [->|?]%elem_of_cons; auto|].
      intros [? Hy]. repeat split; try done; [apply Hy; apply elem_of_cons; by left|intros x Hx; apply Hy; apply elem_of_cons; by right].
    + intros port. rewrite Hp, Hp1. split.
      * intros [[?|(a & ? & ?)]|(x & a & ? & ? & ?)]; [by left|right; exists it, a|right; exists x, a]; rewrite elem_of_cons; auto.
      * intros [?|(x & a & [->|?]%elem_of_cons & ? & ?)]; [by left; left|left; right; eauto|right; eauto].
Qed.

Lemma port_in_ranges_spec ranges port :
  port_in_ranges ranges port = true <-> exists lo hi, (lo, hi) ∈ ranges /\ (lo <= port <= hi)%Z.
Proof.
  unfold port_in_ranges. rewrite existsb_exists. split.
  - intros ([lo hi] & Hin%list_elem_of_In & [H1%Z.leb_le H2%Z.leb_le]%andb_prop). by exists lo, hi.
  - intros (lo & hi & Hin & H1 & H2). exists (lo, hi). split; [by apply list_elem_of_In|].
    cbn. by rewrite (proj2 (Z.leb_le _ _)), (proj2 (Z.leb_le _ _)).
Qed.

Lemma read_json_exists w p v : read_json w p = Ok v -> exists_file w p = true.
Proof. unfold read_json, read_text, exists_file. by destruct (ew_file w p). Qed.

Lemma port_coverage_silent w config nft_path data : read_json w config = Ok (VDict data) ->
  validate_edge_port_coverage w config nft_path = Ok [] <->
  (forall it, it ∈ listeners data -> exists a port, parse_listen it.2 = Ok (a, port)) /\
  exists ranges, protected_tcp_port_ranges w nft_path = Ok (ranges, []) /\
    forall it a port, it ∈ listeners data -> parse_listen it.2 = Ok (a, port) -> is_loopback a = false ->
      port_in_ranges ranges port = true.
Proof.
  intros Hj. unfold validate_edge_port_coverage, config_public_listener_ports.
  rewrite (read_json_exists _ _ _ Hj), Hj. cbn [negb as_object rbind].
  destruct (listener_fold_spec (listeners data) ([], [])) as ([required errors] & -> & He & Hp). cbn [rbind fst snd] in *.
  assert (Hall : errors = [] <-> forall it, it ∈ listeners data -> exists a port, parse_listen it.2 = Ok (a, port)) by naive_solver.
  rewrite <-Hall. destruct errors as [|e errors]; [|split; [intros [=]|by intros [? _]]].
  destruct (protected_tcp_port_ranges w nft_path) as [[ranges nft_errors]|e]; cbn [rbind]; [|split; [done|by intros [_ (? & ? & _)]]].
  destruct nft_errors as [|e nft_errors]; [|split; [intros [=]|by intros [_ (? & [=] & _)]]].
  transitivity (py_sorted Z.leb (filter (fun port => port_in_ranges ranges port = false) required) = []).
  { destruct (py_sorted Z.leb _); [done|]. split; [intros [=]|done]. }
  rewrite py_sorted_nil, filter_false_nil. split.
  - intros H. split; [done|]. exists ranges. split; [done|]. intros it a port Hin Hs Hl. apply H, Hp. right. eauto.
  - intros [_ (ranges' & [= <-] & H)] port Hin%Hp.
    destruct Hin as [?%not_elem_of_nil|(it & a & Hin & Hs & Hl)]; [done|]. by apply (H it a).
Qed.

(** For a configuration that is a JSON object, the port-coverage check is silent
    exactly when every listener address in it is well formed, the port set of the
    nftables template parses without a message, and the port of every listener that is
    not on a loopback address lies in one of the set's ranges. *)
Theorem port_coverage_exact w config nft_path data :
  read_json w config = Ok (VDict data) ->
  validate_edge_port_coverage w config nft_path = Ok [] <->
  (forall label s, (label, s) ∈ listeners data -> exists a port, parse_listen s = Ok (a, port)) /\
  exists ranges, protected_tcp_port_ranges w nft_path = Ok (ranges, []) /\
    forall label s a port, (label, s) ∈ listeners data -> parse_listen s = Ok (a, port) -> is_loopback a = false ->
      exists lo hi, (lo, hi) ∈ ranges /\ (lo <= port <= hi)%Z.
Proof.
  intros Hj. rewrite (port_coverage_silent _ _ _ _ Hj). split.
  - intros [H1 (ranges & Hr & H2)]. split; [intros label s; apply (H1 (label, s))|]. exists ranges. split; [done|].
    intros label s a port Hin Hs Hl. apply port_in_ranges_spec. by apply (H2 (label, s) a).
  - intros [H1 (ranges & Hr & H2)]. split; [intros [label s]; apply H1|]. exists ranges. split; [done|].
    intros [label s] a port Hin Hs Hl. apply port_in_ranges_spec. by apply (H2 label s a).
Qed.

(** The shipped templates, one file replaced. *)
Definition shipped_with (p text : pystr) : edge_world :=
  EdgeWorld (fun q => if str_eqb q p then Some (Ok text) else ew_file shipped_world q)
            (ew_service shipped_world) (ew_which shipped_world) (ew_run shipped_world) (ew_system shipped_world)
            (ew_set_order shipped_world).

Definition config_path : pystr := eo_config default_edge_options.
Definition nft_path : pystr := eo_nft default_edge_options.
Definition sysctl_path : pystr := eo_sysctl default_edge_options.

(** A configuration with a public HTTP listener and a public TCP listener. *)
Definition public_config : pystr :=
  uq "{'http': {'listen': '0.0.0.0:8080', 'limits': {'max_connections_per_ip': 256}}, 'tcp': [{'listen': '[::]:443', 'listen_backlog': 2048}]}".

Definition public_data : pydict := match loads public_config with Ok (VDict d) => d | _ => [] end.

Definition public_world : edge_world := shipped_with config_path public_config.

Lemma public_json : read_json public_world config_path = Ok (VDict public_data).
Proof. vm_compute. reflexivity. Qed.

Lemma port_coverage_exact_witness :
  read_json public_world config_path = Ok (VDict public_data) /\
  validate_edge_port_coverage public_world config_path nft_path = Ok [] /\
  exists ranges, protected_tcp_port_ranges public_world nft_path = Ok (ranges, []) /\
    forall label s a port, (label, s) ∈ listeners public_data -> parse_listen s = Ok (a, port) -> is_loopback a = false ->
      exists lo hi, (lo, hi) ∈ ranges /\ (lo <= port <= hi)%Z.
Proof.
  split; [exact public_json|]. assert (H : validate_edge_port_coverage public_world config_path nft_path = Ok []) by (vm_compute; reflexivity).
  split; [exact H|]. apply (port_coverage_exact public_world config_path nft_path public_data public_json). exact H.
Defined.

(** ** Connection-count thresholds *)

Lemma min_cap_spec caps m : min_cap caps = Some m ->
  (forall c, c ∈ caps -> (m <= c.2)%Z) /\ exists c, c ∈ caps /\ m = c.2.
Proof.
  destruct caps as [|c0 caps]; [done|]. cbn [min_cap]. intros [= <-].
  assert (H : forall l z, (forall c, c ∈ l -> (foldl (fun m c => Z.min m c.2) z l <= c.2)%Z) /\
                     (foldl (fun (m : Z) (c : pystr * Z) => Z.min m c.2) z l <= z)%Z /\
                     (foldl (fun (m : Z) (c : pystr * Z) => Z.min m c.2) z l = z \/ exists c, c ∈ l /\ foldl (fun m c => Z.min m c.2) z l = c.2)).
  { induction l as [|c l IH]; intros z; cbn [foldl]; [split; [by intros ? ?%not_elem_of_nil|split; [lia|by left]]|].
    destruct (IH (Z.min z c.2)) as (H1 & H2 & H3). split; [|split; [lia|]].
    - intros d [->|Hd]%elem_of_cons; [lia|by apply H1].
    - destruct H3 as [H3|(d & Hd & H3)]; [|right; exists d; rewrite elem_of_cons; auto].
      rewrite H3. destruct (Z.min_spec z c.2) as [[_ ->]|[_ ->]]; [by left|]. right. exists c. rewrite elem_of_cons. auto. }
  destruct (H caps c0.2) as (H1 & H2 & H3). split.
  - intros c [->|Hc]%elem_of_cons; [done|by apply H1].
  - destruct H3 as [->|(c & Hc & ->)]; [exists c0|exists c]; rewrite elem_of_cons; auto.
Qed.

(** A rule of the input chain, as written after comments and runs of blanks are
    collapsed: the threshold pattern of [set_name] matches there, its number reading [n]. *)
Definition threshold_rule (input set_name : pystr) (n : Z) : Prop :=
  exists x y t digits, compact_rule_text input = x ++ y /\
    matches (connlimit_threshold_pattern set_name) (pos_at x y) t /\ group t = Some digits /\
    int_of_str (repr_str digits) digits = Ok n.

Lemma threshold_group set_name s t : matches (connlimit_threshold_pattern set_name) s t -> is_Some (group t).
Proof.
  unfold connlimit_threshold_pattern. cbn [cat]. intros H. do 11 (apply matches_seq in H as (? & _ & H)).
  apply matches_seq in H as (? & Hg & H). apply matches_seq in H as (? & Hb & H).
  inversion H; subst. inversion Hb; subst. inversion Hg; subst. by eexists.
Qed.

Lemma threshold_errors_nil input limit set_name : threshold_errors (compact_rule_text input) limit set_name = Ok [] ->
  exists n, threshold_rule input set_name n /\ (n <= limit)%Z.
Proof.
  unfold threshold_errors. destruct (search _ _) as [[s t]|] eqn:E; [|intros [=]].
  intros (n & Hn & H%Ok_inj%message_nil'%Z.ltb_ge)%bind_ok. exists n. split; [|done].
  apply search_some in E as (x & y & Hx & _ & Hm & _). unfold match_group in Hn. cbn in Hn.
  destruct (threshold_group _ _ _ Hm) as [digits Hd]. rewrite Hd in Hn. by exists x, y, t, digits.
Qed.

(** The caps of the public listeners. *)
Lemma ceiling_spec w config limit : protected_port_connlimit_ceiling w (Some config) = Ok (limit, []) ->
  exists caps, public_listener_connection_caps w config = Ok (caps, []) /\
    limit = default MAX_PROTECTED_PORT_CONNLIMIT (min_cap caps).
Proof.
  unfold protected_port_connlimit_ceiling. intros ([caps errors] & Hc & H)%bind_ok.
  destruct errors as [|e errors]; [|by injection H as <-]. injection H as <-. by exists caps.
Qed.

(** The listener sections with the cap each has by default. *)
Definition capped_sections (data : pydict) : list (Z * pydict) :=
  ((fun http => (DEFAULT_HTTP_MAX_CONNECTIONS_PER_IP, http)) <$> option_list (http_section data)) ++
  ((fun it => (DEFAULT_TCP_MAX_CONNECTIONS_PER_IP, it.2)) <$> tcp_items data).

(** The section listens on a public address, with [cap] connections per client. *)
Definition public_cap (default_ : Z) (section : pydict) (cap : Z) : Prop :=
  (exists s a port, listen_of section = Some s /\ parse_listen s = Ok (a, port) /\ is_loopback a = false) /\
  match or_none (dget (u "max_connections_per_ip") (limits_of section)) with
  | VNone => cap = default_
  | VInt z => cap = z /\ (0 < z)%Z
  | _ => False
  end.

Lemma positive_int_spec v d label z :
  positive_int_config_value v d label = inl z <-> match v with VNone => z = d | VInt i => z = i /\ (0 < i)%Z | _ => False end.
Proof. destruct v; cbn; try naive_solver. destruct (Z.leb_spec z0 0); split; intros H'; try naive_solver lia. Qed.

Lemma listener_cap_spec d l1 l2 section st st' :
  listener_cap d l1 l2 section st = Ok st' -> st'.2 = [] ->
  st.2 = [] /\ forall cap, (exists l, (l, cap) ∈ st'.1) <-> (exists l, (l, cap) ∈ st.1) \/ public_cap d section cap.
Proof.
  destruct st as [caps errors]. unfold listener_cap.
  assert (Hsame : (forall s a port, listen_of section = Some s -> parse_listen s = Ok (a, port) -> is_loopback a = true) ->
    forall cap, (exists l, (l, cap) ∈ caps) <-> (exists l, (l, cap) ∈ caps) \/ public_cap d section cap).
  { intros Hl cap. split; [by left|]. intros [?|[(s & a & port & H1 & H2 & H3) _]]; [done|].
    rewrite (Hl _ _ _ H1 H2) in H3. done. }
  destruct (listen_of section) as [listen|] eqn:El; [|intros [= <-] H; split; [done|]; by apply Hsame; intros ? ? ?].
  destruct (parse_listen listen) as [[a port]|e] eqn:Ep.
  2: { destruct (is_value_error e); [|done]. intros [= <-] H. by apply app_nil in H as [_ [=]]. }
  destruct (is_loopback a) eqn:Ea.
  { intros [= <-] H. split; [done|]. apply Hsame. intros ? ? ? [= <-]. rewrite Ep. by intros [= <- <-]. }
  destruct (positive_int_config_value _ d l2) as [v|e] eqn:Ev; intros [= <-] H; [|by apply app_nil in H as [_ [=]]].
  split; [done|]. intros cap. cbn [fst]. setoid_rewrite elem_of_app. setoid_rewrite list_elem_of_singleton.
  pose proof (positive_int_spec (or_none (dget (u "max_connections_per_ip") (limits_of section))) d l2) as Hpos.
  split.
  - intros (l & [Hl|[= -> ->]]); [left; eauto|]. right. split; [by exists listen, a, port|]. by apply Hpos.
  - intros [[l Hl]|[_ Hc]]; [eauto|]. exists l1. right. apply Hpos in Hc. congruence.
Qed.

Lemma listener_caps_fold {A} (f : A -> pystr) (g : A -> pystr) (h : A -> pydict) d l st st' :
  foldM (fun st it => listener_cap d (f it) (g it) (h it) st) st l = Ok st' -> st'.2 = [] ->
  st.2 = [] /\ forall cap, (exists n, (n, cap) ∈ st'.1) <-> (exists n, (n, cap) ∈ st.1) \/ exists it, it ∈ l /\ public_cap d (h it) cap.
Proof.
  revert st. induction l as [|it l IH]; intros st; cbn [foldM].
  - intros [= <-] H. split; [done|]. intros cap. split; [by left|]. by intros [?|(? & ?%not_elem_of_nil & _)].
  - intros (st1 & H1 & H2)%bind_ok Hnil. destruct (IH _ H2 Hnil) as [Hst1 Hcaps].
    destruct (listener_cap_spec _ _ _ _ _ _ H1 Hst1) as [Hst Hcap]. split; [done|]. intros cap. rewrite Hcaps, Hcap.
    setoid_rewrite elem_of_cons. naive_solver.
Qed.

Lemma caps_spec w config data caps : read_json w config = Ok (VDict data) ->
  public_listener_connection_caps w config = Ok (caps, []) ->
  forall cap, (exists l, (l, cap) ∈ caps) <-> exists d section, (d, section) ∈ capped_sections data /\ public_cap d section cap.
Proof.
  intros Hj. unfold public_listener_connection_caps. rewrite (read_json_exists _ _ _ Hj), Hj. cbn [negb as_object].
  change (rbind (Ok data) ?f) with (f data). cbv beta. intros (st & H1 & H2)%bind_ok cap.
  destruct (listener_caps_fold _ _ _ _ _ _ _ H2 eq_refl) as [Hst Hcaps]. cbn [fst] in Hcaps. rewrite Hcaps. unfold capped_sections.
  setoid_rewrite elem_of_app. setoid_rewrite list_elem_of_fmap.
  assert (Hhttp : (exists n, (n, cap) ∈ st.1) <-> exists http, http_section data = Some http /\ public_cap DEFAULT_HTTP_MAX_CONNECTIONS_PER_IP http cap).
  { destruct (http_section data) as [http|]; [|injection H1 as <-; cbn; set_solver].
    destruct (listener_cap_spec _ _ _ _ _ _ H1 Hst) as [_ ->]. cbn. set_solver. }
  rewrite Hhttp. split.
  - intros [(http & Hh & Hc)|(it & Hit & Hc)]; [|eauto 10]. exists DEFAULT_HTTP_MAX_CONNECTIONS_PER_IP, http.
    split; [|done]. left. exists http. split; [done|]. rewrite Hh. by apply list_elem_of_singleton.
  - intros (d & section & [(http & [= -> ->] & Hh)|(it & [= -> ->] & Hit)] & Hc); [left|right; eauto].
    exists http. split; [|done]. destruct (http_section data) as [h|]; [|by apply not_elem_of_nil in Hh].
    by apply list_elem_of_singleton in Hh as ->.
Qed.

Lemma ceiling_le w config data limit d section cap : read_json w config = Ok (VDict data) ->
  protected_port_connlimit_ceiling w (Some config) = Ok (limit, []) ->
  (d, section) ∈ capped_sections data -> public_cap d section cap -> (limit <= cap)%Z.
Proof.
  intros Hj (caps & Hcaps & ->)%ceiling_spec Hd Hp. destruct (proj2 (caps_spec _ _ _ _ Hj Hcaps cap)) as [l Hl]; [eauto|].
  destruct (min_cap caps) as [m|] eqn:Em.
  - destruct (min_cap_spec _ _ Em) as [Hmin _]. apply (Hmin _ Hl).
  - destruct caps; [by apply not_elem_of_nil in Hl|discriminate Em].
Qed.

Lemma ceiling_default w config data limit : read_json w config = Ok (VDict data) ->
  protected_port_connlimit_ceiling w (Some config) = Ok (limit, []) ->
  (forall d section cap, (d, section) ∈ capped_sections data -> ~ public_cap d section cap) -> limit = MAX_PROTECTED_PORT_CONNLIMIT.
Proof.
  intros Hj (caps & Hcaps & ->)%ceiling_spec Hnone. destruct (min_cap caps) as [m|] eqn:Em; [|done].
  destruct (min_cap_spec _ _ Em) as [_ (c & Hc & ->)]. exfalso.
  destruct (proj1 (caps_spec _ _ _ _ Hj Hcaps c.2)) as (d & section & Hd & Hp); [destruct c; eauto|]. by eapply Hnone.
Qed.

Lemma thresholds_silent w nft config : exists_file w nft = true -> validate_connlimit_thresholds w nft (Some config) = Ok [] ->
  exists limit raw input, protected_port_connlimit_ceiling w (Some config) = Ok (limit, []) /\
    read_text w nft = Ok raw /\ named_block raw (u "chain input") = Some input /\
    forall set_name, set_name ∈ CONNLIMIT_SETS -> exists n, threshold_rule input set_name n /\ (n <= limit)%Z.
Proof.
  intros Hf. unfold validate_connlimit_thresholds. rewrite Hf. cbn [negb]. intros ([limit errors] & Hc & H)%bind_ok.
  destruct errors as [|e errors]; [|discriminate H]. apply bind_ok in H as (raw & Hraw & H).
  destruct (named_block raw (u "chain input")) as [input|] eqn:Eb; [|discriminate H].
  exists limit, raw, input. repeat split; try done. pose proof (proj1 (mapR_silent _ _) H) as Hs. intros set_name Hin.
  by apply threshold_errors_nil, Hs.
Qed.

(** When the connection-count check of an existing nftables template is silent for a
    JSON object configuration, the input chain has, for each of the two connection-count
    sets, a rule whose threshold is at most the per-client cap of every public listener
    (its configured cap or the proxy's default), and at most 128 when there is none. *)
Theorem connlimit_thresholds_tight w nft config data :
  read_json w config = Ok (VDict data) -> exists_file w nft = true ->
  validate_connlimit_thresholds w nft (Some config) = Ok [] ->
  exists raw input, read_text w nft = Ok raw /\ named_block raw (u "chain input") = Some input /\
    forall set_name, set_name ∈ CONNLIMIT_SETS ->
      exists n, threshold_rule input set_name n /\
        (forall d section cap, (d, section) ∈ capped_sections data -> public_cap d section cap -> (n <= cap)%Z) /\
        ((forall d section cap, (d, section) ∈ capped_sections data -> ~ public_cap d section cap) -> (n <= MAX_PROTECTED_PORT_CONNLIMIT)%Z).
Proof.
  intros Hj Hf (limit & raw & input & Hc & Hraw & Hb & Hs)%thresholds_silent; [|done]. exists raw, input.
  split; [done|]. split; [done|]. intros set_name (n & Hn & Hle)%Hs. exists n. split; [done|]. split.
  - intros d section cap Hd Hp. pose proof (ceiling_le _ _ _ _ _ _ _ Hj Hc Hd Hp). lia.
  - intros Hnone. by rewrite <-(ceiling_default _ _ _ _ Hj Hc Hnone).
Qed.

Lemma connlimit_thresholds_tight_witness :
  exists raw input, read_text public_world nft_path = Ok raw /\ named_block raw (u "chain input") = Some input /\
    forall set_name, set_name ∈ CONNLIMIT_SETS ->
      exists n, threshold_rule input set_name n /\
        (forall d section cap, (d, section) ∈ capped_sections public_data -> public_cap d section cap -> (n <= cap)%Z) /\
        ((forall d section cap, (d, section) ∈ capped_sections public_data -> ~ public_cap d section cap) -> (n <= MAX_PROTECTED_PORT_CONNLIMIT)%Z).
Proof.
  apply (connlimit_thresholds_tight public_world nft_path config_path public_data); [exact public_json|reflexivity|].
  vm_compute. reflexivity.
Defined.

(** ** The descriptor budget *)

Definition capacity (section : pydict) (key : pystr) (default_ : Z) : Z :=
  match or_none (dget key section) with VInt z => z | _ => default_ end.

(** Descriptors of an HTTP listener: accept shards, client connections, requests in
    flight and idle upstream connections. *)
Definition http_descriptors (http : pydict) : Z :=
  (capacity http (u "accept_shards") DEFAULT_ACCEPT_SHARDS +
   capacity (limits_of http) (u "max_connections") DEFAULT_HTTP_MAX_CONNECTIONS +
   capacity (limits_of http) (u "max_in_flight_requests") DEFAULT_HTTP_MAX_IN_FLIGHT_REQUESTS +
   capacity http (u "upstream_pool_max_idle_per_host") DEFAULT_HTTP_UPSTREAM_POOL_MAX_IDLE_PER_HOST)%Z.

(** Descriptors of a TCP listener: accept shards, and two for each connection. *)
Definition tcp_descriptors (tcp : pydict) : Z :=
  (capacity tcp (u "accept_shards") DEFAULT_ACCEPT_SHARDS +
   2 * capacity (limits_of tcp) (u "max_connections") DEFAULT_TCP_MAX_CONNECTIONS)%Z.

Definition descriptor_budget (data : pydict) : Z :=
  (NOFILE_BASE_RESERVE + from_option http_descriptors 0 (http_section data) +
   foldr Z.add 0 (tcp_descriptors ∘ snd <$> tcp_items data))%Z.

Lemma add_capacity_spec item key d label weight st : (add_capacity item key d label weight st).2 = [] ->
  st.2 = [] /\ (add_capacity item key d label weight st).1 = (st.1 + weight * capacity item key d)%Z.
Proof.
  unfold add_capacity, capacity. destruct (positive_int_config_value _ d label) as [v|e] eqn:E; cbn.
  - apply positive_int_spec in E. intros ->. split; [done|]. destruct (or_none _); try done; [by subst|by destruct E as [-> _]].
  - by intros [_ [=]]%app_nil.
Qed.

Lemma http_capacity_spec http st : (http_capacity http st).2 = [] ->
  st.2 = [] /\ (http_capacity http st).1 = (st.1 + http_descriptors http)%Z.
Proof.
  unfold http_capacity, http_descriptors. cbv zeta. intros H.
  apply add_capacity_spec in H as [H ->]. apply add_capacity_spec in H as [H ->].
  apply add_capacity_spec in H as [H ->]. apply add_capacity_spec in H as [H ->]. split; [done|]. lia.
Qed.

Lemma tcp_capacity_fold items st : (foldl tcp_capacity st items).2 = [] ->
  st.2 = [] /\ (foldl tcp_capacity st items).1 = (st.1 + foldr Z.add 0 (tcp_descriptors ∘ snd <$> items))%Z.
Proof.
  revert st. induction items as [|it items IH]; intros st; cbn [foldl]; [intros ->; split; [done|]; cbn; lia|].
  intros H. destruct (IH _ H) as [Hst ->]. unfold tcp_capacity in Hst |- *.
  apply add_capacity_spec in Hst as [Hst ->]. apply add_capacity_spec in Hst as [Hst ->]. split; [done|].
  cbn [fmap list_fmap foldr]. unfold compose at 2, tcp_descriptors at 2. lia.
Qed.

Lemma capacity_requirement_spec w config data c errors : read_json w config = Ok (VDict data) ->
  config_nofile_capacity_requirement w config = Ok (c, errors) -> errors = [] -> c = Some (descriptor_budget data).
Proof.
  intros Hj. unfold config_nofile_capacity_requirement. rewrite (read_json_exists _ _ _ Hj), Hj. cbn [negb as_object rbind].
  destruct (foldl tcp_capacity _ _) as [required es] eqn:E. intros H ->. apply Ok_inj in H.
  destruct es as [|e es]; [|discriminate H]. injection H as <-. f_equal.
  pose proof (tcp_capacity_fold (tcp_items data) _ (f_equal snd E)) as [Hs Hr]. rewrite E in Hr. cbn [fst] in Hr. rewrite Hr.
  unfold descriptor_budget. destruct (http_section data) as [http|]; cbn [from_option fst]; [|lia].
  apply http_capacity_spec in Hs as [_ ->]. cbn [fst]. lia.
Qed.

(** [runtime.min_nofile] when it is an integer. *)
Definition min_nofile_of (data : pydict) : Z :=
  match runtime_section data with
  | Some runtime => default 0%Z (as_int (or_none (dget (u "min_nofile") runtime)))
  | None => 0%Z
  end.

Lemma config_min_nofile_spec w config data z : read_json w config = Ok (VDict data) -> config_min_nofile w config = Ok z ->
  z = Z.max MIN_SYSTEMD_LIMIT_NOFILE (min_nofile_of data).
Proof.
  intros Hj. unfold config_min_nofile, min_nofile_of. rewrite (read_json_exists _ _ _ Hj), Hj. cbn [negb as_object rbind].
  destruct (runtime_section data) as [runtime|]; [|by intros [= <-]].
  destruct (dget _ runtime) as [v|]; cbn [default or_none]; [|by intros [= <-]].
  destruct (as_int (id v)); by intros [= <-].
Qed.

(** ** The systemd unit *)

Lemma guarded_nil text m : guarded text m = Ok [] <-> m = Ok [].
Proof. unfold guarded. destruct m as [|e]; [done|]. destruct (is_exception e); split; try done; intros [=]. Qed.

Lemma nofile_errors_nil w service config data : read_json w config = Ok (VDict data) -> nofile_errors w service config = Ok [] ->
  exists limit, parse_systemd_nofile_hard_limit (first_systemd_value service (u "LimitNOFILE") (u "0")) = Ok limit /\
    forall n, limit = Some n -> (MIN_SYSTEMD_LIMIT_NOFILE <= n /\ min_nofile_of data <= n /\ descriptor_budget data <= n)%Z.
Proof.
  intros Hj. unfold nofile_errors. destruct (parse_systemd_nofile_hard_limit _) as [limit|e]; cbn [rbind];
    [|destruct (is_exception e); [intros [=]|done]].
  destruct (config_nofile_capacity_requirement w config) as [[c errors]|e] eqn:Ec; cbn [rbind];
    [|destruct (is_exception e); [intros [=]|done]].
  intros (rest & Hr & H)%bind_ok. apply Ok_inj, app_nil in H as [-> ->].
  apply guarded_nil, bind_ok in Hr as (m & Hm & H%Ok_inj). exists limit. split; [done|]. intros n ->.
  rewrite (capacity_requirement_spec _ _ _ _ _ Hj Ec eq_refl) in H. rewrite (config_min_nofile_spec _ _ _ _ Hj Hm) in H.
  apply message_nil', Z.ltb_ge in H. lia.
Qed.

Lemma memory_errors_nil service : memory_errors service = Ok [] ->
  exists high max_, parse_systemd_size (first_systemd_value service (u "MemoryHigh") []) = Ok (Some high) /\
    parse_systemd_size (first_systemd_value service (u "MemoryMax") []) = Ok (Some max_) /\ (high <= max_)%Z.
Proof.
  unfold memory_errors. intros (h & -> & (m & -> & H%Ok_inj)%bind_ok)%guarded_nil%bind_ok.
  destruct h as [high|], m as [max_|]; try discriminate H. apply message_nil', Z.ltb_ge in H. eauto.
Qed.

Lemma tasks_errors_nil service : tasks_errors service = Ok [] ->
  exists n, int_of_str (repr_str (first_systemd_value service (u "TasksMax") (u "0"))) (first_systemd_value service (u "TasksMax") (u "0")) = Ok n /\
    (0 < n <= MAX_SYSTEMD_TASKS)%Z.
Proof.
  unfold tasks_errors. intros (n & Hn & H%Ok_inj%message_nil')%guarded_nil%bind_ok. exists n. split; [done|].
  apply orb_false_iff in H as [?%Z.leb_gt ?%Z.ltb_ge]. lia.
Qed.

Lemma stop_errors_nil w service config : stop_errors w service config = Ok [] ->
  exists stop grace, parse_systemd_seconds (first_systemd_value service (u "TimeoutStopSec") (u "0")) = Ok stop /\
    config_shutdown_grace_seconds w config = Ok grace /\ fleb stop grace = false.
Proof.
  unfold stop_errors. intros (s & Hs & (g & Hg & H%Ok_inj%message_nil')%bind_ok)%guarded_nil%bind_ok. eauto 10.
Qed.

Lemma service_value_nil service key allowed : service_value_errors service (key, allowed) = [] <->
  first_systemd_value service key [] <> [] /\ lower (first_systemd_value service key []) ∈ allowed.
Proof.
  unfold service_value_errors. cbn [fst snd]. destruct (first_systemd_value service key []) as [|c v]; [naive_solver|].
  rewrite <-in_list_spec. destruct (in_list _ allowed); naive_solver.
Qed.

Lemma capability_nil service key : capability_errors service key = [] ->
  forall c, c ∈ split_ws (first_systemd_value service key []) <-> c = u "CAP_NET_BIND_SERVICE".
Proof.
  unfold capability_errors. intros [H1%in_list_spec H2]%message_nil%andb_prop c. rewrite forallb_forall in H2. split; [|by intros ->].
  intros Hc%list_elem_of_In%H2%str_eqb_eq. done.
Qed.

Lemma family_nil service : family_errors service = [] ->
  let families := split_ws (first_systemd_value service (u "RestrictAddressFamilies") []) in
  (forall f, f ∈ [u "AF_UNIX"; u "AF_INET"; u "AF_INET6"] -> f ∈ families) /\
  ~ u "AF_PACKET" ∈ families /\ ~ u "AF_NETLINK" ∈ families.
Proof.
  unfold family_errors. intros [H1%message_nil H2%message_nil']%app_nil. cbv zeta. rewrite forallb_forall in H1.
  apply orb_false_iff in H2 as [Hp Hn]. split; [|split].
  - intros f Hf. apply in_list_spec, H1. by apply list_elem_of_In.
  - intros H%in_list_spec. congruence.
  - intros H%in_list_spec. congruence.
Qed.

(** The value in force of a directive of the unit's [Service] section. *)
Definition unit_value (service : unit_section) (key : pystr) : pystr := first_systemd_value service key [].

(** What the deployment relies on. *)
Record hardened (w : edge_world) (service : unit_section) (config : pystr) (data : pydict) : Prop := Hardened {
  h_values : forall key allowed, (key, allowed) ∈ REQUIRED_SYSTEMD_SERVICE_VALUES -> lower (unit_value service key) ∈ allowed;
  h_user : unit_value service (u "User") ∉ [[]; u "root"; u "0"];
  h_group : unit_value service (u "Group") ∉ [[]; u "root"; u "0"];
  h_caps : forall key c, key ∈ [u "AmbientCapabilities"; u "CapabilityBoundingSet"] ->
    (c ∈ split_ws (unit_value service key) <-> c = u "CAP_NET_BIND_SERVICE");
  h_packet : u "AF_PACKET" ∉ split_ws (unit_value service (u "RestrictAddressFamilies"));
  h_netlink : u "AF_NETLINK" ∉ split_ws (unit_value service (u "RestrictAddressFamilies"));
  h_tcp : forall f, f ∈ [u "AF_UNIX"; u "AF_INET"; u "AF_INET6"] -> f ∈ split_ws (unit_value service (u "RestrictAddressFamilies"));
  h_nofile : exists limit, parse_systemd_nofile_hard_limit (unit_value service (u "LimitNOFILE")) = Ok limit /\
    forall n, limit = Some n -> (MIN_SYSTEMD_LIMIT_NOFILE <= n /\ min_nofile_of data <= n /\ descriptor_budget data <= n)%Z;
  h_stop : exists stop grace, parse_systemd_seconds (unit_value service (u "TimeoutStopSec")) = Ok stop /\
    config_shutdown_grace_seconds w config = Ok grace /\ fleb stop grace = false;
  h_tasks : exists n, int_of_str (repr_str (unit_value service (u "TasksMax"))) (unit_value service (u "TasksMax")) = Ok n /\
    (0 < n <= MAX_SYSTEMD_TASKS)%Z;
  h_memory : exists high max_, parse_systemd_size (unit_value service (u "MemoryHigh")) = Ok (Some high) /\
    parse_systemd_size (unit_value service (u "MemoryMax")) = Ok (Some max_) /\ (high <= max_)%Z }.

(** With the directive present, the default of [first_systemd_value] does not matter. *)
Lemma unit_value_present service key d : dmem key service = true -> (forall l, dget key service = Some l -> l <> []) ->
  first_systemd_value service key d = unit_value service key.
Proof.
  unfold unit_value, first_systemd_value, dmem. destruct (dget key service) as [l|]; [|done]. intros _ H.
  specialize (H l eq_refl). destruct (last l) eqn:E; [done|]. by apply last_None in E.
Qed.

(** No directive of a parsed unit has an empty list of values. *)
Definition valued (sections : list (pystr * unit_section)) : Prop :=
  forall name entries key values, dget name sections = Some entries -> dget key entries = Some values -> values <> [].

Lemma dget_dset {A} k k' (v : A) d : dget k (dset k' v d) = if str_eqb k k' then Some v else dget k d.
Proof.
  destruct (str_eqb k k') eqn:E; [apply str_eqb_eq in E as ->; apply dget_dset_eq|].
  apply dget_dset_ne. intros ->. by rewrite str_eqb_refl in E.
Qed.

Lemma unit_line_valued st raw st' : valued st.1 -> unit_line st raw = Ok st' -> valued st'.1.
Proof.
  destruct st as [sections current]. unfold unit_line. intros Hv. destruct (strip_comment raw) as [|c l]; [by intros [= <-]|].
  destruct (_ && _).
  - intros [= <-]. cbn [fst]. intros name entries key values. unfold dsetdefault.
    destruct (dmem _ sections); [by apply Hv|]. rewrite dget_dset. destruct (str_eqb _ _); [|by apply Hv]. by intros [= <-].
  - destruct current as [section|]; [|done]. destruct (split1 61 (c :: l)) as [k [v|]]; [|done]. intros [= <-]. cbn [fst] in *.
    intros name entries key values. rewrite dget_dset. destruct (str_eqb name section); [|by apply Hv]. intros [= <-].
    rewrite dget_dset. destruct (str_eqb key (strip k)); [intros [= <-]; by destruct (default _ _)|].
    destruct (dget section sections) eqn:E; [|done]. by apply (Hv section).
Qed.

Lemma parse_systemd_unit_valued w p sections : parse_systemd_unit w p = Ok sections -> valued sections.
Proof.
  unfold parse_systemd_unit. intros (text & _ & (st & H & [= <-])%bind_ok)%bind_ok.
  assert (Hg : forall lines st0, valued st0.1 -> foldM unit_line st0 lines = Ok st -> valued st.1).
  { clear H. induction lines as [|l lines IH]; intros st0 H0; cbn [foldM]; [by intros [= <-]|].
    intros (st1 & H1 & H2)%bind_ok. eapply IH; [|done]. by eapply unit_line_valued. }
  eapply Hg; [|done]. by intros ? ? ? ?.
Qed.

Lemma service_errors_hardened w service config data :
  read_json w config = Ok (VDict data) -> (forall key values, dget key service = Some values -> values <> []) ->
  service_errors w service config = Ok [] -> hardened w service config data.
Proof.
  intros Hj Hv. unfold service_errors. intros (nofile & Hnf & H)%bind_ok.
  apply bind_ok in H as (stop & Hst & (tasks & Htk & (memory & Hme & H%Ok_inj)%bind_ok)%bind_ok).
  repeat match type of H with _ ++ _ = [] => let H' := fresh "H" in apply app_nil in H as [H' H] end.
  apply missing_message_nil in H0. rewrite py_sorted_nil, filter_false_nil in H0.
  assert (Hd : forall key d, key ∈ REQUIRED_SYSTEMD_DIRECTIVES -> first_systemd_value service key d = unit_value service key).
  { intros key d Hk. apply unit_value_present; [by apply H0|apply Hv]. }
  subst nofile stop tasks memory. apply message_nil' in H2, H3.
  pose proof (proj1 (concat_silent _ _) H1) as Hvals. pose proof (proj1 (concat_silent _ _) H9) as Hcaps.
  destruct (family_nil _ H8) as (Hf1 & Hf2 & Hf3).
  apply nofile_errors_nil with (data := data) in Hnf; [|done]. apply stop_errors_nil in Hst.
  apply tasks_errors_nil in Htk. apply memory_errors_nil in Hme.
  rewrite !Hd in Hnf, Hst, Htk, Hme by (apply in_list_spec; vm_compute; reflexivity).
  split; try done.
  - intros key allowed Hin. by apply (service_value_nil service key allowed), Hvals.
  - intros Hin%in_list_spec. unfold is_root in H2. unfold unit_value in Hin. congruence.
  - intros Hin%in_list_spec. unfold is_root in H3. unfold unit_value in Hin. congruence.
  - intros key c Hk. apply capability_nil. by apply Hcaps.
Qed.

Lemma unit_silent w p config : validate_systemd_unit w p config = Ok [] ->
  exists sections service, parse_systemd_unit w p = Ok sections /\ dget (u "Service") sections = Some service /\
    service_errors w service config = Ok [] /\ forall key values, dget key service = Some values -> values <> [].
Proof.
  unfold validate_systemd_unit. destruct (exists_file w p); [|intros [=]]. cbn [negb].
  destruct (parse_systemd_unit w p) as [sections|e] eqn:Es; [|destruct (is_value_error e); [intros [=]|done]].
  destruct (dget (u "Service") sections) as [service|] eqn:Ev; [|intros [=]].
  intros (errors & He & H)%bind_ok. apply Ok_inj, app_nil in H as [-> _]. exists sections, service. repeat split; try done.
  intros key values. by apply (parse_systemd_unit_valued _ _ _ Es _ _ _ _ Ev).
Qed.

(** C30. A systemd unit that the validator accepts without a message, for a JSON object
    configuration, runs the proxy hardened: every sandboxing directive has one of its
    required values, user and group are set and are not root, the capability sets hold
    exactly [CAP_NET_BIND_SERVICE], raw packet and netlink sockets are not allowed, the
    hard descriptor limit covers 65536, [runtime.min_nofile] and the descriptors the
    configured listeners can use at once, the stop timeout exceeds the shutdown grace,
    and the task and memory limits are finite and ordered. *)
Theorem accepted_unit_hardened w p config data :
  read_json w config = Ok (VDict data) -> validate_systemd_unit w p config = Ok [] ->
  exists sections service, parse_systemd_unit w p = Ok sections /\ dget (u "Service") sections = Some service /\
    hardened w service config data.
Proof.
  intros Hj (sections & service & Hs & Hv & He & Hne)%unit_silent. exists sections, service. split; [done|]. split; [done|].
  by apply service_errors_hardened.
Qed.

Lemma accepted_unit_hardened_witness :
  read_json public_world config_path = Ok (VDict public_data) /\
  validate_systemd_unit public_world (eo_systemd default_edge_options) config_path = Ok [] /\
  exists sections service, parse_systemd_unit public_world (eo_systemd default_edge_options) = Ok sections /\
    dget (u "Service") sections = Some service /\ hardened public_world service config_path public_data.
Proof.
  split; [exact public_json|].
  assert (H : validate_systemd_unit public_world (eo_systemd default_edge_options) config_path = Ok []) by (vm_compute; reflexivity).
  split; [exact H|]. exact (accepted_unit_hardened public_world _ config_path public_data public_json H).
Defined.

(** ** The entry point *)

Lemma edge_errors_silent w o : edge_errors w o = Ok [] <-> forall c, c ∈ edge_checks w o -> c = Ok [].
Proof. unfold edge_errors. by rewrite (mapR_silent id). Qed.

Lemma edge_main_prints w o code out : edge_main w o = Ok (code, out) ->
  exists errors, edge_errors w o = Ok errors /\ length errors <= length out /\
    (code = 0%Z -> Forall (fun m => is_note m = true) errors /\ out = (OnStdout <$> errors) ++ [OnStdout (u "edge templates validated")]).
Proof.
  unfold edge_main. intros (errors & He & H)%bind_ok. exists errors. split; [done|].
  destruct (filter (fun item => is_note item = false) errors) as [|e hard] eqn:Ef; injection H as <- <-.
  - split; [rewrite length_app, length_fmap; lia|]. intros _. split; [by apply Forall_forall, filter_false_nil|]. done.
  - split; [by rewrite length_fmap|]. done.
Qed.

(** C29. A run of the validator that exits with 0 and prints nothing but its verdict
    guarantees, for a JSON object configuration: every public listener port is
    protected, each connection-count rule is at most the tightest per-client cap,
    every DDoS sysctl is within its guardrail, and the systemd unit is hardened. *)
Theorem clean_run_guarantees w o data :
  read_json w (eo_config o) = Ok (VDict data) ->
  edge_main w o = Ok (0%Z, [OnStdout (u "edge templates validated")]) ->
  (exists ranges, protected_tcp_port_ranges w (eo_nft o) = Ok (ranges, []) /\
    forall label s a port, (label, s) ∈ listeners data -> parse_listen s = Ok (a, port) -> is_loopback a = false ->
      port_in_ranges ranges port = true) /\
  (exists raw input, read_text w (eo_nft o) = Ok raw /\ named_block raw (u "chain input") = Some input /\
    forall set_name d section cap, set_name ∈ CONNLIMIT_SETS -> (d, section) ∈ capped_sections data -> public_cap d section cap ->
      exists n, threshold_rule input set_name n /\ (n <= cap)%Z) /\
  (exists a, sysctl_assignments w (eo_sysctl o) = Ok a /\
    forall key rule, (key, rule) ∈ DDOS_SYSCTL_RULES ->
      exists raw z, dget key a = Some raw /\ int_of_str (repr_str raw) raw = Ok z /\ rule_met rule z) /\
  (exists sections service, parse_systemd_unit w (eo_systemd o) = Ok sections /\ dget (u "Service") sections = Some service /\
    hardened w service (eo_config o) data).
Proof.
  intros Hj Hm. destruct (edge_main_prints _ _ _ _ Hm) as (errors & He & _ & [_ Hout]); [done|].
  assert (errors = []) as -> by (destruct errors as [|m [|m2 errors]]; [done|discriminate Hout..]).
  pose proof (proj1 (edge_errors_silent w o) He) as Hall. unfold edge_checks in Hall.
  assert (Hnft : exists_file w (eo_nft o) = true).
  { assert (Hn : Ok (validate_nft w (eo_nft o) (eo_skip_nft_syntax_check o)) = Ok []) by (apply Hall; set_solver).
    apply Ok_inj in Hn. unfold validate_nft in Hn. by destruct (exists_file w (eo_nft o)). }
  split; [|split; [|split]].
  - assert (Hc : validate_edge_port_coverage w (eo_config o) (eo_nft o) = Ok []) by (apply Hall; set_solver).
    apply (port_coverage_silent _ _ _ _ Hj) in Hc as [_ (ranges & Hr & Hc)]. exists ranges. split; [done|].
    intros label s. apply (Hc (label, s)).
  - assert (Hc : validate_connlimit_thresholds w (eo_nft o) (Some (eo_config o)) = Ok []) by (apply Hall; set_solver).
    apply (thresholds_silent _ _ _ Hnft) in Hc as (limit & raw & input & Hl & Hraw & Hb & Hc). exists raw, input.
    split; [done|]. split; [done|]. intros set_name d section cap (n & Hn & Hle)%Hc Hd Hp. exists n. split; [done|].
    pose proof (ceiling_le _ _ _ _ _ _ _ Hj Hl Hd Hp). lia.
  - assert (Hc : validate_ddos_sysctls w (eo_sysctl o) = Ok []) by (apply Hall; set_solver).
    destruct (ddos_readable _ _ Hc) as [a Ha]. exists a. split; [done|]. by rewrite (ddos_silent _ _ _ Ha) in Hc.
  - assert (Hc : validate_systemd_unit w (eo_systemd o) (eo_config o) = Ok []) by (apply Hall; set_solver).
    apply unit_silent in Hc as (sections & service & Hs & Hv & Hse & Hne). exists sections, service. split; [done|]. split; [done|].
    by apply service_errors_hardened.
Qed.

(** The shipped templates with a public configuration, on a host that has [nft] and
    [sysctl] and on which both succeed. *)
Definition equipped_world : edge_world :=
  EdgeWorld (ew_file public_world) (fun _ => None) (fun name => Some (u "/usr/sbin/" ++ name)) (fun _ => (0%Z, [], []))
            (u "Linux") id.

Lemma clean_run_guarantees_witness :
  read_json equipped_world config_path = Ok (VDict public_data) /\
  edge_main equipped_world default_edge_options = Ok (0%Z, [OnStdout (u "edge templates validated")]) /\
  exists sections service, parse_systemd_unit equipped_world (eo_systemd default_edge_options) = Ok sections /\
    dget (u "Service") sections = Some service /\ hardened equipped_world service config_path public_data.
Proof.
  split; [exact public_json|].
  assert (H : edge_main equipped_world default_edge_options = Ok (0%Z, [OnStdout (u "edge templates validated")]))
    by (vm_compute; reflexivity).
  split; [exact H|]. apply (clean_run_guarantees equipped_world default_edge_options public_data public_json H).
Defined.

(** ** Messages that count as notes *)

Lemma is_note_app a m b : is_note m = true -> is_note (a ++ m ++ b) = true.
Proof.
  unfold is_note. rewrite !contains_spec. intros (s1 & s2 & ->). exists (a ++ s1), (s2 ++ b). by rewrite <-!app_assoc.
Qed.

Lemma is_note_tail a m : is_note m = true -> is_note (a ++ m) = true.
Proof. intros H. rewrite <-(app_nil_r m). by apply is_note_app. Qed.

(** A line of the sysctl template that is no assignment but contains the word
    "skipped" turns every sysctl check into a note: the key check, the DDoS
    guardrails, the fragment bounds and, once a backlog is configured, the backlog check
    report only messages that [main] does not count as errors. *)
Theorem skipped_line_silences_sysctl w p config e :
  exists_file w p = true -> sysctl_assignments w p = Raise e -> is_value_error e = true -> is_note (exn_msg e) = true ->
  (exists es, validate_sysctl w p = Ok es /\ Forall (fun m => is_note m = true) es) /\
  (exists es, validate_ddos_sysctls w p = Ok es /\ Forall (fun m => is_note m = true) es) /\
  (exists es, validate_fragment_sysctls w p = Ok es /\ Forall (fun m => is_note m = true) es) /\
  (forall required, max_config_backlog w config = Ok (Some required) ->
    exists es, validate_backlog w config p = Ok es /\ Forall (fun m => is_note m = true) es).
Proof.
  intros Hf Hs Hv Hn. assert (He : is_exception e = true) by (destruct e as [[] ?]; done).
  unfold validate_sysctl, validate_ddos_sysctls, validate_fragment_sysctls, validate_backlog. rewrite Hf, Hs, Hv, He. cbn [negb rbind].
  split; [|split; [|split]].
  - eexists. split; [done|]. by repeat constructor.
  - eexists. split; [done|]. repeat constructor. by repeat apply is_note_tail.
  - eexists. split; [done|]. repeat constructor. by repeat apply is_note_tail.
  - intros required ->. cbn [rbind]. rewrite ?He. eexists. split; [done|]. repeat constructor. by repeat apply is_note_tail.
Qed.

(** The sysctl template reduced to the single word. *)
Definition skipped_world : edge_world := shipped_with sysctl_path (u "skipped").

Lemma skipped_line_silences_sysctl_witness :
  edge_main skipped_world default_edge_options =
    Ok (0%Z, OnStdout <$> [u "nft not found; skipped nftables syntax check";
                           u "invalid sysctl line: skipped";
                           u "failed to read DDoS sysctls from ops/sysctl.d/99-altura-prot-ddos.conf: invalid sysctl line: skipped";
                           u "failed to read net.core.somaxconn from ops/sysctl.d/99-altura-prot-ddos.conf: invalid sysctl line: skipped";
                           u "failed to read fragment sysctls from ops/sysctl.d/99-altura-prot-ddos.conf: invalid sysctl line: skipped";
                           u "edge templates validated"]) /\
  exists es, validate_ddos_sysctls skipped_world sysctl_path = Ok es /\ Forall (fun m => is_note m = true) es.
Proof.
  split; [vm_compute; reflexivity|].
  apply (skipped_line_silences_sysctl skipped_world sysctl_path config_path (Exn ValueError (u "invalid sysctl line: skipped")));
    vm_compute; reflexivity.
Defined.
