(* ===== verification/EdgeRules.v ===== *)
(** * EdgeRules: what the nftables checks find

    Theorems on [EdgeNft]: blocks are the brace-balanced text after their header, a
    rule check on the collapsed text of a chain is a search for one line of text, the
    ICMP exemption precedes every flood drop, and the dynamic sets are bounded. *)

From S2P Require Import Prelude Unicode PyStr Regex PyVal EdgeConfig EdgeHost EdgeNft EdgeTemplates EdgeMain EdgeGuards.

(** ** Blocks *)

(** Text whose braces match. *)
Inductive balanced : pystr -> Prop :=
| bal_nil : balanced []
| bal_char c s : c <> 123%N -> c <> 125%N -> balanced s -> balanced (c :: s)
| bal_block b s : balanced b -> balanced s -> balanced (123%N :: b ++ 125%N :: s).

(** [depth] blocks are open: [depth] balanced texts, each closed by a brace, then a
    balanced one. *)
Fixpoint closes (depth : nat) (s : pystr) : Prop :=
  match depth with
  | O => balanced s
  | S d => exists b rest, s = b ++ 125%N :: rest /\ balanced b /\ closes d rest
  end.

Lemma closes_char depth c s : c <> 123%N -> c <> 125%N -> closes depth s -> closes depth (c :: s).
Proof.
  destruct depth; cbn; [by constructor|]. intros ? ? (b & rest & -> & ? & ?). exists (c :: b), rest. split; [done|]. by split; [constructor|].
Qed.

Lemma closes_open depth s : closes (S depth) s -> closes depth (123%N :: s).
Proof.
  destruct depth; cbn.
  - intros (b & rest & -> & ? & ?). by constructor.
  - intros (b & rest & -> & ? & b' & rest' & -> & ? & ?). exists (123%N :: b ++ 125%N :: b'), rest'. split; [cbn; by rewrite <-app_assoc|].
    split; [by constructor|done].
Qed.

Lemma block_body_sound depth s b : block_body depth s = Some b -> closes depth b /\ exists rest, s = b ++ 125%N :: rest.
Proof.
  revert depth b. induction s as [|c s IH]; intros depth b; cbn [block_body]; [done|].
  destruct (N.eqb_spec c 123) as [->|H1].
  - intros (b' & H & ->)%fmap_Some. apply IH in H as [H (rest & ->)]. split; [by apply closes_open|by exists rest].
  - destruct (N.eqb_spec c 125) as [->|H2].
    + destruct depth as [|d].
      * intros [= <-]. split; [constructor|by exists s].
      * intros (b' & H & ->)%fmap_Some. apply IH in H as [H (rest & ->)]. split; [|by exists rest]. exists [], b'. by repeat split; [constructor|].
    + intros (b' & H & ->)%fmap_Some. apply IH in H as [H (rest & ->)]. split; [by apply closes_char|by exists rest].
Qed.

Lemma block_body_balanced b : balanced b -> forall depth s, block_body depth (b ++ s) = app b <$> block_body depth s.
Proof.
  induction 1 as [|c b H1 H2 _ IH|b1 b2 _ IH1 _ IH2]; intros depth s; cbn [app block_body].
  - by destruct (block_body depth s).
  - rewrite (proj2 (N.eqb_neq _ _) H1), (proj2 (N.eqb_neq _ _) H2), IH. by destruct (block_body depth s).
  - cbn [N.eqb Pos.eqb]. rewrite <-app_assoc, IH1. cbn [app block_body N.eqb Pos.eqb]. rewrite IH2.
    destruct (block_body depth s); cbn; [|done]. by rewrite <-app_assoc.
Qed.

(** [block_body] reads exactly the balanced text before the brace that closes it. *)
Lemma block_body_spec s b : block_body 0 s = Some b <-> balanced b /\ exists rest, s = b ++ 125%N :: rest.
Proof.
  split; [apply block_body_sound|]. intros [Hb (rest & ->)]. rewrite (block_body_balanced b Hb). cbn. by rewrite app_nil_r.
Qed.

Lemma matches_lit w b rest g t : matches (lit w) (Pos b rest g) t <-> exists rest', rest = w ++ rest' /\ t = Pos (rev w ++ b) rest' g.
Proof.
  revert b rest t. induction w as [|c w IH]; intros b rest t; cbn [lit].
  - split; [inversion 1; subst; by exists rest|]. intros (rest' & -> & ->). constructor.
  - split.
    + intros (s & Hc & Hw)%matches_seq. inversion Hc as [|p' c' r' b' g' Hp| | | | | | |]; subst. apply N.eqb_eq in Hp as <-.
      apply IH in Hw as (rest' & -> & ->). exists rest'. split; [done|]. cbn. by rewrite <-app_assoc.
    + intros (rest' & -> & ->). cbn. rewrite <-app_assoc. econstructor; [constructor; apply N.eqb_refl|]. apply IH. by exists rest'.
Qed.

Lemma matches_star_chr p b rest g t : matches (Star (Chr p)) (Pos b rest g) t <->
  exists r rest', rest = r ++ rest' /\ Forall (fun c => p c = true) r /\ t = Pos (rev r ++ b) rest' g.
Proof.
  split.
  - intros H. remember (Star (Chr p)) as re eqn:Ere. remember (Pos b rest g) as s eqn:Es. revert b rest g Es.
    induction H as [| | | | |r s|r s t v Hr _ _ _ IH| |]; try discriminate Ere; injection Ere as ->; intros b rest g ->.
    + by exists [], rest.
    + inversion Hr as [|p' c r' b' g' Hp| | | | | | |]; subst. destruct (IH eq_refl _ _ _ eq_refl) as (r & rest' & -> & Hall & ->).
      exists (c :: r), rest'. split; [done|]. split; [by constructor|]. cbn. by rewrite <-app_assoc.
  - intros (r & rest' & -> & Hall & ->). revert b. induction Hall as [|c r Hc _ IH]; intros b; [constructor|].
    cbn. rewrite <-app_assoc. eapply m_star; [by constructor|cbn; lia|apply IH].
Qed.

(** ** Named blocks *)

(** After [x], the text has the block's name, blanks, an opening brace and [y]. *)
Definition header_at (text name x y : pystr) : Prop :=
  exists blanks, text = x ++ name ++ blanks ++ 123%N :: y /\ Forall (fun c => is_space c = true) blanks /\
    at_boundary (pos_at x (name ++ blanks ++ 123%N :: y)) = true /\
    at_boundary (pos_at (x ++ name) (blanks ++ 123%N :: y)) = true.

Definition header_pattern (name : pystr) : regex := cat [Bound; lit name; Bound; ws0; lit (u "{")].

Lemma matches_bound s t : matches Bound s t <-> at_boundary s = true /\ t = s.
Proof. split; [by inversion 1|]. intros [? ->]. by constructor. Qed.

Lemma header_matches name x z y : (exists t, matches (header_pattern name) (pos_at x z) t /\ after t = y) <-> header_at (x ++ z) name x y.
Proof.
  unfold header_pattern, header_at, pos_at. cbn [cat]. split.
  - intros (t & (s1 & [Hb1 ->]%matches_bound & (s2 & (r1 & -> & ->)%matches_lit & (s3 & [Hb2 ->]%matches_bound & H)%matches_seq)%matches_seq)%matches_seq & <-).
    apply matches_seq in H as (s4 & (blanks & r2 & -> & Hall & ->)%matches_star_chr & (s5 & (r3 & -> & ->)%matches_lit & He)%matches_seq).
    inversion He; subst. exists blanks. rewrite rev_app_distr. done.
  - intros (blanks & Hz & Hall & Hb1 & Hb2). apply app_inv_head in Hz as ->. rewrite rev_app_distr in Hb2. eexists. split.
    + econstructor; [by apply matches_bound|]. econstructor; [apply matches_lit; by eexists|].
      econstructor; [by apply matches_bound|]. econstructor; [apply matches_star_chr; by exists blanks, (123%N :: y)|].
      econstructor; [apply matches_lit; by exists y|constructor].
    + done.
Qed.

Lemma header_unique text name x y x' y' : header_at text name x y -> header_at text name x' y' -> length x = length x' -> y = y'.
Proof.
  intros (b1 & -> & H1 & _) (b2 & Heq & H2 & _) Hl. apply app_inj_1 in Heq as [_ Heq]; [|done]. apply app_inv_head in Heq.
  revert b2 H2 Heq. induction H1 as [|c b1 Hc _ IH]; intros b2 H2 Heq; destruct H2 as [|c2 b2 Hc2 H2]; cbn in Heq; injection Heq.
  - done.
  - intros _ <-. done.
  - intros _ ->. done.
  - intros Heq' _. by eapply IH.
Qed.

(** [named_block] returns a text exactly when it is the brace-balanced text of the
    block: the first place where the name stands at word boundaries and is followed by
    blanks and an opening brace begins it, and the brace that closes it follows it. *)
Theorem named_block_exact raw name b :
  named_block raw name = Some b <->
  exists x y rest, header_at (strip_nft_comments raw) name x y /\
    (forall x' y', header_at (strip_nft_comments raw) name x' y' -> length x <= length x') /\
    y = b ++ 125%N :: rest /\ balanced b.
Proof.
  unfold named_block, block_after. fold (header_pattern name). set (text := strip_nft_comments raw).
  assert (Hsearch : forall s t, search (header_pattern name) text = Some (s, t) ->
    exists x, header_at text name x (after t) /\ forall x' y', header_at text name x' y' -> length x <= length x').
  { intros s t (x & z & Hx & -> & Hm & Hleft)%search_some. exists x. split; [rewrite Hx; apply header_matches; eauto|].
    intros x' y' Hh. pose proof Hh as (blanks & Hx' & _). rewrite Hx' in Hh. apply header_matches in Hh as (t' & Hm' & _). by eapply Hleft. }
  destruct (search (header_pattern name) text) as [[s t]|] eqn:E.
  - destruct (Hsearch _ _ eq_refl) as (x & Hh & Hleft). rewrite block_body_spec. split.
    + intros [Hb (rest & Hrest)]. by exists x, (after t), rest.
    + intros (x' & y' & rest & Hh' & Hleft' & -> & Hb). split; [done|]. exists rest. symmetry.
      apply (header_unique _ _ _ _ _ _ Hh' Hh). apply Nat.le_antisymm; eauto.
  - split; [done|]. intros (x & y & rest & Hh & _). exfalso. pose proof Hh as (blanks & Hx & _). rewrite Hx in Hh.
    apply header_matches in Hh as (t & Hm & _). by eapply search_none in Hm.
Qed.

(** ** Collapsed text *)

(** Every blank is a space and no two are adjacent. *)
Fixpoint single_spaced (s : pystr) : Prop :=
  match s with
  | [] => True
  | c :: rest => (is_space c = true -> c = 32%N /\ match rest with d :: _ => is_space d = false | [] => True end) /\ single_spaced rest
  end.

Lemma single_spaced_suffix a b : single_spaced (a ++ b) -> single_spaced b.
Proof. induction a; cbn; [done|]. intros [_ ?]. auto. Qed.

Lemma single_spaced_prefix a b : single_spaced (a ++ b) -> single_spaced a.
Proof.
  induction a as [|c a IH]; cbn; [done|]. intros [H ?]. split; [|auto]. intros Hc. destruct (H Hc) as [-> Hn].
  split; [done|]. by destruct a.
Qed.

Lemma single_spaced_strip s : single_spaced s -> single_spaced (strip s).
Proof.
  intros H. unfold strip, strip_by. rewrite rstrip_by_rev. unfold lstrip_by. destruct (drop_while_suffix is_space s) as [a Ha].
  rewrite Ha in H. apply single_spaced_suffix in H. remember (drop_while is_space s) as m.
  destruct (drop_while_suffix is_space (rev m)) as [b Hb]. apply (f_equal (@rev N)) in Hb. rewrite rev_involutive, rev_app_distr in Hb.
  rewrite Hb in H. by apply single_spaced_prefix in H.
Qed.

Lemma collapse_spec s gap : single_spaced (collapse gap s) /\
  (gap = true -> match collapse gap s with d :: _ => is_space d = false | [] => True end).
Proof.
  revert gap. induction s as [|c s IH]; intros gap; cbn [collapse]; [done|]. destruct (is_space c) eqn:E.
  - destruct gap; [apply IH|]. split; [|done]. cbn [single_spaced]. destruct (IH true) as [H1 H2].
    split; [|done]. intros _. split; [done|by apply H2].
  - split; [|done]. cbn [single_spaced]. destruct (IH false) as [H1 _]. split; [congruence|done].
Qed.

Lemma compact_single_spaced raw : single_spaced (compact_rule_text raw).
Proof. apply single_spaced_strip, collapse_spec. Qed.

(** ** Words in collapsed text *)

Lemma matches_ws1 b rest g t : single_spaced rest ->
  matches ws1 (Pos b rest g) t <-> exists rest', rest = 32%N :: rest' /\ t = Pos (32%N :: b) rest' g.
Proof.
  intros Hs. unfold ws1, Plus. split.
  - intros (s & Hc & Hw)%matches_seq. inversion Hc as [|p' c' r' b' g' Hp| | | | | | |]; subst. destruct Hs as [Hc' Hs].
    destruct (Hc' Hp) as [-> Hn]. exists r'. split; [done|].
    inversion Hw as [| | | | |r s'|r s' t' v Hr _ _| |]; subst; [done|].
    inversion Hr as [|p' c' r'' b' g' Hp'| | | | | | |]; subst. congruence.
  - intros (rest' & -> & ->). econstructor; [by constructor|]. constructor.
Qed.

Lemma matches_words ws b rest g t : single_spaced rest ->
  matches (words ws) (Pos b rest g) t <-> exists rest', rest = join (u " ") ws ++ rest' /\ t = Pos (rev (join (u " ") ws) ++ b) rest' g.
Proof.
  revert b rest t. induction ws as [|w [|w2 ws] IH]; intros b rest t Hs.
  - cbn. split; [inversion 1; subst; by exists rest|]. intros (rest' & -> & ->). constructor.
  - apply matches_lit.
  - cbn [words]. change (join (u " ") (w :: w2 :: ws)) with (w ++ [32%N] ++ join (u " ") (w2 :: ws)). split.
    + intros (s & Hl & (s2 & Hw & Hr)%matches_seq)%matches_seq. apply matches_lit in Hl as (r1 & -> & ->).
      apply single_spaced_suffix in Hs. apply matches_ws1 in Hw as (r2 & -> & ->); [|done]. destruct Hs as [_ Hs].
      apply IH in Hr as (r3 & -> & ->); [|done]. exists r3. split; [by rewrite <-!app_assoc|]. by rewrite !rev_app_distr, <-!app_assoc.
    + intros (r3 & -> & ->). rewrite <-!app_assoc in Hs |- *. apply single_spaced_suffix in Hs.
      econstructor; [apply matches_lit; by eexists|]. econstructor; [apply matches_ws1; [done|by eexists]|].
      apply IH; [by destruct Hs|]. eexists. split; [done|]. by rewrite !rev_app_distr, <-!app_assoc.
Qed.

(** ** The UDP drop *)

Definition udp_drop_rule : pystr := u "meta l4proto udp udp dport @protected_tcp_ports drop".

(** The text stands at a word boundary on both sides. *)
Definition word_edge (o : option N) : Prop := match o with Some c => word_char c = false | None => True end.

Lemma udp_pattern_at x y t : single_spaced y ->
  matches udp_drop_pattern (pos_at x y) t <->
  exists rest, y = udp_drop_rule ++ rest /\ t = pos_at (x ++ udp_drop_rule) rest /\ word_edge (last x) /\ word_edge (head rest).
Proof.
  intros Hs. unfold udp_drop_pattern, pos_at. cbn [cat].
  assert (Hx : match rev x with c :: _ => word_char c | [] => false end = false <-> word_edge (last x)).
  { destruct x as [|c x] using rev_ind; [done|]. rewrite rev_app_distr, last_snoc. done. }
  split.
  - intros (s & Hb & (s2 & Hw & (s3 & Hb2 & He)%matches_seq)%matches_seq)%matches_seq.
    inversion He; subst. inversion Hb as [| | | | | | |s' Hbnd|]; subst. apply matches_words in Hw as (rest & -> & ->); [|done].
    inversion Hb2 as [| | | | | | |s' Hbnd2|]; subst. exists rest. split; [done|]. split; [by rewrite rev_app_distr|].
    unfold at_boundary in Hbnd, Hbnd2. cbn [before after] in Hbnd, Hbnd2. split.
    + apply Hx. by destruct (rev x) as [|c ?]; [|destruct (word_char c)].
    + by destruct rest as [|c ?]; [|cbn; destruct (word_char c)].
  - intros (rest & -> & -> & Hl & Hr). econstructor; [constructor|].
    + unfold at_boundary. cbn [before after]. apply Hx in Hl. by rewrite Hl.
    + econstructor; [apply matches_words; [done|by eexists]|]. rewrite rev_app_distr. econstructor; [constructor|constructor].
      unfold at_boundary. cbn [before after]. destruct rest as [|c rest]; [done|]. cbn in Hr. by rewrite Hr.
Qed.

(** The UDP check of an nftables text is silent exactly when its [preraw] chain,
    with comments removed and blanks collapsed, contains the text
    [meta l4proto udp udp dport @protected_tcp_ports drop] as whole words. *)
Theorem udp_drop_exact p raw :
  udp_drop_errors p raw = [] <->
  exists preraw x y, named_block raw (u "chain preraw") = Some preraw /\
    compact_rule_text preraw = x ++ udp_drop_rule ++ y /\ word_edge (last x) /\ word_edge (head y).
Proof.
  unfold udp_drop_errors. destruct (named_block raw (u "chain preraw")) as [preraw|]; [|split; [done|by intros (? & ? & ? & ? & _)]].
  unfold require. rewrite message_nil, found_spec. pose proof (compact_single_spaced preraw) as Hs. split.
  - intros (x & y & t & Hx & Hm). rewrite Hx in Hs. apply single_spaced_suffix in Hs.
    apply udp_pattern_at in Hm as (rest & -> & _ & Hl & Hr); [|done]. by exists preraw, x, rest.
  - intros (preraw' & x & y & [= <-] & Hx & Hl & Hr). rewrite Hx in Hs. apply single_spaced_suffix in Hs.
    exists x, (udp_drop_rule ++ y), (pos_at (x ++ udp_drop_rule) y). split; [done|]. apply udp_pattern_at; [done|]. by exists y.
Qed.

(** ** ICMP exemptions *)

(** The exemption of family [f] stands after [x] in the chain's text, with [types]
    between its braces. *)
Definition exemption_at (f : icmp_family) (text x types : pystr) : Prop :=
  exists y t, text = x ++ y /\ matches (icmp_accept_pattern (if_proto f) (if_type f)) (pos_at x y) t /\ group t = Some types.

Definition flood_drop_at (f : icmp_family) (text x : pystr) : Prop :=
  exists y t, text = x ++ y /\ matches (icmp_drop_pattern (if_proto f)) (pos_at x y) t.

Lemma icmp_accept_group proto name s t : matches (icmp_accept_pattern proto name) s t -> is_Some (group t).
Proof.
  unfold icmp_accept_pattern. cbn [cat]. intros H. do 5 (apply matches_seq in H as (? & _ & H)).
  apply matches_seq in H as (s1 & Hg & H). apply matches_seq in H as ([b1 r1 g1] & Hl & H). destruct s1 as [b0 r0 g0].
  apply matches_lit in Hl as (? & _ & [= -> -> ->]). apply matches_seq in H as ([b2 r2 g2] & Hw & H).
  unfold ws1, Plus in Hw. apply matches_seq in Hw as (s3 & Hc & Hst). inversion Hc; subst.
  apply matches_star_chr in Hst as (? & ? & _ & _ & [= -> -> ->]).
  apply matches_seq in H as ([b4 r4 g4] & (? & _ & [= -> -> ->])%matches_lit & H). apply matches_seq in H as (s5 & [_ ->]%matches_bound & He).
  inversion He; subst. cbn. inversion Hg as [| | | | | | | |r s' t' Hm Hs Ht]; subst. by eexists.
Qed.

(** C32. When the control-exemption check of an ICMP family is silent for an nftables
    text, its input chain has an accept rule that lists every required control type, it
    has a generic flood drop, and no generic flood drop begins before the first accept
    rule: control traffic is accepted before the rate limit can drop it. *)
Theorem icmp_exemption_first f p raw :
  icmp_errors f p raw = [] ->
  exists input x types, named_block raw (u "chain input") = Some input /\
    exemption_at f (compact_rule_text input) x types /\
    (forall t, t ∈ if_required f -> t ∈ items_of (chr_is 44%N) types) /\
    (exists x', flood_drop_at f (compact_rule_text input) x') /\
    (forall x', flood_drop_at f (compact_rule_text input) x' -> length x <= length x').
Proof.
  unfold icmp_errors. destruct (named_block raw (u "chain input")) as [input|]; [|done]. set (text := compact_rule_text input).
  unfold icmp_rule_errors. destruct (search (icmp_accept_pattern _ _) text) as [[sa ta]|] eqn:Ea; [|done].
  intros [Hm Hd]%app_nil. destruct (search (icmp_drop_pattern _) text) as [[sd td]|] eqn:Ed; [|done].
  apply search_some in Ea as (x & y & Hx & -> & Ha & _). apply search_some in Ed as (x' & y' & Hx' & -> & Hd' & Hleft).
  destruct (icmp_accept_group _ _ _ _ Ha) as [types Ht]. exists input, x, types. split; [done|]. split; [by exists y, ta|]. split; [|split].
  - apply missing_message_nil in Hm. rewrite py_sorted_nil, filter_false_nil in Hm. unfold match_group in Hm. cbn [snd] in Hm.
    rewrite Ht in Hm. intros t Hin. by apply in_list_spec, Hm.
  - by exists x', y', td.
  - intros x2 (y2 & t2 & Hx2 & Hm2). specialize (Hleft x2 y2 t2 Hx2 Hm2). apply message_nil', Nat.ltb_ge in Hd.
    unfold match_start, pos_at in Hd. cbn [fst before] in Hd. rewrite !length_rev in Hd. lia.
Qed.

Lemma icmp_exemption_first_witness :
  icmp_errors icmpv6 nft_path shipped_nft = [] /\
  exists input x types, named_block shipped_nft (u "chain input") = Some input /\
    exemption_at icmpv6 (compact_rule_text input) x types /\
    (forall t, t ∈ if_required icmpv6 -> t ∈ items_of (chr_is 44%N) types) /\
    (exists x', flood_drop_at icmpv6 (compact_rule_text input) x') /\
    (forall x', flood_drop_at icmpv6 (compact_rule_text input) x' -> length x <= length x').
Proof.
  assert (H : icmp_errors icmpv6 nft_path shipped_nft = []) by (vm_compute; reflexivity).
  split; [exact H|]. exact (icmp_exemption_first icmpv6 nft_path shipped_nft H).
Defined.

(** ** Dynamic sets *)

(** The size a set declares. *)
Definition declared_size (block : pystr) (n : Z) : Prop :=
  exists text, nft_directive block (u "size") = Some text /\ str_isdigit text = true /\ int_of_str (repr_str text) text = Ok n.

Lemma set_size_nil what block limit : set_size_errors what block limit = Ok [] <->
  exists n, declared_size block n /\ (0 < n <= limit)%Z.
Proof.
  unfold set_size_errors, declared_size. destruct (nft_directive block (u "size")) as [text|]; [|split; [intros [=]|by intros (? & (? & ? & _) & _)]].
  destruct (str_isdigit text) eqn:Ed; cbn [negb]; [|split; [intros [=]|intros (? & (? & [= <-] & ? & _) & _); congruence]].
  destruct (int_of_str (repr_str text) text) as [n|e] eqn:En; cbn [rbind];
    [|split; [done|intros (? & (? & [= <-] & _ & ?) & _); congruence]].
  destruct (Z.leb_spec n 0); [split; [intros [=]|intros (? & (? & [= <-] & _ & Hn) & ?); rewrite En in Hn; injection Hn as <-; lia]|].
  destruct (Z.ltb_spec limit n); [split; [intros [=]|intros (? & (? & [= <-] & _ & Hn) & ?); rewrite En in Hn; injection Hn as <-; lia]|].
  split; [|done]. intros _. exists n. split; [by exists text|lia].
Qed.

(** The timeout a set declares, in seconds. *)
Definition declared_timeout (block : pystr) (n : Z) : Prop :=
  exists value unit, nft_timeout (default [] (nft_directive block (u "timeout"))) = Some (value, unit) /\
    nft_duration_seconds value unit = Ok n.

Lemma syn_timeout_nil what block : syn_timeout_errors what block = Ok [] ->
  exists n, declared_timeout block n /\ (0 < n <= MAX_SYN_RATE_SET_TIMEOUT_SECONDS)%Z.
Proof.
  unfold syn_timeout_errors, declared_timeout. destruct (nft_timeout _) as [[value unit]|]; [|intros [=]].
  intros (n & Hn & H%Ok_inj)%bind_ok. exists n. split; [eauto|].
  destruct (Z.leb_spec n 0); [discriminate H|]. apply message_nil', Z.ltb_ge in H. lia.
Qed.

Lemma flags_nil flags flag (what text : pystr) : (if in_list flag flags then [] else [what ++ text]) = [] -> flag ∈ flags.
Proof. intros H%message_nil. by apply in_list_spec. Qed.

(** When the size checks of an existing nftables template are silent, each
    connection-count set and each SYN-rate set is declared with the flag [dynamic] and a
    size between 1 and 1048576, and each SYN-rate set also with the flag [timeout] and a
    timeout between 1 and 60 seconds: a flood cannot grow or pin kernel memory without
    bound. *)
Theorem dynamic_sets_bounded w p :
  exists_file w p = true -> validate_connlimit_set_sizes w p = Ok [] -> validate_syn_rate_set_bounds w p = Ok [] ->
  exists raw, read_text w p = Ok raw /\
    (forall name, name ∈ CONNLIMIT_SETS ++ SYN_RATE_SETS -> exists block n, nft_set_block raw name = Some block /\
      u "dynamic" ∈ set_flags block /\ declared_size block n /\ (0 < n <= 1048576)%Z) /\
    (forall name, name ∈ SYN_RATE_SETS -> exists block n, nft_set_block raw name = Some block /\
      u "timeout" ∈ set_flags block /\ declared_timeout block n /\ (0 < n <= 60)%Z).
Proof.
  intros Hf. unfold validate_connlimit_set_sizes, validate_syn_rate_set_bounds. rewrite Hf. cbn [negb].
  intros (raw & Hr & Hc)%bind_ok. rewrite Hr. change (rbind (Ok raw) ?f) with (f raw). cbv beta. intros Hs.
  pose proof (proj1 (mapR_silent _ _) Hc) as Hconn. pose proof (proj1 (mapR_silent _ _) Hs) as Hsyn. exists raw. split; [done|].
  assert (Hboth : forall name, name ∈ SYN_RATE_SETS -> exists block n t, nft_set_block raw name = Some block /\
    u "dynamic" ∈ set_flags block /\ declared_size block n /\ (0 < n <= 1048576)%Z /\
    u "timeout" ∈ set_flags block /\ declared_timeout block t /\ (0 < t <= 60)%Z).
  { intros name Hin. specialize (Hsyn name Hin). unfold syn_rate_set_errors in Hsyn. destruct (nft_set_block raw name) as [block|]; [|discriminate Hsyn].
    apply bind_ok in Hsyn as (size & H1 & (timeout & H2 & H%Ok_inj)%bind_ok).
    apply app_nil in H as [Hd [Ht [-> ->]%app_nil]%app_nil]. apply set_size_nil in H1 as (n & ? & ?). apply syn_timeout_nil in H2 as (t & ? & ?).
    exists block, n, t. unfold MAX_SYN_RATE_SET_SIZE, MAX_SYN_RATE_SET_TIMEOUT_SECONDS in *. repeat split; try done; try lia; by eapply flags_nil. }
  split.
  - intros name [Hin|Hin]%elem_of_app; [|destruct (Hboth name Hin) as (block & n & t & ? & ? & ? & ? & _); by exists block, n].
    specialize (Hconn name Hin). unfold connlimit_set_errors in Hconn. destruct (nft_set_block raw name) as [block|]; [|discriminate Hconn].
    apply bind_ok in Hconn as (size & H1 & H%Ok_inj). apply app_nil in H as [Hd ->]. apply set_size_nil in H1 as (n & ? & ?).
    exists block, n. unfold MAX_CONNLIMIT_SET_SIZE in *. repeat split; try done; try lia. by eapply flags_nil.
  - intros name Hin. destruct (Hboth name Hin) as (block & n & t & ? & _ & _ & _ & ? & ? & ?). by exists block, t.
Qed.

Lemma dynamic_sets_bounded_witness :
  validate_syn_rate_set_bounds shipped_world nft_path = Ok [] /\
  exists raw, read_text shipped_world nft_path = Ok raw /\
    (forall name, name ∈ CONNLIMIT_SETS ++ SYN_RATE_SETS -> exists block n, nft_set_block raw name = Some block /\
      u "dynamic" ∈ set_flags block /\ declared_size block n /\ (0 < n <= 1048576)%Z) /\
    (forall name, name ∈ SYN_RATE_SETS -> exists block n, nft_set_block raw name = Some block /\
      u "timeout" ∈ set_flags block /\ declared_timeout block n /\ (0 < n <= 60)%Z).
Proof.
  split; [vm_compute; reflexivity|]. apply (dynamic_sets_bounded shipped_world nft_path); vm_compute; reflexivity.
Defined.

(** ** Inputs on which the validator stops with a traceback *)

(** A size written with a superscript digit passes [isdigit] and fails in [int]. *)
Lemma superscript_size_raises what limit :
  exists e, set_size_errors what (u "size " ++ [178%N]) limit = Raise e /\ exn_class e = ValueError.
Proof. eexists. split; [vm_compute; reflexivity|]. reflexivity. Qed.

(** A configuration that is a JSON list has no [get]. *)
Lemma list_config_raises :
  exists e, validate_edge_port_coverage (shipped_with config_path (u "[]")) config_path nft_path = Raise e /\
    exn_class e = AttributeError.
Proof. eexists. split; [vm_compute; reflexivity|]. reflexivity. Qed.
