(* ===== verification/EdgeProbe.v ===== *)
(** * EdgeProbe: the benchmark's probe of the template validator

    [tools/run_local_bench.py]: the nftables, sysctl and systemd texts that
    [run_edge_template_port_coverage_probe] writes, the sequence of files and validator
    runs, and the verdicts it reports.  The validator is the one of [EdgeMain]: the
    probe's verdicts are computed, not assumed. *)

From S2P Require Import Prelude Unicode PyStr PyFloat PyVal Json LocalAssert EdgeConfig EdgeHost EdgeNft EdgeMain.

(** ** Templates *)

Definition ln (s : pystr) : pystr := s ++ [10%N].

(** The keyword arguments of [edge_nft_template] and their defaults. *)
Definition nft_defaults : pydict :=
  [(u "include_udp_drop", VBool true); (u "ipv6_prefix_syn", VBool true); (u "ipv6_prefix_connlimit", VBool true);
   (u "ipv6_syn_l4proto", VBool true); (u "ipv6_connlimit_l4proto", VBool true); (u "ipv6_icmp_l4proto", VBool true);
   (u "generic_tcp_l4proto", VBool true); (u "include_icmpv4_control_exemption", VBool true);
   (u "icmpv4_control_after_drop", VBool false); (u "include_icmpv6_control_exemption", VBool true);
   (u "icmpv6_control_after_drop", VBool false); (u "connlimit_set_size", VBool true); (u "connlimit_count", VInt 128);
   (u "syn_rate_set_size", VBool true); (u "syn_rate_set_timeout", VBool true)].

Definition keyword (given : pydict) (name : pystr) : pyval :=
  match dget name given with Some v => v | None => or_none (dget name nft_defaults) end.

Definition edge_nft_template (elements : pystr) (given : pydict) : pystr :=
  let on name := truthy (keyword given name) in
  let udp_drop := if on (u "include_udp_drop") then ln (u "    meta l4proto udp udp dport @protected_tcp_ports drop") else [] in
  let connlimit_size := if on (u "connlimit_set_size") then ln (u "    size 65535") else [] in
  let connlimit_count := match keyword given (u "connlimit_count") with VInt n => n | _ => 0%Z end in
  let syn_rate_size := if on (u "syn_rate_set_size") then ln (u "    size 65535") else [] in
  let syn_rate_timeout_flag := if on (u "syn_rate_set_timeout") then u "dynamic,timeout" else u "dynamic" in
  let syn_rate_timeout := if on (u "syn_rate_set_timeout") then ln (u "    timeout 10s") else [] in
  let key (prefix : bool) := if prefix then u "ip6 saddr and ffff:ffff:ffff:ffff:: . tcp dport" else u "ip6 saddr . tcp dport" in
  let syn_key := key (on (u "ipv6_prefix_syn")) in
  let connlimit_key := key (on (u "ipv6_prefix_connlimit")) in
  let protocol (l4proto : bool) := if l4proto then u "meta nfproto ipv6 meta l4proto tcp" else u "ip6 nexthdr tcp" in
  let syn_protocol := protocol (on (u "ipv6_syn_l4proto")) in
  let connlimit_protocol := protocol (on (u "ipv6_connlimit_l4proto")) in
  let generic_tcp_prefix := if on (u "generic_tcp_l4proto") then u "meta l4proto tcp " else [] in
  let icmp_protocol := if on (u "ipv6_icmp_l4proto") then u "meta nfproto ipv6 meta l4proto ipv6-icmp" else u "ip6 nexthdr ipv6-icmp" in
  let icmpv4_control_rule :=
    if on (u "include_icmpv4_control_exemption")
    then ln (u "    ip protocol icmp icmp type { destination-unreachable, time-exceeded, parameter-problem } accept") else [] in
  let icmpv4_drop_rule := ln (u "    ip protocol icmp limit rate over 100/second burst 200 packets drop") in
  let icmpv4_rules := if on (u "icmpv4_control_after_drop") then icmpv4_drop_rule ++ icmpv4_control_rule
                      else icmpv4_control_rule ++ icmpv4_drop_rule in
  let icmpv6_control_rule :=
    if on (u "include_icmpv6_control_exemption")
    then ln (u "    meta nfproto ipv6 meta l4proto ipv6-icmp icmpv6 type { destination-unreachable, packet-too-big, time-exceeded, parameter-problem, nd-router-solicit, nd-router-advert, nd-neighbor-solicit, nd-neighbor-advert } accept")
    else [] in
  let icmpv6_drop_rule := ln (u "    " ++ icmp_protocol ++ u " limit rate over 100/second burst 200 packets drop") in
  let icmpv6_rules := if on (u "icmpv6_control_after_drop") then icmpv6_drop_rule ++ icmpv6_control_rule
                      else icmpv6_control_rule ++ icmpv6_drop_rule in
  let icmp_rules := icmpv4_rules ++ icmpv6_rules in
  mjoin [
    ln (u "#!/usr/sbin/nft -f");
    ln (u "table inet altura_prot_edge {");
    ln (u "  set protected_tcp_ports {");
    ln (u "    type inet_service");
    ln (u "    elements = " ++ elements);
    ln (u "  }");
    ln [];
    ln (u "  set tcp4_connlimit {");
    ln (u "    type ipv4_addr . inet_service");
    ln (connlimit_size ++ u "    flags dynamic");
    ln (u "  }");
    ln [];
    ln (u "  set tcp6_connlimit {");
    ln (u "    type ipv6_addr . inet_service");
    ln (connlimit_size ++ u "    flags dynamic");
    ln (u "  }");
    ln [];
    ln (u "  set tcp4_syn_rate {");
    ln (u "    type ipv4_addr . inet_service");
    ln (syn_rate_size ++ u "    flags " ++ syn_rate_timeout_flag);
    ln (syn_rate_timeout ++ u "  }");
    ln [];
    ln (u "  set tcp6_syn_rate {");
    ln (u "    type ipv6_addr . inet_service");
    ln (syn_rate_size ++ u "    flags " ++ syn_rate_timeout_flag);
    ln (syn_rate_timeout ++ u "  }");
    ln [];
    ln (u "  chain preraw {");
    ln (u "    type filter hook prerouting priority raw; policy accept;");
    ln (u "    " ++ generic_tcp_prefix ++ u "tcp dport @protected_tcp_ports tcp flags & (fin|syn|rst|ack) == 0 drop");
    ln (u "    " ++ generic_tcp_prefix ++ u "tcp dport @protected_tcp_ports tcp flags & (fin|syn|rst|psh|ack|urg) == fin|psh|urg drop");
    ln (udp_drop ++ u "    ip protocol tcp tcp dport @protected_tcp_ports tcp flags & (fin|syn|rst|ack) == syn update @tcp4_syn_rate { ip saddr . tcp dport limit rate over 200/second burst 400 packets } drop");
    ln (u "    " ++ syn_protocol ++ u " tcp dport @protected_tcp_ports tcp flags & (fin|syn|rst|ack) == syn update @tcp6_syn_rate { " ++ syn_key ++ u " limit rate over 200/second burst 400 packets } drop");
    ln (u "    " ++ generic_tcp_prefix ++ u "tcp dport @protected_tcp_ports tcp flags & (fin|syn|rst|ack) == syn limit rate over 5000/second burst 10000 packets drop");
    ln (u "  }");
    ln [];
    ln (u "  chain input {");
    ln (u "    type filter hook input priority filter; policy accept;");
    ln (u "    " ++ generic_tcp_prefix ++ u "tcp dport @protected_tcp_ports ct state new tcp flags & (fin|syn|rst|ack) != syn drop");
    ln (u "    ip protocol tcp tcp dport @protected_tcp_ports ct state new add @tcp4_connlimit { ip saddr . tcp dport ct count over " ++ dec_Z connlimit_count ++ u " } drop");
    ln (u "    " ++ connlimit_protocol ++ u " tcp dport @protected_tcp_ports ct state new add @tcp6_connlimit { " ++ connlimit_key ++ u " ct count over " ++ dec_Z connlimit_count ++ u " } drop");
    ln (u "    " ++ generic_tcp_prefix ++ u "tcp dport @protected_tcp_ports ct state new limit rate over 5000/second burst 10000 packets drop");
    ln (rstrip_by is_space icmp_rules);
    ln (u "  }");
    ln (u "}")].

Definition sysctl_assignment_table : list (pystr * pystr) :=
  [(u "net.ipv4.tcp_syncookies", u "1");
   (u "net.ipv4.tcp_max_syn_backlog", u "16384");
   (u "net.ipv4.tcp_synack_retries", u "3");
   (u "net.core.somaxconn", u "65535");
   (u "net.core.netdev_max_backlog", u "250000");
   (u "net.ipv4.tcp_fin_timeout", u "15");
   (u "net.netfilter.nf_conntrack_max", u "1048576");
   (u "net.netfilter.nf_conntrack_tcp_timeout_syn_recv", u "30");
   (u "net.ipv4.ipfrag_high_thresh", u "4194304");
   (u "net.ipv4.ipfrag_time", u "15");
   (u "net.ipv4.ipfrag_max_dist", u "64");
   (u "net.ipv6.ip6frag_high_thresh", u "4194304");
   (u "net.ipv6.ip6frag_low_thresh", u "3145728");
   (u "net.ipv6.ip6frag_time", u "15")].

Definition edge_sysctl_template (overrides : list (pystr * pystr)) : pystr :=
  mjoin ((fun kv => kv.1 ++ u " = " ++ ln kv.2) <$> dupdate sysctl_assignment_table overrides).

Definition service_value_table : list (pystr * pystr) :=
  [(u "Type", u "simple");
   (u "User", u "altura-prot");
   (u "Group", u "altura-prot");
   (u "WorkingDirectory", u "/var/lib/altura-prot");
   (u "ExecStart", u "/usr/local/bin/altura-prot --config /etc/altura-prot/config.json");
   (u "Restart", u "on-failure");
   (u "RestartSec", u "2s");
   (u "TimeoutStopSec", u "15s");
   (u "LimitNOFILE", u "1048576");
   (u "TasksMax", u "32768");
   (u "MemoryAccounting", u "true");
   (u "MemoryHigh", u "2G");
   (u "MemoryMax", u "3G");
   (u "ConfigurationDirectory", u "altura-prot");
   (u "StateDirectory", u "altura-prot");
   (u "LogsDirectory", u "altura-prot");
   (u "ReadWritePaths", u "/var/lib/altura-prot /var/log/altura-prot");
   (u "AmbientCapabilities", u "CAP_NET_BIND_SERVICE");
   (u "CapabilityBoundingSet", u "CAP_NET_BIND_SERVICE");
   (u "NoNewPrivileges", u "true");
   (u "PrivateTmp", u "true");
   (u "PrivateDevices", u "true");
   (u "ProtectSystem", u "strict");
   (u "ProtectHome", u "true");
   (u "ProtectKernelTunables", u "true");
   (u "ProtectKernelModules", u "true");
   (u "ProtectControlGroups", u "true");
   (u "RestrictAddressFamilies", u "AF_UNIX AF_INET AF_INET6");
   (u "RestrictNamespaces", u "true");
   (u "RestrictRealtime", u "true");
   (u "RestrictSUIDSGID", u "true");
   (u "LockPersonality", u "true");
   (u "MemoryDenyWriteExecute", u "true");
   (u "SystemCallArchitectures", u "native")].

Definition edge_systemd_unit_template (overrides : list (pystr * pystr)) : pystr :=
  let service_lines := join [10%N] ((fun kv => kv.1 ++ u "=" ++ kv.2) <$> dupdate service_value_table overrides) in
  mjoin [
    ln (u "[Unit]");
    ln (u "Description=AlturaProt L7 DDoS protection proxy");
    ln (u "Wants=network-online.target");
    ln (u "After=network-online.target");
    ln (u "StartLimitIntervalSec=60");
    ln (u "StartLimitBurst=5");
    ln [];
    ln (u "[Service]");
    ln (service_lines);
    ln [];
    ln (u "[Install]");
    ln (u "WantedBy=multi-user.target")].

(** ** The steps of the probe *)

Inductive probe_file := ConfigFile | NftFile | SysctlFile | SystemdFile.

#[export] Instance probe_file_eq_dec : EqDecision probe_file.
Proof. solve_decision. Defined.

Inductive probe_step :=
| WriteText (f : probe_file) (text : pystr)
| RunValidator (name : pystr).

Definition probe_public_config : pyval :=
  VDict [(u "http", VDict [(u "listen", VStr (u "0.0.0.0:8080")); (u "listen_backlog", VInt 4096)]); (u "tcp", VList [VDict [(u "listen", VStr (u "[::]:7000")); (u "listen_backlog", VInt 4096)]])].

Definition high_capacity_config : pyval :=
  VDict [(u "runtime", VDict [(u "min_nofile", VInt 65536)]); (u "http", VDict [(u "listen", VStr (u "0.0.0.0:8080")); (u "listen_backlog", VInt 4096); (u "upstream_pool_max_idle_per_host", VInt 1000); (u "limits", VDict [(u "max_connections", VInt 40000); (u "max_in_flight_requests", VInt 40000)])]); (u "tcp", VList [VDict [(u "listen", VStr (u "[::]:7000")); (u "listen_backlog", VInt 4096); (u "limits", VDict [(u "max_connections", VInt 20000)])]])].

Definition low_cap_public_config : pyval :=
  VDict [(u "http", VDict [(u "listen", VStr (u "0.0.0.0:8080")); (u "listen_backlog", VInt 4096)]); (u "tcp", VList [VDict [(u "listen", VStr (u "[::]:7000")); (u "listen_backlog", VInt 4096); (u "limits", VDict [(u "max_connections_per_ip", VInt 64)])]])].

Definition probe_steps : list probe_step :=
  [WriteText SysctlFile (edge_sysctl_template []);
   WriteText SystemdFile (edge_systemd_unit_template []);
   WriteText ConfigFile (dumps default_style probe_public_config);
   WriteText NftFile (edge_nft_template (u "{ 80, 443, 8080 }") []);
   RunValidator (u "missing");
   WriteText NftFile (edge_nft_template (u "{ 80, 443, 7000, 8080 }") []);
   RunValidator (u "covered");
   WriteText ConfigFile (dumps default_style high_capacity_config);
   WriteText SystemdFile (edge_systemd_unit_template [(u "LimitNOFILE", u "65536")]);
   RunValidator (u "insufficient_systemd_capacity");
   WriteText SystemdFile (edge_systemd_unit_template [(u "LimitNOFILE", u "200000")]);
   RunValidator (u "aligned_systemd_capacity");
   WriteText SystemdFile (edge_systemd_unit_template []);
   WriteText ConfigFile (dumps default_style probe_public_config);
   WriteText ConfigFile (dumps default_style low_cap_public_config);
   WriteText NftFile (edge_nft_template (u "{ 80, 443, 7000, 8080 }") []);
   RunValidator (u "excessive_connlimit_threshold");
   WriteText NftFile (edge_nft_template (u "{ 80, 443, 7000, 8080 }") [(u "connlimit_count", VInt 64)]);
   RunValidator (u "aligned_low_cap_connlimit_threshold");
   WriteText ConfigFile (dumps default_style probe_public_config);
   WriteText NftFile (edge_nft_template (u "{ 80, 443, 7000, 8080 }") [(u "include_udp_drop", VBool false)]);
   RunValidator (u "missing_udp_drop");
   WriteText NftFile (edge_nft_template (u "{ 80, 443, 7000, 8080 }") [(u "generic_tcp_l4proto", VBool false)]);
   RunValidator (u "missing_generic_tcp_l4proto");
   WriteText NftFile (edge_nft_template (u "{ 80, 443, 7000, 8080 }") [(u "ipv6_prefix_syn", VBool false)]);
   RunValidator (u "missing_ipv6_prefix_syn");
   WriteText NftFile (edge_nft_template (u "{ 80, 443, 7000, 8080 }") [(u "ipv6_prefix_connlimit", VBool false)]);
   RunValidator (u "missing_ipv6_prefix_connlimit");
   WriteText NftFile (edge_nft_template (u "{ 80, 443, 7000, 8080 }") [(u "ipv6_syn_l4proto", VBool false)]);
   RunValidator (u "missing_ipv6_syn_l4proto");
   WriteText NftFile (edge_nft_template (u "{ 80, 443, 7000, 8080 }") [(u "ipv6_connlimit_l4proto", VBool false)]);
   RunValidator (u "missing_ipv6_connlimit_l4proto");
   WriteText NftFile (edge_nft_template (u "{ 80, 443, 7000, 8080 }") [(u "ipv6_icmp_l4proto", VBool false)]);
   RunValidator (u "missing_ipv6_icmp_l4proto");
   WriteText NftFile (edge_nft_template (u "{ 80, 443, 7000, 8080 }") [(u "include_icmpv4_control_exemption", VBool false)]);
   RunValidator (u "missing_icmpv4_control_exemption");
   WriteText NftFile (edge_nft_template (u "{ 80, 443, 7000, 8080 }") [(u "icmpv4_control_after_drop", VBool true)]);
   RunValidator (u "late_icmpv4_control_exemption");
   WriteText NftFile (edge_nft_template (u "{ 80, 443, 7000, 8080 }") [(u "include_icmpv6_control_exemption", VBool false)]);
   RunValidator (u "missing_icmpv6_control_exemption");
   WriteText NftFile (edge_nft_template (u "{ 80, 443, 7000, 8080 }") [(u "icmpv6_control_after_drop", VBool true)]);
   RunValidator (u "late_icmpv6_control_exemption");
   WriteText NftFile (edge_nft_template (u "{ 80, 443, 7000, 8080 }") [(u "connlimit_set_size", VBool false)]);
   RunValidator (u "missing_connlimit_set_size");
   WriteText NftFile (edge_nft_template (u "{ 80, 443, 7000, 8080 }") [(u "syn_rate_set_size", VBool false)]);
   RunValidator (u "missing_syn_rate_set_size");
   WriteText NftFile (edge_nft_template (u "{ 80, 443, 7000, 8080 }") [(u "syn_rate_set_timeout", VBool false)]);
   RunValidator (u "missing_syn_rate_set_timeout");
   WriteText NftFile (edge_nft_template (u "{ 80, 443, 7000, 8080 }") []);
   WriteText SysctlFile (u "net.core.somaxconn = 65535" ++ [10%N]);
   RunValidator (u "missing_fragment_sysctls");
   WriteText SysctlFile (edge_sysctl_template [(u "net.ipv4.ipfrag_time", u "60")]);
   RunValidator (u "excessive_fragment_time");
   WriteText SysctlFile (edge_sysctl_template [(u "net.ipv6.ip6frag_low_thresh", u "8388608"); (u "net.ipv6.ip6frag_high_thresh", u "4194304")]);
   RunValidator (u "invalid_fragment_thresholds");
   WriteText SysctlFile (edge_sysctl_template []);
   WriteText SystemdFile (edge_systemd_unit_template [(u "LimitNOFILE", u "1024")]);
   RunValidator (u "insufficient_systemd_nofile");
   WriteText SystemdFile (edge_systemd_unit_template [(u "ProtectSystem", u "false")]);
   RunValidator (u "weak_systemd_sandbox");
   WriteText SystemdFile (edge_systemd_unit_template [(u "AmbientCapabilities", u "CAP_NET_BIND_SERVICE CAP_NET_RAW")]);
   RunValidator (u "excessive_systemd_capabilities");
   WriteText SystemdFile (edge_systemd_unit_template []);
   WriteText ConfigFile (dumps default_style (VDict [(u "http", VDict [(u "listen", VStr (u "127.0.0.1:8080")); (u "listen_backlog", VInt 4096)]); (u "tcp", VList [VDict [(u "listen", VStr (u "[::1]:7000")); (u "listen_backlog", VInt 4096)]])]));
   WriteText NftFile (edge_nft_template (u "{ 80, 443, 8080 }") []);
   RunValidator (u "loopback")].


(** ** Validator processes *)

(** Exit status and standard error. *)
Record completed := Completed { c_status : Z; c_stderr : pystr }.

Definition file_path (tmp_path : pystr) (f : probe_file) : pystr :=
  tmp_path ++ u "/" ++ match f with
                       | ConfigFile => u "edge-port-coverage-config.json"
                       | NftFile => u "edge-port-coverage.nft"
                       | SysctlFile => u "edge-port-coverage-sysctl.conf"
                       | SystemdFile => u "altura-prot.service"
                       end.

(** The host: everything but the four files. *)
Definition probe_world (host : edge_world) (tmp_path : pystr) (files : probe_file -> option pystr) : edge_world :=
  let text f := Ok <$> files f in
  EdgeWorld (fun p => if str_eqb p (file_path tmp_path ConfigFile) then text ConfigFile
                      else if str_eqb p (file_path tmp_path NftFile) then text NftFile
                      else if str_eqb p (file_path tmp_path SysctlFile) then text SysctlFile
                      else if str_eqb p (file_path tmp_path SystemdFile) then text SystemdFile
                      else ew_file host p)
            (ew_service host) (ew_which host) (ew_run host) (ew_system host) (ew_set_order host).

Definition probe_options (tmp_path : pystr) : edge_options :=
  EdgeOptions (file_path tmp_path ConfigFile) (file_path tmp_path NftFile) (file_path tmp_path SysctlFile)
    (file_path tmp_path SystemdFile) true.

(** A traceback exits with 1 and ends with the exception's text. *)
Definition validator_process (w : edge_world) (o : edge_options) : completed :=
  match edge_main w o with
  | Ok (code, out) => Completed code (mjoin (omap (fun l => match l with OnStderr s => Some (ln s) | OnStdout _ => None end) out))
  | Raise e => Completed 1 (ln (exn_msg e))
  end.

Section probe.
Context (host : edge_world) (tmp_path : pystr).

Definition probe_run (st : (probe_file -> option pystr) * list (pystr * completed)) (step : probe_step) :
    (probe_file -> option pystr) * list (pystr * completed) :=
  match step with
  | WriteText f text => (fun g => if decide (g = f) then Some text else st.1 g, st.2)
  | RunValidator name => (st.1, st.2 ++ [(name, validator_process (probe_world host tmp_path st.1) (probe_options tmp_path))])
  end.

Definition probe_results : list (pystr * completed) := (foldl probe_run (fun _ => None, []) probe_steps).2.
End probe.

(** ** The report *)

(** What a field of the report is computed from. *)
Inductive probe_field :=
| Status (run : pystr)
| Stderr (run : pystr)
| Allowed (run : pystr)
| Rejected (run needle : pystr).

Definition probe_fields : list (pystr * probe_field) :=
  [(u "missing_public_port_status", Status (u "missing"));
   (u "missing_public_port_stderr", Stderr (u "missing"));
   (u "covered_public_ports_status", Status (u "covered"));
   (u "insufficient_systemd_capacity_status", Status (u "insufficient_systemd_capacity"));
   (u "insufficient_systemd_capacity_stderr", Stderr (u "insufficient_systemd_capacity"));
   (u "aligned_systemd_capacity_status", Status (u "aligned_systemd_capacity"));
   (u "aligned_systemd_capacity_stderr", Stderr (u "aligned_systemd_capacity"));
   (u "excessive_connlimit_threshold_status", Status (u "excessive_connlimit_threshold"));
   (u "excessive_connlimit_threshold_stderr", Stderr (u "excessive_connlimit_threshold"));
   (u "aligned_low_cap_connlimit_threshold_status", Status (u "aligned_low_cap_connlimit_threshold"));
   (u "aligned_low_cap_connlimit_threshold_stderr", Stderr (u "aligned_low_cap_connlimit_threshold"));
   (u "missing_udp_drop_status", Status (u "missing_udp_drop"));
   (u "missing_udp_drop_stderr", Stderr (u "missing_udp_drop"));
   (u "missing_generic_tcp_l4proto_status", Status (u "missing_generic_tcp_l4proto"));
   (u "missing_generic_tcp_l4proto_stderr", Stderr (u "missing_generic_tcp_l4proto"));
   (u "missing_ipv6_prefix_syn_status", Status (u "missing_ipv6_prefix_syn"));
   (u "missing_ipv6_prefix_syn_stderr", Stderr (u "missing_ipv6_prefix_syn"));
   (u "missing_ipv6_prefix_connlimit_status", Status (u "missing_ipv6_prefix_connlimit"));
   (u "missing_ipv6_prefix_connlimit_stderr", Stderr (u "missing_ipv6_prefix_connlimit"));
   (u "missing_ipv6_syn_l4proto_status", Status (u "missing_ipv6_syn_l4proto"));
   (u "missing_ipv6_syn_l4proto_stderr", Stderr (u "missing_ipv6_syn_l4proto"));
   (u "missing_ipv6_connlimit_l4proto_status", Status (u "missing_ipv6_connlimit_l4proto"));
   (u "missing_ipv6_connlimit_l4proto_stderr", Stderr (u "missing_ipv6_connlimit_l4proto"));
   (u "missing_ipv6_icmp_l4proto_status", Status (u "missing_ipv6_icmp_l4proto"));
   (u "missing_ipv6_icmp_l4proto_stderr", Stderr (u "missing_ipv6_icmp_l4proto"));
   (u "missing_icmpv4_control_exemption_status", Status (u "missing_icmpv4_control_exemption"));
   (u "missing_icmpv4_control_exemption_stderr", Stderr (u "missing_icmpv4_control_exemption"));
   (u "late_icmpv4_control_exemption_status", Status (u "late_icmpv4_control_exemption"));
   (u "late_icmpv4_control_exemption_stderr", Stderr (u "late_icmpv4_control_exemption"));
   (u "missing_icmpv6_control_exemption_status", Status (u "missing_icmpv6_control_exemption"));
   (u "missing_icmpv6_control_exemption_stderr", Stderr (u "missing_icmpv6_control_exemption"));
   (u "late_icmpv6_control_exemption_status", Status (u "late_icmpv6_control_exemption"));
   (u "late_icmpv6_control_exemption_stderr", Stderr (u "late_icmpv6_control_exemption"));
   (u "missing_connlimit_set_size_status", Status (u "missing_connlimit_set_size"));
   (u "missing_connlimit_set_size_stderr", Stderr (u "missing_connlimit_set_size"));
   (u "missing_syn_rate_set_size_status", Status (u "missing_syn_rate_set_size"));
   (u "missing_syn_rate_set_size_stderr", Stderr (u "missing_syn_rate_set_size"));
   (u "missing_syn_rate_set_timeout_status", Status (u "missing_syn_rate_set_timeout"));
   (u "missing_syn_rate_set_timeout_stderr", Stderr (u "missing_syn_rate_set_timeout"));
   (u "missing_fragment_sysctls_status", Status (u "missing_fragment_sysctls"));
   (u "missing_fragment_sysctls_stderr", Stderr (u "missing_fragment_sysctls"));
   (u "excessive_fragment_time_status", Status (u "excessive_fragment_time"));
   (u "excessive_fragment_time_stderr", Stderr (u "excessive_fragment_time"));
   (u "invalid_fragment_thresholds_status", Status (u "invalid_fragment_thresholds"));
   (u "invalid_fragment_thresholds_stderr", Stderr (u "invalid_fragment_thresholds"));
   (u "insufficient_systemd_nofile_status", Status (u "insufficient_systemd_nofile"));
   (u "insufficient_systemd_nofile_stderr", Stderr (u "insufficient_systemd_nofile"));
   (u "weak_systemd_sandbox_status", Status (u "weak_systemd_sandbox"));
   (u "weak_systemd_sandbox_stderr", Stderr (u "weak_systemd_sandbox"));
   (u "excessive_systemd_capabilities_status", Status (u "excessive_systemd_capabilities"));
   (u "excessive_systemd_capabilities_stderr", Stderr (u "excessive_systemd_capabilities"));
   (u "loopback_missing_port_status", Status (u "loopback"));
   (u "missing_public_port_rejected", Rejected (u "missing") (u "7000"));
   (u "covered_public_ports_allowed", Allowed (u "covered"));
   (u "aligned_systemd_capacity_allowed", Allowed (u "aligned_systemd_capacity"));
   (u "insufficient_systemd_capacity_rejected", Rejected (u "insufficient_systemd_capacity") (u "required descriptor budget"));
   (u "aligned_low_cap_connlimit_threshold_allowed", Allowed (u "aligned_low_cap_connlimit_threshold"));
   (u "excessive_connlimit_threshold_rejected", Rejected (u "excessive_connlimit_threshold") (u "connection cap 64"));
   (u "missing_udp_drop_rejected", Rejected (u "missing_udp_drop") (u "protected TCP service ports"));
   (u "generic_tcp_backstops_allowed", Allowed (u "covered"));
   (u "missing_generic_tcp_l4proto_rejected", Rejected (u "missing_generic_tcp_l4proto") (u "generic TCP extension-safe"));
   (u "missing_ipv6_prefix_syn_backstop_rejected", Rejected (u "missing_ipv6_prefix_syn") (u "IPv6 /64 SYN backstop"));
   (u "missing_ipv6_prefix_connlimit_rejected", Rejected (u "missing_ipv6_prefix_connlimit") (u "IPv6 /64 connection-count backstop"));
   (u "ipv6_prefix_backstops_allowed", Allowed (u "covered"));
   (u "missing_ipv6_syn_l4proto_rejected", Rejected (u "missing_ipv6_syn_l4proto") (u "extension-safe SYN protocol match"));
   (u "missing_ipv6_connlimit_l4proto_rejected", Rejected (u "missing_ipv6_connlimit_l4proto") (u "extension-safe connection-count protocol match"));
   (u "missing_ipv6_icmp_l4proto_rejected", Rejected (u "missing_ipv6_icmp_l4proto") (u "extension-safe ICMPv6 flood protocol match"));
   (u "ipv6_extension_safe_protocols_allowed", Allowed (u "covered"));
   (u "icmpv4_control_exemption_allowed", Allowed (u "covered"));
   (u "missing_icmpv4_control_exemption_rejected", Rejected (u "missing_icmpv4_control_exemption") (u "ICMPv4 control exemption"));
   (u "late_icmpv4_control_exemption_rejected", Rejected (u "late_icmpv4_control_exemption") (u "must appear before"));
   (u "icmpv6_control_exemption_allowed", Allowed (u "covered"));
   (u "missing_icmpv6_control_exemption_rejected", Rejected (u "missing_icmpv6_control_exemption") (u "ICMPv6 control exemption"));
   (u "late_icmpv6_control_exemption_rejected", Rejected (u "late_icmpv6_control_exemption") (u "must appear before"));
   (u "connlimit_set_sizes_allowed", Allowed (u "covered"));
   (u "missing_connlimit_set_size_rejected", Rejected (u "missing_connlimit_set_size") (u "connlimit set"));
   (u "syn_rate_set_bounds_allowed", Allowed (u "covered"));
   (u "missing_syn_rate_set_size_rejected", Rejected (u "missing_syn_rate_set_size") (u "SYN rate set"));
   (u "missing_syn_rate_set_timeout_rejected", Rejected (u "missing_syn_rate_set_timeout") (u "SYN rate set"));
   (u "fragment_sysctls_allowed", Allowed (u "covered"));
   (u "missing_fragment_sysctls_rejected", Rejected (u "missing_fragment_sysctls") (u "missing fragment reassembly sysctl bounds"));
   (u "excessive_fragment_time_rejected", Rejected (u "excessive_fragment_time") (u "fragment queue retention cap"));
   (u "invalid_fragment_thresholds_rejected", Rejected (u "invalid_fragment_thresholds") (u "ip6frag_low_thresh must be less than or equal"));
   (u "systemd_unit_allowed", Allowed (u "covered"));
   (u "insufficient_systemd_nofile_rejected", Rejected (u "insufficient_systemd_nofile") (u "LimitNOFILE=1024"));
   (u "weak_systemd_sandbox_rejected", Rejected (u "weak_systemd_sandbox") (u "ProtectSystem=false"));
   (u "excessive_systemd_capabilities_rejected", Rejected (u "excessive_systemd_capabilities") (u "AmbientCapabilities"));
   (u "loopback_missing_port_allowed", Allowed (u "loopback"))].

Definition run_of (results : list (pystr * completed)) (name : pystr) : completed := default (Completed 0 []) (dget name results).

Definition field_value (results : list (pystr * completed)) (f : probe_field) : pyval :=
  match f with
  | Status run => VInt (c_status (run_of results run))
  | Stderr run => VStr (strip (c_stderr (run_of results run)))
  | Allowed run => VBool (c_status (run_of results run) =? 0)%Z
  | Rejected run needle =>
      VBool (negb (c_status (run_of results run) =? 0)%Z && contains needle (c_stderr (run_of results run)))
  end.

Definition run_edge_template_port_coverage_probe (host : edge_world) (tmp_path : pystr) : pydict :=
  let results := probe_results host tmp_path in
  (fun nf => (nf.1, field_value results nf.2)) <$> probe_fields.

(** ** The probe passes the release gate *)

(** A Linux host without [nft] and [sysctl]. *)
Definition ci_host : edge_world :=
  EdgeWorld (fun _ => None) (fun _ => None) (fun _ => None) (fun _ => (0%Z, [], [])) (u "Linux") id.

Definition gate_prefix : pystr := u "guardrails.edge_template_port_coverage.".

(** The part of a benchmark report that the probe fills. *)
Definition probe_report (probe : pydict) : pydict :=
  [(u "guardrails", VDict [(u "edge_template_port_coverage", VDict probe)])].

Definition gate_checks : list (pystr * pystr) := filter (fun check => starts_with gate_prefix check.1 = true) REQUIRED_TRUE_CHECKS.

Definition passes_gate (report : pydict) : bool :=
  forallb (fun check => match true_check_errors report check with [] => true | _ => false end) gate_checks.

Lemma passes_gate_spec report check : passes_gate report = true -> check ∈ REQUIRED_TRUE_CHECKS ->
  starts_with gate_prefix check.1 = true -> true_check_errors report check = [].
Proof.
  unfold passes_gate. rewrite forallb_forall. intros H Hin Hp. specialize (H check). destruct (true_check_errors report check); [done|].
  discriminate H. apply list_elem_of_In. unfold gate_checks. by apply list_elem_of_filter.
Qed.

Lemma probe_passes : passes_gate (probe_report (run_edge_template_port_coverage_probe ci_host (u "/tmp/bench"))) = true.
Proof. vm_compute. reflexivity. Qed.

