(* ===== verification/BenchEcho.v ===== *)
(** * BenchEcho: the throughput measurements of the local benchmark

    [tools/run_local_bench.py]: the HTTP flood it starts as a program of its own, and the
    TCP echo benchmark.  Every thread of the echo benchmark is a computation that gets its
    own answers from its surroundings; a lock orders the moments at which the threads add
    what they counted to the shared result. *)

From S2P Require Import Prelude Unicode PyStr PyFloat PyVal PyDyn Json Phase Flood BenchNet BenchHttp.

(** ** The flood *)

(** [str(x)] of a float *)
Definition run_flood (w : world) (executable flood_script url : pystr) (workers : Z) (duration : float) : net pyval :=
  perform r <- ask w (CheckOutput [executable; flood_script; u "--url"; url; u "--workers"; dec_Z workers; u "--duration";
                                   float_repr duration]) in
  perform output <- clift r in
  clift (loads output).

(** ** The TCP echo benchmark *)

Record TcpBenchResult := TcpBench {
  tb_messages : Z;
  tb_errors : Z;
  tb_error_types : list (pystr * Z);
  tb_latencies : list float }.

Definition tcp_bench_empty : TcpBenchResult := TcpBench 0 0 [] [].

Definition echo_payload : bytes := u "altura-tcp-bench".

Section worker.
Context (w : world).

(** [while time.perf_counter() < deadline: ...]; the local variables are the messages and
    their latencies *)
Fixpoint echo_rounds (fuel : nat) (s : sock) (deadline : float) : scope (Z * list float) unit :=
  perform now <- inner (perf_counter w) in
  if fltb now deadline then
    match fuel with
    | O => inner out_of_fuel
    | S fuel' =>
        perform started <- inner (perf_counter w) in
        perform _ <- inner (ask w (SetTimeout s (sec 1 1))) in
        perform _ <- inner (sendall w s echo_payload) in
        perform received <- inner (recv_exact w fuel s (Z.of_nat (length echo_payload))) in
        perform _ <- (if str_eqb received echo_payload then cret tt
                      else clift (Raise (Exn RuntimeError (u "tcp echo mismatch")))) in
        perform _ <- update (fun l => ((l.1 + 1)%Z, l.2)) in
        perform now <- inner (perf_counter w) in
        perform _ <- update (fun l => (l.1, l.2 ++ [fmul (fsub now started) (sec 1000 1)])) in
        echo_rounds fuel' s deadline
    end
  else cret tt.

(** What one thread counted. *)
Definition echo_worker (fuel : nat) (port : Z) (deadline : float) : net TcpBenchResult :=
  perform r <- try_block (0%Z, []) (on_connection w port (sec 1 1) (fun s => echo_rounds fuel s deadline)) in
  let '((messages, latencies), error) := r in
  cret match error with
       | None => TcpBench messages 0 [] latencies
       | Some e => TcpBench messages 1 [(exn_name e, 1%Z)] latencies
       end.
End worker.

(** [with lock: ...] *)
Definition add_result (result local : TcpBenchResult) : TcpBenchResult :=
  TcpBench (tb_messages result + tb_messages local) (tb_errors result + tb_errors local)
    (merge_counts str_eqb (tb_error_types result) (tb_error_types local)) (tb_latencies result ++ tb_latencies local).

(** [percentile] of a sorted list *)
Definition sorted_percentile (values : list float) (pct : Z) : res float :=
  match values with
  | [] => Ok f0
  | _ =>
      let last := (Z.of_nat (length values) - 1)%Z in
      let* p := float_of_Z pct in
      let* l := float_of_Z last in
      let* rounded := round_int (fmul (fdiv p (sec 100 1)) l) in
      match values !! Z.to_nat (Z.min last rounded) with
      | Some v => Ok (round_digits 3 v)
      | None => Raise (Exn IndexError (u "list index out of range"))
      end
  end.

(** The report; [float_sum] is [sum] of floats, whose rounding depends on the version of
    Python. *)
Definition echo_report (float_sum : list float -> float) (workers : Z) (elapsed : float) (result : TcpBenchResult) : res pyval :=
  let latencies := py_sorted fleb (tb_latencies result) in
  let* messages := float_of_Z (tb_messages result) in
  let* count := float_of_Z (Z.of_nat (length latencies)) in
  let avg := match latencies with [] => f0 | _ => round_digits 3 (fdiv (float_sum latencies) count) end in
  let* p50 := sorted_percentile latencies 50 in
  let* p95 := sorted_percentile latencies 95 in
  let* p99 := sorted_percentile latencies 99 in
  Ok (VDict [(u "connections", VInt workers); (u "messages", VInt (tb_messages result));
             (u "messages_per_second", VFloat (round_digits 2 (if feqb elapsed f0 then f0 else fdiv messages elapsed)));
             (u "duration_seconds", VFloat (round_digits 3 elapsed)); (u "errors", VInt (tb_errors result));
             (u "error_types", VDict ((fun kc => (kc.1, VInt kc.2)) <$>
                                        py_sorted (fun a b => str_leb a.1 b.1) (tb_error_types result)));
             (u "latency_ms", VDict [(u "avg", VFloat avg); (u "p50", VFloat p50); (u "p95", VFloat p95); (u "p99", VFloat p99)]);
             (u "workers", VInt workers)]).

(** The threads: thread [i] runs in the surroundings [threads i]; [lock_order] is the order
    in which they take the lock. *)
Definition thread_result (threads : nat -> world) (fuel : nat) (port : Z) (deadline : float) (t : trace) (i : nat) : res TcpBenchResult :=
  (echo_worker (threads i) fuel port deadline t).1.

Definition run_tcp_echo_bench (w : world) (threads : nat -> world) (lock_order : nat -> list nat) (float_sum : list float -> float)
    (fuel : nat) (port workers : Z) (duration : float) : net pyval :=
  perform now <- perf_counter w in
  let deadline := fadd now duration in
  perform started_all <- perf_counter w in
  perform locals <- (fun t => (mapR (thread_result threads fuel port deadline t) (lock_order (Z.to_nat workers)), t)) in
  perform now <- perf_counter w in
  clift (echo_report float_sum workers (fsub now started_all) (foldl add_result tcp_bench_empty locals)).
