(* ===== verification/BenchMain.v ===== *)
(** * BenchMain: the local benchmark as a whole

    [tools/run_local_bench.py], [main]: the servers and the proxy under test, the throughput
    measurements, every probe in order, and the report.  The startup probes keep the state of
    [LocalProbe], the others the trace of [BenchNet]; a run keeps both. *)

From S2P Require Import Prelude Unicode PyStr PyTime PyFloat PyVal PyDyn Json Provenance LocalProbe StartupProbes EdgeConfig EdgeProbe.
From S2P Require Import BenchNet BenchHttp BenchOrigin BenchSend BenchConns TrafficBase BenchEcho.
From S2P Require Import TrafficBody TrafficUpstream TrafficLog TrafficGuard TrafficRate TrafficTcp.

Open Scope dyn_scope.

(** ** Arguments *)

Record local_args := LocalArgs {
  arg_binary : pystr;
  arg_workers : Z;
  arg_tcp_workers : Z;
  arg_duration : float;
  arg_per_ip_rps : Z;
  arg_signature_threshold : Z }.

(** [parse_args] without arguments *)
Definition default_args : local_args := LocalArgs (u "target/release/altura-prot") 128 32 (sec 8 1) 1000000 1000000.

(** ** A run *)

Definition local_run (A : Type) : Type := eff (bench_state * trace) A.

(** A startup probe within a run. *)
Definition on_startup (m : bench pydict) : local_run pyval :=
  fun '(l, t) => let '(r, l') := m l in (let* d := r in Ok (VDict d), (l', t)).

(** ** The configuration of the proxy under test *)

Record local_ports := LocalPorts {
  proxy_port : Z; upstream_port : Z; tcp_proxy_port : Z; tcp_guard_port : Z; tcp_rate_port : Z; tcp_idle_port : Z;
  tcp_upstream_port : Z }.

Definition bench_config (args : local_args) (ports : local_ports) (bench_tcp_max_connection_seconds : Z)
    (filters_path events_path : pystr) : pyval :=
  let '(LocalPorts proxy_port upstream_port tcp_proxy_port tcp_guard_port tcp_rate_port tcp_idle_port tcp_upstream_port) := ports in
  VDict [
    (u "http", VDict [
      (u "listen", VStr (u "127.0.0.1:" ++ dec_Z proxy_port));
      (u "upstream", VStr (u "http://127.0.0.1:" ++ dec_Z upstream_port));
      (u "preserve_host", VBool true);
      (u "admin_token", VStr (u "bench-token"));
      (u "downstream_keep_alive", VBool false);
      (u "max_body_bytes", VInt 1024);
      (u "request_body_idle_timeout_ms", VInt 50);
      (u "upstream_body_idle_timeout_ms", VInt 1000);
      (u "max_upstream_body_bytes", VInt 1024);
      (u "limits", VDict ([(u "per_ip_rps", VInt (arg_per_ip_rps args));
        (u "per_ip_burst", VInt (arg_per_ip_rps args));
        (u "global_rps", VInt 1000000);
        (u "global_burst", VInt 1000000)] ++
        BENCH_HTTP_CONNECTION_LIMITS ++
        [(u "signature_rps", VInt 1000000);
        (u "signature_burst", VInt 1000000);
        (u "max_tracked_signatures", VInt 1024);
        (u "path_shape_rps", VInt 1000000);
        (u "path_shape_burst", VInt 1000000);
        (u "max_tracked_path_shapes", VInt 1024);
        (u "max_in_flight_requests", VInt 8192);
        (u "max_in_flight_requests_per_ip", VInt 1024);
        (u "max_tracked_ips", VInt 1024)]))]);
    (u "tcp", VList [VDict [
        (u "name", VStr (u "bench-tcp"));
        (u "listen", VStr (u "127.0.0.1:" ++ dec_Z tcp_proxy_port));
        (u "upstream", VStr (u "127.0.0.1:" ++ dec_Z tcp_upstream_port));
        (u "connect_timeout_ms", VInt 500);
        (u "idle_timeout_seconds", VInt bench_tcp_max_connection_seconds);
        (u "max_connection_duration_seconds", VInt bench_tcp_max_connection_seconds);
        (u "limits", VDict [
          (u "per_ip_connects_per_second", VInt 1000000);
          (u "per_ip_connect_burst", VInt 1000000);
          (u "global_connects_per_second", VInt 1000000);
          (u "global_connect_burst", VInt 1000000);
          (u "max_connections", VInt 1024);
          (u "max_connections_per_ip", VInt 1024);
          (u "max_tracked_ips", VInt 1024)])]; VDict [
        (u "name", VStr (u "guard-tcp"));
        (u "listen", VStr (u "127.0.0.1:" ++ dec_Z tcp_guard_port));
        (u "upstream", VStr (u "127.0.0.1:" ++ dec_Z tcp_upstream_port));
        (u "connect_timeout_ms", VInt 500);
        (u "idle_timeout_seconds", VInt 5);
        (u "max_connection_duration_seconds", VInt 5);
        (u "limits", VDict [
          (u "per_ip_connects_per_second", VInt 1000000);
          (u "per_ip_connect_burst", VInt 1000000);
          (u "global_connects_per_second", VInt 1000000);
          (u "global_connect_burst", VInt 1000000);
          (u "max_connections", VInt 2);
          (u "max_connections_per_ip", VInt 1024);
          (u "max_tracked_ips", VInt 1024)])]; VDict [
        (u "name", VStr (u "tcp-connect-rate"));
        (u "listen", VStr (u "127.0.0.1:" ++ dec_Z tcp_rate_port));
        (u "upstream", VStr (u "127.0.0.1:" ++ dec_Z tcp_upstream_port));
        (u "connect_timeout_ms", VInt 500);
        (u "idle_timeout_seconds", VInt 5);
        (u "max_connection_duration_seconds", VInt 5);
        (u "limits", VDict [
          (u "per_ip_connects_per_second", VInt 1000000);
          (u "per_ip_connect_burst", VInt 1000000);
          (u "global_connects_per_second", VFloat (sec 1 1));
          (u "global_connect_burst", VInt 2);
          (u "max_connections", VInt 128);
          (u "max_connections_per_ip", VInt 128);
          (u "max_tracked_ips", VInt 1024)])]; VDict [
        (u "name", VStr (u "idle-tcp"));
        (u "listen", VStr (u "127.0.0.1:" ++ dec_Z tcp_idle_port));
        (u "upstream", VStr (u "127.0.0.1:" ++ dec_Z tcp_upstream_port));
        (u "connect_timeout_ms", VInt 500);
        (u "idle_timeout_seconds", VInt 1);
        (u "max_connection_duration_seconds", VInt 10);
        (u "limits", VDict [
          (u "per_ip_connects_per_second", VInt 1000000);
          (u "per_ip_connect_burst", VInt 1000000);
          (u "global_connects_per_second", VInt 1000000);
          (u "global_connect_burst", VInt 1000000);
          (u "max_connections", VInt 128);
          (u "max_connections_per_ip", VInt 128);
          (u "max_tracked_ips", VInt 1024)])]]);
    (u "filters", VDict [
      (u "runtime_file", VStr filters_path);
      (u "reload_seconds", VInt 1);
      (u "static_rules", VList [])]);
    (u "adaptive", VDict [
      (u "enabled", VBool true);
      (u "signature_threshold_per_second", VInt (arg_signature_threshold args));
      (u "activation_ttl_seconds", VInt 10);
      (u "event_log", VStr events_path);
      (u "event_cooldown_seconds", VInt 1)])].

(** ** Requests to the control plane *)

Record control_responses := ControlResponses {
  oversized_status : pyval; oversized_cache_control : pyval; oversized_connection : pyval; metrics_without_token : pyval;
  admin_health_response : pyval; metrics_without_token_response : pyval; metrics_with_token_response : pyval; duplicate_metrics_token_response : pyval; admin_body_health_response : pyval; admin_body_metrics_without_token_response : pyval; admin_body_metrics_with_token_response : pyval }.

(** The first entry of the report. *)
Definition oversized_content_length (c : control_responses) : expr :=
  let '(ControlResponses oversized_status oversized_cache_control oversized_connection _ _ _ _ _ _ _ _) := c in
  record [
      "status" :- oversized_status;
      "cache_control" :- oversized_cache_control;
      "cache_control_no_store" :- oversized_cache_control == $"no-store";
      "connection" :- oversized_connection;
      "connection_close" :- oversized_connection == $"close"].

Definition admin_control_plane (c : control_responses) : expr :=
  let '(ControlResponses _ _ _ _ admin_health_response metrics_without_token_response metrics_with_token_response duplicate_metrics_token_response admin_body_health_response admin_body_metrics_without_token_response admin_body_metrics_with_token_response) := c in
  record [
    "health_status" :- admin_health_response @ "status";
    "health_cache_control" :- admin_health_response @ "headers" ? "cache-control";
    "health_connection" :- admin_health_response @ "headers" ? "connection";
    "health_connection_close" :- admin_health_response @ "headers" ? "connection" == $"close";
    "metrics_without_token_status" :- metrics_without_token_response @ "status";
    "metrics_without_token_cache_control" :- metrics_without_token_response @ "headers" ? "cache-control";
    "metrics_without_token_connection" :- metrics_without_token_response @ "headers" ? "connection";
    "metrics_without_token_connection_close" :- metrics_without_token_response @ "headers" ? "connection" == $"close";
    "metrics_with_token_status" :- metrics_with_token_response @ "status";
    "metrics_with_token_cache_control" :- metrics_with_token_response @ "headers" ? "cache-control";
    "metrics_with_token_connection" :- metrics_with_token_response @ "headers" ? "connection";
    "metrics_with_token_connection_close" :- metrics_with_token_response @ "headers" ? "connection" == $"close";
    "duplicate_metrics_token_status" :- duplicate_metrics_token_response @ "status";
    "duplicate_metrics_token_cache_control" :- duplicate_metrics_token_response @ "headers" ? "cache-control";
    "duplicate_metrics_token_connection" :- duplicate_metrics_token_response @ "headers" ? "connection";
    "duplicate_metrics_token_rejected" :- duplicate_metrics_token_response @ "status" == #403;
    "duplicate_metrics_token_connection_close" :- duplicate_metrics_token_response @ "headers" ? "connection" == $"close";
    "body_bearing_health" :- admin_body_health_response;
    "body_bearing_metrics_without_token" :- admin_body_metrics_without_token_response;
    "body_bearing_metrics_with_token" :- admin_body_metrics_with_token_response;
    "body_bearing_health_closes_connection" :- admin_body_health_response @ "first" @ "connection_close" AND
      admin_body_health_response @ "followup" @ "closed_without_response";
    "body_bearing_metrics_without_token_closes_connection" :- admin_body_metrics_without_token_response @ "first" @ "connection_close" AND
      admin_body_metrics_without_token_response @ "followup" @ "closed_without_response";
    "body_bearing_metrics_with_token_closes_connection" :- admin_body_metrics_with_token_response @ "first" @ "connection_close" AND
      admin_body_metrics_with_token_response @ "followup" @ "closed_without_response";
    "admin_responses_not_stored" :- all_of (fun response => response @ "headers" ? "cache-control" == $"no-store") (VList [admin_health_response; metrics_without_token_response; metrics_with_token_response; duplicate_metrics_token_response]);
    "body_bearing_admin_responses_not_stored" :- all_of (fun response => response @ "first" @ "cache_control_no_store") (VList [admin_body_health_response; admin_body_metrics_without_token_response; admin_body_metrics_with_token_response]);
    "admin_responses_close_connection" :- all_of (fun response => response @ "headers" ? "connection" == $"close") (VList [admin_health_response; metrics_without_token_response; metrics_with_token_response; duplicate_metrics_token_response]) AND
      all_of (fun response => response @ "first" @ "connection_close" AND response @ "followup" @ "closed_without_response") (VList [admin_body_health_response; admin_body_metrics_without_token_response; admin_body_metrics_with_token_response])].

Definition delta_keys : list pystr :=
  [u "altura_http_rate_limited"; u "altura_http_body_rejected"; u "altura_http_body_timeouts"; u "altura_http_body_too_slow";
   u "altura_http_request_trailers_dropped"; u "altura_http_request_trailers_rejected";
   u "altura_http_downstream_write_timeouts"; u "altura_http_connections_rejected"; u "altura_http_method_rejected";
   u "altura_http_host_rejected"; u "altura_http_framing_rejected"; u "altura_http_header_line_rejected";
   u "altura_http_initial_header_too_large"; u "altura_http_initial_header_timeouts";
   u "altura_http_initial_headers_too_many"; u "altura_http_forwarded_sanitized"; u "altura_http_forwarded_rejected";
   u "altura_http_trusted_proxy_rate_limited"; u "altura_http_trusted_proxy_in_flight_rejected";
   u "altura_http_signature_rate_limited"; u "altura_http_path_shape_rate_limited";
   u "altura_http_content_encoding_rejected"; u "altura_http_expect_rejected"; u "altura_http_range_rejected";
   u "altura_http_accept_encoding_stripped"; u "altura_http_uri_rejected"; u "altura_http_initial_request_target_rejected";
   u "altura_http_upstream_errors"; u "altura_http_upstream_timeouts"; u "altura_http_upstream_circuit_open";
   u "altura_http_upstream_header_rejected"; u "altura_http_upstream_body_rejected"; u "altura_http_upstream_body_timeouts";
   u "altura_http_upstream_body_too_slow"; u "altura_http_upstream_trailers_dropped";
   u "altura_http_upstream_trailers_rejected"; u "altura_http_upstream_in_flight_rejected"; u "altura_tcp_idle_timeouts";
   u "altura_tcp_downstream_too_slow"; u "altura_tcp_upstream_too_slow"; u "altura_tcp_rejected";
   u "altura_tcp_global_connect_rate_limited"].

(** ** The probes *)

Section run.
Context (w : world) (fuel : nat) (sw : bench_world) (edge : edge_world).

Definition send_control_requests (proxy_port : Z) : net control_responses :=
  perform oversized_response <- get_status_and_headers w proxy_port (u "POST") (u "/drain") (replicate 2048 120%N) (sec 2 1) [] in
  perform oversized_status <- eval (oversized_response @ "status") in
  perform oversized_cache_control <- eval (oversized_response @ "headers" ? "cache-control") in
  perform oversized_connection <- eval (oversized_response @ "headers" ? "connection") in
  perform admin_health_response <- get_status_and_headers w proxy_port (u "GET") (u "/__altura/health") [] (sec 2 1) [] in
  perform metrics_without_token_response <- get_status_and_headers w proxy_port (u "GET") (u "/__altura/metrics") [] (sec 2 1) [] in
  perform metrics_with_token_response <- get_status_and_headers w proxy_port (u "GET") (u "/__altura/metrics") [] (sec 2 1)
    [(u "x-altura-admin-token", u "bench-token")] in
  perform duplicate_metrics_token_response <- send_duplicate_admin_token_metrics_request w fuel proxy_port in
  perform admin_body_health_response <- send_body_bearing_admin_keepalive_request w fuel proxy_port (u "/__altura/health") [] in
  perform admin_body_metrics_without_token_response <-
    send_body_bearing_admin_keepalive_request w fuel proxy_port (u "/__altura/metrics") [] in
  perform admin_body_metrics_with_token_response <-
    send_body_bearing_admin_keepalive_request w fuel proxy_port (u "/__altura/metrics") [(u "x-altura-admin-token", u "bench-token")] in
  perform metrics_without_token <- eval (metrics_without_token_response @ "status") in
  cret (ControlResponses oversized_status oversized_cache_control oversized_connection metrics_without_token
          admin_health_response metrics_without_token_response metrics_with_token_response duplicate_metrics_token_response
          admin_body_health_response admin_body_metrics_without_token_response admin_body_metrics_with_token_response).

Context (binary tmp_path : pystr) (ports : local_ports).

(** Bodies, upstreams, logs and filters. *)
Definition runtime_probes : list (pystr * local_run pyval) :=
  let '(LocalPorts proxy_port upstream_port _ tcp_guard_port tcp_rate_port tcp_idle_port tcp_upstream_port) := ports in
  [(u "slow_body", inner (run_slow_body_probe w proxy_port));
   (u "request_content_encoding", inner (run_request_content_encoding_probe w proxy_port));
   (u "expect_guard", inner (run_expect_guard_probe w fuel proxy_port));
   (u "range_guard", inner (run_range_guard_probe w proxy_port));
   (u "accept_encoding", inner (run_accept_encoding_probe w fuel proxy_port));
   (u "runtime_nofile", inner (run_runtime_nofile_probe w fuel binary upstream_port tmp_path));
   (u "runtime_nofile_capacity", inner (run_runtime_nofile_capacity_probe w binary upstream_port tmp_path));
   (u "runtime_sigterm", inner (run_runtime_sigterm_probe w fuel binary upstream_port tmp_path));
   (u "body_min_rate", inner (run_body_min_rate_probe w fuel binary upstream_port tmp_path));
   (u "downstream_write_timeout", inner (run_downstream_write_timeout_probe w fuel binary upstream_port tmp_path));
   (u "upstream_connect_timeout", inner (run_upstream_connect_timeout_probe w fuel binary tmp_path));
   (u "upstream_failure_circuit", inner (run_upstream_failure_circuit_probe w fuel binary tmp_path));
   (u "upstream_timeout_response", inner (run_upstream_timeout_response_probe w fuel binary upstream_port tmp_path));
   (u "upstream_header_guard", inner (run_upstream_header_guard_probe w fuel binary upstream_port tmp_path));
   (u "header_line_cap", inner (run_header_line_cap_probe w fuel binary upstream_port tmp_path));
   (u "upstream_trailer_policy", inner (run_upstream_trailer_policy_probe w fuel binary upstream_port tmp_path));
   (u "request_trailer_policy", inner (run_request_trailer_policy_probe w fuel binary upstream_port tmp_path));
   (u "header_timeout", inner (run_header_timeout_probe w fuel binary upstream_port tmp_path));
   (u "log_suppression", inner (run_log_suppression_probe w fuel binary upstream_port tmp_path));
   (u "event_log_flush", inner (run_event_log_flush_probe w fuel binary upstream_port tmp_path));
   (u "event_log_field_bounds", inner (run_event_log_field_bounds_probe w fuel binary upstream_port tmp_path));
   (u "adaptive_window_cap", inner (run_adaptive_window_cap_probe w fuel binary upstream_port tmp_path));
   (u "adaptive_catalog_shape", inner (run_adaptive_catalog_shape_probe w fuel binary upstream_port tmp_path));
   (u "runtime_filter_bounds", inner (run_runtime_filter_bounds_probe w fuel binary upstream_port tmp_path));
   (u "runtime_filter_hot_path", inner (run_runtime_filter_hot_path_probe w fuel binary upstream_port tmp_path));
   (u "filter_activation_nonblocking", inner (run_filter_activation_nonblocking_probe w fuel binary upstream_port tmp_path));
   (u "rate_limit_before_filter", inner (run_rate_limit_before_filter_probe w fuel binary upstream_port tmp_path));
   (u "event_log_async_queue", inner (run_event_log_async_queue_probe w fuel binary upstream_port tmp_path));
   (u "event_log_rotation", inner (run_event_log_rotation_probe w fuel binary upstream_port tmp_path))].

(** Startup, and connection lifetimes. *)
Definition configuration_probes : list (pystr * local_run pyval) :=
  let '(LocalPorts proxy_port upstream_port _ tcp_guard_port tcp_rate_port tcp_idle_port tcp_upstream_port) := ports in
  [(u "trusted_proxy_global_trust_startup", on_startup (run_trusted_proxy_global_trust_startup_probe sw binary upstream_port tmp_path));
   (u "negative_rate_startup", on_startup (run_negative_rate_startup_probe sw binary upstream_port tcp_upstream_port tmp_path));
   (u "admin_prefix_startup", on_startup (run_admin_prefix_startup_probe sw binary upstream_port tmp_path));
   (u "admin_token_startup", on_startup (run_admin_token_startup_probe sw binary upstream_port tmp_path));
   (u "zero_capacity_startup", on_startup (run_zero_capacity_startup_probe sw binary upstream_port tcp_upstream_port tmp_path));
   (u "header_buffer_floor_startup", on_startup (run_header_buffer_floor_startup_probe sw binary upstream_port tmp_path));
   (u "header_buffer_ceiling_startup", on_startup (run_header_buffer_ceiling_startup_probe sw binary upstream_port tmp_path));
   (u "header_count_ceiling_startup", on_startup (run_header_count_ceiling_startup_probe sw binary upstream_port tmp_path));
   (u "http_metadata_ceiling_startup", on_startup (run_http_metadata_ceiling_startup_probe sw binary upstream_port tmp_path));
   (u "header_read_timeout_ceiling_startup", on_startup (run_header_read_timeout_ceiling_startup_probe sw binary upstream_port tmp_path));
   (u "upstream_timeout_ceiling_startup", on_startup (run_upstream_timeout_ceiling_startup_probe sw binary upstream_port tmp_path));
   (u "upstream_failure_circuit_ceiling_startup", on_startup (run_upstream_failure_circuit_ceiling_startup_probe sw binary upstream_port tmp_path));
   (u "http_stream_timeout_ceiling_startup", on_startup (run_http_stream_timeout_ceiling_startup_probe sw binary upstream_port tmp_path));
   (u "body_size_ceiling_startup", on_startup (run_body_size_ceiling_startup_probe sw binary upstream_port tmp_path));
   (u "min_rate_ceiling_startup", on_startup (run_min_rate_ceiling_startup_probe sw binary upstream_port tcp_upstream_port tmp_path));
   (u "upstream_idle_pool_ceiling_startup", on_startup (run_upstream_idle_pool_ceiling_startup_probe sw binary upstream_port tmp_path));
   (u "connect_timeout_ceiling_startup", on_startup (run_connect_timeout_ceiling_startup_probe sw binary upstream_port tcp_upstream_port tmp_path));
   (u "connection_duration_ceiling_startup", on_startup (run_connection_duration_ceiling_startup_probe sw binary upstream_port tcp_upstream_port tmp_path));
   (u "connection_duration_runtime", inner (run_connection_duration_runtime_probe w fuel binary tcp_upstream_port tmp_path upstream_port));
   (u "connection_request_count_ceiling_startup", on_startup (run_connection_request_count_ceiling_startup_probe sw binary upstream_port tmp_path));
   (u "event_log_backup_count_ceiling_startup", on_startup (run_event_log_backup_count_ceiling_startup_probe sw binary tmp_path));
   (u "event_log_queue_capacity_ceiling_startup", on_startup (run_event_log_queue_capacity_ceiling_startup_probe sw binary tmp_path));
   (u "dynamic_state_ceiling_startup", on_startup (run_dynamic_state_ceiling_startup_probe sw binary upstream_port tcp_upstream_port tmp_path));
   (u "control_capacity_startup", on_startup (run_control_capacity_startup_probe sw binary tmp_path));
   (u "config_file_startup", on_startup (run_config_file_startup_probe sw binary tmp_path));
   (u "http_endpoint_startup", on_startup (run_http_endpoint_startup_probe sw binary upstream_port tmp_path));
   (u "tcp_endpoint_startup", on_startup (run_tcp_endpoint_startup_probe sw binary tmp_path));
   (u "filter_rule_startup", on_startup (run_filter_rule_startup_probe sw binary tmp_path));
   (u "allowed_methods_startup", on_startup (run_allowed_methods_startup_probe sw binary upstream_port tmp_path));
   (u "allowed_hosts_startup", on_startup (run_allowed_hosts_startup_probe sw binary upstream_port tmp_path));
   (u "client_ip_config_startup", on_startup (run_client_ip_config_startup_probe sw binary upstream_port tmp_path))].

(** Guards, rates, connections and capacity. *)
Definition limit_probes : list (pystr * local_run pyval) :=
  let '(LocalPorts proxy_port upstream_port _ tcp_guard_port tcp_rate_port tcp_idle_port tcp_upstream_port) := ports in
  [(u "http_connection_rate", inner (run_http_connection_rate_probe w fuel binary upstream_port tmp_path));
   (u "method_guard", inner (run_method_guard_probe w fuel binary upstream_port tmp_path));
   (u "method_override_headers", inner (run_method_override_header_probe w fuel binary upstream_port tmp_path));
   (u "early_rejection_close", inner (run_early_rejection_close_probe w fuel binary upstream_port tmp_path));
   (u "host_guard", inner (run_host_guard_probe w fuel binary upstream_port tmp_path));
   (u "framing_guard", inner (run_framing_guard_probe w fuel binary upstream_port tmp_path));
   (u "initial_framing_precheck_response", inner (run_initial_framing_precheck_response_probe w fuel binary upstream_port tmp_path));
   (u "chunked_request_body_opt_in", inner (run_chunked_request_body_opt_in_probe w fuel binary upstream_port tmp_path));
   (u "forwarded_headers", inner (run_forwarded_headers_probe w fuel binary upstream_port tmp_path));
   (u "forwarded_header_bounds", inner (run_forwarded_header_bounds_probe w fuel binary upstream_port tmp_path));
   (u "trusted_proxy_aggregate_rate", inner (run_trusted_proxy_aggregate_rate_probe w fuel binary upstream_port tmp_path));
   (u "trusted_proxy_in_flight", inner (run_trusted_proxy_in_flight_probe w fuel binary upstream_port tmp_path));
   (u "ip_prefix_aggregation", inner (run_ip_prefix_aggregation_probe w fuel binary upstream_port tmp_path));
   (u "signature_rate", inner (run_signature_rate_probe w fuel binary upstream_port tmp_path));
   (u "path_shape_rate", inner (run_path_shape_rate_probe w fuel binary upstream_port tmp_path));
   (u "uri_guard", inner (run_uri_guard_probe w fuel binary upstream_port tmp_path));
   (u "tcp_global_connection_cap", inner (run_tcp_global_cap_probe w tcp_guard_port));
   (u "tcp_global_connection_rate", inner (run_tcp_global_connection_rate_probe w tcp_rate_port proxy_port));
   (u "tcp_idle_timeout", inner (run_tcp_idle_timeout_probe w tcp_idle_port));
   (u "tcp_relay_head_of_line", inner (run_tcp_relay_head_of_line_probe w fuel binary tmp_path));
   (u "tcp_min_rate", inner (run_tcp_min_rate_probe w fuel binary tcp_upstream_port tmp_path upstream_port));
   (u "admin_rate_limit", inner (run_admin_rate_limit_probe w fuel binary upstream_port tmp_path));
   (u "admin_signature_rate", inner (run_admin_signature_rate_probe w fuel binary upstream_port tmp_path));
   (u "upstream_in_flight", inner (run_upstream_in_flight_probe w fuel binary upstream_port tmp_path));
   (u "upstream_response_guard", inner (run_upstream_response_guard_probe w fuel binary upstream_port tmp_path));
   (u "header_count", inner (run_header_count_probe w fuel binary upstream_port tmp_path));
   (u "upstream_pool", inner (run_upstream_pool_probe w fuel binary tmp_path));
   (u "listen_backlog", inner (run_listen_backlog_probe w fuel binary upstream_port tcp_upstream_port tmp_path));
   (u "rate_limiter_fairness", inner (run_rate_limiter_fairness_probe w fuel binary upstream_port tmp_path));
   (u "tracked_ip_cap", inner (run_tracked_ip_cap_probe w fuel binary upstream_port tmp_path));
   (u "edge_template_port_coverage", cret (VDict (run_edge_template_port_coverage_probe edge tmp_path)));
   (u "downstream_keep_alive", inner (run_downstream_keepalive_probe w fuel proxy_port));
   (u "connection_request_limit", inner (run_connection_request_limit_probe w fuel binary upstream_port tmp_path))].

Definition probes : list (pystr * local_run pyval) := runtime_probes ++ configuration_probes ++ limit_probes.

(** ** The report *)

Definition guardrails (c : control_responses) (results : pydict) (metrics_before metrics_after : pyval) : expr :=
  record (["oversized_content_length" :- oversized_content_length c;
           "oversized_content_length_status" :- oversized_status c;
           "admin_control_plane" :- admin_control_plane c;
           "metrics_without_token_status" :- metrics_without_token c] ++
          ((fun kv => (kv.1, Ok kv.2)) <$> results) ++
          ["metrics_delta" :- record ((fun key => (key, delta metrics_after metrics_before key)) <$> delta_keys)]).

Context (threads : nat -> world) (lock_order : nat -> list nat) (float_sum : list float -> float).
Context (run_git : pystr -> list pystr -> option (Z * pystr)) (now : utc_time) (cwd executable flood_script : pystr).

(** From the measurements to the report. *)
Definition measure (args : local_args) : local_run pyval :=
  let port := proxy_port ports in
  let url path := u "http://127.0.0.1:" ++ dec_Z port ++ path in
  let flood path := run_flood w executable flood_script (url path) (arg_workers args) (arg_duration args) in
  perform proxy_flood <- inner (flood (u "/")) in
  perform health_flood <- inner (flood (u "/__altura/health")) in
  perform tcp <- inner (run_tcp_echo_bench w threads lock_order float_sum fuel (tcp_proxy_port ports) (arg_tcp_workers args)
                          (arg_duration args)) in
  let result := [(u "generated_at_utc", VStr (generated_at_utc now)); (u "source_tree", VDict (source_tree_metadata run_git cwd));
                 (u "workdir", VStr tmp_path); (u "binary", VStr binary); (u "duration_seconds", VFloat (arg_duration args));
                 (u "workers", VInt (arg_workers args)); (u "tcp_workers", VInt (arg_tcp_workers args)); (u "proxy", proxy_flood);
                 (u "health", health_flood); (u "tcp", tcp)] in
  perform metrics_before <- inner (fetch_metrics w port (u "bench-token") []) in
  perform c <- inner (send_control_requests port) in
  perform results <- record_calls probes in
  perform _ <- inner (sleep w (sec 1 10)) in
  perform metrics_after <- inner (fetch_metrics w port (u "bench-token") []) in
  perform rows <- inner (eval (guardrails c results metrics_before metrics_after)) in
  cret (VDict (result ++ [(u "guardrails", rows)])).
End run.

(** ** [main] *)

(** [f"{process.returncode}"] *)
Definition status_text (returncode : option Z) : pystr := match returncode with Some n => dec_Z n | None => u "None" end.

Definition startup_failure_with_stderr (reason : exn) (returncode : option Z) (stderr : pystr) : exn :=
  Exn RuntimeError (u "AlturaProt benchmark proxy startup failed: " ++ exn_msg reason ++ u "; exit_status=" ++ status_text returncode
                    ++ u "; stderr_tail=" ++ format_process_stderr_tail stderr).

Section main.
Context (w : world) (fuel : nat) (sw : bench_world) (edge : edge_world).
Context (threads : nat -> world) (lock_order : nat -> list nat) (float_sum : list float -> float).
Context (run_git : pystr -> list pystr -> option (Z * pystr)) (now : utc_time) (cwd executable flood_script : pystr).

(** [with Server(...) as server: ...], serving in a thread *)
Definition with_server {A} (handler : origin) (port : Z) (body : server -> local_run A) : local_run A :=
  perform r <- inner (ask w (Serve handler port)) in
  perform s <- clift r in
  finally (body s) (inner (ask w (CloseServer s))).

Definition with_temp_dir {A} (body : pystr -> local_run A) : local_run A :=
  perform r <- inner (ask w MakeTempDir) in
  perform tmp <- clift r in
  finally (body tmp) (inner (ask w (RemoveTempDir tmp))).

Definition free_ports : net local_ports :=
  perform proxy_port <- free_port w in
  perform upstream_port <- free_port w in
  perform tcp_proxy_port <- free_port w in
  perform tcp_guard_port <- free_port w in
  perform tcp_rate_port <- free_port w in
  perform tcp_idle_port <- free_port w in
  perform tcp_upstream_port <- free_port w in
  cret (LocalPorts proxy_port upstream_port tcp_proxy_port tcp_guard_port tcp_rate_port tcp_idle_port tcp_upstream_port).

(** The proxy is started, awaited, measured, and stopped; the local variable is
    [proxy_stopped]. *)
Definition run_proxy (args : local_args) (ports : local_ports) (tmp_path : pystr) (upstream : server)
    (bench_tcp_max_connection_seconds : Z) : local_run unit :=
  let binary := arg_binary args in
  let filters_path := under tmp_path (u "filters.json") in
  let events_path := under tmp_path (u "events.jsonl") in
  perform _ <- inner (write_text w filters_path no_filters) in
  let cfg := bench_config args ports bench_tcp_max_connection_seconds filters_path events_path in
  let config_path := under tmp_path (u "config.json") in
  perform _ <- inner (write_text w config_path (dumps default_style cfg)) in
  perform proxy <- inner (start_proxy w binary config_path) in
  finally_with false
    (perform _ <- catch
       (inner (inner (perform _ <- wait_http w fuel (proxy_port ports) in wait_tcp_port w fuel (tcp_proxy_port ports))))
       is_exception
       (fun err =>
          perform stopped <- inner (inner (stop_process_and_collect w proxy)) in
          perform _ <- update (fun _ => true) in
          clift (Raise (startup_failure_with_stderr err stopped.1 stopped.2))) in
     perform result <- inner (measure w fuel sw edge binary tmp_path ports threads lock_order float_sum run_git now cwd executable
                                flood_script args) in
     inner (inner (ask w (PrintText (dumps pretty_style result)))))
    (fun proxy_stopped => inner (
       perform _ <- (if (proxy_stopped : bool) then cret tt
                     else perform _ <- stop_process_and_collect_stderr w proxy in cret tt) in
       ask w (Shutdown upstream))).

Definition main (args : local_args) : local_run unit :=
  perform there <- inner (ask w (Exists (arg_binary args))) in
  if negb there then clift (Raise (Exn SystemExit (u "binary not found: " ++ arg_binary args)))
  else
    perform seconds <- clift (Z_of_float (arg_duration args)) in
    let bench_tcp_max_connection_seconds := Z.max 5 (seconds + 5) in
    perform ports <- inner (free_ports) in
    with_server FastHttp (upstream_port ports) (fun upstream =>
      with_server FastTcp (tcp_upstream_port ports) (fun _ =>
        with_temp_dir (fun tmp_path => run_proxy args ports tmp_path upstream bench_tcp_max_connection_seconds))).
End main.
