(* ===== verification/BenchLab.v ===== *)
(** * BenchLab: surroundings in which the local benchmark completes

    A proxy that answers every request with status 200 and an empty body, a file system of
    empty files, a clock that has run out; one port refuses the connection of the relay
    probe.  Runs in these surroundings can be evaluated. *)

From S2P Require Import Prelude Unicode PyStr PyTime PyFloat PyVal PyDyn Json Provenance LocalProbe StartupProbes EdgeConfig EdgeProbe.
From S2P Require Import BenchNet BenchLogic BenchHttp TrafficBase BenchEcho BenchMain.

Definition lab : world := fun t c =>
  match c return answer c with
  | PerfCounter => finf
  | WallClock => f0
  | FreePort => Ok (Z.of_nat (length (take 9 t)))
  | WriteText _ _ | OpenWrite _ | Mkfifo _ | SendAll _ _ | HttpRequest _ _ _ _ _ | SetReceiveBuffer _ _ | CloseFd _ => Ok tt
  | ReadText _ | ReadReplaced _ => Ok []
  | CheckOutput _ => Ok (u "{}")
  | MakeTempDir => Ok (u "/tmp")
  | FileSize _ | OpenNonblocking _ => Ok 3%Z
  | Exists _ | HasMkfifo => true
  | Popen _ _ => Ok 0
  | Poll _ => Some 0%Z
  | Wait _ _ => Ok 0%Z
  | Communicate _ _ => Ok (0%Z, [])
  | Connect _ _ => Ok 0
  | CreateConnect port timeout => if (port =? 9)%Z && feqb timeout (sec 1 1) then Raise (Exn ConnectionRefusedError []) else Ok 0
  | Listen _ => Ok (0, 8%Z)
  | Recv _ _ | ReadBody _ | ReadBinary _ => Ok []
  | HttpConnection _ _ => 0
  | GetResponse _ => Ok (HttpHead 200 [])
  | Serve _ _ => Ok 0
  | ConnectionCount _ | DrainedSoFar _ => 0%Z
  | StartStatus _ _ _ _ _ | StartSend _ _ | StartDrain _ | StartControl _ | StartWrite _ _ => 0
  | StatusSoFar _ => Some 200%Z
  | SendSoFar _ => None
  | ControlSoFar _ => []
  | WriteSoFar _ => Some (Ok 0%Z)
  | Sleep _ | Terminate _ | Kill _ | SetTimeout _ _ | CloseSocket _ | CloseHttp _ | Shutdown _
  | CloseServer _ | CloseFile _ | RemoveTempDir _ | PrintText _ | StopDrain _ | StopControl _ | Join _ _ => tt
  end.

Definition lab_ports : local_ports := LocalPorts 1 2 3 4 5 6 7.

(** Every start of the proxy is refused. *)
Definition lab_starts : bench_world := BenchWorld (fun n => Z.of_nat n) (fun _ _ => ProxyProcess (Some (1%Z, [])) None None).

Definition lab_edge : edge_world :=
  EdgeWorld (fun _ => None) (fun _ => None) (fun _ => None) (fun _ => (1%Z, [], [])) (u "Linux") (fun l => l).

Definition lab_args : local_args := LocalArgs (u "altura-prot") 1 1 f0 1 1.

Definition lab_state : bench_state * trace := (BenchState (fun _ => None) 0 [], []).

Abbreviation lab_measure :=
  (measure lab 40 lab_starts lab_edge (u "altura-prot") (u "/tmp") lab_ports (fun _ => lab) (fun n => seq 0 n) (fun _ => f0)
    (fun _ _ => None) (Utc 2024 1 1 0 0 0) (u "/") (u "python3") (u "local_http_flood.py") lab_args).

Abbreviation lab_main :=
  (main lab 40 lab_starts lab_edge (fun _ => lab) (fun n => seq 0 n) (fun _ => f0) (fun _ _ => None) (Utc 2024 1 1 0 0 0) (u "/")
    (u "python3") (u "local_http_flood.py") lab_args).

Definition completed_with_report (r : res pyval * (bench_state * trace)) : bool :=
  match r with (Ok (VDict _), _) => true | _ => false end.

Lemma completed_spec r : completed_with_report r = true -> exists report s', r = (Ok (VDict report), s').
Proof. destruct r as [[[]|] s']; try done. eauto. Qed.

Lemma lab_completes : completed_with_report (lab_measure lab_state) = true.
Proof. lazy. reflexivity. Qed.

Lemma lab_main_completes : (match (lab_main lab_state).1 with Ok _ => true | Raise _ => false end) = true.
Proof. lazy. reflexivity. Qed.
