(* ===== verification/BenchSafe.v ===== *)
(** * BenchSafe: a run of the local benchmark leaves nothing behind

    [tools/run_local_bench.py], [main] and every probe it calls: whatever the surroundings
    answer and however the run ends, each proxy it started has been stopped, each HTTP
    connection and each server it opened has been closed. *)

From S2P Require Import Prelude Unicode PyStr PyTime PyFloat PyVal PyDyn Json Provenance LocalProbe StartupProbes EdgeConfig EdgeProbe.
From S2P Require Import BenchNet BenchLogic BenchHttp BenchOrigin BenchSend BenchConns TrafficBase BenchEcho.
From S2P Require Import TrafficBody TrafficUpstream TrafficLog TrafficGuard TrafficRate TrafficTcp BenchTidy BenchMain BenchLab.

Section run.
Context (w : world) (fuel : nat) (sw : bench_world) (edge : edge_world) (binary tmp_path : pystr) (ports : local_ports).
Context (Hw : communicates w).

(** The startup probes keep a state of their own. *)
Lemma tidy_on_startup m : tidy (on_startup m).
Proof. intros [l t] r s' E. unfold on_startup in E. destruct (m l) as [r1 l1]. injection E as <- <-. exists []. by rewrite app_nil_r. Qed.

Ltac tidy_table := destruct ports; cbv beta zeta iota delta [runtime_probes configuration_probes limit_probes]; for_all; cbn [snd]; first [apply tidy_on_startup | tidy_probe].

Lemma tidy_runtime_probes : Forall (fun f => tidy f.2) (runtime_probes w fuel binary tmp_path ports).
Proof. tidy_table. Qed.

Lemma tidy_configuration_probes : Forall (fun f => tidy f.2) (configuration_probes w fuel sw binary tmp_path ports).
Proof. tidy_table. Qed.

Lemma tidy_limit_probes : Forall (fun f => tidy f.2) (limit_probes w fuel edge binary tmp_path ports).
Proof. tidy_table. Qed.

Lemma tidy_probes : Forall (fun f => tidy f.2) (probes w fuel sw edge binary tmp_path ports).
Proof.
  unfold probes. repeat rewrite Forall_app. auto using tidy_runtime_probes, tidy_configuration_probes, tidy_limit_probes.
Qed.

Context (threads : nat -> world) (lock_order : nat -> list nat) (float_sum : list float -> float).
Context (run_git : pystr -> list pystr -> option (Z * pystr)) (now : utc_time) (cwd executable flood_script : pystr).

(** The threads of the echo benchmark do not add to the trace of the run. *)
Lemma tidy_threads {A} (f : trace -> res A) : tidy (fun t : trace => (f t, t)).
Proof. intros t r t' [= <- <-]. exists []. by rewrite app_nil_r. Qed.

Lemma tidy_measure args :
  tidy (measure w fuel sw edge binary tmp_path ports threads lock_order float_sum run_git now cwd executable flood_script args).
Proof.
  unfold measure. repeat first [apply tidy_record_calls, tidy_probes | apply tidy_threads | probe_step].
Qed.
End run.

Section main.
Context (w : world) (fuel : nat) (sw : bench_world) (edge : edge_world) (Hw : communicates w).
Context (threads : nat -> world) (lock_order : nat -> list nat) (float_sum : list float -> float).
Context (run_git : pystr -> list pystr -> option (Z * pystr)) (now : utc_time) (cwd executable flood_script : pystr).

Lemma tidy_with_server {A} handler port (body : server -> local_run A) :
  (forall s, tidy (body s)) -> tidy (with_server w handler port body).
Proof.
  intros Hb. unfold with_server. apply tidy_acquire_inner. intros [s|e]; cbn; [|exact (tidy_lift (Raise e))].
  apply tidy_finally; [apply Hb|]. tidy.
Qed.

Lemma tidy_start_inner {B} binary config_path (k : proc -> local_run B) :
  (forall p, tidy_but [Process p] (k p)) -> tidy (cbind (inner (start_proxy w binary config_path)) k).
Proof.
  intros Hk. cut (tidy (cbind (inner (L := bench_state) (ask w (Popen [binary; u "--config"; config_path] backtrace_off)))
                              (fun r => cbind (clift r) k))).
  { intros H s r s' E. apply (H s r s'). rewrite <-E. by destruct s. }
  apply tidy_acquire_inner. intros [p|e]; cbn; [apply Hk|exact (tidy_lift (Raise e))].
Qed.

(** The proxy is stopped once, by the handler of a failed start or by the cleanup. *)
Lemma tidy_run_proxy args ports tmp_path upstream seconds :
  tidy (run_proxy w fuel sw edge threads lock_order float_sum run_git now cwd executable flood_script args ports tmp_path upstream
          seconds).
Proof.
  unfold run_proxy.
  repeat lazymatch goal with
         | |- tidy_but _ (finally_with _ _ _) => fail
         | |- tidy_but _ (cbind (inner (start_proxy _ _ _)) _) => apply tidy_start_inner
         | |- _ => probe_step
         end.
  apply tidy_finally_flag.
  - apply flagged_bind; [apply flagged_catch|].
    + apply flagged_inner. tidy_probe.
    + intros e. apply flagged_released. tidy_probe.
    + intros []. apply flagged_bind; [apply flagged_inner, tidy_measure, Hw|]. intros result. apply flagged_inner. tidy_probe.
  - tidy_probe.
  - tidy_probe.
Qed.

Lemma tidy_with_temp_dir {A} (body : pystr -> local_run A) : (forall dir, tidy (body dir)) -> tidy (with_temp_dir w body).
Proof. intros Hb. unfold with_temp_dir. tidy. Qed.

Lemma tidy_main args :
  tidy (main w fuel sw edge threads lock_order float_sum run_git now cwd executable flood_script args).
Proof.
  unfold main. repeat first [apply tidy_with_server | apply tidy_with_temp_dir | apply tidy_run_proxy | probe_step].
Qed.

End main.

Definition starts_process (ev : event) : bool := match acquired (ev_call ev) (ev_answer ev) with Some (Process _) => true | _ => false end.

