(* ===== verification/BenchReport.v ===== *)
(** * BenchReport: the report has what the gate looks at

    [tools/run_local_bench.py] writes the report, [tools/assert_local_bench.py] looks values
    up in it by dotted path: every path the gate requires to be true leads to a boolean of
    every completed report, so that no check fails for a missing or mistyped field. *)

From S2P Require Import Prelude Unicode PyStr PyTime PyFloat PyVal Json Provenance LocalAssert PyDyn LocalProbe StartupProbes StartupGate EdgeConfig EdgeProbe.
From S2P Require Import BenchNet BenchLogic BenchHttp BenchOrigin BenchSend BenchConns TrafficBase BenchEcho.
From S2P Require Import TrafficBody TrafficUpstream TrafficLog TrafficGuard TrafficRate TrafficTcp BenchMain.

(** ** Verdicts *)

Definition evaluates (e : expr) (P : pyval -> Prop) : Prop := forall v, e = Ok v -> P v.

Definition verdict (v : pyval) : Prop := exists b, v = VBool b.

(** The path leads to a boolean, or (for an exact value) to a value. *)
Definition verdict_at (path : list pystr) (v : pyval) : Prop := exists x, walk v path = Some x /\ verdict x.

Section verdict_rules.
Implicit Types (a b : expr).

Lemma verdict_bool (b : bool) : evaluates (VBool b) verdict.
Proof. intros v [= <-]. by exists b. Qed.

Lemma evaluates_bound f a P : (forall v, evaluates (f v) P) -> evaluates (rbind a f) P.
Proof. intros Hf v (x & _ & E)%bind_ok. by eapply Hf. Qed.

Lemma verdict_eq a b : evaluates (py_eq a b) verdict.
Proof. intros v (x & _ & (y & _ & [= <-])%bind_ok)%bind_ok. by eexists. Qed.

Lemma verdict_ne a b : evaluates (py_ne a b) verdict.
Proof. intros v (x & _ & (y & _ & [= <-])%bind_ok)%bind_ok. by eexists. Qed.

Lemma verdict_compared p a b : evaluates (compared p a b) verdict.
Proof. intros v (x & _ & (y & _ & (c & _ & [= <-])%bind_ok)%bind_ok)%bind_ok. by eexists. Qed.

Lemma verdict_lt a b : evaluates (py_lt a b) verdict.
Proof. apply verdict_compared. Qed.

Lemma verdict_le a b : evaluates (py_le a b) verdict.
Proof. apply verdict_compared. Qed.

Lemma verdict_gt a b : evaluates (py_gt a b) verdict.
Proof. apply verdict_compared. Qed.

Lemma verdict_ge a b : evaluates (py_ge a b) verdict.
Proof. apply verdict_compared. Qed.

Lemma verdict_not a : evaluates (py_not a) verdict.
Proof. intros v (x & _ & [= <-])%bind_ok. by eexists. Qed.

Lemma verdict_is_none a : evaluates (is_none a) verdict.
Proof. intros v (x & _ & [= <-])%bind_ok. by eexists. Qed.

Lemma verdict_is_true a : evaluates (PyDyn.is_true a) verdict.
Proof. intros v (x & _ & [= <-])%bind_ok. by eexists. Qed.

Lemma verdict_to_bool a : evaluates (to_bool a) verdict.
Proof. intros v (x & _ & [= <-])%bind_ok. by eexists. Qed.

Lemma verdict_is_string a : evaluates (is_string a) verdict.
Proof. intros v (x & _ & [= <-])%bind_ok. by eexists. Qed.

Lemma verdict_endswith a s : evaluates (py_endswith a s) verdict.
Proof. intros v (x & _ & E)%bind_ok. destruct x; try done. injection E as <-. by eexists. Qed.

Lemma verdict_in_values a b : evaluates (in_values a b) verdict.
Proof. intros v (x & _ & (y & _ & (l & _ & [= <-])%bind_ok)%bind_ok)%bind_ok. by eexists. Qed.

Lemma verdict_in_set a s : evaluates (in_set a s) verdict.
Proof. intros v (x & _ & (y & _ & [= <-])%bind_ok)%bind_ok. by eexists. Qed.

Lemma verdict_all_of f a : evaluates (all_of f a) verdict.
Proof. intros v (x & _ & (l & _ & (b & _ & [= <-])%bind_ok)%bind_ok)%bind_ok. by eexists. Qed.

Lemma verdict_any_of f a : evaluates (any_of f a) verdict.
Proof. intros v (x & _ & (l & _ & (b & _ & [= <-])%bind_ok)%bind_ok)%bind_ok. by eexists. Qed.

Lemma verdict_all_named f names : evaluates (all_named f names) verdict.
Proof.
  induction names as [|n names IH]; intros v; cbn; [intros [= <-]; by eexists|]. intros (x & _ & E)%bind_ok.
  destruct (truthy x); [by apply IH|]. injection E as <-. by eexists.
Qed.

Lemma verdict_all_fields f table : evaluates (all_fields f table) verdict.
Proof.
  induction table as [|[n z] table IH]; intros v; cbn; [intros [= <-]; by eexists|]. intros (x & _ & E)%bind_ok.
  destruct (truthy x); [by apply IH|]. injection E as <-. by eexists.
Qed.

Lemma verdict_and a b : evaluates a verdict -> evaluates b verdict -> evaluates (py_and a b) verdict.
Proof. intros Ha Hb v (x & E & E')%bind_ok. destruct (truthy x); [by apply Hb|]. injection E' as <-. by apply Ha. Qed.

Lemma verdict_or a b : evaluates a verdict -> evaluates b verdict -> evaluates (py_or a b) verdict.
Proof. intros Ha Hb v (x & E & E')%bind_ok. destruct (truthy x); [|by apply Hb]. injection E' as <-. by apply Ha. Qed.
End verdict_rules.

(** ** Fields *)

Fixpoint first_index (k : pystr) (keys : list pystr) : option nat :=
  match keys with [] => None | x :: rest => if str_eqb k x then Some 0 else S <$> first_index k rest end.

Lemma record_dict fields v : record fields = Ok v ->
  exists d, v = VDict d /\ Forall2 (fun (f : pystr * expr) kv => kv.1 = f.1 /\ f.2 = Ok kv.2) fields d.
Proof.
  intros (d & E & [= <-])%bind_ok. exists d. split; [done|]. apply mapR_ok in E. eapply Forall2_impl; [apply E|].
  intros [k e] kv (x & Ex & [= <-])%bind_ok. done.
Qed.

Lemma first_index_dget {T} (fields : list (pystr * T)) (d : pydict) (R : T -> pyval -> Prop) k i f :
  Forall2 (fun f kv => kv.1 = f.1 /\ R f.2 kv.2) fields d -> first_index k fields.*1 = Some i -> fields !! i = Some f ->
  exists x, dget k d = Some x /\ R f.2 x.
Proof.
  intros HF. revert i. induction HF as [|[k1 e] [k2 x] fields d [E HR] HF IH]; intros i; [done|]. cbn in E. subst k2. cbn.
  destruct (str_eqb k k1) eqn:Ek.
  - intros [= <-] [= <-]. by exists x.
  - destruct (first_index k fields.*1) as [j|]; [|done]. intros [= <-]. cbn. by apply IH.
Qed.

Lemma record_at fields k i f rest (P : pyval -> Prop) :
  first_index k fields.*1 = Some i -> fields !! i = Some f ->
  evaluates f.2 (fun v => exists x, walk v rest = Some x /\ P x) ->
  evaluates (record fields) (fun v => exists x, walk v (k :: rest) = Some x /\ P x).
Proof.
  intros Hi Hf He v (d & -> & HF)%record_dict. destruct (first_index_dget _ _ (fun e x => e = Ok x) _ _ _ HF Hi Hf) as (x & Ex & E).
  destruct (He _ E) as (y & Ey & Hy). exists y. cbn. by rewrite Ex.
Qed.

Lemma dict_at (d : pydict) k i kv rest (P : pyval -> Prop) :
  first_index k d.*1 = Some i -> d !! i = Some kv ->
  (exists x, walk kv.2 rest = Some x /\ P x) -> exists x, walk (VDict d) (k :: rest) = Some x /\ P x.
Proof.
  intros Hi Hk (y & Ey & Hy). exists y. split; [|done]. cbn. revert i Hi Hk. induction d as [|[k1 x] d IH]; intros i; [done|]. cbn.
  destruct (str_eqb k k1); [by intros [= <-] [= <-]|]. destruct (first_index k d.*1) as [j|]; [|done]. intros [= <-]. cbn. by apply IH.
Qed.

(** The paths [paths] lead to booleans; [answered]: or the probe says that it failed or was
    skipped. *)
Definition verdicts (paths : list (list pystr)) (v : pyval) : Prop := Forall (fun path => verdict_at path v) paths.

Definition noted (v : pyval) : Prop :=
  (exists name, walk v [u "error"] = Some (VStr name)) \/ walk v [u "skipped"] = Some (VBool true).

Definition answered (paths : list (list pystr)) (v : pyval) : Prop := verdicts paths v \/ noted v.

Lemma verdict_here e : evaluates e verdict -> evaluates e (fun v => exists x, walk v [] = Some x /\ verdict x).
Proof. intros He v E. exists v. split; [done|]. by apply He. Qed.

Lemma verdicts_each paths e : Forall (fun path => evaluates e (verdict_at path)) paths -> evaluates e (verdicts paths).
Proof. intros HF v E. eapply Forall_impl; [apply HF|]. intros path Hp. by apply Hp. Qed.

Lemma verdict_known x : verdict x -> evaluates (value x) verdict.
Proof. by intros Hx v [= <-]. Qed.

Definition path_eqb (p q : list pystr) : bool := bool_decide (p = q).

Lemma verdicts_at paths path v : existsb (path_eqb path) paths = true -> verdicts paths v -> verdict_at path v.
Proof.
  intros (p & Hp & <-%bool_decide_eq_true_1)%existsb_exists Hv. eapply Forall_forall in Hv; [apply Hv|]. by apply list_elem_of_In.
Qed.

Lemma verdict_item paths x k : verdicts paths x -> existsb (path_eqb [k]) paths = true -> evaluates (item (value x) k) verdict.
Proof.
  intros Hv Hk. destruct (verdicts_at _ _ _ Hk Hv) as (y & Ey & Hy). cbn in Ey. intros v E. destruct x; try done. cbn in E.
  destruct (dget k d); [|done]. by simplify_eq.
Qed.

Lemma verdict_below paths x path :
  verdicts paths x -> existsb (path_eqb path) paths = true -> evaluates (value x) (fun v => exists y, walk v path = Some y /\ verdict y).
Proof. intros Hv Hk v [= <-]. by eapply verdicts_at. Qed.

Lemma dget_dupdate_in k v (d e : pydict) : NoDup (dkeys e) -> dget k e = Some v -> dget k (dupdate d e) = Some v.
Proof.
  revert d. induction e as [|[k1 x] e IH]; intros d; cbn; [done|]. intros [Hn Hd]%NoDup_cons. destruct (str_eqb k k1) eqn:E.
  - apply str_eqb_eq in E as ->. intros [= ->]. by apply dget_dupdate_first.
  - intros Hk. by apply IH.
Qed.

(** [{**a, ...}]: a field of the second dict, or one of the first that it does not replace *)
Lemma merged_dict a b v : merged a b = Ok v -> exists d e, a = Ok (VDict d) /\ b = Ok (VDict e) /\ v = VDict (dupdate d e).
Proof.
  intros (x & -> & (y & -> & E)%bind_ok)%bind_ok. destruct x, y; try done. injection E as <-. by eauto.
Qed.

Lemma first_index_none k keys : first_index k keys = None -> k ∉ keys.
Proof.
  induction keys as [|x keys IH]; cbn; [intros _; apply not_elem_of_nil|]. destruct (str_eqb k x) eqn:E; [done|].
  destruct (first_index k keys); [done|]. intros _. apply not_elem_of_cons. split; [|by apply IH]. intros ->. by rewrite str_eqb_refl in E.
Qed.

Lemma dget_none_keys {T} k (d : list (pystr * T)) : dget k d = None -> k ∉ dkeys d.
Proof.
  induction d as [|[k1 x] d IH]; cbn; [intros _; apply not_elem_of_nil|]. destruct (str_eqb k k1) eqn:E; [done|]. intros Hd.
  apply not_elem_of_cons. split; [|by apply IH]. intros ->. by rewrite str_eqb_refl in E.
Qed.

Lemma record_keys fields d : record fields = Ok (VDict d) -> dkeys d = fields.*1.
Proof.
  intros (d' & [= <-] & HF)%record_dict. induction HF as [|f kv fields d [E _] HF IH]; cbn; [done|]. by rewrite E, <-IH.
Qed.

Lemma merged_left a fields k rest (P : pyval -> Prop) : first_index k fields.*1 = None ->
  evaluates a (fun v => exists x, walk v (k :: rest) = Some x /\ P x) ->
  evaluates (merged a (record fields)) (fun v => exists x, walk v (k :: rest) = Some x /\ P x).
Proof.
  intros Hk Ha v (d & e & E1 & E2 & ->)%merged_dict. destruct (Ha _ E1) as (x & Ex & Hx). exists x. cbn in *.
  rewrite dget_dupdate_other; [done|]. rewrite (record_keys _ _ E2). by apply first_index_none.
Qed.

Lemma merged_right a fields k i f rest (P : pyval -> Prop) : NoDup fields.*1 ->
  first_index k fields.*1 = Some i -> fields !! i = Some f ->
  evaluates f.2 (fun v => exists x, walk v rest = Some x /\ P x) ->
  evaluates (merged a (record fields)) (fun v => exists x, walk v (k :: rest) = Some x /\ P x).
Proof.
  intros Hd Hi Hf He v (d & e & E1 & E2 & ->)%merged_dict. destruct (record_at _ _ _ _ _ _ Hi Hf He _ E2) as (x & Ex & Hx).
  exists x. split; [|done]. cbn in *. rewrite <-(record_keys _ _ E2) in Hd. destruct (dget k e) eqn:Ek; [|done].
  by rewrite (dget_dupdate_in _ _ _ _ Hd Ek).
Qed.

(** ** Automation *)

Create HintDb verdict.
#[export] Hint Resolve verdict_bool verdict_eq verdict_ne verdict_lt verdict_le verdict_gt verdict_ge verdict_not verdict_is_none
  verdict_is_true verdict_to_bool verdict_is_string verdict_endswith verdict_in_values verdict_in_set verdict_all_of verdict_any_of
  verdict_all_named verdict_all_fields verdict_and verdict_or verdict_known : verdict.
#[export] Hint Extern 1 (evaluates (item _ _) verdict) => eapply verdict_item; [eassumption|lazy; reflexivity] : verdict.

Lemma returns_let {S A T} (x : T) (f : T -> eff S A) Q : (forall y, returns (f y) Q) -> returns (let y := x in f y) Q.
Proof. intros Hf. apply Hf. Qed.

Lemma returns_eval e P : evaluates e P -> returns (eval e) P.
Proof. apply returns_lift. Qed.

Lemma returns_ensuring {A B} (m : net A) (f : net B) Q : returns m Q -> returns (ensuring m f) (fun r => Q r.1).
Proof.
  intros Hm t v t' E. unfold ensuring in E. destruct (m t) as [r t1] eqn:E1, (f t1) as [[y|e] t2]; [|done]. destruct r; [|done].
  injection E as <- <-. by eapply Hm.
Qed.

Ltac is_verdict := solve [auto 20 with verdict nocore].

(** A path into a dict or a dict display. *)
Ltac field :=
  lazymatch goal with
  | |- evaluates (record ?fields) (verdict_at (?k :: ?rest)) =>
      try (eapply (record_at fields k); [lazy; reflexivity | cbn [lookup list_lookup]; reflexivity | cbn [snd]; field])
  | |- evaluates (merged _ (record ?fields)) (verdict_at (?k :: ?rest)) =>
      try (eapply (merged_right _ fields k);
           [by apply (bool_decide_unpack _); lazy | lazy; reflexivity | cbn [lookup list_lookup]; reflexivity | cbn [snd]; field])
  | |- evaluates _ (fun v => exists x, walk v [] = Some x /\ verdict x) => apply verdict_here; try is_verdict
  | |- evaluates (value _) (fun v => exists x, walk v _ = Some x /\ verdict x) =>
      first [eapply verdict_below; [eassumption|lazy; reflexivity] | idtac]
  | |- verdict_at (?k :: ?rest) (VDict ?d) =>
      try (eapply (dict_at d k); [lazy; reflexivity | cbn [lookup list_lookup]; reflexivity | cbn [snd]; field])
  | |- exists x, walk (VDict ?d) (?k :: ?rest) = Some x /\ verdict x => change (verdict_at (k :: rest) (VDict d)); field
  | |- exists x, walk _ [] = Some x /\ verdict x => try (eexists; split; [reflexivity|eexists; reflexivity])
  | |- _ => idtac
  end.

Create HintDb posts.

(** One step; after a call whose report is known, or an expression that is a verdict, the
    continuation may use that. *)
Ltac returns_step :=
  lazymatch goal with
  | |- returns (let x := _ in _) _ => apply returns_let; intros ?
  | |- returns (match ?x with _ => _ end) _ => destruct x
  | |- returns (cbind (eval _) _) _ =>
      first [eapply (returns_bind verdict); [apply returns_eval; is_verdict|intros ? ?] | eapply returns_bind; [apply returns_any|intros ? _]]
  | |- returns (cbind ?m _) _ =>
      first [eapply returns_bind; [solve [auto with posts nocore]|intros ? ?] | eapply returns_bind; [apply returns_any|intros ? _]]
  | |- returns (finally _ _) _ => apply returns_finally
  | |- returns (finally_with _ _ _) _ => apply returns_finally_with
  | |- returns (catch _ _ _) _ => apply returns_catch; [|intros ?]
  | |- returns (inner _) _ => apply returns_inner
  | |- returns (eval _) (verdicts _) => apply returns_eval, verdicts_each
  | |- returns (clift _) (verdicts _) => apply returns_lift, verdicts_each
  | |- returns (cret _) _ => apply returns_ret; unfold verdicts
  | |- returns ?m _ => let f := head_of m in unfold f
  end.
Ltac returns_verdicts := repeat returns_step; for_all; field.

(** ** What the requests report *)

Section posts.
Context (w : world) (fuel : nat).

Lemma post_content_encoding port encoding : returns (request_with_content_encoding w port encoding) (verdicts [[u "connection_close"]]).
Proof. returns_verdicts. Qed.

Lemma post_expect port value : returns (send_raw_expect_request w fuel port value) (verdicts [[u "cache_control_no_store"]]).
Proof. returns_verdicts. Qed.

Lemma post_min_rate port :
  returns (send_min_rate_body_request w port) (verdicts [[u "cache_control_no_store"]; [u "connection_close"]]).
Proof. returns_verdicts. Qed.

Lemma post_banked port :
  returns (send_banked_min_rate_body_request w port) (verdicts [[u "cache_control_no_store"]; [u "connection_close"]]).
Proof. returns_verdicts. Qed.

Lemma post_slow_drip port : returns (send_tcp_slow_drip w fuel port) (verdicts [[u "closed_or_reset"]]).
Proof. returns_verdicts. Qed.

Lemma post_idle_keepalive port : returns (run_idle_keepalive_probe w fuel port) (verdicts [[u "closed_before_reuse"]]).
Proof. returns_verdicts. Qed.

Lemma post_http_duration port seconds :
  returns (send_http_max_connection_duration_probe w fuel port seconds) (verdicts [[u "second_closed_or_reset"]]).
Proof.
  unfold send_http_max_connection_duration_probe. returns_step.
  eapply returns_bind; [apply (returns_try_block (fun l => verdict (dl_closed l))); [by eexists|unfold on_connection]|].
  - repeat lazymatch goal with
           | |- keeps _ (cbind (clift (py_and _ _)) _) =>
               eapply (keeps_bind _ verdict); [apply keeps_lift|apply returns_lift; apply verdict_and; is_verdict|intros ? ?]
           | |- _ => progress keeps_step
           end; try done. by eexists.
  - intros [l failed] Hl. repeat returns_step. for_all. field. by exists (dl_closed l).
Qed.

Lemma post_tcp_duration port seconds :
  returns (send_tcp_max_connection_duration_probe w fuel port seconds) (verdicts [[u "closed_or_reset"]]).
Proof. returns_verdicts. Qed.

(** The two answers an admin request leaves in the dict [result]. *)
Definition admin_verdicts (d : pydict) : Prop :=
  verdicts [[u "first"; u "connection_close"]; [u "followup"; u "closed_without_response"]] (VDict d).

Lemma verdict_at_dset k v (d : pydict) k' rest :
  (if str_eqb k' k then verdict_at rest v else verdict_at (k' :: rest) (VDict d)) -> verdict_at (k' :: rest) (VDict (dset k v d)).
Proof.
  unfold verdict_at. cbn. destruct (str_eqb k' k) eqn:E.
  - apply str_eqb_eq in E as ->. by rewrite dget_dset_eq.
  - rewrite dget_dset_ne; [done|]. intros ->. by rewrite str_eqb_refl in E.
Qed.

Lemma admin_verdicts_dset k v d :
  (str_eqb (u "first") k = true -> verdict_at [u "connection_close"] v) ->
  (str_eqb (u "followup") k = true -> verdict_at [u "closed_without_response"] v) -> admin_verdicts d -> admin_verdicts (dset k v d).
Proof.
  intros H1 H2 [Ha [Hb _]%Forall_cons]%Forall_cons. unfold admin_verdicts, verdicts. for_all; apply verdict_at_dset.
  - destruct (str_eqb (u "first") k); auto.
  - destruct (str_eqb (u "followup") k); auto.
Qed.

Lemma second_summary_verdict second : evaluates (second_summary second) (verdict_at [u "connection_close"]).
Proof. apply evaluates_bound. intros c. apply evaluates_bound. intros cc. field. Qed.

Lemma followup_verdict followup : evaluates (followup_of followup) (verdict_at [u "closed_without_response"]).
Proof. do 3 (apply evaluates_bound; intros ?). intros r [= <-]. field. Qed.

Lemma post_admin port path headers :
  returns (send_body_bearing_admin_keepalive_request w fuel port path headers)
    (verdicts [[u "first"; u "connection_close"]; [u "followup"; u "closed_without_response"]]).
Proof.
  unfold send_body_bearing_admin_keepalive_request. returns_step. cbv zeta.
  eapply returns_bind; [apply (returns_try_block admin_verdicts); [|unfold on_connection]|].
  - unfold admin_verdicts, verdicts, admin_result, followup_summary. for_all; field.
  - repeat lazymatch goal with
           | |- keeps _ (cbind (clift (second_summary _)) _) =>
               eapply (keeps_bind _ (verdict_at [u "connection_close"])); [apply keeps_lift|apply returns_lift, second_summary_verdict|intros ? ?]
           | |- keeps _ (cbind (clift (followup_of _)) _) =>
               eapply (keeps_bind _ (verdict_at [u "closed_without_response"])); [apply keeps_lift|apply returns_lift, followup_verdict|intros ? ?]
           | |- keeps _ (update (dset _ _)) => apply keeps_update; intros ?; apply admin_verdicts_dset; intros ?; try done
           | |- _ => progress keeps_step
           end; try (unfold followup_summary; field).
  - intros [result failed] Hr. cbn [fst] in Hr. returns_step. apply returns_ret.
    apply admin_verdicts_dset; [done..|]. destruct failed; [|done]. by apply admin_verdicts_dset.
Qed.

Lemma post_raw_response port path : returns (read_raw_response w fuel port path) (verdicts [[u "closed"]]).
Proof. returns_verdicts. Qed.
End posts.

#[export] Hint Resolve post_content_encoding post_expect post_min_rate post_banked post_slow_drip post_idle_keepalive post_http_duration
  post_tcp_duration post_admin post_raw_response : posts.

(** ** What the gate requires of a probe *)

Definition required (name : pystr) : list (list pystr) := split_on 46 <$> gate_keys name.

Ltac required_paths :=
  lazymatch goal with
  | |- context [required ?name] =>
      let ps := eval vm_compute in (required name) in
      let H := fresh in assert (H : required name = ps) by (vm_compute; reflexivity); rewrite H; clear H
  end.

Lemma verdict_header_matches header expected responses : evaluates (generated_response_header_matches header expected responses) verdict.
Proof. apply verdict_all_of. Qed.

Lemma verdict_absent observed names : evaluates (absent observed names) verdict.
Proof. apply verdict_all_named. Qed.

Lemma verdict_spoofed e : evaluates (spoofed_forwarded_headers_absent e) verdict.
Proof. apply verdict_absent. Qed.

Lemma verdict_hops e : evaluates (hop_by_hop_headers_absent e) verdict.
Proof. apply verdict_absent. Qed.

Lemma verdict_hop_by_hop e : evaluates (response_hop_by_hop_headers_absent e) verdict.
Proof. apply evaluates_bound. intros v. apply verdict_and; [apply verdict_all_named|]. is_verdict. Qed.
#[export] Hint Resolve verdict_header_matches verdict_absent verdict_spoofed verdict_hops verdict_hop_by_hop : verdict.

(** ** Reports that are put together from calls *)

Lemma record_calls_dict {S} (fields : list (pystr * eff S pyval)) (Q : pystr * eff S pyval -> pyval -> Prop) :
  Forall (fun f => returns f.2 (Q f)) fields ->
  returns (record_calls fields) (fun d => Forall2 (fun f kv => kv.1 = f.1 /\ Q f kv.2) fields d).
Proof.
  induction 1 as [|[name m] fields Hm HF IH]; cbn [record_calls]; [by apply returns_ret|].
  eapply returns_bind; [apply Hm|]. intros x Hx. eapply returns_bind; [apply IH|]. intros d Hd. apply returns_ret. by constructor.
Qed.

Lemma record_calls_at {S} (fields : list (pystr * eff S pyval)) k i f rest :
  first_index k fields.*1 = Some i -> fields !! i = Some f -> returns f.2 (verdict_at rest) ->
  returns (record_calls fields) (fun d => verdict_at (k :: rest) (VDict d)).
Proof.
  intros Hi Hf Hr s d s' E.
  assert (HF : Forall (fun g => returns g.2 (fun v => g = f -> verdict_at rest v)) fields).
  { apply Forall_forall. intros g _ s1 v s2 E1 ->. by eapply Hr. }
  pose proof (record_calls_dict _ _ HF _ _ _ E) as H2. clear HF E.
  assert (H3 : Forall2 (fun (g : pystr * (pystr * eff S pyval)) kv => kv.1 = g.1 /\ (g.2 = f -> verdict_at rest kv.2))
                       ((fun g => (g.1, g)) <$> fields) d).
  { apply Forall2_fmap_l. done. }
  destruct (first_index_dget _ _ (fun g x => g = f -> verdict_at rest x) k i (f.1, f) H3) as (x & Ex & Hx).
  - rewrite <-list_fmap_compose. rewrite <-Hi. f_equal.
  - by rewrite list_lookup_fmap, Hf.
  - destruct (Hx eq_refl) as (y & Ey & Hy). exists y. cbn. by rewrite Ex.
Qed.

Lemma returns_each {S A} (m : eff S A) {T} (R : T -> A -> Prop) l :
  Forall (fun x => returns m (R x)) l -> returns m (fun v => Forall (fun x => R x v) l).
Proof. intros HF s v s' E. eapply Forall_impl; [apply HF|]. intros x Hx. by eapply Hx. Qed.

Lemma returns_weaken {S A} (m : eff S A) (P Q : A -> Prop) : (forall v, P v -> Q v) -> returns m P -> returns m Q.
Proof. intros HPQ Hm s v s' E. by eapply HPQ, Hm. Qed.

Lemma answered_verdicts {S} (m : eff S pyval) paths : returns m (verdicts paths) -> returns m (answered paths).
Proof. apply returns_weaken. by left. Qed.

(** ** The probes *)

Section probes.
Context (w : world) (fuel : nat) (binary tmp_path : pystr) (upstream_port : Z).

(** A failed request leaves the fields out. *)
Lemma slow_body_answered port : returns (run_slow_body_probe w port) (answered (required (u "slow_body"))).
Proof.
  required_paths. repeat returns_step.
  - left. unfold verdicts. for_all; field.
  - right. left. by eexists.
Qed.

(** Without named pipes the probe is skipped. *)
Lemma async_queue_answered :
  returns (run_event_log_async_queue_probe w fuel binary upstream_port tmp_path) (answered (required (u "event_log_async_queue"))).
Proof.
  required_paths. unfold run_event_log_async_queue_probe. returns_step. destruct x; cbn [negb].
  - apply answered_verdicts. returns_verdicts.
  - apply returns_ret. by right; right.
Qed.

Lemma filter_bounds_verdicts :
  returns (run_runtime_filter_bounds_probe w fuel binary upstream_port tmp_path) (verdicts (required (u "runtime_filter_bounds"))).
Proof.
  required_paths. unfold run_runtime_filter_bounds_probe.
  lazymatch goal with |- returns _ (verdicts ?paths) => set (ps := paths) end.
  repeat lazymatch goal with
         | |- returns (cbind (ensuring _ _) _) _ => eapply returns_bind; [apply (returns_ensuring _ _ (verdicts ps))|intros [p l] Hp]
         | |- returns (cbind (eval _) (fun x => cret x)) _ => eapply (returns_bind (verdicts ps)); [apply returns_eval, verdicts_each|intros ? ?]
         | |- returns (cret _) _ => apply returns_ret
         | |- returns (eval _) _ => apply returns_eval, verdicts_each
         | |- returns _ _ => returns_step
         end; [unfold ps; for_all; field|done|].
  cbn [fst] in Hp. unfold ps, verdicts in Hp. rewrite !Forall_cons in Hp. unfold ps.
  for_all; (eapply merged_left; [lazy; reflexivity|]); intros v [= <-]; naive_solver.
Qed.

Lemma forwarded_verdicts :
  returns (run_forwarded_headers_probe w fuel binary upstream_port tmp_path) (verdicts (required (u "forwarded_headers"))).
Proof.
  required_paths. unfold run_forwarded_headers_probe.
  lazymatch goal with |- returns (cbind (record_calls _) _) ?Q => apply (returns_bind (fun d => Q (VDict d))) end;
    [|intros d Hd; by apply returns_ret].
  apply (returns_each _ (fun path d => verdict_at path (VDict d))).
  for_all; (eapply record_calls_at; [lazy; reflexivity|reflexivity|]); cbn [snd]; repeat returns_step; apply returns_eval; field.
Qed.
End probes.

(** The probes that may fail or be skipped and say so. *)
Definition may_be_noted (name : pystr) : bool := str_eqb name (u "slow_body") || str_eqb name (u "event_log_async_queue").

(** What a row of the report says: booleans at the required paths, or a note. *)
Definition row_answers (name : pystr) : pyval -> Prop :=
  if may_be_noted name then answered (required name) else verdicts (required name).

(** A startup probe is made of cases, each with its own verdict. *)
Lemma on_startup_returns m Q : returns m (fun d => Q (VDict d)) -> returns (on_startup m) Q.
Proof.
  intros Hm [l t] v s' E. unfold on_startup in E. destruct (m l) as [[d|e] l1] eqn:El; [|done]. injection E as <- <-. by eapply Hm.
Qed.

Ltac startup_case := solve [repeat returns_step; eexists; reflexivity].

Ltac startup_step :=
  lazymatch goal with
  | |- returns (@cbind _ ?T _ _ _) _ =>
      lazymatch eval hnf in T with
      | list _ => eapply (returns_bind (fun d => verdict (startup_rejected d))); [startup_case|intros ? ?]
      | _ => eapply returns_bind; [apply returns_any|intros ? _]
      end
  | |- returns (cret _) _ => apply returns_ret; unfold verdicts
  | |- _ => returns_step
  end.
Ltac startup_verdicts :=
  lazymatch goal with |- returns (on_startup _) _ => apply on_startup_returns end; repeat startup_step; for_all; field; first [done | by eexists; split; [reflexivity|]].

(** The guardrails of the report that come from probes. *)
Definition guardrail_names : list pystr :=
  [u "slow_body"; u "request_content_encoding"; u "expect_guard"; u "range_guard"; u "accept_encoding"; u "runtime_nofile";
   u "runtime_nofile_capacity"; u "runtime_sigterm"; u "body_min_rate"; u "downstream_write_timeout";
   u "upstream_connect_timeout"; u "upstream_failure_circuit"; u "upstream_timeout_response"; u "upstream_header_guard";
   u "header_line_cap"; u "upstream_trailer_policy"; u "request_trailer_policy"; u "header_timeout"; u "log_suppression";
   u "event_log_flush"; u "event_log_field_bounds"; u "adaptive_window_cap"; u "adaptive_catalog_shape";
   u "runtime_filter_bounds"; u "runtime_filter_hot_path"; u "filter_activation_nonblocking"; u "rate_limit_before_filter";
   u "event_log_async_queue"; u "event_log_rotation"; u "trusted_proxy_global_trust_startup"; u "negative_rate_startup";
   u "admin_prefix_startup"; u "admin_token_startup"; u "zero_capacity_startup"; u "header_buffer_floor_startup";
   u "header_buffer_ceiling_startup"; u "header_count_ceiling_startup"; u "http_metadata_ceiling_startup";
   u "header_read_timeout_ceiling_startup"; u "upstream_timeout_ceiling_startup";
   u "upstream_failure_circuit_ceiling_startup"; u "http_stream_timeout_ceiling_startup"; u "body_size_ceiling_startup";
   u "min_rate_ceiling_startup"; u "upstream_idle_pool_ceiling_startup"; u "connect_timeout_ceiling_startup";
   u "connection_duration_ceiling_startup"; u "connection_duration_runtime"; u "connection_request_count_ceiling_startup";
   u "event_log_backup_count_ceiling_startup"; u "event_log_queue_capacity_ceiling_startup";
   u "dynamic_state_ceiling_startup"; u "control_capacity_startup"; u "config_file_startup"; u "http_endpoint_startup";
   u "tcp_endpoint_startup"; u "filter_rule_startup"; u "allowed_methods_startup"; u "allowed_hosts_startup";
   u "client_ip_config_startup"; u "http_connection_rate"; u "method_guard"; u "method_override_headers";
   u "early_rejection_close"; u "host_guard"; u "framing_guard"; u "initial_framing_precheck_response";
   u "chunked_request_body_opt_in"; u "forwarded_headers"; u "forwarded_header_bounds"; u "trusted_proxy_aggregate_rate";
   u "trusted_proxy_in_flight"; u "ip_prefix_aggregation"; u "signature_rate"; u "path_shape_rate"; u "uri_guard";
   u "tcp_global_connection_cap"; u "tcp_global_connection_rate"; u "tcp_idle_timeout"; u "tcp_relay_head_of_line";
   u "tcp_min_rate"; u "admin_rate_limit"; u "admin_signature_rate"; u "upstream_in_flight"; u "upstream_response_guard";
   u "header_count"; u "upstream_pool"; u "listen_backlog"; u "rate_limiter_fairness"; u "tracked_ip_cap";
   u "edge_template_port_coverage"; u "downstream_keep_alive"; u "connection_request_limit"].

Section run.
Context (w : world) (fuel : nat) (sw : bench_world) (edge : edge_world) (binary tmp_path : pystr) (ports : local_ports).

Definition reports (f : pystr * local_run pyval) : Prop := returns f.2 (row_answers f.1).

Ltac table :=
  destruct ports; cbv beta zeta iota delta [runtime_probes limit_probes configuration_probes]; for_all;
  unfold reports, row_answers; cbn [fst snd];
  lazymatch goal with |- returns _ (if ?b then _ else _) => let c := eval vm_compute in b in change b with c; cbv iota end;
  lazymatch goal with
  | |- returns (inner (run_slow_body_probe _ _)) _ => apply returns_inner, slow_body_answered
  | |- returns (inner (run_event_log_async_queue_probe _ _ _ _ _)) _ => apply returns_inner, async_queue_answered
  | |- returns (inner (run_runtime_filter_bounds_probe _ _ _ _ _)) _ => apply returns_inner, filter_bounds_verdicts
  | |- returns (inner (run_forwarded_headers_probe _ _ _ _ _)) _ => apply returns_inner, forwarded_verdicts
  | |- _ => required_paths
  end.

Lemma runtime_reports : Forall reports (runtime_probes w fuel binary tmp_path ports).
Proof. table; returns_verdicts. Qed.

Lemma limit_reports : Forall reports (limit_probes w fuel edge binary tmp_path ports).
Proof. table; returns_verdicts. Qed.

Lemma configuration_reports : Forall reports (configuration_probes w fuel sw binary tmp_path ports).
Proof. table; first [startup_verdicts | returns_verdicts]. Qed.

Lemma probe_reports : Forall reports (probes w fuel sw edge binary tmp_path ports).
Proof. unfold probes. rewrite !Forall_app. auto using runtime_reports, configuration_reports, limit_reports. Qed.

Lemma probe_names : (probes w fuel sw edge binary tmp_path ports).*1 = guardrail_names.
Proof. by destruct ports. Qed.
End run.
