(* ===== verification/BenchGate.v ===== *)
(** * BenchGate: the local benchmark and its release gate fit together

    A completed run of [tools/run_local_bench.py] gives every guardrail that
    [tools/assert_local_bench.py] requires to be true a boolean; and what two of these
    guardrails are worth. *)

From S2P Require Import Prelude Unicode PyStr PyTime PyFloat PyVal Json Provenance LocalAssert PyDyn LocalProbe StartupProbes StartupGate EdgeConfig EdgeProbe.
From S2P Require Import BenchNet BenchLogic BenchHttp BenchOrigin BenchSend BenchConns TrafficBase BenchEcho BenchMain BenchLab BenchReport.

(** ** The control plane *)

Definition admin_answers (c : control_responses) : Prop :=
  Forall (verdicts [[u "first"; u "connection_close"]; [u "followup"; u "closed_without_response"]])
    [admin_body_health_response c; admin_body_metrics_without_token_response c; admin_body_metrics_with_token_response c].

Lemma control_requests_answer w fuel port : returns (send_control_requests w fuel port) admin_answers.
Proof.
  unfold send_control_requests. repeat returns_step. unfold admin_answers. cbn. by for_all.
Qed.

Lemma verdict_item2 paths x k1 k2 :
  verdicts paths x -> existsb (path_eqb [k1; k2]) paths = true -> evaluates (item (item (value x) k1) k2) verdict.
Proof.
  intros Hv Hk. destruct (verdicts_at _ _ _ Hk Hv) as (y & Ey & Hy). cbn in Ey. intros v E. destruct x; try done. cbn in E.
  destruct (dget k1 d) as [z|]; [|done]. cbn in E. destruct z; try done. destruct (dget k2 _); [|done]. by simplify_eq.
Qed.

#[local] Hint Extern 1 (evaluates (item (item _ _) _) verdict) => eapply verdict_item2; [eassumption|lazy; reflexivity] : verdict.

Lemma admin_control_plane_verdicts c :
  admin_answers c -> evaluates (admin_control_plane c) (verdicts (required (u "admin_control_plane"))).
Proof.
  unfold admin_answers. rewrite !Forall_cons. intros (H1 & H2 & H3 & _). destruct c. cbn in H1, H2, H3. unfold admin_control_plane.
  required_paths. apply verdicts_each. for_all; field.
Qed.

(** ** The report of a run *)

(** The rows of the report that come from probes. *)
Lemma record_middle (before after : list (pystr * expr)) (results : pydict) v name x :
  record (before ++ ((fun kv => (kv.1, Ok kv.2)) <$> results) ++ after) = Ok v ->
  name ∉ before.*1 -> dget name results = Some x -> exists g, v = VDict g /\ dget name g = Some x.
Proof.
  intros (g & -> & HF)%record_dict Hn Hx. exists g. split; [done|]. revert g HF. induction before as [|[k e] before IH]; intros g HF.
  - cbn in HF. clear Hn. revert g HF. induction results as [|[k y] results IH]; intros g HF; [done|]. inversion HF as [|? [k' y'] ? g' [E1 E2] HF']; subst.
    cbn in E1, E2. injection E2 as ->. subst k'. cbn in *. destruct (str_eqb name k); [done|]. by apply IH.
  - inversion HF as [|? [k' y'] ? g' [E1 E2] HF']; subst. cbn in E1. subst k'. cbn in *. apply not_elem_of_cons in Hn as [Hne Hn].
    rewrite str_eqb_neq by done. by apply IH.
Qed.

Lemma Forall2_dget {T} (fields : list (pystr * T)) (d : pydict) (Q : pystr * T -> pyval -> Prop) name :
  Forall2 (fun f kv => kv.1 = f.1 /\ Q f kv.2) fields d -> name ∈ fields.*1 ->
  exists f x, f.1 = name /\ dget name d = Some x /\ Q f x.
Proof.
  induction 1 as [|[k m] [k' x] fields d [E HQ] HF IH]; [by intros ?%not_elem_of_nil|]. cbn in E. subst k'. cbn.
  intros Hin. destruct (str_eqb name k) eqn:Ek.
  - apply str_eqb_eq in Ek as ->. by exists (k, m), x.
  - apply elem_of_cons in Hin as [->|Hin]; [by rewrite str_eqb_refl in Ek|]. by apply IH.
Qed.

Definition rows_answer (rows : pyval) : Prop :=
  forall name, name ∈ u "admin_control_plane" :: guardrail_names -> exists g x, rows = VDict g /\ dget name g = Some x /\ row_answers name x.

Section run.
Context (w : world) (fuel : nat) (sw : bench_world) (edge : edge_world) (binary tmp_path : pystr) (ports : local_ports).
Context (threads : nat -> world) (lock_order : nat -> list nat) (float_sum : list float -> float).
Context (run_git : pystr -> list pystr -> option (Z * pystr)) (now : utc_time) (cwd executable flood_script : pystr).

Lemma probes_answer :
  returns (record_calls (probes w fuel sw edge binary tmp_path ports))
    (fun d => forall name, name ∈ guardrail_names -> exists x, dget name d = Some x /\ row_answers name x).
Proof.
  intros s d s' E name Hn. pose proof (record_calls_dict _ _ (probe_reports w fuel sw edge binary tmp_path ports) _ _ _ E) as HF.
  destruct (Forall2_dget _ _ (fun f v => row_answers f.1 v) name HF) as (f & x & <- & Hx & HQ); [by rewrite probe_names|]. by exists x.
Qed.

Lemma guardrails_answer c results before after :
  admin_answers c -> (forall name, name ∈ guardrail_names -> exists x, dget name results = Some x /\ row_answers name x) ->
  evaluates (guardrails c results before after) rows_answer.
Proof.
  intros Hc Hr rows E name [->|Hn]%elem_of_cons.
  - destruct (record_dict _ _ E) as (g & -> & HF).
    destruct (first_index_dget _ _ (fun (e : expr) x => e = Ok x) (u "admin_control_plane") 2 (u "admin_control_plane", admin_control_plane c) HF)
      as (x & Hx & Ex); [lazy; reflexivity|reflexivity|]. exists g, x. split_and!; [done..|]. by apply (admin_control_plane_verdicts c).
  - destruct (Hr name Hn) as (x & Hx & HQ). destruct (record_middle _ _ _ _ name x E) as (g & -> & Hg); [|done|by exists g, x].
    assert (Hd : forallb (fun name => negb (existsb (str_eqb name) [u "oversized_content_length"; u "oversized_content_length_status";
      u "admin_control_plane"; u "metrics_without_token_status"])) guardrail_names = true) by (vm_compute; reflexivity).
    rewrite forallb_forall in Hd. specialize (Hd name (proj1 (list_elem_of_In _ _) Hn)). intros Hin%list_elem_of_In.
    apply negb_true_iff in Hd. rewrite <-not_true_iff_false in Hd. apply Hd, existsb_exists. exists name. split; [done|apply str_eqb_refl].
Qed.

Lemma measure_answers args :
  returns (measure w fuel sw edge binary tmp_path ports threads lock_order float_sum run_git now cwd executable flood_script args)
    (fun v => exists report rows, v = VDict report /\ dget (u "guardrails") report = Some rows /\ rows_answer rows).
Proof.
  unfold measure. cbv zeta.
  repeat lazymatch goal with
         | |- returns (cbind (inner (send_control_requests _ _ _)) _) _ =>
             eapply returns_bind; [apply returns_inner, control_requests_answer|intros c Hc]
         | |- returns (cbind (record_calls _) _) _ => eapply returns_bind; [apply probes_answer|intros results Hr]
         | |- returns (cbind (inner (eval _)) _) _ =>
             eapply returns_bind; [apply returns_inner, returns_eval, guardrails_answer; [apply Hc|apply Hr]|intros rows Hrows]
         | |- returns (cbind _ _) _ => eapply returns_bind; [apply returns_any|intros ? _]
         end.
  apply returns_ret. eexists _, rows. split_and!; [done|reflexivity|done].
Qed.
End run.

(** ** Every check of the gate *)

(** A required path names a row of the report and a path the row has to answer. *)
Definition covered (path : pystr) : bool :=
  match split_on 46 path with
  | g :: name :: rest =>
      str_eqb g (u "guardrails") && existsb (str_eqb name) (u "admin_control_plane" :: guardrail_names) &&
      existsb (path_eqb rest) (required name)
  | _ => false
  end.

Lemma gate_covered : forallb (fun check => covered check.1) REQUIRED_TRUE_CHECKS = true.
Proof. vm_compute. reflexivity. Qed.

(** The probe of the path failed or was skipped, and its row says so. *)
Definition row_noted (report : pydict) (path : pystr) : Prop :=
  exists name v, may_be_noted name = true /\ starts_with (probe_prefix name) path = true /\
    walk (VDict report) [u "guardrails"; name] = Some v /\ noted v.

Lemma covered_answer report rows path : dget (u "guardrails") report = Some rows -> rows_answer rows -> covered path = true ->
  (exists b, path_value report path = Some (VBool b)) \/ row_noted report path.
Proof.
  intros Hg Hr Hc. unfold covered in Hc. destruct (split_on 46 path) as [|g [|name rest]] eqn:Es; [done..|].
  apply andb_true_iff in Hc as [[Eg (n & Hn & En)%existsb_exists]%andb_true_iff Hp]. apply str_eqb_eq in Eg as ->.
  apply str_eqb_eq in En as <-. apply list_elem_of_In in Hn. destruct (Hr _ Hn) as (d & x & -> & Hx & Ha).
  assert (Hw : verdicts (required name) x -> exists b, path_value report path = Some (VBool b)).
  { intros Hv. destruct (verdicts_at _ _ _ Hp Hv) as (y & Ey & b & ->). exists b. unfold path_value. rewrite Es. cbn.
    by rewrite Hg, Hx. }
  unfold row_answers in Ha. destruct (may_be_noted name) eqn:Em; [|by left; apply Hw]. destruct Ha as [Hv|Hv]; [by left; apply Hw|].
  right. exists name, x. split_and!; [done| | |done].
  - apply starts_with_spec. exists (join [46%N] rest). rewrite <-(join_split_on 46 path), Es. unfold probe_prefix.
    destruct rest as [|r rest]; [|cbn; by rewrite <-!app_assoc].
    exfalso. clear -Hp Em. unfold may_be_noted in Em. apply orb_true_iff in Em as [->%str_eqb_eq| ->%str_eqb_eq]; by vm_compute in Hp.
  - cbn. by rewrite Hg, Hx.
Qed.

(** C17. The local benchmark and its release gate agree on the report: whatever the proxy and
    the operating system answer, in the report of a completed run every guardrail the gate
    requires to be true leads to a boolean - it is neither missing nor of another type.  The
    two exceptions are the slow-body and the event-log-queue probe, whose row then says that
    the request failed or the probe was skipped. *)
Theorem gate_fields_reported w fuel sw edge binary tmp_path ports threads lock_order float_sum run_git now cwd executable flood_script
    args s report s' check :
  measure w fuel sw edge binary tmp_path ports threads lock_order float_sum run_git now cwd executable flood_script args s
    = (Ok (VDict report), s') ->
  check ∈ REQUIRED_TRUE_CHECKS ->
  (exists b, path_value report check.1 = Some (VBool b)) \/ row_noted report check.1.
Proof.
  intros E Hc. destruct (measure_answers _ _ _ _ _ _ _ _ _ _ _ _ _ _ _ _ _ _ _ E) as (r & rows & [= <-] & Hg & Hr).
  eapply covered_answer; [done..|]. pose proof gate_covered as H. rewrite forallb_forall in H. by apply (H check), list_elem_of_In.
Qed.

Lemma gate_fields_reported_witness :
  exists report s', lab_measure lab_state = (Ok (VDict report), s') /\
    ((exists b, path_value report (u "guardrails.tcp_idle_timeout.closed") = Some (VBool b)) \/
     row_noted report (u "guardrails.tcp_idle_timeout.closed")).
Proof.
  destruct (completed_spec _ lab_completes) as (report & s' & E). exists report, s'. split; [exact E|].
  refine (gate_fields_reported lab 40 lab_starts lab_edge (u "altura-prot") (u "/tmp") lab_ports (fun _ => lab) (fun n => seq 0 n)
            (fun _ => f0) (fun _ _ => None) (Utc 2024 1 1 0 0 0) (u "/") (u "python3") (u "local_http_flood.py") lab_args lab_state
            report s' (u "guardrails.tcp_idle_timeout.closed", _) E _).
  apply (list_elem_of_lookup_2 _ 174). vm_compute. reflexivity.
Defined.

(** The gate requires the field [closed] of the oversized and the stalled upstream
    response, but the benchmark never looks: [read_raw_response] reports [closed] as true
    whatever the connection did, also when the connection stayed open until the reading
    timed out. *)
Theorem closed_is_always_true w fuel port path t v t' :
  read_raw_response w fuel port path t = (Ok v, t') -> walk v [u "closed"] = Some (VBool true).
Proof.
  revert t v t'. change (returns (read_raw_response w fuel port path) (fun v => walk v [u "closed"] = Some (VBool true))).
  by repeat returns_step.
Qed.

Lemma closed_is_always_true_witness :
  exists v t', read_raw_response lab 5 9 (u "/response-guard/stalled") [] = (Ok v, t') /\ walk v [u "closed"] = Some (VBool true).
Proof.
  eexists _, _. split; [vm_compute; reflexivity|].
  refine (closed_is_always_true lab 5 9 (u "/response-guard/stalled") [] _ _ _). vm_compute. reflexivity.
Defined.
