(* ===== verification/E2e.v ===== *)
(** * E2e: the CodexSDGate end-to-end run

    [tools/run_codexsdgate_e2e.py]: an origin, the proxy and one analyzer per scenario, two
    phases of traffic around the learning of filters, and the report.  Random choices come
    from a [RandomSource]; every client thread gets its own answers from its surroundings. *)

From S2P Require Import Prelude Unicode PyStr PyFloat PyVal PyDyn Json Scenarios Flood BenchNet BenchHttp BenchOrigin TrafficBase.

(** ** The origin *)

(** The handler: the responses to the bytes received so far, and what is kept of them. *)
Definition no_content_reply : bytes :=
  message [u "HTTP/1.1 204 No Content"; u "Content-Length: 0"; u "Connection: keep-alive"].

Definition upstream_received (buf data : bytes) : bytes * option bytes :=
  let buf := buf ++ data in
  if contains (CRLF ++ CRLF) buf then ([], Some no_content_reply) else (buf, None).

(** ** Arguments *)

Record e2e_args := E2eArgs {
  e_binary : pystr;                (** as [str(Path(args.binary))] writes it *)
  e_provider : pystr;
  e_no_codex : bool;
  e_duration : float;
  e_workers : Z;
  e_analyzer_wait : float;
  e_verify_persistence : bool }.

Definition default_e2e_args : e2e_args :=
  E2eArgs (u "target/release/altura-prot") (u "codex") false (sec 4 1) 32 (sec 20 1) false.

(** ** Phases *)

Record PhaseResult := Phase { ph_requests : Z; ph_errors : Z; ph_statuses : list (Z * Z) }.

Definition no_phase : PhaseResult := Phase 0 0 [].

Section scenario.
Context {R : Type} `{RandomSource R}.

Definition scenario_path_builder (scenario : pystr) : rand R pystr :=
  if str_eqb scenario (u "cachebuster") then
    draw a <- number (10 ^ 12) in draw b <- number 1000 in rret (u "/api/search?cachebust=" ++ a ++ u "&id=" ++ b)
  else if str_eqb scenario (u "rotating-path") then
    draw a <- number (10 ^ 9) in rret (u "/api/item/" ++ a ++ u "?view=full")
  else if str_eqb scenario (u "uuid-path") then
    draw a <- hex_number 8 in draw b <- hex_number 4 in draw c <- hex_number 4 in draw d <- hex_number 4 in draw e <- hex_number 12 in
    rret (u "/api/object/" ++ a ++ u "-" ++ b ++ u "-" ++ c ++ u "-" ++ d ++ u "-" ++ e ++ u "?view=full")
  else rret (u "/api/login").

Definition scenario_user_agents (scenario : pystr) : list pystr :=
  if str_eqb scenario (u "mixed-user-agent") then
    [u "curl/8.0"; u "python-requests/2.32"; u "Mozilla/5.0 altura-e2e"; u "node-fetch/3"]
  else [u "curl/8.0"].

(** ** A client thread *)

Section worker.
Context (w : world) (port : Z) (scenario : pystr).

(** The connection is a local variable, closed and forgotten on an error. *)
Fixpoint phase_rounds (fuel : nat) (stop_at : float) (conn : option http_conn) (rng : R) (local : PhaseResult) :
    net (option http_conn * PhaseResult) :=
  perform now <- perf_counter w in
  if fltb now stop_at then
    match fuel with
    | O => out_of_fuel
    | S fuel' =>
        perform c <- match conn with Some c => cret c | None => ask w (HttpConnection port (sec 1 1)) end in
        let '(path, rng) := scenario_path_builder scenario rng in
        let '(user_agent, rng) := choice (scenario_user_agents scenario) rng in
        perform r <- attempt (http_exchange w c (u "GET") path None [(u "User-Agent", user_agent); (u "Accept", u "*/*")]) in
        match r with
        | Ok (head, _) =>
            phase_rounds fuel' stop_at (Some c) rng
              (Phase (ph_requests local + 1) (ph_errors local) (count_key Z.eqb (hh_status head) 1 (ph_statuses local)))
        | Raise _ =>
            perform _ <- ask w (CloseHttp c) in
            phase_rounds fuel' stop_at None rng (Phase (ph_requests local) (ph_errors local + 1) (ph_statuses local))
        end
    end
  else cret (conn, local).

Definition phase_worker (fuel : nat) (stop_at : float) (worker_id : nat) : net PhaseResult :=
  perform r <- phase_rounds fuel stop_at None (seeded (Z.of_nat worker_id)) no_phase in
  perform _ <- match r.1 with Some c => ask w (CloseHttp c) | None => cret tt end in
  cret r.2.
End worker.

(** [with lock: ...] *)
Definition add_phase (result local : PhaseResult) : PhaseResult :=
  Phase (ph_requests result + ph_requests local) (ph_errors result + ph_errors local)
        (merge_counts Z.eqb (ph_statuses result) (ph_statuses local)).

(** The threads of phase [phase]; [lock_order] is the order in which they take the lock. *)
Record client_threads := ClientThreads { ct_world : nat -> nat -> world; ct_lock_order : nat -> nat -> list nat }.

Definition run_phase (w : world) (threads : client_threads) (phase : nat) (fuel : nat) (port : Z) (scenario : pystr) (duration : float)
    (workers : Z) : net PhaseResult :=
  perform now <- perf_counter w in
  let stop_at := fadd now duration in
  perform locals <- (fun t =>
    (mapR (fun i => (phase_worker (ct_world threads phase i) port scenario fuel stop_at i t).1)
          (ct_lock_order threads phase (Z.to_nat workers)), t)) in
  cret (foldl add_phase no_phase locals).
End scenario.

Definition summarize_phase (result : PhaseResult) : pyval :=
  VDict [(u "requests", VInt (ph_requests result)); (u "errors", VInt (ph_errors result));
         (u "statuses", VDict ((fun kc => (dec_Z kc.1, VInt kc.2)) <$> py_sorted (fun a b => Z.leb a.1 b.1) (ph_statuses result)))].

(** ** Processes and files *)

Definition e2e_config (filters events : pystr) (proxy_port upstream_port : Z) : pyval :=
  VDict [
    (u "http", VDict [
      (u "listen", VStr (u "127.0.0.1:" ++ dec_Z proxy_port));
      (u "upstream", VStr (u "http://127.0.0.1:" ++ dec_Z upstream_port));
      (u "preserve_host", VBool true);
      (u "admin_token", VStr (u "e2e-token"));
      (u "limits", VDict [(u "per_ip_rps", VInt 80); (u "per_ip_burst", VInt 80); (u "global_rps", VInt 100000);
                          (u "global_burst", VInt 100000); (u "max_tracked_ips", VInt 1024)])]);
    (u "tcp", VList []);
    (u "filters", VDict [(u "runtime_file", VStr filters); (u "reload_seconds", VInt 1); (u "static_rules", VList [])]);
    (u "adaptive", VDict [(u "enabled", VBool true); (u "signature_threshold_per_second", VInt 60);
                          (u "activation_ttl_seconds", VInt 20); (u "event_log", VStr events);
                          (u "event_cooldown_seconds", VInt 1)])].

Section run.
Context (w : world) (fuel : nat).

Fixpoint wait_health_until (fuel : nat) (port : Z) (deadline : float) : net unit :=
  perform now <- ask w WallClock in
  if fltb now deadline then
    match fuel with
    | O => out_of_fuel
    | S fuel' =>
        perform c <- ask w (HttpConnection port (sec 2 10)) in
        perform ready <-
          finally
            (catch (perform r <- http_exchange w c (u "GET") (u "/__altura/health") None [] in cret (hh_status r.1 =? 200)%Z)
               is_exception (fun _ => perform _ <- sleep w (sec 1 10) in cret false))
            (ask w (CloseHttp c)) in
        if ready then cret tt else wait_health_until fuel' port deadline
    end
  else clift (Raise (Exn RuntimeError (u "proxy did not become ready"))).

Definition wait_health (port : Z) : net unit :=
  perform now <- ask w WallClock in wait_health_until fuel port (fadd now (sec 5 1)).

(** The configuration file, the filter file and the event log. *)
Definition write_config (base : pystr) (proxy_port upstream_port : Z) : net (pystr * pystr * pystr) :=
  let filters := under base (u "filters.json") in
  let events := under base (u "events.jsonl") in
  perform _ <- write_text w filters no_filters in
  let path := under base (u "config.json") in
  perform _ <- write_text w path (dumps default_style (e2e_config filters events proxy_port upstream_port)) in
  cret (path, filters, events).

(** [json.loads(path.read_text(encoding="utf-8")).get("filters", [])] *)
Definition read_filters (path : pystr) : net pyval :=
  perform text <- read_text w path in eval (get_or (loads text) (u "filters") (VList [])).

Fixpoint wait_filters_until (fuel : nat) (path : pystr) (deadline : float) : net pyval :=
  perform now <- ask w WallClock in
  if fltb now deadline then
    match fuel with
    | O => out_of_fuel
    | S fuel' =>
        perform r <- attempt (read_filters path) in
        let again := perform _ <- sleep w (sec 5 10) in wait_filters_until fuel' path deadline in
        match r with
        | Ok filters => if truthy filters then cret filters else again
        | Raise _ => again
        end
    end
  else cret (VList []).

Definition wait_for_filters (path : pystr) (timeout : float) : net pyval :=
  perform now <- ask w WallClock in wait_filters_until fuel path (fadd now timeout).

(** [reasons[str(json.loads(line).get("reason"))] += 1]; what cannot be read is skipped *)
Definition count_reason (reasons : list (pystr * Z)) (line : pystr) : list (pystr * Z) :=
  if is_blank line then reasons
  else match get (loads line) (u "reason") with
       | Ok reason => count_key str_eqb (py_str reason) 1 reasons
       | Raise _ => reasons
       end.

Definition read_event_reasons (path : pystr) : net pyval :=
  perform there <- ask w (Exists path) in
  if (there : bool) then
    perform text <- (perform r <- ask w (ReadReplaced path) in clift r) in
    cret (VDict ((fun kc => (kc.1, VInt kc.2)) <$> foldl count_reason [] (splitlines text)))
  else cret (VDict []).

Definition analyzer_cmd (executable : pystr) (args : e2e_args) (events_path filters_path : pystr) : list pystr :=
  [executable; u "tools/codexsdgate.py"; u "--events"; events_path; u "--filters"; filters_path; u "--provider"; e_provider args;
   u "--interval"; u "1"; u "--min-count"; u "1"; u "--ttl-seconds"; u "20"; u "--min-attack-events"; u "0"] ++
  (if e_no_codex args then [u "--no-codex"] else []).

(** The log file is named by its path. *)
Definition start_analyzer (executable : pystr) (args : e2e_args) (events_path filters_path log_path : pystr) : net proc :=
  perform r <- ask w (OpenWrite log_path) in
  perform _ <- clift r in
  popen w (analyzer_cmd executable args events_path filters_path) [(u "PYTHONUNBUFFERED", u "1")].

Definition stop_process (p : proc) : net unit :=
  perform status <- ask w (Poll p) in
  match status with
  | Some _ => cret tt
  | None => stop_wait w p
  end.

(** ** A scenario *)

Context {R : Type} `{RandomSource R} (threads : client_threads) (executable : pystr) (args : e2e_args).
Context (base : pystr) (proxy_port : Z) (filters_path events_path : pystr).

(** [int]: how many phases ran before *)
Definition client_phase (phase : nat) (scenario : pystr) : net PhaseResult :=
  run_phase w threads phase fuel proxy_port scenario (e_duration args) (e_workers args).

(** The quiet period: what is left of the filters, and a third phase. *)
Definition persistence (phase : nat) (scenario : pystr) : net (pyval * PhaseResult) :=
  perform _ <- write_text w events_path [] in
  perform _ <- sleep w (sec 22 10) in
  perform filters_after_quiet <- read_filters filters_path in
  perform persistent_replay <- client_phase phase scenario in
  cret (filters_after_quiet, persistent_replay).

(** [len(filters_after_quiet or [])] *)
Definition or_empty (v : pyval) : expr := (if truthy v then v else VList [])%dyn.

(** The analyzer of the scenario runs from [start_analyzer] to [stop_process]; the result and
    the lines of its log. *)
Definition run_scenario (idx : nat) (scenario : pystr) : net (pyval * list pystr) :=
  perform _ <- write_text w filters_path no_filters in
  perform _ <- write_text w events_path [] in
  perform _ <- sleep w (sec 12 10) in
  let analyzer_log_path := under base (u "analyzer-" ++ scenario ++ u ".log") in
  perform analyzer <- start_analyzer executable args events_path filters_path analyzer_log_path in
  perform collect <- client_phase (3 * idx) scenario in
  perform filters <- wait_for_filters filters_path (e_analyzer_wait args) in
  perform replay <- client_phase (3 * idx + 1) scenario in
  perform quiet <- (if e_verify_persistence args then
                      perform q <- persistence (3 * idx + 2) scenario in cret (Some q)
                    else cret None) in
  perform _ <- stop_process analyzer in
  perform _ <- ask w (CloseFile analyzer_log_path) in
  perform r <- ask w (ReadReplaced analyzer_log_path) in
  perform log <- clift r in
  perform count <- eval (py_len filters) in
  perform kept <- match quiet with
                  | None => cret []
                  | Some (filters_after_quiet, persistent_replay) =>
                      perform n <- eval (py_len (or_empty filters_after_quiet)) in
                      cret [(u "filters_after_quiet", n); (u "persistent_replay", summarize_phase persistent_replay)]
                  end in
  cret (VDict ([(u "collect", summarize_phase collect); (u "replay", summarize_phase replay); (u "filters_after_collect", count);
                (u "learned_filters", filters)] ++ kept), splitlines log).

Definition scenarios : list pystr := [u "basic"; u "cachebuster"; u "rotating-path"; u "uuid-path"; u "mixed-user-agent"].

Definition run_scenarios : net (pydict * list pystr) :=
  perform results <- for_each (fun '(idx, scenario) => run_scenario idx scenario) (zip (seq 0 (length scenarios)) scenarios) in
  cret (zip scenarios results.*1, mjoin results.*2).

Definition e2e_report : net pyval :=
  perform r <- run_scenarios in
  let '(scenario_results, analyzer_logs) := r in
  perform event_reasons <- read_event_reasons events_path in
  perform filters <- read_filters filters_path in
  cret (VDict [(u "provider", VStr (if e_no_codex args then u "deterministic" else e_provider args)); (u "workdir", VStr base);
               (u "event_reasons", event_reasons); (u "filters", filters); (u "scenarios", VDict scenario_results);
               (u "analyzer_log_tail", VList (VStr <$> last_n 40 analyzer_logs))]).
End run.

(** ** [main] *)

Section main.
Context (w : world) (fuel : nat) {R : Type} `{RandomSource R} (threads : client_threads) (executable : pystr) (args : e2e_args).

Definition e2e_proxy (base : pystr) (proxy_port upstream_port : Z) (upstream : server) : net unit :=
  perform paths <- write_config w base proxy_port upstream_port in
  let '(config_path, filters_path, events_path) := paths in
  let proxy_log := under base (u "proxy.log") in
  perform r <- ask w (OpenWrite proxy_log) in
  perform _ <- clift r in
  perform proxy <- popen w [e_binary args; u "--config"; config_path] [] in
  finally
    (perform _ <- wait_health w fuel proxy_port in
     perform report <- e2e_report w fuel threads executable args base proxy_port filters_path events_path in
     ask w (PrintText (dumps pretty_style report)))
    (perform _ <- stop_process w proxy in
     perform _ <- ask w (CloseFile proxy_log) in
     ask w (Shutdown upstream)).

Definition e2e_main : net unit :=
  perform there <- ask w (Exists (e_binary args)) in
  if negb there then clift (Raise (Exn SystemExit (u "binary not found: " ++ e_binary args)))
  else
    perform proxy_port <- free_port w in
    perform upstream_port <- free_port w in
    perform r <- ask w MakeTempDir in
    perform base <- clift r in
    finally
      (perform r <- ask w (Serve NoContentHttp upstream_port) in
       perform upstream <- clift r in
       finally (e2e_proxy base proxy_port upstream_port upstream) (ask w (CloseServer upstream)))
      (ask w (RemoveTempDir base)).
End main.
