(* ===== verification/E2eFacts.v ===== *)
(** * E2eFacts: what a CodexSDGate end-to-end run leaves behind and reports

    [tools/run_codexsdgate_e2e.py]: a run that completes has stopped what it started; one
    that an exception ends has stopped everything but possibly an analyzer; and the counts
    of a phase do not depend on the order in which its threads take the lock. *)

From stdpp Require Import sorting.
From S2P Require Import Prelude Unicode PyStr PyFloat PyVal PyDyn Json Scenarios Flood BenchNet BenchLogic BenchHttp BenchOrigin.
From S2P Require Import BenchSend BenchConns TrafficBase BenchTidy E2e.

(** ** What is left after an exception *)

Definition is_analyzer_start (c : call) : bool :=
  match c with Popen (_ :: script :: _) _ => str_eqb script (u "tools/codexsdgate.py") | _ => false end.

(** Everything acquired in [d] but the analyzers is released later in [d]. *)
Fixpoint balanced_but_analyzers (d : trace) : Prop :=
  match d with
  | [] => True
  | ev :: rest =>
      (if is_analyzer_start (ev_call ev) then True
       else match acquired (ev_call ev) (ev_answer ev) with Some h => released h rest = true | None => True end) /\
      balanced_but_analyzers rest
  end.

Lemma balanced_weaken d : balanced d -> balanced_but_analyzers d.
Proof. induction d as [|ev d IH]; [done|]. intros [Ha Hb]. split; [|by apply IH]. by destruct (is_analyzer_start _). Qed.

Lemma balanced_but_app d1 d2 : balanced_but_analyzers d1 -> balanced_but_analyzers d2 -> balanced_but_analyzers (d1 ++ d2).
Proof.
  induction d1 as [|ev d1 IH]; [done|]. cbn. intros [Ha Hb] H2. split; [|by apply IH].
  destruct (is_analyzer_start _); [done|]. destruct (acquired _ _); [|done]. by rewrite released_app, Ha.
Qed.

(** [m] gives up [always] however it ends, and [done] as well when it completes; what it
    acquires itself it gives up when it completes, and otherwise all but the analyzers. *)
Definition settles {A} (always completed : list handle) (m : net A) : Prop :=
  forall t r t', m t = (r, t') ->
    exists d, t' = t ++ d /\ balanced_but_analyzers d /\ given_up always d /\
      forall x, r = Ok x -> balanced d /\ given_up completed d.

Lemma settles_tidy {A} hs (m : net A) : tidy_but hs m -> settles hs hs m.
Proof.
  intros Hm t r t' E. destruct (Hm _ _ _ E) as (d & T & Hb & F). exists d. split_and!; [done|by apply balanced_weaken|done|]. by intros.
Qed.

Section rules.
Context (w : world).

Lemma settles_bind {A B} completed (m : net A) (f : A -> net B) :
  settles [] [] m -> (forall x, settles [] completed (f x)) -> settles [] completed (cbind m f).
Proof.
  intros Hm Hf t r t' E. unfold cbind in E. destruct (m t) as [[x|e] t1] eqn:E1.
  - destruct (Hm _ _ _ E1) as (d1 & -> & B1 & _ & C1), (Hf _ _ _ _ E) as (d2 & -> & B2 & _ & C2). exists (d1 ++ d2).
    rewrite app_assoc. split_and!; [done|by apply balanced_but_app|constructor|].
    intros y Hy. destruct (C1 x eq_refl) as [D1 _], (C2 y Hy) as [D2 G2]. split; [by apply balanced_app|by apply given_up_app_r].
  - injection E as <- <-. destruct (Hm _ _ _ E1) as (d1 & -> & B1 & G1 & C1). exists d1. split_and!; try done.
Qed.

Lemma settles_assoc {A B C} always completed (m : net A) (f : A -> net B) (g : B -> net C) :
  settles always completed (cbind m (fun x => cbind (f x) g)) -> settles always completed (cbind (cbind m f) g).
Proof. intros H t r t' E. apply (H t r t'). rewrite <-E. unfold cbind. by destruct (m t) as [[x|e] t1]. Qed.

(** A sequence that first gives the handles up. *)
Lemma settles_bind_first {A B} completed (m : net A) (f : A -> net B) :
  tidy_but completed m -> (forall x, settles [] [] (f x)) -> settles [] completed (cbind m f).
Proof.
  intros Hm Hf t r t' E. unfold cbind in E. destruct (m t) as [[x|e] t1] eqn:E1;
    destruct (Hm _ _ _ E1) as (d1 & T1 & D1 & G1); unfold trace_of, traced_trace in T1; subst t1.
  - destruct (Hf _ _ _ _ E) as (d2 & -> & B2 & _ & C2). exists (d1 ++ d2).
    rewrite app_assoc. split_and!; [done|by apply balanced_but_app; [apply balanced_weaken|]|constructor|].
    intros y Hy. destruct (C2 y Hy) as [D2 _]. split; [by apply balanced_app|by apply given_up_app_l].
  - injection E as <- <-. exists d1. split_and!; [done|by apply balanced_weaken|constructor|done].
Qed.

(** The handle a call hands out, given up in every case. *)
Lemma settles_acquire {B} c (k : answer c -> net B) :
  (forall a, settles (option_list (acquired c a)) (option_list (acquired c a)) (k a)) -> settles [] [] (cbind (ask w c) k).
Proof.
  intros Hk t r t' E. destruct (Hk _ _ _ _ E) as (d & -> & Hb & G & C). exists (Event c (w t c) :: d).
  rewrite <-app_assoc. split_and!; [done| |constructor|].
  - cbn. split; [|done]. destruct (is_analyzer_start c); [done|]. destruct (acquired _ _); [|done]. cbn in G. by inversion G.
  - intros x Hx. destruct (C x Hx) as [D G']. split; [|constructor]. cbn. split; [|done].
    destruct (acquired _ _); [|done]. cbn in G. by inversion G.
Qed.

Lemma settles_popen {B} argv env (k : proc -> net B) :
  (forall p, settles [Process p] [Process p] (k p)) -> settles [] [] (cbind (popen w argv env) k).
Proof.
  intros Hk. cut (settles [] [] (cbind (ask w (Popen argv env)) (fun r => cbind (clift r) k))).
  { intros H t r t' E. apply (H t r t'). rewrite <-E. done. }
  apply settles_acquire. intros [p|e]; cbn; [apply Hk|exact (settles_tidy [] _ (tidy_lift (Raise e)))].
Qed.

(** An analyzer, given up only when the rest completes. *)
Lemma settles_analyzer {B} executable argv env (k : proc -> net B) :
  (forall p, settles [] [Process p] (k p)) ->
  settles [] [] (cbind (popen w (executable :: u "tools/codexsdgate.py" :: argv) env) k).
Proof.
  intros Hk t r t' E. unfold popen, cbind, ask, clift in E.
  set (c := Popen (executable :: u "tools/codexsdgate.py" :: argv) env) in *.
  destruct (w t c) as [p|e] eqn:Ew.
  - destruct (Hk _ _ _ _ E) as (d & -> & Hb & _ & C). exists (Event c (Ok p) :: d).
    rewrite <-app_assoc. split_and!; [done|by split|constructor|].
    intros x Hx. destruct (C x Hx) as [D G]. split; [|constructor]. cbn. split; [|done]. by inversion G.
  - injection E as <- <-. exists [Event c (Raise e)]. split_and!; [done|by split|constructor|done].
Qed.

Lemma settles_finally {A} hs (m : net A) (f : net unit) : settles [] [] m -> tidy_but hs f -> settles hs hs (finally m f).
Proof.
  intros Hm Hf t r t' E. unfold finally in E. destruct (m t) as [r1 t1] eqn:E1, (f t1) as [r2 t2] eqn:E2.
  assert (t' = t2) as -> by (by destruct r2; injection E).
  destruct (Hm _ _ _ E1) as (d1 & -> & B1 & _ & C1), (Hf _ _ _ E2) as (d2 & T2 & D2 & G2).
  unfold trace_of, traced_trace in T2. subst t2. exists (d1 ++ d2). rewrite app_assoc.
  split_and!; [done|by apply balanced_but_app; [|apply balanced_weaken]|by apply given_up_app_r|].
  intros x Hx. destruct r2 as [|e]; [|by rewrite Hx in E]. injection E as ->. destruct (C1 x Hx) as [D1 _].
  split; [by apply balanced_app|by apply given_up_app_r].
Qed.

Lemma settles_for_each {A B} (f : A -> net B) l : (forall x, settles [] [] (f x)) -> settles [] [] (for_each f l).
Proof.
  intros Hf. induction l as [|x l IH]; cbn [for_each]; [apply settles_tidy, tidy_ret|].
  apply settles_bind; [done|]. intros y. apply settles_bind; [done|]. intros ys. apply settles_tidy, tidy_ret.
Qed.
End rules.

(** ** The run *)

Section run.
Context (w : world) (fuel : nat) {R : Type} `{RandomSource R} (threads : client_threads) (executable : pystr) (args : e2e_args).

Lemma tidy_wait_health_until n port deadline : tidy (wait_health_until w n port deadline).
Proof. induction n as [|n IH]; cbn [wait_health_until]; tidy. Qed.

Lemma tidy_wait_filters_until n path deadline : tidy (wait_filters_until w n path deadline).
Proof. induction n as [|n IH]; cbn [wait_filters_until]; tidy. Qed.

Lemma tidy_stop p : tidy_but [Process p] (E2e.stop_process w p).
Proof. unfold E2e.stop_process. apply tidy_poll; [apply tidy_stop_wait|]. intros n. apply tidy_ret. Qed.

Lemma tidy_client_phase phase port scenario : tidy (client_phase (R := R) w fuel threads args port phase scenario).
Proof.
  unfold client_phase, E2e.run_phase. tidy. intros t r t' [= <- <-]. exists []. by rewrite app_nil_r.
Qed.

#[local] Hint Resolve tidy_wait_health_until tidy_wait_filters_until tidy_client_phase : tidy.

(** The analyzer of a scenario is stopped when the scenario completes. *)
Lemma settles_run_scenario base port filters_path events_path idx scenario :
  settles [] [] (E2e.run_scenario (R := R) w fuel threads executable args base port filters_path events_path idx scenario).
Proof.
  unfold E2e.run_scenario.
  do 3 (apply settles_bind; [apply settles_tidy; tidy|intros _]).
  unfold start_analyzer, analyzer_cmd. cbn zeta. apply settles_assoc, settles_bind; [apply settles_tidy; tidy|intros r].
  apply settles_assoc, settles_bind; [apply settles_tidy; tidy|intros _]. apply settles_analyzer. intros p.
  apply settles_bind; [apply settles_tidy, tidy_client_phase|intros collect].
  apply settles_bind; [apply settles_tidy; tidy|intros filters].
  apply settles_bind; [apply settles_tidy, tidy_client_phase|intros replay].
  apply settles_bind; [apply settles_tidy; tidy|intros quiet].
  apply settles_bind_first; [apply tidy_stop|intros _]. apply settles_tidy. tidy.
Qed.

Lemma settles_e2e_report base port filters_path events_path :
  settles [] [] (e2e_report (R := R) w fuel threads executable args base port filters_path events_path).
Proof.
  unfold e2e_report. apply settles_bind.
  - unfold E2e.run_scenarios. apply settles_bind; [|intros results; apply settles_tidy; tidy].
    apply settles_for_each. intros [idx scenario]. apply settles_run_scenario.
  - intros [results logs]. apply settles_tidy. tidy.
Qed.

Lemma settles_e2e_proxy base proxy_port upstream_port upstream :
  settles [] [] (e2e_proxy (R := R) w fuel threads executable args base proxy_port upstream_port upstream).
Proof.
  unfold e2e_proxy. apply settles_bind; [apply settles_tidy; tidy|intros [[config filters] events]]. cbn zeta.
  do 2 (apply settles_bind; [apply settles_tidy; tidy|intros ?]). apply settles_popen. intros p.
  apply settles_finally; [|apply tidy_bind_first; [apply tidy_stop|intros; tidy]].
  apply settles_bind; [apply settles_tidy; tidy|intros _]. apply settles_bind; [apply settles_e2e_report|].
  intros report. apply settles_tidy. tidy.
Qed.

Lemma settles_e2e_main : settles [] [] (e2e_main (R := R) w fuel threads executable args).
Proof.
  unfold e2e_main. apply settles_bind; [apply settles_tidy; tidy|intros there].
  destruct (negb there); [apply settles_tidy; tidy|].
  do 4 (apply settles_bind; [apply settles_tidy; tidy|intros ?]). apply settles_finally; [|tidy].
  apply settles_acquire. intros [s|e]; cbn; [|exact (settles_tidy [] _ (tidy_lift (Raise e)))].
  apply settles_finally; [apply settles_e2e_proxy|]. tidy.
Qed.

End run.

(** Surroundings in which the filter file holds [filters]. *)
Definition e2e_lab (filters : pystr) : world := fun t c =>
  match c return answer c with
  | ReadText _ => Ok filters
  | c => quiet t c
  end.

Definition e2e_lab_args : e2e_args := E2eArgs (u "altura-prot") (u "codex") true f0 1 f0 true.
Definition e2e_lab_threads (filters : pystr) : client_threads := ClientThreads (fun _ _ => e2e_lab filters) (fun _ n => seq 0 n).

(** The processes a run started and did not stop. *)
Definition started (ev : event) : option proc :=
  match acquired (ev_call ev) (ev_answer ev) with Some (Process p) => Some p | _ => None end.
Definition left_running (t : trace) : list (proc * bool) :=
  omap (fun ev => match started ev with
                  | Some p => if released (Process p) t then None else Some (p, is_analyzer_start (ev_call ev))
                  | None => None
                  end) t.

Abbreviation e2e_lab_run filters :=
  (e2e_main (R := Z) (e2e_lab filters) 3 (e2e_lab_threads filters) (u "python3") e2e_lab_args []).


(** The exception is real: [main] starts the analyzer outside any [try ... finally] of its
    own.  With --verify-persistence, when the filter file cannot be decoded after the quiet
    period, the run ends with the decoder's exception, has stopped the proxy, and leaves the
    analyzer of the first scenario running. *)
Theorem e2e_leaves_analyzer :
  exists e t p, e2e_lab_run [] = (Raise e, t) /\ exn_class e = JSONDecodeError /\
    length (omap started t) = 2 /\ left_running t = [(p, true)].
Proof.
  destruct (e2e_lab_run []) as [r t] eqn:E. vm_compute in E. injection E as <- <-. do 3 eexists. split; [reflexivity|].
  split_and!; [reflexivity|vm_compute; reflexivity..].
Qed.

(** ** Counts *)

(** Counters as the threads build them: distinct keys, positive counts. *)
Definition tallied (counts : list (Z * Z)) : Prop := NoDup counts.*1 /\ Forall (fun kc => (0 < kc.2)%Z) counts.

Lemma count_key_keys k n counts key : key ∈ (count_key Z.eqb k n counts).*1 <-> key = k \/ key ∈ counts.*1.
Proof.
  induction counts as [|[k' c] counts IH]; cbn; [set_solver|]. destruct (Z.eqb_spec k k') as [->|Hk]; cbn; [set_solver|].
  rewrite !elem_of_cons, IH. naive_solver.
Qed.

Lemma tallied_count_key k n counts : (0 < n)%Z -> tallied counts -> tallied (count_key Z.eqb k n counts).
Proof.
  intros Hn. induction counts as [|[k' c] counts IH]; intros [Hd Hp]; cbn.
  - split; cbn; [apply NoDup_singleton|by repeat constructor].
  - cbn in Hd. apply NoDup_cons in Hd as [Hk Hd]. apply Forall_cons in Hp as [Hc Hp]. cbn in Hc.
    destruct (Z.eqb_spec k k') as [->|Hne]; [split; cbn; [by constructor|constructor; [cbn; lia|done]]|].
    destruct (IH (conj Hd Hp)) as [Hd' Hp']. split; cbn; [|by constructor]. constructor; [|done].
    rewrite count_key_keys. naive_solver.
Qed.

Lemma tallied_merge counts total : tallied counts -> tallied total -> tallied (merge_counts Z.eqb total counts).
Proof.
  intros [_ Hp]. unfold merge_counts. revert total. induction Hp as [|[k n] counts Hn Hp IH]; intros total Ht; [done|].
  cbn [foldl]. apply IH, tallied_count_key; done.
Qed.

Lemma count_of_absent k counts : k ∉ counts.*1 -> count_of Z.eqb k counts = 0%Z.
Proof.
  induction counts as [|[k' c] counts IH]; [done|]. cbn. intros Hk. apply not_elem_of_cons in Hk as [Hne Hk].
  rewrite (proj2 (Z.eqb_neq k k')) by done. by apply IH.
Qed.

(** A counter of this kind is determined by the counts of the keys. *)
Lemma tallied_elem counts k n : tallied counts -> (k, n) ∈ counts <-> (0 < n)%Z /\ count_of Z.eqb k counts = n.
Proof.
  intros [Hd Hp]. induction counts as [|[k' c] counts IH]; cbn.
  - rewrite elem_of_nil. split; [done|]. lia.
  - cbn in Hd. apply NoDup_cons in Hd as [Hk Hd]. apply Forall_cons in Hp as [Hc Hp]. cbn in Hc.
    rewrite elem_of_cons, IH by done. fold (count_of Z.eqb k counts). destruct (Z.eqb_spec k k') as [->|Hne].
    + rewrite (count_of_absent k') by done. split; [intros [[= ->]|]; lia|]. intros [? <-]. left. f_equal. lia.
    + naive_solver.
Qed.

Lemma tallied_same a b : tallied a -> tallied b -> (forall k, count_of Z.eqb k a = count_of Z.eqb k b) -> a ≡ₚ b.
Proof.
  intros Ha Hb E. apply NoDup_Permutation; [apply (NoDup_fmap_1 fst), Ha|apply (NoDup_fmap_1 fst), Hb|].
  intros [k n]. by rewrite !tallied_elem, E by done.
Qed.

(** Two counters with the same counts are printed alike. *)
Lemma sorted_counts_same a b : tallied a -> a ≡ₚ b -> py_sorted (fun x y : Z * Z => Z.leb x.1 y.1) a = py_sorted (fun x y => Z.leb x.1 y.1) b.
Proof.
  intros Ha Hp. apply (StronglySorted_unique_strong (fun x y : Z * Z => Z.leb x.1 y.1 = true)).
  - intros [k n] [k' n'] H1 H2 L1%Z.leb_le L2%Z.leb_le. cbn in L1, L2. assert (k = k') as <- by lia.
    rewrite py_sorted_perm in H1, H2. rewrite <-Hp in H2. apply (tallied_elem _ _ _ Ha) in H1 as [_ <-], H2 as [_ <-]. done.
  - apply py_sorted_sorted; cbn; intros; rewrite ?Z.leb_le in *; lia.
  - apply py_sorted_sorted; cbn; intros; rewrite ?Z.leb_le in *; lia.
  - by rewrite !py_sorted_perm.
Qed.

(** One status per answered request. *)
Definition phase_ok (r : E2e.PhaseResult) : Prop := tallied (ph_statuses r) /\ total_of (ph_statuses r) = ph_requests r.

Lemma phase_ok_add a b : phase_ok a -> phase_ok b -> phase_ok (add_phase a b).
Proof. intros [Ta Ea] [Tb Eb]. split; cbn [add_phase ph_statuses ph_requests]; [by apply tallied_merge|]. rewrite merge_counts_total. lia. Qed.

Lemma phase_ok_fold acc locals : phase_ok acc -> Forall phase_ok locals -> phase_ok (foldl add_phase acc locals).
Proof. intros Ha Hl. revert acc Ha. induction Hl as [|r locals Hr Hl IH]; intros acc Ha; [done|]. cbn. by apply IH, phase_ok_add. Qed.

Lemma phase_ok_none : phase_ok no_phase.
Proof. split; [split; constructor|done]. Qed.

(** What the lock adds up does not depend on the order. *)
Lemma fold_add (g : E2e.PhaseResult -> Z) acc locals :
  (forall a b, g (add_phase a b) = (g a + g b)%Z) -> g (foldl add_phase acc locals) = (g acc + foldr Z.add 0 (g <$> locals))%Z.
Proof. intros Hg. revert acc. induction locals as [|r locals IH]; intros acc; cbn; [lia|]. rewrite IH, Hg. lia. Qed.

Lemma fold_add_perm (g : E2e.PhaseResult -> Z) l1 l2 :
  (forall a b, g (add_phase a b) = (g a + g b)%Z) -> l1 ≡ₚ l2 -> g (foldl add_phase no_phase l1) = g (foldl add_phase no_phase l2).
Proof. intros Hg Hp. rewrite !fold_add by done. f_equal. induction Hp; cbn; lia. Qed.

Lemma summary_perm l1 l2 : Forall phase_ok l1 -> l1 ≡ₚ l2 ->
  E2e.summarize_phase (foldl add_phase no_phase l1) = E2e.summarize_phase (foldl add_phase no_phase l2).
Proof.
  intros H1 Hp. assert (H2 : Forall phase_ok l2) by by rewrite <-Hp.
  unfold E2e.summarize_phase.
  rewrite (fold_add_perm ph_requests l1 l2), (fold_add_perm ph_errors l1 l2) by done. do 2 f_equal. do 2 f_equal. f_equal. f_equal. f_equal.
  apply sorted_counts_same; [apply phase_ok_fold; [apply phase_ok_none|done]|].
  apply tallied_same; [apply phase_ok_fold; [apply phase_ok_none|done]..|].
  intros k. apply (fold_add_perm (fun r => count_of Z.eqb k (ph_statuses r))); [|done].
  intros a b. apply merge_counts_of. apply Z.eqb_eq.
Qed.

Section phase.
Context {R : Type} `{RandomSource R}.

Lemma phase_rounds_ok w port scenario fuel stop_at conn rng local :
  phase_ok local -> returns (phase_rounds (R := R) w port scenario fuel stop_at conn rng local) (fun r => phase_ok r.2).
Proof.
  revert conn rng local. induction fuel as [|fuel IH]; intros conn rng local Hl; cbn [phase_rounds].
  - eapply returns_bind; [apply returns_any|]. intros now _. destruct (fltb now stop_at); [done|by apply returns_ret].
  - eapply returns_bind; [apply returns_any|]. intros now _. destruct (fltb now stop_at); [|by apply returns_ret].
    eapply returns_bind; [apply returns_any|]. intros c _. destruct (scenario_path_builder scenario rng) as [path rng1].
    destruct (choice (scenario_user_agents scenario) rng1) as [agent rng2].
    eapply returns_bind; [apply returns_any|]. intros [[head body]|e] _.
    + apply IH. destruct Hl as [Ht Ho]. split; cbn [ph_statuses ph_requests]; [by apply tallied_count_key|]. rewrite count_key_total. lia.
    + eapply returns_bind; [apply returns_any|]. intros _ _. by apply IH.
Qed.

Lemma phase_worker_ok w port scenario fuel stop_at i : returns (phase_worker (R := R) w port scenario fuel stop_at i) phase_ok.
Proof.
  unfold phase_worker. eapply returns_bind; [apply phase_rounds_ok, phase_ok_none|]. intros r Hr.
  eapply returns_bind; [apply returns_any|]. intros _ _. by apply returns_ret.
Qed.

(** C28. A phase of traffic reports the same whatever the order in which its threads take the
    lock: if a phase returns with the threads in one order, it returns with them in any other,
    the two reports are equal field by field, and the statuses of a report count every
    answered request exactly once. *)
Theorem phase_lock_order w worlds o1 o2 phase fuel port scenario duration workers t r1 t1 :
  o1 phase (Z.to_nat workers) ≡ₚ o2 phase (Z.to_nat workers) ->
  E2e.run_phase (R := R) w (ClientThreads worlds o1) phase fuel port scenario duration workers t = (Ok r1, t1) ->
  total_of (ph_statuses r1) = ph_requests r1 /\
  exists r2, E2e.run_phase (R := R) w (ClientThreads worlds o2) phase fuel port scenario duration workers t = (Ok r2, t1) /\
    E2e.summarize_phase r2 = E2e.summarize_phase r1.
Proof.
  intros Hp E. unfold E2e.run_phase, perf_counter, ask, cbind in *. cbn [ct_world ct_lock_order] in *.
  destruct (mapR _ (o1 _ _)) as [l1|] eqn:E1; [|done]. injection E as <- <-. apply mapR_ok in E1.
  assert (H1 : Forall phase_ok l1).
  { clear Hp. induction E1 as [|i r ids l Hi Hl IH]; constructor; [|done].
    destruct (phase_worker _ _ _ _ _ _ _) as [ri ti] eqn:Ei in Hi. cbn in Hi. subst ri. by eapply phase_worker_ok. }
  split; [by apply phase_ok_fold; [apply phase_ok_none|]|].
  destruct (Permutation_Forall2 Hp E1) as (l2 & Hp2 & E2). apply mapR_ok in E2. rewrite E2.
  eexists. split; [done|]. symmetry. by apply summary_perm.
Qed.
End phase.

(** Three clients, one answered with status 200, one with 403 and one not at all; the clock
    lets each send one request. *)
Definition one_round (i : nat) : world := fun t c =>
  match c return answer c with
  | PerfCounter => if existsb (fun ev => match ev_call ev with GetResponse _ => true | _ => false end) t then finf else f0
  | GetResponse _ => match i with 0 => Ok (HttpHead 200 []) | 1 => Ok (HttpHead 403 []) | _ => Raise (Exn OSError []) end
  | c => e2e_lab [] t c
  end.

Lemma phase_lock_order_witness :
  exists r, E2e.run_phase (R := Z) (one_round 0) (ClientThreads (fun _ => one_round) (fun _ _ => [2; 0; 1])) 0 5 8080 (u "basic") (sec 1 1) 3 [] =
    (Ok r, [Event PerfCounter f0]) /\
    E2e.summarize_phase r = VDict [(u "requests", VInt 2); (u "errors", VInt 1); (u "statuses", VDict [(u "200", VInt 1); (u "403", VInt 1)])].
Proof.
  destruct (phase_lock_order (R := Z) (one_round 0) (fun _ => one_round) (fun _ n => seq 0 n) (fun _ _ => [2; 0; 1]) 0 5 8080
    (u "basic") (sec 1 1) 3 [] (E2e.Phase 2 1 [(200, 1); (403, 1)]%Z) [Event PerfCounter f0]) as (_ & r & E & S).
  - apply Permutation_sym. change (seq 0 (Z.to_nat 3)) with [0; 1; 2]. apply (Permutation_cons_append [0; 1] 2).
  - vm_compute. reflexivity.
  - exists r. split; [exact E|]. rewrite S. vm_compute. reflexivity.
Defined.
