(* ===== verification/JsonFacts.v ===== *)
(** * JsonFacts: the JSON decoder terminates and inverts the encoder

    The fuel of [loads] is always enough, and decoding the text of a value gives
    the value back (with its keys sorted when the encoder sorts them). *)

From Stdlib Require Import SpecFloat.
From S2P Require Import Prelude Unicode PyStr PyFloat PyVal Json.

(** ** Every scanner consumes input *)

Lemma scan_string_shrinks s t r : scan_string s = Some (t, r) -> length r < length s.
Proof.
  remember (length s) as n eqn:Hn. revert s t r Hn.
  induction n as [n IH] using lt_wf_ind. intros s t r -> H.
  destruct s as [|c s]; [done|]. cbn [scan_string] in H.
  repeat match type of H with
  | Some _ = Some _ => injection H as <- <-; cbn; lia
  | None = Some _ => discriminate H
  | context [if ?b then _ else _] => destruct b eqn:?
  | context [match scan_string ?x with _ => _ end] =>
      let E := fresh "E" in destruct (scan_string x) as [[? ?]|] eqn:E;
      [apply (IH (length x)) in E; [|cbn; lia|done]; injection H as <- <-; cbn in *; lia | done]
  | context [match ?x with _ => _ end] => destruct x eqn:?; subst; try done
  end.
Qed.

Lemma scan_ascii_digits_length s ds r :
  scan_ascii_digits s = (ds, r) -> length s = length ds + length r.
Proof.
  revert ds r. induction s as [|c s IH]; intros ds r; cbn; [by intros [= <- <-]|].
  destruct (is_ascii_digit c).
  - destruct (scan_ascii_digits s) as [ds' r'] eqn:E. intros [= <- <-]. cbn. by rewrite (IH _ _ eq_refl).
  - by intros [= <- <-].
Qed.

Lemma scan_frac_shrinks s ds r : scan_frac s = Some (ds, r) -> length r < length s.
Proof.
  unfold scan_frac. intros H. repeat case_match; simplify_eq. cbn.
  match goal with E : scan_ascii_digits _ = _ |- _ => apply scan_ascii_digits_length in E; cbn in E; lia end.
Qed.

Lemma scan_exp_shrinks s z r : scan_exp s = Some (z, r) -> length r < length s.
Proof.
  unfold scan_exp. intros H. repeat case_match; simplify_eq; cbn;
  match goal with E : scan_ascii_digits _ = _ |- _ => apply scan_ascii_digits_length in E; cbn in E; lia end.
Qed.

Lemma number_tail_shrinks neg ip r0 v r : number_tail neg ip r0 = Ok (v, r) -> length r < length ip + length r0.
Proof.
  unfold number_tail. intros H. destruct ip as [|d ip]; [done|]. cbn [length].
  destruct (scan_frac r0) as [[fd rf]|] eqn:Ef.
  - apply scan_frac_shrinks in Ef. destruct (scan_exp rf) as [[z re]|] eqn:Ee; inv_ok; simplify_eq.
    + apply scan_exp_shrinks in Ee. lia.
    + lia.
  - destruct (scan_exp r0) as [[z re]|] eqn:Ee; inv_ok; simplify_eq.
    + apply scan_exp_shrinks in Ee. lia.
    + destruct (_ <=? int_max_str_digits); [|done]. by inv_ok; simplify_eq; lia.
Qed.

Lemma int_part_length t ip r : int_part t = (ip, r) -> length t = length ip + length r.
Proof.
  destruct t as [|c t]; cbn [int_part]; [by intros [= <- <-]|].
  destruct (c =? 48)%N; [by intros [= <- <-]|]. apply scan_ascii_digits_length.
Qed.

Lemma scan_number_shrinks s v r : scan_number s = Ok (v, r) -> length r < length s.
Proof.
  unfold scan_number. intros H.
  destruct s as [|c s]; [|destruct (c =? 45)%N];
    (destruct (int_part _) as [ip r0] eqn:E in H; apply int_part_length in E;
     apply number_tail_shrinks in H; cbn [length] in *; lia).
Qed.

Lemma strip_prefix_shrinks p s r : strip_prefix p s = Some r -> 0 < length p -> length r < length s.
Proof.
  unfold strip_prefix. destruct (starts_with p s) eqn:E; [|done]. intros [= <-] Hp.
  apply starts_with_spec in E as [t ->]. rewrite drop_app_length, length_app. lia.
Qed.

Lemma scan_atom_shrinks s v r : scan_atom s = Ok (v, r) -> length r < length s.
Proof.
  unfold scan_atom. intros H.
  repeat match type of H with
  | context [match strip_prefix ?p s with _ => _ end] =>
      let E := fresh "E" in destruct (strip_prefix p s) eqn:E;
      [injection H as <- <-; apply strip_prefix_shrinks in E; [done|vm_compute; lia]|]
  end.
  by apply scan_number_shrinks in H.
Qed.

Lemma skip_ws_length s : length (skip_ws s) <= length s.
Proof. apply drop_while_length. Qed.

(** ** The fuel of [loads] is enough *)

(** A computation that returns or raises a [ValueError] (which
    [JSONDecodeError] is); running out of fuel is neither. *)
Definition fed {A} (m : res A) : Prop := forall e, m = Raise e -> is_value_error e = true.

Lemma fed_ok {A} (x : A) : fed (Ok x).
Proof. by intros e [=]. Qed.

Lemma fed_error {A} msg : fed (decode_error msg : res A).
Proof. by intros e [= <-]. Qed.

Lemma fed_bind {A B} (m : res A) (k : A -> res B) :
  fed m -> (forall x, m = Ok x -> fed (k x)) -> fed (let* x := m in k x).
Proof. intros Hm Hk e [H|(x & Hx & H)]%bind_raise; [by apply Hm|by eapply Hk]. Qed.

#[local] Hint Resolve fed_ok fed_error : core.

Lemma scan_atom_fed s : fed (scan_atom s).
Proof.
  unfold scan_atom, scan_number, number_tail, int_limit_error.
  repeat case_match; auto; by intros e [= <-].
Qed.

Lemma eat_Some c s r : eat c s = Some r -> s = c :: r.
Proof. destruct s as [|x s]; cbn; [done|]. destruct (N.eqb_spec x c); [|done]. by intros [= <-]; subst. Qed.

Lemma eat_shrinks c s r : eat c (skip_ws s) = Some r -> length r < length s.
Proof. intros H%eat_Some. pose proof (skip_ws_length s) as Hl. rewrite H in Hl. cbn in Hl. lia. Qed.

Lemma parse_shrinks f :
  (forall s v r, parse_value f s = Ok (v, r) -> length r < length s) /\
  (forall acc s v r, parse_members f acc s = Ok (v, r) -> length r < length s) /\
  (forall acc s v r, parse_items f acc s = Ok (v, r) -> length r < length s).
Proof.
  induction f as [|f (IHv & IHm & IHi)]; [done|]. split_and!.
  - intros s v r H. destruct s as [|c t]; [done|]. cbn [parse_value] in H. cbn [length].
    pose proof (skip_ws_length t) as Hws.
    destruct (c =? 34)%N; [|destruct (c =? 123)%N; [|destruct (c =? 91)%N]].
    + destruct (scan_string t) as [[str r']|] eqn:E; [|done]. apply scan_string_shrinks in E.
      injection H as <- <-. lia.
    + destruct (eat _ _) as [r'|] eqn:E; [injection H as <- <-; apply eat_shrinks in E; lia|].
      apply IHm in H. lia.
    + destruct (eat _ _) as [r'|] eqn:E; [injection H as <- <-; apply eat_shrinks in E; lia|].
      apply IHi in H. lia.
    + by apply scan_atom_shrinks in H.
  - intros acc s v r H. cbn [parse_members] in H.
    destruct (eat 34 s) as [t|] eqn:E; [|done]. apply eat_Some in E as ->. cbn [length].
    destruct (scan_string t) as [[key r0]|] eqn:Es; [|done]. apply scan_string_shrinks in Es.
    destruct (eat 58 _) as [r1|] eqn:E1; [|done]. apply eat_shrinks in E1.
    apply bind_ok in H as ([v' r2] & Hv & H). apply IHv in Hv. pose proof (skip_ws_length r1).
    destruct (eat 44 _) as [r3|] eqn:E2; [apply eat_shrinks in E2; apply IHm in H; pose proof (skip_ws_length r3); lia|].
    destruct (eat 125 _) as [r3|] eqn:E3; [|done]. apply eat_shrinks in E3. injection H as <- <-. lia.
  - intros acc s v r H. cbn [parse_items] in H.
    apply bind_ok in H as ([v' r2] & Hv & H). apply IHv in Hv.
    destruct (eat 44 _) as [r3|] eqn:E2; [apply eat_shrinks in E2; apply IHi in H; pose proof (skip_ws_length r3); lia|].
    destruct (eat 93 _) as [r3|] eqn:E3; [|done]. apply eat_shrinks in E3. injection H as <- <-. lia.
Qed.

Lemma parse_fed f :
  (forall s, 2 * length s + 1 <= f -> fed (parse_value f s)) /\
  (forall acc s, 2 * length s + 1 <= f -> fed (parse_members f acc s)) /\
  (forall acc s, 2 * length s + 2 <= f -> fed (parse_items f acc s)).
Proof.
  induction f as [|f (IHv & IHm & IHi)]; [split_and!; intros; lia|]. split_and!.
  - intros s Hf. destruct s as [|c t]; [apply fed_error|]. cbn [parse_value]. cbn [length] in Hf.
    pose proof (skip_ws_length t) as Hws.
    destruct (c =? 34)%N; [|destruct (c =? 123)%N; [|destruct (c =? 91)%N]].
    + destruct (scan_string t) as [[str r']|]; auto.
    + destruct (eat _ _) as [r'|]; [auto|]. apply IHm; lia.
    + destruct (eat _ _) as [r'|]; [auto|]. apply IHi; lia.
    + apply scan_atom_fed.
  - intros acc s Hf. cbn [parse_members].
    destruct (eat 34 s) as [t|] eqn:E; [|auto]. apply eat_Some in E as ->. cbn [length] in Hf.
    destruct (scan_string t) as [[key r0]|] eqn:Es; [|auto]. apply scan_string_shrinks in Es.
    destruct (eat 58 _) as [r1|] eqn:E1; [|auto]. apply eat_shrinks in E1. pose proof (skip_ws_length r1).
    apply fed_bind; [apply IHv; lia|]. intros [v' r2] Hv. apply (parse_shrinks f) in Hv.
    destruct (eat 44 _) as [r3|] eqn:E2; [|destruct (eat 125 _); auto].
    apply eat_shrinks in E2. pose proof (skip_ws_length r3). apply IHm; lia.
  - intros acc s Hf. cbn [parse_items].
    apply fed_bind; [apply IHv; lia|]. intros [v' r2] Hv. apply (parse_shrinks f) in Hv.
    destruct (eat 44 _) as [r3|] eqn:E2; [|destruct (eat 93 _); auto].
    apply eat_shrinks in E2. pose proof (skip_ws_length r3). apply IHi; lia.
Qed.

(** [loads] decides every text: it returns a value or raises a [ValueError], and
    never runs out of fuel. *)
Lemma loads_fed text : fed (loads text).
Proof.
  unfold loads. destruct (eat _ text); [apply fed_error|].
  pose proof (skip_ws_length text). apply fed_bind; [apply (parse_fed (2 * length text + 2)); lia|].
  intros [v r] _. destruct (skip_ws r); auto.
Qed.

(** ** Strings survive the encoder *)

(** A code point that UTF-8 can encode. *)
Definition scalar (c : N) : Prop := (c < 55296)%N \/ (57344 <= c < 1114112)%N.

Lemma utf8_len_scalar s n : utf8_len s = Ok n -> Forall scalar s.
Proof.
  revert n. induction s as [|c s IH]; intros n H; cbn in H; inv_ok; [done|]. constructor; [|by eapply IH].
  unfold utf8_size in E. unfold scalar.
  destruct (N.ltb_spec c 128); [lia|]. destruct (N.ltb_spec c 2048); [lia|].
  destruct (N.leb_spec 55296 c), (N.leb_spec c 57343); cbn in E; try lia; try discriminate E;
    (destruct (N.ltb_spec c 65536); [lia|]); destruct (N.ltb_spec c 1114112); (lia || discriminate E).
Qed.

Lemma ascii_scalar s : Forall (fun c => (c < 128)%N) s -> Forall scalar s.
Proof. intros H. eapply Forall_impl; [exact H|]. intros c Hc. cbn in Hc. unfold scalar. lia. Qed.

(** Source literals are ASCII. *)
Lemma literal_scalar s : forallb (fun c => c <? 128)%N s = true -> Forall scalar s.
Proof.
  intros H. apply ascii_scalar, Forall_forall. intros c Hc. rewrite forallb_forall in H.
  apply N.ltb_lt, H. by apply list_elem_of_In.
Qed.

Lemma hex_value_digit n : (n < 16)%N -> hex_value (hex_digit n) = Some n.
Proof.
  intros H. unfold hex_digit. destruct (N.ltb_spec n 10).
  - unfold hex_value. rewrite (proj2 (N.leb_le 48 (48 + n))), (proj2 (N.leb_le (48 + n) 57)) by lia. cbn. f_equal; lia.
  - unfold hex_value. rewrite (proj2 (N.leb_gt (87 + n) 57)), andb_false_r by lia.
    rewrite (proj2 (N.leb_le 97 (87 + n))), (proj2 (N.leb_le (87 + n) 102)) by lia. cbn. f_equal; lia.
Qed.

(** The four hexadecimal digits of a 16-bit value decode to it. *)
Lemma hex4_fixed c :
  (c < 65536)%N -> exists a b x y, hex_fixed 4 c = [a; b; x; y] /\ hex4 a b x y = Some c.
Proof.
  intros H. cbn [hex_fixed app]. eexists _, _, _, _. split; [done|]. unfold hex4.
  rewrite !hex_value_digit by (apply N.mod_lt; lia). f_equal.
  pose proof (N.div_mod c 16 ltac:(lia)). pose proof (N.div_mod (c / 16) 16 ltac:(lia)).
  pose proof (N.div_mod (c / 16 / 16) 16 ltac:(lia)).
  assert (c / 16 / 16 / 16 < 16)%N as Hs.
  { rewrite !N.Div0.div_div. apply N.Div0.div_lt_upper_bound. lia. }
  rewrite (N.mod_small (c / 16 / 16 / 16) 16) by done. lia.
Qed.

Definition push (c : N) (o : option (pystr * pystr)) : option (pystr * pystr) :=
  match o with Some (t, rest) => Some (c :: t, rest) | None => None end.

Lemma scan_u_escape c t :
  (c < 65536)%N -> is_high c = false -> scan_string ((u "\u" ++ hex_fixed 4 c) ++ t) = push c (scan_string t).
Proof.
  intros Hc Hh. destruct (hex4_fixed c Hc) as (a & b & x & y & -> & Hx).
  change (u "\u") with [92%N; 117%N]. cbn [app scan_string]. cbn [N.eqb Pos.eqb]. by rewrite Hx, Hh.
Qed.

Lemma scan_pair_escape h l t :
  is_high h = true -> is_low l = true ->
  scan_string (u "\u" ++ hex_fixed 4 h ++ u "\u" ++ hex_fixed 4 l ++ t) = push (join_surrogates h l) (scan_string t).
Proof.
  intros Hh Hl.
  assert (Hh' : (h < 65536)%N) by (unfold is_high in Hh; bool_prop; rewrite N.leb_le in *; lia).
  assert (Hl' : (l < 65536)%N) by (unfold is_low in Hl; bool_prop; rewrite N.leb_le in *; lia).
  destruct (hex4_fixed h Hh') as (a & b & x & y & -> & Hx).
  destruct (hex4_fixed l Hl') as (a' & b' & x' & y' & -> & Hx').
  change (u "\u") with [92%N; 117%N]. cbn [app scan_string]. cbn [N.eqb Pos.eqb].
  rewrite Hx, Hh. cbn [andb]. by rewrite Hx', Hl.
Qed.

Lemma scan_plain_char c t :
  c <> 34%N -> c <> 92%N -> (32 <= c)%N -> scan_string (c :: t) = push c (scan_string t).
Proof.
  intros H1 H2 H3. cbn [scan_string]. rewrite (proj2 (N.eqb_neq c 34)), (proj2 (N.eqb_neq c 92)) by done.
  by rewrite (proj2 (N.ltb_ge c 32)).
Qed.

Lemma scan_escape_char c t : scalar c -> scan_string (escape_char c ++ t) = push c (scan_string t).
Proof.
  intros Hc. unfold escape_char.
  destruct (N.eqb_spec c 34) as [->|H34]; [done|]. destruct (N.eqb_spec c 92) as [->|H92]; [done|].
  destruct (N.eqb_spec c 10) as [->|]; [done|]. destruct (N.eqb_spec c 13) as [->|]; [done|].
  destruct (N.eqb_spec c 9) as [->|]; [done|]. destruct (N.eqb_spec c 12) as [->|]; [done|].
  destruct (N.eqb_spec c 8) as [->|]; [done|].
  destruct ((32 <=? c)%N && (c <=? 126)%N) eqn:Ep.
  { bool_prop. rewrite N.leb_le in *. cbn [app]. by apply scan_plain_char. }
  destruct (N.ltb_spec c 65536) as [Hlt|Hge].
  - apply scan_u_escape; [done|]. unfold is_high. destruct Hc as [Hc|Hc].
    + by rewrite (proj2 (N.leb_gt 55296 c)).
    + by rewrite (proj2 (N.leb_gt c 56319)), andb_false_r by lia.
  - rewrite <-!app_assoc. destruct Hc as [Hc|Hc]; [lia|].
    remember (c - 65536)%N as v eqn:Hv.
    assert (Hq : (v / 1024 < 1024)%N) by (apply N.Div0.div_lt_upper_bound; lia).
    assert (Hr : (v mod 1024 < 1024)%N) by (apply N.mod_lt; lia).
    pose proof (N.div_mod v 1024 ltac:(lia)) as Hdm.
    revert Hq Hr Hdm. generalize (v / 1024)%N (v mod 1024)%N. intros q m Hq Hm Hdm.
    rewrite scan_pair_escape.
    + f_equal. unfold join_surrogates. lia.
    + unfold is_high. apply andb_true_iff. rewrite !N.leb_le. lia.
    + unfold is_low. apply andb_true_iff. rewrite !N.leb_le. lia.
Qed.

Lemma scan_quoted s r : Forall scalar s -> scan_string (mjoin (escape_char <$> s) ++ 34%N :: r) = Some (s, r).
Proof.
  induction 1 as [|c s Hc _ IH]; [done|].
  change (mjoin (escape_char <$> c :: s)) with (escape_char c ++ mjoin (escape_char <$> s)).
  rewrite <-app_assoc, scan_escape_char by done. by rewrite IH.
Qed.

(** ** Integers survive the encoder *)

(** What may follow a value in an encoded text. *)
Definition delimited (r : pystr) : Prop :=
  match r with [] => True | c :: _ => existsb (N.eqb c) [44; 93; 125; 10; 32]%N = true end.

Lemma delimited_cases r (P : N -> Prop) :
  delimited r -> Forall P [44; 93; 125; 10; 32]%N -> match r with [] => True | c :: _ => P c end.
Proof.
  destruct r as [|c r]; [done|]. cbn [delimited]. intros (x & Hx & ->%N.eqb_eq)%existsb_exists Hall.
  rewrite Forall_forall in Hall. by apply Hall, list_elem_of_In.
Qed.

Lemma scan_ascii_digits_app ds r :
  Forall (fun c => is_ascii_digit c = true) ds -> delimited r -> scan_ascii_digits (ds ++ r) = (ds, r).
Proof.
  intros Hds Hr. induction Hds as [|d ds Hd _ IH]; cbn [app scan_ascii_digits].
  - pose proof (delimited_cases r (fun c => is_ascii_digit c = false) Hr) as H.
    destruct r as [|c r]; [done|]. cbn [scan_ascii_digits]. rewrite H; [done|]. repeat constructor.
  - by rewrite Hd, IH.
Qed.

Lemma no_fraction r : delimited r -> scan_frac r = None /\ scan_exp r = None.
Proof.
  intros Hr.
  pose proof (delimited_cases r (fun c => (c =? 46) = false /\ ((c =? 101) || (c =? 69)) = false)%N Hr) as H.
  destruct r as [|c r]; [done|]. destruct H as [H1 H2]; [by repeat constructor|].
  cbn [scan_frac scan_exp]. by rewrite H1, H2.
Qed.

Lemma digits_value_snoc acc d :
  foldl (fun acc c => 10 * acc + (c - 48))%N (Npos acc) (uint_chars d) = Npos (Pos.of_uint_acc d acc).
Proof.
  revert acc. induction d; intros acc; cbn [uint_chars foldl Pos.of_uint_acc]; [done|..];
    rewrite <-IHd; f_equal; lia.
Qed.

Lemma digits_value_uint d : digits_value (uint_chars d) = N.of_uint d.
Proof.
  unfold digits_value. induction d; cbn [uint_chars foldl]; [done|exact IHd|..];
    match goal with |- foldl _ ?a _ = _ => let v := eval compute in a in change a with v end;
    by rewrite digits_value_snoc.
Qed.

Lemma digits_value_dec n : digits_value (dec_N n) = n.
Proof. unfold dec_N. rewrite digits_value_uint. apply DecimalN.Unsigned.of_to. Qed.

Lemma dec_N_lead n c t : dec_N n = c :: t -> c = 48%N -> t = [].
Proof.
  intros H ->. destruct (decide (n = 0%N)) as [->|Hn]; [by injection H as <-|].
  unfold dec_N in H. destruct (N.to_uint n) eqn:E; cbn in H; try discriminate.
  by apply to_uint_no_leading_zero in E.
Qed.

Lemma int_part_dec n r : delimited r -> int_part (dec_N n ++ r) = (dec_N n, r).
Proof.
  intros Hr. pose proof (dec_N_digits n) as Hd. destruct (dec_N n) as [|c t] eqn:E; [by destruct (dec_N_nonempty n)|].
  cbn [app int_part]. destruct (N.eqb_spec c 48) as [->|_].
  - by rewrite (dec_N_lead n 48 t).
  - by apply (scan_ascii_digits_app (c :: t)).
Qed.

Lemma number_tail_dec neg n r :
  length (dec_N n) <= int_max_str_digits -> delimited r ->
  number_tail neg (dec_N n) r = Ok (VInt (if neg then - Z.of_N n else Z.of_N n)%Z, r).
Proof.
  intros Hn Hr. destruct (no_fraction r Hr) as [Hf He]. unfold number_tail.
  rewrite Hf, He, digits_value_dec, (proj2 (Nat.leb_le _ _)) by done.
  pose proof (dec_N_nonempty n). by destruct (dec_N n).
Qed.

Lemma scan_number_dec z r :
  length (dec_Z z) <= int_max_str_digits -> delimited r -> scan_number (dec_Z z ++ r) = Ok (VInt z, r).
Proof.
  intros Hlen Hr. unfold scan_number.
  destruct z as [|p|p]; cbn [dec_Z Z.to_N] in *.
  - change (dec_N 0 ++ r) with (48%N :: r). cbn [N.eqb Pos.eqb int_part].
    by apply (number_tail_dec false 0).
  - pose proof (dec_N_digits (Npos p)) as Hd. pose proof (int_part_dec (Npos p) r Hr) as Hip.
    pose proof (number_tail_dec false (Npos p) r Hlen Hr) as Ht.
    destruct (dec_N (Npos p)) as [|c t] eqn:E; [by destruct (dec_N_nonempty (Npos p))|].
    apply Forall_cons in Hd as [Hc%ascii_digit_lt _]. cbn [app] in *.
    rewrite (proj2 (N.eqb_neq c 45)) by lia. by rewrite Hip.
  - cbn [app N.eqb Pos.eqb]. rewrite int_part_dec by done. apply (number_tail_dec true (Npos p)); [|done].
    cbn [length] in Hlen. lia.
Qed.

Lemma strip_prefix_head p a q c t : p = a :: q -> a <> c -> strip_prefix p (c :: t) = None.
Proof. intros -> Hne. unfold strip_prefix. cbn [starts_with]. by rewrite (proj2 (N.eqb_neq a c)). Qed.

Lemma strip_prefix_second p a b q d t : p = a :: b :: q -> b <> d -> strip_prefix p (a :: d :: t) = None.
Proof.
  intros -> Hne. unfold strip_prefix. cbn [starts_with].
  by rewrite (proj2 (N.eqb_neq b d)), andb_false_r.
Qed.

(** Rules out the keywords by their first character. *)
Ltac not_keywords s :=
  repeat match goal with |- context [strip_prefix ?p s] =>
    rewrite (strip_prefix_head p _ _ _ _ eq_refl) by (let H := fresh in intros H; vm_compute in H; lia) end.

Lemma scan_atom_dec z r :
  length (dec_Z z) <= int_max_str_digits -> delimited r -> scan_atom (dec_Z z ++ r) = Ok (VInt z, r).
Proof.
  intros Hlen Hr. pose proof (scan_number_dec z r Hlen Hr) as Hn.
  assert (Hh : exists c t, dec_Z z ++ r = c :: t /\
            (is_ascii_digit c = true \/ c = 45%N /\ exists d t', t = d :: t' /\ is_ascii_digit d = true)).
  { assert (Hd : forall n, exists c t, dec_N n = c :: t /\ is_ascii_digit c = true).
    { intros n. pose proof (dec_N_digits n) as H. destruct (dec_N n) as [|c t] eqn:E; [by destruct (dec_N_nonempty n)|].
      apply Forall_cons in H as [H _]. eauto. }
    destruct z as [|p|p]; cbn [dec_Z Z.to_N].
    - exists 48%N, r. split; [done|by left].
    - destruct (Hd (Npos p)) as (c & t & -> & Hc). exists c, (t ++ r). split; [done|by left].
    - destruct (Hd (Npos p)) as (c & t & -> & Hc). exists 45%N, (c :: t ++ r). split; [done|].
      right. split; [done|]. exists c, (t ++ r). done. }
  destruct Hh as (c & t & Heq & Hc). rewrite Heq in *. unfold scan_atom.
  destruct Hc as [Hc%ascii_digit_lt|(-> & d & t' & -> & Hd%ascii_digit_lt)].
  - not_keywords (c :: t). exact Hn.
  - rewrite (strip_prefix_second (u "-Infinity") 45 73 (u "nfinity") d t' eq_refl) by lia.
    not_keywords (45%N :: d :: t'). exact Hn.
Qed.

(** ** Values survive the encoder *)

(** Values that JSON text represents exactly: no floats, text UTF-8 can encode,
    integers within the interpreter's digit limit, distinct keys. *)
Fixpoint plain (v : pyval) : Prop :=
  match v with
  | VFloat _ => False
  | VInt z => length (dec_Z z) <= int_max_str_digits
  | VStr s => Forall scalar s
  | VList l => (fix go l := match l with [] => True | x :: t => plain x /\ go t end) l
  | VDict d =>
      NoDup d.*1 /\
      (fix go d := match d with [] => True | (k, x) :: t => Forall scalar k /\ plain x /\ go t end) d
  | _ => True
  end.

Lemma plain_list l : plain (VList l) <-> Forall plain l.
Proof.
  induction l as [|x l IH]; [split; [constructor|done]|].
  change (plain (VList (x :: l))) with (plain x /\ plain (VList l)). by rewrite IH, Forall_cons.
Qed.

Lemma plain_dict d : plain (VDict d) <-> NoDup d.*1 /\ Forall (fun kv => Forall scalar kv.1 /\ plain kv.2) d.
Proof.
  cbn [plain]. apply and_iff_compat_l. induction d as [|[k x] d IH]; [split; [constructor|done]|].
  rewrite Forall_cons, IH. cbn. tauto.
Qed.

(** The value the encoded text denotes: [sort_keys] reorders every dict. *)
Fixpoint normal (sort : bool) (v : pyval) : pyval :=
  match v with
  | VList l => VList (normal sort <$> l)
  | VDict d =>
      let d' := (fun kv => (kv.1, normal sort kv.2)) <$> d in
      VDict (if sort then py_sorted by_key d' else d')
  | _ => v
  end.

(** A layout whose separators are one delimiter and white space. *)
Definition blank (s : pystr) : Prop := Forall (fun c => is_ws c = true) s.
Definition json_layout (st : layout_style) : Prop :=
  exists a b, st_item st = 44%N :: a /\ st_key st = 58%N :: b /\ blank a /\ blank b.

Lemma style_layouts : json_layout default_style /\ json_layout compact_style /\ json_layout pretty_style.
Proof. split_and!; eexists _, _; (split; [reflexivity|split; [reflexivity|split]]); repeat constructor. Qed.

Lemma skip_blank w s : blank w -> skip_ws (w ++ s) = skip_ws s.
Proof. unfold skip_ws. induction 1 as [|c w Hc _ IH]; cbn [app drop_while]; [done|]. by rewrite Hc. Qed.

Lemma newline_blank st n : blank (newline st n).
Proof.
  unfold newline, blank. destruct (st_indent st) as [k|]; [|done]. constructor; [done|].
  apply Forall_replicate. done.
Qed.

(** The first character of an encoded value. *)
Definition value_head (s : pystr) : Prop :=
  match s with [] => False | c :: _ => is_ws c = false /\ c <> 93%N /\ c <> 125%N end.

Lemma dumps_head st n v : plain v -> value_head (dumps_at st n v).
Proof.
  intros Hp. destruct v as [|b|z|f|s|l|d]; cbn [dumps_at]; try done.
  - by destruct b.
  - destruct z as [|p|p]; cbn [dec_Z Z.to_N]; [done| |done].
    pose proof (dec_N_digits (Npos p)) as Hd. pose proof (dec_N_nonempty (Npos p)).
    destruct (dec_N (Npos p)) as [|c t]; [done|]. apply Forall_cons in Hd as [Hc%ascii_digit_lt _].
    cbn [value_head]. split; [|lia]. unfold is_ws. cbn [existsb].
    rewrite !(proj2 (N.eqb_neq c _)) by lia. done.
  - by destruct (dumps_at st (S n) <$> l).
  - unfold bracketed. by destruct ((if st_sort st then _ else _).*2).
Qed.

Lemma skip_value_head s r : value_head s -> skip_ws (s ++ r) = s ++ r.
Proof. destruct s as [|c s]; [done|]. intros (H & _). apply drop_while_id. exact H. Qed.

Lemma eat_value_head s r : value_head s -> eat 93 (s ++ r) = None /\ eat 125 (s ++ r) = None.
Proof.
  destruct s as [|c s]; [done|]. intros (_ & H1 & H2). cbn [app eat].
  by rewrite (proj2 (N.eqb_neq c 93)), (proj2 (N.eqb_neq c 125)).
Qed.

Lemma value_head_length s : value_head s -> 0 < length s.
Proof. destruct s; cbn; [done|lia]. Qed.

Lemma delimited_blank_item st n r : json_layout st -> delimited (st_item st ++ newline st n ++ r).
Proof. intros (a & b & -> & _). done. Qed.

Lemma delimited_close st n c r : c = 93%N \/ c = 125%N -> delimited (newline st n ++ c :: r).
Proof. unfold newline. destruct (st_indent st); [done|]. by intros [->| ->]. Qed.

(** The induction hypothesis of the round trip: [v] is read back from its text
    whatever delimited text follows. *)
Definition reads_back (st : layout_style) (v : pyval) : Prop :=
  forall n f r, delimited r -> 2 * length (dumps_at st n v) <= f ->
    parse_value f (dumps_at st n v ++ r) = Ok (normal (st_sort st) v, r).

(** The text of a non-empty sequence of items and its closing bracket. *)
Definition tail_text (st : layout_style) (n : nat) (items : list pystr) (close : N) (r : pystr) : pystr :=
  join (st_item st ++ newline st (S n)) items ++ newline st n ++ close :: r.

Lemma tail_text_one st n x close r : tail_text st n [x] close r = x ++ newline st n ++ close :: r.
Proof. done. Qed.

Lemma tail_text_cons st n x y l close r :
  tail_text st n (x :: y :: l) close r = x ++ st_item st ++ newline st (S n) ++ tail_text st n (y :: l) close r.
Proof. unfold tail_text. cbn [join]. by rewrite <-!app_assoc. Qed.

Lemma skip_tail_text st n x l close r :
  value_head x -> skip_ws (tail_text st n (x :: l) close r) = tail_text st n (x :: l) close r.
Proof.
  intros Hx. unfold tail_text. destruct l; cbn [join]; rewrite <-?app_assoc; by apply skip_value_head.
Qed.

Lemma after_item st n x l close r :
  json_layout st -> value_head x ->
  exists r1, eat 44 (skip_ws (st_item st ++ newline st (S n) ++ tail_text st n (x :: l) close r)) = Some r1 /\
    skip_ws r1 = tail_text st n (x :: l) close r.
Proof.
  intros (a & b & -> & _ & Ha & _) Hx. eexists. split; [reflexivity|].
  change ((fix app l m := match l with [] => m | a :: l1 => a :: app l1 m end) a) with (app a).
  rewrite !skip_blank by (done || apply newline_blank). by apply skip_tail_text.
Qed.

Lemma tail_text_length st n x l close r :
  length (tail_text st n (x :: l) close r) >= length x + S (length r).
Proof. unfold tail_text. destruct l; cbn [join]; rewrite !length_app; cbn [length]; lia. Qed.

Lemma parse_items_back st n l acc f r :
  json_layout st -> l <> [] -> Forall plain l -> Forall (reads_back st) l ->
  2 * length (tail_text st n (dumps_at st (S n) <$> l) 93 r) + 1 <= f + 2 * length r ->
  parse_items f acc (tail_text st n (dumps_at st (S n) <$> l) 93 r) =
  Ok (VList (acc ++ (normal (st_sort st) <$> l)), r).
Proof.
  intros Hst Hne Hp Hl. revert acc f Hne. induction Hl as [|v l Hv Hl IH]; [done|].
  apply Forall_cons in Hp as [Hpv Hp]. intros acc f _ Hf. rewrite !fmap_cons in *.
  pose proof (dumps_head st (S n) v Hpv) as Hhd. pose proof (value_head_length _ Hhd) as Hpos.
  pose proof (tail_text_length st n (dumps_at st (S n) v) (dumps_at st (S n) <$> l) 93 r) as Hge.
  destruct f as [|f]; [lia|]. cbn [parse_items]. destruct l as [|v' l]; rewrite ?fmap_cons in *.
  - rewrite tail_text_one. rewrite Hv; [|apply delimited_close; by left|lia]. cbn [rbind].
    by rewrite skip_blank by apply newline_blank.
  - apply Forall_cons in Hp as [Hpv' Hp]. pose proof (dumps_head st (S n) v' Hpv') as Hhd'.
    rewrite tail_text_cons in *. rewrite Hv; [|by apply delimited_blank_item|lia]. cbn [rbind].
    destruct (after_item st n (dumps_at st (S n) v') (dumps_at st (S n) <$> l) 93 r Hst Hhd')
      as (r1 & -> & ->).
    rewrite !length_app in Hf. rewrite IH; [|by constructor|done|lia]. by rewrite <-app_assoc.
Qed.

Definition member_text (st : layout_style) (n : nat) (kv : pystr * pyval) : pystr :=
  quote_json kv.1 ++ st_key st ++ dumps_at st (S n) kv.2.

Lemma member_head st n kv : value_head (member_text st n kv).
Proof. done. Qed.

(** The key of a member and the text of its value. *)
Lemma member_key st n kv rest :
  json_layout st -> Forall scalar kv.1 -> plain kv.2 ->
  exists t r r1, eat 34 (member_text st n kv ++ rest) = Some t /\
    scan_string t = Some (kv.1, r) /\ eat 58 (skip_ws r) = Some r1 /\
    skip_ws r1 = dumps_at st (S n) kv.2 ++ rest.
Proof.
  intros (a & b & _ & Hk & _ & Hb) Hs Hp. set (text := dumps_at st (S n) kv.2 ++ rest).
  exists (mjoin (escape_char <$> kv.1) ++ 34%N :: st_key st ++ text), (st_key st ++ text), (b ++ text).
  split; [unfold member_text, quote_json; by rewrite <-!app_assoc|].
  split; [by apply scan_quoted|]. rewrite Hk. split; [done|].
  rewrite skip_blank by done. by apply skip_value_head, dumps_head.
Qed.

Definition normal_item (sort : bool) (kv : pystr * pyval) : pystr * pyval := (kv.1, normal sort kv.2).

Lemma parse_members_back st n d acc f r :
  json_layout st -> d <> [] -> NoDup (dkeys acc ++ dkeys d) ->
  Forall (fun kv => Forall scalar kv.1 /\ plain kv.2) d -> Forall (fun kv => reads_back st kv.2) d ->
  2 * length (tail_text st n (member_text st n <$> d) 125 r) + 1 <= f + 2 * length r ->
  parse_members f acc (tail_text st n (member_text st n <$> d) 125 r) =
  Ok (VDict (acc ++ (normal_item (st_sort st) <$> d)), r).
Proof.
  intros Hst Hne Hnd Hp Hd. revert acc f Hne Hnd. induction Hd as [|kv d Hkv Hd IH]; [done|].
  apply Forall_cons in Hp as [[Hs Hpv] Hp]. intros acc f _ Hnd Hf. rewrite !fmap_cons in *.
  assert (Hnk : kv.1 ∉ dkeys acc).
  { apply NoDup_app in Hnd as (_ & Hdis & _). intros Hin. apply (Hdis _ Hin). apply elem_of_cons. by left. }
  assert (Hlen : length (member_text st n kv) > length (dumps_at st (S n) kv.2)).
  { unfold member_text, quote_json. rewrite !length_app. cbn [length]. lia. }
  pose proof (tail_text_length st n (member_text st n kv) (member_text st n <$> d) 125 r) as Hge.
  destruct f as [|f]; [lia|]. cbn [parse_members].
  destruct d as [|kv' d]; rewrite ?fmap_cons in *.
  - rewrite tail_text_one in *.
    destruct (member_key st n kv (newline st n ++ 125%N :: r) Hst Hs Hpv) as (t & r0 & r1 & -> & -> & -> & ->).
    rewrite Hkv; [|apply delimited_close; by right|lia]. cbn [rbind].
    rewrite skip_blank by apply newline_blank. by rewrite dset_not_mem.
  - rewrite tail_text_cons in *.
    destruct (member_key st n kv (st_item st ++ newline st (S n) ++
      tail_text st n (member_text st n kv' :: (member_text st n <$> d)) 125 r) Hst Hs Hpv)
      as (t & r0 & r1 & -> & -> & -> & ->).
    rewrite Hkv; [|by apply delimited_blank_item|lia]. cbn [rbind].
    destruct (after_item st n (member_text st n kv') (member_text st n <$> d) 125 r Hst (member_head _ _ _))
      as (r2 & -> & ->).
    rewrite !length_app in Hf. rewrite dset_not_mem by done. rewrite IH; [|done|done| |lia].
    + by rewrite <-app_assoc.
    + unfold dkeys in *. rewrite fmap_app, <-app_assoc. exact Hnd.
Qed.

(** *** Sorting the keys commutes with encoding *)

Lemma insert_sorted_map {A B} (g : pystr * A -> pystr * B) x l :
  (forall y, (g y).1 = y.1) ->
  insert_sorted by_key (g x) (g <$> l) = g <$> insert_sorted by_key x l.
Proof.
  intros Hg. induction l as [|y l IH]; [done|]. rewrite fmap_cons. cbn [insert_sorted].
  unfold by_key at 1 3. rewrite !Hg. destruct (str_leb x.1 y.1); [done|]. by rewrite fmap_cons, IH.
Qed.

Lemma py_sorted_map {A B} (g : pystr * A -> pystr * B) l :
  (forall y, (g y).1 = y.1) -> py_sorted by_key (g <$> l) = g <$> py_sorted by_key l.
Proof.
  intros Hg. induction l as [|x l IH]; [done|]. rewrite fmap_cons. cbn [py_sorted].
  by rewrite IH, insert_sorted_map.
Qed.

(** The members in the order they are written. *)
Definition written (st : layout_style) (d : pydict) : pydict := if st_sort st then py_sorted by_key d else d.

Lemma written_perm st d : written st d ≡ₚ d.
Proof. unfold written. destruct (st_sort st); [apply py_sorted_perm|done]. Qed.

Lemma dumps_dict st n d :
  dumps_at st n (VDict d) = bracketed st n (u "{") (u "}") (member_text st n <$> written st d).
Proof.
  cbn [dumps_at]. f_equal. unfold written. destruct (st_sort st); [rewrite py_sorted_map by done|];
    rewrite <-list_fmap_compose; done.
Qed.

Lemma normal_dict st d :
  normal (st_sort st) (VDict d) = VDict (normal_item (st_sort st) <$> written st d).
Proof. cbn [normal]. unfold written. destruct (st_sort st); [|done]. by rewrite py_sorted_map. Qed.

Lemma bracketed_tail st n o c op cl x l r :
  op = [o] -> cl = [c] ->
  bracketed st n op cl (x :: l) ++ r = o :: newline st (S n) ++ tail_text st n (x :: l) c r.
Proof. intros -> ->. unfold bracketed, tail_text. cbn [app]. by rewrite <-!app_assoc. Qed.

(** [json.loads] inverts [json.dumps], inside any text. *)
Lemma parse_dumps st v : json_layout st -> plain v -> reads_back st v.
Proof.
  intros Hst. induction v as [|b|z|f|s|l IH|d IH] using pyval_ind; intros Hp n fuel r Hr Hf;
    (destruct fuel as [|fuel]; [pose proof (value_head_length _ (dumps_head st n _ Hp)); lia|]).
  - done.
  - by destruct b.
  - pose proof (scan_atom_dec z r Hp Hr) as Hz. cbn [dumps_at normal] in *.
    assert (Hc : match dec_Z z with [] => False | c :: _ => c <> 34%N /\ c <> 123%N /\ c <> 91%N end).
    { destruct z as [|p|p]; cbn [dec_Z Z.to_N]; [done| |done]. pose proof (dec_N_digits (Npos p)) as Hd.
      pose proof (dec_N_nonempty (Npos p)). destruct (dec_N (Npos p)); [done|].
      apply Forall_cons in Hd as [Hd%ascii_digit_lt _]. lia. }
    destruct (dec_Z z) as [|c t]; [done|]. cbn [app] in *. cbn [parse_value]. destruct Hc as (H1 & H2 & H3).
    by rewrite (proj2 (N.eqb_neq c 34)), (proj2 (N.eqb_neq c 123)), (proj2 (N.eqb_neq c 91)).
  - done.
  - cbn [dumps_at normal] in *. unfold quote_json. rewrite <-!app_assoc.
    cbn [app parse_value N.eqb Pos.eqb]. by rewrite scan_quoted.
  - apply plain_list in Hp.
    assert (HIH : Forall (reads_back st) l).
    { rewrite Forall_forall in *. auto. }
    destruct l as [|x l]; [done|].
    change (dumps_at st n (VList (x :: l))) with (bracketed st n (u "[") (u "]") (dumps_at st (S n) <$> (x :: l))) in *.
    pose proof (bracketed_tail st n 91 93 (u "[") (u "]") (dumps_at st (S n) x) (dumps_at st (S n) <$> l) r
      eq_refl eq_refl) as Heq.
    rewrite fmap_cons in *. rewrite Heq. apply (f_equal length) in Heq. rewrite length_app in Heq.
    cbn [length] in Heq. rewrite length_app in Heq.
    cbn [parse_value N.eqb Pos.eqb]. rewrite skip_blank by apply newline_blank.
    pose proof (dumps_head st (S n) x ltac:(by apply Forall_cons in Hp as [? _])) as Hhd.
    rewrite skip_tail_text by done.
    assert (eat 93 (tail_text st n (dumps_at st (S n) x :: (dumps_at st (S n) <$> l)) 93 r) = None) as ->.
    { unfold tail_text. destruct l; cbn [join fmap list_fmap]; rewrite <-?app_assoc; by apply eat_value_head. }
    change (dumps_at st (S n) x :: (dumps_at st (S n) <$> l)) with (dumps_at st (S n) <$> (x :: l)) in *.
    rewrite parse_items_back by (done || lia). done.
  - apply plain_dict in Hp as [Hnd Hp].
    assert (HIH : Forall (fun kv => reads_back st kv.2) (written st d)).
    { rewrite written_perm, Forall_forall in *. intros kv Hkv. apply IH; [done|]. by apply Hp. }
    rewrite <-(written_perm st d) in Hp, Hnd. rewrite dumps_dict, normal_dict in *.
    destruct (written st d) as [|kv d']; [done|].
    pose proof (bracketed_tail st n 123 125 (u "{") (u "}") (member_text st n kv) (member_text st n <$> d') r
      eq_refl eq_refl) as Heq.
    rewrite fmap_cons in Hf |- *. rewrite Heq. apply (f_equal length) in Heq. rewrite length_app in Heq.
    cbn [length] in Heq. rewrite length_app in Heq.
    cbn [parse_value N.eqb Pos.eqb]. rewrite skip_blank by apply newline_blank.
    rewrite skip_tail_text by done.
    assert (eat 125 (tail_text st n (member_text st n kv :: (member_text st n <$> d')) 125 r) = None) as ->.
    { unfold tail_text. by destruct d'. }
    change (member_text st n kv :: (member_text st n <$> d')) with (member_text st n <$> (kv :: d')) in *.
    rewrite parse_members_back by (done || lia). done.
Qed.

(** [json.loads(json.dumps(v))] is [v], its dicts key-sorted when the layout
    sorts them; trailing white space is accepted. *)
Lemma loads_dumps st v w :
  json_layout st -> plain v -> blank w -> Forall (fun c => c = 32 \/ c = 10)%N w ->
  loads (dumps st v ++ w) = Ok (normal (st_sort st) v).
Proof.
  intros Hst Hp Hw Hw'. unfold loads, dumps. pose proof (dumps_head st 0 v Hp) as Hhd.
  rewrite skip_value_head by done.
  assert (Hbom : eat 65279 (dumps_at st 0 v ++ w) = None).
  { destruct v as [|b|z|f|s|l|d]; try done.
    - by destruct b.
    - destruct z as [|p|p]; try done. cbn [dumps_at dec_Z Z.to_N].
      pose proof (dec_N_digits (Npos p)) as Hd. destruct (dec_N (Npos p)); cbn [app eat]; [by destruct Hw'; [|destruct H as [-> | ->]]|].
      apply Forall_cons in Hd as [Hd%ascii_digit_lt _]. by rewrite (proj2 (N.eqb_neq _ 65279)) by lia.
    - cbn [dumps_at]. by destruct (dumps_at st 1 <$> l).
    - rewrite dumps_dict. by destruct (member_text st 0 <$> written st d). }
  rewrite Hbom, (parse_dumps st v Hst Hp).
  - cbn [rbind]. rewrite <-(app_nil_r w), skip_blank by done. done.
  - destruct w; [done|]. by apply Forall_cons in Hw' as [[-> | ->] _].
  - rewrite length_app. lia.
Qed.

(** ** The decoder decides, and inverts the encoder *)

(** [json.loads] as modelled decides every text: it returns a value or raises
    a [ValueError] (normally its subclass [JSONDecodeError]), so the recursion
    bound [2 * len(text) + 2] is never the reason for stopping. *)
Lemma loads_decides text :
  (exists v, loads text = Ok v) \/ (exists e, loads text = Raise e /\ is_value_error e = true).
Proof.
  destruct (loads text) as [v|e] eqn:E; [by left; exists v|right]. exists e. split; [done|].
  by apply (loads_fed text).
Qed.

(** Decoding inverts encoding: for every float-free value with encodable text
    and printable integers, [json.loads(json.dumps(v))] is [v] again in each of
    the three layouts the tools use, up to the key order that [sort_keys] imposes. *)
Lemma json_round_trip v :
  plain v ->
  loads (dumps default_style v) = Ok (normal false v) /\
  loads (dumps compact_style v) = Ok (normal false v) /\
  loads (dumps pretty_style v) = Ok (normal true v).
Proof.
  intros Hp. destruct style_layouts as (H1 & H2 & H3).
  split_and!; rewrite <-(app_nil_r (dumps _ v)); rewrite loads_dumps; try done; constructor.
Qed.
