(* ===== verification/NetSmoke.v ===== *)
(** * NetSmoke: the namespace smoke test of the nftables template

    [tools/run_edge_namespace_smoke.py]: the commands it runs as root, the two network
    namespaces it creates and removes, the processes in them, the report and the exit
    status.  The host is a parameter: what a command or a process does may depend on
    everything done before. *)

From S2P Require Import Prelude Unicode PyStr Regex PyFloat PyVal Provenance Json EdgeConfig EdgeNft NetFrame NetScripts JsonFacts.

(** ** The host *)

(** What [TimeoutExpired] captured: nothing, text or bytes. *)
Inductive captured := NotCaptured | CapturedText (s : pystr) | CapturedBytes (b : list Z).

Inductive ran :=
| Exited (returncode : Z) (stdout stderr : pystr)
| TimedOut (stdout stderr : captured).

Inductive sys_event :=
| Ran (command : list pystr) (timeout : Z)   (** [subprocess.run] *)
| Spawned (command : list pystr)             (** [subprocess.Popen] *)
| ReadLine | ReadStderr | Polled | Waited    (** on the spawned server *)
| Terminated | Killed.

Record smoke_world := SmokeWorld {
  sw_which : pystr -> option pystr;
  sw_system : pystr;
  sw_run : list sys_event -> list pystr -> Z -> res ran;
  sw_spawn : list sys_event -> list pystr -> res unit;
  sw_line : list sys_event -> option pystr;   (** [None]: nothing readable in time *)
  sw_stderr : list sys_event -> pystr;
  sw_ended : list sys_event -> bool;          (** [poll() is not None] *)
  sw_wait : list sys_event -> bool;           (** it ends within the second waited *)
  sw_nft_exists : bool;
  sw_nft_text : res pystr;
  sw_resolved : pystr;                        (** [nft_path.resolve()] *)
  sw_executable : pystr;
  sw_pid : Z;
  sw_millis : Z;                              (** [int(time.time() * 1000)] *)
  sw_cwd : pystr;
  sw_now : utc_time;
  sw_git : pystr -> list pystr -> option (Z * pystr) }.

Definition sys (A : Type) : Type := eff (list sys_event) A.

(** ** Texts *)

(** [b.decode("utf-8", errors="replace")]: each maximal ill-formed part becomes one
    replacement character.  [need] continuation bytes are missing, the next between [lo]
    and [hi]; [acc] holds the bits so far. *)
Fixpoint utf8_decode (need : nat) (lo hi acc : Z) (b : list Z) : pystr :=
  match b with
  | [] => match need with O => [] | S _ => [65533%N] end
  | x :: rest =>
      let start :=
        if (x <? 128)%Z then Z.to_N x :: utf8_decode 0 0 0 0 rest
        else if (x <? 194)%Z then 65533%N :: utf8_decode 0 0 0 0 rest
        else if (x <? 224)%Z then utf8_decode 1 128 191 (x - 192) rest
        else if (x <? 240)%Z then utf8_decode 2 (if (x =? 224)%Z then 160 else 128) (if (x =? 237)%Z then 159 else 191) (x - 224) rest
        else if (x <? 245)%Z then utf8_decode 3 (if (x =? 240)%Z then 144 else 128) (if (x =? 244)%Z then 143 else 191) (x - 240) rest
        else 65533%N :: utf8_decode 0 0 0 0 rest in
      match need with
      | O => start
      | S n =>
          if (lo <=? x)%Z && (x <=? hi)%Z then
            let acc := (acc * 64 + (x - 128))%Z in
            match n with O => Z.to_N acc :: utf8_decode 0 0 0 0 rest | S _ => utf8_decode n 128 191 acc rest end
          else 65533%N :: start
      end
  end.

Definition timeout_output (value : captured) : pystr :=
  match value with NotCaptured => [] | CapturedBytes b => utf8_decode 0 0 0 0 b | CapturedText s => s end.

Definition compact_nft_output (value : pystr) : pystr := strip (collapse false value).

Definition NAMESPACE_SMOKE_TIMEOUT_SECONDS : Z := 15.

(** [repr] of a list of strings *)
Definition repr_command (command : list pystr) : pystr := py_repr (VList (VStr <$> command)).

Definition nft_smoke_script (nft_path : pystr) : pystr :=
  join [10%N] [u "set -eu"; u "ip link set lo up"; u "nft -f " ++ repr_str nft_path; u "nft list table inet altura_prot_edge"].

(** ** The flags read off the listed ruleset *)

Definition ipv6_prefix_mask_pattern : regex :=
  cat [lit (u "ip6 saddr"); ws0; Alt (lit (u "and")) (lit (u "&")); ws0; lit (u "ffff:ffff:ffff:ffff::")].

Definition protected_syn_matches : list pystr :=
  [u "tcp dport @protected_tcp_ports tcp flags & (fin | syn | rst | ack) == syn";
   u "tcp dport @protected_tcp_ports tcp flags & (fin|syn|rst|ack) == syn";
   u "tcp dport @protected_tcp_ports tcp flags syn / fin,syn,rst,ack"].

Definition protected_new_non_syn_matches : list pystr :=
  [u "tcp dport @protected_tcp_ports ct state new tcp flags & (fin | syn | rst | ack) != syn drop";
   u "tcp dport @protected_tcp_ports ct state new tcp flags & (fin|syn|rst|ack) != syn drop";
   u "tcp dport @protected_tcp_ports ct state new tcp flags != syn / fin,syn,rst,ack drop"].

Definition xmas_drop_matches : list pystr :=
  [u "tcp flags & (fin | syn | rst | psh | ack | urg) == fin | psh | urg drop";
   u "tcp flags & (fin|syn|rst|psh|ack|urg) == fin|psh|urg drop";
   u "tcp flags fin,psh,urg / fin,syn,rst,psh,ack,urg drop"].

(** [s.count(needle) >= 2], occurrences not overlapping *)
Fixpoint occurrences (needle : pystr) (skip : nat) (s : pystr) : nat :=
  match s with
  | [] => 0
  | _ :: rest =>
      match skip with
      | S k => occurrences needle k rest
      | O => if starts_with needle s then S (occurrences needle (length needle - 1) rest) else occurrences needle 0 rest
      end
  end.

Definition ruleset_flags (compact source : pystr) : list (pystr * bool) :=
  let has needle := contains needle compact in
  let any matches := existsb (fun m => contains m compact) matches in
  let ipv6_prefix_mask := found ipv6_prefix_mask_pattern compact in
  let protected_syn_present := any protected_syn_matches in
  [(u "listed_edge_table", has (u "table inet altura_prot_edge"));
   (u "protected_tcp_ports_present", has (u "set protected_tcp_ports"));
   (u "tcp4_connlimit_present", has (u "set tcp4_connlimit"));
   (u "tcp6_connlimit_present", has (u "set tcp6_connlimit"));
   (u "syn_rate_sets_timeout_bounded", (2 <=? occurrences (u "timeout 10s") 0 compact)%nat);
   (u "tcp_invalid_null_drop_present", has (u "tcp dport @protected_tcp_ports tcp flags ! fin,syn,rst,ack drop"));
   (u "tcp_invalid_xmas_drop_present", any xmas_drop_matches);
   (u "ipv6_prefix_syn_backstop_present", ipv6_prefix_mask && has (u "update @tcp6_syn_rate"));
   (u "tcp4_syn_backstop_present", protected_syn_present && has (u "update @tcp4_syn_rate"));
   (u "global_syn_backstop_present", protected_syn_present && has (u "limit rate over 5000/second burst 10000 packets drop"));
   (u "ct_invalid_drop_present", has (u "ct state invalid drop"));
   (u "new_non_syn_drop_present", any protected_new_non_syn_matches);
   (u "tcp4_connlimit_rule_present", has (u "add @tcp4_connlimit") && has (u "ct count over 128"));
   (u "ipv6_prefix_connlimit_present", ipv6_prefix_mask && has (u "add @tcp6_connlimit"));
   (u "tcp6_connlimit_rule_present", ipv6_prefix_mask && has (u "add @tcp6_connlimit") && has (u "ct count over 128"));
   (u "udp_protected_port_drop_present", has (u "udp dport @protected_tcp_ports drop"));
   (u "udp_protected_port_drop_extension_safe_source", found udp_drop_pattern (collapse false source));
   (u "icmpv4_control_exemption_present", has (u "icmp type") && has (u "destination-unreachable"));
   (u "icmpv4_flood_drop_present", has (u "ip protocol icmp limit rate over 100/second burst 200 packets drop"));
   (u "icmpv6_control_exemption_present", has (u "icmpv6 type") && has (u "packet-too-big"));
   (u "icmpv6_flood_drop_present", has (u "meta l4proto ipv6-icmp limit rate over 100/second burst 200 packets drop"))].

Definition texts_value (l : list pystr) : pyval := VList (VStr <$> l).

Section smoke.
Context (w : smoke_world).

(** ** Commands *)

Definition command_path (name : pystr) : option pystr := sw_which w name.

(** [command_path(name) or name] *)
Definition command_or (name : pystr) : pystr := match command_path name with Some ((_ :: _) as p) => p | _ => name end.

Definition record (e : sys_event) : sys unit := fun t => (Ok tt, t ++ [e]).

(** [run], with [TimeoutExpired] still to be handled *)
Definition run_caught (command : list pystr) (timeout_seconds : Z) : sys ran :=
  fun t => (sw_run w t command timeout_seconds, t ++ [Ran command timeout_seconds]).

Definition run (command : list pystr) (timeout_seconds : Z) : sys (Z * pystr * pystr) :=
  perform r <- run_caught command timeout_seconds in
  match r with
  | Exited code out err => cret (code, out, err)
  | TimedOut _ _ => clift (Raise (Exn TimeoutExpired (u "Command " ++ repr_command command ++ u " timed out")))
  end.

Definition missing_prerequisites : list pystr :=
  (if str_eqb (sw_system w) (u "Linux") then [] else [u "Linux"]) ++
  filter (fun command => command_path command = None) [u "nft"; u "unshare"; u "ip"].

Definition run_namespace_smoke (timeout_seconds : Z) : sys pydict :=
  let command := [command_or (u "unshare"); u "--net"; u "--"; u "/bin/sh"; u "-c"; nft_smoke_script (sw_resolved w)] in
  perform r <- run_caught command timeout_seconds in
  match r with
  | TimedOut out err =>
      cret [(u "skipped", VBool false); (u "command", texts_value command); (u "returncode", VNone);
            (u "stdout", VStr (timeout_output out)); (u "stderr", VStr (timeout_output err)); (u "timed_out", VBool true);
            (u "timeout_seconds", VInt timeout_seconds); (u "nft_loaded", VBool false)]
  | Exited code out err =>
      perform source <- clift (sw_nft_text w) in
      cret ([(u "skipped", VBool false); (u "command", texts_value command); (u "returncode", VInt code); (u "stdout", VStr out);
             (u "stderr", VStr err); (u "nft_loaded", VBool (code =? 0)%Z)] ++
            ((fun kb => (kb.1, VBool kb.2)) <$> ruleset_flags (compact_nft_output out) source))
  end.

(** [(True, "")] is [None], [(False, error)] is [Some error]. *)
Definition run_checked (command : list pystr) (cleanup : list (list pystr)) (timeout_seconds : Z) : sys (option pystr) :=
  perform r <- run_caught command timeout_seconds in
  match r with
  | TimedOut _ err => cret (Some (repr_command command ++ u " timed out: " ++ timeout_output err))
  | Exited code _ err =>
      if (code =? 0)%Z then cret None
      else
        perform _ <- each (fun c => perform _ <- run c NAMESPACE_SMOKE_TIMEOUT_SECONDS in cret tt) cleanup in
        cret (Some (repr_command command ++ u " failed: " ++ strip err))
  end.

(** ** The server in the victim's namespace *)

Definition poll_server : sys bool := fun t => (Ok (sw_ended w t), t ++ [Polled]).
Definition wait_second : sys bool := fun t => (Ok (sw_wait w t), t ++ [Waited]).

Definition terminate_server : sys unit :=
  perform ended <- poll_server in
  if ended then cret tt
  else
    perform _ <- record Terminated in
    perform stopped <- wait_second in
    if stopped then cret tt
    else
      perform _ <- record Killed in
      perform stopped <- wait_second in
      if stopped then cret tt else clift (Raise (Exn TimeoutExpired (u "timed out after 1 seconds"))).

Definition read_line_with_timeout : sys (option pystr) := fun t => (Ok (sw_line w t), t ++ [ReadLine]).

(** [server.stderr.read() if server.poll() is not None and server.stderr else ""] *)
Definition server_stderr : sys pystr :=
  perform ended <- poll_server in
  if ended then (fun t => (Ok (sw_stderr w t), t ++ [ReadStderr])) else cret [].

(** ** Verdicts on the clients' reports *)

Definition connlimit_enforced (attempts successes failures : pyval) : bool :=
  py_eqb attempts (VInt PACKET_PROBE_CONNLIMIT_ATTEMPTS) &&
  match int_value successes, int_value failures with
  | Some s, Some f => (s <=? PACKET_PROBE_CONNLIMIT_MAX_ACCEPTED)%Z && (0 <? f)%Z
  | _, _ => false
  end.

Definition packet_result_from_client_report (client_report : pyval) : res pydict :=
  match client_report with
  | VDict d =>
      let get key := or_none (dget key d) in
      let tcp_payload := get (u "tcp_clean_connect_payload") in
      let udp_result := get (u "udp_protected_port_result") in
      let attempts := get (u "tcp_connlimit_attempts") in
      let successes := get (u "tcp_connlimit_successes") in
      let failures := get (u "tcp_connlimit_failures") in
      Ok [(u "skipped", VBool false);
          (u "tcp_clean_connect_allowed", VBool (py_eqb tcp_payload (VStr (u "ok"))));
          (u "tcp_clean_connect_payload", tcp_payload);
          (u "tcp_clean_connect_error", get (u "tcp_clean_connect_error"));
          (u "udp_protected_port_silently_dropped", VBool (py_eqb udp_result (VStr (u "timeout"))));
          (u "udp_protected_port_result", udp_result);
          (u "tcp_connlimit_enforced", VBool (connlimit_enforced attempts successes failures));
          (u "tcp_connlimit_attempts", attempts);
          (u "tcp_connlimit_successes", successes);
          (u "tcp_connlimit_failures", failures);
          (u "tcp_connlimit_failure_tail", get (u "tcp_connlimit_failure_tail"))]
  | _ => Raise (Exn AttributeError (u "object has no attribute 'get'"))
  end.

Definition hop_by_hop_result (client_report : pyval) : res pydict :=
  match client_report with
  | VDict d =>
      let get key := or_none (dget key d) in
      let sent_bytes := get (u "sent_bytes") in
      let port_unreachable_replies :=
        match get (u "icmpv6_port_unreachable_replies") with VList l => l | _ => [] end in
      Ok [(u "ipv6_hop_by_hop_udp_packet_sent", VBool match int_value sent_bytes with Some z => (0 <? z)%Z | None => false end);
          (u "ipv6_hop_by_hop_udp_sent_bytes", sent_bytes);
          (u "ipv6_hop_by_hop_udp_protected_port_silently_dropped", VBool (negb (truthy (VList port_unreachable_replies))));
          (u "ipv6_hop_by_hop_udp_icmpv6_replies", get (u "icmpv6_replies"));
          (u "ipv6_hop_by_hop_udp_port_unreachable_replies", VList port_unreachable_replies)]
  | _ => Raise (Exn AttributeError (u "object has no attribute 'get'"))
  end.

Definition prefixed_packet_report (prefix : pystr) (report : pydict) : pydict :=
  match prefix with
  | [] => report
  | _ => (fun kv => (prefix ++ u "_" ++ kv.1, kv.2)) <$> filter (fun kv => kv.1 <> u "skipped") report
  end.

(** [json.loads(stdout)]: a report, or the decoder's message (without its position) when
    it is no JSON. *)
Definition parsed (stdout : pystr) : res (pyval + pystr) :=
  match loads stdout with
  | Ok v => Ok (inl v)
  | Raise e => match exn_class e with JSONDecodeError => Ok (inr (exn_msg e)) | _ => Raise e end
  end.

(** ** The probes *)

Definition in_namespace (ip namespace : pystr) (command : list pystr) : list pystr := [ip; u "netns"; u "exec"; namespace] ++ command.

Definition family_client (ip attacker family : pystr) (timeout_seconds : Z) : sys pydict :=
  perform client <- run (in_namespace ip attacker [sw_executable w; u "-c"; packet_script PACKET_CLIENT_TEMPLATE family]) timeout_seconds in
  let '(code, out, err) := client in
  if negb (code =? 0)%Z then
    cret [(u "skipped", VBool false); (u "client_status", VInt code); (u "client_stdout", VStr (strip out)); (u "client_stderr", VStr (strip err))]
  else
    perform report <- clift (parsed out) in
    match report with
    | inr message => cret [(u "skipped", VBool false); (u "client_stdout", VStr (strip out)); (u "client_parse_error", VStr message)]
    | inl client_report => clift (packet_result_from_client_report client_report)
    end.

Definition family_server (ip attacker family : pystr) (timeout_seconds : Z) : sys pydict :=
  perform ready_line <- read_line_with_timeout in
  match ready_line with
  | None =>
      perform err <- server_stderr in
      cret [(u "skipped", VBool false); (u "server_ready_timeout", VBool true); (u "server_error", VStr (strip err))]
  | Some line =>
      if negb (str_eqb (strip line) (u "ready")) then
        perform err <- server_stderr in
        cret [(u "skipped", VBool false); (u "server_ready", VStr (strip line)); (u "server_error", VStr (strip err))]
      else family_client ip attacker family timeout_seconds
  end.

Definition run_packet_family_probe (ip victim attacker family : pystr) (timeout_seconds : Z) : sys pydict :=
  let command := in_namespace ip victim [sw_executable w; u "-u"; u "-c"; packet_script TCP_PACKET_SERVER_TEMPLATE family] in
  perform _ <- (fun t => (sw_spawn w t command, t ++ [Spawned command])) in
  finally (family_server ip attacker family timeout_seconds) terminate_server.

(** [(mac, None)] or [(None, error)] *)
Definition namespace_interface_mac (ip namespace interface : pystr) (timeout_seconds : Z) : sys (pystr + pystr) :=
  perform r <- run (in_namespace ip namespace [u "cat"; u "/sys/class/net/" ++ interface ++ u "/address"]) timeout_seconds in
  let '(code, out, err) := r in
  cret (if negb (code =? 0)%Z then inr (strip err) else inl (strip out)).

Definition run_ipv6_hop_by_hop_udp_probe (ip victim attacker victim_if attacker_if : pystr) (timeout_seconds : Z) : sys pydict :=
  perform victim_mac <- namespace_interface_mac ip victim victim_if timeout_seconds in
  match victim_mac with
  | inr error => cret [(u "ipv6_hop_by_hop_udp_mac_error", VStr error)]
  | inl victim_mac =>
      perform attacker_mac <- namespace_interface_mac ip attacker attacker_if timeout_seconds in
      match attacker_mac with
      | inr error => cret [(u "ipv6_hop_by_hop_udp_mac_error", VStr error)]
      | inl attacker_mac =>
          perform client <- run (in_namespace ip attacker
            [sw_executable w; u "-c"; ipv6_hop_by_hop_udp_script attacker_if attacker_mac victim_mac]) timeout_seconds in
          let '(code, out, err) := client in
          if negb (code =? 0)%Z then
            cret [(u "ipv6_hop_by_hop_udp_client_status", VInt code);
                  (u "ipv6_hop_by_hop_udp_client_stdout", VStr (strip out));
                  (u "ipv6_hop_by_hop_udp_client_stderr", VStr (strip err))]
          else
            perform report <- clift (parsed out) in
            match report with
            | inr message => cret [(u "ipv6_hop_by_hop_udp_client_stdout", VStr (strip out));
                                   (u "ipv6_hop_by_hop_udp_client_parse_error", VStr message)]
            | inl client_report => clift (hop_by_hop_result client_report)
            end
      end
  end.

(** [f"{z:05d}"] for a natural number *)
Definition pad5 (z : Z) : pystr := let s := dec_Z z in replicate (5 - length s) 48%N ++ s.

Definition namespace_suffix : pystr := dec_Z (sw_pid w) ++ u "x" ++ dec_Z (sw_millis w mod 100000).
Definition victim : pystr := u "apv" ++ namespace_suffix.
Definition attacker : pystr := u "apa" ++ namespace_suffix.
Definition victim_if : pystr := u "v" ++ pad5 (sw_pid w mod 100000) ++ u "v".
Definition attacker_if : pystr := u "v" ++ pad5 (sw_pid w mod 100000) ++ u "a".

Definition cleanup (ip : pystr) : list (list pystr) :=
  [[ip; u "link"; u "del"; victim_if];
   [ip; u "link"; u "del"; attacker_if];
   [ip; u "netns"; u "del"; attacker];
   [ip; u "netns"; u "del"; victim]].

Definition setup_commands (ip : pystr) : list (list pystr) :=
  [[ip; u "link"; u "add"; victim_if; u "type"; u "veth"; u "peer"; u "name"; attacker_if];
   [ip; u "link"; u "set"; victim_if; u "netns"; victim];
   [ip; u "link"; u "set"; attacker_if; u "netns"; attacker];
   [ip; u "-n"; victim; u "addr"; u "add"; u "10.230.0.1/24"; u "dev"; victim_if];
   [ip; u "-n"; attacker; u "addr"; u "add"; u "10.230.0.2/24"; u "dev"; attacker_if];
   [ip; u "-n"; victim; u "addr"; u "add"; u "fd00:230::1/64"; u "dev"; victim_if; u "nodad"];
   [ip; u "-n"; attacker; u "addr"; u "add"; u "fd00:230::2/64"; u "dev"; attacker_if; u "nodad"];
   [ip; u "-n"; victim; u "link"; u "set"; u "lo"; u "up"];
   [ip; u "-n"; attacker; u "link"; u "set"; u "lo"; u "up"];
   [ip; u "-n"; victim; u "link"; u "set"; victim_if; u "up"];
   [ip; u "-n"; attacker; u "link"; u "set"; attacker_if; u "up"];
   [ip; u "netns"; u "exec"; victim; command_or (u "nft"); u "-f"; sw_resolved w]].

(** [for command in commands: ok, error = run_checked(...); if not ok: return ...] *)
Fixpoint first_failure (ip : pystr) (timeout_seconds : Z) (commands : list (list pystr)) : sys (option pystr) :=
  match commands with
  | [] => cret None
  | command :: rest =>
      perform error <- run_checked command (cleanup ip) timeout_seconds in
      match error with Some _ => cret error | None => first_failure ip timeout_seconds rest end
  end.

Definition run_cleanup (ip : pystr) : sys unit :=
  each (fun command => perform _ <- run command NAMESPACE_SMOKE_TIMEOUT_SECONDS in cret tt) (cleanup ip).

Definition packet_probe_body (ip : pystr) (timeout_seconds : Z) : sys pydict :=
  perform added <- first_failure ip timeout_seconds [[ip; u "netns"; u "add"; victim]; [ip; u "netns"; u "add"; attacker]] in
  match added with
  | Some error => cret [(u "skipped", VBool true); (u "reason", VStr error)]
  | None =>
      perform set_up <- first_failure ip timeout_seconds (setup_commands ip) in
      match set_up with
      | Some error => cret [(u "skipped", VBool false); (u "setup_error", VStr error)]
      | None =>
          perform ipv4 <- run_packet_family_probe ip victim attacker (u "ipv4") timeout_seconds in
          perform ipv6 <- run_packet_family_probe ip victim attacker (u "ipv6") timeout_seconds in
          perform hop <- run_ipv6_hop_by_hop_udp_probe ip victim attacker victim_if attacker_if timeout_seconds in
          cret (dupdate (dupdate (dupdate [(u "skipped", VBool false)] (prefixed_packet_report [] ipv4))
                                 (prefixed_packet_report (u "ipv6") ipv6)) hop)
      end
  end.

Definition run_packet_probe (timeout_seconds : Z) : sys pydict :=
  let ip := command_or (u "ip") in
  finally (packet_probe_body ip timeout_seconds) (run_cleanup ip).

(** ** The report *)

Definition with_provenance (report : pydict) : pydict :=
  dupdate [(u "generated_at_utc", VStr (generated_at_utc (sw_now w)));
           (u "source_tree", VDict (source_tree_metadata (sw_git w) (sw_cwd w)))] report.
End smoke.

Definition required_true : list pystr :=
  [u "nft_loaded"; u "listed_edge_table"; u "protected_tcp_ports_present"; u "tcp4_connlimit_present"; u "tcp6_connlimit_present";
   u "syn_rate_sets_timeout_bounded"; u "tcp_invalid_null_drop_present"; u "tcp_invalid_xmas_drop_present";
   u "tcp4_syn_backstop_present"; u "ipv6_prefix_syn_backstop_present"; u "global_syn_backstop_present"; u "ct_invalid_drop_present";
   u "new_non_syn_drop_present"; u "tcp4_connlimit_rule_present"; u "ipv6_prefix_connlimit_present"; u "tcp6_connlimit_rule_present";
   u "udp_protected_port_drop_present"; u "udp_protected_port_drop_extension_safe_source"; u "icmpv4_control_exemption_present";
   u "icmpv4_flood_drop_present"; u "icmpv6_control_exemption_present"; u "icmpv6_flood_drop_present"].

Definition packet_required : list pystr :=
  [u "tcp_clean_connect_allowed"; u "udp_protected_port_silently_dropped"; u "tcp_connlimit_enforced";
   u "ipv6_tcp_clean_connect_allowed"; u "ipv6_udp_protected_port_silently_dropped"; u "ipv6_tcp_connlimit_enforced";
   u "ipv6_hop_by_hop_udp_packet_sent"; u "ipv6_hop_by_hop_udp_protected_port_silently_dropped"].

(** [report.get(key) is not True] *)
Definition flag_errors (prefix : pystr) (report : pydict) (key : pystr) : list pystr :=
  match or_none (dget key report) with
  | VBool true => []
  | v => [prefix ++ key ++ u ": expected true, found " ++ py_repr v]
  end.

Definition packet_probe_errors (require_packet_probe : bool) (packet_probe : pyval) : list pystr :=
  match packet_probe with
  | VDict d =>
      if truthy (or_none (dget (u "skipped") d)) then
        if require_packet_probe then [u "packet probe skipped: " ++ py_repr (or_none (dget (u "reason") d))] else []
      else mjoin (flag_errors (u "packet_probe.") d <$> packet_required)
  | _ => if require_packet_probe then [u "packet probe required but report missing packet_probe object"] else []
  end.

Definition assert_smoke_result (report : pydict) (require_provenance require_packet_probe : bool) : list pystr :=
  let errors := if require_provenance then provenance_errors report else [] in
  if truthy (or_none (dget (u "skipped") report)) then
    errors ++ (if require_packet_probe then [u "packet probe required but edge namespace smoke was skipped"] else [])
  else
    errors ++ mjoin (flag_errors [] report <$> required_true) ++
    packet_probe_errors require_packet_probe (or_none (dget (u "packet_probe") report)).

Definition skip_report (missing : list pystr) : pydict :=
  [(u "skipped", VBool true); (u "missing_prerequisites", texts_value missing);
   (u "reason", VStr (u "edge namespace smoke requires Linux plus nft, unshare, and ip"))].

(** ** [main] *)

Record smoke_args := SmokeArgs {
  sa_nft : pystr;                  (** as [str(Path(args.nft))] *)
  sa_require : bool;
  sa_require_provenance : bool;
  sa_packet_probe : bool;
  sa_require_packet_probe : bool }.

(** Exit status, the printed report and the lines on standard error. *)
Record smoke_exit := SmokeExit { se_status : Z; se_report : pydict; se_errors : list pystr }.

Definition printed_report (e : smoke_exit) : pystr := dumps pretty_style (VDict (se_report e)).

Definition verdict (a : smoke_args) (report : pydict) : smoke_exit :=
  let errors := assert_smoke_result report (sa_require_provenance a) (sa_require_packet_probe a) in
  SmokeExit (match errors with [] => 0 | _ => 1 end) report errors.

Definition smoke_main (w : smoke_world) (a : smoke_args) : sys smoke_exit :=
  if negb (sw_nft_exists w) then
    cret (SmokeExit 1 (with_provenance w [(u "skipped", VBool false); (u "error", VStr (u "missing nft template: " ++ sa_nft a))]) [])
  else
    match missing_prerequisites w with
    | (_ :: _) as missing =>
        let e := verdict a (with_provenance w (skip_report missing)) in
        cret (if (se_status e =? 0)%Z && sa_require a then SmokeExit 1 (se_report e) [] else e)
    | [] =>
        perform smoke <- run_namespace_smoke w NAMESPACE_SMOKE_TIMEOUT_SECONDS in
        let report := with_provenance w smoke in
        if sa_packet_probe a || sa_require_packet_probe a then
          perform packet <- run_packet_probe w NAMESPACE_SMOKE_TIMEOUT_SECONDS in
          cret (verdict a (dset (u "packet_probe") (VDict packet) report))
        else cret (verdict a report)
    end.
