(* ===== verification/Sanitize.v ===== *)
(** * Sanitize: filter-rule hygiene of CodexSDGate

    [tools/codex_analyzer.py]: the constants, [safe_id], the bounds on matcher
    values and time-to-live, [sanitize_filter] and [filter_key].  Whatever a
    provider, the event log or an existing filter file holds, a rule leaves this
    component in one normal form ([clean_rule]). *)

From Stdlib Require Import SpecFloat.
From S2P Require Import Prelude Unicode PyStr PyFloat PyVal.

(** ** Constants *)

Definition FILTER_TTL_MAX_SECONDS : Z := 24 * 60 * 60.
Definition FILTER_RULE_ID_MAX_BYTES : nat := 96.
Definition FILTER_MATCH_VALUE_MAX_BYTES : nat := 512.
Definition FILTER_HEADER_NAME_MAX_BYTES : nat := 64.
Definition FILTER_HEADER_CONTAINS_MAX_BYTES : nat := 256.

Definition in_char_range (a b c : N) : bool := (a <=? c)%N && (c <=? b)%N.
Definition is_ascii_alnum (c : N) : bool :=
  in_char_range 97 122 c || in_char_range 65 90 c || in_char_range 48 57 c.

(** The class kept by [SAFE_ID]: [[a-zA-Z0-9_.:-]]. *)
Definition safe_char (c : N) : bool :=
  is_ascii_alnum c || existsb (N.eqb c) (u "_.:-").

(** [HTTP_TOKEN]: [[-!#$%&'*+.^_`|~0-9A-Za-z]+]. *)
Definition token_char (c : N) : bool :=
  is_ascii_alnum c || existsb (N.eqb c) (u "-!#$%&'*+.^_`|~").

(** [[0-9a-f]] *)
Definition lower_hex (c : N) : bool := in_char_range 48 57 c || in_char_range 97 102 c.

(** [SUPPORTED_SIGNATURE.fullmatch(value)] *)
Definition is_supported_signature (value : pystr) : bool :=
  forallb lower_hex value && ((length value =? 16) || (length value =? 32)).

Definition is_http_header_name (value : pystr) : bool :=
  (0 <? length value) && (length value <=? FILTER_HEADER_NAME_MAX_BYTES) && forallb token_char value.

Definition bounded_utf8 (value : pystr) (max_bytes : nat) : res bool :=
  let* n := utf8_len value in Ok ((0 <? n) && (n <=? max_bytes)).

(** ** Identifiers *)

(** [SAFE_ID.sub("-", value)]: each maximal run of unsafe characters becomes one
    dash. *)
Fixpoint safe_sub (in_run : bool) (s : pystr) : pystr :=
  match s with
  | [] => []
  | c :: t =>
      if safe_char c then c :: safe_sub false t
      else if in_run then safe_sub true t else 45%N :: safe_sub true t
  end.

Definition is_dash : N -> bool := chr_is 45.

Definition safe_id (value : pystr) : pystr :=
  match strip_by is_dash (take FILTER_RULE_ID_MAX_BYTES (safe_sub false value)) with
  | [] => u "codex-learned-filter"
  | s => s
  end.

(** ** Time to live *)

Definition bounded_ttl_seconds (value : pyval) (fallback : Z) : res Z :=
  let* ttl := try_except (py_int value)
          (fun e => bool_decide (exn_class e = TypeError) || is_value_error e)
          (fun _ => Ok fallback) in
  let ttl := if (ttl <=? 0)%Z then fallback else ttl in
  let ttl := if (ttl <=? 0)%Z then 60%Z else ttl in
  Ok (Z.max 1 (Z.min ttl FILTER_TTL_MAX_SECONDS)).

(** ** Conditions *)

Definition STRING_MATCHERS : list pystr :=
  [u "signature"; u "path_exact"; u "path_prefix"; u "path_contains"; u "path_shape";
   u "query_contains"; u "user_agent_contains"].

Definition ALLOWED_METHODS : list pystr :=
  [u "GET"; u "POST"; u "PUT"; u "PATCH"; u "DELETE"; u "HEAD"; u "OPTIONS"].

(** Does the loop over the string matchers keep [condition[key]]? *)
Definition keeps_matcher (key : pystr) (value : pyval) : res bool :=
  match value with
  | VStr s =>
      let* b := bounded_utf8 s FILTER_MATCH_VALUE_MAX_BYTES in
      if negb b then Ok false
      else if str_eqb key (u "path_prefix") && (str_eqb s [] || str_eqb s (u "/")) then Ok false
      else if str_eqb key (u "signature") && negb (is_supported_signature s) then Ok false
      else Ok true
  | _ => Ok false
  end.

Definition keep_matcher (condition clean : pydict) (key : pystr) : res pydict :=
  let value := or_none (dget key condition) in
  let* keep := keeps_matcher key value in
  Ok (if keep then dset key value clean else clean).

Definition clean_methods (methods : list pyval) : list pyval :=
  let names : list pystr := (fun m => upper (py_str m)) <$> methods in
  take 8 (VStr <$> filter (fun m => m ∈ ALLOWED_METHODS) names).

Definition clean_header (clean : list pyval) (header : pyval) : res (list pyval) :=
  match header with
  | VDict h =>
      match or_none (dget (u "name") h), or_none (dget (u "contains") h) with
      | VStr name, VStr contains =>
          if is_http_header_name name then
            let* b := bounded_utf8 contains FILTER_HEADER_CONTAINS_MAX_BYTES in
            Ok (if b then clean ++ [VDict [(u "name", VStr (take FILTER_HEADER_NAME_MAX_BYTES name));
                                          (u "contains", VStr contains)]]
                else clean)
          else Ok clean
      | _, _ => Ok clean
      end
  | _ => Ok clean
  end.

(** The condition part of [sanitize_filter]. *)
Definition sanitize_condition (condition : pydict) : res pydict :=
  let* clean := foldM (keep_matcher condition) [] STRING_MATCHERS in
  let clean :=
    match or_none (dget (u "methods") condition) with
    | VList methods =>
        match clean_methods methods with
        | [] => clean
        | ms => dset (u "methods") (VList ms) clean
        end
    | _ => clean
    end in
  match or_none (dget (u "headers") condition) with
  | VList headers =>
      let* hs := foldM clean_header [] (take 8 headers) in
      Ok match hs with [] => clean | _ => dset (u "headers") (VList hs) clean end
  | _ => Ok clean
  end.

(** ** Rules *)

Definition block_action : pyval :=
  VDict [(u "kind", VStr (u "block")); (u "status", VInt 403);
         (u "body", VStr (u "blocked by adaptive filter" ++ [10%N]))].

(** The dict [sanitize_filter] returns. *)
Definition mk_rule (id : pystr) (enabled : bool) (priority ttl : Z) (condition : pydict) : pydict :=
  [(u "id", VStr id); (u "enabled", VBool enabled); (u "adaptive", VBool true);
   (u "priority", VInt priority); (u "ttl_seconds", VInt ttl);
   (u "condition", VDict condition); (u "action", block_action)].

Definition sanitize_filter (item : pydict) (ttl_seconds : Z) : res pydict :=
  let* ttl := bounded_ttl_seconds (or_none (dget (u "ttl_seconds") item)) ttl_seconds in
  let condition := match or_none (dget (u "condition") item) with VDict c => c | _ => [] end in
  let* clean := sanitize_condition condition in
  let signature :=
    match dget (u "signature") clean with Some v => py_str v | None => u "custom" end in
  let raw_id := or_none (dget (u "id") item) in
  let id := safe_id (if truthy raw_id then py_str raw_id else u "codex-learned-" ++ signature) in
  let enabled := truthy (default (VBool true) (dget (u "enabled") item)) in
  let* priority := py_int (default (VInt 100) (dget (u "priority") item)) in
  Ok (mk_rule id enabled priority ttl clean).

Definition filter_has_matcher (item : pydict) : bool :=
  match or_none (dget (u "condition") item) with VDict c => truthy (VDict c) | _ => false end.

Fixpoint dicts (l : list pyval) : list pydict :=
  match l with
  | [] => []
  | VDict d :: t => d :: dicts t
  | _ :: t => dicts t
  end.

Definition sanitized_filter_list (filters : list pyval) (ttl_seconds : Z) : res (list pydict) :=
  let* cleaned := mapR (fun item => sanitize_filter item ttl_seconds) (dicts filters) in
  Ok (filter (fun item : pydict => filter_has_matcher item) cleaned).

Definition filter_key (item : pydict) : pystr :=
  let by_id := u "id:" ++ py_str (default (VStr []) (dget (u "id") item)) in
  match default (VDict []) (dget (u "condition") item) with
  | VDict condition =>
      match or_none (dget (u "signature") condition), or_none (dget (u "path_shape") condition) with
      | VStr s, _ => u "signature:" ++ s
      | _, VStr s => u "path_shape:" ++ s
      | _, _ => by_id
      end
  | _ => by_id
  end.

(** ** Identifiers are safe, bounded and stable *)

(** What the proxy requires of a rule id that it echoes in a response header. *)
Definition clean_id (i : pystr) : Prop :=
  i <> [] /\ length i <= FILTER_RULE_ID_MAX_BYTES /\
  Forall (fun c => safe_char c = true) i /\ stripped is_dash i.

Lemma safe_sub_safe b s : Forall (fun c => safe_char c = true) (safe_sub b s).
Proof.
  revert b. induction s as [|c s IH]; intros b; cbn; [done|].
  destruct (safe_char c) eqn:E; [by constructor|].
  destruct b; [done|]. by constructor.
Qed.

Lemma safe_sub_id b s : Forall (fun c => safe_char c = true) s -> safe_sub b s = s.
Proof.
  intros H. revert b. induction H as [|c s Hc _ IH]; intros b; cbn; [done|].
  by rewrite Hc, IH.
Qed.

Lemma clean_id_default : clean_id (u "codex-learned-filter").
Proof.
  unfold clean_id. split; [done|]. split; [vm_compute; lia|]. split; [|done].
  apply Forall_forall. intros x Hx. revert x Hx. apply Forall_forall.
  repeat constructor.
Qed.

Lemma safe_id_clean v : clean_id (safe_id v).
Proof.
  unfold safe_id.
  set (w := take FILTER_RULE_ID_MAX_BYTES (safe_sub false v)).
  assert (Hs : Forall (fun c => safe_char c = true) w).
  { apply Forall_take, safe_sub_safe. }
  pose proof (strip_by_stripped is_dash w) as Hstr.
  pose proof (strip_by_Forall is_dash _ _ Hs) as Hsafe.
  pose proof (strip_by_length is_dash w) as Hlen.
  destruct (strip_by is_dash w) as [|c r] eqn:E; [apply clean_id_default|].
  unfold clean_id. split; [done|]. split; [|done].
  assert (length w <= FILTER_RULE_ID_MAX_BYTES) by (unfold w; rewrite length_take; lia). lia.
Qed.

Lemma safe_id_fix i : clean_id i -> safe_id i = i.
Proof.
  intros (Hne & Hlen & Hs & Hstr). unfold safe_id.
  rewrite safe_sub_id, take_ge, strip_by_id by done. by destruct i.
Qed.

(** Safe characters are ASCII, so the id bound is a byte bound. *)
Lemma safe_char_ascii c : safe_char c = true -> (c < 128)%N.
Proof.
  unfold safe_char, is_ascii_alnum, in_char_range. cbn [existsb u].
  rewrite !orb_true_iff, !andb_true_iff, !N.leb_le.
  intros [[[[? ?]|[? ?]]|[? ?]]|H]; try lia.
  apply existsb_exists in H as (x & Hx & ->%N.eqb_eq).
  apply list_elem_of_In in Hx. revert x Hx. apply Forall_forall. repeat constructor; done.
Qed.

Lemma clean_id_bytes i : clean_id i -> exists n, utf8_len i = Ok n /\ n <= FILTER_RULE_ID_MAX_BYTES.
Proof.
  intros (_ & Hlen & Hs & _). exists (length i). split; [|done].
  apply utf8_len_ascii. eapply Forall_impl; [exact Hs|]. apply safe_char_ascii.
Qed.

(** ** Time to live *)

Lemma bounded_ttl_range v fb t :
  bounded_ttl_seconds v fb = Ok t -> (1 <= t <= FILTER_TTL_MAX_SECONDS)%Z.
Proof.
  unfold bounded_ttl_seconds, FILTER_TTL_MAX_SECONDS. intros H. inv_ok. lia.
Qed.

Lemma bounded_ttl_fix t fb :
  (1 <= t <= FILTER_TTL_MAX_SECONDS)%Z -> bounded_ttl_seconds (VInt t) fb = Ok t.
Proof.
  intros H. unfold bounded_ttl_seconds. cbn.
  rewrite (proj2 (Z.leb_gt t 0)) by lia. rewrite (proj2 (Z.leb_gt t 0)) by lia.
  f_equal. lia.
Qed.

(** ** Conditions *)

Definition kept (condition : pydict) (key : pystr) : bool :=
  match keeps_matcher key (or_none (dget key condition)) with Ok b => b | Raise _ => false end.

Definition picked (condition : pydict) (keys : list pystr) : pydict :=
  (fun k => (k, or_none (dget k condition))) <$> filter (fun k => kept condition k) keys.

Definition matchers_decided (condition : pydict) (keys : list pystr) : Prop :=
  Forall (fun k => is_ok (keeps_matcher k (or_none (dget k condition))) = true) keys.

Lemma picked_keys condition keys : dkeys (picked condition keys) = filter (fun k => kept condition k) keys.
Proof.
  unfold dkeys, picked. rewrite <-list_fmap_compose.
  rewrite (list_fmap_ext _ id) by done. apply list_fmap_id.
Qed.

Lemma foldM_keep_matcher condition acc keys d :
  NoDup keys -> (forall k, k ∈ keys -> k ∉ dkeys acc) ->
  foldM (keep_matcher condition) acc keys = Ok d <->
  matchers_decided condition keys /\ d = acc ++ picked condition keys.
Proof.
  revert acc. induction keys as [|k keys IH]; intros acc Hnd Hdis; cbn [foldM].
  { unfold picked; cbn. rewrite app_nil_r. unfold matchers_decided. naive_solver. }
  apply NoDup_cons in Hnd as [Hk Hnd].
  unfold keep_matcher at 1, matchers_decided, picked. rewrite Forall_cons.
  destruct (keeps_matcher k (or_none (dget k condition))) as [b|e] eqn:E;
    cbn [rbind is_ok]; [|split; [done|]; naive_solver].
  assert (kept condition k = b) as Hkept by (unfold kept; by rewrite E).
  rewrite filter_cons, Hkept. destruct b; cbn [decide].
  - rewrite IH; [|done|].
    + rewrite dset_not_mem by (apply Hdis, elem_of_cons; auto).
      rewrite <-app_assoc. unfold matchers_decided, picked. naive_solver.
    + intros k' Hk'. rewrite dset_not_mem by (apply Hdis, elem_of_cons; auto).
      unfold dkeys. rewrite fmap_app, not_elem_of_app. cbn. split; [apply Hdis, elem_of_cons; auto|].
      rewrite list_elem_of_singleton. by intros ->.
  - rewrite IH; [|done|].
    + unfold matchers_decided, picked. naive_solver.
    + intros k' Hk'. apply Hdis, elem_of_cons; auto.
Qed.

Lemma dget_app {A} k (d1 d2 : list (pystr * A)) :
  dget k (d1 ++ d2) = match dget k d1 with Some v => Some v | None => dget k d2 end.
Proof. induction d1 as [|[k' v] d1 IH]; cbn; [done|]. by destruct (str_eqb k k'). Qed.

Lemma dget_picked condition keys k :
  k ∈ keys -> NoDup keys ->
  dget k (picked condition keys) =
  if kept condition k then Some (or_none (dget k condition)) else None.
Proof.
  intros Hk Hnd. destruct (kept condition k) eqn:E.
  - apply dget_In.
    + unfold dict_ok. rewrite picked_keys. by apply NoDup_filter.
    + unfold picked. apply list_elem_of_fmap. exists k. split; [done|].
      apply list_elem_of_filter. rewrite E. done.
  - apply dget_None. rewrite picked_keys, list_elem_of_filter, E. naive_solver.
Qed.

Lemma STRING_MATCHERS_NoDup : NoDup STRING_MATCHERS.
Proof. apply (bool_decide_unpack _). vm_compute. exact I. Qed.

Lemma methods_not_matcher : u "methods" ∉ STRING_MATCHERS.
Proof. apply (bool_decide_unpack _). vm_compute. exact I. Qed.

Lemma headers_not_matcher : u "headers" ∉ STRING_MATCHERS.
Proof. apply (bool_decide_unpack _). vm_compute. exact I. Qed.

(** A header matcher in normal form. *)
Definition header_matcher (h : pyval) : Prop :=
  exists name contains,
    h = VDict [(u "name", VStr name); (u "contains", VStr contains)] /\
    is_http_header_name name = true /\
    bounded_utf8 contains FILTER_HEADER_CONTAINS_MAX_BYTES = Ok true.

Lemma header_name_take name :
  is_http_header_name name = true -> take FILTER_HEADER_NAME_MAX_BYTES name = name.
Proof. unfold is_http_header_name. intros H. bool_prop. apply take_ge. by apply Nat.leb_le. Qed.

Lemma clean_header_step acc h acc' :
  clean_header acc h = Ok acc' ->
  acc' = acc \/ exists m, acc' = acc ++ [m] /\ header_matcher m.
Proof.
  unfold clean_header. intros H. repeat case_match; inv_ok; auto.
  destruct r; [right|by left]. eexists. split; [done|].
  rewrite header_name_take by done. unfold header_matcher. eauto.
Qed.

Lemma clean_headers_ok acc l hs :
  foldM clean_header acc l = Ok hs ->
  exists ext, hs = acc ++ ext /\ length ext <= length l /\ Forall header_matcher ext.
Proof.
  revert acc. induction l as [|h l IH]; intros acc H; cbn in H.
  - inv_ok. exists []. rewrite app_nil_r. cbn. auto.
  - inv_ok. apply IH in H as (ext & -> & Hlen & Hext).
    apply clean_header_step in E as [->|(m & -> & Hm)].
    + exists ext. cbn. auto with lia.
    + exists (m :: ext). rewrite <-app_assoc. cbn. auto with lia.
Qed.

Lemma clean_header_fix acc h : header_matcher h -> clean_header acc h = Ok (acc ++ [h]).
Proof.
  intros (name & contains & -> & Hn & Hc). unfold clean_header.
  change (dget (u "name") _) with (Some (VStr name)).
  change (dget (u "contains") _) with (Some (VStr contains)). cbn [or_none default from_option id].
  by rewrite Hn, Hc, header_name_take.
Qed.

Lemma clean_headers_fix acc hs :
  Forall header_matcher hs -> foldM clean_header acc hs = Ok (acc ++ hs).
Proof.
  intros H. revert acc. induction H as [|h hs Hh _ IH]; intros acc; cbn.
  - by rewrite app_nil_r.
  - rewrite clean_header_fix by done. cbn. by rewrite IH, <-app_assoc.
Qed.

Lemma allowed_method_upper m : m ∈ ALLOWED_METHODS -> upper m = m.
Proof. revert m. rewrite <-Forall_forall. repeat constructor. Qed.

Definition method_names (ms : list pyval) : Prop :=
  ms <> [] /\ length ms <= 8 /\ exists names, ms = VStr <$> names /\ Forall (fun m => m ∈ ALLOWED_METHODS) names.

Lemma clean_methods_ok l : clean_methods l = [] \/ method_names (clean_methods l).
Proof.
  unfold clean_methods, method_names.
  set (names := filter _ _).
  assert (Forall (fun m => m ∈ ALLOWED_METHODS) (take 8 names)) as Hn.
  { apply Forall_take, Forall_forall. intros x Hx. by apply list_elem_of_filter in Hx as [? _]. }
  rewrite <-fmap_take. destruct (take 8 names) as [|n ns] eqn:E; [by left|right].
  split; [done|]. split; [|eauto].
  rewrite length_fmap, <-E, length_take. lia.
Qed.

Lemma clean_methods_fix ms : method_names ms -> clean_methods ms = ms.
Proof.
  intros (_ & Hlen & names & -> & Hn). unfold clean_methods.
  rewrite <-list_fmap_compose. cbn [py_str compose].
  rewrite (list_fmap_ext _ id).
  2:{ intros i x Hx. cbn. apply allowed_method_upper.
      rewrite Forall_forall in Hn. apply Hn. by eapply list_elem_of_lookup_2. }
  rewrite list_fmap_id, filter_all by done.
  rewrite length_fmap in Hlen. by rewrite take_ge by (rewrite length_fmap; lia).
Qed.

(** The optional ["methods"] and ["headers"] entries of a clean condition. *)
Definition methods_part (ms : list pyval) : pydict :=
  match ms with [] => [] | _ => [(u "methods", VList ms)] end.
Definition headers_part (hs : list pyval) : pydict :=
  match hs with [] => [] | _ => [(u "headers", VList hs)] end.

(** A condition in normal form: kept string matchers in source order, then
    methods, then headers. *)
Definition clean_condition (c : pydict) : Prop :=
  exists src ms hs,
    c = picked src STRING_MATCHERS ++ methods_part ms ++ headers_part hs /\
    (ms = [] \/ method_names ms) /\
    length hs <= 8 /\ Forall header_matcher hs.

Lemma methods_part_keys ms : dkeys (methods_part ms) ⊆ [u "methods"].
Proof. destruct ms; cbn; set_solver. Qed.
Lemma headers_part_keys hs : dkeys (headers_part hs) ⊆ [u "headers"].
Proof. destruct hs; cbn; set_solver. Qed.

Lemma picked_not_key src k : k ∉ STRING_MATCHERS -> dget k (picked src STRING_MATCHERS) = None.
Proof. intros H. apply dget_None. rewrite picked_keys, list_elem_of_filter. naive_solver. Qed.

Lemma sanitize_condition_clean c c' : sanitize_condition c = Ok c' -> clean_condition c'.
Proof.
  unfold sanitize_condition, clean_condition. intros H. inv_ok.
  apply foldM_keep_matcher in E as [_ ->]; [|apply STRING_MATCHERS_NoDup|intros; apply not_elem_of_nil].
  rewrite app_nil_l in H.
  set (ms := match or_none (dget (u "methods") c) with VList l => clean_methods l | _ => [] end).
  assert (Hms : ms = [] \/ method_names ms).
  { unfold ms. destruct (or_none (dget (u "methods") c)); auto. apply clean_methods_ok. }
  match type of H with context [match or_none (dget (u "methods") c) with _ => _ end] =>
    set (d := match or_none (dget (u "methods") c) with VList _ => _ | _ => _ end) in H end.
  assert (Hd : d = picked c STRING_MATCHERS ++ methods_part ms).
  { unfold d, ms, methods_part.
    destruct (or_none (dget (u "methods") c)); rewrite ?app_nil_r; try done.
    destruct (clean_methods l) eqn:E; [by rewrite app_nil_r|].
    apply dset_not_mem. rewrite picked_keys, list_elem_of_filter.
    intros [_ Hin]. by apply methods_not_matcher. }
  destruct (or_none (dget (u "headers") c)); inv_ok;
    try solve [exists c, ms, []; rewrite app_nil_r; split; [done|]; split; [done|]; split; [apply Nat.le_0_l|done]].
  apply clean_headers_ok in E as (hs & -> & Hlen & Hhs). rewrite length_take in Hlen.
  exists c, ms, hs. rewrite app_nil_l. split; [|auto with lia].
  rewrite Hd. destruct hs; [by rewrite app_nil_r|]. cbn [headers_part].
  rewrite dset_not_mem; [by rewrite <-app_assoc|].
  unfold dkeys. rewrite fmap_app, not_elem_of_app. split.
  - change (u "headers" ∉ dkeys (picked c STRING_MATCHERS)). rewrite picked_keys, list_elem_of_filter.
    intros [_ Hin]. by apply headers_not_matcher.
  - intros Hin. apply methods_part_keys in Hin. by apply list_elem_of_singleton in Hin.
Qed.

Lemma clean_condition_get_matcher src ms hs k :
  k ∈ STRING_MATCHERS ->
  dget k (picked src STRING_MATCHERS ++ methods_part ms ++ headers_part hs) =
  if kept src k then Some (or_none (dget k src)) else None.
Proof.
  intros Hk. rewrite !dget_app, dget_picked by (done || apply STRING_MATCHERS_NoDup).
  destruct (kept src k); [done|].
  rewrite (proj2 (dget_None k (methods_part ms))).
  - apply dget_None. intros Hin%headers_part_keys%list_elem_of_singleton. subst. by apply headers_not_matcher.
  - intros Hin%methods_part_keys%list_elem_of_singleton. subst. by apply methods_not_matcher.
Qed.

Lemma kept_decided src k : kept src k = true -> keeps_matcher k (or_none (dget k src)) = Ok true.
Proof. unfold kept. by destruct (keeps_matcher _ _) as [[]|]. Qed.

Lemma kept_again src ms hs k :
  k ∈ STRING_MATCHERS ->
  let c := picked src STRING_MATCHERS ++ methods_part ms ++ headers_part hs in
  keeps_matcher k (or_none (dget k c)) = Ok (kept src k) /\
  (kept src k = true -> or_none (dget k c) = or_none (dget k src)).
Proof.
  intros Hk c. unfold c. rewrite clean_condition_get_matcher by done.
  destruct (kept src k) eqn:E; cbn [or_none default from_option id]; [|done].
  by split; [apply kept_decided|].
Qed.

Lemma picked_again src ms hs :
  let c := picked src STRING_MATCHERS ++ methods_part ms ++ headers_part hs in
  matchers_decided c STRING_MATCHERS /\ picked c STRING_MATCHERS = picked src STRING_MATCHERS.
Proof.
  intros c. split.
  - apply Forall_forall. intros k Hk. unfold c. by rewrite (proj1 (kept_again src ms hs k Hk)).
  - assert (Hkept : forall k, k ∈ STRING_MATCHERS -> kept c k = kept src k).
    { intros k Hk. unfold kept at 1, c. by rewrite (proj1 (kept_again src ms hs k Hk)). }
    unfold picked.
    assert (Hf : filter (fun k => kept c k) STRING_MATCHERS = filter (fun k => kept src k) STRING_MATCHERS).
    { revert Hkept. generalize STRING_MATCHERS as l. induction l as [|k l IH]; intros Hl; [done|].
      rewrite !filter_cons, Hl by (apply elem_of_cons; auto).
      rewrite IH; [done|]. intros k' ?. apply Hl, elem_of_cons; auto. }
    rewrite Hf. apply list_fmap_ext. intros i k Hi.
    apply list_elem_of_lookup_2, list_elem_of_filter in Hi as [Hk Hin].
    f_equal. apply (kept_again src ms hs k Hin). by destruct (kept src k).
Qed.

Lemma get_methods_part src ms hs :
  dget (u "methods") (picked src STRING_MATCHERS ++ methods_part ms ++ headers_part hs) =
  match ms with [] => None | _ => Some (VList ms) end.
Proof.
  rewrite !dget_app, picked_not_key by apply methods_not_matcher.
  destruct ms; [|done]. by destruct hs.
Qed.

Lemma get_headers_part src ms hs :
  dget (u "headers") (picked src STRING_MATCHERS ++ methods_part ms ++ headers_part hs) =
  match hs with [] => None | _ => Some (VList hs) end.
Proof.
  rewrite !dget_app, picked_not_key by apply headers_not_matcher.
  destruct ms; by destruct hs.
Qed.

Lemma sanitize_condition_fix c : clean_condition c -> sanitize_condition c = Ok c.
Proof.
  intros (src & ms & hs & -> & Hms & Hlen & Hhs). unfold sanitize_condition.
  destruct (picked_again src ms hs) as [Hdec Hpick].
  rewrite (proj2 (foldM_keep_matcher _ [] STRING_MATCHERS _ STRING_MATCHERS_NoDup
                    (fun _ _ => not_elem_of_nil _)) (conj Hdec eq_refl)).
  cbn [rbind]. rewrite app_nil_l, Hpick, get_methods_part, get_headers_part.
  assert (Hm : match or_none (match ms with [] => None | _ => Some (VList ms) end) with
               | VList l => match clean_methods l with
                            | [] => picked src STRING_MATCHERS
                            | m :: l' => dset (u "methods") (VList (m :: l')) (picked src STRING_MATCHERS)
                            end
               | _ => picked src STRING_MATCHERS
               end = picked src STRING_MATCHERS ++ methods_part ms).
  { destruct Hms as [->|Hms]; [by rewrite app_nil_r|].
    destruct ms as [|m ms]; [by rewrite app_nil_r|]. cbn [or_none default from_option id].
    rewrite clean_methods_fix by done. apply dset_not_mem.
    rewrite picked_keys, list_elem_of_filter. intros [_ Hin]. by apply methods_not_matcher. }
  rewrite Hm. destruct hs as [|h hs]; cbn [or_none default from_option id headers_part].
  { by rewrite app_nil_r. }
  rewrite take_ge by done. rewrite clean_headers_fix by done. cbn [rbind]. rewrite app_nil_l.
  rewrite dset_not_mem; [by rewrite <-app_assoc|].
  apply dget_None. rewrite dget_app, picked_not_key by apply headers_not_matcher. by destruct ms.
Qed.

(** ** Rules *)

(** The normal form of a learned rule. *)
Definition clean_rule (r : pydict) : Prop :=
  exists id enabled priority ttl c,
    r = mk_rule id enabled priority ttl c /\ clean_id id /\
    (1 <= ttl <= FILTER_TTL_MAX_SECONDS)%Z /\ clean_condition c.

Section rule_fields.
Context (id : pystr) (en : bool) (pr ttl : Z) (c : pydict).
Let r := mk_rule id en pr ttl c.
Lemma rule_id : dget (u "id") r = Some (VStr id). Proof. reflexivity. Qed.
Lemma rule_enabled : dget (u "enabled") r = Some (VBool en). Proof. reflexivity. Qed.
Lemma rule_priority : dget (u "priority") r = Some (VInt pr). Proof. reflexivity. Qed.
Lemma rule_ttl : dget (u "ttl_seconds") r = Some (VInt ttl). Proof. reflexivity. Qed.
Lemma rule_condition : dget (u "condition") r = Some (VDict c). Proof. reflexivity. Qed.
End rule_fields.

Lemma sanitize_filter_clean item ttl r : sanitize_filter item ttl = Ok r -> clean_rule r.
Proof.
  unfold sanitize_filter. intros H. inv_ok. eexists _, _, _, _, _. split; [done|].
  split; [apply safe_id_clean|]. split; [by eapply bounded_ttl_range|].
  by eapply sanitize_condition_clean.
Qed.

Lemma sanitize_filter_fix r ttl : clean_rule r -> sanitize_filter r ttl = Ok r.
Proof.
  intros (i & en & pr & t & c & -> & Hid & Ht & Hc). unfold sanitize_filter.
  rewrite rule_ttl, rule_condition, rule_id, rule_enabled, rule_priority.
  cbn [or_none default from_option id]. rewrite bounded_ttl_fix by done. cbn [rbind].
  rewrite sanitize_condition_fix by done. cbn [rbind py_int truthy].
  destruct i as [|i0 i]; [by destruct Hid|]. cbn [py_str].
  by rewrite safe_id_fix.
Qed.

(** ** Conditions with a single matcher *)

Lemma filter_eq_singleton {A} `{EqDecision A} (k : A) (l : list A) :
  NoDup l -> k ∈ l -> filter (fun x => x = k) l = [k].
Proof.
  induction 1 as [|x l Hx _ IH]; [by intros ?%not_elem_of_nil|].
  destruct (decide (x = k)) as [->|Hne].
  - intros _. rewrite filter_cons_True by done. f_equal. apply filter_none, Forall_forall.
    intros y Hy ->. done.
  - intros [->|Hk]%elem_of_cons; [done|]. rewrite filter_cons_False by done. auto.
Qed.

Lemma keeps_matcher_none k : keeps_matcher k VNone = Ok false.
Proof. done. Qed.

Lemma clean_condition_single k v :
  k ∈ STRING_MATCHERS -> keeps_matcher k v = Ok true -> clean_condition [(k, v)].
Proof.
  intros Hk Hv. exists [(k, v)], [], []. split; [|split; [by left|split; [apply Nat.le_0_l|done]]].
  cbn [methods_part headers_part]. rewrite !app_nil_r. unfold picked.
  rewrite (list_filter_iff _ (fun x => x = k)).
  - rewrite filter_eq_singleton by (done || apply STRING_MATCHERS_NoDup). cbn. by rewrite str_eqb_refl.
  - intros x. unfold kept. cbn [dget]. destruct (str_eqb x k) eqn:E.
    + apply str_eqb_eq in E as ->. cbn. by rewrite Hv.
    + cbn. split; [done|]. intros ->. by rewrite str_eqb_refl in E.
Qed.

Lemma lower_hex_ascii c : lower_hex c = true -> (c < 128)%N.
Proof.
  unfold lower_hex, in_char_range. rewrite orb_true_iff, !andb_true_iff, !N.leb_le. lia.
Qed.

Lemma supported_signature_kept s :
  is_supported_signature s = true -> keeps_matcher (u "signature") (VStr s) = Ok true.
Proof.
  intros H. pose proof H as H'. unfold is_supported_signature in H'. bool_prop.
  assert (Hlen : length s = 16 \/ length s = 32).
  { apply orb_true_iff in H1. rewrite !Nat.eqb_eq in H1. done. }
  unfold keeps_matcher, bounded_utf8. rewrite utf8_len_ascii.
  - cbn [rbind]. replace (_ && _) with true.
    2:{ symmetry. apply andb_true_iff. rewrite Nat.ltb_lt, Nat.leb_le.
        unfold FILTER_MATCH_VALUE_MAX_BYTES. lia. }
    cbn [negb]. rewrite str_eqb_refl, H. done.
  - apply Forall_forall. intros c Hc. apply lower_hex_ascii.
    rewrite forallb_forall in H0. by apply H0, list_elem_of_In.
Qed.

Lemma unsupported_signature_dropped s v :
  is_supported_signature s = false -> keeps_matcher (u "signature") (VStr s) = Ok v -> v = false.
Proof.
  intros H Hk. unfold keeps_matcher in Hk. inv_ok. destruct (negb r); [by inv_ok|].
  cbn [str_eqb] in Hk. rewrite str_eqb_refl, H in Hk. cbn in Hk.
  change (str_eqb (u "signature") (u "path_prefix")) with false in Hk. cbn in Hk. by inv_ok.
Qed.

(** ** When sanitizing succeeds *)

(** Text that [str.encode("utf-8")] accepts. *)
Definition encodable (s : pystr) : Prop := is_ok (utf8_len s) = true.

(** Every text the condition is checked for can be encoded. *)
Definition encodable_condition (c : pydict) : Prop :=
  (forall k s, k ∈ STRING_MATCHERS -> dget k c = Some (VStr s) -> encodable s) /\
  (forall hs h s, dget (u "headers") c = Some (VList hs) -> VDict h ∈ hs ->
     dget (u "contains") h = Some (VStr s) -> encodable s).

Lemma bounded_utf8_ok s n : encodable s -> exists b, bounded_utf8 s n = Ok b.
Proof. unfold encodable, bounded_utf8. destruct (utf8_len s); [|done]. cbn. eauto. Qed.

Lemma keeps_matcher_ok k v :
  (forall s, v = VStr s -> encodable s) -> is_ok (keeps_matcher k v) = true.
Proof.
  intros H. destruct v as [| | | |s| |]; try done. unfold keeps_matcher.
  destruct (bounded_utf8_ok s FILTER_MATCH_VALUE_MAX_BYTES (H s eq_refl)) as [b ->]. cbn [rbind].
  by repeat case_match.
Qed.

Lemma clean_headers_total acc hs :
  (forall h s, VDict h ∈ hs -> dget (u "contains") h = Some (VStr s) -> encodable s) ->
  exists out, foldM clean_header acc hs = Ok out.
Proof.
  revert acc. induction hs as [|h hs IH]; intros acc Hh; cbn [foldM]; [eauto|].
  assert (exists acc', clean_header acc h = Ok acc') as [acc' ->].
  { unfold clean_header. destruct h as [| | | | | |h]; eauto.
    destruct (or_none (dget (u "name") h)) as [| | | |name| |]; eauto.
    destruct (dget (u "contains") h) as [[| | | |contains| |]|] eqn:E; cbn [or_none default from_option id]; eauto.
    destruct (is_http_header_name name); [|eauto].
    destruct (bounded_utf8_ok contains FILTER_HEADER_CONTAINS_MAX_BYTES) as [b ->]; [|cbn; eauto].
    eapply Hh; [apply elem_of_cons; by left|done]. }
  cbn [rbind]. apply IH. intros h' s Hin. apply Hh, elem_of_cons. by right.
Qed.

Lemma sanitize_condition_total c : encodable_condition c -> exists c', sanitize_condition c = Ok c'.
Proof.
  intros [Hk Hh]. unfold sanitize_condition.
  assert (Hd : matchers_decided c STRING_MATCHERS).
  { apply Forall_forall. intros k Hin. apply keeps_matcher_ok. intros s Hs.
    destruct (dget k c) as [v|] eqn:E; [|done]. cbn in Hs. subst v. by eapply Hk. }
  rewrite (proj2 (foldM_keep_matcher c [] STRING_MATCHERS _ STRING_MATCHERS_NoDup
                    (fun _ _ => not_elem_of_nil _)) (conj Hd eq_refl)).
  cbn [rbind]. destruct (dget (u "headers") c) as [[| | | | |hs|]|] eqn:E;
    cbn [or_none default from_option id]; eauto.
  destruct (clean_headers_total [] (take 8 hs)) as [out Hout].
  { intros h s Hin. eapply Hh; [done|]. by eapply subseteq_take. }
  rewrite Hout. cbn. eauto.
Qed.

Lemma bounded_ttl_total v fb :
  (forall e, py_int v = Raise e -> exn_class e <> OverflowError) -> exists t, bounded_ttl_seconds v fb = Ok t.
Proof.
  intros H. unfold bounded_ttl_seconds.
  assert (Hc : forall e, py_int v = Raise e -> bool_decide (exn_class e = TypeError) || is_value_error e = true).
  { intros e He. specialize (H e He). revert He H. unfold py_int.
    destruct v as [| | |f|s| |]; try (by intros [= <-]); try done.
    - unfold Z_of_float. repeat case_match; intros [= <-]; done.
    - unfold int_of_str. repeat case_match; intros [= <-]; done. }
  destruct (py_int v) as [z|e] eqn:E; cbn; [eauto|]. rewrite (Hc e eq_refl). cbn. eauto.
Qed.

(** ** Properties *)


Definition hostile_item : pydict :=
  [(u "id", VStr (u "--evil id/../x")); (u "ttl_seconds", VStr (u "999999")); (u "priority", VStr (u "7"));
   (u "condition", VDict [(u "path_prefix", VStr (u "/")); (u "signature", VStr (u "0123456789abcdef"));
                          (u "methods", VList [VStr (u "get"); VStr (u "TRACE")])]);
   (u "action", VStr (u "rm -rf"))].

Definition hostile_item_clean : pydict :=
  mk_rule (u "evil-id-..-x") true 7 86400
    [(u "signature", VStr (u "0123456789abcdef")); (u "methods", VList [VStr (u "GET")])].


(** Sanitizing is idempotent, whatever fallback time-to-live the second pass
    uses: the rules in the store are never rewritten by later passes. *)
Theorem sanitize_filter_idempotent item ttl ttl' r :
  sanitize_filter item ttl = Ok r -> sanitize_filter r ttl' = Ok r.
Proof. intros H. apply sanitize_filter_fix. by eapply sanitize_filter_clean. Qed.

Lemma sanitize_filter_idempotent_witness :
  sanitize_filter hostile_item_clean 5 = Ok hostile_item_clean.
Proof.
  apply (sanitize_filter_idempotent hostile_item 60 5). vm_compute. reflexivity.
Defined.

(** [safe_id] always yields a non-empty id of safe characters, at most 96
    UTF-8 bytes long, without leading or trailing dash, and leaves such an id
    unchanged. *)
Theorem safe_id_safe value :
  let i := safe_id value in
  i <> [] /\ (exists n, utf8_len i = Ok n /\ n <= FILTER_RULE_ID_MAX_BYTES) /\
  Forall (fun c => safe_char c = true) i /\ stripped is_dash i /\ safe_id i = i.
Proof.
  intros i. pose proof (safe_id_clean value) as H. fold i in H.
  pose proof (clean_id_bytes i H) as Hb. pose proof (safe_id_fix i H) as Hf.
  destruct H as (H1 & _ & H3 & H4). auto.
Qed.

(** C9. [sanitize_filter] succeeds on every item whose checked texts are
    encodable, whose priority converts to an integer and whose time-to-live is
    not an infinite float: malformed conditions, headers, methods, ids and times
    are repaired or dropped, never raised. *)
Theorem sanitize_filter_total item ttl :
  (forall c, dget (u "condition") item = Some (VDict c) -> encodable_condition c) ->
  is_ok (py_int (default (VInt 100) (dget (u "priority") item))) = true ->
  (forall e, py_int (or_none (dget (u "ttl_seconds") item)) = Raise e -> exn_class e <> OverflowError) ->
  exists r, sanitize_filter item ttl = Ok r.
Proof.
  intros Hc Hp Ht. unfold sanitize_filter.
  destruct (bounded_ttl_total _ ttl Ht) as [t ->]. cbn [rbind].
  assert (exists c', sanitize_condition
    (match or_none (dget (u "condition") item) with VDict c => c | _ => [] end) = Ok c') as [c' ->].
  { apply sanitize_condition_total.
    destruct (dget (u "condition") item) as [[| | | | | |c]|] eqn:E; cbn [or_none default from_option id];
      try (split; done). by apply Hc. }
  cbn [rbind]. destruct (py_int _) as [p|]; [|done]. cbn. eauto.
Qed.

Lemma sanitize_filter_total_witness :
  exists r, sanitize_filter [(u "condition", VList []); (u "ttl_seconds", VStr (u "soon")); (u "id", VInt 3)] 60 = Ok r.
Proof.
  apply sanitize_filter_total.
  - intros c H. vm_compute in H. discriminate H.
  - vm_compute. reflexivity.
  - intros e H. vm_compute in H. injection H as <-. discriminate.
Defined.
