(* ===== verification/Learn.v ===== *)
(** * Learn: the deterministic filter generator of CodexSDGate

    [tools/codex_analyzer.py]: attack-evidence classification, the signature and
    path-shape learners, their combination [deterministic_filters], and
    [merge_strong_coverage], which completes a provider's answer with the
    learned rules it left out. *)

From S2P Require Import Prelude Unicode PyStr PyFloat PyVal Sanitize.

(** ** Evidence *)

Definition STRONG_ATTACK_REASONS : list pystr :=
  [u "rate_limited"; u "global_rate_limited"; u "per_ip_rate_limited"; u "signature_rate_limited";
   u "path_shape_rate_limited"; u "trusted_proxy_rate_limited"; u "filter_block"; u "body_too_large"].

Definition is_learnable_attack_shape (shape : pystr) : bool :=
  if contains (u ":token") shape || contains (u ":short-token") shape || contains (u ":hex") shape
  then true
  else
    let parts := filter (fun part => part <> []) (split_on 47 shape) in
    match parts with
    | first :: segment :: _ =>
        (3 <=? length parts) && str_eqb first (u "api") &&
        match last parts with Some l => str_eqb l (u ":num") | None => false end &&
        negb (existsb (str_eqb segment) [u ":num"; u ":token"; u ":hex"; u ":uuid"])
    | _ => false
    end.

Definition event_has_runtime_signature_basis (event : pydict) : bool :=
  match or_none (dget (u "signature_basis") event) with
  | VStr basis => 4 <=? count_char 124 basis
  | _ => false
  end.

(** [event.get("reason") in STRONG_ATTACK_REASONS] *)
Definition strong_reason (event : pydict) : res bool :=
  in_str_set (or_none (dget (u "reason") event)) STRONG_ATTACK_REASONS.

(** [sum(1 for event in events if p(event))] *)
Definition count_events (p : pydict -> res bool) (events : list pydict) : res nat :=
  let* bs := mapR p events in Ok (length (filter (fun b => b = true) bs)).

(** Entries of the batch that are not dicts are skipped. *)
Definition count_attack_evidence (events : list pyval) : res nat :=
  count_events strong_reason (dicts events).

(** ** Grouping *)

(** [grouped[key].append(event)] on a [defaultdict(list)]. *)
Definition group_add {A} (grouped : list (pystr * list A)) (kx : pystr * A) : list (pystr * list A) :=
  dset kx.1 (default [] (dget kx.1 grouped) ++ [kx.2]) grouped.

Definition group_by {A} (keyed : list (pystr * A)) : list (pystr * list A) :=
  foldl group_add [] keyed.

(** [sorted(grouped.items(), key=lambda item: len(item[1]), reverse=True)] *)
Definition by_size {A} (a b : pystr * list A) : bool := length b.2 <=? length a.2.

(** [event["signature"]]; [read_events] keeps only events whose signature is a
    string, so the last case is not reached from [analyze_once]. *)
Definition event_signature (event : pydict) : res pystr :=
  match dget (u "signature") event with
  | Some (VStr s) => Ok s
  | Some _ => Raise (Exn TypeError [])
  | None => Raise (Exn KeyError (u "'signature'"))
  end.

Definition keyed_by_signature (events : list pydict) : res (list (pystr * pydict)) :=
  mapR (fun e => let* s := event_signature e in Ok (s, e)) events.

Definition last_event (group : list pydict) : pydict := default [] (last group).

Definition field (key : pystr) (event : pydict) : pyval := or_none (dget key event).

(** ** Signature filters *)

Definition learned_rule (id : pystr) (priority ttl : Z) (condition metadata : pydict) : pydict :=
  [(u "id", VStr (safe_id id)); (u "enabled", VBool true); (u "adaptive", VBool true);
   (u "priority", VInt priority); (u "ttl_seconds", VInt ttl);
   (u "condition", VDict condition); (u "action", block_action);
   (u "metadata", VDict metadata)].

Definition signature_rule (ttl : Z) (signature : pystr) (group : list pydict) (strong : nat) : pydict :=
  let sample := last_event group in
  learned_rule (u "codex-learned-" ++ signature) 100 ttl
    [(u "signature", VStr signature)]
    [(u "source", VStr (u "deterministic-fallback"));
     (u "sample_path", field (u "path") sample);
     (u "sample_user_agent", field (u "user_agent") sample);
     (u "event_count", VInt (Z.of_nat (length group)));
     (u "strong_event_count", VInt (Z.of_nat strong))].

Definition learn_signature (min_count ttl : Z) (learn_observed : bool) (filters : list pydict)
    (item : pystr * list pydict) : res (list pydict) :=
  let '(signature, group) := item in
  let* strong := count_events strong_reason group in
  if (Z.of_nat strong <? min_count)%Z &&
     negb (learn_observed && (min_count <=? Z.of_nat (length group))%Z)
  then Ok filters
  else Ok (filters ++ [signature_rule ttl signature group strong]).

Definition deterministic_signature_filters (events : list pydict) (min_count ttl_seconds : Z)
    (learn_observed : bool) : res (list pydict) :=
  let* ttl := bounded_ttl_seconds (VInt ttl_seconds) 60 in
  let* keyed := keyed_by_signature events in
  foldM (learn_signature min_count ttl learn_observed) [] (py_sorted by_size (group_by keyed)).

(** ** Path-shape filters *)

Definition keyed_by_shape (events : list pydict) : list (pystr * pydict) :=
  omap (fun e => match or_none (dget (u "path_shape") e) with
                 | VStr s => match s with
                             | [] => None
                             | _ => if is_learnable_attack_shape s then Some (s, e) else None
                             end
                 | _ => None
                 end) events.

(** [{event["signature"] for event in group if isinstance(..., str)}] *)
Definition group_signatures (group : list pydict) : list pystr :=
  remove_dups (omap (fun e => match dget (u "signature") e with Some (VStr s) => Some s | _ => None end) group).

Definition shape_rule (ttl : Z) (shape : pystr) (group : list pydict) (unique strong global : nat) : pydict :=
  let sample := last_event group in
  learned_rule (u "codex-learned-shape-" ++ shape) 90 ttl
    [(u "path_shape", VStr shape)]
    [(u "source", VStr (u "deterministic-path-shape"));
     (u "sample_path", field (u "path") sample);
     (u "sample_user_agent", field (u "user_agent") sample);
     (u "event_count", VInt (Z.of_nat (length group)));
     (u "unique_signatures", VInt (Z.of_nat unique));
     (u "strong_event_count", VInt (Z.of_nat strong));
     (u "global_observed_count", VInt (Z.of_nat global))].

Definition learn_shape (min_count ttl : Z) (learn_observed : bool) (filters : list pydict)
    (item : pystr * list pydict) : res (list pydict) :=
  let '(shape, group) := item in
  let unique := length (group_signatures group) in
  if (Z.of_nat unique <? min_count)%Z then Ok filters else
  let* strong := count_events strong_reason group in
  let* global :=
    count_events (fun e => Ok (py_eqb (field (u "reason") e) (VStr (u "global_observed")))) group in
  if (Z.of_nat strong <? min_count)%Z && (Z.of_nat global <? min_count)%Z &&
     negb (learn_observed && (min_count <=? Z.of_nat (length group))%Z)
  then Ok filters
  else Ok (filters ++ [shape_rule ttl shape group unique strong global]).

Definition deterministic_path_shape_filters (events : list pydict) (min_count ttl_seconds : Z)
    (learn_observed : bool) : res (list pydict) :=
  let* ttl := bounded_ttl_seconds (VInt ttl_seconds) 60 in
  foldM (learn_shape min_count ttl learn_observed) [] (py_sorted by_size (group_by (keyed_by_shape events))).

(** ** Combination *)

Definition merge_by_key (ttl : Z) (merged : list (pystr * pydict)) (item : pydict) :
    res (list (pystr * pydict)) :=
  let* clean := sanitize_filter item ttl in
  let key := filter_key clean in
  Ok (if str_eqb key (u "id:") then merged else dset key item merged).

Definition deterministic_filters (events : list pydict) (min_count ttl_seconds : Z)
    (learn_observed : bool) : res (list pydict) :=
  let* ttl := bounded_ttl_seconds (VInt ttl_seconds) 60 in
  let* shape_filters := deterministic_path_shape_filters events min_count ttl learn_observed in
  let* signature_filters := deterministic_signature_filters events min_count ttl learn_observed in
  let* merged := foldM (merge_by_key ttl) [] (shape_filters ++ signature_filters) in
  Ok (dvalues merged).

(** One step of the loop of [merge_strong_coverage] over the fallback rules. *)
Definition cover (ttl : Z) (state : list pydict * list pystr) (fallback : pydict) :
    res (list pydict * list pystr) :=
  let '(merged, covered_keys) := state in
  let* clean := sanitize_filter fallback ttl in
  let key := filter_key clean in
  Ok (if filter_has_matcher clean && negb (str_eqb key (u "id:")) && negb (existsb (str_eqb key) covered_keys)
      then (merged ++ [clean], key :: covered_keys)
      else (merged, covered_keys)).

Definition merge_strong_coverage (provider_filters : list pyval) (events : list pydict)
    (min_count ttl_seconds : Z) (learn_observed : bool) : res (list pydict) :=
  let* merged := sanitized_filter_list provider_filters ttl_seconds in
  let* fallbacks := deterministic_filters events min_count ttl_seconds learn_observed in
  let* '(merged, _) := foldM (cover ttl_seconds) (merged, filter_key <$> merged) fallbacks in
  Ok merged.

(** ** Grouping is faithful *)

Section grouping.
Context {A : Type}.
Implicit Types (l : list (pystr * A)) (g : list (pystr * list A)).

Definition members (k : pystr) l : list A := (filter (fun kx => kx.1 = k) l).*2.

Lemma members_app k l1 l2 : members k (l1 ++ l2) = members k l1 ++ members k l2.
Proof. unfold members. by rewrite filter_app, fmap_app. Qed.

(** A grouping [g] of the pairs [l]: distinct keys, each with exactly its
    members in order. *)
Definition groups g l : Prop :=
  dict_ok g /\ forall k, dget k g = match members k l with [] => None | m => Some m end.

Lemma group_add_groups g l kx : groups g l -> groups (group_add g kx) (l ++ [kx]).
Proof.
  intros [Hok Hg]. destruct kx as [k x]. unfold group_add. cbn [fst snd].
  split; [by apply dset_ok|]. intros k'. rewrite members_app.
  destruct (decide (k' = k)) as [->|Hne].
  - rewrite dget_dset_eq, Hg. unfold members at 3. rewrite filter_cons_True by done. cbn.
    destruct (members k l); done.
  - rewrite dget_dset_ne, Hg by done. unfold members at 3.
    rewrite filter_cons_False by (cbn; congruence). cbn. by rewrite app_nil_r.
Qed.

Lemma group_by_groups l : groups (group_by l) l.
Proof.
  unfold group_by. rewrite <-(app_nil_l l) at 2.
  assert (H : groups [] ([] : list (pystr * A))) by (split; [constructor|done]).
  revert H. generalize (@nil (pystr * list A)) (@nil (pystr * A)).
  induction l as [|kx l IH]; intros g l0 H; cbn [foldl]; [by rewrite app_nil_r|].
  replace (l0 ++ kx :: l) with ((l0 ++ [kx]) ++ l) by (by rewrite <-app_assoc).
  apply IH. by apply group_add_groups.
Qed.

Lemma group_by_In l k m : (k, m) ∈ group_by l <-> m <> [] /\ m = members k l.
Proof.
  destruct (group_by_groups l) as [Hok Hg]. split.
  - intros Hin%dget_In; [|done]. rewrite Hg in Hin. destruct (members k l); by simplify_eq.
  - intros [Hne ->]. apply dget_Some_In. rewrite Hg. by destruct (members k l).
Qed.
End grouping.

(** A loop that appends an optional rule per group collects exactly the rules of
    the groups. *)
Lemma foldM_append {A B} (f : list B -> A -> res (list B)) (pick : A -> res (option B)) acc l out :
  (forall acc x, f acc x = let* o := pick x in Ok (acc ++ match o with Some y => [y] | None => [] end)) ->
  foldM f acc l = Ok out ->
  exists os, mapR pick l = Ok os /\ out = acc ++ omap id os.
Proof.
  intros Hf. revert acc. induction l as [|x l IH]; intros acc H; cbn in *.
  - inv_ok. exists []. by rewrite app_nil_r.
  - rewrite Hf in H. inv_ok. destruct (IH _ H) as (os & Hos & ->).
    rewrite E0. cbn. rewrite Hos. cbn. eexists. split; [done|].
    destruct r0; cbn; rewrite <-app_assoc; done.
Qed.

(** ** The signature learner *)

Definition has_signature (s : pystr) (e : pydict) : bool :=
  match dget (u "signature") e with Some (VStr t) => str_eqb t s | _ => false end.

Lemma keyed_members events keyed s :
  keyed_by_signature events = Ok keyed ->
  members s keyed = filter (fun e => has_signature s e) events.
Proof.
  unfold keyed_by_signature. revert keyed.
  induction events as [|e events IH]; intros keyed H; cbn [mapR] in H; [by inv_ok|].
  destruct (event_signature e) as [s'|] eqn:Es; cbn [rbind] in H; [|done].
  apply bind_ok in H as (keyed' & Hk & [= <-]).
  unfold members. rewrite !filter_cons, <-(IH _ Hk). unfold event_signature in Es.
  unfold has_signature. destruct (dget (u "signature") e) as [[]|]; simplify_eq. cbn [fst].
  destruct (decide (s' = s)) as [->|Hne].
  - by rewrite str_eqb_refl.
  - by rewrite str_eqb_neq by done.
Qed.

(** The learning condition on a group of events. *)
Definition enough_evidence (min_count : Z) (learn_observed : bool) (strong total : nat) : bool :=
  (min_count <=? Z.of_nat strong)%Z || learn_observed && (min_count <=? Z.of_nat total)%Z.

Definition pick_signature (min_count ttl : Z) (lo : bool) (item : pystr * list pydict) :
    res (option pydict) :=
  let* strong := count_events strong_reason item.2 in
  Ok (if enough_evidence min_count lo strong (length item.2)
      then Some (signature_rule ttl item.1 item.2 strong) else None).

Lemma learn_signature_pick mc ttl lo acc item :
  learn_signature mc ttl lo acc item =
  let* o := pick_signature mc ttl lo item in
  Ok (acc ++ match o with Some y => [y] | None => [] end).
Proof.
  destruct item as [s g]. unfold learn_signature, pick_signature, enough_evidence. cbn [fst snd].
  destruct (count_events strong_reason g) as [n|]; cbn [rbind]; [|done].
  rewrite Z.ltb_antisym.
  destruct (mc <=? Z.of_nat n)%Z, (lo && (mc <=? Z.of_nat (length g))%Z); cbn; by rewrite ?app_nil_r.
Qed.

Lemma mapR_omap_In {A B} (pick : A -> res (option B)) l os y :
  mapR pick l = Ok os -> y ∈ omap id os <-> exists x, x ∈ l /\ pick x = Ok (Some y).
Proof.
  intros H%mapR_ok. rewrite list_elem_of_omap. split.
  - intros (o & Ho & Hy). apply list_elem_of_lookup in Ho as [i Hi].
    destruct (Forall2_lookup_r _ _ _ _ _ H Hi) as (x & Hx & Hp).
    exists x. split; [by eapply list_elem_of_lookup_2|]. cbn in Hy. by subst.
  - intros (x & Hx & Hp). apply list_elem_of_lookup in Hx as [i Hi].
    destruct (Forall2_lookup_l _ _ _ _ _ H Hi) as (o & Ho & Ho').
    rewrite Hp in Ho'. injection Ho' as <-.
    exists (Some y). split; [by eapply list_elem_of_lookup_2|done].
Qed.

(** The rules learned from signatures, group by group. *)
Lemma deterministic_signature_filters_In events mc ttl lo fs f :
  deterministic_signature_filters events mc ttl lo = Ok fs ->
  f ∈ fs <->
  exists s strong ttl',
    let g := filter (fun e => has_signature s e) events in
    g <> [] /\ bounded_ttl_seconds (VInt ttl) 60 = Ok ttl' /\
    count_events strong_reason g = Ok strong /\
    enough_evidence mc lo strong (length g) = true /\ f = signature_rule ttl' s g strong.
Proof.
  unfold deterministic_signature_filters. intros H. inv_ok.
  destruct (foldM_append _ _ _ _ _ (learn_signature_pick mc r lo) H) as (os & Hos & ->).
  rewrite app_nil_l, (mapR_omap_In _ _ _ _ Hos). split.
  - intros ([s g] & Hin & Hp). rewrite py_sorted_perm, group_by_In in Hin. destruct Hin as [Hne ->].
    unfold pick_signature in Hp. cbn [fst snd] in Hp. inv_ok.
    rewrite (keyed_members _ _ _ E0) in *.
    destruct (enough_evidence _ _ _ _) eqn:En; simplify_eq.
    exists s, r1, r. auto.
  - intros (s & strong & ttl' & Hne & Ht & Hc & He & ->). inv_ok.
    exists (s, filter (fun e => has_signature s e) events). split.
    + rewrite py_sorted_perm, group_by_In, (keyed_members _ _ _ E0). done.
    + unfold pick_signature. cbn [fst snd]. rewrite Hc. cbn [rbind]. by rewrite He.
Qed.

(** ** Learned rules under [sanitize_filter] *)

Definition is_learned (f : pydict) : Prop :=
  exists id pr ttl c md, f = learned_rule id pr ttl c md /\ (1 <= ttl <= FILTER_TTL_MAX_SECONDS)%Z.

Lemma sanitize_learned id pr ttl c md t :
  (1 <= ttl <= FILTER_TTL_MAX_SECONDS)%Z ->
  sanitize_filter (learned_rule id pr ttl c md) t =
  let* c' := sanitize_condition c in Ok (mk_rule (safe_id id) true pr ttl c').
Proof.
  intros Ht. unfold sanitize_filter.
  change (dget (u "ttl_seconds") (learned_rule id pr ttl c md)) with (Some (VInt ttl)).
  change (dget (u "condition") (learned_rule id pr ttl c md)) with (Some (VDict c)).
  change (dget (u "id") (learned_rule id pr ttl c md)) with (Some (VStr (safe_id id))).
  change (dget (u "enabled") (learned_rule id pr ttl c md)) with (Some (VBool true)).
  change (dget (u "priority") (learned_rule id pr ttl c md)) with (Some (VInt pr)).
  cbn [or_none default from_option]. unfold Datatypes.id. rewrite bounded_ttl_fix by done. cbn [rbind].
  destruct (sanitize_condition c); cbn [rbind]; [|done].
  pose proof (safe_id_clean id) as Hid. pose proof (safe_id_fix _ Hid) as Hfix.
  destruct (safe_id id) as [|i0 i]; [by destruct Hid|]. cbn [truthy py_str py_int rbind].
  by rewrite Hfix.
Qed.

Lemma sanitize_learned_any_ttl f t1 t2 :
  is_learned f -> sanitize_filter f t1 = sanitize_filter f t2.
Proof. intros (id & pr & ttl & c & md & -> & Ht). by rewrite !sanitize_learned. Qed.

Lemma sanitize_signature_rule ttl s g n t :
  (1 <= ttl <= FILTER_TTL_MAX_SECONDS)%Z -> is_supported_signature s = true ->
  sanitize_filter (signature_rule ttl s g n) t =
  Ok (mk_rule (safe_id (u "codex-learned-" ++ s)) true 100 ttl [(u "signature", VStr s)]).
Proof.
  intros Ht Hs. unfold signature_rule. rewrite sanitize_learned by done.
  rewrite sanitize_condition_fix; [done|].
  apply clean_condition_single; [apply elem_of_cons; by left|by apply supported_signature_kept].
Qed.

Lemma rule_key_signature i en pr ttl s :
  filter_key (mk_rule i en pr ttl [(u "signature", VStr s)]) = u "signature:" ++ s.
Proof. reflexivity. Qed.

Lemma learned_signature_filters events mc ttl lo fs :
  deterministic_signature_filters events mc ttl lo = Ok fs -> Forall is_learned fs.
Proof.
  intros H. apply Forall_forall. intros f Hf.
  apply (deterministic_signature_filters_In _ _ _ _ _ _ H) in Hf as (s & n & t & _ & Ht & _ & _ & ->).
  unfold signature_rule, is_learned. repeat eexists; by eapply bounded_ttl_range.
Qed.

Lemma learned_shape_filters events mc ttl lo fs :
  deterministic_path_shape_filters events mc ttl lo = Ok fs -> Forall is_learned fs.
Proof.
  unfold deterministic_path_shape_filters. intros H. inv_ok. apply bounded_ttl_range in E.
  assert (Hnil : Forall is_learned []) by done. revert Hnil H.
  generalize (@nil pydict) (py_sorted by_size (group_by (keyed_by_shape events))).
  intros acc l. revert acc. induction l as [|[s g] l IH]; intros acc Hacc H; cbn in H; [by inv_ok|].
  destruct (_ <? mc)%Z; [by eapply IH|]. inv_ok. eapply IH; [|exact H].
  destruct (_ && negb _); inv_ok; [done|]. apply Forall_app. split; [done|].
  repeat constructor. unfold shape_rule, is_learned. repeat eexists; lia.
Qed.

(** ** Merging by key *)

Lemma dmem_dset {A} k k' (v : A) d : dmem k (dset k' v d) = str_eqb k k' || dmem k d.
Proof.
  unfold dmem. destruct (str_eqb k k') eqn:E.
  - apply str_eqb_eq in E as ->. by rewrite dget_dset_eq.
  - rewrite dget_dset_ne; [done|]. intros ->. by rewrite str_eqb_refl in E.
Qed.

(** Every entry is filed under the key of its sanitized form. *)
Definition keyed_ok (ttl : Z) (m : list (pystr * pydict)) : Prop :=
  Forall (fun kv => exists c, sanitize_filter kv.2 ttl = Ok c /\ filter_key c = kv.1) m.

Lemma keyed_ok_dset ttl k it c m :
  keyed_ok ttl m -> sanitize_filter it ttl = Ok c -> filter_key c = k -> keyed_ok ttl (dset k it m).
Proof.
  unfold keyed_ok. intros Hm Hc Hk. induction Hm as [|[k' v] m Hkv Hm IH]; cbn; [repeat constructor; eauto|].
  destruct (str_eqb k k') eqn:E; constructor; auto.
  apply str_eqb_eq in E as <-. eauto.
Qed.

Lemma merge_by_key_ok ttl acc l out :
  foldM (merge_by_key ttl) acc l = Ok out -> keyed_ok ttl acc ->
  keyed_ok ttl out /\
  (forall k, dmem k acc = true -> dmem k out = true) /\
  (forall it, it ∈ l -> exists c, sanitize_filter it ttl = Ok c /\
      (filter_key c <> u "id:" -> dmem (filter_key c) out = true)).
Proof.
  revert acc. induction l as [|it l IH]; intros acc H Hacc; cbn [foldM] in H.
  { inv_ok. split; [done|]. split; [done|]. by intros ? ?%not_elem_of_nil. }
  apply bind_ok in H as (acc' & Hstep & H). unfold merge_by_key in Hstep.
  apply bind_ok in Hstep as (c & Hc & [= Heq]).
  assert (Hacc' : keyed_ok ttl acc').
  { subst acc'. destruct (str_eqb _ _); [done|]. by eapply keyed_ok_dset. }
  destruct (IH _ H Hacc') as (Hout & Hmono & Hl). split; [done|]. split.
  - intros k Hk. apply Hmono. subst acc'. destruct (str_eqb _ _); [done|].
    rewrite dmem_dset, Hk. apply orb_true_r.
  - intros x [->|Hx]%elem_of_cons; [|by apply Hl]. exists c. split; [done|].
    intros Hne. apply Hmono. subst acc'. rewrite str_eqb_neq by done.
    by rewrite dmem_dset, str_eqb_refl.
Qed.

Lemma merge_by_key_Forall (P : pydict -> Prop) ttl acc l out :
  foldM (merge_by_key ttl) acc l = Ok out ->
  Forall P (dvalues acc) -> Forall P l -> Forall P (dvalues out).
Proof.
  intros H Hacc Hl. revert acc H Hacc. induction Hl as [|it l Hit _ IH]; intros acc H Hacc; cbn [foldM] in H.
  { by inv_ok. }
  apply bind_ok in H as (acc' & Hstep & H). unfold merge_by_key in Hstep.
  apply bind_ok in Hstep as (c & Hc & [= Heq]). eapply IH; [exact H|]. subst acc'.
  destruct (str_eqb _ _); [done|]. clear H IH.
  induction acc as [|[k v] acc IHacc]; cbn in *; [by repeat constructor|].
  apply Forall_cons in Hacc as [Hv Hacc]. destruct (str_eqb _ k); constructor; auto.
Qed.

Lemma dmem_In {A} k (d : list (pystr * A)) : dmem k d = true -> exists v, (k, v) ∈ d.
Proof. unfold dmem. destruct (dget k d) eqn:E; [|done]. eauto using dget_Some_In. Qed.

(** The generator keeps, for each key, a rule that sanitizes to that key. *)
Lemma deterministic_filters_signature events mc ttl lo fs s n :
  deterministic_filters events mc ttl lo = Ok fs ->
  is_supported_signature s = true ->
  filter (fun e => has_signature s e) events <> [] ->
  count_events strong_reason (filter (fun e => has_signature s e) events) = Ok n ->
  enough_evidence mc lo n (length (filter (fun e => has_signature s e) events)) = true ->
  Forall is_learned fs /\
  forall t, exists f c, f ∈ fs /\ sanitize_filter f t = Ok c /\ filter_key c = u "signature:" ++ s.
Proof.
  unfold deterministic_filters. intros H Hs Hne Hn Hev.
  apply bind_ok in H as (t & Ht & H). apply bind_ok in H as (shapes & Hsh & H).
  apply bind_ok in H as (sigs & Hsig & H). apply bind_ok in H as (m & Hm & [= <-]).
  pose proof (bounded_ttl_range _ _ _ Ht) as Hrange.
  assert (Hl : Forall is_learned (dvalues m)).
  { eapply merge_by_key_Forall; [exact Hm|done|]. apply Forall_app.
    eauto using learned_shape_filters, learned_signature_filters. }
  split; [done|]. intros t'.
  destruct (merge_by_key_ok _ _ _ _ Hm) as (Hkeyed & _ & Hall); [by constructor|].
  assert (Hin : signature_rule t s (filter (fun e => has_signature s e) events) n ∈ shapes ++ sigs).
  { apply elem_of_app. right. apply (deterministic_signature_filters_In _ _ _ _ _ _ Hsig).
    exists s, n, t. repeat split; try done. by apply bounded_ttl_fix. }
  destruct (Hall _ Hin) as (c & Hc & Hmem). rewrite sanitize_signature_rule in Hc by done.
  injection Hc as <-. rewrite rule_key_signature in Hmem.
  destruct (dmem_In _ _ (Hmem ltac:(done))) as [f Hf].
  unfold keyed_ok in Hkeyed. rewrite Forall_forall in Hkeyed.
  destruct (Hkeyed _ Hf) as (c & Hc & Hk). cbn in Hc, Hk.
  assert (f ∈ dvalues m) as Hfm by (apply list_elem_of_fmap; by exists (u "signature:" ++ s, f)).
  exists f, c. split; [done|]. split; [|done]. rewrite Forall_forall in Hl.
  by rewrite (sanitize_learned_any_ttl _ _ t) by auto.
Qed.

(** ** Completing a provider's answer *)

Definition covers (m : list pydict) (covered : list pystr) : Prop :=
  (forall k, k ∈ covered -> k ∈ (filter_key <$> m)) /\
  Forall (fun r => clean_rule r /\ filter_has_matcher r = true) m.

Lemma cover_ok ttl m cov l m' cov' :
  foldM (cover ttl) (m, cov) l = Ok (m', cov') -> covers m cov ->
  covers m' cov' /\ m `prefix_of` m' /\
  (forall f c, f ∈ l -> sanitize_filter f ttl = Ok c -> filter_has_matcher c = true ->
     filter_key c <> u "id:" -> filter_key c ∈ (filter_key <$> m')).
Proof.
  revert m cov. induction l as [|f l IH]; intros m cov H Hcov; cbn [foldM] in H.
  { inv_ok. simplify_eq. split; [done|]. split; [done|]. by intros ? ? ?%not_elem_of_nil. }
  apply bind_ok in H as ([m1 cov1] & Hstep & H). unfold cover in Hstep.
  apply bind_ok in Hstep as (c & Hc & [= Heq]).
  destruct (filter_has_matcher c && _ && _) eqn:E; simplify_eq.
  - bool_prop. destruct Hcov as [Hk Hm]. destruct (IH _ _ H) as (Hcov' & Hpre & Hl).
    { split.
      - intros k. rewrite fmap_app, elem_of_app. cbn. rewrite list_elem_of_singleton.
        intros [->|?]%elem_of_cons; auto.
      - apply Forall_app. split; [done|]. constructor; [|done]. split; [by eapply sanitize_filter_clean|done]. }
    split; [done|]. split; [etrans; [|exact Hpre]; by eexists|].
    intros f' c' [->|Hf']%elem_of_cons Hc'; [|by eapply Hl].
    rewrite Hc in Hc'. injection Hc' as <-. intros _ _.
    destruct Hpre as [ext ->]. rewrite !fmap_app, !elem_of_app. left. right.
    cbn. by apply list_elem_of_singleton.
  - destruct (IH _ _ H Hcov) as (Hcov' & Hpre & Hl). split; [done|]. split; [done|].
    intros f' c' [->|Hf']%elem_of_cons Hc' Hmat Hid; [|by eapply Hl].
    rewrite Hc in Hc'. injection Hc' as <-. rewrite Hmat, str_eqb_neq in E by done. cbn in E.
    bool_prop. apply existsb_str_eqb in E. destruct Hcov as [Hk _]. apply Hk in E.
    destruct Hpre as [ext ->]. rewrite fmap_app, elem_of_app. by left.
Qed.

Lemma sanitized_filter_list_ok fs ttl out :
  sanitized_filter_list fs ttl = Ok out ->
  Forall (fun r => clean_rule r /\ filter_has_matcher r = true) out.
Proof.
  unfold sanitized_filter_list. intros H. apply bind_ok in H as (cl & Hcl & [= <-]).
  apply Forall_forall. intros r [Hm Hr]%list_elem_of_filter. split; [|by apply Is_true_true].
  assert (Forall clean_rule cl) as Hall.
  { eapply mapR_ok_Forall; [|exact Hcl]. intros x y Hx. exact (sanitize_filter_clean _ _ _ Hx). }
  rewrite Forall_forall in Hall. auto.
Qed.

Lemma merge_strong_coverage_ok provider events mc ttl lo out :
  merge_strong_coverage provider events mc ttl lo = Ok out ->
  Forall (fun r => clean_rule r /\ filter_has_matcher r = true) out /\
  exists own, sanitized_filter_list provider ttl = Ok own /\ own `prefix_of` out.
Proof.
  unfold merge_strong_coverage. intros H.
  apply bind_ok in H as (own & Hown & H). apply bind_ok in H as (fb & Hfb & H).
  apply bind_ok in H as ([m cov] & Hcover & [= <-]).
  destruct (cover_ok _ _ _ _ _ _ Hcover) as ([_ Hm] & Hpre & _).
  { split; [done|]. by eapply sanitized_filter_list_ok. }
  eauto.
Qed.

(** ** The path-shape learner *)

Definition has_shape (s : pystr) (e : pydict) : bool :=
  match dget (u "path_shape") e with Some (VStr t) => str_eqb t s | _ => false end.

(** [event.get("reason") == "global_observed"] *)
Definition globally_observed (e : pydict) : res bool :=
  Ok (py_eqb (field (u "reason") e) (VStr (u "global_observed"))).

Lemma keyed_by_shape_members events s :
  s <> [] -> is_learnable_attack_shape s = true ->
  members s (keyed_by_shape events) = filter (fun e => has_shape s e) events.
Proof.
  intros Hne Hs. unfold keyed_by_shape. induction events as [|e events IH]; [done|].
  destruct (has_shape s e) eqn:E.
  - rewrite filter_cons_True by (by rewrite E). rewrite <-IH. unfold has_shape in E. cbn [omap list_omap].
    destruct (dget (u "path_shape") e) as [[| | | |t| |]|]; try done. apply str_eqb_eq in E as ->.
    destruct s as [|c s]; [done|]. cbn [or_none default from_option id]. rewrite Hs.
    unfold members. by rewrite filter_cons_True.
  - rewrite filter_cons_False by (rewrite E; intros []). rewrite <-IH. unfold has_shape in E. cbn [omap list_omap].
    destruct (dget (u "path_shape") e) as [[| | | |t| |]|]; try done. cbn [or_none default from_option id].
    destruct t as [|c t]; [done|]. destruct (is_learnable_attack_shape (c :: t)); [|done].
    unfold members. rewrite filter_cons_False; [done|]. cbn. intros Heq. by rewrite Heq, str_eqb_refl in E.
Qed.

Lemma keyed_by_shape_keys events s m :
  m <> [] -> m = members s (keyed_by_shape events) -> s <> [] /\ is_learnable_attack_shape s = true.
Proof.
  intros Hne ->. unfold members in Hne.
  destruct (filter (fun kx => kx.1 = s) (keyed_by_shape events)) as [|kx l] eqn:E; [done|].
  assert (Hin : kx ∈ filter (fun kx => kx.1 = s) (keyed_by_shape events)) by (rewrite E; apply elem_of_cons; by left).
  apply list_elem_of_filter in Hin as [<- Hin]. unfold keyed_by_shape in Hin.
  apply list_elem_of_omap in Hin as (e & _ & He).
  destruct (or_none (dget (u "path_shape") e)) as [| | | |t| |]; try done. destruct t as [|c t]; [done|].
  destruct (is_learnable_attack_shape (c :: t)) eqn:El; [|done]. by injection He as <-.
Qed.

Definition pick_shape (min_count ttl : Z) (lo : bool) (item : pystr * list pydict) : res (option pydict) :=
  let unique := length (group_signatures item.2) in
  if (Z.of_nat unique <? min_count)%Z then Ok None
  else
    let* strong := count_events strong_reason item.2 in
    let* global := count_events globally_observed item.2 in
    Ok (if enough_evidence min_count lo strong (length item.2) || (min_count <=? Z.of_nat global)%Z
        then Some (shape_rule ttl item.1 item.2 unique strong global) else None).

Lemma learn_shape_pick mc ttl lo acc item :
  learn_shape mc ttl lo acc item =
  let* o := pick_shape mc ttl lo item in
  Ok (acc ++ match o with Some y => [y] | None => [] end).
Proof.
  destruct item as [s g]. unfold learn_shape, pick_shape, enough_evidence. cbn [fst snd].
  destruct (_ <? mc)%Z; cbn [rbind]; [by rewrite app_nil_r|].
  destruct (count_events strong_reason g) as [n|]; cbn [rbind]; [|done].
  change (fun e => Ok (py_eqb (field (u "reason") e) (VStr (u "global_observed")))) with globally_observed.
  destruct (count_events globally_observed g) as [m|]; cbn [rbind]; [|done].
  rewrite !Z.ltb_antisym.
  destruct (mc <=? Z.of_nat n)%Z, (mc <=? Z.of_nat m)%Z, (lo && (mc <=? Z.of_nat (length g))%Z); cbn;
    by rewrite ?app_nil_r.
Qed.

Lemma deterministic_path_shape_filters_In events mc ttl lo fs f :
  deterministic_path_shape_filters events mc ttl lo = Ok fs ->
  f ∈ fs <->
  exists s strong global ttl',
    let g := filter (fun e => has_shape s e) events in
    s <> [] /\ is_learnable_attack_shape s = true /\ g <> [] /\
    bounded_ttl_seconds (VInt ttl) 60 = Ok ttl' /\
    (mc <= Z.of_nat (length (group_signatures g)))%Z /\
    count_events strong_reason g = Ok strong /\ count_events globally_observed g = Ok global /\
    enough_evidence mc lo strong (length g) || (mc <=? Z.of_nat global)%Z = true /\
    f = shape_rule ttl' s g (length (group_signatures g)) strong global.
Proof.
  unfold deterministic_path_shape_filters. intros H. apply bind_ok in H as (t & Ht & H).
  destruct (foldM_append _ _ _ _ _ (learn_shape_pick mc t lo) H) as (os & Hos & ->).
  rewrite app_nil_l, (mapR_omap_In _ _ _ _ Hos). split.
  - intros ([s g] & Hin & Hp). rewrite py_sorted_perm, group_by_In in Hin. destruct Hin as [Hne Hg].
    destruct (keyed_by_shape_keys _ _ _ Hne Hg) as [Hs Hl]. rewrite keyed_by_shape_members in Hg by done. subst g.
    unfold pick_shape in Hp. cbn [fst snd] in Hp. destruct (Z.ltb_spec (Z.of_nat (length (group_signatures
      (filter (fun e => has_shape s e) events)))) mc) as [|Hu]; [done|].
    apply bind_ok in Hp as (n & Hn & Hp). apply bind_ok in Hp as (m & Hm & Hp).
    destruct (_ || _) eqn:Eo in Hp; simplify_eq. exists s, n, m, t. auto 10.
  - intros (s & n & m & t' & Hs & Hl & Hne & Ht' & Hu & Hn & Hm & He & ->). rewrite Ht in Ht'. injection Ht' as <-.
    exists (s, filter (fun e => has_shape s e) events). split.
    + rewrite py_sorted_perm, group_by_In, keyed_by_shape_members by done. done.
    + unfold pick_shape. cbn [fst snd]. rewrite (proj2 (Z.ltb_ge _ _)) by done. rewrite Hn, Hm. cbn [rbind].
      by rewrite He.
Qed.

(** A clean rule filed under a signature has that signature as a matcher. *)
Lemma filter_key_signature c s :
  clean_rule c -> filter_key c = u "signature:" ++ s -> filter_has_matcher c = true.
Proof.
  intros (i & en & pr & t & d & -> & _) Hk. unfold filter_has_matcher. rewrite rule_condition.
  cbn [or_none default from_option id]. destruct d; [|done]. exfalso. revert Hk. unfold filter_key.
  rewrite rule_condition. done.
Qed.

Lemma signature_covered provider_filters events min_count ttl_seconds learn_observed out s strong :
  merge_strong_coverage provider_filters events min_count ttl_seconds learn_observed = Ok out ->
  is_supported_signature s = true ->
  filter (fun e => has_signature s e) events <> [] ->
  count_events strong_reason (filter (fun e => has_signature s e) events) = Ok strong ->
  (min_count <= Z.of_nat strong)%Z ->
  u "signature:" ++ s ∈ (filter_key <$> out).
Proof.
  intros H Hs Hne Hn Hmc. unfold merge_strong_coverage in H.
  apply bind_ok in H as (own & Hown & H). apply bind_ok in H as (fb & Hfb & H).
  apply bind_ok in H as ([m cov] & Hcover & [= <-]).
  destruct (deterministic_filters_signature _ _ _ _ _ s strong Hfb Hs Hne Hn) as [_ Hf].
  { unfold enough_evidence. apply orb_true_iff. left. by apply Z.leb_le. }
  destruct (Hf ttl_seconds) as (f & c & Hin & Hc & Hk).
  destruct (cover_ok _ _ _ _ _ _ Hcover) as (_ & _ & Hl); [split; [done|by eapply sanitized_filter_list_ok]|].
  rewrite <-Hk. eapply Hl; [exact Hin|exact Hc| |].
  - apply (filter_key_signature c s); [by eapply sanitize_filter_clean|done].
  - rewrite Hk. done.
Qed.

(** ** Properties *)

(** The signature learner is exact: a rule is produced if and only if it is the
    block rule of a signature that occurs in the events with at least [min_count]
    strongly denied requests (or, with [learn_observed], at least [min_count]
    events in all), and it is built from exactly that signature's events. *)
Theorem signature_learner_exact events min_count ttl_seconds learn_observed fs f :
  deterministic_signature_filters events min_count ttl_seconds learn_observed = Ok fs ->
  f ∈ fs <->
  exists s strong ttl,
    let g := filter (fun e => has_signature s e) events in
    g <> [] /\ bounded_ttl_seconds (VInt ttl_seconds) 60 = Ok ttl /\
    count_events strong_reason g = Ok strong /\
    ((min_count <= Z.of_nat strong)%Z \/ learn_observed = true /\ (min_count <= Z.of_nat (length g))%Z) /\
    f = signature_rule ttl s g strong.
Proof.
  intros H. rewrite (deterministic_signature_filters_In _ _ _ _ _ _ H). unfold enough_evidence.
  split; intros (s & n & t & Hg & Ht & Hn & He & ->); exists s, n, t; repeat split; try done.
  - apply orb_true_iff in He as [He|He]; [left|right; bool_prop]; by rewrite ?Z.leb_le in *.
  - apply orb_true_iff. rewrite andb_true_iff, !Z.leb_le. done.
Qed.

(** Two denied requests and one observed request of one signature, one denied
    request of another. *)
Definition attack_event (signature path_shape reason : pystr) : pydict :=
  [(u "signature", VStr signature); (u "path_shape", VStr path_shape); (u "reason", VStr reason);
   (u "path", VStr (u "/api/x/1")); (u "user_agent", VStr (u "bot"))].

Definition sample_events : list pydict :=
  [attack_event (u "0123456789abcdef") (u "/api/:token/:num") (u "rate_limited");
   attack_event (u "fedcba9876543210") (u "/api/:token/:num") (u "filter_block");
   attack_event (u "0123456789abcdef") (u "/api/:token/:num") (u "observed");
   attack_event (u "0123456789abcdef") (u "/api/:token/:num") (u "body_too_large")].

Lemma signature_learner_exact_witness :
  exists f s n t, deterministic_signature_filters sample_events 2 60 false = Ok [f] /\
    f = signature_rule t s (filter (fun e => has_signature s e) sample_events) n /\
    ((2 <= Z.of_nat n)%Z \/ false = true /\ (2 <= Z.of_nat (length (filter (fun e => has_signature s e) sample_events)))%Z).
Proof.
  set (s := u "0123456789abcdef"). set (f := signature_rule 60 s (filter (fun e => has_signature s e) sample_events) 2).
  assert (H : deterministic_signature_filters sample_events 2 60 false = Ok [f]) by (vm_compute; reflexivity).
  assert (Hf : f ∈ [f]) by (apply elem_of_cons; left; reflexivity).
  destruct (proj1 (signature_learner_exact _ _ _ _ _ f H) Hf) as (s' & n & t & _ & _ & _ & He & Heq).
  exists f, s', n, t. split; [exact H|]. split; [exact Heq|exact He].
Defined.

(** The path-shape learner is exact: a rule is produced if and only if it is the
    block rule of a non-empty learnable shape whose events carry at least
    [min_count] distinct signatures and at least [min_count] strong denials, or
    [min_count] globally observed events, or (with [learn_observed]) [min_count]
    events in all. *)
Theorem path_shape_learner_exact events min_count ttl_seconds learn_observed fs f :
  deterministic_path_shape_filters events min_count ttl_seconds learn_observed = Ok fs ->
  f ∈ fs <->
  exists s strong global ttl,
    let g := filter (fun e => has_shape s e) events in
    s <> [] /\ is_learnable_attack_shape s = true /\ g <> [] /\
    bounded_ttl_seconds (VInt ttl_seconds) 60 = Ok ttl /\
    (min_count <= Z.of_nat (length (group_signatures g)))%Z /\
    count_events strong_reason g = Ok strong /\ count_events globally_observed g = Ok global /\
    ((min_count <= Z.of_nat strong)%Z \/ (min_count <= Z.of_nat global)%Z \/
     learn_observed = true /\ (min_count <= Z.of_nat (length g))%Z) /\
    f = shape_rule ttl s g (length (group_signatures g)) strong global.
Proof.
  intros H. rewrite (deterministic_path_shape_filters_In _ _ _ _ _ _ H). unfold enough_evidence.
  split; intros (s & n & m & t & H1 & H2 & H3 & H4 & H5 & H6 & H7 & He & ->); exists s, n, m, t; repeat split; try done.
  - rewrite !orb_true_iff, andb_true_iff, !Z.leb_le in He. tauto.
  - rewrite !orb_true_iff, andb_true_iff, !Z.leb_le. tauto.
Qed.

Lemma path_shape_learner_exact_witness :
  exists f, deterministic_path_shape_filters sample_events 2 60 false = Ok [f] /\
    exists s, is_learnable_attack_shape s = true /\ filter (fun e => has_shape s e) sample_events <> [].
Proof.
  set (s := u "/api/:token/:num"). set (f := shape_rule 60 s sample_events 2 3 0).
  assert (H : deterministic_path_shape_filters sample_events 2 60 false = Ok [f]) by (vm_compute; reflexivity).
  exists f. split; [exact H|].
  assert (Hf : f ∈ [f]) by (apply elem_of_cons; left; reflexivity).
  destruct (proj1 (path_shape_learner_exact _ _ _ _ _ f H) Hf) as (s' & n & m & t & _ & Hl & Hg & _).
  exists s'. split; [exact Hl|exact Hg].
Defined.

(** A provider cannot leave an attack signature uncovered: every supported
    signature with enough evidence has a rule keyed by it in the completed answer,
    whether the provider supplied it or not. *)
Theorem strong_signatures_covered provider_filters events min_count ttl_seconds learn_observed out s strong :
  merge_strong_coverage provider_filters events min_count ttl_seconds learn_observed = Ok out ->
  is_supported_signature s = true ->
  filter (fun e => has_signature s e) events <> [] ->
  count_events strong_reason (filter (fun e => has_signature s e) events) = Ok strong ->
  (min_count <= Z.of_nat strong)%Z ->
  u "signature:" ++ s ∈ (filter_key <$> out).
Proof. apply signature_covered. Qed.

Lemma strong_signatures_covered_witness :
  exists out, merge_strong_coverage [] sample_events 2 60 false = Ok out /\
    u "signature:" ++ u "0123456789abcdef" ∈ (filter_key <$> out).
Proof.
  destruct (merge_strong_coverage [] sample_events 2 60 false) as [out|e] eqn:H; [|exfalso; vm_compute in H; discriminate H].
  exists out. split; [reflexivity|].
  apply (strong_signatures_covered _ _ _ _ _ _ _ 2 H).
  - vm_compute. reflexivity.
  - intros Hg. vm_compute in Hg. discriminate Hg.
  - vm_compute. reflexivity.
  - lia.
Defined.

(** The completed answer starts with the provider's own sanitized rules, and
    every rule in it is in normal form and has at least one matcher. *)
Theorem provider_rules_kept provider_filters events min_count ttl_seconds learn_observed out :
  merge_strong_coverage provider_filters events min_count ttl_seconds learn_observed = Ok out ->
  (exists own, sanitized_filter_list provider_filters ttl_seconds = Ok own /\ own `prefix_of` out) /\
  Forall (fun r => clean_rule r /\ filter_has_matcher r = true) out.
Proof. intros H. destruct (merge_strong_coverage_ok _ _ _ _ _ _ H) as [H1 H2]. auto. Qed.

Lemma provider_rules_kept_witness :
  exists out own, merge_strong_coverage [VDict hostile_item] sample_events 2 60 false = Ok out /\
    sanitized_filter_list [VDict hostile_item] 60 = Ok own /\ own `prefix_of` out.
Proof.
  destruct (merge_strong_coverage [VDict hostile_item] sample_events 2 60 false) as [out|e] eqn:H;
    [|exfalso; vm_compute in H; discriminate H].
  destruct (provider_rules_kept _ _ _ _ _ _ H) as [(own & Hown & Hpre) _].
  exists out, own. split; [reflexivity|]. split; [exact Hown|exact Hpre].
Defined.
