(* ===== verification/Merge.v ===== *)
(** * Merge: the learned-filter store of CodexSDGate

    [tools/codex_analyzer.py]: [unique_filter_ids] with its retry loop and
    [merge_existing_filters] with its [upsert], which turn the filters on disk
    and the newly learned ones into the bounded, duplicate-free list that is
    written back. *)

From S2P Require Import Prelude Unicode PyStr PyFloat PyVal Sanitize.

(** ** Unique identifiers *)

(** [s[:n]] *)
Definition slice_to (n : Z) (s : pystr) : pystr :=
  if (0 <=? n)%Z then take (Z.to_nat n) s else take (Z.to_nat (Z.of_nat (length s) + n)) s.

Definition id_tail (suffix : N) : pystr := 45%N :: dec_N suffix.

(** The candidate built for [suffix] in the body of the [while] loop. *)
Definition id_candidate (base : pystr) (suffix : N) : pystr :=
  let tail := id_tail suffix in
  strip_by is_dash (slice_to (Z.of_nat FILTER_RULE_ID_MAX_BYTES - Z.of_nat (length tail)) base ++ tail).

(** [while candidate in seen: ...]; [None] when the fuel runs out. *)
Fixpoint fresh_loop (fuel : nat) (seen : list pystr) (base candidate : pystr) (suffix : N) : option pystr :=
  if existsb (str_eqb candidate) seen then
    match fuel with
    | O => None
    | S fuel' => fresh_loop fuel' seen base (id_candidate base suffix) (suffix + 1)
    end
  else Some candidate.

(** The loop needs at most one round per id already seen, plus one. *)
Definition fresh_id (seen : list pystr) (base : pystr) : option pystr :=
  fresh_loop (S (length seen)) seen base base 2.

Definition base_id (item : pydict) : pystr :=
  let raw := or_none (dget (u "id") item) in
  safe_id (if truthy raw then py_str raw else u "codex-learned-filter").

(** The loop over the filters: the ids seen so far and the output so far. *)
Definition unique_step (state : list pystr * list pydict) (item : pydict) :
    option (list pystr * list pydict) :=
  let '(seen, unique) := state in
  match fresh_id seen (base_id item) with
  | Some candidate => Some (candidate :: seen, unique ++ [dset (u "id") (VStr candidate) item])
  | None => None
  end.

Fixpoint unique_loop (state : list pystr * list pydict) (filters : list pydict) :
    option (list pystr * list pydict) :=
  match filters with
  | [] => Some state
  | item :: rest => match unique_step state item with
                    | Some state' => unique_loop state' rest
                    | None => None
                    end
  end.

(** [None] would be a loop that does not end; [unique_filter_ids_total] rules it
    out. *)
Definition unique_filter_ids (filters : list pydict) : option (list pydict) :=
  snd <$> unique_loop ([], []) filters.

(** ** The filter store *)

Definition upsert (ttl_seconds : Z) (merged : list (pystr * pydict)) (item : pydict) :
    res (list (pystr * pydict)) :=
  let* clean := sanitize_filter item ttl_seconds in
  if negb (filter_has_matcher clean) then Ok merged
  else
    let key := filter_key clean in
    if str_eqb key (u "id:") then Ok merged
    else Ok (dset key clean (dpop key merged)).

(** The dict [merged] after both loops. *)
Definition merge_store (existing new_filters : list pydict) (ttl_seconds : Z) :
    res (list (pystr * pydict)) :=
  let* merged := foldM (upsert ttl_seconds) [] existing in
  foldM (upsert ttl_seconds) merged new_filters.

Definition merge_existing_filters (existing new_filters : list pydict) (ttl_seconds max_filters : Z) :
    res (list pydict) :=
  let* merged := merge_store existing new_filters ttl_seconds in
  Ok (default [] (unique_filter_ids (last_n (Z.to_nat (Z.max 1 max_filters)) (dvalues merged)))).

(** ** Candidates carry their suffix *)

Lemma slice_to_prefix n s : slice_to n s `prefix_of` s.
Proof. unfold slice_to. destruct (0 <=? n)%Z; apply prefix_take. Qed.

Lemma slice_to_length n s : (0 <= n)%Z -> (Z.of_nat (length (slice_to n s)) <= n)%Z.
Proof.
  intros H. unfold slice_to. rewrite (proj2 (Z.leb_le 0 n)) by done. rewrite length_take. lia.
Qed.

Lemma dec_N_no_dash n : Forall (fun c => is_dash c = false) (dec_N n).
Proof.
  eapply Forall_impl; [apply dec_N_digits|]. intros c H%ascii_digit_lt.
  unfold is_dash, chr_is. apply N.eqb_neq. lia.
Qed.

Lemma dec_N_last n : exists c, last (dec_N n) = Some c /\ is_dash c = false.
Proof.
  destruct (last (dec_N n)) as [c|] eqn:E.
  - exists c. split; [done|]. pose proof (dec_N_no_dash n) as H. rewrite Forall_forall in H.
    apply H. by apply last_Some_elem_of.
  - apply last_None in E. by destruct (dec_N_nonempty n).
Qed.

Lemma dec_N_stripped n : stripped is_dash (dec_N n).
Proof.
  destruct (dec_N_last n) as (c & Hc & Hd). split; [|by rewrite Hc].
  pose proof (dec_N_no_dash n) as H. destruct (dec_N n); [done|]. by apply Forall_cons in H as [? _].
Qed.

(** A candidate is the bare suffix or a prefix of the base, a dash and the
    suffix. *)
Lemma id_candidate_form base k :
  clean_id base ->
  let pre := slice_to (Z.of_nat FILTER_RULE_ID_MAX_BYTES - Z.of_nat (length (id_tail k))) base in
  id_candidate base k = if decide (pre = []) then dec_N k else pre ++ 45%N :: dec_N k.
Proof.
  intros (Hne & Hlen & Hsafe & Hh & _) pre. unfold id_candidate. fold pre.
  pose proof (slice_to_prefix (Z.of_nat FILTER_RULE_ID_MAX_BYTES - Z.of_nat (length (id_tail k))) base) as Hpre.
  fold pre in Hpre. case_decide as Hp.
  - rewrite Hp, app_nil_l. unfold id_tail, strip_by, lstrip_by. cbn [drop_while].
    change (is_dash 45) with true. cbn [drop_while].
    apply (strip_by_id is_dash (dec_N k)), dec_N_stripped.
  - apply strip_by_id. split.
    + destruct pre as [|c pre']; [done|]. destruct Hpre as [r ->]. done.
    + unfold id_tail. rewrite last_app, last_cons. destruct (dec_N_last k) as (c & -> & Hc). done.
Qed.

Definition after_last_dash (s : pystr) : pystr := rev (take_while (fun c => negb (is_dash c)) (rev s)).

Lemma take_while_all {A} (p : A -> bool) l : Forall (fun x => p x = true) l -> take_while p l = l.
Proof. induction 1 as [|x l Hx _ IH]; cbn; [done|]. by rewrite Hx, IH. Qed.

Lemma take_while_app {A} (p : A -> bool) l x r :
  Forall (fun y => p y = true) l -> p x = false -> take_while p (l ++ x :: r) = l.
Proof. induction 1 as [|y l Hy _ IH]; cbn; intros Hx; [by rewrite Hx|]. rewrite Hy, IH; done. Qed.

Lemma after_last_dash_candidate base k : clean_id base -> after_last_dash (id_candidate base k) = dec_N k.
Proof.
  intros Hb. rewrite id_candidate_form by done. unfold after_last_dash.
  assert (Hd : Forall (fun c => negb (is_dash c) = true) (rev (dec_N k))).
  { apply Forall_rev. eapply Forall_impl; [apply dec_N_no_dash|]. by intros c ->. }
  case_decide.
  - by rewrite take_while_all, rev_involutive.
  - rewrite rev_app_distr. cbn [rev]. rewrite <-app_assoc. cbn [app]. rewrite take_while_app by done. apply rev_involutive.
Qed.

Lemma id_candidate_inj base k1 k2 :
  clean_id base -> id_candidate base k1 = id_candidate base k2 -> k1 = k2.
Proof.
  intros Hb H. apply dec_N_inj. by rewrite <-!(after_last_dash_candidate base), H.
Qed.

(** Candidates are rule ids again, as long as the suffix fits. *)
Lemma id_candidate_clean base k :
  clean_id base -> (k < 10 ^ 90)%N -> clean_id (id_candidate base k).
Proof.
  intros Hb Hk. pose proof Hb as (Hne & Hlen & Hsafe & Hh & _).
  assert (Hl : length (dec_N k) <= 90) by (apply dec_N_length; [done|lia]).
  assert (Hdig : Forall (fun c => safe_char c = true) (dec_N k)).
  { eapply Forall_impl; [apply dec_N_digits|]. intros c Hc. unfold safe_char, is_ascii_alnum.
    unfold is_ascii_digit in Hc. unfold in_char_range. rewrite Hc. by rewrite orb_true_r. }
  rewrite id_candidate_form by done.
  set (n := (Z.of_nat FILTER_RULE_ID_MAX_BYTES - Z.of_nat (length (id_tail k)))%Z).
  assert (Hn : (0 <= n)%Z) by (unfold n, id_tail, FILTER_RULE_ID_MAX_BYTES; cbn [length]; lia).
  pose proof (slice_to_prefix n base) as [r Hr]. pose proof (slice_to_length n base Hn) as Hsl.
  case_decide as Hp.
  - split; [apply dec_N_nonempty|]. split; [unfold FILTER_RULE_ID_MAX_BYTES; lia|].
    split; [done|]. apply dec_N_stripped.
  - split; [by destruct (slice_to n base)|]. split.
    { assert (n = 96 - Z.of_nat (S (length (dec_N k))))%Z as Hn96 by done.
      rewrite length_app. cbn [length]. unfold FILTER_RULE_ID_MAX_BYTES. lia. }
    split.
    + apply Forall_app. split; [|by constructor]. rewrite Hr in Hsafe. by apply Forall_app in Hsafe as [? _].
    + split.
      * destruct (slice_to n base) as [|c pre]; [done|]. rewrite Hr in Hh. done.
      * rewrite last_app, last_cons. destruct (dec_N_last k) as (c & -> & Hc). done.
Qed.

(** ** The retry loop ends *)

Lemma fresh_loop_Some fuel seen base c k x :
  fresh_loop fuel seen base c k = Some x ->
  (x ∉ seen) /\ (x = c \/ exists j, (k <= j < k + N.of_nat fuel)%N /\ x = id_candidate base j).
Proof.
  revert c k. induction fuel as [|fuel IH]; intros c k; cbn [fresh_loop];
    destruct (existsb (str_eqb c) seen) eqn:E; intros H; simplify_eq.
  1, 3: split; [|by left]; intros Hin; apply existsb_str_eqb in Hin; congruence.
  destruct (IH _ _ H) as [Hx [->|(j & Hj & ->)]].
  - split; [done|]. right. exists k. split; [lia|done].
  - split; [done|]. right. exists j. split; [lia|done].
Qed.

Lemma fresh_loop_None fuel seen base c k :
  fresh_loop fuel seen base c k = None ->
  forall j, (k <= j < k + N.of_nat fuel)%N -> id_candidate base j ∈ seen.
Proof.
  revert c k. induction fuel as [|fuel IH]; intros c k; cbn [fresh_loop];
    destruct (existsb (str_eqb c) seen) eqn:E; intros H j Hj; simplify_eq; [lia|].
  destruct (decide (j = k)) as [->|Hne].
  - destruct fuel; cbn [fresh_loop] in H;
      (destruct (existsb (str_eqb (id_candidate base k)) seen) eqn:E'; [|done]; by apply existsb_str_eqb).
  - eapply IH; [exact H|]. lia.
Qed.

Lemma fresh_id_total seen base : clean_id base -> exists x, fresh_id seen base = Some x.
Proof.
  intros Hb. unfold fresh_id.
  destruct (fresh_loop (S (length seen)) seen base base 2) as [x|] eqn:E; [eauto|exfalso].
  set (cands := (fun i => id_candidate base (2 + N.of_nat i)) <$> seq 0 (S (length seen))).
  assert (Hnd : NoDup cands).
  { apply NoDup_fmap_2_strong; [|apply NoDup_seq]. intros i j _ _ H%id_candidate_inj; [lia|done]. }
  assert (Hin : cands ⊆ seen).
  { intros x (i & -> & Hi)%list_elem_of_fmap. apply elem_of_seq in Hi.
    eapply fresh_loop_None; [exact E|]. lia. }
  pose proof (submseteq_length _ _ (NoDup_submseteq _ _ Hnd Hin)) as Hlen.
  unfold cands in Hlen. rewrite length_fmap, length_seq in Hlen. lia.
Qed.

(** ** Unique ids *)

(** [item] with its id replaced by [i]. *)
Definition with_id (i : pystr) (item : pydict) : pydict := dset (u "id") (VStr i) item.

(** The output of the loop: the items in order, under pairwise distinct ids; an
    item keeps its own id when nothing before it took it. *)
Fixpoint renamed (seen : list pystr) (filters out : list pydict) : Prop :=
  match filters, out with
  | [], [] => True
  | item :: fs, o :: os =>
      exists i, o = with_id i item /\ (i ∉ seen) /\
        (base_id item ∉ seen -> i = base_id item) /\
        ((N.of_nat (length seen) < 10 ^ 80)%N -> clean_id i) /\
        renamed (i :: seen) fs os
  | _, _ => False
  end.

Lemma fresh_id_spec seen base i :
  clean_id base -> fresh_id seen base = Some i ->
  (i ∉ seen) /\ (base ∉ seen -> i = base) /\ ((N.of_nat (length seen) < 10 ^ 80)%N -> clean_id i).
Proof.
  intros Hb H. unfold fresh_id in H. pose proof (fresh_loop_Some _ _ _ _ _ _ H) as [Hi Hor].
  split; [done|]. split.
  - intros Hn. cbn [fresh_loop] in H.
    destruct (existsb (str_eqb base) seen) eqn:E; [|by simplify_eq].
    apply existsb_str_eqb in E. done.
  - intros Hlen. destruct Hor as [->|(j & Hj & ->)]; [done|].
    apply id_candidate_clean; [done|].
    assert (10 ^ 80 + 3 < 10 ^ 90)%N by (vm_compute; reflexivity). lia.
Qed.

Lemma base_id_clean item : clean_id (base_id item).
Proof. apply safe_id_clean. Qed.

Lemma unique_loop_renamed seen unique filters :
  exists out seen', unique_loop (seen, unique) filters = Some (seen', unique ++ out) /\
    renamed seen filters out.
Proof.
  revert seen unique. induction filters as [|item fs IH]; intros seen unique; cbn [unique_loop].
  { exists [], seen. by rewrite app_nil_r. }
  unfold unique_step. destruct (fresh_id_total seen (base_id item) (base_id_clean item)) as [i Hi].
  rewrite Hi. destruct (IH (i :: seen) (unique ++ [dset (u "id") (VStr i) item])) as (out & seen' & -> & Hr).
  exists (with_id i item :: out), seen'. rewrite <-app_assoc. split; [done|]. cbn.
  exists i. destruct (fresh_id_spec _ _ _ (base_id_clean item) Hi) as (H1 & H2 & H3). auto.
Qed.

Lemma unique_filter_ids_renamed filters :
  exists out, unique_filter_ids filters = Some out /\ renamed [] filters out.
Proof.
  unfold unique_filter_ids. destruct (unique_loop_renamed [] [] filters) as (out & seen' & -> & Hr).
  exists out. done.
Qed.

Lemma renamed_length seen fs out : renamed seen fs out -> length out = length fs.
Proof.
  revert seen out. induction fs as [|item fs IH]; intros seen [|o out]; cbn; try done.
  intros (i & _ & _ & _ & _ & H). by rewrite (IH _ _ H).
Qed.

(** Ids in the order of the output. *)
Lemma renamed_names seen fs out :
  renamed seen fs out ->
  exists names, length names = length fs /\ out = zip_with with_id names fs /\
    NoDup names /\ (forall i, i ∈ names -> i ∉ seen) /\
    ((N.of_nat (length seen + length fs) < 10 ^ 80)%N -> Forall clean_id names).
Proof.
  revert seen out. induction fs as [|item fs IH]; intros seen [|o out]; cbn; try done.
  { intros _. exists []. split; [done|]. split; [done|]. split; [by constructor|].
    split; [by intros ? ?%not_elem_of_nil|]. by constructor. }
  intros (i & -> & Hi & _ & Hc & H). destruct (IH _ _ H) as (names & Hl & -> & Hnd & Hfresh & Hclean).
  exists (i :: names). cbn. split; [by rewrite Hl|]. split; [done|]. split.
  { constructor; [|done]. intros Hin. apply Hfresh in Hin. apply Hin, elem_of_cons. by left. }
  split.
  - intros j [->|Hj]%elem_of_cons; [done|]. apply Hfresh in Hj. by apply not_elem_of_cons in Hj as [_ ?].
  - intros Hlen. constructor; [apply Hc; lia|]. apply Hclean. cbn [length]. lia.
Qed.

(** ** The store keeps the last version of each key, most recent last *)

(** The (key, rule) an item contributes, if any. *)
Definition accepted (ttl_seconds : Z) (item : pydict) : res (option (pystr * pydict)) :=
  let* clean := sanitize_filter item ttl_seconds in
  Ok (if filter_has_matcher clean && negb (str_eqb (filter_key clean) (u "id:"))
      then Some (filter_key clean, clean) else None).

(** Specification: keep each key's last entry, in the order of those entries. *)
Fixpoint dedup_last {A} (l : list (pystr * A)) : list (pystr * A) :=
  match l with
  | [] => []
  | kv :: t => if existsb (fun kv' => str_eqb kv.1 kv'.1) t then dedup_last t else kv :: dedup_last t
  end.

Section dedup.
Context {A : Type}.
Implicit Types (l acc : list (pystr * A)).

Lemma existsb_key k l : existsb (fun kv' => str_eqb k kv'.1) l = true <-> k ∈ dkeys l.
Proof.
  rewrite existsb_exists. unfold dkeys. rewrite list_elem_of_fmap. split.
  - intros (kv & Hin & Hk%str_eqb_eq). exists kv. split; [done|]. by apply list_elem_of_In.
  - intros (kv & -> & Hin). exists kv. split; [by apply list_elem_of_In|apply str_eqb_refl].
Qed.

Lemma dedup_last_keys l k : k ∈ dkeys (dedup_last l) <-> k ∈ dkeys l.
Proof.
  induction l as [|kv l IH]; cbn [dedup_last]; [done|].
  destruct (existsb (fun kv' => str_eqb kv.1 kv'.1) l) eqn:E.
  - apply existsb_key in E. rewrite IH. cbn. rewrite elem_of_cons. naive_solver.
  - cbn. rewrite !elem_of_cons. unfold dkeys in IH. by rewrite IH.
Qed.

Lemma dedup_last_ok l : dict_ok (dedup_last l).
Proof.
  unfold dict_ok. induction l as [|kv l IH]; cbn [dedup_last]; [constructor|].
  destruct (existsb (fun kv' => str_eqb kv.1 kv'.1) l) eqn:E; [done|].
  cbn. constructor; [|done]. change (kv.1 ∉ dkeys (dedup_last l)). rewrite dedup_last_keys.
  intros Hin%existsb_key. congruence.
Qed.

Lemma dedup_last_sublist l : sublist (dedup_last l) l.
Proof.
  induction l as [|kv l IH]; cbn [dedup_last]; [done|].
  destruct (existsb _ l); by constructor.
Qed.

Lemma dedup_last_id l : dict_ok l -> dedup_last l = l.
Proof.
  unfold dict_ok. induction l as [|kv l IH]; [done|]. cbn. intros [Hk Hl]%NoDup_cons.
  destruct (existsb (fun kv' => str_eqb kv.1 kv'.1) l) eqn:E; [|by rewrite IH].
  apply existsb_key in E. done.
Qed.

Lemma dpop_filter k l : dict_ok l -> dpop k l = filter (fun kv => kv.1 <> k) l.
Proof.
  unfold dict_ok. induction l as [|[k' v] l IH]; [done|]. cbn [fmap list_fmap dpop].
  intros [Hk Hl]%NoDup_cons. destruct (str_eqb k k') eqn:E.
  - apply str_eqb_eq in E as ->. rewrite filter_cons_False by (cbn; naive_solver).
    symmetry. apply filter_all, Forall_forall. intros kv Hkv Heq. apply Hk.
    apply list_elem_of_fmap. by exists kv.
  - rewrite filter_cons_True, IH; [done|done|]. cbn. intros ->. by rewrite str_eqb_refl in E.
Qed.

(** [merged.pop(key, None); merged[key] = clean] is one step of the
    specification. *)
Lemma dedup_last_snoc l kv :
  dset kv.1 kv.2 (dpop kv.1 (dedup_last l)) = dedup_last (l ++ [kv]).
Proof.
  rewrite dset_not_mem.
  2:{ apply dget_None, dget_dpop_eq, dedup_last_ok. }
  rewrite dpop_filter by apply dedup_last_ok.
  induction l as [|[k v] l IH]; cbn [dedup_last app]; [by destruct kv|].
  rewrite existsb_app. cbn [existsb fst]. rewrite orb_false_r.
  destruct (existsb (fun kv' => str_eqb k kv'.1) l) eqn:E; cbn [orb]; [done|].
  destruct (str_eqb k kv.1) eqn:Ek.
  - rewrite filter_cons_False; [done|]. cbn. apply str_eqb_eq in Ek. naive_solver.
  - rewrite filter_cons_True; [by rewrite <-IH|]. cbn. intros ->. by rewrite str_eqb_refl in Ek.
Qed.
End dedup.

Lemma upsert_accepted ttl m item :
  upsert ttl m item =
  let* o := accepted ttl item in
  Ok (match o with Some kv => dset kv.1 kv.2 (dpop kv.1 m) | None => m end).
Proof.
  unfold upsert, accepted. destruct (sanitize_filter item ttl) as [c|]; cbn [rbind]; [|done].
  destruct (filter_has_matcher c); cbn; [|done]. by destruct (str_eqb _ _).
Qed.

Lemma foldM_upsert ttl l items m :
  foldM (upsert ttl) (dedup_last l) items = Ok m <->
  exists os, mapR (accepted ttl) items = Ok os /\ m = dedup_last (l ++ omap id os).
Proof.
  revert l. induction items as [|item items IH]; intros l; cbn [foldM mapR].
  { split; [intros [= <-]; exists []; by rewrite app_nil_r|].
    intros (os & [= <-] & ->). by rewrite app_nil_r. }
  rewrite upsert_accepted. destruct (accepted ttl item) as [[kv|]|] eqn:E; cbn [rbind].
  - rewrite dedup_last_snoc, IH. split.
    + intros (os & -> & ->). eexists. split; [done|]. cbn. by rewrite <-app_assoc.
    + intros (os & H & ->). apply bind_ok in H as (os' & Hos & [= <-]).
      exists os'. split; [done|]. cbn. by rewrite <-app_assoc.
  - rewrite IH. split.
    + intros (os & -> & ->). eexists. split; [done|]. done.
    + intros (os & H & ->). apply bind_ok in H as (os' & Hos & [= <-]). by exists os'.
  - split; [done|]. naive_solver.
Qed.

Lemma mapR_app {A B} (f : A -> res B) l1 l2 :
  mapR f (l1 ++ l2) = let* a := mapR f l1 in let* b := mapR f l2 in Ok (a ++ b).
Proof.
  induction l1 as [|x l1 IH]; cbn [mapR app rbind]; [by destruct (mapR f l2)|].
  rewrite IH. destruct (f x), (mapR f l1), (mapR f l2); done.
Qed.

(** The store refines the specification. *)
Lemma merge_store_spec existing new ttl m :
  merge_store existing new ttl = Ok m <->
  exists os, mapR (accepted ttl) (existing ++ new) = Ok os /\ m = dedup_last (omap id os).
Proof.
  unfold merge_store. rewrite mapR_app. split.
  - intros (m1 & H1 & H2)%bind_ok. apply (foldM_upsert ttl []) in H1 as (os1 & Hos1 & ->).
    apply foldM_upsert in H2 as (os2 & Hos2 & ->). rewrite Hos1. cbn. rewrite Hos2. cbn.
    eexists. split; [done|]. by rewrite omap_app.
  - intros (os & H & ->). apply bind_ok in H as (os1 & Hos1 & H).
    apply bind_ok in H as (os2 & Hos2 & [= <-]).
    apply bind_ok. exists (dedup_last (omap id os1)). split.
    + apply (foldM_upsert ttl []). eauto.
    + apply foldM_upsert. exists os2. by rewrite omap_app.
Qed.

(** A stored entry: a clean rule with a matcher, filed under its key. *)
Definition stored (kv : pystr * pydict) : Prop :=
  clean_rule kv.2 /\ filter_has_matcher kv.2 = true /\ filter_key kv.2 = kv.1 /\ kv.1 <> u "id:".

Lemma accepted_stored ttl item kv : accepted ttl item = Ok (Some kv) -> stored kv.
Proof.
  unfold accepted. intros H. apply bind_ok in H as (c & Hc & [= H]).
  destruct (filter_has_matcher c && _) eqn:E; simplify_eq. bool_prop.
  split; [by eapply sanitize_filter_clean|]. split; [done|]. split; [done|]. cbn.
  intros Heq. rewrite Heq, str_eqb_refl in H0. done.
Qed.

Lemma merge_store_stored existing new ttl m :
  merge_store existing new ttl = Ok m -> dict_ok m /\ Forall stored m.
Proof.
  intros (os & Hos & ->)%merge_store_spec. split; [apply dedup_last_ok|].
  eapply Forall_sublist; [apply dedup_last_sublist|].
  apply mapR_ok in Hos. induction Hos as [|item o items os Ho _ IH]; cbn; [done|].
  destruct o as [kv|]; cbn; [constructor; [by eapply accepted_stored|done]|done].
Qed.

(** ** The merged list is a fixed point *)

(** The part of a rule's key that does not depend on its id. *)
Definition condition_key (c : pydict) : option pystr :=
  match or_none (dget (u "signature") c), or_none (dget (u "path_shape") c) with
  | VStr s, _ => Some (u "signature:" ++ s)
  | _, VStr s => Some (u "path_shape:" ++ s)
  | _, _ => None
  end.

Lemma filter_key_rule i en pr t c :
  filter_key (mk_rule i en pr t c) = default (u "id:" ++ i) (condition_key c).
Proof.
  unfold filter_key. rewrite rule_condition, rule_id. cbn [default from_option].
  unfold condition_key, Datatypes.id. destruct (or_none (dget (u "signature") c));
    destruct (or_none (dget (u "path_shape") c)); done.
Qed.

Lemma condition_key_not_id c k i : condition_key c = Some k -> k <> u "id:" ++ i.
Proof. unfold condition_key. intros H Heq. repeat case_match; simplify_eq. Qed.

Lemma with_id_rule j i en pr t c : with_id j (mk_rule i en pr t c) = mk_rule j en pr t c.
Proof. reflexivity. Qed.

Lemma base_id_rule i en pr t c : clean_id i -> base_id (mk_rule i en pr t c) = i.
Proof.
  intros Hi. unfold base_id. rewrite rule_id. cbn [or_none default from_option]. unfold Datatypes.id.
  pose proof (safe_id_fix i Hi) as Hf. destruct i; [by destruct Hi|]. by cbn [truthy py_str].
Qed.

Lemma with_own_id r : clean_rule r -> with_id (base_id r) r = r.
Proof. intros (i & en & pr & t & c & -> & Hi & _). by rewrite base_id_rule. Qed.

Lemma stored_with_id i r :
  clean_id i -> clean_rule r -> filter_has_matcher r = true ->
  stored (filter_key (with_id i r), with_id i r) /\ base_id (with_id i r) = i.
Proof.
  intros Hi (i0 & en & pr & t & c & -> & _ & Ht & Hc) Hm. rewrite with_id_rule.
  split; [|by apply base_id_rule]. unfold stored. cbn [fst snd]. split; [by exists i, en, pr, t, c|].
  split; [done|]. split; [done|]. rewrite filter_key_rule.
  destruct (condition_key c) as [k|] eqn:E; cbn.
  - intros ->. apply (condition_key_not_id _ _ [] E). done.
  - intros H. apply (f_equal length) in H. destruct Hi as [Hne _]. destruct i; [done|].
    rewrite length_app in H. cbn in H. lia.
Qed.

(** Renaming keeps the keys apart. *)
Lemma renamed_keys_distinct names rules :
  length names = length rules -> NoDup names -> Forall clean_rule rules ->
  NoDup (filter_key <$> rules) -> NoDup (filter_key <$> zip_with with_id names rules).
Proof.
  intros Hlen Hnames Hrules Hkeys. apply NoDup_alt. intros i j k Hi Hj.
  rewrite list_lookup_fmap in Hi, Hj.
  destruct (zip_with with_id names rules !! i) as [ri|] eqn:Ei; [|done].
  destruct (zip_with with_id names rules !! j) as [rj|] eqn:Ej; [|done].
  apply lookup_zip_with_Some in Ei as (ni & si & -> & Hni & Hsi).
  apply lookup_zip_with_Some in Ej as (nj & sj & -> & Hnj & Hsj). cbn in Hi, Hj.
  destruct (Forall_lookup_1 _ _ _ _ Hrules Hsi) as (a1 & a2 & a3 & a4 & ci & -> & _).
  destruct (Forall_lookup_1 _ _ _ _ Hrules Hsj) as (b1 & b2 & b3 & b4 & cj & -> & _).
  rewrite with_id_rule, filter_key_rule in Hi, Hj.
  destruct (condition_key ci) as [ki|] eqn:Eki, (condition_key cj) as [kj|] eqn:Ekj; cbn in Hi, Hj; simplify_eq.
  - rewrite NoDup_alt in Hkeys. apply (Hkeys i j k); rewrite list_lookup_fmap.
    + rewrite Hsi. cbn. by rewrite filter_key_rule, Eki.
    + rewrite Hsj. cbn. by rewrite filter_key_rule, Ekj.
  - by destruct (condition_key_not_id _ _ nj Eki).
  - exfalso. apply (condition_key_not_id _ _ ni Ekj). done.
  - rewrite NoDup_alt in Hnames. eapply Hnames; eauto.
Qed.

(** What [merge_existing_filters] guarantees about the list it returns. *)
Definition learned_list (max_filters : Z) (out : list pydict) : Prop :=
  Forall (fun r => clean_rule r /\ filter_has_matcher r = true) out /\
  NoDup (filter_key <$> out) /\ NoDup (base_id <$> out) /\
  Forall (fun r => filter_key r <> u "id:") out /\
  (Z.of_nat (length out) <= Z.max 1 max_filters)%Z.

Lemma merged_out_learned names rules mx :
  length names = length rules -> NoDup names -> Forall clean_id names ->
  Forall (fun r => clean_rule r /\ filter_has_matcher r = true) rules ->
  NoDup (filter_key <$> rules) -> (Z.of_nat (length rules) <= Z.max 1 mx)%Z ->
  learned_list mx (zip_with with_id names rules).
Proof.
  intros Hlen Hnames Hclean Hrules Hkeys Hmx.
  assert (Hst : forall r, r ∈ zip_with with_id names rules ->
            stored (filter_key r, r) /\ exists n, n ∈ names /\ base_id r = n).
  { intros r Hr. apply list_elem_of_lookup in Hr as [i Hi].
    apply lookup_zip_with_Some in Hi as (n & s & -> & Hn & Hs).
    destruct (Forall_lookup_1 _ _ _ _ Hrules Hs) as [Hr Hm].
    destruct (stored_with_id n s (Forall_lookup_1 _ _ _ _ Hclean Hn) Hr Hm) as [? ?].
    split; [done|]. exists n. split; [by eapply list_elem_of_lookup_2|done]. }
  unfold learned_list. split.
  { apply Forall_forall. intros r Hr. destruct (Hst r Hr) as [(? & ? & _) _]. done. }
  split.
  { apply renamed_keys_distinct; try done. eapply Forall_impl; [exact Hrules|]. by intros ? [? _]. }
  split.
  { assert (base_id <$> zip_with with_id names rules = names) as ->; [|done].
    apply list_eq. intros i. rewrite list_lookup_fmap, lookup_zip_with.
    destruct (names !! i) as [n|] eqn:En; cbn.
    - destruct (rules !! i) as [s|] eqn:Es; cbn.
      + destruct (Forall_lookup_1 _ _ _ _ Hrules Es) as [Hr Hm].
        f_equal. by apply (stored_with_id n s (Forall_lookup_1 _ _ _ _ Hclean En) Hr Hm).
      + apply lookup_lt_Some in En. apply lookup_ge_None in Es. lia.
    - done. }
  split; [|rewrite length_zip_with; lia].
  apply Forall_forall. intros r Hr. destruct (Hst r Hr) as [(_ & _ & _ & H) _]. done.
Qed.

Lemma last_n_NoDup {A B} (f : A -> B) n l : NoDup (f <$> l) -> NoDup (f <$> last_n n l).
Proof. intros H. eapply sublist_NoDup; [exact H|]. apply fmap_sublist, last_n_sublist. Qed.

Lemma stored_keys m : Forall stored m -> filter_key <$> dvalues m = dkeys m.
Proof.
  unfold dvalues, dkeys. induction 1 as [|kv m (_ & _ & Hk & _) _ IH]; cbn; [done|]. by rewrite Hk, IH.
Qed.

(** Store sizes are far below this; ids need the room for their suffix. *)
Definition plausible_max (max_filters : Z) : Prop := (max_filters < 10 ^ 60)%Z.

Lemma merge_existing_filters_learned existing new ttl mx out :
  plausible_max mx ->
  merge_existing_filters existing new ttl mx = Ok out -> learned_list mx out.
Proof.
  unfold merge_existing_filters, plausible_max. intros Hmx H. apply bind_ok in H as (m & Hm & [= <-]).
  apply merge_store_stored in Hm as [Hok Hst].
  set (n := Z.to_nat (Z.max 1 mx)).
  destruct (unique_filter_ids_renamed (last_n n (dvalues m))) as (out & -> & Hr). cbn.
  assert (Hlen : (Z.of_nat (length (last_n n (dvalues m))) <= Z.max 1 mx)%Z).
  { rewrite last_n_length. unfold n. lia. }
  apply renamed_names in Hr as (names & Hl & -> & Hnd & _ & Hclean).
  apply merged_out_learned; try done.
  - apply Hclean. cbn [length]. assert (10 ^ 60 < 10 ^ 80)%Z by (vm_compute; done). lia.
  - eapply Forall_sublist; [apply last_n_sublist|]. unfold dvalues. apply Forall_fmap.
    eapply Forall_impl; [exact Hst|]. by intros kv (? & ? & _).
  - apply last_n_NoDup. rewrite stored_keys by done. exact Hok.
Qed.

Lemma renamed_id seen fs out :
  renamed seen fs out -> Forall clean_rule fs -> NoDup (base_id <$> fs) ->
  (forall r, r ∈ fs -> base_id r ∉ seen) -> out = fs.
Proof.
  revert seen out. induction fs as [|r fs IH]; intros seen [|o out]; cbn [renamed]; try done.
  intros (i & -> & Hi & Hkeep & _ & Hr) [Hc Hcs]%Forall_cons. cbn. intros [Hn Hnd]%NoDup_cons Hseen.
  rewrite (Hkeep (Hseen r ltac:(apply elem_of_cons; by left))) in *.
  f_equal; [by apply with_own_id|]. eapply IH; [exact Hr|done|done|].
  intros r' Hr'. apply not_elem_of_cons. split; [|apply Hseen, elem_of_cons; by right].
  intros Heq. apply Hn. rewrite <-Heq. apply list_elem_of_fmap. eauto.
Qed.

Lemma mapR_accepted_clean ttl l :
  Forall (fun r => clean_rule r /\ filter_has_matcher r = true) l ->
  Forall (fun r => filter_key r <> u "id:") l ->
  mapR (accepted ttl) l = Ok ((fun r => Some (filter_key r, r)) <$> l).
Proof.
  induction 1 as [|r l [Hc Hm] _ IH]; [done|]. intros [Hk Hks]%Forall_cons. cbn [mapR fmap list_fmap].
  unfold accepted at 1. rewrite sanitize_filter_fix by done. cbn [rbind].
  rewrite Hm, str_eqb_neq by done. cbn [rbind]. by rewrite IH.
Qed.

Lemma omap_id_Some {A B} (f : A -> B) (l : list A) : omap id ((fun x => Some (f x)) <$> l) = f <$> l.
Proof. induction l as [|x l IH]; cbn; [done|]. by f_equal. Qed.

Lemma merge_store_learned ttl mx l :
  learned_list mx l -> merge_store l [] ttl = Ok ((fun r => (filter_key r, r)) <$> l).
Proof.
  intros (Hc & Hkeys & _ & Hid & _). apply merge_store_spec. rewrite app_nil_r.
  eexists. split; [by apply mapR_accepted_clean|]. rewrite omap_id_Some.
  rewrite dedup_last_id; [done|]. unfold dict_ok, dkeys. by rewrite <-list_fmap_compose.
Qed.

Lemma merge_existing_filters_fix ttl mx l :
  learned_list mx l -> merge_existing_filters l [] ttl mx = Ok l.
Proof.
  intros Hl. pose proof Hl as (Hc & _ & Hids & _ & Hlen). unfold merge_existing_filters.
  rewrite (merge_store_learned ttl mx) by done. cbn [rbind]. unfold dvalues.
  rewrite <-list_fmap_compose, (list_fmap_ext _ id) by done. rewrite list_fmap_id, last_n_all by lia.
  destruct (unique_filter_ids_renamed l) as (out & -> & Hr). cbn. f_equal.
  eapply renamed_id; [exact Hr| |done|].
  - eapply Forall_impl; [exact Hc|]. by intros ? [? _].
  - intros. apply not_elem_of_nil.
Qed.

(** A stored entry whose key is not rewritten later survives in the store. *)
Lemma dedup_last_keeps {A} (l1 l2 : list (pystr * A)) kv :
  kv.1 ∉ dkeys l2 -> kv ∈ dedup_last (l1 ++ kv :: l2).
Proof.
  intros Hn. induction l1 as [|x l1 IH]; cbn [app dedup_last].
  - destruct (existsb _ l2) eqn:E; [by apply existsb_key in E|]. apply elem_of_cons. by left.
  - destruct (existsb _ (l1 ++ kv :: l2)); [done|]. apply elem_of_cons. by right.
Qed.

Lemma with_id_condition i r : dget (u "condition") (with_id i r) = dget (u "condition") r.
Proof. unfold with_id. by rewrite dget_dset_ne. Qed.

(** Every entry of the store reaches the output, with the same condition, when
    the store is within its bound. *)
Lemma merge_existing_filters_keeps existing new ttl mx out m kv :
  merge_existing_filters existing new ttl mx = Ok out ->
  merge_store existing new ttl = Ok m -> kv ∈ m ->
  (Z.of_nat (length m) <= Z.max 1 mx)%Z ->
  exists r, r ∈ out /\ dget (u "condition") r = dget (u "condition") kv.2.
Proof.
  unfold merge_existing_filters. intros H Hm Hkv Hlen. rewrite Hm in H. cbn [rbind] in H.
  rewrite last_n_all in H.
  2:{ unfold dvalues. rewrite length_fmap. lia. }
  destruct (unique_filter_ids_renamed (dvalues m)) as (out' & Heq & Hr).
  rewrite Heq in H. cbn in H. injection H as <-.
  apply renamed_names in Hr as (names & Hl & -> & _).
  assert (Hin : kv.2 ∈ dvalues m) by (apply list_elem_of_fmap; eauto).
  apply list_elem_of_lookup in Hin as [i Hi].
  destruct (lookup_lt_is_Some_2 names i) as [n Hn].
  { rewrite Hl. by eapply lookup_lt_Some. }
  exists (with_id n kv.2). split; [|apply with_id_condition].
  eapply list_elem_of_lookup_2. apply lookup_zip_with_Some. eauto 10.
Qed.

(** ** New rules displace old ones *)

Lemma dedup_last_app {A} (l1 l2 : list (pystr * A)) :
  dedup_last (l1 ++ l2) =
  dedup_last (filter (fun kv => existsb (fun kv' => str_eqb kv.1 kv'.1) l2 = false) l1) ++ dedup_last l2.
Proof.
  induction l1 as [|kv l1 IH]; [done|]. cbn [app dedup_last]. rewrite existsb_app.
  destruct (existsb (fun kv' => str_eqb kv.1 kv'.1) l2) eqn:E.
  - rewrite orb_true_r, filter_cons_False by congruence. exact IH.
  - rewrite orb_false_r, filter_cons_True by done. cbn [dedup_last].
    assert (Heq : existsb (fun kv' => str_eqb kv.1 kv'.1) l1 =
      existsb (fun kv' => str_eqb kv.1 kv'.1) (filter (fun kv => existsb (fun kv' => str_eqb kv.1 kv'.1) l2 = false) l1)).
    { apply eq_true_iff_eq. rewrite !existsb_key. unfold dkeys. rewrite !list_elem_of_fmap.
      setoid_rewrite list_elem_of_filter. split; [|naive_solver].
      intros (x & Hx & Hin). exists x. rewrite <-Hx. auto. }
    rewrite <-Heq. destruct (existsb _ l1); [exact IH|]. cbn [app]. by f_equal.
Qed.

Lemma last_n_app_r {A} n (l1 l2 : list A) x : length l2 <= n -> x ∈ l2 -> x ∈ last_n n (l1 ++ l2).
Proof.
  intros Hn Hx. unfold last_n. rewrite length_app.
  destruct (decide (length l1 <= length l1 + length l2 - n)) as [Hle|Hgt].
  - replace (length l1 + length l2 - n) with (length l1) by lia. by rewrite drop_app_length.
  - rewrite drop_app_le by lia. apply elem_of_app. by right.
Qed.

Lemma dedup_last_length {A} (l : list (pystr * A)) : length (dedup_last l) <= length l.
Proof. apply sublist_length, dedup_last_sublist. Qed.

Lemma length_omap_le {A} (l : list (option A)) : length (omap id l) <= length l.
Proof. induction l as [|[x|] l IH]; cbn; lia. Qed.

Lemma merge_keeps_new existing new_filters ttl_seconds max_filters out os k r :
  merge_existing_filters existing new_filters ttl_seconds max_filters = Ok out ->
  (Z.of_nat (length new_filters) <= Z.max 1 max_filters)%Z ->
  mapR (accepted ttl_seconds) new_filters = Ok os ->
  (k, r) ∈ dedup_last (omap id os) ->
  exists r', r' ∈ out /\ dget (u "condition") r' = dget (u "condition") r.
Proof.
  unfold merge_existing_filters. intros H Hlen Hos Hin. apply bind_ok in H as (m & Hm & [= <-]).
  apply merge_store_spec in Hm as (os' & Hos' & ->). rewrite mapR_app, Hos in Hos'.
  apply bind_ok in Hos' as (os1 & _ & [= <-]). rewrite omap_app, dedup_last_app.
  set (n := Z.to_nat (Z.max 1 max_filters)).
  assert (Hkeep : r ∈ last_n n (dvalues (dedup_last (filter (fun kv =>
      existsb (fun kv' => str_eqb kv.1 kv'.1) (omap id os) = false) (omap id os1)) ++ dedup_last (omap id os)))).
  { unfold dvalues. rewrite fmap_app. apply last_n_app_r.
    - rewrite length_fmap. apply mapR_ok, Forall2_length in Hos.
      pose proof (dedup_last_length (omap id os)). pose proof (length_omap_le os). unfold n. lia.
    - apply list_elem_of_fmap. by exists (k, r). }
  revert Hkeep. generalize (last_n n (dvalues (dedup_last (filter (fun kv =>
      existsb (fun kv' => str_eqb kv.1 kv'.1) (omap id os) = false) (omap id os1)) ++ dedup_last (omap id os)))).
  intros l Hr. destruct (unique_filter_ids_renamed l) as (out & -> & Hren).
  apply renamed_names in Hren as (names & Hl & -> & _). cbn [default from_option].
  apply list_elem_of_lookup in Hr as [i Hi].
  destruct (lookup_lt_is_Some_2 names i) as [nm Hn]; [rewrite Hl; by eapply lookup_lt_Some|].
  exists (with_id nm r). split; [|apply with_id_condition].
  eapply list_elem_of_lookup_2. apply lookup_zip_with_Some. eauto 10.
Qed.

(** ** Properties *)

(** [unique_filter_ids] terminates on every input and renames only: the
    output has the input's items in order, each with only its id changed; the ids
    are pairwise distinct; an item keeps its own sanitized id when no earlier item
    took it; and the ids are again safe ids for any realistic number of rules. *)
Theorem unique_filter_ids_correct filters :
  exists out names, unique_filter_ids filters = Some out /\
    length names = length filters /\ out = zip_with with_id names filters /\ NoDup names /\
    renamed [] filters out /\
    ((N.of_nat (length filters) < 10 ^ 80)%N -> Forall clean_id names).
Proof.
  destruct (unique_filter_ids_renamed filters) as (out & Hout & Hr).
  destruct (renamed_names _ _ _ Hr) as (names & Hlen & Heq & Hnd & _ & Hc).
  exists out, names. auto 10.
Qed.



(** C7. The pop-then-insert dict of [merge_existing_filters] refines its
    specification: it holds, for each key, the rule of the last item accepted under
    that key, ordered by those last occurrences. *)
Theorem merge_store_refines existing new_filters ttl_seconds m :
  merge_store existing new_filters ttl_seconds = Ok m <->
  exists os, mapR (accepted ttl_seconds) (existing ++ new_filters) = Ok os /\ m = dedup_last (omap id os).
Proof. apply merge_store_spec. Qed.

(** C6. Whatever is on disk and whatever was learned, the list
    [merge_existing_filters] returns holds only normal-form rules with a matcher,
    with pairwise distinct keys and pairwise distinct ids, and at most
    [max(1, max_filters)] of them. *)
Theorem merged_filters_invariant existing new_filters ttl_seconds max_filters out :
  plausible_max max_filters ->
  merge_existing_filters existing new_filters ttl_seconds max_filters = Ok out ->
  learned_list max_filters out.
Proof. apply merge_existing_filters_learned. Qed.

Definition two_rules : list pydict :=
  [hostile_item; [(u "id", VStr (u "evil id ..-x")); (u "condition", VDict [(u "path_exact", VStr (u "/x"))])]].

Lemma merged_filters_invariant_witness :
  exists out, merge_existing_filters two_rules [hostile_item] 60 2 = Ok out /\ learned_list 2 out.
Proof.
  destruct (merge_existing_filters two_rules [hostile_item] 60 2) as [out|e] eqn:H;
    [|exfalso; vm_compute in H; discriminate H].
  exists out. split; [reflexivity|].
  apply (merged_filters_invariant two_rules [hostile_item] 60 2 out); [unfold plausible_max; lia|exact H].
Defined.

(** New rules are never evicted by old ones: when at most
    [max(1, max_filters)] rules are new, the last version of every accepted new
    rule is in the result (up to its id), however full the store is. *)
Theorem new_filters_kept existing new_filters ttl_seconds max_filters out os k r :
  merge_existing_filters existing new_filters ttl_seconds max_filters = Ok out ->
  (Z.of_nat (length new_filters) <= Z.max 1 max_filters)%Z ->
  mapR (accepted ttl_seconds) new_filters = Ok os ->
  (k, r) ∈ dedup_last (omap id os) ->
  exists r', r' ∈ out /\ dget (u "condition") r' = dget (u "condition") r.
Proof. apply merge_keeps_new. Qed.

Lemma new_filters_kept_witness :
  exists out r', merge_existing_filters two_rules [hostile_item] 60 1 = Ok out /\
    r' ∈ out /\ dget (u "condition") r' = dget (u "condition") hostile_item_clean.
Proof.
  destruct (merge_existing_filters two_rules [hostile_item] 60 1) as [out|e] eqn:H;
    [|exfalso; vm_compute in H; discriminate H].
  destruct (new_filters_kept two_rules [hostile_item] 60 1 out
    [Some (u "signature:0123456789abcdef", hostile_item_clean)]
    (u "signature:0123456789abcdef") hostile_item_clean H) as (r' & Hr & Hc).
  - cbn. lia.
  - vm_compute. reflexivity.
  - apply elem_of_cons. left. reflexivity.
  - exists out, r'. split; [reflexivity|]. split; [exact Hr|exact Hc].
Defined.
