(* ===== verification/RuleJson.v ===== *)
(** * RuleJson: learned rules through the filter file

    The filter file is written with sorted keys.  A clean rule read back from it
    has its keys (and those of its condition and header matchers) reordered;
    sanitizing it restores exactly the rule that was written. *)

From S2P Require Import Prelude Unicode PyStr PyFloat PyVal Json JsonFacts Sanitize Merge.

(** ** Reordered dicts *)

Lemma dget_perm {A} k (d d' : list (pystr * A)) : dict_ok d -> d ≡ₚ d' -> dget k d = dget k d'.
Proof.
  intros Hok Hp.
  assert (Hok' : dict_ok d') by (unfold dict_ok, dkeys in *; by rewrite <-Hp).
  destruct (dget k d) as [v|] eqn:E.
  - symmetry. apply dget_In; [done|]. rewrite <-Hp. by apply dget_Some_In.
  - symmetry. apply dget_None. apply dget_None in E. unfold dkeys in *. by rewrite <-Hp.
Qed.

Lemma dget_fmap {A B} k (g : A -> B) (d : list (pystr * A)) :
  dget k ((fun kv => (kv.1, g kv.2)) <$> d) = g <$> dget k d.
Proof. induction d as [|[k' v] d IH]; [done|]. cbn. destruct (str_eqb k k'); [done|exact IH]. Qed.

(** The dict that [d] becomes in the filter file. *)
Definition refiled (d : pydict) : pydict := normal_item true <$> py_sorted by_key d.

Lemma normal_refiled d : normal true (VDict d) = VDict (refiled d).
Proof. apply (normal_dict pretty_style). Qed.

Lemma dget_refiled k d : dict_ok d -> dget k (refiled d) = normal true <$> dget k d.
Proof.
  intros Hok. unfold refiled, normal_item. rewrite dget_fmap. f_equal. symmetry.
  apply dget_perm; [done|]. symmetry. apply py_sorted_perm.
Qed.

(** ** Conditions *)

Lemma clean_condition_ok c : clean_condition c -> dict_ok c.
Proof.
  intros (src & ms & hs & -> & _). unfold dict_ok, dkeys. rewrite !fmap_app. apply NoDup_app. split_and!.
  - fold (dkeys (picked src STRING_MATCHERS)). rewrite picked_keys. apply NoDup_filter, STRING_MATCHERS_NoDup.
  - intros k Hk. fold (dkeys (picked src STRING_MATCHERS)) in Hk. rewrite picked_keys in Hk.
    apply list_elem_of_filter in Hk as [_ Hk]. rewrite not_elem_of_app. split; intros Hin.
    + apply methods_part_keys, list_elem_of_singleton in Hin as ->. by apply methods_not_matcher.
    + apply headers_part_keys, list_elem_of_singleton in Hin as ->. by apply headers_not_matcher.
  - destruct ms, hs; cbn; repeat constructor; set_solver.
Qed.

Lemma sanitize_condition_ext c c' hs hs' :
  (forall k, k ∈ STRING_MATCHERS -> dget k c' = dget k c) ->
  dget (u "methods") c' = dget (u "methods") c ->
  dget (u "headers") c = (if decide (hs = []) then None else Some (VList hs)) ->
  dget (u "headers") c' = (if decide (hs = []) then None else Some (VList hs')) ->
  foldM clean_header [] (take 8 hs') = foldM clean_header [] (take 8 hs) ->
  sanitize_condition c' = sanitize_condition c.
Proof.
  intros Hk Hm Hh Hh' Hf. unfold sanitize_condition.
  assert (Hfold : forall acc l, l ⊆ STRING_MATCHERS -> foldM (keep_matcher c') acc l = foldM (keep_matcher c) acc l).
  { intros acc l. revert acc. induction l as [|k l IH]; intros acc Hl; [done|]. cbn [foldM].
    assert (keep_matcher c' acc k = keep_matcher c acc k) as ->.
    { unfold keep_matcher. by rewrite (Hk k) by (apply Hl, elem_of_cons; by left). }
    destruct (keep_matcher c acc k) as [acc'|]; cbn [rbind]; [|done]. apply IH. intros x Hx. apply Hl, elem_of_cons. by right. }
  rewrite Hfold by done. destruct (foldM (keep_matcher c) [] STRING_MATCHERS); cbn [rbind]; [|done].
  rewrite Hm, Hh, Hh'. case_decide; [done|]. cbn [or_none default from_option id]. by rewrite Hf.
Qed.

Lemma normal_header h : header_matcher h ->
  exists name contains, h = VDict [(u "name", VStr name); (u "contains", VStr contains)] /\
    normal true h = VDict [(u "contains", VStr contains); (u "name", VStr name)].
Proof. intros (name & contains & -> & _). exists name, contains. split; [done|reflexivity]. Qed.

Lemma clean_header_refiled acc h : header_matcher h -> clean_header acc (normal true h) = clean_header acc h.
Proof. intros Hh. destruct (normal_header h Hh) as (name & contains & -> & ->). reflexivity. Qed.

Lemma clean_headers_refiled acc hs :
  Forall header_matcher hs ->
  foldM clean_header acc (normal true <$> hs) = foldM clean_header acc hs.
Proof.
  intros H. revert acc. induction H as [|h hs Hh _ IH]; intros acc; [done|]. rewrite fmap_cons. cbn [foldM].
  rewrite clean_header_refiled by done. destruct (clean_header acc h); cbn [rbind]; [apply IH|done].
Qed.

Lemma matcher_is_text src k v : kept src k = true -> or_none (dget k src) = v -> exists s, v = VStr s.
Proof.
  intros Hk%kept_decided <-. unfold keeps_matcher in Hk.
  destruct (or_none (dget k src)); try done. eauto.
Qed.

Lemma sanitize_condition_refiled c : clean_condition c -> sanitize_condition (refiled c) = Ok c.
Proof.
  intros Hc. rewrite <-(sanitize_condition_fix c Hc). pose proof (clean_condition_ok c Hc) as Hok.
  destruct Hc as (src & ms & hs & -> & Hms & Hlen & Hhs).
  apply (sanitize_condition_ext _ _ hs (normal true <$> hs)).
  - intros k Hk. rewrite dget_refiled, clean_condition_get_matcher by done.
    destruct (kept src k) eqn:E; [|done]. by destruct (matcher_is_text _ _ _ E eq_refl) as [s ->].
  - rewrite dget_refiled, get_methods_part by done. destruct Hms as [->|(_ & _ & names & -> & _)]; [done|].
    destruct names as [|m names]; [done|]. rewrite fmap_cons. cbn [fmap option_fmap option_map normal].
    do 2 f_equal. rewrite <-fmap_cons. rewrite <-list_fmap_compose. by apply list_fmap_ext.
  - rewrite get_headers_part. by destruct hs.
  - rewrite dget_refiled, get_headers_part by done. by destruct hs.
  - rewrite !take_ge by (rewrite ?length_fmap; done). by apply clean_headers_refiled.
Qed.

(** ** Rules *)

Lemma mk_rule_ok i en pr ttl c : dict_ok (mk_rule i en pr ttl c).
Proof. apply (bool_decide_unpack _). vm_compute. exact I. Qed.

(** Sanitizing a rule read back from the file gives the rule that was written. *)
Lemma sanitize_filter_refiled r ttl : clean_rule r -> sanitize_filter (refiled r) ttl = Ok r.
Proof.
  intros (i & en & pr & t & c & -> & Hid & Ht & Hc). unfold sanitize_filter.
  rewrite !(dget_refiled _ _ (mk_rule_ok i en pr t c)).
  rewrite rule_ttl, rule_condition, rule_id, rule_enabled, rule_priority.
  cbn [fmap option_fmap option_map]. rewrite normal_refiled. cbn [normal or_none default from_option].
  unfold id. rewrite bounded_ttl_fix by done. cbn [rbind].
  rewrite sanitize_condition_refiled by done. cbn [rbind py_int truthy].
  destruct i as [|i0 i]; [by destruct Hid|]. cbn [py_str]. by rewrite safe_id_fix.
Qed.

(** ** Rules are encodable *)

(** A priority the interpreter can print. *)
Definition printable_priority (r : pydict) : Prop :=
  match dget (u "priority") r with Some (VInt z) => length (dec_Z z) <= int_max_str_digits | _ => True end.

Lemma kept_plain src k : kept src k = true -> plain (or_none (dget k src)).
Proof.
  intros Hk%kept_decided. unfold keeps_matcher in Hk. destruct (or_none (dget k src)) as [| | | |s| |]; try done.
  apply bind_ok in Hk as (b & Hb & _). unfold bounded_utf8 in Hb. apply bind_ok in Hb as (n & Hn & _).
  cbn [plain]. by eapply utf8_len_scalar.
Qed.

Lemma string_matchers_scalar : Forall (Forall scalar) STRING_MATCHERS.
Proof. repeat (constructor; [by apply literal_scalar|]). constructor. Qed.

Lemma methods_plain ms : method_names ms -> plain (VList ms).
Proof.
  intros (_ & _ & names & -> & Hn). apply plain_list, Forall_fmap. eapply Forall_impl; [exact Hn|].
  intros m Hm. cbn. revert m Hm. apply Forall_forall. repeat (constructor; [by apply literal_scalar|]). constructor.
Qed.

Lemma token_char_ascii c : token_char c = true -> (c < 128)%N.
Proof.
  unfold token_char, is_ascii_alnum, in_char_range. rewrite !orb_true_iff, !andb_true_iff, !N.leb_le.
  intros [[[[? ?]|[? ?]]|[? ?]]|H]; try lia.
  apply existsb_exists in H as (x & Hx & ->%N.eqb_eq). apply list_elem_of_In in Hx. revert x Hx.
  apply Forall_forall. repeat constructor; done.
Qed.

Lemma header_plain h : header_matcher h -> plain h.
Proof.
  intros (name & contains & -> & Hn & Hc). unfold bounded_utf8 in Hc. apply bind_ok in Hc as (n & Hlen & _).
  apply plain_dict. split; [apply (bool_decide_unpack _); vm_compute; exact I|].
  constructor; [|constructor; [|done]]; (split; [by apply literal_scalar|]); cbn [snd plain].
  - apply ascii_scalar. unfold is_http_header_name in Hn. bool_prop. rewrite forallb_forall in *.
    apply Forall_forall. intros c Hc. apply token_char_ascii, H0. by apply list_elem_of_In.
  - by eapply utf8_len_scalar.
Qed.

Lemma clean_condition_plain c : clean_condition c -> plain (VDict c).
Proof.
  intros Hc. pose proof (clean_condition_ok c Hc) as Hok. destruct Hc as (src & ms & hs & -> & Hms & _ & Hhs).
  apply plain_dict. split; [exact Hok|]. rewrite !Forall_app. split_and!.
  - unfold picked. apply Forall_fmap, Forall_forall. intros k [Hk Hin]%list_elem_of_filter. cbn. split.
    + by apply (proj1 (Forall_forall _ _) string_matchers_scalar).
    + apply kept_plain. by destruct (kept src k).
  - destruct Hms as [->|Hms]; [done|]. destruct ms as [|m ms]; [done|]. constructor; [|done].
    split; [by apply literal_scalar|]. by apply methods_plain.
  - destruct hs as [|h hs]; [done|]. constructor; [|done].
    split; [by apply literal_scalar|]. apply plain_list.
    eapply Forall_impl; [exact Hhs|]. apply header_plain.
Qed.

Lemma ttl_plain t : (1 <= t <= FILTER_TTL_MAX_SECONDS)%Z -> plain (VInt t).
Proof.
  intros Ht. unfold FILTER_TTL_MAX_SECONDS in Ht. cbn [plain]. unfold dec_Z.
  destruct t as [|p|p]; [lia| |lia]. etrans; [apply (dec_N_length _ 10)|]; unfold int_max_str_digits; [|lia|lia].
  change (10 ^ N.of_nat 10)%N with 10000000000%N. lia.
Qed.

Lemma block_action_plain : plain block_action.
Proof.
  apply plain_dict. split; [apply (bool_decide_unpack _); vm_compute; exact I|].
  repeat (constructor; [split; [by apply literal_scalar|]|]); cbn [snd plain]; try by apply literal_scalar.
  - apply Nat.leb_le. reflexivity.
  - constructor.
Qed.

Lemma clean_rule_plain r : clean_rule r -> printable_priority r -> plain (VDict r).
Proof.
  intros (i & en & pr & t & c & -> & Hid & Ht & Hc) Hpr. unfold printable_priority in Hpr.
  rewrite rule_priority in Hpr. apply plain_dict. split; [apply mk_rule_ok|]. unfold mk_rule.
  repeat (constructor; [split; [by apply literal_scalar|]; cbn [snd]|]); try done.
  - cbn [plain]. destruct Hid as (_ & _ & Hs & _). apply ascii_scalar.
    eapply Forall_impl; [exact Hs|]. apply safe_char_ascii.
  - by apply ttl_plain.
  - by apply clean_condition_plain.
  - apply block_action_plain.
Qed.

(** ** The store does not notice the reordering *)

Lemma accepted_refiled ttl l :
  Forall clean_rule l -> mapR (accepted ttl) (refiled <$> l) = mapR (accepted ttl) l.
Proof.
  induction 1 as [|r l Hr _ IH]; [done|]. rewrite fmap_cons. cbn [mapR].
  unfold accepted at 1 3. rewrite sanitize_filter_refiled, sanitize_filter_fix by done. by rewrite IH.
Qed.

Lemma merge_refiled ttl mx l :
  learned_list mx l -> merge_existing_filters (refiled <$> l) [] ttl mx = Ok l.
Proof.
  intros Hl. rewrite <-(merge_existing_filters_fix ttl mx l Hl). unfold merge_existing_filters.
  pose proof (merge_store_learned ttl mx l Hl) as Hm. rewrite Hm.
  enough (merge_store (refiled <$> l) [] ttl = Ok ((fun r => (filter_key r, r)) <$> l)) as -> by done.
  apply merge_store_spec. apply merge_store_spec in Hm as (os & Hos & ->). exists os. split; [|done].
  rewrite app_nil_r in *. rewrite accepted_refiled; [done|]. destruct Hl as [Hc _].
  eapply Forall_impl; [exact Hc|]. by intros r [? _].
Qed.
