(* ===== verification/NetGuards.v ===== *)
(** * NetGuards: what a run of the namespace smoke test guarantees

    The namespaces a packet probe creates are removed however it ends; the exit status is
    the conjunction of the flags; and the flags say what the clients in the attacker's
    namespace observed. *)

From S2P Require Import Prelude Unicode PyStr Regex PyFloat PyVal Provenance Json EdgeConfig EdgeNft EdgeTemplates Flood NetFrame NetScripts JsonFacts NetSmoke RuleJson.

(** ** The events of a computation *)

(** Whatever [m] does, it only adds events, all of them in [P]. *)
Definition emits (P : sys_event -> Prop) {A} (m : sys A) : Prop := forall t, exists new, (m t).2 = t ++ new /\ Forall P new.

Create HintDb emits.

Section emits.
Context (P : sys_event -> Prop).

Lemma emits_ret {A} (x : A) : emits P (cret x).
Proof. intros t. exists []. by rewrite app_nil_r. Qed.

Lemma emits_lift {A} (m : res A) : emits P (clift m).
Proof. intros t. exists []. by rewrite app_nil_r. Qed.

Lemma emits_bind {A B} (m : sys A) (f : A -> sys B) : emits P m -> (forall x, emits P (f x)) -> emits P (cbind m f).
Proof.
  intros Hm Hf t. destruct (Hm t) as (new & E & HP). unfold cbind. destruct (m t) as [[x|e] t1]; cbn in E; subst t1; [|by exists new].
  destruct (Hf x (t ++ new)) as (more & -> & HP'). exists (new ++ more). rewrite (assoc_L (++)). split; [done|]. by apply Forall_app.
Qed.

Lemma emits_finally {A} (m : sys A) f : emits P m -> emits P f -> emits P (finally m f).
Proof.
  intros Hm Hf t. destruct (Hm t) as (new & E & HP). unfold finally. destruct (m t) as [r t1]; cbn in E; subst t1.
  destruct (Hf (t ++ new)) as (more & E & HP'). destruct (f (t ++ new)) as [[]t2]; cbn in E |- *; subst t2;
    exists (new ++ more); rewrite (assoc_L (++)); (split; [done|]); by apply Forall_app.
Qed.

Lemma emits_event {A} (g : list sys_event -> res A) e : P e -> emits P (fun t => (g t, t ++ [e])).
Proof. intros He t. exists [e]. split; [done|]. by apply Forall_singleton. Qed.

Lemma emits_each {A} (f : A -> sys unit) l : (forall x, x ∈ l -> emits P (f x)) -> emits P (each f l).
Proof.
  induction l as [|x l IH]; intros H; cbn [each]; [apply emits_ret|].
  apply emits_bind; [apply H, elem_of_cons; by left|]. intros _. apply IH. intros y Hy. apply H, elem_of_cons. by right.
Qed.

Context (w : smoke_world).

Lemma emits_run command timeout : P (Ran command timeout) -> emits P (run w command timeout).
Proof.
  intros H. apply emits_bind; [by apply emits_event|]. intros [code out err|out err]; [apply emits_ret|apply emits_lift].
Qed.

Context (Hserver : Forall P [ReadLine; ReadStderr; Polled; Waited; Terminated; Killed]).

Ltac server_event := apply emits_event; repeat (apply Forall_cons in Hserver as [? Hserver]); assumption.

Lemma emits_terminate : emits P (terminate_server w).
Proof.
  unfold terminate_server. apply emits_bind; [server_event|]. intros []; [apply emits_ret|].
  apply emits_bind; [server_event|]. intros _. apply emits_bind; [server_event|]. intros []; [apply emits_ret|].
  apply emits_bind; [server_event|]. intros _. apply emits_bind; [server_event|]. intros []; [apply emits_ret|apply emits_lift].
Qed.

Lemma emits_server_stderr : emits P (server_stderr w).
Proof. apply emits_bind; [server_event|]. intros []; [server_event|apply emits_ret]. Qed.

Lemma emits_read_line : emits P (read_line_with_timeout w).
Proof. server_event. Qed.
End emits.

#[export] Hint Resolve emits_ret emits_lift emits_bind emits_finally emits_run emits_terminate emits_server_stderr emits_read_line : emits.

(** ** Namespaces *)

(** The namespaces that exist after [t], if every [ip netns add] worked. *)
Definition netns_step (ip : pystr) (live : list pystr) (e : sys_event) : list pystr :=
  match e with
  | Ran [i; a; b; n] _ =>
      if str_eqb i ip && str_eqb a (u "netns") then
        if str_eqb b (u "add") then n :: live else if str_eqb b (u "del") then filter (fun m => m <> n) live else live
      else live
  | _ => live
  end.

Definition live (ip : pystr) (t : list sys_event) : list pystr := foldl (netns_step ip) [] t.

(** An event that creates no namespace but [names]. *)
Definition creates_only (ip : pystr) (names : list pystr) (e : sys_event) : Prop :=
  forall l, Forall (fun n => n ∈ names \/ n ∈ l) (netns_step ip l e).

Lemma creates_only_fold ip names events l :
  Forall (creates_only ip names) events -> Forall (fun n => n ∈ names \/ n ∈ l) (foldl (netns_step ip) l events).
Proof.
  revert l. induction events as [|e events IH]; intros l; [intros _; rewrite Forall_forall; auto|].
  intros [He Hes]%Forall_cons. cbn [foldl]. eapply Forall_impl; [by apply IH|]. cbv beta. intros n [Hn|Hn]; [by left|].
  specialize (He l). rewrite Forall_forall in He. auto.
Qed.

Lemma creates_same ip names e : (forall l, netns_step ip l e = l) -> creates_only ip names e.
Proof. intros H l. rewrite H. rewrite Forall_forall. auto. Qed.

Lemma creates_add ip names n timeout : n ∈ names -> creates_only ip names (Ran [ip; u "netns"; u "add"; n] timeout).
Proof.
  intros Hn l. cbn [netns_step]. rewrite !str_eqb_refl. cbn [andb]. apply Forall_cons. split; [by left|]. rewrite Forall_forall. auto.
Qed.

Lemma netns_del_step ip l n timeout : netns_step ip l (Ran [ip; u "netns"; u "del"; n] timeout) = filter (fun m => m <> n) l.
Proof. cbn [netns_step]. rewrite !str_eqb_refl. reflexivity. Qed.

Lemma creates_del ip names n timeout : creates_only ip names (Ran [ip; u "netns"; u "del"; n] timeout).
Proof. intros l. rewrite netns_del_step, Forall_forall. intros m Hm%list_elem_of_filter. right. apply Hm. Qed.

Lemma netns_link_step ip l n timeout : netns_step ip l (Ran [ip; u "link"; u "del"; n] timeout) = l.
Proof. cbn [netns_step]. by rewrite str_eqb_refl. Qed.

(** ** The packet probe *)

Section probe.
Context (w : smoke_world) (ip : pystr).

Definition probe_names : list pystr := [victim w; attacker w].

Definition tame : sys_event -> Prop := creates_only ip probe_names.

Lemma tame_other e : (match e with Ran [_; _; _; _] _ => False | _ => True end) -> tame e.
Proof. intros H. apply creates_same. intros l. destruct e as [[|? [|? [|? [|? []]]]]| | | | | | |]; done. Qed.

Lemma tame_server : Forall tame [ReadLine; ReadStderr; Polled; Waited; Terminated; Killed].
Proof. repeat constructor; by apply tame_other. Qed.

Lemma tame_in_namespace name a command timeout : tame (Ran (in_namespace ip name (a :: command)) timeout).
Proof. by apply tame_other. Qed.

Lemma tame_cleanup command timeout : command ∈ cleanup w ip -> tame (Ran command timeout).
Proof.
  unfold cleanup. rewrite !elem_of_cons. intros [->|[->|[->|[->|Hn%not_elem_of_nil]]]]; [| |by apply creates_del|by apply creates_del|done];
    apply creates_same; intros l; apply netns_link_step.
Qed.

Lemma tame_add command timeout : command ∈ [[ip; u "netns"; u "add"; victim w]; [ip; u "netns"; u "add"; attacker w]] -> tame (Ran command timeout).
Proof.
  rewrite !elem_of_cons. intros [->|[->|Hn%not_elem_of_nil]]; [| |done]; apply creates_add; unfold probe_names; rewrite !elem_of_cons; auto.
Qed.

Lemma tame_setup command timeout : command ∈ setup_commands w ip -> tame (Ran command timeout).
Proof.
  intros H. apply tame_other. revert command H. apply Forall_forall. by repeat constructor.
Qed.

Lemma cleanup_tame : emits tame (run_cleanup w ip).
Proof.
  apply emits_each. intros command Hc. apply emits_bind; [|intros _; apply emits_ret]. apply emits_run. by apply tame_cleanup.
Qed.

Lemma first_failure_tame timeout commands :
  (forall command, command ∈ commands -> tame (Ran command timeout)) -> emits tame (first_failure w ip timeout commands).
Proof.
  induction commands as [|command commands IH]; intros H; cbn [first_failure]; [apply emits_ret|]. apply emits_bind.
  - unfold run_checked. apply emits_bind; [apply emits_event, H, elem_of_cons; by left|].
    intros [code out err|out err]; [|apply emits_ret]. destruct (code =? 0)%Z; [apply emits_ret|].
    apply emits_bind; [apply cleanup_tame|]. intros _. apply emits_ret.
  - intros []; [apply emits_ret|]. apply IH. intros c Hc. apply H, elem_of_cons. by right.
Qed.

Lemma family_probe_tame v a family timeout : emits tame (run_packet_family_probe w ip v a family timeout).
Proof.
  pose proof tame_server as Hs. unfold run_packet_family_probe, family_server, family_client.
  apply emits_bind; [by apply emits_event, tame_other|]. intros _. apply emits_finally; [|by apply emits_terminate].
  apply emits_bind; [by apply emits_read_line|]. intros [line|].
  - destruct (negb _); [apply emits_bind; [by apply emits_server_stderr|intros ?; apply emits_ret]|].
    apply emits_bind; [apply emits_run, tame_in_namespace|]. intros [[code out] err].
    destruct (negb _); [apply emits_ret|]. apply emits_bind; [apply emits_lift|]. intros []; [apply emits_lift|apply emits_ret].
  - apply emits_bind; [by apply emits_server_stderr|intros ?; apply emits_ret].
Qed.

Lemma interface_mac_tame name interface timeout : emits tame (namespace_interface_mac w ip name interface timeout).
Proof. apply emits_bind; [apply emits_run, tame_in_namespace|]. intros [[code out] err]. apply emits_ret. Qed.

Lemma hop_probe_tame v a vi ai timeout : emits tame (run_ipv6_hop_by_hop_udp_probe w ip v a vi ai timeout).
Proof.
  apply emits_bind; [apply interface_mac_tame|]. intros []; [|apply emits_ret].
  apply emits_bind; [apply interface_mac_tame|]. intros []; [|apply emits_ret].
  apply emits_bind; [apply emits_run, tame_in_namespace|]. intros [[code out] err].
  destruct (negb _); [apply emits_ret|]. apply emits_bind; [apply emits_lift|]. intros []; [apply emits_lift|apply emits_ret].
Qed.

Lemma probe_body_tame timeout : emits tame (packet_probe_body w ip timeout).
Proof.
  apply emits_bind; [apply first_failure_tame; intros c; apply tame_add|]. intros []; [apply emits_ret|].
  apply emits_bind; [apply first_failure_tame; intros c; apply tame_setup|]. intros []; [apply emits_ret|].
  repeat (apply emits_bind; [apply family_probe_tame|intros ?]).
  apply emits_bind; [apply hop_probe_tame|intros ?]. apply emits_ret.
Qed.
End probe.

(** ** Cleanup *)

(** No cleanup command times out or is missing. *)
Definition cleanup_runs (w : smoke_world) (ip : pystr) : Prop :=
  forall t command, command ∈ cleanup w ip ->
    exists code out err, sw_run w t command NAMESPACE_SMOKE_TIMEOUT_SECONDS = Ok (Exited code out err).

Definition cleanup_events (w : smoke_world) (ip : pystr) : list sys_event :=
  (fun command => Ran command NAMESPACE_SMOKE_TIMEOUT_SECONDS) <$> cleanup w ip.

Lemma cleanup_traced w ip t : cleanup_runs w ip -> run_cleanup w ip t = (Ok tt, t ++ cleanup_events w ip).
Proof.
  intros Hc. unfold run_cleanup, cleanup_events, cleanup_runs in *. revert t Hc. generalize (cleanup w ip). intros commands.
  induction commands as [|c commands IH]; intros t Hc; cbn [each fmap list_fmap]; [by rewrite app_nil_r|].
  destruct (Hc t c) as (code & out & err & E); [apply elem_of_cons; by left|].
  assert (Hrun : cbind (run w c NAMESPACE_SMOKE_TIMEOUT_SECONDS) (fun _ => cret tt) t = (Ok tt, t ++ [Ran c NAMESPACE_SMOKE_TIMEOUT_SECONDS])).
  { unfold run, run_caught, cbind. by rewrite E. }
  unfold cbind at 1. rewrite Hrun, IH; [by rewrite <-(assoc_L (++))|].
  intros t' c' Hin. apply Hc, elem_of_cons. by right.
Qed.

Lemma live_after_cleanup w ip l : foldl (netns_step ip) l (cleanup_events w ip) =
  filter (fun m => m <> victim w) (filter (fun m => m <> attacker w) l).
Proof.
  unfold cleanup_events, cleanup. cbn [fmap list_fmap foldl]. by rewrite !netns_link_step, !netns_del_step.
Qed.


(** A host on which a command does what [behave] says. *)
Definition sample_host (behave : list pystr -> ran) : smoke_world :=
  SmokeWorld (fun name => Some (u "/usr/sbin/" ++ name)) (u "Linux") (fun _ command _ => Ok (behave command)) (fun _ _ => Ok tt)
    (fun _ => Some (u "ready" ++ [10%N])) (fun _ => []) (fun _ => false) (fun _ => true) true (Ok shipped_nft)
    (u "/srv/altura/ops/nftables/altura-prot-edge.nft") (u "/usr/bin/python3") 4242 1700000012345 (u "/srv/altura")
    (Utc 2024 5 17 9 3 7) (fun _ _ => None).

Definition obedient_host : smoke_world := sample_host (fun _ => Exited 0 [] []).


(** The proviso is needed: on a host where deleting an interface hangs, the first cleanup
    command raises [TimeoutExpired] and both namespaces stay. *)
Definition hanging_host : smoke_world :=
  sample_host (fun command => match command with
                              | [_; a; b; _] => if str_eqb a (u "link") && str_eqb b (u "del") then TimedOut NotCaptured NotCaptured
                                                else Exited 0 [] []
                              | _ => Exited 0 [] []
                              end).

Lemma hanging_cleanup_leaks :
  exists e, (run_packet_probe hanging_host 15 []).1 = Raise e /\ exn_class e = TimeoutExpired /\
    live (u "/usr/sbin/ip") (run_packet_probe hanging_host 15 []).2 = [attacker hanging_host; victim hanging_host].
Proof. vm_compute. by eexists. Qed.

(** ** The verdict *)

Lemma flag_errors_nil prefix d key : flag_errors prefix d key = [] <-> dget key d = Some (VBool true).
Proof. unfold flag_errors. destruct (dget key d) as [[|[]| | | | |]|]; naive_solver. Qed.

Lemma mjoin_flags_nil prefix d keys :
  mjoin (flag_errors prefix d <$> keys) = [] <-> Forall (fun key => dget key d = Some (VBool true)) keys.
Proof.
  induction keys as [|key keys IH]; [split; [constructor|done]|]. rewrite fmap_cons, Forall_cons, <-IH, <-(flag_errors_nil prefix).
  change (mjoin (?a :: ?b)) with (a ++ mjoin b). apply app_nil_iff.
Qed.

(** Every flag of the ruleset and every flag of the packet probe is set. *)
Definition smoke_passes (report : pydict) : Prop :=
  Forall (fun key => dget key report = Some (VBool true)) required_true /\
  exists d, dget (u "packet_probe") report = Some (VDict d) /\ truthy (or_none (dget (u "skipped") d)) = false /\
    Forall (fun key => dget key d = Some (VBool true)) packet_required.

Lemma assert_smoke_exact report require_provenance :
  truthy (or_none (dget (u "skipped") report)) = false ->
  assert_smoke_result report require_provenance true = [] <-> (require_provenance = true -> provenance_ok report) /\ smoke_passes report.
Proof.
  intros Hs. unfold assert_smoke_result, smoke_passes. rewrite Hs, !app_nil_iff, mjoin_flags_nil.
  assert (Hp : (if require_provenance then provenance_errors report else []) = [] <-> (require_provenance = true -> provenance_ok report)).
  { destruct require_provenance; [rewrite provenance_errors_nil|]; naive_solver. }
  rewrite Hp. apply and_iff_compat_l, and_iff_compat_l. unfold packet_probe_errors.
  destruct (dget (u "packet_probe") report) as [v|]; [|split; [done|by intros (? & ? & _)]]. change (or_none (Some v)) with v.
  destruct v as [| | | | | |d]; try (split; [done|by intros (? & ? & _)]).
  destruct (truthy (or_none (dget (u "skipped") d))) eqn:E.
  - split; [done|]. intros (d' & [= <-] & E' & _). congruence.
  - rewrite mjoin_flags_nil. split; [intros H; by exists d|]. by intros (d' & [= <-] & _ & H).
Qed.

(** A traceback exits with 1. *)
Definition exit_status (r : res smoke_exit) : Z := match r with Ok e => se_status e | Raise _ => 1%Z end.

Lemma smoke_not_skipped w timeout t smoke t' : run_namespace_smoke w timeout t = (Ok smoke, t') ->
  exists rest, smoke = (u "skipped", VBool false) :: rest /\ u "skipped" ∉ dkeys rest.
Proof.
  unfold run_namespace_smoke, cbind, run_caught, clift, cret.
  destruct (sw_run w t _ timeout) as [[code out err|out err]|e]; [| |done].
  - destruct (sw_nft_text w) as [source|e]; [|done]. intros [= <- _]. eexists. split; [reflexivity|].
    apply dget_None. unfold ruleset_flags. vm_compute. reflexivity.
  - intros [= <- _]. eexists. split; [reflexivity|]. apply dget_None. reflexivity.
Qed.

Lemma verdict_status a report : se_status (verdict a report) = 0%Z <->
  assert_smoke_result report (sa_require_provenance a) (sa_require_packet_probe a) = [].
Proof. unfold verdict. cbn [se_status]. by destruct (assert_smoke_result _ _ _). Qed.

(** C38. A run with [--require-packet-probe] exits with 0 exactly when the template exists, the
    prerequisites are there, no command raised, the report has valid provenance (when that
    is required), all twenty-two flags of the loaded ruleset are true and all eight flags of
    the packet probe are true. *)
Theorem required_smoke_exact w a t :
  sa_require_packet_probe a = true ->
  exit_status (smoke_main w a t).1 = 0%Z <->
  sw_nft_exists w = true /\ missing_prerequisites w = [] /\
  exists e, (smoke_main w a t).1 = Ok e /\ (sa_require_provenance a = true -> provenance_ok (se_report e)) /\ smoke_passes (se_report e).
Proof.
  intros Ha. unfold smoke_main. rewrite Ha, orb_true_r. destruct (sw_nft_exists w); [|split; [done|by intros (? & _)]].
  cbn [negb]. destruct (missing_prerequisites w) as [|m ms].
  - unfold cbind at 1 3. destruct (run_namespace_smoke w _ t) as [[smoke|e] t1] eqn:Es; [|split; [done|by intros (_ & _ & ? & ? & _)]].
    unfold cbind. destruct (run_packet_probe w _ t1) as [[packet|e] t2]; [|split; [done|by intros (_ & _ & ? & ? & _)]].
    cbn [cret fst exit_status]. rewrite verdict_status, Ha, assert_smoke_exact.
    + split; [intros H; split_and!; [done|done|]; eexists; split; [reflexivity|exact H]|]. by intros (_ & _ & e & [= <-] & H).
    + rewrite dget_dset_ne by done. destruct (smoke_not_skipped _ _ _ _ _ Es) as (rest & -> & Hr). unfold with_provenance.
      by rewrite dget_dupdate_first.
  - split; [|by intros (_ & ? & _)]. cbn [cret fst exit_status].
    assert (Hbad : se_status (verdict a (with_provenance w (skip_report (m :: ms)))) <> 0%Z).
    { rewrite verdict_status, Ha. unfold assert_smoke_result, with_provenance, skip_report.
      rewrite dget_dupdate_first by (apply dget_None; reflexivity). cbn [or_none default from_option id truthy].
      intros [_ H]%app_nil_iff. done. }
    rewrite (proj2 (Z.eqb_neq _ _) Hbad). cbn [andb]. done.
Qed.

(** ** What the packet flags mean *)

(** [json.dumps(result, sort_keys=True)] and the line break of [print] *)
Definition sorted_style : layout_style := Style None (u ", ") (u ": ") true.
Definition printed_json (d : pydict) : pystr := dumps sorted_style (VDict d) ++ [10%N].

(** The report of the client script: what the clean connection read, its exception (both when
    only closing it failed), the outcome of the datagram, and the outcomes of the connection attempts,
    ["ok"] or the exception. *)
Definition packet_client_report (payload error : option pystr) (udp : pystr) (connlimit_results : list pystr) : pydict :=
  let successes := Z.of_nat (length (filter (fun r => r = u "ok") connlimit_results)) in
  let attempts := Z.of_nat (length connlimit_results) in
  match payload with Some s => [(u "tcp_clean_connect_payload", VStr s)] | None => [] end ++
  match error with Some s => [(u "tcp_clean_connect_error", VStr s)] | None => [] end ++
  [(u "udp_protected_port_result", VStr udp);
   (u "tcp_connlimit_attempts", VInt attempts);
   (u "tcp_connlimit_successes", VInt successes);
   (u "tcp_connlimit_failures", VInt (attempts - successes)%Z);
   (u "tcp_connlimit_failure_tail", texts_value (last_n 12 connlimit_results))].

Lemma parsed_printed d : plain (VDict d) -> parsed (printed_json d) = Ok (inl (VDict (refiled d))).
Proof.
  intros Hp. unfold parsed, printed_json. rewrite loads_dumps.
  - cbn [st_sort sorted_style]. by rewrite normal_refiled.
  - eexists _, _. split; [reflexivity|]. split; [reflexivity|]. split; repeat constructor.
  - done.
  - repeat constructor.
  - apply Forall_singleton. by right.
Qed.

Lemma small_int_plain z : (0 <= z < 10 ^ 18)%Z -> plain (VInt z).
Proof.
  intros Hz. cbn [plain]. assert (Hd : dec_Z z = dec_N (Z.to_N z)) by (destruct z; try done; lia). rewrite Hd.
  etransitivity; [apply (dec_N_length _ 18); lia|]. apply Nat.leb_le. vm_compute. reflexivity.
Qed.

Lemma plain_texts l : Forall (Forall scalar) l -> plain (texts_value l).
Proof. intros H. apply plain_list, Forall_fmap. eapply Forall_impl; [exact H|]. done. Qed.

Lemma ok_count_le l : length (filter (fun r => r = u "ok") l) <= length l.
Proof. apply length_filter. Qed.

Lemma client_report_plain payload error udp results :
  Forall scalar (default [] payload) -> Forall scalar (default [] error) -> Forall scalar udp -> Forall (Forall scalar) results ->
  (Z.of_nat (length results) < 10 ^ 18)%Z -> plain (VDict (packet_client_report payload error udp results)).
Proof.
  intros Hp He Hu Hr Hl. pose proof (ok_count_le results). apply plain_dict. split.
  - unfold packet_client_report. destruct payload, error; apply (bool_decide_unpack _); vm_compute; exact I.
  - unfold packet_client_report. apply Forall_app. split; [|apply Forall_app; split].
    + destruct payload; [|constructor]. apply Forall_singleton. split; [by apply literal_scalar|exact Hp].
    + destruct error; [|constructor]. apply Forall_singleton. split; [by apply literal_scalar|exact He].
    + repeat apply Forall_cons_2; [| | | | |constructor]; (split; [by apply literal_scalar|]); try (apply small_int_plain; lia).
      * exact Hu.
      * apply plain_texts. eapply Forall_sublist; [apply last_n_sublist|done].
Qed.

(** The value of a key after the report went through JSON. *)
Lemma client_get key payload error udp results :
  Forall scalar (default [] payload) -> Forall scalar (default [] error) -> Forall scalar udp -> Forall (Forall scalar) results ->
  (Z.of_nat (length results) < 10 ^ 18)%Z ->
  dget key (refiled (packet_client_report payload error udp results)) = normal true <$> dget key (packet_client_report payload error udp results).
Proof.
  intros Hp He Hu Hr Hl. apply dget_refiled. unfold dict_ok, dkeys.
  pose proof (client_report_plain payload error udp results Hp He Hu Hr Hl) as H. by apply plain_dict in H as [H _].
Qed.

(** What the verdict reads of the report. *)
Lemma client_values payload error udp results :
  let d := packet_client_report payload error udp results in
  dget (u "tcp_clean_connect_payload") d = VStr <$> payload /\
  dget (u "udp_protected_port_result") d = Some (VStr udp) /\
  dget (u "tcp_connlimit_attempts") d = Some (VInt (Z.of_nat (length results))) /\
  dget (u "tcp_connlimit_successes") d = Some (VInt (Z.of_nat (length (filter (fun r => r = u "ok") results)))) /\
  dget (u "tcp_connlimit_failures") d =
    Some (VInt (Z.of_nat (length results) - Z.of_nat (length (filter (fun r => r = u "ok") results)))).
Proof. unfold packet_client_report. destruct payload, error; split_and!; reflexivity. Qed.

Lemma client_verdict d r : packet_result_from_client_report (VDict d) = Ok r ->
  dget (u "tcp_connlimit_enforced") r = Some (VBool (connlimit_enforced (or_none (dget (u "tcp_connlimit_attempts") d))
    (or_none (dget (u "tcp_connlimit_successes") d)) (or_none (dget (u "tcp_connlimit_failures") d)))) /\
  dget (u "tcp_clean_connect_allowed") r = Some (VBool (py_eqb (or_none (dget (u "tcp_clean_connect_payload") d)) (VStr (u "ok")))) /\
  dget (u "udp_protected_port_silently_dropped") r = Some (VBool (py_eqb (or_none (dget (u "udp_protected_port_result") d)) (VStr (u "timeout")))).
Proof. unfold packet_result_from_client_report. intros <-%Ok_inj. split_and!; reflexivity. Qed.

Lemma flag_true b : Some (VBool b) = Some (VBool true) <-> b = true.
Proof. split; [by intros [= ->]|by intros ->]. Qed.

(** C39. The packet flags through the client script, its JSON output and the verdict, for
    every outcome of the connections: with the scripted 140 attempts the connection limit
    counts as enforced exactly when at most 128 of them were accepted; the clean connection
    counts as allowed exactly when it read ["ok"]; and the UDP datagram counts as silently
    dropped exactly when it was answered by nothing at all. *)
Theorem packet_flags_exact payload error udp results :
  Forall scalar (default [] payload) -> Forall scalar (default [] error) -> Forall scalar udp -> Forall (Forall scalar) results ->
  Z.of_nat (length results) = PACKET_PROBE_CONNLIMIT_ATTEMPTS ->
  exists v r, parsed (printed_json (packet_client_report payload error udp results)) = Ok (inl v) /\
    packet_result_from_client_report v = Ok r /\
    (dget (u "tcp_connlimit_enforced") r = Some (VBool true) <->
     (Z.of_nat (length (filter (fun x => x = u "ok") results)) <= PACKET_PROBE_CONNLIMIT_MAX_ACCEPTED)%Z) /\
    (dget (u "tcp_clean_connect_allowed") r = Some (VBool true) <-> payload = Some (u "ok")) /\
    (dget (u "udp_protected_port_silently_dropped") r = Some (VBool true) <-> udp = u "timeout").
Proof.
  intros Hp He Hu Hr Hl. assert (Hb : (Z.of_nat (length results) < 10 ^ 18)%Z) by (rewrite Hl; done).
  destruct (packet_result_from_client_report (VDict (refiled (packet_client_report payload error udp results)))) as [r|e] eqn:Er; [|done].
  eexists _, r. split; [apply parsed_printed, client_report_plain; done|]. split; [exact Er|].
  apply client_verdict in Er as (-> & -> & ->). rewrite !flag_true, !(client_get _ payload error udp results) by done.
  destruct (client_values payload error udp results) as (-> & -> & -> & -> & ->). rewrite Hl. unfold PACKET_PROBE_CONNLIMIT_ATTEMPTS.
  cbn [fmap option_fmap option_map normal or_none default from_option id]. split_and!.
  - unfold connlimit_enforced, PACKET_PROBE_CONNLIMIT_ATTEMPTS, PACKET_PROBE_CONNLIMIT_MAX_ACCEPTED.
    cbn [py_eqb num_eqb int_value]. rewrite Z.eqb_refl, andb_true_l, andb_true_iff, Z.leb_le, Z.ltb_lt. lia.
  - destruct payload as [s|]; cbn; [|done]. rewrite str_eqb_eq. split; [by intros ->|by intros [= ->]].
  - cbn. apply str_eqb_eq.
Qed.

Lemma packet_flags_exact_witness :
  exists v r, parsed (printed_json (packet_client_report (Some (u "ok")) None (u "timeout") (replicate 128 (u "ok") ++ replicate 12 (u "TimeoutError:timed out")))) = Ok (inl v) /\
    packet_result_from_client_report v = Ok r /\
    (dget (u "tcp_connlimit_enforced") r = Some (VBool true) <->
     (Z.of_nat (length (filter (fun x => x = u "ok") (replicate 128 (u "ok") ++ replicate 12 (u "TimeoutError:timed out")))) <= 128)%Z) /\
    (dget (u "tcp_clean_connect_allowed") r = Some (VBool true) <-> Some (u "ok") = Some (u "ok")) /\
    (dget (u "udp_protected_port_silently_dropped") r = Some (VBool true) <-> u "timeout" = u "timeout").
Proof.
  apply packet_flags_exact; [by apply literal_scalar|constructor|by apply literal_scalar| |reflexivity].
  apply Forall_app. split; apply Forall_replicate; by apply literal_scalar.
Defined.

(** ** The hop-by-hop flags *)

Definition ascii_text (s : pystr) : Prop := Forall (fun c => (c < 128)%N) s.

Lemma hex_text_ascii n : ascii_text (hex_text n).
Proof.
  assert (Hd : forall d, (hex_digit (d mod 16) < 128)%N).
  { intros d. unfold hex_digit. assert (H : (d mod 16 < 16)%N) by by apply N.mod_lt.
    destruct (d mod 16 <? 10)%N eqn:E; [apply N.ltb_lt in E|]; lia. }
  assert (Hf : forall width k, ascii_text (hex_fixed width k)).
  { induction width as [|width IH]; intros k; cbn [hex_fixed]; [constructor|]. apply Forall_app. split; [apply IH|]. by apply Forall_singleton. }
  unfold hex_text. pose proof (drop_while_Forall (chr_is 48%N) (fun c => (c < 128)%N) (hex_fixed 4 n) (Hf 4 n)) as H.
  destruct (drop_while _ _); [by repeat constructor|exact H].
Qed.

Lemma join_ascii sep l : ascii_text sep -> Forall ascii_text l -> ascii_text (join sep l).
Proof.
  intros Hs. induction 1 as [|x l Hx Hl IH]; [constructor|]. destruct l as [|y l]; [done|].
  change (join sep (x :: y :: l)) with (x ++ sep ++ join sep (y :: l)). by repeat (apply Forall_app; split).
Qed.

Lemma packed_text_ascii packed : ascii_text (packed_text packed).
Proof.
  assert (Htext : forall l, ascii_text (join (u ":") (hex_text <$> l))).
  { intros l. apply join_ascii; [by repeat constructor|]. apply Forall_fmap, Forall_true. intros z. apply hex_text_ascii. }
  unfold packed_text, ipv6_text. destruct (zero_run 0 _ _ _) as [start len]. destruct (1 <? len)%nat; [|apply Htext].
  repeat (apply Forall_app; split); try apply Htext. by repeat constructor.
Qed.

Lemma reply_plain packet r : Forall is_byte packet -> icmpv6_reply packet = Some r -> plain (reply_value r).
Proof.
  intros Hb. unfold icmpv6_reply. destruct (length packet <? 54)%nat; [done|]. destruct (negb _); [done|].
  destruct (_ || _); [done|]. destruct (drop 54 packet) as [|type [|code rest]] eqn:E; [done|done|]. intros [= <-].
  assert (Hd : Forall is_byte (drop 54 packet)) by by apply Forall_drop. rewrite E in Hd.
  apply Forall_cons in Hd as [Ht [Hc _]%Forall_cons]. unfold is_byte in *.
  apply plain_dict. split; [apply (bool_decide_unpack _); vm_compute; exact I|]. cbn [r_type r_code r_source r_destination].
  repeat apply Forall_cons_2; [| | | |constructor]; (split; [by apply literal_scalar|]); try (apply small_int_plain; lia);
    apply ascii_scalar, packed_text_ascii.
Qed.

Lemma replies_plain packets (p : reply -> bool) : Forall (Forall is_byte) packets ->
  Forall plain (reply_value <$> filter (fun r => p r = true) (omap icmpv6_reply packets)).
Proof.
  rewrite !Forall_forall. intros Hb v (r & -> & Hr)%list_elem_of_fmap. apply list_elem_of_filter in Hr as [_ Hr].
  apply list_elem_of_omap in Hr as (packet & Hin & Hr). eapply reply_plain; [by apply Hb|done].
Qed.

Lemma hop_report_plain source_mac destination_mac packets :
  length source_mac = 6 -> length destination_mac = 6 -> Forall (Forall is_byte) packets ->
  plain (VDict (hop_by_hop_report source_mac destination_mac packets)).
Proof.
  intros Hs Hd Hb. apply plain_dict. split; [apply (bool_decide_unpack _); vm_compute; exact I|].
  unfold hop_by_hop_report. repeat apply Forall_cons_2; [| | |constructor]; (split; [by apply literal_scalar|]).
  - apply small_int_plain. unfold frame. rewrite !length_app, Hs, Hd. vm_compute. done.
  - apply plain_list. pose proof (replies_plain packets (fun _ => true) Hb) as H. by rewrite filter_all in H by (by apply Forall_true).
  - apply plain_list. by apply replies_plain.
Qed.

(** A received packet that reports the protected port as unreachable. *)
Definition betrays (packet : list Z) : Prop := exists r, icmpv6_reply packet = Some r /\ port_unreachable r = true.

Lemma hop_verdict d r : hop_by_hop_result (VDict d) = Ok r ->
  dget (u "ipv6_hop_by_hop_udp_packet_sent") r =
    Some (VBool match int_value (or_none (dget (u "sent_bytes") d)) with Some z => (0 <? z)%Z | None => false end) /\
  dget (u "ipv6_hop_by_hop_udp_protected_port_silently_dropped") r =
    Some (VBool (negb (truthy (VList match or_none (dget (u "icmpv6_port_unreachable_replies") d) with VList l => l | _ => [] end)))).
Proof. unfold hop_by_hop_result. intros <-%Ok_inj. split; reflexivity. Qed.

Lemma hop_values source_mac destination_mac packets :
  let d := hop_by_hop_report source_mac destination_mac packets in
  dget (u "sent_bytes") d = Some (VInt (Z.of_nat (length (frame source_mac destination_mac)))) /\
  dget (u "icmpv6_port_unreachable_replies") d =
    Some (VList (reply_value <$> filter (fun r => port_unreachable r = true) (omap icmpv6_reply packets))).
Proof. split; reflexivity. Qed.

(** The hop-by-hop flags through the client script, its JSON output and the verdict: the
    packet counts as sent, and the protected port as silent exactly when no received packet
    is a port-unreachable answer from the victim to the attacker. *)
Theorem hop_flags_exact source_mac destination_mac packets :
  length source_mac = 6 -> length destination_mac = 6 -> Forall (Forall is_byte) packets ->
  exists v r, parsed (printed_json (hop_by_hop_report source_mac destination_mac packets)) = Ok (inl v) /\
    hop_by_hop_result v = Ok r /\
    dget (u "ipv6_hop_by_hop_udp_packet_sent") r = Some (VBool true) /\
    (dget (u "ipv6_hop_by_hop_udp_protected_port_silently_dropped") r = Some (VBool true) <-> Forall (fun p => ~ betrays p) packets).
Proof.
  intros Hs Hd Hb. pose proof (hop_report_plain _ _ _ Hs Hd Hb) as Hp.
  destruct (hop_by_hop_result (VDict (refiled (hop_by_hop_report source_mac destination_mac packets)))) as [r|e] eqn:Er; [|done].
  eexists _, r. split; [by apply parsed_printed|]. split; [exact Er|]. apply hop_verdict in Er as [-> ->].
  rewrite !dget_refiled by by apply plain_dict in Hp as [Hp _]. destruct (hop_values source_mac destination_mac packets) as [-> ->].
  cbn [fmap option_fmap option_map normal or_none default from_option id int_value]. split.
  - unfold frame. rewrite !length_app, Hs, Hd. reflexivity.
  - rewrite flag_true. destruct (filter (fun r => port_unreachable r = true) (omap icmpv6_reply packets)) as [|x l] eqn:E.
    + split; [intros _|done]. rewrite Forall_forall. intros p Hin (x & Hx & Hu).
      assert (Hin' : x ∈ filter (fun r => port_unreachable r = true) (omap icmpv6_reply packets)).
      { apply list_elem_of_filter. split; [done|]. apply list_elem_of_omap. by exists p. }
      rewrite E in Hin'. by apply not_elem_of_nil in Hin'.
    + split; [done|]. intros Hall. exfalso.
      assert (Hx : x ∈ x :: l) by (apply elem_of_cons; by left). rewrite <-E in Hx. apply list_elem_of_filter in Hx as [Hu Hx].
      apply list_elem_of_omap in Hx as (p & Hin & Hr). rewrite Forall_forall in Hall. apply (Hall p Hin). by exists x.
Qed.

(** ** A run that passes *)

(** What [nft list] prints for the shipped template, as far as the flags read it. *)
Definition listed_ruleset : pystr :=
  join [10%N]
    [u "table inet altura_prot_edge {"; u "set protected_tcp_ports {"; u "set tcp4_connlimit {"; u "set tcp6_connlimit {";
     u "set tcp4_syn_rate { timeout 10s }"; u "set tcp6_syn_rate { timeout 10s }";
     u "tcp dport @protected_tcp_ports tcp flags ! fin,syn,rst,ack drop";
     u "tcp dport @protected_tcp_ports tcp flags fin,psh,urg / fin,syn,rst,psh,ack,urg drop";
     u "udp dport @protected_tcp_ports drop";
     u "tcp dport @protected_tcp_ports tcp flags syn / fin,syn,rst,ack update @tcp4_syn_rate { ip saddr . tcp dport }";
     u "update @tcp6_syn_rate { ip6 saddr & ffff:ffff:ffff:ffff:: . tcp dport }";
     u "limit rate over 5000/second burst 10000 packets drop"; u "ct state invalid drop";
     u "tcp dport @protected_tcp_ports ct state new tcp flags != syn / fin,syn,rst,ack drop";
     u "add @tcp4_connlimit { ip saddr . tcp dport ct count over 128 }"; u "add @tcp6_connlimit { ip6 saddr ct count over 128 }";
     u "icmp type { destination-unreachable } accept"; u "ip protocol icmp limit rate over 100/second burst 200 packets drop";
     u "icmpv6 type { packet-too-big } accept"; u "meta l4proto ipv6-icmp limit rate over 100/second burst 200 packets drop"; u "}"].

Definition guarded_host : smoke_world :=
  sample_host (fun command =>
    let script := List.last command [] in
    if str_eqb (List.hd [] command) (u "/usr/sbin/unshare") then Exited 0 listed_ruleset []
    else if contains (u "/sys/class/net/") script then Exited 0 (u "02:00:00:00:00:01" ++ [10%N]) []
    else if contains (u "connlimit_results") script
         then Exited 0 (printed_json (packet_client_report (Some (u "ok")) None (u "timeout") (replicate 128 (u "ok") ++ replicate 12 (u "TimeoutError:timed out")))) []
    else if contains (u "IPPROTO_HOPOPTS") script
         then Exited 0 (printed_json (hop_by_hop_report [2; 0; 0; 0; 0; 1]%Z [2; 0; 0; 0; 0; 2]%Z [])) []
    else Exited 0 [] []).

Definition strict_args : smoke_args := SmokeArgs (u "ops/nftables/altura-prot-edge.nft") true false false true.

Lemma guarded_host_passes : exit_status (smoke_main guarded_host strict_args []).1 = 0%Z.
Proof. vm_compute. reflexivity. Qed.

Lemma required_smoke_exact_witness :
  sw_nft_exists guarded_host = true /\ missing_prerequisites guarded_host = [] /\
  exists e, (smoke_main guarded_host strict_args []).1 = Ok e /\
    (sa_require_provenance strict_args = true -> provenance_ok (se_report e)) /\ smoke_passes (se_report e).
Proof. apply required_smoke_exact; [reflexivity|apply guarded_host_passes]. Defined.
