(* ===== verification/Providers.v ===== *)
(** * Providers: configuration and answers of the AI providers

    [tools/codex_analyzer.py]: the default provider table, [deep_merge] and the
    configuration loaders, credential lookup, the prompt, the request each
    provider sends and how its answer becomes a sanitized rule list, up to
    [run_provider].  HTTP, subprocesses, the Codex SDK, the environment and the
    files are the fields of [world]. *)

From S2P Require Import Prelude Unicode PyStr PyFloat PyVal Json JsonFacts Sanitize Learn.

(** ** The outside world *)

Record http_request := HttpRequest {
  rq_url : pystr; rq_headers : pydict; rq_body : pystr; rq_timeout : Z }.

(** What [urlopen] does: a decoded body, an [HTTPError] with its body, or
    another exception. *)
Inductive http_reply :=
| HttpBody (text : pystr)
| HttpError (code : Z) (body : pystr)
| HttpRaise (e : exn).

Record proc_request := ProcRequest {
  pr_argv : list pystr; pr_input : option pystr; pr_timeout : float }.
Record proc_result := ProcResult { pr_code : Z; pr_stdout : pystr; pr_stderr : pystr }.

(** The [openai_codex] package: the effort enumeration by name and by value, and
    one read-only thread run (model, service tier, prompt, effort). *)
Record codex_sdk := CodexSdk {
  effort_by_name : pystr -> option pystr;
  effort_by_value : pystr -> option pystr;
  thread_run : pyval -> pyval -> pystr -> option pystr -> res pyval }.

Record world := World {
  w_env : pystr -> option pystr;                 (** [os.environ.get] *)
  w_home : pystr;                                (** [Path.home()] *)
  w_file : pystr -> option (res pystr);          (** [Path.read_text]; [None]: no such file *)
  w_log : pystr -> option pystr;                 (** a log decoded with [errors="replace"] *)
  w_glob : pystr -> pystr -> option (list pystr);(** names [dir.glob(pattern)] yields; [None]: no [dir] *)
  w_http : http_request -> http_reply;           (** [urllib.request.urlopen] *)
  w_run : proc_request -> res proc_result;       (** [subprocess.run] *)
  w_which : pystr -> bool;                       (** [shutil.which(...) is not None] *)
  w_codex : res codex_sdk }.                     (** importing the SDK may fail *)

(** ** Defaults *)

Definition DEFAULT_PROVIDERS : pydict :=
  [(u "codex",
    VDict [(u "model", VStr (u "gpt-5.5"));
     (u "reasoning_effort", VStr (u "high"));
     (u "service_tier", VStr (u "fast"))]);
   (u "openai",
    VDict [(u "model", VStr (u "gpt-5.5"));
     (u "api_key_env", VStr (u "OPENAI_API_KEY"));
     (u "base_url", VStr (u "https://api.openai.com/v1"))]);
   (u "anthropic",
    VDict [(u "model", VStr (u "claude-sonnet-4-6"));
     (u "api_key_env", VStr (u "ANTHROPIC_API_KEY"));
     (u "base_url", VStr (u "https://api.anthropic.com/v1"));
     (u "anthropic_version", VStr (u "2023-06-01"))]);
   (u "gemini",
    VDict [(u "model", VStr (u "gemini-2.5-pro"));
     (u "api_key_env", VStr (u "GEMINI_API_KEY"));
     (u "base_url", VStr (u "https://generativelanguage.googleapis.com/v1beta"))]);
   (u "openrouter",
    VDict [(u "model", VStr (u "~openai/gpt-latest"));
     (u "api_key_env", VStr (u "OPENROUTER_API_KEY"));
     (u "base_url", VStr (u "https://openrouter.ai/api/v1"));
     (u "app_title", VStr (u "AlturaProt"))]);
   (u "claude",
    VDict [(u "kind", VStr (u "cli_agent"));
     (u "command", VStr (u "claude"));
     (u "model", VStr (u ""));
     (u "login_cmd", VStr (u "claude auth login"));
     (u "install_url", VStr (u "https://docs.claude.com/claude-code"))]);
   (u "opencode",
    VDict [(u "kind", VStr (u "cli_agent"));
     (u "command", VStr (u "opencode"));
     (u "model", VStr (u ""));
     (u "login_cmd", VStr (u "opencode auth login"));
     (u "install_url", VStr (u "https://opencode.ai"))]);
   (u "cursor",
    VDict [(u "kind", VStr (u "cli_agent"));
     (u "command", VStr (u "cursor-agent"));
     (u "model", VStr (u ""));
     (u "login_cmd", VStr (u "cursor-agent login"));
     (u "install_url", VStr (u "https://cursor.com/cli"))]);
   (u "grok",
    VDict [(u "kind", VStr (u "cli_agent"));
     (u "command", VStr (u "grok"));
     (u "model", VStr (u ""));
     (u "login_cmd", VStr (u "grok login"));
     (u "install_url", VStr (u "https://github.com/superagent-ai/grok-cli"))])].

Definition DEFAULT_PROVIDER_CONFIG : pydict :=
  [(u "selected_provider", VStr (u "codex")); (u "providers", VDict DEFAULT_PROVIDERS)].

Definition CLI_AGENT_PROVIDERS : list pystr := [u "claude"; u "opencode"; u "cursor"; u "grok"].
Definition ALL_PROVIDERS : list pystr := dkeys DEFAULT_PROVIDERS.

Definition SYSTEM_PROMPT : pystr := u "You convert defensive HTTP flood telemetry into safe AlturaProt filter rules.
Return JSON only. Prefer narrow signature-based adaptive filters. Treat rate_limited,
global_rate_limited, per_ip_rate_limited, signature_rate_limited,
path_shape_rate_limited, trusted_proxy_rate_limited, filter_block, and body_too_large
events as strong evidence.
Treat observed-only volume as weak evidence unless the prompt explicitly allows it.
Do not generate commands, code execution, network instructions, broad IP blocks, or
always-on catch-all filters. Prefer path_shape over broad path_prefix filters when
many unique signatures share the same high-entropy or route-family path shape.
Do not hardcode benign route-family exemptions; use the observed event reasons,
signature cardinality, and configured min_count to decide whether a shape is
attack evidence. Dictionary slug and :hex path shapes are valid adaptive targets.".

Definition prompt_rules : list pyval :=
  [VStr (u "Output JSON only.");
   VStr (uq "Use only this schema: {'filters':[FilterRule...]}");
   VStr (u "FilterRule fields: id, enabled, adaptive, priority, ttl_seconds, condition, action.");
   VStr (u "condition may only contain signature, methods, path_exact, path_prefix, path_contains, path_shape, query_contains, user_agent_contains, headers.");
   VStr (uq "action must be {'kind':'block','status':403,'body':'blocked by adaptive filter\n'}.");
   VStr (u "Prefer events whose reason is rate_limited, global_rate_limited, per_ip_rate_limited, signature_rate_limited, path_shape_rate_limited, trusted_proxy_rate_limited, filter_block, or body_too_large.");
   VStr (u "Observed-only volume is weak evidence; use it only when allow_observed_learning is true.");
   VStr (u "For every strong signature group at or above min_count, include at least one adaptive signature filter unless a narrower condition is clearly safer.");
   VStr (u "Prefer signature conditions. Add path/user-agent conditions only when they are obvious and reduce false positives.");
   VStr (u "If many observed events have unique signatures but the same path_shape, prefer a path_shape filter over a broad /api path_prefix filter.");
   VStr (u "Do not treat source-known benign-looking route families as automatic exemptions; require the same evidence threshold for every shape.");
   VStr (u "Dictionary slug shapes like /api/subscription/:num and hex shapes like /api/:hex/:num are valid adaptive path_shape targets during floods.");
   VStr (u "Do not suggest shell commands, code execution, network calls, broad always-on blocks, or always-active rules.")].

Definition build_prompt (events : list pydict) (min_count ttl_seconds : Z) : res pydict :=
  let* ttl := bounded_ttl_seconds (VInt ttl_seconds) 60 in
  Ok [(u "task", VStr (u "Analyze these AlturaProt HTTP attack events and propose defensive adaptive filters."));
      (u "rules", VList prompt_rules); (u "min_count", VInt min_count); (u "ttl_seconds", VInt ttl);
      (u "allow_observed_learning", VBool false); (u "events", VList (VDict <$> events))].

(** ** Configuration *)

(** [deep_merge(base, override)] on two dicts: nested dicts are merged key by
    key, anything else is replaced. *)
Fixpoint deep_merge (base : pydict) (override : pyval) {struct override} : pydict :=
  match override with
  | VDict items =>
      (fix go (base : pydict) (items : pydict) {struct items} : pydict :=
         match items with
         | [] => base
         | (key, value) :: rest =>
             go (match value, dget key base with
                 | VDict _, Some (VDict b) => dset key (VDict (deep_merge b value)) base
                 | _, _ => dset key value base
                 end) rest
         end) base items
  | _ => base
  end.

(** The call [deep_merge(base, override)] when [override] comes from a file. *)
Definition deep_merge_call (base : pydict) (override : pyval) : res pydict :=
  match override with
  | VDict _ => Ok (deep_merge base override)
  | _ => Raise (Exn AttributeError (u "object has no attribute 'items'"))
  end.

Definition default_provider_config_path (w : world) : pystr :=
  default (w_home w ++ u "/.config/altura-prot/providers.json") (w_env w (u "ALTURA_PROT_PROVIDER_CONFIG")).

Definition default_provider_secrets_path (w : world) : pystr :=
  default (w_home w ++ u "/.config/altura-prot/secrets.json") (w_env w (u "ALTURA_PROT_PROVIDER_SECRETS")).

(** [Path(path) if path else default] *)
Definition path_or (fallback : pystr) (path : option pystr) : pystr :=
  match path with Some (c :: p) => c :: p | _ => fallback end.

(** [json.loads(json.dumps(v))]: the deep copy the code takes of its defaults. *)
Definition json_copy (v : pyval) : res pyval := loads (dumps default_style v).

Definition load_provider_config (w : world) (path : option pystr) : res pydict :=
  let path := path_or (default_provider_config_path w) path in
  let* config := json_copy (VDict DEFAULT_PROVIDER_CONFIG) in
  let config := match config with VDict d => d | _ => [] end in
  match w_file w path with
  | None => Ok config
  | Some contents =>
      let* text := contents in
      let* user_config := loads text in
      deep_merge_call config user_config
  end.

Definition load_provider_secrets (w : world) (path : option pystr) : res pyval :=
  match w_file w (path_or (default_provider_secrets_path w) path) with
  | None => Ok (VDict [])
  | Some contents => let* text := contents in loads text
  end.

(** The text [write_provider_config] and [write_provider_secrets] store (with
    mode 0600). *)
Definition provider_file_text (config : pyval) : pystr := dumps pretty_style config ++ [10%N].

(** [v or w] *)
Definition py_or (v w : pyval) : pyval := if truthy v then v else w.

Definition resolve_provider (provider : pystr) (config : pydict) : res pystr :=
  let provider :=
    if str_eqb provider (u "auto")
    then py_str (py_or (or_none (dget (u "selected_provider") config)) (VStr (u "codex")))
    else provider in
  if dmem provider DEFAULT_PROVIDERS then Ok provider
  else Raise (Exn ValueError (u "unsupported provider: " ++ provider)).

(** The merged settings and [config] after its [setdefault]. *)
Definition provider_config (config : pydict) (provider : pystr) (model_override : option pystr) :
    res (pydict * pydict) :=
  let config := dsetdefault (u "providers") (VDict []) config in
  match dget provider DEFAULT_PROVIDERS with
  | None => Raise (Exn KeyError (repr_str provider))
  | Some defaults =>
      let* merged := json_copy defaults in
      let merged := match merged with VDict d => d | _ => [] end in
      let* mine := attr_get (or_none (dget (u "providers") config)) provider in
      let merged := match mine with Some (VDict d) => deep_merge merged (VDict d) | _ => merged end in
      let merged := match model_override with
                    | Some (c :: m) => dset (u "model") (VStr (c :: m)) merged
                    | _ => merged
                    end in
      Ok (merged, config)
  end.

Definition provider_api_key (w : world) (provider : pystr) (provider_cfg : pydict) : res pystr :=
  let env_name := strip (py_str (py_or (or_none (dget (u "api_key_env") provider_cfg)) (VStr []))) in
  match env_name, w_env w env_name with
  | _ :: _, Some (c :: key) => Ok (c :: key)
  | _, _ =>
      let* secrets := load_provider_secrets w None in
      let* mine := attr_get secrets provider in
      let value := match mine with Some (VDict d) => or_none (dget (u "api_key") d) | _ => VNone end in
      match value with
      | VStr (c :: key) => Ok (c :: key)
      | _ =>
          let shown := match env_name with [] => upper provider ++ u "_API_KEY" | _ => env_name end in
          Raise (Exn RuntimeError (u "missing API key for " ++ provider ++ u "; set " ++ shown ++
                                   u " or run tools/ai_provider_cli.py login"))
      end
  end.

(** ** Answers *)

Definition fence : pystr := u "```".

(** [re.sub(r"^```(?:json)?", "", text)] and [re.sub(r"```$", "", text)] on
    stripped text. *)
Definition drop_open_fence (text : pystr) : pystr :=
  if starts_with (fence ++ u "json") text then drop 7 text
  else if starts_with fence text then drop 3 text else text.
Definition drop_close_fence (text : pystr) : pystr :=
  if ends_with fence text then take (length text - 3) text else text.

Definition unfence (text : pystr) : pystr :=
  if starts_with fence text
  then strip (drop_close_fence (strip (drop_open_fence text)))
  else text.

(** From the first opening to the last closing brace, when there is such a span. *)
Definition brace_span (text : pystr) : pystr :=
  match find_char 123 text, rfind_char 125 text with
  | Some start, Some stop => if start <? stop then take (stop + 1 - start) (drop start text) else text
  | _, _ => text
  end.

Definition extract_json (text : pystr) : res pyval := loads (brace_span (unfence (strip text))).

(** The tail every provider shares:
    [parsed.get("filters", []) if isinstance(parsed, dict) else []], iterated by
    [sanitized_filter_list]. *)
Definition filters_of_answer (text : pystr) (ttl_seconds : Z) : res (list pydict) :=
  let* parsed := extract_json text in
  let* filters := match parsed with
                  | VDict d => py_iter (default (VList []) (dget (u "filters") d))
                  | _ => Ok []
                  end in
  sanitized_filter_list filters ttl_seconds.

Definition newline_join (texts : list pystr) : pystr := join [10%N] texts.

(** Text parts of one output item. *)
Definition openai_content_text (content : pyval) : list pystr :=
  match content with
  | VDict c =>
      match py_or (or_none (dget (u "text") c)) (or_none (dget (u "content") c)) with
      | VStr s => [s]
      | _ => []
      end
  | _ => []
  end.

Definition response_text_from_openai (data : pyval) : res pystr :=
  let* output_text := attr_get data (u "output_text") in
  match output_text with
  | Some (VStr s) => Ok s
  | _ =>
      let items := match vget data (u "output") with VList l => l | _ => [] end in
      let* texts := mapR (fun item =>
        match item with
        | VDict d =>
            let* contents := py_iter (default (VList []) (dget (u "content") d)) in
            Ok (mjoin (openai_content_text <$> contents))
        | _ => Ok []
        end) items in
      Ok (newline_join (mjoin texts))
  end.

Definition response_text_from_anthropic (data : pyval) : res pystr :=
  let* content := attr_get data (u "content") in
  let items := match content with Some (VList l) => l | _ => [] end in
  Ok (newline_join (omap (fun item =>
        match item with
        | VDict d => match or_none (dget (u "text") d) with
                     | VStr s => if py_eqb (or_none (dget (u "type") d)) (VStr (u "text")) then Some s else None
                     | _ => None
                     end
        | _ => None
        end) items)).

Definition response_text_from_chat_completion (data : pyval) : res pystr :=
  let* choices := attr_get data (u "choices") in
  match choices with
  | Some (VList (first :: _)) =>
      let message := match first with VDict d => default (VDict []) (dget (u "message") d) | _ => VDict [] end in
      Ok match message with
         | VDict m => match or_none (dget (u "content") m) with VStr s => s | _ => [] end
         | _ => []
         end
  | _ => Ok []
  end.

Definition text_parts (parts : list pyval) : list pystr :=
  omap (fun part => match part with
                    | VDict d => match or_none (dget (u "text") d) with VStr s => Some s | _ => None end
                    | _ => None
                    end) parts.

Definition response_text_from_gemini (data : pyval) : res pystr :=
  let* candidates := attr_get data (u "candidates") in
  let* texts :=
    match candidates with
    | Some (VList (VDict first :: _)) =>
        match default (VDict []) (dget (u "content") first) with
        | VDict content =>
            let* parts := py_iter (default (VList []) (dget (u "parts") content)) in
            Ok (text_parts parts)
        | _ => Ok []
        end
    | _ => Ok []
    end in
  match texts with
  | [] => Raise (Exn RuntimeError (u "unexpected Gemini response: " ++ take 300 (dumps default_style data)))
  | _ => Ok (mjoin texts)
  end.

(** ** Requests *)

Definition post_json (w : world) (url : pystr) (headers payload : pydict) : res pyval :=
  match w_http w (HttpRequest url headers (dumps default_style (VDict payload)) 60) with
  | HttpBody text => loads text
  | HttpError code body =>
      Raise (Exn RuntimeError (url ++ u " returned HTTP " ++ dec_Z code ++ u ": " ++ take 500 body))
  | HttpRaise e => Raise e
  end.

(** [DEFAULT_PROVIDER_CONFIG["providers"][provider][key]] *)
Definition default_setting (provider key : pystr) : pyval := vget (or_none (dget provider DEFAULT_PROVIDERS)) key.

(** [provider_cfg.get(key, <default>)] *)
Definition setting (provider : pystr) (provider_cfg : pydict) (key : pystr) : pyval :=
  default (default_setting provider key) (dget key provider_cfg).

(** [provider_cfg.get("base_url", ...).rstrip("/")] *)
Definition base_url (provider : pystr) (provider_cfg : pydict) : res pystr :=
  match setting provider provider_cfg (u "base_url") with
  | VStr s => Ok (rstrip_by (chr_is 47) s)
  | _ => Raise (Exn AttributeError (u "object has no attribute 'rstrip'"))
  end.

Definition compact_prompt (prompt : pydict) : pystr := dumps compact_style (VDict prompt).
Definition chat_message (role content : pystr) : pyval :=
  VDict [(u "role", VStr role); (u "content", VStr content)].
Definition json_type : pystr * pyval := (u "Content-Type", VStr (u "application/json")).
Definition bearer (api_key : pystr) : pystr * pyval := (u "Authorization", VStr (u "Bearer " ++ api_key)).

Definition openai_filters (w : world) (prompt provider_cfg : pydict) (ttl_seconds : Z) : res (list pydict) :=
  let* api_key := provider_api_key w (u "openai") provider_cfg in
  let* url := base_url (u "openai") provider_cfg in
  let payload :=
    [(u "model", setting (u "openai") provider_cfg (u "model"));
     (u "input", VList [chat_message (u "system") SYSTEM_PROMPT; chat_message (u "user") (compact_prompt prompt)]);
     (u "store", VBool false)] in
  let* data := post_json w (url ++ u "/responses") [bearer api_key; json_type] payload in
  let* text := response_text_from_openai data in
  filters_of_answer text ttl_seconds.

Definition anthropic_filters (w : world) (prompt provider_cfg : pydict) (ttl_seconds : Z) : res (list pydict) :=
  let* api_key := provider_api_key w (u "anthropic") provider_cfg in
  let* url := base_url (u "anthropic") provider_cfg in
  let* max_tokens := py_int (default (VInt 2048) (dget (u "max_tokens") provider_cfg)) in
  let payload :=
    [(u "model", setting (u "anthropic") provider_cfg (u "model"));
     (u "max_tokens", VInt max_tokens);
     (u "system", VStr SYSTEM_PROMPT);
     (u "messages", VList [chat_message (u "user") (compact_prompt prompt)])] in
  let* data := post_json w (url ++ u "/messages")
    [(u "x-api-key", VStr api_key);
     (u "anthropic-version", default (VStr (u "2023-06-01")) (dget (u "anthropic_version") provider_cfg));
     json_type] payload in
  let* text := response_text_from_anthropic data in
  filters_of_answer text ttl_seconds.

(** [if x := provider_cfg.get(key): headers[name] = str(x)] *)
Definition optional_header (provider_cfg : pydict) (key name : pystr) (headers : pydict) : pydict :=
  let v := or_none (dget key provider_cfg) in
  if truthy v then dset name (VStr (py_str v)) headers else headers.

Definition openrouter_filters (w : world) (prompt provider_cfg : pydict) (ttl_seconds : Z) : res (list pydict) :=
  let* api_key := provider_api_key w (u "openrouter") provider_cfg in
  let* url := base_url (u "openrouter") provider_cfg in
  let headers := optional_header provider_cfg (u "http_referer") (u "HTTP-Referer")
    (optional_header provider_cfg (u "app_title") (u "X-OpenRouter-Title") [bearer api_key; json_type]) in
  let payload :=
    [(u "model", setting (u "openrouter") provider_cfg (u "model"));
     (u "messages", VList [chat_message (u "system") SYSTEM_PROMPT; chat_message (u "user") (compact_prompt prompt)])] in
  let* data := post_json w (url ++ u "/chat/completions") headers payload in
  let* text := response_text_from_chat_completion data in
  filters_of_answer text ttl_seconds.

Definition text_part (text : pystr) : pyval := VDict [(u "parts", VList [VDict [(u "text", VStr text)]])].

Definition gemini_filters (w : world) (prompt provider_cfg : pydict) (ttl_seconds : Z) : res (list pydict) :=
  let* api_key := provider_api_key w (u "gemini") provider_cfg in
  let* url := base_url (u "gemini") provider_cfg in
  let model := py_str (setting (u "gemini") provider_cfg (u "model")) in
  let payload :=
    [(u "system_instruction", text_part SYSTEM_PROMPT);
     (u "contents", VList [VDict [(u "role", VStr (u "user"));
                                  (u "parts", VList [VDict [(u "text", VStr (compact_prompt prompt))]])]]);
     (u "generationConfig", VDict [(u "responseMimeType", VStr (u "application/json"))])] in
  let* data := post_json w (url ++ u "/models/" ++ model ++ u ":generateContent")
    [(u "x-goog-api-key", VStr api_key); json_type] payload in
  let* text := response_text_from_gemini data in
  filters_of_answer text ttl_seconds.

(** ** The Codex SDK *)

(** [reasoning_effort(raw, ReasoningEffort)]: the member named so, else the
    member with that value. *)
Definition reasoning_effort (sdk : codex_sdk) (raw : pyval) : res (option pystr) :=
  match raw with
  | VNone => Ok None
  | _ =>
      match lower (strip (py_str raw)) with
      | [] => Ok None
      | value =>
          match effort_by_name sdk value, effort_by_value sdk value with
          | Some e, _ => Ok (Some e)
          | None, Some e => Ok (Some e)
          | None, None => Raise (Exn ValueError (u "unsupported Codex reasoning_effort: " ++ py_str raw))
          end
      end
  end.

Definition codex_filters (w : world) (prompt provider_cfg : pydict) (ttl_seconds : Z) : res (list pydict) :=
  let* sdk := w_codex w in
  let service_tier := or_none (dget (u "service_tier") provider_cfg) in
  let* effort := reasoning_effort sdk (or_none (dget (u "reasoning_effort") provider_cfg)) in
  let* final_response :=
    thread_run sdk (or_none (dget (u "model") provider_cfg)) service_tier (compact_prompt prompt) effort in
  match final_response with
  | VStr text => filters_of_answer text ttl_seconds
  | _ => Raise (Exn AttributeError (u "object has no attribute 'strip'"))
  end.

(** ** Agent CLIs *)

(** The argument vector and whether the prompt goes to standard input. *)
Definition cli_agent_argv (provider command model prompt_text : pystr) : list pystr * bool :=
  let model_args := match model with [] => [] | _ => [u "--model"; model] end in
  if str_eqb provider (u "claude") then
    ([command; u "-p"; u "--output-format"; u "json"] ++ model_args, true)
  else if str_eqb provider (u "opencode") then
    ([command; u "run"] ++ model_args ++ [prompt_text], false)
  else if str_eqb provider (u "cursor") then
    ([command; u "-p"; u "--output-format"; u "text"] ++ model_args ++ [prompt_text], false)
  else if str_eqb provider (u "grok") then
    ([command; u "-p"; prompt_text] ++ model_args, false)
  else ([command; prompt_text], false).

(** The first string among [obj["result"]], [obj["text"]], [obj["content"]]. *)
Fixpoint first_text (keys : list pystr) (obj : pydict) : option pystr :=
  match keys with
  | [] => None
  | key :: rest => match dget key obj with Some (VStr s) => Some s | _ => first_text rest obj end
  end.

Definition is_json_error (e : exn) : bool := bool_decide (exn_class e = JSONDecodeError).

Definition cli_agent_response_text (provider stdout : pystr) : res pystr :=
  let stdout := strip stdout in
  if str_eqb provider (u "claude") then
    match loads stdout with
    | Ok (VDict obj) => Ok (default stdout (first_text [u "result"; u "text"; u "content"] obj))
    | Ok _ => Ok stdout
    | Raise e => if is_json_error e then Ok stdout else Raise e
    end
  else Ok stdout.

Definition cli_command (provider : pystr) (provider_cfg : pydict) : pystr :=
  py_str (py_or (or_none (dget (u "command") provider_cfg)) (VStr provider)).
Definition cli_login_cmd (command : pystr) (provider_cfg : pydict) : pystr :=
  py_str (py_or (or_none (dget (u "login_cmd") provider_cfg)) (VStr (command ++ u " login"))).

Definition cli_prompt_text (prompt : pydict) : pystr :=
  SYSTEM_PROMPT ++ [10; 10]%N ++ compact_prompt prompt ++
  [10; 10]%N ++ uq "Return only a JSON object of the form {'filters':[FilterRule, ...]}.".

(** [subprocess.run] with its two handled exceptions. *)
Definition run_cli (w : world) (command login_cmd : pystr) (request : proc_request) : res proc_result :=
  match w_run w request with
  | Ok proc => Ok proc
  | Raise e =>
      match exn_class e with
      | FileNotFoundError =>
          Raise (Exn RuntimeError (command ++ u " CLI not found; install it and run `" ++ login_cmd ++ u "`"))
      | TimeoutExpired =>
          Raise (Exn RuntimeError (command ++ u " timed out after " ++ format_0f (pr_timeout request) ++ u "s"))
      | _ => Raise e
      end
  end.

Definition cli_agent_filters (w : world) (provider : pystr) (prompt provider_cfg : pydict) (ttl_seconds : Z) :
    res (list pydict) :=
  let command := cli_command provider provider_cfg in
  let model := strip (py_str (py_or (or_none (dget (u "model") provider_cfg)) (VStr []))) in
  let login_cmd := cli_login_cmd command provider_cfg in
  let* timeout := py_float (default (VInt 180) (dget (u "timeout") provider_cfg)) in
  let prompt_text := cli_prompt_text prompt in
  let '(argv, use_stdin) := cli_agent_argv provider command model prompt_text in
  let* proc := run_cli w command login_cmd
    (ProcRequest argv (if use_stdin then Some prompt_text else None) timeout) in
  if negb (pr_code proc =? 0)%Z then
    let detail := take 300 (strip (match pr_stderr proc with [] => pr_stdout proc | s => s end)) in
    let detail := match detail with [] => u "not logged in? run " ++ login_cmd | _ => detail end in
    Raise (Exn RuntimeError (command ++ u " exited " ++ dec_Z (pr_code proc) ++ u ": " ++ detail))
  else
    let* text := cli_agent_response_text provider (pr_stdout proc) in
    filters_of_answer text ttl_seconds.

(** [provider_cfg = None] stands for the omitted argument. *)
Definition detect_cli_agent (w : world) (provider : pystr) (provider_cfg : option pydict) : pydict :=
  let cfg := match provider_cfg with
             | Some (kv :: d) => kv :: d
             | _ => match dget provider DEFAULT_PROVIDERS with Some (VDict d) => d | _ => [] end
             end in
  let command := cli_command provider cfg in
  let info (installed : bool) (version : pystr) :=
    [(u "provider", VStr provider); (u "command", VStr command); (u "installed", VBool installed);
     (u "version", VStr version); (u "login_cmd", VStr (cli_login_cmd command cfg));
     (u "install_url", VStr (py_str (py_or (or_none (dget (u "install_url") cfg)) (VStr []))))] in
  if negb (w_which w command) then info false []
  else info true
    match (let* timeout := float_of_Z 8 in w_run w (ProcRequest [command; u "--version"] None timeout)) with
    | Ok out =>
        match strip (match pr_stdout out with [] => pr_stderr out | s => s end) with
        | [] => []
        | text => take 120 (default [] (head (splitlines text)))
        end
    | Raise e => u "version check failed: " ++ exn_msg e
    end.

(** ** Dispatch *)

Definition run_provider (w : world) (provider : pystr) (prompt provider_cfg : pydict) (ttl_seconds : Z) :
    res (list pydict) :=
  if str_eqb provider (u "codex") then codex_filters w prompt provider_cfg ttl_seconds
  else if py_eqb (or_none (dget (u "kind") provider_cfg)) (VStr (u "cli_agent"))
          || existsb (str_eqb provider) CLI_AGENT_PROVIDERS
  then cli_agent_filters w provider prompt provider_cfg ttl_seconds
  else if str_eqb provider (u "openai") then openai_filters w prompt provider_cfg ttl_seconds
  else if str_eqb provider (u "anthropic") then anthropic_filters w prompt provider_cfg ttl_seconds
  else if str_eqb provider (u "gemini") then gemini_filters w prompt provider_cfg ttl_seconds
  else if str_eqb provider (u "openrouter") then openrouter_filters w prompt provider_cfg ttl_seconds
  else Raise (Exn ValueError (u "unsupported provider: " ++ provider)).

(** ** Merging configurations *)

(** What a key of the merged dict holds. *)
Definition merged_value (base override : option pyval) : option pyval :=
  match override with
  | None => base
  | Some (VDict o) => match base with
                      | Some (VDict b) => Some (VDict (deep_merge b (VDict o)))
                      | _ => Some (VDict o)
                      end
  | Some v => Some v
  end.

Definition merge_item (base : pydict) (kv : pystr * pyval) : pydict :=
  match kv.2, dget kv.1 base with
  | VDict _, Some (VDict b) => dset kv.1 (VDict (deep_merge b kv.2)) base
  | _, _ => dset kv.1 kv.2 base
  end.

Lemma deep_merge_fold items base : deep_merge base (VDict items) = foldl merge_item base items.
Proof.
  revert base. induction items as [|[k v] items IH]; intros base; [done|].
  cbn [foldl]. rewrite <-IH. reflexivity.
Qed.

Lemma dget_merge_item base k v k' :
  dget k' (merge_item base (k, v)) = if str_eqb k' k then merged_value (dget k base) (Some v) else dget k' base.
Proof.
  assert (H : forall x, dget k' (dset k x base) = if str_eqb k' k then Some x else dget k' base).
  { intros x. destruct (str_eqb k' k) eqn:E; [apply str_eqb_eq in E as ->; apply dget_dset_eq|].
    apply dget_dset_ne. intros ->. by rewrite str_eqb_refl in E. }
  unfold merge_item, merged_value. cbn [fst snd].
  destruct v; try apply H. destruct (dget k base) as [[]|]; apply H.
Qed.

Lemma dget_deep_merge items base k :
  dict_ok items -> dget k (deep_merge base (VDict items)) = merged_value (dget k base) (dget k items).
Proof.
  rewrite deep_merge_fold. revert base. induction items as [|[k0 v] items IH]; intros base Hok; [done|].
  apply NoDup_cons in Hok as [Hk Hok]. cbn [foldl]. rewrite IH, dget_merge_item by done. cbn [dget].
  destruct (str_eqb k k0) eqn:E; [|done]. apply str_eqb_eq in E as ->.
  by rewrite (proj2 (dget_None k0 items) Hk).
Qed.

Lemma default_copy : json_copy (VDict DEFAULT_PROVIDER_CONFIG) = Ok (VDict DEFAULT_PROVIDER_CONFIG).
Proof. vm_compute. reflexivity. Qed.

(** The defaults of one provider: a flat table of strings. *)
Definition flat (v : pyval) : Prop :=
  exists d, v = VDict d /\ Forall (fun kv => is_str kv.2 = true) d /\ json_copy v = Ok v.

Lemma default_providers_flat : Forall (fun kv => flat kv.2) DEFAULT_PROVIDERS.
Proof. repeat (constructor; [eexists; split; [reflexivity|split; [repeat constructor|vm_compute; reflexivity]]|]). constructor. Qed.

Lemma flat_base (d : pydict) k v o :
  Forall (fun kv => is_str kv.2 = true) d -> merged_value (dget k d) (Some v) = o -> o = Some v.
Proof.
  intros Hf <-. destruct v; try done. cbn. destruct (dget k d) as [b|] eqn:E; [|done].
  apply dget_Some_In in E. rewrite Forall_forall in Hf. specialize (Hf _ E). by destruct b.
Qed.

(** ** Provider answers are sanitized *)

Definition clean_list (fs : list pydict) : Prop :=
  Forall (fun r => clean_rule r /\ filter_has_matcher r = true) fs.

Lemma filters_of_answer_clean text ttl fs : filters_of_answer text ttl = Ok fs -> clean_list fs.
Proof.
  unfold filters_of_answer. intros H. apply bind_ok in H as (v & _ & H).
  apply bind_ok in H as (l & _ & H). by apply sanitized_filter_list_ok in H.
Qed.

Ltac unbind H :=
  repeat match type of H with rbind _ _ = Ok _ => apply bind_ok in H as (? & _ & H) end.
Ltac provider_done H := unbind H; by eapply filters_of_answer_clean.

Lemma run_provider_clean_list w p prompt cfg ttl fs : run_provider w p prompt cfg ttl = Ok fs -> clean_list fs.
Proof.
  unfold run_provider. intros H.
  destruct (str_eqb p (u "codex")).
  { unfold codex_filters in H. unbind H.
    match type of H with context [match ?v with _ => _ end] => destruct v; try done end. by eapply filters_of_answer_clean. }
  destruct (_ || _).
  { unfold cli_agent_filters in H. apply bind_ok in H as (t & _ & H).
    destruct (cli_agent_argv _ _ _ _) as [argv stdin]. apply bind_ok in H as (pr & _ & H).
    destruct (negb _); [done|]. provider_done H. }
  destruct (str_eqb p (u "openai")); [unfold openai_filters in H; provider_done H|].
  destruct (str_eqb p (u "anthropic")); [unfold anthropic_filters in H; provider_done H|].
  destruct (str_eqb p (u "gemini")); [unfold gemini_filters in H; provider_done H|].
  destruct (str_eqb p (u "openrouter")); [unfold openrouter_filters in H; provider_done H|done].
Qed.

(** ** Finding the answer in prose *)

(** [j] surrounded by text that opens no brace before it and closes none after. *)
Definition around (j text : pystr) : Prop :=
  exists pre suf, text = pre ++ j ++ suf /\ (123%N ∉ pre) /\ (125%N ∉ suf).

Definition braced (j : pystr) : Prop := exists body, j = 123%N :: body ++ [125%N].

Lemma drop_while_stop {A} (p : A -> bool) l x r :
  p x = false -> drop_while p (l ++ x :: r) = drop_while p l ++ x :: r.
Proof. intros Hx. induction l as [|y l IH]; cbn; [by rewrite Hx|]. by destruct (p y). Qed.

Lemma not_in_drop_while {A} (p : A -> bool) (l : list A) x : x ∉ l -> x ∉ drop_while p l.
Proof. intros H Hin. apply H. destruct (drop_while_suffix p l) as [k ->]. apply elem_of_app. by right. Qed.

Lemma rstrip_stop p front c suf :
  p c = false -> rstrip_by p (front ++ c :: suf) = front ++ c :: rstrip_by p suf.
Proof.
  intros Hc. rewrite !rstrip_by_rev, rev_app_distr. cbn [rev]. rewrite <-app_assoc. cbn [app].
  rewrite drop_while_stop, rev_app_distr by done. cbn [rev]. by rewrite rev_involutive, <-app_assoc.
Qed.

Lemma not_in_rstrip p suf c : c ∉ suf -> c ∉ rstrip_by p suf.
Proof.
  intros H Hin. apply H. rewrite rstrip_by_rev in Hin. apply list_elem_of_In, in_rev, list_elem_of_In in Hin.
  apply list_elem_of_In, in_rev, list_elem_of_In. destruct (drop_while_suffix p (rev suf)) as [k ->].
  apply elem_of_app. by right.
Qed.

Lemma strip_around j text : braced j -> around j text -> around j (strip text).
Proof.
  intros [body ->] (pre & suf & -> & Hp & Hs). unfold strip, strip_by, lstrip_by.
  exists (drop_while is_space pre), (rstrip_by is_space suf).
  split; [|split; [by apply not_in_drop_while|by apply not_in_rstrip]].
  cbn [app]. rewrite drop_while_stop by done.
  replace (drop_while is_space pre ++ 123%N :: (body ++ [125%N]) ++ suf)
    with ((drop_while is_space pre ++ 123%N :: body) ++ 125%N :: suf) by (by rewrite <-!app_assoc).
  rewrite rstrip_stop by done. by rewrite <-!app_assoc.
Qed.

(** A prefix without the opening brace lies before it. *)
Lemma prefix_before p c pre rest :
  c ∉ p -> starts_with p (pre ++ c :: rest) = true -> exists pre', pre = p ++ pre'.
Proof.
  intros Hc (t & Ht)%starts_with_spec.
  destruct (app_eq_inv _ _ _ _ Ht) as [(k & -> & _)|(k & -> & Hk)]; [by exists k|].
  destruct k as [|x k]; [exists []; by rewrite !app_nil_r|]. injection Hk as <- _.
  destruct Hc. apply elem_of_app. right. apply elem_of_cons. by left.
Qed.

Lemma drop_prefix_around p j text :
  (123%N ∉ p) -> braced j -> around j text -> starts_with p text = true -> around j (drop (length p) text).
Proof.
  intros Hp [body ->] (pre & suf & -> & Hpre & Hsuf) Hs.
  destruct (prefix_before p 123 pre _ Hp Hs) as [pre' ->].
  exists pre', suf. rewrite <-app_assoc, drop_app_length. split; [done|]. split; [|done].
  intros Hin. apply Hpre, elem_of_app. by right.
Qed.

Lemma drop_suffix_around p j text :
  (125%N ∉ p) -> braced j -> around j text -> ends_with p text = true ->
  around j (take (length text - length p) text).
Proof.
  intros Hp [body ->] (pre & suf & -> & Hpre & Hsuf) Hs. unfold ends_with in Hs.
  rewrite !rev_app_distr in Hs. cbn [rev] in Hs. rewrite !rev_app_distr in Hs. cbn [rev app] in Hs.
  rewrite <-!app_assoc in Hs. cbn [app] in Hs.
  edestruct (prefix_before (rev p) 125 (rev suf)) as [k Hk]; [|exact Hs|].
  { intros Hin. apply Hp, list_elem_of_In, in_rev, list_elem_of_In. exact Hin. }
  assert (Hsuf' : suf = rev k ++ p).
  { rewrite <-(rev_involutive suf), Hk, rev_app_distr, rev_involutive. done. }
  exists pre, (rev k). split; [|split; [done|]].
  - rewrite Hsuf'. replace (pre ++ (123%N :: body ++ [125%N]) ++ rev k ++ p)
      with ((pre ++ (123%N :: body ++ [125%N]) ++ rev k) ++ p) by (by rewrite <-!app_assoc).
    rewrite length_app. replace (_ + length p - length p) with (length (pre ++ (123%N :: body ++ [125%N]) ++ rev k)) by lia.
    by rewrite take_app_length.
  - intros Hin. apply Hsuf. rewrite Hsuf'. apply elem_of_app. by left.
Qed.

Lemma unfence_around j text : braced j -> around j text -> around j (unfence text).
Proof.
  intros Hj Ht. unfold unfence. destruct (starts_with fence text) eqn:Ef; [|done].
  apply strip_around; [done|]. set (t1 := strip (drop_open_fence text)).
  assert (H1 : around j t1).
  { apply strip_around; [done|]. unfold drop_open_fence.
    destruct (starts_with (fence ++ u "json") text) eqn:E.
    - apply (drop_prefix_around (fence ++ u "json")); try done. apply (bool_decide_unpack _). by vm_compute.
    - rewrite Ef. apply (drop_prefix_around fence); try done. apply (bool_decide_unpack _). by vm_compute. }
  unfold drop_close_fence. destruct (ends_with fence t1) eqn:E; [|done].
  apply (drop_suffix_around fence); try done. apply (bool_decide_unpack _). by vm_compute.
Qed.

Lemma find_char_first c pre rest : c ∉ pre -> find_char c (pre ++ c :: rest) = Some (length pre).
Proof.
  induction pre as [|x pre IH]; cbn; [by rewrite N.eqb_refl|]. rewrite not_elem_of_cons. intros [Hx Hp].
  rewrite (proj2 (N.eqb_neq x c)) by congruence. by rewrite IH.
Qed.

Lemma brace_span_around j text : braced j -> around j text -> brace_span text = j.
Proof.
  intros [body ->] (pre & suf & -> & Hp & Hs). unfold brace_span, rfind_char. cbn [app].
  rewrite find_char_first by done.
  replace (rev (pre ++ 123%N :: (body ++ [125%N]) ++ suf)) with (rev suf ++ 125%N :: rev (pre ++ 123%N :: body)).
  2:{ rewrite !rev_app_distr. cbn [rev]. rewrite !rev_app_distr. cbn [rev app]. by rewrite <-!app_assoc. }
  rewrite find_char_first.
  2:{ intros Hin. apply Hs, list_elem_of_In, in_rev, list_elem_of_In. exact Hin. }
  cbn [fmap option_fmap option_map]. rewrite !length_app. cbn [length]. rewrite !length_app, length_rev. cbn [length].
  rewrite (proj2 (Nat.ltb_lt _ _)) by lia. rewrite drop_app_length.
  replace (_ + 1 - length pre) with (length (123%N :: body ++ [125%N])) by (cbn [length]; rewrite length_app; cbn [length]; lia).
  change (123%N :: (body ++ [125%N]) ++ suf) with ((123%N :: body ++ [125%N]) ++ suf). by rewrite take_app_length.
Qed.

Lemma dumps_dict_braced st d : braced (dumps st (VDict d)).
Proof.
  unfold dumps. rewrite dumps_dict. unfold bracketed. change (u "{") with [123%N]. change (u "}") with [125%N].
  destruct (member_text st 0 <$> written st d) as [|x l]; [by exists []|]. cbn [app].
  eexists (newline st 1 ++ join _ _ ++ newline st 0). by rewrite <-!app_assoc.
Qed.

(** ** Properties *)

(** [deep_merge] is a right-biased recursive merge: after it, a key holds the
    override's value, merged recursively when both sides hold a dict, and the base's
    value when the override does not mention it. *)
Theorem deep_merge_spec base override k :
  dict_ok override ->
  dget k (deep_merge base (VDict override)) =
  match dget k override, dget k base with
  | None, b => b
  | Some (VDict o), Some (VDict b) => Some (VDict (deep_merge b (VDict o)))
  | Some v, _ => Some v
  end.
Proof.
  intros Hok. rewrite dget_deep_merge by done. unfold merged_value.
  destruct (dget k override) as [[]|]; try done; by destruct (dget k base) as [[]|].
Qed.

Definition user_override : pydict :=
  [(u "selected_provider", VStr (u "claude"));
   (u "providers", VDict [(u "claude", VDict [(u "model", VStr (u "opus"))])])].

Lemma deep_merge_spec_witness :
  dict_ok user_override /\
  dget (u "selected_provider") (deep_merge DEFAULT_PROVIDER_CONFIG (VDict user_override)) =
  Some (VStr (u "claude")).
Proof.
  assert (Hok : dict_ok user_override) by (apply (bool_decide_unpack _); vm_compute; exact I).
  split; [exact Hok|].
  rewrite (deep_merge_spec DEFAULT_PROVIDER_CONFIG user_override (u "selected_provider") Hok). reflexivity.
Defined.

(** The settings used for a provider: a non-empty [--model] wins for the
    model; every other key is the user's value if the configuration gives one, else
    the built-in default; the built-in defaults are never modified. *)
Theorem provider_settings config provider model_override providers user defaults :
  dget provider DEFAULT_PROVIDERS = Some (VDict defaults) ->
  dget (u "providers") config = Some (VDict providers) ->
  dget provider providers = Some (VDict user) -> dict_ok user ->
  exists cfg, provider_config config provider model_override = Ok (cfg, config) /\
    forall k, dget k cfg =
      match model_override with
      | Some (c :: m) => if str_eqb k (u "model") then Some (VStr (c :: m))
                         else match dget k user with Some v => Some v | None => dget k defaults end
      | _ => match dget k user with Some v => Some v | None => dget k defaults end
      end.
Proof.
  intros Hd Hps Hu Hok. unfold provider_config. unfold dsetdefault, dmem. rewrite Hps, Hd.
  pose proof default_providers_flat as Hflat. rewrite Forall_forall in Hflat.
  destruct (Hflat _ (dget_Some_In _ _ _ Hd)) as (d & Heq & Hstr & Hcopy). cbn in Heq, Hcopy. injection Heq as <-.
  rewrite Hcopy. cbn [rbind]. rewrite Hps.
  change (or_none (Some (VDict providers))) with (VDict providers). cbn [attr_get rbind]. rewrite Hu.
  eexists. split; [reflexivity|]. intros k.
  assert (Hk : dget k (deep_merge defaults (VDict user)) =
               match dget k user with Some v => Some v | None => dget k defaults end).
  { rewrite dget_deep_merge by done. destruct (dget k user) as [v|]; [|done]. by eapply flat_base. }
  destruct model_override as [[|c m]|]; try exact Hk.
  destruct (str_eqb k (u "model")) eqn:E; [apply str_eqb_eq in E as ->; apply dget_dset_eq|].
  rewrite dget_dset_ne; [exact Hk|]. intros ->. by rewrite str_eqb_refl in E.
Qed.

Lemma provider_settings_witness :
  exists cfg, provider_config user_override (u "claude") None = Ok (cfg, user_override) /\
    dget (u "model") cfg = Some (VStr (u "opus")) /\ dget (u "command") cfg = Some (VStr (u "claude")).
Proof.
  destruct (provider_settings user_override (u "claude") None
    [(u "claude", VDict [(u "model", VStr (u "opus"))])] [(u "model", VStr (u "opus"))]
    (match dget (u "claude") DEFAULT_PROVIDERS with Some (VDict d) => d | _ => [] end)) as (cfg & Hc & Hk).
  - reflexivity.
  - reflexivity.
  - reflexivity.
  - apply (bool_decide_unpack _). vm_compute. exact I.
  - exists cfg. split; [exact Hc|]. rewrite !Hk. split; reflexivity.
Defined.

(** Whatever the HTTP services, agent CLIs or the Codex SDK answer, a call of
    [run_provider] that returns yields only normal-form rules, each with at least
    one matcher: a provider cannot inject an action, an unsafe id, an unbounded
    time-to-live or an always-on filter. *)
Theorem run_provider_sanitized w provider prompt provider_cfg ttl_seconds fs :
  run_provider w provider prompt provider_cfg ttl_seconds = Ok fs ->
  Forall (fun r => clean_rule r /\ filter_has_matcher r = true) fs.
Proof. apply run_provider_clean_list. Qed.

(** A world in which the [claude] CLI answers with the given output. *)
Definition cli_world (stdout : pystr) : world :=
  World (fun _ => None) (u "/home/u") (fun _ => None) (fun _ => None) (fun _ _ => None)
        (fun _ => HttpError 500 []) (fun _ => Ok (ProcResult 0 stdout [])) (fun _ => true)
        (Raise (Exn RuntimeError (u "no SDK"))).

Definition cli_answer : pystr :=
  uq "{'result': 'Sure: ```json {\'filters\': [{\'id\': \'x y\', \'condition\': {\'path_exact\': \'/a\'}}, {\'condition\': {}}]}```'}".

Lemma run_provider_sanitized_witness :
  exists fs, run_provider (cli_world cli_answer) (u "claude") [] [] 60 = Ok fs /\ length fs = 1 /\
    Forall (fun r => clean_rule r /\ filter_has_matcher r = true) fs.
Proof.
  destruct (run_provider (cli_world cli_answer) (u "claude") [] [] 60) as [fs|e] eqn:H;
    [|exfalso; vm_compute in H; discriminate H].
  exists fs. split; [reflexivity|]. split.
  - vm_compute in H. injection H as <-. reflexivity.
  - exact (run_provider_sanitized _ _ _ _ _ _ H).
Defined.

(** C10. [extract_json] finds the answer in prose: the JSON text of an object is
    decoded to that object whatever precedes it without an opening brace and follows
    it without a closing brace, code fences included. *)
Theorem extract_json_finds st d pre suf :
  json_layout st -> plain (VDict d) -> (123%N ∉ pre) -> (125%N ∉ suf) ->
  extract_json (pre ++ dumps st (VDict d) ++ suf) = Ok (normal (st_sort st) (VDict d)).
Proof.
  intros Hst Hp Hpre Hsuf. unfold extract_json. pose proof (dumps_dict_braced st d) as Hj.
  rewrite (brace_span_around (dumps st (VDict d))); [|done|].
  - rewrite <-(app_nil_r (dumps st (VDict d))). rewrite loads_dumps; try done; constructor.
  - apply unfence_around, strip_around; try done. by exists pre, suf.
Qed.

Lemma extract_json_finds_witness :
  extract_json (u " ```json" ++ dumps compact_style (VDict [(u "filters", VList [])]) ++ u "``` bye") =
  Ok (VDict [(u "filters", VList [])]).
Proof.
  refine (extract_json_finds compact_style [(u "filters", VList [])] (u " ```json") (u "``` bye") _ _ _ _).
  - exact (proj1 (proj2 style_layouts)).
  - apply plain_dict. split; [apply (bool_decide_unpack _); vm_compute; exact I|].
    constructor; [split; [by apply literal_scalar|exact I]|constructor].
  - apply (bool_decide_unpack _). vm_compute. exact I.
  - apply (bool_decide_unpack _). vm_compute. exact I.
Defined.

(** Credentials and settings survive the disk: what [write_provider_secrets] (or
    [write_provider_config]) wrote is what [load_provider_secrets] reads back, up to
    the order of keys. *)
Theorem provider_file_round_trip w p secrets :
  plain secrets -> p <> [] -> w_file w p = Some (Ok (provider_file_text secrets)) ->
  load_provider_secrets w (Some p) = Ok (normal true secrets).
Proof.
  intros Hp Hne Hf. unfold load_provider_secrets. destruct p as [|c p]; [done|]. cbn [path_or].
  rewrite Hf. cbn [rbind]. unfold provider_file_text. rewrite loads_dumps; try done.
  - apply style_layouts.
  - repeat constructor.
  - constructor; [by right|constructor].
Qed.

Definition sample_secrets : pyval :=
  VDict [(u "openai", VDict [(u "api_key", VStr (u "sk-" ++ [233; 128512; 10]%N))]); (u "n", VList [VInt (-7); VNone])].

Lemma provider_file_round_trip_witness :
  load_provider_secrets
    (World (fun _ => None) [] (fun _ => Some (Ok (provider_file_text sample_secrets))) (fun _ => None) (fun _ _ => None)
       (fun _ => HttpError 500 []) (fun _ => Raise (Exn OSError [])) (fun _ => false) (Raise (Exn RuntimeError [])))
    (Some (u "s.json")) = Ok (normal true sample_secrets).
Proof.
  apply provider_file_round_trip.
  - apply plain_dict. split; [apply (bool_decide_unpack _); vm_compute; exact I|].
    constructor; [|constructor; [|constructor]]; (split; [by apply literal_scalar|]); cbn [snd].
    + apply plain_dict. split; [apply NoDup_singleton|]. constructor; [|constructor].
      split; [by apply literal_scalar|]. cbn [snd plain].
      change (Forall scalar [115; 107; 45; 233; 128512; 10]%N). repeat constructor; unfold scalar; lia.
    + apply plain_list. constructor; [apply Nat.leb_le; reflexivity|]. repeat constructor.
  - discriminate.
  - reflexivity.
Defined.
