(* ===== verification/ProviderCli.v ===== *)
(** * ProviderCli: the provider setup tool

    [tools/ai_provider_cli.py]: the commands [init], [status], [select], [detect],
    [set] and [login] as computations over the provider files, the lines a user types
    and the lines the tool prints. *)

From S2P Require Import Prelude Unicode PyStr PyFloat PyVal Json JsonFacts RuleJson Providers.

(** ** Computations *)

Inductive shown :=
| Printed (line : pystr)                (** [print] *)
| Asked (prompt : pystr).               (** the prompt of [input] or [getpass] *)

Record terminal := Terminal {
  t_files : pystr -> option (res pystr);   (** as [w_file] *)
  t_inputs : list pystr;                   (** the lines [input] will return *)
  t_keys : list pystr;                     (** the lines [getpass] will return *)
  t_out : list shown }.

Definition cmd (A : Type) : Type := eff terminal A.

Definition show (s : list shown) (t : terminal) : terminal := Terminal (t_files t) (t_inputs t) (t_keys t) (t_out t ++ s).
Definition print (line : pystr) : cmd unit := fun t => (Ok tt, show [Printed line] t).

Definition eof {A} : res A := Raise (Exn EOFError (u "EOF when reading a line")).

Definition input (prompt : pystr) : cmd pystr :=
  fun t => match t_inputs t with
           | [] => (eof, show [Asked prompt] t)
           | raw :: rest => (Ok raw, Terminal (t_files t) rest (t_keys t) (t_out t ++ [Asked prompt]))
           end.

Definition getpass (prompt : pystr) : cmd pystr :=
  fun t => match t_keys t with
           | [] => (eof, show [Asked prompt] t)
           | raw :: rest => (Ok raw, Terminal (t_files t) (t_inputs t) rest (t_out t ++ [Asked prompt]))
           end.

Definition write_file (path text : pystr) : cmd unit :=
  fun t => (Ok tt, Terminal (fun p => if str_eqb p path then Some (Ok text) else t_files t p) (t_inputs t) (t_keys t) (t_out t)).

(** ** Prompts *)

Definition prompt_text (label current : pystr) : pystr :=
  label ++ match current with [] => [] | _ => u " [" ++ current ++ u "]" end ++ u ": ".

(** [raw.strip() or current] *)
Definition answer (current raw : pystr) : pystr := match strip raw with [] => current | r => r end.

Definition prompt_default (label current : pystr) : cmd pystr :=
  perform raw <- input (prompt_text label current) in cret (answer current raw).

(** [while True]: ask until [judge] accepts a line; a complaint is printed between. *)
Fixpoint ask_lines {A} (prompt : pystr) (judge : pystr -> res (A + pystr)) (files : pystr -> option (res pystr))
    (keys : list pystr) (inputs : list pystr) (out : list shown) : res A * terminal :=
  match inputs with
  | [] => (eof, Terminal files [] keys (out ++ [Asked prompt]))
  | raw :: rest =>
      match judge raw with
      | Ok (inl x) => (Ok x, Terminal files rest keys (out ++ [Asked prompt]))
      | Ok (inr complaint) => ask_lines prompt judge files keys rest (out ++ [Asked prompt; Printed complaint])
      | Raise e => (Raise e, Terminal files rest keys (out ++ [Asked prompt]))
      end
  end.

Definition ask {A} (prompt : pystr) (judge : pystr -> res (A + pystr)) : cmd A :=
  fun t => ask_lines prompt judge (t_files t) (t_keys t) (t_inputs t) (t_out t).

Definition required (label current raw : pystr) : pystr + pystr :=
  match strip (answer current raw) with [] => inr (label ++ u " is required.") | value => inl value end.

Definition prompt_required (label current : pystr) : cmd pystr :=
  ask (prompt_text label current) (fun raw => Ok (required label current raw)).

Definition allowed_hint (allowed : list pystr) : pystr := join (u ", ") (py_sorted str_leb allowed).

Definition chosen (label current : pystr) (allowed : list pystr) (raw : pystr) : pystr + pystr :=
  match required (label ++ u " (" ++ allowed_hint allowed ++ u ")") current raw with
  | inl value => if existsb (str_eqb (lower value)) allowed then inl (lower value)
                 else inr (label ++ u " must be one of: " ++ allowed_hint allowed)
  | inr complaint => inr complaint
  end.

Definition prompt_choice (label current : pystr) (allowed : list pystr) : cmd pystr :=
  ask (prompt_text (label ++ u " (" ++ allowed_hint allowed ++ u ")") current) (fun raw => Ok (chosen label current allowed raw)).

(** ** Providers *)

Definition CLI_AGENTS : list pystr := [u "codex"; u "claude"; u "opencode"; u "cursor"; u "grok"].
Definition API_PROVIDERS : list pystr := [u "openai"; u "anthropic"; u "gemini"; u "openrouter"].
Definition PROVIDERS : list pystr := CLI_AGENTS ++ API_PROVIDERS.

Definition is_cli_agent (provider : pystr) : bool := existsb (str_eqb provider) CLI_AGENTS.

(** [providers.setdefault(provider, {})] in a configuration that has its own
    [providers]. *)
Definition with_entry (config : pydict) (provider : pystr) : res pydict :=
  let config := dsetdefault (u "providers") (VDict []) config in
  match dget (u "providers") config with
  | Some (VDict providers) => Ok (dset (u "providers") (VDict (dsetdefault provider (VDict []) providers)) config)
  | _ => Raise (Exn AttributeError (u "object has no attribute 'setdefault'"))
  end.

(** [d[key] = v] on the value [d]. *)
Definition item_set (d : pyval) (key : pystr) (v : pyval) : res pyval :=
  match d with
  | VDict items => Ok (VDict (dset key v items))
  | _ => Raise (Exn TypeError (u "object does not support item assignment"))
  end.

(** [providers[provider][key] = v] *)
Definition set_entry (provider key : pystr) (v : pyval) (config : pydict) : res pydict :=
  match dget (u "providers") config with
  | Some (VDict providers) =>
      let* entry := item_set (or_none (dget provider providers)) key v in
      Ok (dset (u "providers") (VDict (dset provider entry providers)) config)
  | _ => Raise (Exn TypeError (u "object is not subscriptable"))
  end.

(** An optional setting of the [set] command. *)
Definition set_given (provider key : pystr) (v : option pystr) (config : pydict) : res pydict :=
  match v with Some s => set_entry provider key (VStr s) config | None => Ok config end.

Definition select_in (provider : pystr) (config : pydict) : pydict := dset (u "selected_provider") (VStr provider) config.

(** [secrets.setdefault(provider, {})["api_key"] = key] *)
Definition with_secret (secrets : pyval) (provider key : pystr) : res pyval :=
  match secrets with
  | VDict d =>
      let d := dsetdefault provider (VDict []) d in
      let* entry := item_set (or_none (dget provider d)) (u "api_key") (VStr key) in
      Ok (VDict (dset provider entry d))
  | _ => Raise (Exn AttributeError (u "object has no attribute 'setdefault'"))
  end.

(** [str(cfg.get(key, default))] *)
Definition text_of (cfg : pydict) (key default_ : pystr) : pystr := py_str (default (VStr default_) (dget key cfg)).

(** A field of the record that [detect_cli_agent] returns. *)
Definition field (info : pydict) (key : pystr) : pystr := py_str (or_none (dget key info)).
Definition installed (info : pydict) : bool := truthy (or_none (dget (u "installed") info)).

(** [f"{provider:10s}"] *)
Definition pad10 (s : pystr) : pystr := s ++ replicate (10 - length s) 32%N.

Definition optional_text (before : pystr) (s : pystr) (behind : pystr) : pystr :=
  match s with [] => [] | _ => before ++ s ++ behind end.

(** The arguments of the [set] command. *)
Record set_args := SetArgs {
  sa_provider : pystr;
  sa_model : option pystr;
  sa_base_url : option pystr;
  sa_command : option pystr;
  sa_api_key_env : option pystr;
  sa_api_key : option pystr;
  sa_select : bool }.

Inductive cli_call :=
| CmdInit
| CmdStatus
| CmdSelect (provider : pystr)
| CmdDetect (as_json : bool)
| CmdSet (args : set_args)
| CmdLogin (provider : option pystr).

(** ** Commands *)

Section commands.
Context (w : world).                              (** environment, home, commands, the SDK *)
Context (which_path : pystr -> option pystr).     (** [shutil.which] *)
Context (check_output : list pystr -> res pystr). (** [subprocess.check_output] *)

(** The world with the files as they are now. *)
Definition world_at (t : terminal) : world :=
  World (w_env w) (w_home w) (t_files t) (w_log w) (w_glob w) (w_http w) (w_run w) (w_which w) (w_codex w).

Definition config_file : pystr := default_provider_config_path w.
Definition secrets_file : pystr := default_provider_secrets_path w.

Definition load_config : cmd pydict := fun t => (load_provider_config (world_at t) None, t).
Definition load_secrets : cmd pyval := fun t => (load_provider_secrets (world_at t) None, t).
Definition write_provider_config (config : pydict) : cmd unit := write_file config_file (provider_file_text (VDict config)).
Definition write_provider_secrets (secrets : pyval) : cmd unit := write_file secrets_file (provider_file_text secrets).

(** [provider_config(config, provider)]: the settings; [config] already has its
    [providers]. *)
Definition settings (config : pydict) (provider : pystr) : cmd pydict :=
  perform r <- clift (provider_config config provider None) in cret r.1.

Definition init_config : cmd unit := fun t =>
  match t_files t config_file with
  | Some _ => print (u "provider config already exists: " ++ config_file) t
  | None =>
      (perform copy <- clift (json_copy (VDict DEFAULT_PROVIDER_CONFIG)) in
       perform _ <- write_file config_file (provider_file_text copy) in
       print (u "created provider config: " ++ config_file)) t
  end.

Definition codex_status : pystr :=
  join (u ", ")
    [match which_path (u "codex") with
     | Some ((_ :: _) as codex) =>
         match check_output [codex; u "--version"] with
         | Ok text => strip text
         | Raise e => u "codex CLI check failed: " ++ exn_msg e
         end
     | _ => u "codex CLI not on PATH"
     end;
     match w_codex w with Ok _ => u "openai-codex import ok" | Raise _ => u "openai-codex not installed" end].

Definition marker (provider : pystr) (selected : pyval) : pystr := if py_eqb (VStr provider) selected then u "*" else u " ".

Definition status_cli (config : pydict) (selected : pyval) (provider : pystr) : cmd unit :=
  perform cfg <- settings config provider in
  let lead := marker provider selected ++ u " " ++ pad10 provider ++ u " model=" in
  if str_eqb provider (u "codex") then print (lead ++ text_of cfg (u "model") [] ++ u " " ++ codex_status)
  else
    let info := detect_cli_agent w provider (Some cfg) in
    let model := py_or (default (VStr []) (dget (u "model") cfg)) (VStr (u "(cli default)")) in
    print (lead ++ py_str model ++ u " " ++ (if installed info then u "installed" else u "not installed") ++
           optional_text (u " ") (field info (u "version")) [] ++ u " (login: " ++ field info (u "login_cmd") ++ u ")").

Definition env_status (env_name : pyval) : res pystr :=
  if truthy env_name then
    match env_name with
    | VStr name => Ok (match w_env w name with Some _ => u "set" | None => u "unset" end)
    | _ => Raise (Exn TypeError (u "str expected"))
    end
  else Ok (u "unset").

Definition status_api (config : pydict) (secrets selected : pyval) (provider : pystr) : cmd unit :=
  perform cfg <- settings config provider in
  let env_name := or_none (dget (u "api_key_env") cfg) in
  perform mine <- clift (attr_get secrets provider) in
  let has_secret := match mine with Some (VDict d) => truthy (or_none (dget (u "api_key") d)) | _ => false end in
  perform env <- clift (env_status env_name) in
  print (marker provider selected ++ u " " ++ pad10 provider ++ u " model=" ++ text_of cfg (u "model") [] ++ u " env " ++
         py_str env_name ++ u "=" ++ env ++ u ", secret=" ++ (if has_secret then u "stored" else u "not stored")).

Definition show_status : cmd unit :=
  perform config <- load_config in
  perform secrets <- load_secrets in
  let selected := default (VStr (u "codex")) (dget (u "selected_provider") config) in
  perform _ <- print (u "config:  " ++ config_file) in
  perform _ <- print (u "secrets: " ++ secrets_file) in
  perform _ <- print (u "selected provider: " ++ py_str selected) in
  perform _ <- print [] in
  perform _ <- print (u "subscription CLIs (use the CLI's own login):") in
  perform _ <- each (status_cli config selected) CLI_AGENTS in
  perform _ <- print [] in
  perform _ <- print (u "API-key providers:") in
  each (status_api config secrets selected) API_PROVIDERS.

Definition detected (config : pydict) (provider : pystr) : res pydict :=
  let* r := provider_config config provider None in Ok (detect_cli_agent w provider (Some r.1)).

Definition detect_line (info : pydict) : pystr :=
  pad10 (field info (u "provider")) ++ u " " ++ (if installed info then u "installed" else u "not installed") ++
  optional_text (u " (") (field info (u "version")) (u ")") ++ u "; login: " ++ field info (u "login_cmd").

Definition detect_command (as_json : bool) : cmd unit :=
  perform config <- load_config in
  perform results <- clift (mapR (detected config) (filter (fun p => p <> u "codex") CLI_AGENTS)) in
  if as_json then print (dumps default_style (VList (VDict <$> results)))
  else each (fun info => print (detect_line info)) results.

Definition provider_number (raw : pystr) : res (pystr + pystr) :=
  let raw := strip raw in
  let bad := Ok (inr (u "invalid provider")) in
  if str_isdigit raw then
    let* n := int_of_str (repr_str raw) raw in
    if (1 <=? n)%Z && (n <=? Z.of_nat (length PROVIDERS))%Z
    then Ok (inl (default [] (PROVIDERS !! Z.to_nat (n - 1))))
    else bad
  else bad.

Definition choose_provider : cmd pystr :=
  perform _ <- print (u "Choose provider:") in
  perform _ <- each (fun ip => print (u "  " ++ dec_nat ip.1 ++ u ". " ++ ip.2 ++ u " (" ++
                                      (if is_cli_agent ip.2 then u "subscription CLI" else u "API key") ++ u ")"))
                    (imap (fun i p => (S i, p)) PROVIDERS) in
  ask (u "provider number: ") provider_number.

Definition select_provider (provider : pystr) : cmd unit :=
  perform config <- load_config in
  perform _ <- write_provider_config (select_in provider config) in
  print (u "selected provider: " ++ provider).

(** The configuration [set] writes. *)
Definition set_config (args : set_args) (config : pydict) : res pydict :=
  let provider := sa_provider args in
  let* config := with_entry config provider in
  let* config := set_given provider (u "model") (sa_model args) config in
  let* config := set_given provider (u "command") (sa_command args) config in
  let* config := set_given provider (u "base_url") (sa_base_url args) config in
  let* config := set_given provider (u "api_key_env") (sa_api_key_env args) config in
  Ok (if sa_select args then select_in provider config else config).

Definition store_key (provider key : pystr) : cmd unit :=
  perform secrets <- load_secrets in
  perform secrets <- clift (with_secret secrets provider key) in
  write_provider_secrets secrets.

Definition set_provider (args : set_args) : cmd unit :=
  let provider := sa_provider args in
  perform config <- load_config in
  perform config <- clift (set_config args config) in
  perform _ <- write_provider_config config in
  perform _ <- match sa_api_key args with
               | Some ((_ :: _) as key) =>
                   perform _ <- store_key provider key in
                   print (u "stored API key for " ++ provider ++ u " in " ++ secrets_file)
               | _ => cret tt
               end in
  perform _ <- print (u "configured provider: " ++ provider ++ if sa_select args then u " (selected)" else []) in
  if is_cli_agent provider && negb (str_eqb provider (u "codex")) then
    perform info <- clift (detected config provider) in
    perform _ <- (if installed info then cret tt
                  else print (u "note: " ++ field info (u "command") ++ u " is not installed yet (" ++ field info (u "install_url") ++ u ")")) in
    print (u "log in with: " ++ field info (u "login_cmd"))
  else cret tt.

(** ** Interactive setup *)

Definition EFFORTS : list pystr := [u "none"; u "minimal"; u "low"; u "medium"; u "high"; u "xhigh"].

Definition login_codex (provider : pystr) (config cfg : pydict) : cmd unit :=
  perform config <- clift (with_entry config provider) in
  perform model <- prompt_required (u "Codex model") (text_of cfg (u "model") (u "gpt-5.5")) in
  perform config <- clift (set_entry provider (u "model") (VStr model) config) in
  perform effort <- prompt_choice (u "Reasoning effort") (text_of cfg (u "reasoning_effort") (u "high")) EFFORTS in
  perform config <- clift (set_entry provider (u "reasoning_effort") (VStr effort) config) in
  perform tier <- prompt_required (u "Service tier / fast mode") (text_of cfg (u "service_tier") (u "fast")) in
  perform config <- clift (set_entry provider (u "service_tier") (VStr tier) config) in
  perform _ <- write_provider_config (select_in provider config) in
  perform _ <- print codex_status in
  print (u "Codex uses your local Codex login/app-server; no API key was stored.").

Definition login_cli_agent (provider : pystr) (config cfg : pydict) : cmd unit :=
  let info := detect_cli_agent w provider (Some cfg) in
  perform _ <- (if installed info then
                  perform _ <- print (u "found " ++ field info (u "command") ++ optional_text (u " ") (field info (u "version")) [] ++ u " on PATH.") in
                  print (u "If you are not already logged in, run: " ++ field info (u "login_cmd"))
                else
                  perform _ <- print (field info (u "command") ++ u " is not installed.") in
                  perform _ <- (match field info (u "install_url") with
                                | [] => cret tt
                                | url => print (u "  install it from: " ++ url)
                                end) in
                  print (u "  then log in with: " ++ field info (u "login_cmd"))) in
  perform model <- prompt_default (u "Model (blank = let the CLI choose)") (text_of cfg (u "model") []) in
  perform config <- clift (with_entry config provider) in
  perform config <- clift (set_entry provider (u "model") (VStr model) config) in
  perform _ <- write_provider_config (select_in provider config) in
  perform _ <- print (u "selected provider: " ++ provider) in
  print (u "AlturaProt will invoke this CLI for adaptive filtering using its own login.").

(** The settings of an API provider that the user is asked for, in order. *)
Definition api_settings (provider : pystr) (config cfg : pydict) (model env_name base_url : pystr) : cmd pydict :=
  perform config <- clift (with_entry config provider) in
  perform config <- clift (set_entry provider (u "model") (VStr model) config) in
  perform config <- clift (set_entry provider (u "api_key_env") (VStr env_name) config) in
  perform config <- clift (set_entry provider (u "base_url") (VStr base_url) config) in
  perform config <- (if str_eqb provider (u "anthropic") then
                       perform version <- prompt_default (u "Anthropic version header") (text_of cfg (u "anthropic_version") (u "2023-06-01")) in
                       clift (set_entry provider (u "anthropic_version") (VStr version) config)
                     else cret config) in
  if str_eqb provider (u "openrouter") then
    perform title <- prompt_default (u "OpenRouter app title") (text_of cfg (u "app_title") (u "AlturaProt")) in
    perform config <- clift (set_entry provider (u "app_title") (VStr title) config) in
    perform referer <- prompt_default (u "OpenRouter HTTP referer (optional)") (text_of cfg (u "http_referer") []) in
    match referer with
    | [] => cret config
    | _ => clift (set_entry provider (u "http_referer") (VStr referer) config)
    end
  else cret config.

Definition ask_key (provider env_name : pystr) : cmd unit :=
  perform save <- input (u "Store API key in local 0600 secrets file? [y/N]: ") in
  if str_eqb (lower (strip save)) (u "y") then
    perform key <- getpass (u "API key: ") in
    match strip key with
    | [] => cret tt
    | key => perform _ <- store_key provider key in print (u "stored secret in " ++ secrets_file)
    end
  else print (u "Set " ++ env_name ++ u "=... in your shell before using this provider.").

Definition login_api (provider : pystr) (config cfg : pydict) : cmd unit :=
  perform model <- prompt_required (u "Model") (text_of cfg (u "model") []) in
  perform env_name <- prompt_required (u "API key environment variable") (text_of cfg (u "api_key_env") []) in
  perform base_url <- prompt_default (u "Base URL") (text_of cfg (u "base_url") []) in
  perform config <- api_settings provider config cfg model env_name base_url in
  perform _ <- ask_key provider env_name in
  perform _ <- write_provider_config (select_in provider config) in
  print (u "configured and selected provider: " ++ provider).

Definition login_provider (provider : pystr) : cmd unit :=
  perform config <- load_config in
  let config := dsetdefault (u "providers") (VDict []) config in
  perform cfg <- settings config provider in
  perform _ <- print (u "Configuring " ++ provider ++ u ". Press Enter to keep the current value.") in
  if str_eqb provider (u "codex") then login_codex provider config cfg
  else if is_cli_agent provider then login_cli_agent provider config cfg
  else login_api provider config cfg.

Definition cli_main (call : cli_call) : cmd unit :=
  match call with
  | CmdInit => init_config
  | CmdStatus => show_status
  | CmdSelect provider => select_provider provider
  | CmdDetect as_json => detect_command as_json
  | CmdSet args => set_provider args
  | CmdLogin (Some ((_ :: _) as provider)) => login_provider provider
  | CmdLogin _ => perform provider <- choose_provider in login_provider provider
  end.

End commands.

(** ** Reasoning about computations *)

(** The computation leaves every file as it was. *)
Definition keeps_files {A} (m : cmd A) : Prop := forall t, t_files (m t).2 = t_files t.

(** The computation ends in a value. *)
Definition always_returns {A} (m : cmd A) : Prop := forall t, exists x t', m t = (Ok x, t').

(** When the computation raises, every file is as it was. *)
Definition raises_clean {A} (m : cmd A) : Prop := forall t e t', m t = (Raise e, t') -> t_files t' = t_files t.

Create HintDb cli.

Lemma keeps_raises_clean {A} (m : cmd A) : keeps_files m -> raises_clean m.
Proof. intros H t e t' E. specialize (H t). by rewrite E in H. Qed.

Lemma returns_raises_clean {A} (m : cmd A) : always_returns m -> raises_clean m.
Proof. intros H t e t' E. destruct (H t) as (x & t'' & E'). congruence. Qed.

Lemma cli_keeps_bind {A B} (m : cmd A) (f : A -> cmd B) : keeps_files m -> (forall x, keeps_files (f x)) -> keeps_files (cbind m f).
Proof.
  intros Hm Hf t. unfold cbind. specialize (Hm t). destruct (m t) as [[x|e] t']; [|done]. rewrite Hf. done.
Qed.

Lemma cli_returns_bind {A B} (m : cmd A) (f : A -> cmd B) :
  always_returns m -> (forall x, always_returns (f x)) -> always_returns (cbind m f).
Proof. intros Hm Hf t. unfold cbind. destruct (Hm t) as (x & t' & ->). apply Hf. Qed.

(** Nothing is written before the last step that can raise. *)
Lemma raises_clean_read {A B} (m : cmd A) (f : A -> cmd B) :
  keeps_files m -> (forall x, raises_clean (f x)) -> raises_clean (cbind m f).
Proof.
  intros Hm Hf t e t'. unfold cbind. specialize (Hm t). destruct (m t) as [[x|e'] t1].
  - intros E%Hf. by rewrite E.
  - by intros [= <- <-].
Qed.

Lemma raises_clean_then {A B} (m : cmd A) (f : A -> cmd B) :
  raises_clean m -> (forall x, always_returns (f x)) -> raises_clean (cbind m f).
Proof.
  intros Hm Hf t e t'. unfold cbind. destruct (m t) as [[x|e'] t1] eqn:E.
  - destruct (Hf x t1) as (y & t2 & ->). done.
  - intros [= <- <-]. by eapply Hm.
Qed.

Lemma cli_keeps_lift {A} (m : res A) : keeps_files (clift m).
Proof. done. Qed.
Lemma keeps_ret {A} (x : A) : keeps_files (cret x).
Proof. done. Qed.
Lemma keeps_print s : keeps_files (print s).
Proof. done. Qed.
Lemma keeps_input s : keeps_files (input s).
Proof. intros t. unfold input. by destruct (t_inputs t). Qed.
Lemma keeps_getpass s : keeps_files (getpass s).
Proof. intros t. unfold getpass. by destruct (t_keys t). Qed.

Lemma keeps_ask {A} prompt (judge : pystr -> res (A + pystr)) : keeps_files (ask prompt judge).
Proof.
  intros t. unfold ask. generalize (t_out t). induction (t_inputs t) as [|raw rest IH]; intros out; cbn [ask_lines]; [done|].
  destruct (judge raw) as [[x|c]|e]; [done|apply IH|done].
Qed.

Lemma returns_print s : always_returns (print s).
Proof. intros t. by eexists _, _. Qed.
Lemma cli_returns_ret {A} (x : A) : always_returns (cret x).
Proof. intros t. by eexists _, _. Qed.
Lemma returns_write p s : always_returns (write_file p s).
Proof. intros t. by eexists _, _. Qed.

#[export] Hint Resolve cli_keeps_lift keeps_ret keeps_print keeps_input keeps_getpass keeps_ask
  returns_print cli_returns_ret returns_write : cli.

(** Descends through a chain of steps: reads first, then the tail that cannot raise. *)
Ltac cli_clean :=
  repeat first
    [ progress (intros)
    | apply cli_keeps_bind | apply cli_returns_bind
    | solve [eauto with cli]
    | match goal with |- context [if ?b then _ else _] => destruct b end
    | match goal with |- context [match ?x with _ => _ end] => destruct x end ].

Section atomic.
Context (w : world) (which_path : pystr -> option pystr) (check_output : list pystr -> res pystr).

Lemma keeps_settings config provider : keeps_files (settings config provider).
Proof. unfold settings. cli_clean. Qed.

Lemma keeps_load : keeps_files (load_config w).
Proof. done. Qed.

Lemma keeps_prompts label current :
  keeps_files (prompt_default label current) /\ keeps_files (prompt_required label current).
Proof. split; [unfold prompt_default|unfold prompt_required]; cli_clean. Qed.

Lemma keeps_api_settings provider config cfg model env_name base_url :
  keeps_files (api_settings provider config cfg model env_name base_url).
Proof. unfold api_settings, prompt_default. cli_clean. Qed.

Lemma raises_clean_ask_key provider env_name : raises_clean (ask_key w provider env_name).
Proof.
  unfold ask_key. apply raises_clean_read; [auto with cli|]. intros save. destruct (str_eqb _ _); [|by apply keeps_raises_clean, keeps_print].
  apply raises_clean_read; [auto with cli|]. intros key. destruct (strip key); [by apply keeps_raises_clean, keeps_ret|].
  apply raises_clean_then; [|intros; apply returns_print]. unfold store_key, write_provider_secrets.
  apply raises_clean_read; [done|]. intros secrets. apply raises_clean_read; [auto with cli|]. intros s.
  apply returns_raises_clean, returns_write.
Qed.

Lemma login_codex_clean provider config cfg : raises_clean (login_codex w which_path check_output provider config cfg).
Proof.
  unfold login_codex, prompt_required, prompt_choice. repeat (apply raises_clean_read; [solve [auto with cli]|intros ?]).
  apply returns_raises_clean. unfold write_provider_config. cli_clean.
Qed.

Lemma login_cli_agent_clean provider config cfg : raises_clean (login_cli_agent w provider config cfg).
Proof.
  unfold login_cli_agent, prompt_default. apply raises_clean_read; [cli_clean|intros _].
  apply raises_clean_read; [cli_clean|intros model]. repeat (apply raises_clean_read; [solve [auto with cli]|intros ?]).
  apply returns_raises_clean. unfold write_provider_config. cli_clean.
Qed.

Lemma login_api_clean provider config cfg : raises_clean (login_api w provider config cfg).
Proof.
  unfold login_api. do 2 (apply raises_clean_read; [apply keeps_prompts|intros ?]). apply raises_clean_read; [apply keeps_prompts|intros ?].
  apply raises_clean_read; [apply keeps_api_settings|intros ?]. apply raises_clean_then; [apply raises_clean_ask_key|intros _].
  unfold write_provider_config. cli_clean.
Qed.

End atomic.

(** A host without files or commands. *)
Definition bare_world : world :=
  World (fun _ => None) (u "/root") (fun _ => None) (fun _ => None) (fun _ _ => None) (fun _ => HttpError 500 [])
        (fun _ => Raise (Exn OSError [])) (fun _ => false) (Raise (Exn RuntimeError [])).

Definition login_api_in (inputs keys : list pystr) : res unit * terminal :=
  login_provider bare_world (fun _ => None) (fun _ => Raise (Exn OSError [])) (u "openai") (Terminal (fun _ => None) inputs keys []).


(** ** Keys stay in the secrets file *)

(** Terminals that differ at most in one file. *)
Definition same_but (p : pystr) (t1 t2 : terminal) : Prop :=
  (forall q, q <> p -> t_files t1 q = t_files t2 q) /\ t_inputs t1 = t_inputs t2 /\ t_keys t1 = t_keys t2 /\ t_out t1 = t_out t2.

(** Runs that end in the same way on terminals that differ at most in [p]. *)
Definition ends_alike {A} (p : pystr) (r1 r2 : res A * terminal) : Prop := r1.1 = r2.1 /\ same_but p r1.2 r2.2.

Definition alike {A} (p : pystr) (m1 m2 : cmd A) : Prop := forall t1 t2, same_but p t1 t2 -> ends_alike p (m1 t1) (m2 t2).

Lemma same_but_refl p t : same_but p t t.
Proof. done. Qed.

Lemma ends_alike_bind {A B} p (m1 m2 : cmd A) (f1 f2 : A -> cmd B) t1 t2 :
  ends_alike p (m1 t1) (m2 t2) -> (forall x, alike p (f1 x) (f2 x)) -> ends_alike p (cbind m1 f1 t1) (cbind m2 f2 t2).
Proof.
  unfold cbind. destruct (m1 t1) as [r1 t1'], (m2 t2) as [r2 t2']. intros [H1 H2] Hf. cbn in H1, H2. subst r2.
  destruct r1; [by apply Hf|done].
Qed.

(** A step that both runs take alike. *)
Lemma ends_alike_step {A B} p (m : cmd A) (f1 f2 : A -> cmd B) t :
  (forall x t', ends_alike p (f1 x t') (f2 x t')) -> ends_alike p (cbind m f1 t) (cbind m f2 t).
Proof. intros Hf. unfold cbind. destruct (m t) as [[x|e] t']; [apply Hf|done]. Qed.

Lemma alike_bind {A B} p (m1 m2 : cmd A) (f1 f2 : A -> cmd B) :
  alike p m1 m2 -> (forall x, alike p (f1 x) (f2 x)) -> alike p (cbind m1 f1) (cbind m2 f2).
Proof. intros Hm Hf t1 t2 Ht. apply ends_alike_bind; [by apply Hm|done]. Qed.

Lemma alike_lift {A} p (m : res A) : alike p (clift m) (clift m).
Proof. intros t1 t2 H. done. Qed.
Lemma alike_print p s : alike p (print s) (print s).
Proof. intros t1 t2 (H & ? & ? & Ho). split; [done|]. unfold same_but, print, show. cbn. by rewrite Ho. Qed.
Lemma alike_ret {A} p (x : A) : alike p (cret x) (cret x).
Proof. intros t1 t2 H. done. Qed.

#[export] Hint Resolve alike_lift alike_print alike_ret : cli.

(** Storing another key changes the secrets file only, and fails alike. *)
Lemma store_key_alike w provider k1 k2 t :
  ends_alike (secrets_file w) (store_key w provider k1 t) (store_key w provider k2 t).
Proof.
  unfold ends_alike, store_key, cbind, load_secrets, clift. destruct (load_provider_secrets (world_at w t) None) as [secrets|e]; [|done].
  unfold with_secret. destruct secrets as [| | | | | |d]; try done.
  destruct (or_none (dget provider (dsetdefault provider (VDict []) d))); cbn [item_set rbind]; try done.
  split; [done|]. unfold same_but, write_provider_secrets, write_file. cbn. split; [|done].
  intros q Hq. by rewrite (str_eqb_neq _ _ Hq).
Qed.

Definition with_key (args : set_args) (key : pystr) : set_args :=
  SetArgs (sa_provider args) (sa_model args) (sa_base_url args) (sa_command args) (sa_api_key_env args) (Some key) (sa_select args).

(** C33. The key given to [set --api-key] reaches nothing but the secrets file: two runs
    that differ only in the (non-empty) key end in the same way, print the same lines and
    leave every other file, the provider configuration included, with the same text. *)
Theorem set_key_confined w args k1 k2 t :
  k1 <> [] -> k2 <> [] ->
  ends_alike (secrets_file w) (set_provider w (with_key args k1) t) (set_provider w (with_key args k2) t).
Proof.
  intros H1 H2. destruct k1 as [|c1 k1]; [done|]. destruct k2 as [|c2 k2]; [done|].
  unfold set_provider. cbn [with_key sa_provider sa_api_key sa_select].
  change (set_config (with_key args (c1 :: k1))) with (set_config args).
  change (set_config (with_key args (c2 :: k2))) with (set_config args).
  do 3 (apply ends_alike_step; intros ? ?). apply ends_alike_bind.
  - apply ends_alike_bind; [apply store_key_alike|auto with cli].
  - intros _. apply alike_bind; [auto with cli|]. intros _. destruct (_ && _); [|auto with cli].
    apply alike_bind; [auto with cli|]. intros info. apply alike_bind; [|auto with cli]. destruct (installed info); auto with cli.
Qed.

Definition key_args : set_args := SetArgs (u "openai") (Some (u "gpt-5")) None None None None true.

Lemma set_key_confined_witness :
  (set_provider bare_world (with_key key_args (u "sk-1")) (Terminal (fun _ => None) [] [] [])).1 = Ok tt /\
  ends_alike (secrets_file bare_world)
    (set_provider bare_world (with_key key_args (u "sk-1")) (Terminal (fun _ => None) [] [] []))
    (set_provider bare_world (with_key key_args (u "another-key")) (Terminal (fun _ => None) [] [] [])).
Proof. split; [vm_compute; reflexivity|]. apply set_key_confined; discriminate. Defined.

(** ** Selecting a provider *)

(** The [providers] table of a configuration, absent or a dict. *)
Definition providers_of (config : pydict) (P : pydict) : Prop :=
  dget (u "providers") config = Some (VDict P) \/ dget (u "providers") config = None /\ P = [].

(** A setting: the user's value, else the built-in one. *)
Definition user_setting (defaults : pydict) (mine : option pyval) (key : pystr) : option pyval :=
  match mine with
  | Some (VDict M) => match dget key M with Some v => Some v | None => dget key defaults end
  | _ => dget key defaults
  end.

Lemma default_table q defaults : dget q DEFAULT_PROVIDERS = Some (VDict defaults) ->
  Forall (fun kv => is_str kv.2 = true) defaults /\ json_copy (VDict defaults) = Ok (VDict defaults).
Proof.
  intros Hd. pose proof default_providers_flat as Hflat. rewrite Forall_forall in Hflat.
  destruct (Hflat _ (dget_Some_In _ _ _ Hd)) as (d & Heq & Hstr & Hcopy). cbn in Heq, Hcopy. by injection Heq as <-.
Qed.

Lemma flat_merge defaults M key : Forall (fun kv => is_str kv.2 = true) defaults -> dict_ok M ->
  dget key (deep_merge defaults (VDict M)) = user_setting defaults (Some (VDict M)) key.
Proof.
  intros Hf Hok. rewrite dget_deep_merge by done. cbn [user_setting]. destruct (dget key M) as [v|]; [|done]. by eapply flat_base.
Qed.

Lemma provider_lookup config q P defaults : dget q DEFAULT_PROVIDERS = Some (VDict defaults) -> providers_of config P ->
  (forall M, dget q P = Some (VDict M) -> dict_ok M) ->
  exists cfg c, provider_config config q None = Ok (cfg, c) /\ forall key, dget key cfg = user_setting defaults (dget q P) key.
Proof.
  intros Hd HP Hok. destruct (default_table _ _ Hd) as [Hstr Hcopy]. unfold provider_config. rewrite Hd, Hcopy. cbn [rbind].
  assert (Hget : dget (u "providers") (dsetdefault (u "providers") (VDict []) config) = Some (VDict P)).
  { unfold dsetdefault, dmem. destruct HP as [HP|[HP ->]]; rewrite HP; [done|]. apply dget_dset_eq. }
  rewrite Hget. change (or_none (Some (VDict P))) with (VDict P). cbn [attr_get rbind]. eexists _, _. split; [reflexivity|].
  intros key. destruct (dget q P) as [[| | | | | |M]|] eqn:E; try done. apply flat_merge; [done|by apply Hok].
Qed.

Lemma dict_ok_merge base items : dict_ok base -> dict_ok (deep_merge base (VDict items)).
Proof.
  rewrite deep_merge_fold. revert base. induction items as [|[k v] items IH]; intros base Hb; [done|]. cbn [foldl]. apply IH.
  unfold merge_item. cbn [fst snd]. destruct v; try by apply dset_ok. destruct (dget k base) as [[]|]; by apply dset_ok.
Qed.

Lemma refiled_ok d : dict_ok d -> dict_ok (refiled d).
Proof.
  unfold dict_ok, dkeys, refiled. rewrite <-list_fmap_compose. intros H.
  change (NoDup ((fst ∘ normal_item true) <$> py_sorted by_key d)). assert (He : (fst ∘ normal_item true) <$> py_sorted by_key d = (py_sorted by_key d).*1).
  { apply list_fmap_ext. by intros i [k v]. }
  rewrite He. by rewrite (py_sorted_perm by_key d).
Qed.

Lemma plain_get d k v : plain (VDict d) -> dget k d = Some v -> plain v.
Proof. intros [_ H]%plain_dict Hg%dget_Some_In. rewrite Forall_forall in H. by apply (H (k, v)). Qed.

Lemma plain_ok d : plain (VDict d) -> dict_ok d.
Proof. by intros [? _]%plain_dict. Qed.

Lemma normal_default defaults key v : Forall (fun kv => is_str kv.2 = true) defaults -> dget key defaults = Some v -> normal true v = v.
Proof. intros Hf Hg%dget_Some_In. rewrite Forall_forall in Hf. specialize (Hf _ Hg). by destruct v. Qed.

(** Reading the written entry again gives the same settings, their dicts key-sorted. *)
Lemma setting_again defaults mine key : Forall (fun kv => is_str kv.2 = true) defaults -> dict_ok defaults ->
  (forall v, mine = Some v -> plain v) ->
  user_setting defaults (merged_value (Some (VDict defaults)) (normal true <$> mine)) key = normal true <$> user_setting defaults mine key.
Proof.
  intros Hf Hd Hp.
  assert (Hdef : dget key defaults = normal true <$> dget key defaults).
  { destruct (dget key defaults) as [v|] eqn:E; [|done]. cbn. by rewrite (normal_default _ _ _ Hf E). }
  destruct mine as [[| | | | | |M]|]; cbn [fmap option_fmap option_map]; try exact Hdef.
  - specialize (Hp _ eq_refl). rewrite normal_refiled. cbn [merged_value user_setting].
    rewrite (flat_merge defaults (refiled M) key Hf (refiled_ok _ (plain_ok _ Hp))). cbn [user_setting].
    rewrite (dget_refiled key M (plain_ok _ Hp)). destruct (dget key M) as [v|]; cbn; [done|].
    destruct (dget key defaults) as [v|]; cbn in *; [|done]. congruence.
  - cbn [merged_value user_setting]. rewrite <-Hdef. by destruct (dget key defaults).
Qed.

Lemma known_provider p : p ∈ PROVIDERS -> p <> [] /\ exists defaults, dget p DEFAULT_PROVIDERS = Some (VDict defaults) /\ dict_ok defaults.
Proof.
  intros Hp. assert (H : forallb (fun p => negb (str_eqb p []) && match dget p DEFAULT_PROVIDERS with
     | Some (VDict d) => bool_decide (NoDup d.*1) | _ => false end) PROVIDERS = true) by (vm_compute; reflexivity).
  rewrite forallb_forall in H. apply list_elem_of_In, H in Hp. apply andb_prop in Hp as [H1 H2].
  split; [intros ->; discriminate H1|]. destruct (dget p DEFAULT_PROVIDERS) as [[]|]; try discriminate H2.
  eexists. split; [done|]. by apply bool_decide_eq_true_1 in H2.
Qed.

Lemma dget_select k p config : dget k (select_in p config) = if str_eqb k (u "selected_provider") then Some (VStr p) else dget k config.
Proof.
  unfold select_in. destruct (str_eqb k (u "selected_provider")) eqn:E; [apply str_eqb_eq in E as ->; apply dget_dset_eq|].
  apply dget_dset_ne. intros ->. by rewrite str_eqb_refl in E.
Qed.

Lemma plain_select p config : plain (VDict config) -> Forall scalar p -> plain (VDict (select_in p config)).
Proof.
  intros [Hok Hall]%plain_dict Hp. apply plain_dict. split; [by apply (dset_ok (u "selected_provider") (VStr p))|].
  unfold select_in. clear Hok. induction config as [|[k v] config IH]; cbn [dset].
  - constructor; [|constructor]. split; [by apply literal_scalar|done].
  - apply Forall_cons in Hall as [Hkv Hall]. destruct (str_eqb _ k); constructor; auto. by destruct Hkv.
Qed.

Lemma provider_scalar p : p ∈ PROVIDERS -> Forall scalar p.
Proof. intros Hp. unfold PROVIDERS, CLI_AGENTS, API_PROVIDERS in Hp. rewrite !elem_of_app, !elem_of_cons in Hp. 
  destruct_or! Hp; subst; try (by apply literal_scalar); by apply not_elem_of_nil in Hp. Qed.

(** What is loaded from a configuration file. *)
Lemma load_written w t config : plain (VDict config) ->
  t_files t (config_file w) = Some (Ok (provider_file_text (VDict config))) ->
  load_provider_config (world_at w t) None = Ok (deep_merge DEFAULT_PROVIDER_CONFIG (VDict (refiled config))).
Proof.
  intros Hp Hf. unfold load_provider_config. rewrite default_copy. cbn [rbind path_or].
  change (w_file (world_at w t) (default_provider_config_path (world_at w t))) with (t_files t (config_file w)). rewrite Hf. cbn [rbind].
  unfold provider_file_text. rewrite loads_dumps; [|apply style_layouts|done|repeat constructor|constructor; [by right|constructor]].
  change (st_sort pretty_style) with true. cbn [rbind]. by rewrite normal_refiled.
Qed.

(** The providers table read back. *)
Lemma providers_again config P : providers_of config P -> plain (VDict config) -> plain (VDict P) ->
  providers_of (deep_merge DEFAULT_PROVIDER_CONFIG (VDict (refiled config))) (deep_merge DEFAULT_PROVIDERS (VDict (refiled P))).
Proof.
  intros HP Hc HPp. left. rewrite dget_deep_merge by (by apply refiled_ok, plain_ok). rewrite dget_refiled by (by apply plain_ok).
  assert (Hd : dget (u "providers") DEFAULT_PROVIDER_CONFIG = Some (VDict DEFAULT_PROVIDERS)) by reflexivity. rewrite Hd.
  destruct HP as [->|[-> ->]]; [|done]. cbn [fmap option_fmap option_map]. by rewrite normal_refiled.
Qed.

(** [select] changes the selection and nothing else: after it, the analyzer's
    [--provider auto] resolves to the selected provider, and every setting of every
    provider is what it was (dicts inside a setting are key-sorted by the file), for any
    loaded configuration of JSON text, integers, lists and dicts. *)
Theorem select_round_trip w t p config P :
  p ∈ PROVIDERS -> load_provider_config (world_at w t) None = Ok config ->
  plain (VDict config) -> providers_of config P ->
  exists t' config', select_provider w p t = (Ok tt, t') /\ load_provider_config (world_at w t') None = Ok config' /\
    resolve_provider (u "auto") config' = Ok p /\
    forall q, q ∈ PROVIDERS -> exists cfg c cfg' c',
      provider_config config q None = Ok (cfg, c) /\ provider_config config' q None = Ok (cfg', c') /\
      forall key, dget key cfg' = normal true <$> dget key cfg.
Proof.
  intros Hp Hload Hpl HP. pose proof (plain_select p config Hpl (provider_scalar _ Hp)) as Hpl'.
  destruct (known_provider _ Hp) as [Hne (dp & Hdp & _)].
  unfold select_provider, cbind, load_config. rewrite Hload. eexists _, _. split; [reflexivity|].
  split; [apply load_written; [exact Hpl'|]; unfold write_provider_config, write_file, print, show; cbn; by rewrite str_eqb_refl|].
  set (config' := deep_merge _ _). assert (Hsel : dget (u "selected_provider") config' = Some (VStr p)).
  { unfold config'. rewrite dget_deep_merge by (by apply refiled_ok, plain_ok). rewrite dget_refiled by (by apply plain_ok).
    rewrite dget_select. reflexivity. }
  split.
  - unfold resolve_provider. change (str_eqb (u "auto") (u "auto")) with true. rewrite Hsel. change (or_none (Some (VStr p))) with (VStr p).
    unfold py_or, dmem. destruct p as [|c p]; [done|]. cbn [truthy py_str]. by rewrite Hdp.
  - intros q Hq. destruct (known_provider _ Hq) as [_ (dq & Hdq & Hokq)]. destruct (default_table _ _ Hdq) as [Hstr _].
    assert (HPplain : plain (VDict P)) by (destruct HP as [HP|[_ ->]]; [exact (plain_get _ _ _ Hpl HP)|split; [constructor|done]]).
    destruct (provider_lookup config q P dq Hdq HP) as (cfg & c & Hcfg & Hset).
    { intros M HM. by apply plain_ok, (plain_get P q). }
    assert (HP' : providers_of (select_in p config) P) by (unfold providers_of; rewrite dget_select; exact HP).
    pose proof (providers_again _ _ HP' Hpl' HPplain) as HPa.
    assert (Hmine : dget q (deep_merge DEFAULT_PROVIDERS (VDict (refiled P))) = merged_value (Some (VDict dq)) (normal true <$> dget q P)).
    { rewrite dget_deep_merge by (by apply refiled_ok, plain_ok). rewrite dget_refiled by (by apply plain_ok). by rewrite Hdq. }
    destruct (provider_lookup config' q _ dq Hdq HPa) as (cfg' & c' & Hcfg' & Hset').
    { rewrite Hmine. intros M. destruct (dget q P) as [[| | | | | |M0]|]; cbn [fmap option_fmap option_map]; try done.
      - rewrite normal_refiled. cbn [merged_value]. intros [= <-]. by apply dict_ok_merge.
      - by intros [= <-]. }
    exists cfg, c, cfg', c'. split; [done|]. split; [done|]. intros key. rewrite Hset', Hset, Hmine.
    apply setting_again; [done|done|]. intros v Hv. by apply (plain_get P q).
Qed.

(** A check of [plain]. *)
Definition scalarb (c : N) : bool := (c <? 55296)%N || ((57344 <=? c)%N && (c <? 1114112)%N).

Fixpoint plainb (v : pyval) : bool :=
  match v with
  | VFloat _ => false
  | VInt z => length (dec_Z z) <=? int_max_str_digits
  | VStr s => forallb scalarb s
  | VList l => forallb plainb l
  | VDict d => bool_decide (NoDup d.*1) && forallb (fun kv => forallb scalarb kv.1 && plainb kv.2) d
  | _ => true
  end.

Lemma scalarb_all s : forallb scalarb s = true -> Forall scalar s.
Proof.
  intros H. apply Forall_forall. rewrite forallb_forall in H. intros c Hc%list_elem_of_In%H. unfold scalarb in Hc. unfold scalar.
  apply orb_prop in Hc as [?%N.ltb_lt|[?%N.leb_le ?%N.ltb_lt]%andb_prop]; lia.
Qed.

Lemma plainb_plain v : plainb v = true -> plain v.
Proof.
  induction v as [|b|z|f|s|l IH|d IH] using pyval_ind; cbn [plainb]; intros H; try done.
  - by apply Nat.leb_le.
  - by apply scalarb_all.
  - apply plain_list. rewrite Forall_forall in IH |- *. rewrite forallb_forall in H. intros x Hx. apply IH; [done|]. by apply H, list_elem_of_In.
  - apply andb_prop in H as [H1%bool_decide_eq_true_1 H2]. apply plain_dict. split; [done|]. rewrite Forall_forall in IH |- *.
    rewrite forallb_forall in H2. intros [k x] Hx. pose proof (H2 _ (proj1 (list_elem_of_In _ _) Hx)) as [Hk Hv]%andb_prop.
    split; [by apply scalarb_all|]. by apply (IH (k, x)).
Qed.

Lemma select_round_trip_witness :
  exists t' config', select_provider bare_world (u "claude") (Terminal (fun _ => None) [] [] []) = (Ok tt, t') /\
    load_provider_config (world_at bare_world t') None = Ok config' /\ resolve_provider (u "auto") config' = Ok (u "claude").
Proof.
  destruct (select_round_trip bare_world (Terminal (fun _ => None) [] [] []) (u "claude") DEFAULT_PROVIDER_CONFIG DEFAULT_PROVIDERS)
    as (t' & config' & H1 & H2 & H3 & _).
  - apply list_elem_of_In. right. left. reflexivity.
  - vm_compute. reflexivity.
  - apply plainb_plain. vm_compute. reflexivity.
  - left. reflexivity.
  - exists t', config'. auto.
Defined.
