(* ===== verification/Analyze.v ===== *)
(** * Analyze: one pass of the CodexSDGate analyzer

    [tools/codex_analyzer.py]: rotated event logs, the event window, the filter
    file, [analyze_once] with its AI gate, and the [main] loop.  A pass is a
    computation that leaves a trace of its visible effects (provider calls,
    printed lines, files replaced) and ends in a value or an exception. *)

From S2P Require Import Prelude Unicode PyStr PyFloat PyVal Json JsonFacts Sanitize Learn Merge RuleJson Providers.

(** ** Effects *)

Inductive effect :=
| CallProvider (provider : pystr) (prompt : pydict)
| Printed (line : pystr)
| WriteFile (path text : pystr).

(** A computation: what it did, then how it ended. *)
Definition act (A : Type) : Type := list effect * res A.

Definition aret {A} (x : A) : act A := ([], Ok x).
Definition lift {A} (m : res A) : act A := ([], m).
Definition emit (e : effect) : act unit := ([e], Ok tt).

Definition abind {A B} (m : act A) (f : A -> act B) : act B :=
  match m with
  | (t, Ok x) => let '(t', r) := f x in (t ++ t', r)
  | (t, Raise e) => (t, Raise e)
  end.

Notation "'do' x <- m 'in' k" := (abind m (fun x => k))
  (at level 10, x binder, m at level 100, k at level 200) : py_scope.

(** [try: m except Exception as e: h e] *)
Definition atry {A} (m : act A) (h : exn -> act A) : act A :=
  match m with
  | (t, Raise e) => if is_exception e then let '(t', r) := h e in (t ++ t', r) else (t, Raise e)
  | ok => ok
  end.

(** ** Event logs *)

(** A path as its directory and final component. *)
Record path := MkPath { p_parent : pystr; p_name : pystr }.
Definition sibling (p : path) (name : pystr) : pystr := p_parent p ++ u "/" ++ name.
Definition path_text (p : path) : pystr := sibling p (p_name p).

(** The backup number of a candidate, when its suffix is all digits. *)
Definition backup_of (prefix name : pystr) : res (option (Z * pystr)) :=
  if starts_with prefix name then
    let suffix := drop (length prefix) name in
    if str_isdigit suffix
    then let* n := int_of_str (repr_str suffix) suffix in Ok (Some (n, name))
    else Ok None
  else Ok None.

(** [sorted(backups, reverse=True)] on (number, path) pairs: paths of one
    directory compare by name. *)
Definition backup_geb (a b : Z * pystr) : bool :=
  (b.1 <? a.1)%Z || (b.1 =? a.1)%Z && str_leb b.2 a.2.

Definition event_log_paths (w : world) (p : path) : res (list pystr) :=
  let prefix := p_name p ++ u "." in
  let candidates := default [] (w_glob w (p_parent p) (p_name p ++ u ".*")) in
  let* backups := mapR (backup_of prefix) candidates in
  Ok ((sibling p <$> (py_sorted backup_geb (omap id backups)).*2) ++ [path_text p]).

(** Text-mode newline translation. *)
Fixpoint universal_newlines (s : pystr) : pystr :=
  match s with
  | [] => []
  | c :: t =>
      if (c =? 13)%N
      then 10%N :: match t with
                   | d :: t' => if (d =? 10)%N then universal_newlines t' else universal_newlines t
                   | [] => []
                   end
      else c :: universal_newlines t
  end.

(** [for line in handle]: lines with their terminator. *)
Fixpoint lines_keepends (s : pystr) : list pystr :=
  match s with
  | [] => []
  | c :: t =>
      if (c =? 10)%N then [c] :: lines_keepends t
      else match lines_keepends t with
           | line :: rest => (c :: line) :: rest
           | [] => [[c]]
           end
  end.

Definition log_lines (w : world) (p : pystr) : list pystr :=
  match w_log w p with
  | None => []
  | Some text => lines_keepends (universal_newlines text)
  end.

(** The event of a log line; only [JSONDecodeError] is caught. *)
Definition event_of_line (line : pystr) : res (option pydict) :=
  match loads line with
  | Ok (VDict event) =>
      Ok match dget (u "signature") event with Some (VStr _) => Some event | _ => None end
  | Ok _ => Ok None
  | Raise e => if is_json_error e then Ok None else Raise e
  end.

Definition read_events (w : world) (p : path) (max_events : Z) : res (list pydict) :=
  if (max_events <=? 0)%Z then Ok []
  else
    let* paths := event_log_paths w p in
    let lines := last_n (Z.to_nat max_events) (mjoin (log_lines w <$> paths)) in
    let* events := mapR event_of_line lines in
    Ok (omap id events).

(** ** The filter file *)

Definition filter_payload (filters : list pydict) : pyval :=
  VDict [(u "filters", VList (VDict <$> filters))].

Definition filter_file_text (filters : list pydict) : pystr :=
  dumps pretty_style (filter_payload filters) ++ [10%N].

Definition write_filters (p : pystr) (filters : list pydict) : act unit :=
  emit (WriteFile p (filter_file_text filters)).

Definition read_filter_file (w : world) (p : pystr) : res (list pydict) :=
  match w_file w p with
  | None => Ok []
  | Some contents =>
      match (let* text := contents in loads text) with
      | Raise e => if is_exception e then Ok [] else Raise e
      | Ok data =>
          let filters := match data with
                         | VDict d => default (VList []) (dget (u "filters") d)
                         | _ => VList []
                         end in
          let* items := py_iter filters in
          Ok (dicts items)
      end
  end.

(** ** One pass *)

Record args := Args {
  a_events : path; a_filters : pystr; a_once : bool;
  a_min_count : Z; a_ttl_seconds : Z; a_max_events : Z; a_max_filters : Z;
  a_no_codex : bool; a_provider : pystr; a_provider_config : pystr; a_model : option pystr;
  a_learn_observed : bool; a_disable_strong_coverage : bool; a_min_attack_events : Z }.

(** The parser's defaults. *)
Definition default_args (w : world) : args :=
  Args (MkPath (u "runtime") (u "attack_events.jsonl")) (u "runtime/filters.json") false
       1 60 200 512 false (u "auto") (default_provider_config_path w) None false false 20.

Definition threshold_of (a : args) : Z := Z.max 0 (a_min_attack_events a).

(** Which generator runs: [true] when the provider is asked. *)
Definition asks_provider (a : args) (evidence : nat) : bool :=
  negb (a_no_codex a) &&
  negb (negb (threshold_of a =? 0)%Z && (Z.of_nat evidence <? threshold_of a)%Z).

(** The branch on [--no-codex] and the evidence threshold: the raw filters and
    the name reported for their source. *)
Definition generate (w : world) (a : args) (provider : pystr) (cfg prompt : pydict)
    (events : list pydict) (ttl : Z) (evidence : nat) : act (list pydict * pystr) :=
  let local := deterministic_filters events (a_min_count a) ttl (a_learn_observed a) in
  let threshold := threshold_of a in
  if a_no_codex a then
    do filters <- lift local in aret (filters, u "deterministic")
  else if negb (threshold =? 0)%Z && (Z.of_nat evidence <? threshold)%Z then
    do filters <- lift local in
    do _ <- emit (Printed (u "attack below AI threshold (" ++ dec_nat evidence ++ u " < " ++ dec_Z threshold ++
                           u " attack-evidence events); using deterministic generator, no provider call")) in
    aret (filters, u "deterministic (below AI threshold " ++ dec_Z threshold ++ u ")")
  else
    atry
      (do _ <- emit (CallProvider provider prompt) in
       do filters <- lift (run_provider w provider prompt cfg ttl) in
       aret (filters, provider))
      (fun e =>
         do _ <- emit (Printed (provider ++ u " analyzer unavailable, using deterministic fallback: " ++ exn_msg e)) in
         do filters <- lift local in aret (filters, u "deterministic-fallback")).

(** Completion of the generated filters. *)
Definition complete (a : args) (filters events : list pydict) (ttl : Z) : res (list pydict) :=
  if negb (a_no_codex a) && negb (a_disable_strong_coverage a)
  then merge_strong_coverage (VDict <$> filters) events (a_min_count a) ttl (a_learn_observed a)
  else sanitized_filter_list (VDict <$> filters) ttl.

Definition analyze_once (w : world) (a : args) : act unit :=
  do ttl <- lift (bounded_ttl_seconds (VInt (a_ttl_seconds a)) 60) in
  do events <- lift (read_events w (a_events a) (a_max_events a)) in
  do existing <- lift (read_filter_file w (a_filters a)) in
  match events with
  | [] =>
      do preserved <- lift (merge_existing_filters existing [] ttl (a_max_filters a)) in
      do _ <- write_filters (a_filters a) preserved in
      emit (Printed (u "no attack events found; preserved " ++ dec_nat (length preserved) ++ u " learned filters"))
  | _ =>
      do prompt <- lift (build_prompt events (a_min_count a) ttl) in
      let prompt := dset (u "allow_observed_learning") (VBool (a_learn_observed a)) prompt in
      do config <- lift (load_provider_config w (Some (a_provider_config a))) in
      do provider <- lift (resolve_provider (a_provider a) config) in
      do cfg <- lift (provider_config config provider (a_model a)) in
      do evidence <- lift (count_attack_evidence (VDict <$> events)) in
      do generated <- generate w a provider cfg.1 prompt events ttl evidence in
      do filters <- lift (complete a generated.1 events ttl) in
      do filters <- lift (merge_existing_filters existing filters ttl (a_max_filters a)) in
      do _ <- write_filters (a_filters a) filters in
      emit (Printed (u "wrote " ++ dec_nat (length filters) ++ u " filters to " ++ a_filters a ++
                     u " via " ++ generated.2))
  end.

(** [main]: one pass per state of the world, until a pass raises or [--once]
    ends the loop. *)
Fixpoint main_loop (a : args) (worlds : list world) : act unit :=
  match worlds with
  | [] => aret tt
  | w :: rest =>
      do _ <- analyze_once w a in
      if a_once a then aret tt else main_loop a rest
  end.

(** ** Reasoning about traces *)

Lemma abind_effect {A B} (m : act A) (f : A -> act B) t r e :
  abind m f = (t, r) -> e ∈ t ->
  e ∈ m.1 \/ exists x, m.2 = Ok x /\ e ∈ (f x).1.
Proof.
  destruct m as [t1 [x|ex]]; cbn.
  - destruct (f x) as [t2 r2] eqn:Ef. intros [= <- <-] [He|He]%elem_of_app; [by left|right].
    exists x. rewrite Ef. done.
  - intros [= <- <-] He. by left.
Qed.

Lemma lift_bind_effect {A B} (m : res A) (f : A -> act B) e :
  e ∈ (abind (lift m) f).1 -> exists x, m = Ok x /\ e ∈ (f x).1.
Proof.
  unfold lift. destruct m as [x|ex]; cbn; [|by intros ?%not_elem_of_nil].
  destruct (f x) as [t r] eqn:E. cbn. intros He. exists x. by rewrite E.
Qed.

Lemma bind_effect {A B} (m : act A) (f : A -> act B) e :
  e ∈ (abind m f).1 -> e ∈ m.1 \/ exists x, m.2 = Ok x /\ e ∈ (f x).1.
Proof. intros He. destruct (abind m f) as [t r] eqn:E. by apply (abind_effect _ _ _ _ _ E). Qed.

(** ** The generators *)

Lemma generate_effects w a provider cfg prompt events ttl evidence e :
  e ∈ (generate w a provider cfg prompt events ttl evidence).1 ->
  (exists line, e = Printed line) \/ e = CallProvider provider prompt /\ asks_provider a evidence = true.
Proof.
  unfold generate, asks_provider, atry, emit, lift, aret.
  generalize (deterministic_filters events (a_min_count a) ttl (a_learn_observed a)) as local. intros local.
  destruct (a_no_codex a).
  { destruct local; cbn; by intros ?%not_elem_of_nil. }
  destruct (negb (threshold_of a =? 0)%Z && _).
  { destruct local; cbn; [|by intros ?%not_elem_of_nil].
    intros ->%list_elem_of_singleton. left. eauto. }
  destruct (run_provider w provider prompt cfg ttl) as [fs|ex]; cbn.
  { intros ->%list_elem_of_singleton. by right. }
  destruct (is_exception ex); cbn; [|intros ->%list_elem_of_singleton; by right].
  destruct local; cbn; rewrite !elem_of_cons, elem_of_nil; intros [->|[->|[]]]; eauto.
Qed.

(** Every effect of a pass, and when it happens. *)
Lemma analyze_effects w a e :
  e ∈ (analyze_once w a).1 ->
  (exists line, e = Printed line) \/
  (exists ttl existing filters out,
     e = WriteFile (a_filters a) (filter_file_text out) /\
     read_filter_file w (a_filters a) = Ok existing /\
     merge_existing_filters existing filters ttl (a_max_filters a) = Ok out) \/
  (exists events evidence provider prompt,
     e = CallProvider provider prompt /\ events <> [] /\
     read_events w (a_events a) (a_max_events a) = Ok events /\
     count_attack_evidence (VDict <$> events) = Ok evidence /\
     asks_provider a evidence = true).
Proof.
  unfold analyze_once. intros He.
  apply lift_bind_effect in He as (ttl & Httl & He). apply lift_bind_effect in He as (events & Hev & He).
  apply lift_bind_effect in He as (existing & Hex & He). destruct events as [|ev events].
  - apply lift_bind_effect in He as (out & Hout & He). cbn in He.
    rewrite !elem_of_cons, elem_of_nil in He. destruct He as [->|[->|[]]]; [right; left|left; eauto].
    exists ttl, existing, [], out. done.
  - apply lift_bind_effect in He as (prompt & Hp & He). apply lift_bind_effect in He as (config & Hc & He).
    apply lift_bind_effect in He as (provider & Hpr & He). apply lift_bind_effect in He as (cfg & Hcfg & He).
    apply lift_bind_effect in He as (evidence & Hcount & He). apply bind_effect in He as [He|(gen & Hgen & He)].
    + apply generate_effects in He as [?|[-> Hask]]; [by left|right; right].
      exists (ev :: events), evidence, provider. eexists. split_and!; done.
    + apply lift_bind_effect in He as (filters & Hf & He). apply lift_bind_effect in He as (out & Hout & He).
      cbn in He. rewrite !elem_of_cons, elem_of_nil in He. destruct He as [->|[->|[]]]; [right; left|left; eauto].
      exists ttl, existing, filters, out. done.
Qed.

(** A world that only answers file reads. *)
Definition quiet_world (files logs : list (pystr * pystr)) (names : list pystr) : world :=
  World (fun _ => None) (u "/home/u") (fun p => Ok <$> dget p files) (fun p => dget p logs)
        (fun _ _ => Some names) (fun _ => HttpRaise (Exn OSError (u "offline")))
        (fun _ => Raise (Exn FileNotFoundError [])) (fun _ => false) (Raise (Exn RuntimeError (u "no SDK"))).

(** ** The filter file *)

Lemma dicts_VDict (l : list pydict) : dicts (VDict <$> l) = l.
Proof. induction l as [|d l IH]; [done|]. rewrite fmap_cons. cbn [dicts]. by rewrite IH. Qed.

Lemma read_written_file w p l :
  w_file w p = Some (Ok (filter_file_text l)) -> Forall clean_rule l -> Forall printable_priority l ->
  read_filter_file w p = Ok (refiled <$> l).
Proof.
  intros Hw Hl Hpr. unfold read_filter_file. rewrite Hw. cbn [rbind]. unfold filter_file_text.
  rewrite loads_dumps.
  - unfold filter_payload. cbn [st_sort pretty_style]. rewrite normal_refiled, dget_refiled by apply NoDup_singleton.
    cbn [dget]. rewrite str_eqb_refl. cbn [fmap option_fmap option_map normal default from_option].
    unfold id. cbn [py_iter rbind]. rewrite <-list_fmap_compose, (list_fmap_ext _ (VDict ∘ refiled)) by (intros i x _; apply normal_refiled).
    rewrite list_fmap_compose. by rewrite dicts_VDict.
  - apply style_layouts.
  - apply plain_dict. split; [apply NoDup_singleton|]. constructor; [|done].
    split; [by apply literal_scalar|]. apply plain_list, Forall_fmap.
    rewrite Forall_forall in *. intros r Hr. apply clean_rule_plain; auto.
  - repeat constructor.
  - constructor; [by right|constructor].
Qed.

(** ** Event logs *)

Lemma backup_geb_total x y : backup_geb x y = true \/ backup_geb y x = true.
Proof.
  unfold backup_geb. destruct (Z.lt_trichotomy x.1 y.1) as [H|[H|H]].
  - right. by rewrite (proj2 (Z.ltb_lt _ _)).
  - rewrite H, Z.ltb_irrefl, Z.eqb_refl. cbn. destruct (str_leb_total x.2 y.2); auto.
  - left. by rewrite (proj2 (Z.ltb_lt _ _)).
Qed.

Lemma backup_geb_spec x y :
  backup_geb x y = true <-> (y.1 < x.1)%Z \/ y.1 = x.1 /\ str_leb y.2 x.2 = true.
Proof. unfold backup_geb. rewrite orb_true_iff, andb_true_iff, Z.ltb_lt, Z.eqb_eq. done. Qed.

Lemma backup_geb_trans x y z : backup_geb x y = true -> backup_geb y z = true -> backup_geb x z = true.
Proof.
  rewrite !backup_geb_spec. intros [H1|[H1 H1']] [H2|[H2 H2']]; try (left; lia).
  right. split; [lia|]. by eapply str_leb_trans.
Qed.

Lemma backup_geb_antisym x y : backup_geb x y = true -> backup_geb y x = true -> x = y.
Proof.
  rewrite !backup_geb_spec. destruct x as [n s], y as [m t]. cbn. intros [H1|[H1 H1']] [H2|[H2 H2']]; try lia.
  subst. f_equal. by apply str_leb_antisym.
Qed.

(** A total antisymmetric order sorts every permutation to the same list. *)
Lemma sorted_unique {A} (R : A -> A -> Prop) (l1 l2 : list A) :
  (forall x y, R x y -> R y x -> x = y) ->
  StronglySorted R l1 -> StronglySorted R l2 -> l1 ≡ₚ l2 -> l1 = l2.
Proof.
  intros Hanti H1. revert l2. induction H1 as [|x l1 H1 IH Hx]; intros l2 H2 Hp.
  { symmetry. apply Permutation_nil. done. }
  destruct H2 as [|y l2 H2 Hy]; [by apply Permutation_nil_r in Hp|].
  assert (x = y) as ->.
  { rewrite Forall_forall in Hx, Hy.
    assert (Hxin : x ∈ y :: l2) by (rewrite <-Hp; apply elem_of_cons; by left).
    assert (Hyin : y ∈ x :: l1) by (rewrite Hp; apply elem_of_cons; by left).
    apply elem_of_cons in Hxin as [->|Hxin]; [done|]. apply elem_of_cons in Hyin as [->|Hyin]; [done|].
    apply Hanti; [by apply Hx|by apply Hy]. }
  f_equal. apply IH; [done|]. by apply Permutation_cons_inv in Hp.
Qed.

Lemma mapR_perm {A B} (f : A -> res B) l1 l2 r1 :
  l1 ≡ₚ l2 -> mapR f l1 = Ok r1 -> exists r2, mapR f l2 = Ok r2 /\ r1 ≡ₚ r2.
Proof.
  intros Hp. revert r1. induction Hp as [|x l1 l2 Hp IH|x y l|l1 l2 l3 H1 IH1 H2 IH2]; intros r1 H; cbn [mapR] in *.
  - eauto.
  - apply bind_ok in H as (b & Hb & H). apply bind_ok in H as (bs & Hbs & [= <-]).
    destruct (IH _ Hbs) as (r2 & -> & Hr). rewrite Hb. cbn. eexists. split; [done|]. by constructor.
  - apply bind_ok in H as (b & Hb & H). apply bind_ok in H as (bs & Hbs & [= <-]).
    apply bind_ok in Hbs as (b' & Hb' & Hbs). apply bind_ok in Hbs as (bs' & Hbs' & [= <-]).
    rewrite Hb, Hb', Hbs'. cbn. eexists. split; [done|]. constructor.
  - destruct (IH1 _ H) as (r2 & Hr2 & Hp1). destruct (IH2 _ Hr2) as (r3 & Hr3 & Hp2).
    exists r3. split; [done|]. by etrans.
Qed.

Lemma omap_id_perm {A} (l1 l2 : list (option A)) : l1 ≡ₚ l2 -> omap id l1 ≡ₚ omap id l2.
Proof.
  induction 1 as [|x l1 l2 _ IH|x y l|]; cbn [omap list_omap]; [done| | |by etrans].
  - destruct x; cbn; [by constructor|done].
  - destruct x, y; cbn; try done. constructor.
Qed.

Lemma sorted_backups_perm l1 l2 : l1 ≡ₚ l2 -> py_sorted backup_geb l1 = py_sorted backup_geb l2.
Proof.
  intros Hp. apply (sorted_unique (fun a b => backup_geb a b = true)).
  - apply backup_geb_antisym.
  - apply py_sorted_sorted; [apply backup_geb_total|apply backup_geb_trans].
  - apply py_sorted_sorted; [apply backup_geb_total|apply backup_geb_trans].
  - by rewrite !py_sorted_perm.
Qed.

(** ** Attacks end in the file *)

Lemma key_is_signature r s :
  filter_key r = u "signature:" ++ s -> clean_rule r ->
  exists c, dget (u "condition") r = Some (VDict c) /\ dget (u "signature") c = Some (VStr s).
Proof.
  intros Hk (i & en & pr & t & c & -> & _). exists c. split; [apply rule_condition|].
  rewrite filter_key_rule in Hk. unfold condition_key in Hk.
  destruct (dget (u "signature") c) as [[| | | |s'| |]|]; cbn [or_none default from_option id] in Hk;
    repeat case_match; cbn in Hk; simplify_eq; done.
Qed.

Lemma clean_accepted ttl fs :
  Forall (fun r => clean_rule r /\ filter_has_matcher r = true) fs ->
  mapR (accepted ttl) fs =
  Ok ((fun r => if str_eqb (filter_key r) (u "id:") then None else Some (filter_key r, r)) <$> fs).
Proof.
  induction 1 as [|r fs [Hc Hm] _ IH]; [done|]. rewrite fmap_cons. cbn [mapR]. unfold accepted at 1.
  rewrite sanitize_filter_fix by done. cbn [rbind]. rewrite Hm, IH. cbn.
  by destruct (str_eqb (filter_key r) (u "id:")).
Qed.

Lemma key_in_store s fs :
  u "signature:" ++ s ∈ (filter_key <$> fs) ->
  exists r, (u "signature:" ++ s, r) ∈ dedup_last (omap id
    ((fun r => if str_eqb (filter_key r) (u "id:") then None else Some (filter_key r, r)) <$> fs)) /\
    r ∈ fs /\ filter_key r = u "signature:" ++ s.
Proof.
  intros (r0 & Hk & Hin)%list_elem_of_fmap.
  set (l := omap id ((fun r => if str_eqb (filter_key r) (u "id:") then None else Some (filter_key r, r)) <$> fs)).
  assert (Hl : forall k r, (k, r) ∈ l -> r ∈ fs /\ filter_key r = k).
  { intros k r (o & Ho & Hr)%list_elem_of_omap. apply list_elem_of_fmap in Ho as (r' & -> & Hr').
    unfold id in Hr. destruct (str_eqb (filter_key r') (u "id:")); [done|]. by injection Hr as <- <-. }
  assert (Hkey : u "signature:" ++ s ∈ dkeys (dedup_last l)).
  { apply dedup_last_keys. unfold dkeys. apply list_elem_of_fmap. exists (u "signature:" ++ s, r0). split; [done|].
    unfold l. apply list_elem_of_omap. exists (Some (filter_key r0, r0)). split; [|by rewrite Hk].
    apply list_elem_of_fmap. exists r0. split; [|done]. rewrite str_eqb_neq; [done|]. by rewrite <-Hk. }
  unfold dkeys in Hkey. apply list_elem_of_fmap in Hkey as ([k r] & Hk' & Hr). cbn in Hk'. subst k.
  exists r. split; [done|]. apply Hl. apply (sublist_subseteq _ _ (dedup_last_sublist l)). exact Hr.
Qed.

(** ** Properties *)

(** C1. The AI gate: a pass calls a provider only when [--no-codex] is off and the
    event window holds at least [--min-attack-events] requests that a deterministic
    control denied (any number when the threshold is not positive); observed-only
    traffic never wakes the provider, with or without [--learn-observed]. *)
Theorem ai_gate w a provider prompt :
  CallProvider provider prompt ∈ (analyze_once w a).1 ->
  a_no_codex a = false /\
  exists events evidence,
    events <> [] /\ read_events w (a_events a) (a_max_events a) = Ok events /\
    count_attack_evidence (VDict <$> events) = Ok evidence /\
    (a_min_attack_events a <= Z.of_nat evidence)%Z.
Proof.
  intros H. apply analyze_effects in H as [[line Hl]|[(? & ? & ? & ? & Hw & _)|(events & n & p & pr & _ & Hne & Hr & Hc & Ha)]];
    [done|done|].
  unfold asks_provider, threshold_of in Ha. bool_prop. split; [done|]. exists events, n. split_and!; try done.
  apply andb_false_iff in H0 as [H0|H0]; bool_prop; [apply Z.eqb_eq in H0|apply Z.ltb_ge in H0]; lia.
Qed.

Definition log_path : path := MkPath (u "runtime") (u "attack_events.jsonl").

Definition denied_line (signature : pystr) : pystr :=
  dumps compact_style (VDict (attack_event signature (u "/api/:token/:num") (u "rate_limited"))) ++ [10%N].

Definition attack_world : world :=
  quiet_world [] [(u "runtime/attack_events.jsonl",
                   denied_line (u "0123456789abcdef") ++ denied_line (u "fedcba9876543210") ++ u "junk")] [].

Definition sample_args (threshold : Z) : args :=
  Args log_path (u "runtime/filters.json") true 1 60 200 512 false (u "auto") (u "none.json") None false false threshold.

Lemma ai_gate_witness :
  exists provider prompt, CallProvider provider prompt ∈ (analyze_once attack_world (sample_args 2)).1 /\
    a_no_codex (sample_args 2) = false.
Proof.
  exists (u "codex").
  destruct (analyze_once attack_world (sample_args 2)) as [t r] eqn:E.
  destruct t as [|[p prompt| |] t]; try (exfalso; vm_compute in E; discriminate E).
  assert (Hp : p = u "codex") by (vm_compute in E; injection E as <- _; reflexivity). subst p.
  exists prompt. cbn [fst].
  assert (Hin : CallProvider (u "codex") prompt ∈ (CallProvider (u "codex") prompt :: t)) by (apply elem_of_cons; left; reflexivity).
  split; [exact Hin|].
  refine (proj1 (ai_gate attack_world (sample_args 2) (u "codex") prompt _)). rewrite E. exact Hin.
Defined.

(** C3. Whatever the logs, the provider and the old filter file hold, every file a
    pass writes is the configured filter file, and its text encodes a rule list in
    the invariant: normal-form rules with matchers, distinct keys, distinct ids, at
    most [max(1, max_filters)] of them.  A later pass that finds this text reads
    back exactly that list, up to the order of the keys in a rule. *)
Theorem analyze_writes_learned_list w a p text :
  plausible_max (a_max_filters a) ->
  WriteFile p text ∈ (analyze_once w a).1 ->
  p = a_filters a /\ exists out, text = filter_file_text out /\ learned_list (a_max_filters a) out /\
    (forall w', w_file w' p = Some (Ok text) -> Forall printable_priority out ->
      read_filter_file w' p = Ok (refiled <$> out)).
Proof.
  intros Hmx H.
  apply analyze_effects in H as [[line Hl]|[(ttl & ex & fs & out & Hw & _ & Hm)|(? & ? & ? & ? & Hc & _)]]; [done| |done].
  injection Hw as -> ->. split; [done|]. exists out. split; [done|].
  assert (Hl : learned_list (a_max_filters a) out) by (by eapply merge_existing_filters_learned). split; [exact Hl|].
  intros w' Hw' Hpr. apply read_written_file; [done| |done].
  destruct Hl as [Hc _]. eapply Forall_impl; [exact Hc|]. by intros r [? _].
Qed.

Lemma analyze_writes_learned_list_witness :
  exists text out, WriteFile (u "runtime/filters.json") text ∈ (analyze_once attack_world (sample_args 5)).1 /\
    text = filter_file_text out /\ learned_list 512 out.
Proof.
  destruct (analyze_once attack_world (sample_args 5)) as [t r] eqn:E.
  destruct t as [|e1 [|[| |p text] t]]; try (exfalso; vm_compute in E; discriminate E).
  assert (Hin : WriteFile p text ∈ (e1 :: WriteFile p text :: t)) by (apply elem_of_cons; right; apply elem_of_cons; left; reflexivity).
  destruct (analyze_writes_learned_list attack_world (sample_args 5) p text) as (Hp & out & Ht & Hl & _).
  - unfold plausible_max. cbn. lia.
  - rewrite E. exact Hin.
  - exists text, out. cbn in Hp. subst p. split; [exact Hin|]. split; [exact Ht|exact Hl].
Defined.

(** C5. Without new events the filter file is stable: when it holds what an earlier
    pass wrote, the next pass without events succeeds, calls no provider and
    replaces the file by exactly the same text. *)
Theorem idle_pass_stable w a filters :
  read_events w (a_events a) (a_max_events a) = Ok [] ->
  w_file w (a_filters a) = Some (Ok (filter_file_text filters)) ->
  learned_list (a_max_filters a) filters -> Forall printable_priority filters ->
  analyze_once w a =
  ([WriteFile (a_filters a) (filter_file_text filters);
    Printed (u "no attack events found; preserved " ++ dec_nat (length filters) ++ u " learned filters")], Ok tt).
Proof.
  intros Hev Hw Hl Hpr. unfold analyze_once.
  destruct (bounded_ttl_total (VInt (a_ttl_seconds a)) 60) as [ttl ->]; [by intros e [=]|].
  rewrite Hev, (read_written_file w (a_filters a) filters); [|done| |done].
  - unfold lift. cbn [abind]. rewrite merge_refiled by done. reflexivity.
  - destruct Hl as [Hc _]. eapply Forall_impl; [exact Hc|]. by intros r [? _].
Qed.

Lemma idle_pass_stable_witness :
  exists l, learned_list 512 l /\ length l = 1 /\
    (analyze_once (quiet_world [(u "runtime/filters.json", filter_file_text l)] [] []) (sample_args 20)).2 = Ok tt.
Proof.
  destruct (merge_existing_filters [] [hostile_item] 60 512) as [l|e] eqn:H; [|exfalso; vm_compute in H; discriminate H].
  assert (Hl : learned_list 512 l).
  { refine (merge_existing_filters_learned [] [hostile_item] 60 512 l _ H). unfold plausible_max. lia. }
  exists l. split; [exact Hl|]. split; [vm_compute in H; injection H as <-; reflexivity|].
  rewrite (idle_pass_stable (quiet_world [(u "runtime/filters.json", filter_file_text l)] [] []) (sample_args 20) l).
  - reflexivity.
  - vm_compute. reflexivity.
  - reflexivity.
  - exact Hl.
  - vm_compute in H. injection H as <-. constructor; [|constructor].
    apply Nat.leb_le. vm_compute. reflexivity.
Defined.

(** A failing provider never fails the pass: if the provider raises, the local
    generator's rules are used instead, under the name "deterministic-fallback". *)
Theorem provider_failure_falls_back w a provider cfg prompt events ttl evidence e fs :
  asks_provider a evidence = true ->
  run_provider w provider prompt cfg ttl = Raise e -> is_exception e = true ->
  deterministic_filters events (a_min_count a) ttl (a_learn_observed a) = Ok fs ->
  generate w a provider cfg prompt events ttl evidence =
  ([CallProvider provider prompt;
    Printed (provider ++ u " analyzer unavailable, using deterministic fallback: " ++ exn_msg e)],
   Ok (fs, u "deterministic-fallback")).
Proof.
  intros Ha Hr He Hd. unfold generate, asks_provider in *. bool_prop. rewrite H, H0, Hr, Hd.
  cbn [atry abind emit lift app]. by rewrite He.
Qed.

Lemma provider_failure_falls_back_witness :
  exists t, generate attack_world (sample_args 0) (u "openai") [] [] [] 60 0 = (t, Ok ([], u "deterministic-fallback")).
Proof.
  eexists. apply (provider_failure_falls_back attack_world (sample_args 0) (u "openai") [] [] [] 60 0
    (Exn RuntimeError (u "missing API key for openai; set OPENAI_API_KEY or run tools/ai_provider_cli.py login")) []).
  - vm_compute. reflexivity.
  - vm_compute. reflexivity.
  - vm_compute. reflexivity.
  - vm_compute. reflexivity.
Defined.



(** The event window: [read_events] considers exactly the last [max_events]
    lines of the concatenated logs, keeps those that decode to an object with a
    string signature, in order, and so returns at most [max_events] events. *)
Theorem event_window w p max_events paths events :
  (0 < max_events)%Z -> event_log_paths w p = Ok paths -> read_events w p max_events = Ok events ->
  exists decoded,
    mapR event_of_line (last_n (Z.to_nat max_events) (mjoin (log_lines w <$> paths))) = Ok decoded /\
    events = omap id decoded /\ (Z.of_nat (length events) <= max_events)%Z /\
    Forall (fun e => exists s, dget (u "signature") e = Some (VStr s)) events.
Proof.
  intros Hpos Hp H. unfold read_events in H. rewrite (proj2 (Z.leb_gt _ _)), Hp in H by done. cbn [rbind] in H.
  apply bind_ok in H as (decoded & Hd & [= <-]). exists decoded. split_and!; try done.
  - pose proof (length_omap_le decoded). pose proof (Forall2_length _ _ _ (proj1 (mapR_ok _ _ _) Hd)) as Hl.
    rewrite last_n_length in Hl. lia.
  - apply Forall_forall. intros e (o & Ho & He)%list_elem_of_omap. cbn in He. subst o.
    apply list_elem_of_lookup in Ho as [i Hi]. apply mapR_ok in Hd.
    destruct (Forall2_lookup_r _ _ _ _ _ Hd Hi) as (line & _ & Hline). unfold event_of_line in Hline.
    destruct (loads line) as [[| | | | | |d]|]; try done; [|by destruct (is_json_error _)].
    injection Hline as Hline. destruct (dget (u "signature") d) as [[| | | |s| |]|] eqn:Es; simplify_eq. eauto.
Qed.

Lemma event_window_witness :
  exists events, read_events attack_world log_path 2 = Ok events /\ length events = 1 /\
    (Z.of_nat (length events) <= 2)%Z.
Proof.
  destruct (read_events attack_world log_path 2) as [events|e] eqn:H; [|exfalso; vm_compute in H; discriminate H].
  exists events. split; [reflexivity|]. split; [vm_compute in H; injection H as <-; reflexivity|].
  destruct (event_window attack_world log_path 2 [u "runtime/attack_events.jsonl"] events) as (d & _ & _ & Hl & _).
  - lia.
  - vm_compute. reflexivity.
  - exact H.
  - exact Hl.
Defined.

(** Rotated logs are read oldest first, whatever order the directory lists them
    in: the result depends only on which names exist, its backup numbers decrease,
    and the live log comes last. *)
Theorem log_order w1 w2 p names1 names2 paths1 :
  w_glob w1 (p_parent p) (p_name p ++ u ".*") = Some names1 ->
  w_glob w2 (p_parent p) (p_name p ++ u ".*") = Some names2 -> names1 ≡ₚ names2 ->
  event_log_paths w1 p = Ok paths1 ->
  event_log_paths w2 p = Ok paths1 /\
  exists backups, paths1 = (sibling p <$> backups.*2) ++ [path_text p] /\
    StronglySorted (fun a b => (b.1 <= a.1)%Z) backups /\
    (forall n name, (n, name) ∈ backups <->
       name ∈ names1 /\ backup_of (p_name p ++ u ".") name = Ok (Some (n, name))).
Proof.
  intros H1 H2 Hp H. unfold event_log_paths in *. rewrite H1 in H. rewrite H2. cbn [default from_option] in *.
  unfold id in H |- *. apply bind_ok in H as (bs & Hbs & [= <-]).
  destruct (mapR_perm _ _ _ _ Hp Hbs) as (bs2 & Hbs2 & Hpb). rewrite Hbs2. cbn [rbind]. split.
  { by rewrite (sorted_backups_perm (omap id bs2) (omap id bs)) by (symmetry; by apply omap_id_perm). }
  exists (py_sorted backup_geb (omap id bs)). split; [done|]. split.
  - eapply StronglySorted_weaken; [|apply py_sorted_sorted; [apply backup_geb_total|apply backup_geb_trans]].
    intros a b Hab%backup_geb_spec. lia.
  - intros n name. rewrite py_sorted_perm, (mapR_omap_In _ _ _ _ Hbs). split.
    + intros (x & Hx & Hb). assert (name = x) as ->; [|done]. unfold backup_of in Hb.
      destruct (starts_with _ x); [|done]. destruct (str_isdigit _); [|done].
      by apply bind_ok in Hb as (m & _ & [= _ <-]).
    + intros [Hin Hb]. eauto.
Qed.

Lemma log_order_witness :
  let n1 := [u "attack_events.jsonl.2"; u "attack_events.jsonl.10"; u "attack_events.jsonl.gz"] in
  let n2 := [u "attack_events.jsonl.gz"; u "attack_events.jsonl.2"; u "attack_events.jsonl.10"] in
  event_log_paths (quiet_world [] [] n2) log_path =
  Ok [u "runtime/attack_events.jsonl.10"; u "runtime/attack_events.jsonl.2"; u "runtime/attack_events.jsonl"].
Proof.
  intros n1 n2.
  refine (proj1 (log_order (quiet_world [] [] n1) (quiet_world [] [] n2) log_path n1 n2 _ _ _ _ _)).
  - reflexivity.
  - reflexivity.
  - unfold n1, n2. etrans; [|apply perm_swap]. etrans; [|constructor; apply perm_swap]. reflexivity.
  - vm_compute. reflexivity.
Defined.

(** Reading the filter file is robust: a missing, unreadable or undecodable file
    counts as empty, entries that are not objects are skipped, and the only exception
    is the [TypeError] for a ["filters"] value that cannot be iterated. *)
Theorem read_filter_file_robust w p :
  (forall e, w_file w p = Some (Raise e) -> is_exception e = true) ->
  (exists items, read_filter_file w p = Ok items) \/
  (exists text d v e, w_file w p = Some (Ok text) /\ loads text = Ok (VDict d) /\
     dget (u "filters") d = Some v /\ py_iter v = Raise e /\ exn_class e = TypeError /\
     read_filter_file w p = Raise e).
Proof.
  intros He. unfold read_filter_file. destruct (w_file w p) as [[text|e]|] eqn:Ef; cbn [rbind]; [| |eauto].
  2:{ rewrite He by done. eauto. }
  destruct (loads text) as [data|e] eqn:El.
  2:{ apply loads_fed in El. destruct e as [k m]. destruct k; try done; cbn; eauto. }
  destruct data as [| | | | | |d]; try (left; eexists; reflexivity).
  destruct (dget (u "filters") d) as [v|] eqn:Ed; cbn [default from_option]; [|left; eexists; reflexivity].
  unfold id. destruct v as [| | | |s|l|d'] eqn:Ev; cbn [py_iter rbind]; try (left; eexists; reflexivity);
    right; subst v; eexists text, d, _, _; split_and!; reflexivity || done.
Qed.

Lemma read_filter_file_robust_witness :
  (exists items, read_filter_file (quiet_world [(u "f", u "not json")] [] []) (u "f") = Ok items) \/
  (exists text d v e, w_file (quiet_world [(u "f", u "not json")] [] []) (u "f") = Some (Ok text) /\
     loads text = Ok (VDict d) /\ dget (u "filters") d = Some v /\ py_iter v = Raise e /\ exn_class e = TypeError /\
     read_filter_file (quiet_world [(u "f", u "not json")] [] []) (u "f") = Raise e).
Proof. apply read_filter_file_robust. intros e H. vm_compute in H. discriminate H. Defined.

(** ** Inputs that stop the analyzer *)

(** An existing filter file with [null] for a priority makes every pass raise
    [TypeError]: [sanitize_filter] calls [int(None)] outside any handler. *)
Example null_priority_stops_pass :
  (analyze_once (quiet_world [(u "runtime/filters.json", uq "{'filters': [{'id': 'a', 'priority': null, 'condition': {'path_exact': '/x'}}]}")] [] [])
     (sample_args 20)).2 =
  Raise (Exn TypeError (u "int() argument must be a string, a bytes-like object or a real number")).
Proof. vm_compute. reflexivity. Qed.

(** A filter file whose ["filters"] is [null] raises too: it is iterated outside the
    handler that protects decoding. *)
Example null_filters_stop_pass :
  (analyze_once (quiet_world [(u "runtime/filters.json", uq "{'filters': null}")] [] []) (sample_args 20)).2 =
  Raise (Exn TypeError (u "object is not iterable")).
Proof. vm_compute. reflexivity. Qed.

(** A sibling of the event log whose suffix is a digit but not a decimal digit
    (SUPERSCRIPT TWO) passes [isdigit] and makes [int] raise. *)
Example superscript_backup_stops_pass :
  exists msg, (analyze_once (quiet_world [] [] [u "attack_events.jsonl." ++ [178%N]]) (sample_args 20)).2 =
    Raise (Exn ValueError msg).
Proof. eexists. vm_compute. reflexivity. Qed.
